(* ===== verification/_CoqProject ===== *)
-Q . S2P
Prelude.v
Bitmap.v
Libc.v
Cpu.v
Kmalloc.v
Pagepool.v
Vm.v
Tlb.v
User.v
Space.v
Frames.v
Chain.v
Thread.v
Scheduler.v
Waiting.v
Sleepq.v
Semaphore.v
LockCond.v
Gbd.v
Sync.v
Disk.v
DiskTheorems.v
ThreadSys.v
Kthreads.v
Bytes.v
Elf.v
Tfs.v
Sfs.v
SfsVol.v
SfsPath.v
SfsFile.v
SfsTable.v
SfsRemove.v
SfsOps.v
SfsTheorems.v
SfsSync.v
Xprintf.v
Vfs.v
Mount.v
Process.v
Handles.v
Lifecycle.v
Syscall.v
Start.v
SyscallTheorems.v
Loading.v
Arguments.v
Starting.v
Heap.v
Dispatch.v
ElfTheorems.v
StartTheorems.v
Ring.v
Tty.v
TtyTheorems.v
Exceptions.v
