(* ===== verification/Prelude.v ===== *)
(** * BUENOS: a verification of the kernel's components

    BUENOS is a small multiprocessor operating system in C for a MIPS machine:
    threads and their synchronisation (src/kernel), virtual memory (src/vm),
    file systems (src/fs), processes and system calls (src/proc), devices
    (src/drivers), a network (src/net) and a small C library (src/lib).  This
    library translates its components into Rocq functions and proves what makes
    each of them correct, alone and composed with those it calls.

    ** How code becomes definitions

    A C function is a computation of the state monad [M] of this file over the
    state of its component; its result is a value or a [fault]: a panic or
    failed assertion, an undefined access, a wait the caller cannot leave by
    itself, fuel used up, the end of the process.  Integers are [Z] with the
    conversions [u32] and [i32] where the code converts, and [int] where it
    relies on the absence of overflow.  Arrays are lists read and written with
    [rget] and [rset], which are undefined out of range.  A pointer to an
    element of a table is its index, NULL is 0 or [None], other pointers are
    addresses.  Loops over an array recurse on the number of elements left;
    other loops have fuel, and the theorems say which fuel is enough: the
    number of entries of a table whose links form a list without repetition
    (Chain.v), the number of blocks of a file, 8193 for the bytes of a page.
    A function that switches to another thread is cut there, in the part
    before and a part [_resume] that runs when the scheduler chooses the thread
    again; interleavings are sequences of such steps.  What a component needs
    of another one is a class with its laws; the other one provides the
    instance.  Kernel messages (kprintf) are left out of the operations that
    print them.

    ** The files

    - Prelude.v: the monad, weakest preconditions ([wp], [wpk] where a process
      may be ended, [fails] for outcomes that are faults), frames ([keeps]),
      loops, arrays.
    - Cpu.v: kernel/_interrupt.S, kernel/_spinlock.S. [critical] is the bracket
      of the kernel's critical sections; [HasCpu] the states that contain a
      processor.
    - Bitmap.v: lib/bitmap.c.  Libc.v: lib/libc.c and drivers/polltty.c.
      Xprintf.v: lib/xprintf.c.
    - Kmalloc.v: kernel/kmalloc.c.  Pagepool.v: vm/pagepool.c.
      Vm.v: vm/vm.c, vm/pagetable.h.  Tlb.v: vm/tlb.c, vm/_tlb.S.
      Space.v: taking down an address space, over page tables, page pool and
      translation buffer at once.  User.v: proc/syscall_helpers.c.
    - Chain.v: lists linked through a table.  Thread.v: kernel/thread.c.
      Scheduler.v: kernel/scheduler.c.  Waiting.v: the class [SleepQueues], a
      queue of threads for every resource.  Sleepq.v: kernel/sleepq.c, which
      provides it.  Semaphore.v: kernel/semaphore.c.  LockCond.v:
      kernel/lock_cond.c.
    - Gbd.v: drivers/gbd.h, block devices as a class.  Sync.v: the class of
      semaphores that file systems use, provided by Semaphore.v.  Bytes.v: the
      words in a block.  Tfs.v: fs/tfs.c.  Vfs.v: fs/vfs.c and
      fs/filesystems.c over the class [FileSystems].  Mount.v: TFS provides
      that class; the theorems about volumes and handles.
    - Sfs.v: fs/sfs.c, the file system with directories.  SfsVol.v: rules for
      its steps on a mounted volume.  SfsPath.v: paths and their resolution.
      SfsFile.v: the blocks of a file.  SfsTable.v: the table of open files,
      reading and writing.  SfsRemove.v, SfsOps.v: opening, closing, removing.
      SfsTheorems.v: its theorems for one thread at a time.  SfsSync.v: the
      readers and writers of a file, any number of threads in any order.
    - Disk.v: drivers/disk.c and drivers/disksched.c over the class
      [DiskHardware], the registers of the disk.  DiskTheorems.v: the queue of
      requests that the driver implements, and a disk in memory.
    - ThreadSys.v: the classes [ThreadSys], [LoneLocks] and [OpenFiles], what
      processes and SFS use of the kernel.  Kthreads.v: lock_cond.c over the
      thread table provides the first two; Handles.v: vfs.c provides the third.
      Process.v:
      proc/process.c, proc/syscall_handler_proc.c and the closing of handles in
      proc/syscall_handler_fs.c.  Lifecycle.v: the theorems about processes,
      and two processes run over the components themselves.
    - Syscall.v: proc/syscall_handler_fs.c, over the classes [FileCalls] (the
      other calls of vfs.c, provided by Handles.v) and [Terminal].
      SyscallTheorems.v: its theorems, run by a process of Lifecycle.v.
    - Elf.v: proc/elf.c over [FileCalls], and what the headers of a file say.
      ElfTheorems.v: its theorem, and a program.  Frames.v: frames that go into
      a page table and come back.  Start.v: starting a process, the rest of
      proc/process.c.  Loading.v: the image of a program in memory.
      Arguments.v: the arguments on the stack.  Starting.v: a whole start, from
      the claim of an entry to the program or back.  StartTheorems.v: the
      theorems.
    - Ring.v: ring buffers.  Tty.v: drivers/tty.c, over the class
      [TtyHardware], the registers of a terminal.  TtyTheorems.v: its theorems;
      the driver provides the class [Terminal] of the system calls.
    - Heap.v: the end of the heap, [syscall_handle_memlimit].  Dispatch.v:
      proc/syscall.c and [syscall_handle_execp], with their theorems.
      Exceptions.v: kernel/exception.c and proc/exception.c, what every
      exception does to the thread that caused it.

    ** What the theorems show

    - Synchronisation: in every reachable interleaving a lock has at most one
      holder and hands over to exactly the thread it woke, a semaphore lets as
      many through as it has permits, the sleep queue is one first-in first-out
      queue per resource, the ready list is ordered by priority and first come
      first served among equals, timed sleepers are ordered by time.
    - Memory: no page is handed out twice; kmalloc's blocks are disjoint; a page
      table is a finite map that vm_map, vm_unmap and vm_set_dirty update at
      one page; the translation buffer is refilled from it and stays coherent;
      an address space that is taken down gives back exactly its frames.
    - File systems: reading a file gives the bytes written, through TFS and
      through handles of the virtual file system; other files keep theirs; a
      volume is unmounted only while no file is open on it; bad arguments are
      answered with an error and nothing changed.  Resolving a path of SFS is
      the walk over its directories; its readers and writers exclude each other
      and none waits for ever; a file removed while it is open can be read until
      it is closed, and gives back exactly its blocks then.
    - Disk: requests are served first come, first served, whatever the order of
      submissions, ends of transfers and interrupts, and all are answered; a
      call that waits answers when its sector has been read or written.
    - Terminal: what is written is shown in order, what is typed is read in
      order, nobody waits without reason, and output goes on until all is shown,
      whatever the order of interrupts, writers and readers.
    - Processes: an entry of the table goes to one process; exit closes the
      files, frees the memory, orphans the children and leaves its status to
      the parent's join, before or after which it may happen; strings and data
      copied from and to a process are what its pages hold, and the copying
      terminates.
    - Exceptions: a load or store that the page table allows is tried again and
      then translated; every other one ends the process, which exits with a
      status that names the exception.
    - System calls: data goes between the memory of a process and its open
      files as it is, in pieces of any number; a process cannot use the files
      of another one.  A call leaves the registers of the process but v0 and
      the program counter; execp hands the new program the strings of the
      caller; memlimit refuses, or maps the pages up to the new end of the
      heap or gives back those behind it; the heap of a process whose own end is
      the one kept stays mapped in whole while its page table has room.
    - Programs: the header parser accepts exactly the executables of this
      machine among the files with headers of the standard size, and what it
      does with the others is stated too; a program that is loaded finds its segments in its memory, the
      read-only one protected, zeros behind them, and its arguments on the
      stack; the frames taken are those of its page table.  A start succeeds
      exactly when the program can be loaded and the page pool has the frames;
      when it fails, the entry, the frames, the file and the locks are given
      back, and only the parent's [last_child_pid] names the entry still.
      Loading assumes that the segments of an executable begin at page
      boundaries and lie apart.
    - Library: memcopy is the byte loop, atoi and snprintf are inverse, the
      output of snprintf stays in its buffer for the formats [conv_output]
      gives a text (not for negative numbers with a sign flag, whose second sign
      goes past it), and so on.

    Where the code does not do what it means to, the theorem states what it
    does: the exit that never ends ([Lifecycle.exit_after_second_child_hangs]),
    the shutdown that waits for ever ([Mount.vfs_deinit_waits]), names that are
    compared before they are cut ([Mount.vfs_mount_correct]), the semaphore that
    a failed write leaves behind ([SfsTheorems.write_vblock_correct]),
    the end of the heap that all processes share
    ([Heap.memlimit_foreign_offset]), and the examples beside the definitions.

    ** Not modelled

    Assembly that saves whole contexts (cswitch.S, _boot.S, idle.S), the
    dispatch of interrupts to the drivers (interrupt.c), and the network and its
    interface; the polling terminal is its characters typed and written.  File
    systems use the class of Gbd.v: it asks for calls that return with the block
    read, which Disk.v shows of one caller at a time, the wait cut at
    semaphore_P and the interrupt in between.  The host tool util/tfstool.c and
    the test programs are not part of the kernel.  Creating a file of SFS and mounting an SFS volume are
    modelled and not proved correct.  The locks of processes and the semaphores of the
    file system each run over a kernel of their own in Lifecycle.v: they share
    no resource, but the model does not put them on one thread table. *)

From stdpp Require Export base list numbers option gmap.
From Stdlib Require Export ZArith Lia.

#[global] Open Scope Z_scope.

(** ** Machine integers

    [uint32_t] is a [Z] in [0, 2^32), [int] is a [Z] in [-2^31, 2^31); [u32]
    and [i32] are the conversions to the two types. *)
Definition u32 (x : Z) : Z := x mod 4294967296.
Definition i32 (x : Z) : Z := (x + 2147483648) mod 4294967296 - 2147483648.

Definition is_u32 (x : Z) : Prop := 0 <= x < 4294967296.
Definition is_i32 (x : Z) : Prop := -2147483648 <= x < 2147483648.
Definition is_byte (x : Z) : Prop := 0 <= x < 256.

(** ** Outcomes

    What executing C code can end with besides a value: a kernel panic or
    failed [KERNEL_ASSERT], an access the C standard leaves undefined (an
    index outside its array, a NULL pointer), a wait that the calling thread
    cannot leave by itself, a loop that has used its fuel, and the end of the
    running process in an exception handler, which does not come back. *)
Inductive fault := Panic | Undef | Blocked | Timeout | Killed.

Inductive res (A : Type) :=
| Ret (a : A)
| Fail (f : fault).
Arguments Ret {A} a.
Arguments Fail {A} f.

#[export] Instance fault_eq_dec : EqDecision fault.
Proof. solve_decision. Defined.

#[export] Instance res_ret : MRet res := fun A a => Ret a.
#[export] Instance res_bind : MBind res := fun A B k m =>
  match m with Ret a => k a | Fail f => Fail f end.

(** Results of [int] arithmetic; the C standard leaves overflow undefined. *)
Definition int (x : Z) : res Z := if decide (is_i32 x) then Ret x else Fail Undef.

(** State-passing computations over a state type [S]. *)
Definition M (S A : Type) : Type := S -> res (A * S).

#[export] Instance M_ret {S} : MRet (M S) := fun A a s => Ret (a, s).
#[export] Instance M_bind {S} : MBind (M S) := fun A B k m s =>
  match m s with Ret (a, s') => k a s' | Fail f => Fail f end.

Definition fail {S A} (f : fault) : M S A := fun _ => Fail f.
Definition gets {S A} (f : S -> A) : M S A := fun s => Ret (f s, s).
Definition modify {S} (f : S -> S) : M S unit := fun s => Ret (tt, f s).
Definition lift {S A} (r : res A) : M S A := fun s =>
  match r with Ret a => Ret (a, s) | Fail f => Fail f end.
(** [KERNEL_ASSERT(b)] and [KERNEL_PANIC]. *)
Definition kassert {S} (b : bool) : M S unit :=
  if b then mret tt else fail Panic.
Definition kpanic {S A} : M S A := fail Panic.

(** Run the body until it answers [inr]; [inl] is the next loop state. *)
Fixpoint loop {S A B} (fuel : nat) (body : A -> M S (A + B)) (a : A) : M S B :=
  match fuel with
  | O => fail Timeout
  | Datatypes.S n => r ← body a; match r with inl a' => loop n body a' | inr b => mret b end
  end.

(** ** C arrays: lists indexed by a C integer *)
Abbreviation zlen l := (Z.of_nat (length l)).
Declare Scope buenos_scope.
Delimit Scope buenos_scope with buenos.
(** The element at a position that is in range. *)
Notation "l !# i" := (l !!! Z.to_nat i) (at level 20) : buenos_scope.
Definition aget {A} (l : list A) (i : Z) : option A :=
  if decide (0 <= i) then l !! Z.to_nat i else None.
Definition rget {A} (l : list A) (i : Z) : res A :=
  match aget l i with Some x => Ret x | None => Fail Undef end.
Definition rset {A} (l : list A) (i : Z) (x : A) : res (list A) :=
  if decide (0 <= i < zlen l) then Ret (<[Z.to_nat i := x]> l) else Fail Undef.

(** [xs] written over the elements of [l] from position [i] on. *)
Definition splice {A} (l : list A) (i : nat) (xs : list A) : list A :=
  take i l ++ xs ++ drop (i + length xs) l.
(** The [n] elements from position [i] on. *)
Definition slice {A} (l : list A) (i n : nat) : list A := take n (drop i l).

(** ** Weakest preconditions *)
Definition wp {S A} (m : M S A) (Q : A -> S -> Prop) (s : S) : Prop :=
  match m s with Ret (a, s') => Q a s' | Fail _ => False end.

(** The same, where the process may also be ended, provided [K]. *)
Definition wpk {S A} (K : Prop) (m : M S A) (Q : A -> S -> Prop) (s : S) : Prop :=
  match m s with Ret (a, s') => Q a s' | Fail Killed => K | Fail _ => False end.

(** ** Tactics *)
(** Split conjunctions and existentials among the hypotheses. *)
Ltac destruct_and_ex :=
  repeat match goal with
  | H : _ ∧ _ |- _ => destruct H
  | H : ∃ x, _ |- _ => let x' := fresh x in destruct H as [x' H]
  end.
(** Replace every [Z] comparison test by the inequality it decides. *)
Ltac zbool :=
  repeat match goal with
  | H : (_ && _)%bool = true |- _ => apply andb_prop in H; destruct H
  | H : (_ || _)%bool = false |- _ => apply orb_false_elim in H; destruct H
  | H : negb _ = true |- _ => apply negb_true_iff in H
  | H : negb _ = false |- _ => apply negb_false_iff in H
  | H : (_ <? _) = true |- _ => apply Z.ltb_lt in H
  | H : (_ <? _) = false |- _ => apply Z.ltb_ge in H
  | H : (_ <=? _) = true |- _ => apply Z.leb_le in H
  | H : (_ <=? _) = false |- _ => apply Z.leb_gt in H
  | H : (_ =? _) = true |- _ => apply Z.eqb_eq in H
  | H : (_ =? _) = false |- _ => apply Z.eqb_neq in H
  end.
(** Case on the innermost test of a conditional in the goal. *)
Ltac case_bool :=
  match goal with
  | |- context [if ?b then _ else _] =>
      lazymatch b with context [if _ then _ else _] => fail | _ => idtac end;
      lazymatch type of b with
      | bool => let E := fresh "E" in destruct b eqn:E
      | _ => destruct b
      end
  end; zbool.

(** Conjunctions whose parts are at hand, possibly as conjunctions. *)
Ltac split_done := repeat first [done | split].

(** Concrete comparisons and equations, by evaluation. *)
Ltac vm_check := repeat split; vm_compute; first [reflexivity | discriminate | congruence].

(** The development's hints: well-formedness preserved by updates, and the
    rules for the simplest computations. *)
Create HintDb buenos.
Create HintDb keeps.

(** ** Facts *)
Section wp_facts.
Context {S A B : Type}.
Implicit Types (Q : A -> S -> Prop) (s : S).

Lemma wp_ret (a : A) Q s : Q a s -> wp (mret a) Q s.
Proof. done. Qed.

Lemma wp_bind (m : M S B) (k : B -> M S A) Q s :
  wp m (fun b s' => wp (k b) Q s') s -> wp (m ≫= k) Q s.
Proof.
  unfold wp, mbind, M_bind. destruct (m s) as [[b s']|f]; done.
Qed.

Lemma wp_mono (m : M S A) (Q Q' : A -> S -> Prop) s :
  wp m Q s -> (forall a s', Q a s' -> Q' a s') -> wp m Q' s.
Proof. unfold wp. destruct (m s) as [[a s']|f]; auto. Qed.

Lemma wp_and (m : M S A) (Q Q' : A -> S -> Prop) s : wp m Q s -> wp m Q' s -> wp m (fun a s' => Q a s' /\ Q' a s') s.
Proof. unfold wp. destruct (m s) as [[]|]; [by split|done]. Qed.

Lemma wp_run (m : M S A) Q s :
  wp m Q s <-> exists a s', m s = Ret (a, s') /\ Q a s'.
Proof.
  unfold wp. destruct (m s) as [[a s']|f]; split.
  - eauto.
  - intros (? & ? & [= <- <-] & ?); done.
  - done.
  - intros (? & ? & ? & _); done.
Qed.

Lemma wp_eq (m : M S A) Q s a s' :
  m s = Ret (a, s') -> Q a s' -> wp m Q s.
Proof. unfold wp. intros ->. done. Qed.

Lemma bind_run (m : M S B) (k : B -> M S A) s b s' :
  m s = Ret (b, s') -> (m ≫= k) s = k b s'.
Proof. unfold mbind, M_bind. intros ->. done. Qed.

Lemma bind_inv (m : M S B) (k : B -> M S A) s a s' :
  (m ≫= k) s = Ret (a, s') -> exists b s1, m s = Ret (b, s1) /\ k b s1 = Ret (a, s').
Proof. unfold mbind, M_bind. destruct (m s) as [[b s1]|f]; [eauto | done]. Qed.

(** Computations that end in the fault [f]. *)
Definition fails (f : fault) (m : M S A) s : Prop := m s = Fail f.

Lemma fails_bind f (m : M S B) (k : B -> M S A) s :
  wp m (fun b s' => fails f (k b) s') s -> fails f (m ≫= k) s.
Proof. unfold wp, fails, mbind, M_bind. by destruct (m s) as [[b s']|]. Qed.

Lemma fails_not_ret f (m : M S A) s a s' : fails f m s -> m s <> Ret (a, s').
Proof. unfold fails. congruence. Qed.
End wp_facts.

Lemma fails_bind_l {S A B} f (m : M S B) (k : B -> M S A) s : fails f m s -> fails f (m ≫= k) s.
Proof. unfold fails, mbind, M_bind. by intros ->. Qed.

Lemma fails_kassert {S} (b : bool) (s : S) : b = false -> fails Panic (kassert b) s.
Proof. by intros ->. Qed.

Lemma wp_kassert {S} (b : bool) (Q : unit -> S -> Prop) s :
  b = true -> Q tt s -> wp (kassert b) Q s.
Proof. intros -> ?. done. Qed.

Lemma wp_gets {S A} (f : S -> A) (Q : A -> S -> Prop) s :
  Q (f s) s -> wp (gets f) Q s.
Proof. done. Qed.

Lemma wp_modify {S} (f : S -> S) (Q : unit -> S -> Prop) s :
  Q tt (f s) -> wp (modify f) Q s.
Proof. done. Qed.

Lemma wp_lift {S A} (r : res A) (Q : A -> S -> Prop) s a :
  r = Ret a -> Q a s -> wp (lift r) Q s.
Proof. intros -> ?. done. Qed.

Lemma res_bind_inv {A B} (r : res A) (k : A -> res B) b :
  r ≫= k = Ret b -> exists a, r = Ret a /\ k a = Ret b.
Proof. destruct r; [eauto | done]. Qed.

(** ** Frames

    [m] leaves the part [f] of the state alone. *)
Definition keeps {S A B} (f : S -> B) (m : M S A) : Prop := forall s a s', m s = Ret (a, s') -> f s' = f s.

Section keeps.
Context {S B : Type} (f : S -> B).

Lemma keeps_wp {A} (m : M S A) (Q : A -> S -> Prop) s :
  keeps f m -> wp m Q s -> wp m (fun a s' => Q a s' /\ f s' = f s) s.
Proof. intros Hf. unfold wp. destruct (m s) as [[a s']|] eqn:E; [|done]. by eauto. Qed.
Lemma keeps_ret {A} (a : A) : keeps f (mret a).
Proof. by intros s b s' [= _ <-]. Qed.
Lemma keeps_bind {A C} (m : M S A) (k : A -> M S C) : keeps f m -> (forall a, keeps f (k a)) -> keeps f (m ≫= k).
Proof. intros Hm Hk s c s' (a & s1 & H1 & H2)%bind_inv. rewrite (Hk a _ _ _ H2). by apply (Hm s a). Qed.
Lemma keeps_fail {A} e : keeps f (fail (A := A) e).
Proof. done. Qed.
Lemma keeps_kassert b : keeps f (kassert b).
Proof. destruct b; [apply keeps_ret|done]. Qed.
Lemma keeps_gets {A} (g : S -> A) : keeps f (gets g).
Proof. by intros s b s' [= _ <-]. Qed.
Lemma keeps_modify (g : S -> S) : (forall s, f (g s) = f s) -> keeps f (modify g).
Proof. intros Hg s b s' [= _ <-]. apply Hg. Qed.
Lemma keeps_lift {A} (r : res A) : keeps f (lift r).
Proof. intros s a s'. unfold lift. destruct r; [|done]. by intros [= _ <-]. Qed.
End keeps.
#[export] Hint Resolve keeps_ret keeps_fail keeps_kassert keeps_gets keeps_lift : keeps.
(** Frames of straight-line code and its conditionals. *)
Ltac keeps :=
  repeat first
    [ solve [eauto with keeps]
    | apply keeps_bind; [|intros ?]
    | match goal with
      | |- keeps _ (if ?b then _ else _) => destruct b
      | |- keeps _ (match ?p with (_, _) => _ end) => destruct p
      end ].

(** ** Loops *)
Section loop_facts.
Context {S A B : Type}.
Implicit Types (body : A -> M S (A + B)) (s : S).

(** A loop whose body keeps an invariant and decreases a measure ends: fuel
    above the measure is enough, and the result is as the last round leaves
    it. *)
Lemma wpk_loop K body (I : A -> S -> Prop) (variant : A -> nat) (Q : B -> S -> Prop) :
  (forall a s, I a s -> wpk K (body a) (fun r s' =>
     match r with inl a' => I a' s' /\ (variant a' < variant a)%nat | inr b => Q b s' end) s) ->
  forall fuel a s, (variant a < fuel)%nat -> I a s -> wpk K (loop fuel body a) Q s.
Proof.
  intros Hbody. induction fuel as [|fuel IH]; intros a s Hfuel HI; [lia|].
  specialize (Hbody a s HI). unfold wpk in *. cbn [loop]. unfold mbind, M_bind.
  destruct (body a s) as [[[a'|b] s']|f]; [|exact Hbody|exact Hbody].
  destruct Hbody as [HI' Hlt]. apply IH; [lia|done].
Qed.

(** A body that comes back to an invariant on every round never ends. *)
Lemma loop_never_ends body (I : A -> S -> Prop) :
  (forall a s, I a s -> exists a' s', body a s = Ret (inl a', s') /\ I a' s') ->
  forall fuel a s, I a s -> fails Timeout (loop fuel body a) s.
Proof.
  intros Hbody. induction fuel as [|fuel IH]; intros a s HI; [done|].
  destruct (Hbody a s HI) as (a' & s' & Hrun & HI'). unfold fails. cbn [loop]. rewrite (bind_run _ _ _ _ _ Hrun).
  by apply IH.
Qed.

Lemma wpk_bind {C} K (m : M S C) (k : C -> M S A) Q s :
  wpk K m (fun c s' => wpk K (k c) Q s') s -> wpk K (m ≫= k) Q s.
Proof. unfold wpk, mbind, M_bind. by destruct (m s) as [[c s']|[]]. Qed.

Lemma wpk_weaken (K K' : Prop) (m : M S A) Q s : wpk K m Q s -> (K -> K') -> wpk K' m Q s.
Proof. unfold wpk. destruct (m s) as [[a s']|[]]; auto. Qed.

Lemma wp_wpk_False (m : M S A) Q s : wpk False m Q s -> wp m Q s.
Proof. unfold wpk, wp. by destruct (m s) as [[a s']|[]]. Qed.

Lemma wpk_ret K (a : A) Q s : Q a s -> wpk K (mret a) Q s.
Proof. done. Qed.

Lemma wpk_mono K (m : M S A) (Q Q' : A -> S -> Prop) s :
  wpk K m Q s -> (forall a s', Q a s' -> Q' a s') -> wpk K m Q' s.
Proof. unfold wpk. destruct (m s) as [[a s']|[]]; auto. Qed.
End loop_facts.

Lemma u32_id x : is_u32 x -> u32 x = x.
Proof. unfold is_u32, u32. intros. apply Z.mod_small. lia. Qed.
Lemma u32_range x : is_u32 (u32 x).
Proof. unfold is_u32, u32. apply Z.mod_pos_bound. lia. Qed.
Lemma i32_id x : is_i32 x -> i32 x = x.
Proof. unfold is_i32, i32. intros. rewrite Z.mod_small; lia. Qed.
Lemma i32_range x : is_i32 (i32 x).
Proof.
  unfold is_i32, i32.
  pose proof (Z.mod_pos_bound (x + 2147483648) 4294967296 ltac:(lia)). lia.
Qed.

Lemma aget_Some {A} (l : list A) i x :
  aget l i = Some x <-> 0 <= i /\ l !! Z.to_nat i = Some x.
Proof. unfold aget. case_decide; split; intros; destruct_and_ex; done || (split; done || lia). Qed.

Lemma rget_Ret {A} (l : list A) i x :
  rget l i = Ret x <-> 0 <= i /\ l !! Z.to_nat i = Some x.
Proof.
  unfold rget. rewrite <- aget_Some. destruct (aget l i); split; congruence.
Qed.

Lemma rget_in {A} (l : list A) i :
  0 <= i < zlen l -> exists x, rget l i = Ret x /\ l !! Z.to_nat i = Some x.
Proof.
  intros Hi. destruct (lookup_lt_is_Some_2 l (Z.to_nat i)) as [x Hx]; [lia|].
  exists x. split; [|done]. apply rget_Ret. split; [lia|done].
Qed.

Lemma rset_in {A} (l : list A) i x :
  0 <= i < zlen l -> rset l i x = Ret (<[Z.to_nat i := x]> l).
Proof. intros. unfold rset. by rewrite decide_True. Qed.

Lemma testbit_above w n i : 0 <= w < 2 ^ n -> n <= i -> Z.testbit w i = false.
Proof.
  intros [Hw1 Hw2] Hi. destruct (decide (0 <= n)) as [Hn|Hn].
  - destruct (decide (w = 0)) as [->|Hw]; [apply Z.bits_0|].
    apply Z.bits_above_log2; [lia|].
    assert (Z.log2 w < n) by (apply Z.log2_lt_pow2; lia). lia.
  - rewrite Z.pow_neg_r in Hw2; lia.
Qed.

(** A number below [2^n] all of whose low [n] bits are set is [2^n - 1]. *)
Lemma all_ones w n :
  0 <= n -> 0 <= w < 2 ^ n -> (forall i, 0 <= i < n -> Z.testbit w i = true) -> w = 2 ^ n - 1.
Proof.
  intros Hn Hw H.
  replace (2 ^ n - 1) with (Z.ones n) by (rewrite Z.ones_equiv; lia).
  apply Z.bits_inj'. intros i Hi.
  destruct (decide (i < n)).
  - rewrite H, Z.ones_spec_low by lia. done.
  - rewrite (testbit_above w n), Z.ones_spec_high by lia. done.
Qed.

(** ** Writing and reading runs of elements *)
Section splice.
Context {A : Type}.
Implicit Types (l xs : list A) (i n : nat).

Lemma splice_nil l i : splice l i [] = l.
Proof. unfold splice. cbn. rewrite Nat.add_0_r. apply take_drop. Qed.

Lemma splice_cons l i x xs :
  (i < length l)%nat -> splice l i (x :: xs) = splice (<[i:=x]> l) (S i) xs.
Proof.
  intros Hi. unfold splice. rewrite (take_S_r _ _ x) by (by apply list_lookup_insert_eq).
  rewrite take_insert_ge, drop_insert_lt by lia. rewrite <- app_assoc. cbn.
  do 3 f_equal. f_equal. lia.
Qed.

Lemma length_splice l i xs : (i + length xs <= length l)%nat -> length (splice l i xs) = length l.
Proof. intros. unfold splice. rewrite !length_app, length_take, length_drop. lia. Qed.

Lemma lookup_splice l i xs k :
  (i + length xs <= length l)%nat ->
  splice l i xs !! k = if decide (i <= k < i + length xs)%nat then xs !! (k - i)%nat else l !! k.
Proof.
  intros H. unfold splice. case_decide.
  - rewrite lookup_app_r by (rewrite length_take; lia). rewrite length_take.
    replace (i `min` length l)%nat with i by lia. by rewrite lookup_app_l by lia.
  - destruct (decide (k < i)%nat).
    + rewrite lookup_app_l by (rewrite length_take; lia). by apply lookup_take_lt.
    + rewrite lookup_app_r by (rewrite length_take; lia). rewrite length_take.
      rewrite lookup_app_r by lia. rewrite lookup_drop. f_equal. lia.
Qed.

Lemma length_slice l i n : (i + n <= length l)%nat -> length (slice l i n) = n.
Proof. intros. unfold slice. rewrite length_take, length_drop. lia. Qed.

Lemma lookup_slice l i n k :
  slice l i n !! k = if decide (k < n)%nat then l !! (i + k)%nat else None.
Proof.
  unfold slice. case_decide.
  - rewrite lookup_take_lt by done. apply lookup_drop.
  - apply lookup_take_ge. lia.
Qed.

Lemma slice_S l i n x : l !! i = Some x -> slice l i (S n) = x :: slice l (S i) n.
Proof. intros H. unfold slice. by rewrite (drop_S _ _ _ H). Qed.

Lemma slice_splice_eq l i xs : (i + length xs <= length l)%nat -> slice (splice l i xs) i (length xs) = xs.
Proof.
  intros. apply list_eq. intros k. rewrite lookup_slice. case_decide.
  - rewrite lookup_splice by lia. rewrite decide_True by lia. f_equal. lia.
  - symmetry. apply lookup_ge_None. lia.
Qed.

Lemma slice_splice_ne l i xs j n :
  (i + length xs <= length l)%nat -> (j + n <= i \/ i + length xs <= j)%nat ->
  slice (splice l i xs) j n = slice l j n.
Proof.
  intros. apply list_eq. intros k. rewrite !lookup_slice. case_decide; [|done].
  rewrite lookup_splice by lia. rewrite decide_False by lia. done.
Qed.

Lemma slice_app_slice l i n m : slice l i n ++ slice l (i + n) m = slice l i (n + m).
Proof. unfold slice. rewrite <- (take_take_drop (drop i l) n m), drop_drop. done. Qed.

Lemma splice_splice_app l i xs ys :
  (i + length xs + length ys <= length l)%nat -> splice (splice l i xs) (i + length xs) ys = splice l i (xs ++ ys).
Proof.
  intros H. apply list_eq. intros k. rewrite !lookup_splice by (rewrite ?length_splice, ?length_app; lia).
  rewrite length_app. repeat case_decide; try lia; try done.
  - rewrite lookup_app_r by lia. f_equal. lia.
  - rewrite lookup_app_l by lia. done.
Qed.

Lemma rset_append l xs x :
  zlen xs < zlen l -> rset (splice l 0 xs) (zlen xs) x = Ret (splice l 0 (xs ++ [x])).
Proof.
  intros H. rewrite rset_in by (rewrite length_splice; lia). f_equal. rewrite Nat2Z.id.
  rewrite <- (splice_splice_app l 0 xs [x]) by (cbn; lia).
  rewrite splice_cons, splice_nil by (rewrite length_splice; lia). done.
Qed.

Lemma splice_whole l xs : length xs = length l -> splice l 0 xs = xs.
Proof. intros H. unfold splice. rewrite take_0, drop_ge by lia. by rewrite app_nil_r. Qed.

Lemma take_splice l i xs n : (i + length xs <= n)%nat -> (n <= length l)%nat -> take n (splice l i xs) = splice (take n l) i xs.
Proof.
  intros H Hn. apply list_eq. intros k. destruct (decide (k < n)%nat).
  - rewrite lookup_take_lt by done. rewrite !lookup_splice by (rewrite ?length_take; lia).
    case_decide; [done|]. by rewrite lookup_take_lt.
  - rewrite lookup_take_ge by lia. symmetry. apply lookup_ge_None. rewrite length_splice; rewrite length_take; lia.
Qed.

Lemma slice_take l i n m : (i + n <= m)%nat -> slice (take m l) i n = slice l i n.
Proof.
  intros H. apply list_eq. intros k. rewrite !lookup_slice. case_decide; [|done]. by rewrite lookup_take_lt by lia.
Qed.
End splice.

(** ** Searching a table *)

(** [for (i = 0; i < n; i++) if (p(l[i])) break;] *)
Fixpoint scan {A} (n : nat) (i : Z) (p : A -> res bool) (l : list A) : res Z :=
  match n with
  | O => Ret i
  | S n => x ← rget l i; b ← p x; if b : bool then Ret i else scan n (i + 1) p l
  end.

Lemma scan_run {A} n i (p : A -> res bool) (g : A -> bool) (l : list A) :
  0 <= i -> i + Z.of_nat n <= zlen l -> Forall (fun x => p x = Ret (g x)) l ->
  exists k, scan n i p l = Ret k /\ i <= k <= i + Z.of_nat n /\
    (forall j x, i <= j < k -> l !! Z.to_nat j = Some x -> g x = false) /\
    (k < i + Z.of_nat n -> exists x, l !! Z.to_nat k = Some x /\ g x = true).
Proof.
  intros Hi Hn Hp. revert i Hi Hn. induction n as [|n IH]; intros i Hi Hn; cbn [scan].
  { exists i. split; [done|]. split; [lia|]. split; [intros; lia|lia]. }
  destruct (rget_in l i) as (x & -> & Hx); [lia|]. unfold mbind, res_bind.
  rewrite (proj1 (Forall_lookup _ _) Hp _ _ Hx). destruct (g x) eqn:Hg.
  { exists i. split; [done|]. split; [lia|]. split; [intros; lia|]. intros _. by exists x. }
  destruct (IH (i + 1)) as (k & -> & Hk & Hbefore & Hat); [lia|lia|]. exists k. split; [done|]. split; [lia|]. split.
  - intros j y Hj Hy. destruct (decide (j = i)) as [->|]; [congruence|]. apply (Hbefore j); [lia|done].
  - intros Hlt. apply Hat. lia.
Qed.

(** Over the whole table: the index of the first row, or the size. *)
Definition first_index {A} (g : A -> bool) (l : list A) (k : Z) : Prop :=
  0 <= k <= zlen l /\ (forall j x, 0 <= j < k -> l !! Z.to_nat j = Some x -> g x = false) /\
  (k < zlen l -> exists x, l !! Z.to_nat k = Some x /\ g x = true).

Lemma scan_first {A} n (p : A -> res bool) (g : A -> bool) (l : list A) :
  zlen l = Z.of_nat n -> Forall (fun x => p x = Ret (g x)) l -> exists k, scan n 0 p l = Ret k /\ first_index g l k.
Proof.
  intros Hn Hp. destruct (scan_run n 0 p g l ltac:(lia) ltac:(lia) Hp) as (k & Hk & Hr & Hb & Ha). exists k. split; [done|].
  split; [lia|]. split; [done|]. intros Hlt. apply Ha. lia.
Qed.

Lemma first_index_none {A} (g : A -> bool) l k : first_index g l k -> zlen l <= k -> Forall (fun x => g x = false) l.
Proof.
  intros (_ & Hb & _) Hk. apply Forall_lookup. intros j x Hx. apply (Hb (Z.of_nat j)); [|by rewrite Nat2Z.id].
  apply lookup_lt_Some in Hx. lia.
Qed.

(** ** The return values of the virtual file system (fs/vfs.h) *)
Definition VFS_OK : Z := 0.
Definition VFS_ERROR : Z := -2.
Definition VFS_NOT_FOUND : Z := -5.
Definition VFS_INVALID_PARAMS : Z := -3.
Definition VFS_NO_SUCH_FS : Z := -6.
Definition VFS_LIMIT : Z := -7.
Definition VFS_IN_USE : Z := -8.
Definition VFS_UNUSABLE : Z := -9.
Definition VFS_NOT_OPEN : Z := -4.
