(* ===== verification/Bitmap.v ===== *)
(** * lib/bitmap.c: bitmaps of 32-bit words

    A [bitmap_t *] is the list of its words.  The page pool and the two
    filesystems allocate through [bitmap_findnset]; their theorems use the
    abstract view [bit], the value of one position. *)
From S2P Require Import Prelude.

(** ** The code *)

(** [bitmap_sizeof]: bytes needed for [num_bits] bits; the division is C's,
    which truncates towards zero. *)
Definition bitmap_sizeof (num_bits : Z) : Z := Z.quot (num_bits + 31) 32 * 4.

(** [bitmap_init]: zero the first [(size + 31) / 32] words. *)
Fixpoint bitmap_init_loop (n : nat) (i : Z) (bitmap : list Z) : res (list Z) :=
  match n with
  | O => Ret bitmap
  | S n => b ← rset bitmap i 0; bitmap_init_loop n (i + 1) b
  end.
Definition bitmap_init (bitmap : list Z) (size : Z) : res (list Z) :=
  if size >=? 0
  then bitmap_init_loop (Z.to_nat (Z.quot (size + 31) 32)) 0 bitmap
  else Fail Panic.

Definition bitmap_get (bitmap : list Z) (pos : Z) : res Z :=
  if pos >=? 0 then
    let i := pos / 32 in
    let j := pos mod 32 in
    w ← rget bitmap i;
    Ret (Z.land (Z.shiftr w j) 1)
  else Fail Panic.

Definition bitmap_set (bitmap : list Z) (pos value : Z) : res (list Z) :=
  if pos >=? 0 then
    let i := pos / 32 in
    let j := pos mod 32 in
    if value =? 0 then
      w ← rget bitmap i;
      rset bitmap i (Z.land w (u32 (Z.lnot (Z.shiftl 1 j))))
    else if value =? 1 then
      w ← rget bitmap i;
      rset bitmap i (Z.lor w (u32 (Z.shiftl 1 j)))
    else Fail Panic
  else Fail Panic.

(** [bitmap_findnset], the inner loop over the bits of word [i]: [None] when
    it falls through to the next word. [n] counts the iterations left. *)
Fixpoint findnset_bits (n : nat) (bitmap : list Z) (l basepos j : Z) : res (option (list Z * Z)) :=
  match n with
  | O => Ret None
  | S n =>
      b ← bitmap_get bitmap (basepos + j);
      if b =? 0 then
        if basepos + j >=? l then Ret (Some (bitmap, -1))
        else
          bitmap' ← bitmap_set bitmap (basepos + j) 1;
          Ret (Some (bitmap', basepos + j))
      else findnset_bits n bitmap l basepos (j + 1)
  end.
(** The outer loop over the words. *)
Fixpoint findnset_words (n : nat) (bitmap : list Z) (l i : Z) : res (list Z * Z) :=
  match n with
  | O => Ret (bitmap, -1)
  | S n =>
      w ← rget bitmap i;
      if negb (w =? 0xffffffff) then
        r ← findnset_bits 32 bitmap l (i * 32) 0;
        match r with
        | Some r => Ret r
        | None => findnset_words n bitmap l (i + 1)
        end
      else findnset_words n bitmap l (i + 1)
  end.
Definition bitmap_findnset (bitmap : list Z) (l : Z) : res (list Z * Z) :=
  if l >=? 0
  then findnset_words (Z.to_nat (Z.quot (bitmap_sizeof l) 4)) bitmap l 0
  else Fail Panic.

(** ** The abstract view *)

(** Every word is a [uint32_t]. *)
Definition words_ok (bitmap : list Z) : Prop := Forall is_u32 bitmap.
Definition bits (bitmap : list Z) : Z := 32 * zlen bitmap.
Definition bit (bitmap : list Z) (pos : Z) : bool :=
  Z.testbit (default 0 (bitmap !! Z.to_nat (pos / 32))) (pos mod 32).

(** Number of clear bits below [n]. *)
Fixpoint clears (bitmap : list Z) (n : nat) : Z :=
  match n with
  | O => 0
  | S n => clears bitmap n + Z.b2z (negb (bit bitmap (Z.of_nat n)))
  end.

(** [updates_bit b b' p v]: [b'] is [b] with position [p] set to [v]. *)
Definition updates_bit (b b' : list Z) (p : Z) (v : bool) : Prop :=
  length b' = length b /\ words_ok b' /\
  forall q, 0 <= q < bits b -> bit b' q = if q =? p then v else bit b q.

(** ** Single bits *)

Lemma word_index (bitmap : list Z) pos :
  0 <= pos < bits bitmap -> 0 <= pos / 32 < zlen bitmap.
Proof. unfold bits. intros. pose proof (Z.div_mod pos 32). pose proof (Z.mod_pos_bound pos 32). lia. Qed.

Lemma bitmap_get_bit bitmap pos :
  0 <= pos < bits bitmap -> bitmap_get bitmap pos = Ret (Z.b2z (bit bitmap pos)).
Proof.
  intros Hpos. unfold bitmap_get, bit. rewrite Z.geb_leb.
  destruct (Z.leb_spec 0 pos); [|lia].
  destruct (rget_in bitmap (pos / 32)) as (w & Hr & Hw); [by apply word_index|].
  cbn -[Z.div Z.modulo]. rewrite Hr, Hw. cbn -[Z.div Z.modulo]. f_equal.
  change 1 with (Z.ones 1). rewrite Z.land_ones by lia.
  rewrite Z.testbit_odd. change (2 ^ 1) with 2. by rewrite Zmod_odd.
Qed.

Lemma u32_shiftl_bit j i :
  0 <= j < 32 -> 0 <= i -> Z.testbit (u32 (Z.shiftl 1 j)) i = (i =? j).
Proof.
  intros Hj Hi. unfold u32. change 4294967296 with (2 ^ 32).
  rewrite Z.testbit_mod_pow2, Z.shiftl_1_l by lia.
  rewrite Z.pow2_bits_eqb by lia.
  destruct (Z.eqb_spec i j), (Z.eqb_spec j i), (Z.ltb_spec i 32); try lia; done.
Qed.

Lemma u32_lnot_shiftl_bit j i :
  0 <= j < 32 -> 0 <= i < 32 -> Z.testbit (u32 (Z.lnot (Z.shiftl 1 j))) i = negb (i =? j).
Proof.
  intros Hj Hi. unfold u32. change 4294967296 with (2 ^ 32).
  rewrite Z.testbit_mod_pow2, Z.lnot_spec, Z.shiftl_1_l by lia.
  rewrite Z.pow2_bits_eqb by lia.
  destruct (Z.eqb_spec i j), (Z.eqb_spec j i), (Z.ltb_spec i 32); try lia; done.
Qed.

(** The word [bitmap_set] stores: one bit replaced, still a [uint32_t]. *)
Lemma set_word w j v :
  is_u32 w -> 0 <= j < 32 ->
  let w' := if v : bool then Z.lor w (u32 (Z.shiftl 1 j)) else Z.land w (u32 (Z.lnot (Z.shiftl 1 j))) in
  is_u32 w' /\ forall i, 0 <= i < 32 -> Z.testbit w' i = if i =? j then v else Z.testbit w i.
Proof.
  intros Hw Hj w'. split.
  - unfold is_u32 in *. subst w'.
    assert (Hn : forall x, is_u32 (u32 x)) by apply u32_range.
    destruct v.
    + specialize (Hn (Z.shiftl 1 j)). unfold is_u32 in Hn. split.
      * apply Z.lor_nonneg. lia.
      * destruct (decide (Z.lor w (u32 (Z.shiftl 1 j)) = 0)) as [->|]; [lia|].
        apply (Z.log2_lt_pow2 _ 32); [pose proof (proj2 (Z.lor_nonneg w (u32 (Z.shiftl 1 j)))); lia|].
        rewrite Z.log2_lor by lia.
        assert (forall x, 0 <= x < 4294967296 -> Z.log2 x < 32).
        { intros x Hx. destruct (decide (x = 0)) as [->|]; [done|]. apply Z.log2_lt_pow2; lia. }
        apply Z.max_lub_lt; auto.
    + split; [apply Z.land_nonneg; lia|].
      assert (Z.land w (u32 (Z.lnot (Z.shiftl 1 j))) <= w); [|lia].
      apply Z.ldiff_le; [lia|]. apply Z.bits_inj'. intros n Hn'.
      rewrite Z.ldiff_spec, Z.land_spec, Z.bits_0. by destruct (Z.testbit w n), (Z.testbit (u32 (Z.lnot (Z.shiftl 1 j))) n).
  - intros i Hi. subst w'. destruct v.
    + rewrite Z.lor_spec, u32_shiftl_bit by lia. destruct (i =? j); [apply orb_true_r|apply orb_false_r].
    + rewrite Z.land_spec, u32_lnot_shiftl_bit by lia. destruct (i =? j); [apply andb_false_r|apply andb_true_r].
Qed.

Lemma div_mod_inj p q : 0 <= p -> 0 <= q -> p / 32 = q / 32 -> p mod 32 = q mod 32 -> p = q.
Proof. intros. pose proof (Z.div_mod p 32). pose proof (Z.div_mod q 32). lia. Qed.

(** Writing a bit changes that bit only, and keeps the words in range. *)
Lemma bitmap_set_bit bitmap pos (v : bool) :
  words_ok bitmap -> 0 <= pos < bits bitmap ->
  exists bitmap', bitmap_set bitmap pos (Z.b2z v) = Ret bitmap' /\ updates_bit bitmap bitmap' pos v.
Proof.
  intros Hok Hpos.
  pose proof (word_index _ _ Hpos) as Hi.
  destruct (rget_in bitmap (pos / 32)) as (w & Hr & Hw); [done|].
  pose proof (Z.mod_pos_bound pos 32 ltac:(lia)) as Hj.
  destruct (set_word w (pos mod 32) v) as [Hw' Hb'].
  { by eapply Forall_lookup_1 in Hw. } { done. }
  set (w' := if v then _ else _) in *.
  exists (<[Z.to_nat (pos / 32) := w']> bitmap). unfold updates_bit. split_and!.
  - unfold bitmap_set. rewrite Z.geb_leb. destruct (Z.leb_spec 0 pos); [|lia].
    subst w'. destruct v; cbn -[Z.div Z.modulo]; rewrite Hr; cbn -[Z.div Z.modulo]; by apply rset_in.
  - apply length_insert.
  - apply Forall_insert; done.
  - intros q Hq. unfold bit. pose proof (Z.mod_pos_bound q 32 ltac:(lia)) as Hqj.
    destruct (decide (q / 32 = pos / 32)) as [Heq|Hne].
    + rewrite Heq, list_lookup_insert_eq by lia. cbn [default]. rewrite Hw. cbn [default].
      rewrite Hb' by done.
      destruct (Z.eqb_spec q pos), (Z.eqb_spec (q mod 32) (pos mod 32)); subst; try done.
      destruct n. by apply div_mod_inj; try lia.
    + pose proof (word_index _ _ Hq). rewrite list_lookup_insert_ne by lia.
      destruct (Z.eqb_spec q pos); [congruence|done].
Qed.

(** ** Allocation *)

(** [findnset] at position [p]: everything below is set, [p] was clear and
    is now set. *)
Definition first_clear (bitmap : list Z) (l p : Z) : Prop :=
  0 <= p < l /\ bit bitmap p = false /\ forall q, 0 <= q < p -> bit bitmap q = true.

Lemma findnset_bits_spec n bitmap l base j :
  words_ok bitmap -> 0 <= base -> 0 <= j -> base + j + Z.of_nat n <= bits bitmap ->
  (forall q, 0 <= q < base + j -> bit bitmap q = true) ->
  match findnset_bits n bitmap l base j with
  | Ret None => forall q, 0 <= q < base + j + Z.of_nat n -> bit bitmap q = true
  | Ret (Some (bitmap', r)) =>
      (r = -1 /\ bitmap' = bitmap /\ forall q, 0 <= q < l -> bit bitmap q = true) \/
      (first_clear bitmap l r /\ bitmap_set bitmap r 1 = Ret bitmap')
  | Fail _ => False
  end.
Proof.
  intros Hok Hbase. revert j. induction n as [|n IH]; intros j Hj Hn Hlow; cbn [findnset_bits].
  { intros q Hq. apply Hlow. lia. }
  rewrite bitmap_get_bit by lia. cbn -[findnset_bits].
  destruct (bit bitmap (base + j)) eqn:Eb; cbn -[findnset_bits].
  - specialize (IH (j + 1) ltac:(lia) ltac:(lia)).
    replace (base + j + Z.of_nat (S n)) with (base + (j + 1) + Z.of_nat n) by lia.
    apply IH. intros q Hq. destruct (decide (q = base + j)) as [->|]; [done|]. apply Hlow. lia.
  - rewrite Z.geb_leb. destruct (Z.leb_spec l (base + j)).
    + left. split_and!; auto. intros q Hq. apply Hlow. lia.
    + destruct (bitmap_set_bit bitmap (base + j) true) as (b' & Hset & _); [done|lia|].
      cbn [Z.b2z] in Hset. rewrite Hset. cbn. right.
      split; [|done]. split_and!; auto; lia.
Qed.

Lemma findnset_words_spec n bitmap l i :
  words_ok bitmap -> 0 <= i -> i + Z.of_nat n <= zlen bitmap ->
  (forall q, 0 <= q < 32 * i -> bit bitmap q = true) ->
  match findnset_words n bitmap l i with
  | Ret (bitmap', r) =>
      (r = -1 /\ bitmap' = bitmap /\
         forall q, 0 <= q < l -> q < 32 * (i + Z.of_nat n) -> bit bitmap q = true) \/
      (first_clear bitmap l r /\ bitmap_set bitmap r 1 = Ret bitmap')
  | Fail _ => False
  end.
Proof.
  intros Hok. revert i. induction n as [|n IH]; intros i Hi Hn Hlow; cbn [findnset_words].
  { left. split_and!; auto. intros q ? ?. apply Hlow. lia. }
  destruct (rget_in bitmap i) as (w & Hr & Hw); [lia|]. rewrite Hr. cbn -[findnset_bits findnset_words].
  assert (Hnext : (forall q, 0 <= q < 32 * (i + 1) -> bit bitmap q = true) ->
    match findnset_words n bitmap l (i + 1) with
    | Ret (bitmap', r) =>
        (r = -1 /\ bitmap' = bitmap /\
           forall q, 0 <= q < l -> q < 32 * (i + Z.of_nat (S n)) -> bit bitmap q = true) \/
        (first_clear bitmap l r /\ bitmap_set bitmap r 1 = Ret bitmap')
    | Fail _ => False
    end).
  { intros Hlow'. specialize (IH (i + 1) ltac:(lia) ltac:(lia) Hlow').
    replace (i + Z.of_nat (S n)) with (i + 1 + Z.of_nat n) by lia. exact IH. }
  destruct (Z.eqb_spec w 0xffffffff) as [->|Hne]; cbn -[findnset_bits findnset_words].
  - apply Hnext. intros q Hq. destruct (decide (q < 32 * i)); [apply Hlow; lia|].
    unfold bit. assert (q / 32 = i) as -> by (symmetry; apply (Z.div_unique q 32 i (q - 32 * i)); lia).
    rewrite Hw. cbn [default]. change 0xffffffff with (Z.ones 32).
    pose proof (Z.mod_pos_bound q 32 ltac:(lia)). apply Z.ones_spec_low. lia.
  - pose proof (findnset_bits_spec 32 bitmap l (i * 32) 0 Hok ltac:(lia) ltac:(lia)) as Hb.
    unfold bits in Hb. specialize (Hb ltac:(lia)).
    assert (Hlow' : forall q, 0 <= q < i * 32 + 0 -> bit bitmap q = true) by (intros; apply Hlow; lia).
    specialize (Hb Hlow').
    destruct (findnset_bits 32 bitmap l (i * 32) 0) as [[[b' r]|]|] eqn:E; cbn -[findnset_words]; [| |done].
    + destruct Hb as [(-> & -> & Hall)|Hb]; [left|by right]. split_and!; auto.
    + apply Hnext. intros q Hq. apply Hb. lia.
Qed.

Lemma sizeof_words l : 0 <= l -> Z.quot (bitmap_sizeof l) 4 = (l + 31) / 32.
Proof.
  intros. unfold bitmap_sizeof. rewrite Z.quot_mul by lia. apply Z.quot_div_nonneg; lia.
Qed.

(** [bitmap_findnset] sets the lowest clear bit below [l] and answers its
    number; it answers -1, without a change, exactly when there is none. *)
Lemma findnset_cases bitmap l :
  words_ok bitmap -> 0 <= l -> (l + 31) / 32 <= zlen bitmap ->
  exists bitmap' r, bitmap_findnset bitmap l = Ret (bitmap', r) /\
    ((r = -1 /\ bitmap' = bitmap /\ forall q, 0 <= q < l -> bit bitmap q = true) \/
     (first_clear bitmap l r /\ bitmap_set bitmap r 1 = Ret bitmap')).
Proof.
  intros Hok Hl Hlen. unfold bitmap_findnset. rewrite Z.geb_leb.
  destruct (Z.leb_spec 0 l); [|lia]. rewrite sizeof_words by done.
  pose proof (Z.div_mod (l + 31) 32 ltac:(lia)). pose proof (Z.mod_pos_bound (l + 31) 32 ltac:(lia)).
  pose proof (findnset_words_spec (Z.to_nat ((l + 31) / 32)) bitmap l 0 Hok ltac:(lia) ltac:(lia)) as Hw.
  assert (Hlow : forall q, 0 <= q < 32 * 0 -> bit bitmap q = true) by (intros; lia).
  specialize (Hw Hlow).
  destruct (findnset_words _ _ _ _) as [[b' r]|] eqn:E; [|done].
  exists b', r. split; [done|]. destruct Hw as [(? & ? & Hall)|]; [left|by right].
  split_and!; auto. intros q Hq. apply Hall; lia.
Qed.

(** ** Initialisation and counting *)

Lemma bitmap_init_loop_spec n i bitmap :
  0 <= i -> i + Z.of_nat n <= zlen bitmap ->
  bitmap_init_loop n i bitmap =
    Ret (take (Z.to_nat i) bitmap ++ replicate n 0 ++ drop (Z.to_nat i + n) bitmap).
Proof.
  revert i bitmap. induction n as [|n IH]; intros i bitmap Hi Hn; cbn [bitmap_init_loop].
  - cbn [replicate]. rewrite Nat.add_0_r. cbn. by rewrite take_drop.
  - rewrite rset_in by lia. cbn -[bitmap_init_loop take drop replicate].
    rewrite IH by (rewrite ?length_insert; lia). f_equal.
    replace (Z.to_nat (i + 1)) with (S (Z.to_nat i)) by lia.
    rewrite (take_S_r _ _ 0) by (apply list_lookup_insert_eq; lia).
    rewrite take_insert_ge, drop_insert_lt by lia.
    rewrite <- app_assoc. cbn [replicate app]. do 3 f_equal. f_equal. lia.
Qed.

(** A bitmap of [size] bits that fills its words is cleared entirely. *)
Lemma bitmap_init_zero bitmap size :
  0 <= size -> zlen bitmap = (size + 31) / 32 ->
  bitmap_init bitmap size = Ret (replicate (length bitmap) 0).
Proof.
  intros Hs Hlen. unfold bitmap_init. rewrite Z.geb_leb. destruct (Z.leb_spec 0 size); [|lia].
  rewrite Z.quot_div_nonneg by lia.
  rewrite bitmap_init_loop_spec by lia. f_equal.
  replace (Z.to_nat ((size + 31) / 32)) with (length bitmap) by lia.
  rewrite drop_ge by (cbn; lia). cbn. by rewrite app_nil_r.
Qed.

Lemma bit_replicate n q : bit (replicate n 0) q = false.
Proof.
  unfold bit. destruct (replicate n 0 !! Z.to_nat (q / 32)) eqn:E; [|apply Z.bits_0].
  apply lookup_replicate in E as [-> _]. apply Z.bits_0.
Qed.

Lemma words_ok_replicate n : words_ok (replicate n 0).
Proof. apply Forall_replicate. unfold is_u32. lia. Qed.

Lemma clears_nonneg bitmap n : 0 <= clears bitmap n <= Z.of_nat n.
Proof. induction n as [|n IH]; cbn [clears]; [lia|]. destruct (bit bitmap (Z.of_nat n)); cbn; lia. Qed.

Lemma clears_update b b' p v n :
  updates_bit b b' p v -> 0 <= p -> Z.of_nat n <= bits b ->
  clears b' n = clears b n + (if p <? Z.of_nat n then Z.b2z (bit b p) - Z.b2z v else 0).
Proof.
  intros (Hlen & _ & Hb) Hp. induction n as [|n IH]; intros Hn; cbn [clears].
  { destruct (Z.ltb_spec p (Z.of_nat 0)); lia. }
  rewrite IH, Hb by lia.
  destruct (Z.eqb_spec (Z.of_nat n) p), (Z.ltb_spec p (Z.of_nat n)), (Z.ltb_spec p (Z.of_nat (S n)));
    subst; try lia; destruct (bit b (Z.of_nat n)), v; cbn; lia.
Qed.

Lemma clears_zero bitmap n :
  (forall q, 0 <= q < Z.of_nat n -> bit bitmap q = true) -> clears bitmap n = 0.
Proof.
  induction n as [|n IH]; intros H; cbn [clears]; [done|].
  rewrite IH by (intros; apply H; lia). rewrite H by lia. done.
Qed.

Lemma clears_pos bitmap n p :
  0 <= p < Z.of_nat n -> bit bitmap p = false -> 0 < clears bitmap n.
Proof.
  intros Hp Hb. induction n as [|n IH]; cbn [clears]; [lia|].
  pose proof (clears_nonneg bitmap n).
  destruct (decide (p = Z.of_nat n)) as [->|]; [rewrite Hb; cbn; lia|].
  specialize (IH ltac:(lia)). destruct (bit bitmap (Z.of_nat n)); cbn; lia.
Qed.

Lemma clears_fresh m n : clears (replicate m 0) n = Z.of_nat n.
Proof. induction n as [|n IH]; cbn [clears]; [done|]. rewrite IH, bit_replicate. cbn. lia. Qed.

(** [findnset_cases] with the effect on the bits and on the count. *)
Lemma findnset_updates bitmap l :
  words_ok bitmap -> 0 <= l -> l <= bits bitmap ->
  exists bitmap' r, bitmap_findnset bitmap l = Ret (bitmap', r) /\
    ((r = -1 /\ bitmap' = bitmap /\ clears bitmap (Z.to_nat l) = 0) \/
     (first_clear bitmap l r /\ updates_bit bitmap bitmap' r true /\
      clears bitmap' (Z.to_nat l) = clears bitmap (Z.to_nat l) - 1)).
Proof.
  intros Hok Hl Hlen. unfold bits in Hlen.
  assert ((l + 31) / 32 <= zlen bitmap).
  { pose proof (Z.div_mod (l + 31) 32). pose proof (Z.mod_pos_bound (l + 31) 32). lia. }
  destruct (findnset_cases bitmap l Hok Hl) as (b' & r & Hrun & H'); [done|].
  exists b', r. split; [done|]. destruct H' as [(-> & -> & Hall)|[Hf Hset]]; [left|right].
  - split_and!; auto. apply clears_zero. intros q Hq. apply Hall. lia.
  - destruct Hf as (Hr & Hbit & Hbelow).
    destruct (bitmap_set_bit bitmap r true Hok) as (b'' & Hset' & Hu); [unfold bits; lia|].
    cbn [Z.b2z] in Hset'. rewrite Hset in Hset'. injection Hset' as <-.
    split_and!; [done..|].
    rewrite (clears_update _ _ _ _ _ Hu) by (unfold bits; lia).
    destruct (Z.ltb_spec r (Z.of_nat (Z.to_nat l))); [|lia]. rewrite Hbit. cbn. lia.
Qed.

(** ** The theorems *)

(** [bitmap_findnset] answers the lowest clear position below
    [l] and sets that bit and no other; it answers -1 and changes nothing
    exactly when the bitmap is full.  The [uint32_t] words stay in range, and
    the search stops within the words of the bitmap. *)
Theorem bitmap_findnset_lowest bitmap l :
  words_ok bitmap -> 0 <= l <= bits bitmap ->
  exists bitmap' r, bitmap_findnset bitmap l = Ret (bitmap', r) /\
    ((r = -1 /\ bitmap' = bitmap /\ forall q, 0 <= q < l -> bit bitmap q = true) \/
     (first_clear bitmap l r /\ updates_bit bitmap bitmap' r true)).
Proof.
  intros Hok Hl. destruct (findnset_updates bitmap l Hok ltac:(lia) ltac:(lia)) as (b' & r & Hrun & H).
  exists b', r. split; [exact Hrun|].
  destruct H as [(-> & -> & Hc)|(Hf & Hu & _)]; [left|by right].
  split_and!; [done..|]. intros q Hq.
  destruct (bit bitmap q) eqn:E; [done|].
  pose proof (clears_pos bitmap (Z.to_nat l) q ltac:(lia) E). lia.
Qed.

Lemma bitmap_findnset_lowest_witness :
  exists bitmap' r, bitmap_findnset [0xffffffff; 0x0000002f] 40 = Ret (bitmap', r) /\
    ((r = -1 /\ bitmap' = [0xffffffff; 0x0000002f] /\ forall q, 0 <= q < 40 -> bit [0xffffffff; 0x0000002f] q = true) \/
     (first_clear [0xffffffff; 0x0000002f] 40 r /\ updates_bit [0xffffffff; 0x0000002f] bitmap' r true)).
Proof.
  apply (bitmap_findnset_lowest [0xffffffff; 0x0000002f] 40).
  - repeat constructor; vm_check.
  - vm_check.
Defined.

Example findnset_36 : bitmap_findnset [0xffffffff; 0x0000002f] 40 = Ret ([0xffffffff; 0x0000003f], 36).
Proof. reflexivity. Qed.

(** Reading after writing: [bitmap_get] answers the value
    just set at that position and the old value at every other. *)
Theorem bitmap_get_set bitmap p v q :
  words_ok bitmap -> 0 <= p < bits bitmap -> 0 <= q < bits bitmap -> v = 0 \/ v = 1 ->
  exists bitmap', bitmap_set bitmap p v = Ret bitmap' /\ words_ok bitmap' /\
    bitmap_get bitmap' q = if q =? p then Ret v else bitmap_get bitmap q.
Proof.
  intros Hok Hp Hq Hv.
  destruct (bitmap_set_bit bitmap p (negb (v =? 0)) Hok Hp) as (b' & Hset & Hlen & Hw & Hb).
  exists b'. split_and!; [by destruct Hv; subst|done|].
  rewrite !bitmap_get_bit by (unfold bits in *; rewrite ?Hlen; lia). rewrite Hb by done.
  destruct (q =? p); [|done]. by destruct Hv; subst.
Qed.

Lemma bitmap_get_set_witness :
  exists bitmap', bitmap_set [0; 5] 33 1 = Ret bitmap' /\ words_ok bitmap' /\ bitmap_get bitmap' 33 = Ret 1.
Proof.
  apply (bitmap_get_set [0; 5] 33 1 33); [repeat constructor; vm_check|vm_check|vm_check|by right].
Defined.
