(* ===== verification/Libc.v ===== *)
(** * lib/libc.c, drivers/polltty.c: strings, memory and the kernel console

    A [char *] is the list of the bytes from the pointer to the end of its
    object, each byte in [0, 256); reading or writing past the end of the
    list is [Undef].  [memcopy], whose two pointers may point into one object
    and whose path depends on their alignment, works on a flat memory indexed
    by address. *)
From S2P Require Import Prelude.

(** ** The code *)

(** A [char] promoted to [int]; [char] is signed. *)
Definition schar (c : Z) : Z := (c + 128) mod 256 - 128.

Fixpoint stringcmp (str1 str2 : list Z) : res Z :=
  match str1, str2 with
  | c1 :: str1, c2 :: str2 =>
      if (c1 =? 0) && (c2 =? 0) then Ret 0
      else if (c1 =? 0) || (c2 =? 0) || negb (c1 =? c2) then Ret (schar c1 - schar c2)
      else stringcmp str1 str2
  | _, _ => Fail Undef
  end.

(** [while (i < buflen) { *target = '\0'; i++; }]: [target] does not move. *)
Fixpoint stringcopy_pad (n : nat) (target : list Z) (t : Z) : res (list Z) :=
  match n with
  | O => Ret target
  | S n => target' ← rset target t 0; stringcopy_pad n target' t
  end.
(** The copy loop: [n] is [buflen - 1 - i], and both pointers are [i] in. *)
Fixpoint stringcopy_loop (n : nat) (target source : list Z) (i : Z) : res (list Z) :=
  match n with
  | O => rset target i 0
  | S n =>
      c ← rget source i;
      target' ← rset target i c;
      if c =? 0 then stringcopy_pad n target' i
      else stringcopy_loop n target' source (i + 1)
  end.
Definition stringcopy (target source : list Z) (buflen : Z) : res (list Z) :=
  stringcopy_loop (Z.to_nat (buflen - 1)) target source 0.

(** [for (i = 0; i < n; i++) t[i] = s[i]] on bytes. *)
Fixpoint copy_bytes (n : nat) (mem : list Z) (t s : Z) : res (list Z) :=
  match n with
  | O => Ret mem
  | S n =>
      b ← rget mem s;
      mem' ← rset mem t b;
      copy_bytes n mem' (t + 1) (s + 1)
  end.
(** [for (i = 0; i < n; i++) { *tgt = *src; tgt++; src++; }] on words: the
    four bytes are read before any is written. *)
Fixpoint copy_words (n : nat) (mem : list Z) (t s : Z) : res (list Z) :=
  match n with
  | O => Ret mem
  | S n =>
      b0 ← rget mem s; b1 ← rget mem (s + 1); b2 ← rget mem (s + 2); b3 ← rget mem (s + 3);
      m ← rset mem t b0; m ← rset m (t + 1) b1; m ← rset m (t + 2) b2; m ← rset m (t + 3) b3;
      copy_words n m (t + 4) (s + 4)
  end.
Definition memcopy (buflen : Z) (mem : list Z) (target source : Z) : res (list Z) :=
  if negb (target mod 4 =? 0) || negb (source mod 4 =? 0) then
    copy_bytes (Z.to_nat buflen) mem target source
  else
    let words := Z.to_nat (Z.quot buflen 4) in
    mem' ← copy_words words mem target source;
    copy_bytes (Z.to_nat (Z.rem buflen 4)) mem' (target + 4 * Z.of_nat words) (source + 4 * Z.of_nat words).

(** [for (i = 0; i < size; i++) tgt[i] = value] *)
Fixpoint memoryset_loop (n : nat) (tgt : list Z) (value i : Z) : res (list Z) :=
  match n with
  | O => Ret tgt
  | S n => tgt' ← rset tgt i value; memoryset_loop n tgt' value (i + 1)
  end.
Definition memoryset (target : list Z) (value size : Z) : res (list Z) :=
  memoryset_loop (Z.to_nat size) target (value mod 256) 0.

Definition is_space (c : Z) : bool := (c =? 32) || (c =? 9) || (c =? 13) || (c =? 10).
Definition is_digit (c : Z) : bool := (48 <=? c) && (c <=? 57).

Fixpoint atoi_skip (s : list Z) : res (list Z) :=
  match s with
  | [] => Fail Undef
  | c :: s' => if negb (c =? 0) && is_space c then atoi_skip s' else Ret s
  end.
(** The digits; the [int] arithmetic wraps, as on the target. *)
Fixpoint atoi_digits (s : list Z) (sign value : Z) : res Z :=
  match s with
  | [] => Fail Undef
  | c :: s' =>
      if is_digit c then atoi_digits s' sign (i32 (10 * value + sign * (c - 48)))
      else Ret value
  end.
Definition atoi (s : list Z) : res Z :=
  s ← atoi_skip s;
  match s with
  | [] => Fail Undef
  | c :: s' =>
      if c =? 0 then Ret 0
      else if c =? 45 then atoi_digits s' (-1) 0
      else if c =? 43 then atoi_digits s' 1 0
      else atoi_digits s 1 0
  end.

Fixpoint strlen (str : list Z) : res Z :=
  match str with
  | [] => Fail Undef
  | c :: str => if c =? 0 then Ret 0 else l ← strlen str; Ret (l + 1)
  end.

(** *** The polling TTY driver: [tty_in] is what has been typed and not read
    yet, [tty_out] what has been written. *)
Record polltty := mk_polltty {
  polltty_present : bool;    (** polltty_iobase != 0 *)
  tty_in : list Z;
  tty_out : list Z
}.
(** [polltty_init]: the type codes of the I/O descriptors, ended by 0. *)
Fixpoint polltty_find (types : list Z) : res bool :=
  match types with
  | [] => Fail Undef
  | t :: types => if t =? 0 then Ret false else if t =? 0x201 then Ret true else polltty_find types
  end.
Definition polltty_init (types : list Z) : M polltty unit := fun s =>
  b ← polltty_find types; Ret (tt, mk_polltty b (tty_in s) (tty_out s)).
Definition polltty_getchar : M polltty Z := fun s =>
  if polltty_present s then
    match tty_in s with
    | [] => Fail Blocked
    | c :: rest => Ret (c, mk_polltty true rest (tty_out s))
    end
  else Ret (0, s).
Definition polltty_putchar (c : Z) : M polltty unit :=
  modify (fun s =>
    if polltty_present s then mk_polltty true (tty_in s) (tty_out s ++ [c]) else s).

Fixpoint kwrite (s : list Z) : M polltty unit :=
  match s with
  | [] => fail Undef
  | c :: s => if c =? 0 then mret tt else _ ← polltty_putchar c; kwrite s
  end.

(** The loop of [kread], which ends at a newline or when [len - 1] characters
    are stored; [n] is [len - 1 - count]. *)
Fixpoint kread_loop (n : nat) (s : list Z) (count : Z) : M polltty (list Z) :=
  ch ← polltty_getchar;
  if ch =? 10 then lift (rset s count 0)
  else match n with
       | O => lift (rset s count 0)
       | S n => s' ← lift (rset s count (ch mod 256)); kread_loop n s' (count + 1)
       end.
Definition kread (s : list Z) (len : Z) : M polltty (list Z) :=
  kread_loop (Z.to_nat (len - 1)) s 0.

(** ** Strings *)

(** The characters of a null-terminated string. *)
Fixpoint cstr (l : list Z) : option (list Z) :=
  match l with
  | [] => None
  | c :: l => if c =? 0 then Some [] else (c ::.) <$> cstr l
  end.
(** ASCII text: what the kernel's names and messages are made of. *)
Definition ascii (c : Z) : Prop := 0 < c < 128.
(** Dictionary order, a prefix first. *)
Fixpoint str_lt (a b : list Z) : bool :=
  match a, b with
  | _, [] => false
  | [], _ :: _ => true
  | c :: a, d :: b => (c <? d) || (c =? d) && str_lt a b
  end.

Lemma cstr_cons c l s :
  cstr (c :: l) = Some s -> (c = 0 /\ s = []) \/ (c <> 0 /\ exists s', cstr l = Some s' /\ s = c :: s').
Proof.
  cbn. destruct (Z.eqb_spec c 0); [intros [= <-]; by left|].
  destruct (cstr l); cbn; [intros [= <-]; right; eauto|done].
Qed.

Lemma cstr_app s rest : Forall (fun c => c <> 0) s -> cstr (s ++ 0 :: rest) = Some s.
Proof.
  induction 1 as [|c s Hc Hs IH]; cbn; [done|].
  destruct (Z.eqb_spec c 0); [done|]. by rewrite IH.
Qed.

Lemma cstr_inv l s :
  cstr l = Some s -> Forall (fun c => c <> 0) s /\ exists rest, l = s ++ 0 :: rest.
Proof.
  revert s. induction l as [|c l IH]; intros s; [done|].
  intros [[-> ->]|(Hc & s' & Hs' & ->)]%cstr_cons; [split; [done|by exists l]|].
  destruct (IH _ Hs') as (Hall & rest & ->). split; [by constructor|by exists rest].
Qed.

Lemma strlen_run l s : cstr l = Some s -> strlen l = Ret (zlen s).
Proof.
  revert s. induction l as [|c l IH]; intros s; cbn; [done|]. destruct (Z.eqb_spec c 0); [by intros [= <-]|].
  destruct (cstr l) as [s'|]; [|done]. intros [= <-]. rewrite (IH s') by done. cbn [mbind res_bind length]. f_equal. lia.
Qed.

Lemma schar_id c : ascii c -> schar c = c.
Proof. unfold ascii, schar. intros. rewrite Z.mod_small; lia. Qed.

Lemma schar_inj c d : is_byte c -> is_byte d -> schar c = schar d -> c = d.
Proof.
  unfold is_byte, schar. intros.
  pose proof (Z.div_mod (c + 128) 256 ltac:(lia)). pose proof (Z.div_mod (d + 128) 256 ltac:(lia)).
  assert ((c + 128) / 256 = 0 \/ (c + 128) / 256 = 1) as [|]
    by (pose proof (Z.mod_pos_bound (c + 128) 256 ltac:(lia)); lia);
  assert ((d + 128) / 256 = 0 \/ (d + 128) / 256 = 1) as [|]
    by (pose proof (Z.mod_pos_bound (d + 128) 256 ltac:(lia)); lia); lia.
Qed.

Lemma stringcmp_run l1 l2 a b :
  Forall is_byte l1 -> Forall is_byte l2 -> cstr l1 = Some a -> cstr l2 = Some b ->
  exists r, stringcmp l1 l2 = Ret r /\ stringcmp l2 l1 = Ret (- r) /\ (r = 0 <-> a = b) /\
    (Forall ascii a -> Forall ascii b -> (r <? 0) = str_lt a b).
Proof.
  intros Hl1. revert l2 a b. induction Hl1 as [|c l1 Hc Hl1 IH]; intros l2 a b; [done|].
  intros [|d l2' Hd Hl2] Ha Hb; [done|]. cbn [stringcmp].
  assert (Hne : c <> d -> schar c - schar d <> 0).
  { intros Hne Heq. apply Hne, schar_inj; [done|done|lia]. }
  apply cstr_cons in Ha as [[-> ->]|(Hc0 & a' & Ha & ->)];
    apply cstr_cons in Hb as [[-> ->]|(Hd0 & b' & Hb & ->)];
    rewrite ?(proj2 (Z.eqb_neq _ _) Hc0), ?(proj2 (Z.eqb_neq _ _) Hd0), ?Z.eqb_refl; cbn [andb orb].
  - exists 0. by split_and!.
  - exists (schar 0 - schar d). split_and!; [done|f_equal; lia| |].
    + split; [intros Heq; by destruct Hne|done].
    + intros _ [Hd' _]%Forall_cons. change (schar 0) with 0. rewrite (schar_id d) by done. unfold ascii in Hd'.
      cbn. destruct (Z.ltb_spec (0 - d) 0); [done|lia].
  - exists (schar c - schar 0). split_and!; [done|f_equal; lia| |].
    + split; [intros Heq; by destruct Hne|done].
    + intros [Hc' _]%Forall_cons _. change (schar 0) with 0. rewrite (schar_id c) by done. unfold ascii in Hc'.
      cbn. destruct (Z.ltb_spec (c - 0) 0); [lia|done].
  - rewrite (Z.eqb_sym d c). destruct (Z.eqb_spec c d) as [<-|Hcd]; cbn [negb].
    + destruct (IH l2' a' b' Hl2 Ha Hb) as (r & H1 & H2 & H3 & H4).
      exists r. split_and!; [done..| |].
      * rewrite H3. split; congruence.
      * intros [_ Ha']%Forall_cons [_ Hb']%Forall_cons. rewrite H4 by done. cbn.
        rewrite Z.eqb_refl, Z.ltb_irrefl. done.
    + exists (schar c - schar d). split_and!; [done|f_equal; lia| |].
      * split; [intros Heq; by destruct Hne|congruence].
      * intros [Hc' _]%Forall_cons [Hd' _]%Forall_cons. rewrite !schar_id by done. cbn.
        rewrite (proj2 (Z.eqb_neq c d) Hcd), orb_false_r.
        destruct (Z.ltb_spec (c - d) 0), (Z.ltb_spec c d); lia || done.
Qed.

Lemma rset_splice (l : list Z) i x :
  0 <= i < zlen l -> rset l i x = Ret (splice l (Z.to_nat i) [x]).
Proof. intros. rewrite rset_in by done. by rewrite splice_cons, splice_nil by lia. Qed.

Lemma splice_idem (l : list Z) i x :
  (i < length l)%nat -> splice (splice l i [x]) i [x] = splice l i [x].
Proof.
  intros Hi. rewrite !splice_cons, !splice_nil by (rewrite ?splice_cons, ?splice_nil, ?length_insert; lia).
  apply list_insert_insert_eq.
Qed.

Lemma stringcopy_pad_id n l t :
  0 <= t < zlen l -> stringcopy_pad n (splice l (Z.to_nat t) [0]) t = Ret (splice l (Z.to_nat t) [0]).
Proof.
  intros Ht. induction n as [|n IH]; cbn [stringcopy_pad]; [done|].
  rewrite rset_splice by (rewrite length_splice; cbn; lia). cbn -[stringcopy_pad splice].
  rewrite splice_idem by lia. exact IH.
Qed.

Lemma stringcopy_loop_run n target pre s rest i :
  i = zlen pre -> Forall (fun c => c <> 0) s -> i + Z.of_nat n < zlen target ->
  stringcopy_loop n target (pre ++ s ++ 0 :: rest) i =
    Ret (splice target (Z.to_nat i) (take n s ++ [0])).
Proof.
  intros Hi Hs. revert target pre i Hi n. induction Hs as [|c s Hc Hs IH]; intros target pre i Hi n Hn.
  - destruct n as [|n]; cbn [stringcopy_loop].
    + rewrite rset_splice by lia. by rewrite take_nil.
    + assert (Hg : rget (pre ++ [] ++ 0 :: rest) i = Ret 0).
      { apply rget_Ret. split; [lia|]. rewrite Hi, Nat2Z.id, lookup_app_r, Nat.sub_diag by lia. done. }
      rewrite Hg. cbn -[stringcopy_loop stringcopy_pad]. rewrite rset_splice by lia.
      cbn -[stringcopy_loop stringcopy_pad splice]. by rewrite stringcopy_pad_id by lia.
  - destruct n as [|n]; cbn [stringcopy_loop].
    + rewrite rset_splice by lia. done.
    + assert (Hg : rget (pre ++ (c :: s) ++ 0 :: rest) i = Ret c).
      { apply rget_Ret. split; [lia|]. rewrite Hi, Nat2Z.id, lookup_app_r, Nat.sub_diag by lia. done. }
      rewrite Hg. cbn -[stringcopy_loop stringcopy_pad]. rewrite rset_in by lia.
      cbn -[stringcopy_loop stringcopy_pad splice].
      rewrite (proj2 (Z.eqb_neq c 0) Hc).
      replace (pre ++ c :: s ++ 0 :: rest) with ((pre ++ [c]) ++ s ++ 0 :: rest) by (by rewrite <- app_assoc).
      rewrite IH by (rewrite ?length_app, ?length_insert; cbn; lia). f_equal.
      cbn [take app]. rewrite splice_cons by lia. f_equal. lia.
Qed.

(** ** Memory *)

Lemma rget_if (m : list Z) i :
  rget m i = if decide (0 <= i < zlen m) then Ret (m !!! Z.to_nat i) else Fail Undef.
Proof.
  case_decide as H.
  - destruct (rget_in m i H) as (x & -> & Hx). by rewrite (list_lookup_total_correct _ _ _ Hx).
  - unfold rget, aget. case_decide; [|done]. by rewrite lookup_ge_None_2 by lia.
Qed.

Lemma rget_after_rset (m m' : list Z) t b i :
  rset m t b = Ret m' -> rget m' i = if decide (i = t) then Ret b else rget m i.
Proof.
  unfold rset. case_decide as Ht; [intros [= <-]|done]. rewrite !rget_if, length_insert.
  repeat case_decide; try lia; try done; f_equal.
  - subst. by apply list_lookup_total_insert_eq; lia.
  - apply list_lookup_total_insert_ne. lia.
Qed.

Lemma rset_fails (m : list Z) t b : ~ 0 <= t < zlen m -> rset m t b = Fail Undef.
Proof. intros. unfold rset. by rewrite decide_False. Qed.

(** Writing a word that was read before is the same as moving its four bytes
    one after the other, for aligned addresses: either the two words are the
    same, or they do not overlap. *)
Lemma read_four (m : list Z) s :
  (0 <= s /\ s + 3 < zlen m /\ exists b0 b1 b2 b3, rget m s = Ret b0 /\ rget m (s + 1) = Ret b1 /\
     rget m (s + 2) = Ret b2 /\ rget m (s + 3) = Ret b3) \/
  ((0 <= s -> zlen m <= s + 3) /\ exists k, 0 <= k < 4 /\ rget m (s + k) = Fail Undef).
Proof.
  destruct (decide (0 <= s /\ s + 3 < zlen m)) as [H|H].
  - left. split_and!; [lia..|]. rewrite !rget_if, !decide_True by lia. by do 4 eexists.
  - right. split; [lia|]. destruct (decide (0 <= s)).
    + exists 3. split; [lia|]. rewrite rget_if. by rewrite decide_False by lia.
    + exists 0. split; [lia|]. rewrite rget_if. by rewrite decide_False by lia.
Qed.

Lemma copy_bytes_S n m t s :
  copy_bytes (S n) m t s = (b ← rget m s; m' ← rset m t b; copy_bytes n m' (t + 1) (s + 1)).
Proof. done. Qed.

(** A byte loop whose reads all come from a run that the writes so far have
    not changed. *)
Lemma copy_word_bytes n m t s :
  t mod 4 = 0 -> s mod 4 = 0 ->
  copy_bytes (4 + n) m t s =
    (b0 ← rget m s; b1 ← rget m (s + 1); b2 ← rget m (s + 2); b3 ← rget m (s + 3);
     m ← rset m t b0; m ← rset m (t + 1) b1; m ← rset m (t + 2) b2; m ← rset m (t + 3) b3;
     copy_bytes n m (t + 4) (s + 4)).
Proof.
  intros Ht Hs. pose proof (Z.div_mod t 4 ltac:(lia)). pose proof (Z.div_mod s 4 ltac:(lia)).
  cbn [Nat.add]. rewrite copy_bytes_S.
  destruct (decide (0 <= s /\ s + 3 < zlen m)) as [Hin|Hout].
  - destruct (read_four m s) as [(_ & _ & b0 & b1 & b2 & b3 & R0 & R1 & R2 & R3)|[Hf _]]; [|lia].
    rewrite R0, R1, R2, R3. cbn -[rset copy_bytes].
    destruct (rset m t b0) as [m1|] eqn:E0; cbn -[rset copy_bytes]; [|done].
    assert (Hk1 : forall j : Z, j <> 0 -> -4 < j < 4 -> rget m1 (s + j) = rget m (s + j)).
    { intros j Hj Hb. rewrite (rget_after_rset _ _ _ _ _ E0). case_decide; [lia|done]. }
    rewrite copy_bytes_S, (Hk1 1), R1 by lia. cbn -[rset copy_bytes].
    destruct (rset m1 (t + 1) b1) as [m2|] eqn:E1; cbn -[rset copy_bytes]; [|done].
    rewrite copy_bytes_S. replace (s + 1 + 1) with (s + 2) by lia. replace (t + 1 + 1) with (t + 2) by lia.
    assert (rget m2 (s + 2) = Ret b2 /\ rget m2 (s + 3) = Ret b3) as [-> Hm2].
    { rewrite !(rget_after_rset _ _ _ _ _ E1). repeat case_decide; try lia. by rewrite !Hk1, R2, R3 by lia. }
    cbn -[rset copy_bytes].
    destruct (rset m2 (t + 2) b2) as [m3|] eqn:E2; cbn -[rset copy_bytes]; [|done].
    rewrite copy_bytes_S. replace (s + 2 + 1) with (s + 3) by lia. replace (t + 2 + 1) with (t + 3) by lia.
    rewrite (rget_after_rset _ _ _ _ _ E2). case_decide; [lia|]. rewrite Hm2. cbn -[rset copy_bytes].
    replace (s + 3 + 1) with (s + 4) by lia. replace (t + 3 + 1) with (t + 4) by lia. done.
  - rewrite (rget_if m s). case_decide as D0; cbn -[rset copy_bytes rget]; [|done].
    assert (HR : forall A (k : Z -> Z -> Z -> res A),
      (b1 ← rget m (s + 1); b2 ← rget m (s + 2); b3 ← rget m (s + 3); k b1 b2 b3) = Fail Undef).
    { intros A k. rewrite !rget_if. repeat case_decide; try lia; done. }
    rewrite HR.
    assert (Hstep : forall (m' : list Z) k, zlen m' = zlen m -> 0 <= k -> ~ s + k < zlen m ->
      forall A (c : Z -> res A), (b ← rget m' (s + k); c b) = Fail Undef).
    { intros m' k Hl Hk Hs' A c. rewrite rget_if, decide_False by lia. done. }
    assert (Hlen : forall (m0 m' : list Z) i b, rset m0 i b = Ret m' -> zlen m' = zlen m0).
    { intros m0 m' i b. unfold rset. case_decide; [intros [= <-]; by rewrite length_insert|done]. }
    destruct (rset m t _) as [m1|] eqn:E0; cbn -[rset copy_bytes rget]; [|unfold rset in E0; case_decide; congruence].
    apply Hlen in E0. rewrite copy_bytes_S, (rget_if m1 (s + 1)). case_decide as D1; cbn -[rset copy_bytes rget]; [|done].
    destruct (rset m1 _ _) as [m2|] eqn:E1; cbn -[rset copy_bytes rget]; [|unfold rset in E1; case_decide; congruence].
    apply Hlen in E1. rewrite copy_bytes_S. replace (s + 1 + 1) with (s + 2) by lia. rewrite (rget_if m2 (s + 2)). case_decide as D2; cbn -[rset copy_bytes rget]; [|done].
    destruct (rset m2 _ _) as [m3|] eqn:E2; cbn -[rset copy_bytes rget]; [|unfold rset in E2; case_decide; congruence].
    apply Hlen in E2. rewrite copy_bytes_S. replace (s + 2 + 1) with (s + 3) by lia. rewrite (rget_if m3 (s + 3)). case_decide; [lia|done].
Qed.

Lemma copy_words_bytes n m t s :
  t mod 4 = 0 -> s mod 4 = 0 -> copy_words n m t s = copy_bytes (4 * n) m t s.
Proof.
  revert m t s. induction n as [|n IH]; intros m t s Ht Hs; [done|].
  replace (4 * S n)%nat with (4 + 4 * n)%nat by lia.
  rewrite copy_word_bytes by done. cbn [copy_words].
  assert (Hm : forall x, x mod 4 = 0 -> (x + 4) mod 4 = 0).
  { intros x Hx. rewrite <- Hx. change (x + 4) with (x + 1 * 4). by apply Z.mod_add. }
  do 8 (destruct (rget _ _) || destruct (rset _ _ _); cbn -[copy_words copy_bytes rget rset Nat.mul]; try done).
  apply IH; auto.
Qed.

Lemma copy_bytes_app n k m t s :
  copy_bytes (n + k) m t s =
    (m' ← copy_bytes n m t s; copy_bytes k m' (t + Z.of_nat n) (s + Z.of_nat n)).
Proof.
  revert m t s. induction n as [|n IH]; intros m t s.
  { cbn. by rewrite !Z.add_0_r. }
  cbn [Nat.add]. rewrite !copy_bytes_S.
  destruct (rget m s); cbn -[copy_bytes rset]; [|done].
  destruct (rset m t _); cbn -[copy_bytes rset]; [|done].
  rewrite IH. destruct (copy_bytes n _ _ _); cbn -[copy_bytes]; [|done]. f_equal; lia.
Qed.

Lemma memcopy_bytes buflen mem t s :
  0 <= buflen -> memcopy buflen mem t s = copy_bytes (Z.to_nat buflen) mem t s.
Proof.
  intros Hb. unfold memcopy.
  destruct (Z.eqb_spec (t mod 4) 0), (Z.eqb_spec (s mod 4) 0); cbn [negb orb]; [|done..].
  cbv zeta. rewrite copy_words_bytes by done.
  pose proof (Z.quot_rem' buflen 4) as Hqr. pose proof (Z.rem_bound_pos buflen 4 ltac:(lia) ltac:(lia)).
  pose proof (Z.quot_pos buflen 4 ltac:(lia) ltac:(lia)).
  replace (Z.to_nat buflen) with (4 * Z.to_nat (Z.quot buflen 4) + Z.to_nat (Z.rem buflen 4))%nat by lia.
  rewrite copy_bytes_app. destruct (copy_bytes _ mem t s); cbn -[copy_bytes Z.quot Z.rem Nat.mul]; [|done].
  f_equal; lia.
Qed.

(** Byte copies between runs that do not overlap, or towards lower addresses. *)
Lemma copy_bytes_slice n mem t s :
  0 <= s -> s + Z.of_nat n <= zlen mem -> 0 <= t -> t + Z.of_nat n <= zlen mem ->
  t <= s \/ s + Z.of_nat n <= t ->
  copy_bytes n mem t s = Ret (splice mem (Z.to_nat t) (slice mem (Z.to_nat s) n)).
Proof.
  revert mem t s. induction n as [|n IH]; intros mem t s Hs Hsn Ht Htn Hd; cbn [copy_bytes].
  { unfold slice. by rewrite take_0, splice_nil. }
  destruct (rget_in mem s) as (b & -> & Hb); [lia|]. cbn -[copy_bytes rset].
  rewrite rset_in by lia. cbn -[copy_bytes].
  rewrite IH by (rewrite ?length_insert; lia). f_equal.
  rewrite (slice_S _ _ _ b) by done. rewrite splice_cons by lia.
  replace (Z.to_nat (t + 1)) with (S (Z.to_nat t)) by lia. f_equal.
  replace (Z.to_nat (s + 1)) with (S (Z.to_nat s)) by lia.
  unfold slice. destruct (decide (t <= s)).
  - by rewrite drop_insert_lt by lia.
  - apply list_eq. intros k. destruct (decide (k < n)%nat).
    + rewrite !lookup_take_lt, !lookup_drop by done. apply list_lookup_insert_ne. lia.
    + by rewrite !lookup_take_ge by lia.
Qed.

Lemma stringcopy_run target source buflen s :
  1 <= buflen <= zlen target -> cstr source = Some s ->
  exists target', stringcopy target source buflen = Ret target' /\
    target' = splice target 0 (take (Z.to_nat (buflen - 1)) s ++ [0]) /\
    cstr target' = Some (take (Z.to_nat (buflen - 1)) s).
Proof.
  intros Hb Hs. apply cstr_inv in Hs as (Hnz & rest & ->).
  unfold stringcopy.
  pose proof (stringcopy_loop_run (Z.to_nat (buflen - 1)) target [] s rest 0 eq_refl Hnz ltac:(lia)) as Hrun.
  cbn [app] in Hrun. rewrite Hrun. eexists. split_and!; [done..|]. unfold splice. cbn [take app]. rewrite take_0.
  cbn [app]. rewrite <- app_assoc. apply cstr_app. by apply Forall_take.
Qed.

(** ** Numbers *)

(** The number a list of decimal digits denotes. *)
Definition digits_value (acc : Z) (ds : list Z) : Z := foldl (fun v d => 10 * v + d) acc ds.

Lemma digits_value_ge acc ds : 0 <= acc -> Forall (fun d => 0 <= d < 10) ds -> acc <= digits_value acc ds.
Proof.
  intros Ha Hds. revert acc Ha. induction Hds as [|d ds Hd Hds IH]; intros acc Ha; cbn; [lia|].
  specialize (IH (10 * acc + d) ltac:(lia)). unfold digits_value in IH. lia.
Qed.

Lemma atoi_digits_run ds c rest sign acc :
  (sign = 1 \/ sign = -1) -> 0 <= acc -> Forall (fun d => 0 <= d < 10) ds -> is_digit c = false ->
  is_i32 (sign * digits_value acc ds) ->
  atoi_digits (((fun d => d + 48) <$> ds) ++ c :: rest) sign (sign * acc) = Ret (sign * digits_value acc ds).
Proof.
  intros Hsign Ha Hds Hc. revert acc Ha. induction Hds as [|d ds Hd Hds IH]; intros acc Ha Hr; cbn.
  { by rewrite Hc. }
  pose proof (digits_value_ge (10 * acc + d) ds ltac:(lia) Hds) as Hge.
  unfold is_digit. destruct (Z.leb_spec 48 (d + 48)), (Z.leb_spec (d + 48) 57); try lia. cbn [andb].
  unfold digits_value, is_i32 in *. cbn in Hr.
  rewrite i32_id by (unfold is_i32; destruct Hsign; subst sign; lia).
  replace (10 * (sign * acc) + sign * (d + 48 - 48)) with (sign * (10 * acc + d)) by lia.
  apply IH; [lia|done].
Qed.

(** An optional sign, as [atoi] reads it. *)
Inductive sign_chars : list Z -> Z -> Prop :=
| no_sign : sign_chars [] 1
| plus_sign : sign_chars [43] 1
| minus_sign : sign_chars [45] (-1).

Lemma atoi_skip_run ws c rest :
  Forall (fun c => is_space c = true) ws -> is_space c = false -> atoi_skip (ws ++ c :: rest) = Ret (c :: rest).
Proof.
  intros Hws Hc. induction Hws as [|w ws Hw Hws IH]; cbn.
  - rewrite Hc. by rewrite andb_false_r.
  - rewrite Hw. destruct (Z.eqb_spec w 0) as [->|]; [done|exact IH].
Qed.

(** ** The console *)

Lemma kread_loop_run n s count line rest out :
  Forall (fun c => c <> 10 /\ is_byte c) line -> 0 <= count -> count + Z.of_nat n < zlen s ->
  kread_loop n s count (mk_polltty true (line ++ 10 :: rest) out) =
    Ret (splice s (Z.to_nat count) (take n line ++ [0]), mk_polltty true (drop (S n `min` S (length line)) (line ++ 10 :: rest)) out).
Proof.
  intros Hline. revert s count n. induction Hline as [|c line [Hc Hb] Hline IH]; intros s count n H0 Hn.
  - destruct n; cbn -[rset splice]; unfold mbind, M_bind; cbn -[rset splice]; unfold lift;
      by rewrite rset_splice by lia.
  - unfold kread_loop at 1. destruct n as [|n]; fold kread_loop.
    + cbn -[rset splice Z.eqb]. unfold mbind, M_bind. cbn -[rset splice Z.eqb].
      rewrite (proj2 (Z.eqb_neq c 10) Hc). unfold lift. by rewrite rset_splice by lia.
    + unfold mbind, M_bind. cbn -[rset splice Z.eqb kread_loop Z.modulo].
      rewrite (proj2 (Z.eqb_neq c 10) Hc). unfold lift. rewrite rset_in by lia.
      rewrite IH by (rewrite ?length_insert; lia).
      unfold is_byte in Hb. rewrite Z.mod_small by lia. do 2 f_equal.
      cbn [take app]. rewrite splice_cons by lia. f_equal. lia.
Qed.

(** ** The theorems *)

(** On null-terminated strings [stringcmp] terminates inside both
    objects; it answers 0 exactly when the strings are equal, the opposite
    number when its arguments are exchanged, and for ASCII text the sign of
    the answer is the dictionary order. *)
Theorem stringcmp_correct l1 l2 a b :
  Forall is_byte l1 -> Forall is_byte l2 -> cstr l1 = Some a -> cstr l2 = Some b ->
  exists r, stringcmp l1 l2 = Ret r /\ stringcmp l2 l1 = Ret (- r) /\ (r = 0 <-> a = b) /\
    (Forall ascii a -> Forall ascii b -> (r <? 0) = str_lt a b).
Proof. apply stringcmp_run. Qed.

Lemma stringcmp_correct_witness :
  exists r, stringcmp [104; 105; 0; 7] [104; 111; 0] = Ret r /\ (r <? 0) = true.
Proof.
  destruct (stringcmp_correct [104; 105; 0; 7] [104; 111; 0] [104; 105] [104; 111])
    as (r & Hr & _ & _ & Hlt); [| |reflexivity|reflexivity|].
  - repeat constructor; lia.
  - repeat constructor; lia.
  - exists r. split; [exact Hr|]. rewrite Hlt; [reflexivity| |]; repeat constructor; lia.
Defined.

(** Into a target of at least [buflen] bytes, [stringcopy]
    writes the first [buflen - 1] characters of the source string and a null
    and nothing else: the result is always null-terminated, and the bytes
    after the null keep what the target held, whether the source string was
    shorter than [buflen - 1] or not. *)
Theorem stringcopy_correct target source buflen s :
  1 <= buflen <= zlen target -> cstr source = Some s ->
  exists target', stringcopy target source buflen = Ret target' /\
    target' = splice target 0 (take (Z.to_nat (buflen - 1)) s ++ [0]) /\
    cstr target' = Some (take (Z.to_nat (buflen - 1)) s).
Proof. apply stringcopy_run. Qed.

Lemma stringcopy_correct_witness :
  exists target', stringcopy [9; 9; 9; 9; 9; 9] [104; 105; 0] 6 = Ret target' /\
    target' = [104; 105; 0; 9; 9; 9].
Proof.
  destruct (stringcopy_correct [9; 9; 9; 9; 9; 9] [104; 105; 0] 6 [104; 105])
    as (target' & Hrun & Heq & _); [cbn; lia|reflexivity|].
  exists target'. split; [exact Hrun|exact Heq].
Defined.

(** The word-at-a-time path of [memcopy] is equivalent to the
    byte loop, for every length, every pair of addresses and every overlap of
    the two regions; in particular a copy between regions that do not overlap
    (or towards lower addresses) writes exactly the source bytes at the
    target. *)
Theorem memcopy_correct buflen mem t s :
  0 <= buflen ->
  memcopy buflen mem t s = copy_bytes (Z.to_nat buflen) mem t s /\
  (0 <= s -> s + buflen <= zlen mem -> 0 <= t -> t + buflen <= zlen mem ->
   t <= s \/ s + buflen <= t ->
   memcopy buflen mem t s = Ret (splice mem (Z.to_nat t) (slice mem (Z.to_nat s) (Z.to_nat buflen)))).
Proof.
  intros Hb. rewrite memcopy_bytes by done. split; [done|].
  intros. apply copy_bytes_slice; lia.
Qed.

Lemma memcopy_correct_witness :
  memcopy 6 [1; 2; 3; 4; 5; 6; 7; 8; 0; 0; 0; 0; 0; 0; 0; 0] 8 0
    = Ret [1; 2; 3; 4; 5; 6; 7; 8; 1; 2; 3; 4; 5; 6; 0; 0].
Proof.
  refine (eq_trans (proj2 (memcopy_correct 6 _ 8 0 _) _ _ _ _ _) _); try (cbn; lia). reflexivity.
Defined.

(** On white space, an optional sign and at least one digit,
    followed by anything that is not a digit, [atoi] answers the number
    written there, as long as it fits an [int]. *)
Theorem atoi_correct ws sgn sign ds c rest :
  Forall (fun c => is_space c = true) ws -> sign_chars sgn sign ->
  ds <> [] -> Forall (fun d => 0 <= d < 10) ds -> is_digit c = false ->
  is_i32 (sign * digits_value 0 ds) ->
  atoi (ws ++ sgn ++ ((fun d => d + 48) <$> ds) ++ c :: rest) = Ret (sign * digits_value 0 ds).
Proof.
  intros Hws Hsgn Hds Hd Hc Hr. destruct ds as [|d ds]; [done|].
  pose proof Hd as [Hd0 _]%Forall_cons.
  assert (Hsp : is_space (d + 48) = false).
  { unfold is_space. destruct (Z.eqb_spec (d + 48) 32), (Z.eqb_spec (d + 48) 9), (Z.eqb_spec (d + 48) 13),
      (Z.eqb_spec (d + 48) 10); lia || done. }
  assert (Hrun : forall sign, (sign = 1 \/ sign = -1) -> is_i32 (sign * digits_value 0 (d :: ds)) ->
    atoi_digits (((fun d => d + 48) <$> (d :: ds)) ++ c :: rest) sign 0 = Ret (sign * digits_value 0 (d :: ds))).
  { intros sg Hsg Hr'. rewrite <- (atoi_digits_run (d :: ds) c rest sg 0) by (done || lia). by rewrite Z.mul_0_r. }
  unfold atoi. destruct Hsgn; cbn [app fmap list_fmap] in *.
  - rewrite atoi_skip_run by done. cbn -[atoi_digits].
    destruct (Z.eqb_spec (d + 48) 0), (Z.eqb_spec (d + 48) 45), (Z.eqb_spec (d + 48) 43); try lia.
    apply Hrun; [by left|done].
  - rewrite atoi_skip_run by done. apply Hrun; [by left|done].
  - rewrite atoi_skip_run by done. apply Hrun; [by right|done].
Qed.

Lemma atoi_correct_witness : atoi [32; 45; 50; 51; 97; 0] = Ret (-23).
Proof.
  refine (atoi_correct [32] [45] (-1) [2; 3] 97 [0] _ minus_sign _ _ _ _).
  - repeat constructor.
  - discriminate.
  - repeat constructor; lia.
  - reflexivity.
  - vm_check.
Defined.

(** [kread] stores at most [len - 1] characters of the line and a
    null, all inside the buffer; it consumes the newline, or, when the line
    does not fit, the first character that does not fit. *)
Theorem kread_correct s len line rest out :
  1 <= len <= zlen s -> Forall (fun c => c <> 10 /\ is_byte c) line ->
  kread s len (mk_polltty true (line ++ 10 :: rest) out) =
    Ret (splice s 0 (take (Z.to_nat (len - 1)) line ++ [0]),
         mk_polltty true (drop (Z.to_nat len `min` S (length line)) (line ++ 10 :: rest)) out).
Proof.
  intros Hlen Hline. unfold kread. rewrite kread_loop_run by (done || lia).
  do 4 f_equal. lia.
Qed.

Lemma kread_correct_witness :
  kread [7; 7; 7; 7] 3 (mk_polltty true [97; 98; 99; 100; 10] []) =
    Ret ([97; 98; 0; 7], mk_polltty true [100; 10] []).
Proof.
  refine (eq_trans (kread_correct [7; 7; 7; 7] 3 [97; 98; 99; 100] [] [] _ _) eq_refl).
  - cbn. lia.
  - repeat constructor; lia.
Defined.
