(* ===== verification/Cpu.v ===== *)
(** * kernel/_interrupt.S, kernel/_spinlock.S: interrupt state and spinlocks

    The part of the processor the kernel's critical sections manipulate: the
    Status register of co-processor 0 and the words of the spinlocks.  Every
    component that runs critical sections embeds a [cpu] in its state, through
    the class [HasCpu]. *)
From S2P Require Import Prelude.

(** ** The code *)

Record cpu := mk_cpu {
  status : Z;        (** the CP0 Status register *)
  held : gset Z      (** addresses of the spinlocks whose word is not zero *)
}.

Class HasCpu (S : Type) := {
  cpu_of : S -> cpu;
  with_cpu : cpu -> S -> S;
  cpu_of_with c s : cpu_of (with_cpu c s) = c;
  with_cpu_of s : with_cpu (cpu_of s) s = s;
  with_cpu_with c c' s : with_cpu c (with_cpu c' s) = with_cpu c s
}.

Section cpu_ops.
Context {S : Type} `{!HasCpu S}.

Definition set_status (v : Z) (s : S) : S :=
  with_cpu (mk_cpu v (held (cpu_of s))) s.
Definition set_held (h : gset Z) (s : S) : S :=
  with_cpu (mk_cpu (status (cpu_of s)) h) s.

(** Each returns the Status register as it was. *)
Definition interrupt_disable : M S Z := fun s =>
  let st := status (cpu_of s) in Ret (st, set_status (Z.land 0xffff00fe st) s).
Definition interrupt_enable : M S Z := fun s =>
  let st := status (cpu_of s) in Ret (st, set_status (Z.lor 0x0000ff01 st) s).
Definition interrupt_set_state (a0 : Z) : M S Z := fun s =>
  let st := status (cpu_of s) in
  Ret (st, set_status (Z.lor (Z.land 0x0000ff01 a0) (Z.land st (u32 (Z.lnot 0x0000ff01)))) s).
Definition interrupt_get_state : M S Z := gets (fun s => status (cpu_of s)).

(** Acquiring a held spinlock spins until another processor releases it: the
    caller gets no further by itself. *)
Definition spinlock_acquire (l : Z) : M S unit := fun s =>
  if decide (l ∈ held (cpu_of s)) then Fail Blocked
  else Ret (tt, set_held ({[l]} ∪ held (cpu_of s)) s).
(** [spinlock_release] and [spinlock_reset] are one routine. *)
Definition spinlock_release (l : Z) : M S unit :=
  modify (fun s => set_held (held (cpu_of s) ∖ {[l]}) s).
Definition spinlock_reset : Z -> M S unit := spinlock_release.

(** The bracket the kernel's critical sections are written in:
<<
  st = _interrupt_disable(); spinlock_acquire(&l);
  ... body ...
  spinlock_release(&l); _interrupt_set_state(st);
>>
    Functions that leave the section on several paths release on each of
    them; [body] then answers which path was taken. *)
Definition critical {A} (l : Z) (body : M S A) : M S A :=
  st ← interrupt_disable;
  _ ← spinlock_acquire l;
  a ← body;
  _ ← spinlock_release l;
  _ ← interrupt_set_state st;
  mret a.
End cpu_ops.

#[export] Instance HasCpu_cpu : HasCpu cpu.
Proof. refine {| cpu_of c := c; with_cpu c _ := c |}; done. Defined.

(** ** Facts *)

(** The processor can enter the critical section of spinlock [l]. *)
Definition cpu_ready (l : Z) (c : cpu) : Prop := is_u32 (status c) /\ l ∉ held c.

(** Interrupts are off: what [_interrupt_disable] establishes and
    [sleepq_add] requires. *)
Definition interrupts_off (st : Z) : Prop := Z.land st 0xff01 = 0.

Definition all_but_irq : Z := 0xffff00fe.

Lemma irq_masks_disjoint : Z.land 0xff01 all_but_irq = 0 /\ Z.lor 0xff01 all_but_irq = Z.ones 32.
Proof. done. Qed.

Lemma disable_off st : interrupts_off (Z.land 0xffff00fe st).
Proof.
  unfold interrupts_off. rewrite (Z.land_comm 0xffff00fe), <- Z.land_assoc.
  change (Z.land 0xffff00fe 0xff01) with 0. apply Z.land_0_r.
Qed.

(** Restoring the state saved by [_interrupt_disable] gives the Status
    register back exactly. *)
Lemma restore_status st :
  is_u32 st ->
  Z.lor (Z.land 0x0000ff01 st) (Z.land (Z.land 0xffff00fe st) (u32 (Z.lnot 0x0000ff01))) = st.
Proof.
  intros Hst. change (u32 (Z.lnot 0x0000ff01)) with 0xffff00fe.
  rewrite (Z.land_comm (Z.land 0xffff00fe st)), Z.land_assoc.
  change (Z.land 0xffff00fe 0xffff00fe) with 0xffff00fe.
  rewrite <- Z.land_lor_distr_l. change (Z.lor 0xff01 0xffff00fe) with (Z.ones 32).
  rewrite Z.land_comm, Z.land_ones by lia. apply Z.mod_small. exact Hst.
Qed.

Lemma is_u32_land a b : is_u32 a -> 0 <= b -> is_u32 (Z.land a b).
Proof.
  unfold is_u32. intros Ha Hb. split; [apply Z.land_nonneg; lia|].
  assert (Z.land a b <= a); [|lia].
  apply Z.ldiff_le; [lia|]. apply Z.bits_inj'. intros n Hn.
  rewrite Z.ldiff_spec, Z.land_spec, Z.bits_0. by destruct (Z.testbit a n), (Z.testbit b n).
Qed.

(** Releasing a spinlock that was not held before it was acquired. *)
Lemma held_release (l : Z) (h : gset Z) : l ∉ h -> ({[l]} ∪ h) ∖ {[l]} = h.
Proof. set_solver. Qed.

Section cpu_facts.
Context {S : Type} `{!HasCpu S}.
Implicit Types s : S.

(** Two states that agree on everything but the processor. *)
Definition same_but_cpu s s' : Prop := exists c, s' = with_cpu c s.

Lemma cpu_of_set_status v s : cpu_of (set_status v s) = mk_cpu v (held (cpu_of s)).
Proof. apply cpu_of_with. Qed.
Lemma cpu_of_set_held h s : cpu_of (set_held h s) = mk_cpu (status (cpu_of s)) h.
Proof. apply cpu_of_with. Qed.

(** The processor inside a critical section entered from [s]. *)
Definition inside (l : Z) s : cpu :=
  mk_cpu (Z.land 0xffff00fe (status (cpu_of s))) ({[l]} ∪ held (cpu_of s)).

Lemma enter_section l s :
  l ∉ held (cpu_of s) ->
  (st ← interrupt_disable; _ ← spinlock_acquire l; mret st) s
    = Ret (status (cpu_of s), with_cpu (inside l s) s).
Proof.
  intros Hl. unfold mbind, M_bind, interrupt_disable, spinlock_acquire, set_status, set_held.
  rewrite !cpu_of_with. cbn [status held].
  rewrite decide_False by done. unfold mret, M_ret. by rewrite with_cpu_with.
Qed.

Lemma leave_section {A} l (a : A) s s1 c :
  is_u32 (status c) -> l ∉ held c -> cpu_of s1 = mk_cpu (Z.land 0xffff00fe (status c)) ({[l]} ∪ held c) ->
  (_ ← spinlock_release l; _ ← interrupt_set_state (status c); mret a) s1 = Ret (a, with_cpu c s1).
Proof.
  intros Hst Hl Hc. unfold mbind, M_bind, spinlock_release, modify, interrupt_set_state, set_status, set_held.
  rewrite !cpu_of_with, Hc. cbn [status held]. unfold mret, M_ret.
  rewrite with_cpu_with, restore_status by done.
  rewrite held_release by done.
  by destruct c.
Qed.

Lemma wp_disable (Q : Z -> S -> Prop) s :
  Q (status (cpu_of s)) (with_cpu (mk_cpu (Z.land 0xffff00fe (status (cpu_of s))) (held (cpu_of s))) s) ->
  wp interrupt_disable Q s.
Proof. done. Qed.

Lemma wp_restore st (Q : Z -> S -> Prop) s :
  is_u32 st -> status (cpu_of s) = Z.land 0xffff00fe st ->
  (forall a, Q a (with_cpu (mk_cpu st (held (cpu_of s))) s)) ->
  wp (interrupt_set_state st) Q s.
Proof.
  intros Hst Hs HQ. unfold wp, interrupt_set_state, set_status. rewrite Hs, restore_status by done. apply HQ.
Qed.

Lemma wp_acquire l (Q : unit -> S -> Prop) s :
  l ∉ held (cpu_of s) -> Q tt (with_cpu (mk_cpu (status (cpu_of s)) ({[l]} ∪ held (cpu_of s))) s) ->
  wp (spinlock_acquire l) Q s.
Proof. intros Hl HQ. unfold wp, spinlock_acquire, set_held. by rewrite decide_False. Qed.

Lemma wp_release l (Q : unit -> S -> Prop) s :
  Q tt (with_cpu (mk_cpu (status (cpu_of s)) (held (cpu_of s) ∖ {[l]})) s) ->
  wp (spinlock_release l) Q s.
Proof. done. Qed.

Lemma wp_critical {A} l (body : M S A) (Q : A -> S -> Prop) s :
  is_u32 (status (cpu_of s)) -> l ∉ held (cpu_of s) ->
  wp body (fun a s1 => cpu_of s1 = inside l s /\ Q a (with_cpu (cpu_of s) s1))
     (with_cpu (inside l s) s) ->
  wp (critical l body) Q s.
Proof.
  intros Hst Hl Hbody. unfold critical.
  apply wp_run in Hbody as (a & s1 & Hrun & Hc & HQ).
  pose proof (enter_section l s Hl) as He.
  apply bind_inv in He as (st & s2 & Hd & He).
  apply bind_inv in He as (u & s3 & Ha & [= -> ->]).
  apply wp_run. exists a, (with_cpu (cpu_of s) s1). split; [|done].
  erewrite bind_run by exact Hd. erewrite bind_run by exact Ha.
  erewrite bind_run by exact Hrun.
  apply leave_section; done.
Qed.

Lemma fails_critical {A} l (body : M S A) f s :
  l ∉ held (cpu_of s) -> fails f body (with_cpu (inside l s) s) -> fails f (critical l body) s.
Proof.
  intros Hl Hbody. unfold critical. apply fails_bind, wp_disable, fails_bind, wp_acquire; [by rewrite cpu_of_with|].
  rewrite with_cpu_with, cpu_of_with. by apply fails_bind_l.
Qed.
End cpu_facts.

(** ** Where the linker puts the spinlocks

    [spinlock_acquire] and the sleep queue identify locks and resources by
    address.  The addresses are the linker's; the code relies on their being
    non-zero [uint32_t]s and on different objects having different ones.  A
    [semaphore_t] is 12 bytes, a [lock_t] 20 and a [cond_t] 12, and the first
    member of each is its spinlock. *)
Definition CONFIG_MAX_SEMAPHORES : Z := 128.
Definition CONFIG_MAX_LOCKS : Z := 128.
Definition CONFIG_MAX_CONDITION_VARIABLES : Z := 128.

Class Symbols := {
  pagepool_slock : Z;
  thread_table_slock : Z;
  sleepq_slock : Z;
  semaphore_table_slock : Z;
  lock_table_slock : Z;
  cond_table_slock : Z;
  semaphore_table : Z;
  lock_table : Z;
  cond_table : Z
}.
Definition sem_addr `{Symbols} (i : Z) : Z := semaphore_table + 12 * i.
Definition lock_addr `{Symbols} (i : Z) : Z := lock_table + 20 * i.
Definition cond_addr `{Symbols} (i : Z) : Z := cond_table + 12 * i.

Definition spinlock_addresses `{Symbols} : list Z :=
  [pagepool_slock; thread_table_slock; sleepq_slock; semaphore_table_slock;
   lock_table_slock; cond_table_slock]
  ++ (sem_addr <$> seqZ 0 CONFIG_MAX_SEMAPHORES)
  ++ (lock_addr <$> seqZ 0 CONFIG_MAX_LOCKS)
  ++ (cond_addr <$> seqZ 0 CONFIG_MAX_CONDITION_VARIABLES).

Class Layout `{Symbols} : Prop := {
  layout_nodup : NoDup spinlock_addresses;
  layout_range : Forall (fun a => 0 < a < 4294967296) spinlock_addresses
}.

(** A layout, for concrete runs. *)
Definition example_symbols : Symbols := {|
  pagepool_slock := 0x80020000; thread_table_slock := 0x80020004; sleepq_slock := 0x80020008;
  semaphore_table_slock := 0x8002000c; lock_table_slock := 0x80020010; cond_table_slock := 0x80020014;
  semaphore_table := 0x80021000; lock_table := 0x80022000; cond_table := 0x80023000 |}.
Lemma example_layout : @Layout example_symbols.
Proof.
  split.
  - apply (bool_decide_unpack _). vm_compute. exact I.
  - apply (bool_decide_unpack _). vm_compute. exact I.
Qed.
