(* ===== verification/Kmalloc.v ===== *)
(** * kernel/kmalloc.c: permanent kernel memory

    A bump allocator over the unmapped segment that starts at 0x80000000.
    The I/O descriptor area and the device ports are hardware: [io_desc]
    lists the descriptors (type, I/O area base) and [io_read] reads a port. *)
From S2P Require Import Prelude.

Definition PAGE_SIZE : Z := 4096.
Definition YAMS_MAX_DEVICES : Z := 128.
Definition YAMS_TYPECODE_MEMINFO : Z := 0x101.

(** ** The code *)

Record kmem := mk_kmem {
  free_area_start : Z;   (** uint32_t *)
  memory_end : Z         (** uint32_t *)
}.

(** [if (p & 3) { p += 4; p &= 0xfffffffc; }] *)
Definition align_word (p : Z) : Z :=
  if negb (Z.land p 3 =? 0) then Z.land (u32 (p + 4)) 0xfffffffc else p.

Section kmalloc.
Context (io_desc : list (Z * Z)) (io_read : Z -> Z) (KERNEL_ENDS_HERE : Z).

(** The search of [kmalloc_get_numpages]; [n] descriptors are left. *)
Fixpoint find_meminfo (n : nat) (i : Z) : res Z :=
  match n with
  | O => Ret 0
  | S n =>
      '(type, io_area_base) ← rget io_desc i;
      if type =? YAMS_TYPECODE_MEMINFO then Ret (u32 (io_read io_area_base))
      else find_meminfo n (i + 1)
  end.
Definition kmalloc_get_numpages : res Z :=
  num_pages ← find_meminfo (Z.to_nat YAMS_MAX_DEVICES) 0;
  if num_pages =? 0 then Fail Panic else Ret (i32 num_pages).

Definition kmalloc_init : M kmem unit :=
  num_pages ← lift kmalloc_get_numpages;
  let system_memory_size := u32 (num_pages * PAGE_SIZE) in
  modify (fun _ => mk_kmem (align_word KERNEL_ENDS_HERE) (u32 (0x80000000 + system_memory_size))).
End kmalloc.

Definition kmalloc_get_reserved_pages (k : kmem) : Z :=
  let off := u32 (free_area_start k - 0x80000000) in
  let num_res_pages := off / PAGE_SIZE in
  if negb (off mod PAGE_SIZE =? 0) then num_res_pages + 1 else num_res_pages.

Definition kmalloc_disable : M kmem unit :=
  modify (fun k => mk_kmem 0xffffffff (memory_end k)).

Definition kmalloc (bytes : Z) : M kmem Z := fun k =>
  if free_area_start k =? 0xffffffff then Fail Panic
  else if free_area_start k =? 0 then Fail Panic
  else if bytes <? 0 then Fail Panic
  else if u32 (free_area_start k + bytes) >? memory_end k then Fail Panic
  else Ret (free_area_start k, mk_kmem (align_word (u32 (free_area_start k + bytes))) (memory_end k)).

(** A run of allocations, as the boot code makes them. *)
Fixpoint kmalloc_all (sizes : list Z) : M kmem (list (Z * Z)) :=
  match sizes with
  | [] => mret []
  | bytes :: sizes =>
      p ← kmalloc bytes;
      ps ← kmalloc_all sizes;
      mret ((p, bytes) :: ps)
  end.

(** ** Facts *)

(** Between [kmalloc_init] and [kmalloc_disable]. *)
Definition kmem_ok (k : kmem) : Prop :=
  0 < free_area_start k <= memory_end k /\ memory_end k < 0xfffffffc /\
  free_area_start k mod 4 = 0 /\ memory_end k mod 4 = 0.

Lemma align_word_spec p :
  0 <= p < 0xfffffffc ->
  p <= align_word p < p + 4 /\ align_word p mod 4 = 0 /\ (p mod 4 = 0 -> align_word p = p).
Proof.
  intros Hp. unfold align_word. change 3 with (Z.ones 2). rewrite Z.land_ones by lia.
  change (2 ^ 2) with 4.
  pose proof (Z.div_mod p 4). pose proof (Z.mod_pos_bound p 4).
  destruct (Z.eqb_spec (p mod 4) 0); cbn [negb].
  - split_and!; lia.
  - rewrite u32_id by (unfold is_u32; lia).
    change 0xfffffffc with (Z.ldiff (Z.ones 32) (Z.ones 2)).
    assert (Hl : Z.land (p + 4) (Z.ldiff (Z.ones 32) (Z.ones 2)) = 4 * ((p + 4) / 4)).
    { rewrite Z.ldiff_land, Z.land_assoc, (Z.land_ones _ 32), Z.mod_small by lia.
      rewrite <- Z.ldiff_land, Z.ldiff_ones_r, Z.shiftr_div_pow2, Z.shiftl_mul_pow2 by lia.
      change (2 ^ 2) with 4. lia. }
    rewrite Hl. replace ((p + 4) / 4) with (p / 4 + 1) by (rewrite <- Z.div_add by lia; f_equal; lia).
    split_and!; [lia..| |lia].
    rewrite Z.mul_comm. apply Z.mod_mul. lia.
Qed.

(** A successful allocation, when the 32-bit sum does not wrap. *)
Lemma kmalloc_step k bytes p k' :
  kmem_ok k -> free_area_start k + bytes < 4294967296 ->
  kmalloc bytes k = Ret (p, k') ->
  p = free_area_start k /\ 0 <= bytes /\ memory_end k' = memory_end k /\ kmem_ok k' /\
  p + bytes <= free_area_start k' /\ free_area_start k' <= memory_end k.
Proof.
  intros (Hf & Hm & Ha & Hma) Hw. unfold kmalloc.
  repeat case_bool; try done. intros [= <- <-].
  rewrite Z.gtb_ltb in *. zbool. rewrite u32_id in * by (unfold is_u32; lia).
  destruct (align_word_spec (free_area_start k + bytes)) as (H1 & H2 & H3); [lia|].
  assert (align_word (free_area_start k + bytes) <= memory_end k).
  { pose proof (Z.div_mod (memory_end k) 4). pose proof (Z.div_mod (align_word (free_area_start k + bytes)) 4). lia. }
  unfold kmem_ok. cbn. split_and!; lia.
Qed.

(** A word-aligned request ends where the next free area starts. *)
Lemma kmalloc_end k bytes p k' :
  kmem_ok k -> 0 <= bytes -> free_area_start k + bytes <= memory_end k -> bytes mod 4 = 0 ->
  kmalloc bytes k = Ret (p, k') -> free_area_start k' = free_area_start k + bytes.
Proof.
  intros (Hf & Hm & Ha & Hma) Hb Hle Hmod. unfold kmalloc.
  repeat case_bool; try done. intros [= <- <-]. cbn.
  rewrite u32_id by (unfold is_u32; lia).
  apply align_word_spec; [lia|]. rewrite Z.add_mod, Ha, Hmod by lia. done.
Qed.

(** Blocks in address order, each ending before the next begins. *)
Definition in_order (ps : list (Z * Z)) : Prop :=
  forall i j p b q c, (i < j)%nat -> ps !! i = Some (p, b) -> ps !! j = Some (q, c) -> p + b <= q.
Definition within (lo hi : Z) (ps : list (Z * Z)) : Prop :=
  Forall (fun '(p, b) => lo <= p /\ 0 <= b /\ p + b <= hi /\ p mod 4 = 0) ps.

Lemma kmalloc_all_run sizes k ps k' :
  kmem_ok k -> Forall (fun b => b + memory_end k < 4294967296) sizes ->
  kmalloc_all sizes k = Ret (ps, k') ->
  (kmem_ok k' /\ memory_end k' = memory_end k /\ free_area_start k <= free_area_start k') /\
  snd <$> ps = sizes /\ in_order ps /\ within (free_area_start k) (free_area_start k') ps.
Proof.
  revert k ps. induction sizes as [|b sizes IH]; intros k ps Hk Hs; cbn [kmalloc_all].
  { intros [= <- <-]. split_and!; try done; lia || by constructor. }
  apply Forall_cons in Hs as [Hb Hs]. intros Hrun.
  apply bind_inv in Hrun as (p & k1 & Hp & Hrun).
  apply bind_inv in Hrun as (qs & k2 & Hqs & [= <- <-]).
  pose proof Hk as (Hf & Hm & Ha & Hma).
  apply kmalloc_step in Hp as (-> & H0 & Hme & Hk1 & Hle & Hend); [|done|lia].
  destruct (IH k1 qs) as ((Hk2 & Hme2 & Hmono) & Hsnd & Hord & Hin); [done|by rewrite Hme|done|].
  unfold within in *. rewrite Forall_forall in Hin. split_and!; try done.
  - lia.
  - lia.
  - cbn. by rewrite Hsnd.
  - intros i j p c q d Hij Hi Hj. destruct j as [|j]; [lia|]. cbn in Hj.
    destruct i as [|i]; cbn in Hi.
    + injection Hi as <- <-. apply list_elem_of_lookup_2, Hin in Hj. lia.
    + eapply (Hord i j); eauto. lia.
  - apply Forall_cons. split; [split_and!; lia|].
    apply Forall_forall. intros [q c] Hq%Hin. lia.
Qed.

(** Every run of successful [kmalloc] calls between
    [kmalloc_init] and [kmalloc_disable] hands out word-aligned blocks of the
    requested sizes that lie between the free area's start and the end of
    memory and never overlap, as long as no request makes the 32-bit sum of
    the bounds check wrap. *)
Theorem kmalloc_blocks_disjoint k sizes ps k' :
  kmem_ok k -> Forall (fun b => b + memory_end k < 4294967296) sizes ->
  kmalloc_all sizes k = Ret (ps, k') ->
  snd <$> ps = sizes /\ in_order ps /\ within (free_area_start k) (memory_end k) ps /\ kmem_ok k'.
Proof.
  intros Hk Hs Hrun.
  destruct (kmalloc_all_run _ _ _ _ Hk Hs Hrun) as ((Hk' & Hme & _) & Hsnd & Hord & Hin).
  split_and!; try done.
  destruct Hk' as (Hf & _). rewrite Hme in Hf.
  eapply Forall_impl; [exact Hin|]. intros [p b]. cbn. lia.
Qed.

Lemma kmalloc_blocks_disjoint_witness :
  exists ps k',
    kmalloc_all [10; 0; 512] (mk_kmem 0x80010000 0x80100000) = Ret (ps, k') /\
    in_order ps /\ ps = [(0x80010000, 10); (0x8001000c, 0); (0x8001000c, 512)].
Proof.
  eexists _, _. split; [reflexivity|]. split; [|reflexivity].
  refine (proj1 (proj2 (kmalloc_blocks_disjoint (mk_kmem 0x80010000 0x80100000) [10; 0; 512] _ _ _ _ eq_refl))).
  - vm_check.
  - repeat constructor; cbn; lia.
Defined.
