(* ===== verification/Pagepool.v ===== *)
(** * vm/pagepool.c: the pool of physical pages

    The allocator of 4 KB pages: a bitmap of the reserved pages, the count of
    the free ones and the end of the statically reserved part.  The state
    embeds the static allocator ([pagepool_init] allocates the bitmap with
    [kmalloc]) and the processor. *)
From S2P Require Import Prelude Bitmap Cpu Kmalloc.

(** ** The code *)

Record pool := mk_pool {
  pagepool_free_pages : list Z;    (** bitmap_t *, one bit per page, set = reserved *)
  pagepool_num_pages : Z;
  pagepool_num_free_pages : Z;
  pagepool_static_end : Z
}.
Record pmem := mk_pmem {
  pm_kmem : kmem;
  pm_pool : pool;
  pm_cpu : cpu
}.
#[export] Instance HasCpu_pmem : HasCpu pmem.
Proof.
  refine {| cpu_of := pm_cpu; with_cpu c s := mk_pmem (pm_kmem s) (pm_pool s) c |}; by intros; destruct_and?; try destruct s.
Defined.

Definition with_kmem (k : kmem) (s : pmem) : pmem := mk_pmem k (pm_pool s) (pm_cpu s).
Definition with_pool (p : pool) (s : pmem) : pmem := mk_pmem (pm_kmem s) p (pm_cpu s).
Definition on_kmem {A} (m : M kmem A) : M pmem A := fun s =>
  match m (pm_kmem s) with Ret (a, k) => Ret (a, with_kmem k s) | Fail f => Fail f end.

Definition ADDR_PHYS_TO_KERNEL (addr : Z) : Z := Z.lor addr 0x80000000.
Definition ADDR_KERNEL_TO_PHYS (addr : Z) : Z := Z.land addr 0x7fffffff.

Section pagepool.
Context `{Symbols}.

(** [for (i = 0; i < n; i++) bitmap_set(bitmap, i, 1)] *)
Fixpoint reserve_first (n : nat) (i : Z) (bitmap : list Z) : res (list Z) :=
  match n with
  | O => Ret bitmap
  | S n => b ← bitmap_set bitmap i 1; reserve_first n (i + 1) b
  end.

(** [ram] is the content of the words [kmalloc] hands out. *)
Definition pagepool_init (io_desc : list (Z * Z)) (io_read ram : Z -> Z) : M pmem unit :=
  num_pages ← lift (kmalloc_get_numpages io_desc io_read);
  p ← on_kmem (kmalloc (bitmap_sizeof num_pages));
  let words := (fun i => ram (p + 4 * i)) <$> seqZ 0 (Z.quot (bitmap_sizeof num_pages) 4) in
  bitmap ← lift (bitmap_init words num_pages);
  k ← gets pm_kmem;
  let num_res_pages := kmalloc_get_reserved_pages k in
  bitmap' ← lift (reserve_first (Z.to_nat num_res_pages) 0 bitmap);
  _ ← modify (with_pool (mk_pool bitmap' num_pages (num_pages - num_res_pages) num_res_pages));
  spinlock_reset pagepool_slock.

Definition pagepool_get_phys_page : M pmem Z :=
  i ← critical pagepool_slock (
    p ← gets pm_pool;
    if pagepool_num_free_pages p >? 0 then
      '(bitmap, i) ← lift (bitmap_findnset (pagepool_free_pages p) (pagepool_num_pages p));
      let nfree := pagepool_num_free_pages p - 1 in
      _ ← modify (with_pool (mk_pool bitmap (pagepool_num_pages p) nfree (pagepool_static_end p)));
      _ ← kassert ((i >=? 0) && (nfree >=? 0));
      mret i
    else mret 0);
  mret (u32 (i * PAGE_SIZE)).

Definition pagepool_free_phys_page (phys_addr : Z) : M pmem unit :=
  let i := i32 (phys_addr / PAGE_SIZE) in
  p ← gets pm_pool;
  _ ← kassert (i >=? pagepool_static_end p);
  critical pagepool_slock (
    p ← gets pm_pool;
    b ← lift (bitmap_get (pagepool_free_pages p) i);
    _ ← kassert (b =? 1);
    bitmap ← lift (bitmap_set (pagepool_free_pages p) i 0);
    modify (with_pool (mk_pool bitmap (pagepool_num_pages p)
                         (pagepool_num_free_pages p + 1) (pagepool_static_end p)))).

Definition pagepool_get_free_pages : M pmem Z :=
  gets (fun s => pagepool_num_free_pages (pm_pool s)).
End pagepool.

(** ** The invariant *)

(** The page [i] is reserved. *)
Definition reserved (p : pool) (i : Z) : bool := bit (pagepool_free_pages p) i.

Record pool_ok (p : pool) : Prop := {
  po_words : words_ok (pagepool_free_pages p);
  po_pages : 0 <= pagepool_num_pages p <= bits (pagepool_free_pages p);
  po_max : pagepool_num_pages p <= 1048576;
  po_count : pagepool_num_free_pages p =
             clears (pagepool_free_pages p) (Z.to_nat (pagepool_num_pages p));
  po_static : 0 < pagepool_static_end p <= pagepool_num_pages p;
  po_kernel : forall i, 0 <= i < pagepool_static_end p -> reserved p i = true
}.

(** [p'] is [p] with page [i] taken ([true]) or returned ([false]). *)
Definition page_update (p p' : pool) (i : Z) (v : bool) : Prop :=
  pagepool_num_pages p' = pagepool_num_pages p /\
  pagepool_static_end p' = pagepool_static_end p /\
  pagepool_num_free_pages p' = pagepool_num_free_pages p + (if v then -1 else 1) /\
  updates_bit (pagepool_free_pages p) (pagepool_free_pages p') i v.

(** ** Facts *)

Lemma page_update_ok p p' i v :
  pool_ok p -> page_update p p' i v -> pagepool_static_end p <= i < pagepool_num_pages p ->
  reserved p i = negb v -> pool_ok p'.
Proof.
  intros [Hw Hp Hx Hc Hs Hk] (Hn & Hse & Hf & Hu) Hi Hb.
  pose proof Hu as (Hlen & Hw' & Hbit).
  assert (Hbits : bits (pagepool_free_pages p') = bits (pagepool_free_pages p)) by (unfold bits; by rewrite Hlen).
  split; rewrite ?Hn, ?Hse, ?Hbits; try done.
  - rewrite Hf, Hc, (clears_update _ _ _ _ _ Hu) by lia.
    destruct (Z.ltb_spec i (Z.of_nat (Z.to_nat (pagepool_num_pages p)))); [|lia].
    unfold reserved in Hb. rewrite Hb. destruct v; cbn; lia.
  - intros j Hj. unfold reserved. rewrite Hbit by lia.
    destruct (Z.eqb_spec j i); [lia|]. by apply Hk.
Qed.

Section pagepool_facts.
Context `{Symbols}.

Lemma with_pool_with_cpu p c s : with_pool p (with_cpu c s) = with_cpu c (with_pool p s).
Proof. done. Qed.

(** Allocation: the first page not reserved is handed out and becomes
    reserved; with no free page the answer is 0 and nothing changes. *)
Lemma get_phys_page_run s :
  pool_ok (pm_pool s) -> cpu_ready pagepool_slock (pm_cpu s) ->
  wp pagepool_get_phys_page (fun addr s' =>
    (pagepool_num_free_pages (pm_pool s) = 0 /\ addr = 0 /\ s' = s) \/
    exists i p', addr = i * PAGE_SIZE /\ s' = with_pool p' s /\
      pagepool_static_end (pm_pool s) <= i < pagepool_num_pages (pm_pool s) /\
      reserved (pm_pool s) i = false /\
      (forall j, 0 <= j < i -> reserved (pm_pool s) j = true) /\
      page_update (pm_pool s) p' i true /\ pool_ok p') s.
Proof.
  intros Hok (Hst & Hl). pose proof Hok as [Hw Hp Hx Hc Hs Hk].
  unfold pagepool_get_phys_page. apply wp_bind, wp_critical; [exact Hst|exact Hl|].
  apply wp_bind, wp_gets. cbn [pm_pool with_cpu HasCpu_pmem].
  rewrite Z.gtb_ltb. destruct (Z.ltb_spec 0 (pagepool_num_free_pages (pm_pool s))) as [Hfree|Hfree].
  - destruct (findnset_updates (pagepool_free_pages (pm_pool s)) (pagepool_num_pages (pm_pool s)) Hw ltac:(lia) ltac:(lia))
      as (b' & i & Hrun & [(-> & -> & Hz)|((Hi & Hbit & Hbelow) & Hu & Hcl)]); [lia|].
    apply wp_bind. eapply wp_lift; [exact Hrun|]. cbn beta iota.
    apply wp_bind, wp_modify, wp_bind, wp_kassert.
    { rewrite !Z.geb_leb. apply andb_true_intro; split; apply Z.leb_le; lia. }
    apply wp_ret. split; [done|]. apply wp_ret. right.
    assert (Hse : pagepool_static_end (pm_pool s) <= i).
    { destruct (decide (i < pagepool_static_end (pm_pool s))); [|lia].
      unfold reserved in Hk. rewrite Hk in Hbit by lia. done. }
    eexists i, _. split_and!; [| |lia|lia|done|done| |].
    + apply u32_id. unfold is_u32, PAGE_SIZE. lia.
    + by destruct s.
    + by split_and!.
    + apply (page_update_ok (pm_pool s) _ i true); [exact Hok|by split_and!|split; [exact Hse|lia]|done].
  - apply wp_ret. split; [done|]. apply wp_ret. left.
    pose proof (clears_nonneg (pagepool_free_pages (pm_pool s)) (Z.to_nat (pagepool_num_pages (pm_pool s)))).
    split_and!; [lia|done|by destruct s].
Qed.

(** Release of a page above the static part that is reserved. *)
Lemma free_phys_page_run s i :
  pool_ok (pm_pool s) -> cpu_ready pagepool_slock (pm_cpu s) ->
  pagepool_static_end (pm_pool s) <= i < pagepool_num_pages (pm_pool s) ->
  reserved (pm_pool s) i = true ->
  wp (pagepool_free_phys_page (i * PAGE_SIZE)) (fun _ s' =>
    exists p', s' = with_pool p' s /\ page_update (pm_pool s) p' i false /\ pool_ok p') s.
Proof.
  intros Hok (Hst & Hl) Hi Hres. pose proof Hok as [Hw Hp Hx Hc Hs Hk].
  unfold pagepool_free_phys_page.
  replace (i32 (i * PAGE_SIZE / PAGE_SIZE)) with i
    by (unfold PAGE_SIZE; rewrite Z.div_mul, i32_id by (unfold is_i32; lia); done).
  cbv zeta.
  apply wp_bind, wp_gets, wp_bind, wp_kassert.
  { rewrite Z.geb_leb. apply Z.leb_le. lia. }
  apply wp_critical; [exact Hst|exact Hl|].
  apply wp_bind, wp_gets. cbn [pm_pool with_cpu HasCpu_pmem].
  apply wp_bind. eapply wp_lift; [apply bitmap_get_bit; lia|].
  unfold reserved in Hres. rewrite Hres. apply wp_bind, wp_kassert; [done|].
  destruct (bitmap_set_bit (pagepool_free_pages (pm_pool s)) i false) as (b' & Hset & Hu); [done|lia|].
  apply wp_bind. eapply wp_lift; [exact Hset|]. apply wp_modify. split; [done|].
  eexists. split_and!; [by destruct s|by split_and!|].
  apply (page_update_ok (pm_pool s) _ i false); [exact Hok|by split_and!|exact Hi|done].
Qed.
End pagepool_facts.

(** ** Boot *)

Lemma reserve_first_spec n i b :
  words_ok b -> 0 <= i -> i + Z.of_nat n <= bits b ->
  exists b', reserve_first n i b = Ret b' /\ length b' = length b /\ words_ok b' /\
    forall q, 0 <= q < bits b -> bit b' q = ((i <=? q) && (q <? i + Z.of_nat n)) || bit b q.
Proof.
  revert i b. induction n as [|n IH]; intros i b Hok Hi Hn; cbn [reserve_first].
  { exists b. split_and!; try done. intros q Hq.
    destruct (Z.leb_spec i q), (Z.ltb_spec q (i + Z.of_nat 0)); try lia; done. }
  destruct (bitmap_set_bit b i true Hok) as (b1 & Hset & Hlen & Hw & Hb); [lia|].
  cbn [Z.b2z] in Hset. rewrite Hset. cbn -[reserve_first Z.of_nat].
  assert (Hbits : bits b1 = bits b) by (unfold bits; by rewrite Hlen).
  destruct (IH (i + 1) b1 Hw) as (b' & Hrun & Hlen' & Hw' & Hb'); [lia..|].
  exists b'. split_and!; [done|congruence|done|]. intros q Hq.
  rewrite Hb', Hb by lia.
  destruct (Z.eqb_spec q i), (Z.leb_spec (i + 1) q), (Z.leb_spec i q),
    (Z.ltb_spec q (i + 1 + Z.of_nat n)), (Z.ltb_spec q (i + Z.of_nat (S n))); try lia; done.
Qed.

Lemma clears_prefix b n m :
  0 <= m <= Z.of_nat n -> (forall q, 0 <= q < Z.of_nat n -> bit b q = (q <? m)) ->
  clears b n = Z.of_nat n - m.
Proof.
  revert m. induction n as [|n IH]; intros m Hm Hb; cbn [clears]; [lia|].
  rewrite (Hb (Z.of_nat n)) by lia.
  destruct (Z.ltb_spec (Z.of_nat n) m); cbn [negb Z.b2z].
  - rewrite clears_zero; [lia|]. intros q Hq. rewrite Hb by lia. by apply Z.ltb_lt; lia.
  - rewrite (IH m); [lia..|]. intros q Hq. apply Hb. lia.
Qed.

Lemma reserved_pages_spec k n :
  kmem_ok k -> 0x80000000 < free_area_start k -> memory_end k <= 0x80000000 + n * PAGE_SIZE ->
  0 < kmalloc_get_reserved_pages k <= n /\
  (kmalloc_get_reserved_pages k - 1) * PAGE_SIZE < free_area_start k - 0x80000000
    <= kmalloc_get_reserved_pages k * PAGE_SIZE.
Proof.
  intros (Hf & Hm & _) Hlo Hhi. unfold kmalloc_get_reserved_pages, PAGE_SIZE in *.
  rewrite u32_id by (unfold is_u32; lia). cbv zeta.
  set (off := free_area_start k - 0x80000000) in *.
  pose proof (Z.div_mod off 4096 ltac:(lia)). pose proof (Z.mod_pos_bound off 4096 ltac:(lia)).
  destruct (Z.eqb_spec (off mod 4096) 0); cbn [negb]; lia.
Qed.

Section boot.
Context `{Symbols}.

(** After boot: the pool's invariant, and exactly the static pages are
    reserved. *)
Definition fresh_pool (p : pool) : Prop :=
  pool_ok p /\ forall i, 0 <= i < pagepool_num_pages p -> reserved p i = (i <? pagepool_static_end p).

Lemma pagepool_init_run io_desc io_read ram n s :
  kmalloc_get_numpages io_desc io_read = Ret n -> 0 < n <= 0x80000 ->
  kmem_ok (pm_kmem s) -> 0x80000000 < free_area_start (pm_kmem s) ->
  free_area_start (pm_kmem s) + bitmap_sizeof n <= memory_end (pm_kmem s) ->
  memory_end (pm_kmem s) <= 0x80000000 + n * PAGE_SIZE ->
  wp (pagepool_init io_desc io_read ram) (fun _ s' =>
    fresh_pool (pm_pool s') /\ pagepool_num_pages (pm_pool s') = n /\
    free_area_start (pm_kmem s') = free_area_start (pm_kmem s) + bitmap_sizeof n /\
    (pagepool_static_end (pm_pool s') - 1) * PAGE_SIZE < free_area_start (pm_kmem s') - 0x80000000
      <= pagepool_static_end (pm_pool s') * PAGE_SIZE) s.
Proof.
  intros Hn Hrange Hk Hlo Hsz Hhi. unfold pagepool_init.
  assert (Hsize : bitmap_sizeof n = (n + 31) / 32 * 4).
  { unfold bitmap_sizeof. by rewrite Z.quot_div_nonneg by lia. }
  pose proof (Z.div_mod (n + 31) 32 ltac:(lia)). pose proof (Z.mod_pos_bound (n + 31) 32 ltac:(lia)).
  apply wp_bind. eapply wp_lift; [exact Hn|].
  pose proof Hk as (Hf & Hm & Ha & Hma).
  apply wp_bind. unfold on_kmem.
  assert (exists p k', kmalloc (bitmap_sizeof n) (pm_kmem s) = Ret (p, k')) as (p & k' & Hkm).
  { unfold kmalloc. rewrite u32_id by (unfold is_u32; lia). rewrite Z.gtb_ltb.
    destruct (Z.eqb_spec (free_area_start (pm_kmem s)) 4294967295); [lia|].
    destruct (Z.eqb_spec (free_area_start (pm_kmem s)) 0); [lia|].
    destruct (Z.ltb_spec (bitmap_sizeof n) 0); [lia|].
    destruct (Z.ltb_spec (memory_end (pm_kmem s)) (free_area_start (pm_kmem s) + bitmap_sizeof n)); [lia|].
    eauto. }
  pose proof (kmalloc_step (pm_kmem s) (bitmap_sizeof n) p k' Hk ltac:(lia) Hkm) as (-> & _ & Hme & Hk' & Hle & _).
  eapply wp_eq; [by rewrite Hkm|].
  assert (Hend : free_area_start k' = free_area_start (pm_kmem s) + bitmap_sizeof n).
  { apply (kmalloc_end _ _ _ _ Hk) in Hkm; [done|lia|lia|].
    rewrite Hsize. by rewrite Z.mod_mul by lia. }
  set (words := _ <$> seqZ 0 _).
  assert (Hlen : zlen words = (n + 31) / 32).
  { subst words. rewrite length_fmap, length_seqZ, Hsize, Z.quot_mul by lia. lia. }
  apply wp_bind. eapply wp_lift; [apply bitmap_init_zero; lia|].
  apply wp_bind, wp_gets. cbn [pm_kmem with_kmem].
  destruct (reserved_pages_spec k' n Hk' ltac:(lia) ltac:(lia)) as (Hres & Hcover).
  set (m := kmalloc_get_reserved_pages k') in *.
  destruct (reserve_first_spec (Z.to_nat m) 0 (replicate (length words) 0)) as (b & Hrun & Hbl & Hbw & Hbb).
  { apply words_ok_replicate. } { lia. } { unfold bits. rewrite length_replicate. lia. }
  rewrite length_replicate in Hbl.
  assert (Hbits : n <= bits b) by (unfold bits; lia).
  assert (Hbit : forall q, 0 <= q < n -> bit b q = (q <? m)).
  { intros q Hq. rewrite Hbb by (unfold bits; rewrite length_replicate; unfold bits in Hbits; lia).
    rewrite bit_replicate, orb_false_r.
    destruct (Z.leb_spec 0 q), (Z.ltb_spec q (0 + Z.of_nat (Z.to_nat m))), (Z.ltb_spec q m); try lia; done. }
  apply wp_bind. eapply wp_lift; [exact Hrun|].
  apply wp_bind, wp_modify. unfold spinlock_reset, spinlock_release. apply wp_modify. cbn.
  split_and!; [|done|exact Hend|tauto|tauto]. split; cbn.
  - split; cbn; [done|lia|lia| |lia|].
    + rewrite (clears_prefix b _ m); [lia..|]. intros q Hq. apply Hbit. lia.
    + intros i Hi. unfold reserved. cbn. rewrite Hbit by lia. by apply Z.ltb_lt; lia.
  - intros i Hi. unfold reserved. cbn. by apply Hbit.
Qed.

(** ** Clients

    A client takes pages and gives back pages it took; [owned] is what it
    holds, by address. *)
Inductive client_step : pmem * gset Z -> pmem * gset Z -> Prop :=
| client_get s a s' owned :
    pagepool_get_phys_page s = Ret (a, s') -> a <> 0 ->
    client_step (s, owned) (s', {[a]} ∪ owned)
| client_full s s' owned :
    pagepool_get_phys_page s = Ret (0, s') -> client_step (s, owned) (s', owned)
| client_free s a s' owned :
    a ∈ owned -> pagepool_free_phys_page a s = Ret (tt, s') ->
    client_step (s, owned) (s', owned ∖ {[a]}).

(** The client holds exactly the dynamic pages that are reserved. *)
Definition accounted (st : pmem * gset Z) : Prop :=
  let '(s, owned) := st in
  pool_ok (pm_pool s) /\ cpu_ready pagepool_slock (pm_cpu s) /\
  pagepool_num_free_pages (pm_pool s) + Z.of_nat (size owned) =
    pagepool_num_pages (pm_pool s) - pagepool_static_end (pm_pool s) /\
  (forall a, a ∈ owned <-> exists i, a = i * PAGE_SIZE /\
     pagepool_static_end (pm_pool s) <= i < pagepool_num_pages (pm_pool s) /\
     reserved (pm_pool s) i = true).

Lemma accounted_step st st' : accounted st -> client_step st st' -> accounted st'.
Proof.
  intros Hacc Hstep. destruct Hstep as [s a s' owned Hget Ha|s s' owned Hget|s a s' owned Hin Hfree];
    destruct Hacc as (Hok & Hcpu & Hcount & Howned).
  - pose proof (get_phys_page_run s Hok Hcpu) as Hwp. unfold wp in Hwp. rewrite Hget in Hwp.
    destruct Hwp as [(_ & -> & _)|(i & p' & -> & -> & Hi & Hfree & _ & (Hn & Hse & Hf & Hlen & Hw & Hb) & Hok')]; [done|].
    assert (Hnew : i * PAGE_SIZE ∉ owned).
    { intros (j & Hj & _ & Hr)%Howned. assert (j = i) as -> by (unfold PAGE_SIZE in Hj; lia). congruence. }
    split; [done|]. split; [done|]. cbn [pm_pool with_pool]. rewrite Hn, Hse, Hf.
    pose proof (po_pages _ Hok). pose proof (po_static _ Hok). split.
    + rewrite size_union, size_singleton by set_solver. lia.
    + intros a. rewrite elem_of_union, elem_of_singleton, Howned. split.
      * intros [->|(j & -> & Hj & Hr)].
        -- exists i. split_and!; try done; try lia. unfold reserved. rewrite Hb by lia. by rewrite Z.eqb_refl.
        -- exists j. split_and!; try done; try lia. unfold reserved in *. rewrite Hb by lia. by destruct (j =? i).
      * intros (j & -> & Hj & Hr). unfold reserved in *. rewrite Hb in Hr by lia.
        destruct (Z.eqb_spec j i) as [->|]; [by left|right; eauto].
  - pose proof (get_phys_page_run s Hok Hcpu) as Hwp. unfold wp in Hwp. rewrite Hget in Hwp.
    destruct Hwp as [(_ & _ & ->)|(i & p' & Hz & _ & Hi & _)]; [done|].
    pose proof (po_static _ Hok). unfold PAGE_SIZE in Hz. lia.
  - pose proof Hin as (i & -> & Hi & Hr)%Howned.
    pose proof (free_phys_page_run s i Hok Hcpu Hi Hr) as Hwp. unfold wp in Hwp. rewrite Hfree in Hwp.
    destruct Hwp as (p' & -> & (Hn & Hse & Hf & Hlen & Hw & Hb) & Hok').
    split; [done|]. split; [done|]. cbn [pm_pool with_pool]. rewrite Hn, Hse, Hf.
    pose proof (po_pages _ Hok). pose proof (po_static _ Hok). split.
    + rewrite size_difference, size_singleton by set_solver.
      assert (size owned <> 0)%nat; [|lia]. intros Hz%size_empty_inv. set_solver.
    + intros a. rewrite elem_of_difference, elem_of_singleton, Howned. split.
      * intros [(j & -> & Hj & Hrj) Hne]. exists j. split_and!; try done; try lia.
        unfold reserved in *. rewrite Hb by lia. destruct (Z.eqb_spec j i); [congruence|done].
      * intros (j & -> & Hj & Hrj). unfold reserved in *. rewrite Hb in Hrj by lia.
        destruct (Z.eqb_spec j i) as [->|]; [done|]. split; [by eauto|].
        unfold PAGE_SIZE. lia.
Qed.

Lemma accounted_fresh s :
  fresh_pool (pm_pool s) -> cpu_ready pagepool_slock (pm_cpu s) -> accounted (s, ∅).
Proof.
  intros (Hok & Hb) Hcpu. pose proof Hok as [Hw Hp Hx Hc Hs Hk]. split_and!; try done.
  - rewrite size_empty, Hc, (clears_prefix _ _ (pagepool_static_end (pm_pool s))); [lia..|].
    intros q Hq. apply Hb. lia.
  - intros a. split; [set_solver|]. intros (i & _ & Hi & Hr). rewrite Hb in Hr by lia. zbool. lia.
Qed.

Lemma accounted_reach st st' : accounted st -> rtc client_step st st' -> accounted st'.
Proof. intros Ha Hr. induction Hr; eauto using accounted_step. Qed.
End boot.

(** ** The theorems *)

Section theorems.
Context `{Symbols}.

(** Claim C34. Booted on a machine whose memory-information device
    reports [n] pages, with the kernel image below the end of memory and
    room for the bitmap, [pagepool_init] succeeds and leaves a consistent
    pool of [n] pages in which the reserved pages are exactly those that hold
    a byte [kmalloc] has handed out, the kernel image and the bitmap itself
    included: the pages below [pagepool_static_end], whose last one starts
    below the end of the free area's used part, which lies within them. *)
Theorem pagepool_init_reserves_kernel io_desc io_read ram n s :
  kmalloc_get_numpages io_desc io_read = Ret n -> 0 < n <= 0x80000 ->
  kmem_ok (pm_kmem s) -> 0x80000000 < free_area_start (pm_kmem s) ->
  free_area_start (pm_kmem s) + bitmap_sizeof n <= memory_end (pm_kmem s) ->
  memory_end (pm_kmem s) <= 0x80000000 + n * PAGE_SIZE ->
  wp (pagepool_init io_desc io_read ram) (fun _ s' =>
    fresh_pool (pm_pool s') /\ pagepool_num_pages (pm_pool s') = n /\
    free_area_start (pm_kmem s') = free_area_start (pm_kmem s) + bitmap_sizeof n /\
    (pagepool_static_end (pm_pool s') - 1) * PAGE_SIZE < free_area_start (pm_kmem s') - 0x80000000
      <= pagepool_static_end (pm_pool s') * PAGE_SIZE) s.
Proof. apply pagepool_init_run. Qed.

(** Claim C33. In every state that callers can reach from a fresh pool by
    taking pages and giving back pages they took: allocation answers 0 only
    when no page is free, and otherwise an aligned page above the static
    part that nobody holds; giving back a held page never trips an
    assertion; and the free count plus the pages held is the size of the
    dynamic part. *)
Theorem pagepool_no_double_allocation s0 s owned :
  fresh_pool (pm_pool s0) -> cpu_ready pagepool_slock (pm_cpu s0) ->
  rtc client_step (s0, ∅) (s, owned) ->
  wp pagepool_get_phys_page (fun a _ =>
    (a = 0 /\ pagepool_num_free_pages (pm_pool s) = 0) \/
    (a ∉ owned /\ a mod PAGE_SIZE = 0 /\ pagepool_static_end (pm_pool s) * PAGE_SIZE <= a)) s /\
  (forall a, a ∈ owned -> wp (pagepool_free_phys_page a) (fun _ s' =>
    pagepool_num_free_pages (pm_pool s') = pagepool_num_free_pages (pm_pool s) + 1) s) /\
  pagepool_num_free_pages (pm_pool s) + Z.of_nat (size owned) =
    pagepool_num_pages (pm_pool s) - pagepool_static_end (pm_pool s).
Proof.
  intros Hf Hc Hr.
  destruct (accounted_reach _ _ (accounted_fresh s0 Hf Hc) Hr) as (Hok & Hcpu & Hcount & Howned).
  split_and!; [| |done].
  - eapply wp_mono; [by apply get_phys_page_run|].
    intros a s' [(Hz & -> & _)|(i & p' & -> & _ & Hi & Hfree & _)]; [by left|right].
    split_and!.
    + intros (j & Hj & _ & Hrj)%Howned.
      assert (j = i) as -> by (unfold PAGE_SIZE in Hj; lia). congruence.
    + apply Z.mod_mul. unfold PAGE_SIZE. lia.
    + unfold PAGE_SIZE. lia.
  - intros a (i & -> & Hi & Hri)%Howned.
    eapply wp_mono; [by apply free_phys_page_run|].
    intros _ s' (p' & -> & (_ & _ & Hn & _) & _). done.
Qed.
End theorems.

(** A machine with 64 pages (one memory-information device, as descriptor 0)
    and a kernel image of three pages. *)
Definition boot_pmem : pmem :=
  mk_pmem (mk_kmem 0x80003000 0x80040000) (mk_pool [] 0 0 0) (mk_cpu 0x1000ff01 ∅).

Lemma pagepool_init_reserves_kernel_witness :
  wp (@pagepool_init example_symbols [(0x101, 0xb0000000)] (fun _ => 64) (fun _ => 77))
     (fun _ s' => pagepool_num_pages (pm_pool s') = 64) boot_pmem.
Proof.
  eapply wp_mono.
  - apply (@pagepool_init_reserves_kernel example_symbols [(0x101, 0xb0000000)] (fun _ => 64) (fun _ => 77) 64 boot_pmem);
      vm_check.
  - by intros _ s' (_ & Hn & _).
Defined.

(** A pool of 40 pages, three of them the kernel's, of which two are taken. *)
Definition small_pool : pmem :=
  mk_pmem (mk_kmem 0xffffffff 0x80028000) (mk_pool [7; 0] 40 37 3) (mk_cpu 0x1000ff01 ∅).

Lemma small_pool_fresh : fresh_pool (pm_pool small_pool).
Proof.
  split; [split|]; cbn.
  - repeat constructor; vm_check.
  - vm_check.
  - lia.
  - done.
  - lia.
  - intros i Hi. assert (i = 0 \/ i = 1 \/ i = 2) as [->|[->| ->]] by lia; done.
  - intros i Hi.
    assert (Hall : Forall (fun i => reserved (pm_pool small_pool) i = (i <? 3)) (seqZ 0 40)).
    { apply (bool_decide_unpack _). vm_compute. exact I. }
    rewrite Forall_forall in Hall. apply Hall, elem_of_seqZ. lia.
Qed.

Lemma pagepool_no_double_allocation_witness :
  exists s, rtc (@client_step example_symbols) (small_pool, ∅) (s, {[12288]} ∪ ∅) /\
    pagepool_num_free_pages (pm_pool s) = 36 /\
    pagepool_num_free_pages (pm_pool s) + Z.of_nat (size ({[12288]} ∪ ∅ : gset Z)) = 37.
Proof.
  eexists (mk_pmem _ (mk_pool [15; 0] 40 36 3) _).
  assert (Hr : rtc (@client_step example_symbols) (small_pool, ∅)
    (mk_pmem (mk_kmem 0xffffffff 0x80028000) (mk_pool [15; 0] 40 36 3) (mk_cpu 0x1000ff01 ∅), {[12288]} ∪ ∅)).
  { apply rtc_once, client_get; [reflexivity|discriminate]. }
  split; [exact Hr|]. split; [reflexivity|].
  assert (Hc : cpu_ready (@pagepool_slock example_symbols) (pm_cpu small_pool)).
  { split; [vm_check|apply not_elem_of_empty]. }
  destruct (@pagepool_no_double_allocation example_symbols small_pool _ _ small_pool_fresh Hc Hr) as (_ & _ & Hcount).
  rewrite Hcount. reflexivity.
Defined.
