(* ===== verification/Vm.v ===== *)
(** * vm/vm.c: page tables

    A page table is one physical page: an address space identifier, a count
    and 340 entries, each mapping a pair of 4 KB pages.  The state is the page
    pool with the tables that live in its pages, by kernel address. *)
From S2P Require Import Prelude Bitmap Cpu Kmalloc Pagepool.

Definition PAGETABLE_ENTRIES : Z := 340.

(** ** The code *)

(** [tlb_entry_t], the fields software uses (the padding [dummy1..3] is left
    out). *)
Record tlb_entry := mk_tlb_entry {
  VPN2 : Z;    (** 19 bits *)
  ASID : Z;    (** 8 bits *)
  PFN0 : Z; C0 : Z; D0 : Z; V0 : Z; G0 : Z;    (** even page: 20, 3, 1, 1, 1 bits *)
  PFN1 : Z; C1 : Z; D1 : Z; V1 : Z; G1 : Z     (** odd page *)
}.
Record pagetable := mk_pagetable {
  pt_ASID : Z;
  valid_count : Z;
  entries : list tlb_entry
}.

(** Assignments to the bit-fields: the stored value is cut to the width. *)
Definition set_VPN2_ASID (vpn2 asid : Z) (e : tlb_entry) : tlb_entry :=
  mk_tlb_entry (vpn2 mod 2 ^ 19) (asid mod 2 ^ 8) (PFN0 e) (C0 e) (D0 e) (V0 e) (G0 e)
    (PFN1 e) (C1 e) (D1 e) (V1 e) (G1 e).
Definition set_even (pfn d v g : Z) (e : tlb_entry) : tlb_entry :=
  mk_tlb_entry (VPN2 e) (ASID e) (pfn mod 2 ^ 20) (C0 e) (d mod 2) (v mod 2) (g mod 2)
    (PFN1 e) (C1 e) (D1 e) (V1 e) (G1 e).
Definition set_odd (pfn d v g : Z) (e : tlb_entry) : tlb_entry :=
  mk_tlb_entry (VPN2 e) (ASID e) (PFN0 e) (C0 e) (D0 e) (V0 e) (G0 e)
    (pfn mod 2 ^ 20) (C1 e) (d mod 2) (v mod 2) (g mod 2).
Definition set_V0 (v : Z) (e : tlb_entry) : tlb_entry := set_even (PFN0 e) (D0 e) v (G0 e) e.
Definition set_V1 (v : Z) (e : tlb_entry) : tlb_entry := set_odd (PFN1 e) (D1 e) v (G1 e) e.
Definition set_D0 (d : Z) (e : tlb_entry) : tlb_entry := set_even (PFN0 e) d (V0 e) (G0 e) e.
Definition set_D1 (d : Z) (e : tlb_entry) : tlb_entry := set_odd (PFN1 e) d (V1 e) (G1 e) e.

Definition ADDR_IS_ON_EVEN_PAGE (addr : Z) : bool := Z.land addr 0x1000 =? 0.

Definition set_entry (t : pagetable) (i : Z) (e : tlb_entry) : res pagetable :=
  es ← rset (entries t) i e; Ret (mk_pagetable (pt_ASID t) (valid_count t) es).

(** [for (i = 0; i < valid_count; i++) body]: the body answers [Some] to
    return from the function and [None] to go on; [n] entries are left. *)
Fixpoint scan {R} (n : nat) (i : Z) (es : list tlb_entry) (body : Z -> tlb_entry -> res (option R)) : res (option R) :=
  match n with
  | O => Ret None
  | S n =>
      e ← rget es i;
      r ← body i e;
      match r with Some r => Ret (Some r) | None => scan n (i + 1) es body end
  end.
Definition scan_table {R} (t : pagetable) (body : Z -> tlb_entry -> res (option R)) : res (option R) :=
  scan (Z.to_nat (valid_count t)) 0 (entries t) body.

Definition vm_map (t : pagetable) (physaddr vaddr dirty : Z) : res (Z * pagetable) :=
  if negb ((dirty =? 0) || (dirty =? 1)) then Fail Panic else
  r ← scan_table t (fun i e =>
    if VPN2 e =? Z.shiftr vaddr 13 then
      if ADDR_IS_ON_EVEN_PAGE vaddr then
        if V0 e =? 1 then Ret (Some (-1, t))
        else t' ← set_entry t i (set_even (Z.shiftr physaddr 12) dirty 1 0 e); Ret (Some (1, t'))
      else
        if V1 e =? 1 then Ret (Some (-1, t))
        else t' ← set_entry t i (set_odd (Z.shiftr physaddr 12) dirty 1 0 e); Ret (Some (1, t'))
    else Ret None);
  match r with
  | Some r => Ret r
  | None =>
      if valid_count t >=? PAGETABLE_ENTRIES then Ret (-1, t) else
      e ← rget (entries t) (valid_count t);
      let e := set_VPN2_ASID (Z.shiftr vaddr 13) (pt_ASID t) e in
      let e := if ADDR_IS_ON_EVEN_PAGE vaddr
               then set_V1 0 (set_even (Z.shiftr physaddr 12) dirty 1 0 e)
               else set_V0 0 (set_odd (Z.shiftr physaddr 12) dirty 1 0 e) in
      t' ← set_entry t (valid_count t) e;
      Ret (1, mk_pagetable (pt_ASID t') (valid_count t' + 1) (entries t'))
  end.

(** Answers the result, [*p_physpageoff] and [*p_virtpageoff]. *)
Definition vm_get_vaddr_page_offsets (pagetable : option pagetable) (vaddr : Z) : res (Z * Z * Z) :=
  if vaddr <? 0x1000 then Ret (0, 0, 0) else
  match pagetable with
  | None => Ret (0, 0, 0)
  | Some t =>
      r ← scan_table t (fun i e =>
        if VPN2 e =? Z.shiftr vaddr 13 then
          if ADDR_IS_ON_EVEN_PAGE vaddr && negb (V0 e =? 0) then
            Ret (Some (1, PFN0 e, u32 (Z.shiftl (VPN2 e) 13)))
          else if V1 e =? 1 then
            Ret (Some (1, PFN1 e, Z.lor (u32 (Z.shiftl (VPN2 e) 13)) 0x1000))
          else Ret None
        else Ret None);
      Ret (default (0, 0, 0) r)
  end.

(** Answers the index of the entry. *)
Definition vm_get_entry_by_vaddr (pagetable : option pagetable) (vaddr : Z) : res (option Z) :=
  if vaddr <? 0x1000 then Ret None else
  match pagetable with
  | None => Ret None
  | Some t => scan_table t (fun i e => if VPN2 e =? Z.shiftr vaddr 13 then Ret (Some i) else Ret None)
  end.

Definition vm_set_dirty (t : pagetable) (vaddr dirty : Z) : res pagetable :=
  if negb ((dirty =? 0) || (dirty =? 1)) then Fail Panic else
  r ← scan_table t (fun i e =>
    if VPN2 e =? Z.shiftr vaddr 13 then
      if ADDR_IS_ON_EVEN_PAGE vaddr then
        if V0 e =? 0 then Fail Panic
        else t' ← set_entry t i (set_D0 dirty e); Ret (Some t')
      else
        if V1 e =? 0 then Fail Panic
        else t' ← set_entry t i (set_D1 dirty e); Ret (Some t')
    else Ret None);
  match r with Some t' => Ret t' | None => Fail Panic end.

(** *** Tables in the page pool *)
Record vmem := mk_vmem {
  vm_pmem : pmem;
  vm_tables : gmap Z pagetable    (** by kernel address *)
}.
Definition on_pmem {A} (m : M pmem A) : M vmem A := fun s =>
  match m (vm_pmem s) with Ret (a, p) => Ret (a, mk_vmem p (vm_tables s)) | Fail f => Fail f end.
Definition get_table (addr : Z) : M vmem pagetable := fun s =>
  match vm_tables s !! addr with Some t => Ret (t, s) | None => Fail Undef end.
Definition put_table (addr : Z) (t : pagetable) : M vmem unit :=
  modify (fun s => mk_vmem (vm_pmem s) (<[addr := t]> (vm_tables s))).

Section vm.
Context `{Symbols}.

Definition vm_init (io_desc : list (Z * Z)) (io_read ram : Z -> Z) : M vmem unit :=
  _ ← on_pmem (pagepool_init io_desc io_read ram);
  on_pmem (on_kmem kmalloc_disable).

(** [page] is what the page holds when it is allocated, read as entries. *)
Definition vm_create_pagetable (page : Z -> list tlb_entry) (asid : Z) : M vmem Z :=
  addr ← on_pmem pagepool_get_phys_page;
  if addr =? 0 then mret 0 else
  let table := ADDR_PHYS_TO_KERNEL addr in
  _ ← put_table table (mk_pagetable asid 0 (page table));
  mret table.

Definition vm_destroy_pagetable (pagetable : Z) : M vmem unit :=
  _ ← on_pmem (pagepool_free_phys_page (ADDR_KERNEL_TO_PHYS pagetable));
  modify (fun s => mk_vmem (vm_pmem s) (delete pagetable (vm_tables s))).

(** The loop of [vm_unmap]: it does not stop at the first match. *)
Fixpoint vm_unmap_loop (n : nat) (i : Z) (pagetable vaddr : Z) : M vmem unit :=
  match n with
  | O => mret tt
  | S n =>
      t ← get_table pagetable;
      e ← lift (rget (entries t) i);
      _ ← (if VPN2 e =? Z.shiftr vaddr 13 then
             if ADDR_IS_ON_EVEN_PAGE vaddr then
               _ ← on_pmem (pagepool_free_phys_page (u32 (Z.shiftl (PFN0 e) 12)));
               t' ← lift (set_entry t i (set_V0 0 e));
               put_table pagetable t'
             else
               _ ← on_pmem (pagepool_free_phys_page (u32 (Z.shiftl (PFN1 e) 12)));
               t' ← lift (set_entry t i (set_V1 0 e));
               put_table pagetable t'
           else mret tt);
      vm_unmap_loop n (i + 1) pagetable vaddr
  end.
Definition vm_unmap (pagetable vaddr : Z) : M vmem unit :=
  if pagetable =? 0 then mret tt else
  t ← get_table pagetable;
  vm_unmap_loop (Z.to_nat (valid_count t)) 0 pagetable vaddr.
End vm.

(** ** The abstract view: the mapping of virtual page numbers *)

(** The entry the code finds for a pair of pages. *)
Definition find_pair (t : pagetable) (vpn2 : Z) : option (nat * tlb_entry) :=
  list_find (fun e => VPN2 e = vpn2) (take (Z.to_nat (valid_count t)) (entries t)).
(** The half of an entry that maps page [p]: frame number and write bit. *)
Definition half (e : tlb_entry) (p : Z) : option (Z * Z) :=
  if Z.even p then if V0 e =? 1 then Some (PFN0 e, D0 e) else None
  else if V1 e =? 1 then Some (PFN1 e, D1 e) else None.
Definition translate (t : pagetable) (p : Z) : option (Z * Z) :=
  match find_pair t (p / 2) with Some (_, e) => half e p | None => None end.

Definition entry_ok (e : tlb_entry) : Prop :=
  0 <= VPN2 e < 2 ^ 19 /\ 0 <= PFN0 e < 2 ^ 20 /\ 0 <= PFN1 e < 2 ^ 20 /\
  (V0 e = 0 \/ V0 e = 1) /\ (V1 e = 0 \/ V1 e = 1) /\
  (D0 e = 0 \/ D0 e = 1) /\ (D1 e = 0 \/ D1 e = 1) /\ (G0 e = 0 \/ G0 e = 1) /\ (G1 e = 0 \/ G1 e = 1).
Definition used (t : pagetable) : list tlb_entry := take (Z.to_nat (valid_count t)) (entries t).
(** Bit-fields in range, one entry per pair of pages, each with the table's
    address space identifier. *)
Record pt_ok (t : pagetable) : Prop := {
  pt_len : zlen (entries t) = PAGETABLE_ENTRIES;
  pt_count : 0 <= valid_count t <= PAGETABLE_ENTRIES;
  pt_entries : Forall entry_ok (entries t);
  pt_pairs : NoDup (VPN2 <$> used t);
  pt_asids : Forall (fun e => ASID e = pt_ASID t mod 2 ^ 8) (used t)
}.

(** ** The loops find the pair's entry *)

(** A body that passes over the entries of other pairs. *)
Definition passes {R} (v : Z) (body : Z -> tlb_entry -> res (option R)) : Prop :=
  forall i e, VPN2 e <> v -> body i e = Ret None.

Lemma scan_find {R} v (body : Z -> tlb_entry -> res (option R)) n i es :
  passes v body -> 0 <= i -> i + Z.of_nat n <= zlen es ->
  NoDup (VPN2 <$> take n (drop (Z.to_nat i) es)) ->
  scan n i es body =
    match list_find (fun e => VPN2 e = v) (take n (drop (Z.to_nat i) es)) with
    | Some (k, e) => body (i + Z.of_nat k) e
    | None => Ret None
    end.
Proof.
  intros Hpass. revert i. induction n as [|n IH]; intros i Hi Hlen Hnd; [done|].
  destruct (rget_in es i) as (e & Hr & He); [lia|].
  rewrite (drop_S _ _ _ He) in *. cbn [take fmap list_fmap] in Hnd. apply NoDup_cons in Hnd as [Hnin Hnd].
  cbn [scan take list_find]. rewrite Hr. cbn -[scan].
  specialize (IH (i + 1) ltac:(lia) ltac:(lia)). replace (Z.to_nat (i + 1)) with (S (Z.to_nat i)) in IH by lia.
  specialize (IH Hnd). case_decide as Hv.
  - rewrite Z.add_0_r. destruct (body i e) as [[r|]|f]; cbn -[scan]; [done| |done].
    rewrite IH. destruct (list_find _ _) as [[k e']|] eqn:E; [|done].
    apply list_find_Some in E as (Hk & Hv' & _). destruct Hnin.
    rewrite Hv, <- Hv'. by eapply list_elem_of_fmap_2, list_elem_of_lookup_2.
  - rewrite (Hpass i e Hv). cbn -[scan]. rewrite IH.
    destruct (list_find _ _) as [[k e']|] eqn:E; [|done]. cbn. f_equal. lia.
Qed.

Lemma scan_table_find {R} t v (body : Z -> tlb_entry -> res (option R)) :
  pt_ok t -> passes v body ->
  scan_table t body = match find_pair t v with Some (k, e) => body (Z.of_nat k) e | None => Ret None end.
Proof.
  intros [Hl Hc _ Hn _] Hp. unfold scan_table, find_pair.
  rewrite (scan_find v) by (done || lia). by rewrite drop_0.
Qed.

Lemma find_pair_Some t v k e :
  pt_ok t -> find_pair t v = Some (k, e) ->
  used t !! k = Some e /\ entries t !! k = Some e /\ VPN2 e = v /\ Z.of_nat k < valid_count t /\ entry_ok e.
Proof.
  intros [Hl Hc He Hn _] H. apply list_find_Some in H as (Hk & Hv & _).
  pose proof Hk as [Hk1 Hk2]%lookup_take_Some. split_and!; try done; [lia|].
  by eapply Forall_lookup_1 in He.
Qed.

Lemma find_pair_unique t v k e :
  pt_ok t -> used t !! k = Some e -> VPN2 e = v -> find_pair t v = Some (k, e).
Proof.
  intros [Hl Hc He Hn _] Hk Hv. apply list_find_Some. split_and!; [done|done|].
  intros j e' Hj Hlt Hv'.
  assert (j = k); [|lia]. apply (NoDup_lookup _ j k v Hn); rewrite list_lookup_fmap.
  - unfold used in *. by rewrite Hj, <- Hv'.
  - by rewrite Hk, <- Hv.
Qed.

Lemma find_pair_None t v e k : find_pair t v = None -> used t !! k = Some e -> VPN2 e <> v.
Proof.
  intros H Hk. apply list_find_None in H. rewrite Forall_forall in H.
  by eapply H, list_elem_of_lookup_2.
Qed.

(** *** Changing the entry of one pair *)

Definition with_entry (t : pagetable) (k : nat) (e : tlb_entry) : pagetable :=
  mk_pagetable (pt_ASID t) (valid_count t) (<[k := e]> (entries t)).

Lemma set_entry_run t k e :
  (k < length (entries t))%nat -> set_entry t (Z.of_nat k) e = Ret (with_entry t k e).
Proof. intros. unfold set_entry. rewrite rset_in by lia. by rewrite Nat2Z.id. Qed.

Lemma used_with_entry t k e : used (with_entry t k e) = <[k := e]> (used t).
Proof.
  unfold used. cbn. destruct (decide (k < Z.to_nat (valid_count t))%nat).
  - by rewrite take_insert_lt.
  - rewrite take_insert_ge by lia. rewrite list_insert_ge; [done|]. rewrite length_take. lia.
Qed.

Lemma with_entry_ok t k e e' :
  pt_ok t -> used t !! k = Some e -> entry_ok e' -> VPN2 e' = VPN2 e -> ASID e' = ASID e ->
  pt_ok (with_entry t k e').
Proof.
  intros [Hl Hc He Hn Ha] Hk He' Hv Has. split; cbn; rewrite ?length_insert; try done.
  - by apply Forall_insert.
  - rewrite used_with_entry, list_fmap_insert, Hv, list_insert_id; [done|].
    by rewrite list_lookup_fmap, Hk.
  - rewrite used_with_entry. apply Forall_insert; [done|]. rewrite Has.
    exact (Forall_lookup_1 _ _ _ _ Ha Hk).
Qed.

(** The mapping after the entry of page [p]'s pair is replaced. *)
Lemma translate_with_entry t k e e' p q :
  pt_ok t -> find_pair t (p / 2) = Some (k, e) -> entry_ok e' -> VPN2 e' = VPN2 e -> ASID e' = ASID e ->
  (forall r, r / 2 = p / 2 -> r <> p -> half e' r = half e r) ->
  translate (with_entry t k e') q = if q =? p then half e' p else translate t q.
Proof.
  intros Hok Hf He' Hv Has Hother.
  pose proof (find_pair_Some _ _ _ _ Hok Hf) as (Hk & _ & Hp & _).
  pose proof (with_entry_ok _ _ _ _ Hok Hk He' Hv Has) as Hok'.
  assert (Hlt : (k < length (used t))%nat) by (by eapply lookup_lt_Some).
  unfold translate. destruct (decide (q / 2 = p / 2)) as [Hq|Hq].
  - rewrite (find_pair_unique _ (q / 2) k e' Hok') by (rewrite ?used_with_entry, ?list_lookup_insert_eq; congruence).
    rewrite Hq, Hf. destruct (Z.eqb_spec q p) as [->|]; [done|]. by apply Hother.
  - destruct (Z.eqb_spec q p) as [->|]; [done|].
    destruct (find_pair t (q / 2)) as [[j d]|] eqn:Ej.
    + pose proof (find_pair_Some _ _ _ _ Hok Ej) as (Hj & _ & Hjq & _).
      assert (j <> k) by (intros ->; congruence).
      rewrite (find_pair_unique _ (q / 2) j d Hok'); [done| |done].
      rewrite used_with_entry, list_lookup_insert_ne by done. done.
    + destruct (find_pair (with_entry t k e') (q / 2)) as [[j d]|] eqn:Ej'; [|done].
      pose proof (find_pair_Some _ _ _ _ Hok' Ej') as (Hj & _ & Hjq & _).
      rewrite used_with_entry in Hj. destruct (decide (j = k)) as [->|].
      * rewrite list_lookup_insert_eq in Hj by done. congruence.
      * rewrite list_lookup_insert_ne in Hj by done. by destruct (find_pair_None _ _ _ _ Ej Hj).
Qed.

(** *** Adding an entry *)

Definition add_entry (t : pagetable) (e : tlb_entry) : pagetable :=
  mk_pagetable (pt_ASID t) (valid_count t + 1) (<[Z.to_nat (valid_count t) := e]> (entries t)).

Lemma used_add_entry t e :
  pt_ok t -> valid_count t < PAGETABLE_ENTRIES -> used (add_entry t e) = used t ++ [e].
Proof.
  intros [Hl Hc _ _ _] Hlt. unfold used. cbn.
  replace (Z.to_nat (valid_count t + 1)) with (S (Z.to_nat (valid_count t))) by lia.
  rewrite (take_S_r _ _ e) by (apply list_lookup_insert_eq; lia). by rewrite take_insert_ge by lia.
Qed.

Lemma add_entry_ok t e :
  pt_ok t -> valid_count t < PAGETABLE_ENTRIES -> entry_ok e -> ASID e = pt_ASID t mod 2 ^ 8 ->
  find_pair t (VPN2 e) = None -> pt_ok (add_entry t e).
Proof.
  intros Hok Hlt He Has Hf. pose proof Hok as [Hl Hc Hes Hn Ha].
  split; cbn [add_entry entries valid_count pt_ASID]; rewrite ?length_insert; try done; [lia|by apply Forall_insert| |].
  2: { rewrite used_add_entry by done. apply Forall_app. split; [done|]. by apply Forall_singleton. }
  rewrite used_add_entry, fmap_app by done. apply NoDup_app. split_and!; [done| |cbn; apply NoDup_singleton].
  intros v (d & -> & [k Hd]%list_elem_of_lookup_1)%list_elem_of_fmap_1 Hv.
  apply list_elem_of_singleton in Hv. by destruct (find_pair_None _ _ _ _ Hf Hd).
Qed.

Lemma translate_add_entry t e p q :
  pt_ok t -> valid_count t < PAGETABLE_ENTRIES -> entry_ok e -> ASID e = pt_ASID t mod 2 ^ 8 ->
  VPN2 e = p / 2 -> find_pair t (p / 2) = None ->
  (forall r, r / 2 = p / 2 -> r <> p -> half e r = None) ->
  translate (add_entry t e) q = if q =? p then half e p else translate t q.
Proof.
  intros Hok Hlt He Has Hv Hf Hother.
  assert (Hok' : pt_ok (add_entry t e)) by (apply add_entry_ok; congruence).
  unfold translate. destruct (decide (q / 2 = p / 2)) as [Hq|Hq].
  - rewrite (find_pair_unique _ (q / 2) (length (used t)) e Hok'); [|rewrite used_add_entry by done; by apply list_lookup_middle|congruence].
    rewrite Hq, Hf. destruct (Z.eqb_spec q p) as [->|]; [done|]. by apply Hother.
  - destruct (Z.eqb_spec q p) as [->|]; [done|].
    destruct (find_pair t (q / 2)) as [[j d]|] eqn:Ej.
    + pose proof (find_pair_Some _ _ _ _ Hok Ej) as (Hj & _ & Hjq & _).
      rewrite (find_pair_unique _ (q / 2) j d Hok'); [done| |done].
      rewrite used_add_entry by done. by apply lookup_app_l_Some.
    + destruct (find_pair (add_entry t e) (q / 2)) as [[j d]|] eqn:Ej'; [|done].
      pose proof (find_pair_Some _ _ _ _ Hok' Ej') as (Hj & _ & Hjq & _).
      rewrite used_add_entry in Hj by done. apply lookup_app_Some in Hj as [Hj|[_ Hj]].
      * by destruct (find_pair_None _ _ _ _ Ej Hj).
      * apply list_lookup_singleton_Some in Hj as [_ <-]. congruence.
Qed.

(** *** Addresses *)

Lemma land_4096 a : Z.land a 0x1000 = if Z.testbit a 12 then 0x1000 else 0.
Proof.
  apply Z.bits_inj'. intros n Hn. rewrite Z.land_spec. change 0x1000 with (2 ^ 12).
  rewrite Z.pow2_bits_eqb by lia. destruct (Z.eqb_spec 12 n) as [<-|Hne].
  - destruct (Z.testbit a 12); by rewrite ?Z.pow2_bits_true, ?Z.bits_0 by lia.
  - rewrite andb_false_r. destruct (Z.testbit a 12); rewrite ?Z.bits_0; [|done].
    by rewrite Z.pow2_bits_false by lia.
Qed.

Lemma even_page a : ADDR_IS_ON_EVEN_PAGE a = Z.even (a / 4096).
Proof.
  unfold ADDR_IS_ON_EVEN_PAGE. rewrite land_4096, <- Z.negb_odd.
  rewrite Z.testbit_odd, Z.shiftr_div_pow2 by lia. change (2 ^ 12) with 4096.
  by destruct (Z.odd (a / 4096)).
Qed.

Lemma pair_of_addr a : Z.shiftr a 13 = a / 4096 / 2.
Proof. rewrite Z.shiftr_div_pow2, Z.div_div by lia. done. Qed.

Lemma page_range a : is_u32 a -> 0 <= a / 4096 < 2 ^ 20 /\ 0 <= a / 4096 / 2 < 2 ^ 19.
Proof.
  unfold is_u32. intros H. split; [split|split].
  - apply Z.div_pos; lia.
  - apply Z.div_lt_upper_bound; lia.
  - apply Z.div_pos; [apply Z.div_pos; lia|lia].
  - apply Z.div_lt_upper_bound; [lia|]. apply Z.div_lt_upper_bound; lia.
Qed.

Lemma other_half r p : r / 2 = p / 2 -> r <> p -> Z.even r = negb (Z.even p).
Proof.
  intros H Hne. rewrite !Zeven_mod. pose proof (Z.div_mod r 2 ltac:(lia)). pose proof (Z.div_mod p 2 ltac:(lia)).
  pose proof (Z.mod_pos_bound r 2 ltac:(lia)). pose proof (Z.mod_pos_bound p 2 ltac:(lia)).
  assert (r mod 2 = 0 \/ r mod 2 = 1) as [Hr | Hr] by lia;
    assert (p mod 2 = 0 \/ p mod 2 = 1) as [Hp | Hp] by lia; rewrite Hr, Hp in *; try done; lia.
Qed.

(** The setters keep the bit-fields in range. *)
Lemma set_even_ok pfn d v g e :
  entry_ok e -> 0 <= pfn < 2 ^ 20 -> d = 0 \/ d = 1 -> v = 0 \/ v = 1 -> g = 0 \/ g = 1 ->
  set_even pfn d v g e = mk_tlb_entry (VPN2 e) (ASID e) pfn (C0 e) d v g (PFN1 e) (C1 e) (D1 e) (V1 e) (G1 e)
  /\ entry_ok (set_even pfn d v g e).
Proof.
  intros (?&?&?&?&?&?&?&?&?) Hp Hd Hv Hg.
  assert (set_even pfn d v g e = mk_tlb_entry (VPN2 e) (ASID e) pfn (C0 e) d v g (PFN1 e) (C1 e) (D1 e) (V1 e) (G1 e)) as Heq.
  { unfold set_even. by rewrite (Z.mod_small pfn), (Z.mod_small d), (Z.mod_small v), (Z.mod_small g) by lia. }
  split; [done|]. rewrite Heq. unfold entry_ok. cbn [VPN2 PFN0 PFN1 V0 V1 D0 D1 G0 G1]. split_and!; first [assumption | done | lia].
Qed.
Lemma set_odd_ok pfn d v g e :
  entry_ok e -> 0 <= pfn < 2 ^ 20 -> d = 0 \/ d = 1 -> v = 0 \/ v = 1 -> g = 0 \/ g = 1 ->
  set_odd pfn d v g e = mk_tlb_entry (VPN2 e) (ASID e) (PFN0 e) (C0 e) (D0 e) (V0 e) (G0 e) pfn (C1 e) d v g
  /\ entry_ok (set_odd pfn d v g e).
Proof.
  intros (?&?&?&?&?&?&?&?&?) Hp Hd Hv Hg.
  assert (set_odd pfn d v g e = mk_tlb_entry (VPN2 e) (ASID e) (PFN0 e) (C0 e) (D0 e) (V0 e) (G0 e) pfn (C1 e) d v g) as Heq.
  { unfold set_odd. by rewrite (Z.mod_small pfn), (Z.mod_small d), (Z.mod_small v), (Z.mod_small g) by lia. }
  split; [done|]. rewrite Heq. unfold entry_ok. cbn [VPN2 PFN0 PFN1 V0 V1 D0 D1 G0 G1]. split_and!; first [assumption | done | lia].
Qed.

(** Replacing the half of page [p] with a mapping or with nothing. *)
Definition set_half (p pfn d v g : Z) (e : tlb_entry) : tlb_entry :=
  if Z.even p then set_even pfn d v g e else set_odd pfn d v g e.

Lemma set_half_ok p pfn d v g e :
  entry_ok e -> 0 <= pfn < 2 ^ 20 -> d = 0 \/ d = 1 -> v = 0 \/ v = 1 -> g = 0 \/ g = 1 ->
  entry_ok (set_half p pfn d v g e) /\
  (VPN2 (set_half p pfn d v g e) = VPN2 e /\ ASID (set_half p pfn d v g e) = ASID e) /\
  half (set_half p pfn d v g e) p = (if v =? 1 then Some (pfn, d) else None) /\
  forall r, r / 2 = p / 2 -> r <> p -> half (set_half p pfn d v g e) r = half e r.
Proof.
  intros He Hp Hd Hv Hg. unfold set_half, half. destruct (Z.even p) eqn:Ep.
  - destruct (set_even_ok pfn d v g e He Hp Hd Hv Hg) as [-> Hok]. cbn. split_and!; try done.
    intros r Hr Hne. rewrite (other_half r p) by done. by rewrite Ep.
  - destruct (set_odd_ok pfn d v g e He Hp Hd Hv Hg) as [-> Hok]. cbn. split_and!; try done.
    intros r Hr Hne. rewrite (other_half r p) by done. by rewrite Ep.
Qed.

(** A mapping of page [p] added to, changed in or removed from the table. *)
Definition updates (t t' : pagetable) (p : Z) (m : option (Z * Z)) : Prop :=
  pt_ok t' /\ pt_ASID t' = pt_ASID t /\
  forall q, translate t' q = if q =? p then m else translate t q.

Lemma set_half_updates t k e p pfn d v g :
  pt_ok t -> find_pair t (p / 2) = Some (k, e) ->
  0 <= pfn < 2 ^ 20 -> d = 0 \/ d = 1 -> v = 0 \/ v = 1 -> g = 0 \/ g = 1 ->
  set_entry t (Z.of_nat k) (set_half p pfn d v g e) = Ret (with_entry t k (set_half p pfn d v g e)) /\
  updates t (with_entry t k (set_half p pfn d v g e)) p (if v =? 1 then Some (pfn, d) else None).
Proof.
  intros Hok Hf Hp Hd Hv Hg.
  pose proof (find_pair_Some _ _ _ _ Hok Hf) as (Hk & Hke & Hpe & Hlt & He).
  destruct (set_half_ok p pfn d v g e He Hp Hd Hv Hg) as (He' & (Hv' & Has') & Hhalf & Hother).
  split; [apply set_entry_run; by eapply lookup_lt_Some|]. split_and!; [by eapply with_entry_ok|done|].
  intros q. rewrite (translate_with_entry t k e _ p q) by done. by rewrite Hhalf.
Qed.

(** The entry [vm_map] makes for the first page of a pair. *)
Definition new_entry (asid p pfn dirty : Z) (e : tlb_entry) : tlb_entry :=
  if Z.even p then set_V1 0 (set_even pfn dirty 1 0 (set_VPN2_ASID (p / 2) asid e))
  else set_V0 0 (set_odd pfn dirty 1 0 (set_VPN2_ASID (p / 2) asid e)).

Lemma set_VPN2_ASID_ok v asid e :
  entry_ok e -> 0 <= v < 2 ^ 19 ->
  entry_ok (set_VPN2_ASID v asid e) /\ VPN2 (set_VPN2_ASID v asid e) = v /\ ASID (set_VPN2_ASID v asid e) = asid mod 2 ^ 8.
Proof.
  intros (?&?&?&?&?&?&?&?&?) Hv. unfold set_VPN2_ASID. rewrite (Z.mod_small v) by done.
  unfold entry_ok. cbn [VPN2 ASID PFN0 PFN1 V0 V1 D0 D1 G0 G1]. split_and!; first [assumption | done | lia].
Qed.

Lemma new_entry_ok asid p pfn dirty e :
  entry_ok e -> 0 <= pfn < 2 ^ 20 -> 0 <= p / 2 < 2 ^ 19 -> dirty = 0 \/ dirty = 1 ->
  let e' := new_entry asid p pfn dirty e in
  entry_ok e' /\ (VPN2 e' = p / 2 /\ ASID e' = asid mod 2 ^ 8) /\ half e' p = Some (pfn, dirty) /\
  forall r, r / 2 = p / 2 -> r <> p -> half e' r = None.
Proof.
  intros He Hpf Hp Hd. unfold new_entry, half.
  destruct (set_VPN2_ASID_ok (p / 2) asid e He Hp) as (He1 & Hv1 & Ha1).
  set (e1 := set_VPN2_ASID _ _ _) in *. clearbody e1.
  pose proof He1 as (?&?&?&?&?&?&?&?&?). destruct (Z.even p) eqn:Ep.
  - destruct (set_even_ok pfn dirty 1 0 e1 He1 Hpf Hd ltac:(auto) ltac:(auto)) as [-> Hok2].
    unfold set_V1. cbn -[set_odd].
    match type of Hok2 with entry_ok ?x => destruct (set_odd_ok (PFN1 e1) (D1 e1) 0 (G1 e1) x) as [-> Hok3] end; auto.
    cbn. split_and!; try done. intros r Hr Hne. rewrite (other_half r p) by done. by rewrite Ep.
  - destruct (set_odd_ok pfn dirty 1 0 e1 He1 Hpf Hd ltac:(auto) ltac:(auto)) as [-> Hok2].
    unfold set_V0. cbn -[set_even].
    match type of Hok2 with entry_ok ?x => destruct (set_even_ok (PFN0 e1) (D0 e1) 0 (G0 e1) x) as [-> Hok3] end; auto.
    cbn. split_and!; try done. intros r Hr Hne. rewrite (other_half r p) by done. by rewrite Ep.
Qed.

(** At most one more entry is in use, behind the others: that of the pair of
    page [p]. *)
Definition grows (t t' : pagetable) (p : Z) : Prop :=
  valid_count t <= valid_count t' <= valid_count t + 1 /\
  exists l, VPN2 <$> used t' = (VPN2 <$> used t) ++ l /\ Forall (fun v => v = p / 2) l.

Lemma vm_map_run t physaddr vaddr dirty :
  pt_ok t -> is_u32 physaddr -> is_u32 vaddr -> dirty = 0 \/ dirty = 1 ->
  exists r t', vm_map t physaddr vaddr dirty = Ret (r, t') /\
    ((r = 1 /\ translate t (vaddr / 4096) = None /\
        updates t t' (vaddr / 4096) (Some (physaddr / 4096, dirty)) /\ grows t t' (vaddr / 4096)) \/
     (r = -1 /\ t' = t /\
        (translate t (vaddr / 4096) <> None \/
         valid_count t = PAGETABLE_ENTRIES /\ find_pair t (vaddr / 4096 / 2) = None))).
Proof.
  intros Hok Hp Hv Hd. unfold vm_map.
  assert (negb ((dirty =? 0) || (dirty =? 1)) = false) as -> by (by destruct Hd; subst).
  rewrite even_page, pair_of_addr, !Z.shiftr_div_pow2 by lia. change (2 ^ 12) with 4096.
  destruct (page_range vaddr Hv) as [Hpv Hpp]. destruct (page_range physaddr Hp) as [Hpf _].
  set (p := vaddr / 4096) in *. set (pfn := physaddr / 4096) in *.
  rewrite (scan_table_find t (p / 2)); [|done|].
  2: { intros i e Hne. by rewrite (proj2 (Z.eqb_neq _ _) Hne). }
  destruct (find_pair t (p / 2)) as [[k e]|] eqn:Hf.
  - pose proof (find_pair_Some _ _ _ _ Hok Hf) as (Hk & Hke & Hpe & Hlt & He).
    rewrite Hpe, Z.eqb_refl.
    destruct (set_half_updates t k e p pfn dirty 1 0 Hok Hf Hpf Hd ltac:(auto) ltac:(auto)) as [Hset Hup].
    assert (Htr : translate t p = half e p) by (unfold translate; by rewrite Hf).
    assert (Hgrow : grows t (with_entry t k (set_half p pfn dirty 1 0 e)) p).
    { split; [cbn; lia|]. exists []. split; [|done]. rewrite app_nil_r, used_with_entry, list_fmap_insert.
      rewrite (proj1 (proj1 (proj2 (set_half_ok p pfn dirty 1 0 e He Hpf Hd ltac:(auto) ltac:(auto))))), list_insert_id; [done|]. by rewrite list_lookup_fmap, Hk. }
    unfold half, set_half in *. destruct (Z.even p).
    + destruct (V0 e =? 1) eqn:E0.
      * exists (-1), t. split; [done|]. right. split_and!; [done|done|]. left. by rewrite Htr.
      * rewrite Hset. cbn. do 2 eexists. split; [done|]. left. split_and!; try done; apply Hup.
    + destruct (V1 e =? 1) eqn:E1.
      * exists (-1), t. split; [done|]. right. split_and!; [done|done|]. left. by rewrite Htr.
      * rewrite Hset. cbn. do 2 eexists. split; [done|]. left. split_and!; try done; apply Hup.
  - cbn -[set_VPN2_ASID set_even set_odd set_V0 set_V1 rget]. rewrite Z.geb_leb.
    pose proof Hok as [Hl Hc Hes Hn _].
    destruct (Z.leb_spec PAGETABLE_ENTRIES (valid_count t)) as [Hfull|Hroom].
    { exists (-1), t. split; [done|]. right. split_and!; [done|done|]. right. split; [lia|done]. }
    destruct (rget_in (entries t) (valid_count t)) as (e & -> & He); [lia|].
    cbn -[set_VPN2_ASID set_even set_odd set_V0 set_V1].
    destruct (new_entry_ok (pt_ASID t) p pfn dirty e (Forall_lookup_1 _ _ _ _ Hes He) Hpf Hpp Hd)
      as (He2 & (Hv2 & Ha2) & Hh & Ho).
    fold (new_entry (pt_ASID t) p pfn dirty e). set (e2 := new_entry _ _ _ _ _) in *.
    unfold set_entry. rewrite rset_in by lia. cbn.
    exists 1, (add_entry t e2). split; [done|]. left. split_and!; [done|by unfold translate; rewrite Hf| |].
    2: { split; [cbn; lia|]. exists [VPN2 e2]. split; [by rewrite used_add_entry, fmap_app by (done || lia)|by apply Forall_singleton]. }
    split_and!; [apply add_entry_ok; by rewrite ?Hv2|done|].
    intros q. rewrite (translate_add_entry t e2 p q) by done. by rewrite Hh.
Qed.

Lemma vm_set_dirty_run t vaddr dirty :
  pt_ok t -> is_u32 vaddr -> dirty = 0 \/ dirty = 1 ->
  match translate t (vaddr / 4096) with
  | Some (pfn, _) => exists t', vm_set_dirty t vaddr dirty = Ret t' /\ updates t t' (vaddr / 4096) (Some (pfn, dirty))
  | None => vm_set_dirty t vaddr dirty = Fail Panic
  end.
Proof.
  intros Hok Hv Hd. unfold vm_set_dirty.
  assert (negb ((dirty =? 0) || (dirty =? 1)) = false) as -> by (by destruct Hd; subst).
  rewrite even_page, pair_of_addr. set (p := vaddr / 4096).
  rewrite (scan_table_find t (p / 2)); [|done|].
  2: { intros i e Hne. by rewrite (proj2 (Z.eqb_neq _ _) Hne). }
  unfold translate. destruct (find_pair t (p / 2)) as [[k e]|] eqn:Hf; [|done].
  pose proof (find_pair_Some _ _ _ _ Hok Hf) as (Hk & Hke & Hpe & Hlt & He).
  pose proof He as (_&Hp0&Hp1&Hv0&Hv1&_&_&Hg0&Hg1). rewrite Hpe, Z.eqb_refl. unfold half.
  pose proof (set_half_updates t k e p (PFN0 e) dirty (V0 e) (G0 e) Hok Hf) as He0.
  pose proof (set_half_updates t k e p (PFN1 e) dirty (V1 e) (G1 e) Hok Hf) as He1.
  unfold set_half in *. destruct (Z.even p).
  - destruct He0 as [Hset Hup]; auto. unfold set_D0.
    destruct Hv0 as [E|E]; rewrite E in *; cbn -[set_even]; [done|].
    rewrite Hset. cbn. by eexists.
  - destruct He1 as [Hset Hup]; auto. unfold set_D1.
    destruct Hv1 as [E|E]; rewrite E in *; cbn -[set_odd]; [done|].
    rewrite Hset. cbn. by eexists.
Qed.

Lemma shiftl_13 v : 0 <= v < 2 ^ 19 -> u32 (Z.shiftl v 13) = v * 8192.
Proof. intros H. rewrite Z.shiftl_mul_pow2 by lia. apply u32_id. unfold is_u32. lia. Qed.

Lemma odd_page_addr v : Z.lor (v * 8192) 0x1000 = v * 8192 + 4096.
Proof.
  pose proof (Z.add_lor_land (v * 8192) 0x1000) as H. rewrite land_4096 in H.
  change 8192 with (2 ^ 13) in *. rewrite Z.mul_pow2_bits_low in H by lia. lia.
Qed.

(** The answer of [vm_get_vaddr_page_offsets] for page [p]: the frame and the
    page's address; for an unmapped even page, those of its odd neighbour. *)
Definition page_offsets (t : pagetable) (p : Z) : Z * Z * Z :=
  match translate t p with
  | Some (pfn, _) => (1, pfn, p * 4096)
  | None =>
      if Z.even p then
        match translate t (p + 1) with
        | Some (pfn, _) => (1, pfn, (p + 1) * 4096)
        | None => (0, 0, 0)
        end
      else (0, 0, 0)
  end.

Lemma vm_get_vaddr_page_offsets_run t vaddr :
  pt_ok t -> 0x1000 <= vaddr < 4294967296 ->
  vm_get_vaddr_page_offsets (Some t) vaddr = Ret (page_offsets t (vaddr / 4096)).
Proof.
  intros Hok Hv. unfold vm_get_vaddr_page_offsets. destruct (Z.ltb_spec vaddr 0x1000); [lia|].
  rewrite even_page, pair_of_addr. set (p := vaddr / 4096).
  rewrite (scan_table_find t (p / 2)); [|done|].
  2: { intros i e Hne. by rewrite (proj2 (Z.eqb_neq _ _) Hne). }
  pose proof (Z.div_mod p 2 ltac:(lia)) as Hdm.
  assert (Heo : Z.even p = true -> p = 2 * (p / 2) /\ (p + 1) / 2 = p / 2 /\ Z.even (p + 1) = false).
  { intros E. rewrite Zeven_mod in E. apply Z.eqb_eq in E. split_and!; [lia| |].
    - symmetry. apply (Z.div_unique _ 2 _ 1); lia.
    - rewrite Z.even_add. cbn. rewrite Zeven_mod, E. done. }
  assert (Hod : Z.even p = false -> p = 2 * (p / 2) + 1).
  { intros E. rewrite Zeven_mod in E. apply Z.eqb_neq in E. pose proof (Z.mod_pos_bound p 2 ltac:(lia)). lia. }
  unfold page_offsets, translate. destruct (find_pair t (p / 2)) as [[k e]|] eqn:Hf.
  - pose proof (find_pair_Some _ _ _ _ Hok Hf) as (_ & _ & Hpe & _ & He).
    pose proof He as (Hv2&_&_&Hv0&Hv1&_). rewrite Hpe, Z.eqb_refl. rewrite Hpe in Hv2.
    rewrite !shiftl_13, odd_page_addr by done. unfold half. destruct (Z.even p) eqn:Ep.
    + destruct (Heo eq_refl) as (Hp & -> & Ep1). rewrite Hf, Ep1.
      destruct Hv0 as [-> | ->]; cbn -[Z.mul Z.div].
      * destruct Hv1 as [-> | ->]; cbn -[Z.mul Z.div]; [done|]. do 2 f_equal. lia.
      * do 2 f_equal. lia.
    + specialize (Hod eq_refl). cbn [andb].
      destruct Hv1 as [-> | ->]; cbn -[Z.mul Z.div]; [done|]. do 2 f_equal. lia.
  - cbn. destruct (Z.even p) eqn:Ep; [|done]. destruct (Heo eq_refl) as (_ & -> & _). by rewrite Hf.
Qed.

(** *** Kernel addresses of physical pages *)

Lemma phys_to_kernel a : 0 <= a < 2147483648 -> ADDR_PHYS_TO_KERNEL a = a + 2147483648.
Proof.
  intros H. unfold ADDR_PHYS_TO_KERNEL.
  pose proof (Z.add_lor_land a 0x80000000) as Hl.
  assert (Z.land a 0x80000000 = 0) as Hz.
  { apply Z.bits_inj'. intros n Hn. rewrite Z.land_spec, Z.bits_0. change 0x80000000 with (2 ^ 31).
    rewrite Z.pow2_bits_eqb by lia. destruct (Z.eqb_spec 31 n) as [<-|]; [|apply andb_false_r].
    rewrite (testbit_above a 31) by lia. done. }
  lia.
Qed.

Lemma kernel_to_phys a : 0 <= a < 2147483648 -> ADDR_KERNEL_TO_PHYS (ADDR_PHYS_TO_KERNEL a) = a.
Proof.
  intros H. rewrite phys_to_kernel by done. unfold ADDR_KERNEL_TO_PHYS.
  change 0x7fffffff with (Z.ones 31). rewrite Z.land_ones by lia.
  symmetry. apply (Z.mod_unique _ _ 1); lia.
Qed.

(** ** Tables and the pool *)

Section vm_facts.
Context `{Symbols}.

Lemma get_table_run addr (s : vmem) t : vm_tables s !! addr = Some t -> get_table addr s = Ret (t, s).
Proof. intros Ht. unfold get_table. by rewrite Ht. Qed.

Lemma wp_on_pmem {A} (m : M pmem A) (Q : A -> vmem -> Prop) s :
  wp m (fun a p => Q a (mk_vmem p (vm_tables s))) (vm_pmem s) -> wp (on_pmem m) Q s.
Proof. unfold wp, on_pmem. by destruct (m (vm_pmem s)) as [[a p]|]. Qed.

(** The loop passes over the entries of other pairs. *)
Lemma vm_unmap_loop_skip n i addr vaddr s t Q :
  vm_tables s !! addr = Some t -> 0 <= i -> i + Z.of_nat n <= zlen (entries t) ->
  (forall k e, i <= Z.of_nat k < i + Z.of_nat n -> entries t !! k = Some e -> VPN2 e <> Z.shiftr vaddr 13) ->
  Q tt s -> wp (vm_unmap_loop n i addr vaddr) Q s.
Proof.
  intros Ht. revert i. induction n as [|n IH]; intros i Hi Hn Hne HQ; cbn [vm_unmap_loop]; [done|].
  destruct (rget_in (entries t) i) as (e & Hr & He); [lia|].
  apply wp_bind. eapply wp_eq; [by apply get_table_run|].
  apply wp_bind. eapply wp_lift; [exact Hr|]. apply wp_bind.
  rewrite (proj2 (Z.eqb_neq _ _)) by (eapply (Hne (Z.to_nat i)); [lia|done]). apply wp_ret.
  apply IH; [lia|lia| |done]. intros k d Hk. apply Hne. lia.
Qed.

Lemma vm_unmap_loop_app n m i addr vaddr s :
  vm_unmap_loop (n + m) i addr vaddr s =
    (_ ← vm_unmap_loop n i addr vaddr; vm_unmap_loop m (i + Z.of_nat n) addr vaddr) s.
Proof.
  revert i s. induction n as [|n IH]; intros i s.
  { cbn. unfold mbind, M_bind. cbn. by rewrite Z.add_0_r. }
  cbn [Nat.add vm_unmap_loop]. unfold mbind, M_bind in *.
  destruct (get_table addr s) as [[t s1]|]; [|done].
  destruct (lift (rget (entries t) i) s1) as [[e s2]|]; [|done].
  match goal with |- match ?x with _ => _ end = _ => destruct x as [[u s3]|]; [|done] end.
  rewrite IH. destruct (vm_unmap_loop n (i + 1) addr vaddr s3) as [[u' s4]|]; [|done].
  f_equal. lia.
Qed.

(** What [vm_unmap] needs of a page mapped to frame [pfn]: the frame is a
    dynamic page that is in use. *)
Definition frame_ready (s : vmem) (pfn : Z) : Prop :=
  pool_ok (pm_pool (vm_pmem s)) /\ cpu_ready pagepool_slock (pm_cpu (vm_pmem s)) /\
  pagepool_static_end (pm_pool (vm_pmem s)) <= pfn < pagepool_num_pages (pm_pool (vm_pmem s)) /\
  reserved (pm_pool (vm_pmem s)) pfn = true.

(** The frame given back, the table updated, everything else as it was. *)
Definition unmapped (s s' : vmem) (addr : Z) (t : pagetable) (p pfn : Z) : Prop :=
  exists t' pool', updates t t' p None /\ valid_count t' = valid_count t /\ VPN2 <$> used t' = VPN2 <$> used t /\
    page_update (pm_pool (vm_pmem s)) pool' pfn false /\ pool_ok pool' /\
    s' = mk_vmem (with_pool pool' (vm_pmem s)) (<[addr := t']> (vm_tables s)).

Lemma vm_unmap_run s addr t vaddr pfn d :
  addr <> 0 -> vm_tables s !! addr = Some t -> pt_ok t -> is_u32 vaddr ->
  translate t (vaddr / 4096) = Some (pfn, d) -> frame_ready s pfn ->
  wp (vm_unmap addr vaddr) (fun _ s' => unmapped s s' addr t (vaddr / 4096) pfn) s.
Proof.
  intros Ha Ht Hok Hv Htr (Hpool & Hcpu & Hr & Hres). unfold vm_unmap.
  rewrite (proj2 (Z.eqb_neq _ _) Ha). apply wp_bind. eapply wp_eq; [by apply get_table_run|].
  unfold translate in Htr. destruct (find_pair t _) as [[k e]|] eqn:Hf; [|done].
  pose proof (find_pair_Some _ _ _ _ Hok Hf) as (Hk & Hke & Hpe & Hlt & He).
  pose proof Hok as [Hl Hc _ Hn _].
  assert (Huniq : forall j d', Z.of_nat j < valid_count t -> j <> k -> entries t !! j = Some d' -> VPN2 d' <> Z.shiftr vaddr 13).
  { intros j d' Hj Hjk Hd Heq. rewrite pair_of_addr in Heq. apply Hjk.
    apply (NoDup_lookup _ j k (vaddr / 4096 / 2) Hn); rewrite list_lookup_fmap; [|by rewrite Hk, <- Hpe].
    unfold used. by rewrite lookup_take_lt, Hd, <- Heq by lia. }
  replace (Z.to_nat (valid_count t)) with (k + (1 + (Z.to_nat (valid_count t) - S k)))%nat by lia.
  unfold wp. rewrite vm_unmap_loop_app. apply wp_bind. eapply vm_unmap_loop_skip; [done|lia|lia| |].
  { intros j d' Hj Hd. apply (Huniq j); [lia|lia|done]. }
  unfold wp. rewrite vm_unmap_loop_app. apply wp_bind. rewrite Z.add_0_l.
  cbn [vm_unmap_loop]. apply wp_bind. eapply wp_eq; [by apply get_table_run|].
  apply wp_bind. eapply wp_lift; [by apply rget_Ret; rewrite Nat2Z.id; split; [lia|]|].
  rewrite pair_of_addr, even_page, Hpe, Z.eqb_refl.
  pose proof He as (_&Hp0&Hp1&_&_&Hd0&Hd1&Hg0&Hg1).
  set (p := vaddr / 4096) in *.
  assert (Hstep : forall pf dd g, pf = pfn -> 0 <= pf < 2 ^ 20 -> dd = 0 \/ dd = 1 -> g = 0 \/ g = 1 ->
    wp (_ ← on_pmem (pagepool_free_phys_page (u32 (Z.shiftl pf 12)));
        t' ← lift (set_entry t (Z.of_nat k) (set_half p pf dd 0 g e)); put_table addr t')
       (fun _ s' => wp (_ ← mret (M := M vmem) (); vm_unmap_loop (Z.to_nat (valid_count t) - S k) (Z.of_nat k + 1) addr vaddr)
          (fun _ s' => unmapped s s' addr t p pfn) s') s).
  { intros pf dd g -> Hpf Hdd Hg. apply wp_bind, wp_on_pmem.
    assert (u32 (Z.shiftl pfn 12) = pfn * PAGE_SIZE) as ->.
    { rewrite Z.shiftl_mul_pow2 by lia. change (2 ^ 12) with 4096. unfold PAGE_SIZE. apply u32_id. unfold is_u32. lia. }
    eapply wp_mono; [by apply free_phys_page_run|]. intros _ p' (pool' & -> & Hup & Hpok).
    destruct (set_half_updates t k e p pfn dd 0 g Hok Hf Hpf Hdd ltac:(auto) Hg) as [Hset Hupd].
    apply wp_bind. eapply wp_lift; [exact Hset|]. apply wp_modify, wp_bind, wp_ret.
    eapply vm_unmap_loop_skip; [by apply lookup_insert_eq|lia| |..].
    - cbn. rewrite length_insert. lia.
    - intros j d' Hj Hd. cbn in Hd. rewrite list_lookup_insert_ne in Hd by lia. apply (Huniq j); [lia|lia|done].
    - do 2 eexists. split; [exact Hupd|]. split; [done|]. split; [|by split_and!].
      rewrite used_with_entry, list_fmap_insert, (proj1 (proj1 (proj2 (set_half_ok p pfn dd 0 g e He Hpf Hdd ltac:(auto) Hg)))).
      rewrite list_insert_id; [done|]. by rewrite list_lookup_fmap, Hk. }
  unfold half in Htr. unfold set_half in Hstep. destruct (Z.even p).
  - destruct (V0 e =? 1); [injection Htr as Hpfn _|done].
    apply wp_bind. by apply (Hstep (PFN0 e) (D0 e) (G0 e)).
  - destruct (V1 e =? 1); [injection Htr as Hpfn _|done].
    apply wp_bind. by apply (Hstep (PFN1 e) (D1 e) (G1 e)).
Qed.

(** *** Creation and destruction *)

(** Every table is a well-formed one that occupies a dynamic page in the
    first 512 MB. *)
Definition table_page (s : vmem) (addr i : Z) : Prop :=
  addr = ADDR_PHYS_TO_KERNEL (i * PAGE_SIZE) /\ 0 <= i < 0x20000 /\
  pagepool_static_end (pm_pool (vm_pmem s)) <= i < pagepool_num_pages (pm_pool (vm_pmem s)) /\
  reserved (pm_pool (vm_pmem s)) i = true.
Definition vm_ok (s : vmem) : Prop :=
  pool_ok (pm_pool (vm_pmem s)) /\ cpu_ready pagepool_slock (pm_cpu (vm_pmem s)) /\
  pagepool_num_pages (pm_pool (vm_pmem s)) <= 0x20000 /\
  forall addr t, vm_tables s !! addr = Some t -> pt_ok t /\ exists i, table_page s addr i.
(** What a page holds, read as entries: bit-fields of their widths. *)
Definition page_contents (page : Z -> list tlb_entry) : Prop :=
  forall a, zlen (page a) = PAGETABLE_ENTRIES /\ Forall entry_ok (page a).

Lemma table_page_phys s addr i : table_page s addr i -> ADDR_KERNEL_TO_PHYS addr = i * PAGE_SIZE.
Proof. intros (-> & Hi & _). apply kernel_to_phys. unfold PAGE_SIZE. lia. Qed.

Lemma fresh_table_ok asid es :
  zlen es = PAGETABLE_ENTRIES -> Forall entry_ok es -> pt_ok (mk_pagetable asid 0 es).
Proof. intros Hl He. split; cbn; [done|unfold PAGETABLE_ENTRIES; lia|done|apply NoDup_nil_2|done]. Qed.

(** [t], in the page [i] that was free, has been added to the page tables. *)
Definition new_table s s' (a : Z) (t : pagetable) (i : Z) : Prop :=
  0 < i < 0x20000 /\ reserved (pm_pool (vm_pmem s)) i = false /\ vm_tables s !! a = None /\ table_page s' a i /\
  page_update (pm_pool (vm_pmem s)) (pm_pool (vm_pmem s')) i true /\ pm_cpu (vm_pmem s') = pm_cpu (vm_pmem s) /\
  vm_tables s' = <[a := t]> (vm_tables s).
Lemma vm_create_run page asid s :
  vm_ok s -> page_contents page ->
  wp (vm_create_pagetable page asid) (fun a s' => vm_ok s' /\
    ((a = 0 /\ s' = s /\ pagepool_num_free_pages (pm_pool (vm_pmem s)) = 0) \/
     exists t i, new_table s s' a t i /\ pt_ASID t = asid /\ valid_count t = 0 /\ forall p, translate t p = None)) s.
Proof.
  intros (Hpool & Hcpu & Hmax & Htab) Hpage. unfold vm_create_pagetable.
  apply wp_bind, wp_on_pmem. eapply wp_mono; [by apply get_phys_page_run|].
  intros a pm [(Hz & -> & ->)|(i & pool' & -> & -> & Hi & Hfree & _ & Hup & Hpok)].
  - apply wp_ret. destruct s as [pm tabs]. split; [done|]. by left.
  - pose proof (po_static _ Hpool).
    assert (0 < i) by lia. assert (i * PAGE_SIZE =? 0 = false) as -> by (apply Z.eqb_neq; unfold PAGE_SIZE; lia).
    apply wp_bind, wp_modify, wp_ret. cbn [vm_pmem vm_tables].
    pose proof Hup as (Hn & Hse & _ & _ & _ & Hb). pose proof (po_pages _ Hpool).
    assert (Hkeep : forall addr j, table_page s addr j ->
      table_page (mk_vmem (with_pool pool' (vm_pmem s)) (vm_tables s)) addr j /\ j <> i).
    { intros addr j (-> & Hj & Hjr & Hres). split; [|intros ->; congruence].
      split_and!; cbn; rewrite ?Hn, ?Hse; try done; try lia.
      unfold reserved in *. rewrite Hb by lia. by destruct (j =? i). }
    assert (Hnew : vm_tables s !! ADDR_PHYS_TO_KERNEL (i * PAGE_SIZE) = None).
    { destruct (vm_tables s !! _) as [t|] eqn:E; [|done]. exfalso.
      apply Htab in E as (_ & j & Hj). pose proof (table_page_phys _ _ _ Hj) as Hphys.
      rewrite kernel_to_phys in Hphys by (unfold PAGE_SIZE; lia).
      destruct (Hkeep _ _ Hj) as [_ Hne]. unfold PAGE_SIZE in Hphys. lia. }
    split.
    + split_and!; [done|done|cbn; lia|]. intros addr t. cbn [vm_tables].
      destruct (decide (addr = ADDR_PHYS_TO_KERNEL (i * PAGE_SIZE))) as [->|Hne].
      * rewrite lookup_insert_eq. intros [= <-]. split; [by apply fresh_table_ok; apply Hpage|].
        exists i. split_and!; cbn; rewrite ?Hn, ?Hse; try done; try lia.
        unfold reserved. rewrite Hb by lia. by rewrite Z.eqb_refl.
      * rewrite lookup_insert_ne by done. intros Ht. destruct (Htab _ _ Ht) as (Hok & j & Hj).
        split; [done|]. exists j. apply Hkeep, Hj.
    + right. exists (mk_pagetable asid 0 (page (ADDR_PHYS_TO_KERNEL (i * PAGE_SIZE)))), i. split; [|done]. split; [lia|]. split; [done|]. split; [done|]. split; [|done].
      split_and!; cbn; rewrite ?Hn, ?Hse; try done; try lia. unfold reserved. rewrite Hb by lia. by rewrite Z.eqb_refl.
Qed.

Lemma vm_destroy_run s addr t :
  vm_ok s -> vm_tables s !! addr = Some t ->
  wp (vm_destroy_pagetable addr) (fun _ s' => vm_ok s' /\ vm_tables s' = delete addr (vm_tables s) /\
    exists i pool', table_page s addr i /\ page_update (pm_pool (vm_pmem s)) pool' i false /\ pool_ok pool' /\
      vm_pmem s' = with_pool pool' (vm_pmem s)) s.
Proof.
  intros (Hpool & Hcpu & Hmax & Htab) Ht. unfold vm_destroy_pagetable.
  destruct (Htab _ _ Ht) as (Hok & i & Hi). rewrite (table_page_phys _ _ _ Hi).
  pose proof Hi as (Hai & Hi1 & Hi2 & Hi3).
  apply wp_bind, wp_on_pmem. eapply wp_mono; [by apply free_phys_page_run|].
  intros _ pm (pool' & -> & Hup & Hpok). apply wp_modify. cbn [vm_pmem vm_tables].
  pose proof Hup as (Hn & Hse & Hf & _ & _ & Hb). pose proof (po_pages _ Hpool).
  split_and!; [|done|by exists i, pool']. split_and!; [done|done|cbn; lia|].
  intros a d Hd. cbn in Hd. apply lookup_delete_Some in Hd as [Hne Hd].
  destruct (Htab _ _ Hd) as (Hdok & j & Hj). split; [done|]. exists j. pose proof Hj as (Ha & Hj1 & Hj2 & Hj3).
  split_and!; cbn; rewrite ?Hn, ?Hse; try done; try lia.
  unfold reserved in *. rewrite Hb by lia. destruct (Z.eqb_spec j i) as [->|]; [congruence|done].
Qed.
End vm_facts.

(** ** The theorems *)

(** Claim C38. On a well-formed page table, [vm_map] either maps exactly the
    given page, to the given frame and with the given write permission, and
    answers 1; or it answers -1 and changes nothing, which happens exactly
    when the page is mapped already or all 340 entries serve other pairs of
    pages. The table stays well-formed. *)
Theorem vm_map_correct t physaddr vaddr dirty :
  pt_ok t -> is_u32 physaddr -> is_u32 vaddr -> dirty = 0 \/ dirty = 1 ->
  exists r t', vm_map t physaddr vaddr dirty = Ret (r, t') /\
    ((r = 1 /\ translate t (vaddr / 4096) = None /\
        updates t t' (vaddr / 4096) (Some (physaddr / 4096, dirty))) \/
     (r = -1 /\ t' = t /\
        (translate t (vaddr / 4096) <> None \/
         valid_count t = PAGETABLE_ENTRIES /\ find_pair t (vaddr / 4096 / 2) = None))).
Proof.
  intros Hok Hp Hv Hd. destruct (vm_map_run t physaddr vaddr dirty Hok Hp Hv Hd) as (r & t' & Hrun & H). exists r, t'. tauto.
Qed.

(** An empty table, for concrete runs. *)
Definition blank_entry : tlb_entry := mk_tlb_entry 0 0 0 0 0 0 0 0 0 0 0 0.
Definition blank_table : pagetable := mk_pagetable 5 0 (replicate 340 blank_entry).
Lemma blank_entries_ok : Forall entry_ok (replicate 340 blank_entry).
Proof. apply Forall_replicate. repeat split; cbn; lia. Qed.
Lemma blank_table_ok : pt_ok blank_table.
Proof. apply fresh_table_ok; [reflexivity|apply blank_entries_ok]. Qed.

Lemma vm_map_correct_witness :
  exists r t', vm_map blank_table 0x7000 0x401000 1 = Ret (r, t') /\ r = 1 /\
    translate t' 0x401 = Some (7, 1).
Proof.
  destruct (vm_map_correct blank_table 0x7000 0x401000 1 blank_table_ok) as (r & t' & Hrun & H).
  - vm_check.
  - vm_check.
  - by right.
  - exists r, t'. split; [exact Hrun|]. destruct H as [(-> & _ & _ & _ & Htr)|(_ & _ & [Hne|[Hf _]])].
    + split; [done|]. by rewrite Htr.
    + by destruct Hne.
    + done.
Defined.

(** [vm_set_dirty] changes the write permission of a mapped
    page and nothing else, and panics for a page that is not mapped. *)
Theorem vm_set_dirty_correct t vaddr dirty :
  pt_ok t -> is_u32 vaddr -> dirty = 0 \/ dirty = 1 ->
  match translate t (vaddr / 4096) with
  | Some (pfn, _) => exists t', vm_set_dirty t vaddr dirty = Ret t' /\ updates t t' (vaddr / 4096) (Some (pfn, dirty))
  | None => vm_set_dirty t vaddr dirty = Fail Panic
  end.
Proof. apply vm_set_dirty_run. Qed.

Lemma vm_set_dirty_correct_witness : vm_set_dirty blank_table 0x401000 0 = Fail Panic.
Proof.
  refine (vm_set_dirty_correct blank_table 0x401000 0 blank_table_ok _ _); [vm_check|by left].
Defined.

(** The answer of [vm_get_vaddr_page_offsets] on every
    branch: the frame and start of a mapped page, 0 for an unmapped odd page,
    and for an unmapped even page whose odd neighbour is mapped, the frame and
    start of that neighbour, although the address asked for is not mapped. *)
Theorem vm_get_vaddr_page_offsets_correct t vaddr :
  pt_ok t -> 0x1000 <= vaddr < 4294967296 ->
  vm_get_vaddr_page_offsets (Some t) vaddr =
    Ret (match translate t (vaddr / 4096) with
         | Some (pfn, _) => (1, pfn, vaddr / 4096 * 4096)
         | None =>
             if Z.even (vaddr / 4096) then
               match translate t (vaddr / 4096 + 1) with
               | Some (pfn, _) => (1, pfn, (vaddr / 4096 + 1) * 4096)
               | None => (0, 0, 0)
               end
             else (0, 0, 0)
         end).
Proof. apply vm_get_vaddr_page_offsets_run. Qed.

(** A table that maps the odd page 0x401 only. *)
Definition odd_table : pagetable :=
  mk_pagetable 5 1 (mk_tlb_entry 0x200 5 0 0 0 0 0 7 0 1 1 0 :: replicate 339 blank_entry).
Lemma odd_table_ok : pt_ok odd_table.
Proof.
  split; cbn [odd_table entries valid_count]; [reflexivity|unfold PAGETABLE_ENTRIES; lia| |apply NoDup_singleton|].
  - constructor; [|exact (Forall_drop entry_ok 1 _ blank_entries_ok)]. repeat split; cbn; lia.
  - constructor; [reflexivity|done].
Qed.

Lemma vm_get_vaddr_page_offsets_correct_witness :
  vm_get_vaddr_page_offsets (Some odd_table) 0x400123 = Ret (1, 7, 0x401000) /\
  translate odd_table 0x400 = None.
Proof.
  split; [|reflexivity].
  exact (vm_get_vaddr_page_offsets_correct odd_table 0x400123 odd_table_ok ltac:(vm_check)).
Defined.

(** Unmapping a mapped page whose frame is a dynamic page in use
    removes that mapping and no other, and returns the frame to the page pool. *)
Theorem vm_unmap_frees_page `{Symbols} s addr t vaddr pfn d :
  addr <> 0 -> vm_tables s !! addr = Some t -> pt_ok t -> is_u32 vaddr ->
  translate t (vaddr / 4096) = Some (pfn, d) -> frame_ready s pfn ->
  wp (vm_unmap addr vaddr) (fun _ s' =>
    exists t', vm_tables s' = <[addr := t']> (vm_tables s) /\
      updates t t' (vaddr / 4096) None /\ reserved (pm_pool (vm_pmem s')) pfn = false /\
      pagepool_num_free_pages (pm_pool (vm_pmem s')) = pagepool_num_free_pages (pm_pool (vm_pmem s)) + 1) s.
Proof.
  intros Ha Ht Hok Hv Htr Hr. pose proof Hr as (Hpool & _ & Hrange & _).
  eapply wp_mono; [by apply (vm_unmap_run s addr t vaddr pfn d)|].
  intros _ s' (t' & pool' & Hup & _ & _ & (_ & _ & Hf & _ & _ & Hb) & _ & ->).
  exists t'. split_and!; [done|done| |exact Hf]. cbn. unfold reserved.
  pose proof (po_pages _ Hpool). pose proof (po_static _ Hpool).
  rewrite Hb by lia. by rewrite Z.eqb_refl.
Qed.

(** A machine with the pool of [small_pool] after one allocation: the page
    table at 0x80005000 maps the odd page 0x401 to frame 3. *)
Definition one_table : pagetable :=
  mk_pagetable 5 1 (mk_tlb_entry 0x200 5 0 0 0 0 0 3 0 1 1 0 :: replicate 339 blank_entry).
Definition one_table_mem : vmem :=
  mk_vmem (mk_pmem (mk_kmem 0xffffffff 0x80028000) (mk_pool [15; 0] 40 36 3) (mk_cpu 0x1000ff01 ∅))
    {[0x80005000 := one_table]}.

Lemma one_table_ok : pt_ok one_table.
Proof.
  split; cbn [one_table entries valid_count]; [reflexivity|unfold PAGETABLE_ENTRIES; lia| |apply NoDup_singleton|].
  - constructor; [|exact (Forall_drop entry_ok 1 _ blank_entries_ok)]. repeat split; cbn; lia.
  - constructor; [reflexivity|done].
Qed.

Lemma one_page_taken : pool_ok (mk_pool [15; 0] 40 36 3).
Proof.
  split; cbn; [repeat constructor; vm_check|vm_check|lia|done|lia|].
  intros i Hi. assert (i = 0 \/ i = 1 \/ i = 2) as [->|[->| ->]] by lia; done.
Qed.

Lemma vm_unmap_frees_page_witness :
  wp (@vm_unmap example_symbols 0x80005000 0x401abc)
    (fun _ s' => pagepool_num_free_pages (pm_pool (vm_pmem s')) = 37) one_table_mem.
Proof.
  eapply wp_mono.
  - apply (@vm_unmap_frees_page example_symbols one_table_mem 0x80005000 one_table 0x401abc 3 1).
    + discriminate.
    + reflexivity.
    + exact one_table_ok.
    + vm_check.
    + reflexivity.
    + split; [exact one_page_taken|]. split; [split; [vm_check|apply not_elem_of_empty]|].
      split; [vm_check|reflexivity].
  - intros _ s' (t' & _ & _ & _ & Hn). exact Hn.
Defined.

(** Unmapping the page again: the entry has kept its frame number without its
    valid bit, [vm_unmap] does not look at that bit, and the pool panics on
    the frame, which is free already. *)
Example vm_unmap_twice :
  (_ ← @vm_unmap example_symbols 0x80005000 0x401abc;
   @vm_unmap example_symbols 0x80005000 0x401abc) one_table_mem = Fail Panic.
Proof. vm_compute. reflexivity. Qed.

(** Page tables never share a page: a new table lies in a page
    no other table occupies, maps nothing whatever the page held before, and
    carries the identifier it was given; the answer is 0 only when the pool is
    empty. Destroying a table gives exactly its page back. Both keep every
    table well-formed. *)
Theorem vm_pagetable_lifecycle `{Symbols} page s :
  vm_ok s -> page_contents page ->
  (forall asid, wp (vm_create_pagetable page asid) (fun a s' => vm_ok s' /\
    ((a = 0 /\ s' = s /\ pagepool_num_free_pages (pm_pool (vm_pmem s)) = 0) \/
     (vm_tables s !! a = None /\ exists t, vm_tables s' = <[a := t]> (vm_tables s) /\
        pt_ASID t = asid /\ forall p, translate t p = None))) s) /\
  (forall addr, addr ∈ dom (vm_tables s) ->
    wp (vm_destroy_pagetable addr) (fun _ s' => vm_ok s' /\ vm_tables s' = delete addr (vm_tables s) /\
      pagepool_num_free_pages (pm_pool (vm_pmem s')) = pagepool_num_free_pages (pm_pool (vm_pmem s)) + 1) s).
Proof.
  intros Hok Hp. split.
  - intros asid. eapply wp_mono; [by apply vm_create_run|].
    intros a s' [Hv [?|(t & i & (_ & _ & Hn & _ & _ & _ & Ht) & Ha & _ & Htr)]]; (split; [done|]); [by left|right]. split; [done|]. by exists t.
  - intros addr [t Ht]%elem_of_dom. eapply wp_mono; [by eapply vm_destroy_run|].
    intros _ s' (Hok' & Htab & i & pool' & _ & (_ & _ & Hf & _) & _ & Hpm). split; [done|]. split; [done|]. by rewrite Hpm.
Qed.

Lemma vm_pagetable_lifecycle_witness :
  wp (@vm_create_pagetable example_symbols (fun _ => replicate 340 blank_entry) 9) (fun _ s' => @vm_ok example_symbols s')
    (mk_vmem (vm_pmem one_table_mem) ∅).
Proof.
  eapply wp_mono.
  - apply (@vm_pagetable_lifecycle example_symbols (fun _ => replicate 340 blank_entry)
      (mk_vmem (vm_pmem one_table_mem) ∅)).
    + split; [exact one_page_taken|]. split; [split; [vm_check|apply not_elem_of_empty]|].
      split; [vm_check|]. intros addr t Ht. cbn in Ht. by rewrite lookup_empty in Ht.
    + intros a. split; [reflexivity|apply blank_entries_ok].
  - by intros a s' [H _].
Defined.
