(* ===== verification/Tlb.v ===== *)
(** * vm/tlb.c, vm/_tlb.S: the translation buffer and its exceptions

    The buffer is the hardware's: a list of rows and the address space
    identifier of EntryHi.  The assembler wrappers move entries between it and
    page tables; the exception handlers refill it from the page table of the
    running thread. *)
From S2P Require Import Prelude Bitmap Cpu Kmalloc Pagepool Vm.

(** ** The code *)

Record tlb := mk_tlb {
  tlb_rows : list tlb_entry;
  tlb_asid : Z;       (** EntryHi.ASID *)
  tlb_cpu : cpu
}.
#[export] Instance HasCpu_tlb : HasCpu tlb.
Proof.
  refine {| cpu_of := tlb_cpu; with_cpu c s := mk_tlb (tlb_rows s) (tlb_asid s) c |}; by intros; try destruct s.
Defined.

Definition _tlb_set_asid (asid : Z) : M tlb unit :=
  modify (fun s => mk_tlb (tlb_rows s) (Z.land asid 0xff) (tlb_cpu s)).
Definition _tlb_get_maxindex (s : tlb) : Z := zlen (tlb_rows s) - 1.

(** The row that [tlbp] reports: the same pair of pages and the same address
    space; -1 stands for the negative value of a failed probe. The probe leaves
    the entry's identifier in EntryHi. *)
Definition matches (e r : tlb_entry) : Prop := VPN2 r = VPN2 e /\ ASID r = ASID e.
#[export] Instance matches_dec e r : Decision (matches e r).
Proof. unfold matches. apply _. Defined.
Definition _tlb_probe (e : tlb_entry) : M tlb Z :=
  _ ← _tlb_set_asid (ASID e);
  gets (fun s => match list_find (matches e) (tlb_rows s) with Some (k, _) => Z.of_nat k | None => -1 end).

(** [_tlb_write]: from row [index] on, while rows and entries are left. Each
    write leaves the entry's identifier in EntryHi. *)
Fixpoint _tlb_write (es : list tlb_entry) (index num : Z) (s : tlb) : tlb * Z :=
  match es with
  | [] => (s, 0)
  | e :: es =>
      if (_tlb_get_maxindex s - index <? 0) || (num <=? 0) then (s, 0)
      else
        let s' := mk_tlb (<[Z.to_nat index := e]> (tlb_rows s)) (ASID e) (tlb_cpu s) in
        let '(s'', n) := _tlb_write es (index + 1) (num - 1) s' in (s'', n + 1)
  end.
(** [random] is the row the hardware picks. *)
Definition _tlb_write_random (random : nat) (e : tlb_entry) : M tlb unit :=
  modify (fun s => mk_tlb (<[random := e]> (tlb_rows s)) (ASID e) (tlb_cpu s)).

Definition tlb_fill (pagetable : option pagetable) : M tlb unit :=
  match pagetable with
  | None => mret tt
  | Some t =>
      max ← gets _tlb_get_maxindex;
      _ ← kassert (valid_count t <=? max + 1);
      _ ← modify (fun s => fst (_tlb_write (entries t) 0 (valid_count t) s));
      _tlb_set_asid (pt_ASID t)
  end.

(** [try_to_fill]: [badvaddr] is the address of the exception, [pagetable] the
    running thread's. *)
Definition try_to_fill (random : nat) (badvaddr : Z) (pagetable : option pagetable) (check_dirty : Z) : M tlb Z :=
  _ ← kassert (bool_decide (pagetable <> None));
  r ← lift (vm_get_entry_by_vaddr pagetable badvaddr);
  match r, pagetable with
  | Some i, Some t =>
      e ← lift (rget (entries t) i);
      if ADDR_IS_ON_EVEN_PAGE badvaddr then
        if (V0 e =? 1) && ((check_dirty =? 0) || (D0 e =? 1)) then
          _ ← _tlb_write_random random e;
          _ ← _tlb_set_asid (pt_ASID t);
          mret 1
        else mret 0
      else
        if (V1 e =? 1) && ((check_dirty =? 0) || (D1 e =? 1)) then
          _ ← _tlb_write_random random e;
          _ ← _tlb_set_asid (pt_ASID t);
          mret 1
        else mret 0
  | _, _ => mret 0
  end.

(** What an exception handler does with the thread: let it try again, end its
    process with a status, or end the (kernel) thread. *)
Inductive tlb_outcome := Resume | ExitProcess (retval : Z) | FinishThread.
Definition PROCESS_EXIT_STATUS_EXCEPTION_TLBS : Z := 653012.
Definition kill (pagetable : option pagetable) : tlb_outcome :=
  match pagetable with
  | Some _ => ExitProcess PROCESS_EXIT_STATUS_EXCEPTION_TLBS
  | None => FinishThread
  end.
Definition tlb_modified_exception (pagetable : option pagetable) : M tlb tlb_outcome :=
  mret (kill pagetable).
Definition tlb_load_exception (random : nat) (badvaddr : Z) (pagetable : option pagetable) : M tlb tlb_outcome :=
  r ← try_to_fill random badvaddr pagetable 0;
  mret (if r =? 0 then kill pagetable else Resume).
Definition tlb_store_exception (random : nat) (badvaddr : Z) (pagetable : option pagetable) : M tlb tlb_outcome :=
  r ← try_to_fill random badvaddr pagetable 1;
  mret (if r =? 0 then kill pagetable else Resume).

Definition tlb_replace_entry_if_exists (old new : tlb_entry) : M tlb unit :=
  st ← interrupt_disable;
  index ← _tlb_probe old;
  _ ← (if index >=? 0 then modify (fun s => fst (_tlb_write [new] index 1 s)) else mret tt);
  _ ← interrupt_set_state st;
  mret tt.
Definition tlb_write_if_not_exists (random : nat) (e : tlb_entry) : M tlb unit :=
  st ← interrupt_disable;
  index ← _tlb_probe e;
  _ ← (if index <? 0 then _tlb_write_random random e else mret tt);
  _ ← interrupt_set_state st;
  mret tt.

(** ** Facts *)

(** What the hardware makes of an address: the first row of its pair of pages
    in the current address space. *)
Definition hits (s : tlb) (vpn2 : Z) (r : tlb_entry) : Prop := VPN2 r = vpn2 /\ ASID r = tlb_asid s.
#[export] Instance hits_dec s vpn2 r : Decision (hits s vpn2 r).
Proof. unfold hits. apply _. Defined.
Definition tlb_translate (s : tlb) (p : Z) : option (Z * Z) :=
  match list_find (hits s (p / 2)) (tlb_rows s) with Some (_, e) => half e p | None => None end.

(** The buffer while a thread with page table [t] runs: EntryHi names its
    address space, the rows of that space are entries of the table, and no two
    of them serve the same pair of pages. *)
Record coherent (t : pagetable) (s : tlb) : Prop := {
  co_asid : tlb_asid s = pt_ASID t mod 2 ^ 8;
  co_rows : forall i r, tlb_rows s !! i = Some r -> ASID r = pt_ASID t mod 2 ^ 8 ->
    exists k, find_pair t (VPN2 r) = Some (k, r);
  co_distinct : forall i j r r', tlb_rows s !! i = Some r -> tlb_rows s !! j = Some r' ->
    ASID r = pt_ASID t mod 2 ^ 8 -> ASID r' = ASID r -> VPN2 r' = VPN2 r -> i = j
}.

(** A coherent buffer never translates an address otherwise than the page
    table. *)
Lemma coherent_translate t s p m :
  coherent t s -> tlb_translate s p = Some m -> translate t p = Some m.
Proof.
  intros [Ha Hr _] H. unfold tlb_translate in H.
  destruct (list_find _ _) as [[i r]|] eqn:E; [|done].
  apply list_find_Some in E as (Hi & [Hv Has] & _).
  destruct (Hr i r Hi) as [k Hk]; [congruence|]. unfold translate. by rewrite <- Hv, Hk.
Qed.

Lemma vm_get_entry_run t vaddr :
  pt_ok t -> 0x1000 <= vaddr < 4294967296 ->
  vm_get_entry_by_vaddr (Some t) vaddr =
    Ret ((fun ke => Z.of_nat (fst ke)) <$> find_pair t (vaddr / 4096 / 2)).
Proof.
  intros Hok Hv. unfold vm_get_entry_by_vaddr. destruct (Z.ltb_spec vaddr 0x1000); [lia|].
  rewrite (scan_table_find t (vaddr / 4096 / 2)); [|done|].
  - destruct (find_pair _ _) as [[k e]|] eqn:Hf; [|done].
    apply find_pair_Some in Hf as (_ & _ & He & _); [|done]. by rewrite pair_of_addr, He, Z.eqb_refl.
  - intros i e Hne. by rewrite pair_of_addr, (proj2 (Z.eqb_neq _ _) Hne).
Qed.

(** The access the check allows. *)
Definition allowed (t : pagetable) (p check_dirty : Z) : bool :=
  match translate t p with Some (_, d) => (check_dirty =? 0) || (d =? 1) | None => false end.

Lemma find_pair_asid t v k e : pt_ok t -> find_pair t v = Some (k, e) -> ASID e = pt_ASID t mod 2 ^ 8.
Proof.
  intros Hok Hf. apply find_pair_Some in Hf as (Hk & _); [|done].
  exact (Forall_lookup_1 _ _ _ _ (pt_asids _ Hok) Hk).
Qed.

Lemma land_255 a : Z.land a 0xff = a mod 2 ^ 8.
Proof. change 0xff with (Z.ones 8). by rewrite Z.land_ones. Qed.

Lemma try_to_fill_run random badvaddr t check s :
  pt_ok t -> 0x1000 <= badvaddr < 4294967296 ->
  try_to_fill random badvaddr (Some t) check s =
    Ret (if allowed t (badvaddr / 4096) check then
           (1, mk_tlb (<[random := default blank_entry (snd <$> find_pair t (badvaddr / 4096 / 2))]> (tlb_rows s))
                 (pt_ASID t mod 2 ^ 8) (tlb_cpu s))
         else (0, s)).
Proof.
  intros Hok Hb. unfold try_to_fill, mbind, M_bind. cbn -[vm_get_entry_by_vaddr rget Z.div].
  unfold lift. rewrite vm_get_entry_run by done.
  unfold allowed, translate. destruct (find_pair t _) as [[k e]|] eqn:Hf; cbn -[rget Z.div]; [|done].
  pose proof (find_pair_Some _ _ _ _ Hok Hf) as (_ & Hke & _ & _ & _).
  assert (rget (entries t) (Z.of_nat k) = Ret e) as ->.
  { apply rget_Ret. rewrite Nat2Z.id. split; [lia|done]. }
  rewrite even_page. unfold half.
  destruct (Z.even (badvaddr / 4096)); [destruct (V0 e =? 1)|destruct (V1 e =? 1)]; cbn [andb]; try done;
    case_bool; try done; cbn; unfold _tlb_set_asid, modify; cbn [tlb_rows tlb_cpu]; by rewrite land_255.
Qed.

(** Writing the entry of a pair that no row of the address space serves. *)
Lemma coherent_write t s random k e :
  pt_ok t -> coherent t s -> find_pair t (VPN2 e) = Some (k, e) ->
  (random < length (tlb_rows s))%nat ->
  (forall i r, tlb_rows s !! i = Some r -> i <> random -> ASID r = pt_ASID t mod 2 ^ 8 -> VPN2 r <> VPN2 e) ->
  coherent t (mk_tlb (<[random := e]> (tlb_rows s)) (pt_ASID t mod 2 ^ 8) (tlb_cpu s)) /\
  forall p, p / 2 = VPN2 e ->
    tlb_translate (mk_tlb (<[random := e]> (tlb_rows s)) (pt_ASID t mod 2 ^ 8) (tlb_cpu s)) p = translate t p.
Proof.
  intros Hok [Ha Hr Hd] Hf Hlt Hmiss. pose proof (find_pair_asid _ _ _ _ Hok Hf) as Has.
  assert (Hco : coherent t (mk_tlb (<[random := e]> (tlb_rows s)) (pt_ASID t mod 2 ^ 8) (tlb_cpu s))).
  { split; cbn; [done|..].
    - intros i r Hi Hri. destruct (decide (i = random)) as [->|Hne].
      + rewrite list_lookup_insert_eq in Hi by done. injection Hi as <-. by exists k.
      + rewrite list_lookup_insert_ne in Hi by done. eauto.
    - intros i j r r' Hi Hj Hri Hrj Hv.
      destruct (decide (i = random)) as [->|Hni], (decide (j = random)) as [->|Hnj]; [done|..];
        try rewrite list_lookup_insert_eq in Hi by done; try rewrite list_lookup_insert_eq in Hj by done;
        try rewrite list_lookup_insert_ne in Hi by done; try rewrite list_lookup_insert_ne in Hj by done.
      + injection Hi as <-. by destruct (Hmiss j r' Hj Hnj ltac:(congruence)).
      + injection Hj as <-. by destruct (Hmiss i r Hi Hni ltac:(congruence)).
      + eauto. }
  split; [done|]. intros p Hp.
  destruct (list_find (hits (mk_tlb (<[random := e]> (tlb_rows s)) (pt_ASID t mod 2 ^ 8) (tlb_cpu s)) (p / 2))
    (<[random := e]> (tlb_rows s))) as [[i r]|] eqn:E.
  - unfold tlb_translate. cbn [tlb_rows]. rewrite E.
    apply list_find_Some in E as (Hi & [Hv Hra] & _). cbn in Hra.
    destruct (co_rows _ _ Hco i r Hi Hra) as [k' Hk']. unfold translate. by rewrite <- Hv, Hk'.
  - apply list_find_None in E. rewrite Forall_forall in E. destruct (E e).
    + eapply list_elem_of_lookup_2. by apply list_lookup_insert_eq.
    + split; [done|]. cbn. exact Has.
Qed.

Lemma fill_any_run random badvaddr t check s :
  pt_ok t -> 0 <= badvaddr < 4294967296 ->
  try_to_fill random badvaddr (Some t) check s =
    Ret (if (0x1000 <=? badvaddr) && allowed t (badvaddr / 4096) check then
           (1, mk_tlb (<[random := default blank_entry (snd <$> find_pair t (badvaddr / 4096 / 2))]> (tlb_rows s))
                 (pt_ASID t mod 2 ^ 8) (tlb_cpu s))
         else (0, s)).
Proof.
  intros Hok Hb. destruct (Z.leb_spec 0x1000 badvaddr); cbn [andb]; [apply try_to_fill_run; [done|lia]|].
  unfold try_to_fill, vm_get_entry_by_vaddr. rewrite (proj2 (Z.ltb_lt _ _)) by lia. done.
Qed.

(** A page that the table maps and a coherent buffer does not translate has
    no row, not even an invalid one. *)
Lemma coherent_miss t s p :
  coherent t s -> tlb_translate s p = None -> translate t p <> None ->
  forall i r, tlb_rows s !! i = Some r -> ASID r = pt_ASID t mod 2 ^ 8 -> VPN2 r <> p / 2.
Proof.
  intros [Ha Hr _] Hmiss Hmap i r Hi Hri Hv. apply Hmap. unfold tlb_translate in Hmiss.
  destruct (list_find _ _) as [[j e]|] eqn:E.
  - apply list_find_Some in E as (Hj & [Hve Hae] & _).
    destruct (Hr j e Hj) as [k Hk]; [congruence|]. unfold translate. by rewrite <- Hve, Hk.
  - apply list_find_None in E. rewrite Forall_forall in E.
    destruct (E r); [by eapply list_elem_of_lookup_2|]. split; [done|congruence].
Qed.

(** Filling in the entry of a page that was missing. *)
Lemma refill_coherent t s random p check :
  pt_ok t -> coherent t s -> tlb_translate s p = None -> allowed t p check = true -> (random < length (tlb_rows s))%nat ->
  let s' := mk_tlb (<[random := default blank_entry (snd <$> find_pair t (p / 2))]> (tlb_rows s))
              (pt_ASID t mod 2 ^ 8) (tlb_cpu s) in
  coherent t s' /\ tlb_translate s' p = translate t p.
Proof.
  intros Hok Hco Hmiss E Hlt. assert (Hmap : translate t p <> None) by (unfold allowed in E; by destruct (translate t p)).
  pose proof (coherent_miss t s p Hco Hmiss Hmap) as Hrow.
  unfold translate in Hmap. destruct (find_pair t (p / 2)) as [[k e]|] eqn:Hf; [|done].
  pose proof (find_pair_Some _ _ _ _ Hok Hf) as (_ & _ & Hv & _).
  cbn [fmap option_fmap option_map default snd from_option id].
  destruct (coherent_write t s random k e Hok Hco) as [Hco' Htr]; [congruence|done| |].
  - intros i r Hi _ Hri. rewrite Hv. eauto.
  - split; [done|]. by apply Htr.
Qed.

(** Replacing an entry of the table and of the buffer together. *)
Lemma find_pair_with_entry t k old new v :
  pt_ok t -> find_pair t (VPN2 old) = Some (k, old) -> entry_ok new -> VPN2 new = VPN2 old -> ASID new = ASID old ->
  find_pair (with_entry t k new) v = if decide (v = VPN2 old) then Some (k, new) else find_pair t v.
Proof.
  intros Hok Hf Hnew Hv Has. pose proof (find_pair_Some _ _ _ _ Hok Hf) as (Hk & _).
  pose proof (with_entry_ok _ _ _ _ Hok Hk Hnew Hv Has) as Hok'.
  assert (Hlt : (k < length (used t))%nat) by (by eapply lookup_lt_Some).
  case_decide as D.
  - apply (find_pair_unique _ _ k new Hok'); [|congruence]. by rewrite used_with_entry, list_lookup_insert_eq.
  - destruct (find_pair t v) as [[j d]|] eqn:Ej.
    + pose proof (find_pair_Some _ _ _ _ Hok Ej) as (Hj & _ & Hjv & _).
      apply (find_pair_unique _ _ j d Hok'); [|done].
      rewrite used_with_entry, list_lookup_insert_ne; [done|]. intros ->. congruence.
    + destruct (find_pair (with_entry t k new) v) as [[j d]|] eqn:Ej'; [|done].
      pose proof (find_pair_Some _ _ _ _ Hok' Ej') as (Hj & _ & Hjv & _). rewrite used_with_entry in Hj.
      destruct (decide (j = k)) as [->|]; [rewrite list_lookup_insert_eq in Hj by done; congruence|].
      rewrite list_lookup_insert_ne in Hj by done. by destruct (find_pair_None _ _ _ _ Ej Hj).
Qed.

Lemma coherent_replace t s k old new :
  pt_ok t -> coherent t s -> find_pair t (VPN2 old) = Some (k, old) ->
  entry_ok new -> VPN2 new = VPN2 old -> ASID new = ASID old ->
  let rows' := match list_find (matches old) (tlb_rows s) with
               | Some (i, _) => <[i := new]> (tlb_rows s) | None => tlb_rows s end in
  coherent (with_entry t k new) (mk_tlb rows' (pt_ASID t mod 2 ^ 8) (tlb_cpu s)).
Proof.
  intros Hok [Ha Hr Hd] Hf Hnew Hv Has rows'. pose proof (find_pair_asid _ _ _ _ Hok Hf) as Hold.
  assert (Hrows : forall i r, rows' !! i = Some r -> ASID r = pt_ASID t mod 2 ^ 8 ->
    (exists r0, tlb_rows s !! i = Some r0 /\ VPN2 r0 = VPN2 r /\ ASID r0 = ASID r) /\
    (if decide (VPN2 r = VPN2 old) then r = new else tlb_rows s !! i = Some r)).
  { intros i r Hi Hri. subst rows'. destruct (list_find _ _) as [[j r1]|] eqn:E.
    - apply list_find_Some in E as (Hj & [Hv1 Ha1] & _).
      assert (j < length (tlb_rows s))%nat by (by eapply lookup_lt_Some).
      destruct (decide (i = j)) as [->|Hne].
      + rewrite list_lookup_insert_eq in Hi by done. injection Hi as <-.
        rewrite decide_True by done. split; [|done]. exists r1. split_and!; congruence.
      + rewrite list_lookup_insert_ne in Hi by done. split; [by exists r|].
        case_decide as D; [|done]. destruct Hne. apply (Hd i j r r1); congruence.
    - split; [by exists r|]. case_decide as D; [|done]. apply list_find_None in E.
      rewrite Forall_forall in E. destruct (E r); [by eapply list_elem_of_lookup_2|split; congruence]. }
  split; cbn [pt_ASID with_entry tlb_asid tlb_rows]; [done|..].
  - intros i r Hi Hri. destruct (Hrows i r Hi Hri) as [_ H].
    rewrite (find_pair_with_entry t k old new) by done.
    case_decide as D; [subst r; by exists k|]. eauto.
  - intros i j r r' Hi Hj Hri Hrj Hvv.
    destruct (Hrows i r Hi Hri) as [(r0 & Hi0 & Hv0 & Ha0) _].
    destruct (Hrows j r' Hj ltac:(congruence)) as [(r0' & Hj0 & Hv0' & Ha0') _].
    apply (Hd i j r0 r0'); congruence.
Qed.

(** What replacing does, exactly. *)
Lemma tlb_replace_exact probe new s :
  is_u32 (status (tlb_cpu s)) -> 0 <= ASID new < 2 ^ 8 -> ASID probe = ASID new ->
  tlb_replace_entry_if_exists probe new s =
    Ret (tt, mk_tlb (match list_find (matches probe) (tlb_rows s) with
                     | Some (i, _) => <[i := new]> (tlb_rows s) | None => tlb_rows s end) (ASID new) (tlb_cpu s)).
Proof.
  intros Hst Hr Hpa.
  assert (Hmod : Z.land (ASID probe) 0xff = ASID new) by (rewrite land_255, Hpa; by apply Z.mod_small).
  assert (Hcpu : mk_cpu (Z.lor (Z.land 0xff01 (status (tlb_cpu s)))
      (Z.land (Z.land 0xffff00fe (status (tlb_cpu s))) (u32 (Z.lnot 0xff01)))) (held (tlb_cpu s)) = tlb_cpu s).
  { rewrite restore_status by done. by destruct (tlb_cpu s). }
  unfold tlb_replace_entry_if_exists, interrupt_disable, _tlb_probe, _tlb_set_asid, interrupt_set_state, set_status.
  unfold wp, mbind, M_bind, modify, gets. cbn -[Z.land Z.lor u32 Z.lnot].
  destruct (list_find (matches probe) (tlb_rows s)) as [[i r]|] eqn:E.
  - rewrite (proj2 (Z.geb_le (Z.of_nat i) 0)) by lia.
    apply list_find_Some in E as (Hi & _ & _). pose proof (lookup_lt_Some _ _ _ Hi).
    unfold _tlb_get_maxindex. cbn [tlb_rows].
    destruct (Z.ltb_spec (zlen (tlb_rows s) - 1 - Z.of_nat i) 0); [lia|].
    cbn -[Z.land Z.lor u32 Z.lnot]. by rewrite Nat2Z.id, Hcpu.
  - cbn -[Z.land Z.lor u32 Z.lnot]. by rewrite Hcpu, Hmod.
Qed.

(** ** The theorems *)

(** Claim C39. The three TLB exceptions of a thread with page table [t], in a
    buffer coherent with [t], whichever row the hardware picks and whatever the
    address. A load or store that the hardware does not translate, because the
    buffer has no row for the pair of pages or because the row it has is not
    valid for this page: when the address is at least 0x1000 and the table
    maps the page (with write permission, for a store), the thread tries again
    and the hardware now translates the address as the table does; otherwise
    the process is ended with the status of a TLB fault and the buffer is
    unchanged. A store to a page that the hardware translates without write
    permission ends the process, and the table does not allow that store
    either. The buffer stays coherent in every case. *)
Theorem tlb_refill_correct random badvaddr t s :
  pt_ok t -> coherent t s -> 0 <= badvaddr < 4294967296 -> (random < length (tlb_rows s))%nat ->
  let p := badvaddr / 4096 in
  let correct ok o s' :=
    coherent t s' /\
    if ok : bool then o = Resume /\ tlb_translate s' p = translate t p
    else o = ExitProcess PROCESS_EXIT_STATUS_EXCEPTION_TLBS /\ s' = s in
  match tlb_translate s p with
  | None =>
      wp (tlb_load_exception random badvaddr (Some t)) (correct ((0x1000 <=? badvaddr) && allowed t p 0)) s /\
      wp (tlb_store_exception random badvaddr (Some t)) (correct ((0x1000 <=? badvaddr) && allowed t p 1)) s
  | Some (_, d) =>
      d <> 1 -> allowed t p 1 = false /\ wp (tlb_modified_exception (Some t)) (correct false) s
  end.
Proof.
  intros Hok Hco Hb Hlt p correct.
  destruct (tlb_translate s p) as [[pfn d]|] eqn:Hmiss.
  { intros Hd. split; [|by apply wp_ret].
    unfold allowed. rewrite (coherent_translate t s p _ Hco Hmiss). cbn. by apply Z.eqb_neq. }
  assert (H : forall check, wp (r ← try_to_fill random badvaddr (Some t) check;
    mret (if r =? 0 then kill (Some t) else Resume)) (correct ((0x1000 <=? badvaddr) && allowed t p check)) s).
  { intros check. apply wp_bind. unfold wp at 1. rewrite fill_any_run by done.
    destruct (_ && _) eqn:E; [|by apply wp_ret]. apply andb_prop in E as [_ E].
    apply wp_ret. destruct (refill_coherent t s random p check Hok Hco Hmiss E Hlt) as [Hco' Htr]. by split_and!. }
  split; apply H.
Qed.

Lemma tlb_refill_correct_witness :
  wp (tlb_load_exception 1 0x401010 (Some odd_table)) (fun o s' => o = Resume)
    (mk_tlb (replicate 16 blank_entry) 5 (mk_cpu 0 ∅)).
Proof.
  eapply wp_mono.
  - refine (proj1 (tlb_refill_correct 1 0x401010 odd_table (mk_tlb (replicate 16 blank_entry) 5 (mk_cpu 0 ∅)) _ _ _ _)).
    + exact odd_table_ok.
    + split; [reflexivity|..].
      * intros i r [-> _]%lookup_replicate Hr. discriminate.
      * intros i j r r' [-> _]%lookup_replicate _ Hr. discriminate.
    + vm_check.
    + vm_compute. lia.
  - intros o s' [_ [Ho _]]. exact Ho.
Defined.

(** After the entry of a page table is changed, replacing it in
    the buffer, if it is there, makes the buffer coherent with the changed
    table: no stale translation of the pair survives. The interrupt state is
    as before. *)
Theorem tlb_replace_coherent t s k old new :
  pt_ok t -> coherent t s -> is_u32 (status (tlb_cpu s)) ->
  find_pair t (VPN2 old) = Some (k, old) ->
  entry_ok new -> VPN2 new = VPN2 old -> ASID new = ASID old ->
  wp (tlb_replace_entry_if_exists old new) (fun _ s' =>
    coherent (with_entry t k new) s' /\ tlb_cpu s' = tlb_cpu s) s.
Proof.
  intros Hok Hco Hst Hf Hnew Hv Has. pose proof (find_pair_asid _ _ _ _ Hok Hf) as Hold.
  pose proof (Z.mod_pos_bound (pt_ASID t) (2 ^ 8) ltac:(lia)).
  eapply wp_eq; [apply tlb_replace_exact; [done|rewrite Has, Hold; lia|done]|]. split; [|done].
  rewrite Has, Hold. by apply coherent_replace.
Qed.

Lemma tlb_replace_coherent_witness :
  wp (tlb_replace_entry_if_exists (mk_tlb_entry 0x200 5 0 0 0 0 0 7 0 1 1 0) (mk_tlb_entry 0x200 5 0 0 0 0 0 7 0 1 0 0))
    (fun _ s' => tlb_cpu s' = mk_cpu 0xff01 ∅)
    (mk_tlb (mk_tlb_entry 0x200 5 0 0 0 0 0 7 0 1 1 0 :: replicate 15 blank_entry) 5 (mk_cpu 0xff01 ∅)).
Proof.
  eapply wp_mono.
  - apply (tlb_replace_coherent odd_table
      (mk_tlb (mk_tlb_entry 0x200 5 0 0 0 0 0 7 0 1 1 0 :: replicate 15 blank_entry) 5 (mk_cpu 0xff01 ∅)) 0).
    + exact odd_table_ok.
    + split; [reflexivity|..].
      * intros [|i] r; [intros [= <-] _; exists 0%nat; reflexivity|].
        intros [-> _]%(lookup_replicate 15 blank_entry) Hr. discriminate.
      * intros [|i] [|j] r r'; [done| |intros H; by apply (lookup_replicate 15 blank_entry) in H as [-> _]|].
        -- intros [= <-] [-> _]%(lookup_replicate 15 blank_entry). discriminate.
        -- intros [-> _]%(lookup_replicate 15 blank_entry) _ Hr. discriminate.
    + vm_check.
    + reflexivity.
    + repeat split; cbn; lia.
    + reflexivity.
    + reflexivity.
  - intros u s' [_ H]. exact H.
Defined.
