(* ===== verification/User.v ===== *)
(** * proc/syscall_helpers.c: copying between the kernel and a process

    System calls get addresses of the calling process.  The three functions
    here check each page with [vm_get_vaddr_page_offsets] and then use the
    process's addresses themselves, through the translation buffer; a page the
    page table does not map ends the process in the exception handler.  The
    state is the process's page table and the physical memory. *)
From S2P Require Import Prelude Bitmap Cpu Kmalloc Pagepool Vm.

(** ** The code *)
Record uspace := mk_uspace {
  us_table : pagetable;
  us_ram : Z -> Z        (** the bytes of physical memory *)
}.

(** What the processor makes of an address in kernel mode: kernel segments 0
    and 1 are not translated, the rest is, with the page's write bit. *)
Definition phys (t : pagetable) (a : Z) : option (Z * bool) :=
  if (0x80000000 <=? a) && (a <? 0xc0000000) then Some (a mod 0x20000000, true)
  else '(pfn, d) ← translate t (a / 4096); Some (pfn * 4096 + a mod 4096, d =? 1).
Definition load (a : Z) : M uspace Z := fun s =>
  match phys (us_table s) a with Some (p, _) => Ret (us_ram s p, s) | None => Fail Killed end.
Definition store (a v : Z) : M uspace unit := fun s =>
  match phys (us_table s) a with
  | Some (p, true) => Ret (tt, mk_uspace (us_table s) (fun q => if q =? p then v else us_ram s q))
  | _ => Fail Killed
  end.

Definition RETVAL_SYSCALL_HELPERS_NOK : Z := -1.
Definition RETVAL_SYSCALL_HELPERS_OK : Z := 1.

(** The two loops of the three functions: over pages while [guard] holds, and
    over the bytes of a page.  [copy] handles the byte [i], and may end the
    function. In the inner loop [vaddr] stays what it was at the start of the
    page while [i] counts from the start of the data. *)
Section walk.
Context {A : Type} (guard : Z -> bool) (copy : Z -> A -> M uspace (A + (Z * A))).
Definition BYTES_FUEL : nat := Z.to_nat 8193.
Definition walk_byte (vaddr page_end : Z) (x : Z * A) : M uspace ((Z * A) + ((Z * A) + (Z * A))) :=
  let '(i, a) := x in
  if (u32 (vaddr + i) <? page_end) && guard i then
    r ← copy i a;
    mret (match r with inl a' => inl (u32 (i + 1), a') | inr ret => inr (inr ret) end)
  else mret (inr (inl (i, a))).
Definition walk_page (start : Z) (x : Z * A) : M uspace ((Z * A) + (Z * A)) :=
  let '(i, a) := x in
  if guard i then
    let vaddr := u32 (start + i) in
    t ← gets us_table;
    '(inside_pagetable, _, virtual_page_start) ← lift (vm_get_vaddr_page_offsets (Some t) vaddr);
    if inside_pagetable =? 0 then mret (inr (RETVAL_SYSCALL_HELPERS_NOK, a))
    else loop BYTES_FUEL (walk_byte vaddr (u32 (virtual_page_start + PAGE_SIZE))) (i, a)
  else mret (inr (RETVAL_SYSCALL_HELPERS_OK, a)).
Definition walk (fuel : nat) (start : Z) (a : A) : M uspace (Z * A) := loop fuel (walk_page start) (0, a).
End walk.

(** The answer is the return value and the target buffer. *)
Definition read_string_from_vm (fuel : nat) (virtual_source : Z) (physical_target : list Z) (max_length : Z) : M uspace (Z * list Z) :=
  walk (fun _ => true) (fun i target =>
    if i >=? u32 max_length then mret (inr (RETVAL_SYSCALL_HELPERS_NOK, target))
    else
      c ← load (u32 (virtual_source + i));
      target ← lift (rset target i c);
      if c =? 0 then mret (inr (u32 (i + 1), target)) else mret (inl target))
    fuel virtual_source physical_target.
Definition read_data_from_vm (fuel : nat) (virtual_source : Z) (physical_target : list Z) (size : Z) : M uspace (Z * list Z) :=
  walk (fun i => i <? u32 size) (fun i target =>
    c ← load (u32 (virtual_source + i));
    target ← lift (rset target i c);
    mret (inl target))
    fuel virtual_source physical_target.
Definition write_data_to_vm (fuel : nat) (physical_source : list Z) (virtual_target size : Z) : M uspace Z :=
  r ← walk (fun i => i <? u32 size) (fun i _ =>
    c ← lift (rget physical_source i);
    _ ← store (u32 (virtual_target + i)) c;
    mret (inl tt))
    fuel virtual_target tt;
  mret r.1.

(** ** The bytes of a process *)

Definition user_addr (t : pagetable) (a : Z) : option Z :=
  '(pfn, _) ← translate t (a / 4096); Some (pfn * 4096 + a mod 4096).
Definition user_byte (s : uspace) (a : Z) : option Z := p ← user_addr (us_table s) a; Some (us_ram s p).
Definition user_data (s : uspace) (a : Z) (xs : list Z) : Prop :=
  forall k x, xs !! k = Some x -> user_byte s (a + Z.of_nat k) = Some x.
(** The null-terminated string at [a]. *)
Definition user_string (s : uspace) (a : Z) (str : list Z) : Prop :=
  user_data s a (str ++ [0]) /\ Forall (fun c => c <> 0) str.
(** The page table of a process maps pages of the user segment only, and not
    the first page. *)
Definition user_table (t : pagetable) : Prop := forall p m, translate t p = Some m -> 1 <= p < 2 ^ 19.

(** ** The walk *)
Section facts.
Context {A : Type} (guard : Z -> bool) (copy : Z -> A -> M uspace (A + (Z * A))).
Context (t : pagetable) (start : Z) (Ht : pt_ok t) (Hu : user_table t) (Hstart : is_u32 start).
Context (K : Prop) (J : Z -> A -> uspace -> Prop) (Q : Z * A -> uspace -> Prop).
(** [J i a s]: the bytes before [i] are done. *)
Context (HJ : forall i a s, J i a s -> us_table s = t /\ 0 <= i <= 4096 /\ (i = 4096 -> guard i = false)).
Context (Hcopy : forall i a s, J i a s -> guard i = true -> 0 <= start + i < 2147483648 ->
  wpk K (copy i a) (fun r s' => match r with
    | inl a' => J (i + 1) a' s' /\ translate t ((start + i) / 4096) <> None
    | inr ret => Q ret s' end) s).
Context (Hnok : forall i a s, J i a s -> guard i = true -> translate t ((start + i) / 4096) = None ->
  Q (RETVAL_SYSCALL_HELPERS_NOK, a) s).
Context (Hend : forall i a s, J i a s -> guard i = false -> Q (RETVAL_SYSCALL_HELPERS_OK, a) s).

(** What the check of an address answers. *)
Lemma page_check vaddr : is_u32 vaddr ->
  exists inside x pstart, vm_get_vaddr_page_offsets (Some t) vaddr = Ret (inside, x, pstart) /\
    (inside = 0 /\ translate t (vaddr / 4096) = None \/
     inside <> 0 /\ 4096 <= vaddr < 2147483648 /\ translate t (vaddr / 4096) <> None /\ pstart = vaddr / 4096 * 4096 \/
     inside <> 0 /\ 4096 <= vaddr < 2147483648 /\ translate t (vaddr / 4096) = None /\ pstart = vaddr / 4096 * 4096 + 4096 /\
       pstart + 4096 <= 2147483648).
Proof.
  intros [Hv1 Hv2]. pose proof (Z.div_mod vaddr 4096 ltac:(lia)). pose proof (Z.mod_pos_bound vaddr 4096 ltac:(lia)).
  destruct (Z.ltb_spec vaddr 0x1000) as [Hlt|Hge].
  - exists 0, 0, 0. split; [unfold vm_get_vaddr_page_offsets; by rewrite (proj2 (Z.ltb_lt _ _) Hlt)|]. left. split; [done|].
    destruct (translate t (vaddr / 4096)) as [m|] eqn:E; [|done]. apply Hu in E. lia.
  - rewrite vm_get_vaddr_page_offsets_run by (done || lia). unfold page_offsets.
    destruct (translate t (vaddr / 4096)) as [[pfn d]|] eqn:E.
    + pose proof (Hu _ _ E). do 3 eexists. split; [done|]. right. left. repeat split; lia || done.
    + destruct (Z.even (vaddr / 4096)) eqn:Ev; [|by do 3 eexists; split; [done|left]].
      destruct (translate t (vaddr / 4096 + 1)) as [[pfn d]|] eqn:E'; [|by do 3 eexists; split; [done|left]].
      pose proof (Hu _ _ E') as Hp. do 3 eexists. split; [done|]. right. right. repeat split; try lia.
Qed.

(** The invariant of the pages: each starts where the last one ended. *)
Definition at_page (x : Z * A) (s : uspace) : Prop :=
  J x.1 x.2 s /\ (guard x.1 = false \/ x.1 = 0 \/ 0 < x.1 /\ (start + x.1) mod 4096 = 0 /\ start + x.1 <= 2147483648).
Definition pages_left (x : Z * A) : nat :=
  if guard x.1 then if x.1 =? 0 then 2 else 1 else 0.

(** One page, which leaves off at the end of the page or of the data. *)
Lemma walk_bytes_run i a s pstart :
  at_page (i, a) s -> guard i = true -> 4096 <= start + i < 2147483648 ->
  translate t ((start + i) / 4096) <> None /\ pstart = (start + i) / 4096 * 4096 \/
  translate t ((start + i) / 4096) = None /\ pstart = (start + i) / 4096 * 4096 + 4096 /\ pstart + 4096 <= 2147483648 ->
  wpk K (loop BYTES_FUEL (walk_byte guard copy (start + i) (u32 (pstart + PAGE_SIZE))) (i, a)) (fun r s' =>
    match r with
    | inl x => at_page x s' /\ (pages_left x < pages_left (i, a))%nat
    | inr ret => Q ret s'
    end) s.
Proof.
  intros [Hj Hi] Hg Hv Hps. cbn in Hi, Hj. pose proof (HJ _ _ _ Hj) as (_ & Hi4 & Hg4).
  pose proof (Z.div_mod (start + i) 4096 ltac:(lia)) as Hdm. pose proof (Z.mod_pos_bound (start + i) 4096 ltac:(lia)) as Hmb.
  assert (i <> 4096) by (intros ->; rewrite Hg4 in Hg by done; done).
  assert (Hend31 : pstart + 4096 <= 2147483648 /\ start + i < pstart + 4096 <= start + i + 8192).
  { destruct Hps as [[_ ->]|(_ & -> & ?)]; lia. }
  change PAGE_SIZE with 4096. rewrite (u32_id (pstart + 4096)) by (unfold is_u32; lia).
  unfold is_u32 in Hstart.
  apply (wpk_loop K _ (fun x s' => J x.1 x.2 s' /\ i <= x.1 /\
      (x.1 = i \/ translate t ((start + i) / 4096) <> None /\ start + i + x.1 <= pstart + 4096))
    (fun x => Z.to_nat (8192 - x.1))).
  2: { unfold BYTES_FUEL. cbn [fst]. lia. }
  2: { split; [done|]. split; [cbn; lia|by left]. }
  intros [i' a'] s' (Hj' & Hle & Hat). cbn [fst snd] in *. pose proof (HJ _ _ _ Hj') as (_ & Hi4' & Hg4').
  unfold walk_byte. rewrite (u32_id (start + i + i')) by (unfold is_u32; lia).
  destruct ((start + i + i' <? pstart + 4096) && guard i') eqn:E.
  - zbool. apply wpk_bind. eapply wpk_mono; [apply (Hcopy i' a' s' Hj'); [done|lia]|].
    intros [a''|ret] s'' Hr; apply wpk_ret; [|done]. destruct Hr as [Hj'' Htr].
    rewrite u32_id by (unfold is_u32; lia). cbn [fst snd]. split; [|lia]. split; [done|]. split; [lia|]. right. split; [|lia].
    destruct Hat as [-> |[? _]]; done.
  - apply wpk_ret.
    assert (Hstop : pstart + 4096 <= start + i + i' \/ guard i' = false) by (destruct (guard i'); [left; rewrite andb_true_r in E; zbool; lia|by right]).
    unfold at_page, pages_left. cbn [fst snd]. rewrite Hg. destruct (guard i') eqn:Hg'.
    2: { split; [split; [done|by left]|]. destruct (i =? 0); lia. }
    destruct Hstop as [Hstop|]; [|done]. assert (i' <> 4096) by (intros H4; by specialize (Hg4' H4)).
    destruct Hi as [Hi|[-> |(Hpos & Hmod & _)]]; [congruence| |].
    + destruct Hat as [-> |[Hsome Hbound]]; [lia|]. destruct Hps as [[_ ->]|[? _]]; [|done].
      rewrite (proj2 (Z.eqb_neq i' 0)) by lia. cbn. split; [|lia]. split; [done|]. right. right. split; [lia|]. split; [|lia].
      replace (start + i') with (((start + 0) / 4096 + 1) * 4096) by lia. apply Z.mod_mul. lia.
    + destruct Hat as [-> |[Hsome Hbound]]; [lia|]. destruct Hps as [[_ ->]|[? _]]; [|done]. lia.
Qed.

(** The whole walk, for data of at most a page. *)
Lemma walk_run fuel a s : (2 < fuel)%nat -> J 0 a s -> wpk K (walk guard copy fuel start a) Q s.
Proof.
  intros Hfuel Hj. unfold walk. apply (wpk_loop K _ at_page pages_left).
  - clear Hj a s. intros [i a] s Hat. unfold walk_page. destruct (guard i) eqn:Hg.
    2: { destruct Hat as [Hj _]. by apply (Hend i). }
    pose proof Hat as [Hj Hi]. cbn in Hj, Hi. pose proof (HJ _ _ _ Hj) as (Hs & Hi4 & _).
    assert (Hu32 : is_u32 (start + i)).
    { unfold is_u32 in *. destruct Hi as [|[-> |(? & _ & ?)]]; [congruence|lia|lia]. }
    rewrite (u32_id (start + i)) by done.
    apply wpk_bind. unfold wpk at 1, gets. rewrite Hs.
    destruct (page_check (start + i) Hu32) as (inside & x & pstart & Hrun & Hcase).
    apply wpk_bind. unfold wpk at 1, lift. rewrite Hrun.
    destruct Hcase as [[-> Hnone]|Hcase]; [by eapply (Hnok i)|].
    assert (inside <> 0) as Hne by (destruct Hcase as [[? _]|[? _]]; done). rewrite (proj2 (Z.eqb_neq _ _) Hne).
    eapply wpk_mono; [apply (walk_bytes_run i a s pstart Hat Hg)|].
    + destruct Hcase as [(_ & ? & _)|(_ & ? & _)]; done.
    + destruct Hcase as [(_ & _ & ? & ?)|(_ & _ & ?)]; [by left|by right].
    + done.
  - unfold pages_left. cbn. destruct (guard 0); lia.
  - split; [done|]. right. by left.
Qed.
End facts.

(** ** The three functions *)
Lemma user_data_snoc s a xs x : user_data s a xs -> user_byte s (a + zlen xs) = Some x -> user_data s a (xs ++ [x]).
Proof.
  intros H Hx k y [Hk|[Hk Hy]]%lookup_app_Some; [by apply H|].
  destruct (k - length xs)%nat as [|n] eqn:E; [|done]. injection Hy as <-. by replace k with (length xs) by lia.
Qed.

Lemma phys_user t a : 0 <= a < 2147483648 -> phys t a = '(pfn, d) ← translate t (a / 4096); Some (pfn * 4096 + a mod 4096, d =? 1).
Proof. intros H. unfold phys. destruct (Z.leb_spec 0x80000000 a); [lia|done]. Qed.

Lemma wpk_load K s a Q :
  0 <= a < 2147483648 ->
  (forall x, user_byte s a = Some x -> translate (us_table s) (a / 4096) <> None -> Q x s) -> (user_byte s a = None -> K) ->
  wpk K (load a) Q s.
Proof.
  intros Ha HQ HK. unfold wpk, load, user_byte, user_addr in *. rewrite phys_user by done.
  destruct (translate (us_table s) (a / 4096)) as [[pfn d]|]; cbn in *; [by apply HQ|by apply HK].
Qed.

Lemma wpk_lift {S A} K (r : res A) (Q : A -> S -> Prop) s a : r = Ret a -> Q a s -> wpk K (lift r) Q s.
Proof. intros -> ?. done. Qed.

Section theorems.
Implicit Types (s : uspace) (target : list Z).

(** What [read_string_from_vm] has done after [i] bytes. *)
Definition string_read s0 src target max i out s : Prop :=
  s = s0 /\ 0 <= i <= max /\ exists xs, zlen xs = i /\ user_data s0 src xs /\ Forall (fun c => c <> 0) xs /\ out = splice target 0 xs.

Lemma no_string_shorter s src xs str :
  user_data s src xs -> Forall (fun c => c <> 0) xs -> user_string s src str -> zlen xs <= zlen str.
Proof.
  intros Hx Hnz [Hs _]. destruct (decide (length xs <= length str)%nat); [lia|]. exfalso.
  destruct (lookup_lt_is_Some_2 xs (length str)) as [x Hk]; [lia|].
  pose proof (Hx _ _ Hk) as H1. rewrite (Hs (length str) 0) in H1 by (rewrite lookup_app_r, Nat.sub_diag by lia; done).
  injection H1 as <-. by eapply Forall_lookup_1 in Hnz.
Qed.

Lemma read_string_run fuel s src target max :
  pt_ok (us_table s) -> user_table (us_table s) -> is_u32 src -> 0 <= max <= 4095 -> max <= zlen target -> (2 < fuel)%nat ->
  wpk (exists i, 0 <= i < max /\ user_byte s (src + i) = None /\ forall str, user_string s src str -> i <= zlen str) (read_string_from_vm fuel src target max)
    (fun r s' => s' = s /\
      ((exists str, user_string s src str /\ zlen str < max /\ r = (zlen str + 1, splice target 0 (str ++ [0]))) \/
       (r.1 = RETVAL_SYSCALL_HELPERS_NOK /\ (exists xs, zlen xs <= max /\ r.2 = splice target 0 xs) /\
        forall str, user_string s src str -> max <= zlen str))) s.
Proof.
  intros Hok Hu Hsrc Hmax Hlen Hfuel. unfold read_string_from_vm. rewrite (u32_id max) by (unfold is_u32; lia).
  apply (walk_run _ _ (us_table s) src Hok Hu Hsrc _ (string_read s src target max)); [..|done|].
  - intros i a s' (-> & ? & _). repeat split; lia.
  - intros i a s' (-> & Hi & xs & Hxi & Hxs & Hnz & ->) _ Ha. destruct (Z.geb_spec i max).
    + apply wpk_ret. split; [done|]. right. split; [done|]. split; [exists xs; split; [lia|done]|].
      intros str Hstr. pose proof (no_string_shorter _ _ _ _ Hxs Hnz Hstr). lia.
    + rewrite (u32_id (src + i)) by (unfold is_u32 in *; lia).
      apply wpk_bind, wpk_load; [done| |intros; exists i; split; [lia|split; [done|intros str Hstr; rewrite <- Hxi; by eapply no_string_shorter]]]. intros c Hc Htr.
      apply wpk_bind. subst i. eapply wpk_lift; [apply rset_append; lia|].
      pose proof (user_data_snoc _ _ _ _ Hxs Hc) as Hxc. destruct (Z.eqb_spec c 0) as [-> |Hc0]; apply wpk_ret.
      * split; [done|]. left. exists xs. split; [done|]. split; [lia|]. by rewrite u32_id by (unfold is_u32; lia).
      * split; [|done]. split; [done|]. split; [lia|]. exists (xs ++ [c]). rewrite length_app. cbn.
        split; [lia|]. split; [done|]. split; [|done]. apply Forall_app. by repeat constructor.
  - intros i a s' (-> & Hi & xs & Hxi & Hxs & Hnz & ->) _ Hnone. split; [done|]. right. split; [done|].
    split; [exists xs; split; [lia|done]|]. intros str Hstr. pose proof (no_string_shorter _ _ _ _ Hxs Hnz Hstr).
    exfalso. destruct Hstr as [Hstr _]. destruct (lookup_lt_is_Some_2 (str ++ [0]) (Z.to_nat i)) as [x Hx]; [rewrite length_app; cbn; lia|].
    specialize (Hstr _ _ Hx). rewrite Z2Nat.id in Hstr by lia. unfold user_byte, user_addr in Hstr. by rewrite Hnone in Hstr.
  - done.
  - split; [done|]. split; [lia|]. exists []. split; [done|]. split; [by intros k x Hk|]. split; [done|]. by rewrite splice_nil.
Qed.
Lemma user_string_unique s src str str' : user_string s src str -> user_string s src str' -> str = str'.
Proof.
  intros H1 H2. assert (Hle : forall a b, user_string s src a -> user_string s src b -> zlen a <= zlen b).
  { intros a b [Ha Hn] Hb. apply (no_string_shorter s src a b); [|done|done]. intros k x Hk. apply Ha. by apply lookup_app_l_Some. }
  pose proof (Hle _ _ H1 H2). pose proof (Hle _ _ H2 H1). apply (list_eq_same_length _ _ (length str)); [lia|done|].
  intros k x y Hk Hx Hy. pose proof (proj1 H1 k x (lookup_app_l_Some _ _ _ _ Hx)). pose proof (proj1 H2 k y (lookup_app_l_Some _ _ _ _ Hy)). congruence.
Qed.

(** Claim C27. Reading a string of a process into a buffer of [max] bytes ends,
    after at most two pages, for every [max] below the page size: with the
    string and its length when there is a string of fewer than [max]
    characters in mapped memory, and otherwise with an error, or in the
    exception handler at an address of the range that is not mapped. Nothing
    but the buffer is changed. *)
Theorem read_string_correct fuel s src target max :
  pt_ok (us_table s) -> user_table (us_table s) -> is_u32 src -> 0 <= max <= 4095 -> max <= zlen target -> (2 < fuel)%nat ->
  wpk (exists i, 0 <= i < max /\ user_byte s (src + i) = None) (read_string_from_vm fuel src target max)
    (fun r s' => s' = s /\
      ((exists str, user_string s src str /\ zlen str < max /\ r = (zlen str + 1, splice target 0 (str ++ [0]))) \/
       (r.1 = RETVAL_SYSCALL_HELPERS_NOK /\ (exists xs, zlen xs <= max /\ r.2 = splice target 0 xs) /\
        forall str, user_string s src str -> max <= zlen str))) s.
Proof.
  intros. eapply wpk_weaken; [by apply read_string_run|]. intros (i & Hi & Hno & _). by exists i.
Qed.

(** Reading data: [K] is an unmapped byte in the range. *)
Lemma read_data_run fuel s src target size :
  pt_ok (us_table s) -> user_table (us_table s) -> is_u32 src -> 0 <= size <= 4096 -> size <= zlen target -> (2 < fuel)%nat ->
  wpk (exists i, 0 <= i < size /\ user_byte s (src + i) = None) (read_data_from_vm fuel src target size)
    (fun r s' => s' = s /\ exists xs, user_data s src xs /\ r.2 = splice target 0 xs /\
      (r.1 = RETVAL_SYSCALL_HELPERS_OK /\ zlen xs = size \/
       r.1 = RETVAL_SYSCALL_HELPERS_NOK /\ zlen xs < size /\ user_byte s (src + zlen xs) = None)) s.
Proof.
  intros Hok Hu Hsrc Hmax Hlen Hfuel. unfold read_data_from_vm. rewrite (u32_id size) by (unfold is_u32; lia).
  apply (walk_run _ _ (us_table s) src Hok Hu Hsrc _
    (fun i out s' => s' = s /\ 0 <= i <= size /\ exists xs, zlen xs = i /\ user_data s src xs /\ out = splice target 0 xs)); [..|done|].
  - intros i a s' (-> & ? & _). split; [done|]. split; [lia|]. intros ->. apply Z.ltb_ge. lia.
  - intros i a s' (-> & Hi & xs & Hxi & Hxs & ->) Hg Ha. zbool.
    rewrite (u32_id (src + i)) by (unfold is_u32 in *; lia).
    apply wpk_bind, wpk_load; [done| |intros; exists i; split; [lia|done]]. intros c Hc Htr.
    apply wpk_bind. subst i. eapply wpk_lift; [apply rset_append; lia|]. apply wpk_ret. split; [|done].
    split; [done|]. split; [lia|]. exists (xs ++ [c]). rewrite length_app. cbn. split; [lia|]. split; [by apply user_data_snoc|done].
  - intros i a s' (-> & Hi & xs & Hxi & Hxs & ->) Hg Hnone. zbool. split; [done|]. exists xs. subst i. split; [done|]. split; [done|].
    right. split; [done|]. split; [lia|]. unfold user_byte, user_addr. by rewrite Hnone.
  - intros i a s' (-> & Hi & xs & Hxi & Hxs & ->) Hg. zbool. split; [done|]. exists xs. split; [done|]. split; [done|]. left. split; [done|lia].
  - split; [done|]. split; [lia|]. exists []. split; [done|]. split; [intros k x Hk; by rewrite lookup_nil in Hk|]. by rewrite splice_nil.
Qed.

(** No two addresses of the range are the same byte of memory. *)
Definition no_alias (t : pagetable) (a size : Z) : Prop :=
  forall i j, 0 <= i < size -> 0 <= j < size -> user_addr t (a + i) = user_addr t (a + j) -> i = j.
Definition writable (t : pagetable) (a : Z) : bool :=
  match translate t (a / 4096) with Some (_, d) => d =? 1 | None => false end.
(** [s'] is [s] with the bytes [xs] stored from [a] on. *)
Definition stored s a xs s' : Prop :=
  us_table s' = us_table s /\
  (forall p, (forall k, 0 <= k < zlen xs -> user_addr (us_table s) (a + k) <> Some p) -> us_ram s' p = us_ram s p) /\
  (no_alias (us_table s) a (zlen xs) -> user_data s' a xs).

Lemma stored_nil s a : stored s a [] s.
Proof. split; [done|]. split; [done|]. intros _ k x Hk. by rewrite lookup_nil in Hk. Qed.

Lemma stored_snoc s a xs s' p x :
  stored s a xs s' -> user_addr (us_table s) (a + zlen xs) = Some p ->
  stored s a (xs ++ [x]) (mk_uspace (us_table s') (fun q => if q =? p then x else us_ram s' q)).
Proof.
  intros (Ht & Hother & Hdata) Hp. split; [done|]. rewrite length_app. cbn [us_ram length]. split.
  - intros q Hq. destruct (Z.eqb_spec q p) as [-> |Hne]; [by destruct (Hq (zlen xs)); [lia|]|].
    apply Hother. intros k Hk. apply Hq. lia.
  - intros Hna. assert (Hold : user_data s' a xs) by (apply Hdata; intros i j Hi Hj; apply Hna; lia).
    apply user_data_snoc.
    + intros k y Hk. pose proof (lookup_lt_Some _ _ _ Hk). specialize (Hold _ _ Hk). unfold user_byte in *. cbn [us_table us_ram].
      rewrite Ht in *. destruct (user_addr (us_table s) (a + Z.of_nat k)) as [q|] eqn:E; [|done]. cbn in *.
      destruct (Z.eqb_spec q p) as [-> |]; [|done]. exfalso. assert (Z.of_nat k = zlen xs); [|lia].
      apply Hna; [lia..|]. congruence.
    + unfold user_byte. cbn [us_table us_ram]. rewrite Ht, Hp. cbn. by rewrite Z.eqb_refl.
Qed.

Lemma wpk_store K s a x Q :
  0 <= a < 2147483648 ->
  (forall p, user_addr (us_table s) a = Some p -> translate (us_table s) (a / 4096) <> None ->
     Q tt (mk_uspace (us_table s) (fun q => if q =? p then x else us_ram s q))) ->
  (writable (us_table s) a = false -> K) -> wpk K (store a x) Q s.
Proof.
  intros Ha HQ HK. unfold wpk, store, user_addr, writable in *. rewrite phys_user by done.
  destruct (translate (us_table s) (a / 4096)) as [[pfn d]|]; cbn in *; [|by apply HK].
  destruct (d =? 1); [by apply HQ|by apply HK].
Qed.

Lemma write_data_run fuel s source dest size :
  pt_ok (us_table s) -> user_table (us_table s) -> is_u32 dest -> 0 <= size <= 4096 -> size <= zlen source -> (2 < fuel)%nat ->
  wpk (exists i, 0 <= i < size /\ writable (us_table s) (dest + i) = false) (write_data_to_vm fuel source dest size)
    (fun r s' => r = RETVAL_SYSCALL_HELPERS_OK /\ stored s dest (take (Z.to_nat size) source) s' \/
       r = RETVAL_SYSCALL_HELPERS_NOK /\ exists i, 0 <= i < size /\ user_addr (us_table s) (dest + i) = None /\
         stored s dest (take (Z.to_nat i) source) s') s.
Proof.
  intros Hok Hu Htgt Hmax Hlen Hfuel. unfold write_data_to_vm. rewrite (u32_id size) by (unfold is_u32; lia).
  apply wpk_bind. match goal with |- wpk _ _ (fun r s' => wpk _ (mret r.1) ?P s') _ =>
    apply wpk_mono with (Q := fun r s' => P r.1 s'); [|intros r s' Hr; by apply wpk_ret] end.
  apply (walk_run _ _ (us_table s) dest Hok Hu Htgt _
    (fun i (_ : unit) s' => 0 <= i <= size /\ stored s dest (take (Z.to_nat i) source) s')); [..|done|].
  - intros i [] s' (? & Hst & _). split; [done|]. split; [lia|]. intros ->. apply Z.ltb_ge. lia.
  - intros i [] s' (Hi & Hst) Hg Ha. zbool. pose proof Hst as (Hts & _).
    destruct (rget_in source i) as (c & Hc & Hlk); [lia|]. apply wpk_bind. eapply wpk_lift; [done|].
    rewrite (u32_id (dest + i)) by (unfold is_u32 in *; lia).
    apply wpk_bind, wpk_store; [done|rewrite Hts|rewrite Hts; intros; exists i; split; [lia|done]].
    intros p Hp Htr. apply wpk_ret. split; [|done]. split; [lia|].
    replace (Z.to_nat (i + 1)) with (S (Z.to_nat i)) by lia. rewrite (take_S_r _ _ _ Hlk).
    rewrite <- Hts. apply stored_snoc; [done|]. rewrite length_take. replace (Z.of_nat _) with i by lia. done.
  - intros i [] s' (Hi & Hst) Hg Hnone. zbool. right. split; [done|]. exists i. split; [lia|]. split; [|done].
    unfold user_addr. by rewrite Hnone.
  - intros i [] s' (Hi & Hst) Hg. zbool. left. split; [done|]. by replace size with i by lia.
  - split; [lia|]. apply stored_nil.
Qed.
(** Up to a page of data written to mapped, writable memory of a
    process, at any address and across a page boundary, and read back from
    there is the data written; no byte outside the range changes. *)
Theorem write_read_data_correct fuel s source dest size target :
  pt_ok (us_table s) -> user_table (us_table s) -> is_u32 dest -> 0 <= size <= 4096 ->
  size <= zlen source -> size <= zlen target -> (2 < fuel)%nat ->
  (forall i, 0 <= i < size -> writable (us_table s) (dest + i) = true) -> no_alias (us_table s) dest size ->
  wp (r ← write_data_to_vm fuel source dest size; q ← read_data_from_vm fuel dest target size; mret (r, q))
    (fun a s' => a = (RETVAL_SYSCALL_HELPERS_OK, (RETVAL_SYSCALL_HELPERS_OK, splice target 0 (take (Z.to_nat size) source))) /\
      forall p, (forall k, 0 <= k < size -> user_addr (us_table s) (dest + k) <> Some p) -> us_ram s' p = us_ram s p) s.
Proof.
  intros Hok Hu Hdest Hsize Hsrc Htgt Hfuel Hw Hna. apply wp_wpk_False. apply wpk_bind.
  eapply wpk_mono; [eapply wpk_weaken; [apply write_data_run; done|]|].
  { intros (i & Hi & Hwi). by rewrite Hw in Hwi. }
  intros r s1 [[-> Hst]|(_ & i & Hi & Hnone & _)].
  2: { specialize (Hw i Hi). unfold writable, user_addr in *. by destruct (translate _ _) as [[??]|]. }
  pose proof Hst as (Ht & Hother & Hdata). rewrite length_take in *. replace (Z.of_nat (Z.to_nat size `min` length source)) with size in * by lia.
  specialize (Hdata Hna).
  assert (Hmapped : forall i, 0 <= i < size -> user_byte s1 (dest + i) <> None).
  { intros i Hi. destruct (lookup_lt_is_Some_2 (take (Z.to_nat size) source) (Z.to_nat i)) as [x Hx]; [rewrite length_take; lia|].
    specialize (Hdata _ _ Hx). rewrite Z2Nat.id in Hdata by lia. by rewrite Hdata. }
  apply wpk_bind. eapply wpk_mono; [eapply (wpk_weaken _ False); [apply read_data_run; by rewrite ?Ht|]|].
  { intros (i & Hi & Hnone). by destruct (Hmapped i Hi). }
  intros [r out] s2 (-> & xs & Hxs & Hout & Hr). cbn [fst snd] in *. apply wpk_ret. split; [|done].
  destruct Hr as [[-> Hlen]|(_ & Hlen & Hnone)]; [|by destruct (Hmapped (zlen xs) ltac:(lia))].
  subst out. do 3 f_equal. apply (list_eq_same_length _ _ (length xs)); [rewrite length_take; lia|done|].
  intros k x y Hk Hx Hy. specialize (Hxs _ _ Hx). specialize (Hdata _ _ Hy). congruence.
Qed.
End theorems.

(** A process with the pages 0x400 and 0x401 in frames 7 and 3. *)
Definition two_pages : pagetable :=
  mk_pagetable 5 1 (mk_tlb_entry 0x200 5 7 0 1 1 0 3 0 1 1 0 :: replicate 339 blank_entry).
Definition a_process : uspace := mk_uspace two_pages (fun p => if p =? 0x7fff then 104 else if p =? 0x3000 then 105 else if p =? 0x3001 then 0 else 1).
Lemma two_pages_ok : pt_ok two_pages.
Proof.
  split; cbn [two_pages entries valid_count]; [reflexivity|unfold PAGETABLE_ENTRIES; lia| |apply NoDup_singleton|].
  - constructor; [|exact (Forall_drop entry_ok 1 _ blank_entries_ok)]. repeat split; cbn; lia.
  - constructor; [reflexivity|done].
Qed.
Lemma two_pages_translate p : translate two_pages p = if decide (p / 2 = 0x200) then if Z.even p then Some (7, 1) else Some (3, 1) else None.
Proof.
  unfold translate, find_pair. change (take (Z.to_nat (valid_count two_pages)) (entries two_pages)) with [mk_tlb_entry 0x200 5 7 0 1 1 0 3 0 1 1 0].
  cbn [list_find VPN2]. destruct (decide (p / 2 = 0x200)) as [-> |Hne]; [done|]. by rewrite decide_False by congruence.
Qed.
Lemma two_pages_user : user_table two_pages.
Proof. intros p m. rewrite two_pages_translate. case_decide as H; [|done]. pose proof (Z.div_mod p 2 ltac:(lia)). pose proof (Z.mod_pos_bound p 2 ltac:(lia)). lia. Qed.

Lemma read_string_correct_witness :
  wpk False (read_string_from_vm 3 0x400fff (replicate 256 7) 256)
    (fun r s' => s' = a_process /\ r = (3, [104; 105; 0] ++ replicate 253 7)) a_process.
Proof.
  assert (Hs : user_string a_process 0x400fff [104; 105]).
  { split; [|by repeat constructor]. intros [|[|[|k]]] x; [intros [= <-]; reflexivity..|done]. }
  eapply wpk_mono; [eapply wpk_weaken; [apply (read_string_correct 3 a_process 0x400fff (replicate 256 7) 256)|]|].
  - exact two_pages_ok.
  - exact two_pages_user.
  - split; lia.
  - lia.
  - reflexivity || (rewrite length_replicate; lia).
  - lia.
  - intros (i & Hi & Hnone). unfold user_byte, user_addr in Hnone. cbn [a_process us_table] in Hnone. rewrite two_pages_translate in Hnone.
    rewrite decide_True in Hnone; [by destruct (Z.even _)|]. rewrite Z.div_div by lia. symmetry. apply (Z.div_unique _ (4096 * 2) _ (0xfff + i)); lia.
  - intros r s' (-> & [(str & Hstr & Hlen & ->)|(_ & _ & Hno)]); [|by specialize (Hno _ Hs); cbn in Hno; lia].
    split; [done|]. destruct Hstr as [Hd Hnz]. destruct Hs as [Hd' _].
    destruct str as [|x [|y [|z str]]].
    + specialize (Hd 0%nat 0 eq_refl). by vm_compute in Hd.
    + specialize (Hd 1%nat 0 eq_refl). by vm_compute in Hd.
    + pose proof (Hd 0%nat x eq_refl) as H0. pose proof (Hd 1%nat y eq_refl) as H1. vm_compute in H0, H1. injection H0 as <-. by injection H1 as <-.
    + pose proof (Hd 2%nat z eq_refl) as H2. vm_compute in H2. injection H2 as <-. by inversion Hnz as [|?? _ Hnz2]; inversion Hnz2 as [|?? _ Hnz3]; inversion Hnz3.
Defined.

Lemma write_read_data_correct_witness :
  wp (r ← write_data_to_vm 3 [9; 8; 7] 0x400ffe 3; q ← read_data_from_vm 3 0x400ffe [0; 0; 0; 0] 3; mret (r, q))
    (fun a s' => a = (1, (1, [9; 8; 7; 0])) /\ us_ram s' 0x3001 = 0) a_process.
Proof.
  eapply wp_mono; [apply (write_read_data_correct 3 a_process [9; 8; 7] 0x400ffe 3 [0; 0; 0; 0])|].
  - exact two_pages_ok.
  - exact two_pages_user.
  - split; lia.
  - lia.
  - cbn. lia.
  - cbn. lia.
  - lia.
  - intros i Hi. assert (i = 0 \/ i = 1 \/ i = 2) as [->|[-> | ->]] by lia; reflexivity.
  - intros i j Hi Hj. assert (i = 0 \/ i = 1 \/ i = 2) as [->|[-> | ->]] by lia;
      assert (j = 0 \/ j = 1 \/ j = 2) as [->|[-> | ->]] by lia; done.
  - intros a s' [-> Hother]. split; [reflexivity|]. rewrite Hother; [reflexivity|].
    intros k Hk. assert (k = 0 \/ k = 1 \/ k = 2) as [->|[-> | ->]] by lia; discriminate.
Defined.

(** The inner loop stops at [vaddr + i], although [vaddr] already counts the
    [i] bytes before: with more than a page of data the walk stays at the
    first byte of the second page for ever. *)
Example read_data_hangs fuel : fails Timeout (read_data_from_vm fuel 0x400000 (replicate 4097 7) 4097) a_process.
Proof.
  apply (loop_never_ends _ (fun x s => s = a_process /\ (x = (0, replicate 4097 7) \/ x = (4096, replicate 4095 1 ++ [104; 7])))).
  - intros x s [-> [-> | ->]]; do 2 eexists; (split; [vm_compute; reflexivity|]); (split; [reflexivity|]); right; vm_compute; reflexivity.
  - split; [done|]. by left.
Qed.
