(* ===== verification/Space.v ===== *)
(** * Releasing an address space

    The two loops with which proc/process.c and proc/syscall_handler_proc.c
    take down the address space of a process: every mapped frame goes back to
    the page pool, and every entry is invalidated in the page table and in the
    translation buffer.  The state joins the page pool with its page tables
    and the translation buffer; both run on one processor. *)
From S2P Require Import Prelude Bitmap Cpu Kmalloc Pagepool Vm Tlb.

(** ** The code *)
Record space := mk_space {
  sp_vm : vmem;
  sp_rows : list tlb_entry;    (** the translation buffer *)
  sp_asid : Z                  (** EntryHi.ASID *)
}.
#[export] Instance HasCpu_vmem : HasCpu vmem.
Proof.
  refine {| cpu_of s := pm_cpu (vm_pmem s); with_cpu c s := mk_vmem (with_cpu c (vm_pmem s)) (vm_tables s) |};
    by intros; repeat match goal with s : vmem |- _ => destruct s as [[? ? ?] ?] end.
Defined.
#[export] Instance HasCpu_space : HasCpu space.
Proof.
  refine {| cpu_of s := cpu_of (sp_vm s); with_cpu c s := mk_space (with_cpu c (sp_vm s)) (sp_rows s) (sp_asid s) |};
    by intros; repeat match goal with s : space |- _ => destruct s as [[[? ? ?] ?] ? ?] end.
Defined.

Definition on_vm {A} (m : M vmem A) : M space A := fun s =>
  match m (sp_vm s) with Ret (a, v) => Ret (a, mk_space v (sp_rows s) (sp_asid s)) | Fail f => Fail f end.
Definition tlb_of (s : space) : tlb := mk_tlb (sp_rows s) (sp_asid s) (cpu_of s).
Definition on_tlb {A} (m : M tlb A) : M space A := fun s =>
  match m (tlb_of s) with
  | Ret (a, t) => Ret (a, mk_space (with_cpu (tlb_cpu t) (sp_vm s)) (tlb_rows t) (tlb_asid t))
  | Fail f => Fail f
  end.

Section code.
Context `{Symbols}.

(** [for (i = 0; i < pagetable->valid_count; i++)] over [n] entries from [i]
    on: the frames. *)
Fixpoint free_pages (n : nat) (i pagetable : Z) : M space unit :=
  match n with
  | O => mret tt
  | S n =>
      t ← on_vm (get_table pagetable);
      e ← lift (rget (entries t) i);
      _ ← (if negb (V0 e =? 0) then on_vm (on_pmem (pagepool_free_phys_page (u32 (Z.shiftl (PFN0 e) 12)))) else mret tt);
      _ ← (if negb (V1 e =? 0) then on_vm (on_pmem (pagepool_free_phys_page (u32 (Z.shiftl (PFN1 e) 12)))) else mret tt);
      free_pages n (i + 1) pagetable
  end.

(** The same loop for the entries: [V0 = V1 = 0], and
    [tlb_replace_entry_if_exists] of the entry by itself. *)
Fixpoint invalidate_entries (n : nat) (i pagetable : Z) : M space unit :=
  match n with
  | O => mret tt
  | S n =>
      t ← on_vm (get_table pagetable);
      e ← lift (rget (entries t) i);
      let e := set_V0 0 (set_V1 0 e) in
      t' ← lift (set_entry t i e);
      _ ← on_vm (put_table pagetable t');
      _ ← on_tlb (tlb_replace_entry_if_exists e e);
      invalidate_entries n (i + 1) pagetable
  end.

(** syscall_handler_proc.c's sequence at the end of a process. *)
Definition release_space (pagetable : Z) : M space unit :=
  t ← on_vm (get_table pagetable);
  _ ← free_pages (Z.to_nat (valid_count t)) 0 pagetable;
  t ← on_vm (get_table pagetable);
  _ ← invalidate_entries (Z.to_nat (valid_count t)) 0 pagetable;
  on_vm (vm_destroy_pagetable pagetable).
End code.

(** ** The frames of a page table *)


Definition frames_of (e : tlb_entry) : list Z := (if V0 e =? 0 then [] else [PFN0 e]) ++ (if V1 e =? 0 then [] else [PFN1 e]).
(** The frames the table maps pages to. *)
Definition frames (t : pagetable) : list Z := used t ≫= frames_of.

Lemma find_pair_used t e : pt_ok t -> e ∈ used t -> exists k, find_pair t (VPN2 e) = Some (k, e).
Proof. intros Hok [k Hk]%list_elem_of_lookup. exists k. by apply find_pair_unique. Qed.

Lemma even_half v : 2 * v / 2 = v /\ (2 * v + 1) / 2 = v /\ Z.even (2 * v) = true /\ Z.even (2 * v + 1) = false.
Proof.
  split; [rewrite Z.mul_comm; by apply Z.div_mul|]. split; [symmetry; apply (Z.div_unique _ 2 _ 1); lia|].
  rewrite Z.even_add, Z.even_mul. done.
Qed.

Lemma frames_of_mapped e f :
  entry_ok e -> f ∈ frames_of e <-> exists p d, p / 2 = VPN2 e /\ half e p = Some (f, d).
Proof.
  intros (_ & _ & _ & Hv0 & Hv1 & _). unfold frames_of. rewrite elem_of_app.
  destruct (even_half (VPN2 e)) as (H1 & H2 & H3 & H4). split.
  - intros [Hf|Hf]; [exists (2 * VPN2 e)|exists (2 * VPN2 e + 1)]; unfold half; rewrite ?H3, ?H4.
    + destruct Hv0 as [Hv|Hv]; rewrite Hv in *; cbn in *; [by apply elem_of_nil in Hf|]. apply list_elem_of_singleton in Hf as ->. by eexists.
    + destruct Hv1 as [Hv|Hv]; rewrite Hv in *; cbn in *; [by apply elem_of_nil in Hf|]. apply list_elem_of_singleton in Hf as ->. by eexists.
  - intros (p & d & Hp & Hh). unfold half in Hh. destruct (Z.even p).
    + left. destruct (Z.eqb_spec (V0 e) 1) as [-> |]; [injection Hh as <- _; cbn; set_solver|done].
    + right. destruct (Z.eqb_spec (V1 e) 1) as [-> |]; [injection Hh as <- _; cbn; set_solver|done].
Qed.

Lemma used_entry_ok t e : pt_ok t -> e ∈ used t -> entry_ok e.
Proof. intros Hok He. eapply Forall_forall in He; [exact He|]. apply Forall_take, pt_entries, Hok. Qed.

Lemma frames_mapped t f : pt_ok t -> f ∈ frames t <-> exists p d, translate t p = Some (f, d).
Proof.
  intros Hok. unfold frames. rewrite list_elem_of_bind. split.
  - intros (e & Hf & He). apply frames_of_mapped in Hf as (p & d & Hp & Hh); [|by eapply used_entry_ok].
    destruct (find_pair_used t e Hok He) as [k Hk]. exists p, d. unfold translate. by rewrite Hp, Hk.
  - intros (p & d & Htr). unfold translate in Htr. destruct (find_pair t (p / 2)) as [[k e]|] eqn:Hf; [|done].
    apply find_pair_Some in Hf as (Hk & _ & Hv & _ & Hok'); [|done]. exists e.
    split; [|by eapply list_elem_of_lookup_2]. apply frames_of_mapped; [done|]. by exists p, d.
Qed.

(** ** Giving frames back *)

(** The frames are dynamic pages in use, each listed once. *)
Definition in_use (p : pool) (fs : list Z) : Prop :=
  NoDup fs /\ Forall (fun f => pagepool_static_end p <= f < pagepool_num_pages p /\ reserved p f = true) fs.
(** [p'] is [p] with the frames free. *)
Definition freed (p p' : pool) (fs : list Z) : Prop :=
  pool_ok p' /\ pagepool_num_pages p' = pagepool_num_pages p /\ pagepool_static_end p' = pagepool_static_end p /\
  pagepool_num_free_pages p' = pagepool_num_free_pages p + zlen fs /\
  forall q, 0 <= q < pagepool_num_pages p -> reserved p' q = if decide (q ∈ fs) then false else reserved p q.

Lemma freed_nil p : pool_ok p -> freed p p [].
Proof. intros H. split; [done|]. split; [done|]. split; [done|]. split; [cbn; lia|]. intros q _. by rewrite decide_False by apply not_elem_of_nil. Qed.

Lemma freed_one p p' f : pool_ok p -> page_update p p' f false -> pool_ok p' -> freed p p' [f].
Proof.
  intros Hp (Hn & Hs & Hf & _ & _ & Hb) Hok. split; [done|]. split; [done|]. split; [done|]. split; [cbn; lia|].
  intros q Hq. unfold reserved. pose proof (po_pages _ Hp). rewrite Hb by lia.
  destruct (Z.eqb_spec q f) as [-> |Hne]; [by rewrite decide_True by set_solver|].
  rewrite decide_False; [done|]. by rewrite list_elem_of_singleton.
Qed.

Lemma freed_app p p1 p2 fs gs : freed p p1 fs -> freed p1 p2 gs -> freed p p2 (fs ++ gs).
Proof.
  intros (_ & Hn1 & Hs1 & Hf1 & Hb1) (Hok & Hn2 & Hs2 & Hf2 & Hb2). split; [done|].
  split; [congruence|]. split; [congruence|]. split; [rewrite length_app; lia|]. intros q Hq.
  rewrite Hb2, Hb1 by lia. destruct (decide (q ∈ fs ++ gs)) as [H|H]; rewrite elem_of_app in H; repeat case_decide; tauto.
Qed.

Lemma in_use_app p fs gs : pool_ok p -> in_use p (fs ++ gs) -> in_use p fs /\ forall p', freed p p' fs -> in_use p' gs.
Proof.
  intros Hp [(Hn1 & Hd & Hn2)%NoDup_app [H1 H2]%Forall_app]. split; [done|].
  intros p' (_ & Hn & Hs & _ & Hb). split; [done|]. rewrite Forall_forall in *. intros f Hf.
  destruct (H2 f Hf) as [Hr Hres]. rewrite Hn, Hs. split; [done|]. pose proof (po_static _ Hp).
  rewrite Hb by lia. rewrite decide_False; [done|]. intros Hin. by apply (Hd f).
Qed.

Section release.
Context `{Symbols}.

(** The state after the pool has changed. *)
Definition with_spool (p : pool) (s : space) : space :=
  mk_space (mk_vmem (with_pool p (vm_pmem (sp_vm s))) (vm_tables (sp_vm s))) (sp_rows s) (sp_asid s).
Abbreviation spool s := (pm_pool (vm_pmem (sp_vm s))).
Abbreviation stable s addr := (vm_tables (sp_vm s) !! addr).

Lemma wp_on_vm {A} (m : M vmem A) (Q : A -> space -> Prop) s :
  wp m (fun a v => Q a (mk_space v (sp_rows s) (sp_asid s))) (sp_vm s) -> wp (on_vm m) Q s.
Proof. unfold wp, on_vm. by destruct (m (sp_vm s)) as [[a v]|]. Qed.

Lemma wp_on_tlb {A} (m : M tlb A) (Q : A -> space -> Prop) s :
  wp m (fun a t => Q a (mk_space (with_cpu (tlb_cpu t) (sp_vm s)) (tlb_rows t) (tlb_asid t))) (tlb_of s) -> wp (on_tlb m) Q s.
Proof. unfold wp, on_tlb. by destruct (m (tlb_of s)) as [[a v]|]. Qed.

Lemma wp_get_stable s addr t (Q : pagetable -> space -> Prop) : stable s addr = Some t -> Q t s -> wp (on_vm (get_table addr)) Q s.
Proof. intros Ht HQ. apply wp_on_vm. eapply wp_eq; [by apply get_table_run|]. by destruct s. Qed.

(** One half of an entry. *)
Lemma free_half s v pfn :
  pool_ok (spool s) -> cpu_ready pagepool_slock (cpu_of s) -> 0 <= pfn < 2 ^ 20 ->
  in_use (spool s) (if v =? 0 then [] else [pfn]) ->
  wp (if negb (v =? 0) then on_vm (on_pmem (pagepool_free_phys_page (u32 (Z.shiftl pfn 12)))) else mret tt)
    (fun _ s' => exists p, freed (spool s) p (if v =? 0 then [] else [pfn]) /\ s' = with_spool p s) s.
Proof.
  intros Hp Hcpu Hpfn Huse. destruct (v =? 0); cbn [negb].
  - apply wp_ret. exists (spool s). split; [by apply freed_nil|]. by destruct s as [[[] ?] ? ?].
  - destruct Huse as [_ [Hr Hres]%Forall_singleton].
    assert (u32 (Z.shiftl pfn 12) = pfn * PAGE_SIZE) as ->.
    { rewrite Z.shiftl_mul_pow2 by lia. change (2 ^ 12) with 4096. unfold PAGE_SIZE. apply u32_id. unfold is_u32. lia. }
    apply wp_on_vm, wp_on_pmem. eapply wp_mono; [by apply free_phys_page_run|].
    intros _ pm (p' & -> & Hup & Hok). exists p'. split; [by apply freed_one|done].
Qed.

(** The loop over the entries gives back the frames of the entries. *)
Lemma free_pages_run n i s addr t :
  stable s addr = Some t -> pt_ok t -> 0 <= i -> i + Z.of_nat n <= valid_count t ->
  pool_ok (spool s) -> cpu_ready pagepool_slock (cpu_of s) ->
  in_use (spool s) (take n (drop (Z.to_nat i) (used t)) ≫= frames_of) ->
  wp (free_pages n i addr) (fun _ s' => exists p, freed (spool s) p (take n (drop (Z.to_nat i) (used t)) ≫= frames_of) /\
    s' = with_spool p s) s.
Proof.
  intros Ht Hok Hi. revert i s Ht Hi. induction n as [|n IH]; intros i s Ht Hi Hn Hp Hcpu Huse; cbn [free_pages].
  { apply wp_ret. exists (spool s). split; [by apply freed_nil|]. by destruct s as [[[] ?] ? ?]. }
  pose proof Hok as [Hl Hc Hes _ _].
  apply wp_bind, (wp_get_stable s addr t); [done|]. destruct (rget_in (entries t) i) as (e & Hr & He); [lia|].
  apply wp_bind. eapply wp_lift; [exact Hr|].
  assert (Hu : used t !! Z.to_nat i = Some e) by (unfold used; by rewrite lookup_take_lt by lia).
  rewrite (drop_S _ _ _ Hu) in *. cbn [take] in *. rewrite bind_cons in *. unfold frames_of at 1 in Huse. unfold frames_of at 1.
  pose proof (Forall_lookup_1 _ _ _ _ Hes He) as (_ & Hp0 & Hp1 & _).
  rewrite <- app_assoc in Huse. destruct (in_use_app _ _ _ Hp Huse) as [Hu0 Huse1].
  apply wp_bind. eapply wp_mono; [by apply free_half|]. intros _ s1 (p1 & Hf1 & ->).
  specialize (Huse1 _ Hf1). pose proof Hf1 as (Hpok1 & _). destruct (in_use_app _ _ _ Hpok1 Huse1) as [Hu1 Huse2].
  apply wp_bind. eapply wp_mono; [by apply free_half|]. intros _ s2 (p2 & Hf2 & ->).
  specialize (Huse2 _ Hf2). pose proof Hf2 as (Hpok2 & _).
  replace (S (Z.to_nat i)) with (Z.to_nat (i + 1)) in * by lia.
  eapply wp_mono; [apply IH; try done; lia|]. intros _ s3 (p3 & Hf3 & ->). exists p3. split; [|done].
  rewrite <- app_assoc. eapply freed_app; [exact Hf1|]. eapply freed_app; done.
Qed.

(** An entry with both halves invalid. *)
Definition no_pages (e : tlb_entry) : tlb_entry := set_V0 0 (set_V1 0 e).
Lemma no_pages_ok e :
  entry_ok e -> entry_ok (no_pages e) /\ VPN2 (no_pages e) = VPN2 e /\ ASID (no_pages e) = ASID e /\ forall p, half (no_pages e) p = None.
Proof.
  intros He. pose proof He as (_ & Hp0 & Hp1 & _ & _ & Hd0 & Hd1 & Hg0 & Hg1).
  destruct (set_odd_ok (PFN1 e) (D1 e) 0 (G1 e) e He Hp1 Hd1 ltac:(auto) Hg1) as [Heq Hok].
  unfold no_pages, set_V1. rewrite Heq in *. unfold set_V0.
  match goal with |- entry_ok (set_even ?a ?b ?c ?g ?x) /\ _ => destruct (set_even_ok a b c g x Hok) as [-> Hok']; cbn; auto end.
  split; [done|]. split; [done|]. split; [done|]. intros p. unfold half. cbn. by destruct (Z.even p).
Qed.

Lemma with_no_pages t k e p :
  pt_ok t -> find_pair t (VPN2 e) = Some (k, e) ->
  translate (with_entry t k (no_pages e)) p = if decide (p / 2 = VPN2 e) then None else translate t p.
Proof.
  intros Hok Hf. pose proof (find_pair_Some _ _ _ _ Hok Hf) as (_ & _ & _ & _ & He).
  destruct (no_pages_ok e He) as (He' & Hv & Ha & Hh). unfold translate.
  rewrite (find_pair_with_entry t k e) by done. case_decide; [apply Hh|done].
Qed.

(** The buffer's rows of an address space serve the table's pairs of pages, no
    two the same; what they map may be out of date. *)
Record served (t : pagetable) (rows : list tlb_entry) : Prop := {
  sv_rows : forall i r, rows !! i = Some r -> ASID r = pt_ASID t mod 2 ^ 8 -> VPN2 r ∈ VPN2 <$> used t;
  sv_distinct : forall i j r r', rows !! i = Some r -> rows !! j = Some r' ->
    ASID r = pt_ASID t mod 2 ^ 8 -> ASID r' = ASID r -> VPN2 r' = VPN2 r -> i = j
}.
(** No row of the address space translates pages of the pair. *)
Definition dead (a : Z) (rows : list tlb_entry) (v : Z) : Prop :=
  forall i r, rows !! i = Some r -> ASID r = a -> VPN2 r = v -> forall p, half r p = None.

Lemma coherent_served t s : pt_ok t -> coherent t s -> served t (tlb_rows s).
Proof.
  intros Hok [Ha Hr Hd]. split; [|exact Hd]. intros i r Hi Hri. destruct (Hr i r Hi Hri) as [k Hk].
  apply find_pair_Some in Hk as (Hk & _); [|done]. by eapply list_elem_of_fmap_2, list_elem_of_lookup_2.
Qed.

Lemma served_same t t' rows : served t rows -> pt_ASID t' = pt_ASID t -> VPN2 <$> used t' = VPN2 <$> used t -> served t' rows.
Proof. intros [Hr Hd] Ha Hv. split; rewrite Ha; [rewrite Hv|]; done. Qed.

Lemma replace_dead t rows e new :
  served t rows -> ASID e = pt_ASID t mod 2 ^ 8 -> VPN2 new = VPN2 e -> ASID new = ASID e -> (forall p, half new p = None) ->
  let rows' := match list_find (matches new) rows with Some (i, _) => <[i := new]> rows | None => rows end in
  served t rows' /\ dead (pt_ASID t mod 2 ^ 8) rows' (VPN2 e) /\
  forall v, dead (pt_ASID t mod 2 ^ 8) rows v -> dead (pt_ASID t mod 2 ^ 8) rows' v.
Proof.
  intros [Hr Hd] Hae Hv Ha Hh rows'. set (a := pt_ASID t mod 2 ^ 8) in *.
  assert (Hrows : forall j r, rows' !! j = Some r -> ASID r = a ->
    (exists r0, rows !! j = Some r0 /\ VPN2 r0 = VPN2 r /\ ASID r0 = ASID r) /\
    (r = new \/ rows !! j = Some r /\ VPN2 r <> VPN2 e)).
  { intros j r Hj Hra. subst rows'. destruct (list_find _ _) as [[i r1]|] eqn:E.
    - apply list_find_Some in E as (Hi & [Hv1 Ha1] & _). assert (i < length rows)%nat by (by eapply lookup_lt_Some).
      destruct (decide (j = i)) as [-> |Hne].
      + rewrite list_lookup_insert_eq in Hj by done. injection Hj as <-. split; [exists r1; split; [done|by split]|by left].
      + rewrite list_lookup_insert_ne in Hj by done. split; [by exists r|]. right. split; [done|]. intros Heq. apply Hne.
        apply (Hd j i r r1); congruence.
    - split; [by exists r|]. right. split; [done|]. intros Heq. apply list_find_None in E. rewrite Forall_forall in E.
      apply (E r); [by eapply list_elem_of_lookup_2|]. split; congruence. }
  split; [split|split]; fold a.
  - intros j r Hj Hra. destruct (Hrows j r Hj Hra) as [(r0 & Hj0 & Hv0 & Ha0) _]. rewrite <- Hv0. apply (Hr j); congruence.
  - intros i j r r' Hi Hj Hra Hra' Hvv.
    destruct (Hrows i r Hi Hra) as [(r0 & Hi0 & Hv0 & Ha0) _]. destruct (Hrows j r' Hj ltac:(congruence)) as [(r1 & Hj1 & Hv1 & Ha1) _].
    apply (Hd i j r0 r1); congruence.
  - intros j r Hj Hra Hvr. destruct (Hrows j r Hj Hra) as [_ [-> |[_ ?]]]; done.
  - intros v Hdead j r Hj Hra Hvr. destruct (Hrows j r Hj Hra) as [_ [-> |[Hj0 _]]]; [done|]. by apply (Hdead j).
Qed.

(** The loop over the entries: what they map is gone, from the table and from
    the translation buffer. *)
Lemma invalidate_entries_run n i s addr t :
  stable s addr = Some t -> pt_ok t -> served t (sp_rows s) -> is_u32 (status (cpu_of s)) ->
  0 <= i -> i + Z.of_nat n <= valid_count t ->
  wp (invalidate_entries n i addr) (fun _ s' => exists t',
    pt_ok t' /\ pt_ASID t' = pt_ASID t /\
    (forall v, v ∈ VPN2 <$> take n (drop (Z.to_nat i) (used t)) \/ dead (pt_ASID t mod 2 ^ 8) (sp_rows s) v ->
       dead (pt_ASID t mod 2 ^ 8) (sp_rows s') v) /\
    served t (sp_rows s') /\ (sp_asid s = pt_ASID t mod 2 ^ 8 -> sp_asid s' = pt_ASID t mod 2 ^ 8) /\
    vm_tables (sp_vm s') = <[addr := t']> (vm_tables (sp_vm s)) /\ vm_pmem (sp_vm s') = vm_pmem (sp_vm s)) s.
Proof.
  revert i s t. induction n as [|n IH]; intros i s t Ht Hok Hsv Hst Hi Hn; cbn [invalidate_entries].
  { apply wp_ret. exists t. split; [done|]. split; [done|]. split; [intros v [Hv|]; [by apply elem_of_nil in Hv|done]|].
    split; [done|]. split; [done|]. by rewrite insert_id. }
  pose proof Hok as [Hl Hc Hes _ Has].
  apply wp_bind, (wp_get_stable s addr t); [done|]. destruct (rget_in (entries t) i) as (e & Hr & He); [lia|].
  apply wp_bind. eapply wp_lift; [exact Hr|]. fold (no_pages e). cbv zeta.
  assert (Hu : used t !! Z.to_nat i = Some e) by (unfold used; by rewrite lookup_take_lt by lia).
  pose proof (Forall_lookup_1 _ _ _ _ Has Hu) as Hae. cbv beta in Hae.
  destruct (no_pages_ok e (Forall_lookup_1 _ _ _ _ Hes He)) as (He' & Hv & Ha & Hh).
  pose proof (with_entry_ok t _ e _ Hok Hu He' Hv Ha) as Hok'.
  pose proof (set_entry_run t (Z.to_nat i) (no_pages e) (lookup_lt_Some _ _ _ He)) as Hset. rewrite Z2Nat.id in Hset by done.
  apply wp_bind. eapply wp_lift; [exact Hset|].
  apply wp_bind, wp_on_vm, wp_modify, wp_bind, wp_on_tlb. pose proof (Z.mod_pos_bound (pt_ASID t) (2 ^ 8) ltac:(lia)).
  eapply wp_eq; [apply tlb_replace_exact; [done|lia|done]|]. cbn [sp_vm sp_rows sp_asid tlb_of tlb_rows tlb_asid tlb_cpu].
  destruct (replace_dead t (sp_rows s) e (no_pages e) Hsv Hae Hv Ha Hh) as (Hsv1 & Hdead1 & Hkeep1).
  match goal with |- wp _ _ ?x => set (s1 := x) end.
  set (t1 := with_entry t (Z.to_nat i) (no_pages e)) in *.
  assert (Hs1 : stable s1 addr = Some t1) by apply lookup_insert_eq.
  assert (Hpm1 : vm_pmem (sp_vm s1) = vm_pmem (sp_vm s)) by (unfold s1; cbn; by destruct (vm_pmem (sp_vm s))).
  assert (Hvs : VPN2 <$> used t1 = VPN2 <$> used t).
  { unfold t1. rewrite used_with_entry, list_fmap_insert, Hv, list_insert_id; [done|]. by rewrite list_lookup_fmap, Hu. }
  eapply wp_mono; [apply (IH (i + 1) s1 t1 Hs1 Hok'); [by apply (served_same t)|unfold cpu_of; cbn; exact Hst|lia|cbn; lia]|].
  intros _ s2 (t2 & Hok2 & Hasid2 & Hdead2 & Hsv2 & Hsa2 & Htab2 & Hpm2). exists t2. split; [done|]. split; [done|].
  split; [|split; [by apply (served_same t1)|split; [intros _; apply Hsa2; exact (eq_trans Ha Hae)|split; [|by rewrite Hpm2]]]].
  - intros v Hvd. apply Hdead2. rewrite (drop_S _ _ _ Hu) in Hvd. cbn [take fmap list_fmap] in Hvd.
    destruct Hvd as [[-> |Hin]%elem_of_cons|Hd]; [by right|left|right; by apply Hkeep1].
    unfold t1. rewrite used_with_entry, drop_insert_lt by lia. by replace (Z.to_nat (i + 1)) with (S (Z.to_nat i)) by lia.
  - rewrite Htab2. unfold s1. cbn. by rewrite insert_insert_eq.
Qed.

(** An address space that can be released: its frames are pages of the pool in
    use, each mapped once, and none of them holds a page table. *)
Record space_ok (s : space) (addr : Z) (t : pagetable) : Prop := {
  so_table : stable s addr = Some t;
  so_vm : vm_ok (sp_vm s);
  so_rows : served t (sp_rows s);
  so_asid : sp_asid s = pt_ASID t mod 2 ^ 8;
  so_frames : in_use (spool s) (frames t);
  so_apart : forall a u i, stable s a = Some u -> table_page (sp_vm s) a i -> i ∉ frames t
}.

Lemma table_page_freed s p fs a i :
  freed (spool s) p fs -> i ∉ fs -> pool_ok (spool s) -> table_page (sp_vm s) a i -> table_page (sp_vm (with_spool p s)) a i.
Proof.
  intros (_ & Hn & Hs & _ & Hb) Hni Hp (Ha & Hi & Hr & Hres). pose proof (po_static _ Hp).
  split; [done|]. split; [done|]. cbn. rewrite Hn, Hs. split; [done|]. rewrite Hb by lia. by rewrite decide_False.
Qed.

Lemma vm_ok_freed s p fs :
  vm_ok (sp_vm s) -> freed (spool s) p fs -> (forall a u i, stable s a = Some u -> table_page (sp_vm s) a i -> i ∉ fs) ->
  vm_ok (sp_vm (with_spool p s)).
Proof.
  intros (Hp & Hcpu & Hmax & Htab) Hf Hapart. pose proof Hf as (Hok & Hn & _). split; [done|]. split; [done|].
  split; [cbn; by rewrite Hn|]. intros a u Hu. destruct (Htab a u Hu) as (Huok & i & Hi). split; [done|]. exists i.
  eapply table_page_freed; [done|by eapply Hapart|done|done].
Qed.

Lemma release_space_run s addr t :
  space_ok s addr t ->
  wp (release_space addr) (fun _ s' => exists i, table_page (sp_vm s) addr i /\
    freed (spool s) (spool s') (frames t ++ [i]) /\ vm_ok (sp_vm s') /\
    vm_tables (sp_vm s') = delete addr (vm_tables (sp_vm s)) /\
    sp_asid s' = pt_ASID t mod 2 ^ 8 /\ (forall p, tlb_translate (tlb_of s') p = None) /\ cpu_of s' = cpu_of s) s.
Proof.
  intros [Ht Hvm Hsv Has Huse Hapart]. pose proof Hvm as (Hp & Hcpu & Hmax & Htab).
  destruct (Htab _ _ Ht) as [Hok _]. pose proof (pt_count _ Hok) as Hc.
  unfold release_space. apply wp_bind, (wp_get_stable s addr t); [done|].
  assert (Hall : take (Z.to_nat (valid_count t)) (drop (Z.to_nat 0) (used t)) = used t).
  { apply take_ge. unfold used. rewrite ?length_drop, length_take. lia. }
  apply wp_bind. eapply wp_mono; [apply (free_pages_run _ 0 s addr t); try done; [lia|by rewrite Hall]|].
  rewrite Hall. fold (frames t). intros _ s1 (p1 & Hf1 & ->).
  apply wp_bind, (wp_get_stable _ addr t); [done|].
  apply wp_bind. eapply wp_mono; [apply (invalidate_entries_run _ 0 _ addr t); try done; [apply Hcpu|lia]|].
  rewrite Hall. intros _ s2 (t2 & Hok2 & Hasid2 & Hdead2 & Hsv2 & Hsa2 & Htab2 & Hpm2).
  pose proof (vm_ok_freed s p1 (frames t) Hvm Hf1 Hapart) as Hvm1.
  assert (Hvm2 : vm_ok (sp_vm s2)).
  { destruct Hvm1 as (? & ? & ? & Htab1). unfold vm_ok. rewrite Hpm2. split; [done|]. split; [done|]. split; [done|].
    intros a u Hu. rewrite Htab2 in Hu. unfold table_page. rewrite Hpm2. destruct (decide (a = addr)) as [-> |Hne].
    - rewrite lookup_insert_eq in Hu. injection Hu as <-. split; [done|]. apply (Htab1 _ _ Ht).
    - rewrite lookup_insert_ne in Hu by done. apply (Htab1 _ _ Hu). }
  apply wp_on_vm. eapply wp_mono; [eapply vm_destroy_run; [done|rewrite Htab2; apply lookup_insert_eq]|].
  intros _ v (Hvm3 & Htab3 & i & p3 & Hi & Hup & Hok3 & Hpm3). cbn [sp_vm sp_rows sp_asid].
  exists i. assert (Hi0 : table_page (sp_vm s) addr i).
  { unfold table_page in Hi. rewrite Hpm2 in Hi. destruct Hi as (Ha & Hi1 & Hi2 & Hi3). cbn in Hi2, Hi3.
    pose proof Hf1 as (_ & Hn1 & Hs1 & _ & Hb1). rewrite Hn1, Hs1 in Hi2. pose proof (po_static _ Hp).
    split; [done|]. split; [done|]. split; [done|]. rewrite Hb1 in Hi3 by lia. by case_decide. }
  rewrite Hpm3, Hpm2 in *. split; [done|]. split.
  { eapply freed_app; [exact Hf1|]. apply freed_one; [apply Hf1|exact Hup|done]. }
  split; [done|]. split; [rewrite Htab3, Htab2; by rewrite delete_insert_eq|].
  specialize (Hsa2 Has). split; [done|]. split.
  - intros p. unfold tlb_translate. destruct (list_find _ _) as [[j r]|] eqn:E; [|done].
    apply list_find_Some in E as (Hj & [Hv Ha] & _). cbn in Hj, Ha. rewrite Hsa2 in Ha.
    apply (Hdead2 (VPN2 r)) with j; try done. left. by apply (sv_rows _ _ Hsv2 j).
  - unfold cpu_of. cbn. by rewrite Hpm3.
Qed.
End release.

(** ** Unmapping a page of an address space *)
Section omap.
Context {A B : Type} (f : A -> option B).
Lemma NoDup_omap l :
  NoDup l -> NoDup (omap f l) <-> forall x y b, x ∈ l -> y ∈ l -> f x = Some b -> f y = Some b -> x = y.
Proof.
  induction l as [|a l IH]; intros Hnd.
  { split; [by intros _ x y b Hx%elem_of_nil|intros _; apply NoDup_nil_2]. }
  apply NoDup_cons in Hnd as [Hna Hnd]. specialize (IH Hnd). cbn.
  assert (Ha : forall b, f a = Some b -> (b ∉ omap f l <-> forall y, y ∈ l -> f y <> Some b)).
  { intros b Hb. rewrite list_elem_of_omap. split; [intros H y Hy Hf; apply H; by exists y|intros H (y & Hy & Hf); by apply (H y)]. }
  destruct (f a) as [b|] eqn:E.
  - rewrite NoDup_cons, IH, (Ha b eq_refl). split.
    + intros [Hne Hinj] x y c [-> |Hx]%elem_of_cons [-> |Hy]%elem_of_cons Hfx Hfy; [done|..|by eapply Hinj].
      * destruct (Hne y Hy). congruence.
      * destruct (Hne x Hx). congruence.
    + intros Hinj. split; [|intros x y c Hx Hy; apply Hinj; by right].
      intros y Hy Hf. apply Hna. by rewrite (Hinj a y b) by (try done; by (left || right)).
  - rewrite IH. split; intros Hinj x y c.
    + intros [-> |Hx]%elem_of_cons [-> |Hy]%elem_of_cons Hfx Hfy; [done|congruence|congruence|by eapply Hinj].
    + intros Hx Hy. apply Hinj; by right.
Qed.
End omap.

Definition pages (t : pagetable) : list Z := used t ≫= (fun e => [2 * VPN2 e; 2 * VPN2 e + 1]).

Lemma pages_in t p : p ∈ pages t <-> p / 2 ∈ VPN2 <$> used t.
Proof.
  unfold pages. rewrite list_elem_of_bind, list_elem_of_fmap. split.
  - intros (e & Hp & He). exists e. split; [|done]. destruct (even_half (VPN2 e)) as (H1 & H2 & _).
    rewrite elem_of_cons, list_elem_of_singleton in Hp. by destruct Hp as [-> | ->].
  - intros (e & Hv & He). exists e. split; [|done]. rewrite <- Hv. rewrite elem_of_cons, list_elem_of_singleton.
    pose proof (Z.div_mod p 2 ltac:(lia)). pose proof (Z.mod_pos_bound p 2 ltac:(lia)). lia.
Qed.

Lemma pages_nodup t : pt_ok t -> NoDup (pages t).
Proof.
  intros [_ _ _ Hnd _]. unfold pages. induction (used t) as [|e l IH]; [apply NoDup_nil_2|]. cbn [fmap list_fmap] in Hnd.
  apply NoDup_cons in Hnd as [Hne Hnd]. rewrite bind_cons. cbn [app]. specialize (IH Hnd).
  assert (H : forall p, p / 2 = VPN2 e -> p ∉ l ≫= (fun e => [2 * VPN2 e; 2 * VPN2 e + 1])).
  { intros p Hp (d & Hd & Hin)%list_elem_of_bind. destruct (even_half (VPN2 d)) as (H1 & H2 & _). apply Hne.
    rewrite elem_of_cons, list_elem_of_singleton in Hd. rewrite <- Hp.
    destruct Hd as [-> | ->]; rewrite ?H1, ?H2; by apply list_elem_of_fmap_2. }
  destruct (even_half (VPN2 e)) as (H1 & H2 & _). apply NoDup_cons. split; [|apply NoDup_cons; split; [by apply H|done]].
  rewrite elem_of_cons. intros [Heq|Hin]; [lia|by apply (H _ H1)].
Qed.

Lemma frames_pages t : pt_ok t -> frames t = omap (fun p => fst <$> translate t p) (pages t).
Proof.
  intros Hok. unfold frames, pages.
  assert (Hall : forall e, e ∈ used t -> frames_of e = omap (fun p => fst <$> translate t p) [2 * VPN2 e; 2 * VPN2 e + 1]).
  { intros e He. destruct (find_pair_used t e Hok He) as [k Hk]. pose proof (used_entry_ok t e Hok He) as (_ & _ & _ & Hv0 & Hv1 & _).
    destruct (even_half (VPN2 e)) as (H1 & H2 & H3 & H4). unfold translate. cbn [omap list_omap]. rewrite H1, H2, Hk. unfold half. rewrite H3, H4.
    unfold frames_of. by destruct Hv0 as [-> | ->], Hv1 as [-> | ->]. }
  revert Hall. induction (used t) as [|e l IH]; intros Hall; [done|]. rewrite !bind_cons, omap_app, <- IH; [|intros; apply Hall; by right].
  f_equal. apply Hall. by left.
Qed.

Lemma frames_nodup t : pt_ok t ->
  NoDup (frames t) <-> forall p q f d d', translate t p = Some (f, d) -> translate t q = Some (f, d') -> p = q.
Proof.
  intros Hok. rewrite frames_pages, NoDup_omap by (done || by apply pages_nodup).
  assert (Hin : forall p m, translate t p = Some m -> p ∈ pages t).
  { intros p m Hm. apply pages_in. unfold translate in Hm. destruct (find_pair t (p / 2)) as [[k e]|] eqn:Hf; [|done].
    apply find_pair_Some in Hf as (Hk & _ & <- & _); [|done]. by eapply list_elem_of_fmap_2, list_elem_of_lookup_2. }
  split.
  - intros Hinj p q f d d' Hp Hq. apply (Hinj p q f); [by eapply Hin..|by rewrite Hp|by rewrite Hq].
  - intros Hinj p q f _ _ Hp Hq. destruct (translate t p) as [[f1 d1]|] eqn:Ep; [|done]. destruct (translate t q) as [[f2 d2]|] eqn:Eq; [|done].
    cbn in Hp, Hq. injection Hp as ->. injection Hq as ->. by apply (Hinj p q f d1 d2).
Qed.

(** What unmapping a page takes from the frames. *)
Lemma frames_updates t t' p f d :
  pt_ok t -> NoDup (frames t) -> translate t p = Some (f, d) -> updates t t' p None -> frames t ≡ₚ f :: frames t'.
Proof.
  intros Hok Hnd Hp (Hok' & _ & Htr). pose proof (proj1 (frames_nodup t Hok) Hnd) as Hinj.
  assert (Hno : f ∉ frames t').
  { rewrite frames_mapped by done. intros (q & d' & Hq). rewrite Htr in Hq. destruct (Z.eqb_spec q p) as [|Hne]; [done|].
    by apply Hne, (Hinj q p f d' d). }
  apply NoDup_Permutation; [done|apply NoDup_cons; split; [done|]|].
  - apply frames_nodup; [done|]. intros q r g e e'. rewrite !Htr. destruct (q =? p), (r =? p); try done. apply Hinj.
  - intros g. rewrite elem_of_cons, !frames_mapped by done. split.
    + intros (q & e & Hq). destruct (decide (q = p)) as [-> |Hne]; [left; congruence|right]. exists q, e. rewrite Htr. by rewrite (proj2 (Z.eqb_neq _ _) Hne).
    + intros [-> |(q & e & Hq)]; [by exists p, d|]. rewrite Htr in Hq. destruct (q =? p); [done|]. by exists q, e.
Qed.

#[export] Instance freed_proper p p' : Proper ((≡ₚ) ==> iff) (freed p p').
Proof.
  assert (H : forall fs gs, fs ≡ₚ gs -> freed p p' fs -> freed p p' gs).
  { intros fs gs Hfg (Hok & Hn & Hs & Hf & Hb). split; [done|]. split; [done|]. split; [done|]. rewrite <- Hfg. split; [done|].
    intros q Hq. rewrite Hb by done. by rewrite (decide_ext (q ∈ fs) (q ∈ gs)) by (by rewrite Hfg). }
  intros fs gs Hfg. split; apply H; [done|by symmetry].
Qed.

#[export] Instance in_use_proper p : Proper ((≡ₚ) ==> iff) (in_use p).
Proof. intros fs gs Hfg. unfold in_use. by rewrite Hfg. Qed.

Section unmap.
Context `{Symbols}.
Abbreviation spool s := (pm_pool (vm_pmem (sp_vm s))).
Abbreviation stable s addr := (vm_tables (sp_vm s) !! addr).

Lemma table_not_null s addr t : vm_ok s -> vm_tables s !! addr = Some t -> addr <> 0.
Proof.
  intros (_ & _ & _ & Htab) Ht. destruct (Htab _ _ Ht) as (_ & i & -> & Hi & _). rewrite phys_to_kernel; unfold PAGE_SIZE; lia.
Qed.

Lemma space_ok_cpu c s addr t :
  space_ok s addr t -> is_u32 (status c) -> held c = held (cpu_of s) -> space_ok (with_cpu c s) addr t.
Proof.
  intros [Ht (Hp & (_ & Hh) & Hmax & Htab) Hsv Has Huse Hapart] Hst Hc. split; try done.
  split; [done|]. split; [|by split]. split; [done|]. cbn. by rewrite Hc.
Qed.
End unmap.

(** ** An address space, for concrete runs

    Page table in page 3, the pages 0x400 and 0x401 in the frames 4 and 5, and
    a row of the translation buffer that serves them. *)
Definition an_entry : tlb_entry := mk_tlb_entry 0x200 5 4 0 1 1 0 5 0 1 1 0.
Definition a_table : pagetable := mk_pagetable 5 1 (an_entry :: replicate 339 blank_entry).
Definition a_space : space :=
  mk_space (mk_vmem (mk_pmem (mk_kmem 0xffffffff 0x80028000) (mk_pool [63; 0] 40 34 3) (mk_cpu 0xff01 ∅)) {[0x80003000 := a_table]})
    (an_entry :: replicate 15 blank_entry) 5.

Lemma a_table_ok : pt_ok a_table.
Proof.
  split; cbn [a_table entries valid_count]; [reflexivity|unfold PAGETABLE_ENTRIES; lia| |apply NoDup_singleton|].
  - constructor; [|exact (Forall_drop entry_ok 1 _ blank_entries_ok)]. repeat split; cbn; lia.
  - constructor; [reflexivity|done].
Qed.

Lemma a_pool_ok : pool_ok (mk_pool [63; 0] 40 34 3).
Proof.
  split; cbn.
  - repeat constructor; vm_check.
  - vm_check.
  - lia.
  - vm_check.
  - lia.
  - intros i Hi. assert (i = 0 \/ i = 1 \/ i = 2) as [->|[-> | ->]] by lia; reflexivity.
Qed.

Lemma a_space_ok : @space_ok example_symbols a_space 0x80003000 a_table.
Proof.
  assert (Hpage : table_page (sp_vm a_space) 0x80003000 3) by (split; [reflexivity|split; [lia|split; [cbn; lia|reflexivity]]]).
  split.
  - reflexivity.
  - split; [exact a_pool_ok|]. split; [split; [vm_check|apply not_elem_of_empty]|]. split; [vm_check|].
    intros addr t Ht. change (({[0x80003000 := a_table]} : gmap Z pagetable) !! addr = Some t) in Ht.
    apply lookup_singleton_Some in Ht as [<- <-]. split; [exact a_table_ok|by exists 3].
  - split.
    + intros [|i] r; [intros [= <-] _; by left|]. intros [-> _]%(lookup_replicate 15 blank_entry) Hr. discriminate.
    + intros [|i] [|j] r r'; [done| |intros H; by apply (lookup_replicate 15 blank_entry) in H as [-> _]|].
      * intros [= <-] [-> _]%(lookup_replicate 15 blank_entry). discriminate.
      * intros [-> _]%(lookup_replicate 15 blank_entry) _ Hr. discriminate.
  - reflexivity.
  - change (frames a_table) with [4; 5]. split; [apply (bool_decide_unpack _); vm_compute; exact I|]. repeat constructor; cbn; lia || reflexivity.
  - intros a u i Ha (-> & Hi & _). change (frames a_table) with [4; 5]. change (({[0x80003000 := a_table]} : gmap Z pagetable) !! ADDR_PHYS_TO_KERNEL (i * PAGE_SIZE) = Some u) in Ha.
    apply lookup_singleton_Some in Ha as [Heq _].
    rewrite phys_to_kernel in Heq by (unfold PAGE_SIZE; lia). unfold PAGE_SIZE in Heq. rewrite !elem_of_cons, elem_of_nil. lia.
Qed.

(** [vm_unmap] gives the frame of a page away and leaves its row in the
    translation buffer: the process can still use the page. *)
Example unmapped_page_still_translated :
  wp (on_vm (@vm_unmap example_symbols 0x80003000 0x401000)) (fun _ s' =>
    reserved (pm_pool (vm_pmem (sp_vm s'))) 5 = false /\ tlb_translate (tlb_of s') 0x401 = Some (5, 1)) a_space.
Proof. vm_compute. split; reflexivity. Qed.
