(* ===== verification/Frames.v ===== *)
(** * Frames of an address space

    What the loader and the heap do with a page table: frames come from the
    page pool into the table, and go back when the table is given up.  The
    lemmas leave the translation buffer open. *)
From S2P Require Import Prelude Bitmap Cpu Kmalloc Pagepool Vm Tlb Space.

(** [vm_map] of the table at an address. *)
Definition vm_map_at (pagetable physaddr vaddr dirty : Z) : M space Z :=
  t ← on_vm (get_table pagetable);
  '(r, t) ← lift (vm_map t physaddr vaddr dirty);
  _ ← on_vm (put_table pagetable t);
  mret r.

(** The frames of the table at an address and the table go back to the pool,
    as proc/process.c does after a failed start. *)
Definition free_space `{Symbols} (pagetable : Z) : M space unit :=
  t ← on_vm (get_table pagetable);
  _ ← free_pages (Z.to_nat (valid_count t)) 0 pagetable;
  on_vm (vm_destroy_pagetable pagetable).

Section frames.
Context `{Symbols}.
Implicit Types (s : space) (t : pagetable).
Abbreviation spool s := (pm_pool (vm_pmem (sp_vm s))).
Abbreviation stable s addr := (vm_tables (sp_vm s) !! addr).

(** The frames of the table at [addr] are pages of the pool in use, each
    mapped once, and none of them holds a page table. *)
Record mem_ok s (addr : Z) t : Prop := {
  mo_table : stable s addr = Some t;
  mo_vm : vm_ok (sp_vm s);
  mo_frames : in_use (spool s) (frames t);
  mo_apart : forall a u i, stable s a = Some u -> table_page (sp_vm s) a i -> i ∉ frames t
}.
Lemma space_mem s addr t : space_ok s addr t -> mem_ok s addr t.
Proof. intros []. by split. Qed.
Lemma mem_space s addr t : mem_ok s addr t -> served t (sp_rows s) -> sp_asid s = pt_ASID t mod 2 ^ 8 -> space_ok s addr t.
Proof. intros []. by split. Qed.
Lemma mem_table_ok s addr t : mem_ok s addr t -> pt_ok t.
Proof. intros [Ht (_ & _ & _ & Htab) _ _]. by apply (Htab _ _ Ht). Qed.
Lemma mem_injective s addr t p q f d d' : mem_ok s addr t -> translate t p = Some (f, d) -> translate t q = Some (f, d') -> p = q.
Proof. intros Hm. apply frames_nodup; [by eapply mem_table_ok|]. apply (mo_frames _ _ _ Hm). Qed.

(** Only the rows of the translation buffer differ. *)
Lemma mem_rows s addr t rows asid : mem_ok s addr t -> mem_ok (mk_space (sp_vm s) rows asid) addr t.
Proof. intros []. by split. Qed.
Lemma mem_cpu c s addr t : mem_ok s addr t -> is_u32 (status c) -> held c = held (cpu_of s) -> mem_ok (with_cpu c s) addr t.
Proof.
  intros [Ht (Hp & (_ & Hh) & Hmax & Htab) Huse Hapart] Hst Hc. split; try done.
  split; [done|]. split; [|by split]. split; [done|]. cbn. by rewrite Hc.
Qed.

(** A frame that nobody uses. *)
Definition spare s t (i : Z) : Prop :=
  pagepool_static_end (spool s) <= i < pagepool_num_pages (spool s) /\ reserved (spool s) i = true /\
  i ∉ frames t /\ forall a u, stable s a = Some u -> ~ table_page (sp_vm s) a i.
(** [p'] is [p] with the page [i] taken. *)
Abbreviation taken p p' i := (page_update p p' i true).

Lemma table_page_taken s p i a j :
  pool_ok (spool s) -> reserved (spool s) i = false -> taken (spool s) p i -> 0 <= i < pagepool_num_pages (spool s) -> j <> i ->
  table_page (sp_vm (with_spool p s)) a j <-> table_page (sp_vm s) a j.
Proof.
  intros Hp Hi (Hn & Hs & _ & _ & _ & Hb) Hr Hne. unfold table_page. cbn. rewrite Hn, Hs. pose proof (po_pages _ Hp). pose proof (po_static _ Hp).
  split; intros (Ha & Hj0 & Hj1 & Hj2); (split; [done|]; split; [done|]; split; [done|]); unfold reserved in *; rewrite Hb in * by lia;
    by rewrite (proj2 (Z.eqb_neq j i)) in * by done.
Qed.

Lemma take_frame_run s addr t :
  mem_ok s addr t ->
  wp (on_vm (on_pmem pagepool_get_phys_page)) (fun a s' =>
    (pagepool_num_free_pages (spool s) = 0 /\ a = 0 /\ s' = s) \/
    exists i p, a = i * PAGE_SIZE /\ 0 < i < 0x20000 /\ s' = with_spool p s /\ reserved (spool s) i = false /\ taken (spool s) p i /\ mem_ok s' addr t /\ spare s' t i) s.
Proof.
  intros [Ht (Hp & Hcpu & Hmax & Htab) Huse Hapart]. apply wp_on_vm, wp_on_pmem. eapply wp_mono; [by apply get_phys_page_run|].
  intros a pm [(Hz & -> & ->)|(i & p & -> & -> & Hi & Hfree & _ & Hup & Hok)]; [left; by destruct s as [[] ? ?]|right].
  pose proof (po_static _ Hp) as Hst. pose proof Hup as (Hn & Hs & _ & _ & _ & Hb). pose proof (po_pages _ Hp).
  assert (Hiff : forall a j, j <> i -> table_page (sp_vm (with_spool p s)) a j <-> table_page (sp_vm s) a j) by (intros a j Hj; apply (table_page_taken s p i); first [done|lia]).
  assert (Hnot : forall a u, stable s a = Some u -> forall j, table_page (sp_vm s) a j -> j <> i).
  { intros a u Hu j (_ & _ & _ & Hj) ->. congruence. }
  assert (Hfr : i ∉ frames t) by (intros Hin; destruct Huse as [_ Hall]; rewrite Forall_forall in Hall; destruct (Hall i Hin) as [_ ?]; congruence).
  assert (Hvm' : vm_ok (sp_vm (with_spool p s))).
  { split; [done|]. split; [done|]. split; [cbn; lia|]. intros a u Hu. destruct (Htab a u Hu) as (Huok & j & Hj). split; [done|]. exists j.
    by apply (Hiff a j (Hnot a u Hu j Hj)). }
  assert (Hres : reserved p i = true) by (unfold reserved; rewrite Hb by lia; by rewrite Z.eqb_refl).
  (* the page is no table: a table's own page was in use before *)
  assert (Hpage : forall a u, stable s a = Some u -> ~ table_page (sp_vm (with_spool p s)) a i).
  { intros a u Hu Hi'. destruct (Htab a u Hu) as (_ & j & Hj). pose proof (Hnot a u Hu j Hj) as Hne.
    pose proof (table_page_phys _ _ _ Hi') as H1. rewrite (table_page_phys _ _ _ Hj) in H1. unfold PAGE_SIZE in H1. lia. }
  exists i, p. split; [done|]. split; [lia|]. split; [done|]. split; [done|]. split; [done|]. split.
  - split; [done|done| |].
    + destruct Huse as [Hnd Hall]. split; [done|]. rewrite Forall_forall in *. intros f Hf. destruct (Hall f Hf) as [Hr Hrf]. cbn. rewrite Hn, Hs.
      split; [done|]. unfold reserved in *. rewrite Hb by lia. by destruct (f =? i).
    + intros a u j Hu Hj. destruct (decide (j = i)) as [->|Hne]; [done|]. apply (Hapart a u j Hu). by apply (Hiff a j Hne).
  - split; [cbn; lia|]. split; [done|]. split; [done|]. intros a u Hu. by apply (Hpage a u).
Qed.

(** ** A frame becomes a page *)
Lemma frames_mapped_new t t' p f d :
  pt_ok t -> NoDup (frames t) -> translate t p = None -> f ∉ frames t -> updates t t' p (Some (f, d)) -> frames t' ≡ₚ f :: frames t.
Proof.
  intros Hok Hnd Hp Hf (Hok' & _ & Htr). pose proof (proj1 (frames_nodup t Hok) Hnd) as Hinj.
  assert (Hnew : forall q g e, translate t' q = Some (g, e) -> q = p /\ g = f \/ q <> p /\ translate t q = Some (g, e)).
  { intros q g e Hq. rewrite Htr in Hq. destruct (Z.eqb_spec q p); [left; by injection Hq as <- <-|by right]. }
  apply NoDup_Permutation.
  - apply frames_nodup; [done|]. intros q r g e e' [[-> ->]|[Hq1 Hq]]%Hnew [[-> Hg]|[Hr1 Hr]]%Hnew; [done|..].
    + destruct Hf. apply frames_mapped; [done|]. by exists r, e'.
    + subst g. destruct Hf. apply frames_mapped; [done|]. by exists q, e.
    + by apply (Hinj q r g e e').
  - by apply NoDup_cons.
  - intros g. rewrite elem_of_cons, !frames_mapped by done. split.
    + intros (q & e & [[_ ->]|[_ Hq]]%Hnew); [by left|right]. by exists q, e.
    + intros [->|(q & e & Hq)]; [exists p, d; by rewrite Htr, Z.eqb_refl|]. exists q, e. rewrite Htr.
      destruct (Z.eqb_spec q p) as [->|]; [congruence|done].
Qed.

Definition with_table addr t s : space := mk_space (mk_vmem (vm_pmem (sp_vm s)) (<[addr := t]> (vm_tables (sp_vm s)))) (sp_rows s) (sp_asid s).

Lemma mem_ok_table s addr t t' :
  mem_ok s addr t -> pt_ok t' -> in_use (spool s) (frames t') -> (forall f, f ∈ frames t' -> f ∉ frames t -> forall a u, stable s a = Some u -> ~ table_page (sp_vm s) a f) ->
  mem_ok (with_table addr t' s) addr t'.
Proof.
  intros [Ht (Hp & Hcpu & Hmax & Htab) Huse Hapart] Hok' Huse' Hnew.
  assert (Hsome : forall a u, stable (with_table addr t' s) a = Some u -> exists u0, stable s a = Some u0).
  { intros a u Hu. cbn in Hu. destruct (decide (a = addr)) as [->|]; [by eexists|]. rewrite lookup_insert_ne in Hu by done. by eexists. }
  split; [apply lookup_insert_eq| |done|].
  - split; [done|]. split; [done|]. split; [done|]. intros a u Hu. pose proof (Hsome a u Hu) as [u0 Hu0]. split; [|apply (Htab a u0 Hu0)].
    cbn in Hu. destruct (decide (a = addr)) as [->|]; [rewrite lookup_insert_eq in Hu; by injection Hu as <-|].
    rewrite lookup_insert_ne in Hu by done. by apply (Htab a u).
  - intros a u i Hu Hi Hin. destruct (Hsome a u Hu) as [u0 Hu0]. destruct (decide (i ∈ frames t)) as [Hold|Hold].
    + by apply (Hapart a u0 i Hu0).
    + by apply (Hnew i Hin Hold a u0 Hu0).
Qed.

(** The frame [i] becomes the page, or stays without one: when the page is
    mapped already, or the table is full. *)
Lemma vm_map_at_any s addr t i vaddr d :
  mem_ok s addr t -> spare s t i -> i < 0x20000 -> is_u32 vaddr -> d = 0 \/ d = 1 ->
  wp (vm_map_at addr (i * PAGE_SIZE) vaddr d) (fun r s' => exists t', s' = with_table addr t' s /\ mem_ok s' addr t' /\
    (r = 1 /\ translate t (vaddr / 4096) = None /\ updates t t' (vaddr / 4096) (Some (i, d)) /\ grows t t' (vaddr / 4096) /\
       frames t' ≡ₚ i :: frames t \/
     r = -1 /\ t' = t /\ (translate t (vaddr / 4096) <> None \/
       valid_count t = PAGETABLE_ENTRIES /\ find_pair t (vaddr / 4096 / 2) = None))) s.
Proof.
  intros Hm (Hr & Hres & Hni & Hno) Hi Hv Hd. pose proof (mem_table_ok _ _ _ Hm) as Hok. pose proof Hm as [Ht (Hp & _) [Hnd Huse] _].
  pose proof (po_static _ Hp). unfold vm_map_at. apply wp_bind, (wp_get_stable s addr t); [done|].
  destruct (vm_map_run t (i * PAGE_SIZE) vaddr d Hok) as (r & t' & Hrun & Hcase); [unfold is_u32, PAGE_SIZE; lia|done|done|].
  apply wp_bind. eapply wp_lift; [exact Hrun|]. cbn [fst snd]. apply wp_bind, wp_on_vm, wp_modify, wp_ret.
  exists t'. split; [done|]. destruct Hcase as [(-> & Hnone & Hup & Hgrow)|(-> & -> & Hcase)].
  2: { split; [|by right]. by apply (mem_ok_table s addr t t Hm). }
  replace (i * PAGE_SIZE / 4096) with i in Hup by (unfold PAGE_SIZE; by rewrite Z.div_mul).
  pose proof (frames_mapped_new t t' _ i d Hok Hnd Hnone Hni Hup) as Hperm. split; [|by left].
  apply (mem_ok_table s addr t t' Hm); [apply Hup| |].
  - rewrite Hperm. split; [by apply NoDup_cons|]. apply Forall_cons. split; [|done]. by split.
  - intros f Hf Hold. rewrite Hperm in Hf. apply elem_of_cons in Hf as [->|]; [done|by destruct Hold].
Qed.
Lemma vm_map_at_run s addr t i vaddr d :
  mem_ok s addr t -> spare s t i -> i < 0x20000 -> is_u32 vaddr -> translate t (vaddr / 4096) = None -> valid_count t < PAGETABLE_ENTRIES -> d = 0 \/ d = 1 ->
  wp (vm_map_at addr (i * PAGE_SIZE) vaddr d) (fun r s' => r = 1 /\ exists t', updates t t' (vaddr / 4096) (Some (i, d)) /\ grows t t' (vaddr / 4096) /\
    frames t' ≡ₚ i :: frames t /\ s' = with_table addr t' s /\ mem_ok s' addr t') s.
Proof.
  intros Hm Hs Hi Hv Hnone Hroom Hd. eapply wp_mono; [by apply (vm_map_at_any s addr t i vaddr d)|].
  intros r s' (t' & -> & Hm' & [(-> & _ & Hup & Hg & Hp)|(_ & _ & [|[? _]])]); [|done|lia]. split; [done|]. by exists t'.
Qed.

(** ** Giving up a table *)
Lemma mem_ok_freed s addr t p fs :
  mem_ok s addr t -> freed (spool s) p fs -> in_use (spool s) (fs ++ frames t) ->
  (forall a u i, stable s a = Some u -> table_page (sp_vm s) a i -> i ∉ fs) -> mem_ok (with_spool p s) addr t.
Proof.
  intros [Ht Hvm Huse Hapart] Hf Hall Hno. pose proof Hvm as (Hp & _). pose proof (po_static _ Hp). split; [done|by eapply vm_ok_freed| |].
  - destruct (in_use_app _ fs _ Hp Hall) as [_ Hrest]. by apply Hrest.
  - intros a u i Hu Hi. apply (Hapart a u i Hu). destruct Hi as (Ha & Hi1 & Hi2 & Hi3). cbn in Hi2, Hi3.
    destruct Hf as (_ & Hn & Hs & _ & Hb). rewrite Hn, Hs in Hi2. split; [done|]. split; [done|]. split; [done|].
    rewrite Hb in Hi3 by lia. by case_decide.
Qed.

Lemma vm_unmap_mem s addr t vaddr f d :
  mem_ok s addr t -> is_u32 vaddr -> translate t (vaddr / 4096) = Some (f, d) ->
  wp (on_vm (vm_unmap addr vaddr)) (fun _ s' => exists t' p, s' = with_table addr t' (with_spool p s) /\ mem_ok s' addr t' /\ frames t ≡ₚ f :: frames t' /\
    freed (spool s) p [f] /\ updates t t' (vaddr / 4096) None /\ valid_count t' = valid_count t /\ VPN2 <$> used t' = VPN2 <$> used t) s.
Proof.
  intros Hm Hv Htr. pose proof (mem_table_ok _ _ _ Hm) as Hok. pose proof Hm as [Ht Hvm Huse Hapart]. pose proof Hvm as (Hp & Hcpu & _).
  assert (Hf : f ∈ frames t) by (apply frames_mapped; [done|]; by exists (vaddr / 4096), d).
  pose proof Huse as [Hnd Hall]. rewrite Forall_forall in Hall. destruct (Hall f Hf) as [Hr Hres].
  apply wp_on_vm. eapply wp_mono; [apply (vm_unmap_run (sp_vm s) addr t vaddr f d); try done; by eapply table_not_null|].
  intros _ v (t' & p & Hup & Hvc & Hvs & Hpu & Hok' & ->).
  pose proof (frames_updates t t' _ f d Hok Hnd Htr Hup) as Hperm. pose proof (freed_one _ _ _ Hp Hpu Hok') as Hfr.
  exists t', p. split; [done|]. split; [|by split_and!]. rewrite Hperm in Huse.
  assert (Hno : forall a u i, stable s a = Some u -> table_page (sp_vm s) a i -> i ∉ [f]).
  { intros a u i Hu Hi ->%list_elem_of_singleton. by apply (Hapart a u f Hu Hi). }
  assert (Hm' : mem_ok (with_table addr t' s) addr t').
  { apply (mem_ok_table s addr t t' Hm); [apply Hup|by destruct Huse as [[_ ?]%NoDup_cons [_ ?]%Forall_cons]|].
    intros g Hg Hgt. rewrite Hperm in Hgt. by apply not_elem_of_cons in Hgt as [_ ?]. }
  assert (Hsome : forall a u, stable (with_table addr t' s) a = Some u -> exists u0, stable s a = Some u0).
  { intros a u Hu. cbn in Hu. destruct (decide (a = addr)) as [->|]; [by eexists|]. rewrite lookup_insert_ne in Hu by done. by eexists. }
  apply (mem_ok_freed (with_table addr t' s) addr t' p [f]); [done|done|exact Huse|].
  intros a u i Hu. destruct (Hsome a u Hu) as [u0 Hu0]. by apply (Hno a u0).
Qed.
(** A page whose pair has no entry: nothing happens. *)
Lemma vm_unmap_absent s addr t vaddr :
  mem_ok s addr t -> find_pair t (vaddr / 4096 / 2) = None -> wp (on_vm (vm_unmap addr vaddr)) (fun _ s' => s' = s) s.
Proof.
  intros Hm Hf. pose proof (mem_table_ok _ _ _ Hm) as Hok. pose proof Hm as [Ht Hvm _ _]. pose proof (pt_len _ Hok). pose proof (pt_count _ Hok).
  apply wp_on_vm. unfold vm_unmap. rewrite (proj2 (Z.eqb_neq _ _)) by by eapply table_not_null.
  apply wp_bind. eapply wp_eq; [by apply get_table_run|].
  eapply vm_unmap_loop_skip; [done|lia|lia| |by destruct s].
  intros k d Hk Hd. rewrite pair_of_addr. apply (find_pair_None _ _ _ k Hf). unfold used. by rewrite lookup_take_lt by lia.
Qed.
Lemma free_space_run s addr t :
  mem_ok s addr t ->
  wp (free_space addr) (fun _ s' => exists i p, table_page (sp_vm s) addr i /\ freed (spool s) p (frames t ++ [i]) /\ vm_ok (sp_vm s') /\
    s' = mk_space (mk_vmem (with_pool p (vm_pmem (sp_vm s))) (delete addr (vm_tables (sp_vm s)))) (sp_rows s) (sp_asid s)) s.
Proof.
  intros Hm. pose proof (mem_table_ok _ _ _ Hm) as Hok. pose proof Hm as [Ht Hvm Huse Hapart]. pose proof Hvm as (Hp & Hcpu & Hmax & Htab).
  pose proof (pt_count _ Hok) as Hc. unfold free_space. apply wp_bind, (wp_get_stable s addr t); [done|].
  assert (Hall : take (Z.to_nat (valid_count t)) (drop (Z.to_nat 0) (used t)) = used t).
  { apply take_ge. unfold used. rewrite ?length_drop, length_take. lia. }
  apply wp_bind. eapply wp_mono; [apply (free_pages_run _ 0 s addr t); try done; [lia|by rewrite Hall]|].
  rewrite Hall. fold (frames t). intros _ s1 (p1 & Hf1 & ->).
  pose proof (vm_ok_freed s p1 (frames t) Hvm Hf1 Hapart) as Hvm1.
  apply wp_on_vm. eapply wp_mono; [by eapply vm_destroy_run|].
  intros _ v (Hvm3 & Htab3 & i & p3 & Hi & Hup & Hok3 & Hpm3). exists i, p3. split.
  { destruct Hi as (Ha & Hi1 & Hi2 & Hi3). cbn in Hi2, Hi3. pose proof Hf1 as (_ & Hn1 & Hs1 & _ & Hb1). rewrite Hn1, Hs1 in Hi2.
    pose proof (po_static _ Hp). split; [done|]. split; [done|]. split; [done|]. rewrite Hb1 in Hi3 by lia. by case_decide. }
  split; [eapply freed_app; [exact Hf1|]; apply freed_one; [apply Hf1|exact Hup|done]|]. split; [done|].
  destruct v. cbn in *. by subst.
Qed.

Lemma vm_unmap_space s addr t vaddr f d :
  space_ok s addr t -> is_u32 vaddr -> translate t (vaddr / 4096) = Some (f, d) ->
  wp (on_vm (vm_unmap addr vaddr)) (fun _ s' => exists t', space_ok s' addr t' /\ frames t ≡ₚ f :: frames t' /\
    freed (spool s) (spool s') [f] /\ vm_tables (sp_vm s') = <[addr := t']> (vm_tables (sp_vm s)) /\
    pt_ASID t' = pt_ASID t /\ cpu_of s' = cpu_of s) s.
Proof.
  intros Hs Hv Htr. eapply wp_mono; [by eapply vm_unmap_mem; [by apply space_mem|..]|].
  intros _ s' (t' & p & -> & Hm & Hperm & Hfr & (Hok' & Ha & _) & _ & Hvs). exists t'. split; [|done].
  apply mem_space; [done|apply (served_same t); [apply (so_rows _ _ _ Hs)|done|done]|]. cbn. rewrite Ha. apply (so_asid _ _ _ Hs).
Qed.
End frames.
