(* ===== verification/Chain.v ===== *)
(** * Linked lists in the thread table

    The ready list, the buckets of the sleep queue and the list of timed
    sleepers are chained through fields of the thread table: a list is its
    first index and, for each element, the index of the next; -1 ends it.
    [nxt] is the field, as a function of the index. *)
From S2P Require Import Prelude.

(** The cells of [l], from [h] on, lead to [m]. *)
Fixpoint seg (nxt : Z -> Z) (h : Z) (l : list Z) (m : Z) : Prop :=
  match l with
  | [] => h = m
  | t :: l => h = t /\ seg nxt (nxt t) l m
  end.
Definition chain (nxt : Z -> Z) (h : Z) (l : list Z) : Prop := seg nxt h l (-1).

Lemma seg_app nxt h l1 l2 m : seg nxt h (l1 ++ l2) m <-> exists k, seg nxt h l1 k /\ seg nxt k l2 m.
Proof.
  revert h. induction l1 as [|t l1 IH]; intros h; cbn.
  - split; [by exists h|]. by intros (k & -> & ?).
  - rewrite IH. split.
    + intros [-> (k & ? & ?)]. by exists k.
    + intros (k & [-> ?] & ?). split; [done|]. by exists k.
Qed.

Lemma seg_ext f g h l m : (forall t, t ∈ l -> f t = g t) -> seg f h l m -> seg g h l m.
Proof.
  revert h. induction l as [|t l IH]; intros h Hfg; cbn; [done|].
  intros [-> H]. split; [done|]. rewrite <- (Hfg t) by (by left). apply IH; [|done].
  intros u Hu. apply Hfg. by right.
Qed.

Lemma seg_snoc nxt h l t m : seg nxt h (l ++ [t]) m <-> seg nxt h l t /\ nxt t = m.
Proof.
  rewrite seg_app. cbn. split; [by intros (k & ? & -> & ?)|]. intros [? ?]. by exists t.
Qed.

Lemma chain_nil nxt h : chain nxt h [] <-> h = -1.
Proof. done. Qed.

(** The head of a chain of thread numbers. *)
Lemma chain_head nxt h l :
  chain nxt h l -> Forall (fun t => 0 < t) l -> h = default (-1) (head l).
Proof. destruct l as [|t l]; cbn; [done|]. by intros [-> _]. Qed.

Lemma chain_pos nxt h l :
  chain nxt h l -> Forall (fun t => 0 < t) l -> (0 < h <-> l <> []).
Proof.
  intros Hc Hp. rewrite (chain_head nxt h l Hc Hp). destruct l as [|t l]; cbn; [split; [lia|done]|].
  apply Forall_cons in Hp as [Ht _]. by split.
Qed.

(** The chain determines the list. *)
Lemma chain_det nxt h l l' :
  chain nxt h l -> chain nxt h l' -> Forall (fun t => 0 < t) l -> Forall (fun t => 0 < t) l' -> l = l'.
Proof.
  unfold chain. revert h l'. induction l as [|t l IH]; intros h l' Hc Hc' Hp Hp'.
  - cbn in Hc. subst h. destruct l' as [|t' l']; [done|]. destruct Hc' as [E _].
    apply Forall_cons in Hp' as [H _]. lia.
  - destruct Hc as [-> Hc]. apply Forall_cons in Hp as [Ht Hp]. destruct l' as [|t' l'].
    + cbn in Hc'. lia.
    + destruct Hc' as [<- Hc']. apply Forall_cons in Hp' as [_ Hp']. f_equal. by eapply IH.
Qed.

(** Appending: the last cell now leads to the new one. *)
Lemma seg_append f g h l p t m :
  seg f h (l ++ [p]) m -> NoDup (l ++ [p]) -> t ∉ l ++ [p] ->
  g p = t -> g t = m -> (forall u, u ∈ l -> g u = f u) -> seg g h ((l ++ [p]) ++ [t]) m.
Proof.
  intros [Hl _]%seg_snoc Hn Ht Hp Hgt Hg. apply seg_snoc. split; [|done]. apply seg_snoc. split; [|done].
  eapply seg_ext; [|exact Hl]. intros u Hu. symmetry. by apply Hg.
Qed.

(** Inserting in the middle. *)
Lemma seg_insert f g h l p t l2 k m :
  seg f h (l ++ [p]) k -> seg f k l2 m -> g p = t -> g t = k ->
  (forall u, u ∈ l -> g u = f u) -> (forall u, u ∈ l2 -> g u = f u) ->
  seg g h ((l ++ [p]) ++ t :: l2) m.
Proof.
  intros [Hl _]%seg_snoc H2 Hp Ht Hg Hg2. apply seg_app. exists t. split.
  - apply seg_snoc. split; [|done]. eapply seg_ext; [|exact Hl]. intros u Hu. symmetry. by apply Hg.
  - cbn. split; [done|]. rewrite Ht. eapply seg_ext; [|exact H2]. intros u Hu. symmetry. by apply Hg2.
Qed.

(** Unlinking the cell after [p]. *)
Lemma seg_remove f g h l p t l2 m :
  seg f h ((l ++ [p]) ++ t :: l2) m -> g p = f t ->
  (forall u, u ∈ l -> g u = f u) -> (forall u, u ∈ l2 -> g u = f u) ->
  seg g h ((l ++ [p]) ++ l2) m.
Proof.
  intros (k & [Hl _]%seg_snoc & -> & H2)%seg_app Hp Hg Hg2. apply seg_app. exists (f t). split.
  - apply seg_snoc. split; [|done]. eapply seg_ext; [|exact Hl]. intros u Hu. symmetry. by apply Hg.
  - eapply seg_ext; [|exact H2]. intros u Hu. symmetry. by apply Hg2.
Qed.

(** A list without repetitions of numbers in [1, n) has fewer than [n]
    elements: enough fuel for walking it. *)
Lemma nodup_length l n : 0 < n -> NoDup l -> Forall (fun t => 0 < t < n) l -> Z.of_nat (length l) < n.
Proof.
  intros Hn Hd Hl. assert (H : (length l <= length (seqZ 1 (n - 1)))%nat).
  { apply NoDup_incl_length; [by apply NoDup_ListNoDup|]. intros t Ht%list_elem_of_In.
    rewrite Forall_forall in Hl. specialize (Hl t Ht). apply list_elem_of_In, elem_of_seqZ. lia. }
  rewrite length_seqZ in H. lia.
Qed.

(** ** Lists sorted by a field *)

Fixpoint sorted_by (f : Z -> Z) (l : list Z) : Prop :=
  match l with
  | [] => True
  | t :: l => Forall (fun u => f t <= f u) l /\ sorted_by f l
  end.
(** Stable insertion: behind everything that is not larger. *)
Fixpoint insert_by (f : Z -> Z) (t : Z) (l : list Z) : list Z :=
  match l with
  | [] => [t]
  | u :: l' => if f t <? f u then t :: l else u :: insert_by f t l'
  end.

Lemma sorted_by_app f l1 l2 :
  sorted_by f (l1 ++ l2) <->
  sorted_by f l1 /\ sorted_by f l2 /\ forall a b, a ∈ l1 -> b ∈ l2 -> f a <= f b.
Proof.
  induction l1 as [|t l1 IH]; cbn.
  - split; [intros ?; split_and!; [done|done|]|by intros (_ & ? & _)].
    intros a b Ha. by apply not_elem_of_nil in Ha.
  - rewrite IH, Forall_app, !Forall_forall. split.
    + intros [[H1 H2] (S1 & S2 & H)]. split_and!; try done.
      intros a b [->|Ha]%elem_of_cons Hb; auto.
    + intros [[H1 S1] (S2 & H)]. split_and!; try done.
      * intros b Hb. apply H; [by left|done].
      * intros a b Ha Hb. apply H; [by right|done].
Qed.

Lemma sorted_by_ext f g l : (forall t, t ∈ l -> f t = g t) -> sorted_by f l -> sorted_by g l.
Proof.
  induction l as [|t l IH]; cbn; [done|]. intros Hfg [Ht Hl].
  split; [|apply IH; [intros u Hu; apply Hfg; by right|done]].
  rewrite Forall_forall in *. intros u Hu. rewrite <- (Hfg t), <- (Hfg u) by set_solver. by apply Ht.
Qed.

Lemma insert_by_ext f g t l : (forall u, u ∈ t :: l -> f u = g u) -> insert_by f t l = insert_by g t l.
Proof.
  induction l as [|u l IH]; intros Hfg; cbn; [done|].
  rewrite (Hfg t), (Hfg u) by set_solver. rewrite IH; [done|]. intros v Hv. apply Hfg. set_solver.
Qed.

(** Where a new element goes. *)
Lemma insert_by_split f t l :
  sorted_by f l -> exists l1 l2, l = l1 ++ l2 /\ insert_by f t l = l1 ++ t :: l2 /\
    Forall (fun u => f u <= f t) l1 /\ Forall (fun u => f t < f u) l2.
Proof.
  induction l as [|u l IH]; cbn; [by exists [], []|]. intros [Hu Hl].
  destruct (Z.ltb_spec (f t) (f u)).
  - exists [], (u :: l). split_and!; [done|done|done|]. constructor; [done|].
    eapply Forall_impl; [exact Hu|]. cbn. lia.
  - destruct (IH Hl) as (l1 & l2 & -> & -> & H1 & H2). exists (u :: l1), l2. split_and!; try done.
    constructor; [lia|done].
Qed.

Lemma insert_by_perm f t l : insert_by f t l ≡ₚ t :: l.
Proof.
  induction l as [|u l IH]; cbn; [done|]. destruct (f t <? f u); [done|].
  rewrite IH. constructor.
Qed.

Lemma insert_by_elem f t l u : u ∈ insert_by f t l <-> u = t \/ u ∈ l.
Proof. rewrite insert_by_perm. apply elem_of_cons. Qed.

Lemma insert_by_sorted f t l : sorted_by f l -> sorted_by f (insert_by f t l).
Proof.
  intros Hl. destruct (insert_by_split f t l Hl) as (l1 & l2 & -> & -> & H1 & H2).
  rewrite Forall_forall in H1, H2. apply sorted_by_app in Hl as (S1 & S2 & H).
  apply sorted_by_app. split_and!; [done|split; [|done]|].
  - apply Forall_forall. intros u Hu. specialize (H2 u Hu). lia.
  - intros a b Ha [->|Hb]%elem_of_cons; [by apply H1|by apply H].
Qed.

(** At the end, when nothing is larger. *)
Lemma insert_by_last f t l : Forall (fun u => f u <= f t) l -> insert_by f t l = l ++ [t].
Proof.
  induction 1 as [|u l Hu Hl IH]; cbn; [done|]. destruct (Z.ltb_spec (f t) (f u)); [lia|]. by rewrite IH.
Qed.

(** Linking a new cell into a chain: the last cell before it and its own field
    are assigned, or the head when it comes first. *)
Lemma chain_link f g h l1 t l2 h' :
  chain f h (l1 ++ l2) -> (forall u, u ∈ l1 ++ l2 -> Some u <> last l1 -> g u = f u) -> NoDup (l1 ++ l2) ->
  (match last l1 with Some p => h' = h /\ g p = t | None => h' = t end) ->
  g t = match l2 with [] => -1 | u :: _ => u end ->
  chain g h' (l1 ++ t :: l2).
Proof.
  unfold chain. intros (k & H1 & H2)%seg_app Hg Hn Hlink Ht.
  assert (Hk : k = match l2 with [] => -1 | u :: _ => u end) by (destruct l2; [done|apply H2]).
  assert (Hg2 : forall u, u ∈ l2 -> g u = f u).
  { intros u Hu. apply Hg; [set_solver|]. intros Hl. apply NoDup_app in Hn as (_ & Hd & _).
    apply (Hd u); [|done]. symmetry in Hl. apply last_Some in Hl as [l' ->]. set_solver. }
  destruct l1 as [|p l1 _] using rev_ind.
  - cbn in *. subst h'. split; [done|]. rewrite Ht, <- Hk. eapply seg_ext; [|exact H2]. intros u Hu. symmetry. by apply Hg2.
  - rewrite last_snoc in *. destruct Hlink as [-> Hp].
    eapply seg_insert; [exact H1|exact H2|done|congruence| |done].
    intros u Hu. apply Hg; [set_solver|]. intros [= ->].
    apply NoDup_app in Hn as (Hn & _ & _). apply NoDup_app in Hn as (_ & Hd & _). apply (Hd p Hu). set_solver.
Qed.

Lemma insert_by_at f t l1 l2 :
  Forall (fun u => f u <= f t) l1 -> Forall (fun u => f t < f u) l2 -> insert_by f t (l1 ++ l2) = l1 ++ t :: l2.
Proof.
  intros H1 H2. induction H1 as [|u l1 Hu H1 IH]; cbn.
  - destruct l2 as [|u l2]; cbn; [done|]. apply Forall_cons in H2 as [Hu _].
    destruct (Z.ltb_spec (f t) (f u)); [done|lia].
  - destruct (Z.ltb_spec (f t) (f u)); [lia|]. by rewrite IH.
Qed.
