(* ===== verification/Thread.v ===== *)
(** * kernel/thread.c: the thread table

    The state every thread operation shares: the thread table with the fields
    that link its entries into lists, the scheduler's and the sleep queue's
    list heads, the running thread of each processor, the clock device and the
    processor that executes.  [Scheduler.v] and [Sleepq.v] work on the same
    state. *)
From S2P Require Import Prelude Cpu Chain.

Definition CONFIG_MAX_THREADS : Z := 32.
Definition CONFIG_MAX_CPUS : Z := 4.
Definition CONFIG_THREAD_STACKSIZE : Z := 4096.
Definition IDLE_THREAD_TID : Z := 0.
Definition THREAD_PRIORITY_HIGH : Z := 0.
Definition THREAD_PRIORITY_NORMAL : Z := 1.
Definition MIPS_REGISTER_A0 : Z := 3.
Definition MIPS_REGISTER_SP : Z := 26.
Definition MIPS_REGISTER_RA : Z := 28.
Definition sizeof_context_t : Z := 136.
Definition INTERRUPT_MASK_ALL : Z := 0xff00.
Definition INTERRUPT_MASK_MASTER : Z := 1.

(** ** The code *)

Inductive thread_state_t :=
| THREAD_FREE | THREAD_RUNNING | THREAD_READY | THREAD_SLEEPING | THREAD_NONREADY | THREAD_DYING.
#[export] Instance thread_state_eq_dec : EqDecision thread_state_t.
Proof. solve_decision. Defined.

Record context_t := mk_context {
  cpu_regs : list Z;     (** 29 registers *)
  ctx_hi : Z; ctx_lo : Z;
  ctx_pc : Z;
  ctx_status : Z;
  prev_context : Z
}.
(** [thread_table_t]; a pointer is its address, 0 for NULL, and [ctx] is what
    [context] points to. *)
Record thread := mk_thread {
  context : Z; ctx : context_t;
  user_context : Z;
  state : thread_state_t;
  sleeps_on : Z;
  pagetable : Z;
  process_id : Z;
  next : Z;
  next_sleeper_id : Z;
  wakeup_time : Z;
  priority : Z;
  userland_pid : Z
}.
Definition zero_context : context_t := mk_context (replicate 29 0) 0 0 0 0 0.
#[export] Instance thread_inhabited : Inhabited thread :=
  populate (mk_thread 0 zero_context 0 THREAD_FREE 0 0 0 0 0 0 0 0).

Definition set_state (x : thread_state_t) (t : thread) : thread :=
  mk_thread (context t) (ctx t) (user_context t) x (sleeps_on t) (pagetable t) (process_id t) (next t)
    (next_sleeper_id t) (wakeup_time t) (priority t) (userland_pid t).
Definition set_sleeps_on (x : Z) (t : thread) : thread :=
  mk_thread (context t) (ctx t) (user_context t) (state t) x (pagetable t) (process_id t) (next t)
    (next_sleeper_id t) (wakeup_time t) (priority t) (userland_pid t).
Definition set_next (x : Z) (t : thread) : thread :=
  mk_thread (context t) (ctx t) (user_context t) (state t) (sleeps_on t) (pagetable t) (process_id t) x
    (next_sleeper_id t) (wakeup_time t) (priority t) (userland_pid t).
Definition set_next_sleeper_id (x : Z) (t : thread) : thread :=
  mk_thread (context t) (ctx t) (user_context t) (state t) (sleeps_on t) (pagetable t) (process_id t) (next t)
    x (wakeup_time t) (priority t) (userland_pid t).
Definition set_wakeup_time (x : Z) (t : thread) : thread :=
  mk_thread (context t) (ctx t) (user_context t) (state t) (sleeps_on t) (pagetable t) (process_id t) (next t)
    (next_sleeper_id t) x (priority t) (userland_pid t).
Definition set_ctx (x : context_t) (t : thread) : thread :=
  mk_thread (context t) x (user_context t) (state t) (sleeps_on t) (pagetable t) (process_id t) (next t)
    (next_sleeper_id t) (wakeup_time t) (priority t) (userland_pid t).

Record kernel := mk_kernel {
  k_cpu : cpu;
  k_cpuid : Z;                          (** the processor that executes *)
  k_clock : Z;                          (** the clock device, uint32_t *)
  k_timer : Z;                          (** ticks until the timer interrupt *)
  thread_table : list thread;
  thread_next_sleeper_id : Z;
  next_tid_priority : Z;                (** thread_create_with_priority's static next_tid *)
  next_tid : Z;                         (** thread_create's *)
  scheduler_current_thread : list Z;
  ready_head : Z; ready_tail : Z;       (** scheduler_ready_to_run *)
  sleepq_hashtable : list Z
}.
Definition with_threads (x : list thread) (s : kernel) : kernel :=
  mk_kernel (k_cpu s) (k_cpuid s) (k_clock s) (k_timer s) x (thread_next_sleeper_id s) (next_tid_priority s)
    (next_tid s) (scheduler_current_thread s) (ready_head s) (ready_tail s) (sleepq_hashtable s).
Definition with_sleeper (x : Z) (s : kernel) : kernel :=
  mk_kernel (k_cpu s) (k_cpuid s) (k_clock s) (k_timer s) (thread_table s) x (next_tid_priority s)
    (next_tid s) (scheduler_current_thread s) (ready_head s) (ready_tail s) (sleepq_hashtable s).
Definition with_next_tids (x y : Z) (s : kernel) : kernel :=
  mk_kernel (k_cpu s) (k_cpuid s) (k_clock s) (k_timer s) (thread_table s) (thread_next_sleeper_id s) x
    y (scheduler_current_thread s) (ready_head s) (ready_tail s) (sleepq_hashtable s).
Definition with_current (x : list Z) (s : kernel) : kernel :=
  mk_kernel (k_cpu s) (k_cpuid s) (k_clock s) (k_timer s) (thread_table s) (thread_next_sleeper_id s)
    (next_tid_priority s) (next_tid s) x (ready_head s) (ready_tail s) (sleepq_hashtable s).
Definition with_ready (h t : Z) (s : kernel) : kernel :=
  mk_kernel (k_cpu s) (k_cpuid s) (k_clock s) (k_timer s) (thread_table s) (thread_next_sleeper_id s)
    (next_tid_priority s) (next_tid s) (scheduler_current_thread s) h t (sleepq_hashtable s).
Definition with_sleepq (x : list Z) (s : kernel) : kernel :=
  mk_kernel (k_cpu s) (k_cpuid s) (k_clock s) (k_timer s) (thread_table s) (thread_next_sleeper_id s)
    (next_tid_priority s) (next_tid s) (scheduler_current_thread s) (ready_head s) (ready_tail s) x.
Definition with_timer (x : Z) (s : kernel) : kernel :=
  mk_kernel (k_cpu s) (k_cpuid s) (k_clock s) x (thread_table s) (thread_next_sleeper_id s)
    (next_tid_priority s) (next_tid s) (scheduler_current_thread s) (ready_head s) (ready_tail s) (sleepq_hashtable s).
Definition with_kcpu (x : cpu) (s : kernel) : kernel :=
  mk_kernel x (k_cpuid s) (k_clock s) (k_timer s) (thread_table s) (thread_next_sleeper_id s)
    (next_tid_priority s) (next_tid s) (scheduler_current_thread s) (ready_head s) (ready_tail s) (sleepq_hashtable s).
#[export] Instance HasCpu_kernel : HasCpu kernel.
Proof. refine {| cpu_of := k_cpu; with_cpu := with_kcpu |}; by intros; try destruct s. Defined.

(** [thread_table[t]], read and assigned to. *)
Definition get_thread (t : Z) : M kernel thread := fun s =>
  match rget (thread_table s) t with Ret th => Ret (th, s) | Fail f => Fail f end.
Definition upd_thread (t : Z) (f : thread -> thread) : M kernel unit := fun s =>
  th ← rget (thread_table s) t;
  tab ← rset (thread_table s) t (f th);
  Ret (tt, with_threads tab s).

Definition rtc_get_msec : M kernel Z := gets k_clock.

Section thread.
Context `{Symbols} (thread_stack_areas idle_thread_wait_loop thread_finish_addr : Z).

Definition stack_top (i : Z) : Z :=
  u32 (thread_stack_areas + CONFIG_THREAD_STACKSIZE * i + CONFIG_THREAD_STACKSIZE - sizeof_context_t).

Definition init_entry (i : Z) (c : context_t) : thread :=
  mk_thread (stack_top i) c 0 THREAD_FREE 0 0 (-1) (-1) (-1) 0 THREAD_PRIORITY_NORMAL (-1).
(** [ram] is what the contexts' memory holds at boot. *)
Definition thread_table_init (ram : Z -> context_t) : M kernel unit :=
  _ ← spinlock_reset thread_table_slock;
  _ ← modify (with_sleeper (-1));
  _ ← modify (with_threads ((fun i => init_entry i (ram i)) <$> seqZ 0 CONFIG_MAX_THREADS));
  _ ← upd_thread IDLE_THREAD_TID (fun t => set_ctx
        (mk_context (<[Z.to_nat MIPS_REGISTER_SP := u32 (thread_stack_areas + CONFIG_THREAD_STACKSIZE - 4 - sizeof_context_t)]>
                       (cpu_regs (ctx t)))
           (ctx_hi (ctx t)) (ctx_lo (ctx t)) idle_thread_wait_loop
           (Z.lor INTERRUPT_MASK_ALL INTERRUPT_MASK_MASTER) (prev_context (ctx t))) t);
  _ ← upd_thread IDLE_THREAD_TID (set_state THREAD_READY);
  upd_thread IDLE_THREAD_TID (fun t => set_ctx
        (mk_context (cpu_regs (ctx t)) (ctx_hi (ctx t)) (ctx_lo (ctx t)) (ctx_pc (ctx t)) (ctx_status (ctx t)) (context t)) t).

(** The search for a free entry, from [next] on; [n] entries are left. *)
Fixpoint find_free (n : nat) (i next : Z) : M kernel Z :=
  match n with
  | O => mret (-1)
  | S n =>
      let t := (i + next) mod CONFIG_MAX_THREADS in
      if t =? IDLE_THREAD_TID then find_free n (i + 1) next else
      th ← get_thread t;
      if decide (state th = THREAD_FREE) then mret t else find_free n (i + 1) next
  end.

(** The entry of a new thread, and its context: all registers cleared, then the
    stack, entry point, return address and argument. *)
Definition new_context (tid func arg : Z) : context_t :=
  let sp := u32 (thread_stack_areas + CONFIG_THREAD_STACKSIZE * tid + CONFIG_THREAD_STACKSIZE - 4 - sizeof_context_t) in
  mk_context
    (<[Z.to_nat MIPS_REGISTER_SP := u32 (sp - 4)]>
      (<[Z.to_nat MIPS_REGISTER_A0 := arg]> (<[Z.to_nat MIPS_REGISTER_RA := thread_finish_addr]> (replicate 29 0))))
    0 0 func (Z.lor INTERRUPT_MASK_ALL INTERRUPT_MASK_MASTER) (stack_top tid).
Definition new_entry (tid func arg p : Z) (t : thread) : thread :=
  mk_thread (stack_top tid) (new_context tid func arg) 0 (state t) 0 0 (-1) (-1)
    (next_sleeper_id t) (wakeup_time t) p (userland_pid t).

Definition thread_create_with_priority (func arg p : Z) : M kernel Z :=
  tid ← critical thread_table_slock (
    start ← gets next_tid_priority;
    tid ← find_free (Z.to_nat CONFIG_MAX_THREADS) 0 start;
    if tid <? 0 then mret tid else
    _ ← modify (fun s => with_next_tids ((tid + 1) mod CONFIG_MAX_THREADS) (next_tid s) s);
    _ ← upd_thread tid (set_state THREAD_NONREADY);
    mret tid);
  if tid <? 0 then mret tid else
  _ ← kassert ((p =? THREAD_PRIORITY_HIGH) || (p =? THREAD_PRIORITY_NORMAL));
  _ ← upd_thread tid (new_entry tid func arg p);
  mret tid.

Definition thread_create (func arg : Z) : M kernel Z :=
  tid ← critical thread_table_slock (
    start ← gets next_tid;
    tid ← find_free (Z.to_nat CONFIG_MAX_THREADS) 0 start;
    if tid <? 0 then mret tid else
    _ ← modify (fun s => with_next_tids (next_tid_priority s) ((tid + 1) mod CONFIG_MAX_THREADS) s);
    _ ← upd_thread tid (set_state THREAD_NONREADY);
    mret tid);
  if tid <? 0 then mret tid else
  _ ← upd_thread tid (new_entry tid func arg THREAD_PRIORITY_NORMAL);
  mret tid.

Definition thread_get_current_thread : M kernel Z :=
  st ← interrupt_disable;
  t ← (fun s => match rget (scheduler_current_thread s) (k_cpuid s) with Ret t => Ret (t, s) | Fail f => Fail f end);
  _ ← interrupt_set_state st;
  mret t.
Definition thread_get_current_thread_entry : M kernel thread :=
  t ← thread_get_current_thread;
  get_thread t.

(** [thread_finish] up to the context switch it does not return from. *)
Definition thread_finish : M kernel unit :=
  my_tid ← thread_get_current_thread;
  _ ← interrupt_disable;
  th ← get_thread my_tid;
  _ ← kassert (pagetable th =? 0);
  _ ← spinlock_acquire thread_table_slock;
  _ ← upd_thread my_tid (set_state THREAD_DYING);
  _ ← spinlock_release thread_table_slock;
  _ ← interrupt_enable;
  mret tt.

(** The search of [thread_sleep]: the cell where it stops, the one before it
    (-1 if none), and whether it stopped behind the tail. *)
Fixpoint find_sleeper (fuel : nat) (wakeup it prev : Z) : M kernel (Z * Z * bool) :=
  match fuel with
  | O => fail Timeout
  | S fuel =>
      th ← get_thread it;
      if wakeup <? wakeup_time th then mret (it, prev, false)
      else if next_sleeper_id th =? -1 then mret (it, prev, true)
      else find_sleeper fuel wakeup (next_sleeper_id th) it
  end.
(** [thread_sleep] up to the context switch; it answers the interrupt state to
    restore when the thread runs again. *)
Definition thread_sleep (sleep_time_in_milliseconds : Z) : M kernel Z :=
  now ← rtc_get_msec;
  let wakeup := u32 (now + sleep_time_in_milliseconds) in
  my_tid ← thread_get_current_thread;
  prev_int_stat ← interrupt_disable;
  _ ← spinlock_acquire thread_table_slock;
  _ ← upd_thread my_tid (set_wakeup_time wakeup);
  top ← gets thread_next_sleeper_id;
  _ ← (if top =? -1 then
         _ ← modify (with_sleeper my_tid);
         upd_thread my_tid (set_next_sleeper_id (-1))
       else
         '(it, prev, is_tail) ← find_sleeper (Z.to_nat CONFIG_MAX_THREADS) wakeup top (-1);
         if is_tail : bool then
           _ ← upd_thread it (set_next_sleeper_id my_tid);
           upd_thread my_tid (set_next_sleeper_id (-1))
         else if prev =? -1 then
           _ ← upd_thread my_tid (set_next_sleeper_id top);
           modify (with_sleeper my_tid)
         else
           _ ← upd_thread my_tid (set_next_sleeper_id it);
           upd_thread prev (set_next_sleeper_id my_tid));
  _ ← spinlock_release thread_table_slock;
  mret prev_int_stat.
End thread.

(** ** Facts *)

(** The thread table as a function, and an entry replaced. *)
Definition thr (s : kernel) (t : Z) : thread := thread_table s !!! Z.to_nat t.
Definition upd (s : kernel) (t : Z) (f : thread -> thread) : kernel :=
  with_threads (<[Z.to_nat t := f (thr s t)]> (thread_table s)) s.
Definition table_ok (s : kernel) : Prop := zlen (thread_table s) = CONFIG_MAX_THREADS.
Definition is_tid (t : Z) : Prop := 0 <= t < CONFIG_MAX_THREADS.

Lemma get_thread_run s t : table_ok s -> is_tid t -> get_thread t s = Ret (thr s t, s).
Proof.
  unfold table_ok, is_tid, get_thread, thr. intros Hs Ht.
  destruct (rget_in (thread_table s) t) as (th & -> & Hth); [lia|].
  by rewrite (list_lookup_total_correct _ _ _ Hth).
Qed.

Lemma upd_thread_run s t f : table_ok s -> is_tid t -> upd_thread t f s = Ret (tt, upd s t f).
Proof.
  unfold table_ok, is_tid, upd_thread, upd, thr. intros Hs Ht.
  destruct (rget_in (thread_table s) t) as (th & -> & Hth); [lia|]. cbn.
  rewrite rset_in by lia. cbn. by rewrite (list_lookup_total_correct _ _ _ Hth).
Qed.

Lemma wp_get_thread s t (Q : thread -> kernel -> Prop) :
  table_ok s -> is_tid t -> Q (thr s t) s -> wp (get_thread t) Q s.
Proof. intros. eapply wp_eq; [by apply get_thread_run|done]. Qed.

Lemma wp_upd_thread s t f (Q : unit -> kernel -> Prop) :
  table_ok s -> is_tid t -> Q tt (upd s t f) -> wp (upd_thread t f) Q s.
Proof. intros. eapply wp_eq; [by apply upd_thread_run|done]. Qed.

Lemma upd_table_ok s t f : table_ok s -> table_ok (upd s t f).
Proof. unfold table_ok, upd. cbn. by rewrite length_insert. Qed.

Lemma thr_upd s t f u :
  table_ok s -> is_tid t -> 0 <= u -> thr (upd s t f) u = if u =? t then f (thr s t) else thr s u.
Proof.
  unfold table_ok, is_tid, upd, thr. cbn. intros Hs Ht Hu. destruct (Z.eqb_spec u t) as [->|Hne].
  - apply list_lookup_total_insert_eq. lia.
  - apply list_lookup_total_insert_ne. lia.
Qed.

Lemma thr_upd_eq s t f : table_ok s -> is_tid t -> thr (upd s t f) t = f (thr s t).
Proof. intros Hs Ht. rewrite thr_upd by (done || apply Ht). by rewrite Z.eqb_refl. Qed.
Lemma thr_upd_ne s t f u : table_ok s -> is_tid t -> 0 <= u -> u <> t -> thr (upd s t f) u = thr s u.
Proof. intros. rewrite thr_upd by done. by rewrite (proj2 (Z.eqb_neq u t)). Qed.

#[export] Hint Resolve upd_table_ok wp_ret : buenos.

(** What an operation on the thread table leaves alone. *)
Definition same_devices (s s' : kernel) : Prop :=
  k_cpu s' = k_cpu s /\ k_cpuid s' = k_cpuid s /\ k_clock s' = k_clock s /\
  scheduler_current_thread s' = scheduler_current_thread s.

Section thread_facts.
Context `{Symbols} (stacks idle_loop finish : Z).

Lemma find_free_run n i nx s :
  table_ok s ->
  wp (find_free n i nx) (fun t s' => s' = s /\
    ((t = -1 /\ forall j, i <= j < i + Z.of_nat n ->
        (j + nx) mod CONFIG_MAX_THREADS <> 0 -> state (thr s ((j + nx) mod CONFIG_MAX_THREADS)) <> THREAD_FREE) \/
     (0 < t < CONFIG_MAX_THREADS /\ state (thr s t) = THREAD_FREE))) s.
Proof.
  intros Hs. revert i. induction n as [|n IH]; intros i; cbn [find_free].
  { apply wp_ret. split; [done|]. left. split; [done|]. lia. }
  pose proof (Z.mod_pos_bound (i + nx) CONFIG_MAX_THREADS ltac:(done)) as Hm.
  set (t := (i + nx) mod CONFIG_MAX_THREADS) in *.
  assert (Hnext : (t <> 0 -> state (thr s t) <> THREAD_FREE) ->
    wp (find_free n (i + 1) nx) (fun t0 s' => s' = s /\
      ((t0 = -1 /\ forall j, i <= j < i + Z.of_nat (S n) ->
        (j + nx) mod CONFIG_MAX_THREADS <> 0 -> state (thr s ((j + nx) mod CONFIG_MAX_THREADS)) <> THREAD_FREE) \/
       (0 < t0 < CONFIG_MAX_THREADS /\ state (thr s t0) = THREAD_FREE))) s).
  { intros Ht. eapply wp_mono; [apply IH|]. intros t0 s' (-> & [(-> & Hall)|H']); split; auto.
    left. split; [done|]. intros j Hj. destruct (decide (j = i)) as [->|]; [exact Ht|]. apply Hall. lia. }
  destruct (Z.eqb_spec t IDLE_THREAD_TID) as [E|E]; [apply Hnext; unfold IDLE_THREAD_TID in E; lia|].
  apply wp_bind, wp_get_thread; [done|exact Hm|].
  case_decide as D; [|by apply Hnext]. apply wp_ret. split; [done|]. right. unfold IDLE_THREAD_TID in E. split; [lia|done].
Qed.

(** Every entry but the idle thread's is looked at. *)
Lemma all_residues nx t :
  0 < t < CONFIG_MAX_THREADS -> exists j, 0 <= j < 32 /\ (j + nx) mod CONFIG_MAX_THREADS = t.
Proof.
  intros Ht. exists ((t - nx) mod CONFIG_MAX_THREADS). split; [by apply Z.mod_pos_bound|].
  rewrite Z.add_mod_idemp_l by done. replace (t - nx + nx) with t by lia. by apply Z.mod_small; lia.
Qed.

(** A created thread: the entry was free; it is initialised, and no other
    entry, list or device changes. *)
Definition created (s s' : kernel) (tid func arg p : Z) : Prop :=
  0 < tid < CONFIG_MAX_THREADS /\ state (thr s tid) = THREAD_FREE /\
  thr s' tid = new_entry stacks finish tid func arg p (set_state THREAD_NONREADY (thr s tid)) /\
  (forall u, 0 <= u -> u <> tid -> thr s' u = thr s u) /\ table_ok s' /\ same_devices s s' /\
  thread_next_sleeper_id s' = thread_next_sleeper_id s /\
  ready_head s' = ready_head s /\ ready_tail s' = ready_tail s /\ sleepq_hashtable s' = sleepq_hashtable s.
Definition no_free_thread (s : kernel) : Prop :=
  forall t, 0 < t < CONFIG_MAX_THREADS -> state (thr s t) <> THREAD_FREE.

(** The search and reservation shared by the two creation functions; [nexts]
    is the assignment to the static [next_tid]. *)
Lemma reserve_run s (start : kernel -> Z) (nexts : Z -> kernel -> kernel) :
  table_ok s -> cpu_ready thread_table_slock (k_cpu s) ->
  (forall x u, exists a b, nexts x u = with_next_tids a b u) ->
  wp (critical thread_table_slock (
    st ← gets start;
    tid ← find_free (Z.to_nat CONFIG_MAX_THREADS) 0 st;
    if tid <? 0 then mret tid else
    _ ← modify (nexts ((tid + 1) mod CONFIG_MAX_THREADS));
    _ ← upd_thread tid (set_state THREAD_NONREADY);
    mret tid))
  (fun tid s' => (tid = -1 /\ s' = s /\ no_free_thread s) \/
     (0 < tid < CONFIG_MAX_THREADS /\ state (thr s tid) = THREAD_FREE /\
        exists a b, s' = with_next_tids a b (upd s tid (set_state THREAD_NONREADY)))) s.
Proof.
  intros Hs [Hst Hl] Hn. apply wp_critical; [exact Hst|exact Hl|].
  apply wp_bind, wp_gets, wp_bind. eapply wp_mono; [by apply find_free_run|].
  intros t s1 (-> & [(-> & Hall)|(Ht & Hfree)]).
  - apply wp_ret. split; [done|]. left. split_and!; [done|by destruct s|].
    intros t Ht. destruct (all_residues (start (with_cpu (inside thread_table_slock s) s)) t Ht) as (j & Hj & Hjt).
    specialize (Hall j ltac:(change (Z.of_nat (Z.to_nat CONFIG_MAX_THREADS)) with 32; lia)). rewrite Hjt in Hall. apply Hall. lia.
  - destruct (Z.ltb_spec t 0); [lia|]. apply wp_bind, wp_modify.
    destruct (Hn ((t + 1) mod CONFIG_MAX_THREADS) (with_cpu (inside thread_table_slock s) s)) as (a & b & ->).
    apply wp_bind, wp_upd_thread; [exact Hs|unfold is_tid; lia|]. apply wp_ret. split; [done|].
    right. split_and!; [lia|lia|done|]. exists a, b. by destruct s.
Qed.

Lemma initialise_run s tid f a b :
  table_ok s -> 0 < tid < CONFIG_MAX_THREADS ->
  wp (upd_thread tid f) (fun _ s' =>
    thr s' tid = f (set_state THREAD_NONREADY (thr s tid)) /\
    (forall u, 0 <= u -> u <> tid -> thr s' u = thr s u) /\ table_ok s' /\ same_devices s s' /\
    thread_next_sleeper_id s' = thread_next_sleeper_id s /\
    ready_head s' = ready_head s /\ ready_tail s' = ready_tail s /\ sleepq_hashtable s' = sleepq_hashtable s)
    (with_next_tids a b (upd s tid (set_state THREAD_NONREADY))).
Proof.
  intros Hs Ht. assert (Hid : is_tid tid) by (unfold is_tid; lia).
  pose proof (upd_table_ok s tid (set_state THREAD_NONREADY) Hs) as Hs1.
  apply wp_upd_thread; [exact Hs1|done|].
  set (s1 := upd s tid (set_state THREAD_NONREADY)) in *.
  split_and!; [| |by apply (upd_table_ok s1)|done..].
  - change (thr (upd s1 tid f) tid = f (set_state THREAD_NONREADY (thr s tid))).
    rewrite thr_upd_eq by done. subst s1. by rewrite thr_upd_eq.
  - intros u Hu Hne. change (thr (upd s1 tid f) u = thr s u).
    rewrite thr_upd_ne by done. subst s1. by apply thr_upd_ne.
Qed.

Lemma thread_create_run s func arg :
  table_ok s -> cpu_ready thread_table_slock (k_cpu s) ->
  wp (thread_create stacks finish func arg) (fun tid s' =>
    (tid = -1 /\ s' = s /\ no_free_thread s) \/ created s s' tid func arg THREAD_PRIORITY_NORMAL) s.
Proof.
  intros Hs Hc. unfold thread_create. apply wp_bind. eapply wp_mono.
  { apply (reserve_run s next_tid (fun x u => with_next_tids (next_tid_priority u) x u) Hs Hc).
    intros x u. by do 2 eexists. }
  intros tid s1 [(-> & -> & Hf)|(Ht & Hfree & a & b & ->)]; [apply wp_ret; by left|].
  destruct (Z.ltb_spec tid 0); [lia|]. apply wp_bind.
  eapply wp_mono; [by apply initialise_run|]. intros u s' H'. cbn beta in H'. apply wp_ret. right. by repeat (split; [done|]).
Qed.

Lemma thread_create_with_priority_run s func arg p :
  table_ok s -> cpu_ready thread_table_slock (k_cpu s) -> p = THREAD_PRIORITY_HIGH \/ p = THREAD_PRIORITY_NORMAL ->
  wp (thread_create_with_priority stacks finish func arg p) (fun tid s' =>
    (tid = -1 /\ s' = s /\ no_free_thread s) \/ created s s' tid func arg p) s.
Proof.
  intros Hs Hc Hp. unfold thread_create_with_priority. apply wp_bind. eapply wp_mono.
  { apply (reserve_run s next_tid_priority (fun x u => with_next_tids x (next_tid u) u) Hs Hc).
    intros x u. by do 2 eexists. }
  intros tid s1 [(-> & -> & Hf)|(Ht & Hfree & a & b & ->)]; [apply wp_ret; by left|].
  destruct (Z.ltb_spec tid 0); [lia|]. apply wp_bind, wp_kassert; [by destruct Hp; subst|]. apply wp_bind.
  eapply wp_mono; [by apply initialise_run|]. intros u s' H'. cbn beta in H'. apply wp_ret. right. by repeat (split; [done|]).
Qed.
End thread_facts.

(** ** Timed sleepers *)

Record sleepers (s : kernel) (l : list Z) : Prop := {
  sl_chain : chain (fun t => next_sleeper_id (thr s t)) (thread_next_sleeper_id s) l;
  sl_tids : Forall (fun t => 0 < t < CONFIG_MAX_THREADS) l;
  sl_nodup : NoDup l;
  sl_sorted : sorted_by (fun t => wakeup_time (thr s t)) l
}.

(** The list depends on the thread table and its head only. *)
Lemma sleepers_same s s' l :
  thread_table s' = thread_table s -> thread_next_sleeper_id s' = thread_next_sleeper_id s ->
  sleepers s l -> sleepers s' l.
Proof. unfold thr. intros Ht Hn [Hc Htids Hd Hs]. split; unfold thr in *; rewrite ?Ht, ?Hn; done. Qed.

(** The thread that runs on the executing processor. *)
Definition running (s : kernel) (t : Z) : Prop :=
  rget (scheduler_current_thread s) (k_cpuid s) = Ret t.

Lemma wp_current s t (Q : Z -> kernel -> Prop) :
  running s t -> is_u32 (status (k_cpu s)) -> Q t s -> wp thread_get_current_thread Q s.
Proof.
  intros Hr Hst HQ. unfold thread_get_current_thread.
  apply wp_bind, wp_disable, wp_bind. unfold wp at 1. cbn [scheduler_current_thread with_cpu HasCpu_kernel with_kcpu k_cpuid].
  rewrite Hr. apply wp_bind, wp_restore; [exact Hst|done|]. intros _. apply wp_ret.
  destruct s as [[st hl] ? ? ? ? ? ? ? ? ? ? ?]. exact HQ.
Qed.

Section sleep.
Context `{Symbols}.

(** The walk stops in front of the first sleeper that wakes later, or behind
    the tail; the table's size is enough fuel. *)
Lemma find_sleeper_run fuel w it s l1 l2 :
  table_ok s -> chain (fun t => next_sleeper_id (thr s t)) it (it :: l2) ->
  Forall (fun t => 0 < t < CONFIG_MAX_THREADS) (it :: l2) ->
  sorted_by (fun t => wakeup_time (thr s t)) (it :: l2) ->
  Forall (fun t => wakeup_time (thr s t) <= w) l1 ->
  (length (it :: l2) <= fuel)%nat ->
  wp (find_sleeper fuel w it (default (-1) (last l1))) (fun r s' => s' = s /\
    exists a b, l1 ++ it :: l2 = a ++ b /\
      Forall (fun t => wakeup_time (thr s t) <= w) a /\ Forall (fun t => w < wakeup_time (thr s t)) b /\
      match r with
      | (x, _, true) => b = [] /\ last a = Some x
      | (x, p, false) => head b = Some x /\ p = default (-1) (last a)
      end) s.
Proof.
  intros Hs. revert it l1 fuel. induction l2 as [|u l2 IH]; intros it l1 fuel Hc Ht Hsort H1 Hf;
    (destruct fuel as [|fuel]; [cbn in Hf; lia|]); cbn [find_sleeper];
    pose proof Ht as [Hit Ht']%Forall_cons;
    (apply wp_bind, wp_get_thread; [done|unfold is_tid; lia|]).
  - destruct Hc as [_ Hn]. cbn in Hn. rewrite Hn. destruct (Z.ltb_spec w (wakeup_time (thr s it))) as [Hlt|Hge].
    + apply wp_ret. split; [done|]. exists l1, [it]. split_and!; try done. by constructor.
    + apply wp_ret. split; [done|]. exists (l1 ++ [it]), [].
      rewrite app_nil_r, last_snoc. split_and!; try done. apply Forall_app. split; [done|by constructor].
  - destruct Hc as [_ Hn]. cbn in Hn. destruct Hn as [Hn Hc]. cbn in Hsort. destruct Hsort as [Hle Hsort].
    destruct (Z.ltb_spec w (wakeup_time (thr s it))) as [Hlt|Hge].
    + apply wp_ret. split; [done|]. exists l1, (it :: u :: l2). split_and!; try done.
      constructor; [done|]. eapply Forall_impl; [exact Hle|]. cbn. lia.
    + apply Forall_cons in Ht' as [Hu Ht'']. rewrite Hn, (proj2 (Z.eqb_neq u (-1))) by lia.
      specialize (IH u (l1 ++ [it]) fuel). rewrite last_snoc in IH. cbn [default] in IH.
      replace (l1 ++ it :: u :: l2) with ((l1 ++ [it]) ++ u :: l2) by (by rewrite <- app_assoc).
      apply IH; [split; [done|exact Hc]|by constructor|done| |cbn in *; lia].
      apply Forall_app. split; [done|by constructor].
Qed.

(** Linking thread [t] into the list between [l1] and [l2]: [g] gives the link
    fields afterwards. *)
Lemma sleepers_insert s s' l1 l2 t g :
  sleepers s (l1 ++ l2) -> 0 < t < CONFIG_MAX_THREADS -> t ∉ l1 ++ l2 ->
  (forall u, 0 <= u -> thr s' u = set_next_sleeper_id (g u) (thr s u)) ->
  (forall u, u <> t -> Some u <> last l1 -> g u = next_sleeper_id (thr s u)) ->
  match last l1 with
  | Some p => thread_next_sleeper_id s' = thread_next_sleeper_id s /\ g p = t
  | None => thread_next_sleeper_id s' = t
  end ->
  g t = default (-1) (head l2) ->
  Forall (fun u => wakeup_time (thr s u) <= wakeup_time (thr s t)) l1 ->
  Forall (fun u => wakeup_time (thr s t) < wakeup_time (thr s u)) l2 ->
  sleepers s' (insert_by (fun u => wakeup_time (thr s' u)) t (l1 ++ l2)).
Proof.
  intros [Hc Htids Hn Hs] Ht Hnin Hthr Hg Hlink Htn H1 H2.
  assert (Hpos : forall u, u ∈ l1 ++ l2 -> 0 <= u).
  { intros u Hu. rewrite Forall_forall in Htids. specialize (Htids u Hu). lia. }
  assert (Hw : forall u, u ∈ t :: l1 ++ l2 -> wakeup_time (thr s u) = wakeup_time (thr s' u)).
  { intros u [->|Hu]%elem_of_cons; rewrite Hthr; [done|lia|done|by apply Hpos]. }
  rewrite <- (insert_by_ext (fun u => wakeup_time (thr s u))) by done. split.
  - rewrite insert_by_at by done. apply (chain_link (fun u => next_sleeper_id (thr s u)) _ (thread_next_sleeper_id s)); try done.
    + intros u Hu Hl. rewrite Hthr by auto. cbn. apply Hg; [|done]. by intros ->.
    + destruct (last l1) as [q|] eqn:E; [|done]. destruct Hlink as [Hh Hq]. split; [done|].
      rewrite Hthr; [done|]. apply Hpos. apply last_Some in E as [l' ->]. set_solver.
    + rewrite Hthr by lia. cbn. rewrite Htn. by destruct l2.
  - rewrite insert_by_perm. by constructor.
  - rewrite insert_by_perm. by constructor.
  - eapply sorted_by_ext; [|by apply insert_by_sorted]. intros u Hu%insert_by_elem. apply Hw.
    destruct Hu; [subst; by left|by right].
Qed.
End sleep.

Section sleep_theorem.
Context `{Symbols}.

(** The thread table entries after [thread_sleep]: only the sleeper links and
    the caller's wake-up time have changed. *)
Definition same_but_sleep (a b : thread) (self : bool) : Prop :=
  state b = state a /\ sleeps_on b = sleeps_on a /\ next b = next a /\ priority b = priority a /\
  pagetable b = pagetable a /\ (self = false -> wakeup_time b = wakeup_time a).

(** The linking steps of [thread_sleep], from the state in which the caller's
    wake-up time is set. *)
Lemma sleep_link_run s t l :
  table_ok s -> sleepers s l -> 0 < t < CONFIG_MAX_THREADS -> t ∉ l ->
  wp (if thread_next_sleeper_id s =? -1 then
         _ ← modify (with_sleeper t);
         upd_thread t (set_next_sleeper_id (-1))
       else
         '(it, prev, is_tail) ← find_sleeper (Z.to_nat CONFIG_MAX_THREADS) (wakeup_time (thr s t)) (thread_next_sleeper_id s) (-1);
         if is_tail : bool then
           _ ← upd_thread it (set_next_sleeper_id t);
           upd_thread t (set_next_sleeper_id (-1))
         else if prev =? -1 then
           _ ← upd_thread t (set_next_sleeper_id (thread_next_sleeper_id s));
           modify (with_sleeper t)
         else
           _ ← upd_thread t (set_next_sleeper_id it);
           upd_thread prev (set_next_sleeper_id t))
    (fun _ s' => table_ok s' /\ k_cpu s' = k_cpu s /\
       sleepers s' (insert_by (fun u => wakeup_time (thr s' u)) t l) /\
       forall u, 0 <= u -> exists n, thr s' u = set_next_sleeper_id n (thr s u)) s.
Proof.
  intros Hs Hsl Ht Hnin. pose proof Hsl as [Hc Htids Hn Hsort].
  assert (Hid : is_tid t) by (unfold is_tid; lia).
  assert (Hkeep : forall x, set_next_sleeper_id (next_sleeper_id x) x = x) by (by intros []).
  rewrite (chain_head _ _ _ Hc) by (eapply Forall_impl; [exact Htids|cbn; lia]).
  destruct l as [|it l2].
  - change (default (-1) (head [])) with (-1). rewrite Z.eqb_refl. apply wp_bind, wp_modify, wp_upd_thread; [exact Hs|done|].
    assert (Hthr : forall u, 0 <= u -> thr (upd (with_sleeper t s) t (set_next_sleeper_id (-1))) u =
      set_next_sleeper_id (if u =? t then -1 else next_sleeper_id (thr s u)) (thr s u)).
    { intros u Hu. rewrite thr_upd by done. destruct (Z.eqb_spec u t) as [->|]; [done|]. by rewrite Hkeep. }
    split; [by apply (upd_table_ok (with_sleeper t s))|]. split; [done|]. split; [|intros u Hu; eexists; by apply Hthr].
    apply (sleepers_insert s _ [] [] t _ Hsl Ht Hnin Hthr); try done; [|cbn; by rewrite Z.eqb_refl].
    intros u Hu _. by rewrite (proj2 (Z.eqb_neq u t)).
  - change (default (-1) (head (it :: l2))) with it.
    pose proof Htids as [Hit Htids2]%Forall_cons. rewrite (proj2 (Z.eqb_neq it (-1))) by lia.
    apply wp_bind. eapply wp_mono.
    { apply (find_sleeper_run (Z.to_nat CONFIG_MAX_THREADS) (wakeup_time (thr s t)) it s [] l2); try done.
      - destruct Hc as [_ Hc]. by split.
      - pose proof (nodup_length _ CONFIG_MAX_THREADS ltac:(done) Hn Htids). lia. }
    intros [[x p] tail] s' (-> & a & b & Hab & Ha & Hb & Hres). cbn [app] in Hab. rewrite Hab in *.
    assert (Hlast : forall q, last a = Some q -> q ∈ a ++ b /\ is_tid q /\ q <> t).
    { intros q Hq. assert (Hin : q ∈ a ++ b) by (apply last_Some in Hq as [a' ->]; set_solver).
      split; [done|]. rewrite Forall_forall in Htids. specialize (Htids q Hin). split; [unfold is_tid; lia|].
      by intros ->. }
    destruct tail.
    + destruct Hres as [-> Hx]. destruct (Hlast x Hx) as (Hin & Hxid & Hxt).
      apply wp_bind, wp_upd_thread; [exact Hs|done|]. pose proof (upd_table_ok s x (set_next_sleeper_id t) Hs) as Hs1.
      apply wp_upd_thread; [exact Hs1|done|].
      assert (Hthr : forall u, 0 <= u -> thr (upd (upd s x (set_next_sleeper_id t)) t (set_next_sleeper_id (-1))) u =
        set_next_sleeper_id (if u =? t then -1 else if u =? x then t else next_sleeper_id (thr s u)) (thr s u)).
      { intros u Hu. rewrite (thr_upd _ t), !(thr_upd s) by (done || lia).
        destruct (Z.eqb_spec u t) as [->|]; [by rewrite (proj2 (Z.eqb_neq t x))|].
        destruct (Z.eqb_spec u x) as [->|]; [done|]. by rewrite Hkeep. }
      split; [by apply upd_table_ok|]. split; [done|]. split; [|intros u Hu; eexists; by apply Hthr].
      apply (sleepers_insert s _ a [] t _ Hsl Ht Hnin Hthr); try done.
      * intros u Hu Hl. rewrite Hx in Hl. rewrite (proj2 (Z.eqb_neq u t)) by done.
        destruct (Z.eqb_spec u x) as [->|]; [by destruct Hl|done].
      * rewrite Hx. split; [done|]. rewrite (proj2 (Z.eqb_neq x t)) by done. by rewrite Z.eqb_refl.
      * by rewrite Z.eqb_refl.
    + destruct Hres as [Hx ->]. destruct (last a) as [q|] eqn:Eq.
      * destruct (Hlast q eq_refl) as (Hin & Hqid & Hqt). change (default (-1) (Some q)) with q.
        assert (0 < q) by (rewrite Forall_forall in Htids; specialize (Htids q Hin); lia).
        rewrite (proj2 (Z.eqb_neq q (-1))) by lia.
        apply wp_bind, wp_upd_thread; [exact Hs|done|]. pose proof (upd_table_ok s t (set_next_sleeper_id x) Hs) as Hs1.
        apply wp_upd_thread; [exact Hs1|done|].
        assert (Hthr : forall u, 0 <= u -> thr (upd (upd s t (set_next_sleeper_id x)) q (set_next_sleeper_id t)) u =
          set_next_sleeper_id (if u =? t then x else if u =? q then t else next_sleeper_id (thr s u)) (thr s u)).
        { intros u Hu. rewrite (thr_upd _ q), !(thr_upd s) by (done || unfold is_tid in *; lia).
          destruct (Z.eqb_spec u q) as [->|]; [by rewrite (proj2 (Z.eqb_neq q t))|].
          destruct (Z.eqb_spec u t) as [->|]; [done|]. by rewrite Hkeep. }
        split; [by apply upd_table_ok|]. split; [done|]. split; [|intros u Hu; eexists; by apply Hthr].
        apply (sleepers_insert s _ a b t _ Hsl Ht Hnin Hthr); try done.
        -- intros u Hu Hl. rewrite Eq in Hl. rewrite (proj2 (Z.eqb_neq u t)) by done.
           destruct (Z.eqb_spec u q) as [->|]; [by destruct Hl|done].
        -- rewrite Eq. split; [done|]. rewrite (proj2 (Z.eqb_neq q t)) by done. by rewrite Z.eqb_refl.
        -- rewrite Z.eqb_refl, Hx. done.
      * apply last_None in Eq as ->. cbn [app] in *. subst b. injection Hx as ->. cbn [default from_option].
        apply wp_bind, wp_upd_thread; [exact Hs|done|]. apply wp_modify.
        assert (Hthr : forall u, 0 <= u -> thr (with_sleeper t (upd s t (set_next_sleeper_id x))) u =
          set_next_sleeper_id (if u =? t then x else next_sleeper_id (thr s u)) (thr s u)).
        { intros u Hu. change (thr (upd s t (set_next_sleeper_id x)) u = set_next_sleeper_id (if u =? t then x else next_sleeper_id (thr s u)) (thr s u)).
          rewrite thr_upd by done. destruct (Z.eqb_spec u t) as [->|]; [done|]. by rewrite Hkeep. }
        split; [by apply (upd_table_ok s)|]. split; [done|]. split; [|intros u Hu; eexists; by apply Hthr].
        apply (sleepers_insert s _ [] (x :: l2) t _ Hsl Ht Hnin Hthr); try done.
        -- intros u Hu _. by rewrite (proj2 (Z.eqb_neq u t)).
        -- by rewrite Z.eqb_refl.
Qed.

Lemma thread_sleep_run s ms t l :
  table_ok s -> sleepers s l -> running s t -> 0 < t < CONFIG_MAX_THREADS -> t ∉ l ->
  cpu_ready thread_table_slock (k_cpu s) ->
  wp (thread_sleep ms) (fun st s' =>
    st = status (k_cpu s) /\
    k_cpu s' = mk_cpu (Z.land 0xffff00fe (status (k_cpu s))) (held (k_cpu s)) /\ table_ok s' /\
    wakeup_time (thr s' t) = u32 (k_clock s + ms) /\
    sleepers s' (insert_by (fun u => wakeup_time (thr s' u)) t l) /\
    forall u, 0 <= u -> same_but_sleep (thr s u) (thr s' u) (u =? t)) s.
Proof.
  intros Hs Hsl Hrun Ht Hnin [Hst Hl]. assert (Hid : is_tid t) by (unfold is_tid; lia).
  unfold thread_sleep. apply wp_bind, wp_gets. cbv zeta. set (w := u32 (k_clock s + ms)).
  apply wp_bind, (wp_current s t); [done|done|]. apply wp_bind, wp_disable, wp_bind, wp_acquire; [exact Hl|].
  set (s0 := with_cpu _ (with_cpu _ s)). assert (Hs0 : table_ok s0) by exact Hs.
  apply wp_bind, wp_upd_thread; [done|done|]. set (s1 := upd s0 t (set_wakeup_time w)).
  assert (Hs1 : table_ok s1) by (by apply upd_table_ok).
  assert (Hthr1 : forall u, 0 <= u -> thr s1 u = if u =? t then set_wakeup_time w (thr s t) else thr s u).
  { intros u Hu. subst s1. by rewrite thr_upd. }
  assert (Hsl1 : sleepers s1 l).
  { pose proof Hsl as [Hc Htids Hn Hsort].
    assert (Hsame : forall u, u ∈ l -> thr s u = thr s1 u).
    { intros u Hu. rewrite Forall_forall in Htids. specialize (Htids u Hu). rewrite Hthr1 by lia.
      destruct (Z.eqb_spec u t) as [->|]; done. }
    split; [|done|done|].
    - eapply seg_ext; [|exact Hc]. intros u Hu. cbn. by rewrite Hsame.
    - eapply sorted_by_ext; [|exact Hsort]. intros u Hu. cbn. by rewrite Hsame. }
  assert (Hself : wakeup_time (thr s1 t) = w).
  { rewrite Hthr1 by lia. by rewrite Z.eqb_refl. }
  apply wp_bind, wp_gets, wp_bind. rewrite <- Hself.
  eapply wp_mono; [by apply sleep_link_run|].
  intros _ s2 (Hs2 & Hcpu & Hsl2 & Hother). apply wp_bind, wp_release, wp_ret.
  split; [done|]. split; [cbn; rewrite Hcpu; subst s1 s0; cbn; by rewrite held_release|].
  split; [exact Hs2|]. destruct (Hother t ltac:(lia)) as [n Hn]. split.
  { change (wakeup_time (thr s2 t) = wakeup_time (thr s1 t)). by rewrite Hn. }
  split; [by eapply sleepers_same; [..|exact Hsl2]|].
  intros u Hu. change (same_but_sleep (thr s u) (thr s2 u) (u =? t)).
  destruct (Hother u Hu) as [m ->]. rewrite Hthr1 by done. destruct (Z.eqb_spec u t) as [->|]; by split_and!.
Qed.
End sleep_theorem.

(** ** The theorems *)

Section thread_theorems.
Context `{Symbols} (stacks idle_loop finish : Z).

(** Creating a thread takes a free entry other than the
    idle thread's, initialises its context to run the function with its
    argument, and changes no other entry and none of the lists; the answer is
    -1 exactly when no entry is free, and then nothing changes. Both creation
    functions behave so, each with its own search position. *)
Theorem thread_create_correct s func arg p :
  table_ok s -> cpu_ready thread_table_slock (k_cpu s) -> p = THREAD_PRIORITY_HIGH \/ p = THREAD_PRIORITY_NORMAL ->
  let result p tid s' := (tid = -1 /\ s' = s /\ no_free_thread s) \/ created stacks finish s s' tid func arg p in
  wp (thread_create stacks finish func arg) (result THREAD_PRIORITY_NORMAL) s /\
  wp (thread_create_with_priority stacks finish func arg p) (result p) s.
Proof.
  intros Hs Hc Hp result. split; [by apply thread_create_run|by apply thread_create_with_priority_run].
Qed.

(** [thread_sleep] keeps the list of sleepers sorted by wake-up
    time: the calling thread is inserted behind every sleeper that wakes no
    later than it, with the wake-up time [now + ms] (modulo 2^32), and the
    search never leaves the table. Interrupts are off at the context switch
    and the spinlock is free again. *)
Theorem thread_sleep_sorted s ms t l :
  table_ok s -> sleepers s l -> running s t -> 0 < t < CONFIG_MAX_THREADS -> t ∉ l ->
  cpu_ready thread_table_slock (k_cpu s) ->
  wp (thread_sleep ms) (fun st s' =>
    st = status (k_cpu s) /\ interrupts_off (status (k_cpu s')) /\ held (k_cpu s') = held (k_cpu s) /\
    wakeup_time (thr s' t) = u32 (k_clock s + ms) /\
    sleepers s' (insert_by (fun u => wakeup_time (thr s' u)) t l) /\
    forall u, u ∈ l -> wakeup_time (thr s' u) = wakeup_time (thr s u)) s.
Proof.
  intros Hs Hsl Hr Ht Hn Hc. eapply wp_mono; [by apply (thread_sleep_run s ms t l)|].
  intros st s' (-> & Hcpu & _ & Hw & Hsl' & Hother). rewrite Hcpu. cbn.
  split_and!; try done; [apply disable_off|].
  intros u Hu. pose proof (sl_tids _ _ Hsl) as Htids. rewrite Forall_forall in Htids. specialize (Htids u Hu).
  destruct (Hother u ltac:(lia)) as (_ & _ & _ & _ & _ & Hwu). apply Hwu, Z.eqb_neq. by intros ->.
Qed.
End thread_theorems.

(** A kernel after boot, with stacks at 0x80100000 and threads 1 to 3 made:
    thread 1 runs, 2 and 3 sleep until 500 and 900. *)
Definition idle_cpu : cpu := mk_cpu 0x1000ff01 ∅.
Definition plain_thread (st : thread_state_t) (nxt sleeper wake prio : Z) : thread :=
  mk_thread 0 zero_context 0 st 0 0 (-1) nxt sleeper wake prio (-1).
Definition small_kernel : kernel :=
  mk_kernel idle_cpu 0 700 0
    (plain_thread THREAD_READY (-1) (-1) 0 1 :: plain_thread THREAD_RUNNING (-1) (-1) 0 1
       :: plain_thread THREAD_SLEEPING (-1) 3 500 1 :: plain_thread THREAD_SLEEPING (-1) (-1) 900 1
       :: replicate 28 (plain_thread THREAD_FREE (-1) (-1) 0 1))
    2 0 4 [1; 0; 0; 0] (-1) (-1) (replicate 127 (-1)).

Lemma thread_create_correct_witness :
  wp (@thread_create example_symbols 0x80100000 0x80001234 0x80005678 42)
    (fun tid s' => tid <> -1) small_kernel.
Proof.
  destruct (@thread_create_correct example_symbols 0x80100000 0x80001234 small_kernel 0x80005678 42 0) as [H _].
  - reflexivity.
  - split; [vm_check|apply not_elem_of_empty].
  - by left.
  - eapply wp_mono; [exact H|].
    intros tid s' [(_ & _ & Hf)|Hc] ->; [|destruct Hc as [[Hneg _] _]; discriminate].
    apply (Hf 5); [vm_check|reflexivity].
Defined.

Lemma thread_sleep_sorted_witness :
  wp (@thread_sleep example_symbols 50) (fun st s' => exists l, sleepers s' l /\ wakeup_time (thr s' 1) = 750) small_kernel.
Proof.
  eapply wp_mono.
  - apply (@thread_sleep_sorted example_symbols small_kernel 50 1 [2; 3]).
    + reflexivity.
    + split; [vm_check|repeat constructor; vm_check| |].
      * repeat constructor; [rewrite list_elem_of_singleton; discriminate|apply not_elem_of_nil].
      * cbn. repeat constructor; vm_check.
    + reflexivity.
    + vm_check.
    + rewrite !not_elem_of_cons. repeat split; [discriminate|discriminate|apply not_elem_of_nil].
    + split; [vm_check|apply not_elem_of_empty].
  - intros st s' (_ & _ & _ & Hw & Hsl & _). exists (insert_by (fun u => wakeup_time (thr s' u)) 1 [2; 3]).
    split; [exact Hsl|exact Hw].
Defined.

Example sleep_order :
  match @thread_sleep example_symbols 50 small_kernel with
  | Ret (_, s') => (thread_next_sleeper_id s', next_sleeper_id (thr s' 2), next_sleeper_id (thr s' 1)) = (2, 1, 3)
  | Fail _ => False
  end.
Proof. reflexivity. Qed.
