(* ===== verification/Scheduler.v ===== *)
(** * kernel/scheduler.c: the ready list and the choice of the next thread

    The ready list is chained through the thread table; threads of high
    priority come first, and within a priority the order is first in, first
    out. *)
From S2P Require Import Prelude Cpu Chain Thread.

Definition CONFIG_SCHEDULER_TIMESLICE : Z := 750.

(** ** The code *)

Definition scheduler_init : M kernel unit :=
  modify (with_current (replicate (Z.to_nat CONFIG_MAX_CPUS) 0)).

(** The walk to the last thread of high priority: [curr] and the thread after
    it. *)
Fixpoint last_high (fuel : nat) (curr next' : Z) : M kernel (Z * Z) :=
  match fuel with
  | O => fail Timeout
  | S fuel =>
      if next' =? -1 then mret (curr, next') else
      th ← get_thread next';
      if priority th =? THREAD_PRIORITY_HIGH then last_high fuel next' (next th)
      else mret (curr, next')
  end.

Definition scheduler_add_to_ready_list (t : Z) : M kernel unit :=
  _ ← kassert (negb (t =? IDLE_THREAD_TID));
  _ ← kassert ((t >=? 0) && (t <? CONFIG_MAX_THREADS));
  head ← gets ready_head;
  tail ← gets ready_tail;
  if tail <? 0 then
    _ ← modify (with_ready t t);
    upd_thread t (set_next (-1))
  else
    th ← get_thread t;
    if priority th =? THREAD_PRIORITY_HIGH then
      first ← get_thread head;
      if priority first =? THREAD_PRIORITY_HIGH then
        '(curr, next') ← last_high (Z.to_nat CONFIG_MAX_THREADS) head (next first);
        _ ← upd_thread curr (set_next t);
        _ ← upd_thread t (set_next next');
        if next' =? -1 then modify (with_ready head t) else mret tt
      else
        _ ← upd_thread t (set_next head);
        modify (with_ready t tail)
    else
      _ ← upd_thread tail (set_next t);
      _ ← upd_thread t (set_next (-1));
      modify (with_ready head t).

Definition scheduler_remove_first_ready : M kernel Z :=
  t ← gets ready_head;
  tail ← gets ready_tail;
  _ ← kassert (negb (t =? IDLE_THREAD_TID));
  if t >=? 0 then
    th ← get_thread t;
    _ ← kassert (bool_decide (state th = THREAD_READY));
    _ ← modify (with_ready (next th) (if tail =? t then -1 else tail));
    mret t
  else mret IDLE_THREAD_TID.

Section scheduler.
Context `{Symbols}.

Definition scheduler_add_ready (t : Z) : M kernel unit :=
  critical thread_table_slock (
    _ ← scheduler_add_to_ready_list t;
    upd_thread t (set_state THREAD_READY)).

(** [thread_run] is a wrapper. *)
Definition thread_run : Z -> M kernel unit := scheduler_add_ready.

(** The loop over the sleepers whose time has come. *)
Fixpoint wakeup_loop (fuel : nat) (cur_time : Z) : M kernel unit :=
  match fuel with
  | O => fail Timeout
  | S fuel =>
      t ← gets thread_next_sleeper_id;
      if t =? -1 then mret tt else
      th ← get_thread t;
      if wakeup_time th <? cur_time then
        let next_tid := next_sleeper_id th in
        _ ← upd_thread t (set_next_sleeper_id (-1));
        _ ← upd_thread t (set_wakeup_time 0);
        _ ← scheduler_add_to_ready_list t;
        _ ← upd_thread t (set_state THREAD_READY);
        _ ← modify (with_sleeper next_tid);
        wakeup_loop fuel cur_time
      else mret tt
  end.
Definition scheduler_wakeup_expired_sleepers : M kernel unit :=
  t ← gets thread_next_sleeper_id;
  if t =? -1 then mret tt else
  cur_time ← rtc_get_msec;
  wakeup_loop (S (Z.to_nat CONFIG_MAX_THREADS)) cur_time.

(** [scheduler_current_thread[this_cpu] = t] *)
Definition set_current (t : Z) : M kernel unit := fun s =>
  l ← rset (scheduler_current_thread s) (k_cpuid s) t; Ret (tt, with_current l s).
Definition get_current : M kernel Z := fun s =>
  match rget (scheduler_current_thread s) (k_cpuid s) with Ret t => Ret (t, s) | Fail f => Fail f end.

(** [timer_set_ticks] *)
Definition timer_set_ticks (ticks : Z) : M kernel unit :=
  st ← interrupt_disable;
  _ ← modify (with_timer (u32 ticks));
  _ ← interrupt_set_state st;
  mret tt.

(** [rand] is what [_get_rand] answers. *)
Definition scheduler_schedule (rand : Z) : M kernel unit :=
  _ ← spinlock_acquire thread_table_slock;
  cur ← get_current;
  current_thread ← get_thread cur;
  _ ← (if decide (state current_thread = THREAD_DYING) then upd_thread cur (set_state THREAD_FREE)
       else if negb (sleeps_on current_thread =? 0) then upd_thread cur (set_state THREAD_SLEEPING)
       else if negb (wakeup_time current_thread =? 0) then upd_thread cur (set_state THREAD_SLEEPING)
       else
         _ ← (if negb (cur =? IDLE_THREAD_TID) then scheduler_add_to_ready_list cur
              else scheduler_wakeup_expired_sleepers);
         upd_thread cur (set_state THREAD_READY));
  t ← scheduler_remove_first_ready;
  _ ← upd_thread t (set_state THREAD_RUNNING);
  _ ← spinlock_release thread_table_slock;
  _ ← set_current t;
  timer_set_ticks (rand + Z.quot CONFIG_SCHEDULER_TIMESLICE 2).
End scheduler.

(** ** The ready list *)

Definition prio (s : kernel) (t : Z) : Z := priority (thr s t).

(** The ready list of a state, as a list of threads. *)
Record ready_ok (s : kernel) (l : list Z) : Prop := {
  rd_chain : chain (fun t => next (thr s t)) (ready_head s) l;
  rd_tail : ready_tail s = default (-1) (last l);
  rd_tids : Forall (fun t => 0 < t < CONFIG_MAX_THREADS) l;
  rd_nodup : NoDup l;
  rd_prio : Forall (fun t => prio s t = THREAD_PRIORITY_HIGH \/ prio s t = THREAD_PRIORITY_NORMAL) l;
  rd_sorted : sorted_by (prio s) l
}.

(** The rest of the state stays: only [next] fields of [l] and the two ends of
    the list may differ. *)
Record relinked (s s' : kernel) (l : list Z) : Prop := {
  rl_state : exists h t tab, s' = with_ready h t (with_threads tab s);
  rl_table : table_ok s';
  rl_next : forall u, 0 <= u -> exists n, thr s' u = set_next n (thr s u);
  rl_other : forall u, 0 <= u -> u ∉ l -> thr s' u = thr s u
}.

Lemma ready_insert s s' l1 l2 t g :
  ready_ok s (l1 ++ l2) -> 0 < t < CONFIG_MAX_THREADS -> t ∉ l1 ++ l2 ->
  prio s t = THREAD_PRIORITY_HIGH \/ prio s t = THREAD_PRIORITY_NORMAL ->
  (forall u, 0 <= u -> thr s' u = set_next (g u) (thr s u)) ->
  (forall u, u <> t -> Some u <> last l1 -> g u = next (thr s u)) ->
  match last l1 with
  | Some p => ready_head s' = ready_head s /\ g p = t
  | None => ready_head s' = t
  end ->
  g t = default (-1) (head l2) -> ready_tail s' = (if l2 is [] then t else ready_tail s) ->
  Forall (fun u => prio s u <= prio s t) l1 -> Forall (fun u => prio s t < prio s u) l2 ->
  ready_ok s' (insert_by (prio s') t (l1 ++ l2)) /\ insert_by (prio s') t (l1 ++ l2) = insert_by (prio s) t (l1 ++ l2).
Proof.
  intros [Hc Htail Htids Hn Hp Hs] Ht Hnin Hpt Hthr Hg Hlink Htn Htl H1 H2.
  assert (Hpos : forall u, u ∈ t :: l1 ++ l2 -> 0 <= u).
  { intros u [->|Hu]%elem_of_cons; [lia|]. rewrite Forall_forall in Htids. specialize (Htids u Hu). lia. }
  assert (Hw : forall u, u ∈ t :: l1 ++ l2 -> prio s u = prio s' u).
  { intros u Hu. unfold prio. by rewrite Hthr by (by apply Hpos). }
  rewrite <- (insert_by_ext (prio s)) by done. split; [|done]. split.
  - rewrite insert_by_at by done. apply (chain_link (fun u => next (thr s u)) _ (ready_head s)); try done.
    + intros u Hu Hl. rewrite Hthr by (apply Hpos; by right). cbn. apply Hg; [|done]. by intros ->.
    + destruct (last l1) as [q|] eqn:E; [|done]. destruct Hlink as [Hh Hq]. split; [done|].
      rewrite Hthr; [done|]. apply Hpos. right. apply last_Some in E as [l' ->]. set_solver.
    + rewrite Hthr by lia. cbn. rewrite Htn. by destruct l2.
  - rewrite insert_by_at by done. rewrite Htl. destruct l2 as [|u l2]; [by rewrite last_snoc|].
    rewrite Htail, !last_app. done.
  - rewrite insert_by_perm. by constructor.
  - rewrite insert_by_perm. by constructor.
  - rewrite insert_by_perm. constructor; [rewrite <- Hw by (by left); done|].
    rewrite Forall_forall in *. intros u Hu. rewrite <- Hw by (by right). by apply Hp.
  - eapply sorted_by_ext; [|by apply insert_by_sorted]. intros u Hu%insert_by_elem. apply Hw.
    destruct Hu; [subst; by left|by right].
Qed.

(** The walk over the threads of high priority. *)
Lemma last_high_run fuel s l1 c l2 n :
  table_ok s -> chain (fun t => next (thr s t)) n l2 -> Forall (fun t => 0 < t < CONFIG_MAX_THREADS) l2 ->
  Forall (fun u => prio s u = THREAD_PRIORITY_HIGH) (l1 ++ [c]) -> (length l2 < fuel)%nat ->
  wp (last_high fuel c n) (fun r s' => s' = s /\
    exists a b, (l1 ++ [c]) ++ l2 = a ++ b /\ Forall (fun u => prio s u = THREAD_PRIORITY_HIGH) a /\
      last a = Some (fst r) /\ snd r = default (-1) (head b) /\
      (forall u, head b = Some u -> prio s u <> THREAD_PRIORITY_HIGH)) s.
Proof.
  intros Hs. revert l1 c l2 n. induction fuel as [|fuel IH]; intros l1 c l2 n Hc Ht Hh Hf; [lia|].
  cbn [last_high]. destruct l2 as [|u l2].
  - cbn in Hc. subst n. rewrite Z.eqb_refl. apply wp_ret. split; [done|].
    exists (l1 ++ [c]), []. rewrite last_snoc. by split_and!.
  - destruct Hc as [-> Hc]. apply Forall_cons in Ht as [Hu Ht]. rewrite (proj2 (Z.eqb_neq u (-1))) by lia.
    apply wp_bind, wp_get_thread; [done|unfold is_tid; lia|].
    destruct (Z.eqb_spec (priority (thr s u)) THREAD_PRIORITY_HIGH) as [Hhi|Hlo].
    + replace ((l1 ++ [c]) ++ u :: l2) with (((l1 ++ [c]) ++ [u]) ++ l2) by (by rewrite <- app_assoc).
      apply IH; [exact Hc|done| |cbn in Hf; lia]. apply Forall_app. split; [done|by constructor].
    + apply wp_ret. split; [done|]. exists (l1 ++ [c]), (u :: l2). rewrite last_snoc. split_and!; try done.
      by intros ? [= <-].
Qed.

Lemma set_next_same th : set_next (next th) th = th.
Proof. by destruct th. Qed.

Lemma thr_set_next s t n u :
  table_ok s -> is_tid t -> 0 <= u ->
  thr (upd s t (set_next n)) u = set_next (if u =? t then n else next (thr s u)) (thr s u).
Proof.
  intros Hs Ht Hu. rewrite thr_upd by done. destruct (Z.eqb_spec u t) as [->|]; [done|]. by rewrite set_next_same.
Qed.

Lemma relinked_intro s s' l g :
  (exists h t tab, s' = with_ready h t (with_threads tab s)) -> table_ok s' ->
  (forall u, 0 <= u -> thr s' u = set_next (g u) (thr s u)) ->
  (forall u, 0 <= u -> u ∉ l -> g u = next (thr s u)) -> relinked s s' l.
Proof.
  intros Hst Hs Hg Hn. split; [done|done|intros u Hu; eexists; by apply Hg|].
  intros u Hu Hl. rewrite Hg, Hn by done. apply set_next_same.
Qed.

(** What [scheduler_add_to_ready_list] achieves. *)
Definition added (s s' : kernel) (t : Z) (l : list Z) : Prop :=
  ready_ok s' (insert_by (prio s) t l) /\ relinked s s' (t :: l).

Lemma ready_added s s' l1 l2 t g :
  ready_ok s (l1 ++ l2) -> 0 < t < CONFIG_MAX_THREADS -> t ∉ l1 ++ l2 ->
  prio s t = THREAD_PRIORITY_HIGH \/ prio s t = THREAD_PRIORITY_NORMAL ->
  (exists h t tab, s' = with_ready h t (with_threads tab s)) -> table_ok s' ->
  (forall u, 0 <= u -> thr s' u = set_next (g u) (thr s u)) ->
  (forall u, u <> t -> Some u <> last l1 -> g u = next (thr s u)) ->
  match last l1 with
  | Some p => ready_head s' = ready_head s /\ g p = t
  | None => ready_head s' = t
  end ->
  g t = default (-1) (head l2) -> ready_tail s' = (if l2 is [] then t else ready_tail s) ->
  Forall (fun u => prio s u <= prio s t) l1 -> Forall (fun u => prio s t < prio s u) l2 ->
  added s s' t (l1 ++ l2).
Proof.
  intros Hr Ht Hnin Hp Hst Hs Hthr Hg Hlink Htn Htl H1 H2.
  destruct (ready_insert s s' l1 l2 t g) as [Hr' Heq]; try done. split; [by rewrite <- Heq|].
  apply (relinked_intro s s' _ g); try done. intros u Hu Hnot. apply Hg.
  - intros ->. apply Hnot. by left.
  - intros Hl. symmetry in Hl. apply last_Some in Hl as [l' ->]. apply Hnot. set_solver.
Qed.

(** The three ways to link the new thread: in front, at the end, and between
    two threads. *)
Lemma link_front s t l x y :
  table_ok s -> ready_ok s l -> 0 < t < CONFIG_MAX_THREADS -> t ∉ l ->
  prio s t = THREAD_PRIORITY_HIGH \/ prio s t = THREAD_PRIORITY_NORMAL ->
  x = default (-1) (head l) -> y = (if l is [] then t else ready_tail s) ->
  Forall (fun u => prio s t < prio s u) l ->
  added s (with_ready t y (upd s t (set_next x))) t l.
Proof.
  intros Hs Hr Ht Hn Hp -> -> H2. assert (Hid : is_tid t) by (unfold is_tid; lia).
  apply (ready_added s _ [] l t (fun u => if u =? t then default (-1) (head l) else next (thr s u))); try done.
  - by do 3 eexists.
  - by apply (upd_table_ok s).
  - intros u Hu. by apply (thr_set_next s t (default (-1) (head l)) u).
  - intros u Hu _. by rewrite (proj2 (Z.eqb_neq u t)).
  - by rewrite Z.eqb_refl.
Qed.

Lemma link_after s t p l1 l2 x y :
  table_ok s -> ready_ok s (l1 ++ l2) -> 0 < t < CONFIG_MAX_THREADS -> t ∉ l1 ++ l2 ->
  prio s t = THREAD_PRIORITY_HIGH \/ prio s t = THREAD_PRIORITY_NORMAL -> last l1 = Some p ->
  x = default (-1) (head l2) -> y = (if l2 is [] then t else ready_tail s) ->
  Forall (fun u => prio s u <= prio s t) l1 -> Forall (fun u => prio s t < prio s u) l2 ->
  added s (with_ready (ready_head s) y (upd (upd s p (set_next t)) t (set_next x))) t (l1 ++ l2).
Proof.
  intros Hs Hr Ht Hn Hp Hl -> -> H1 H2. assert (Hid : is_tid t) by (unfold is_tid; lia).
  assert (Hpin : p ∈ l1 ++ l2) by (apply last_Some in Hl as [l' ->]; set_solver).
  assert (Hpid : is_tid p).
  { pose proof (rd_tids _ _ Hr) as Htids. rewrite Forall_forall in Htids. specialize (Htids p Hpin). unfold is_tid. lia. }
  assert (Hpt : p <> t) by (by intros ->).
  pose proof (upd_table_ok s p (set_next t) Hs) as Hs1.
  apply (ready_added s _ l1 l2 t (fun u => if u =? t then default (-1) (head l2) else if u =? p then t else next (thr s u))); try done.
  - by do 3 eexists.
  - by apply (upd_table_ok (upd s p (set_next t))).
  - intros u Hu. pose proof (thr_set_next (upd s p (set_next t)) t (default (-1) (head l2)) u Hs1 Hid Hu) as Hthr.
    rewrite (thr_set_next s p t u Hs Hpid Hu) in Hthr. exact Hthr.
  - intros u Hu Hul. rewrite (proj2 (Z.eqb_neq u t)) by done. rewrite Hl in Hul.
    destruct (Z.eqb_spec u p) as [->|]; done.
  - rewrite Hl. split; [done|]. rewrite (proj2 (Z.eqb_neq p t)) by done. by rewrite Z.eqb_refl.
  - by rewrite Z.eqb_refl.
Qed.

Lemma all_high s t l :
  prio s t = THREAD_PRIORITY_HIGH -> Forall (fun u => prio s u = THREAD_PRIORITY_HIGH) l ->
  Forall (fun u => prio s u <= prio s t) l.
Proof. intros Ht Hl. eapply Forall_impl; [exact Hl|]. cbn. lia. Qed.

(** Behind a thread of normal priority nobody has high priority. *)
Lemma none_high s l t :
  sorted_by (prio s) l -> Forall (fun u => prio s u = THREAD_PRIORITY_HIGH \/ prio s u = THREAD_PRIORITY_NORMAL) l ->
  (forall u, head l = Some u -> prio s u <> THREAD_PRIORITY_HIGH) -> prio s t = THREAD_PRIORITY_HIGH ->
  Forall (fun u => prio s t < prio s u) l.
Proof.
  intros Hs Hp Hh Ht. destruct l as [|u l]; [done|]. cbn in Hs. destruct Hs as [Hu _].
  apply Forall_cons in Hp as [Hpu Hp]. specialize (Hh u eq_refl). rewrite Ht.
  unfold THREAD_PRIORITY_HIGH, THREAD_PRIORITY_NORMAL in *. constructor; [lia|].
  eapply Forall_impl; [exact Hu|]. cbn. lia.
Qed.

Lemma add_to_ready_run s t l :
  table_ok s -> ready_ok s l -> 0 < t < CONFIG_MAX_THREADS -> t ∉ l ->
  prio s t = THREAD_PRIORITY_HIGH \/ prio s t = THREAD_PRIORITY_NORMAL ->
  wp (scheduler_add_to_ready_list t) (fun _ s' => added s s' t l) s.
Proof.
  intros Hs Hr Ht Hn Hp. pose proof Hr as [Hc Htail Htids Hnd Hpr Hsort].
  assert (Hid : is_tid t) by (unfold is_tid; lia).
  unfold scheduler_add_to_ready_list. apply wp_bind, wp_kassert.
  { apply negb_true_iff, Z.eqb_neq. unfold IDLE_THREAD_TID. lia. }
  apply wp_bind, wp_kassert.
  { rewrite Z.geb_leb. apply andb_true_intro; split; [apply Z.leb_le|apply Z.ltb_lt]; lia. }
  apply wp_bind, wp_gets, wp_bind, wp_gets. rewrite Htail.
  destruct l as [|h l'].
  { change (default (-1) (last []) <? 0) with true. cbn iota.
    apply wp_bind, wp_modify, wp_upd_thread; [exact Hs|done|].
    apply (link_front s t [] (-1) t); try done. }
  assert (Hpos : forall u, u ∈ h :: l' -> 0 < u < CONFIG_MAX_THREADS) by (by apply Forall_forall).
  destruct (last (h :: l')) as [q|] eqn:Hq; [|by apply last_None in Hq].
  assert (Hqin : q ∈ h :: l') by (apply last_Some in Hq as [l0 ->]; set_solver).
  pose proof (Hpos q Hqin) as Hqr. change (default (-1) (Some q)) with q in *.
  destruct (Z.ltb_spec q 0); [lia|].
  pose proof Hc as [Hhd Hc']. rewrite Hhd. pose proof (Hpos h ltac:(by left)) as Hhr.
  apply wp_bind, wp_get_thread; [done|done|].
  destruct (Z.eqb_spec (priority (thr s t)) THREAD_PRIORITY_HIGH) as [Hhi|Hlo].
  - apply wp_bind, wp_get_thread; [done|unfold is_tid; lia|].
    destruct (Z.eqb_spec (priority (thr s h)) THREAD_PRIORITY_HIGH) as [Hhh|Hhl].
    + apply wp_bind. eapply wp_mono.
      { apply (last_high_run _ s [] h l' (next (thr s h))); [done|exact Hc'|by apply Forall_cons in Htids as [_ ?]|by constructor|].
        pose proof (nodup_length _ CONFIG_MAX_THREADS ltac:(done) Hnd Htids) as Hlen. cbn in Hlen. lia. }
      intros [c n] s' (-> & a & b & Hab & Ha & Hla & Hnb & Hb). cbn [app fst snd] in *. rewrite Hab in *.
      assert (Hcid : is_tid c).
      { unfold is_tid. assert (0 < c < CONFIG_MAX_THREADS); [|lia]. apply Hpos. apply last_Some in Hla as [l0 ->]. set_solver. }
      apply wp_bind, wp_upd_thread; [done|done|].
      pose proof (upd_table_ok s c (set_next t) Hs) as Hs1.
      apply wp_bind, wp_upd_thread; [exact Hs1|done|].
      apply sorted_by_app in Hsort as (_ & Hsb & _). pose proof Hpr as [_ Hpb]%Forall_app.
      pose proof (none_high s b t Hsb Hpb Hb Hhi) as Hnh. pose proof (all_high s t a Hhi Ha) as Hah.
      destruct (Z.eqb_spec n (-1)) as [En|En].
      * apply wp_modify. rewrite <- Hhd. apply (link_after s t c a b n t); try done.
        destruct b as [|u b]; [done|]. cbn in Hnb. assert (0 < u < CONFIG_MAX_THREADS) by (apply Hpos; set_solver). lia.
      * apply wp_ret. destruct b as [|u b]; [cbn in Hnb; lia|].
        pose proof (link_after s t c a (u :: b) n (ready_tail s) Hs Hr Ht Hn Hp Hla Hnb eq_refl Hah Hnh) as Hadd. exact Hadd.
    + apply wp_bind, wp_upd_thread; [done|done|]. apply wp_modify. rewrite <- Htail.
      apply (link_front s t (h :: l') h (ready_tail s)); try done.
      apply none_high; try done. intros u [= <-]. exact Hhl.
  - apply wp_bind, wp_upd_thread; [done|unfold is_tid; lia|].
    pose proof (upd_table_ok s q (set_next t) Hs) as Hs1.
    apply wp_bind, wp_upd_thread; [exact Hs1|done|]. apply wp_modify.
    assert (added s (with_ready (ready_head s) t (upd (upd s q (set_next t)) t (set_next (-1)))) t ((h :: l') ++ []))
      as Hadd; [|by rewrite Hhd, app_nil_r in Hadd].
    apply (link_after s t q (h :: l') [] (-1) t); rewrite ?app_nil_r; try done.
    assert (prio s t = THREAD_PRIORITY_NORMAL) as -> by (unfold prio in *; destruct Hp; congruence).
    eapply Forall_impl; [exact Hpr|]. cbn. unfold THREAD_PRIORITY_HIGH, THREAD_PRIORITY_NORMAL. lia.
Qed.

(** ** Changes that leave the lists alone *)

Lemma ready_ok_frame s s' l :
  (forall t, t ∈ l -> next (thr s' t) = next (thr s t) /\ prio s' t = prio s t) ->
  ready_head s' = ready_head s -> ready_tail s' = ready_tail s -> ready_ok s l -> ready_ok s' l.
Proof.
  intros Hsame Hh Ht [Hc Htail Htids Hn Hp Hs].
  split; rewrite ?Hh, ?Ht; try done.
  - eapply seg_ext; [|exact Hc]. intros t Hin. symmetry. by apply Hsame.
  - rewrite Forall_forall in *. intros t Hin. destruct (Hsame t Hin) as [_ ->]. by apply Hp.
  - eapply sorted_by_ext; [|exact Hs]. intros t Hin. symmetry. by apply Hsame.
Qed.

Lemma sleepers_frame s s' l :
  (forall t, t ∈ l -> next_sleeper_id (thr s' t) = next_sleeper_id (thr s t) /\
     wakeup_time (thr s' t) = wakeup_time (thr s t)) ->
  thread_next_sleeper_id s' = thread_next_sleeper_id s -> sleepers s l -> sleepers s' l.
Proof.
  intros Hsame Hh [Hc Htids Hn Hs]. split; rewrite ?Hh; try done.
  - eapply seg_ext; [|exact Hc]. intros t Hin. symmetry. by apply Hsame.
  - eapply sorted_by_ext; [|exact Hs]. intros t Hin. symmetry. by apply Hsame.
Qed.

Definition valid_prio (p : Z) : Prop := p = THREAD_PRIORITY_HIGH \/ p = THREAD_PRIORITY_NORMAL.

(** The scheduler's invariant: [l] is the ready list and [sl] the sleepers. *)
Record sched_ok (s : kernel) (l sl : list Z) : Prop := {
  so_table : table_ok s;
  so_ready : ready_ok s l;
  so_sleepers : sleepers s sl;
  so_ready_th : forall t, t ∈ l ->
    state (thr s t) = THREAD_READY /\ sleeps_on (thr s t) = 0 /\ wakeup_time (thr s t) = 0;
  so_sleep_th : forall t, t ∈ sl ->
    t ∉ l /\ valid_prio (prio s t) /\ sleeps_on (thr s t) = 0 /\ wakeup_time (thr s t) <> 0
}.

Lemma sched_ok_state s l sl t x :
  sched_ok s l sl -> is_tid t -> (t ∈ l -> x = THREAD_READY) -> sched_ok (upd s t (set_state x)) l sl.
Proof.
  intros [Hs Hr Hsl Hl Hsth] Ht Hx.
  assert (Hthr : forall u, 0 <= u -> thr (upd s t (set_state x)) u = if u =? t then set_state x (thr s t) else thr s u).
  { intros u Hu. by apply thr_upd. }
  assert (Hpos : forall u, u ∈ l \/ u ∈ sl -> 0 <= u).
  { pose proof (rd_tids _ _ Hr) as H1. pose proof (sl_tids _ _ Hsl) as H2. rewrite Forall_forall in H1, H2.
    intros u [Hu|Hu]; [specialize (H1 u Hu)|specialize (H2 u Hu)]; lia. }
  split.
  - by apply upd_table_ok.
  - apply (ready_ok_frame s); [|done|done|exact Hr]. intros u Hu. unfold prio. rewrite Hthr by auto.
    by destruct (Z.eqb_spec u t) as [->|].
  - apply (sleepers_frame s); [|done|exact Hsl]. intros u Hu. rewrite Hthr by auto.
    by destruct (Z.eqb_spec u t) as [->|].
  - intros u Hu. rewrite Hthr by auto. destruct (Hl u Hu) as (? & ? & ?).
    destruct (Z.eqb_spec u t) as [->|]; [|done]. cbn. by rewrite Hx.
  - intros u Hu. unfold prio. rewrite Hthr by auto. destruct (Hsth u Hu) as (? & ? & ? & ?).
    destruct (Z.eqb_spec u t) as [->|]; [|done]. by split_and!.
Qed.

(** Adding a thread that is ready but for its state. *)
Lemma sched_add_run s t l sl :
  sched_ok s l sl -> 0 < t < CONFIG_MAX_THREADS -> t ∉ l -> t ∉ sl -> valid_prio (prio s t) ->
  sleeps_on (thr s t) = 0 -> wakeup_time (thr s t) = 0 ->
  wp (scheduler_add_to_ready_list t) (fun _ s' => relinked s s' (t :: l) /\
    sched_ok (upd s' t (set_state THREAD_READY)) (insert_by (prio s) t l) sl) s.
Proof.
  intros [Hs Hr Hsl Hl Hsth] Ht Hnl Hns Hp Hso Hw. assert (Hid : is_tid t) by (unfold is_tid; lia).
  eapply wp_mono; [by apply (add_to_ready_run s t l)|]. intros _ s' [Hr' Hre]. split; [done|].
  pose proof Hre as [(h & tl & tab & Hst) Hs' Hnext Hother].
  assert (Hpos : forall u, u ∈ l \/ u ∈ sl -> 0 <= u).
  { pose proof (rd_tids _ _ Hr) as H1. pose proof (sl_tids _ _ Hsl) as H2. rewrite Forall_forall in H1, H2.
    intros u [Hu|Hu]; [specialize (H1 u Hu)|specialize (H2 u Hu)]; lia. }
  assert (Hthr : forall u, 0 <= u -> exists n, thr (upd s' t (set_state THREAD_READY)) u =
    set_next n (if u =? t then set_state THREAD_READY (thr s u) else thr s u)).
  { intros u Hu. destruct (Hnext u Hu) as [n Hn]. exists n. rewrite thr_upd by done.
    destruct (Z.eqb_spec u t) as [->|]; by rewrite Hn. }
  split.
  - by apply upd_table_ok.
  - apply (ready_ok_frame s'); [|done|done|exact Hr']. intros u Hu%insert_by_elem.
    assert (0 <= u) by (destruct Hu; [subst; lia|auto]). unfold prio. rewrite thr_upd by done.
    by destruct (Z.eqb_spec u t) as [->|].
  - apply (sleepers_frame s); [| |exact Hsl]; [|by rewrite Hst]. intros u Hu.
    destruct (Hthr u ltac:(auto)) as [n ->]. destruct (Z.eqb_spec u t) as [->|]; done.
  - intros u Hu%insert_by_elem. destruct (Hthr u) as [n ->]; [destruct Hu; [subst; lia|auto]|].
    destruct (Z.eqb_spec u t) as [->|]; [done|]. destruct Hu; [done|]. by apply Hl.
  - intros u Hu. destruct (Hsth u Hu) as (Hul & Hup & Hus & Huw). unfold prio.
    destruct (Hthr u ltac:(auto)) as [n ->]. split_and!.
    + intros [->|]%insert_by_elem; done.
    + destruct (u =? t); done.
    + destruct (u =? t); done.
    + destruct (u =? t); done.
Qed.

(** Removing the first ready thread. *)
Lemma remove_first_run s l sl :
  sched_ok s l sl ->
  wp scheduler_remove_first_ready (fun t s' => t = default IDLE_THREAD_TID (head l) /\
    sched_ok s' (tail l) sl /\ exists h y, s' = with_ready h y s) s.
Proof.
  intros [Hs Hr Hsl Hl Hsth]. pose proof Hr as [Hc Htail Htids Hnd Hp Hsort].
  unfold scheduler_remove_first_ready. apply wp_bind, wp_gets, wp_bind, wp_gets.
  destruct l as [|t l].
  - cbn in Hc. rewrite Hc. apply wp_bind, wp_kassert; [done|]. apply wp_ret. split; [done|]. split; [done|].
    exists (ready_head s), (ready_tail s). by destruct s.
  - destruct Hc as [Hh Hc]. rewrite Hh. apply Forall_cons in Htids as [Ht Htids]. apply Forall_cons in Hp as [Hpt Hp].
    apply NoDup_cons in Hnd as [Hnin Hnd]. destruct Hsort as [_ Hsort].
    apply wp_bind, wp_kassert. { apply negb_true_iff, Z.eqb_neq. unfold IDLE_THREAD_TID. lia. }
    rewrite (proj2 (Z.geb_le t 0)) by lia. apply wp_bind, wp_get_thread; [done|unfold is_tid; lia|].
    apply wp_bind, wp_kassert. { apply bool_decide_eq_true. apply (Hl t). by left. }
    apply wp_bind, wp_modify, wp_ret. split; [done|]. split; [|by do 2 eexists].
    split; [done| |by eapply sleepers_same; [..|exact Hsl]| |].
    + cbn [tail]. split; cbn; try done. rewrite Htail.
      change (default (-1) (last (t :: l))) with (default (-1) (last (t :: l))).
      destruct l as [|u l]; [cbn; by rewrite Z.eqb_refl|].
      change (last (t :: u :: l)) with (last (u :: l)).
      destruct (last (u :: l)) as [q|] eqn:Eq; [|by apply last_None in Eq]. cbn.
      destruct (Z.eqb_spec q t) as [->|]; [|done]. destruct Hnin. apply last_Some in Eq as [l' ->]. set_solver.
    + intros u Hu. apply Hl. by right.
    + intros u Hu. destruct (Hsth u Hu) as (Hul & Hrest). split; [|done]. intros Hu'. apply Hul. by right.
Qed.

(** What running the scheduler leaves alone. *)
Record devices_kept (s s' : kernel) : Prop := {
  dk_cpu : k_cpu s' = k_cpu s;
  dk_cpuid : k_cpuid s' = k_cpuid s;
  dk_clock : k_clock s' = k_clock s;
  dk_current : scheduler_current_thread s' = scheduler_current_thread s;
  dk_sleepq : sleepq_hashtable s' = sleepq_hashtable s
}.
#[export] Instance devices_kept_po : PreOrder devices_kept.
Proof.
  split; [by split|]. intros s1 s2 s3 [] []. split; congruence.
Qed.
Lemma relinked_devices s s' l : relinked s s' l -> devices_kept s s'.
Proof. intros [(h & t & tab & ->) _ _ _]. by split. Qed.

(** What waking sleepers leaves of a thread that is not among them. *)
Definition only_next (a b : thread) : Prop := exists n, b = set_next n a.

(** One expired sleeper moved to the ready list. *)
Lemma wake_sleeper_run s t l sl :
  sched_ok s l (t :: sl) ->
  wp (_ ← upd_thread t (set_next_sleeper_id (-1));
      _ ← upd_thread t (set_wakeup_time 0);
      _ ← scheduler_add_to_ready_list t;
      _ ← upd_thread t (set_state THREAD_READY);
      modify (with_sleeper (next_sleeper_id (thr s t))))
    (fun _ s' => sched_ok s' (insert_by (prio s) t l) sl /\ devices_kept s s' /\
       (forall u, 0 <= u -> prio s' u = prio s u) /\
       forall u, 0 <= u -> u <> t -> only_next (thr s u) (thr s' u)) s.
Proof.
  intros [Hs Hr Hsl Hl Hsth]. pose proof Hsl as [Hc Htids Hnd Hsort].
  destruct Hc as [Hhd Hc]. apply Forall_cons in Htids as [Ht Htids]. apply NoDup_cons in Hnd as [Hnsl Hnd].
  destruct Hsort as [_ Hsort]. destruct (Hsth t ltac:(by left)) as (Hnl & Hpt & Hso & Hwk).
  assert (Hid : is_tid t) by (unfold is_tid; lia).
  apply wp_bind, wp_upd_thread; [done|done|]. set (s1 := upd s t _). assert (Hs1 : table_ok s1) by (by apply upd_table_ok).
  apply wp_bind, wp_upd_thread; [done|done|]. set (s2 := upd s1 t _). assert (Hs2 : table_ok s2) by (by apply upd_table_ok).
  assert (Hthr2 : forall u, 0 <= u -> thr s2 u =
    if u =? t then set_wakeup_time 0 (set_next_sleeper_id (-1) (thr s t)) else thr s u).
  { intros u Hu. subst s2. rewrite thr_upd by done. subst s1. rewrite !thr_upd by (done || lia).
    rewrite Z.eqb_refl. by destruct (u =? t). }
  assert (Hpos : forall u, u ∈ l -> 0 <= u).
  { pose proof (rd_tids _ _ Hr) as H1. rewrite Forall_forall in H1. intros u Hu. specialize (H1 u Hu). lia. }
  assert (Hprio2 : forall u, 0 <= u -> prio s2 u = prio s u).
  { intros u Hu. unfold prio. rewrite Hthr2 by done. by destruct (Z.eqb_spec u t) as [->|]. }
  assert (Hr2 : ready_ok s2 l).
  { apply (ready_ok_frame s); [|done|done|exact Hr]. intros u Hu. split; [|auto]. rewrite Hthr2 by auto.
    by destruct (Z.eqb_spec u t) as [->|]. }
  apply wp_bind. eapply wp_mono.
  { apply (add_to_ready_run s2 t l); [done|done|done|done|]. by rewrite Hprio2 by lia. }
  intros _ s3 [Hr3 Hre]. pose proof Hre as [Hst Hs3 Hnext _].
  apply wp_bind, wp_upd_thread; [done|done|]. apply wp_modify. set (s4 := with_sleeper _ _).
  assert (Hthr4 : forall u, 0 <= u -> exists n, thr s4 u = set_next n
    (if u =? t then set_state THREAD_READY (thr s2 t) else thr s u)).
  { intros u Hu. destruct (Hnext u Hu) as [n Hn]. exists n.
    change (thr s4 u) with (thr (upd s3 t (set_state THREAD_READY)) u). rewrite thr_upd by done.
    destruct (Z.eqb_spec u t) as [->|Hne]; [by rewrite Hn|]. rewrite Hn, Hthr2 by done. by rewrite (proj2 (Z.eqb_neq u t)). }
  assert (Hins : insert_by (prio s2) t l = insert_by (prio s) t l).
  { apply insert_by_ext. intros u [->|Hu]%elem_of_cons; apply Hprio2; [lia|auto]. }
  assert (Hslpos : forall u, u ∈ sl -> 0 <= u /\ u <> t).
  { rewrite Forall_forall in Htids. intros u Hu. specialize (Htids u Hu). split; [lia|by intros ->]. }
  split; [split|split_and!].
  - by apply (upd_table_ok s3).
  - rewrite <- Hins. apply (ready_ok_frame s3); [|done|done|exact Hr3]. intros u Hu%insert_by_elem.
    assert (Hu0 : 0 <= u) by (destruct Hu; [subst; lia|auto]). unfold prio.
    change (thr s4 u) with (thr (upd s3 t (set_state THREAD_READY)) u). rewrite thr_upd by done.
    by destruct (Z.eqb_spec u t) as [->|].
  - split; [|done|done|].
    + change (chain (fun u => next_sleeper_id (thr s4 u)) (next_sleeper_id (thr s t)) sl).
      eapply seg_ext; [|exact Hc]. intros u Hu. cbn. destruct (Hslpos u Hu) as [Hu0 Hut].
      destruct (Hthr4 u Hu0) as [n ->]. by rewrite (proj2 (Z.eqb_neq u t)).
    + eapply sorted_by_ext; [|exact Hsort]. intros u Hu. cbn. destruct (Hslpos u Hu) as [Hu0 Hut].
      destruct (Hthr4 u Hu0) as [n ->]. by rewrite (proj2 (Z.eqb_neq u t)).
  - intros u Hu%insert_by_elem. destruct (Hthr4 u) as [n ->]; [destruct Hu; [subst; lia|auto]|].
    destruct (Z.eqb_spec u t) as [->|].
    + cbn. rewrite Hthr2, Z.eqb_refl by lia. by split_and!.
    + destruct Hu; [done|]. by apply Hl.
  - intros u Hu. destruct (Hslpos u Hu) as [Hu0 Hut]. destruct (Hsth u ltac:(by right)) as (Hul & Hup & Hus & Huw).
    unfold prio. destruct (Hthr4 u Hu0) as [n ->]. rewrite (proj2 (Z.eqb_neq u t)) by done. split_and!; try done.
    intros [->|]%insert_by_elem; done.
  - transitivity s2; [by split|]. transitivity s3; [by eapply relinked_devices|by split].
  - intros u Hu. unfold prio. destruct (Hthr4 u Hu) as [n ->]. destruct (Z.eqb_spec u t) as [->|]; [|done].
    cbn. rewrite Hthr2, Z.eqb_refl by lia. done.
  - intros u Hu Hne. destruct (Hthr4 u Hu) as [n Hn]. rewrite (proj2 (Z.eqb_neq u t)) in Hn by done. by exists n.
Qed.

(** The ready list after the threads [e] have been woken, in order. *)
Definition wake_all_into (f : Z -> Z) (e l : list Z) : list Z := foldl (fun l t => insert_by f t l) l e.

Lemma wake_all_into_ext f g e l :
  (forall u, u ∈ e \/ u ∈ l -> f u = g u) -> wake_all_into f e l = wake_all_into g e l.
Proof.
  revert l. induction e as [|t e IH]; intros l H; cbn; [done|].
  rewrite (insert_by_ext f g t l).
  - apply IH. intros u [Hu|[->|Hu]%insert_by_elem]; apply H; [left; by right|left; by left|by right].
  - intros u [->|Hu]%elem_of_cons; apply H; [left; by left|by right].
Qed.

Lemma wakeup_loop_run fuel now s l sl :
  sched_ok s l sl -> (length sl < fuel)%nat ->
  wp (wakeup_loop fuel now) (fun _ s' => exists e sl', sl = e ++ sl' /\
    Forall (fun t => wakeup_time (thr s t) < now) e /\
    (forall t, head sl' = Some t -> now <= wakeup_time (thr s t)) /\
    sched_ok s' (wake_all_into (prio s) e l) sl' /\ devices_kept s s' /\
    forall u, 0 <= u -> u ∉ e -> only_next (thr s u) (thr s' u)) s.
Proof.
  revert s l sl. induction fuel as [|fuel IH]; intros s l sl Hok Hf; [lia|]. cbn [wakeup_loop].
  pose proof Hok as [Hs Hr Hsl Hl Hsth]. pose proof Hsl as [Hc Htids Hnd Hsort].
  apply wp_bind, wp_gets. rewrite (chain_head _ _ _ Hc) by (eapply Forall_impl; [exact Htids|cbn; lia]).
  assert (Hnone : (forall t, head sl = Some t -> now <= wakeup_time (thr s t)) ->
    exists e sl', sl = e ++ sl' /\ Forall (fun t => wakeup_time (thr s t) < now) e /\
      (forall t, head sl' = Some t -> now <= wakeup_time (thr s t)) /\
      sched_ok s (wake_all_into (prio s) e l) sl' /\ devices_kept s s /\
      forall u, 0 <= u -> u ∉ e -> only_next (thr s u) (thr s u)).
  { intros Hh. exists [], sl. split_and!; try done. intros u Hu _. exists (next (thr s u)). by rewrite set_next_same. }
  destruct sl as [|t sl].
  { change (default (-1) (head [])) with (-1). rewrite Z.eqb_refl. apply wp_ret. by apply Hnone. }
  change (default (-1) (head (t :: sl))) with t.
  apply Forall_cons in Htids as [Ht Htids]. rewrite (proj2 (Z.eqb_neq t (-1))) by lia.
  apply wp_bind, wp_get_thread; [done|unfold is_tid; lia|].
  destruct (Z.ltb_spec (wakeup_time (thr s t)) now) as [Hlt|Hge].
  - pose proof (wake_sleeper_run s t l sl Hok) as Hwake.
    assert (Hassoc : forall s0, (_ ← upd_thread t (set_next_sleeper_id (-1)); _ ← upd_thread t (set_wakeup_time 0);
        _ ← scheduler_add_to_ready_list t; _ ← upd_thread t (set_state THREAD_READY);
        _ ← modify (with_sleeper (next_sleeper_id (thr s t))); wakeup_loop fuel now) s0 =
      ((_ ← upd_thread t (set_next_sleeper_id (-1)); _ ← upd_thread t (set_wakeup_time 0);
        _ ← scheduler_add_to_ready_list t; _ ← upd_thread t (set_state THREAD_READY);
        modify (with_sleeper (next_sleeper_id (thr s t)))) ≫= fun _ => wakeup_loop fuel now) s0).
    { intros s0. unfold mbind, M_bind.
      repeat match goal with |- match ?x with _ => _ end = _ => destruct x as [[? ?]|]; [|done] end. done. }
    cbv zeta. unfold wp. rewrite Hassoc. apply wp_bind. eapply wp_mono; [exact Hwake|].
    intros _ s1 (Hok1 & Hdev & Hpr & Hother). cbn in Hf. apply NoDup_cons in Hnd as [Hnin Hnd].
    assert (Hpos : forall u, u ∈ sl -> 0 <= u /\ u <> t).
    { rewrite Forall_forall in Htids. intros u Hu. specialize (Htids u Hu). split; [lia|by intros ->]. }
    assert (Hw1 : forall u, u ∈ sl -> wakeup_time (thr s1 u) = wakeup_time (thr s u)).
    { intros u Hu. destruct (Hpos u Hu) as [Hu0 Hut]. by destruct (Hother u Hu0 Hut) as [n ->]. }
    eapply wp_mono; [apply (IH s1 _ sl Hok1); lia|].
    intros _ s' (e & sl' & -> & He & Hh & Hok' & Hdev' & Hother'). exists (t :: e), sl'.
    assert (Hin : forall u, u ∈ e -> u ∈ e ++ sl') by (intros u Hu; apply elem_of_app; by left).
    split_and!; [done| | | |by transitivity s1|].
    + constructor; [done|]. rewrite Forall_forall in *. intros u Hu. rewrite <- Hw1 by auto. by apply He.
    + intros u Hu. rewrite <- Hw1; [by apply Hh|]. destruct sl' as [|v sl']; [done|]. injection Hu as ->.
      apply elem_of_app. right. by left.
    + change (wake_all_into (prio s) (t :: e) l) with (wake_all_into (prio s) e (insert_by (prio s) t l)).
      rewrite <- (wake_all_into_ext (prio s1)); [exact Hok'|].
      intros u Hu. apply Hpr. destruct Hu as [Hu|[->|Hu]%insert_by_elem]; [apply Hpos; auto|lia|].
      pose proof (rd_tids _ _ Hr) as H1. rewrite Forall_forall in H1. specialize (H1 u Hu). lia.
    + intros u Hu Hnu. destruct (Hother u Hu) as [n Hn]; [intros ->; apply Hnu; by left|].
      destruct (Hother' u Hu) as [m Hm]; [intros Hue; apply Hnu; by right|]. exists m. by rewrite Hm, Hn.
  - apply wp_ret. apply Hnone. by intros ? [= <-].
Qed.

(** ** Choosing the next thread *)

(** What becomes of the thread that was running: the ready list and the
    sleepers from which the next thread is chosen, and its new state. *)
Inductive requeue (s : kernel) (cur : Z) (l sl : list Z) : list Z -> list Z -> thread_state_t -> Prop :=
| rq_dying :
    state (thr s cur) = THREAD_DYING -> requeue s cur l sl l sl THREAD_FREE
| rq_sleeping :
    state (thr s cur) <> THREAD_DYING -> sleeps_on (thr s cur) <> 0 \/ wakeup_time (thr s cur) <> 0 ->
    requeue s cur l sl l sl THREAD_SLEEPING
| rq_ready :
    state (thr s cur) <> THREAD_DYING -> sleeps_on (thr s cur) = 0 -> wakeup_time (thr s cur) = 0 ->
    cur <> IDLE_THREAD_TID -> requeue s cur l sl (insert_by (prio s) cur l) sl THREAD_READY
| rq_idle e sl' :
    state (thr s cur) <> THREAD_DYING -> sleeps_on (thr s cur) = 0 -> wakeup_time (thr s cur) = 0 ->
    cur = IDLE_THREAD_TID -> sl = e ++ sl' -> Forall (fun t => wakeup_time (thr s t) < k_clock s) e ->
    (forall t, head sl' = Some t -> k_clock s <= wakeup_time (thr s t)) ->
    requeue s cur l sl (wake_all_into (prio s) e l) sl' THREAD_READY.

Lemma requeue_same s s' cur l sl l1 sl1 st :
  thread_table s' = thread_table s -> k_clock s' = k_clock s ->
  requeue s' cur l sl l1 sl1 st -> requeue s cur l sl l1 sl1 st.
Proof.
  intros Ht Hk. assert (Hthr : thr s' = thr s) by (unfold thr; by rewrite Ht).
  assert (Hprio : prio s' = prio s) by (unfold prio; by rewrite Hthr).
  intros [H1|H1 H2|H1 H2 H3 H4|e sl' H1 H2 H3 H4 H5 H6 H7]; rewrite ?Hprio; rewrite ?Hthr, ?Hk in *.
  - by apply rq_dying.
  - by apply rq_sleeping.
  - by apply rq_ready.
  - by apply rq_idle.
Qed.

Section schedule.
Context `{Symbols}.

Lemma wakeup_expired_run s l sl :
  sched_ok s l sl ->
  wp scheduler_wakeup_expired_sleepers (fun _ s' => exists e sl', sl = e ++ sl' /\
    Forall (fun t => wakeup_time (thr s t) < k_clock s) e /\
    (forall t, head sl' = Some t -> k_clock s <= wakeup_time (thr s t)) /\
    sched_ok s' (wake_all_into (prio s) e l) sl' /\ devices_kept s s' /\
    forall u, 0 <= u -> u ∉ e -> only_next (thr s u) (thr s' u)) s.
Proof.
  intros Hok. pose proof (so_sleepers _ _ _ Hok) as [Hc Htids Hnd _].
  unfold scheduler_wakeup_expired_sleepers. apply wp_bind, wp_gets.
  rewrite (chain_head _ _ _ Hc) by (eapply Forall_impl; [exact Htids|cbn; lia]).
  destruct sl as [|t sl].
  - change (default (-1) (head [])) with (-1). rewrite Z.eqb_refl. apply wp_ret. exists [], [].
    split_and!; try done. intros u Hu _. exists (next (thr s u)). by rewrite set_next_same.
  - change (default (-1) (head (t :: sl))) with t. pose proof Htids as [Ht _]%Forall_cons.
    rewrite (proj2 (Z.eqb_neq t (-1))) by lia. apply wp_bind, wp_gets. apply wakeup_loop_run; [done|].
    pose proof (nodup_length _ CONFIG_MAX_THREADS ltac:(done) Hnd Htids). lia.
Qed.

(** The first half of [scheduler_schedule]: what becomes of the current
    thread. *)
Lemma requeue_run s cur l sl :
  sched_ok s l sl -> is_tid cur -> cur ∉ l -> valid_prio (prio s cur) ->
  wp (if decide (state (thr s cur) = THREAD_DYING) then upd_thread cur (set_state THREAD_FREE)
      else if negb (sleeps_on (thr s cur) =? 0) then upd_thread cur (set_state THREAD_SLEEPING)
      else if negb (wakeup_time (thr s cur) =? 0) then upd_thread cur (set_state THREAD_SLEEPING)
      else
        _ ← (if negb (cur =? IDLE_THREAD_TID) then scheduler_add_to_ready_list cur
             else scheduler_wakeup_expired_sleepers);
        upd_thread cur (set_state THREAD_READY))
    (fun _ s' => exists l1 sl1 st, requeue s cur l sl l1 sl1 st /\ sched_ok s' l1 sl1 /\
       devices_kept s s' /\ state (thr s' cur) = st) s.
Proof.
  intros Hok Hid Hnl Hp. pose proof (so_table _ _ _ Hok) as Hs. destruct (decide _) as [Hd|Hd].
  { apply wp_upd_thread; [done|done|]. exists l, sl, THREAD_FREE.
    split_and!; [by apply rq_dying|by apply sched_ok_state|by split|by rewrite thr_upd_eq]. }
  destruct (Z.eqb_spec (sleeps_on (thr s cur)) 0) as [Hso|Hso]; cbn [negb].
  2: { apply wp_upd_thread; [done|done|]. exists l, sl, THREAD_SLEEPING.
    split_and!; [apply rq_sleeping; auto|by apply sched_ok_state|by split|by rewrite thr_upd_eq]. }
  destruct (Z.eqb_spec (wakeup_time (thr s cur)) 0) as [Hw|Hw]; cbn [negb].
  2: { apply wp_upd_thread; [done|done|]. exists l, sl, THREAD_SLEEPING.
    split_and!; [apply rq_sleeping; auto|by apply sched_ok_state|by split|by rewrite thr_upd_eq]. }
  assert (Hnsl : cur ∉ sl) by (intros Hin; by destruct (so_sleep_th _ _ _ Hok cur Hin) as (_ & _ & _ & ?)).
  destruct (Z.eqb_spec cur IDLE_THREAD_TID) as [Hidle|Hidle]; cbn [negb]; apply wp_bind.
  - eapply wp_mono; [by apply wakeup_expired_run|].
    intros _ s' (e & sl' & Hsl & He & Hh & Hok' & Hdev & _).
    apply wp_upd_thread; [by eapply so_table|done|]. eexists _, sl', THREAD_READY.
    split_and!; [by eapply rq_idle| |by transitivity s'|rewrite thr_upd_eq; [done|by eapply so_table|done]].
    by apply sched_ok_state.
  - unfold IDLE_THREAD_TID in *. unfold is_tid in Hid.
    eapply wp_mono; [apply (sched_add_run s cur l sl Hok); try done; lia|].
    intros _ s' [Hre Hok']. apply wp_upd_thread; [by apply Hre|done|]. eexists _, sl, THREAD_READY.
    split_and!; [by apply rq_ready|exact Hok'| |rewrite thr_upd_eq; [done|by apply Hre|done]].
    transitivity s'; [by eapply relinked_devices|by split].
Qed.

Lemma wp_timer ticks (Q : unit -> kernel -> Prop) s :
  is_u32 (status (k_cpu s)) -> Q tt (with_timer (u32 ticks) s) -> wp (timer_set_ticks ticks) Q s.
Proof.
  intros Hst HQ. unfold timer_set_ticks. apply wp_bind, wp_disable, wp_bind, wp_modify, wp_bind, wp_restore; [exact Hst|done|].
  intros _. apply wp_ret. destruct s as [[st hl] ? ? ? ? ? ? ? ? ? ? ?]. exact HQ.
Qed.

Lemma schedule_run rand s cur l sl :
  sched_ok s l sl -> running s cur -> is_tid cur -> cur ∉ l -> valid_prio (prio s cur) ->
  cpu_ready thread_table_slock (k_cpu s) ->
  wp (scheduler_schedule rand) (fun _ s' => exists l1 sl1 st,
    requeue s cur l sl l1 sl1 st /\ sched_ok s' (tail l1) sl1 /\
    running s' (default IDLE_THREAD_TID (head l1)) /\
    state (thr s' (default IDLE_THREAD_TID (head l1))) = THREAD_RUNNING /\
    (cur <> default IDLE_THREAD_TID (head l1) -> state (thr s' cur) = st) /\
    k_cpu s' = k_cpu s /\ sleepq_hashtable s' = sleepq_hashtable s) s.
Proof.
  intros Hok Hrun Hid Hnl Hp [Hst Hl]. unfold scheduler_schedule.
  apply wp_bind, wp_acquire; [exact Hl|]. set (s0 := with_cpu _ s).
  apply wp_bind. unfold wp at 1, get_current. change (scheduler_current_thread s0) with (scheduler_current_thread s).
  change (k_cpuid s0) with (k_cpuid s). unfold running in Hrun. rewrite Hrun.
  pose proof (so_table _ _ _ Hok) as Hs. apply wp_bind, wp_get_thread; [exact Hs|done|].
  assert (Hok0 : sched_ok s0 l sl).
  { pose proof Hok as [_ Hr Hsl Hlth Hsth]. split; [exact Hs| | |exact Hlth|exact Hsth].
    - apply (ready_ok_frame s); done.
    - by apply (sleepers_same s). }
  apply wp_bind. eapply wp_mono; [exact (requeue_run s0 cur l sl Hok0 Hid Hnl Hp)|].
  intros _ s1 (l1 & sl1 & st & Hrq & Hok1 & [Hcpu Hcpuid _ Hcurr Hsq] & Hstate).
  apply wp_bind. eapply wp_mono; [by apply remove_first_run|].
  intros t s2 (-> & Hok2 & h & y & ->). set (t := default IDLE_THREAD_TID (head l1)).
  assert (Ht : is_tid t /\ t ∉ tail l1).
  { pose proof (so_ready _ _ _ Hok1) as [_ _ Htids Hnd _ _]. subst t. destruct l1 as [|u l1]; cbn.
    - split; [unfold is_tid, IDLE_THREAD_TID; done|apply not_elem_of_nil].
    - apply Forall_cons in Htids as [? _]. apply NoDup_cons in Hnd as [? _]. split; [unfold is_tid; lia|done]. }
  destruct Ht as [Ht Hnt]. set (s2 := with_ready h y s1) in *.
  apply wp_bind, wp_upd_thread; [by eapply so_table|done|]. apply wp_bind, wp_release, wp_bind.
  unfold wp at 1, set_current. cbn [scheduler_current_thread k_cpuid with_cpu HasCpu_kernel with_kcpu with_threads upd with_ready s2].
  change (scheduler_current_thread s2) with (scheduler_current_thread s1). change (k_cpuid s2) with (k_cpuid s1).
  rewrite Hcurr, Hcpuid. change (scheduler_current_thread s0) with (scheduler_current_thread s).
  change (k_cpuid s0) with (k_cpuid s).
  assert (Hrange : 0 <= k_cpuid s < zlen (scheduler_current_thread s)).
  { apply rget_Ret in Hrun as [? Hlk]. apply lookup_lt_Some in Hlk. lia. }
  rewrite rset_in by done. apply wp_timer; [cbn; by rewrite Hcpu|].
  exists l1, sl1, st. set (s3 := upd s2 t (set_state THREAD_RUNNING)).
  assert (Hok3 : sched_ok s3 (tail l1) sl1) by (by apply sched_ok_state).
  assert (Hs3 : table_ok s2) by (by eapply so_table).
  split; [by apply (requeue_same s s0)|]. split.
  { pose proof Hok3 as [Ht3 Hr3 Hsl3 Hlth3 Hsth3]. split; [exact Ht3| | |exact Hlth3|exact Hsth3].
    - by apply (ready_ok_frame s3).
    - by apply (sleepers_same s3). }
  split; [|split; [|split; [|split]]].
  - unfold running. cbn. rewrite Hcpuid. change (k_cpuid s0) with (k_cpuid s).
    apply rget_Ret. split; [lia|]. apply list_lookup_insert_eq. lia.
  - change (state (thr s3 t) = THREAD_RUNNING). subst s3. by rewrite thr_upd_eq.
  - intros Hne. change (state (thr s3 cur) = st). subst s3. rewrite thr_upd_ne by (done || apply Hid). exact Hstate.
  - cbn. rewrite Hcpu. subst s0. cbn. rewrite held_release by done. by destruct (k_cpu s).
  - cbn. exact Hsq.
Qed.
End schedule.

(** ** The theorems *)

Section theorems.
Context `{Symbols}.

(** Claim C37. [scheduler_add_to_ready_list] implements a two-level queue: it
    inserts the thread behind every ready thread of its own or higher
    priority and in front of the others, whatever the shape of the list, and
    changes nothing but [next] fields of the threads concerned and the ends of
    the list. The walk over the high priority threads stops. *)
Theorem ready_list_priority_fifo s t l :
  table_ok s -> ready_ok s l -> 0 < t < CONFIG_MAX_THREADS -> t ∉ l -> valid_prio (prio s t) ->
  wp (scheduler_add_to_ready_list t) (fun _ s' =>
    ready_ok s' (insert_by (prio s) t l) /\ devices_kept s s' /\
    (forall u, 0 <= u -> u ∉ t :: l -> thr s' u = thr s u) /\
    (forall u, 0 <= u -> only_next (thr s u) (thr s' u))) s.
Proof.
  intros Hs Hr Ht Hn Hp. eapply wp_mono; [by apply (add_to_ready_run s t l)|].
  intros _ s' [Hr' Hre]. split_and!; [done|by eapply relinked_devices|apply Hre|].
  intros u Hu. apply (rl_next _ _ _ Hre u Hu).
Qed.

(** Claim C36. [scheduler_schedule] keeps the scheduler's invariant and
    decides as follows. A dying thread's entry is freed; a thread that waits
    for a resource or for a time goes to sleep; any other thread but the idle
    thread goes back to the ready list behind its priority; and when the idle
    thread was running, exactly the sleepers whose time has passed are made
    ready, in the order of their wake-up times. Then the first ready thread
    runs, or the idle thread when there is none. The interrupt state and the
    spinlocks are as before. *)
Theorem scheduler_schedule_correct rand s cur l sl :
  sched_ok s l sl -> running s cur -> is_tid cur -> cur ∉ l -> valid_prio (prio s cur) ->
  cpu_ready thread_table_slock (k_cpu s) ->
  wp (scheduler_schedule rand) (fun _ s' => exists l1 sl1 st,
    requeue s cur l sl l1 sl1 st /\ sched_ok s' (tail l1) sl1 /\
    running s' (default IDLE_THREAD_TID (head l1)) /\
    state (thr s' (default IDLE_THREAD_TID (head l1))) = THREAD_RUNNING /\
    (cur <> default IDLE_THREAD_TID (head l1) -> state (thr s' cur) = st) /\ k_cpu s' = k_cpu s) s.
Proof.
  intros. eapply wp_mono; [by apply (schedule_run rand s cur l sl)|].
  intros _ s' (l1 & sl1 & st & Hrq & Hok & Hr & Hst & Hc & Hcpu & _). by exists l1, sl1, st.
Qed.
End theorems.

(** Threads 1 (normal) and 2 (high priority) are ready, in that order of
    creation; 3 runs. *)
Definition ready_kernel : kernel :=
  mk_kernel idle_cpu 0 700 0
    (plain_thread THREAD_READY (-1) (-1) 0 1 :: plain_thread THREAD_READY (-1) (-1) 0 1
       :: plain_thread THREAD_READY 1 (-1) 0 0 :: plain_thread THREAD_RUNNING (-1) (-1) 0 1
       :: replicate 28 (plain_thread THREAD_FREE (-1) (-1) 0 1))
    (-1) 0 4 [3; 0; 0; 0] 2 1 (replicate 127 (-1)).

Lemma ready_kernel_ok : sched_ok ready_kernel [2; 1] [].
Proof.
  split; [reflexivity| | | |].
  - split; [vm_check|reflexivity|repeat constructor; vm_check| | |].
    + repeat constructor; [rewrite list_elem_of_singleton; discriminate|apply not_elem_of_nil].
    + constructor; [by left|constructor; [by right|constructor]].
    + cbn. repeat constructor; vm_check.
  - split; [reflexivity|constructor|constructor|done].
  - intros t [->|[->|Ht%not_elem_of_nil]%elem_of_cons]%elem_of_cons; done.
  - intros t Ht%not_elem_of_nil. done.
Qed.

Lemma ready_list_priority_fifo_witness :
  wp (scheduler_add_to_ready_list 3) (fun _ s' => ready_ok s' [2; 1; 3]) ready_kernel.
Proof.
  eapply wp_mono.
  - apply (ready_list_priority_fifo ready_kernel 3 [2; 1]).
    + reflexivity.
    + apply ready_kernel_ok.
    + vm_check.
    + rewrite !not_elem_of_cons. repeat split; [discriminate|discriminate|apply not_elem_of_nil].
    + by right.
  - intros _ s' [Hr _]. exact Hr.
Defined.

Lemma scheduler_schedule_correct_witness :
  wp (@scheduler_schedule example_symbols 5) (fun _ s' => exists t, running s' t /\ state (thr s' t) = THREAD_RUNNING) ready_kernel.
Proof.
  eapply wp_mono.
  - apply (@scheduler_schedule_correct example_symbols 5 ready_kernel 3 [2; 1] []).
    + exact ready_kernel_ok.
    + reflexivity.
    + vm_check.
    + rewrite !not_elem_of_cons. repeat split; [discriminate|discriminate|apply not_elem_of_nil].
    + by right.
    + split; [vm_check|apply not_elem_of_empty].
  - intros _ s' (l1 & sl1 & st & _ & _ & Hr & Hst & _). eexists. split; [exact Hr|exact Hst].
Defined.

Example schedule_picks_high :
  match @scheduler_schedule example_symbols 5 ready_kernel with
  | Ret (_, s') => scheduler_current_thread s' = [2; 0; 0; 0] /\ k_timer s' = 380
  | Fail _ => False
  end.
Proof. vm_compute. split; reflexivity. Qed.

(** Unlike [sleepq_wake], waking a timed sleeper does not look at its state.
    Thread 1 on processor 0 has entered [thread_sleep 0] and not switched yet;
    a millisecond later the idle thread of processor 1 is rescheduled, finds
    the time expired and runs thread 1 itself; when processor 0 then switches,
    thread 1 is put on the ready list and chosen again: it runs on both. *)
Definition on_cpu (cpuid clock : Z) (s : kernel) : kernel :=
  mk_kernel idle_cpu cpuid clock (k_timer s) (thread_table s) (thread_next_sleeper_id s) (next_tid_priority s)
    (next_tid s) (scheduler_current_thread s) (ready_head s) (ready_tail s) (sleepq_hashtable s).
Example timed_sleep_runs_twice :
  match (_ ← @thread_sleep example_symbols 0;
         _ ← modify (on_cpu 1 701);
         _ ← @scheduler_schedule example_symbols 0;
         _ ← modify (on_cpu 0 701);
         @scheduler_schedule example_symbols 0)
        (with_current [1; 0; 0; 0] (with_sleeper (-1) small_kernel)) with
  | Ret (_, s') => scheduler_current_thread s' = [1; 1; 0; 0]
  | Fail _ => False
  end.
Proof. vm_compute. reflexivity. Qed.
