(* ===== verification/Waiting.v ===== *)
(** * Threads waiting for resources: what the sleep queue promises

    Semaphores, locks and condition variables are built on two things: which
    thread calls, and queues of threads that wait for a resource, named by an
    address.  The class states what they rely on; [Sleepq.v] shows that
    kernel/sleepq.c over the thread table and the scheduler provides it. *)
From S2P Require Import Prelude Cpu.

(** Addresses a resource can have. *)
Definition is_resource (r : Z) : Prop := 0 < r < 4294967296.

Class SleepQueues (K : Type) `{!HasCpu K, !Symbols} := {
  current_thread : M K Z;
  sq_add : Z -> M K unit;
  sq_wake : Z -> M K unit;
  sq_wake_all : Z -> M K unit;

  (** The specification: an invariant, the calling thread, and for each
      resource the threads that wait, first come first. *)
  sq_ok : K -> Prop;
  cur_of : K -> Z;
  waiting : K -> Z -> list Z;

  sq_ok_cpu s c : sq_ok s -> sq_ok (with_cpu c s);
  cur_of_cpu s c : cur_of (with_cpu c s) = cur_of s;
  waiting_cpu s c r : waiting (with_cpu c s) r = waiting s r;

  current_spec s (Q : Z -> K -> Prop) :
    sq_ok s -> is_u32 (status (cpu_of s)) -> Q (cur_of s) s -> wp current_thread Q s;

  (** The caller waits behind the others; it must not wait already, must not
      be the idle thread, and must have disabled interrupts. *)
  sq_add_spec s r :
    sq_ok s -> is_resource r -> is_u32 (status (cpu_of s)) -> interrupts_off (status (cpu_of s)) ->
    sleepq_slock ∉ held (cpu_of s) -> cur_of s <> 0 -> (forall r', is_resource r' -> cur_of s ∉ waiting s r') ->
    wp (sq_add r) (fun _ s' => sq_ok s' /\ cpu_of s' = cpu_of s /\ cur_of s' = cur_of s /\
      forall r', is_resource r' ->
        waiting s' r' = if r' =? r then waiting s r ++ [cur_of s] else waiting s r') s;

  (** The first thread that waits, if any, no longer waits. *)
  sq_wake_spec s r :
    sq_ok s -> is_resource r -> is_u32 (status (cpu_of s)) ->
    sleepq_slock ∉ held (cpu_of s) -> thread_table_slock ∉ held (cpu_of s) ->
    wp (sq_wake r) (fun _ s' => sq_ok s' /\ cpu_of s' = cpu_of s /\ cur_of s' = cur_of s /\
      forall r', is_resource r' -> waiting s' r' = if r' =? r then tail (waiting s r) else waiting s r') s;

  (** No thread waits for the resource any more. *)
  sq_wake_all_spec s r :
    sq_ok s -> is_resource r -> is_u32 (status (cpu_of s)) ->
    sleepq_slock ∉ held (cpu_of s) -> thread_table_slock ∉ held (cpu_of s) ->
    wp (sq_wake_all r) (fun _ s' => sq_ok s' /\ cpu_of s' = cpu_of s /\ cur_of s' = cur_of s /\
      forall r', is_resource r' -> waiting s' r' = if r' =? r then [] else waiting s r') s
}.

(** ** A component's table beside the rest of the kernel *)
Record over (T K : Type) := mk_over { tab : T; sys : K }.
Arguments mk_over {T K} tab sys.
Arguments tab {T K} o.
Arguments sys {T K} o.

#[export] Instance HasCpu_over {T K} `{!HasCpu K} : HasCpu (over T K).
Proof.
  refine {| cpu_of s := cpu_of (sys s); with_cpu c s := mk_over (tab s) (with_cpu c (sys s)) |}.
  - intros c s. apply cpu_of_with.
  - intros [t k]. cbn. by rewrite with_cpu_of.
  - intros c c' s. cbn. by rewrite with_cpu_with.
Defined.

Definition on_sys {T K A} (m : M K A) : M (over T K) A := fun s =>
  match m (sys s) with Ret (a, k) => Ret (a, mk_over (tab s) k) | Fail f => Fail f end.
Definition on_tab {T K A} (m : M T A) : M (over T K) A := fun s =>
  match m (tab s) with Ret (a, t) => Ret (a, mk_over t (sys s)) | Fail f => Fail f end.

Lemma wp_on_sys {T K A} (m : M K A) (Q : A -> over T K -> Prop) s :
  wp m (fun a k => Q a (mk_over (tab s) k)) (sys s) -> wp (on_sys m) Q s.
Proof. unfold wp, on_sys. by destruct (m (sys s)) as [[a k]|f]. Qed.
Lemma wp_on_tab {T K A} (m : M T A) (Q : A -> over T K -> Prop) s :
  wp m (fun a t => Q a (mk_over t (sys s))) (tab s) -> wp (on_tab m) Q s.
Proof. unfold wp, on_tab. by destruct (m (tab s)) as [[a k]|f]. Qed.

(** The table beside does not change what the queues promise. *)
#[export] Instance SleepQueues_over {T K} `{!HasCpu K, !Symbols, SQ : !SleepQueues K} : SleepQueues (over T K).
Proof.
  refine {|
    current_thread := on_sys current_thread;
    sq_add r := on_sys (sq_add r);
    sq_wake r := on_sys (sq_wake r);
    sq_wake_all r := on_sys (sq_wake_all r);
    sq_ok s := sq_ok (sys s);
    cur_of s := cur_of (sys s);
    waiting s r := waiting (sys s) r
  |}.
  - intros s c. apply sq_ok_cpu.
  - intros s c. apply cur_of_cpu.
  - intros s c r. apply waiting_cpu.
  - intros [t k] Q H1 H2 H3. by apply wp_on_sys, current_spec.
  - intros s r H1 H2 H3 H4 H5 H6 H7. apply wp_on_sys. eapply wp_mono; [by apply sq_add_spec|]. done.
  - intros s r H1 H2 H3 H4 H5. apply wp_on_sys. eapply wp_mono; [by apply sq_wake_spec|]. done.
  - intros s r H1 H2 H3 H4 H5. apply wp_on_sys. eapply wp_mono; [by apply sq_wake_all_spec|]. done.
Defined.

(** The operations leave the table alone. *)
Section over_facts.
Context {T K : Type} `{!HasCpu K, !Symbols, SQ : !SleepQueues K}.
Implicit Types s : over T K.

Lemma over_cur s (Q : Z -> over T K -> Prop) :
  sq_ok s -> is_u32 (status (cpu_of s)) -> Q (cur_of s) s -> wp current_thread Q s.
Proof. apply current_spec. Qed.

Lemma over_add s r :
  sq_ok s -> is_resource r -> is_u32 (status (cpu_of s)) -> interrupts_off (status (cpu_of s)) ->
  sleepq_slock ∉ held (cpu_of s) -> cur_of s <> 0 -> (forall r', is_resource r' -> cur_of s ∉ waiting s r') ->
  wp (sq_add r) (fun _ s' => tab s' = tab s /\ sq_ok s' /\ cpu_of s' = cpu_of s /\ cur_of s' = cur_of s /\
    forall r', is_resource r' ->
      waiting s' r' = if r' =? r then waiting s r ++ [cur_of s] else waiting s r') s.
Proof. intros. apply wp_on_sys. eapply wp_mono; [by apply sq_add_spec|]. done. Qed.

Lemma over_wake s r :
  sq_ok s -> is_resource r -> is_u32 (status (cpu_of s)) ->
  sleepq_slock ∉ held (cpu_of s) -> thread_table_slock ∉ held (cpu_of s) ->
  wp (sq_wake r) (fun _ s' => tab s' = tab s /\ sq_ok s' /\ cpu_of s' = cpu_of s /\ cur_of s' = cur_of s /\
    forall r', is_resource r' -> waiting s' r' = if r' =? r then tail (waiting s r) else waiting s r') s.
Proof. intros. apply wp_on_sys. eapply wp_mono; [by apply sq_wake_spec|]. done. Qed.

Lemma over_wake_all s r :
  sq_ok s -> is_resource r -> is_u32 (status (cpu_of s)) ->
  sleepq_slock ∉ held (cpu_of s) -> thread_table_slock ∉ held (cpu_of s) ->
  wp (sq_wake_all r) (fun _ s' => tab s' = tab s /\ sq_ok s' /\ cpu_of s' = cpu_of s /\ cur_of s' = cur_of s /\
    forall r', is_resource r' -> waiting s' r' = if r' =? r then [] else waiting s r') s.
Proof. intros. apply wp_on_sys. eapply wp_mono; [by apply sq_wake_all_spec|]. done. Qed.

(** Changes to the table and the processor do not change the queues. *)
Lemma over_quiet s s' c :
  sys s' = with_cpu c (sys s) ->
  cpu_of s' = c /\ (forall r, waiting s' r = waiting s r) /\ cur_of s' = cur_of s /\ (sq_ok s -> sq_ok s').
Proof.
  intros Heq. cbn. rewrite Heq. split; [apply cpu_of_with|]. split; [intros r; apply waiting_cpu|].
  split; [apply cur_of_cpu|apply sq_ok_cpu].
Qed.
End over_facts.

(** ** Addresses *)
Section layout.
Context `{Symbols, HL : !Layout}.

Lemma object_resource a : a ∈ spinlock_addresses -> is_resource a.
Proof. destruct HL as [_ Hr]. rewrite Forall_forall in Hr. apply Hr. Qed.

Lemma objects_differ (i j : nat) a b :
  spinlock_addresses !! i = Some a -> spinlock_addresses !! j = Some b -> i <> j -> a <> b.
Proof. intros Hi Hj Hne ->. apply Hne. destruct HL as [Hn _]. by eapply NoDup_lookup. Qed.

Lemma sem_addr_lookup i : 0 <= i < CONFIG_MAX_SEMAPHORES -> spinlock_addresses !! (6 + Z.to_nat i)%nat = Some (sem_addr i).
Proof.
  intros Hi. unfold spinlock_addresses. rewrite lookup_app_r by (cbn; lia). cbn [length].
  replace (6 + Z.to_nat i - 6)%nat with (Z.to_nat i) by lia.
  rewrite lookup_app_l by (rewrite length_fmap, length_seqZ; lia).
  rewrite list_lookup_fmap, lookup_seqZ_lt by lia. cbn. do 2 f_equal. lia.
Qed.
Lemma lock_addr_lookup i : 0 <= i < CONFIG_MAX_LOCKS -> spinlock_addresses !! (134 + Z.to_nat i)%nat = Some (lock_addr i).
Proof.
  intros Hi. unfold spinlock_addresses. rewrite lookup_app_r by (cbn; lia). cbn [length].
  rewrite lookup_app_r by (rewrite length_fmap, length_seqZ; unfold CONFIG_MAX_SEMAPHORES; lia).
  rewrite length_fmap, length_seqZ. replace (134 + Z.to_nat i - 6 - Z.to_nat CONFIG_MAX_SEMAPHORES)%nat with (Z.to_nat i)
    by (unfold CONFIG_MAX_SEMAPHORES; lia).
  rewrite lookup_app_l by (rewrite length_fmap, length_seqZ; lia).
  rewrite list_lookup_fmap, lookup_seqZ_lt by lia. cbn. do 2 f_equal. lia.
Qed.
Lemma cond_addr_lookup i :
  0 <= i < CONFIG_MAX_CONDITION_VARIABLES -> spinlock_addresses !! (262 + Z.to_nat i)%nat = Some (cond_addr i).
Proof.
  intros Hi. unfold spinlock_addresses. rewrite lookup_app_r by (cbn; lia). cbn [length].
  rewrite !lookup_app_r by (rewrite ?length_fmap, ?length_seqZ; unfold CONFIG_MAX_SEMAPHORES, CONFIG_MAX_LOCKS; lia).
  rewrite !length_fmap, !length_seqZ.
  replace (262 + Z.to_nat i - 6 - Z.to_nat CONFIG_MAX_SEMAPHORES - Z.to_nat CONFIG_MAX_LOCKS)%nat with (Z.to_nat i)
    by (unfold CONFIG_MAX_SEMAPHORES, CONFIG_MAX_LOCKS; lia).
  rewrite list_lookup_fmap, lookup_seqZ_lt by lia. cbn. do 2 f_equal. lia.
Qed.
End layout.

(** Spinlocks nobody holds when a kernel routine is called. *)
Definition locks_free `{Symbols} (c : cpu) : Prop :=
  is_u32 (status c) /\ forall a, a ∈ spinlock_addresses -> a ∉ held c.

Lemma locks_free_spin `{Symbols} c :
  locks_free c -> sleepq_slock ∉ held c /\ thread_table_slock ∉ held c /\ semaphore_table_slock ∉ held c /\
    lock_table_slock ∉ held c /\ cond_table_slock ∉ held c.
Proof.
  intros [_ Hf].
  split_and!; apply Hf, elem_of_app; left; [do 2 right; left|right; left|do 3 right; left|do 4 right; left|do 5 right; left].
Qed.
