(* ===== verification/Sleepq.v ===== *)
(** * kernel/sleepq.c: the sleep queue

    A hash table of lists of threads, chained through the thread table; a list
    holds the threads of all resources with the same hash, and the order among
    the threads of one resource is first in, first out.  The last part shows
    that the module provides the interface of [Waiting.v]. *)
From S2P Require Import Prelude Cpu Chain Thread Scheduler Waiting.

Definition SLEEPQ_HASHTABLE_SIZE : Z := 127.

(** ** The code *)

Definition SLEEPQ_HASH (res : Z) : Z := res mod SLEEPQ_HASHTABLE_SIZE.

Definition get_bucket (hash : Z) : M kernel Z := fun s =>
  match rget (sleepq_hashtable s) hash with Ret t => Ret (t, s) | Fail f => Fail f end.
Definition set_bucket (hash t : Z) : M kernel unit := fun s =>
  tab ← rset (sleepq_hashtable s) hash t; Ret (tt, with_sleepq tab s).

Section sleepq.
Context `{Symbols}.

Definition sleepq_init : M kernel unit :=
  _ ← modify (with_sleepq (replicate (Z.to_nat SLEEPQ_HASHTABLE_SIZE) (-1)));
  spinlock_reset sleepq_slock.

(** [while (thread_table[prev].next > 0) prev = thread_table[prev].next] *)
Fixpoint find_tail (fuel : nat) (prev : Z) : M kernel Z :=
  match fuel with
  | O => fail Timeout
  | S fuel =>
      th ← get_thread prev;
      if next th >? 0 then find_tail fuel (next th) else mret prev
  end.
Definition sleepq_add (resource : Z) : M kernel unit :=
  intr_state ← interrupt_get_state;
  _ ← kassert ((Z.land intr_state INTERRUPT_MASK_ALL =? 0) || (Z.land intr_state INTERRUPT_MASK_MASTER =? 0));
  let hash := SLEEPQ_HASH resource in
  my_tid ← thread_get_current_thread;
  _ ← upd_thread my_tid (set_next (-1));
  _ ← upd_thread my_tid (set_sleeps_on resource);
  _ ← kassert (negb (my_tid =? IDLE_THREAD_TID));
  _ ← spinlock_acquire sleepq_slock;
  h ← get_bucket hash;
  _ ← (if h <=? 0 then set_bucket hash my_tid
       else
         prev ← find_tail (Z.to_nat CONFIG_MAX_THREADS) h;
         upd_thread prev (set_next my_tid));
  spinlock_release sleepq_slock.

(** The search for a thread that waits for [resource]: it and the one before
    it. *)
Fixpoint find_waiter (fuel : nat) (resource prev first : Z) : M kernel (Z * Z) :=
  match fuel with
  | O => fail Timeout
  | S fuel =>
      if first >? 0 then
        th ← get_thread first;
        if sleeps_on th =? resource then mret (prev, first)
        else find_waiter fuel resource first (next th)
      else mret (prev, first)
  end.
(** Taking [first] out of the list, and making it ready if it sleeps. *)
Definition unlink_waiter (hash prev first : Z) : M kernel Z :=
  th ← get_thread first;
  _ ← (if prev <=? 0 then set_bucket hash (next th) else upd_thread prev (set_next (next th)));
  mret (next th).
Definition make_ready (first : Z) : M kernel unit :=
  _ ← spinlock_acquire thread_table_slock;
  _ ← upd_thread first (set_sleeps_on 0);
  _ ← upd_thread first (set_next (-1));
  th ← get_thread first;
  _ ← (if decide (state th = THREAD_SLEEPING) then
         _ ← upd_thread first (set_state THREAD_READY);
         scheduler_add_to_ready_list first
       else mret tt);
  spinlock_release thread_table_slock.

Definition sleepq_wake (resource : Z) : M kernel unit :=
  let hash := SLEEPQ_HASH resource in
  critical sleepq_slock (
    h ← get_bucket hash;
    '(prev, first) ← find_waiter (Z.to_nat CONFIG_MAX_THREADS) resource (-1) h;
    if first >? 0 then
      _ ← unlink_waiter hash prev first;
      make_ready first
    else mret tt).

(** The traversal of [sleepq_wake_all]; a woken thread leaves [prev] where it
    is. *)
Fixpoint wake_all_loop (fuel : nat) (hash resource prev first : Z) : M kernel unit :=
  match fuel with
  | O => fail Timeout
  | S fuel =>
      if first >? 0 then
        '(prev, wake) ← find_waiter (Z.to_nat CONFIG_MAX_THREADS) resource prev first;
        if wake >? 0 then
          first ← unlink_waiter hash prev wake;
          _ ← make_ready wake;
          wake_all_loop fuel hash resource prev first
        else wake_all_loop fuel hash resource prev wake
      else mret tt
  end.
Definition sleepq_wake_all (resource : Z) : M kernel unit :=
  let hash := SLEEPQ_HASH resource in
  critical sleepq_slock (
    h ← get_bucket hash;
    wake_all_loop (S (Z.to_nat CONFIG_MAX_THREADS)) hash resource (-1) h).
End sleepq.

(** ** The invariant *)

(** [l] is the ready list, [sl] the timed sleepers and [q b] the list of bucket
    [b] of the hash table. *)
Record queues_ok (s : kernel) (l sl : list Z) (q : Z -> list Z) : Prop := {
  qo_sched : sched_ok s l sl;
  qo_len : zlen (sleepq_hashtable s) = SLEEPQ_HASHTABLE_SIZE;
  qo_chain : forall b, 0 <= b < SLEEPQ_HASHTABLE_SIZE ->
    chain (fun t => next (thr s t)) (sleepq_hashtable s !!! Z.to_nat b) (q b);
  qo_nodup : forall b, 0 <= b < SLEEPQ_HASHTABLE_SIZE -> NoDup (q b);
  qo_th : forall b t, 0 <= b < SLEEPQ_HASHTABLE_SIZE -> t ∈ q b ->
    0 < t < CONFIG_MAX_THREADS /\ is_resource (sleeps_on (thr s t)) /\ SLEEPQ_HASH (sleeps_on (thr s t)) = b /\
    valid_prio (prio s t) /\ wakeup_time (thr s t) = 0
}.

(** A thread that waits is neither ready nor a timed sleeper. *)
Lemma queued_elsewhere s l sl q b t :
  queues_ok s l sl q -> 0 <= b < SLEEPQ_HASHTABLE_SIZE -> t ∈ q b -> t ∉ l /\ t ∉ sl.
Proof.
  intros [Hs _ _ _ Hth] Hb Ht. destruct (Hth b t Hb Ht) as (_ & Hso & _ & _ & Hw). split.
  - intros Hin. destruct (so_ready_th _ _ _ Hs t Hin) as (_ & Hz & _). unfold is_resource in Hso. lia.
  - intros Hin. by destruct (so_sleep_th _ _ _ Hs t Hin) as (_ & _ & _ & ?).
Qed.

Lemma queued_once s l sl q b b' t :
  queues_ok s l sl q -> 0 <= b < SLEEPQ_HASHTABLE_SIZE -> 0 <= b' < SLEEPQ_HASHTABLE_SIZE ->
  t ∈ q b -> t ∈ q b' -> b = b'.
Proof.
  intros [_ _ _ _ Hth] Hb Hb' Ht Ht'. destruct (Hth b t Hb Ht) as (_ & _ & <- & _).
  by destruct (Hth b' t Hb' Ht') as (_ & _ & <- & _).
Qed.

(** One list replaced. *)
Definition with_list (q : Z -> list Z) (b : Z) (x : list Z) : Z -> list Z :=
  fun b' => if b' =? b then x else q b'.

Lemma bucket_lookup s b h :
  zlen (sleepq_hashtable s) = SLEEPQ_HASHTABLE_SIZE -> 0 <= b < SLEEPQ_HASHTABLE_SIZE ->
  sleepq_hashtable s !!! Z.to_nat b = h -> rget (sleepq_hashtable s) b = Ret h.
Proof.
  intros Hl Hb <-. apply rget_Ret. split; [lia|]. apply list_lookup_lookup_total_lt. lia.
Qed.

Lemma wp_get_bucket s b (Q : Z -> kernel -> Prop) :
  zlen (sleepq_hashtable s) = SLEEPQ_HASHTABLE_SIZE -> 0 <= b < SLEEPQ_HASHTABLE_SIZE ->
  Q (sleepq_hashtable s !!! Z.to_nat b) s -> wp (get_bucket b) Q s.
Proof. intros Hl Hb HQ. unfold wp, get_bucket. by rewrite (bucket_lookup s b _ Hl Hb eq_refl). Qed.

Lemma wp_set_bucket s b t (Q : unit -> kernel -> Prop) :
  zlen (sleepq_hashtable s) = SLEEPQ_HASHTABLE_SIZE -> 0 <= b < SLEEPQ_HASHTABLE_SIZE ->
  Q tt (with_sleepq (<[Z.to_nat b := t]> (sleepq_hashtable s)) s) -> wp (set_bucket b t) Q s.
Proof. intros Hl Hb HQ. unfold wp, set_bucket. rewrite rset_in by lia. exact HQ. Qed.

Lemma hash_range r : 0 <= SLEEPQ_HASH r < SLEEPQ_HASHTABLE_SIZE.
Proof. apply Z.mod_pos_bound. done. Qed.

(** The scheduler's part does not look at [sleeps_on], [next] and the state of
    threads outside its lists. *)
Lemma sched_ok_frame s s' l sl :
  table_ok s' -> ready_head s' = ready_head s -> ready_tail s' = ready_tail s ->
  thread_next_sleeper_id s' = thread_next_sleeper_id s ->
  (forall t, t ∈ l \/ t ∈ sl -> thr s' t = thr s t) -> sched_ok s l sl -> sched_ok s' l sl.
Proof.
  intros Hs' Hh Ht Hn Hthr [Hs Hr Hsl Hl Hsth]. split.
  - done.
  - apply (ready_ok_frame s); [|done|done|done]. intros t Hin. unfold prio. by rewrite Hthr by (by left).
  - apply (sleepers_frame s); [|done|done]. intros t Hin. by rewrite Hthr by (by right).
  - intros t Hin. rewrite Hthr by (by left). by apply Hl.
  - intros t Hin. unfold prio. rewrite Hthr by (by right). by apply Hsth.
Qed.

(** ** The walks *)

Lemma find_waiter_run fuel r s a b :
  table_ok s -> chain (fun t => next (thr s t)) (default (-1) (head b)) b ->
  Forall (fun t => 0 < t < CONFIG_MAX_THREADS) b -> (length b < fuel)%nat ->
  Forall (fun t => sleeps_on (thr s t) <> r) a ->
  wp (find_waiter fuel r (default (-1) (last a)) (default (-1) (head b))) (fun pf s' => s' = s /\
    exists a' b', a ++ b = a' ++ b' /\ pf = (default (-1) (last a'), default (-1) (head b')) /\
      Forall (fun t => sleeps_on (thr s t) <> r) a' /\
      (forall t, head b' = Some t -> 0 < t < CONFIG_MAX_THREADS /\ sleeps_on (thr s t) = r) /\
      (length b' <= length b)%nat) s.
Proof.
  intros Hs. revert a b. induction fuel as [|fuel IH]; intros a b Hc Ht Hf Ha; [lia|]. cbn [find_waiter].
  destruct b as [|t b].
  - apply wp_ret. split; [done|]. exists a, []. by split_and!.
  - change (default (-1) (head (t :: b))) with t. apply Forall_cons in Ht as [Ht Htb].
    rewrite (proj2 (Z.gtb_lt t 0)) by lia. apply wp_bind, wp_get_thread; [done|unfold is_tid; lia|].
    destruct (Z.eqb_spec (sleeps_on (thr s t)) r) as [Hr|Hr].
    + apply wp_ret. split; [done|]. exists a, (t :: b). split_and!; try done. by intros ? [= <-].
    + destruct Hc as [_ Hc]. pose proof (chain_head _ _ _ Hc) as Hh.
      rewrite Hh by (eapply Forall_impl; [exact Htb|cbn; lia]).
      assert (Hlast : last (a ++ [t]) = Some t) by apply last_snoc.
      specialize (IH (a ++ [t]) b). rewrite Hlast in IH. change (default (-1) (Some t)) with t in IH.
      eapply wp_mono.
      { apply IH; [|done|cbn in Hf; lia|apply Forall_app; split; [done|by constructor]].
        rewrite <- Hh by (eapply Forall_impl; [exact Htb|cbn; lia]). exact Hc. }
      intros pf s' (-> & a' & b' & Hab & Hrest & Ha' & Hb' & Hlen). split; [done|]. exists a', b'.
      split_and!; try done; [by rewrite <- Hab, <- app_assoc|cbn; lia].
Qed.

Lemma find_tail_run fuel s p b :
  table_ok s -> chain (fun t => next (thr s t)) p (p :: b) ->
  Forall (fun t => 0 < t < CONFIG_MAX_THREADS) (p :: b) -> (length (p :: b) <= fuel)%nat ->
  wp (find_tail fuel p) (fun x s' => s' = s /\ last (p :: b) = Some x) s.
Proof.
  intros Hs. revert p b. induction fuel as [|fuel IH]; intros p b Hc Ht Hf; [cbn in Hf; lia|]. cbn [find_tail].
  pose proof Ht as [Hp Hb]%Forall_cons. apply wp_bind, wp_get_thread; [done|unfold is_tid; lia|].
  destruct Hc as [_ Hc]. destruct b as [|u b].
  - cbn in Hc. rewrite Hc. apply wp_ret. done.
  - destruct Hc as [Hn Hc]. rewrite Hn. pose proof Hb as [Hu _]%Forall_cons.
    rewrite (proj2 (Z.gtb_lt u 0)) by lia. change (last (p :: u :: b)) with (last (u :: b)).
    apply IH; [by split|done|cbn in *; lia].
Qed.

(** ** Waking one thread *)

Definition same_sys (s s' : kernel) : Prop :=
  k_cpu s' = k_cpu s /\ k_cpuid s' = k_cpuid s /\ scheduler_current_thread s' = scheduler_current_thread s.

(** Thread [w] out of its list, not waiting any more and, if it slept, ready;
    no other thread's state or resource changes. *)
Definition woken (s s' : kernel) (w : Z) (l' : list Z) : Prop :=
  sleeps_on (thr s' w) = 0 /\
  (state (thr s w) = THREAD_SLEEPING -> state (thr s' w) = THREAD_READY /\ w ∈ l') /\
  (state (thr s w) <> THREAD_SLEEPING -> state (thr s' w) = state (thr s w)) /\
  forall u, 0 <= u -> priority (thr s' u) = priority (thr s u) /\ wakeup_time (thr s' u) = wakeup_time (thr s u) /\
    (u <> w -> sleeps_on (thr s' u) = sleeps_on (thr s u) /\ state (thr s' u) = state (thr s u)).

Lemma upd_id s t f : table_ok s -> is_tid t -> f (thr s t) = thr s t -> upd s t f = s.
Proof.
  unfold table_ok, is_tid, upd, thr. intros Hs Ht Hf. rewrite Hf.
  rewrite list_insert_id by (apply list_lookup_lookup_total_lt; lia). by destruct s.
Qed.

Lemma queues_ok_frame s s' l l' sl q :
  sched_ok s' l' sl -> sleepq_hashtable s' = sleepq_hashtable s ->
  (forall b t, 0 <= b < SLEEPQ_HASHTABLE_SIZE -> t ∈ q b -> thr s' t = thr s t) ->
  queues_ok s l sl q -> queues_ok s' l' sl q.
Proof.
  intros Hsched Hh Hthr [_ Hl Hc Hn Hth]. split; rewrite ?Hh; try done.
  - intros b Hb. eapply seg_ext; [|by apply Hc]. intros t Ht. cbn. by rewrite (Hthr b t).
  - intros b t Hb Ht. unfold prio. rewrite (Hthr b t) by done. by apply Hth.
Qed.

(** Not on any list. *)
Definition unlisted (l sl : list Z) (q : Z -> list Z) (w : Z) : Prop :=
  w ∉ l /\ w ∉ sl /\ forall b, 0 <= b < SLEEPQ_HASHTABLE_SIZE -> w ∉ q b.

Lemma listed_pos s l sl q t :
  queues_ok s l sl q -> (t ∈ l \/ t ∈ sl \/ exists b, 0 <= b < SLEEPQ_HASHTABLE_SIZE /\ t ∈ q b) -> 0 < t < CONFIG_MAX_THREADS.
Proof.
  intros [[_ Hr Hsl _ _] _ _ _ Hth] [Ht|[Ht|(b & Hb & Ht)]].
  - pose proof (rd_tids _ _ Hr) as H. rewrite Forall_forall in H. by apply H.
  - pose proof (sl_tids _ _ Hsl) as H. rewrite Forall_forall in H. by apply H.
  - by apply (Hth b t).
Qed.

(** Changing a thread that is on no list. *)
Lemma queues_ok_unlisted s l sl q w f :
  queues_ok s l sl q -> is_tid w -> unlisted l sl q w -> queues_ok (upd s w f) l sl q.
Proof.
  intros Hq Hid (Hl & Hsl & Hb). pose proof (so_table _ _ _ (qo_sched _ _ _ _ Hq)) as Hs.
  assert (Hthr : forall u, (u ∈ l \/ u ∈ sl \/ exists b, 0 <= b < SLEEPQ_HASHTABLE_SIZE /\ u ∈ q b) -> thr (upd s w f) u = thr s u).
  { intros u Hu. pose proof (listed_pos _ _ _ _ _ Hq Hu). apply thr_upd_ne; [done|done|lia|].
    intros ->. destruct Hu as [Hu|[Hu|(b & Hb0 & Hu)]]; [done|done|by apply (Hb b)]. }
  apply (queues_ok_frame s _ l); [|done| |exact Hq].
  - apply (sched_ok_frame s); [by apply upd_table_ok|done|done|done| |apply Hq]. intros u [Hu|Hu]; apply Hthr; auto.
  - intros b t Hb0 Ht. apply Hthr. right. right. by exists b.
Qed.

Section wake.
Context `{Symbols}.

Lemma unlink_waiter_run s l sl q h a w b :
  queues_ok s l sl q -> 0 <= h < SLEEPQ_HASHTABLE_SIZE -> q h = a ++ w :: b ->
  wp (unlink_waiter h (default (-1) (last a)) w) (fun n s' => n = default (-1) (head b) /\
    queues_ok s' l sl (with_list q h (a ++ b)) /\ same_sys s s' /\
    thr s' w = thr s w /\ forall u, 0 <= u -> only_next (thr s u) (thr s' u)) s.
Proof.
  intros Hq Hh Hqh. pose proof Hq as [Hsched Hlen Hc Hn Hth]. pose proof (so_table _ _ _ Hsched) as Hs.
  assert (Hin : forall u, u ∈ a ++ w :: b -> 0 < u < CONFIG_MAX_THREADS).
  { intros u Hu. rewrite <- Hqh in Hu. by apply (Hth h u). }
  assert (Hw : 0 < w < CONFIG_MAX_THREADS) by (apply Hin; set_solver).
  pose proof (Hc h Hh) as Hch. pose proof (Hn h Hh) as Hnd. rewrite Hqh in Hch, Hnd.
  apply seg_app in Hch as (k & Ha & -> & Hb).
  assert (Hnext : next (thr s w) = default (-1) (head b)).
  { apply (chain_head _ _ _ Hb). apply Forall_forall. intros u Hu. assert (0 < u < CONFIG_MAX_THREADS); [|lia]. apply Hin. set_solver. }
  assert (Hndab : NoDup (a ++ b) /\ w ∉ a ++ b).
  { rewrite <- Permutation_middle in Hnd. apply NoDup_cons in Hnd as [? ?]. done. }
  destruct Hndab as [Hndab Hwab].
  assert (Hsub : forall u, u ∈ a ++ b -> u ∈ q h) by (intros u Hu; rewrite Hqh; set_solver).
  assert (Hkeep : forall s', table_ok s' -> thread_table s' = thread_table s \/
      (exists p n, last a = Some p /\ s' = upd s p (set_next n)) ->
      forall u, 0 <= u -> only_next (thr s u) (thr s' u)).
  { intros s' Hs' [Ht|(p & n & Hp & ->)] u Hu.
    - exists (next (thr s u)). unfold thr. rewrite Ht. by rewrite set_next_same.
    - exists (if u =? p then n else next (thr s u)). apply thr_set_next; [done| |done].
      assert (0 < p < CONFIG_MAX_THREADS); [|unfold is_tid; lia]. apply Hin. apply last_Some in Hp as [a' ->]. set_solver. }
  unfold unlink_waiter. apply wp_bind, wp_get_thread; [done|unfold is_tid; lia|]. apply wp_bind.
  destruct (last a) as [p|] eqn:Ep.
  - assert (Hp : 0 < p < CONFIG_MAX_THREADS) by (apply Hin; apply last_Some in Ep as [a' ->]; set_solver).
    change (default (-1) (Some p)) with p. destruct (Z.leb_spec p 0); [lia|].
    apply wp_upd_thread; [done|unfold is_tid; lia|]. apply wp_ret. set (s' := upd s p _).
    assert (Hid : is_tid p) by (unfold is_tid; lia). pose proof (upd_table_ok s p (set_next (next (thr s w))) Hs) as Hs'.
    assert (Hpa : p ∈ a) by (apply last_Some in Ep as [a' ->]; set_solver).
    assert (Hother : forall u, 0 <= u -> u <> p -> thr s' u = thr s u) by (intros; by apply thr_upd_ne).
    assert (Hpl : p ∉ l /\ p ∉ sl) by (apply (queued_elsewhere s l sl q h p Hq Hh); apply Hsub; set_solver).
    split; [done|]. split; [|split; [done|split]].
    + split; try done.
      * apply (sched_ok_frame s); [exact Hs'|done|done|done| |exact Hsched].
        intros u Hu. apply Hother; [pose proof (listed_pos s l sl q u Hq ltac:(tauto)); lia|]. intros ->. by destruct Hu, Hpl.
      * intros b' Hb'. unfold with_list. destruct (Z.eqb_spec b' h) as [->|Hne].
        -- apply last_Some in Ep as [a' ->]. change (sleepq_hashtable s') with (sleepq_hashtable s).
           apply (seg_remove (fun t => next (thr s t)) _ _ a' p w b).
           ++ apply seg_app. exists w. split; [exact Ha|by split].
           ++ subst s'. by rewrite thr_upd_eq.
           ++ intros u Hu. rewrite Hother; [done| |].
              ** assert (0 < u < CONFIG_MAX_THREADS); [|lia]. apply Hin. set_solver.
              ** intros ->. rewrite <- app_assoc in Hndab. apply NoDup_app in Hndab as (_ & Hd & _). apply (Hd p Hu). set_solver.
           ++ intros u Hu. rewrite Hother; [done| |].
              ** assert (0 < u < CONFIG_MAX_THREADS); [|lia]. apply Hin. set_solver.
              ** intros ->. apply NoDup_app in Hndab as (_ & Hd & _). by apply (Hd p).
        -- eapply seg_ext; [|by apply Hc]. intros u Hu. cbn. rewrite Hother; [done|destruct (Hth b' u Hb' Hu) as [? _]; lia|].
           intros ->. apply Hne. eapply (queued_once s l sl q); [done|done|done|exact Hu|]. apply Hsub. set_solver.
      * intros b' Hb'. unfold with_list. destruct (b' =? h); [done|by apply Hn].
      * intros b' t Hb'. unfold with_list. destruct (Z.eqb_spec b' h) as [->|Hne]; intros Ht.
        -- unfold prio. destruct (Hkeep s' Hs' ltac:(right; by exists p, (next (thr s w))) t) as [n ->].
           { apply Hsub, (Hth h) in Ht as [? _]; [lia|done]. } cbn. by apply (Hth h); [|apply Hsub].
        -- unfold prio. destruct (Hkeep s' Hs' ltac:(right; by exists p, (next (thr s w))) t) as [n ->].
           { apply (Hth b') in Ht as [? _]; [lia|done]. } cbn. by apply (Hth b').
    + apply Hother; [lia|]. intros ->. apply Hwab. set_solver.
    + apply Hkeep; [done|]. right. by exists p, (next (thr s w)).
  - apply last_None in Ep as ->. change (default (-1) (None (A:=Z))) with (-1). cbn [app] in *.
    change (-1 <=? 0) with true. cbn iota. apply wp_set_bucket; [done|done|]. apply wp_ret.
    set (s' := with_sleepq _ s). split; [done|]. split; [|split; [done|split; [done|apply Hkeep; [done|by left]]]].
    split; try done.
    + by apply (sched_ok_frame s).
    + cbn. by rewrite length_insert.
    + intros b' Hb'. unfold with_list. cbn. destruct (Z.eqb_spec b' h) as [->|Hne].
      * rewrite list_lookup_total_insert_eq by lia. exact Hb.
      * rewrite list_lookup_total_insert_ne by lia. by apply Hc.
    + intros b' Hb'. unfold with_list. destruct (b' =? h); [done|by apply Hn].
    + intros b' t Hb'. unfold with_list. destruct (Z.eqb_spec b' h) as [->|Hne]; intros Ht; [|by apply (Hth b')].
      by apply (Hth h); [|apply Hsub].
Qed.
End wake.

(** Threads outside a relinked ready list are as they were. *)
Lemma queued_relinked s s' l l' sl q w :
  queues_ok s l sl q -> unlisted l sl q w -> sched_ok s' l' sl -> relinked s s' (w :: l) -> queues_ok s' l' sl q.
Proof.
  intros Hq (_ & _ & Hwq) Hsched Hre. pose proof Hre as [(h & t & tab & ->) Hs' _ Hother].
  apply (queues_ok_frame s _ l); [done|done| |done]. intros b u Hb Hu.
  apply Hother; [destruct (qo_th _ _ _ _ Hq b u Hb Hu) as [? _]; lia|].
  intros [->|Hul]%elem_of_cons; [by apply (Hwq b)|]. by destruct (queued_elsewhere s l sl q b u Hq Hb Hu).
Qed.

Section make_ready.
Context `{Symbols}.

(** A thread taken off every list is woken. *)
Lemma make_ready_run s l sl q w :
  queues_ok s l sl q -> unlisted l sl q w -> 0 < w < CONFIG_MAX_THREADS -> valid_prio (prio s w) ->
  wakeup_time (thr s w) = 0 -> thread_table_slock ∉ held (k_cpu s) ->
  wp (make_ready w) (fun _ s' => exists l', queues_ok s' l' sl q /\ same_sys s s' /\ woken s s' w l') s.
Proof.
  intros Hq Hun Hw Hp Hwk Hlock. assert (Hid : is_tid w) by (unfold is_tid; lia).
  unfold make_ready. apply wp_bind, wp_acquire; [exact Hlock|]. set (s0 := with_cpu _ s).
  assert (Hq0 : queues_ok s0 l sl q).
  { apply (queues_ok_frame s _ l); [|done|done|done]. apply (sched_ok_frame s); try done; apply Hq. }
  pose proof (so_table _ _ _ (qo_sched _ _ _ _ Hq0)) as Hs0.
  apply wp_bind, wp_upd_thread; [done|done|]. pose proof (queues_ok_unlisted s0 l sl q w (set_sleeps_on 0) Hq0 Hid Hun) as Hq1.
  set (s1 := upd s0 w (set_sleeps_on 0)) in *. pose proof (so_table _ _ _ (qo_sched _ _ _ _ Hq1)) as Hs1.
  apply wp_bind, wp_upd_thread; [done|done|]. pose proof (queues_ok_unlisted s1 l sl q w (set_next (-1)) Hq1 Hid Hun) as Hq2.
  set (s2 := upd s1 w (set_next (-1))) in *. pose proof (so_table _ _ _ (qo_sched _ _ _ _ Hq2)) as Hs2.
  assert (Hthr2 : forall u, 0 <= u -> thr s2 u = if u =? w then set_next (-1) (set_sleeps_on 0 (thr s w)) else thr s u).
  { intros u Hu. subst s2. rewrite thr_upd by done. subst s1. rewrite !thr_upd by (done || lia).
    rewrite Z.eqb_refl. by destruct (u =? w). }
  assert (Hw2 : thr s2 w = set_next (-1) (set_sleeps_on 0 (thr s w))) by (rewrite Hthr2, Z.eqb_refl by lia; done).
  apply wp_bind, wp_get_thread; [done|done|]. apply wp_bind. rewrite Hw2. cbn [state set_next set_sleeps_on].
  assert (Hcpu : forall s', k_cpu s' = k_cpu s0 ->
    mk_cpu (status (k_cpu s')) (held (k_cpu s') ∖ {[thread_table_slock]}) = k_cpu s).
  { intros s' ->. subst s0. cbn. rewrite held_release by done. by destruct (k_cpu s). }
  assert (Hout : forall s' l', queues_ok s' l' sl q -> k_cpu s' = k_cpu s0 -> k_cpuid s' = k_cpuid s ->
    scheduler_current_thread s' = scheduler_current_thread s -> woken s s' w l' ->
    wp (spinlock_release thread_table_slock) (fun _ s' => exists l', queues_ok s' l' sl q /\ same_sys s s' /\ woken s s' w l') s').
  { intros s' l' Hq' Hc Hi Hcur Hwok. apply wp_release. exists l'. split; [|split].
    - apply (queues_ok_frame s' _ l'); [|done|done|done]. apply (sched_ok_frame s'); try done; apply Hq'.
    - split; [cbn; by apply Hcpu|done].
    - exact Hwok. }
  case_decide as Hst.
  - apply wp_bind, wp_upd_thread; [done|done|].
    pose proof (queues_ok_unlisted s2 l sl q w (set_state THREAD_READY) Hq2 Hid Hun) as Hq3.
    set (s3 := upd s2 w (set_state THREAD_READY)) in *. pose proof (so_table _ _ _ (qo_sched _ _ _ _ Hq3)) as Hs3.
    assert (Hw3 : thr s3 w = set_state THREAD_READY (set_next (-1) (set_sleeps_on 0 (thr s w)))).
    { subst s3. by rewrite thr_upd_eq, Hw2. }
    eapply wp_mono.
    { apply (sched_add_run s3 w l sl); [apply Hq3|done|apply Hun|apply Hun|by unfold prio; rewrite Hw3|by rewrite Hw3|by rewrite Hw3]. }
    intros _ s4 [Hre Hok4]. pose proof Hre as [Hsh Hs4 Hnext Hother].
    rewrite upd_id in Hok4; [|done|done|destruct (Hnext w ltac:(lia)) as [n ->]; by rewrite Hw3].
    apply (Hout s4 (insert_by (prio s3) w l)).
    + by apply (queued_relinked s3 s4 l _ sl q w).
    + by destruct Hsh as (? & ? & ? & ->).
    + by destruct Hsh as (? & ? & ? & ->).
    + by destruct Hsh as (? & ? & ? & ->).
    + assert (Hthr4 : forall u, 0 <= u -> exists n, thr s4 u = set_next n (thr s3 u)) by exact Hnext. split.
      { destruct (Hthr4 w ltac:(lia)) as [n ->]. by rewrite Hw3. }
      split; [|split; [done|]].
      * intros _. split; [|apply insert_by_elem; by left]. destruct (Hthr4 w ltac:(lia)) as [n ->]. by rewrite Hw3.
      * intros u Hu. destruct (Hthr4 u Hu) as [n ->]. subst s3. rewrite thr_upd, !Hthr2 by (done || lia).
        rewrite Z.eqb_refl. destruct (Z.eqb_spec u w) as [->|]; by split_and!.
  - apply wp_ret. apply (Hout s2 l); try done. split; [by rewrite Hw2|]. split; [done|]. split; [by rewrite Hw2|].
    intros u Hu. rewrite Hthr2 by done. destruct (Z.eqb_spec u w) as [->|]; by split_and!.
Qed.

(** One step of [sleepq_wake] and [sleepq_wake_all]. *)
Lemma wake_one_run s l sl q h a w b :
  queues_ok s l sl q -> 0 <= h < SLEEPQ_HASHTABLE_SIZE -> q h = a ++ w :: b ->
  thread_table_slock ∉ held (k_cpu s) ->
  wp (unlink_waiter h (default (-1) (last a)) w) (fun n s1 => n = default (-1) (head b) /\
    wp (make_ready w) (fun _ s' => exists l', queues_ok s' l' sl (with_list q h (a ++ b)) /\
      same_sys s s' /\ woken s s' w l') s1) s.
Proof.
  intros Hq Hh Hqh Hlock. eapply wp_mono; [by apply (unlink_waiter_run s l sl q h a w b)|].
  intros n s1 (-> & Hq1 & (Hc1 & Hi1 & Hcur1) & Hw1 & Hother). split; [done|].
  assert (Hwin : w ∈ q h) by (rewrite Hqh; set_solver).
  destruct (qo_th _ _ _ _ Hq h w Hh Hwin) as (Hw & _ & _ & Hp & Hwk).
  assert (Hnd : w ∉ a ++ b).
  { pose proof (qo_nodup _ _ _ _ Hq h Hh) as Hnd. rewrite Hqh, <- Permutation_middle in Hnd. by apply NoDup_cons in Hnd as [? _]. }
  eapply wp_mono.
  { apply (make_ready_run s1 l sl (with_list q h (a ++ b)) w Hq1); [|done|by unfold prio; rewrite Hw1|by rewrite Hw1|by rewrite Hc1].
    destruct (queued_elsewhere s l sl q h w Hq Hh Hwin) as [? ?]. split_and!; [done|done|].
    intros b' Hb'. unfold with_list. destruct (Z.eqb_spec b' h) as [->|Hne]; [done|].
    intros Hin. apply Hne. by eapply (queued_once s l sl q). }
  intros _ s' (l' & Hq' & (Hc' & Hi' & Hcur') & Hso & Hsl & Hns & Hoth). exists l'.
  split; [done|]. split; [split_and!; congruence|]. rewrite Hw1 in *. split_and!; [done|done|done|].
  intros u Hu. destruct (Hoth u Hu) as (-> & -> & Hne). destruct (Hother u Hu) as [n Hn]. rewrite Hn in *.
  split; [done|]. split; [done|]. intros Huw. by destruct (Hne Huw) as [-> ->].
Qed.
End make_ready.

(** ** The queue of one resource *)

Fixpoint walk (fuel : nat) (nxt : Z -> Z) (h : Z) : list Z :=
  match fuel with
  | O => []
  | S fuel => if 0 <? h then h :: walk fuel nxt (nxt h) else []
  end.

Lemma walk_chain fuel nxt h l :
  chain nxt h l -> Forall (fun t => 0 < t) l -> (length l <= fuel)%nat -> walk fuel nxt h = l.
Proof.
  revert h l. induction fuel as [|fuel IH]; intros h l Hc Hp Hf; [destruct l; [done|cbn in Hf; lia]|]. cbn [walk].
  destruct l as [|t l].
  - cbn in Hc. by subst h.
  - destruct Hc as [-> Hc]. apply Forall_cons in Hp as [Ht Hp]. rewrite (proj2 (Z.ltb_lt 0 t)) by done.
    f_equal. apply IH; [exact Hc|done|cbn in Hf; lia].
Qed.

(** The threads that wait for [r], in the order in which they will be woken. *)
Definition waiters (s : kernel) (r : Z) : list Z :=
  filter (fun t => sleeps_on (thr s t) = r)
    (walk (Z.to_nat CONFIG_MAX_THREADS) (fun t => next (thr s t)) (sleepq_hashtable s !!! Z.to_nat (SLEEPQ_HASH r))).

Lemma bucket_length s l sl q b :
  queues_ok s l sl q -> 0 <= b < SLEEPQ_HASHTABLE_SIZE -> Z.of_nat (length (q b)) < CONFIG_MAX_THREADS.
Proof.
  intros Hq Hb. apply nodup_length; [done|by apply (qo_nodup _ _ _ _ Hq)|].
  apply Forall_forall. intros t Ht. by apply (qo_th _ _ _ _ Hq b t).
Qed.

Lemma waiters_bucket s l sl q r :
  queues_ok s l sl q -> waiters s r = filter (fun t => sleeps_on (thr s t) = r) (q (SLEEPQ_HASH r)).
Proof.
  intros Hq. pose proof (hash_range r) as Hh. unfold waiters. f_equal. apply walk_chain.
  - by apply (qo_chain _ _ _ _ Hq).
  - apply Forall_forall. intros t Ht. apply (qo_th _ _ _ _ Hq (SLEEPQ_HASH r) t Hh Ht).
  - pose proof (bucket_length s l sl q _ Hq Hh). lia.
Qed.

Lemma filter_none {A} (P : A -> Prop) `{!forall x, Decision (P x)} l : Forall (fun x => ~ P x) l -> filter P l = [].
Proof. induction 1 as [|x l Hx Hl IH]; [done|]. by rewrite filter_cons_False. Qed.

Lemma filter_same (P P' : Z -> Prop) `{!forall x, Decision (P x), !forall x, Decision (P' x)} (l : list Z) :
  (forall t, t ∈ l -> (P t <-> P' t)) -> filter P l = filter P' l.
Proof.
  induction l as [|x l IH]; intros Hiff; [done|]. rewrite !filter_cons, IH by (intros t Ht; apply Hiff; by right).
  specialize (Hiff x ltac:(by left)). repeat case_decide; tauto || done.
Qed.

Section queue_ops.
Context `{Symbols}.

Lemma waiters_woken s s' l l' sl q h a w b r r' :
  queues_ok s l sl q -> queues_ok s' l' sl (with_list q h (a ++ b)) ->
  0 <= h < SLEEPQ_HASHTABLE_SIZE -> q h = a ++ w :: b -> h = SLEEPQ_HASH r ->
  Forall (fun t => sleeps_on (thr s t) <> r) a -> sleeps_on (thr s w) = r -> woken s s' w l' ->
  waiters s' r' = if r' =? r then tail (waiters s r) else waiters s r'.
Proof.
  intros Hq Hq' Hh Hqh -> Ha Hw (_ & _ & _ & Hsame).
  rewrite (waiters_bucket s' l' sl _ r' Hq'), (waiters_bucket s l sl q r' Hq), (waiters_bucket s l sl q r Hq), Hqh.
  pose proof (qo_nodup _ _ _ _ Hq _ Hh) as Hnd. rewrite Hqh, <- Permutation_middle in Hnd. apply NoDup_cons in Hnd as [Hnin _].
  assert (Hsub : forall l0 : list Z, (forall t, t ∈ l0 -> 0 <= t /\ t <> w) -> forall r0,
    filter (fun t => sleeps_on (thr s' t) = r0) l0 = filter (fun t => sleeps_on (thr s t) = r0) l0).
  { intros l0 Hl0 r0. apply filter_same. intros t Ht. destruct (Hl0 t Ht) as [Ht0 Hne].
    destruct (Hsame t Ht0) as (_ & _ & Heq). by destruct (Heq Hne) as [-> _]. }
  assert (Hpos : forall b0 t, 0 <= b0 < SLEEPQ_HASHTABLE_SIZE -> t ∈ q b0 -> 0 <= t).
  { intros b0 t Hb0 Ht. destruct (qo_th _ _ _ _ Hq b0 t Hb0 Ht) as [? _]. lia. }
  unfold with_list. destruct (Z.eqb_spec (SLEEPQ_HASH r') (SLEEPQ_HASH r)) as [Heq|Hne].
  - rewrite Heq, Hqh, Hsub.
    + destruct (Z.eqb_spec r' r) as [->|Hr].
      * rewrite !filter_app, filter_cons_True, (filter_none _ a) by done. done.
      * rewrite !filter_app, filter_cons_False by congruence. done.
    + intros t Ht. split; [|by intros ->]. apply (Hpos (SLEEPQ_HASH r)); [done|]. rewrite Hqh. set_solver.
  - destruct (Z.eqb_spec r' r) as [->|Hr]; [done|]. apply Hsub. intros t Ht.
    split; [by apply (Hpos (SLEEPQ_HASH r') t (hash_range r'))|]. intros ->.
    apply Hne. eapply (queued_once s l sl q); [done|apply hash_range|done|exact Ht|]. rewrite Hqh. set_solver.
Qed.

(** What a call that wakes threads leaves of the others: everything the
    callers' invariants look at. *)
Record waking (s s' : kernel) : Prop := {
  wk_sys : same_sys s s';
  wk_prio : forall u, 0 <= u -> priority (thr s' u) = priority (thr s u) /\ wakeup_time (thr s' u) = wakeup_time (thr s u);
  wk_running : forall u, 0 <= u -> state (thr s u) = THREAD_RUNNING -> state (thr s' u) = THREAD_RUNNING
}.
#[export] Instance waking_po : PreOrder waking.
Proof.
  split; [by split|]. intros s1 s2 s3 [(a1 & b1 & c1) p1 r1] [(a2 & b2 & c2) p2 r2]. split.
  - split_and!; congruence.
  - intros u Hu. destruct (p1 u Hu), (p2 u Hu). split; congruence.
  - auto.
Qed.

Lemma woken_waking s s' w l' : same_sys s s' -> woken s s' w l' -> waking s s'.
Proof.
  intros Hsys (_ & Hsl & Hns & Hoth). split; [done| |].
  - intros u Hu. by destruct (Hoth u Hu) as (? & ? & _).
  - intros u Hu Hr. destruct (decide (u = w)) as [->|Hne].
    + rewrite Hns; congruence.
    + destruct (Hoth u Hu) as (_ & _ & Heq). by destruct (Heq Hne) as [_ ->].
Qed.

(** The body of [sleepq_wake]. *)
Lemma wake_body_run s l sl q r :
  queues_ok s l sl q -> thread_table_slock ∉ held (k_cpu s) ->
  wp (h ← get_bucket (SLEEPQ_HASH r);
      '(prev, first) ← find_waiter (Z.to_nat CONFIG_MAX_THREADS) r (-1) h;
      if first >? 0 then
        _ ← unlink_waiter (SLEEPQ_HASH r) prev first;
        make_ready first
      else mret tt)
    (fun _ s' => exists l' q', queues_ok s' l' sl q' /\ waking s s' /\
       (forall t, head (waiters s r) = Some t -> woken s s' t l') /\
       forall r', waiters s' r' = if r' =? r then tail (waiters s r) else waiters s r') s.
Proof.
  intros Hq Hlock. pose proof (hash_range r) as Hh. pose proof (so_table _ _ _ (qo_sched _ _ _ _ Hq)) as Hs.
  apply wp_bind, wp_get_bucket; [apply Hq|done|]. apply wp_bind.
  pose proof (qo_chain _ _ _ _ Hq _ Hh) as Hc.
  assert (Htids : Forall (fun t => 0 < t < CONFIG_MAX_THREADS) (q (SLEEPQ_HASH r))).
  { apply Forall_forall. intros t Ht. by apply (qo_th _ _ _ _ Hq (SLEEPQ_HASH r) t). }
  assert (Hhd : sleepq_hashtable s !!! Z.to_nat (SLEEPQ_HASH r) = default (-1) (head (q (SLEEPQ_HASH r)))).
  { apply (chain_head _ _ _ Hc). eapply Forall_impl; [exact Htids|]. cbn. lia. }
  rewrite Hhd in Hc |- *. eapply wp_mono.
  { apply (find_waiter_run _ r s [] (q (SLEEPQ_HASH r)) Hs Hc Htids); [|constructor].
    pose proof (bucket_length s l sl q _ Hq Hh). lia. }
  intros [p f] s' (-> & a & b & Hab & [= -> ->] & Ha & Hb & _). cbn [app] in Hab.
  rewrite (waiters_bucket s l sl q r Hq), Hab, filter_app, (filter_none _ a) by done.
  destruct b as [|w b].
  - change (default (-1) (head []) >? 0) with false. cbn iota. apply wp_ret. exists l, q.
    split; [done|]. split; [done|]. split; [done|]. intros r'. destruct (Z.eqb_spec r' r) as [->|]; [|done].
    rewrite (waiters_bucket s l sl q r Hq), Hab, filter_app, (filter_none _ a) by done. done.
  - destruct (Hb w eq_refl) as [Hw Hwr]. change (default (-1) (head (w :: b))) with w.
    rewrite (proj2 (Z.gtb_lt w 0)) by lia. apply wp_bind.
    eapply wp_mono; [by apply (wake_one_run s l sl q (SLEEPQ_HASH r) a w b)|].
    intros n s1 [_ Hwp]. eapply wp_mono; [exact Hwp|].
    intros _ s' (l' & Hq' & Hsys & Hwok). exists l', (with_list q (SLEEPQ_HASH r) (a ++ b)).
    split; [done|]. split; [by eapply woken_waking|]. rewrite filter_cons_True by done. split; [by intros ? [= <-]|].
    intros r'. rewrite (waiters_woken s s' l l' sl q (SLEEPQ_HASH r) a w b r r') by done.
    destruct (r' =? r); [|done].
    by rewrite (waiters_bucket s l sl q r Hq), Hab, filter_app, (filter_none _ a), filter_cons_True by done.
Qed.
End queue_ops.

Section queue_ops2.
Context `{Symbols}.

Lemma wake_all_loop_run fuel s l sl q r a b :
  queues_ok s l sl q -> thread_table_slock ∉ held (k_cpu s) -> q (SLEEPQ_HASH r) = a ++ b ->
  Forall (fun t => sleeps_on (thr s t) <> r) a -> (length b < fuel)%nat ->
  wp (wake_all_loop fuel (SLEEPQ_HASH r) r (default (-1) (last a)) (default (-1) (head b)))
    (fun _ s' => exists l' q', queues_ok s' l' sl q' /\ waking s s' /\
       forall r', waiters s' r' = if r' =? r then [] else waiters s r') s.
Proof.
  pose proof (hash_range r) as Hh. revert s l q a b.
  induction fuel as [|fuel IH]; intros s l q a b Hq Hlock Hqh Ha Hf; [lia|]. cbn [wake_all_loop].
  pose proof (so_table _ _ _ (qo_sched _ _ _ _ Hq)) as Hs.
  assert (Hin : forall t, t ∈ a ++ b -> 0 < t < CONFIG_MAX_THREADS).
  { intros t Ht. rewrite <- Hqh in Ht. by apply (qo_th _ _ _ _ Hq (SLEEPQ_HASH r) t). }
  destruct b as [|t b].
  { change (default (-1) (head []) >? 0) with false. cbn iota. apply wp_ret. exists l, q. split; [done|]. split; [done|].
    intros r'. destruct (Z.eqb_spec r' r) as [->|]; [|done].
    by rewrite (waiters_bucket s l sl q r Hq), Hqh, filter_app, (filter_none _ a). }
  pose proof (qo_chain _ _ _ _ Hq _ Hh) as Hc. rewrite Hqh in Hc. apply seg_app in Hc as (k & _ & Hb).
  assert (Htids : Forall (fun t => 0 < t < CONFIG_MAX_THREADS) (t :: b)).
  { apply Forall_forall. intros u Hu. apply Hin. apply elem_of_app. by right. }
  change (default (-1) (head (t :: b)) >? 0) with (t >? 0). rewrite (proj2 (Z.gtb_lt t 0)) by (apply Forall_cons in Htids as [? _]; lia).
  assert (Hk : k = t) by (destruct Hb as [-> _]; done). subst k.
  apply wp_bind. eapply wp_mono.
  { apply (find_waiter_run _ r s a (t :: b) Hs Hb Htids); [|done].
    pose proof (bucket_length s l sl q _ Hq Hh) as Hlen. rewrite Hqh, length_app in Hlen. lia. }
  intros [p f] s' (-> & a' & b' & Hab & [= -> ->] & Ha' & Hb' & Hlen).
  destruct b' as [|w b'].
  - change (default (-1) (head []) >? 0) with false. cbn iota. change (-1) with (default (-1) (@head Z [])).
    rewrite app_nil_r in Hab. apply (IH s l q a' []); try done; [by rewrite app_nil_r, Hqh|cbn in *; lia].
  - destruct (Hb' w eq_refl) as [Hw Hwr]. change (default (-1) (head (w :: b'))) with w.
    rewrite (proj2 (Z.gtb_lt w 0)) by lia. rewrite Hab in Hqh. apply wp_bind.
    eapply wp_mono; [by apply (wake_one_run s l sl q (SLEEPQ_HASH r) a' w b')|].
    intros n s1 [-> Hwp]. apply wp_bind. eapply wp_mono; [exact Hwp|].
    intros _ s2 (l' & Hq' & Hsys & Hwok). pose proof (woken_waking _ _ _ _ Hsys Hwok) as Hwk.
    assert (Hnd : w ∉ a' ++ b').
    { pose proof (qo_nodup _ _ _ _ Hq _ Hh) as Hnd. rewrite Hqh, <- Permutation_middle in Hnd. by apply NoDup_cons in Hnd as [? _]. }
    eapply wp_mono.
    { apply (IH s2 l' _ a' b' Hq').
      - destruct Hsys as (-> & _). done.
      - unfold with_list. by rewrite Z.eqb_refl.
      - rewrite Forall_forall in *. intros u Hu. destruct Hwok as (_ & _ & _ & Hoth).
        assert (Hua : u ∈ a' ++ b') by (apply elem_of_app; by left).
        assert (0 < u < CONFIG_MAX_THREADS) by (apply Hin; rewrite Hab; set_solver).
        destruct (Hoth u ltac:(lia)) as (_ & _ & Heq). destruct Heq as [-> _]; [by intros ->|]. by apply Ha'.
      - cbn in *. lia. }
    intros _ s' (l'' & q'' & Hq'' & Hwk'' & Hw''). exists l'', q''. split; [done|]. split; [by transitivity s2|].
    intros r'. rewrite Hw''. destruct (Z.eqb_spec r' r) as [->|Hne]; [done|].
    rewrite (waiters_woken s s2 l l' sl q (SLEEPQ_HASH r) a' w b' r r') by done. by rewrite (proj2 (Z.eqb_neq r' r)).
Qed.

(** Appending the caller to its bucket. *)
Lemma append_run s l sl q r t :
  queues_ok s l sl q -> unlisted l sl q t -> 0 < t < CONFIG_MAX_THREADS -> next (thr s t) = -1 ->
  sleeps_on (thr s t) = r -> is_resource r -> valid_prio (prio s t) -> wakeup_time (thr s t) = 0 ->
  wp (h ← get_bucket (SLEEPQ_HASH r);
      if h <=? 0 then set_bucket (SLEEPQ_HASH r) t
      else
        prev ← find_tail (Z.to_nat CONFIG_MAX_THREADS) h;
        upd_thread prev (set_next t))
    (fun _ s' => queues_ok s' l sl (with_list q (SLEEPQ_HASH r) (q (SLEEPQ_HASH r) ++ [t])) /\
       same_sys s s' /\ forall u, 0 <= u -> only_next (thr s u) (thr s' u)) s.
Proof.
  intros Hq Hun Ht Hnext Hso Hr0 Hp Hwk. pose proof (hash_range r) as Hh. set (h := SLEEPQ_HASH r) in *.
  pose proof Hq as [Hsched Hlen Hc Hn Hth]. pose proof (so_table _ _ _ Hsched) as Hs.
  pose proof (Hc h Hh) as Hch. pose proof (Hn h Hh) as Hnd. destruct Hun as (Htl & Htsl & Htq).
  assert (Hin : Forall (fun t => 0 < t < CONFIG_MAX_THREADS) (q h)).
  { apply Forall_forall. intros u Hu. by apply (Hth h u). }
  assert (Hhd : sleepq_hashtable s !!! Z.to_nat h = default (-1) (head (q h))).
  { apply (chain_head _ _ _ Hch). eapply Forall_impl; [exact Hin|]. cbn. lia. }
  assert (Hfacts : forall s', (forall u, 0 <= u -> only_next (thr s u) (thr s' u)) ->
    forall b u, 0 <= b < SLEEPQ_HASHTABLE_SIZE -> u ∈ with_list q h (q h ++ [t]) b ->
    0 < u < CONFIG_MAX_THREADS /\ is_resource (sleeps_on (thr s' u)) /\ SLEEPQ_HASH (sleeps_on (thr s' u)) = b /\
    valid_prio (prio s' u) /\ wakeup_time (thr s' u) = 0).
  { intros s' Hon b u Hb. unfold with_list.
    assert (Hold : forall b0, 0 <= b0 < SLEEPQ_HASHTABLE_SIZE -> u ∈ q b0 -> 0 < u < CONFIG_MAX_THREADS /\ is_resource (sleeps_on (thr s' u)) /\
      SLEEPQ_HASH (sleeps_on (thr s' u)) = b0 /\ valid_prio (prio s' u) /\ wakeup_time (thr s' u) = 0).
    { intros b0 Hb0 Hu. destruct (Hth b0 u Hb0 Hu) as (? & ? & ? & ? & ?). unfold prio. destruct (Hon u ltac:(lia)) as [n ->]. split_done. }
    destruct (Z.eqb_spec b h) as [->|]; [|by apply Hold]. intros [Hu|Hu%list_elem_of_singleton]%elem_of_app; [by apply Hold|]. subst u.
    unfold prio. destruct (Hon t ltac:(lia)) as [n ->]. cbn. rewrite Hso. split_done. }
  assert (Hnd' : forall b, 0 <= b < SLEEPQ_HASHTABLE_SIZE -> NoDup (with_list q h (q h ++ [t]) b)).
  { intros b Hb. unfold with_list. destruct (Z.eqb_spec b h) as [->|]; [|by apply Hn].
    apply NoDup_app. split_and!; [done| |apply NoDup_singleton]. intros u Hu Hut%list_elem_of_singleton. subst u. by apply (Htq h). }
  apply wp_bind, wp_get_bucket; [done|done|]. rewrite Hhd.
  destruct (q h) as [|p b] eqn:Eq.
  - change (default (-1) (head []) <=? 0) with true. cbn iota. apply wp_set_bucket; [done|done|]. set (s' := with_sleepq _ s).
    assert (Hon : forall u, 0 <= u -> only_next (thr s u) (thr s' u)).
    { intros u Hu. exists (next (thr s u)). by rewrite set_next_same. }
    split; [|split; [done|exact Hon]]. split; [by apply (sched_ok_frame s)|cbn; by rewrite length_insert| |exact Hnd'|by apply Hfacts].
    intros b' Hb'. unfold with_list. cbn. destruct (Z.eqb_spec b' h) as [->|Hne].
    + rewrite list_lookup_total_insert_eq by lia. split; [done|exact Hnext].
    + rewrite list_lookup_total_insert_ne by lia. by apply Hc.
  - change (default (-1) (head (p :: b))) with p. pose proof Hin as [Hp0 _]%Forall_cons. destruct (Z.leb_spec p 0); [lia|].
    apply wp_bind. eapply wp_mono.
    { apply (find_tail_run _ s p b Hs); [destruct Hch as [_ ?]; by split|done|].
      pose proof (bucket_length s l sl q h Hq Hh) as Hl. rewrite Eq in Hl. lia. }
    intros x s0 [-> Hx]. assert (Hxin : x ∈ p :: b) by (apply last_Some in Hx as [b' ->]; set_solver).
    assert (Hxq : x ∈ q h) by (by rewrite Eq). destruct (Hth h x Hh Hxq) as [Hx0 _].
    assert (Hid : is_tid x) by (unfold is_tid; lia). assert (Hxt : x <> t) by (intros ->; by apply (Htq h)).
    apply wp_upd_thread; [done|done|]. set (s' := upd s x (set_next t)).
    pose proof (upd_table_ok s x (set_next t) Hs) as Hs'.
    assert (Hon : forall u, 0 <= u -> only_next (thr s u) (thr s' u)).
    { intros u Hu. eexists. by apply thr_set_next. }
    assert (Hoth : forall u, 0 <= u -> u <> x -> thr s' u = thr s u) by (intros; by apply thr_upd_ne).
    destruct (queued_elsewhere s l sl q h x Hq Hh Hxq) as [Hxl Hxsl].
    split; [|split; [done|exact Hon]]. split; [|done| |exact Hnd'|by apply Hfacts].
    + apply (sched_ok_frame s); try done. intros u Hu. apply Hoth; [pose proof (listed_pos s l sl q u Hq ltac:(tauto)); lia|].
      intros ->. by destruct Hu.
    + intros b' Hb'. unfold with_list. change (sleepq_hashtable s') with (sleepq_hashtable s). destruct (Z.eqb_spec b' h) as [->|Hne].
      * apply last_Some in Hx as [c Hc']. rewrite Hc' in *.
        assert (Hcpos : forall u, u ∈ c -> 0 <= u /\ u <> x).
        { intros u Hu. split.
          - rewrite Forall_forall in Hin. assert (0 < u < CONFIG_MAX_THREADS); [|lia]. apply Hin. set_solver.
          - intros ->. apply NoDup_app in Hnd as (_ & Hd & _). apply (Hd x Hu). set_solver. }
        apply (seg_append (fun u => next (thr s u)) _ _ c x t (-1)); [exact Hch|done| | | |].
        -- rewrite <- Eq. by apply Htq.
        -- subst s'. by rewrite thr_upd_eq.
        -- rewrite Hoth by (lia || done). exact Hnext.
        -- intros u Hu. destruct (Hcpos u Hu). by rewrite Hoth.
      * eapply seg_ext; [|by apply Hc]. intros u Hu. cbn. rewrite Hoth; [done|destruct (Hth b' u Hb' Hu) as [? _]; lia|].
        intros ->. apply Hne. by eapply (queued_once s l sl q).
Qed.
End queue_ops2.

(** ** The module provides the interface *)

(** The kernel's queues, and the calling thread. *)
Definition caller_ok (s : kernel) (l : list Z) (t : Z) : Prop :=
  running s t /\ is_tid t /\ state (thr s t) = THREAD_RUNNING /\ valid_prio (prio s t) /\ wakeup_time (thr s t) = 0.
Definition sys_ok (s : kernel) : Prop :=
  exists l sl q t, queues_ok s l sl q /\ caller_ok s l t.
Definition caller (s : kernel) : Z := scheduler_current_thread s !!! Z.to_nat (k_cpuid s).

Lemma running_caller s t : running s t -> caller s = t.
Proof. intros [_ H]%rget_Ret. by apply list_lookup_total_correct. Qed.

Lemma caller_unlisted s l sl q t :
  queues_ok s l sl q -> caller_ok s l t -> (forall r, is_resource r -> t ∉ waiters s r) ->
  unlisted l sl q t.
Proof.
  intros Hq (_ & _ & Hst & _ & Hw) Hnw. split_and!.
  - intros Hin. destruct (so_ready_th _ _ _ (qo_sched _ _ _ _ Hq) t Hin). congruence.
  - intros Hin. by destruct (so_sleep_th _ _ _ (qo_sched _ _ _ _ Hq) t Hin) as (_ & _ & _ & ?).
  - intros b Hb Hin. apply (Hnw (sleeps_on (thr s t))); [by apply (qo_th _ _ _ _ Hq b t)|].
    rewrite (waiters_bucket s l sl q _ Hq). apply list_elem_of_filter. split; [done|].
    by destruct (qo_th _ _ _ _ Hq b t Hb Hin) as (_ & _ & -> & _).
Qed.

Lemma caller_waking s s' l l' t : waking s s' -> caller_ok s l t -> caller_ok s' l' t.
Proof.
  intros [(_ & Hi & Hc) Hp Hr] (Hrun & Hid & Hst & Hpr & Hw). destruct (Hp t ltac:(apply Hid)) as [Hp1 Hw1].
  unfold caller_ok, running, prio in *. rewrite Hi, Hc, Hp1, Hw1. split_done. apply Hr; [apply Hid|done].
Qed.

Lemma queues_ok_cpu s c l sl q : queues_ok s l sl q -> queues_ok (with_cpu c s) l sl q.
Proof. intros Hq. apply (queues_ok_frame s _ l); [|done|done|done]. apply (sched_ok_frame s); try done; apply Hq. Qed.
#[export] Hint Resolve queues_ok_cpu : buenos.

Section instance.
Context `{Symbols}.

Lemma sleepq_add_run s l sl q t r :
  queues_ok s l sl q -> caller_ok s l t -> unlisted l sl q t -> t <> 0 -> is_resource r ->
  is_u32 (status (k_cpu s)) -> interrupts_off (status (k_cpu s)) -> sleepq_slock ∉ held (k_cpu s) ->
  wp (sleepq_add r) (fun _ s' => queues_ok s' l sl (with_list q (SLEEPQ_HASH r) (q (SLEEPQ_HASH r) ++ [t])) /\
    same_sys s s' /\ (forall r', waiters s' r' = if r' =? r then waiters s r ++ [t] else waiters s r') /\
    caller_ok s' l t) s.
Proof.
  intros Hq Hcal Hun Ht0 Hr Hst Hoff Hlock. pose proof Hcal as (Hrun & Hid & Hstate & Hp & Hw).
  pose proof (so_table _ _ _ (qo_sched _ _ _ _ Hq)) as Hs.
  assert (Ht : 0 < t < CONFIG_MAX_THREADS) by (unfold is_tid in Hid; lia).
  unfold sleepq_add. apply wp_bind, wp_gets, wp_bind, wp_kassert.
  { apply orb_true_intro. left. apply Z.eqb_eq. unfold interrupts_off in Hoff.
    assert (Z.land (status (k_cpu s)) 0xff00 = Z.land (Z.land (status (k_cpu s)) 0xff01) 0xff00) as Heq.
    { rewrite <- Z.land_assoc. done. }
    unfold INTERRUPT_MASK_ALL. change (status (cpu_of s)) with (status (k_cpu s)). by rewrite Heq, Hoff. }
  cbv zeta. apply wp_bind, (wp_current s t); [done|done|].
  apply wp_bind, wp_upd_thread; [done|done|]. pose proof (queues_ok_unlisted s l sl q t (set_next (-1)) Hq Hid Hun) as Hq1.
  set (s1 := upd s t (set_next (-1))) in *. pose proof (so_table _ _ _ (qo_sched _ _ _ _ Hq1)) as Hs1.
  apply wp_bind, wp_upd_thread; [done|done|]. pose proof (queues_ok_unlisted s1 l sl q t (set_sleeps_on r) Hq1 Hid Hun) as Hq2.
  set (s2 := upd s1 t (set_sleeps_on r)) in *.
  assert (Hthr2 : forall u, 0 <= u -> thr s2 u = if u =? t then set_sleeps_on r (set_next (-1) (thr s t)) else thr s u).
  { intros u Hu. subst s2. rewrite thr_upd by done. subst s1. rewrite !thr_upd by (done || lia).
    rewrite Z.eqb_refl. by destruct (u =? t). }
  apply wp_bind, wp_kassert. { apply negb_true_iff, Z.eqb_neq. exact Ht0. }
  apply wp_bind, wp_acquire; [exact Hlock|]. set (s3 := with_cpu _ s2).
  assert (Hq3 : queues_ok s3 l sl q) by (by apply queues_ok_cpu).
  assert (Ht2 : thr s3 t = set_sleeps_on r (set_next (-1) (thr s t))).
  { change (thr s3 t) with (thr s2 t). rewrite Hthr2 by lia. by rewrite Z.eqb_refl. }
  pose proof (append_run s3 l sl q r t Hq3 Hun Ht) as Happ. unfold prio in Happ. rewrite Ht2 in Happ.
  specialize (Happ eq_refl eq_refl Hr Hp Hw).
  set (code := _ ← get_bucket _; _) in Happ. (* the rest of the body *)
  assert (Hassoc : forall u, (h ← get_bucket (SLEEPQ_HASH r);
      _ ← (if h <=? 0 then set_bucket (SLEEPQ_HASH r) t
           else prev ← find_tail (Z.to_nat CONFIG_MAX_THREADS) h; upd_thread prev (set_next t));
      spinlock_release sleepq_slock) u = (code ≫= fun _ => spinlock_release sleepq_slock) u).
  { intros u. subst code. unfold mbind, M_bind. by destruct (get_bucket (SLEEPQ_HASH r) u) as [[h u']|]. }
  unfold wp. rewrite Hassoc. apply wp_bind. eapply wp_mono; [exact Happ|].
  intros _ s4 (Hq4 & (Hc4 & Hi4 & Hcur4) & Hon). apply wp_release.
  assert (Hcpu : mk_cpu (status (cpu_of s4)) (held (cpu_of s4) ∖ {[sleepq_slock]}) = k_cpu s).
  { cbn. rewrite Hc4. subst s3. cbn. rewrite held_release by done. by destruct (k_cpu s). }
  rewrite Hcpu. set (s5 := with_cpu (k_cpu s) s4).
  assert (Hq5 : queues_ok s5 l sl (with_list q (SLEEPQ_HASH r) (q (SLEEPQ_HASH r) ++ [t]))) by (by apply queues_ok_cpu).
  assert (Hthr5 : forall u, 0 <= u -> exists n, thr s5 u =
    set_next n (if u =? t then set_sleeps_on r (thr s t) else thr s u)).
  { intros u Hu. destruct (Hon u Hu) as [n Hn]. exists n. change (thr s5 u) with (thr s4 u). rewrite Hn.
    change (thr s3 u) with (thr s2 u). rewrite Hthr2 by done. by destruct (u =? t). }
  split; [exact Hq5|]. split; [by split_and!|]. split.
  - intros r'. rewrite (waiters_bucket s5 l sl _ r' Hq5), (waiters_bucket s l sl q r' Hq), (waiters_bucket s l sl q r Hq).
    assert (Hsame : forall b, 0 <= b < SLEEPQ_HASHTABLE_SIZE ->
      filter (fun u => sleeps_on (thr s5 u) = r') (q b) = filter (fun u => sleeps_on (thr s u) = r') (q b)).
    { intros b Hb. apply filter_same. intros u Hu. destruct (qo_th _ _ _ _ Hq b u Hb Hu) as [Hu0 _].
      destruct (Hthr5 u ltac:(lia)) as [n ->]. destruct (Z.eqb_spec u t) as [->|]; [|done].
      destruct Hun as (_ & _ & Hnq). by destruct (Hnq b Hb). }
    assert (Hself : sleeps_on (thr s5 t) = r) by (destruct (Hthr5 t ltac:(lia)) as [n ->]; by rewrite Z.eqb_refl).
    unfold with_list. destruct (Z.eqb_spec (SLEEPQ_HASH r') (SLEEPQ_HASH r)) as [Heq|Hne].
    + rewrite filter_app, Hsame by apply hash_range. destruct (Z.eqb_spec r' r) as [->|Hr'].
      * by rewrite filter_cons_True by done.
      * rewrite filter_cons_False by congruence. change (filter _ []) with (@nil Z). rewrite app_nil_r. by rewrite Heq.
    + destruct (Z.eqb_spec r' r) as [->|Hr']; [done|]. apply Hsame, hash_range.
  - destruct (Hthr5 t ltac:(lia)) as [n Hn]. rewrite Z.eqb_refl in Hn.
    unfold caller_ok, running, prio in *. rewrite Hn. cbn [k_cpuid scheduler_current_thread s5 with_cpu HasCpu_kernel with_kcpu].
    rewrite Hi4, Hcur4. split_done.
Qed.
End instance.

Section interface.
Context `{Symbols}.

Lemma sleepq_wake_run s l sl q t r :
  queues_ok s l sl q -> caller_ok s l t -> is_u32 (status (k_cpu s)) ->
  sleepq_slock ∉ held (k_cpu s) -> thread_table_slock ∉ held (k_cpu s) -> sleepq_slock <> thread_table_slock ->
  wp (sleepq_wake r) (fun _ s' => exists l' q', queues_ok s' l' sl q' /\ caller_ok s' l' t /\ same_sys s s' /\
    (forall w, head (waiters s r) = Some w -> woken s s' w l') /\
    forall r', waiters s' r' = if r' =? r then tail (waiters s r) else waiters s r') s.
Proof.
  intros Hq Hcal Hst Hl1 Hl2 Hne. unfold sleepq_wake. apply wp_critical; [exact Hst|exact Hl1|].
  set (s0 := with_cpu _ s). assert (Hq0 : queues_ok s0 l sl q) by (by apply queues_ok_cpu).
  eapply wp_mono; [apply (wake_body_run s0 l sl q r Hq0)|].
  { subst s0. cbn. rewrite not_elem_of_union, not_elem_of_singleton. split; [congruence|done]. }
  intros _ s1 (l' & q' & Hq1 & Hwk & Hwok & Hw). split; [apply Hwk|].
  exists l', q'. split; [by apply queues_ok_cpu|]. split.
  { apply (caller_waking s _ l l' t); [|done]. destruct Hwk as [(Hc & Hi & Hcur) Hp Hr]. split; [|exact Hp|exact Hr].
    by split_and!. }
  split; [|split; [exact Hwok|exact Hw]]. destruct Hwk as [(Hc & Hi & Hcur) _ _]. by split_and!.
Qed.

Lemma sleepq_wake_all_run s l sl q t r :
  queues_ok s l sl q -> caller_ok s l t -> is_u32 (status (k_cpu s)) ->
  sleepq_slock ∉ held (k_cpu s) -> thread_table_slock ∉ held (k_cpu s) -> sleepq_slock <> thread_table_slock ->
  wp (sleepq_wake_all r) (fun _ s' => exists l' q', queues_ok s' l' sl q' /\ caller_ok s' l' t /\ same_sys s s' /\
    forall r', waiters s' r' = if r' =? r then [] else waiters s r') s.
Proof.
  intros Hq Hcal Hst Hl1 Hl2 Hne. unfold sleepq_wake_all. apply wp_critical; [exact Hst|exact Hl1|].
  set (s0 := with_cpu _ s). assert (Hq0 : queues_ok s0 l sl q) by (by apply queues_ok_cpu).
  pose proof (hash_range r) as Hh.
  assert (Hhd : sleepq_hashtable s0 !!! Z.to_nat (SLEEPQ_HASH r) = default (-1) (head (q (SLEEPQ_HASH r)))).
  { apply (chain_head _ _ _ (qo_chain _ _ _ _ Hq0 _ Hh)). apply Forall_forall. intros u Hu.
    apply (qo_th _ _ _ _ Hq0 (SLEEPQ_HASH r) u Hh Hu). }
  apply wp_bind, wp_get_bucket; [apply Hq0|done|]. rewrite Hhd.
  eapply wp_mono.
  { apply (wake_all_loop_run (S (Z.to_nat CONFIG_MAX_THREADS)) s0 l sl q r [] (q (SLEEPQ_HASH r)) Hq0); [|done|constructor|].
    - subst s0. cbn. rewrite not_elem_of_union, not_elem_of_singleton. split; [congruence|done].
    - pose proof (bucket_length s0 l sl q _ Hq0 Hh). lia. }
  intros _ s1 (l' & q' & Hq1 & Hwk & Hw). split; [apply Hwk|].
  exists l', q'. split; [by apply queues_ok_cpu|]. destruct Hwk as [(Hc & Hi & Hcur) Hp Hr]. split.
  { apply (caller_waking s _ l l' t); [|done]. split; [by split_and!|exact Hp|exact Hr]. }
  split; [by split_and!|exact Hw].
Qed.

Lemma spinlocks_differ : Layout -> sleepq_slock <> thread_table_slock.
Proof.
  intros [Hn _] Heq. unfold spinlock_addresses in Hn. cbn [app] in Hn.
  apply NoDup_cons in Hn as [_ Hn]. apply NoDup_cons in Hn as [Hn _]. apply Hn. rewrite Heq. by left.
Qed.

(** kernel/sleepq.c provides what its clients rely on. *)
#[export] Program Instance sleepq_queues `{!Layout} : SleepQueues kernel := {|
  current_thread := thread_get_current_thread;
  sq_add := sleepq_add;
  sq_wake := sleepq_wake;
  sq_wake_all := sleepq_wake_all;
  sq_ok := sys_ok;
  cur_of := caller;
  waiting := waiters
|}.
Next Obligation.
  intros ? s c (l & sl & q & t & Hq & Hc). exists l, sl, q, t. split; [by apply queues_ok_cpu|exact Hc].
Qed.
Next Obligation. done. Qed.
Next Obligation. done. Qed.
Next Obligation.
  intros ? s Q (l & sl & q & t & Hq & Hc) Hst HQ. apply (wp_current s t); [apply Hc|done|].
  by rewrite (running_caller s t) in HQ by apply Hc.
Qed.
Next Obligation.
  intros ? s r (l & sl & q & t & Hq & Hc) Hr Hst Hoff Hl Hne Hnw. rewrite (running_caller s t) in * by apply Hc.
  eapply wp_mono; [apply (sleepq_add_run s l sl q t r); try done; by apply (caller_unlisted s)|].
  intros _ s' (Hq' & (Hcpu & Hi & Hcur) & Hw & Hc').
  split; [by exists l, sl, (with_list q (SLEEPQ_HASH r) (q (SLEEPQ_HASH r) ++ [t])), t|]. split; [exact Hcpu|].
  split; [by apply running_caller, Hc'|]. intros r' _. apply Hw.
Qed.
Next Obligation.
  intros ? s r (l & sl & q & t & Hq & Hc) Hr Hst Hl Hl2. rewrite (running_caller s t) in * by apply Hc.
  eapply wp_mono; [apply (sleepq_wake_run s l sl q t r); try done; by apply spinlocks_differ|].
  intros _ s' (l' & q' & Hq' & Hc' & (Hcpu & Hi & Hcur) & _ & Hw).
  split; [by exists l', sl, q', t|]. split; [exact Hcpu|]. split; [by apply running_caller, Hc'|]. intros r' _. apply Hw.
Qed.
Next Obligation.
  intros ? s r (l & sl & q & t & Hq & Hc) Hr Hst Hl Hl2. rewrite (running_caller s t) in * by apply Hc.
  eapply wp_mono; [apply (sleepq_wake_all_run s l sl q t r); try done; by apply spinlocks_differ|].
  intros _ s' (l' & q' & Hq' & Hc' & (Hcpu & Hi & Hcur) & Hw).
  split; [by exists l', sl, q', t|]. split; [exact Hcpu|]. split; [by apply running_caller, Hc'|]. intros r' _. apply Hw.
Qed.
End interface.

(** ** The specification *)
Section theorems.
Context `{Symbols}.

(** Claim C35. The sleep queue is one first-in first-out queue of threads
    for each resource address, although the threads of all addresses with the
    same hash share one list: [sleepq_add] puts the calling thread behind the
    threads that wait for the resource; [sleepq_wake] takes the first of them
    away, no longer waiting for anything, and puts it on the ready list if it
    sleeps (a thread that has not switched away yet keeps its state);
    [sleepq_wake_all] leaves nobody waiting.  The threads that wait for any
    other resource, and their order, stay as they were, the well-formedness of
    all the kernel's thread lists is kept, and so are the interrupt state and
    the spinlocks.  No operation panics or runs out of fuel. *)
Theorem sleepq_refines_fifo s l sl q t r :
  Layout -> queues_ok s l sl q -> caller_ok s l t -> is_resource r -> is_u32 (status (k_cpu s)) ->
  sleepq_slock ∉ held (k_cpu s) -> thread_table_slock ∉ held (k_cpu s) ->
  (interrupts_off (status (k_cpu s)) -> t <> 0 -> (forall r', is_resource r' -> t ∉ waiters s r') ->
   wp (sleepq_add r) (fun _ s' => sys_ok s' /\ same_sys s s' /\
     forall r', waiters s' r' = if r' =? r then waiters s r ++ [t] else waiters s r') s) /\
  wp (sleepq_wake r) (fun _ s' => exists l' q', queues_ok s' l' sl q' /\ caller_ok s' l' t /\ same_sys s s' /\
     (forall w, head (waiters s r) = Some w -> woken s s' w l') /\
     forall r', waiters s' r' = if r' =? r then tail (waiters s r) else waiters s r') s /\
  wp (sleepq_wake_all r) (fun _ s' => sys_ok s' /\ same_sys s s' /\
     forall r', waiters s' r' = if r' =? r then [] else waiters s r') s.
Proof.
  intros HL Hq Hc Hr Hst Hl1 Hl2. pose proof (spinlocks_differ HL) as Hne. split; [|split].
  - intros Hoff Ht0 Hnw. eapply wp_mono.
    { apply (sleepq_add_run s l sl q t r); try done. by apply (caller_unlisted s). }
    intros _ s' (Hq' & Hsame & Hw & Hc'). split; [|done]. by exists l, sl, (with_list q (SLEEPQ_HASH r) (q (SLEEPQ_HASH r) ++ [t])), t.
  - by apply (sleepq_wake_run s l sl q t r).
  - eapply wp_mono; [by apply (sleepq_wake_all_run s l sl q t r)|].
    intros _ s' (l' & q' & Hq' & Hc' & Hsame & Hw). split; [|done]. by exists l', sl, q', t.
Qed.
End theorems.

(** Thread 1 runs; 2 and 4 wait for the resource at 0x80021000, and 3 for the
    one at 0x800215f4, whose hash is the same. *)
Definition waiting_thread (r nxt : Z) : thread := set_sleeps_on r (plain_thread THREAD_SLEEPING nxt (-1) 0 1).
Definition waiting_kernel : kernel :=
  mk_kernel idle_cpu 0 700 0
    (plain_thread THREAD_READY (-1) (-1) 0 1 :: plain_thread THREAD_RUNNING (-1) (-1) 0 1
       :: waiting_thread 0x80021000 3 :: waiting_thread 0x800215f4 4 :: waiting_thread 0x80021000 (-1)
       :: replicate 27 (plain_thread THREAD_FREE (-1) (-1) 0 1))
    (-1) 0 5 [1; 0; 0; 0] (-1) (-1) (<[Z.to_nat (SLEEPQ_HASH 0x80021000) := 2]> (replicate 127 (-1))).
Definition waiting_lists (b : Z) : list Z := if b =? SLEEPQ_HASH 0x80021000 then [2; 3; 4] else [].

Lemma waiting_kernel_ok : queues_ok waiting_kernel [] [] waiting_lists /\ caller_ok waiting_kernel [] 1.
Proof.
  assert (Hnd : NoDup [2; 3; 4]) by (apply (bool_decide_unpack _); vm_compute; exact I).
  split; [split|].
  - split; [reflexivity| | |intros t Ht%not_elem_of_nil; done|intros t Ht%not_elem_of_nil; done].
    + split; [reflexivity|reflexivity|constructor|constructor|constructor|constructor].
    + split; [reflexivity|constructor|constructor|done].
  - reflexivity.
  - intros b Hb. unfold waiting_lists. destruct (Z.eqb_spec b (SLEEPQ_HASH 0x80021000)) as [->|Hne].
    + repeat split; reflexivity.
    + change (sleepq_hashtable waiting_kernel) with (<[Z.to_nat (SLEEPQ_HASH 0x80021000) := 2]> (replicate 127 (-1))).
      rewrite list_lookup_total_insert_ne.
      * rewrite lookup_total_replicate_2; [reflexivity|unfold SLEEPQ_HASHTABLE_SIZE in Hb; lia].
      * intros Heq. apply Hne. apply Z2Nat.inj; [lia|vm_check|done].
  - intros b Hb. unfold waiting_lists. destruct (b =? _); [exact Hnd|constructor].
  - intros b t Hb. unfold waiting_lists. destruct (Z.eqb_spec b (SLEEPQ_HASH 0x80021000)) as [->|Hne].
    + intros [->|[->|[->|Ht%not_elem_of_nil]%elem_of_cons]%elem_of_cons]%elem_of_cons; try done;
        (split; [vm_check|split; [vm_check|split; [reflexivity|split; [by right|reflexivity]]]]).
    + intros Ht%not_elem_of_nil. done.
  - split; [reflexivity|split; [vm_check|split; [reflexivity|split; [by right|reflexivity]]]].
Qed.

Lemma sleepq_refines_fifo_witness :
  wp (@sleepq_wake example_symbols 0x80021000) (fun _ s' => exists l' : list Z,
    woken waiting_kernel s' 2 l' /\ waiters s' 0x80021000 = [4] /\ waiters s' 0x800215f4 = [3]) waiting_kernel.
Proof.
  destruct waiting_kernel_ok as [Hq Hc].
  destruct (@sleepq_refines_fifo example_symbols waiting_kernel [] [] waiting_lists 1 0x80021000) as (_ & Hw & _).
  - exact example_layout.
  - exact Hq.
  - exact Hc.
  - vm_check.
  - vm_check.
  - apply not_elem_of_empty.
  - apply not_elem_of_empty.
  - eapply wp_mono; [exact Hw|]. intros _ s' (l' & q' & _ & _ & _ & Hwk & Hws).
    exists l'. split; [apply Hwk; reflexivity|]. rewrite !Hws. split; reflexivity.
Defined.
