(* ===== verification/Semaphore.v ===== *)
(** * kernel/semaphore.c: semaphores

    The operations are those of the file, over any kernel that provides sleep
    queues (the class of [Waiting.v]).  [semaphore_P] is cut where it switches
    to another thread: [semaphore_P] answers the interrupt state to restore
    when the caller has to wait, and [semaphore_P_resume] is what runs when
    the scheduler chooses the thread again. *)
From S2P Require Import Prelude Cpu Waiting Thread Sleepq.

(** ** The code *)

(** [semaphore_t]; its spinlock is the word at its address. *)
Record semaphore_t := mk_semaphore { value : Z; creator : Z }.
Record semaphores := mk_semaphores {
  sem_table : list semaphore_t;
  sem_next : Z        (** semaphore_create's static next *)
}.

Definition get_sem (i : Z) : M semaphores semaphore_t := fun s =>
  match rget (sem_table s) i with Ret x => Ret (x, s) | Fail f => Fail f end.
Definition put_sem (i : Z) (x : semaphore_t) : M semaphores unit := fun s =>
  t ← rset (sem_table s) i x; Ret (tt, mk_semaphores t (sem_next s)).

Section semaphore.
Context {K : Type} `{!HasCpu K, !Symbols, !SleepQueues K}.
Abbreviation sstate := (over semaphores K).

Definition semaphore_init : M sstate unit :=
  _ ← spinlock_reset semaphore_table_slock;
  on_tab (modify (fun s => mk_semaphores ((fun x => mk_semaphore (value x) (-1)) <$> sem_table s) (sem_next s))).

(** The search for a free semaphore, [n] rounds of it. *)
Fixpoint find_semaphore (n : nat) : M sstate (option Z) :=
  match n with
  | O => mret None
  | S n =>
      sem_id ← on_tab (gets sem_next);
      _ ← on_tab (modify (fun s => mk_semaphores (sem_table s) ((sem_id + 1) mod CONFIG_MAX_SEMAPHORES)));
      x ← on_tab (get_sem sem_id);
      if creator x =? -1 then
        t ← current_thread;
        _ ← on_tab (put_sem sem_id (mk_semaphore (value x) t));
        mret (Some sem_id)
      else find_semaphore n
  end.
(** The index of the semaphore, or [None] for NULL. *)
Definition semaphore_create (v : Z) : M sstate (option Z) :=
  _ ← kassert (0 <=? v);
  found ← critical semaphore_table_slock (find_semaphore (Z.to_nat CONFIG_MAX_SEMAPHORES));
  match found with
  | None => mret None
  | Some sem_id =>
      x ← on_tab (get_sem sem_id);
      _ ← on_tab (put_sem sem_id (mk_semaphore v (creator x)));
      _ ← spinlock_reset (sem_addr sem_id);
      mret (Some sem_id)
  end.

Definition semaphore_destroy (sem : Z) : M sstate unit :=
  x ← on_tab (get_sem sem);
  on_tab (put_sem sem (mk_semaphore (value x) (-1))).

(** [sem->value += d], answering the new value. *)
Definition add_value (sem d : Z) : M sstate Z :=
  x ← on_tab (get_sem sem);
  v ← lift (int (value x + d));
  _ ← on_tab (put_sem sem (mk_semaphore v (creator x)));
  mret v.
Definition semaphore_P (sem : Z) : M sstate (option Z) :=
  intr_status ← interrupt_disable;
  _ ← spinlock_acquire (sem_addr sem);
  v ← add_value sem (-1);
  if v <? 0 then
    _ ← sq_add (sem_addr sem);
    _ ← spinlock_release (sem_addr sem);
    mret (Some intr_status)
  else
    _ ← spinlock_release (sem_addr sem);
    _ ← interrupt_set_state intr_status;
    mret None.
Definition semaphore_P_resume (intr_status : Z) : M sstate unit :=
  _ ← interrupt_set_state intr_status; mret tt.

Definition semaphore_V (sem : Z) : M sstate unit :=
  critical (sem_addr sem) (
    v ← add_value sem 1;
    if v <=? 0 then sq_wake (sem_addr sem) else mret tt).
End semaphore.

(** ** The invariant *)
#[export] Instance semaphore_inhabited : Inhabited semaphore_t := populate (mk_semaphore 0 0).

Section facts.
Context {K : Type} `{!HasCpu K, !Symbols, HL : !Layout, SQ : !SleepQueues K}.
Abbreviation sstate := (over semaphores K).
Implicit Types s : sstate.

Definition sem s (i : Z) : semaphore_t := sem_table (tab s) !!! Z.to_nat i.
Definition is_sem (i : Z) : Prop := 0 <= i < CONFIG_MAX_SEMAPHORES.

(** Value [-n] means [n] threads wait; nobody waits for a free semaphore. *)
Record sems_ok s : Prop := {
  ss_sys : sq_ok (sys s);
  ss_len : zlen (sem_table (tab s)) = CONFIG_MAX_SEMAPHORES;
  ss_next : is_sem (sem_next (tab s));
  ss_count : forall i, is_sem i -> zlen (waiting s (sem_addr i)) = Z.max 0 (- value (sem s i));
  ss_free : forall i, is_sem i -> creator (sem s i) = -1 -> waiting s (sem_addr i) = []
}.

(** The calling thread may block. *)
Definition caller_free s : Prop :=
  locks_free (cpu_of s) /\ cur_of s <> 0 /\ forall r, is_resource r -> cur_of s ∉ waiting s r.

(** Only semaphore [i] differs, and its new value is [v]. *)
Definition value_set s s' (i v : Z) : Prop :=
  zlen (sem_table (tab s')) = CONFIG_MAX_SEMAPHORES /\ sem_next (tab s') = sem_next (tab s) /\
  forall j, is_sem j -> sem s' j = if j =? i then mk_semaphore v (creator (sem s i)) else sem s j.

Lemma sem_in_addresses i : is_sem i -> sem_addr i ∈ spinlock_addresses.
Proof. intros Hi. eapply list_elem_of_lookup_2, sem_addr_lookup, Hi. Qed.

Lemma sem_addr_inj i j : is_sem i -> is_sem j -> sem_addr i = sem_addr j -> i = j.
Proof. unfold sem_addr. lia. Qed.

Lemma sem_addr_ne i : is_sem i ->
  sem_addr i <> sleepq_slock /\ sem_addr i <> thread_table_slock /\ sem_addr i <> semaphore_table_slock.
Proof.
  intros Hi. pose proof (sem_addr_lookup i Hi) as Ha.
  split; [|split]; [apply (objects_differ _ 2 _ _ Ha)|apply (objects_differ _ 1 _ _ Ha)|apply (objects_differ _ 3 _ _ Ha)];
    done || lia.
Qed.

Lemma wp_get_sem s i (Q : semaphore_t -> sstate -> Prop) :
  zlen (sem_table (tab s)) = CONFIG_MAX_SEMAPHORES -> is_sem i -> Q (sem s i) s -> wp (on_tab (get_sem i)) Q s.
Proof.
  intros Hl Hi HQ. apply wp_on_tab. unfold wp, get_sem, sem, is_sem in *.
  destruct (rget_in (sem_table (tab s)) i) as (x & -> & Hx); [lia|].
  rewrite (list_lookup_total_correct _ _ _ Hx) in HQ. by destruct s.
Qed.

Lemma wp_put_sem s i x (Q : unit -> sstate -> Prop) :
  zlen (sem_table (tab s)) = CONFIG_MAX_SEMAPHORES -> is_sem i ->
  (forall s', sys s' = sys s -> zlen (sem_table (tab s')) = CONFIG_MAX_SEMAPHORES -> sem_next (tab s') = sem_next (tab s) ->
     (forall j, is_sem j -> sem s' j = if j =? i then x else sem s j) -> Q tt s') ->
  wp (on_tab (put_sem i x)) Q s.
Proof.
  unfold is_sem. intros Hl Hi HQ. apply wp_on_tab. unfold wp, put_sem. rewrite rset_in by lia. apply HQ; cbn; try done.
  - by rewrite length_insert.
  - unfold sem, is_sem. cbn. intros j Hj. destruct (Z.eqb_spec j i) as [->|Hne].
    + apply list_lookup_total_insert_eq. lia.
    + apply list_lookup_total_insert_ne. lia.
Qed.

(** The invariant after a change to one value and the queues. *)
Lemma sems_ok_set s s' i v :
  sems_ok s -> is_sem i -> value_set s s' i v -> sq_ok (sys s') ->
  zlen (waiting s' (sem_addr i)) = Z.max 0 (- v) -> (creator (sem s i) = -1 -> waiting s' (sem_addr i) = []) ->
  (forall j, is_sem j -> j <> i -> waiting s' (sem_addr j) = waiting s (sem_addr j)) -> sems_ok s'.
Proof.
  intros [Hsys Hlen Hn Hc Hf] Hi (Hl' & Hn' & Hv) Hsys' Hw Hcr Hoth. split; try done.
  - by rewrite Hn'.
  - intros j Hj. rewrite Hv by done. destruct (Z.eqb_spec j i) as [->|Hne]; [done|]. rewrite Hoth by done. by apply Hc.
  - intros j Hj. rewrite Hv by done. destruct (Z.eqb_spec j i) as [->|Hne]; [done|]. rewrite Hoth by done. by apply Hf.
Qed.

Lemma sem_free_lock s i : locks_free (cpu_of s) -> is_sem i -> is_u32 (status (cpu_of s)) /\ sem_addr i ∉ held (cpu_of s).
Proof. intros [Hst Hh] Hi. split; [done|]. by apply Hh, sem_in_addresses. Qed.


Lemma add_value_run s i d :
  zlen (sem_table (tab s)) = CONFIG_MAX_SEMAPHORES -> is_sem i -> is_i32 (value (sem s i) + d) ->
  wp (add_value i d) (fun v s' => v = value (sem s i) + d /\ value_set s s' i v /\ sys s' = sys s) s.
Proof.
  intros Hl Hi Hv. apply wp_bind, wp_get_sem; [done|done|]. apply wp_bind.
  eapply wp_lift; [unfold int; by rewrite decide_True|]. apply wp_bind, wp_put_sem; [done|done|].
  intros s' Hs Hl' Hn Hj. apply wp_ret. done.
Qed.

(** A step that changes one value and the processor only. *)
Lemma sems_ok_quiet s s' i v c :
  sems_ok s -> is_sem i -> value_set s s' i v -> sys s' = with_cpu c (sys s) ->
  Z.max 0 (- v) = Z.max 0 (- value (sem s i)) -> sems_ok s'.
Proof.
  intros Hok Hi Hset Hsys Hv. destruct (over_quiet s s' c Hsys) as (_ & Hw & _ & Hq).
  apply (sems_ok_set s s' i v); try done.
  - apply Hq, Hok.
  - rewrite Hw, Hv. by apply Hok.
  - intros Hcr. rewrite Hw. by apply Hok.
Qed.

Lemma semaphore_P_run s i :
  sems_ok s -> is_sem i -> caller_free s -> is_i32 (value (sem s i) - 1) -> creator (sem s i) <> -1 ->
  wp (semaphore_P i) (fun r s' => sems_ok s' /\ value_set s s' i (value (sem s i) - 1) /\ cur_of s' = cur_of s /\
    if 0 <? value (sem s i)
    then r = None /\ cpu_of s' = cpu_of s /\ forall r', is_resource r' -> waiting s' r' = waiting s r'
    else r = Some (status (cpu_of s)) /\ cpu_of s' = mk_cpu (Z.land 0xffff00fe (status (cpu_of s))) (held (cpu_of s)) /\
      forall r', is_resource r' ->
        waiting s' r' = if r' =? sem_addr i then waiting s (sem_addr i) ++ [cur_of s] else waiting s r') s.
Proof.
  intros Hok Hi (Hfree & Hc0 & Hnw) Hv Hcr. destruct (sem_free_lock s i Hfree Hi) as [Hst Hl].
  unfold semaphore_P. apply wp_bind, wp_disable, wp_bind, wp_acquire; [by rewrite cpu_of_with|].
  rewrite with_cpu_with, cpu_of_with. cbn [status held]. set (s1 := with_cpu _ s).
  apply wp_bind. eapply wp_mono; [apply (add_value_run s1 i (-1)); [apply Hok|done|done]|].
  intros v s2 (-> & Hset & Hsys2). change (sem s1 i) with (sem s i) in *.
  replace (value (sem s i) + -1) with (value (sem s i) - 1) in * by lia.
  change (value_set s1 s2 i) with (value_set s s2 i) in Hset. pose proof (ss_count _ Hok i Hi) as Hcount.
  destruct (over_quiet s s2 _ Hsys2) as (Hcpu2 & Hw2 & Hcur2 & Hq2).
  destruct (Z.ltb_spec 0 (value (sem s i))), (Z.ltb_spec (value (sem s i) - 1) 0); try lia.
  - apply wp_bind, wp_release. rewrite Hcpu2. cbn [status held]. rewrite held_release by done.
    apply wp_bind, wp_restore; [done|by rewrite cpu_of_with|]. intros _. apply wp_ret.
    rewrite with_cpu_with, cpu_of_with. cbn [held]. replace (mk_cpu _ _) with (cpu_of s) by (by destruct (cpu_of s)).
    set (s3 := with_cpu _ s2). assert (Hsys3 : sys s3 = with_cpu (cpu_of s) (sys s)).
    { change (with_cpu (cpu_of s) (sys s2) = with_cpu (cpu_of s) (sys s)). rewrite Hsys2. apply with_cpu_with. }
    destruct (over_quiet s s3 _ Hsys3) as (Hcpu3 & Hw3 & Hcur3 & _).
    split; [|by split_and!]. apply (sems_ok_quiet s s3 i (value (sem s i) - 1) (cpu_of s)); try done. lia.
  - pose proof (object_resource _ (sem_in_addresses i Hi)) as Hr.
    destruct (locks_free_spin _ Hfree) as (Hlq & _). destruct (sem_addr_ne i Hi) as (Hne & _).
    apply wp_bind. eapply wp_mono.
    { apply over_add; [apply Hq2, Hok|exact Hr| | | | |]; rewrite ?Hcpu2, ?Hcur2; cbn [status held].
      - apply is_u32_land; [vm_check|apply Hst].
      - apply disable_off.
      - rewrite not_elem_of_union, not_elem_of_singleton. by split.
      - done.
      - intros r' Hr'. rewrite Hw2. by apply Hnw. }
    intros _ s3 (Htab3 & Hok3 & Hcpu3 & Hcur3 & Hw3).
    apply wp_bind, wp_release, wp_ret. rewrite Hcpu3, Hcpu2. cbn [status held]. rewrite held_release by done.
    set (s4 := with_cpu _ s3). destruct (over_quiet s3 s4 _ eq_refl) as (Hcpu4 & Hw4 & Hcur4 & Hq4).
    assert (Hset4 : value_set s s4 i (value (sem s i) - 1)).
    { unfold value_set, sem. change (tab s4) with (tab s3). rewrite Htab3. exact Hset. }
    assert (Hws : forall r', is_resource r' ->
      waiting s4 r' = if r' =? sem_addr i then waiting s (sem_addr i) ++ [cur_of s] else waiting s r').
    { intros r' Hr'. by rewrite Hw4, Hw3, !Hw2, Hcur2. }
    split; [|split; [exact Hset4|split; [congruence|by split_and!]]].
    apply (sems_ok_set s s4 i (value (sem s i) - 1)); try done.
    + by apply Hq4.
    + rewrite Hws, Z.eqb_refl, length_app by done. cbn [length]. lia.
    + intros j Hj Hji. rewrite Hws by (by apply object_resource, sem_in_addresses).
      destruct (Z.eqb_spec (sem_addr j) (sem_addr i)) as [Heq|]; [|done]. by apply sem_addr_inj in Heq.
Qed.

Lemma semaphore_V_run s i :
  sems_ok s -> is_sem i -> locks_free (cpu_of s) -> is_i32 (value (sem s i) + 1) ->
  wp (semaphore_V i) (fun _ s' => sems_ok s' /\ value_set s s' i (value (sem s i) + 1) /\ cur_of s' = cur_of s /\
    cpu_of s' = cpu_of s /\
    forall r', is_resource r' -> waiting s' r' = if r' =? sem_addr i then tail (waiting s (sem_addr i)) else waiting s r') s.
Proof.
  intros Hok Hi Hfree Hv. destruct (sem_free_lock s i Hfree Hi) as [Hst Hl].
  pose proof (object_resource _ (sem_in_addresses i Hi)) as Hr. pose proof (ss_count _ Hok i Hi) as Hcount.
  apply wp_critical; [done|done|]. set (s1 := with_cpu _ s).
  apply wp_bind. eapply wp_mono; [apply (add_value_run s1 i 1); [apply Hok|done|done]|].
  intros v s2 (-> & Hset & Hsys2). change (sem s1 i) with (sem s i) in *.
  change (value_set s1 s2 i) with (value_set s s2 i) in Hset.
  destruct (over_quiet s s2 _ Hsys2) as (Hcpu2 & Hw2 & Hcur2 & Hq2).
  destruct (Z.leb_spec (value (sem s i) + 1) 0).
  - destruct (locks_free_spin _ Hfree) as (Hlq & Hlt & _). destruct (sem_addr_ne i Hi) as (Hne & Hne' & _).
    eapply wp_mono.
    { apply over_wake; [apply Hq2, Hok|exact Hr| | |]; rewrite Hcpu2; cbn [inside status held].
      - apply is_u32_land; [vm_check|apply Hst].
      - rewrite not_elem_of_union, not_elem_of_singleton. by split.
      - rewrite not_elem_of_union, not_elem_of_singleton. by split. }
    intros _ s3 (Htab3 & Hok3 & Hcpu3 & Hcur3 & Hw3). split; [congruence|].
    set (s4 := with_cpu _ s3). destruct (over_quiet s3 s4 _ eq_refl) as (Hcpu4 & Hw4 & Hcur4 & Hq4).
    assert (Hset4 : value_set s s4 i (value (sem s i) + 1)).
    { unfold value_set, sem. change (tab s4) with (tab s3). rewrite Htab3. exact Hset. }
    assert (Hws : forall r', is_resource r' ->
      waiting s4 r' = if r' =? sem_addr i then tail (waiting s (sem_addr i)) else waiting s r').
    { intros r' Hr'. by rewrite Hw4, Hw3, !Hw2. }
    split; [|split; [exact Hset4|split; [congruence|by split_and!]]].
    apply (sems_ok_set s s4 i (value (sem s i) + 1)); try done.
    + by apply Hq4.
    + rewrite Hws, Z.eqb_refl by done. destruct (waiting s (sem_addr i)); cbn [length tail] in *; lia.
    + intros Hcr. rewrite Hws, Z.eqb_refl by done. by rewrite (ss_free _ Hok i Hi Hcr).
    + intros j Hj Hji. rewrite Hws by (by apply object_resource, sem_in_addresses).
      destruct (Z.eqb_spec (sem_addr j) (sem_addr i)) as [Heq|]; [|done]. by apply sem_addr_inj in Heq.
  - apply wp_ret. split; [done|]. set (s3 := with_cpu _ s2).
    assert (Hsys3 : sys s3 = with_cpu (cpu_of s) (sys s)).
    { change (with_cpu (cpu_of s) (sys s2) = with_cpu (cpu_of s) (sys s)). rewrite Hsys2. apply with_cpu_with. }
    destruct (over_quiet s s3 _ Hsys3) as (Hcpu3 & Hw3 & Hcur3 & _).
    split; [|split; [done|split; [done|split; [done|]]]].
    + apply (sems_ok_quiet s s3 i (value (sem s i) + 1) (cpu_of s)); try done. lia.
    + intros r' _. rewrite Hw3. destruct (Z.eqb_spec r' (sem_addr i)) as [->|]; [|done].
      assert (waiting s (sem_addr i) = []) as ->; [|done]. apply length_zero_iff_nil. lia.
Qed.

(** *** Creation *)

(** The indices tried by the search, from [k] on. *)
Lemma find_semaphore_run n s :
  sems_ok s -> is_u32 (status (cpu_of s)) ->
  wp (find_semaphore n) (fun r s' => sys s' = sys s /\ is_sem (sem_next (tab s')) /\ zlen (sem_table (tab s')) = CONFIG_MAX_SEMAPHORES /\
    match r with
    | Some i => is_sem i /\ creator (sem s i) = -1 /\
        forall j, is_sem j -> sem s' j = if j =? i then mk_semaphore (value (sem s i)) (cur_of s) else sem s j
    | None => (forall j, is_sem j -> sem s' j = sem s j) /\
        forall k, 0 <= k < Z.of_nat n -> creator (sem s ((sem_next (tab s) + k) mod CONFIG_MAX_SEMAPHORES)) <> -1
    end) s.
Proof.
  revert s. induction n as [|n IH]; intros s Hok Hst; cbn [find_semaphore].
  { apply wp_ret. pose proof Hok as [_ Hl Hn _ _]. split; [done|]. split; [done|]. split; [done|]. split; [done|lia]. }
  apply wp_bind, wp_on_tab, wp_gets. apply wp_bind, wp_on_tab, wp_modify.
  pose proof (ss_next _ Hok) as Hn. pose proof (ss_len _ Hok) as Hl. cbn [tab sys].
  set (next := sem_next (tab s)) in *. set (s1 := mk_over _ (sys s)).
  assert (Hsem : sem s1 = sem s) by done. assert (Hmod : is_sem ((next + 1) mod CONFIG_MAX_SEMAPHORES)).
  { apply Z.mod_pos_bound. done. }
  assert (Hok1 : sems_ok s1) by (destruct Hok; by split).
  apply wp_bind, wp_get_sem; [done|done|]. rewrite Hsem. destruct (Z.eqb_spec (creator (sem s next)) (-1)) as [Hc|Hc].
  - apply wp_bind, over_cur; [apply Hok1|done|]. apply wp_bind, wp_put_sem; [done|done|].
    intros s' Hs Hl' Hn' Hj. apply wp_ret. split; [done|]. split; [by rewrite Hn'|]. split; [done|].
    split; [done|]. split; [done|]. intros j Hj'. rewrite Hj by done. by rewrite Hsem.
  - eapply wp_mono; [by apply (IH s1)|]. intros r s' (Hs & Hn' & Hl' & Hr). split; [done|]. split; [done|]. split; [done|].
    destruct r as [i|]; [exact Hr|]. destruct Hr as [Hj Hk]. split; [done|].
    intros k Hk'. destruct (decide (k = 0)) as [->|]; [rewrite Z.add_0_r, Z.mod_small by apply Hn; done|].
    specialize (Hk (k - 1) ltac:(lia)). change (sem_next (tab s1)) with ((next + 1) mod CONFIG_MAX_SEMAPHORES) in Hk.
    rewrite Zplus_mod_idemp_l in Hk. by replace (next + 1 + (k - 1)) with (next + k) in Hk by lia.
Qed.

Lemma sems_ok_cpu s c : sems_ok s -> sems_ok (with_cpu c s).
Proof.
  intros Hok. assert (Hsys : sys (with_cpu c s) = with_cpu c (sys s)) by reflexivity.
  destruct (over_quiet s (with_cpu c s) c Hsys) as (_ & Hw & _ & Hq).
  split; [apply Hq, Hok|apply Hok|apply Hok| |]; intros j Hj; rewrite Hw; by apply Hok.
Qed.

Lemma semaphore_create_run s v :
  sems_ok s -> locks_free (cpu_of s) -> 0 <= v ->
  wp (semaphore_create v) (fun r s' => sems_ok s' /\ cpu_of s' = cpu_of s /\ cur_of s' = cur_of s /\
    (forall r', waiting s' r' = waiting s r') /\
    match r with
    | Some i => is_sem i /\ creator (sem s i) = -1 /\
        forall j, is_sem j -> sem s' j = if j =? i then mk_semaphore v (cur_of s) else sem s j
    | None => forall j, is_sem j -> creator (sem s j) <> -1 /\ sem s' j = sem s j
    end) s.
Proof.
  intros Hok Hfree Hv. destruct (locks_free_spin _ Hfree) as (_ & _ & Hl & _). pose proof Hfree as [Hst _].
  apply wp_bind, wp_kassert; [by apply Z.leb_le|]. apply wp_bind, wp_critical; [done|done|]. set (s0 := with_cpu _ s).
  assert (Hok0 : sems_ok s0) by (by apply sems_ok_cpu).
  destruct (over_quiet s s0 (inside semaphore_table_slock s) eq_refl) as (Hcpu0 & Hw0 & Hcur0 & _).
  eapply wp_mono.
  { apply find_semaphore_run; [done|]. rewrite Hcpu0. apply is_u32_land; [vm_check|apply Hst]. }
  intros r s1 (Hsys & Hnext & Hlen & Hr). split; [change (cpu_of s1) with (cpu_of (sys s1)); by rewrite Hsys|].
  set (s2 := with_cpu (cpu_of s) s1). assert (Hsys2 : sys s2 = with_cpu (cpu_of s) (sys s)).
  { change (with_cpu (cpu_of s) (sys s1) = with_cpu (cpu_of s) (sys s)). rewrite Hsys. apply with_cpu_with. }
  destruct (over_quiet s s2 _ Hsys2) as (Hcpu2 & Hw2 & Hcur2 & Hq2). destruct r as [i|].
  - destruct Hr as (Hi & Hc & Hj). assert (Hi2 : sem s2 i = mk_semaphore (value (sem s i)) (cur_of s)).
    { change (sem s2 i) with (sem s1 i). rewrite Hj, Z.eqb_refl by done. by rewrite Hcur0. }
    apply wp_bind, wp_get_sem; [done|done|]. rewrite Hi2. cbn [creator]. apply wp_bind, wp_put_sem; [done|done|].
    intros s3 Hs3 Hl3 Hn3 Hj3. apply wp_bind, wp_release, wp_ret.
    assert (Hlk : sem_addr i ∉ held (cpu_of s)) by (by apply sem_free_lock).
    assert (Hcpu3 : cpu_of s3 = cpu_of s) by (change (cpu_of s3) with (cpu_of (sys s3)); rewrite Hs3; exact Hcpu2).
    rewrite Hcpu3. replace (mk_cpu _ _) with (cpu_of s) by (destruct (cpu_of s); cbn in *; f_equal; set_solver).
    set (s4 := with_cpu _ s3). assert (Hsys4 : sys s4 = with_cpu (cpu_of s) (sys s)).
    { change (with_cpu (cpu_of s) (sys s3) = with_cpu (cpu_of s) (sys s)). rewrite Hs3, Hsys2. apply with_cpu_with. }
    destruct (over_quiet s s4 _ Hsys4) as (Hcpu4 & Hw4 & Hcur4 & Hq4).
    assert (Hs4 : forall j, is_sem j -> sem s4 j = if j =? i then mk_semaphore v (cur_of s) else sem s j).
    { intros j Hj'. change (sem s4 j) with (sem s3 j). rewrite Hj3 by done. destruct (Z.eqb_spec j i); [done|].
      change (sem s2 j) with (sem s1 j). rewrite Hj by done. by apply Z.eqb_neq in n as ->. }
    pose proof (ss_free _ Hok i Hi Hc) as Hempty.
    split; [|by split_and!]. split; [apply Hq4, Hok|done| | |].
    + change (is_sem (sem_next (tab s3))). rewrite Hn3. exact Hnext.
    + intros j Hj'. rewrite Hw4, Hs4 by done. destruct (Z.eqb_spec j i) as [->|]; [|by apply Hok].
      rewrite Hempty. cbn. lia.
    + intros j Hj'. rewrite Hw4, Hs4 by done. destruct (Z.eqb_spec j i) as [->|]; [done|by apply Hok].
  - destruct Hr as [Hj Hk]. apply wp_ret. split; [|split; [done|split; [done|split; [done|]]]].
    + split; [apply Hq2, Hok|done|done| |]; intros j Hj'; rewrite Hw2; change (sem s2 j) with (sem s1 j);
        rewrite Hj by done; by apply Hok.
    + intros j Hj'. split; [|by apply Hj].
      specialize (Hk ((j - sem_next (tab s)) mod CONFIG_MAX_SEMAPHORES)).
      assert (0 <= (j - sem_next (tab s)) mod CONFIG_MAX_SEMAPHORES < CONFIG_MAX_SEMAPHORES) by (by apply Z.mod_pos_bound).
      specialize (Hk ltac:(lia)). change (sem s0 ?k) with (sem s k) in Hk. change (sem_next (tab s0)) with (sem_next (tab s)) in Hk.
      rewrite Zplus_mod_idemp_r in Hk. replace (sem_next (tab s) + (j - sem_next (tab s))) with j in Hk by lia.
      by rewrite Z.mod_small in Hk by done.
Qed.

Lemma semaphore_destroy_run s i :
  sems_ok s -> is_sem i -> waiting s (sem_addr i) = [] ->
  wp (semaphore_destroy i) (fun _ s' => sems_ok s' /\ sys s' = sys s /\
    forall j, is_sem j -> sem s' j = if j =? i then mk_semaphore (value (sem s i)) (-1) else sem s j) s.
Proof.
  intros Hok Hi He. apply wp_bind, wp_get_sem; [apply Hok|done|]. apply wp_put_sem; [apply Hok|done|].
  intros s' Hs Hl Hn Hj. split; [|done].
  assert (Hw : forall r, waiting s' r = waiting s r) by (intros r; cbn; by rewrite Hs).
  split; [cbn; rewrite Hs; apply Hok|done|rewrite Hn; apply Hok| |]; intros j Hj'; rewrite Hw, Hj by done;
    (destruct (Z.eqb_spec j i) as [->|]; [|by apply Hok]); cbn [value creator]; first [done | by apply Hok].
Qed.

Lemma add_value_inv s i d v s' :
  zlen (sem_table (tab s)) = CONFIG_MAX_SEMAPHORES -> is_sem i ->
  add_value i d s = Ret (v, s') -> is_i32 (value (sem s i) + d).
Proof.
  intros Hl Hi (x & s1 & Hx & H')%bind_inv. apply bind_inv in H' as (v' & s2 & Hv & _).
  assert (Hwp : wp (on_tab (get_sem i)) (fun x' s1' => x' = sem s i) s) by (by apply wp_get_sem).
  unfold wp in Hwp. rewrite Hx in Hwp. subst x. unfold lift, int in Hv. by case_decide.
Qed.

Lemma enter_inv {A} s l (k : Z -> M sstate A) a s' :
  (st ← interrupt_disable; _ ← spinlock_acquire l; k st) s = Ret (a, s') ->
  exists s1, tab s1 = tab s /\ k (status (cpu_of s)) s1 = Ret (a, s').
Proof.
  intros (st & s1 & [= <- <-] & H')%bind_inv. apply bind_inv in H' as ([] & s2 & Ha & Hk).
  unfold spinlock_acquire in Ha. case_decide; [discriminate Ha|]. injection Ha as <-. eexists. split; [|exact Hk]. done.
Qed.

(** *** Runs of the system

    Threads and interrupt handlers use the semaphores in any order; [Switch]
    is everything that neither uses a semaphore nor makes a thread wait or stop
    waiting: the scheduler choosing another thread (one that was woken resumes
    with [semaphore_P_resume]), clock interrupts, user code. *)
Inductive action := P (i : Z) | V (i : Z) | Create (r : option Z) | Destroy (i : Z) | Switch.
#[export] Instance action_eq_dec : EqDecision action.
Proof. solve_decision. Defined.

Inductive sem_step : sstate -> action -> sstate -> Prop :=
| step_P s i r s' : is_sem i -> creator (sem s i) <> -1 -> caller_free s ->
    semaphore_P i s = Ret (r, s') -> sem_step s (P i) s'
| step_V s i s' : is_sem i -> locks_free (cpu_of s) -> semaphore_V i s = Ret (tt, s') -> sem_step s (V i) s'
| step_create s v r s' : 0 <= v -> locks_free (cpu_of s) -> semaphore_create v s = Ret (r, s') ->
    sem_step s (Create r) s'
| step_destroy s i s' : is_sem i -> waiting s (sem_addr i) = [] -> semaphore_destroy i s = Ret (tt, s') ->
    sem_step s (Destroy i) s'
| step_switch s k : sq_ok k -> (forall r, is_resource r -> waiting k r = waiting (sys s) r) ->
    sem_step s Switch (mk_over (tab s) k).

Inductive sem_run : sstate -> list action -> sstate -> Prop :=
| run_nil s : sem_run s [] s
| run_cons s a s1 tr s' : sem_step s a s1 -> sem_run s1 tr s' -> sem_run s (a :: tr) s'.

(** How often an action occurs. *)
Definition times (a : action) (tr : list action) : Z := zlen (filter (a =.) tr).

Lemma times_cons a b tr : times a (b :: tr) = (if decide (a = b) then 1 else 0) + times a tr.
Proof. unfold times. rewrite filter_cons. case_decide; cbn [length]; lia. Qed.

Definition sem_value_after (a : action) (i v : Z) : Z :=
  if decide (a = P i) then v - 1 else if decide (a = V i) then v + 1 else v.

Lemma wp_of_run {A} (m : M sstate A) (Q : A -> sstate -> Prop) s a s' : wp m Q s -> m s = Ret (a, s') -> Q a s'.
Proof. unfold wp. intros HQ Hm. by rewrite Hm in HQ. Qed.

Lemma sem_step_ok s a s' i :
  sems_ok s -> sem_step s a s' -> is_sem i -> a <> Create (Some i) ->
  sems_ok s' /\ value (sem s' i) = sem_value_after a i (value (sem s i)).
Proof.
  intros Hok Hstep Hi Ha. unfold sem_value_after. destruct Hstep as [s j r s' Hj Hc Hcf Hr|s j s' Hj Hf Hr|s v r s' Hv Hf Hr|s j s' Hj Hw Hr|s k Hk Hw].
  - assert (Hv : is_i32 (value (sem s j) - 1)).
    { pose proof Hr as Hr'. apply enter_inv in Hr' as (s1 & Ht & Hr'). apply bind_inv in Hr' as (v & s2 & Hv & _).
      apply add_value_inv in Hv; [|by rewrite Ht; apply Hok|done]. unfold sem in *. by rewrite Ht in Hv. }
    destruct (wp_of_run _ _ _ _ _ (semaphore_P_run s j Hok Hj Hcf Hv Hc) Hr) as (Hok' & (_ & _ & Hset) & _).
    split; [done|]. rewrite Hset by done. destruct (Z.eqb_spec i j) as [->|Hne].
    + by rewrite decide_True.
    + rewrite decide_False by congruence. by rewrite decide_False.
  - assert (Hv : is_i32 (value (sem s j) + 1)).
    { pose proof Hr as Hr'. apply enter_inv in Hr' as (s1 & Ht & Hr'). apply bind_inv in Hr' as (u & s2 & Hu & _).
      apply bind_inv in Hu as (v & s3 & Hv & _).
      apply add_value_inv in Hv; [|by rewrite Ht; apply Hok|done]. unfold sem in *. by rewrite Ht in Hv. }
    destruct (wp_of_run _ _ _ _ _ (semaphore_V_run s j Hok Hj Hf Hv) Hr) as (Hok' & (_ & _ & Hset) & _).
    split; [done|]. rewrite decide_False by done. rewrite Hset by done. destruct (Z.eqb_spec i j) as [->|Hne].
    + by rewrite decide_True.
    + by rewrite decide_False by congruence.
  - rewrite !decide_False by done.
    destruct (wp_of_run _ _ _ _ _ (semaphore_create_run s v Hok Hf Hv) Hr) as (Hok' & _ & _ & _ & Hres).
    split; [done|]. destruct r as [j|].
    + destruct Hres as (_ & _ & Hj). rewrite Hj by done. by destruct (Z.eqb_spec i j) as [->|].
    + f_equal. by apply Hres.
  - rewrite !decide_False by done.
    destruct (wp_of_run _ _ _ _ _ (semaphore_destroy_run s j Hok Hj Hw) Hr) as (Hok' & _ & Hres).
    split; [done|]. rewrite Hres by done. by destruct (Z.eqb_spec i j) as [->|].
  - rewrite !decide_False by done. split; [|done].
    split; [done|apply Hok|apply Hok| |]; intros j Hj; cbn; rewrite Hw by (by apply object_resource, sem_in_addresses);
      by apply Hok.
Qed.

Lemma sem_run_ok s tr s' i :
  sems_ok s -> sem_run s tr s' -> is_sem i -> Create (Some i) ∉ tr ->
  sems_ok s' /\ value (sem s' i) = value (sem s i) + times (V i) tr - times (P i) tr.
Proof.
  intros Hok Hrun Hi. induction Hrun as [s|s a s1 tr s' Hstep _ IH]; intros Hn.
  { split; [done|]. unfold times. cbn. lia. }
  apply not_elem_of_cons in Hn as [Ha Hn].
  destruct (sem_step_ok s a s1 i Hok Hstep Hi) as [Hok1 Hv1]; [congruence|].
  destruct (IH Hok1 Hn) as [Hok' Hv]. split; [done|]. rewrite Hv, Hv1, !times_cons. unfold sem_value_after.
  repeat case_decide; subst; try lia; congruence.
Qed.
End facts.

(** ** The properties *)
Section theorems.
Context {K : Type} `{!HasCpu K, !Symbols, HL : !Layout, SQ : !SleepQueues K}.
Implicit Types s : over semaphores K.

(** Claim C2. However threads and interrupt handlers interleave their
    calls, a semaphore lets through exactly as many [semaphore_P]s as it has
    permits: of the calls made since its value was [v >= 0], the number that
    did not block or have been woken is the smaller of the number of calls and
    [v] plus the number of [semaphore_V]s.  So never more threads pass than
    there are permits, and no thread is left waiting while a permit is free.
    The invariant, that [-value] threads wait when the value is negative and
    none otherwise, holds in every state. *)
Theorem semaphore_permits s tr s' i :
  sems_ok s -> sem_run s tr s' -> is_sem i -> 0 <= value (sem s i) -> Create (Some i) ∉ tr ->
  sems_ok s' /\
  times (P i) tr - zlen (waiting s' (sem_addr i)) = Z.min (times (P i) tr) (value (sem s i) + times (V i) tr).
Proof.
  intros Hok Hrun Hi Hv Hn. destruct (sem_run_ok s tr s' i Hok Hrun Hi Hn) as [Hok' Hval].
  split; [done|]. rewrite (ss_count _ Hok' i Hi), Hval. lia.
Qed.

(** [semaphore_P] takes a permit without waiting if there is one,
    and then nothing but the value changes; otherwise the caller is put behind
    the threads that wait for this semaphore and is about to switch with
    interrupts off and no spinlock held.  [semaphore_V] lets the first of them
    go.  Neither panics, spins or touches another semaphore or its queue. *)
Theorem semaphore_P_V_correct s i :
  sems_ok s -> is_sem i -> creator (sem s i) <> -1 -> locks_free (cpu_of s) ->
  -2147483648 < value (sem s i) < 2147483647 ->
  (caller_free s -> wp (semaphore_P i) (fun r s' => sems_ok s' /\ value_set s s' i (value (sem s i) - 1) /\
    cur_of s' = cur_of s /\
    if 0 <? value (sem s i)
    then r = None /\ cpu_of s' = cpu_of s /\ forall r', is_resource r' -> waiting s' r' = waiting s r'
    else r = Some (status (cpu_of s)) /\ interrupts_off (status (cpu_of s')) /\ held (cpu_of s') = held (cpu_of s) /\
      forall r', is_resource r' ->
        waiting s' r' = if r' =? sem_addr i then waiting s (sem_addr i) ++ [cur_of s] else waiting s r') s) /\
  wp (semaphore_V i) (fun _ s' => sems_ok s' /\ value_set s s' i (value (sem s i) + 1) /\
    cur_of s' = cur_of s /\ cpu_of s' = cpu_of s /\
    forall r', is_resource r' ->
      waiting s' r' = if r' =? sem_addr i then tail (waiting s (sem_addr i)) else waiting s r') s.
Proof.
  intros Hok Hi Hc Hf Hv. split.
  - intros Hcf. eapply wp_mono; [apply (semaphore_P_run s i); try done; unfold is_i32; lia|].
    intros r s' (Hok' & Hset & Hcur & Hr). split; [done|]. split; [done|]. split; [done|].
    destruct (0 <? value (sem s i)); [done|]. destruct Hr as (-> & -> & Hw). split; [done|]. split; [apply disable_off|done].
  - apply semaphore_V_run; try done. unfold is_i32. lia.
Qed.

(** [semaphore_create v] takes a semaphore nobody uses,
    wherever the search starts, gives it the value [v] and the calling thread
    as creator, and changes no other semaphore; it fails only when all are in
    use, and then changes none. *)
Theorem semaphore_create_correct s v :
  sems_ok s -> locks_free (cpu_of s) -> 0 <= v ->
  wp (semaphore_create v) (fun r s' => sems_ok s' /\ cpu_of s' = cpu_of s /\ cur_of s' = cur_of s /\
    (forall r', waiting s' r' = waiting s r') /\
    match r with
    | Some i => is_sem i /\ creator (sem s i) = -1 /\
        forall j, is_sem j -> sem s' j = if j =? i then mk_semaphore v (cur_of s) else sem s j
    | None => forall j, is_sem j -> creator (sem s j) <> -1 /\ sem s' j = sem s j
    end) s.
Proof. apply semaphore_create_run. Qed.
End theorems.

(** ** A run over the kernel of [Sleepq.v]: two threads wait for semaphore 0
    and one for semaphore 127, whose addresses have the same hash; semaphore 1
    has one permit. *)
Definition sem_kernel : over semaphores kernel :=
  mk_over (mk_semaphores (mk_semaphore (-2) 1 :: mk_semaphore 1 1 :: replicate 125 (mk_semaphore 0 (-1)) ++ [mk_semaphore (-1) 1]) 1)
    waiting_kernel.
#[local] Existing Instance example_symbols.
#[local] Existing Instance example_layout.

(** Tables that agree with the queues of [waiting_kernel]. *)
Lemma checked_sems_ok (t : semaphores) :
  let s := mk_over t waiting_kernel in
  zlen (sem_table t) = CONFIG_MAX_SEMAPHORES -> is_sem (sem_next t) ->
  Forall (fun i => zlen (waiting s (sem_addr i)) =? Z.max 0 (- value (sem s i)) = true) (seqZ 0 128) ->
  Forall (fun i => creator (sem s i) = -1 -> waiting s (sem_addr i) = []) (seqZ 0 128) -> sems_ok s.
Proof.
  intros s Hlen Hnext Hcount Hfree. split; [|done|done| |].
  - destruct waiting_kernel_ok. by exists [], [], waiting_lists, 1.
  - intros i Hi. apply Z.eqb_eq. rewrite Forall_forall in Hcount. apply Hcount, elem_of_seqZ. unfold is_sem, CONFIG_MAX_SEMAPHORES in Hi. lia.
  - intros i Hi. rewrite Forall_forall in Hfree. apply Hfree, elem_of_seqZ. unfold is_sem, CONFIG_MAX_SEMAPHORES in Hi. lia.
Qed.
Lemma sem_kernel_ok : sems_ok sem_kernel.
Proof. apply checked_sems_ok; [done|vm_check|apply (bool_decide_unpack _); vm_compute; exact I..]. Qed.

Lemma running_not_waiting r : 1 ∉ waiters waiting_kernel r.
Proof.
  destruct waiting_kernel_ok as [Hq _]. rewrite (waiters_bucket _ _ _ _ _ Hq). rewrite list_elem_of_filter.
  intros [_ Hin]. unfold waiting_lists in Hin. destruct (_ =? _).
  - apply elem_of_cons in Hin as [|[|[|Hin%not_elem_of_nil]%elem_of_cons]%elem_of_cons]; done.
  - by apply not_elem_of_nil in Hin.
Qed.

Lemma caller_free_waiting (t : semaphores) : caller_free (mk_over t waiting_kernel).
Proof.
  split; [split; [vm_check|intros a _; apply not_elem_of_empty]|].
  split; [discriminate|]. intros r _. apply running_not_waiting.
Qed.

(** The state after a computation that returns. *)
Definition after {S A} (m : M S A) (s : S) : S := match m s with Ret (_, s') => s' | Fail _ => s end.

Lemma semaphore_permits_witness :
  exists s', sem_run sem_kernel [P 1; P 1; V 1] s' /\ zlen (waiting s' (sem_addr 1)) = 0.
Proof.
  set (s1 := after (semaphore_P 1) sem_kernel). set (s2 := after (semaphore_P 1) s1). set (s3 := after (semaphore_V 1) s2).
  assert (Hrun : sem_run sem_kernel [P 1; P 1; V 1] s3).
  { eapply run_cons; [apply (step_P _ 1 None s1)|eapply run_cons; [apply (step_P _ 1 (Some 0x1000ff01) s2)|eapply run_cons; [apply (step_V _ 1 s3)|apply run_nil]]].
    - vm_check.
    - discriminate.
    - apply caller_free_waiting.
    - vm_compute. reflexivity.
    - vm_check.
    - discriminate.
    - apply (caller_free_waiting (tab s1)).
    - vm_compute. reflexivity.
    - vm_check.
    - split; [vm_check|intros a _; apply not_elem_of_empty].
    - vm_compute. reflexivity. }
  exists s3. split; [exact Hrun|].
  destruct (semaphore_permits sem_kernel [P 1; P 1; V 1] s3 1) as [_ Heq].
  - apply sem_kernel_ok.
  - exact Hrun.
  - vm_check.
  - vm_check.
  - apply (bool_decide_unpack _). vm_compute. exact I.
  - change (times (P 1) [P 1; P 1; V 1]) with 2 in Heq. change (times (V 1) [P 1; P 1; V 1]) with 1 in Heq.
    change (value (sem sem_kernel 1)) with 1 in Heq. lia.
Defined.

Lemma semaphore_P_V_correct_witness :
  wp (semaphore_V 0) (fun _ s' => sems_ok s' /\ value (sem s' 0) = -1 /\
    waiting s' (sem_addr 0) = [4] /\ waiting s' (sem_addr 127) = [3]) sem_kernel.
Proof.
  destruct (semaphore_P_V_correct sem_kernel 0) as [_ HV].
  - apply sem_kernel_ok.
  - vm_check.
  - discriminate.
  - apply (caller_free_waiting (tab sem_kernel)).
  - vm_check.
  - eapply wp_mono; [exact HV|]. intros _ s' (Hok & (_ & _ & Hset) & _ & _ & Hw). split; [exact Hok|].
    rewrite Hset by vm_check. split; [reflexivity|]. rewrite !Hw by vm_check. split; reflexivity.
Defined.

Lemma semaphore_create_correct_witness :
  wp (semaphore_create 7) (fun r s' => exists i, r = Some i /\ value (sem s' i) = 7) sem_kernel.
Proof.
  eapply wp_mono; [apply (semaphore_create_correct sem_kernel 7)|].
  - apply sem_kernel_ok.
  - apply (caller_free_waiting (tab sem_kernel)).
  - discriminate.
  - intros r s' (_ & _ & _ & _ & Hr). destruct r as [i|].
    + exists i. split; [reflexivity|]. destruct Hr as (Hi & _ & Hj). rewrite Hj, Z.eqb_refl by exact Hi. reflexivity.
    + destruct (Hr 2) as [Hne _]; [vm_check|]. contradiction Hne. reflexivity.
Defined.
