(* ===== verification/LockCond.v ===== *)
(** * kernel/lock_cond.c: locks and condition variables

    Locks are reentrant and hand over directly: releasing a lock that threads
    wait for reserves it for the first of them.  [lock_acquire] and
    [condition_wait] are cut where they switch to another thread: they answer
    the interrupt state to restore, and [lock_acquire_resume] and
    [condition_wait_resume] are what runs when the scheduler chooses the thread
    again. *)
From S2P Require Import Prelude Cpu Chain Waiting Thread Sleepq.

Definition LOCK_NO_THREAD : Z := -1.
Definition LOCK_RESERVED_THREAD : Z := -2.

(** ** The code *)

Record lock_t := mk_lock {
  locked_id : Z;                 (** TID_t *)
  nested_locking_count : Z;      (** uint32_t *)
  waiting_thread_count : Z;      (** uint32_t *)
  is_used : Z
}.
Record cond_t := mk_cond { cond_waiting_thread_count : Z; cond_is_used : Z }.
(** [lock_table] and [cond_table]; the spinlocks are the words at the addresses
    of their elements. *)
Record lock_tables := mk_tables { locks : list lock_t; conds : list cond_t }.

Definition get_lock (i : Z) : M lock_tables lock_t := fun s =>
  match rget (locks s) i with Ret x => Ret (x, s) | Fail f => Fail f end.
Definition put_lock (i : Z) (x : lock_t) : M lock_tables unit := fun s =>
  t ← rset (locks s) i x; Ret (tt, mk_tables t (conds s)).
Definition get_cond (i : Z) : M lock_tables cond_t := fun s =>
  match rget (conds s) i with Ret x => Ret (x, s) | Fail f => Fail f end.
Definition put_cond (i : Z) (x : cond_t) : M lock_tables unit := fun s =>
  t ← rset (conds s) i x; Ret (tt, mk_tables (locks s) t).

Section lock_cond.
Context {K : Type} `{!HasCpu K, !Symbols, !SleepQueues K}.
Abbreviation lstate := (over lock_tables K).

Definition s_release (spin_lock prev_status : Z) : M lstate unit :=
  _ ← spinlock_release spin_lock;
  _ ← interrupt_set_state prev_status;
  mret tt.

(** The loop over the table, from [i] on. *)
Fixpoint lock_init_loop (n : nat) (i : Z) : M lstate unit :=
  match n with
  | O => mret tt
  | S n =>
      _ ← spinlock_reset (lock_addr i);
      _ ← on_tab (put_lock i (mk_lock LOCK_NO_THREAD 0 0 0));
      lock_init_loop n (i + 1)
  end.
Definition lock_table_init : M lstate unit :=
  prev_int_stat ← interrupt_disable;
  _ ← spinlock_reset lock_table_slock;
  _ ← spinlock_acquire lock_table_slock;
  _ ← lock_init_loop (Z.to_nat CONFIG_MAX_LOCKS) 0;
  s_release lock_table_slock prev_int_stat.

Fixpoint cond_init_loop (n : nat) (i : Z) : M lstate unit :=
  match n with
  | O => mret tt
  | S n =>
      _ ← spinlock_reset (cond_addr i);
      _ ← on_tab (put_cond i (mk_cond 0 0));
      cond_init_loop n (i + 1)
  end.
Definition cond_table_init : M lstate unit :=
  prev_int_stat ← interrupt_disable;
  _ ← spinlock_reset cond_table_slock;
  _ ← spinlock_acquire cond_table_slock;
  _ ← cond_init_loop (Z.to_nat CONFIG_MAX_CONDITION_VARIABLES) 0;
  s_release cond_table_slock prev_int_stat.

Fixpoint lock_create_loop (n : nat) (i : Z) : M lstate Z :=
  match n with
  | O => kpanic
  | S n =>
      l ← on_tab (get_lock i);
      if is_used l =? 0 then
        _ ← on_tab (put_lock i (mk_lock (locked_id l) (nested_locking_count l) (waiting_thread_count l) 1));
        mret i
      else lock_create_loop n (i + 1)
  end.
Definition lock_create : M lstate Z :=
  critical lock_table_slock (lock_create_loop (Z.to_nat CONFIG_MAX_LOCKS) 0).

Definition lock_destroy (lock : Z) : M lstate unit :=
  critical lock_table_slock (
    _ ← spinlock_acquire (lock_addr lock);
    l ← on_tab (get_lock lock);
    _ ← kassert (locked_id l =? LOCK_NO_THREAD);
    _ ← on_tab (put_lock lock (mk_lock (locked_id l) (nested_locking_count l) (waiting_thread_count l) 0));
    spinlock_release (lock_addr lock)).

Definition lock_acquire (lock : Z) : M lstate (option Z) :=
  prev_int_stat ← interrupt_disable;
  _ ← spinlock_acquire (lock_addr lock);
  l ← on_tab (get_lock lock);
  me ← current_thread;
  if locked_id l =? LOCK_NO_THREAD then
    _ ← on_tab (put_lock lock (mk_lock me 1 (waiting_thread_count l) (is_used l)));
    _ ← s_release (lock_addr lock) prev_int_stat;
    mret None
  else if locked_id l =? me then
    _ ← on_tab (put_lock lock (mk_lock (locked_id l) (u32 (nested_locking_count l + 1)) (waiting_thread_count l) (is_used l)));
    _ ← s_release (lock_addr lock) prev_int_stat;
    mret None
  else
    _ ← on_tab (put_lock lock (mk_lock (locked_id l) (nested_locking_count l) (u32 (waiting_thread_count l + 1)) (is_used l)));
    _ ← sq_add (lock_addr lock);
    _ ← spinlock_release (lock_addr lock);
    mret (Some prev_int_stat).
Definition lock_acquire_resume (lock prev_int_stat : Z) : M lstate unit :=
  _ ← spinlock_acquire (lock_addr lock);
  l ← on_tab (get_lock lock);
  me ← current_thread;
  _ ← on_tab (put_lock lock (mk_lock me 1 (u32 (waiting_thread_count l - 1)) (is_used l)));
  s_release (lock_addr lock) prev_int_stat.

Definition lock_release (lock : Z) : M lstate unit :=
  critical (lock_addr lock) (
    l ← on_tab (get_lock lock);
    me ← current_thread;
    _ ← kassert (locked_id l =? me);
    if nested_locking_count l >? 1 then
      on_tab (put_lock lock (mk_lock (locked_id l) (u32 (nested_locking_count l - 1)) (waiting_thread_count l) (is_used l)))
    else
      _ ← on_tab (put_lock lock (mk_lock (locked_id l) 0 (waiting_thread_count l) (is_used l)));
      if waiting_thread_count l >? 0 then
        _ ← sq_wake (lock_addr lock);
        on_tab (put_lock lock (mk_lock LOCK_RESERVED_THREAD 0 (waiting_thread_count l) (is_used l)))
      else
        on_tab (put_lock lock (mk_lock LOCK_NO_THREAD 0 (waiting_thread_count l) (is_used l)))).

Fixpoint condition_create_loop (n : nat) (i : Z) : M lstate Z :=
  match n with
  | O => kpanic
  | S n =>
      c ← on_tab (get_cond i);
      if cond_is_used c =? 0 then
        _ ← on_tab (put_cond i (mk_cond (cond_waiting_thread_count c) 1));
        mret i
      else condition_create_loop n (i + 1)
  end.
(** The bound of the loop is the number of locks. *)
Definition condition_create : M lstate Z :=
  critical cond_table_slock (condition_create_loop (Z.to_nat CONFIG_MAX_LOCKS) 0).

Definition condition_destroy (cond : Z) : M lstate unit :=
  critical cond_table_slock (
    _ ← spinlock_acquire (cond_addr cond);
    c ← on_tab (get_cond cond);
    _ ← kassert (cond_waiting_thread_count c =? 0);
    _ ← on_tab (put_cond cond (mk_cond (cond_waiting_thread_count c) 0));
    spinlock_release (cond_addr cond)).

Definition condition_wait (cond condition_lock : Z) : M lstate Z :=
  prev_int_stat ← interrupt_disable;
  _ ← spinlock_acquire (cond_addr cond);
  c ← on_tab (get_cond cond);
  _ ← on_tab (put_cond cond (mk_cond (u32 (cond_waiting_thread_count c + 1)) (cond_is_used c)));
  _ ← sq_add (cond_addr cond);
  _ ← lock_release condition_lock;
  _ ← spinlock_release (cond_addr cond);
  mret prev_int_stat.
(** Acquiring the lock again may wait again. *)
Definition condition_wait_resume (condition_lock prev_int_stat : Z) : M lstate (option Z) :=
  _ ← interrupt_set_state prev_int_stat;
  lock_acquire condition_lock.

Definition condition_signal (cond : Z) : M lstate unit :=
  critical (cond_addr cond) (
    c ← on_tab (get_cond cond);
    if cond_waiting_thread_count c >? 0 then
      _ ← on_tab (put_cond cond (mk_cond (u32 (cond_waiting_thread_count c - 1)) (cond_is_used c)));
      sq_wake (cond_addr cond)
    else mret tt).

Definition condition_broadcast (cond : Z) : M lstate unit :=
  critical (cond_addr cond) (
    c ← on_tab (get_cond cond);
    if cond_waiting_thread_count c >? 0 then
      _ ← on_tab (put_cond cond (mk_cond 0 (cond_is_used c)));
      sq_wake_all (cond_addr cond)
    else mret tt).
End lock_cond.

(** ** The operations *)

(** What [lock_release] leaves of the lock and the threads waiting for it. *)
Definition released (l : lock_t) (q : list Z) : lock_t * list Z :=
  if nested_locking_count l >? 1 then
    (mk_lock (locked_id l) (u32 (nested_locking_count l - 1)) (waiting_thread_count l) (is_used l), q)
  else if waiting_thread_count l >? 0 then
    (mk_lock LOCK_RESERVED_THREAD 0 (waiting_thread_count l) (is_used l), tail q)
  else (mk_lock LOCK_NO_THREAD 0 (waiting_thread_count l) (is_used l), q).

#[export] Instance lock_inhabited : Inhabited lock_t := populate (mk_lock 0 0 0 0).
#[export] Instance cond_inhabited : Inhabited cond_t := populate (mk_cond 0 0).

Section facts.
Context {K : Type} `{!HasCpu K, !Symbols, HL : !Layout, SQ : !SleepQueues K}.
Abbreviation lstate := (over lock_tables K).
Implicit Types s : lstate.

Definition lock s (i : Z) : lock_t := locks (tab s) !!! Z.to_nat i.
Definition cond s (c : Z) : cond_t := conds (tab s) !!! Z.to_nat c.
Definition is_lock (i : Z) : Prop := 0 <= i < CONFIG_MAX_LOCKS.
Definition is_cond (c : Z) : Prop := 0 <= c < CONFIG_MAX_CONDITION_VARIABLES.

(** The threads that wait, first come first. *)
Definition lq s (i : Z) : list Z := waiting s (lock_addr i).
Definition cq s (c : Z) : list Z := waiting s (cond_addr c).

Definition base s : Prop :=
  sq_ok s /\ zlen (locks (tab s)) = CONFIG_MAX_LOCKS /\ zlen (conds (tab s)) = CONFIG_MAX_CONDITION_VARIABLES.
Definition same_queues s s' : Prop :=
  (forall j, is_lock j -> lq s' j = lq s j) /\ (forall c, is_cond c -> cq s' c = cq s c).
Definition lock_queue_is s s' (i : Z) (l : list Z) : Prop :=
  (forall j, is_lock j -> lq s' j = if j =? i then l else lq s j) /\ (forall c, is_cond c -> cq s' c = cq s c).
Definition cond_queue_is s s' (i : Z) (l : list Z) : Prop :=
  (forall j, is_lock j -> lq s' j = lq s j) /\ (forall c, is_cond c -> cq s' c = if c =? i then l else cq s c).
Definition same_conds s s' : Prop := forall c, is_cond c -> cond s' c = cond s c.
Definition same_locks s s' : Prop := forall j, is_lock j -> lock s' j = lock s j.
Definition lock_is s s' (i : Z) (x : lock_t) : Prop := forall j, is_lock j -> lock s' j = if j =? i then x else lock s j.
Definition cond_is s s' (i : Z) (x : cond_t) : Prop := forall c, is_cond c -> cond s' c = if c =? i then x else cond s c.

Lemma lock_in_addresses i : is_lock i -> lock_addr i ∈ spinlock_addresses.
Proof. intros Hi. eapply list_elem_of_lookup_2, lock_addr_lookup, Hi. Qed.
Lemma cond_in_addresses i : is_cond i -> cond_addr i ∈ spinlock_addresses.
Proof. intros Hi. eapply list_elem_of_lookup_2, cond_addr_lookup, Hi. Qed.
Lemma lock_resource i : is_lock i -> is_resource (lock_addr i).
Proof. intros Hi. by apply object_resource, lock_in_addresses. Qed.
Lemma cond_resource i : is_cond i -> is_resource (cond_addr i).
Proof. intros Hi. by apply object_resource, cond_in_addresses. Qed.

Lemma lock_cond_ne i c : is_lock i -> is_cond c -> lock_addr i <> cond_addr c.
Proof.
  intros Hi Hc. apply (objects_differ _ _ _ _ (lock_addr_lookup i Hi) (cond_addr_lookup c Hc)).
  unfold is_lock, CONFIG_MAX_LOCKS in Hi. lia.
Qed.
Lemma lock_addr_ne i : is_lock i ->
  lock_addr i <> sleepq_slock /\ lock_addr i <> thread_table_slock /\ lock_addr i <> lock_table_slock.
Proof.
  intros Hi. pose proof (lock_addr_lookup i Hi) as Ha.
  split; [|split]; [apply (objects_differ _ 2 _ _ Ha)|apply (objects_differ _ 1 _ _ Ha)|apply (objects_differ _ 4 _ _ Ha)];
    done || lia.
Qed.
Lemma cond_addr_ne i : is_cond i ->
  cond_addr i <> sleepq_slock /\ cond_addr i <> thread_table_slock /\ cond_addr i <> cond_table_slock.
Proof.
  intros Hi. pose proof (cond_addr_lookup i Hi) as Ha.
  split; [|split]; [apply (objects_differ _ 2 _ _ Ha)|apply (objects_differ _ 1 _ _ Ha)|apply (objects_differ _ 5 _ _ Ha)];
    done || lia.
Qed.

Lemma lock_queue_set s s' i l :
  is_lock i -> (forall r, is_resource r -> waiting s' r = if r =? lock_addr i then l else waiting s r) ->
  lock_queue_is s s' i l.
Proof.
  intros Hi Hw. split.
  - intros j Hj. unfold lq. rewrite Hw by (by apply lock_resource).
    destruct (Z.eqb_spec j i) as [->|Hne]; [by rewrite Z.eqb_refl|].
    destruct (Z.eqb_spec (lock_addr j) (lock_addr i)); [|done]. unfold lock_addr in *. lia.
  - intros c Hc. unfold cq. rewrite Hw by (by apply cond_resource).
    destruct (Z.eqb_spec (cond_addr c) (lock_addr i)); [|done]. by destruct (lock_cond_ne i c).
Qed.
Lemma cond_queue_set s s' i l :
  is_cond i -> (forall r, is_resource r -> waiting s' r = if r =? cond_addr i then l else waiting s r) ->
  cond_queue_is s s' i l.
Proof.
  intros Hi Hw. split.
  - intros j Hj. unfold lq. rewrite Hw by (by apply lock_resource).
    destruct (Z.eqb_spec (lock_addr j) (cond_addr i)); [|done]. by destruct (lock_cond_ne j i).
  - intros c Hc. unfold cq. rewrite Hw by (by apply cond_resource).
    destruct (Z.eqb_spec c i) as [->|Hne]; [by rewrite Z.eqb_refl|].
    destruct (Z.eqb_spec (cond_addr c) (cond_addr i)); [|done]. unfold cond_addr in *. lia.
Qed.

Lemma wp_get_lock s i (Q : lock_t -> lstate -> Prop) :
  base s -> is_lock i -> Q (lock s i) s -> wp (on_tab (get_lock i)) Q s.
Proof.
  intros (_ & Hl & _) Hi HQ. apply wp_on_tab. unfold wp, get_lock, lock, is_lock in *.
  destruct (rget_in (locks (tab s)) i) as (x & -> & Hx); [lia|].
  rewrite (list_lookup_total_correct _ _ _ Hx) in HQ. by destruct s.
Qed.
Lemma wp_get_cond s i (Q : cond_t -> lstate -> Prop) :
  base s -> is_cond i -> Q (cond s i) s -> wp (on_tab (get_cond i)) Q s.
Proof.
  intros (_ & _ & Hl) Hi HQ. apply wp_on_tab. unfold wp, get_cond, cond, is_cond in *.
  destruct (rget_in (conds (tab s)) i) as (x & -> & Hx); [lia|].
  rewrite (list_lookup_total_correct _ _ _ Hx) in HQ. by destruct s.
Qed.
Lemma wp_put_lock s i x (Q : unit -> lstate -> Prop) :
  base s -> is_lock i ->
  (forall s', sys s' = sys s -> base s' -> lock_is s s' i x -> same_conds s s' -> Q tt s') ->
  wp (on_tab (put_lock i x)) Q s.
Proof.
  unfold is_lock. intros (Hs & Hl & Hc) Hi HQ. apply wp_on_tab. unfold wp, put_lock. rewrite rset_in by lia. apply HQ; try done.
  - split; [exact Hs|]. cbn [tab locks conds]. by rewrite length_insert.
  - unfold lock_is, lock, is_lock. cbn. intros j Hj. destruct (Z.eqb_spec j i) as [->|Hne].
    + apply list_lookup_total_insert_eq. lia.
    + apply list_lookup_total_insert_ne. lia.
Qed.
Lemma wp_put_cond s i x (Q : unit -> lstate -> Prop) :
  base s -> is_cond i ->
  (forall s', sys s' = sys s -> base s' -> cond_is s s' i x -> same_locks s s' -> Q tt s') ->
  wp (on_tab (put_cond i x)) Q s.
Proof.
  unfold is_cond. intros (Hs & Hl & Hc) Hi HQ. apply wp_on_tab. unfold wp, put_cond. rewrite rset_in by lia. apply HQ; try done.
  - split; [exact Hs|]. cbn [tab locks conds]. by rewrite length_insert.
  - unfold cond_is, cond, is_cond. cbn. intros j Hj. destruct (Z.eqb_spec j i) as [->|Hne].
    + apply list_lookup_total_insert_eq. lia.
    + apply list_lookup_total_insert_ne. lia.
Qed.

Lemma base_same s s' : tab s' = tab s -> sq_ok s' -> base s -> base s'.
Proof. intros Ht Hs (_ & Hl & Hc). unfold base. by rewrite Ht. Qed.

(** Only the processor changes. *)
Lemma quiet_same s s' c :
  sys s' = with_cpu c (sys s) -> same_queues s s' /\ cur_of s' = cur_of s /\ cpu_of s' = c /\ (sq_ok s -> sq_ok s').
Proof.
  intros Hs. destruct (over_quiet s s' c Hs) as (? & Hw & ? & ?). split; [|done]. split; intros; apply Hw.
Qed.

Lemma wp_s_release l s s1 (Q : unit -> lstate -> Prop) :
  is_u32 (status (cpu_of s)) -> l ∉ held (cpu_of s) -> cpu_of s1 = inside l s ->
  Q tt (with_cpu (cpu_of s) s1) -> wp (s_release l (status (cpu_of s))) Q s1.
Proof. intros Hst Hl Hc HQ. unfold s_release. eapply wp_eq; [by apply leave_section|done]. Qed.

(** The spinlocks an operation on the object at [a] takes are free. *)
Definition op_ready (a : Z) (c : cpu) : Prop :=
  is_u32 (status c) /\ a ∉ held c /\ sleepq_slock ∉ held c /\ thread_table_slock ∉ held c.
(** The calling thread may wait. *)
Definition may_wait s : Prop := 0 < cur_of s < 2147483648 /\ forall r, is_resource r -> cur_of s ∉ waiting s r.
Definition interrupts_disabled (c : cpu) : cpu := mk_cpu (Z.land 0xffff00fe (status c)) (held c).

(** What the processor inside a section is like. *)
Lemma inside_ready a s :
  op_ready a (cpu_of s) -> a <> sleepq_slock -> a <> thread_table_slock ->
  is_u32 (status (inside a s)) /\ interrupts_off (status (inside a s)) /\ sleepq_slock ∉ held (inside a s) /\
  thread_table_slock ∉ held (inside a s).
Proof.
  intros (Hst & _ & Hq & Ht) Hne Hne'. cbn. rewrite !not_elem_of_union, !not_elem_of_singleton.
  split; [apply is_u32_land; [vm_check|apply Hst]|]. split; [apply disable_off|]. by split.
Qed.

Lemma lock_acquire_run s i :
  base s -> is_lock i -> op_ready (lock_addr i) (cpu_of s) -> may_wait s ->
  wp (lock_acquire i) (fun r s' => base s' /\ same_conds s s' /\ cur_of s' = cur_of s /\
    let l := lock s i in
    if locked_id l =? LOCK_NO_THREAD then
      r = None /\ cpu_of s' = cpu_of s /\ same_queues s s' /\
      lock_is s s' i (mk_lock (cur_of s) 1 (waiting_thread_count l) (is_used l))
    else if locked_id l =? cur_of s then
      r = None /\ cpu_of s' = cpu_of s /\ same_queues s s' /\
      lock_is s s' i (mk_lock (cur_of s) (u32 (nested_locking_count l + 1)) (waiting_thread_count l) (is_used l))
    else
      r = Some (status (cpu_of s)) /\ cpu_of s' = interrupts_disabled (cpu_of s) /\
      lock_queue_is s s' i (lq s i ++ [cur_of s]) /\
      lock_is s s' i (mk_lock (locked_id l) (nested_locking_count l) (u32 (waiting_thread_count l + 1)) (is_used l))) s.
Proof.
  intros Hb Hi Hrdy (Hc0 & Hnw). pose proof Hrdy as (Hst & Hl & _). destruct (lock_addr_ne i Hi) as (Hne & Hne' & _).
  destruct (inside_ready _ s Hrdy Hne Hne') as (Hst0 & Hoff & Hq & _).
  unfold lock_acquire. apply wp_bind, wp_disable, wp_bind, wp_acquire; [by rewrite cpu_of_with|].
  rewrite with_cpu_with, cpu_of_with. cbn [status held]. fold (inside (lock_addr i) s). set (s0 := with_cpu _ s).
  assert (Hsys0 : sys s0 = with_cpu (inside (lock_addr i) s) (sys s)) by reflexivity.
  destruct (quiet_same s s0 _ Hsys0) as ([Hlq0 Hcq0] & Hcur0 & Hcpu0 & Hq0).
  assert (Hb0 : base s0) by (split; [apply Hq0, Hb|apply Hb]).
  apply wp_bind, wp_get_lock; [done|done|]. apply wp_bind, over_cur; [apply Hb0|by rewrite Hcpu0|].
  change (lock s0 i) with (lock s i). rewrite Hcur0. cbv zeta.
  assert (Hquiet : forall x, wp (_ ← on_tab (put_lock i x); _ ← s_release (lock_addr i) (status (cpu_of s)); mret None)
    (fun (r : option Z) s' => base s' /\ same_conds s s' /\ cur_of s' = cur_of s /\ r = None /\ cpu_of s' = cpu_of s /\
      same_queues s s' /\ lock_is s s' i x) s0).
  { intros x. apply wp_bind, wp_put_lock; [done|done|]. intros s1 Hsys1 Hb1 Hx Hcs.
    assert (Hcpu1 : cpu_of s1 = inside (lock_addr i) s) by (change (cpu_of s1) with (cpu_of (sys s1)); by rewrite Hsys1).
    apply wp_bind, wp_s_release; [done|done|done|]. apply wp_ret. set (s2 := with_cpu (cpu_of s) s1).
    assert (Hsys2 : sys s2 = with_cpu (cpu_of s) (sys s)).
    { change (with_cpu (cpu_of s) (sys s1) = with_cpu (cpu_of s) (sys s)). rewrite Hsys1. apply with_cpu_with. }
    destruct (quiet_same s s2 _ Hsys2) as (Hqs & Hcur2 & Hcpu2 & Hq2).
    split; [split; [apply Hq2, Hb|apply Hb1]|]. by split_and!. }
  destruct (Z.eqb_spec (locked_id (lock s i)) LOCK_NO_THREAD) as [Hno|Hno].
  { eapply wp_mono; [apply Hquiet|]. intros r s' (? & ? & ? & ? & ? & ? & ?). by split_and!. }
  destruct (Z.eqb_spec (locked_id (lock s i)) (cur_of s)) as [Hme|Hme].
  { eapply wp_mono; [apply Hquiet|]. rewrite Hme. intros r s' (? & ? & ? & ? & ? & ? & ?). by split_and!. }
  apply wp_bind, wp_put_lock; [done|done|]. intros s1 Hsys1 Hb1 Hx Hcs.
  destruct (quiet_same s s1 _ Hsys1) as ([Hlq1 Hcq1] & Hcur1 & Hcpu1 & _).
  destruct (over_quiet s s1 _ Hsys1) as (_ & Hw1 & _ & _).
  change (inside (lock_addr i) s) with (inside (lock_addr i) s) in Hcpu1.
  apply wp_bind. eapply wp_mono.
  { apply over_add; [apply Hb1|by apply lock_resource| | | | |]; rewrite ?Hcpu1, ?Hcur1; try done; [lia|].
    intros r' Hr'. rewrite Hw1. by apply Hnw. }
  intros _ s2 (Htab2 & Hok2 & Hcpu2 & Hcur2 & Hw2). apply wp_bind, wp_release, wp_ret.
  rewrite Hcpu2, Hcpu1. cbn [inside status held]. rewrite held_release by done. set (s3 := with_cpu _ s2).
  assert (Hsys3 : sys s3 = with_cpu (interrupts_disabled (cpu_of s)) (sys s2)) by reflexivity.
  destruct (quiet_same s2 s3 _ Hsys3) as ([Hlq3 Hcq3] & Hcur3 & Hcpu3 & Hq3).
  destruct (lock_queue_set s1 s2 i _ Hi Hw2) as [Hlq2 Hcq2].
  assert (Htab3 : tab s3 = tab s1) by exact Htab2.
  split; [apply (base_same s1); [done|by apply Hq3|done]|].
  split; [intros c Hc; unfold cond; rewrite Htab3; by apply Hcs|]. split; [congruence|]. split; [done|].
  split; [done|]. split.
  - split.
    + intros j Hj. rewrite Hlq3, Hlq2 by done. rewrite Hcur1. change (waiting s1 (lock_addr i)) with (lq s1 i).
      rewrite !Hlq1 by done. done.
    + intros c Hc. by rewrite Hcq3, Hcq2, Hcq1.
  - intros j Hj. unfold lock. rewrite Htab3. by apply Hx.
Qed.

Definition restored (prev : Z) (c : cpu) : cpu :=
  mk_cpu (Z.lor (Z.land 0x0000ff01 prev) (Z.land (status c) (u32 (Z.lnot 0x0000ff01)))) (held c).

Lemma lock_acquire_resume_run s i prev :
  base s -> is_lock i -> op_ready (lock_addr i) (cpu_of s) ->
  wp (lock_acquire_resume i prev) (fun _ s' => base s' /\ same_conds s s' /\ same_queues s s' /\ cur_of s' = cur_of s /\
    cpu_of s' = restored prev (cpu_of s) /\
    lock_is s s' i (mk_lock (cur_of s) 1 (u32 (waiting_thread_count (lock s i) - 1)) (is_used (lock s i)))) s.
Proof.
  intros Hb Hi (Hst & Hl & _). unfold lock_acquire_resume. apply wp_bind, wp_acquire; [done|]. set (s0 := with_cpu _ s).
  assert (Hsys0 : sys s0 = with_cpu (mk_cpu (status (cpu_of s)) ({[lock_addr i]} ∪ held (cpu_of s))) (sys s)) by reflexivity.
  destruct (quiet_same s s0 _ Hsys0) as (_ & Hcur0 & Hcpu0 & Hq0).
  assert (Hb0 : base s0) by (split; [apply Hq0, Hb|apply Hb]).
  apply wp_bind, wp_get_lock; [done|done|]. apply wp_bind, over_cur; [apply Hb0|by rewrite Hcpu0|].
  apply wp_bind, wp_put_lock; [done|done|]. intros s1 Hsys1 Hb1 Hx Hcs.
  destruct (quiet_same s s1 _ Hsys1) as (_ & Hcur1 & Hcpu1 & _).
  unfold s_release. apply wp_bind, wp_release. rewrite Hcpu1. cbn [status held]. rewrite held_release by done.
  apply wp_bind. unfold wp at 1, interrupt_set_state, set_status. rewrite !cpu_of_with, with_cpu_with. cbn [status held].
  apply wp_ret. set (s2 := with_cpu _ s1). assert (Hsys2 : sys s2 = with_cpu (restored prev (cpu_of s)) (sys s)).
  { change (with_cpu (restored prev (cpu_of s)) (sys s1) = with_cpu (restored prev (cpu_of s)) (sys s)).
    rewrite Hsys1. apply with_cpu_with. }
  destruct (quiet_same s s2 _ Hsys2) as (Hqs & Hcur2 & Hcpu2 & Hq2).
  split; [split; [apply Hq2, Hb|apply Hb1]|]. split; [exact Hcs|]. split; [done|]. split; [done|]. split; [done|].
  rewrite <- Hcur0. exact Hx.
Qed.

Lemma lock_queue_same s s' i : same_queues s s' -> lock_queue_is s s' i (lq s i).
Proof. intros [Hl Hc]. split; [|done]. intros j Hj. rewrite Hl by done. by destruct (Z.eqb_spec j i) as [->|]. Qed.

Lemma lock_release_run s i :
  base s -> is_lock i -> op_ready (lock_addr i) (cpu_of s) -> locked_id (lock s i) = cur_of s ->
  wp (lock_release i) (fun _ s' => base s' /\ same_conds s s' /\ cur_of s' = cur_of s /\ cpu_of s' = cpu_of s /\
    lock_is s s' i (fst (released (lock s i) (lq s i))) /\ lock_queue_is s s' i (snd (released (lock s i) (lq s i)))) s.
Proof.
  intros Hb Hi Hrdy Hme. pose proof Hrdy as (Hst & Hl & _). destruct (lock_addr_ne i Hi) as (Hne & Hne' & _).
  destruct (inside_ready _ s Hrdy Hne Hne') as (Hst0 & Hoff & Hq & Ht).
  apply wp_critical; [done|done|]. set (s0 := with_cpu _ s).
  assert (Hsys0 : sys s0 = with_cpu (inside (lock_addr i) s) (sys s)) by reflexivity.
  destruct (quiet_same s s0 _ Hsys0) as (Hqs0 & Hcur0 & Hcpu0 & Hq0).
  assert (Hb0 : base s0) by (split; [apply Hq0, Hb|apply Hb]).
  apply wp_bind, wp_get_lock; [done|done|]. apply wp_bind, over_cur; [apply Hb0|by rewrite Hcpu0|].
  apply wp_bind, wp_kassert; [rewrite Hcur0; by apply Z.eqb_eq|]. change (lock s0 i) with (lock s i).
  unfold released. set (l := lock s i) in *. cbv zeta.
  (* a change of the lock's record ends the section *)
  assert (Hquiet : forall s1 x, base s1 -> cpu_of s1 = inside (lock_addr i) s -> same_conds s s1 -> cur_of s1 = cur_of s ->
    (forall j, is_lock j -> j <> i -> lock s1 j = lock s j) ->
    forall q, lock_queue_is s s1 i q ->
    wp (on_tab (put_lock i x)) (fun (_ : unit) s2 => cpu_of s2 = inside (lock_addr i) s /\
      let s' := with_cpu (cpu_of s) s2 in base s' /\ same_conds s s' /\ cur_of s' = cur_of s /\ cpu_of s' = cpu_of s /\
      lock_is s s' i x /\ lock_queue_is s s' i q) s1).
  { intros s1 x Hb1 Hcpu1 Hcs1 Hcur1 Hoth q Hqi. apply wp_put_lock; [done|done|]. intros s2 Hsys2 Hb2 Hx Hcs2.
    split; [change (cpu_of s2) with (cpu_of (sys s2)); by rewrite Hsys2|]. cbv zeta. set (s' := with_cpu (cpu_of s) s2).
    assert (Hsys : sys s' = with_cpu (cpu_of s) (sys s1)).
    { change (with_cpu (cpu_of s) (sys s2) = with_cpu (cpu_of s) (sys s1)). by rewrite Hsys2. }
    destruct (quiet_same s1 s' _ Hsys) as ([Hlq Hcq] & Hcur & Hcpu & Hok).
    split; [split; [apply Hok, Hb1|apply Hb2]|]. split; [|split; [congruence|split; [done|split]]].
    - intros c Hc. change (cond s' c) with (cond s2 c). rewrite Hcs2 by done. by apply Hcs1.
    - intros j Hj. change (lock s' j) with (lock s2 j). rewrite Hx by done. destruct (Z.eqb_spec j i); [done|]. by apply Hoth.
    - destruct Hqi as [Hq1 Hq2]. split; [intros j Hj; rewrite Hlq by done; by apply Hq1|].
      intros c Hc. rewrite Hcq by done. by apply Hq2. }
  destruct (nested_locking_count l >? 1).
  { apply Hquiet; try done. by apply lock_queue_same. }
  apply wp_bind, wp_put_lock; [done|done|]. intros s1 Hsys1 Hb1 Hx1 Hcs1.
  destruct (quiet_same s s1 _ Hsys1) as (Hqs1 & Hcur1 & Hcpu1 & _).
  assert (Hoth1 : forall j, is_lock j -> j <> i -> lock s1 j = lock s j).
  { intros j Hj Hji. rewrite Hx1 by done. by apply Z.eqb_neq in Hji as ->. }
  destruct (waiting_thread_count l >? 0).
  - apply wp_bind. eapply wp_mono.
    { apply over_wake; [apply Hb1|by apply lock_resource| | |]; by rewrite Hcpu1. }
    intros _ s2 (Htab2 & Hok2 & Hcpu2 & Hcur2 & Hw2). destruct (lock_queue_set s1 s2 i _ Hi Hw2) as [Hlq2 Hcq2].
    apply Hquiet; [by apply (base_same s1)|congruence| |congruence| |].
    + intros c Hc. unfold cond. rewrite Htab2. by apply Hcs1.
    + intros j Hj Hji. unfold lock. rewrite Htab2. by apply Hoth1.
    + destruct Hqs1 as [Hlq1 Hcq1]. split.
      * intros j Hj. rewrite Hlq2 by done. change (waiting s1 (lock_addr i)) with (lq s1 i). by rewrite !Hlq1.
      * intros c Hc. by rewrite Hcq2, Hcq1.
  - apply Hquiet; try done. by apply lock_queue_same.
Qed.

(** Releasing a lock of another thread, or of none, panics. *)
Lemma lock_release_not_holder s i :
  base s -> is_lock i -> op_ready (lock_addr i) (cpu_of s) -> locked_id (lock s i) <> cur_of s ->
  fails Panic (lock_release i) s.
Proof.
  intros Hb Hi Hrdy Hn. pose proof Hrdy as (Hst & Hl & _). destruct (lock_addr_ne i Hi) as (Hne & Hne' & _).
  destruct (inside_ready _ s Hrdy Hne Hne') as (Hst0 & _).
  apply fails_critical; [done|]. set (s0 := with_cpu _ s).
  assert (Hsys0 : sys s0 = with_cpu (inside (lock_addr i) s) (sys s)) by reflexivity.
  destruct (quiet_same s s0 _ Hsys0) as (_ & Hcur0 & Hcpu0 & Hq0).
  assert (Hb0 : base s0) by (split; [apply Hq0, Hb|apply Hb]).
  apply fails_bind, wp_get_lock; [done|done|]. apply fails_bind, over_cur; [apply Hb0|by rewrite Hcpu0|].
  apply fails_bind_l, fails_kassert. apply Z.eqb_neq. by rewrite Hcur0.
Qed.

Lemma condition_wait_not_holder s c i :
  base s -> is_cond c -> is_lock i -> op_ready (cond_addr c) (cpu_of s) -> lock_addr i ∉ held (cpu_of s) -> may_wait s ->
  locked_id (lock s i) <> cur_of s -> fails Panic (condition_wait c i) s.
Proof.
  intros Hb Hc Hi Hrdy Hli (Hc0 & Hnw) Hme. pose proof Hrdy as (Hst & Hl & _).
  destruct (cond_addr_ne c Hc) as (Hne & Hne' & _). pose proof (lock_cond_ne i c Hi Hc) as Hlc.
  destruct (inside_ready _ s Hrdy Hne Hne') as (Hst0 & Hoff & Hq & Ht).
  unfold condition_wait. apply fails_bind, wp_disable, fails_bind, wp_acquire; [by rewrite cpu_of_with|].
  rewrite with_cpu_with, cpu_of_with. cbn [status held]. fold (inside (cond_addr c) s). set (s0 := with_cpu _ s).
  assert (Hsys0 : sys s0 = with_cpu (inside (cond_addr c) s) (sys s)) by reflexivity.
  destruct (quiet_same s s0 _ Hsys0) as (_ & Hcur0 & Hcpu0 & Hq0).
  assert (Hb0 : base s0) by (split; [apply Hq0, Hb|apply Hb]).
  apply fails_bind, wp_get_cond; [done|done|]. apply fails_bind, wp_put_cond; [done|done|]. intros s1 Hsys1 Hb1 Hx1 Hls1.
  destruct (quiet_same s s1 _ Hsys1) as (_ & Hcur1 & Hcpu1 & _). destruct (over_quiet s s1 _ Hsys1) as (_ & Hw1 & _ & _).
  apply fails_bind. eapply wp_mono.
  { apply over_add; [apply Hb1|by apply cond_resource| | | | |]; rewrite ?Hcpu1, ?Hcur1; try done; [lia|].
    intros r' Hr'. rewrite Hw1. by apply Hnw. }
  intros _ s2 (Htab2 & Hok2 & Hcpu2 & Hcur2 & _).
  apply fails_bind_l, lock_release_not_holder; [by apply (base_same s1)|done| |].
  - rewrite Hcpu2, Hcpu1. split; [done|]. split; [|done]. cbn. rewrite not_elem_of_union, not_elem_of_singleton. by split.
  - assert (lock s2 i = lock s i) as -> by (unfold lock at 1; rewrite Htab2; by apply Hls1).
    by rewrite Hcur2, Hcur1.
Qed.

Lemma condition_wait_run s c i :
  base s -> is_cond c -> is_lock i -> op_ready (cond_addr c) (cpu_of s) -> lock_addr i ∉ held (cpu_of s) -> may_wait s ->
  locked_id (lock s i) = cur_of s ->
  wp (condition_wait c i) (fun r s' => base s' /\ r = status (cpu_of s) /\ cpu_of s' = interrupts_disabled (cpu_of s) /\
    cur_of s' = cur_of s /\ lock_is s s' i (fst (released (lock s i) (lq s i))) /\
    cond_is s s' c (mk_cond (u32 (cond_waiting_thread_count (cond s c) + 1)) (cond_is_used (cond s c))) /\
    (forall j, is_lock j -> lq s' j = if j =? i then snd (released (lock s i) (lq s i)) else lq s j) /\
    (forall d, is_cond d -> cq s' d = if d =? c then cq s c ++ [cur_of s] else cq s d)) s.
Proof.
  intros Hb Hc Hi Hrdy Hli (Hc0 & Hnw) Hme. pose proof Hrdy as (Hst & Hl & _).
  destruct (cond_addr_ne c Hc) as (Hne & Hne' & _). pose proof (lock_cond_ne i c Hi Hc) as Hlc.
  destruct (inside_ready _ s Hrdy Hne Hne') as (Hst0 & Hoff & Hq & Ht).
  unfold condition_wait. apply wp_bind, wp_disable, wp_bind, wp_acquire; [by rewrite cpu_of_with|].
  rewrite with_cpu_with, cpu_of_with. cbn [status held]. fold (inside (cond_addr c) s). set (s0 := with_cpu _ s).
  assert (Hsys0 : sys s0 = with_cpu (inside (cond_addr c) s) (sys s)) by reflexivity.
  destruct (quiet_same s s0 _ Hsys0) as (_ & Hcur0 & Hcpu0 & Hq0).
  assert (Hb0 : base s0) by (split; [apply Hq0, Hb|apply Hb]).
  apply wp_bind, wp_get_cond; [done|done|]. change (cond s0 c) with (cond s c).
  apply wp_bind, wp_put_cond; [done|done|]. intros s1 Hsys1 Hb1 Hx1 Hls1.
  destruct (quiet_same s s1 _ Hsys1) as ([Hlq1 Hcq1] & Hcur1 & Hcpu1 & _). destruct (over_quiet s s1 _ Hsys1) as (_ & Hw1 & _ & _).
  apply wp_bind. eapply wp_mono.
  { apply over_add; [apply Hb1|by apply cond_resource| | | | |]; rewrite ?Hcpu1, ?Hcur1; try done; [lia|].
    intros r' Hr'. rewrite Hw1. by apply Hnw. }
  intros _ s2 (Htab2 & Hok2 & Hcpu2 & Hcur2 & Hw2). destruct (cond_queue_set s1 s2 c _ Hc Hw2) as [Hlq2 Hcq2].
  assert (Hb2 : base s2) by (by apply (base_same s1)).
  assert (Hlock2 : forall j, is_lock j -> lock s2 j = lock s j) by (intros j Hj; unfold lock at 1; rewrite Htab2; by apply Hls1).
  assert (Hrel : released (lock s2 i) (lq s2 i) = released (lock s i) (lq s i)).
  { rewrite Hlock2 by done. rewrite Hlq2, Hlq1 by done. done. }
  apply wp_bind. eapply wp_mono.
  { apply lock_release_run; [done|done| |rewrite Hlock2 by done; congruence]. rewrite Hcpu2, Hcpu1.
    split; [done|]. split; [|done]. cbn. rewrite not_elem_of_union, not_elem_of_singleton. by split. }
  intros _ s3 (Hb3 & Hcs3 & Hcur3 & Hcpu3 & Hx3 & [Hlq3 Hcq3]). rewrite Hrel in Hx3, Hlq3.
  apply wp_bind, wp_release, wp_ret. rewrite Hcpu3, Hcpu2, Hcpu1. cbn [inside status held]. rewrite held_release by done.
  set (s4 := with_cpu _ s3). assert (Hsys4 : sys s4 = with_cpu (interrupts_disabled (cpu_of s)) (sys s3)) by reflexivity.
  destruct (quiet_same s3 s4 _ Hsys4) as ([Hlq4 Hcq4] & Hcur4 & Hcpu4 & Hok4).
  split; [split; [apply Hok4, Hb3|apply Hb3]|]. split; [done|]. split; [done|]. split; [congruence|]. split; [|split; [|split]].
  - intros j Hj. change (lock s4 j) with (lock s3 j). rewrite Hx3 by done. destruct (j =? i); [done|by apply Hlock2].
  - intros d Hd. change (cond s4 d) with (cond s3 d). rewrite Hcs3 by done. unfold cond at 1. rewrite Htab2. by apply Hx1.
  - intros j Hj. rewrite Hlq4, Hlq3 by done. destruct (j =? i); [done|]. by rewrite Hlq2, Hlq1.
  - intros d Hd. rewrite Hcq4, Hcq3, Hcq2 by done. change (waiting s1 (cond_addr c)) with (cq s1 c).
    rewrite !Hcq1, Hcur1 by done. done.
Qed.

(** Waking threads that wait for a condition: [wake] is [sq_wake] or
    [sq_wake_all], leaving [f] of the queue. *)
Lemma condition_wake_run (wake : Z -> M lstate unit) (f : list Z -> list Z) (n : cond_t -> Z) s c :
  (forall s1 r, sq_ok s1 -> is_resource r -> is_u32 (status (cpu_of s1)) ->
     sleepq_slock ∉ held (cpu_of s1) -> thread_table_slock ∉ held (cpu_of s1) ->
     wp (wake r) (fun _ s' => tab s' = tab s1 /\ sq_ok s' /\ cpu_of s' = cpu_of s1 /\ cur_of s' = cur_of s1 /\
       forall r', is_resource r' -> waiting s' r' = if r' =? r then f (waiting s1 r) else waiting s1 r') s1) ->
  base s -> is_cond c -> op_ready (cond_addr c) (cpu_of s) -> cond_waiting_thread_count (cond s c) = zlen (cq s c) ->
  f [] = [] ->
  wp (critical (cond_addr c) (
    x ← on_tab (get_cond c);
    if cond_waiting_thread_count x >? 0 then
      _ ← on_tab (put_cond c (mk_cond (n x) (cond_is_used x)));
      wake (cond_addr c)
    else mret tt)) (fun _ s' => base s' /\ same_locks s s' /\ cur_of s' = cur_of s /\ cpu_of s' = cpu_of s /\
      cond_is s s' c (if cond_waiting_thread_count (cond s c) >? 0
                      then mk_cond (n (cond s c)) (cond_is_used (cond s c)) else cond s c) /\
      cond_queue_is s s' c (f (cq s c))) s.
Proof.
  intros Hwake Hb Hc Hrdy Hcnt Hf. pose proof Hrdy as (Hst & Hl & _). destruct (cond_addr_ne c Hc) as (Hne & Hne' & _).
  destruct (inside_ready _ s Hrdy Hne Hne') as (Hst0 & Hoff & Hq & Ht).
  apply wp_critical; [done|done|]. set (s0 := with_cpu _ s).
  assert (Hsys0 : sys s0 = with_cpu (inside (cond_addr c) s) (sys s)) by reflexivity.
  destruct (quiet_same s s0 _ Hsys0) as (_ & Hcur0 & Hcpu0 & Hq0).
  assert (Hb0 : base s0) by (split; [apply Hq0, Hb|apply Hb]).
  apply wp_bind, wp_get_cond; [done|done|]. change (cond s0 c) with (cond s c).
  destruct (Z.gtb_spec (cond_waiting_thread_count (cond s c)) 0).
  - apply wp_bind, wp_put_cond; [done|done|]. intros s1 Hsys1 Hb1 Hx1 Hls1.
    destruct (quiet_same s s1 _ Hsys1) as ([Hlq1 Hcq1] & Hcur1 & Hcpu1 & _).
    eapply wp_mono; [apply Hwake; rewrite ?Hcpu1; try done; [apply Hb1|by apply cond_resource]|].
    intros _ s2 (Htab2 & Hok2 & Hcpu2 & Hcur2 & Hw2). destruct (cond_queue_set s1 s2 c _ Hc Hw2) as [Hlq2 Hcq2].
    split; [congruence|]. set (s3 := with_cpu _ s2). assert (Hsys3 : sys s3 = with_cpu (cpu_of s) (sys s2)) by reflexivity.
    destruct (quiet_same s2 s3 _ Hsys3) as ([Hlq3 Hcq3] & Hcur3 & Hcpu3 & Hok3).
    assert (Htab3 : tab s3 = tab s1) by exact Htab2.
    split; [apply (base_same s1); [done|by apply Hok3|done]|]. split; [intros j Hj; unfold lock at 1; rewrite Htab3; by apply Hls1|].
    split; [congruence|]. split; [done|]. split; [intros d Hd; unfold cond at 1; rewrite Htab3; by apply Hx1|]. split.
    + intros j Hj. by rewrite Hlq3, Hlq2, Hlq1.
    + intros d Hd. rewrite Hcq3, Hcq2 by done. change (waiting s1 (cond_addr c)) with (cq s1 c). by rewrite !Hcq1.
  - apply wp_ret. split; [done|]. set (s1 := with_cpu (cpu_of s) s0). assert (Hsys1 : sys s1 = with_cpu (cpu_of s) (sys s)).
    { change (with_cpu (cpu_of s) (sys s0) = with_cpu (cpu_of s) (sys s)). rewrite Hsys0. apply with_cpu_with. }
    destruct (quiet_same s s1 _ Hsys1) as ([Hlq1 Hcq1] & Hcur1 & Hcpu1 & Hok1).
    split; [split; [apply Hok1, Hb|apply Hb]|]. split; [done|]. split; [done|]. split; [done|]. split.
    + intros d Hd. by destruct (Z.eqb_spec d c) as [->|].
    + split; [done|]. intros d Hd. rewrite Hcq1 by done. destruct (Z.eqb_spec d c) as [->|]; [|done].
      assert (cq s c = []) as ->; [|done]. apply length_zero_iff_nil. lia.
Qed.
End facts.

(** ** One lock and its threads

    [l] is the lock, [q] the threads in its queue, [acq t] says that thread [t]
    is inside [lock_acquire] after having queued, and [dep t] is how many more
    times [t] has acquired the lock than released it. *)
Record lock_ok (l : lock_t) (q : list Z) (acq : Z -> Prop) (dep : Z -> Z) : Prop := {
  lo_count : waiting_thread_count l = zlen q + (if locked_id l =? LOCK_RESERVED_THREAD then 1 else 0);
  lo_free : locked_id l = LOCK_NO_THREAD -> q = [];
  lo_owner : locked_id l = LOCK_NO_THREAD \/ locked_id l = LOCK_RESERVED_THREAD \/
    (0 < locked_id l /\ 1 <= nested_locking_count l < 4294967296);
  lo_nodup : NoDup q;
  lo_queued : forall t, t ∈ q -> 0 < t < 2147483648 /\ acq t;
  lo_woken : forall t, 0 < t -> acq t -> t ∉ q ->
    locked_id l = LOCK_RESERVED_THREAD /\ forall u, 0 < u -> acq u -> u ∉ q -> u = t;
  lo_reserved : locked_id l = LOCK_RESERVED_THREAD -> exists t, 0 < t /\ acq t /\ t ∉ q;
  lo_depth : forall t, 0 < t -> dep t = if locked_id l =? t then nested_locking_count l else 0
}.

Section lock_protocol.
Implicit Types (l : lock_t) (q : list Z) (acq : Z -> Prop) (dep : Z -> Z) (t : Z).

Definition bump dep t (k : Z) : Z -> Z := fun u => if u =? t then dep u + k else dep u.

Lemma lock_ok_ext l q acq acq' dep dep' :
  (forall t, 0 < t -> acq' t <-> acq t) -> (forall t, 0 < t -> dep' t = dep t) ->
  lock_ok l q acq dep -> lock_ok l q acq' dep'.
Proof.
  intros Ha Hd [H1 H2 H3 H4 H5 H6 H7 H8]. split; try done.
  - intros t Ht. destruct (H5 t Ht) as [Ht0 Hacq]. split; [done|]. apply Ha; [lia|done].
  - intros t Ht Hacq Hq. destruct (H6 t Ht) as [Hr Hu]; [by apply Ha|done|]. split; [done|].
    intros u Hu0 Hau Huq. apply Hu; [done|by apply Ha|done].
  - intros Hr. destruct (H7 Hr) as (t & Ht & Hat & Hq). exists t. split; [done|]. split; [by apply Ha|done].
  - intros t Ht. rewrite Hd by done. by apply H8.
Qed.

Lemma queue_bound l q acq dep : lock_ok l q acq dep -> zlen q < 2147483648.
Proof.
  intros Hok. apply nodup_length; [done|apply Hok|]. apply Forall_forall. intros t Ht.
  destruct (lo_queued _ _ _ _ Hok t Ht). lia.
Qed.

Lemma lock_ok_acquire_free l q acq dep t :
  lock_ok l q acq dep -> locked_id l = LOCK_NO_THREAD -> 0 < t ->
  lock_ok (mk_lock t 1 (waiting_thread_count l) (is_used l)) q acq (bump dep t 1).
Proof.
  intros [H1 H2 H3 H4 H5 H6 H7 H8] Hno Ht. rewrite Hno in *. split; cbn [locked_id nested_locking_count waiting_thread_count]; try done.
  - rewrite H1. destruct (Z.eqb_spec t LOCK_RESERVED_THREAD); [unfold LOCK_RESERVED_THREAD in *; lia|reflexivity].
  - unfold LOCK_NO_THREAD. lia.
  - right. right. lia.
  - intros u Hu Hacq Hq. by destruct (H6 u Hu Hacq Hq).
  - unfold LOCK_RESERVED_THREAD. lia.
  - intros u Hu. unfold bump. rewrite (H8 u Hu). rewrite (Z.eqb_sym t u).
    destruct (Z.eqb_spec LOCK_NO_THREAD u) as [He|_]; [unfold LOCK_NO_THREAD in He; lia|]. by destruct (u =? t).
Qed.

Lemma lock_ok_acquire_again l q acq dep t :
  lock_ok l q acq dep -> locked_id l = t -> 0 < t -> nested_locking_count l < 4294967295 ->
  lock_ok (mk_lock t (u32 (nested_locking_count l + 1)) (waiting_thread_count l) (is_used l)) q acq (bump dep t 1).
Proof.
  intros [H1 H2 H3 H4 H5 H6 H7 H8] <- Ht Hn.
  assert (Hown : 1 <= nested_locking_count l < 4294967296).
  { unfold LOCK_NO_THREAD, LOCK_RESERVED_THREAD in H3. lia. }
  rewrite u32_id by (unfold is_u32; lia). split; cbn [locked_id nested_locking_count waiting_thread_count]; try done.
  - right. right. lia.
  - intros u Hu. unfold bump. rewrite (H8 u Hu). rewrite (Z.eqb_sym u). destruct (locked_id l =? u); lia.
Qed.

Lemma lock_ok_acquire_wait l q acq dep t :
  lock_ok l q acq dep -> locked_id l <> LOCK_NO_THREAD -> 0 < t < 2147483648 -> t ∉ q -> ~ acq t ->
  lock_ok (mk_lock (locked_id l) (nested_locking_count l) (u32 (waiting_thread_count l + 1)) (is_used l)) (q ++ [t])
    (fun u => acq u \/ u = t) dep.
Proof.
  intros Hok Hno Ht Hq Hna. pose proof (queue_bound _ _ _ _ Hok) as Hb. destruct Hok as [H1 H2 H3 H4 H5 H6 H7 H8].
  assert (Hnin : forall u, u ∉ q ++ [t] <-> u ∉ q /\ u <> t).
  { intros u. rewrite not_elem_of_app, list_elem_of_singleton. done. }
  split; cbn [locked_id nested_locking_count waiting_thread_count]; try done.
  - rewrite length_app. cbn [length]. rewrite u32_id; [lia|]. unfold is_u32. destruct (_ =? _); lia.
  - apply NoDup_app. split; [done|]. split; [|apply NoDup_singleton]. intros u Hu ->%list_elem_of_singleton. done.
  - intros u [Hu| ->%list_elem_of_singleton]%elem_of_app; [|by auto]. destruct (H5 u Hu). auto.
  - intros u Hu [Hau|Hau] [Huq Hut]%Hnin; [|done]. destruct (H6 u Hu Hau Huq) as [Hr Hone]. split; [done|].
    intros v Hv [Hav|Hav] [Hvq Hvt]%Hnin; [|done]. by apply Hone.
  - intros Hr. destruct (H7 Hr) as (u & Hu & Hau & Huq). exists u. split; [done|]. split; [by left|].
    apply Hnin. split; [done|]. by intros ->.
Qed.

Lemma lock_ok_resume l q acq dep t :
  lock_ok l q acq dep -> 0 < t -> acq t -> t ∉ q ->
  lock_ok (mk_lock t 1 (u32 (waiting_thread_count l - 1)) (is_used l)) q (fun u => acq u /\ u <> t) (bump dep t 1).
Proof.
  intros Hok Ht Hat Hq. pose proof (queue_bound _ _ _ _ Hok) as Hb. destruct Hok as [H1 H2 H3 H4 H5 H6 H7 H8].
  destruct (H6 t Ht Hat Hq) as [Hr Hone]. rewrite Hr in *. change (LOCK_RESERVED_THREAD =? LOCK_RESERVED_THREAD) with true in H1.
  cbn iota in H1. split; cbn [locked_id nested_locking_count waiting_thread_count]; try done.
  - rewrite H1, u32_id by (unfold is_u32; lia).
    destruct (Z.eqb_spec t LOCK_RESERVED_THREAD); [unfold LOCK_RESERVED_THREAD in *; lia|lia].
  - unfold LOCK_NO_THREAD. lia.
  - right. right. lia.
  - intros u Hu. destruct (H5 u Hu). split; [done|]. split; [done|]. by intros ->.
  - intros u Hu [Hau Hne] Huq. destruct Hne. by apply Hone.
  - unfold LOCK_RESERVED_THREAD. lia.
  - intros u Hu. unfold bump. rewrite (H8 u Hu), (Z.eqb_sym t u).
    destruct (Z.eqb_spec LOCK_RESERVED_THREAD u) as [He|_]; [unfold LOCK_RESERVED_THREAD in He; lia|]. by destruct (u =? t).
Qed.

Lemma lock_ok_release l q acq dep t :
  lock_ok l q acq dep -> locked_id l = t -> 0 < t ->
  lock_ok (fst (released l q)) (snd (released l q)) acq (bump dep t (-1)).
Proof.
  intros [H1 H2 H3 H4 H5 H6 H7 H8] <- Ht.
  assert (Hown : 1 <= nested_locking_count l < 4294967296).
  { unfold LOCK_NO_THREAD, LOCK_RESERVED_THREAD in H3. lia. }
  assert (Hnr : (locked_id l =? LOCK_RESERVED_THREAD) = false).
  { apply Z.eqb_neq. unfold LOCK_RESERVED_THREAD. lia. }
  rewrite Hnr in H1. assert (Hall : forall u, 0 < u -> acq u -> u ∈ q).
  { intros u Hu Hau. destruct (decide (u ∈ q)) as [|Huq]; [done|]. destruct (H6 u Hu Hau Huq) as [Hr _].
    by rewrite Hr in Hnr. }
  assert (Hdep : forall u, 0 < u -> nested_locking_count l <= 1 -> bump dep (locked_id l) (-1) u = 0).
  { intros u Hu Hn. unfold bump. rewrite H8 by done. rewrite (Z.eqb_sym u). destruct (locked_id l =? u); lia. }
  unfold released. destruct (Z.gtb_spec (nested_locking_count l) 1) as [Hn|Hn];
    [|destruct (Z.gtb_spec (waiting_thread_count l) 0) as [Hw|Hw]]; cbn [fst snd];
    split; cbn [locked_id nested_locking_count waiting_thread_count]; try done.
  - by rewrite Hnr.
  - rewrite u32_id by (unfold is_u32; lia). lia.
  - intros u Hu. unfold bump. rewrite u32_id by (unfold is_u32; lia). rewrite H8, (Z.eqb_sym u) by done. destruct (locked_id l =? u); lia.
  - change (LOCK_RESERVED_THREAD =? LOCK_RESERVED_THREAD) with true. cbn iota.
    destruct q; cbn [length tail] in *; lia.
  - by right; left.
  - destruct q; [done|]. by apply NoDup_cons in H4 as [_ ?].
  - intros u Hu. apply H5. destruct q; [done|]. by right.
  - intros u Hu Hau Huq. split; [done|]. intros v Hv Hav Hvq. pose proof (Hall u Hu Hau) as Hu'. pose proof (Hall v Hv Hav) as Hv'.
    destruct q as [|x q]; [by apply not_elem_of_nil in Hu'|]. cbn [tail] in *.
    apply elem_of_cons in Hu' as [->|]; [|done]. by apply elem_of_cons in Hv' as [->|].
  - intros _. destruct q as [|x q]; [cbn in H1; lia|]. cbn [tail]. destruct (H5 x) as [Hx Hax]; [by left|].
    exists x. split; [lia|]. split; [done|]. by apply NoDup_cons in H4 as [? _].
  - intros u Hu. rewrite Hdep by done. destruct (Z.eqb_spec LOCK_RESERVED_THREAD u) as [He|]; [unfold LOCK_RESERVED_THREAD in He; lia|done].
  - intros _. destruct q; [done|]. cbn [length] in H1. lia.
  - by left.
  - intros u Hu Hau Huq. by destruct (Huq (Hall u Hu Hau)).
  - intros u Hu. rewrite Hdep by done. destruct (Z.eqb_spec LOCK_NO_THREAD u) as [He|]; [unfold LOCK_NO_THREAD in He; lia|done].
Qed.

(** *** One condition variable: [wt t] says that thread [t] is inside
    [condition_wait] *)
Record cond_ok (x : cond_t) (q : list Z) (wt : Z -> Prop) : Prop := {
  co_count : cond_waiting_thread_count x = zlen q;
  co_nodup : NoDup q;
  co_queued : forall t, t ∈ q -> 0 < t < 2147483648 /\ wt t
}.

Lemma cond_ok_ext x q wt wt' :
  (forall t, t ∈ q -> wt t -> wt' t) -> cond_ok x q wt -> cond_ok x q wt'.
Proof. intros Hw [H1 H2 H3]. split; [done|done|]. intros t Ht. destruct (H3 t Ht). auto. Qed.

Lemma cond_ok_wait x q wt t :
  cond_ok x q wt -> 0 < t < 2147483648 -> t ∉ q ->
  cond_ok (mk_cond (u32 (cond_waiting_thread_count x + 1)) (cond_is_used x)) (q ++ [t]) (fun u => wt u \/ u = t).
Proof.
  intros [H1 H2 H3] Ht Hq. assert (Hb : zlen q < 2147483648).
  { apply nodup_length; [done|done|]. apply Forall_forall. intros u Hu. destruct (H3 u Hu). lia. }
  split; cbn [cond_waiting_thread_count].
  - rewrite H1, u32_id by (unfold is_u32; lia). rewrite length_app. cbn [length]. lia.
  - apply NoDup_app. split; [done|]. split; [|apply NoDup_singleton]. intros u Hu ->%list_elem_of_singleton. done.
  - intros u [Hu| ->%list_elem_of_singleton]%elem_of_app; [|by auto]. destruct (H3 u Hu). auto.
Qed.

Lemma cond_ok_signal x q wt :
  cond_ok x q wt ->
  cond_ok (if cond_waiting_thread_count x >? 0 then mk_cond (u32 (cond_waiting_thread_count x - 1)) (cond_is_used x) else x)
    (tail q) wt.
Proof.
  intros [H1 H2 H3]. assert (Hb : zlen q < 2147483648).
  { apply nodup_length; [done|done|]. apply Forall_forall. intros u Hu. destruct (H3 u Hu). lia. }
  rewrite H1. destruct q as [|y q]; [by split|]. cbn [tail].
  destruct (Z.gtb_spec (zlen (y :: q)) 0) as [_|Hc]; [|cbn [length] in Hc; lia].
  apply NoDup_cons in H2 as [_ H2]. split; cbn [cond_waiting_thread_count]; [|done|].
  - rewrite u32_id by (unfold is_u32; cbn [length] in *; lia). cbn [length]. lia.
  - intros u Hu. apply H3. by right.
Qed.

Lemma cond_ok_broadcast x q wt :
  cond_ok x q wt -> cond_ok (if cond_waiting_thread_count x >? 0 then mk_cond 0 (cond_is_used x) else x) [] wt.
Proof.
  intros [H1 H2 H3]. split; [|constructor|intros t Ht%not_elem_of_nil; done].
  destruct (Z.gtb_spec (cond_waiting_thread_count x) 0); cbn in *; lia.
Qed.
End lock_protocol.

(** ** Runs of the system *)

(** Where a thread is: outside the module, or switched away in
    [lock_acquire] or [condition_wait], with the interrupt state to restore. *)
Inductive pc := Out | Acquiring (i st : Z) | Waiting (c i st : Z).

Section runs.
Context {K : Type} `{!HasCpu K, !Symbols, HL : !Layout, SQ : !SleepQueues K}.
Abbreviation lstate := (over lock_tables K).
Implicit Types (s : lstate) (p : Z -> pc) (d : Z -> Z -> Z).

(** Beside the kernel, where each thread is and how many more times it has
    acquired each lock than released it, counting the calls that returned. *)
Record conf := mk_conf { c_s : lstate; c_pc : Z -> pc; c_depth : Z -> Z -> Z }.

Definition set_pc p t (x : pc) : Z -> pc := fun u => if u =? t then x else p u.
Definition add_depth d t i (k : Z) : Z -> Z -> Z := fun u j => if j =? i then bump (fun v => d v j) t k u else d u j.

(** [lock_acquire] has answered [r] to thread [t]. *)
Definition acquired t i (r : option Z) s p d : conf :=
  match r with
  | None => mk_conf s (set_pc p t Out) (add_depth d t i 1)
  | Some st => mk_conf s (set_pc p t (Acquiring i st)) d
  end.

(** The steps. A thread is not scheduled while it is in a queue ([may_wait]);
    [switch] is everything that neither uses the module nor makes a thread wait
    or stop waiting. A thread may not nest a lock 2^32 deep. *)
Inductive lock_step : conf -> conf -> Prop :=
| step_acquire s p d i r s' : is_lock i -> op_ready (lock_addr i) (cpu_of s) -> may_wait s ->
    p (cur_of s) = Out -> d (cur_of s) i < 4294967295 -> lock_acquire i s = Ret (r, s') ->
    lock_step (mk_conf s p d) (acquired (cur_of s) i r s' p d)
| step_acquire_resume s p d i st s' : op_ready (lock_addr i) (cpu_of s) -> may_wait s ->
    p (cur_of s) = Acquiring i st -> lock_acquire_resume i st s = Ret (tt, s') ->
    lock_step (mk_conf s p d) (acquired (cur_of s) i None s' p d)
| step_release s p d i s' : is_lock i -> op_ready (lock_addr i) (cpu_of s) -> may_wait s ->
    p (cur_of s) = Out -> lock_release i s = Ret (tt, s') ->
    lock_step (mk_conf s p d) (mk_conf s' p (add_depth d (cur_of s) i (-1)))
| step_wait s p d c i st s' : is_cond c -> is_lock i -> op_ready (cond_addr c) (cpu_of s) ->
    lock_addr i ∉ held (cpu_of s) -> may_wait s -> p (cur_of s) = Out -> condition_wait c i s = Ret (st, s') ->
    lock_step (mk_conf s p d) (mk_conf s' (set_pc p (cur_of s) (Waiting c i st)) (add_depth d (cur_of s) i (-1)))
| step_wait_resume s p d c i st r s' : op_ready (lock_addr i) (restored st (cpu_of s)) -> may_wait s ->
    p (cur_of s) = Waiting c i st -> d (cur_of s) i < 4294967295 -> condition_wait_resume i st s = Ret (r, s') ->
    lock_step (mk_conf s p d) (acquired (cur_of s) i r s' p d)
| step_signal s p d c s' : is_cond c -> op_ready (cond_addr c) (cpu_of s) -> condition_signal c s = Ret (tt, s') ->
    lock_step (mk_conf s p d) (mk_conf s' p d)
| step_broadcast s p d c s' : is_cond c -> op_ready (cond_addr c) (cpu_of s) -> condition_broadcast c s = Ret (tt, s') ->
    lock_step (mk_conf s p d) (mk_conf s' p d)
| step_switch s p d k : sq_ok k -> (forall r, is_resource r -> waiting k r = waiting (sys s) r) ->
    lock_step (mk_conf s p d) (mk_conf (mk_over (tab s) k) p d).

Definition in_acquire p (i t : Z) : Prop := exists st, p t = Acquiring i st.
Definition in_wait p (c t : Z) : Prop := exists i st, p t = Waiting c i st.

Record conf_ok (x : conf) : Prop := {
  cf_base : base (c_s x);
  cf_lock : forall i, is_lock i ->
    lock_ok (lock (c_s x) i) (lq (c_s x) i) (in_acquire (c_pc x) i) (fun t => c_depth x t i);
  cf_cond : forall c, is_cond c -> cond_ok (cond (c_s x) c) (cq (c_s x) c) (in_wait (c_pc x) c);
  cf_pc : forall t, match c_pc x t with Out => True | Acquiring i _ => is_lock i | Waiting c i _ => is_cond c /\ is_lock i end
}.

Lemma wp_inv {A} (m : M lstate A) (Q : A -> lstate -> Prop) s a s' : wp m Q s -> m s = Ret (a, s') -> Q a s'.
Proof. unfold wp. intros HQ Hm. by rewrite Hm in HQ. Qed.

(** The threads inside [lock_acquire] after a thread moves. *)
Lemma in_acquire_set p t x i u :
  in_acquire (set_pc p t x) i u <-> if u =? t then exists st, x = Acquiring i st else in_acquire p i u.
Proof. unfold in_acquire, set_pc. by destruct (u =? t). Qed.
Lemma in_wait_set p t x c u :
  in_wait (set_pc p t x) c u <-> if u =? t then exists i st, x = Waiting c i st else in_wait p c u.
Proof. unfold in_wait, set_pc. by destruct (u =? t). Qed.

(** Nothing changes for a lock when a thread outside it moves elsewhere. *)
Lemma lock_ok_moved l q p t x i (e e' : Z -> Z) :
  ~ in_acquire p i t -> (forall st, x <> Acquiring i st) -> (forall u, 0 < u -> e' u = e u) ->
  lock_ok l q (in_acquire p i) e -> lock_ok l q (in_acquire (set_pc p t x) i) e'.
Proof.
  intros Hp Hx Hd. apply lock_ok_ext; [|done]. intros u _. rewrite in_acquire_set.
  destruct (Z.eqb_spec u t) as [->|]; [|done]. split; [intros [st ?]; by destruct (Hx st)|done].
Qed.

Lemma cond_ok_moved x q p t y c :
  t ∉ q -> cond_ok x q (in_wait p c) -> cond_ok x q (in_wait (set_pc p t y) c).
Proof.
  intros Hq. apply cond_ok_ext. intros u Hu Hw. apply in_wait_set. destruct (Z.eqb_spec u t) as [->|]; done.
Qed.

Lemma out_not_in p t i : p t = Out -> ~ in_acquire p i t.
Proof. intros Hp [st Ha]. congruence. Qed.

(** The thread that runs is in no queue. *)
Lemma may_wait_queues s i c : may_wait s -> (is_lock i -> cur_of s ∉ lq s i) /\ (is_cond c -> cur_of s ∉ cq s c).
Proof.
  intros [_ Hw]. split; intros Hi; apply Hw; [by apply lock_resource|by apply cond_resource].
Qed.

Lemma add_depth_same d t i k u j : j <> i -> add_depth d t i k u j = d u j.
Proof. intros Hne. unfold add_depth. by apply Z.eqb_neq in Hne as ->. Qed.
Lemma add_depth_eq d t i k u : add_depth d t i k u i = bump (fun v => d v i) t k u.
Proof. unfold add_depth. by rewrite Z.eqb_refl. Qed.

Lemma pc_fine p t x :
  (forall u, match p u with Out => True | Acquiring i _ => is_lock i | Waiting c i _ => is_cond c /\ is_lock i end) ->
  match x with Out => True | Acquiring i _ => is_lock i | Waiting c i _ => is_cond c /\ is_lock i end ->
  forall u, match set_pc p t x u with Out => True | Acquiring i _ => is_lock i | Waiting c i _ => is_cond c /\ is_lock i end.
Proof. intros Hp Hx u. unfold set_pc. destruct (u =? t); [done|apply Hp]. Qed.

(** The conditions are not looked at by the operations on locks. *)
Lemma conds_moved s s' p t x :
  (forall c, is_cond c -> cond_ok (cond s c) (cq s c) (in_wait p c)) -> same_conds s s' ->
  (forall c, is_cond c -> cq s' c = cq s c) -> (forall c, is_cond c -> t ∉ cq s c) ->
  forall c, is_cond c -> cond_ok (cond s' c) (cq s' c) (in_wait (set_pc p t x) c).
Proof.
  intros Hok Hcs Hcq Ht c Hc. rewrite Hcs, Hcq by done. apply cond_ok_moved; [by apply Ht|by apply Hok].
Qed.

(** One lock changes, the others only see the thread move. *)
Lemma locks_moved s s' p d t x i l q e :
  (forall j, is_lock j -> lock_ok (lock s j) (lq s j) (in_acquire p j) (fun u => d u j)) ->
  lock_is s s' i l -> (forall j, is_lock j -> lq s' j = if j =? i then q else lq s j) ->
  (forall j, j <> i -> ~ in_acquire p j t) -> (forall j st, j <> i -> x <> Acquiring j st) ->
  (forall u j, 0 < u -> j <> i -> e u j = d u j) ->
  (is_lock i -> lock_ok l q (in_acquire (set_pc p t x) i) (fun u => e u i)) ->
  forall j, is_lock j -> lock_ok (lock s' j) (lq s' j) (in_acquire (set_pc p t x) j) (fun u => e u j).
Proof.
  intros Hok Hl Hq Hp Hx He Hi j Hj. rewrite Hl, Hq by done. destruct (Z.eqb_spec j i) as [->|Hne]; [by apply Hi|].
  apply (lock_ok_moved _ _ _ _ _ _ (fun u => d u j)); [by apply Hp|intros st; by apply Hx|intros u Hu; by apply He|by apply Hok].
Qed.

Lemma acquired_ok s p d i r s' :
  conf_ok (mk_conf s p d) -> is_lock i -> op_ready (lock_addr i) (cpu_of s) -> may_wait s ->
  (forall j, ~ in_acquire p j (cur_of s)) -> d (cur_of s) i < 4294967295 -> lock_acquire i s = Ret (r, s') ->
  conf_ok (acquired (cur_of s) i r s' p d).
Proof.
  intros [Hb Hl Hc Hp] Hi Hrdy Hmw Hout Hd Hrun. cbn [c_s c_pc c_depth] in *.
  pose proof (wp_inv _ _ _ _ _ (lock_acquire_run s i Hb Hi Hrdy Hmw) Hrun) as (Hb' & Hcs & Hcur & Hres). cbv zeta in Hres.
  destruct (may_wait_queues s i 0 Hmw) as [Hnq _]. specialize (Hnq Hi). pose proof Hmw as [Ht _]. set (t := cur_of s) in *.
  assert (Hncq : forall c, is_cond c -> t ∉ cq s c) by (intros c; by apply (may_wait_queues s 0 c)).
  pose proof (Hl i Hi) as Hli. pose proof (lo_depth _ _ _ _ Hli t ltac:(lia)) as Hdt.
  (* the lock was taken *)
  assert (Htaken : forall x, same_queues s s' -> lock_is s s' i x ->
    lock_ok x (lq s i) (in_acquire p i) (bump (fun v => d v i) t 1) -> conf_ok (acquired t i None s' p d)).
  { intros x [Hlq Hcq] Hx Hok. split; cbn [acquired c_s c_pc c_depth].
    - exact Hb'.
    - eapply (locks_moved s s' p d t Out i x (lq s i)); [exact Hl|exact Hx| |intros j _; apply Hout|done| |].
      + intros j Hj. rewrite Hlq by done. by destruct (Z.eqb_spec j i) as [->|].
      + intros u j _ Hj. by apply add_depth_same.
      + intros _. apply (lock_ok_moved _ _ _ _ _ _ (bump (fun v => d v i) t 1)); [apply Hout|done| |exact Hok].
        intros u _. apply add_depth_eq.
    - by apply (conds_moved s).
    - by apply pc_fine. }
  destruct (Z.eqb_spec (locked_id (lock s i)) LOCK_NO_THREAD) as [Hno|Hno];
    [|destruct (Z.eqb_spec (locked_id (lock s i)) t) as [Hme|Hme]].
  - destruct Hres as (-> & _ & Hqs & Hx). eapply Htaken; [exact Hqs|exact Hx|]. apply lock_ok_acquire_free; [done|done|lia].
  - destruct Hres as (-> & _ & Hqs & Hx). eapply Htaken; [exact Hqs|exact Hx|].
    apply lock_ok_acquire_again; [done|done|lia|lia].
  - destruct Hres as (-> & _ & [Hlq Hcq] & Hx). split; cbn [acquired c_s c_pc c_depth].
    + exact Hb'.
    + eapply (locks_moved s s' p d t _ i _ _); [exact Hl|exact Hx|exact Hlq|intros j _; apply Hout| |done|].
      * intros j st Hj [= He]. by apply Hj.
      * intros _. eapply lock_ok_ext; [|done|by apply lock_ok_acquire_wait; [exact Hli|..]].
        intros u _. cbn beta. rewrite in_acquire_set. destruct (Z.eqb_spec u t) as [->|Hne].
        -- split; [by right|]. intros _. by eexists.
        -- split; [by left|by intros [|]].
    + by apply (conds_moved s).
    + by apply pc_fine.
Qed.

(** A release by [t], as seen by all locks. *)
Lemma released_ok s s' p d t x i :
  (forall j, is_lock j -> lock_ok (lock s j) (lq s j) (in_acquire p j) (fun u => d u j)) -> is_lock i ->
  (forall j, ~ in_acquire p j t) -> (forall j st, x <> Acquiring j st) -> locked_id (lock s i) = t -> 0 < t ->
  lock_is s s' i (fst (released (lock s i) (lq s i))) ->
  (forall j, is_lock j -> lq s' j = if j =? i then snd (released (lock s i) (lq s i)) else lq s j) ->
  forall j, is_lock j -> lock_ok (lock s' j) (lq s' j) (in_acquire (set_pc p t x) j) (fun u => add_depth d t i (-1) u j).
Proof.
  intros Hl Hi Hout Hx Hme Ht Hlk Hq. apply (locks_moved s s' p d t x i _ _ _ Hl Hlk Hq); [done|done| |].
  - intros u j _ Hj. by apply add_depth_same.
  - intros _. apply (lock_ok_moved _ _ _ _ _ _ (bump (fun v => d v i) t (-1))); [apply Hout|by apply Hx| |].
    + intros u _. apply add_depth_eq.
    + by apply lock_ok_release; [apply Hl|..].
Qed.

Lemma set_pc_id p t x : p t = x -> forall u, set_pc p t x u = p u.
Proof. intros Hp u. unfold set_pc. by destruct (Z.eqb_spec u t) as [->|]. Qed.

Lemma step_acquire_resume_ok s p d i st s' :
  conf_ok (mk_conf s p d) -> op_ready (lock_addr i) (cpu_of s) -> may_wait s -> p (cur_of s) = Acquiring i st ->
  lock_acquire_resume i st s = Ret (tt, s') -> conf_ok (acquired (cur_of s) i None s' p d).
Proof.
  intros [Hb Hl Hc Hp] Hrdy Hmw Hpc Hrun. cbn [c_s c_pc c_depth] in *.
  pose proof (Hp (cur_of s)) as Hi. rewrite Hpc in Hi.
  pose proof (wp_inv _ _ _ _ _ (lock_acquire_resume_run s i st Hb Hi Hrdy) Hrun) as (Hb' & Hcs & [Hlq Hcq] & Hcur & _ & Hx).
  destruct (may_wait_queues s i 0 Hmw) as [Hnq _]. specialize (Hnq Hi). pose proof Hmw as [Ht _]. set (t := cur_of s) in *.
  assert (Hncq : forall c, is_cond c -> t ∉ cq s c) by (intros c; by apply (may_wait_queues s 0 c)).
  split; cbn [acquired c_s c_pc c_depth].
  - exact Hb'.
  - eapply (locks_moved s s' p d t Out i _ (lq s i)); [exact Hl|exact Hx| | |done| |].
    + intros j Hj. rewrite Hlq by done. by destruct (Z.eqb_spec j i) as [->|].
    + intros j Hj [st' Ha]. congruence.
    + intros u j _ Hj. by apply add_depth_same.
    + intros _. eapply lock_ok_ext; [| |apply (lock_ok_resume _ _ _ _ t (Hl i Hi)); [lia|by exists st|done]].
      * intros u _. rewrite in_acquire_set. destruct (Z.eqb_spec u t) as [->|Hne]; [|naive_solver].
        split; [by intros [? ?]|naive_solver].
      * intros u _. apply add_depth_eq.
  - by apply (conds_moved s).
  - by apply pc_fine.
Qed.

Lemma step_wait_ok s p d c i st s' :
  conf_ok (mk_conf s p d) -> is_cond c -> is_lock i -> op_ready (cond_addr c) (cpu_of s) ->
  lock_addr i ∉ held (cpu_of s) -> may_wait s -> p (cur_of s) = Out -> condition_wait c i s = Ret (st, s') ->
  conf_ok (mk_conf s' (set_pc p (cur_of s) (Waiting c i st)) (add_depth d (cur_of s) i (-1))).
Proof.
  intros [Hb Hl Hc Hp] Hic Hi Hrdy Hli Hmw Hpc Hrun. cbn [c_s c_pc c_depth] in *.
  destruct (decide (locked_id (lock s i) = cur_of s)) as [Hme|Hn].
  2: { by destruct (fails_not_ret _ _ _ _ _ (condition_wait_not_holder s c i Hb Hic Hi Hrdy Hli Hmw Hn) Hrun). }
  pose proof (wp_inv _ _ _ _ _ (condition_wait_run s c i Hb Hic Hi Hrdy Hli Hmw Hme) Hrun)
    as (Hb' & _ & _ & Hcur & Hlk & Hcd & Hlq & Hcq).
  pose proof Hmw as [Ht _]. set (t := cur_of s) in *.
  assert (Hncq : forall c, is_cond c -> t ∉ cq s c) by (intros e; by apply (may_wait_queues s 0 e)).
  split; cbn [c_s c_pc c_depth]; [exact Hb'| | |by apply pc_fine].
  - apply (released_ok s); try done; [intros j; by apply out_not_in|lia].
  - intros e He. rewrite Hcd, Hcq by done. destruct (Z.eqb_spec e c) as [->|Hne].
    + eapply cond_ok_ext; [|by apply (cond_ok_wait _ _ (in_wait p c) t); [apply Hc|..|apply Hncq]].
      intros u _ Hw. apply in_wait_set. destruct (Z.eqb_spec u t) as [->|]; [by eexists _, _|]. by destruct Hw.
    + apply cond_ok_moved; [by apply Hncq|by apply Hc].
Qed.

(** Changes that no thread's view of the module depends on. *)
Lemma conf_ok_same s s' p d :
  base s' -> tab s' = tab s -> same_queues s s' -> conf_ok (mk_conf s p d) -> conf_ok (mk_conf s' p d).
Proof.
  intros Hb Ht [Hlq Hcq] [_ Hl Hc Hp]. cbn [c_s c_pc c_depth] in *. split; cbn [c_s c_pc c_depth]; [exact Hb| | |exact Hp].
  - intros i Hi. unfold lock. rewrite Ht, Hlq by done. by apply Hl.
  - intros c Hi. unfold cond. rewrite Ht, Hcq by done. by apply Hc.
Qed.

Lemma step_wait_resume_ok s p d c i st r s' :
  conf_ok (mk_conf s p d) -> op_ready (lock_addr i) (restored st (cpu_of s)) -> may_wait s ->
  p (cur_of s) = Waiting c i st -> d (cur_of s) i < 4294967295 -> condition_wait_resume i st s = Ret (r, s') ->
  conf_ok (acquired (cur_of s) i r s' p d).
Proof.
  intros Hok Hrdy Hmw Hpc Hd Hrun. pose proof (cf_pc _ Hok (cur_of s)) as Hi. cbn [c_pc] in Hi. rewrite Hpc in Hi. destruct Hi as [_ Hi].
  unfold condition_wait_resume in Hrun. apply bind_inv in Hrun as (z & s1 & [= _ Hs1] & Hrun).
  assert (Hsys1 : sys s1 = with_cpu (restored st (cpu_of s)) (sys s)) by (by rewrite <- Hs1).
  assert (Htab1 : tab s1 = tab s) by (by rewrite <- Hs1).
  destruct (quiet_same s s1 _ Hsys1) as (Hqs & Hcur & Hcpu & Hq). destruct (over_quiet s s1 _ Hsys1) as (_ & Hw & _ & _).
  rewrite <- Hcur in *. apply acquired_ok; try done.
  - apply (conf_ok_same s); [|done|done|done]. apply (base_same s); [done|apply Hq, Hok|apply Hok].
  - by rewrite Hcpu.
  - destruct Hmw as [H1 H2]. split; [by rewrite Hcur|]. intros r' Hr. rewrite Hw, Hcur. by apply H2.
  - intros j [st' Ha]. congruence.
Qed.

(** A signal or broadcast, as seen by all. *)
Lemma cond_queue_ok s s' p d c x q :
  conf_ok (mk_conf s p d) -> base s' -> same_locks s s' -> cond_is s s' c x -> cond_queue_is s s' c q ->
  (is_cond c -> cond_ok x q (in_wait p c)) -> conf_ok (mk_conf s' p d).
Proof.
  intros [_ Hl Hc Hp] Hb Hls Hx [Hlq Hcq] Hok. cbn [c_s c_pc c_depth] in *.
  split; cbn [c_s c_pc c_depth]; [exact Hb| | |exact Hp].
  - intros i Hi. rewrite Hls, Hlq by done. by apply Hl.
  - intros e He. rewrite Hx, Hcq by done. destruct (Z.eqb_spec e c) as [->|]; [by apply Hok|by apply Hc].
Qed.

Lemma condition_signal_run s c :
  base s -> is_cond c -> op_ready (cond_addr c) (cpu_of s) -> cond_waiting_thread_count (cond s c) = zlen (cq s c) ->
  wp (condition_signal c) (fun _ s' => base s' /\ same_locks s s' /\ cur_of s' = cur_of s /\ cpu_of s' = cpu_of s /\
    cond_is s s' c (if cond_waiting_thread_count (cond s c) >? 0
                    then mk_cond (u32 (cond_waiting_thread_count (cond s c) - 1)) (cond_is_used (cond s c)) else cond s c) /\
    cond_queue_is s s' c (tail (cq s c))) s.
Proof.
  intros Hb Hc Hrdy Hcnt.
  apply (condition_wake_run sq_wake tail (fun x => u32 (cond_waiting_thread_count x - 1)) s c); try done. apply over_wake.
Qed.

Lemma condition_broadcast_run s c :
  base s -> is_cond c -> op_ready (cond_addr c) (cpu_of s) -> cond_waiting_thread_count (cond s c) = zlen (cq s c) ->
  wp (condition_broadcast c) (fun _ s' => base s' /\ same_locks s s' /\ cur_of s' = cur_of s /\ cpu_of s' = cpu_of s /\
    cond_is s s' c (if cond_waiting_thread_count (cond s c) >? 0 then mk_cond 0 (cond_is_used (cond s c)) else cond s c) /\
    cond_queue_is s s' c []) s.
Proof.
  intros Hb Hc Hrdy Hcnt.
  apply (condition_wake_run sq_wake_all (fun _ => []) (fun _ => 0) s c); try done. apply over_wake_all.
Qed.

Lemma lock_step_ok x y : conf_ok x -> lock_step x y -> conf_ok y.
Proof.
  intros Hok Hstep. destruct Hstep as [s p d i r s' Hi Hrdy Hmw Hpc Hd Hrun|s p d i st s' Hrdy Hmw Hpc Hrun
    |s p d i s' Hi Hrdy Hmw Hpc Hrun|s p d c i st s' Hc Hi Hrdy Hli Hmw Hpc Hrun|s p d c i st r s' Hrdy Hmw Hpc Hd Hrun
    |s p d c s' Hc Hrdy Hrun|s p d c s' Hc Hrdy Hrun|s p d k Hk Hw].
  - apply acquired_ok; try done. intros j. by apply out_not_in.
  - by apply (step_acquire_resume_ok s p d i st).
  - destruct Hok as [Hb Hl Hc Hp]. cbn [c_s c_pc c_depth] in *.
    destruct (decide (locked_id (lock s i) = cur_of s)) as [Hme|Hn].
    2: { by destruct (fails_not_ret _ _ _ _ _ (lock_release_not_holder s i Hb Hi Hrdy Hn) Hrun). }
    pose proof (wp_inv _ _ _ _ _ (lock_release_run s i Hb Hi Hrdy Hme) Hrun) as (Hb' & Hcs & Hcur & _ & Hlk & [Hlq Hcq]).
    pose proof Hmw as [Ht _]. split; cbn [c_s c_pc c_depth]; [exact Hb'| | |exact Hp].
    + intros j Hj. eapply lock_ok_ext; [|done|apply (released_ok s s' p d (cur_of s) Out i); try done; [intros j'; by apply out_not_in|lia]].
      intros u _. unfold in_acquire. by rewrite set_pc_id.
    + intros c He. rewrite Hcs, Hcq by done. by apply Hc.
  - by apply step_wait_ok.
  - by apply (step_wait_resume_ok s p d c i st).
  - pose proof (co_count _ _ _ (cf_cond _ Hok c Hc)) as Hcnt.
    pose proof (wp_inv _ _ _ _ _ (condition_signal_run s c (cf_base _ Hok) Hc Hrdy Hcnt) Hrun) as (Hb' & Hls & _ & _ & Hx & Hq).
    eapply (cond_queue_ok s); [done|done|done|exact Hx|exact Hq|]. intros _. apply cond_ok_signal, (cf_cond _ Hok c Hc).
  - pose proof (co_count _ _ _ (cf_cond _ Hok c Hc)) as Hcnt.
    pose proof (wp_inv _ _ _ _ _ (condition_broadcast_run s c (cf_base _ Hok) Hc Hrdy Hcnt) Hrun) as (Hb' & Hls & _ & _ & Hx & Hq).
    eapply (cond_queue_ok s); [done|done|done|exact Hx|exact Hq|]. intros _. eapply cond_ok_broadcast, (cf_cond _ Hok c Hc).
  - apply (conf_ok_same s); [by apply (base_same s); [|done|apply Hok]|done| |done].
    split; intros j Hj; apply Hw; [by apply lock_resource|by apply cond_resource].
Qed.
End runs.

(** ** The tables *)
Section tables.
Context {K : Type} `{!HasCpu K, !Symbols, HL : !Layout, SQ : !SleepQueues K}.
Abbreviation lstate := (over lock_tables K).
Implicit Types s : lstate.

Definition open_lock : lock_t := mk_lock LOCK_NO_THREAD 0 0 0.

Lemma lock_init_loop_run n i s :
  base s -> 0 <= i -> i + Z.of_nat n = CONFIG_MAX_LOCKS -> (forall j, is_lock j -> lock_addr j ∉ held (cpu_of s)) ->
  (forall j, 0 <= j < i -> lock s j = open_lock) ->
  wp (lock_init_loop n i) (fun _ s' => base s' /\ sys s' = sys s /\ (forall j, is_lock j -> lock s' j = open_lock) /\
    same_conds s s') s.
Proof.
  revert i s. induction n as [|n IH]; intros i s Hb Hi Hn Hh Hdone; cbn [lock_init_loop].
  { apply wp_ret. split; [done|]. split; [done|]. split; [|done]. intros j Hj. apply Hdone. unfold is_lock in Hj. lia. }
  assert (Hil : is_lock i) by (unfold is_lock; lia).
  apply wp_bind, wp_release. replace (with_cpu _ s) with s.
  2: { replace (mk_cpu _ _) with (cpu_of s); [by rewrite with_cpu_of|]. specialize (Hh i Hil).
       destruct (cpu_of s); cbn in *. f_equal. set_solver. }
  apply wp_bind, wp_put_lock; [done|done|]. intros s1 Hs1 Hb1 Hx1 Hc1.
  assert (Hcpu1 : cpu_of s1 = cpu_of s) by (change (cpu_of s1) with (cpu_of (sys s1)); by rewrite Hs1).
  eapply wp_mono; [apply (IH (i + 1) s1); [done|lia|lia|by rewrite Hcpu1|]|].
  - intros j Hj. rewrite Hx1 by (unfold is_lock; lia). destruct (Z.eqb_spec j i); [done|]. apply Hdone. lia.
  - intros _ s' (Hb' & Hs' & Hl' & Hc'). split; [done|]. split; [congruence|]. split; [done|].
    intros c Hc. rewrite Hc' by done. by apply Hc1.
Qed.

Lemma lock_table_init_run s :
  base s -> locks_free (cpu_of s) ->
  wp lock_table_init (fun _ s' => base s' /\ cpu_of s' = cpu_of s /\ same_queues s s' /\ same_conds s s' /\
    forall j, is_lock j -> lock s' j = open_lock) s.
Proof.
  intros Hb Hfree. pose proof Hfree as [Hst Hall]. destruct (locks_free_spin _ Hfree) as (_ & _ & _ & Hl & _).
  unfold lock_table_init. apply wp_bind, wp_disable, wp_bind, wp_release. rewrite cpu_of_with, with_cpu_with. cbn [status held].
  replace (held (cpu_of s) ∖ {[lock_table_slock]}) with (held (cpu_of s)) by set_solver.
  apply wp_bind, wp_acquire; [by rewrite cpu_of_with|]. rewrite cpu_of_with, with_cpu_with. cbn [status held].
  fold (inside lock_table_slock s). set (s0 := with_cpu _ s).
  assert (Hsys0 : sys s0 = with_cpu (inside lock_table_slock s) (sys s)) by reflexivity.
  destruct (quiet_same s s0 _ Hsys0) as (_ & _ & Hcpu0 & Hq0).
  assert (Hb0 : base s0) by (split; [apply Hq0, Hb|apply Hb]).
  apply wp_bind. eapply wp_mono.
  { apply (lock_init_loop_run _ 0 s0); [done|done|reflexivity| |intros; lia]. intros j Hj. rewrite Hcpu0. cbn.
    rewrite not_elem_of_union, not_elem_of_singleton. split; [by apply lock_addr_ne|]. by apply Hall, lock_in_addresses. }
  intros _ s1 (Hb1 & Hsys1 & Hl1 & Hc1).
  apply wp_s_release; [done|done|change (cpu_of s1) with (cpu_of (sys s1)); by rewrite Hsys1|].
  set (s2 := with_cpu (cpu_of s) s1). assert (Hsys2 : sys s2 = with_cpu (cpu_of s) (sys s)).
  { change (with_cpu (cpu_of s) (sys s1) = with_cpu (cpu_of s) (sys s)). rewrite Hsys1, Hsys0. apply with_cpu_with. }
  destruct (quiet_same s s2 _ Hsys2) as (Hqs & _ & Hcpu2 & Hq2).
  split; [split; [apply Hq2, Hb|apply Hb1]|]. by split_and!.
Qed.

Definition used_lock (l : lock_t) : lock_t :=
  mk_lock (locked_id l) (nested_locking_count l) (waiting_thread_count l) 1.

Lemma lock_create_loop_run n i s :
  base s -> 0 <= i -> i + Z.of_nat n = CONFIG_MAX_LOCKS -> (forall j, 0 <= j < i -> is_used (lock s j) <> 0) ->
  (exists k, is_lock k /\ is_used (lock s k) = 0) ->
  wp (lock_create_loop n i) (fun k s' => is_lock k /\ is_used (lock s k) = 0 /\
    (forall j, 0 <= j < k -> is_used (lock s j) <> 0) /\ base s' /\ sys s' = sys s /\
    lock_is s s' k (used_lock (lock s k)) /\ same_conds s s') s.
Proof.
  revert i. induction n as [|n IH]; intros i Hb Hi Hn Hused Hfree; cbn [lock_create_loop].
  { destruct Hfree as (k & Hk & Hz). destruct (Hused k); [unfold is_lock in Hk; lia|done]. }
  assert (Hil : is_lock i) by (unfold is_lock; lia). apply wp_bind, wp_get_lock; [done|done|].
  destruct (Z.eqb_spec (is_used (lock s i)) 0) as [Hz|Hz].
  - apply wp_bind, wp_put_lock; [done|done|]. intros s1 Hs1 Hb1 Hx1 Hc1. apply wp_ret. by split_and!; try apply Hil.
  - apply IH; [done|lia|lia| |done]. intros j Hj. destruct (decide (j = i)) as [->|]; [done|]. apply Hused. lia.
Qed.

Lemma lock_create_loop_full n i s :
  base s -> 0 <= i -> i + Z.of_nat n = CONFIG_MAX_LOCKS -> (forall k, is_lock k -> is_used (lock s k) <> 0) ->
  fails Panic (lock_create_loop n i) s.
Proof.
  revert i. induction n as [|n IH]; intros i Hb Hi Hn Hused; cbn [lock_create_loop]; [done|].
  assert (Hil : is_lock i) by (unfold is_lock; lia). apply fails_bind, wp_get_lock; [done|done|].
  rewrite (proj2 (Z.eqb_neq _ _) (Hused i Hil)). apply IH; [done|lia|lia|done].
Qed.
End tables.

(** ** The properties *)
Section theorems.
Context {K : Type} `{!HasCpu K, !Symbols, HL : !Layout, SQ : !SleepQueues K}.
Implicit Types s : over lock_tables K.

(** All locks open, nobody waits, nobody inside the module. *)
Definition initial (x : conf (K := K)) : Prop :=
  base (c_s x) /\ (forall i, is_lock i -> locked_id (lock (c_s x) i) = LOCK_NO_THREAD /\
    waiting_thread_count (lock (c_s x) i) = 0 /\ lq (c_s x) i = []) /\
  (forall c, is_cond c -> cond_waiting_thread_count (cond (c_s x) c) = 0 /\ cq (c_s x) c = []) /\
  (forall t, c_pc x t = Out) /\ (forall t i, c_depth x t i = 0).

Lemma initial_ok x : initial x -> conf_ok x.
Proof.
  intros (Hb & Hl & Hc & Hp & Hd). split; [done| | |intros t; by rewrite Hp].
  - intros i Hi. destruct (Hl i Hi) as (Hno & Hw & Hq). rewrite Hq. split; rewrite ?Hno, ?Hw; try done.
    + by left.
    + constructor.
    + intros t Ht%not_elem_of_nil. done.
    + intros t _ [st Ha]. by rewrite Hp in Ha.
    + intros t Ht. rewrite Hd. destruct (Z.eqb_spec LOCK_NO_THREAD t) as [He|]; [unfold LOCK_NO_THREAD in He; lia|done].
  - intros c Hi. destruct (Hc c Hi) as (Hw & Hq). rewrite Hq. split; [done|constructor|intros t Ht%not_elem_of_nil; done].
Qed.

Lemma run_ok x y : conf_ok x -> rtc lock_step x y -> conf_ok y.
Proof. intros Hok Hrun. induction Hrun as [x|x y z Hstep _ IH]; [done|]. apply IH. by eapply lock_step_ok. Qed.

(** Claim C1. Locks exclude: in every state that threads can reach by
    acquiring, releasing, waiting for conditions, signalling and being
    rescheduled in any order, at most one thread is between an acquisition that
    returned and the matching release (where [condition_wait] releases, and
    acquires again when it returns).  The thread that holds the lock is the one
    recorded in it, as many times as the nesting count says.  Nobody waits for
    a lock that is open; and while a lock is reserved nobody holds it and
    exactly one thread has been woken to take it, so that a release can neither
    lose the wake-up nor be overtaken by a thread that did not wait. *)
Theorem lock_mutual_exclusion x y i t u :
  initial x -> rtc lock_step x y -> is_lock i -> 0 < t -> 0 < u ->
  let l := lock (c_s y) i in
  (0 < c_depth y t i -> 0 < c_depth y u i -> t = u) /\
  (0 < c_depth y t i <-> locked_id l = t) /\ (0 < c_depth y t i -> c_depth y t i = nested_locking_count l) /\
  (locked_id l = LOCK_NO_THREAD -> lq (c_s y) i = [] /\ ~ in_acquire (c_pc y) i t) /\
  (locked_id l = LOCK_RESERVED_THREAD -> c_depth y t i = 0 /\
    exists w, 0 < w /\ forall v, 0 < v -> in_acquire (c_pc y) i v /\ v ∉ lq (c_s y) i <-> v = w).
Proof.
  intros Hinit Hrun Hi Ht Hu. pose proof (cf_lock _ (run_ok x y (initial_ok x Hinit) Hrun) i Hi) as Hok. cbv zeta.
  pose proof (lo_depth _ _ _ _ Hok t Ht) as Hdt. pose proof (lo_depth _ _ _ _ Hok u Hu) as Hdu. cbn beta in Hdt, Hdu.
  pose proof (lo_owner _ _ _ _ Hok) as Hown. unfold LOCK_NO_THREAD, LOCK_RESERVED_THREAD in *. rewrite Hdt, Hdu.
  split; [|split; [|split; [|split]]].
  - destruct (Z.eqb_spec (locked_id (lock (c_s y) i)) t), (Z.eqb_spec (locked_id (lock (c_s y) i)) u); lia.
  - destruct (Z.eqb_spec (locked_id (lock (c_s y) i)) t); lia.
  - destruct (Z.eqb_spec (locked_id (lock (c_s y) i)) t); lia.
  - intros Hno. pose proof (lo_free _ _ _ _ Hok Hno) as Hq. split; [done|]. intros Ha.
    destruct (lo_woken _ _ _ _ Hok t Ht Ha) as [Hr _]; [rewrite Hq; apply not_elem_of_nil|].
    unfold LOCK_RESERVED_THREAD in Hr. lia.
  - intros Hr. split; [destruct (Z.eqb_spec (locked_id (lock (c_s y) i)) t); lia|].
    destruct (lo_reserved _ _ _ _ Hok Hr) as (w & Hw & Haw & Hwq). exists w. split; [done|]. intros v Hv. split.
    + intros [Hav Hvq]. destruct (lo_woken _ _ _ _ Hok w Hw Haw Hwq) as [_ Hone]. by apply Hone.
    + by intros ->.
Qed.

(** What the lock operations do.  [lock_acquire] takes an open
    lock, nests one the caller holds, and otherwise puts the caller behind the
    threads that wait and leaves it about to switch, interrupts off and no
    spinlock held.  [lock_release] by the holder undoes one nesting; the last
    one opens the lock if nobody waits and otherwise reserves it and wakes
    exactly the first thread that waits.  By anybody else it panics.  Other
    locks, all conditions and their queues stay as they are. *)
Theorem lock_operations_correct s i :
  base s -> is_lock i -> op_ready (lock_addr i) (cpu_of s) -> may_wait s ->
  let l := lock s i in
  wp (lock_acquire i) (fun r s' => base s' /\ same_conds s s' /\ cur_of s' = cur_of s /\
    if locked_id l =? LOCK_NO_THREAD then
      r = None /\ cpu_of s' = cpu_of s /\ same_queues s s' /\
      lock_is s s' i (mk_lock (cur_of s) 1 (waiting_thread_count l) (is_used l))
    else if locked_id l =? cur_of s then
      r = None /\ cpu_of s' = cpu_of s /\ same_queues s s' /\
      lock_is s s' i (mk_lock (cur_of s) (u32 (nested_locking_count l + 1)) (waiting_thread_count l) (is_used l))
    else
      r = Some (status (cpu_of s)) /\ interrupts_off (status (cpu_of s')) /\ held (cpu_of s') = held (cpu_of s) /\
      lock_queue_is s s' i (lq s i ++ [cur_of s]) /\
      lock_is s s' i (mk_lock (locked_id l) (nested_locking_count l) (u32 (waiting_thread_count l + 1)) (is_used l))) s /\
  (locked_id l = cur_of s ->
   wp (lock_release i) (fun _ s' => base s' /\ same_conds s s' /\ cur_of s' = cur_of s /\ cpu_of s' = cpu_of s /\
     if nested_locking_count l >? 1 then
       same_queues s s' /\
       lock_is s s' i (mk_lock (cur_of s) (u32 (nested_locking_count l - 1)) (waiting_thread_count l) (is_used l))
     else if waiting_thread_count l >? 0 then
       lock_queue_is s s' i (tail (lq s i)) /\
       lock_is s s' i (mk_lock LOCK_RESERVED_THREAD 0 (waiting_thread_count l) (is_used l))
     else
       same_queues s s' /\
       lock_is s s' i (mk_lock LOCK_NO_THREAD 0 (waiting_thread_count l) (is_used l))) s) /\
  (locked_id l <> cur_of s -> lock_release i s = Fail Panic).
Proof.
  intros Hb Hi Hrdy Hmw. cbv zeta. split; [|split].
  - eapply wp_mono; [by apply lock_acquire_run|]. intros r s' (Hb' & Hcs & Hcur & Hres). split; [done|]. split; [done|].
    split; [done|]. cbv zeta in Hres. destruct (_ =? LOCK_NO_THREAD); [done|]. destruct (_ =? cur_of s); [done|].
    destruct Hres as (-> & -> & Hq & Hx). split; [done|]. split; [apply disable_off|done].
  - intros Hme. eapply wp_mono; [by apply lock_release_run|]. intros _ s' (Hb' & Hcs & Hcur & Hcpu & Hx & Hq).
    split; [done|]. split; [done|]. split; [done|]. split; [done|].
    assert (Hsame : lock_queue_is s s' i (lq s i) -> same_queues s s').
    { intros [Hlq Hcq]. split; [|done]. intros j Hj. rewrite Hlq by done. by destruct (Z.eqb_spec j i) as [->|]. }
    unfold released in *. rewrite <- Hme. destruct (_ >? 1); [split; [by apply Hsame|done]|].
    destruct (_ >? 0); split; done || by apply Hsame.
  - by apply lock_release_not_holder.
Qed.

(** Condition variables.  [condition_wait] puts the caller behind
    the threads that wait for the condition and releases the lock before
    anybody else can signal, or panics if the caller does not hold the lock;
    [condition_signal] lets exactly the first waiting thread go and
    [condition_broadcast] all of them, and with nobody waiting neither does
    anything.  The count of waiting threads is kept. *)
Theorem condition_variables_correct s c i :
  base s -> is_cond c -> is_lock i -> op_ready (cond_addr c) (cpu_of s) -> lock_addr i ∉ held (cpu_of s) -> may_wait s ->
  cond_waiting_thread_count (cond s c) = zlen (cq s c) -> zlen (cq s c) < 4294967295 ->
  (locked_id (lock s i) = cur_of s ->
   wp (condition_wait c i) (fun st s' => base s' /\ st = status (cpu_of s) /\ interrupts_off (status (cpu_of s')) /\
     held (cpu_of s') = held (cpu_of s) /\ lock_is s s' i (fst (released (lock s i) (lq s i))) /\
     (forall j, is_lock j -> lq s' j = if j =? i then snd (released (lock s i) (lq s i)) else lq s j) /\
     (forall d, is_cond d -> cq s' d = (if d =? c then cq s c ++ [cur_of s] else cq s d)) /\
     cond_waiting_thread_count (cond s' c) = zlen (cq s' c)) s) /\
  (locked_id (lock s i) <> cur_of s -> condition_wait c i s = Fail Panic) /\
  wp (condition_signal c) (fun _ s' => base s' /\ same_locks s s' /\ cpu_of s' = cpu_of s /\
    cond_queue_is s s' c (tail (cq s c)) /\ cond_waiting_thread_count (cond s' c) = zlen (cq s' c)) s /\
  wp (condition_broadcast c) (fun _ s' => base s' /\ same_locks s s' /\ cpu_of s' = cpu_of s /\
    cond_queue_is s s' c [] /\ cond_waiting_thread_count (cond s' c) = zlen (cq s' c)) s.
Proof.
  intros Hb Hc Hi Hrdy Hli Hmw Hcnt Hmax. split; [|split; [|split]].
  - intros Hme. eapply wp_mono; [by apply condition_wait_run|].
    intros st s' (Hb' & -> & -> & Hcur & Hx & Hcd & Hlq & Hcq). split_and!; try done; [apply disable_off|].
    rewrite Hcd, Hcq, Z.eqb_refl by done. cbn [cond_waiting_thread_count].
    rewrite Hcnt, u32_id by (unfold is_u32; lia). rewrite length_app. cbn [length]. lia.
  - by apply condition_wait_not_holder.
  - eapply wp_mono; [by apply condition_signal_run|]. intros _ s' (Hb' & Hls & _ & Hcpu & Hx & Hlq & Hcq).
    split; [done|]. split; [done|]. split; [done|]. split; [by split|]. rewrite Hx, Hcq, Z.eqb_refl, Hcnt by done.
    destruct (cq s c) as [|w q]; [exact Hcnt|]. destruct (Z.gtb_spec (zlen (w :: q)) 0) as [_|Hn]; [|cbn [length] in Hn; lia].
    cbn [cond_waiting_thread_count tail]. rewrite u32_id by (unfold is_u32; cbn [length] in *; lia). cbn [length]. lia.
  - eapply wp_mono; [by apply condition_broadcast_run|]. intros _ s' (Hb' & Hls & _ & Hcpu & Hx & Hlq & Hcq).
    split; [done|]. split; [done|]. split; [done|]. split; [by split|]. rewrite Hx, Hcq, Z.eqb_refl by done.
    destruct (Z.gtb_spec (cond_waiting_thread_count (cond s c)) 0); cbn [cond_waiting_thread_count length]; lia.
Qed.

(** [lock_table_init] leaves every lock open and unused.
    [lock_create] answers the lowest unused lock, marks it used and changes
    nothing else; with every lock in use it panics. *)
Theorem lock_table_correct s :
  base s -> locks_free (cpu_of s) ->
  wp lock_table_init (fun _ s' => base s' /\ cpu_of s' = cpu_of s /\ same_queues s s' /\ same_conds s s' /\
    forall j, is_lock j -> lock s' j = open_lock) s /\
  ((exists k, is_lock k /\ is_used (lock s k) = 0) ->
   wp lock_create (fun k s' => is_lock k /\ is_used (lock s k) = 0 /\ (forall j, 0 <= j < k -> is_used (lock s j) <> 0) /\
     base s' /\ cpu_of s' = cpu_of s /\ same_queues s s' /\ same_conds s s' /\ lock_is s s' k (used_lock (lock s k))) s) /\
  ((forall k, is_lock k -> is_used (lock s k) <> 0) -> lock_create s = Fail Panic).
Proof.
  intros Hb Hfree. pose proof Hfree as [Hst Hall]. destruct (locks_free_spin _ Hfree) as (_ & _ & _ & Hl & _).
  set (s0 := with_cpu (inside lock_table_slock s) s).
  assert (Hsys0 : sys s0 = with_cpu (inside lock_table_slock s) (sys s)) by reflexivity.
  destruct (quiet_same s s0 _ Hsys0) as (_ & _ & Hcpu0 & Hq0).
  assert (Hb0 : base s0) by (split; [apply Hq0, Hb|apply Hb]). split; [|split].
  - by apply lock_table_init_run.
  - intros Hex. apply wp_critical; [done|done|]. fold s0. eapply wp_mono.
    { apply (lock_create_loop_run _ 0 s0); [done|done|reflexivity|intros; lia|exact Hex]. }
    intros k s1 (Hk & Hz & Hlow & Hb1 & Hsys1 & Hx & Hc).
    split; [change (cpu_of s1) with (cpu_of (sys s1)); by rewrite Hsys1|].
    set (s2 := with_cpu (cpu_of s) s1). assert (Hsys2 : sys s2 = with_cpu (cpu_of s) (sys s)).
    { change (with_cpu (cpu_of s) (sys s1) = with_cpu (cpu_of s) (sys s)). rewrite Hsys1. apply with_cpu_with. }
    destruct (quiet_same s s2 _ Hsys2) as (Hqs & _ & Hcpu2 & Hq2).
    split; [done|]. split; [done|]. split; [done|]. split; [split; [apply Hq2, Hb|apply Hb1]|]. by split_and!.
  - intros Hfull. apply fails_critical; [done|]. by apply lock_create_loop_full.
Qed.
End theorems.

(** ** Two threads and lock 0: thread 1 takes it, thread 2 has to wait. *)
#[local] Existing Instance example_symbols.
#[local] Existing Instance example_layout.

Definition two_threads (current : Z) : kernel :=
  mk_kernel idle_cpu 0 700 0
    (plain_thread THREAD_READY (-1) (-1) 0 1 :: plain_thread THREAD_RUNNING (-1) (-1) 0 1
       :: plain_thread THREAD_RUNNING (-1) (-1) 0 1 :: replicate 29 (plain_thread THREAD_FREE (-1) (-1) 0 1))
    (-1) 0 3 [current; 0; 0; 0] (-1) (-1) (replicate 127 (-1)).
Definition two_conf : conf (K := kernel) :=
  mk_conf (mk_over (mk_tables (replicate 128 open_lock) (replicate 128 (mk_cond 0 0))) (two_threads 1))
    (fun _ => Out) (fun _ _ => 0).
Definition lock_after {S A} (m : M S A) (s : S) : S := match m s with Ret (_, s') => s' | Fail _ => s end.

Lemma two_threads_queues current : queues_ok (two_threads current) [] [] (fun _ => []).
Proof.
  split.
  - split; [reflexivity| | |intros t Ht%not_elem_of_nil; done|intros t Ht%not_elem_of_nil; done].
    + split; [reflexivity|reflexivity|constructor|constructor|constructor|constructor].
    + split; [reflexivity|constructor|constructor|done].
  - reflexivity.
  - intros b Hb. change (sleepq_hashtable (two_threads current)) with (replicate 127 (-1)).
    rewrite lookup_total_replicate_2; [reflexivity|unfold SLEEPQ_HASHTABLE_SIZE in Hb; lia].
  - intros b Hb. constructor.
  - intros b t Hb Ht%not_elem_of_nil. done.
Qed.

Lemma two_threads_ok current : current = 1 \/ current = 2 -> sys_ok (two_threads current).
Proof.
  intros Hc. exists [], [], (fun _ => []), current. split; [apply two_threads_queues|].
  destruct Hc as [-> | ->]; (split; [reflexivity|split; [vm_check|split; [reflexivity|split; [by right|reflexivity]]]]).
Qed.

Lemma two_threads_waiting current r : waiters (two_threads current) r = [].
Proof. by rewrite (waiters_bucket _ _ _ _ _ (two_threads_queues current)). Qed.

Lemma two_may_wait (t : lock_tables) current :
  current = 1 \/ current = 2 -> may_wait (mk_over t (two_threads current)).
Proof.
  intros Hc. split; [destruct Hc as [-> | ->]; vm_check|]. intros r _.
  change (waiting (mk_over t (two_threads current)) r) with (waiters (two_threads current) r).
  rewrite two_threads_waiting. apply not_elem_of_nil.
Qed.

Lemma two_ready a : op_ready a idle_cpu.
Proof. split; [vm_check|]. split; [apply not_elem_of_empty|split; apply not_elem_of_empty]. Qed.

Lemma two_initial : initial two_conf.
Proof.
  split; [|split; [|split; [|done]]].
  - split; [apply two_threads_ok; by left|done].
  - intros i Hi. change (lock (c_s two_conf) i) with (replicate 128 open_lock !!! Z.to_nat i).
    rewrite lookup_total_replicate_2 by (unfold is_lock, CONFIG_MAX_LOCKS in Hi; lia).
    split; [done|]. split; [done|]. apply two_threads_waiting.
  - intros c Hc. change (cond (c_s two_conf) c) with (replicate 128 (mk_cond 0 0) !!! Z.to_nat c).
    rewrite lookup_total_replicate_2 by (unfold is_cond, CONFIG_MAX_CONDITION_VARIABLES in Hc; lia).
    split; [done|]. apply two_threads_waiting.
Qed.

Lemma lock_mutual_exclusion_witness :
  exists y : conf (K := kernel), rtc lock_step two_conf y /\ 0 < c_depth y 1 0 /\ in_acquire (c_pc y) 0 2 /\ ~ 0 < c_depth y 2 0.
Proof.
  set (s1 := lock_after (lock_acquire 0) (c_s two_conf)). set (s2 := mk_over (tab s1) (two_threads 2)).
  set (s3 := lock_after (lock_acquire 0) s2).
  set (p1 := set_pc (fun _ => Out) 1 Out). set (d1 := add_depth (fun _ _ => 0) 1 0 1).
  set (y := mk_conf s3 (set_pc p1 2 (Acquiring 0 0x1000ff01)) d1).
  assert (Hrun : rtc lock_step two_conf y).
  { apply (rtc_l _ _ (mk_conf s1 p1 d1)); [|apply (rtc_l _ _ (mk_conf s2 p1 d1)); [|apply (rtc_l _ _ y); [|apply rtc_refl]]].
    - assert (Hcur : cur_of (c_s two_conf) = 1) by reflexivity.
      pose proof (step_acquire (c_s two_conf) (fun _ => Out) (fun _ _ => 0) 0 None s1) as Hstep.
      rewrite Hcur in Hstep. apply Hstep.
      + vm_check.
      + apply two_ready.
      + apply two_may_wait. by left.
      + reflexivity.
      + vm_check.
      + vm_compute. reflexivity.
    - apply (step_switch s1 p1 d1 (two_threads 2)).
      + apply two_threads_ok. by right.
      + intros r _. change (waiting (sys s1) r) with (waiters (two_threads 1) r).
        change (waiting (two_threads 2) r) with (waiters (two_threads 2) r). by rewrite !two_threads_waiting.
    - assert (Hcur : cur_of s2 = 2) by reflexivity.
      pose proof (step_acquire s2 p1 d1 0 (Some 0x1000ff01) s3) as Hstep.
      rewrite Hcur in Hstep. apply Hstep.
      + vm_check.
      + apply two_ready.
      + apply (two_may_wait (tab s1)). by right.
      + reflexivity.
      + vm_check.
      + vm_compute. reflexivity. }
  exists y. split; [exact Hrun|]. split; [vm_check|]. split; [by eexists|]. intros H2.
  destruct (lock_mutual_exclusion two_conf y 0 1 2 two_initial Hrun) as [Hx _].
  - vm_check.
  - vm_check.
  - vm_check.
  - discriminate Hx; [vm_check|exact H2].
Defined.

Lemma lock_operations_correct_witness :
  wp (lock_acquire 0) (fun r s' => r = None /\ locked_id (lock s' 0) = 1) (c_s two_conf).
Proof.
  destruct (lock_operations_correct (c_s two_conf) 0) as [Ha _].
  - apply two_initial.
  - vm_check.
  - apply two_ready.
  - apply two_may_wait. by left.
  - eapply wp_mono; [exact Ha|]. intros r s' (_ & _ & _ & Hres).
    change (locked_id (lock (c_s two_conf) 0) =? LOCK_NO_THREAD) with true in Hres. cbn iota in Hres.
    destruct Hres as (-> & _ & _ & Hx). split; [reflexivity|]. rewrite Hx by vm_check. reflexivity.
Defined.

(** The state in which thread 1 holds lock 0. *)
Definition held_conf : over lock_tables kernel := lock_after (lock_acquire 0) (c_s two_conf).

Lemma condition_variables_correct_witness :
  wp (condition_wait 5 0) (fun st s' => cq s' 5 = [1] /\ locked_id (lock s' 0) = LOCK_NO_THREAD) held_conf.
Proof.
  destruct (condition_variables_correct held_conf 5 0) as [Hw _].
  - split; [apply two_threads_ok; by left|split; reflexivity].
  - vm_check.
  - vm_check.
  - apply two_ready.
  - apply not_elem_of_empty.
  - apply (two_may_wait (tab held_conf)). by left.
  - reflexivity.
  - reflexivity.
  - eapply wp_mono; [apply Hw; reflexivity|]. intros st s' (_ & _ & _ & _ & Hx & _ & Hq & _).
    rewrite Hq, Hx by vm_check. split; reflexivity.
Defined.

Lemma lock_table_correct_witness :
  wp lock_create (fun k s' => k = 0) (c_s two_conf).
Proof.
  destruct (lock_table_correct (c_s two_conf)) as (_ & Hc & _).
  - apply two_initial.
  - split; [vm_check|]. intros a _. apply not_elem_of_empty.
  - eapply wp_mono; [apply Hc; exists 0; split; [vm_check|reflexivity]|].
    intros k s' (Hk & _ & Hlow & _). destruct (decide (k = 0)) as [|Hne]; [done|].
    contradiction (Hlow 0); [unfold is_lock in Hk; lia|reflexivity].
Defined.
