(* ===== verification/Gbd.v ===== *)
(** * drivers/gbd.h: the interface of block devices

    What the file systems rely on: reading and writing whole blocks by number.
    A request for a block outside the device makes the disk driver panic
    (drivers/disk.c, [disk_next_request]), so the specification asks for a
    block of the device; a request may fail, which the functions report by
    answering 0. *)
From S2P Require Import Prelude.

(** A buffer of [n] bytes. *)
Definition is_buffer (n : Z) (b : list Z) : Prop := zlen b = n /\ Forall is_byte b.

Class BlockDevice (D : Type) := {
  block_size : D -> Z;
  total_blocks : D -> Z;
  (** [read_block]: the return value and the new contents of the buffer. *)
  read_block : Z -> list Z -> M D (Z * list Z);
  write_block : Z -> list Z -> M D Z;

  (** What the device holds, and whether requests always succeed. *)
  contents : D -> Z -> list Z;
  reliable : D -> Prop;

  contents_ok d b : 0 <= b < total_blocks d -> is_buffer (block_size d) (contents d b);
  read_spec d b buf :
    0 <= b < total_blocks d -> zlen buf = block_size d ->
    wp (read_block b buf) (fun '(r, buf') d' =>
      block_size d' = block_size d /\ total_blocks d' = total_blocks d /\ (forall c, contents d' c = contents d c) /\
      zlen buf' = block_size d /\ Forall is_byte buf' /\ (r <> 0 -> buf' = contents d b) /\
      (reliable d -> r <> 0 /\ reliable d')) d;
  write_spec d b buf :
    0 <= b < total_blocks d -> is_buffer (block_size d) buf ->
    wp (write_block b buf) (fun r d' =>
      block_size d' = block_size d /\ total_blocks d' = total_blocks d /\
      (forall c, c <> b -> contents d' c = contents d c) /\ (r <> 0 -> contents d' b = buf) /\
      (reliable d -> r <> 0 /\ reliable d')) d
}.

(** ** A device in memory, of which some blocks cannot be accessed *)
Record ramdisk := mk_ramdisk { rd_blocks : list (list Z); rd_bad : list Z }.

Definition ram_ok (n : Z) (b : list Z) : list Z := if decide (is_buffer n b) then b else replicate (Z.to_nat n) 0.
#[export] Instance is_buffer_dec n b : Decision (is_buffer n b).
Proof. unfold is_buffer, is_byte. apply _. Defined.

Lemma ram_ok_buffer n b : 0 <= n -> is_buffer n (ram_ok n b).
Proof.
  intros Hn. unfold ram_ok. case_decide; [done|]. split; [rewrite length_replicate; lia|].
  apply Forall_replicate. unfold is_byte. lia.
Qed.

Definition ram_contents (d : ramdisk) (b : Z) : list Z := ram_ok 512 (default [] (aget (rd_blocks d) b)).
Definition ram_read (b : Z) (buf : list Z) : M ramdisk (Z * list Z) := fun d =>
  if decide (0 <= b < zlen (rd_blocks d)) then
    if decide (b ∈ rd_bad d) then Ret ((0, ram_ok 512 buf), d) else Ret ((1, ram_contents d b), d)
  else Fail Panic.
Definition ram_write (b : Z) (buf : list Z) : M ramdisk Z := fun d =>
  if decide (0 <= b < zlen (rd_blocks d)) then
    if decide (b ∈ rd_bad d) then Ret (0, d)
    else Ret (1, mk_ramdisk (<[Z.to_nat b := buf]> (rd_blocks d)) (rd_bad d))
  else Fail Panic.

#[export] Instance ramdisk_device : BlockDevice ramdisk.
Proof.
  refine {|
    block_size _ := 512;
    total_blocks d := zlen (rd_blocks d);
    read_block := ram_read;
    write_block := ram_write;
    contents := ram_contents;
    reliable d := rd_bad d = []
  |}.
  - intros d b _. apply ram_ok_buffer. lia.
  - intros d b buf Hb Hl. unfold wp, ram_read. rewrite decide_True by done.
    destruct (decide (b ∈ rd_bad d)) as [Hin|Hin].
    + destruct (ram_ok_buffer 512 buf ltac:(lia)). split_and!; try done. intros He. rewrite He in Hin. by apply not_elem_of_nil in Hin.
    + destruct (ram_ok_buffer 512 (default [] (aget (rd_blocks d) b)) ltac:(lia)). by split_and!.
  - intros d b buf Hb Hbuf. unfold wp, ram_write. rewrite decide_True by done.
    destruct (decide (b ∈ rd_bad d)) as [Hin|Hin].
    + split_and!; try done. intros He. rewrite He in Hin. by apply not_elem_of_nil in Hin.
    + split_and!; try done.
      * cbn. by rewrite length_insert.
      * intros c Hc. unfold ram_contents, aget. cbn. destruct (decide (0 <= c)) as [Hc0|]; [|done].
        by rewrite list_lookup_insert_ne by lia.
      * intros _. unfold ram_contents, aget. cbn. rewrite decide_True, list_lookup_insert_eq by lia. cbn.
        unfold ram_ok. by rewrite decide_True.
Defined.
