(* ===== verification/Sync.v ===== *)
(** * Semaphores as the file systems use them

    The file systems call [semaphore_P] on a semaphore that is normally free
    and [semaphore_V] on every way out.  The class states what they rely on
    when no other thread holds the semaphore; [Semaphore.v] provides it. *)
From S2P Require Import Prelude Cpu Waiting Thread Sleepq Semaphore.

Class Semaphores (S : Type) := {
  sem_create : Z -> M S (option Z);
  sem_destroy : Z -> M S unit;
  sem_P : Z -> M S unit;
  sem_V : Z -> M S unit;

  (** The value of a semaphore that exists. *)
  sem_inv : S -> Prop;
  sem_val : S -> Z -> option Z;
  (** The semaphores the system has, in use or not. *)
  sem_slot : Z -> Prop;

  sem_create_spec s v :
    sem_inv s -> 0 <= v ->
    wp (sem_create v) (fun r s' => sem_inv s' /\
      match r with
      | Some i => sem_val s i = None /\ forall j, sem_val s' j = if j =? i then Some v else sem_val s j
      | None => forall j, sem_val s' j = sem_val s j
      end) s;
  sem_create_slot s v :
    sem_inv s -> 0 <= v ->
    wp (sem_create v) (fun r _ =>
      match r with Some i => sem_slot i | None => forall i, sem_slot i -> sem_val s i <> None end) s;
  sem_destroy_spec s i v :
    sem_inv s -> sem_val s i = Some v -> 0 <= v ->
    wp (sem_destroy i) (fun _ s' => sem_inv s' /\ forall j, sem_val s' j = if j =? i then None else sem_val s j) s;
  sem_P_spec s i v :
    sem_inv s -> sem_val s i = Some v -> 0 < v < 2147483648 ->
    wp (sem_P i) (fun _ s' => sem_inv s' /\ forall j, sem_val s' j = if j =? i then Some (v - 1) else sem_val s j) s;
  (** Waiting for a semaphore that only the caller could raise. *)
  sem_P_blocks s i v : sem_inv s -> sem_val s i = Some v -> -2147483648 < v <= 0 -> fails Blocked (sem_P i) s;
  sem_V_spec s i v :
    sem_inv s -> sem_val s i = Some v -> 0 <= v < 2147483647 ->
    wp (sem_V i) (fun _ s' => sem_inv s' /\ forall j, sem_val s' j = if j =? i then Some (v + 1) else sem_val s j) s
}.

(** ** kernel/semaphore.c provides the interface *)
Section semaphores.
Context {K : Type} `{!HasCpu K, !Symbols, HL : !Layout, SQ : !SleepQueues K}.
Implicit Types s : over semaphores K.

(** [semaphore_P] by a thread nobody else can wake. *)
Definition semaphore_P_alone (i : Z) : M (over semaphores K) unit :=
  r ← semaphore_P i; match r with None => mret tt | Some _ => fail Blocked end.

Definition sems_alone s : Prop := sems_ok s /\ caller_free s /\ 0 < cur_of s.
Definition sem_value s (i : Z) : option Z :=
  if decide (0 <= i < CONFIG_MAX_SEMAPHORES /\ creator (sem s i) <> -1) then Some (value (sem s i)) else None.

Lemma sem_value_Some s i v :
  sem_value s i = Some v <-> is_sem i /\ creator (sem s i) <> -1 /\ value (sem s i) = v.
Proof. unfold sem_value, is_sem. case_decide; naive_solver. Qed.

Lemma sem_value_set s s' i (x : semaphore_t) :
  is_sem i -> (forall j, is_sem j -> sem s' j = if j =? i then x else sem s j) ->
  forall j, sem_value s' j = if j =? i then (if decide (creator x = -1) then None else Some (value x)) else sem_value s j.
Proof.
  intros Hi Hs j. unfold sem_value. destruct (Z.eqb_spec j i) as [->|Hne].
  - specialize (Hs i Hi). rewrite Z.eqb_refl in Hs. rewrite Hs.
    destruct (decide (creator x = -1)); [rewrite decide_False by naive_solver|rewrite decide_True by done]; done.
  - destruct (decide (0 <= j < CONFIG_MAX_SEMAPHORES)) as [Hj|Hj].
    + rewrite (Hs j Hj). by apply Z.eqb_neq in Hne as ->.
    + by rewrite !decide_False by naive_solver.
Qed.

Lemma alone_same s s' :
  sems_alone s -> sems_ok s' -> cpu_of s' = cpu_of s -> cur_of s' = cur_of s ->
  (forall r, is_resource r -> waiting s' r = waiting s r) -> sems_alone s'.
Proof.
  intros (_ & (Hf & Hc & Hw) & Hpos) Hok Hcpu Hcur Hws. split; [done|]. unfold caller_free. rewrite Hcpu, Hcur.
  split; [|done]. split; [done|]. split; [done|]. intros r Hr. rewrite Hws by done. by apply Hw.
Qed.

#[export] Program Instance kernel_semaphores : Semaphores (over semaphores K) := {|
  sem_create := semaphore_create;
  sem_destroy := semaphore_destroy;
  sem_P := semaphore_P_alone;
  sem_V := semaphore_V;
  sem_inv := sems_alone;
  sem_val := sem_value;
  sem_slot := is_sem
|}.
Next Obligation.
  intros s v Hal Hv. pose proof Hal as (Hok & Hcf & Hpos). eapply wp_mono; [apply semaphore_create_run; [done|apply Hcf|done]|].
  intros r s' (Hok' & Hcpu & Hcur & Hw & Hr). split; [by apply (alone_same s)|]. destruct r as [i|].
  - destruct Hr as (Hi & Hc & Hs). split.
    + destruct (sem_value s i) eqn:E; [|done]. apply sem_value_Some in E as (_ & ? & _). done.
    + intros j. rewrite (sem_value_set s s' i _ Hi Hs). cbn [creator value]. by rewrite decide_False by lia.
  - intros j. unfold sem_value. destruct (decide (0 <= j < CONFIG_MAX_SEMAPHORES)) as [Hj|Hj].
    + by destruct (Hr j Hj) as [_ ->].
    + by rewrite !decide_False by naive_solver.
Qed.
Next Obligation.
  intros s v (Hok & Hcf & _) Hv. eapply wp_mono; [apply semaphore_create_run; [done|apply Hcf|done]|].
  intros r s' (_ & _ & _ & _ & Hr). destruct r as [i|]; [apply Hr|]. intros i Hi. destruct (Hr i Hi) as [Hc _].
  unfold sem_value. by rewrite decide_True.
Qed.
Next Obligation.
  intros s i v Hal (Hi & Hc & Hval)%sem_value_Some Hv. pose proof Hal as (Hok & Hcf & Hpos).
  eapply wp_mono; [apply semaphore_destroy_run; [done|done|]|].
  - apply length_zero_iff_nil. pose proof (ss_count _ Hok i Hi). lia.
  - intros _ s' (Hok' & Hsys & Hs). assert (Hc' : sys s' = with_cpu (cpu_of s) (sys s)) by (rewrite Hsys; exact (eq_sym (with_cpu_of (sys s)))).
    destruct (over_quiet s s' _ Hc') as (Hcpu & Hw & Hcur & _). split; [by apply (alone_same s)|].
    intros j. by rewrite (sem_value_set s s' i _ Hi Hs).
Qed.
Next Obligation.
  intros s i v Hal (Hi & Hc & Hval)%sem_value_Some Hv. pose proof Hal as (Hok & Hcf & Hpos).
  apply wp_bind. eapply wp_mono; [apply (semaphore_P_run s i); try done; unfold is_i32; lia|].
  intros r s' (Hok' & (_ & _ & Hs) & Hcur & Hr). rewrite (proj2 (Z.ltb_lt 0 _)) in Hr by lia. destruct Hr as (-> & Hcpu & Hw).
  apply wp_ret. split; [by apply (alone_same s)|]. intros j. rewrite (sem_value_set s s' i _ Hi Hs). cbn [creator value].
  rewrite decide_False by done. by rewrite Hval.
Qed.
Next Obligation.
  intros s i v Hal (Hi & Hc & Hval)%sem_value_Some Hv. pose proof Hal as (Hok & Hcf & Hpos).
  apply fails_bind. eapply wp_mono; [apply (semaphore_P_run s i); try done; unfold is_i32; lia|].
  intros r s' (Hok' & (_ & _ & Hs) & Hcur & Hr). rewrite (proj2 (Z.ltb_ge 0 _)) in Hr by lia. by destruct Hr as (-> & _).
Qed.
Next Obligation.
  intros s i v Hal (Hi & Hc & Hval)%sem_value_Some Hv. pose proof Hal as (Hok & Hcf & Hpos).
  eapply wp_mono; [apply (semaphore_V_run s i); try done; [apply Hcf|unfold is_i32; lia]|].
  intros _ s' (Hok' & (_ & _ & Hs) & Hcur & Hcpu & Hw). split.
  - apply (alone_same s); try done. intros r Hr. rewrite Hw by done. destruct (Z.eqb_spec r (sem_addr i)) as [->|]; [|done].
    assert (waiting s (sem_addr i) = []) as ->; [|done]. apply length_zero_iff_nil. pose proof (ss_count _ Hok i Hi). lia.
  - intros j. rewrite (sem_value_set s s' i _ Hi Hs). cbn [creator value]. rewrite decide_False by done. by rewrite Hval.
Qed.
End semaphores.
