(* ===== verification/Disk.v ===== *)
(** * drivers/disk.c, drivers/disksched.c: the disk driver

    Requests wait in a list that is chained through their [next] fields; the
    disk works on one of them at a time and interrupts when it is done.  The
    handler stores the result in the request, raises its semaphore and starts
    the next request.  The disk itself is a class: its registers, and what the
    documentation of the machine says about commands. *)
From S2P Require Import Prelude Cpu Chain Gbd Sync.

(** ** The disk *)

Definition DISK_COMMAND_READ : Z := 0x1.
Definition DISK_COMMAND_WRITE : Z := 0x2.
Definition DISK_COMMAND_RIRQ : Z := 0x3.
Definition DISK_COMMAND_WIRQ : Z := 0x4.
Definition DISK_COMMAND_BLOCKS : Z := 0x5.
Definition DISK_COMMAND_BLOCKSIZE : Z := 0x6.
Definition DISK_STATUS_RBUSY (status : Z) : Z := Z.land status 0x00000001.
Definition DISK_STATUS_WBUSY (status : Z) : Z := Z.land status 0x00000002.
Definition DISK_STATUS_RIRQ (status : Z) : Z := Z.land status 0x00000004.
Definition DISK_STATUS_WIRQ (status : Z) : Z := Z.land status 0x00000008.
Definition DISK_STATUS_ERRORS (status : Z) : Z := Z.land status 0xf8000000.

(** [gbd_operation_t] *)
Definition GBD_OPERATION_READ : Z := 0.
Definition GBD_OPERATION_WRITE : Z := 1.

(** What the disk is doing: nothing, transferring a sector to or from an
    address of memory, or waiting for the handler of its interrupt. *)
Inductive disk_phase := Ready | Busy (operation sector addr : Z) | Finished (operation : Z).
#[export] Instance disk_phase_eq_dec : EqDecision disk_phase.
Proof. solve_decision. Defined.

(** The bits of the status register that the driver looks at. *)
Definition phase_bits (p : disk_phase) : Z :=
  match p with
  | Ready => 0
  | Busy op _ _ => if op =? GBD_OPERATION_READ then 1 else 2
  | Finished op => if op =? GBD_OPERATION_READ then 4 else 8
  end.
Definition driver_bits : Z := 0xf800000f.

Class DiskHardware (H : Type) := {
  (** Reading and writing the registers. *)
  io_status : H -> Z;
  io_data : H -> Z;
  io_command : Z -> H -> H;
  io_tsector : Z -> H -> H;
  io_dmaaddr : Z -> H -> H;
  (** The end of a transfer, on the side of the disk. *)
  hw_complete : H -> H;

  hw_phase : H -> disk_phase;
  hw_tsector : H -> Z;
  hw_dmaaddr : H -> Z;
  hw_blocks : H -> Z;
  hw_blocksize : H -> Z;
  hw_sector : H -> Z -> list Z;
  hw_memory : H -> Z -> list Z;         (** as many bytes as a sector has *)
  hw_same (h h' : H) : Prop :=
    hw_blocks h' = hw_blocks h /\ hw_blocksize h' = hw_blocksize h /\
    (forall c, hw_sector h' c = hw_sector h c) /\ (forall a, hw_memory h' a = hw_memory h a);

  hw_status h : Z.land (io_status h) driver_bits = phase_bits (hw_phase h);
  hw_set_tsector h x : hw_same h (io_tsector x h) /\ hw_phase (io_tsector x h) = hw_phase h /\
    hw_tsector (io_tsector x h) = x /\ hw_dmaaddr (io_tsector x h) = hw_dmaaddr h;
  hw_set_dmaaddr h x : hw_same h (io_dmaaddr x h) /\ hw_phase (io_dmaaddr x h) = hw_phase h /\
    hw_tsector (io_dmaaddr x h) = hw_tsector h /\ hw_dmaaddr (io_dmaaddr x h) = x;
  hw_start h op : hw_phase h = Ready -> 0 <= hw_tsector h < hw_blocks h -> op = GBD_OPERATION_READ \/ op = GBD_OPERATION_WRITE ->
    let h' := io_command (if op =? GBD_OPERATION_READ then DISK_COMMAND_READ else DISK_COMMAND_WRITE) h in
    hw_same h h' /\ hw_phase h' = Busy op (hw_tsector h) (hw_dmaaddr h);
  hw_reset h op : hw_phase h = Finished op ->
    let h' := io_command DISK_COMMAND_RIRQ (io_command DISK_COMMAND_WIRQ h) in hw_same h h' /\ hw_phase h' = Ready;
  hw_ask h : hw_same h (io_command DISK_COMMAND_BLOCKS h) /\ hw_phase (io_command DISK_COMMAND_BLOCKS h) = hw_phase h /\
    io_data (io_command DISK_COMMAND_BLOCKS h) = hw_blocks h;
  hw_ask_size h : hw_same h (io_command DISK_COMMAND_BLOCKSIZE h) /\ hw_phase (io_command DISK_COMMAND_BLOCKSIZE h) = hw_phase h /\
    io_data (io_command DISK_COMMAND_BLOCKSIZE h) = hw_blocksize h;
  (** A transfer changes the memory at its address, or its sector. *)
  hw_read_done h b a : hw_phase h = Busy GBD_OPERATION_READ b a ->
    let h' := hw_complete h in
    hw_phase h' = Finished GBD_OPERATION_READ /\ hw_blocks h' = hw_blocks h /\ hw_blocksize h' = hw_blocksize h /\
    (forall c, hw_sector h' c = hw_sector h c) /\ hw_memory h' a = hw_sector h b /\
    forall a', hw_blocksize h <= Z.abs (a' - a) -> hw_memory h' a' = hw_memory h a';
  hw_write_done h b a : hw_phase h = Busy GBD_OPERATION_WRITE b a ->
    let h' := hw_complete h in
    hw_phase h' = Finished GBD_OPERATION_WRITE /\ hw_blocks h' = hw_blocks h /\ hw_blocksize h' = hw_blocksize h /\
    (forall c, hw_sector h' c = if c =? b then hw_memory h a else hw_sector h c) /\ forall a', hw_memory h' a' = hw_memory h a'
}.

(** ** The code *)

(** [gbd_request_t]; a pointer to one is its address, 0 for NULL, and [sem] is
    [None] for NULL. *)
Record gbd_request_t := mk_request {
  block : Z;
  buf : Z;
  sem : option Z;
  operation : Z;
  internal : Z;
  next : Z;
  return_value : Z
}.
Definition with_operation (x : Z) (r : gbd_request_t) : gbd_request_t :=
  mk_request (block r) (buf r) (sem r) x (internal r) (next r) (return_value r).
Definition with_next (x : Z) (r : gbd_request_t) : gbd_request_t :=
  mk_request (block r) (buf r) (sem r) (operation r) (internal r) x (return_value r).
Definition with_return_value (x : Z) (r : gbd_request_t) : gbd_request_t :=
  mk_request (block r) (buf r) (sem r) (operation r) (internal r) (next r) x.
Definition with_sem (x : option Z) (r : gbd_request_t) : gbd_request_t :=
  mk_request (block r) (buf r) x (operation r) (internal r) (next r) (return_value r).
(** The fields that the driver fills in. *)
Definition submitted (r : gbd_request_t) : gbd_request_t :=
  mk_request (block r) (buf r) (sem r) (operation r) 0 0 (-1).

(** [disk_real_device_t], the requests in memory, the registers, the
    semaphores and the processor. *)
Record driver (H S : Type) := mk_driver {
  slock : Z;                            (** address of the spinlock *)
  request_queue : Z;
  request_served : Z;
  requests : gmap Z gbd_request_t;
  dk_io : H;
  dk_sems : S;
  dk_cpu : cpu
}.
Arguments mk_driver {H S} slock request_queue request_served requests dk_io dk_sems dk_cpu.
Arguments slock {H S} d.
Arguments request_queue {H S} d.
Arguments request_served {H S} d.
Arguments requests {H S} d.
Arguments dk_io {H S} d.
Arguments dk_sems {H S} d.
Arguments dk_cpu {H S} d.

#[export] Instance HasCpu_driver {H S} : HasCpu (driver H S).
Proof.
  refine {| cpu_of := dk_cpu;
    with_cpu c d := mk_driver (slock d) (request_queue d) (request_served d) (requests d) (dk_io d) (dk_sems d) c |}; by intros; destruct s.
Defined.

Section disk.
Context {H S : Type} `{!DiskHardware H, !Semaphores S}.
Abbreviation state := (driver H S).

Definition set_queue (x : Z) : M state unit :=
  modify (fun d => mk_driver (slock d) x (request_served d) (requests d) (dk_io d) (dk_sems d) (dk_cpu d)).
Definition set_served (x : Z) : M state unit :=
  modify (fun d => mk_driver (slock d) (request_queue d) x (requests d) (dk_io d) (dk_sems d) (dk_cpu d)).
Definition get_request (r : Z) : M state gbd_request_t := fun d =>
  match requests d !! r with Some x => Ret (x, d) | None => Fail Undef end.
Definition upd_request (r : Z) (f : gbd_request_t -> gbd_request_t) : M state unit :=
  x ← get_request r;
  modify (fun d => mk_driver (slock d) (request_queue d) (request_served d) (<[r := f x]> (requests d)) (dk_io d) (dk_sems d) (dk_cpu d)).
Definition read_io (f : H -> Z) : M state Z := gets (fun d => f (dk_io d)).
Definition write_io (f : H -> H) : M state unit :=
  modify (fun d => mk_driver (slock d) (request_queue d) (request_served d) (requests d) (f (dk_io d)) (dk_sems d) (dk_cpu d)).
Definition on_sems {A} (m : M S A) : M state A := fun d =>
  match m (dk_sems d) with
  | Ret (a, x) => Ret (a, mk_driver (slock d) (request_queue d) (request_served d) (requests d) (dk_io d) x (dk_cpu d))
  | Fail f => Fail f end.

(** [while (q->next != NULL) q = q->next;] *)
Fixpoint last_request (n : nat) (q : Z) : M state Z :=
  match n with
  | O => fail Timeout
  | Datatypes.S n => x ← get_request q; if next x =? 0 then mret q else last_request n (next x)
  end.
Definition disksched_schedule (request : Z) : M state unit :=
  d ← gets id;
  let q := request_queue d in
  if negb (q =? 0) then
    q ← last_request (Datatypes.S (size (requests d))) q;
    upd_request q (with_next request)
  else set_queue request.

Definition disk_next_request : M state unit :=
  rb ← read_io io_status;
  wb ← (if negb (DISK_STATUS_RBUSY rb =? 0) then mret rb else read_io io_status);
  _ ← kassert ((DISK_STATUS_RBUSY rb =? 0) && (DISK_STATUS_WBUSY wb =? 0));
  d ← gets id;
  _ ← kassert (request_served d =? 0);
  let req := request_queue d in
  if req =? 0 then mret tt
  else
    x ← get_request req;
    _ ← set_queue (next x);
    _ ← upd_request req (with_next 0);
    _ ← set_served req;
    _ ← write_io (io_tsector (block x));
    _ ← write_io (io_dmaaddr (buf x));
    _ ← (if operation x =? GBD_OPERATION_READ then write_io (io_command DISK_COMMAND_READ)
         else if operation x =? GBD_OPERATION_WRITE then write_io (io_command DISK_COMMAND_WRITE)
         else kpanic);
    st ← read_io io_status;
    if negb (DISK_STATUS_ERRORS st =? 0) then kpanic else mret tt.

(** Interrupts are off while the handler runs. *)
Definition disk_interrupt_handle : M state unit :=
  d ← gets id;
  _ ← spinlock_acquire (slock d);
  rs ← read_io io_status;
  ws ← (if negb (DISK_STATUS_RIRQ rs =? 0) then mret rs else read_io io_status);
  _ ← (if (DISK_STATUS_RIRQ rs =? 0) && (DISK_STATUS_WIRQ ws =? 0) then mret tt
       else
         _ ← write_io (io_command DISK_COMMAND_WIRQ);
         _ ← write_io (io_command DISK_COMMAND_RIRQ);
         d ← gets id;
         let served := request_served d in
         _ ← kassert (negb (served =? 0));
         _ ← upd_request served (with_return_value 0);
         x ← get_request served;
         _ ← (match sem x with Some i => on_sems (sem_V i) | None => fail Undef end);
         _ ← set_served 0;
         disk_next_request);
  spinlock_release (slock d).

(** Before the wait of a synchronous call: the answer, or [None] when the
    caller goes on to wait for the semaphore in the request. *)
Definition disk_submit_begin (request : Z) : M state (option Z) :=
  _ ← upd_request request submitted;
  x ← get_request request;
  ok ← (match sem x with
        | Some _ => mret true
        | None =>
            i ← on_sems (sem_create 0);
            _ ← upd_request request (with_sem i);
            mret (match i with Some _ => true | None => false end)
        end);
  if negb ok then mret (Some 0)
  else
    d ← gets id;
    _ ← critical (slock d) (
      _ ← disksched_schedule request;
      d ← gets id;
      if request_served d =? 0 then disk_next_request else mret tt);
    mret (match sem x with Some _ => Some 1 | None => None end).
(** The rest of a synchronous call. *)
Definition disk_submit_end (request : Z) : M state Z :=
  x ← get_request request;
  match sem x with
  | None => fail Undef
  | Some i =>
      _ ← on_sems (sem_P i);
      _ ← on_sems (sem_destroy i);
      _ ← upd_request request (with_sem None);
      x ← get_request request;
      mret (if return_value x =? 0 then 1 else 0)
  end.
Definition disk_submit_request (request : Z) : M state Z :=
  r ← disk_submit_begin request;
  match r with Some r => mret r | None => disk_submit_end request end.
Definition disk_read_block (request : Z) : M state Z :=
  _ ← upd_request request (with_operation GBD_OPERATION_READ);
  disk_submit_request request.
Definition disk_write_block (request : Z) : M state Z :=
  _ ← upd_request request (with_operation GBD_OPERATION_WRITE);
  disk_submit_request request.

Definition ask (command : Z) : M state Z :=
  d ← gets id;
  critical (slock d) (_ ← write_io (io_command command); read_io io_data).
Definition disk_block_size : M state Z := ask DISK_COMMAND_BLOCKSIZE.
Definition disk_total_blocks : M state Z := ask DISK_COMMAND_BLOCKS.

(** What [disk_init] stores in the state of the driver. *)
Definition disk_init_real (slock : Z) (io : H) (x : S) (c : cpu) : state :=
  mk_driver slock 0 0 ∅ io x (mk_cpu (status c) (held c ∖ {[slock]})).

(** ** The steps *)
Implicit Types (d : state) (l : list Z) (r : Z) (x : gbd_request_t).

Definition with_queue (q : Z) d : state := mk_driver (slock d) q (request_served d) (requests d) (dk_io d) (dk_sems d) (dk_cpu d).
Definition with_served (r : Z) d : state := mk_driver (slock d) (request_queue d) r (requests d) (dk_io d) (dk_sems d) (dk_cpu d).
Definition with_io (h : H) d : state := mk_driver (slock d) (request_queue d) (request_served d) (requests d) h (dk_sems d) (dk_cpu d).
Definition put_request r x d : state :=
  mk_driver (slock d) (request_queue d) (request_served d) (<[r := x]> (requests d)) (dk_io d) (dk_sems d) (dk_cpu d).
Definition with_sems (y : S) d : state := mk_driver (slock d) (request_queue d) (request_served d) (requests d) (dk_io d) y (dk_cpu d).

Lemma wp_get_request r x (Q : gbd_request_t -> state -> Prop) d : requests d !! r = Some x -> Q x d -> wp (get_request r) Q d.
Proof. intros Hr HQ. unfold wp, get_request. by rewrite Hr. Qed.
Lemma wp_upd_request r f x (Q : unit -> state -> Prop) d : requests d !! r = Some x -> Q tt (put_request r (f x) d) -> wp (upd_request r f) Q d.
Proof. intros Hr HQ. apply wp_bind, (wp_get_request r x); [done|]. by apply wp_modify. Qed.
Lemma wp_on_sems {A} (m : M S A) (Q : A -> state -> Prop) d : wp m (fun a y => Q a (with_sems y d)) (dk_sems d) -> wp (on_sems m) Q d.
Proof. unfold wp, on_sems. by destruct (m (dk_sems d)) as [[a y]|]. Qed.

(** ** The queue *)
Definition nxt d r : Z := match requests d !! r with Some x => next x | None => 0 end.
Definition queued d (q : Z) l : Prop := seg (nxt d) q l 0 /\ NoDup l /\ forall r, r ∈ l -> r <> 0 /\ is_Some (requests d !! r).

Lemma nxt_put d r x r' : nxt (put_request r x d) r' = if decide (r' = r) then next x else nxt d r'.
Proof. unfold nxt. cbn. case_decide as Hr; [by rewrite Hr, lookup_insert_eq|by rewrite lookup_insert_ne]. Qed.
Lemma queued_fuel d q l : queued d q l -> (length l <= size (requests d))%nat.
Proof.
  intros (_ & Hn & Hl). rewrite <- size_dom, <- (size_list_to_set (C := gset Z) l) by done. apply subseteq_size.
  intros r Hr%elem_of_list_to_set. by apply elem_of_dom, Hl.
Qed.
Lemma queued_head d q l : queued d q l -> (q = 0 <-> l = []).
Proof. intros (Hs & _ & Hl). destruct l as [|r l]; [done|]. destruct Hs as [-> _]. split; [|done]. intros ->. by destruct (Hl 0) as [[] _]; [left|]. Qed.
Lemma queued_tail d r l : queued d r (r :: l) -> queued d (nxt d r) l.
Proof. intros ([_ Hs] & Hn & Hl). apply NoDup_cons in Hn as [_ Hn]. split; [done|]. split; [done|]. intros r' Hr'. apply Hl. by right. Qed.
(** A request that is not in the queue can change. *)
Lemma queued_put d q l r x : queued d q l -> r ∉ l -> queued (put_request r x d) q l.
Proof.
  intros (Hs & Hn & Hl) Hr. split; [|split; [done|]].
  - eapply seg_ext; [|exact Hs]. intros r' Hr'. rewrite nxt_put, decide_False; [done|]. by intros ->.
  - intros r' Hr'. split; [by apply Hl|]. cbn. destruct (decide (r' = r)) as [->|]; [done|]. rewrite lookup_insert_ne by done. by apply Hl.
Qed.

Lemma last_request_run n q l r d (Q : Z -> state -> Prop) :
  queued d q (l ++ [r]) -> (length (l ++ [r]) <= n)%nat -> Q r d -> wp (last_request n q) Q d.
Proof.
  revert n q. induction l as [|r' l IH]; intros n q Hq Hn HQ; (destruct n as [|n]; [cbn in Hn; lia|]); cbn [last_request app] in *.
  - destruct Hq as ([-> Hs] & _ & Hl). destruct (Hl r) as [_ [x Hx]]; [by left|]. apply wp_bind, (wp_get_request r x); [done|].
    cbn in Hs. unfold nxt in Hs. rewrite Hx in Hs. rewrite Hs. by apply wp_ret.
  - pose proof Hq as ([-> _] & _ & Hl). destruct (Hl r') as [_ [x Hx]]; [by left|]. apply queued_tail in Hq.
    apply wp_bind, (wp_get_request r' x); [done|]. unfold nxt in Hq. rewrite Hx in Hq.
    destruct (Z.eqb_spec (next x) 0) as [H0|H0].
    + apply (queued_head _ _ _ Hq) in H0. by destruct l.
    + apply IH; [done|cbn in Hn; lia|done].
Qed.

(** The new request goes to the end. *)
Lemma disksched_schedule_run r x l d (Q : unit -> state -> Prop) :
  queued d (request_queue d) l -> requests d !! r = Some x -> next x = 0 -> r <> 0 -> r ∉ l ->
  (forall d', slock d' = slock d -> request_served d' = request_served d -> dk_io d' = dk_io d -> dk_sems d' = dk_sems d -> dk_cpu d' = dk_cpu d ->
     queued d' (request_queue d') (l ++ [r]) ->
     (forall r', requests d' !! r' = requests d !! r' \/ exists y, requests d !! r' = Some y /\ r' ∈ l /\ requests d' !! r' = Some (with_next r y)) -> Q tt d') ->
  wp (disksched_schedule r) Q d.
Proof.
  intros Hq Hr Hnext Hr0 Hrl HQ. apply wp_bind, wp_gets. unfold id. destruct (Z.eqb_spec (request_queue d) 0) as [H0|H0]; cbn [negb].
  - apply (queued_head _ _ _ Hq) in H0 as ->. apply wp_modify, HQ; try done; [|by left].
    split; [|split; [by apply NoDup_singleton|intros r' ->%list_elem_of_singleton; split; [done|by exists x]]].
    cbn. split; [done|]. unfold nxt. cbn. by rewrite Hr.
  - destruct l as [|p l _] using rev_ind; [by destruct H0; apply (queued_head _ _ _ Hq)|].
    apply wp_bind, (last_request_run _ _ l p); [done|apply queued_fuel in Hq; lia|].
    pose proof Hq as (Hs & Hn & Hl). destruct (Hl p) as [Hp0 [y Hy]]; [set_solver|]. apply (wp_upd_request p _ y); [done|].
    apply HQ; try done.
    + split; [|split].
      * eapply seg_append; [exact Hs|done|done| | |].
        { by rewrite nxt_put, decide_True. }
        { rewrite nxt_put, decide_False by set_solver. unfold nxt. by rewrite Hr. }
        { intros u Hu. rewrite nxt_put, decide_False; [done|]. intros ->. apply NoDup_app in Hn as (_ & Hd & _). apply (Hd p Hu). set_solver. }
      * apply NoDup_app. split; [done|]. split; [|by apply NoDup_singleton]. intros u Hu ->%list_elem_of_singleton. done.
      * intros u [Hu| ->%list_elem_of_singleton]%elem_of_app; cbn.
        { split; [by apply Hl|]. destruct (decide (u = p)) as [->|]; [by rewrite lookup_insert_eq|]. rewrite lookup_insert_ne by done. by apply Hl. }
        { split; [done|]. rewrite lookup_insert_ne by set_solver. by exists x. }
    + intros r'. cbn. destruct (decide (r' = p)) as [->|]; [right; exists y|left; by rewrite lookup_insert_ne].
      rewrite lookup_insert_eq. split; [done|]. split; [set_solver|done].
Qed.

(** ** The registers *)
Lemma status_bits (h : H) m : Z.land driver_bits m = m -> Z.land (io_status h) m = Z.land (phase_bits (hw_phase h)) m.
Proof. intros Hm. by rewrite <- hw_status, <- Z.land_assoc, Hm. Qed.
Lemma same_refl (h : H) : hw_same h h.
Proof. done. Qed.
Lemma same_trans (h h' h'' : H) : hw_same h h' -> hw_same h' h'' -> hw_same h h''.
Proof. intros (H1 & H2 & H3 & H4) (H1' & H2' & H3' & H4'). split; [congruence|]. split; [congruence|]. split; intros ?; [by rewrite H3'|by rewrite H4']. Qed.

Definition valid_request (h : H) x : Prop :=
  (operation x = GBD_OPERATION_READ \/ operation x = GBD_OPERATION_WRITE) /\ 0 <= block x < hw_blocks h.

(** Starting a transfer. *)
Lemma start_run x d (Q : unit -> state -> Prop) (k : M state unit) :
  hw_phase (dk_io d) = Ready -> valid_request (dk_io d) x ->
  (forall h', hw_same (dk_io d) h' -> hw_phase h' = Busy (operation x) (block x) (buf x) -> wp k Q (with_io h' d)) ->
  wp (_ ← write_io (io_tsector (block x)); _ ← write_io (io_dmaaddr (buf x));
      _ ← (if operation x =? GBD_OPERATION_READ then write_io (io_command DISK_COMMAND_READ)
           else if operation x =? GBD_OPERATION_WRITE then write_io (io_command DISK_COMMAND_WRITE)
           else kpanic); k) Q d.
Proof.
  intros Hph [Hop Hb] HQ. apply wp_bind, wp_modify, wp_bind, wp_modify. cbn [dk_io].
  destruct (hw_set_tsector (dk_io d) (block x)) as (Hs1 & Hp1 & Ht1 & _). set (h1 := io_tsector (block x) (dk_io d)) in *.
  destruct (hw_set_dmaaddr h1 (buf x)) as (Hs2 & Hp2 & Ht2 & Ha2). set (h2 := io_dmaaddr (buf x) h1) in *.
  assert (Hs : hw_same (dk_io d) h2) by (by eapply same_trans). assert (Hblocks : hw_blocks h2 = hw_blocks (dk_io d)) by apply Hs.
  destruct (hw_start h2 (operation x)) as [Hs3 Hp3]; [congruence|rewrite Ht2, Ht1, Hblocks; done|done|]. rewrite Ht2, Ht1, Ha2 in Hp3.
  apply wp_bind. destruct Hop as [Hop|Hop]; rewrite Hop in *; cbn [Z.eqb GBD_OPERATION_READ GBD_OPERATION_WRITE Pos.eqb] in *;
    apply wp_modify, HQ; try done; by eapply same_trans.
Qed.

Lemma disk_next_request_run l d (Q : unit -> state -> Prop) :
  hw_phase (dk_io d) = Ready -> request_served d = 0 -> queued d (request_queue d) l ->
  (forall r x, r ∈ l -> requests d !! r = Some x -> valid_request (dk_io d) x) ->
  (l = [] -> Q tt d) ->
  (forall r q x h', l = r :: q -> requests d !! r = Some x -> hw_same (dk_io d) h' -> hw_phase h' = Busy (operation x) (block x) (buf x) ->
     Q tt (with_io h' (with_served r (put_request r (with_next 0 x) (with_queue (next x) d))))) ->
  wp disk_next_request Q d.
Proof.
  intros Hph Hs Hq Hvalid Hnil Hcons. unfold disk_next_request.
  assert (Hfree : DISK_STATUS_RBUSY (io_status (dk_io d)) = 0 /\ DISK_STATUS_WBUSY (io_status (dk_io d)) = 0).
  { unfold DISK_STATUS_RBUSY, DISK_STATUS_WBUSY. by rewrite !status_bits, Hph by done. }
  destruct Hfree as [H1 H2]. apply wp_bind, wp_gets, wp_bind. rewrite H1. cbn [Z.eqb negb]. apply wp_gets.
  apply wp_bind, wp_kassert; [by rewrite H2|]. apply wp_bind, wp_gets. unfold id. apply wp_bind, wp_kassert; [by rewrite Hs|].
  destruct (Z.eqb_spec (request_queue d) 0) as [H0|H0].
  { apply wp_ret, Hnil. by apply (queued_head _ _ _ Hq). }
  destruct l as [|r q]; [by destruct H0; apply (queued_head _ _ _ Hq)|]. pose proof Hq as ([Hr _] & _ & Hl). rewrite Hr in *.
  destruct (Hl r) as [_ [x Hx]]; [by left|]. apply wp_bind, (wp_get_request r x); [done|].
  apply wp_bind, wp_modify, wp_bind, (wp_upd_request r _ x); [done|]. apply wp_bind, wp_modify.
  set (d3 := with_served r (put_request r (with_next 0 x) (with_queue (next x) d))).
  apply (start_run x d3); [done|apply (Hvalid r x); [by left|done]|]. intros h' Hs' Hp'.
  apply wp_bind, wp_gets. cbn [dk_io with_io].
  assert (DISK_STATUS_ERRORS (io_status h') = 0) as ->.
  { unfold DISK_STATUS_ERRORS. rewrite status_bits by done. rewrite Hp'. cbn [phase_bits]. by destruct (operation x =? GBD_OPERATION_READ). }
  cbn [Z.eqb negb]. apply wp_ret. by apply (Hcons r q x h').
Qed.

Definition ended (h : H) : bool := match hw_phase h with Finished _ => true | _ => false end.

(** ** The driver at work

    The driver serves the requests [l], first come first served: the disk works
    on the first, or has finished it and interrupts. *)
Definition sem_of d r : option Z := requests d !! r ≫= sem.
Record serves d l : Prop := {
  sv_cpu : is_u32 (status (dk_cpu d)) /\ slock d ∉ held (dk_cpu d);
  sv_queue : queued d (request_queue d) (tail l);
  sv_nodup : NoDup l;
  sv_head : match l with
    | [] => request_served d = 0 /\ hw_phase (dk_io d) = Ready
    | r :: _ => request_served d = r /\ exists x, requests d !! r = Some x /\
        (hw_phase (dk_io d) = Busy (operation x) (block x) (buf x) \/ hw_phase (dk_io d) = Finished (operation x)) end;
  sv_requests r : r ∈ l -> r <> 0 /\ exists x i, requests d !! r = Some x /\ valid_request (dk_io d) x /\ sem x = Some i /\
    sem_val (dk_sems d) i = Some 0 /\ return_value x = -1;
  sv_sems : sem_inv (dk_sems d);
  sv_own r r' : r ∈ l -> r' ∈ l -> sem_of d r = sem_of d r' -> r = r'
}.
(** The request is as it was, but for its place in the queue. *)
Definition kept d d' r : Prop := with_next 0 <$> requests d' !! r = with_next 0 <$> requests d !! r.

Lemma kept_valid d d' r x : kept d d' r -> requests d !! r = Some x -> exists y, requests d' !! r = Some y /\
  block y = block x /\ buf y = buf x /\ sem y = sem x /\ operation y = operation x /\ return_value y = return_value x.
Proof.
  unfold kept. intros Hk Hx. rewrite Hx in Hk. destruct (requests d' !! r) as [y|]; [|done]. injection Hk as ? ? ? ? ? ?. exists y. split_and!; done.
Qed.
Lemma valid_same (h h' : H) x : hw_blocks h' = hw_blocks h -> valid_request h x -> valid_request h' x.
Proof. intros Hb [? ?]. split; [done|by rewrite Hb]. Qed.

(** The disk finishes the transfer. *)
Lemma serves_complete d r q x :
  serves d (r :: q) -> requests d !! r = Some x -> hw_phase (dk_io d) = Busy (operation x) (block x) (buf x) ->
  let d' := with_io (hw_complete (dk_io d)) d in serves d' (r :: q) /\ hw_phase (dk_io d') = Finished (operation x).
Proof.
  intros [Hc Hq Hn Hh Hr Hs Ho] Hx Hp d'. destruct (Hr r) as (_ & x' & i & Hx' & [Hop _] & _); [by left|].
  rewrite Hx in Hx'. injection Hx' as <-.
  assert (Hfin : hw_phase (dk_io d') = Finished (operation x) /\ hw_blocks (dk_io d') = hw_blocks (dk_io d)).
  { destruct Hop as [Hop|Hop]; rewrite Hop in *; [destruct (hw_read_done _ _ _ Hp) as (? & ? & _)|destruct (hw_write_done _ _ _ Hp) as (? & ? & _)]; done. }
  destruct Hfin as [Hf Hb]. split; [|done]. split; try done.
  - destruct Hh as [Hsv _]. split; [exact Hsv|]. exists x. split; [exact Hx|]. by right.
  - intros r' Hr'. destruct (Hr r' Hr') as (H0 & y & j & Hy & Hv & Hj). split; [done|]. exists y, j. split; [done|]. split; [by eapply valid_same|done].
Qed.

Lemma no_irq d : (forall op, hw_phase (dk_io d) <> Finished op) ->
  DISK_STATUS_RIRQ (io_status (dk_io d)) = 0 /\ DISK_STATUS_WIRQ (io_status (dk_io d)) = 0.
Proof.
  intros Hno. unfold DISK_STATUS_RIRQ, DISK_STATUS_WIRQ. rewrite !status_bits by done.
  destruct (hw_phase (dk_io d)) as [|op ? ?|op]; [done| |by destruct (Hno op)]. cbn. by destruct (op =? GBD_OPERATION_READ).
Qed.
Lemma an_irq d op : hw_phase (dk_io d) = Finished op ->
  (DISK_STATUS_RIRQ (io_status (dk_io d)) =? 0) && (DISK_STATUS_WIRQ (io_status (dk_io d)) =? 0) = false.
Proof.
  intros Hp. unfold DISK_STATUS_RIRQ, DISK_STATUS_WIRQ. rewrite !status_bits by done. rewrite Hp. cbn.
  by destruct (op =? GBD_OPERATION_READ).
Qed.

(** The state in which the handler starts the next request. *)
Lemma finished_run d d1 r q x i y h :
  serves d (r :: q) -> requests d !! r = Some x -> sem x = Some i -> hw_same (dk_io d) h -> hw_phase h = Ready ->
  (sem_inv y /\ forall j, sem_val y j = if j =? i then Some 1 else sem_val (dk_sems d) j) ->
  d1 = with_served 0 (with_sems y (put_request r (with_return_value 0 x) (with_io h (with_cpu (dk_cpu d1) d)))) ->
  wp disk_next_request (fun _ d' => dk_cpu d' = dk_cpu d1 /\ slock d' = slock d /\ (hw_same (dk_io d) (dk_io d') /\ ended (dk_io d') = false) /\ dk_sems d' = y /\
    (forall c, is_u32 (status c) /\ slock d ∉ held c -> serves (with_cpu c d') q) /\
    (forall r', r' <> r -> kept d d' r') /\ exists z, requests d' !! r = Some z /\ return_value z = 0 /\ sem z = Some i) d1.
Proof.
  intros [Hc Hq Hn Hh Hr Hs Ho] Hx Hi Hsame Hph [Hinv Hval] ->. apply NoDup_cons in Hn as [Hrq Hn]. cbn [tail] in Hq.
  set (d1' := with_served _ _). set (x' := with_return_value 0 x).
  assert (Hreq1 : forall r', r' <> r -> requests d1' !! r' = requests d !! r') by (intros r' Hne; cbn; by rewrite lookup_insert_ne).
  assert (Hq1 : queued d1' (request_queue d1') q) by exact (queued_put d _ q r x' Hq Hrq).
  assert (Hsem1 : forall r', r' ∈ q -> exists z j, requests d !! r' = Some z /\ valid_request (dk_io d) z /\ sem z = Some j /\ j <> i /\
    sem_val (dk_sems d) j = Some 0 /\ return_value z = -1 /\ r' <> 0 /\ r' <> r).
  { intros r' Hr'. destruct (Hr r') as (H0 & z & j & Hz & Hv & Hj & Hsv & Hrv); [by right|]. exists z, j. split; [done|]. split; [done|]. split; [done|].
    assert (Hne : r' <> r) by (by intros ->). split; [|done]. intros ->. apply Hne, Ho; [by right|by left|]. unfold sem_of. rewrite Hz, Hx. cbn. congruence. }
  apply (disk_next_request_run q); [exact Hph|done|exact Hq1| | |].
  - intros r' z Hr' Hz. destruct (Hsem1 r' Hr') as (z' & j & Hz' & Hv & _ & _ & _ & _ & _ & Hne). rewrite Hreq1, Hz' in Hz by done.
    injection Hz as <-. eapply valid_same; [apply Hsame|done].
  - intros ->. split; [done|]. split; [done|]. split; [split; [done|by unfold ended; cbn; rewrite Hph]|]. split; [done|]. split; [|split].
    + intros c Hcc. split; try done; [by intros ? ?%elem_of_nil|by intros ? ? ?%elem_of_nil].
    + intros r' Hne. unfold kept. by rewrite Hreq1.
    + exists x'. split; [apply lookup_insert_eq|done].
  - intros r2 q2 x2 h' -> Hx2 Hsame2 Hp2. destruct (Hsem1 r2) as (z2 & j2 & Hz2 & Hv2 & Hj2 & Hne2 & Hsv2 & Hrv2 & H02 & Hr2); [by left|].
    rewrite Hreq1, Hz2 in Hx2 by done. injection Hx2 as <-. set (d2 := with_io h' _).
    assert (Hreq2 : forall r', r' <> r -> r' <> r2 -> requests d2 !! r' = requests d !! r') by (intros r' ? ?; cbn; by rewrite !lookup_insert_ne).
    assert (Hreq22 : requests d2 !! r2 = Some (with_next 0 z2)) by (cbn; by rewrite lookup_insert_eq).
    assert (Hall : hw_same (dk_io d) h') by (by eapply same_trans).
    assert (Hq2 : queued d2 (request_queue d2) q2).
    { pose proof Hq1 as (_ & [Hr2q2 _]%NoDup_cons & _). pose proof (queued_tail _ _ _ ltac:(destruct Hq1 as ([-> ?] & ? & ?); by split)) as Ht.
      assert (Hnx : nxt d1' r2 = next z2) by (unfold nxt; by rewrite Hreq1, Hz2). rewrite Hnx in Ht. exact (queued_put d1' _ q2 r2 _ Ht Hr2q2). }
    split; [done|]. split; [done|]. split; [split; [done|by unfold ended; cbn; rewrite Hp2]|]. split; [done|]. split; [|split].
    + intros c Hcc. split; try done.
      * cbn. split; [done|]. exists (with_next 0 z2). split; [exact Hreq22|by left].
      * intros r' Hr'. destruct (Hsem1 r' Hr') as (z & j & Hz & Hv & Hj & Hne & Hsv & Hrv & H0 & Hnr). split; [done|].
        assert (Hj' : sem_val (dk_sems (with_cpu c d2)) j = Some 0) by (cbn; rewrite Hval; by rewrite (proj2 (Z.eqb_neq j i) Hne)).
        destruct (decide (r' = r2)) as [->|Hr2'].
        { exists (with_next 0 z2), j2. split; [exact Hreq22|]. split; [eapply (valid_same (dk_io d)); [apply Hall|done]|]. split; [done|]. split; [|done].
          cbn. rewrite Hval. by rewrite (proj2 (Z.eqb_neq j2 i) Hne2). }
        exists z, j. split; [by rewrite <- Hz; apply Hreq2|]. split; [eapply (valid_same (dk_io d)); [apply Hall|done]|done].
      * assert (Hso : forall r', r' ∈ r2 :: q2 -> sem_of (with_cpu c d2) r' = sem_of d r').
        { intros r' Hr'. destruct (Hsem1 r' Hr') as (z & j & Hz & _ & _ & _ & _ & _ & _ & Hnr). unfold sem_of. change (requests (with_cpu c d2)) with (requests d2).
          destruct (decide (r' = r2)) as [->|]; [by rewrite Hreq22, Hz2|by rewrite Hreq2]. }
        intros r1 r3 Hr1 Hr3. rewrite !Hso by done. apply Ho; by right.
    + intros r' Hne. unfold kept. destruct (decide (r' = r2)) as [->|]; [by rewrite Hreq22, Hz2|by rewrite Hreq2].
    + exists x'. cbn. rewrite lookup_insert_ne by done. split; [apply lookup_insert_eq|done].
Qed.

(** What the handler has done when the disk had finished [r]. *)
Definition served d d' r : Prop :=
  (hw_same (dk_io d) (dk_io d') /\ ended (dk_io d') = false) /\ slock d' = slock d /\ dk_cpu d' = dk_cpu d /\
  (forall j, sem_val (dk_sems d') j = if decide (sem_of d r = Some j) then Some 1 else sem_val (dk_sems d) j) /\
  (forall r', r' <> r -> kept d d' r') /\ exists z, requests d' !! r = Some z /\ return_value z = 0 /\ sem z = sem_of d r.

Lemma held_back (c : cpu) (l : Z) : l ∉ held c -> mk_cpu (status c) (({[l]} ∪ held c) ∖ {[l]}) = c.
Proof. intros Hl. rewrite held_release by done. by destruct c. Qed.

Lemma disk_interrupt_run d l :
  serves d l ->
  wp disk_interrupt_handle (fun _ d' => match l, hw_phase (dk_io d) with
    | r :: q, Finished _ => serves d' q /\ served d d' r
    | _, _ => d' = d end) d.
Proof.
  intros Hserves. pose proof Hserves as [[Hst Hfree] Hq Hn Hh Hr Hs Ho]. unfold disk_interrupt_handle.
  apply wp_bind, wp_gets. unfold id. apply wp_bind, wp_acquire; [done|]. set (c1 := mk_cpu (status (cpu_of d)) ({[slock d]} ∪ held (cpu_of d))). set (d1 := with_cpu c1 d).
  apply wp_bind, wp_gets, wp_bind. change (dk_io d1) with (dk_io d).
  assert (Hrel : forall d2, dk_cpu d2 = c1 -> wp (spinlock_release (slock d)) (fun _ d' => d' = with_cpu (dk_cpu d) d2) d2).
  { intros d2 Hc. apply wp_release. cbn [cpu_of HasCpu_driver]. rewrite Hc. unfold c1. cbn [status held cpu_of HasCpu_driver]. by rewrite held_back. }
  destruct (hw_phase (dk_io d)) as [|op b a|op] eqn:Ep.
  1,2: destruct (no_irq d ltac:(by rewrite Ep)) as [H1 H2]; rewrite H1; cbn [Z.eqb negb]; apply wp_gets;
    change (dk_io d1) with (dk_io d); rewrite H2; cbn [Z.eqb andb]; apply wp_bind, wp_ret;
    (eapply wp_mono; [by apply Hrel|]); intros _ d' ->; destruct l, d; done.
  apply (wp_mono _ (fun ws d' => d' = d1 /\ (DISK_STATUS_RIRQ (io_status (dk_io d)) =? 0) && (DISK_STATUS_WIRQ ws =? 0) = false)).
  { pose proof (an_irq d op Ep) as Hirq. destruct (DISK_STATUS_RIRQ (io_status (dk_io d)) =? 0) eqn:E; cbn [negb]; [apply wp_gets|apply wp_ret]; by split. }
  intros ws ? [-> ->]. destruct l as [|r q]; [by destruct Hh|]. destruct Hh as [Hserved (x & Hx & Hph)].
  destruct (hw_reset (dk_io d) op Ep) as [Hsame Hready]. destruct (Hr r) as (Hr0 & x' & i & Hx' & Hv & Hi & Hsv & Hrv); [by left|].
  rewrite Hx in Hx'. injection Hx' as <-.
  apply wp_bind, wp_bind, wp_modify, wp_bind, wp_modify, wp_bind, wp_gets. unfold id. cbn [request_served with_cpu HasCpu_driver d1].
  rewrite Hserved. apply wp_bind, wp_kassert; [by rewrite (proj2 (Z.eqb_neq r 0))|].
  apply wp_bind, (wp_upd_request r _ x); [done|]. apply wp_bind, (wp_get_request r (with_return_value 0 x)); [apply lookup_insert_eq|].
  cbn [sem with_return_value]. rewrite Hi. apply wp_bind, wp_on_sems. cbn [dk_sems put_request with_cpu HasCpu_driver d1].
  eapply wp_mono; [apply (sem_V_spec (dk_sems d) i 0 Hs Hsv); lia|]. intros _ y [Hinv Hval].
  apply wp_bind, wp_modify. set (h := io_command DISK_COMMAND_RIRQ (io_command DISK_COMMAND_WIRQ (dk_io d))) in *.
  eapply wp_mono; [apply (finished_run d _ r q x i y h Hserves Hx Hi Hsame Hready); [by split|reflexivity]|].
  intros [] d2 (Hc2 & Hl2 & Hs2 & Hy2 & Hsrv & Hkept & Hz). eapply wp_mono; [by apply Hrel|]. intros [] d' ->. split; [by apply Hsrv|].
  split; [done|]. split; [done|]. split; [done|]. unfold sem_of.
  split; [|split; [done|destruct Hz as (z & ? & ? & ?); exists z; split; [done|split; [done|by rewrite Hx; cbn; congruence]]]].
  intros j. cbn [dk_sems with_cpu HasCpu_driver]. rewrite Hy2, Hval. rewrite Hx. cbn. rewrite Hi. destruct (Z.eqb_spec j i) as [->|]; [by rewrite decide_True|by rewrite decide_False by congruence].
Qed.

Lemma kept_of d d' r y : requests d' !! r = requests d !! r \/
  (exists z, requests d !! r = Some z /\ requests d' !! r = Some (with_next y z)) -> kept d d' r.
Proof. unfold kept. intros [->|(z & -> & ->)]; done. Qed.
Lemma serves_kept d d' r : kept d d' r ->
  forall h, hw_blocks h = hw_blocks (dk_io d) ->
  (exists x i, requests d !! r = Some x /\ valid_request (dk_io d) x /\ sem x = Some i /\ sem_val (dk_sems d) i = Some 0 /\ return_value x = -1) ->
  exists x i, requests d' !! r = Some x /\ valid_request h x /\ sem x = Some i /\ sem_val (dk_sems d) i = Some 0 /\ return_value x = -1.
Proof.
  intros Hk h Hb (x & i & Hx & [Hop Hbl] & Hi & Hs & Hrv). destruct (kept_valid d d' r x Hk Hx) as (y & Hy & Ebl & Ebu & Ese & Eop & Erv).
  exists y, i. unfold valid_request. rewrite Ebl, Eop, Ese, Erv, Hb. done.
Qed.
Lemma kept_sem d d' r : kept d d' r -> sem_of d' r = sem_of d r.
Proof.
  unfold kept, sem_of. destruct (requests d' !! r) as [y|], (requests d !! r) as [x|]; cbn; try done. by intros [= ? ? ? ? ? ?].
Qed.

(** Under the spinlock: the request is queued, and started when the disk is
    idle. *)
Lemma enqueue_run d l r x i :
  serves d l -> requests d !! r = Some x -> r <> 0 -> r ∉ l -> valid_request (dk_io d) x -> next x = 0 -> return_value x = -1 ->
  sem x = Some i -> sem_val (dk_sems d) i = Some 0 -> (forall r', r' ∈ l -> sem_of d r' <> Some i) ->
  wp (critical (slock d) (_ ← disksched_schedule r; d ← gets id; if request_served d =? 0 then disk_next_request else mret tt))
    (fun _ d' => serves d' (l ++ [r]) /\ dk_cpu d' = dk_cpu d /\ (hw_same (dk_io d) (dk_io d') /\ ended (dk_io d') = ended (dk_io d)) /\ dk_sems d' = dk_sems d /\
       slock d' = slock d /\ forall r', kept d d' r') d.
Proof.
  intros [[Hst Hfree] Hq Hn Hh Hr Hs Ho] Hx H0 Hrl Hv Hnx Hrv Hi Hsv Hother.
  assert (Hrq : r ∉ tail l) by (intros Hin; apply Hrl; destruct l; [done|by right]).
  apply wp_critical; [done|done|]. set (d0 := with_cpu (inside (slock d) d) d).
  assert (Hreq0 : requests d0 = requests d) by done.
  (* from the requests of [l] to those of [l ++ [r]] *)
  assert (Hfinal : forall d2, dk_cpu d2 = dk_cpu d -> slock d2 = slock d -> dk_sems d2 = dk_sems d -> hw_same (dk_io d) (dk_io d2) ->
    (forall r', kept d d2 r') -> queued d2 (request_queue d2) (tail (l ++ [r])) ->
    match l ++ [r] with
    | [] => request_served d2 = 0 /\ hw_phase (dk_io d2) = Ready
    | r :: _ => request_served d2 = r /\ exists x, requests d2 !! r = Some x /\
        (hw_phase (dk_io d2) = Busy (operation x) (block x) (buf x) \/ hw_phase (dk_io d2) = Finished (operation x)) end ->
    serves d2 (l ++ [r])).
  { intros d2 Hc Hl2 Hs2 Hsame Hk Hq2 Hh2. split; [by rewrite Hc, Hl2|done| |done| |by rewrite Hs2|].
    - apply NoDup_app. split; [done|]. split; [|by apply NoDup_singleton]. by intros r' Hr' ->%list_elem_of_singleton.
    - intros r' Hr'. rewrite Hs2. apply elem_of_app in Hr' as [Hr'| ->%list_elem_of_singleton].
      + destruct (Hr r' Hr') as (? & Hex). split; [done|]. by apply (serves_kept d d2 r' (Hk r')); [apply Hsame|].
      + split; [done|]. apply (serves_kept d d2 r (Hk r)); [apply Hsame|]. by exists x, i.
    - intros r1 r2 Hr1 Hr2. rewrite !(kept_sem d d2) by done. assert (Hsr : sem_of d r = Some i) by (unfold sem_of; by rewrite Hx).
      apply elem_of_app in Hr1 as [Hr1| ->%list_elem_of_singleton]; apply elem_of_app in Hr2 as [Hr2| ->%list_elem_of_singleton]; [by apply Ho| | |done].
      + rewrite Hsr. intros He. by destruct (Hother r1 Hr1).
      + rewrite Hsr. intros He. by destruct (Hother r2 Hr2). }
  assert (Hq0 : queued d0 (request_queue d0) (tail l)) by exact Hq.
  apply wp_bind, (disksched_schedule_run r x (tail l)); [exact Hq0|exact Hx|done|done|done|].
  intros d1 Hl1 Hsv1 Hio1 Hs1 Hc1 Hq1 Hreq1. assert (Hk1 : forall r', kept d d1 r').
  { intros r'. apply (kept_of d d1 r' r). destruct (Hreq1 r') as [?|(y & ? & _ & ?)]; [by left|right; by exists y]. }
  apply wp_bind, wp_gets. unfold id. destruct l as [|r0 q].
  - destruct Hh as [Hserved Hready]. change (request_served d0) with (request_served d) in Hsv1. rewrite Hsv1, Hserved. cbn [Z.eqb tail app] in *.
    assert (Hx1 : requests d1 !! r = Some x) by (destruct (Hreq1 r) as [->|(_ & _ & Hin%elem_of_nil & _)]; done).
    apply (disk_next_request_run [r]); [by rewrite Hio1|by rewrite Hsv1|done| |done|].
    + intros r' z ->%list_elem_of_singleton Hz. rewrite Hx1 in Hz. injection Hz as <-. by rewrite Hio1.
    + intros r' q' z h' [= <- <-] Hz Hsame Hbusy. rewrite Hx1 in Hz. injection Hz as <-. rewrite Hio1 in Hsame.
      split; [exact Hc1|]. set (d2 := with_cpu _ _). assert (Hk2 : forall r', kept d d2 r').
      { intros r'. apply (kept_of d d2 r' 0). cbn. destruct (decide (r' = r)) as [->|Hne]; [right; exists x; by rewrite lookup_insert_eq|left].
        rewrite lookup_insert_ne by done. by destruct (Hreq1 r') as [->|(_ & _ & Hin%elem_of_nil & _)]. }
      split; [|split; [done|]; split; [split; [done|]|split; [exact Hs1|split; [exact Hl1|exact Hk2]]]];
        [|unfold ended; cbn; by rewrite Hbusy, Hready].
      apply Hfinal; [done|exact Hl1|exact Hs1|done|exact Hk2| |].
      * cbn [tail request_queue d2 with_cpu HasCpu_driver with_io with_served put_request with_queue]. rewrite Hnx. split; [done|]. split; [by constructor|]. by intros ? ?%elem_of_nil.
      * split; [done|]. exists (with_next 0 x). split; [apply lookup_insert_eq|by left].
  - destruct Hh as [Hserved (y & Hy & Hph)]. change (request_served d0) with (request_served d) in Hsv1. rewrite Hsv1, Hserved.
    destruct (Hr r0) as [Hr00 _]; [by left|]. rewrite (proj2 (Z.eqb_neq r0 0) Hr00). apply wp_ret. split; [exact Hc1|].
    assert (Hsame1 : hw_same (dk_io d) (dk_io d1)) by (rewrite Hio1; apply same_refl).
    split; [|split; [done|]; split; [split; [exact Hsame1|exact (f_equal ended Hio1)]|split; [exact Hs1|split; [exact Hl1|exact Hk1]]]]. apply Hfinal; [done|exact Hl1|exact Hs1|exact Hsame1|exact Hk1|exact Hq1|].
    cbn [app]. split; [cbn; by rewrite Hsv1|]. apply NoDup_cons in Hn as [Hr0q _].
    destruct (Hreq1 r0) as [He|(_ & _ & Hin & _)]; [|done]. exists y. change (requests (with_cpu (cpu_of d) d1)) with (requests d1).
    rewrite He. split; [exact Hy|]. change (dk_io (with_cpu (cpu_of d) d1)) with (dk_io d1). by rewrite Hio1.
Qed.

(** ** Submitting *)
Definition filled (op : Z) x : gbd_request_t := submitted (with_operation op x).

Lemma serves_put d l r x : serves d l -> r ∉ l -> serves (put_request r x d) l.
Proof.
  intros [Hc Hq Hn Hh Hr Hs Ho] Hrl. assert (Hreq : forall r', r' ∈ l -> requests (put_request r x d) !! r' = requests d !! r').
  { intros r' Hr'. cbn. rewrite lookup_insert_ne; [done|]. by intros ->. }
  split; try done.
  - apply queued_put; [done|]. intros Hin. apply Hrl. destruct l; [done|by right].
  - destruct l as [|r0 q]; [done|]. destruct Hh as [Hsv (y & Hy & Hph)]. split; [done|]. exists y. by rewrite Hreq by by left.
  - intros r' Hr'. destruct (Hr r' Hr') as (? & y & i & Hy & ?). split; [done|]. exists y, i. by rewrite Hreq.
  - intros r1 r2 H1 H2. unfold sem_of. rewrite !Hreq by done. by apply Ho.
Qed.
Lemma serves_sems d l y : serves d l -> sem_inv y ->
  (forall r i, r ∈ l -> sem_of d r = Some i -> sem_val y i = sem_val (dk_sems d) i) -> serves (with_sems y d) l.
Proof.
  intros [Hc Hq Hn Hh Hr Hs Ho] Hinv Hval. split; try done.
  intros r Hin. destruct (Hr r Hin) as (? & x & i & Hx & Hv & Hi & Hsv & ?). split; [done|]. exists x, i. split; [done|]. split; [done|]. split; [done|].
  split; [|done]. cbn. rewrite (Hval r i Hin); [done|]. unfold sem_of. by rewrite Hx.
Qed.

(** The request is in its place and has a semaphore: it goes to the queue. *)
Lemma submit_queue d l r x i op :
  serves d l -> requests d !! r = Some (filled op x) -> r <> 0 -> r ∉ l -> valid_request (dk_io d) (filled op x) ->
  sem x = Some i -> sem_val (dk_sems d) i = Some 0 -> (forall r', r' ∈ l -> sem_of d r' <> Some i) ->
  wp (critical (slock d) (_ ← disksched_schedule r; d ← gets id; if request_served d =? 0 then disk_next_request else mret tt))
    (fun _ d' => serves d' (l ++ [r]) /\ dk_cpu d' = dk_cpu d /\ (hw_same (dk_io d) (dk_io d') /\ ended (dk_io d') = ended (dk_io d)) /\
       dk_sems d' = dk_sems d /\ slock d' = slock d /\ forall r', kept d d' r') d.
Proof. intros Hs Hx H0 Hrl Hv Hi Hsv Ho. by apply (enqueue_run d l r (filled op x) i). Qed.

(** A request that has a semaphore is submitted without waiting. *)
Lemma submit_async_run d l r x i op :
  serves d l -> requests d !! r = Some x -> r <> 0 -> r ∉ l -> valid_request (dk_io d) (with_operation op x) ->
  sem x = Some i -> sem_val (dk_sems d) i = Some 0 -> (forall r', r' ∈ l -> sem_of d r' <> Some i) ->
  wp (_ ← upd_request r (with_operation op); disk_submit_request r) (fun a d' => a = 1 /\
    serves d' (l ++ [r]) /\ dk_cpu d' = dk_cpu d /\ (hw_same (dk_io d) (dk_io d') /\ ended (dk_io d') = ended (dk_io d)) /\
    dk_sems d' = dk_sems d /\ slock d' = slock d /\ (forall r', r' <> r -> kept d d' r') /\
    with_next 0 <$> requests d' !! r = Some (filled op x)) d.
Proof.
  intros Hs Hx H0 Hrl Hv Hi Hsv Ho. apply wp_bind, (wp_upd_request r _ x); [done|]. unfold disk_submit_request, disk_submit_begin.
  apply wp_bind, wp_bind, (wp_upd_request r _ (with_operation op x)); [apply lookup_insert_eq|].
  set (d1 := put_request r _ _). assert (Hd1 : d1 = put_request r (filled op x) d) by (unfold d1, put_request; cbn; by rewrite insert_insert_eq).
  rewrite Hd1. clear d1 Hd1. set (d1 := put_request r (filled op x) d). assert (Hx1 : requests d1 !! r = Some (filled op x)) by apply lookup_insert_eq.
  assert (Hk1 : forall r', r' <> r -> requests d1 !! r' = requests d !! r') by (intros r' Hne; cbn; by rewrite lookup_insert_ne).
  apply wp_bind, (wp_get_request r (filled op x)); [done|]. change (sem (filled op x)) with (sem x). rewrite Hi.
  apply wp_bind, wp_ret. cbn [negb]. apply wp_bind, wp_gets, wp_bind.
  eapply wp_mono; [apply (submit_queue d1 l r x i op); try done; [by apply serves_put|]|].
  { intros r' Hr'. unfold sem_of. rewrite Hk1 by (by intros ->). by apply Ho. }
  intros _ d' (Hs' & Hc' & Hio' & Hy' & Hl' & Hk'). apply wp_ret, wp_ret. split; [done|]. split; [done|]. split; [done|]. split; [done|]. split; [done|].
  split; [done|]. split; [|by rewrite (Hk' r), Hx1]. intros r' Hne. unfold kept. by rewrite (Hk' r'), Hk1.
Qed.

(** A request without one gets a semaphore of its own. *)
Lemma submit_begin_run d l r x op :
  serves d l -> requests d !! r = Some x -> r <> 0 -> r ∉ l -> valid_request (dk_io d) (with_operation op x) -> sem x = None ->
  wp (_ ← upd_request r (with_operation op); disk_submit_begin r) (fun a d' =>
    dk_cpu d' = dk_cpu d /\ slock d' = slock d /\ hw_same (dk_io d) (dk_io d') /\ ended (dk_io d') = ended (dk_io d) /\
    (forall r', r' <> r -> kept d d' r') /\
    match a with
    | None => exists i, serves d' (l ++ [r]) /\ sem_val (dk_sems d) i = None /\
        (forall j, sem_val (dk_sems d') j = if j =? i then Some 0 else sem_val (dk_sems d) j) /\
        with_next 0 <$> requests d' !! r = Some (with_sem (Some i) (filled op x))
    | Some b => b = 0 /\ serves d' l /\ dk_io d' = dk_io d /\ (forall i, sem_slot (S := S) i -> sem_val (dk_sems d) i <> None) /\
        (forall j, sem_val (dk_sems d') j = sem_val (dk_sems d) j) /\ requests d' !! r = Some (filled op x) end) d.
Proof.
  intros Hs Hx H0 Hrl Hv Hi. apply wp_bind, (wp_upd_request r _ x); [done|]. unfold disk_submit_begin.
  apply wp_bind, (wp_upd_request r _ (with_operation op x)); [apply lookup_insert_eq|].
  set (d1 := put_request r _ _). assert (Hd1 : d1 = put_request r (filled op x) d) by (unfold d1, put_request; cbn; by rewrite insert_insert_eq).
  rewrite Hd1. clear d1 Hd1. set (d1 := put_request r (filled op x) d). assert (Hx1 : requests d1 !! r = Some (filled op x)) by apply lookup_insert_eq.
  assert (Hk1 : forall r', r' <> r -> requests d1 !! r' = requests d !! r') by (intros r' Hne; cbn; by rewrite lookup_insert_ne).
  assert (Hs1 : serves d1 l) by by apply serves_put.
  apply wp_bind, (wp_get_request r (filled op x)); [done|]. change (sem (filled op x)) with (sem x). rewrite Hi.
  apply wp_bind, wp_bind, wp_on_sems. change (dk_sems d1) with (dk_sems d).
  pose proof (sv_sems _ _ Hs) as Hinv.
  eapply wp_mono; [apply wp_and; [by apply (sem_create_spec (dk_sems d) 0)|by apply (sem_create_slot (dk_sems d) 0)]|].
  intros o y [[Hy Hval] Hslot]. apply wp_bind, (wp_upd_request r _ (filled op x)); [exact Hx1|].
  set (d2 := put_request r _ (with_sems y d1)).
  assert (Hd2 : forall r', r' <> r -> requests d2 !! r' = requests d !! r') by (intros r' Hne; cbn; by rewrite !lookup_insert_ne).
  assert (Hs2 : serves d2 l).
  { apply serves_put; [|done]. apply serves_sems; [done|done|]. intros r' j Hr' Hj. change (dk_sems d1) with (dk_sems d).
    destruct (sv_requests _ _ Hs1 r' Hr') as (_ & z & j' & Hz & _ & Hj' & Hzero & _). unfold sem_of in Hj. rewrite Hz in Hj. cbn in Hj.
    assert (j' = j) as -> by congruence. change (dk_sems d1) with (dk_sems d) in Hzero. destruct o as [i|]; [|by apply Hval].
    destruct Hval as [Hnone ->]. by rewrite (proj2 (Z.eqb_neq j i)) by congruence. }
  apply wp_ret. destruct o as [i|]; cbn [negb].
  - destruct Hval as [Hnone Hval]. apply wp_bind, wp_gets, wp_bind.
    eapply wp_mono; [apply (submit_queue d2 l r (with_sem (Some i) x) i op); try done; [apply lookup_insert_eq|cbn; by rewrite Hval, Z.eqb_refl|]|].
    { intros r' Hr' Hse. destruct (sv_requests _ _ Hs r' Hr') as (_ & z & j & Hz & _ & Hj & Hzero & _). unfold sem_of in Hse.
      rewrite Hd2, Hz in Hse by (by intros ->). cbn in Hse. congruence. }
    intros [] d' (Hs' & Hc' & [Hio' Hend] & Hy' & Hl' & Hk'). apply wp_ret. split; [done|]. split; [done|]. split; [done|]. split; [done|].
    split. { intros r' Hne. unfold kept. by rewrite (Hk' r'), Hd2. }
    exists i. split; [done|]. split; [done|]. split; [intros j; rewrite Hy'; apply Hval|]. rewrite (Hk' r). cbn. by rewrite lookup_insert_eq.
  - apply wp_ret. split; [done|]. split; [done|]. split; [done|]. split; [done|].
    split. { intros r' Hne. unfold kept. by rewrite Hd2. }
    split; [done|]. split; [done|]. split; [done|]. split; [done|]. split; [done|]. cbn. rewrite lookup_insert_eq.
    destruct x. cbn in Hi. by rewrite Hi.
Qed.

(** The caller goes on when its request has been finished. *)
Lemma submit_end_run d l r z i :
  serves d l -> requests d !! r = Some z -> r ∉ l -> sem z = Some i -> sem_val (dk_sems d) i = Some 1 ->
  wp (disk_submit_end r) (fun a d' => a = (if return_value z =? 0 then 1 else 0) /\ serves d' l /\ dk_io d' = dk_io d /\ dk_cpu d' = dk_cpu d /\
    (forall j, sem_val (dk_sems d') j = if j =? i then None else sem_val (dk_sems d) j) /\
    requests d' = <[r := with_sem None z]> (requests d)) d.
Proof.
  intros Hs Hz Hrl Hi Hv. unfold disk_submit_end. apply wp_bind, (wp_get_request r z); [done|]. rewrite Hi.
  pose proof (sv_sems _ _ Hs) as Hinv.
  apply wp_bind, wp_on_sems. eapply wp_mono; [by apply (sem_P_spec (dk_sems d) i 1)|]. intros [] y [Hy Hval].
  assert (Hi0 : sem_val y i = Some 0) by (by rewrite Hval, Z.eqb_refl).
  apply wp_bind, wp_on_sems. cbn [dk_sems with_sems]. eapply wp_mono; [by apply (sem_destroy_spec y i 0)|]. intros [] y2 [Hy2 Hval2].
  apply wp_bind, (wp_upd_request r _ z); [done|]. apply wp_bind, (wp_get_request r (with_sem None z)); [apply lookup_insert_eq|].
  assert (Hall : forall j, sem_val y2 j = if j =? i then None else sem_val (dk_sems d) j) by (intros j; rewrite Hval2, Hval; by destruct (j =? i)).
  apply wp_ret. split; [done|]. split; [|done]. apply serves_put; [|done]. apply (serves_sems d); [done|done|].
  intros r' j Hr' Hj. destruct (sv_requests _ _ Hs r' Hr') as (_ & z' & j' & Hz' & _ & Hj' & Hzero & _). unfold sem_of in Hj. rewrite Hz' in Hj.
  assert (j' = j) as -> by (cbn in Hj; congruence). rewrite Hall. by rewrite (proj2 (Z.eqb_neq j i)) by congruence.
Qed.

(** ** The size of the disk, and the start *)
Lemma ask_run c d (Q : Z -> state -> Prop) :
  is_u32 (status (dk_cpu d)) -> slock d ∉ held (dk_cpu d) ->
  Q (io_data (io_command c (dk_io d))) (with_io (io_command c (dk_io d)) d) -> wp (ask c) Q d.
Proof.
  intros Hst Hfree HQ. unfold ask. apply wp_bind, wp_gets. unfold id. apply wp_critical; [done|done|].
  apply wp_bind, wp_modify, wp_gets. split; [done|]. by destruct d.
Qed.
(** The driver answers what the disk says, and goes on with its requests. *)
Lemma serves_ask d l h : serves d l -> hw_same (dk_io d) h -> hw_phase h = hw_phase (dk_io d) -> serves (with_io h d) l.
Proof.
  intros [Hc Hq Hn Hh Hr Hs Ho] Hsame Hp. split; try done.
  - cbn. by rewrite Hp.
  - intros r Hin. destruct (Hr r Hin) as (? & x & i & Hx & Hv & ?). split; [done|]. exists x, i. split; [done|].
    split; [eapply valid_same; [apply Hsame|done]|done].
Qed.
Lemma disk_total_blocks_run d l : serves d l ->
  wp disk_total_blocks (fun a d' => a = hw_blocks (dk_io d) /\ serves d' l) d.
Proof.
  intros Hs. destruct (hw_ask (dk_io d)) as (Hsame & Hp & Ha). apply ask_run; try apply (sv_cpu _ _ Hs). split; [done|]. by apply serves_ask.
Qed.
Lemma disk_block_size_run d l : serves d l ->
  wp disk_block_size (fun a d' => a = hw_blocksize (dk_io d) /\ serves d' l) d.
Proof.
  intros Hs. destruct (hw_ask_size (dk_io d)) as (Hsame & Hp & Ha). apply ask_run; try apply (sv_cpu _ _ Hs). split; [done|]. by apply serves_ask.
Qed.
Lemma disk_init_serves lock io (y : S) (c : cpu) :
  is_u32 (status c) -> hw_phase io = Ready -> sem_inv y -> serves (disk_init_real lock io y c) [].
Proof.
  intros Hst Hp Hinv. split; [split; [done|cbn; set_solver]| |constructor|done| |done|]; [|by intros ? ?%elem_of_nil|by intros ? ? ?%elem_of_nil].
  split; [done|]. split; [constructor|]. by intros ? ?%elem_of_nil.
Qed.
End disk.
