(* ===== verification/DiskTheorems.v ===== *)
(** * The disk driver serves requests first come, first served

    The abstract specification is a queue of requests with the contents of the
    sectors and of the buffers in memory; a transfer happens at the head of the
    queue.  The driver, the disk and its interrupts implement it. *)
From S2P Require Import Prelude Cpu Chain Waiting Thread Sleepq Semaphore Sync Disk.

(** ** The specification *)
Record disk_spec := mk_spec {
  pending : list (Z * gbd_request_t);
  head_ended : bool;                    (** the transfer of the first is done *)
  answered : list Z;                    (** in the order in which they were *)
  sectors : Z -> list Z;
  memory : Z -> list Z
}.

Definition transfer (x : gbd_request_t) (a : disk_spec) : disk_spec :=
  if operation x =? GBD_OPERATION_READ then
    mk_spec (pending a) true (answered a) (sectors a) (fun b => if b =? buf x then sectors a (block x) else memory a b)
  else mk_spec (pending a) true (answered a) (fun c => if c =? block x then memory a (buf x) else sectors a c) (memory a).

(** A client submits a request, the disk ends a transfer, the processor takes
    the interrupt of the disk. *)
Inductive disk_event := Submit (r op : Z) | Complete | Interrupt.
Definition spec_step (X : Z -> gbd_request_t) (a : disk_spec) (e : disk_event) : disk_spec :=
  match e with
  | Submit r op => mk_spec (pending a ++ [(r, filled op (X r))]) (head_ended a) (answered a) (sectors a) (memory a)
  | Complete => match pending a with (_, x) :: _ => if head_ended a then a else transfer x a | [] => a end
  | Interrupt => match pending a with
    | (r, _) :: q => if head_ended a then mk_spec q false (answered a ++ [r]) (sectors a) (memory a) else a
    | [] => a end
  end.
Definition run_spec (X : Z -> gbd_request_t) (es : list disk_event) (a : disk_spec) : disk_spec := foldl (spec_step X) a es.

(** ** The system *)
Section system.
Context {H S : Type} `{DH : !DiskHardware H, SM : !Semaphores S}.
Abbreviation state := (driver H S).
Implicit Types (d : state) (a : disk_spec).

Definition disk_completes : M state unit :=
  modify (fun d => match hw_phase (dk_io d) with Busy _ _ _ => with_io (hw_complete (dk_io d)) d | _ => d end).
Definition run_event (e : disk_event) : M state unit :=
  match e with
  | Submit r op =>
      x ← (if op =? GBD_OPERATION_READ then disk_read_block r else disk_write_block r);
      kassert (x =? 1)
  | Complete => disk_completes
  | Interrupt => disk_interrupt_handle
  end.
Fixpoint run_events (es : list disk_event) : M state unit :=
  match es with [] => mret tt | e :: es => _ ← run_event e; run_events es end.

(** A caller that waits: the disk and its interrupt handler go on until its
    request is answered. *)
Definition request_waits (r op : Z) (n : nat) : M state Z :=
  x ← (_ ← upd_request r (with_operation op); disk_submit_begin r);
  match x with
  | Some x => mret x
  | None => _ ← run_events (mjoin (replicate n [Complete; Interrupt])); disk_submit_end r
  end.
End system.

Section refinement.
Context {H S : Type} `{DH : !DiskHardware H, SM : !Semaphores S}.
Abbreviation state := (driver H S).
Implicit Types (d : state) (a : disk_spec) (l todo : list Z) (r : Z) (x : gbd_request_t).

(** The buffers that requests use: they do not overlap. *)
Context (bufs : list Z) (size blocks : Z) (X : Z -> gbd_request_t).
Definition apart : Prop := forall b b', b ∈ bufs -> b' ∈ bufs -> b <> b' -> size <= Z.abs (b - b').

(** A request that a client has filled in and not submitted, and one that has
    been answered. *)
Definition seen d r : option gbd_request_t := with_next 0 <$> requests d !! r.
Definition ready_to_submit d r : Prop :=
  r <> 0 /\ seen d r = Some (with_next 0 (X r)) /\ 0 <= block (X r) < blocks /\ buf (X r) ∈ bufs /\
  exists i, sem (X r) = Some i /\ sem_val (dk_sems d) i = Some 0.
Definition is_answered d r : Prop :=
  exists x i, seen d r = Some x /\ return_value x = 0 /\ sem x = Some i /\ sem_val (dk_sems d) i = Some 1.

Record implements d a todo : Prop := {
  im_serves : serves d (pending a).*1;
  im_pending r x : (r, x) ∈ pending a -> seen d r = Some x /\ buf x ∈ bufs;
  im_ended : head_ended a = ended (dk_io d);
  im_size : hw_blocks (dk_io d) = blocks /\ hw_blocksize (dk_io d) = size;
  im_sectors c : hw_sector (dk_io d) c = sectors a c;
  im_memory b : b ∈ bufs -> hw_memory (dk_io d) b = memory a b;
  im_todo r : r ∈ todo -> ready_to_submit d r;
  im_answered r : r ∈ answered a -> is_answered d r;
  im_nodup : NoDup (todo ++ (pending a).*1 ++ answered a);
  im_own r r' : r ∈ todo ++ (pending a).*1 ++ answered a -> r' ∈ todo ++ (pending a).*1 ++ answered a ->
    sem_of d r = sem_of d r' -> r = r'
}.

Lemma seen_kept d d' r : kept d d' r -> seen d' r = seen d r.
Proof. done. Qed.
Lemma seen_sem d r x : seen d r = Some x -> sem_of d r = sem x.
Proof. unfold seen, sem_of. destruct (requests d !! r) as [y|]; [|done]. by intros [= <-]. Qed.
Lemma ready_kept d d' r : ready_to_submit d r -> kept d d' r ->
  (forall i, sem_of d r = Some i -> sem_val (dk_sems d') i = sem_val (dk_sems d) i) -> ready_to_submit d' r.
Proof.
  intros (H0 & Hx & Hb & Hbuf & i & Hi & Hv) Hk Hs. split; [done|]. rewrite (seen_kept d d' r Hk). split; [done|]. split; [done|]. split; [done|].
  exists i. split; [done|]. rewrite Hs; [done|]. by rewrite (seen_sem d r _ Hx).
Qed.
Lemma answered_kept d d' r : is_answered d r -> kept d d' r ->
  (forall i, sem_of d r = Some i -> sem_val (dk_sems d') i = sem_val (dk_sems d) i) -> is_answered d' r.
Proof.
  intros (x & i & Hx & Hrv & Hi & Hv) Hk Hs. exists x, i. rewrite (seen_kept d d' r Hk). split; [done|]. split; [done|]. split; [done|].
  rewrite Hs; [done|]. by rewrite (seen_sem d r _ Hx).
Qed.
Lemma sem_of_kept_list d d' l r : (forall r, r ∈ l -> sem_of d' r = sem_of d r) ->
  (forall r r', r ∈ l -> r' ∈ l -> sem_of d r = sem_of d r' -> r = r') ->
  forall r r', r ∈ l -> r' ∈ l -> sem_of d' r = sem_of d' r' -> r = r'.
Proof. intros Hk Ho r1 r2 H1 H2. rewrite !Hk by done. by apply Ho. Qed.

(** ** The steps *)
Lemma run_submit_eq r op : op = GBD_OPERATION_READ \/ op = GBD_OPERATION_WRITE ->
  (if op =? GBD_OPERATION_READ then disk_read_block r else disk_write_block r) =
  (_ ← upd_request r (with_operation op); disk_submit_request (H := H) (S := S) r).
Proof. by intros [-> | ->]. Qed.

Lemma submit_implements d a r todo op :
  implements d a (r :: todo) -> op = GBD_OPERATION_READ \/ op = GBD_OPERATION_WRITE ->
  wp (run_event (Submit r op)) (fun _ d' => implements d' (spec_step X a (Submit r op)) todo) d.
Proof.
  intros [Hs Hp He [Hb Hsz] Hsec Hm Ht Ha Hnd Ho] Hop. destruct (Ht r) as (H0 & Hx & Hbl & Hbuf & i & Hi & Hv); [by left|].
  unfold seen in Hx. destruct (requests d !! r) as [x|] eqn:Er; [|done]. injection Hx as Ebl Ebu Ese Eop Ein Erv.
  assert (Hperm : (r :: todo) ++ (pending a).*1 ++ answered a ≡ₚ todo ++ ((pending a).*1 ++ [r]) ++ answered a).
  { rewrite <- (assoc_L (++)). cbn. by rewrite <- Permutation_middle, <- Permutation_middle. }
  assert (Hfilled : filled op x = filled op (X r)) by (unfold filled, submitted, with_operation; cbn; congruence).
  assert (Hsr : sem_of d r = Some i) by (unfold sem_of; rewrite Er; cbn; congruence).
  assert (Hne : forall r', r' ∈ todo ++ (pending a).*1 ++ answered a -> r' <> r).
  { intros r' Hr' ->. cbn [app] in Hnd. by apply NoDup_cons in Hnd as [Hr _]. }
  cbn [run_event]. rewrite run_submit_eq by done. apply wp_bind.
  eapply wp_mono; [apply (submit_async_run d (pending a).*1 r x i op); try done|].
  - intros Hin. apply (Hne r); [|done]. apply elem_of_app. right. apply elem_of_app. by left.
  - split; [done|]. cbn. rewrite Ebl. rewrite Hb. done.
  - congruence.
  - intros r' Hr' Heq. apply (Hne r'); [apply elem_of_app; right; apply elem_of_app; by left|]. apply Ho; [right; apply elem_of_app; right; apply elem_of_app; by left|by left|congruence].
  - intros n d' (-> & Hs' & Hc' & [(Hb' & Hsz' & Hsec' & Hm') He'] & Hy' & Hl' & Hk' & Hr'). apply wp_kassert; [done|].
    assert (Hso : forall r', sem_of d' r' = sem_of d r').
    { intros r'. destruct (decide (r' = r)) as [->|Hn]; [|by apply kept_sem, Hk'].
      rewrite Hsr. rewrite (seen_sem d' r _ Hr'). cbn. congruence. }
    split.
    + cbn. by rewrite fmap_app.
    + cbn. intros r' z [Hin| [= -> ->]%list_elem_of_singleton]%elem_of_app.
      * rewrite (seen_kept d d' r'); [by apply Hp|]. apply Hk', Hne. apply elem_of_app. right. apply elem_of_app. left.
        apply list_elem_of_fmap. by exists (r', z).
      * split; [unfold seen; by rewrite Hr', Hfilled|done].
    + cbn. by rewrite He'.
    + split; congruence.
    + intros c. by rewrite Hsec'.
    + intros b Hin. rewrite Hm'. by apply Hm.
    + intros r' Hin. apply (ready_kept d d'); [apply Ht; by right|apply Hk', Hne, elem_of_app; by left|]. by rewrite Hy'.
    + intros r' Hin. apply (answered_kept d d'); [by apply Ha|apply Hk', Hne, elem_of_app; right; apply elem_of_app; by right|]. by rewrite Hy'.
    + cbn. rewrite fmap_app. cbn. by rewrite <- Hperm.
    + cbn. rewrite fmap_app. cbn. intros r1 r2. rewrite <- Hperm, !Hso. apply Ho.
Qed.

(** The disk ends the transfer of the first request. *)
Lemma complete_implements d a todo :
  apart -> implements d a todo ->
  wp disk_completes (fun _ d' => implements d' (spec_step X a Complete) todo) d.
Proof.
  intros Hapart Him. pose proof Him as [Hs Hp He [Hb Hsz] Hsec Hm Ht Ha Hnd Ho]. apply wp_modify. cbn [spec_step].
  destruct (pending a) as [|[r x] q] eqn:Eq.
  { destruct (sv_head _ _ Hs) as [_ Hph]. cbn in Hph. by rewrite Hph. }
  cbn [fmap list_fmap fst] in Hs. destruct (sv_head _ _ Hs) as [_ (z & Hz & Hph)].
  destruct Hph as [Hph|Hph]; rewrite Hph; unfold ended in He; rewrite Hph in He; rewrite He; [|done].
  destruct (Hp r x) as [Hx Hbuf]; [by left|]. unfold seen in Hx. rewrite Hz in Hx. cbn in Hx. injection Hx as Hx. subst x.
  destruct (serves_complete d r q.*1 z Hs Hz Hph) as [Hs' Hend]. destruct (sv_requests _ _ Hs r) as (_ & z' & i & Hz' & [Hop _] & _); [by left|].
  rewrite Hz in Hz'. injection Hz' as <-. set (d' := with_io (hw_complete (dk_io d)) d).
  assert (Hpend : pending (transfer (with_next 0 z) a) = pending a /\ answered (transfer (with_next 0 z) a) = answered a /\ head_ended (transfer (with_next 0 z) a) = true).
  { unfold transfer. by destruct (operation _ =? _). }
  destruct Hpend as (E1 & E2 & E3).
  assert (Hdata : hw_blocks (dk_io d') = hw_blocks (dk_io d) /\ hw_blocksize (dk_io d') = hw_blocksize (dk_io d) /\
    (forall c, hw_sector (dk_io d') c = sectors (transfer (with_next 0 z) a) c) /\
    (forall b, b ∈ bufs -> hw_memory (dk_io d') b = memory (transfer (with_next 0 z) a) b)).
  { unfold transfer. destruct Hop as [Hop|Hop]; rewrite Hop in Hph; change (operation (with_next 0 z)) with (operation z); rewrite Hop.
    - destruct (hw_read_done _ _ _ Hph) as (_ & ? & ? & Hs1 & Hm1 & Hm2). split; [done|]. split; [done|]. split; cbn.
      + intros c. by rewrite Hs1.
      + intros b Hin. destruct (Z.eqb_spec b (buf z)) as [->|Hn]; [by rewrite Hm1|]. rewrite Hm2; [by apply Hm|]. rewrite Hsz. by apply Hapart.
    - destruct (hw_write_done _ _ _ Hph) as (_ & ? & ? & Hs1 & Hm1). split; [done|]. split; [done|]. split; cbn.
      + intros c. rewrite Hs1. destruct (c =? block z); [by apply Hm|done].
      + intros b Hin. rewrite Hm1. by apply Hm. }
  destruct Hdata as (Hb' & Hsz' & Hsec' & Hm'). split; rewrite ?E1, ?E2, ?E3, ?Eq; try done.
  - exact (eq_sym (f_equal (fun p => match p with Finished _ => true | _ => false end) Hend)).
  - rewrite Hb', Hsz'. by split.
Qed.

(** The handler answers the first request. *)
Lemma interrupt_implements d a todo :
  implements d a todo ->
  wp disk_interrupt_handle (fun _ d' => implements d' (spec_step X a Interrupt) todo) d.
Proof.
  intros Him. pose proof Him as [Hs Hp He [Hb Hsz] Hsec Hm Ht Ha Hnd Ho]. eapply wp_mono; [by apply (disk_interrupt_run d (pending a).*1)|].
  intros [] d'. cbn [spec_step]. destruct (pending a) as [|[r x] q] eqn:Eq; cbn [fmap list_fmap fst]; [by intros ->|].
  unfold ended in He. destruct (hw_phase (dk_io d)) as [| |op]; rewrite He; [by intros ->|by intros ->|]. cbn [fmap list_fmap fst] in *.
  intros (Hs' & [(Hb' & Hsz' & Hsec' & Hm') He'] & Hl' & Hc' & Hv' & Hk' & z & Hz & Hrv & Hsz2).
  assert (Hperm : todo ++ (r :: q.*1) ++ answered a ≡ₚ todo ++ q.*1 ++ (answered a ++ [r])).
  { f_equiv. cbn. rewrite (assoc_L (++)). apply Permutation_cons_append. }
  destruct (sv_requests _ _ Hs r) as (_ & y & i & Hy & _ & Hi & Hv & _); [by left|].
  assert (Hsr : sem_of d r = Some i) by (unfold sem_of; by rewrite Hy).
  destruct (Hp r x) as [Hx _]; [by left|].
  assert (Hmem : forall r', r' ∈ q.*1 \/ r' ∈ todo \/ r' ∈ answered a -> r' <> r /\ r' ∈ todo ++ (r :: q.*1) ++ answered a).
  { intros r' Hr'. assert (Hin : r' ∈ todo ++ q.*1 ++ answered a) by (rewrite !elem_of_app; tauto). split.
    - intros ->. assert (Hq : NoDup (r :: todo ++ q.*1 ++ answered a)) by (rewrite Permutation_middle; done). by apply NoDup_cons in Hq as [? _].
    - rewrite !elem_of_app, elem_of_cons in *. tauto. }
  assert (Hr_in : r ∈ todo ++ (r :: q.*1) ++ answered a) by (rewrite !elem_of_app, elem_of_cons; tauto).
  assert (Hother : forall r', r' <> r -> r' ∈ todo ++ (r :: q.*1) ++ answered a -> forall j, sem_of d r' = Some j -> sem_val (dk_sems d') j = sem_val (dk_sems d) j).
  { intros r' Hn Hin j Hj. rewrite Hv', decide_False; [done|]. intros Heq. apply Hn, Ho; [done|done|congruence]. }
  split; cbn [pending head_ended answered sectors memory].
  - exact Hs'.
  - intros r' x' Hin. destruct (Hmem r') as [Hn _]; [left; apply list_elem_of_fmap; by exists (r', x')|]. rewrite (seen_kept d d' r' (Hk' r' Hn)). apply Hp. by right.
  - by rewrite He'.
  - split; congruence.
  - intros c. by rewrite Hsec'.
  - intros b Hin. rewrite Hm'. by apply Hm.
  - intros r' Hin. destruct (Hmem r') as [Hn Hin']; [tauto|]. by apply (ready_kept d d'); [apply Ht|apply Hk'|apply Hother].
  - intros r' [Hin| ->%list_elem_of_singleton]%elem_of_app.
    + destruct (Hmem r') as [Hn Hin']; [tauto|]. by apply (answered_kept d d'); [apply Ha|apply Hk'|apply Hother].
    + exists (with_next 0 z), i. unfold seen. rewrite Hz. split; [done|]. split; [done|].
      split; [cbn; congruence|]. rewrite Hv'. by rewrite decide_True.
  - by rewrite <- Hperm.
  - assert (Hso : forall r', sem_of d' r' = sem_of d r').
    { intros r'. destruct (decide (r' = r)) as [->|Hn]; [|by apply kept_sem, Hk']. unfold sem_of at 1. by rewrite Hz. }
    intros r1 r2. rewrite <- Hperm, !Hso. apply Ho.
Qed.

Definition submits (es : list disk_event) : list Z := omap (fun e => match e with Submit r _ => Some r | _ => None end) es.
Definition known_operations (es : list disk_event) : Prop :=
  Forall (fun e => match e with Submit _ op => op = GBD_OPERATION_READ \/ op = GBD_OPERATION_WRITE | _ => True end) es.

Lemma run_events_run es d a :
  apart -> known_operations es -> implements d a (submits es) ->
  wp (run_events es) (fun _ d' => implements d' (run_spec X es a) []) d.
Proof.
  intros Hapart. revert d a. induction es as [|e es IH]; intros d a Hops Him; [by apply wp_ret|].
  apply Forall_cons in Hops as [Hop Hops]. cbn [run_events run_spec foldl]. apply wp_bind.
  apply (wp_mono _ (fun _ d' => implements d' (spec_step X a e) (submits es))); [|intros [] d' Hd'; by apply IH].
  destruct e as [r op| |]; [by apply submit_implements|by apply complete_implements|by apply interrupt_implements].
Qed.

(** As often as there are requests, the disk ends a transfer and interrupts. *)
Definition turns (n : nat) : list disk_event := mjoin (replicate n [Complete; Interrupt]).
Lemma turns_spec n a : (length (pending a) <= n)%nat -> (head_ended a = true -> pending a <> []) ->
  let a' := run_spec X (turns n) a in
  pending a' = [] /\ head_ended a' = false /\ answered a' = answered a ++ (pending a).*1.
Proof.
  revert a. induction n as [|n IH]; intros [[|[r x] q] he an se me] Hn He; cbn in Hn, He; try lia.
  - cbn. rewrite app_nil_r. destruct he; [by destruct (He eq_refl)|done].
  - assert (he = false) as -> by (destruct he; [by destruct (He eq_refl)|done]). apply (IH (mk_spec [] false an se me)); [cbn; lia|done].
  - change (run_spec X (turns (Datatypes.S n)) ?b) with (run_spec X (turns n) (spec_step X (spec_step X b Complete) Interrupt)).
    assert (Hstep : exists se' me', spec_step X (spec_step X (mk_spec ((r, x) :: q) he an se me) Complete) Interrupt = mk_spec q false (an ++ [r]) se' me').
    { destruct he; cbn; [by exists se, me|]. unfold transfer. destruct (_ =? _); by eexists _, _. }
    destruct Hstep as (se' & me' & ->). destruct (IH (mk_spec q false (an ++ [r]) se' me')) as (? & ? & Han); [cbn; lia|done|].
    split; [done|]. split; [done|]. rewrite Han. cbn. by rewrite <- (assoc_L (++)).
Qed.
Lemma turns_submits n : submits (turns n) = [] /\ known_operations (turns n).
Proof. induction n as [|n [IH1 IH2]]; [by split; [|constructor]|]. split; [exact IH1|]. by apply Forall_cons; split; [|apply Forall_cons]. Qed.
Lemma ended_pending d a todo : implements d a todo -> head_ended a = true -> pending a <> [].
Proof.
  intros Him He Hp. destruct (im_serves _ _ _ Him) as [_ _ _ Hh _ _ _]. rewrite Hp in Hh. destruct Hh as [_ Hph].
  rewrite (im_ended _ _ _ Him) in He. unfold ended in He. by rewrite Hph in He.
Qed.

(** ** What the driver guarantees *)

(** Claim C17. Whatever the order in which clients submit requests, the disk ends
    transfers and the processor takes interrupts, the driver implements the
    specification: it never panics, works on the requests first come, first
    served, moves the data of each request between its sector and its buffer
    and nothing else, answers a request by storing 0 and raising its
    semaphore once, and keeps the answers in order. *)
Theorem disk_first_come d a es :
  apart -> known_operations es -> implements d a (submits es) ->
  wp (run_events es) (fun _ d' => implements d' (run_spec X es a) []) d.
Proof. apply run_events_run. Qed.

(** Claim C18. Every request that the driver has is answered when the disk goes on
    ending transfers and interrupting: as many turns as there are requests
    are enough, whatever the disk was doing. *)
Theorem disk_answers_all d a :
  apart -> implements d a [] ->
  wp (run_events (turns (length (pending a)))) (fun _ d' =>
    serves d' [] /\ request_queue d' = 0 /\ hw_phase (dk_io d') = Ready /\
    forall r x, (r, x) ∈ pending a -> is_answered d' r) d.
Proof.
  intros Hapart Him. destruct (turns_submits (length (pending a))) as [Hsub Hops].
  destruct (turns_spec (length (pending a)) a ltac:(lia) (ended_pending _ _ _ Him)) as (Hp & Hhe & Han).
  eapply wp_mono; [apply (run_events_run _ d a); [done|done|by rewrite Hsub]|].
  intros [] d' Him'. pose proof (im_serves _ _ _ Him') as Hs. rewrite Hp in Hs. split; [exact Hs|].
  split; [by apply (queued_head _ _ _ (sv_queue _ _ Hs))|]. split; [apply (sv_head _ _ Hs)|].
  intros r x Hin. apply (im_answered _ _ _ Him'). rewrite Han. apply elem_of_app. right. apply list_elem_of_fmap. by exists (r, x).
Qed.
End refinement.

(** ** A call that waits *)
Section waiting.
Context {H S : Type} `{DH : !DiskHardware H, SM : !Semaphores S}.
Abbreviation state := (driver H S).
Implicit Types (d : state) (r : Z) (x : gbd_request_t).

(** What the transfer of [x] does to the sectors and to a buffer. *)
Definition moved (op : Z) x (h h' : H) : Prop :=
  hw_blocks h' = hw_blocks h /\ hw_blocksize h' = hw_blocksize h /\
  if op =? GBD_OPERATION_READ then
    (forall c, hw_sector h' c = hw_sector h c) /\ hw_memory h' (buf x) = hw_sector h (block x) /\
    forall b, hw_blocksize h <= Z.abs (b - buf x) -> hw_memory h' b = hw_memory h b
  else (forall c, hw_sector h' c = if c =? block x then hw_memory h (buf x) else hw_sector h c) /\ forall b, hw_memory h' b = hw_memory h b.

Lemma moved_complete op x (h h1 h2 : H) :
  op = GBD_OPERATION_READ \/ op = GBD_OPERATION_WRITE -> hw_same h h1 -> hw_phase h1 = Busy op (block x) (buf x) -> hw_same (hw_complete h1) h2 ->
  moved op x h h2.
Proof.
  intros Hop (Hb & Hsz & Hs & Hm) Hph (Hb2 & Hsz2 & Hs2 & Hm2). unfold moved. destruct Hop as [-> | ->]; cbn [Z.eqb GBD_OPERATION_READ GBD_OPERATION_WRITE].
  - destruct (hw_read_done _ _ _ Hph) as (_ & Hb1 & Hsz1 & Hs1 & Hm1 & Hm1'). split; [congruence|]. split; [congruence|].
    split; [intros c; congruence|]. split; [congruence|]. intros b Hfar. rewrite Hm2, Hm1' by congruence. done.
  - destruct (hw_write_done _ _ _ Hph) as (_ & Hb1 & Hsz1 & Hs1 & Hm1). split; [congruence|]. split; [congruence|].
    split; [|intros b; congruence]. intros c. rewrite Hs2, Hs1. destruct (c =? block x); congruence.
Qed.

Definition free_semaphore d : Prop := exists i, sem_slot (S := S) i /\ sem_val (dk_sems d) i = None.

Lemma request_waits_run d r x op :
  serves d [] -> requests d !! r = Some x -> r <> 0 -> valid_request (dk_io d) (with_operation op x) -> sem x = None -> free_semaphore d ->
  wp (request_waits r op 1) (fun a d' => a = 1 /\ serves d' [] /\ free_semaphore d' /\ dk_cpu d' = dk_cpu d /\
    (forall r', r' <> r -> kept d d' r') /\ moved op x (dk_io d) (dk_io d')) d.
Proof.
  intros Hs Hx H0 Hv Hi (j & Hj & Hfree). pose proof Hv as [Hop Hb]. unfold request_waits. apply wp_bind.
  eapply wp_mono; [apply (submit_begin_run d [] r x op); try done; apply not_elem_of_nil|].
  intros [b|] d1 (Hc1 & Hl1 & Hsame1 & He1 & Hk1 & H1); [destruct H1 as (_ & _ & _ & Hfull & _); by destruct (Hfull j Hj)|].
  destruct H1 as (i & Hs1 & Hi0 & Hval1 & Hr1). cbn [app] in Hs1.
  destruct (sv_head _ _ Hs1) as [_ (z & Hz & Hph)]. rewrite Hz in Hr1. injection Hr1 as Ebl Ebu Ese Eop Ein Erv.
  assert (Hbusy : hw_phase (dk_io d1) = Busy (operation z) (block z) (buf z)).
  { destruct Hph as [Hph|Hph]; [done|]. destruct (sv_head _ _ Hs) as [_ Hready]. unfold ended in He1. by rewrite Hph, Hready in He1. }
  cbn [replicate mjoin list_join app]. cbn [run_events]. apply wp_bind, wp_bind, wp_modify. rewrite Hbusy.
  destruct (serves_complete d1 r [] z Hs1 Hz Hbusy) as [Hs2 Hend]. set (d2 := with_io _ d1) in *.
  apply wp_bind. eapply wp_mono; [by apply (disk_interrupt_run d2 [r])|]. intros [] d3. rewrite Hend.
  intros (Hs3 & [Hsame3 He3] & Hl3 & Hc3 & Hv3 & Hk3 & y & Hy & Hrv & Hsy). apply wp_ret.
  assert (Hsr : sem_of d2 r = Some i) by (unfold sem_of; change (requests d2) with (requests d1); rewrite Hz; cbn; congruence).
  assert (Hvi : sem_val (dk_sems d3) i = Some 1) by (rewrite Hv3; by rewrite decide_True).
  eapply wp_mono; [apply (submit_end_run d3 [] r y i); [done|done|apply not_elem_of_nil|congruence|done]|].
  intros a d4 (-> & Hs4 & Hio4 & Hc4 & Hv4 & Hr4). split; [by rewrite Hrv|]. split; [done|]. split; [|split; [|split]].
  - exists j. split; [done|]. rewrite Hv4. destruct (Z.eqb_spec j i) as [->|Hn]; [done|].
    rewrite Hv3, decide_False by congruence. change (dk_sems d2) with (dk_sems d1). rewrite Hval1. by rewrite (proj2 (Z.eqb_neq j i)).
  - rewrite Hc4, Hc3. exact Hc1.
  - intros r' Hn. unfold kept. rewrite Hr4, lookup_insert_ne by done. rewrite (Hk3 r' Hn). exact (Hk1 r' Hn).
  - rewrite Hio4. eapply (moved_complete op x _ (dk_io d1)); [done|done| |exact Hsame3]. rewrite Hbusy. congruence.
Qed.

(** Claim C21. Writing a buffer to a sector and reading the sector into another
    buffer copies the bytes: both calls answer 1, the only sector that
    changes is the one written, and the driver and its semaphores are ready
    for the next request. *)
Theorem disk_write_read d w r x y :
  serves d [] -> free_semaphore d -> w <> 0 -> r <> 0 -> w <> r ->
  requests d !! w = Some x -> requests d !! r = Some y -> sem x = None -> sem y = None ->
  block y = block x -> 0 <= block x < hw_blocks (dk_io d) ->
  wp (a ← request_waits w GBD_OPERATION_WRITE 1; b ← request_waits r GBD_OPERATION_READ 1; mret (a, b)) (fun ab d' =>
    ab = (1, 1) /\ serves d' [] /\ free_semaphore d' /\ hw_memory (dk_io d') (buf y) = hw_memory (dk_io d) (buf x) /\
    forall c, hw_sector (dk_io d') c = if c =? block x then hw_memory (dk_io d) (buf x) else hw_sector (dk_io d) c) d.
Proof.
  intros Hs Hf Hw Hr Hwr Hx Hy Hix Hiy Hby Hb. apply wp_bind.
  eapply wp_mono; [apply (request_waits_run d w x GBD_OPERATION_WRITE); try done; split; [by right|done]|].
  intros a d1 (-> & Hs1 & Hf1 & _ & Hk1 & Hb1 & _ & Hsec1 & Hm1). apply wp_bind.
  destruct (kept_valid d d1 r y (Hk1 r (not_eq_sym Hwr)) Hy) as (y1 & Hy1 & Ebl & Ebu & Ese & _).
  eapply wp_mono; [apply (request_waits_run d1 r y1 GBD_OPERATION_READ); try done; [split; [by left|cbn; rewrite Ebl, Hby, Hb1; done]|congruence]|].
  intros b d2 (-> & Hs2 & Hf2 & _ & _ & _ & _ & Hsec2 & Hm2 & _). apply wp_ret. split; [done|]. split; [done|]. split; [done|]. split.
  - rewrite <- Ebu, Hm2, Ebl, Hby, Hsec1. by rewrite Z.eqb_refl.
  - intros c. rewrite Hsec2. apply Hsec1.
Qed.
End waiting.

(** ** A disk of four sectors, and four requests *)
Record toy_disk := mk_toy {
  td_phase : disk_phase;
  td_sector : Z;
  td_address : Z;
  td_answer : Z;
  td_sectors : gmap Z (list Z);
  td_memory : gmap Z (list Z)
}.
Definition td_at (m : gmap Z (list Z)) (k : Z) : list Z := default (replicate 512 0) (m !! k).
Definition td_start (op : Z) (h : toy_disk) : toy_disk :=
  match td_phase h with
  | Ready => mk_toy (Busy op (td_sector h) (td_address h)) (td_sector h) (td_address h) (td_answer h) (td_sectors h) (td_memory h)
  | _ => h end.
Definition td_clear (f : Z -> bool) (h : toy_disk) : toy_disk :=
  match td_phase h with
  | Finished op => if f op then mk_toy Ready (td_sector h) (td_address h) (td_answer h) (td_sectors h) (td_memory h) else h
  | _ => h end.
Definition td_tell (x : Z) (h : toy_disk) : toy_disk :=
  mk_toy (td_phase h) (td_sector h) (td_address h) x (td_sectors h) (td_memory h).
Definition td_command (c : Z) (h : toy_disk) : toy_disk :=
  if c =? DISK_COMMAND_READ then td_start GBD_OPERATION_READ h
  else if c =? DISK_COMMAND_WRITE then td_start GBD_OPERATION_WRITE h
  else if c =? DISK_COMMAND_RIRQ then td_clear (fun op => op =? GBD_OPERATION_READ) h
  else if c =? DISK_COMMAND_WIRQ then td_clear (fun op => negb (op =? GBD_OPERATION_READ)) h
  else if c =? DISK_COMMAND_BLOCKS then td_tell 4 h
  else if c =? DISK_COMMAND_BLOCKSIZE then td_tell 512 h
  else h.
Definition td_complete (h : toy_disk) : toy_disk :=
  match td_phase h with
  | Busy op b a =>
      if op =? GBD_OPERATION_READ then mk_toy (Finished op) (td_sector h) (td_address h) (td_answer h) (td_sectors h) (<[a := td_at (td_sectors h) b]> (td_memory h))
      else mk_toy (Finished op) (td_sector h) (td_address h) (td_answer h) (<[b := td_at (td_memory h) a]> (td_sectors h)) (td_memory h)
  | _ => h end.
#[export] Program Instance toy_hardware : DiskHardware toy_disk := {|
  io_status h := phase_bits (td_phase h);
  io_data := td_answer;
  io_command := td_command;
  io_tsector x h := mk_toy (td_phase h) x (td_address h) (td_answer h) (td_sectors h) (td_memory h);
  io_dmaaddr x h := mk_toy (td_phase h) (td_sector h) x (td_answer h) (td_sectors h) (td_memory h);
  hw_complete := td_complete;
  hw_phase := td_phase;
  hw_tsector := td_sector;
  hw_dmaaddr := td_address;
  hw_blocks _ := 4;
  hw_blocksize _ := 512;
  hw_sector h := td_at (td_sectors h);
  hw_memory h := td_at (td_memory h)
|}.
Next Obligation. intros h. unfold phase_bits. destruct (td_phase h) as [|op ? ?|op]; [done|by destruct (op =? GBD_OPERATION_READ)..]. Qed.
Next Obligation. by intros h x. Qed.
Next Obligation. by intros h x. Qed.
Next Obligation. intros h op Hp _ [-> | ->]; cbn; unfold td_command, td_start; cbn; by rewrite Hp. Qed.
Next Obligation.
  intros h op Hp.
  assert (td_command DISK_COMMAND_RIRQ (td_command DISK_COMMAND_WIRQ h) = mk_toy Ready (td_sector h) (td_address h) (td_answer h) (td_sectors h) (td_memory h)) as ->; [|done].
  change (td_clear (fun op => op =? GBD_OPERATION_READ) (td_clear (fun op => negb (op =? GBD_OPERATION_READ)) h) = mk_toy Ready (td_sector h) (td_address h) (td_answer h) (td_sectors h) (td_memory h)).
  destruct h as [p s a r m b]. cbn in Hp. subst p. unfold td_clear. cbn. by destruct (op =? GBD_OPERATION_READ) eqn:E; cbn; rewrite ?E.
Qed.
Next Obligation. by intros h. Qed.
Next Obligation. by intros h. Qed.
Next Obligation.
  intros h b a Hp. cbn. unfold td_complete. rewrite Hp. cbn. split_and!; try done; unfold td_at; cbn.
  - by rewrite lookup_insert_eq.
  - intros a' Ha. rewrite lookup_insert_ne; [done|]. lia.
Qed.
Next Obligation.
  intros h b a Hp. cbn. unfold td_complete. rewrite Hp. cbn. split_and!; try done; unfold td_at; cbn.
  intros c. destruct (Z.eqb_spec c b) as [->|Hn]; [by rewrite lookup_insert_eq|by rewrite lookup_insert_ne].
Qed.

#[local] Existing Instance example_symbols.
#[local] Existing Instance example_layout.

(** Semaphores 2 and 3 belong to two requests; two more have none. *)
Definition disk_sems : over semaphores kernel :=
  mk_over (mk_semaphores (mk_semaphore (-2) 1 :: mk_semaphore 1 1 :: mk_semaphore 0 1 :: mk_semaphore 0 1 ::
    replicate 123 (mk_semaphore 0 (-1)) ++ [mk_semaphore (-1) 1]) 1) waiting_kernel.
Lemma disk_sems_ok : sem_inv disk_sems.
Proof.
  split; [|split; [apply (caller_free_waiting (tab disk_sems))|done]].
  apply checked_sems_ok; [done|vm_check|apply (bool_decide_unpack _); vm_compute; exact I..].
Qed.

Definition a_request (b : Z) (a : Z) (i : option Z) : gbd_request_t := mk_request b a i 0 0 0 0.
Definition four_requests (r : Z) : gbd_request_t :=
  if r =? 1 then a_request 3 4096 (Some 2) else if r =? 2 then a_request 1 8192 (Some 3)
  else if r =? 3 then a_request 3 4096 None else a_request 3 8192 None.
Definition toy_memory : toy_disk := mk_toy Ready 0 0 0 {[1 := replicate 512 7]} {[4096 := replicate 512 9]}.
Definition an_idle_disk : driver toy_disk (over semaphores kernel) :=
  mk_driver 0x80001000 0 0 (list_to_map ((fun r => (r, four_requests r)) <$> [1; 2; 3; 4])) toy_memory disk_sems (mk_cpu 0xff01 ∅).
Definition toy_spec : disk_spec := mk_spec [] false [] (td_at (td_sectors toy_memory)) (td_at (td_memory toy_memory)).

Lemma an_idle_disk_serves : serves an_idle_disk [].
Proof.
  split; [|by split; [|split; [constructor|intros ? ?%elem_of_nil]]|constructor|done|by intros ? ?%elem_of_nil|apply disk_sems_ok|by intros ? ? ?%elem_of_nil].
  split; [vm_check|apply not_elem_of_empty].
Qed.
Lemma an_idle_disk_implements : implements [4096; 8192] 512 4 four_requests an_idle_disk toy_spec [1; 2].
Proof.
  split; try done.
  - apply an_idle_disk_serves.
  - by intros r x ?%elem_of_nil.
  - intros r Hr. assert (r = 1 \/ r = 2) as [-> | ->] by set_solver.
    + split; [done|]. split; [vm_check|]. split; [vm_check|]. split; [by left|]. exists 2. vm_check.
    + split; [done|]. split; [vm_check|]. split; [vm_check|]. split; [right; by left|]. exists 3. vm_check.
  - by intros r ?%elem_of_nil.
  - apply (bool_decide_unpack _). vm_compute. exact I.
  - cbn [app pending fmap list_fmap answered toy_spec]. intros r r' Hr Hr'. assert (r = 1 \/ r = 2) as [-> | ->] by set_solver;
      assert (r' = 1 \/ r' = 2) as [-> | ->] by set_solver; vm_compute; congruence.
Qed.
Lemma two_buffers : apart [4096; 8192] 512.
Proof. intros b b' Hb Hb' Hne. assert (b = 4096 \/ b = 8192) by set_solver. assert (b' = 4096 \/ b' = 8192) by set_solver. lia. Qed.

(** The second request comes before the first is done; an interrupt comes when
    the disk has not finished. *)
Definition some_events : list disk_event :=
  [Submit 1 GBD_OPERATION_WRITE; Interrupt; Submit 2 GBD_OPERATION_READ; Complete; Interrupt; Complete; Interrupt].
Lemma disk_first_come_witness :
  wp (run_events some_events) (fun _ d' => answered (run_spec four_requests some_events toy_spec) = [1; 2] /\
    is_answered d' 1 /\ is_answered d' 2 /\
    hw_sector (dk_io d') 3 = replicate 512 9 /\ hw_memory (dk_io d') 8192 = replicate 512 7) an_idle_disk.
Proof.
  eapply wp_mono; [apply (disk_first_come [4096; 8192] 512 4 four_requests an_idle_disk toy_spec some_events)|].
  - exact two_buffers.
  - repeat (apply Forall_cons_2; [first [exact I|by left|by right]|]). by apply Forall_nil_2.
  - exact an_idle_disk_implements.
  - intros u d' [_ _ _ _ Hsec Hm _ Ha _ _]. split; [reflexivity|]. split; [apply Ha; by left|]. split; [apply Ha; right; by left|].
    rewrite Hsec, Hm by (right; by left). split; reflexivity.
Defined.

(** The first request has been answered by the disk, the second waits. *)
Definition first_events : list disk_event := [Submit 1 GBD_OPERATION_WRITE; Submit 2 GBD_OPERATION_READ; Complete].
Definition a_busy_disk : driver toy_disk (over semaphores kernel) := after (run_events first_events) an_idle_disk.
Lemma a_busy_disk_implements :
  implements [4096; 8192] 512 4 four_requests a_busy_disk (run_spec four_requests first_events toy_spec) [].
Proof.
  assert (Hops : known_operations first_events).
  { repeat (apply Forall_cons_2; [first [exact I|by left|by right]|]). by apply Forall_nil_2. }
  pose proof (run_events_run [4096; 8192] 512 4 four_requests first_events an_idle_disk toy_spec two_buffers Hops an_idle_disk_implements) as Hrun.
  unfold a_busy_disk, after. apply wp_run in Hrun as (u & d' & -> & Hd'). exact Hd'.
Qed.
Lemma disk_answers_all_witness :
  wp (run_events (turns 2)) (fun _ d' => serves d' [] /\ is_answered d' 1 /\ is_answered d' 2) a_busy_disk.
Proof.
  eapply wp_mono; [apply (disk_answers_all [4096; 8192] 512 4 four_requests a_busy_disk (run_spec four_requests first_events toy_spec))|].
  - exact two_buffers.
  - exact a_busy_disk_implements.
  - intros u d' (Hs & _ & _ & Ha). split; [exact Hs|]. split; eapply Ha; [by left|right; by left].
Defined.

Lemma disk_write_read_witness :
  wp (a ← request_waits 3 GBD_OPERATION_WRITE 1; b ← request_waits 4 GBD_OPERATION_READ 1; mret (a, b)) (fun ab d' =>
    ab = (1, 1) /\ serves d' [] /\ hw_memory (dk_io d') 8192 = replicate 512 9) an_idle_disk.
Proof.
  eapply wp_mono; [apply (disk_write_read an_idle_disk 3 4 (a_request 3 4096 None) (a_request 3 8192 None))|].
  - exact an_idle_disk_serves.
  - exists 4. vm_check.
  - discriminate.
  - discriminate.
  - discriminate.
  - reflexivity.
  - reflexivity.
  - reflexivity.
  - reflexivity.
  - reflexivity.
  - vm_check.
  - intros ab d' (-> & Hs & _ & Hm & _). split; [reflexivity|]. split; [exact Hs|]. cbn [buf a_request] in Hm. rewrite Hm. reflexivity.
Defined.
