(* ===== verification/ThreadSys.v ===== *)
(** * What processes use of the kernel

    The interface between proc/ and the threads, locks and condition variables
    of kernel/ and the open files of fs/vfs.c: a process sees the locks as the
    thread that runs it does, and the fields of its thread that belong to it.
    [Kthreads.v] shows that lock_cond.c over the thread table provides the
    first, [Handles.v] that vfs.c provides the second. *)
From S2P Require Import Prelude Libc Cpu.

(** A lock as the calling thread sees it: [Mine] when it holds it once,
    [Taken] when an attempt to acquire it may have to wait or it is held
    more than once. *)
Inductive lock_view := Free | Mine | Taken.

(** A call that has to wait for another thread is [Blocked], except that
    [condition_wait] is cut where it switches to another thread, and
    [condition_wait_resume] is what runs when the thread is chosen again. *)
Class ThreadSys (L : Type) `{!HasCpu L} := {
  lock_create : M L Z;
  condition_create : M L Z;
  lock_acquire : Z -> M L unit;
  lock_release : Z -> M L unit;
  condition_wait : Z -> Z -> M L Z;
  condition_wait_resume : Z -> Z -> M L unit;
  condition_broadcast : Z -> Z -> M L unit;
  thread_get_current_thread : M L Z;
  get_userland_pid : M L Z;               (** of the current thread's entry *)
  set_userland_pid : Z -> M L unit;
  get_pagetable : M L Z;                  (** an address, or 0 *)
  set_pagetable : Z -> M L unit;
  thread_finish : M L unit;

  (** The specification: an invariant, the number of the current thread, the
      fields of its entry, its view of the locks, and whether it may wait. *)
  ts_ok : L -> Prop;
  ts_tid : L -> Z;
  ts_pid : L -> Z;
  ts_table : L -> Z;
  ts_lock : L -> Z -> lock_view;
  ts_can_wait : L -> Prop;
  ts_cond : Z -> Prop;                    (** condition variables there are *)

  ts_cpu c s : ts_ok s -> is_u32 (status c) -> held c = held (cpu_of s) ->
    ts_ok (with_cpu c s) /\ ts_tid (with_cpu c s) = ts_tid s /\ ts_pid (with_cpu c s) = ts_pid s /\
    ts_table (with_cpu c s) = ts_table s /\ ts_lock (with_cpu c s) = ts_lock s;
  ts_can_wait_cpu c s : ts_can_wait (with_cpu c s) <-> ts_can_wait s;
  ts_ready s : ts_ok s -> is_u32 (status (cpu_of s));
  lock_acquire_spec s l : ts_ok s -> ts_lock s l = Free ->
    wp (lock_acquire l) (fun _ s' => ts_ok s' /\ cpu_of s' = cpu_of s /\
      (ts_tid s' = ts_tid s /\ ts_pid s' = ts_pid s /\ ts_table s' = ts_table s) /\
      ts_lock s' l = Mine /\ (forall k, k <> l -> ts_lock s' k = ts_lock s k) /\ (ts_can_wait s -> ts_can_wait s')) s;
  lock_release_spec s l : ts_ok s -> ts_lock s l = Mine ->
    wp (lock_release l) (fun _ s' => ts_ok s' /\ cpu_of s' = cpu_of s /\
      (ts_tid s' = ts_tid s /\ ts_pid s' = ts_pid s /\ ts_table s' = ts_table s) /\
      ts_lock s' l <> Mine /\ forall k, k <> l -> ts_lock s' k = ts_lock s k) s;
  condition_broadcast_spec s c l : ts_ok s -> ts_cond c -> ts_lock s l = Mine ->
    wp (condition_broadcast c l) (fun _ s' => ts_ok s' /\ cpu_of s' = cpu_of s /\
      (ts_tid s' = ts_tid s /\ ts_pid s' = ts_pid s /\ ts_table s' = ts_table s) /\ forall k, ts_lock s' k = ts_lock s k) s;
  (** The caller no longer holds the lock while it waits, and holds it again
      when it goes on. *)
  condition_wait_spec s c l : ts_ok s -> ts_cond c -> ts_can_wait s -> ts_lock s l = Mine ->
    wp (condition_wait c l) (fun _ s' => ts_lock s' l <> Mine) s;
  condition_wait_resume_spec s l st : ts_ok s -> ts_lock s l = Free -> is_u32 st ->
    wp (condition_wait_resume l st) (fun _ s' => ts_ok s' /\
      (ts_tid s' = ts_tid s /\ ts_pid s' = ts_pid s /\ ts_table s' = ts_table s) /\ ts_lock s' l = Mine /\
      (ts_can_wait s -> ts_can_wait s')) s;
  thread_get_spec s (Q : Z -> L -> Prop) : ts_ok s -> Q (ts_tid s) s -> wp thread_get_current_thread Q s;
  get_pid_spec s (Q : Z -> L -> Prop) : ts_ok s -> Q (ts_pid s) s -> wp get_userland_pid Q s;
  get_table_spec s (Q : Z -> L -> Prop) : ts_ok s -> Q (ts_table s) s -> wp get_pagetable Q s;
  set_pid_spec s p : ts_ok s ->
    wp (set_userland_pid p) (fun _ s' => ts_ok s' /\ cpu_of s' = cpu_of s /\
      ts_tid s' = ts_tid s /\ ts_pid s' = p /\ ts_table s' = ts_table s /\ forall k, ts_lock s' k = ts_lock s k) s;
  set_table_spec s p : ts_ok s ->
    wp (set_pagetable p) (fun _ s' => ts_ok s' /\ cpu_of s' = cpu_of s /\
      ts_tid s' = ts_tid s /\ ts_pid s' = ts_pid s /\ ts_table s' = p /\ forall k, ts_lock s' k = ts_lock s k) s;
  (** A thread that finishes has no page table any more. *)
  thread_finish_spec s : ts_ok s -> ts_table s = 0 -> wp thread_finish (fun _ _ => True) s
}.

(** The same locks for callers that no other thread meets: a lock for which no
    thread waits is free again when it is released. *)
Class LoneLocks (L : Type) `{!HasCpu L, !ThreadSys L} := {
  lock_destroy : Z -> M L unit;
  ts_quiet : L -> Z -> Prop;
  lock_acquire_quiet s l : ts_ok s -> ts_lock s l = Free ->
    wp (lock_acquire l) (fun _ s' => forall k, ts_quiet s k -> ts_quiet s' k) s;
  lock_release_quiet s l : ts_ok s -> ts_lock s l = Mine ->
    wp (lock_release l) (fun _ s' => ts_quiet s l -> ts_lock s' l = Free /\ forall k, ts_quiet s k -> ts_quiet s' k) s;
  condition_broadcast_quiet s c l : ts_ok s -> ts_cond c -> ts_lock s l = Mine ->
    wp (condition_broadcast c l) (fun _ s' => forall k, ts_quiet s k -> ts_quiet s' k) s;
  get_tid_quiet : keeps ts_quiet thread_get_current_thread;
  set_pid_quiet p : keeps ts_quiet (set_userland_pid p);
  set_table_quiet p : keeps ts_quiet (set_pagetable p);
  ts_quiet_cpu c s : ts_quiet (with_cpu c s) = ts_quiet s;
  lock_destroy_spec s l : ts_ok s -> ts_lock s l = Free ->
    wp (lock_destroy l) (fun _ s' => ts_ok s' /\ (forall k, ts_lock s' k = ts_lock s k) /\ forall k, ts_quiet s k -> ts_quiet s' k) s
}.

(** A lock that nobody holds or waits for. *)
Definition idle {L} `{LoneLocks L} (y : L) (k : Z) : Prop := ts_lock y k = Free /\ ts_quiet y k.

(** The open files of the virtual file system, with the files open on it. *)
Class OpenFiles (F : Type) := {
  vfs_close : Z -> M F Z;
  of_ok : F -> Prop;
  of_open : F -> Z -> Prop;
  vfs_close_spec s h : of_ok s -> of_open s h ->
    wp (vfs_close h) (fun _ s' => of_ok s' /\ ~ of_open s' h /\ forall k, k <> h -> of_open s' k <-> of_open s k) s
}.

(** The other calls of the virtual file system.  [of_file s h pos b]: the
    handle [h] is open on a file of the bytes [b], at position [pos], which may
    be past the end, and the disk under it answers. *)
Class FileCalls (F : Type) `{!OpenFiles F} := {
  vfs_open : list Z -> M F Z;
  vfs_seek : Z -> Z -> M F Z;
  vfs_read : Z -> list Z -> Z -> M F (Z * list Z);
  vfs_write : Z -> list Z -> Z -> M F Z;
  vfs_create : list Z -> Z -> M F Z;
  vfs_remove : list Z -> M F Z;
  of_file : F -> Z -> Z -> list Z -> Prop;
  of_same (s s' : F) : Prop := forall h, of_open s' h <-> of_open s h;

  of_file_open s h pos b : of_file s h pos b -> of_open s h /\ 0 <= pos < 2147483648 /\ zlen b < 2147483648;
  vfs_open_law s path str : of_ok s -> Forall is_byte path -> cstr path = Some str ->
    wp (vfs_open path) (fun r s' => of_ok s' /\ if r <? 0 then of_same s s' else
      0 < r /\ ~ of_open s r /\ of_open s' r /\ forall k, k <> r -> of_open s' k <-> of_open s k) s;
  vfs_seek_law s h pos pos' b : of_ok s -> of_file s h pos b -> 0 <= pos' < 2147483648 ->
    wp (vfs_seek h pos') (fun r s' => r = VFS_OK /\ of_ok s' /\ of_same s s' /\ of_file s' h pos' b) s;
  vfs_read_past s h pos b buffer n : of_ok s -> of_file s h pos b -> zlen b < pos -> 0 <= n <= zlen buffer ->
    wp (vfs_read h buffer n) (fun a s' => a.1 < 0 /\ of_ok s' /\ of_same s s' /\ of_file s' h pos b) s;
  vfs_read_law s h pos b buffer n : of_ok s -> of_file s h pos b -> pos <= zlen b -> 0 <= n <= zlen buffer ->
    wp (vfs_read h buffer n) (fun a s' => let r := Z.min n (zlen b - pos) in
      a = (r, splice buffer 0 (slice b (Z.to_nat pos) (Z.to_nat r))) /\ of_ok s' /\ of_same s s' /\ of_file s' h (pos + r) b) s;
  vfs_write_law s h pos b buffer n : of_ok s -> of_file s h pos b -> pos <= zlen b -> 0 <= n <= zlen buffer -> Forall is_byte buffer ->
    wp (vfs_write h buffer n) (fun a s' => let r := Z.min n (zlen b - pos) in
      a = r /\ of_ok s' /\ of_same s s' /\ of_file s' h (pos + r) (splice b (Z.to_nat pos) (take (Z.to_nat r) buffer))) s
}.

(** A terminal behind the interface of drivers/gcd.h: the characters typed and
    not yet read, and those written.  Reading waits while nothing is typed. *)
Class Terminal (T : Type) := {
  gcd_read : list Z -> Z -> M T (Z * list Z);
  gcd_write : list Z -> Z -> M T Z;
  tm_ok : T -> Prop;
  tm_typed : T -> list Z;
  tm_written : T -> list Z;
  gcd_read_law s buf n : tm_ok s -> tm_typed s <> [] -> 0 <= n <= zlen buf ->
    wp (gcd_read buf n) (fun a s' => let r := Z.min n (zlen (tm_typed s)) in
      a = (r, splice buf 0 (take (Z.to_nat r) (tm_typed s))) /\ tm_ok s' /\
      tm_typed s' = drop (Z.to_nat r) (tm_typed s) /\ tm_written s' = tm_written s) s;
  gcd_write_law s buf n : tm_ok s -> 0 <= n <= zlen buf -> Forall is_byte buf ->
    wp (gcd_write buf n) (fun a s' => a = n /\ tm_ok s' /\ tm_typed s' = tm_typed s /\
      tm_written s' = tm_written s ++ take (Z.to_nat n) buf) s
}.
