(* ===== verification/Kthreads.v ===== *)
(** * The kernel's threads and locks, as processes use them

    The current thread's entry of the thread table belongs to the process it
    runs: its page table and the number of the process.  Locks and condition
    variables leave those fields of every thread alone, and the fields do not
    matter to any list of threads. *)
From S2P Require Import Prelude Cpu ThreadSys Chain Waiting Thread Scheduler Sleepq LockCond.

(** ** What a process keeps in a thread *)
Definition set_userland_pid_of (x : Z) (t : thread) : thread :=
  mk_thread (context t) (ctx t) (user_context t) (state t) (sleeps_on t) (pagetable t) (process_id t) (next t)
    (next_sleeper_id t) (wakeup_time t) (priority t) x.
Definition set_pagetable_of (x : Z) (t : thread) : thread :=
  mk_thread (context t) (ctx t) (user_context t) (state t) (sleeps_on t) x (process_id t) (next t)
    (next_sleeper_id t) (wakeup_time t) (priority t) (userland_pid t).

Definition owned (t : thread) : Z * Z := (pagetable t, userland_pid t).
Definition marks (s : kernel) : list (Z * Z) := owned <$> thread_table s.

Lemma marks_thr s s' t : marks s' = marks s -> is_tid t -> table_ok s -> owned (thr s' t) = owned (thr s t).
Proof.
  intros Hm Ht Hs. unfold thr, table_ok, is_tid in *.
  destruct (lookup_lt_is_Some_2 (thread_table s) (Z.to_nat t)) as [x Hx]; [lia|].
  assert (Hy : marks s' !! Z.to_nat t = Some (owned x)) by (rewrite Hm; unfold marks; by rewrite list_lookup_fmap, Hx).
  unfold marks in Hy. rewrite list_lookup_fmap in Hy. destruct (thread_table s' !! Z.to_nat t) as [y|] eqn:Hyt; [|done].
  injection Hy as Hp Hu. rewrite (list_lookup_total_correct _ _ _ Hx), (list_lookup_total_correct _ _ _ Hyt). unfold owned. congruence.
Qed.

(** ** The queues leave them alone *)
Lemma keeps_get_thread t : keeps marks (get_thread t).
Proof. intros s a s'. unfold get_thread. destruct (rget _ _); [|done]. by intros [= _ <-]. Qed.
Lemma keeps_upd_thread t f : (forall x, owned (f x) = owned x) -> keeps marks (upd_thread t f).
Proof.
  intros Hf s [] s'. unfold upd_thread. unfold mbind, res_bind. destruct (rget _ _) as [x|] eqn:E; [|done].
  unfold rset. case_decide; [|done]. intros [= <-]. apply rget_Ret in E as [_ E].
  unfold marks. cbn. rewrite list_fmap_insert, Hf. apply list_insert_id. by rewrite list_lookup_fmap, E.
Qed.
(** Interrupts and spinlocks leave alone what does not look at the processor. *)
Class CpuFree {S B} `{!HasCpu S} (f : S -> B) : Prop := cpu_free c s : f (with_cpu c s) = f s.
#[export] Instance marks_free : CpuFree marks.
Proof. by intros c s. Qed.
Section cpu_free.
Context {S B : Type} `{!HasCpu S} (f : S -> B) `{HF : !CpuFree f}.
Lemma keeps_cpu {A} (m : M S A) : (forall s a s', m s = Ret (a, s') -> exists c, s' = with_cpu c s) -> keeps f m.
Proof. intros Hm s a s' H. destruct (Hm s a s' H) as [c ->]. apply HF. Qed.
Lemma keeps_disable : keeps f interrupt_disable.
Proof. apply keeps_cpu. intros s a s' [= _ <-]. by eexists. Qed.
Lemma keeps_set_state x : keeps f (interrupt_set_state x).
Proof. apply keeps_cpu. intros s a s' [= _ <-]. by eexists. Qed.
Lemma keeps_acquire l : keeps f (spinlock_acquire l).
Proof. apply keeps_cpu. intros s a s'. unfold spinlock_acquire. case_decide; [done|]. intros [= _ <-]. by eexists. Qed.
Lemma keeps_release l : keeps f (spinlock_release l).
Proof. apply keeps_cpu. intros s a s' [= _ <-]. by eexists. Qed.
Lemma keeps_critical {A} l (m : M S A) : keeps f m -> keeps f (critical l m).
Proof. pose proof keeps_disable. pose proof keeps_acquire. pose proof keeps_release. pose proof keeps_set_state. intros Hm. unfold critical. keeps. Qed.
End cpu_free.
#[export] Hint Resolve keeps_get_thread : keeps.
#[export] Hint Extern 1 (keeps _ (@interrupt_disable _ _)) => apply keeps_disable; apply _ : keeps.
#[export] Hint Extern 1 (keeps _ (@interrupt_set_state _ _ _)) => apply keeps_set_state; apply _ : keeps.
#[export] Hint Extern 1 (keeps _ (@spinlock_acquire _ _ _)) => apply keeps_acquire; apply _ : keeps.
#[export] Hint Extern 1 (keeps _ (@spinlock_release _ _ _)) => apply keeps_release; apply _ : keeps.
#[export] Hint Extern 1 (keeps marks (upd_thread _ _)) => apply keeps_upd_thread; done : keeps.
#[export] Hint Extern 1 (keeps marks (modify _)) => apply keeps_modify; done : keeps.
#[export] Hint Extern 1 (keeps _ (@interrupt_get_state _ _)) => apply keeps_gets : keeps.

Lemma keeps_get_bucket h : keeps marks (get_bucket h).
Proof. intros s a s'. unfold get_bucket. destruct (rget _ _); [|done]. by intros [= _ <-]. Qed.
Lemma keeps_set_bucket h x : keeps marks (set_bucket h x).
Proof. intros s a s'. unfold set_bucket, mbind, res_bind. destruct (rset _ _ _); [|done]. by intros [= _ <-]. Qed.
Lemma keeps_last_high n curr nx : keeps marks (last_high n curr nx).
Proof. revert curr nx. induction n as [|n IH]; intros; cbn; keeps. Qed.
Lemma keeps_find_tail n p : keeps marks (find_tail n p).
Proof. revert p. induction n as [|n IH]; intros; cbn; keeps. Qed.
Lemma keeps_find_waiter n r p x : keeps marks (find_waiter n r p x).
Proof. revert p x. induction n as [|n IH]; intros; cbn; keeps. Qed.
#[export] Hint Resolve keeps_get_bucket keeps_set_bucket keeps_last_high keeps_find_tail keeps_find_waiter : keeps.
Lemma keeps_add_ready t : keeps marks (scheduler_add_to_ready_list t).
Proof. unfold scheduler_add_to_ready_list. keeps. Qed.
Lemma keeps_unlink h p x : keeps marks (unlink_waiter h p x).
Proof. unfold unlink_waiter. keeps. Qed.
#[export] Hint Resolve keeps_add_ready keeps_unlink : keeps.
Lemma keeps_current : keeps marks thread_get_current_thread.
Proof.
  unfold thread_get_current_thread. keeps. intros s b s'.
  destruct (rget _ _); [|done]. by intros [= _ <-].
Qed.
#[export] Hint Resolve keeps_current : keeps.

Section keeps_queues.
Context `{Symbols}.
Lemma keeps_make_ready x : keeps marks (make_ready x).
Proof. unfold make_ready. keeps. Qed.
#[local] Hint Resolve keeps_make_ready : keeps.
Lemma keeps_wake_all_loop n h r p x : keeps marks (wake_all_loop n h r p x).
Proof. revert p x. induction n as [|n IH]; intros; cbn; keeps. Qed.
#[local] Hint Resolve keeps_wake_all_loop keeps_critical : keeps.
Lemma keeps_sq_wake r : keeps marks (sleepq_wake r).
Proof. unfold sleepq_wake. apply keeps_critical; [apply _|]. keeps. Qed.
Lemma keeps_sq_wake_all r : keeps marks (sleepq_wake_all r).
Proof. unfold sleepq_wake_all. apply keeps_critical; [apply _|]. keeps. Qed.
Lemma keeps_sq_add r : keeps marks (sleepq_add r).
Proof. unfold sleepq_add. keeps. Qed.
End keeps_queues.

(** ** So do locks and condition variables *)
Section locks.
Context `{Symbols, HL : !Layout}.
Abbreviation lstate := (over lock_tables kernel).
Implicit Types s : lstate.

Definition lmarks s : list (Z * Z) := marks (sys s).
#[local] Instance lmarks_free : CpuFree lmarks.
Proof. by intros c s. Qed.
Lemma keeps_on_sys {A} (m : M kernel A) : keeps marks m -> keeps lmarks (on_sys m).
Proof. intros Hm s b s'. unfold on_sys. destruct (m (sys s)) as [[a k]|] eqn:E; [|done]. intros [= _ <-]. apply (Hm _ _ _ E). Qed.
Lemma keeps_on_tab {A} (m : M lock_tables A) : keeps lmarks (on_tab m).
Proof. intros s b s'. unfold on_tab. destruct (m (tab s)) as [[a k]|]; [|done]. by intros [= _ <-]. Qed.
#[local] Hint Resolve keeps_on_tab : keeps.
Lemma keeps_lock_current : keeps lmarks current_thread.
Proof. apply keeps_on_sys, keeps_current. Qed.
Lemma keeps_lock_add r : keeps lmarks (sq_add r).
Proof. apply keeps_on_sys, keeps_sq_add. Qed.
Lemma keeps_lock_wake r : keeps lmarks (sq_wake r).
Proof. apply keeps_on_sys, keeps_sq_wake. Qed.
Lemma keeps_lock_wake_all r : keeps lmarks (sq_wake_all r).
Proof. apply keeps_on_sys, keeps_sq_wake_all. Qed.
#[local] Hint Resolve keeps_lock_current keeps_lock_add keeps_lock_wake keeps_lock_wake_all : keeps.
Lemma keeps_s_release l st : keeps lmarks (s_release l st).
Proof. unfold s_release. keeps. Qed.
#[local] Hint Resolve keeps_s_release : keeps.
Lemma keeps_lock_acquire i : keeps lmarks (lock_acquire i).
Proof. unfold lock_acquire. keeps. Qed.
Lemma keeps_lock_release i : keeps lmarks (lock_release i).
Proof. unfold lock_release. apply keeps_critical; [apply _|]. keeps. Qed.
Lemma keeps_broadcast c : keeps lmarks (condition_broadcast c).
Proof. unfold condition_broadcast. apply keeps_critical; [apply _|]. keeps. Qed.
End locks.

(** ** The fields do not matter to the lists of threads *)

(** What the lists of threads look at. *)
Definition links (t : thread) := (state t, sleeps_on t, next t, next_sleeper_id t, wakeup_time t, priority t).

Lemma links_upd s t f u : table_ok s -> is_tid t -> (forall x, links (f x) = links x) -> links (thr (upd s t f) u) = links (thr s u).
Proof.
  intros Hs Ht Hf. unfold thr at 1, upd, with_threads. cbn. unfold table_ok, is_tid in *.
  destruct (decide (Z.to_nat u = Z.to_nat t)) as [Heq|Hne].
  - rewrite Heq, list_lookup_total_insert_eq by lia. rewrite Hf. unfold thr. by rewrite Heq.
  - by rewrite list_lookup_total_insert_ne.
Qed.

(** The state differs in the fields [links] leaves out only. *)
Record same_links (s s' : kernel) : Prop := {
  sk_links : forall u, links (thr s' u) = links (thr s u);
  sk_len : length (thread_table s') = length (thread_table s);
  sk_lists : (thread_next_sleeper_id s', ready_head s', ready_tail s', sleepq_hashtable s') =
    (thread_next_sleeper_id s, ready_head s, ready_tail s, sleepq_hashtable s);
  sk_sys : same_sys s s'
}.

Lemma same_links_fields s s' u : same_links s s' ->
  state (thr s' u) = state (thr s u) /\ sleeps_on (thr s' u) = sleeps_on (thr s u) /\ next (thr s' u) = next (thr s u) /\
  next_sleeper_id (thr s' u) = next_sleeper_id (thr s u) /\ wakeup_time (thr s' u) = wakeup_time (thr s u) /\ prio s' u = prio s u.
Proof. intros [H _ _ _]. specialize (H u). unfold links in H. unfold prio. by injection H as -> -> -> -> -> ->. Qed.

Lemma queues_ok_links s s' l sl q : same_links s s' -> queues_ok s l sl q -> queues_ok s' l sl q.
Proof.
  intros Hk [[Hs [Rc Rt Rr Rn Rp Rs] [Sc St Sn Ss] Hr Hsl] Hl Hc Hn Hth].
  assert (Hf := fun u => same_links_fields s s' u Hk). pose proof Hk as [_ Hlen [= Hsid Hh Ht Htab] _].
  assert (Hp : forall u, prio s' u = prio s u) by (intros u; apply Hf).
  split; rewrite ?Htab; try done.
  - split.
    + unfold table_ok in *. by rewrite Hlen.
    + split; rewrite ?Hh, ?Ht; try done.
      * eapply seg_ext; [|exact Rc]. intros u _. symmetry. apply Hf.
      * eapply Forall_impl; [exact Rp|]. intros u. cbv beta. by rewrite Hp.
      * eapply sorted_by_ext; [|exact Rs]. intros u _. by rewrite Hp.
    + split; rewrite ?Hsid; try done.
      * eapply seg_ext; [|exact Sc]. intros u _. symmetry. apply Hf.
      * eapply sorted_by_ext; [|exact Ss]. intros u _. symmetry. apply Hf.
    + intros t Hin. destruct (Hf t) as (-> & -> & _ & _ & -> & _). by apply Hr.
    + intros t Hin. destruct (Hf t) as (_ & -> & _ & _ & -> & ->). by apply Hsl.
  - intros b Hb. eapply seg_ext; [|by apply Hc]. intros u _. symmetry. apply Hf.
  - intros b t Hb Hin. destruct (Hf t) as (_ & -> & _ & _ & -> & ->). by apply Hth.
Qed.

Lemma same_links_sys s s' :
  same_links s s' -> sys_ok s -> sys_ok s' /\ caller s' = caller s /\ forall r, waiters s' r = waiters s r.
Proof.
  intros Hk (l & sl & q & t & Hq & Hrun & Hid & Hst & Hp & Hw). pose proof (queues_ok_links s s' l sl q Hk Hq) as Hq'.
  pose proof (same_links_fields s s' t Hk) as (Hst' & _ & _ & _ & Hw' & Hp'). pose proof Hk as [_ _ _ (_ & Hi & Hc)].
  split; [|split].
  - exists l, sl, q, t. split; [done|]. unfold caller_ok, running in *. rewrite Hi, Hc, Hst', Hw', Hp'. done.
  - unfold caller. by rewrite Hi, Hc.
  - intros r. rewrite (waiters_bucket _ _ _ _ _ Hq), (waiters_bucket _ _ _ _ _ Hq').
    apply list_filter_iff. intros u. by destruct (same_links_fields s s' u Hk) as (_ & -> & _).
Qed.

Lemma upd_same_links s t f : table_ok s -> is_tid t -> (forall x, links (f x) = links x) -> same_links s (upd s t f).
Proof.
  intros Hs Ht Hf. split; [intros u; by apply links_upd| |done|done]. cbn. apply length_insert.
Qed.

(** ** The interface *)
Section interface.
Context `{Symbols, HL : !Layout}.
Abbreviation lstate := (over lock_tables kernel).
Implicit Types s : lstate.

(** Between two calls of the kernel. *)
Record settled s : Prop := {
  se_base : base s;
  se_cpu : locks_free (cpu_of s);
  se_conds : forall c, is_cond c -> cond_waiting_thread_count (cond s c) = zlen (cq s c)
}.
Definition view s (l : Z) : lock_view :=
  if decide (is_lock l) then
    if decide (locked_id (lock s l) = LOCK_NO_THREAD) then Free
    else if decide (locked_id (lock s l) = cur_of s /\ nested_locking_count (lock s l) = 1) then Mine
    else Taken
  else Taken.
Definition own s : thread := thr (sys s) (cur_of s).

Lemma settled_tid s : settled s -> table_ok (sys s) /\ is_tid (cur_of s) /\ running (sys s) (cur_of s).
Proof.
  intros [(Hok & _) _ _]. destruct Hok as (l & sl & q & t & Hq & Hc & Hid & _).
  assert (cur_of s = t) as -> by by apply running_caller. split; [apply Hq|by split].
Qed.

Lemma view_free s l : view s l = Free <-> is_lock l /\ locked_id (lock s l) = LOCK_NO_THREAD.
Proof. unfold view. repeat case_decide; naive_solver. Qed.
Lemma view_mine s l : settled s ->
  view s l = Mine <-> is_lock l /\ locked_id (lock s l) = cur_of s /\ nested_locking_count (lock s l) = 1.
Proof.
  intros Hs. destruct (settled_tid s Hs) as (_ & Ht & _). unfold view.
  repeat case_decide; try naive_solver. split; [done|]. unfold is_tid, LOCK_NO_THREAD in *. intros (_ & Heq & _). lia.
Qed.
Lemma view_same s s' k : (is_lock k -> lock s' k = lock s k) -> cur_of s' = cur_of s -> view s' k = view s k.
Proof. intros Hl Hc. unfold view. case_decide; [|done]. by rewrite Hl, Hc. Qed.

Lemma settled_ready s a : settled s -> a ∈ spinlock_addresses -> op_ready a (cpu_of s).
Proof.
  intros [_ Hf _] Ha. destruct (locks_free_spin _ Hf) as (? & ? & _). destruct Hf as [? Hf]. split; [done|]. split; [by apply Hf|done].
Qed.

Lemma is_u32_lor a b : is_u32 a -> is_u32 b -> is_u32 (Z.lor a b).
Proof.
  unfold is_u32. change 4294967296 with (2 ^ 32). intros Ha Hb.
  assert (Z.lor a b = Z.lor a b mod 2 ^ 32) as ->; [|apply Z.mod_pos_bound; lia].
  by rewrite <- Z.land_ones, Z.land_lor_distr_l, !Z.land_ones, !Z.mod_small by lia.
Qed.

Lemma settled_cpu c s : settled s -> is_u32 (status c) -> held c = held (cpu_of s) -> settled (with_cpu c s).
Proof.
  intros [[Hok Hb] [_ Hf] Hc] Hst Hh. split; [split; [by apply sq_ok_cpu|done]| |done]. rewrite cpu_of_with. split; [done|].
  intros a Ha. rewrite Hh. by apply Hf.
Qed.

(** An operation that leaves the marks alone keeps the current thread's fields. *)
Lemma own_kept s s' : settled s -> lmarks s' = lmarks s -> cur_of s' = cur_of s -> owned (own s') = owned (own s).
Proof.
  intros Hs Hm Hc. destruct (settled_tid s Hs) as (Htab & Hid & _). unfold own. rewrite Hc. by apply marks_thr.
Qed.

Definition acquired_now (m : M lstate (option Z)) : M lstate unit :=
  r ← m; match r with None => mret tt | Some _ => fail Blocked end.
Definition with_own (f : thread -> thread) : M lstate unit :=
  on_sys (t ← thread_get_current_thread; upd_thread t f).

(** Acquiring a lock nobody holds touches nothing but the lock. *)
Lemma acquire_free s i :
  base s -> is_lock i -> op_ready (lock_addr i) (cpu_of s) -> locked_id (lock s i) = LOCK_NO_THREAD ->
  wp (LockCond.lock_acquire i) (fun r s' => r = None /\ sys s' = sys s /\ base s' /\ same_conds s s' /\
    lock_is s s' i (mk_lock (cur_of s) 1 (waiting_thread_count (lock s i)) (is_used (lock s i)))) s.
Proof.
  intros Hb Hi Hrdy Hfree. pose proof Hrdy as (Hst & Hl & _). destruct (lock_addr_ne i Hi) as (Hne & Hne' & _).
  unfold LockCond.lock_acquire. apply wp_bind, wp_disable, wp_bind, wp_acquire; [by rewrite cpu_of_with|].
  rewrite with_cpu_with, cpu_of_with. cbn [status held]. fold (inside (lock_addr i) s). set (s0 := with_cpu _ s).
  assert (Hsys0 : sys s0 = with_cpu (inside (lock_addr i) s) (sys s)) by reflexivity.
  destruct (quiet_same s s0 _ Hsys0) as (_ & Hcur0 & Hcpu0 & Hq0).
  assert (Hb0 : base s0) by (split; [apply Hq0, Hb|apply Hb]).
  destruct (inside_ready _ s Hrdy Hne Hne') as (Hst0 & _).
  apply wp_bind, wp_get_lock; [done|done|]. apply wp_bind, over_cur; [apply Hb0|by rewrite Hcpu0|].
  change (lock s0 i) with (lock s i). rewrite (proj2 (Z.eqb_eq _ _) Hfree), Hcur0.
  apply wp_bind, wp_put_lock; [done|done|]. intros s1 Hsys1 Hb1 Hx Hcs.
  assert (Hcpu1 : cpu_of s1 = inside (lock_addr i) s) by (change (cpu_of s1) with (cpu_of (sys s1)); by rewrite Hsys1).
  apply wp_bind, (wp_s_release (lock_addr i) s); [done|done|done|]. apply wp_ret. split; [done|].
  set (s2 := with_cpu (cpu_of s) s1).
  assert (Hsys2 : sys s2 = sys s).
  { change (with_cpu (cpu_of s) (sys s1) = sys s). rewrite Hsys1. change (sys s0) with (with_cpu (inside (lock_addr i) s) (sys s)).
    rewrite with_cpu_with. exact (with_cpu_of (sys s)). }
  split; [done|]. split; [|split; [exact Hcs|exact Hx]]. split; [|apply Hb1]. change (sq_ok (sys s2)). rewrite Hsys2. apply Hb.
Qed.

(** The locks as the thread sees them, where only lock [i] has changed. *)
Lemma view_lock_is s s' i x k : lock_is s s' i x -> cur_of s' = cur_of s -> k <> i -> view s' k = view s k.
Proof. intros Hx Hc Hne. apply view_same; [|done]. intros Hk. rewrite Hx by done. by rewrite (proj2 (Z.eqb_neq _ _) Hne). Qed.

Lemma acquire_spec s i :
  settled s -> view s i = Free ->
  wp (acquired_now (LockCond.lock_acquire i)) (fun _ s' => settled s' /\ sys s' = sys s /\ view s' i = Mine /\
    forall k, k <> i -> view s' k = view s k) s.
Proof.
  intros Hs [Hi Hfree]%view_free. pose proof Hs as [Hb Hf Hconds].
  pose proof (settled_ready s _ Hs (lock_in_addresses i Hi)) as Hrdy.
  apply wp_bind. eapply wp_mono; [exact (acquire_free s i Hb Hi Hrdy Hfree)|].
  intros r s' (-> & Hsys & Hb' & Hcs & Hx). apply wp_ret.
  assert (Hcur : cur_of s' = cur_of s) by (change (caller (sys s') = caller (sys s)); by rewrite Hsys).
  assert (Hs' : settled s').
  { split; [done|change (locks_free (cpu_of (sys s'))); by rewrite Hsys|]. intros c Hc. rewrite Hcs by done.
    unfold cq. change (waiting s' (cond_addr c)) with (waiters (sys s') (cond_addr c)). rewrite Hsys. by apply Hconds. }
  split; [done|]. split; [done|]. split; [|intros k Hne; by eapply view_lock_is].
  apply view_mine; [done|]. split; [done|]. rewrite Hx, Z.eqb_refl, Hcur by done. done.
Qed.

Lemma release_spec s i :
  settled s -> view s i = Mine ->
  wp (LockCond.lock_release i) (fun _ s' => settled s' /\ cpu_of s' = cpu_of s /\ cur_of s' = cur_of s /\ owned (own s') = owned (own s) /\
    view s' i <> Mine /\ forall k, k <> i -> view s' k = view s k) s.
Proof.
  intros Hs (Hi & Hme & Hn)%view_mine; [|done]. pose proof Hs as [Hb Hf Hconds].
  eapply wp_mono; [apply (keeps_wp lmarks); [apply keeps_lock_release|]|].
  { apply (lock_release_run s i Hb Hi); [|done]. by apply settled_ready, lock_in_addresses. }
  intros _ s' ((Hb' & Hcs & Hcur & Hcpu & Hx & Hlq & Hcq) & Hm).
  assert (Hs' : settled s').
  { split; [done|by rewrite Hcpu|]. intros c Hc. rewrite Hcs, Hcq by done. by apply Hconds. }
  split; [done|]. split; [done|]. split; [done|]. split; [by apply own_kept|]. split; [|intros k Hne; by eapply view_lock_is].
  intros (_ & Hid & Hnest)%view_mine; [|done]. rewrite Hx, Z.eqb_refl in Hnest by done.
  unfold released in Hnest. rewrite Hn in Hnest. cbn in Hnest. by destruct (_ >? 0).
Qed.

Lemma broadcast_spec s c :
  settled s -> is_cond c ->
  wp (LockCond.condition_broadcast c) (fun _ s' => settled s' /\ cpu_of s' = cpu_of s /\ cur_of s' = cur_of s /\
    owned (own s') = owned (own s) /\ forall k, view s' k = view s k) s.
Proof.
  intros Hs Hc. pose proof Hs as [Hb Hf Hconds].
  eapply wp_mono; [apply (keeps_wp lmarks); [apply keeps_broadcast|]|].
  { apply (condition_broadcast_run s c Hb Hc); [|by apply Hconds]. by apply settled_ready, cond_in_addresses. }
  intros _ s' ((Hb' & Hls & Hcur & Hcpu & Hx & Hlq & Hcq) & Hm). split; [|split; [done|split; [done|split; [by apply own_kept|]]]].
  - split; [done|by rewrite Hcpu|]. intros d Hd. rewrite Hx, Hcq by done. destruct (Z.eqb_spec d c) as [->|]; [|by apply Hconds].
    specialize (Hconds c Hc). destruct (Z.gtb_spec (cond_waiting_thread_count (cond s c)) 0); [done|]. cbn. lia.
  - intros k. apply view_same; [|done]. apply Hls.
Qed.

Lemma wait_spec s c i :
  settled s -> is_cond c -> may_wait s -> view s i = Mine ->
  wp (LockCond.condition_wait c i) (fun _ s' => view s' i <> Mine) s.
Proof.
  intros Hs Hc Hw (Hi & Hme & Hn)%view_mine; [|done]. pose proof Hs as [Hb Hf Hconds].
  eapply wp_mono.
  { apply (condition_wait_run s c i Hb Hc Hi); [|apply Hf; by apply lock_in_addresses|done|done]. by apply settled_ready, cond_in_addresses. }
  intros _ s' (_ & _ & _ & Hcur & Hx & _). unfold view. rewrite decide_True by done. case_decide; [done|]. case_decide as Hmine; [|done].
  destruct Hmine as [_ Hnest]. rewrite Hx, Z.eqb_refl in Hnest by done. unfold released in Hnest. rewrite Hn in Hnest. cbn in Hnest.
  by destruct (_ >? 0).
Qed.

Lemma wait_resume_spec s i st :
  settled s -> view s i = Free -> is_u32 st ->
  wp (acquired_now (LockCond.condition_wait_resume i st)) (fun _ s' => settled s' /\ cur_of s' = cur_of s /\
    own s' = own s /\ view s' i = Mine /\ (may_wait s -> may_wait s')) s.
Proof.
  intros Hs Hv Hst.
  set (s1 := with_cpu (mk_cpu (Z.lor (Z.land 0x0000ff01 st) (Z.land (status (cpu_of s)) (u32 (Z.lnot 0x0000ff01)))) (held (cpu_of s))) s).
  assert (Hs1 : settled s1).
  { pose proof (se_cpu s Hs) as [Hst0 _]. apply settled_cpu; [done| |done]. cbn [status]. apply is_u32_lor; [rewrite Z.land_comm|]; apply is_u32_land; done || vm_check. }
  assert (Hrun : wp (acquired_now (LockCond.lock_acquire i)) (fun _ s' => settled s' /\ sys s' = sys s1 /\ view s' i = Mine /\
    forall k, k <> i -> view s' k = view s1 k) s1) by (apply acquire_spec; done).
  enough (Heq : acquired_now (LockCond.condition_wait_resume i st) s = acquired_now (LockCond.lock_acquire i) s1).
  { unfold wp in *. rewrite Heq. destruct (acquired_now _ s1) as [[u s']|]; [|done]. destruct Hrun as (Hs' & Hsys & Hm & _).
    assert (Hcur : cur_of s' = cur_of s) by (change (caller (sys s') = caller (sys s)); by rewrite Hsys).
    split; [done|]. split; [done|]. split; [unfold own; rewrite Hcur, Hsys; done|]. split; [done|].
    unfold may_wait. rewrite Hcur. intros [? Hw]. split; [done|]. intros r Hr. change (waiting s' r) with (waiters (sys s') r). rewrite Hsys. by apply Hw. }
  reflexivity.
Qed.

Lemma with_own_spec s f :
  settled s -> (forall x, links (f x) = links x) ->
  wp (with_own f) (fun _ s' => settled s' /\ cpu_of s' = cpu_of s /\ cur_of s' = cur_of s /\ own s' = f (own s) /\
    forall k, view s' k = view s k) s.
Proof.
  intros Hs Hf. pose proof Hs as [Hb Hc Hconds]. destruct (settled_tid s Hs) as (Htab & Hid & Hrun).
  apply wp_on_sys, wp_bind. eapply (wp_current _ (cur_of s)); [exact Hrun|apply Hc|].
  apply wp_upd_thread; [done|done|]. pose proof (upd_same_links (sys s) (cur_of s) f Htab Hid Hf) as Hk.
  destruct (same_links_sys _ _ Hk (proj1 Hb)) as (Hok & Hcur & Hw). set (s' := mk_over _ _).
  assert (Hcur' : cur_of s' = cur_of s) by exact Hcur.
  split; [|split; [done|split; [done|split]]].
  - split; [split; [exact Hok|apply Hb]|exact Hc|]. intros c Hcc. unfold cq. change (waiting s' (cond_addr c)) with (waiters (sys s') (cond_addr c)).
    unfold s'. cbn [sys]. rewrite Hw. by apply Hconds.
  - unfold own. rewrite Hcur'. unfold s'. cbn [sys]. by apply thr_upd_eq.
  - intros k. apply view_same; [done|done].
Qed.

Lemma finish_spec s : settled s -> pagetable (own s) = 0 -> wp (on_sys Thread.thread_finish) (fun _ _ => True) s.
Proof.
  intros Hs Hp. pose proof Hs as [Hb [Hst Hf] _]. destruct (settled_tid s Hs) as (Htab & Hid & Hrun).
  apply wp_on_sys. unfold Thread.thread_finish. apply wp_bind. eapply (wp_current _ (cur_of s)); [exact Hrun|exact Hst|].
  apply wp_bind, wp_disable. set (k := with_cpu _ (sys s)). apply wp_bind, (wp_get_thread k); [done|done|].
  change (thr k (cur_of s)) with (own s). apply wp_bind, wp_kassert; [by apply Z.eqb_eq|].
  apply wp_bind, wp_acquire; [|apply wp_bind, wp_upd_thread; [done|done|done]].
  unfold k. rewrite cpu_of_with. apply Hf. right. by left.
Qed.

(** lock_cond.c over the thread table is such a system. *)
#[export] Program Instance kernel_threads : ThreadSys lstate := {|
  ThreadSys.lock_create := LockCond.lock_create;
  ThreadSys.condition_create := LockCond.condition_create;
  ThreadSys.lock_acquire i := acquired_now (LockCond.lock_acquire i);
  ThreadSys.lock_release := LockCond.lock_release;
  ThreadSys.condition_wait := LockCond.condition_wait;
  ThreadSys.condition_wait_resume i st := acquired_now (LockCond.condition_wait_resume i st);
  ThreadSys.condition_broadcast c _ := LockCond.condition_broadcast c;
  ThreadSys.thread_get_current_thread := on_sys Thread.thread_get_current_thread;
  get_userland_pid := on_sys (t ← thread_get_current_thread_entry; mret (userland_pid t));
  set_userland_pid p := with_own (set_userland_pid_of p);
  get_pagetable := on_sys (t ← thread_get_current_thread_entry; mret (pagetable t));
  set_pagetable p := with_own (set_pagetable_of p);
  ThreadSys.thread_finish := on_sys Thread.thread_finish;
  ts_ok := settled;
  ts_tid := cur_of;
  ts_pid s := userland_pid (own s);
  ts_table s := pagetable (own s);
  ts_lock := view;
  ts_can_wait := may_wait;
  ts_cond := is_cond
|}.
Next Obligation. intros c s Hs Hst Hh. split; [by apply settled_cpu|done]. Qed.
Next Obligation. done. Qed.
Next Obligation. intros s Hs. apply Hs. Qed.
Next Obligation.
  intros s i Hs Hv. eapply wp_mono; [by apply acquire_spec|]. intros _ s' (Hs' & Hsys & Hm & Hoth).
  assert (Hcur : cur_of s' = cur_of s) by (change (caller (sys s') = caller (sys s)); by rewrite Hsys).
  split; [done|]. split; [change (cpu_of (sys s') = cpu_of (sys s)); by rewrite Hsys|].
  split; [unfold own; rewrite Hcur, Hsys; done|]. split; [done|]. split; [done|].
  intros [Hpos Hw]. split; [by rewrite Hcur|]. intros r Hr. rewrite Hcur. change (waiting s' r) with (waiters (sys s') r). rewrite Hsys. by apply Hw.
Qed.
Next Obligation.
  intros s i Hs Hv. eapply wp_mono; [by apply release_spec|]. intros _ s' (Hs' & Hcpu & Hcur & [= Hp Hu] & Hm & Hoth).
  by split_and!.
Qed.
Next Obligation.
  intros s c i Hs Hc _. eapply wp_mono; [by apply broadcast_spec|]. intros _ s' (Hs' & Hcpu & Hcur & [= Hp Hu] & Hoth).
  by split_and!.
Qed.
Next Obligation. intros s c i Hs Hc Hw Hv. by apply wait_spec. Qed.
Next Obligation.
  intros s i st Hs Hv Hst. eapply wp_mono; [by apply wait_resume_spec|]. intros _ s' (Hs' & Hcur & Hown & Hm & Hw).
  rewrite Hown. by split_and!.
Qed.
Next Obligation.
  intros s Q Hs HQ. destruct (settled_tid s Hs) as (_ & _ & Hrun). pose proof (se_cpu s Hs) as [Hst _].
  apply wp_on_sys, (wp_current _ (cur_of s)); [done|exact Hst|]. by destruct s.
Qed.
Next Obligation.
  intros s Q Hs HQ. destruct (settled_tid s Hs) as (Htab & Hid & Hrun). pose proof (se_cpu s Hs) as [Hst _].
  apply wp_on_sys, wp_bind, wp_bind, (wp_current _ (cur_of s)); [done|exact Hst|]. apply wp_get_thread; [done|done|]. apply wp_ret. by destruct s.
Qed.
Next Obligation.
  intros s Q Hs HQ. destruct (settled_tid s Hs) as (Htab & Hid & Hrun). pose proof (se_cpu s Hs) as [Hst _].
  apply wp_on_sys, wp_bind, wp_bind, (wp_current _ (cur_of s)); [done|exact Hst|]. apply wp_get_thread; [done|done|]. apply wp_ret. by destruct s.
Qed.
Next Obligation.
  intros s p Hs. eapply wp_mono; [apply with_own_spec; [exact Hs|done]|]. intros _ s' (Hs' & Hcpu & Hcur & Hown & Hoth).
  rewrite Hown. by split_and!.
Qed.
Next Obligation.
  intros s p Hs. eapply wp_mono; [apply with_own_spec; [exact Hs|done]|]. intros _ s' (Hs' & Hcpu & Hcur & Hown & Hoth).
  rewrite Hown. by split_and!.
Qed.
Next Obligation. intros s Hs Hp. by apply finish_spec. Qed.
End interface.

(** ** Without other threads *)
Section lone.
Context `{Symbols, HL : !Layout}.
Abbreviation lstate := (over lock_tables kernel).
Implicit Types s : lstate.

Definition quiet s (l : Z) : Prop := is_lock l -> waiting_thread_count (lock s l) = 0.

Lemma quiet_lock_is s s' i x k :
  lock_is s s' i x -> waiting_thread_count x = waiting_thread_count (lock s i) -> is_lock i -> quiet s k -> quiet s' k.
Proof. intros Hx Hw Hi Hq Hk. rewrite Hx by done. destruct (Z.eqb_spec k i) as [->|]; [rewrite Hw|]; by apply Hq. Qed.

Lemma destroy_spec s i :
  settled s -> view s i = Free ->
  wp (LockCond.lock_destroy i) (fun _ s' => settled s' /\ (forall k, view s' k = view s k) /\ forall k, quiet s k -> quiet s' k) s.
Proof.
  intros Hs [Hi Hfree]%view_free. pose proof Hs as [Hb Hf Hconds]. destruct (lock_addr_ne i Hi) as (_ & _ & Hne).
  pose proof (settled_ready s _ Hs (lock_in_addresses i Hi)) as (Hst & Hl & _).
  destruct (locks_free_spin _ Hf) as (_ & _ & _ & Htab & _).
  apply wp_critical; [done|exact Htab|]. set (s0 := with_cpu _ s).
  assert (Hcpu0 : cpu_of s0 = inside lock_table_slock s) by exact (cpu_of_with _ s).
  assert (Hb0 : base s0) by (split; [apply sq_ok_cpu, Hb|apply Hb]).
  apply wp_bind, wp_acquire; [rewrite Hcpu0; cbn [inside held]; set_solver|]. rewrite Hcpu0.
  set (s1 := with_cpu _ s0). assert (Hb1 : base s1) by (split; [apply sq_ok_cpu, Hb0|apply Hb]).
  apply wp_bind, wp_get_lock; [done|done|]. change (lock s1 i) with (lock s i). apply wp_bind, wp_kassert; [by apply Z.eqb_eq|].
  apply wp_bind, wp_put_lock; [done|done|]. intros s2 Hsys Hb2 Hx Hcs.
  assert (Hcpu2 : cpu_of s2 = cpu_of s1) by (change (cpu_of (sys s2) = cpu_of (sys s1)); by rewrite Hsys).
  apply wp_release. rewrite Hcpu2. unfold s1. rewrite !cpu_of_with. cbn [inside status held].
  rewrite held_release by set_solver. fold (inside lock_table_slock s). split; [exact (cpu_of_with _ s2)|]. rewrite with_cpu_with.
  set (s3 := with_cpu (cpu_of s) s2).
  assert (Hsys3 : sys s3 = sys s).
  { change (with_cpu (cpu_of s) (sys s2) = sys s). rewrite Hsys. change (sys s1) with (with_cpu (cpu_of s1) (with_cpu (cpu_of s0) (sys s))).
    rewrite !with_cpu_with. exact (with_cpu_of (sys s)). }
  assert (Hx3 : lock_is s s3 i (mk_lock (locked_id (lock s i)) (nested_locking_count (lock s i)) (waiting_thread_count (lock s i)) 0)) by exact Hx.
  assert (Hcur3 : cur_of s3 = cur_of s) by (change (caller (sys s3) = caller (sys s)); by rewrite Hsys3).
  split; [|split].
  - split; [split; [change (sq_ok (sys s3)); rewrite Hsys3; apply Hb|apply Hb2]|change (locks_free (cpu_of (sys s3))); by rewrite Hsys3|].
    intros c Hc. change (cond s3 c) with (cond s2 c). rewrite Hcs by done. unfold cq.
    change (waiting s3 (cond_addr c)) with (waiters (sys s3) (cond_addr c)). rewrite Hsys3. by apply Hconds.
  - intros k. unfold view. case_decide as Hk; [|done]. rewrite Hx3, Hcur3 by done. by destruct (Z.eqb_spec k i) as [->|].
  - intros k. by apply (quiet_lock_is s s3 i _ k Hx3).
Qed.

Lemma keeps_quiet {A} (m : M kernel A) : keeps quiet (on_sys m).
Proof.
  intros s a s' Hrun. unfold on_sys in Hrun. destruct (m (sys s)) as [[b k]|]; [|done]. injection Hrun as _ <-. done.
Qed.

#[export] Program Instance kernel_lone : LoneLocks lstate := {|
  ThreadSys.lock_destroy := LockCond.lock_destroy;
  ts_quiet := quiet
|}.
Next Obligation.
  intros s i Hs [Hi Hfree]%view_free. pose proof Hs as [Hb Hf Hconds].
  pose proof (settled_ready s _ Hs (lock_in_addresses i Hi)) as Hrdy.
  apply wp_bind. eapply wp_mono; [exact (acquire_free s i Hb Hi Hrdy Hfree)|].
  intros r s' (-> & Hsys & Hb' & Hcs & Hx). apply wp_ret. intros k. by apply (quiet_lock_is s s' i _ k Hx).
Qed.
Next Obligation.
  intros s i Hs (Hi & Hme & Hn)%view_mine; [|done]. pose proof Hs as [Hb Hf Hconds].
  eapply wp_mono; [apply (lock_release_run s i Hb Hi); [by apply settled_ready, lock_in_addresses|done]|].
  intros _ s' (_ & _ & _ & _ & Hx & _) Hq. unfold released in Hx. rewrite Hn, (Hq Hi) in Hx. cbn in Hx. split.
  - apply view_free. split; [done|]. by rewrite Hx, Z.eqb_refl.
  - intros k. apply (quiet_lock_is s s' i _ k Hx); [|done]. by rewrite (Hq Hi).
Qed.
Next Obligation.
  intros s c i Hs Hc _. pose proof Hs as [Hb Hf Hconds].
  eapply wp_mono; [apply (condition_broadcast_run s c Hb Hc); [by apply settled_ready, cond_in_addresses|by apply Hconds]|].
  intros _ s' (_ & Hls & _) k Hq Hk. rewrite Hls by done. by apply Hq.
Qed.
Next Obligation. apply keeps_quiet. Qed.
Next Obligation. intros p. apply keeps_quiet. Qed.
Next Obligation. intros p. apply keeps_quiet. Qed.
Next Obligation. done. Qed.
Next Obligation. intros s i Hs Hv. by apply destroy_spec. Qed.
End lone.

(** ** Threads among which no lock is held *)
Definition open_tables : lock_tables := mk_tables (replicate 128 open_lock) (replicate 128 (mk_cond 0 0)).
Section open.
Context `{!Symbols, HL : !Layout}.

Lemma open_settled (k : kernel) :
  sys_ok k -> (forall r, waiters k r = []) -> locks_free (cpu_of k) -> settled (mk_over open_tables k).
Proof.
  intros Hok Hw Hf. split; [|exact Hf|].
  - split; [exact Hok|split; reflexivity].
  - intros c Hcc. unfold cq. change (waiting (mk_over open_tables k) (cond_addr c)) with (waiters k (cond_addr c)).
    rewrite Hw. change (cond (mk_over open_tables k) c) with (replicate 128 (mk_cond 0 0) !!! Z.to_nat c).
    rewrite lookup_total_replicate_2 by (unfold is_cond, CONFIG_MAX_CONDITION_VARIABLES in Hcc; lia). reflexivity.
Qed.
Lemma open_free (k : kernel) i : is_lock i -> lock (mk_over open_tables k) i = open_lock.
Proof.
  intros Hi. change (lock (mk_over open_tables k) i) with (replicate 128 open_lock !!! Z.to_nat i).
  by rewrite lookup_total_replicate_2 by (unfold is_lock, CONFIG_MAX_LOCKS in Hi; lia).
Qed.
End open.
