(* ===== verification/Bytes.v ===== *)
(** * Memory seen as bytes and as words

    The file systems use a disk block as bytes, as an array of 32-bit words and
    as a bitmap.  The processor is big-endian: the first byte of a word is its
    most significant one. *)
From S2P Require Import Prelude Bitmap Libc Gbd.

Definition word_of (b : list Z) : Z :=
  match b with
  | [b0; b1; b2; b3] => b0 * 16777216 + b1 * 65536 + b2 * 256 + b3
  | _ => 0
  end.
Definition word_bytes (w : Z) : list Z := [w / 16777216 mod 256; w / 65536 mod 256; w / 256 mod 256; w mod 256].

(** [((uint32_t * )b)[i]], read and assigned to. *)
Definition get_word (b : list Z) (i : Z) : res Z :=
  if decide (0 <= i /\ 4 * i + 4 <= zlen b) then Ret (word_of (slice b (Z.to_nat (4 * i)) 4)) else Fail Undef.
Definition put_word (b : list Z) (i w : Z) : res (list Z) :=
  if decide (0 <= i /\ 4 * i + 4 <= zlen b) then Ret (splice b (Z.to_nat (4 * i)) (word_bytes w)) else Fail Undef.

(** All words of a buffer, and back. *)
Definition words_of (b : list Z) : list Z :=
  (fun k => word_of (slice b (4 * k)%nat 4)) <$> seq 0 (length b / 4).
Fixpoint bytes_of (ws : list Z) : list Z :=
  match ws with [] => [] | w :: ws => word_bytes w ++ bytes_of ws end.

(** [memcopy(n, target + t, source + s)] between two objects, which lie in one
    memory without overlapping. *)
Definition memcopy_to (n : Z) (target : list Z) (t : Z) (source : list Z) (s : Z) : res (list Z) :=
  if decide (0 <= t /\ t + Z.max 0 n <= zlen target /\ 0 <= s /\ s + Z.max 0 n <= zlen source) then
    m ← memcopy n (target ++ source) t (zlen target + s);
    Ret (take (length target) m)
  else Fail Undef.

(** ** Facts *)

Lemma word_of_bytes w : is_u32 w -> word_of (word_bytes w) = w.
Proof. unfold is_u32, word_of, word_bytes. intros. Z.div_mod_to_equations. lia. Qed.

Lemma word_bytes_of b : length b = 4%nat -> Forall is_byte b -> word_bytes (word_of b) = b.
Proof.
  destruct b as [|b0 [|b1 [|b2 [|b3 [|]]]]]; intros [=] Hb. decompose_Forall_hyps. unfold is_byte, word_of, word_bytes in *.
  repeat f_equal; Z.div_mod_to_equations; lia.
Qed.

Lemma word_of_u32 b : Forall is_byte b -> is_u32 (word_of b).
Proof.
  unfold is_u32. destruct b as [|b0 [|b1 [|b2 [|b3 [|]]]]]; cbn [word_of]; intros Hb; try lia.
  decompose_Forall_hyps. unfold is_byte in *. lia.
Qed.

Lemma word_bytes_byte w : Forall is_byte (word_bytes w).
Proof. unfold word_bytes, is_byte. repeat constructor; apply Z.mod_pos_bound; lia. Qed.

Lemma Forall_slice {A} (P : A -> Prop) l i n : Forall P l -> Forall P (slice l i n).
Proof. intros H. unfold slice. by apply Forall_take, Forall_drop. Qed.

Lemma Forall_splice {A} (P : A -> Prop) l i xs : Forall P l -> Forall P xs -> Forall P (splice l i xs).
Proof.
  intros Hl Hx. unfold splice. apply Forall_app. split; [by apply Forall_take|].
  apply Forall_app. split; [done|by apply Forall_drop].
Qed.

Lemma splice_buffer n b i xs :
  is_buffer n b -> Forall is_byte xs -> (i + length xs <= length b)%nat -> is_buffer n (splice b i xs).
Proof.
  intros [Hl Hb] Hx Hi. split; [by rewrite length_splice|by apply Forall_splice].
Qed.

Section words.
Implicit Types (b : list Z) (i w : Z).

Lemma get_word_run b i : 0 <= i -> 4 * i + 4 <= zlen b -> get_word b i = Ret (word_of (slice b (Z.to_nat (4 * i)) 4)).
Proof. intros. unfold get_word. by rewrite decide_True. Qed.
Lemma put_word_run b i w : 0 <= i -> 4 * i + 4 <= zlen b -> put_word b i w = Ret (splice b (Z.to_nat (4 * i)) (word_bytes w)).
Proof. intros. unfold put_word. by rewrite decide_True. Qed.

(** The word at [i], 0 outside. *)
Definition word b i : Z := match get_word b i with Ret w => w | Fail _ => 0 end.

Lemma get_word_word b i : 0 <= i -> 4 * i + 4 <= zlen b -> get_word b i = Ret (word b i).
Proof. intros. unfold word. by rewrite get_word_run. Qed.

Lemma word_u32 b i : Forall is_byte b -> is_u32 (word b i).
Proof.
  intros Hb. unfold word, get_word. case_decide; [by apply word_of_u32, Forall_slice|unfold is_u32; lia].
Qed.

Lemma word_put_eq b i w : is_u32 w -> 0 <= i -> 4 * i + 4 <= zlen b -> word (splice b (Z.to_nat (4 * i)) (word_bytes w)) i = w.
Proof.
  intros Hw Hi Hl. unfold word. rewrite get_word_run by (rewrite ?length_splice by (cbn; lia); lia).
  change 4%nat with (length (word_bytes w)). rewrite slice_splice_eq by (cbn; lia). by apply word_of_bytes.
Qed.
Lemma word_put_ne b i j w :
  0 <= i -> 4 * i + 4 <= zlen b -> i <> j -> word (splice b (Z.to_nat (4 * i)) (word_bytes w)) j = word b j.
Proof.
  intros Hi Hl Hne. unfold word, get_word. rewrite length_splice by (cbn; lia). case_decide; [|done].
  rewrite slice_splice_ne; [done|cbn; lia|cbn; lia].
Qed.

Lemma length_words_of b : length (words_of b) = (length b / 4)%nat.
Proof. unfold words_of. by rewrite length_fmap, length_seq. Qed.

Lemma words_of_ok b : Forall is_byte b -> words_ok (words_of b).
Proof.
  intros Hb. apply Forall_forall. intros w (k & -> & _)%list_elem_of_fmap.
  by apply word_of_u32, Forall_slice.
Qed.

Lemma words_of_cons (b0 b1 b2 b3 : Z) b : words_of (b0 :: b1 :: b2 :: b3 :: b) = word_of [b0; b1; b2; b3] :: words_of b.
Proof.
  unfold words_of. cbn [length]. replace (S (S (S (S (length b)))) / 4)%nat with (S (length b / 4))%nat.
  2: { replace (S (S (S (S (length b))))) with (length b + 1 * 4)%nat by lia. rewrite Nat.div_add by done. lia. }
  cbn [seq fmap list_fmap]. f_equal. rewrite <- seq_shift, <- list_fmap_compose. apply list_fmap_ext.
  intros i k _. unfold compose, slice. replace (4 * S k)%nat with (S (S (S (S (4 * k))))) by lia. done.
Qed.

Lemma bytes_words_of k b : length b = (4 * k)%nat -> Forall is_byte b -> bytes_of (words_of b) = b.
Proof.
  revert b. induction k as [|k IH]; intros b Hl Hb.
  - destruct b; [done|]. cbn in Hl. lia.
  - destruct b as [|b0 [|b1 [|b2 [|b3 b]]]]; cbn [length] in Hl; try lia.
    apply (Forall_app is_byte [b0; b1; b2; b3] b) in Hb as [Hw Hb].
    rewrite words_of_cons. cbn [bytes_of]. rewrite (word_bytes_of [b0; b1; b2; b3] eq_refl Hw), IH; [done|lia|done].
Qed.

Lemma words_bytes_of ws : words_ok ws -> words_of (bytes_of ws) = ws.
Proof.
  induction ws as [|w ws IH]; intros Hw; [done|]. apply Forall_cons in Hw as [Hw Hws]. cbn [bytes_of].
  unfold word_bytes at 1. cbn [app]. rewrite words_of_cons. fold (word_bytes w). rewrite word_of_bytes by done. f_equal. by apply IH.
Qed.

Lemma length_bytes_of ws : length (bytes_of ws) = (4 * length ws)%nat.
Proof. induction ws as [|w ws IH]; [done|]. cbn [bytes_of]. rewrite length_app, IH. cbn. lia. Qed.
Lemma bytes_of_byte ws : Forall is_byte (bytes_of ws).
Proof. induction ws as [|w ws IH]; [constructor|]. cbn [bytes_of]. apply Forall_app. split; [apply word_bytes_byte|done]. Qed.
End words.

Lemma memcopy_to_run n target t source s :
  0 <= n -> 0 <= t -> t + n <= zlen target -> 0 <= s -> s + n <= zlen source ->
  memcopy_to n target t source s = Ret (splice target (Z.to_nat t) (slice source (Z.to_nat s) (Z.to_nat n))).
Proof.
  intros Hn Ht Htn Hs Hsn. unfold memcopy_to. rewrite decide_True by lia. rewrite memcopy_bytes by done.
  rewrite copy_bytes_slice by (rewrite ?length_app; lia). unfold mbind, res_bind. f_equal.
  assert (Hsl : slice (target ++ source) (Z.to_nat (zlen target + s)) (Z.to_nat n) = slice source (Z.to_nat s) (Z.to_nat n)).
  { unfold slice. rewrite drop_app_ge by lia. do 2 f_equal. lia. }
  rewrite Hsl. apply list_eq. intros k.
  assert (Hlen : length (slice source (Z.to_nat s) (Z.to_nat n)) = Z.to_nat n) by (apply length_slice; lia).
  destruct (decide (k < length target)%nat) as [Hk|Hk].
  - rewrite lookup_take_lt by done. rewrite !lookup_splice by (rewrite ?length_app; lia).
    case_decide; [done|]. by rewrite lookup_app_l.
  - rewrite lookup_take_ge by lia. symmetry. apply lookup_ge_None. rewrite length_splice; lia.
Qed.
