(* ===== verification/Elf.v ===== *)
(** * proc/elf.c: the headers of an executable file

    The structures of proc/elf.h are read from the bytes of the file, in which
    their fields lie without gaps; the processor is big-endian, as the files
    are. *)
From S2P Require Import Prelude Bitmap Libc Kmalloc Gbd ThreadSys Bytes.

Definition ET_EXEC : Z := 2.
Definition EM_MIPS : Z := 8.
Definition EI_CLASS : Z := 4.
Definition EI_DATA : Z := 5.
Definition EI_VERSION : Z := 6.
Definition ELFCLASS32 : Z := 1.
Definition ELFDATA2MSB : Z := 2.
Definition EV_CURRENT : Z := 1.
Definition ELF_MAGIC : Z := 0x7f454c46.
Definition PT_NULL : Z := 0.
Definition PT_LOAD : Z := 1.
Definition PT_NOTE : Z := 4.
Definition PT_PHDR : Z := 6.
Definition PF_W : Z := 2.
Definition SEG_RO : Z := 1.
Definition SEG_RW : Z := 2.
Definition sizeof_ehdr : Z := 52.
Definition sizeof_phdr : Z := 32.

(** ** The code *)
Record Elf32_Ehdr := mk_ehdr {
  e_ident : list Z;      (** 16 bytes; [e_ident.i] are the first four *)
  e_type : Z; e_machine : Z; e_version : Z; e_entry : Z; e_phoff : Z; e_shoff : Z; e_flags : Z;
  e_ehsize : Z; e_phentsize : Z; e_phnum : Z; e_shentsize : Z; e_shnum : Z; e_shstrndx : Z
}.
Record Elf32_Phdr := mk_phdr {
  p_type : Z; p_offset : Z; p_vaddr : Z; p_paddr : Z; p_filesz : Z; p_memsz : Z; p_flags : Z; p_align : Z
}.
Record segment_info := mk_segment { location : Z; size : Z; pages : Z; vaddr : Z }.
(** The fields [ro_location] to [ro_vaddr], and [rw_location] to [rw_vaddr]. *)
Record elf_info_t := mk_elf { entry_point : Z; ro : segment_info; rw : segment_info }.

(** Two and four bytes at an offset of a structure. *)
Definition half_at (b : list Z) (i : nat) : Z := match slice b i 2 with [b0; b1] => b0 * 256 + b1 | _ => 0 end.
Definition word_at (b : list Z) (i : nat) : Z := word_of (slice b i 4).
Definition ehdr_of (b : list Z) : Elf32_Ehdr :=
  mk_ehdr (slice b 0 16) (half_at b 16) (half_at b 18) (word_at b 20) (word_at b 24) (word_at b 28) (word_at b 32) (word_at b 36)
    (half_at b 40) (half_at b 42) (half_at b 44) (half_at b 46) (half_at b 48) (half_at b 50).
Definition phdr_of (b : list Z) : Elf32_Phdr :=
  mk_phdr (word_at b 0) (word_at b 4) (word_at b 8) (word_at b 12) (word_at b 16) (word_at b 20) (word_at b 24) (word_at b 28).

Definition no_segment : segment_info := mk_segment 0 0 0 0.
Definition segment_of (h : Elf32_Phdr) : segment_info :=
  mk_segment (p_offset h) (p_filesz h) (u32 (u32 (p_memsz h + PAGE_SIZE) - 1) / PAGE_SIZE) (p_vaddr h).
Definition set_ro (x : segment_info) (elf : elf_info_t) : elf_info_t := mk_elf (entry_point elf) x (rw elf).
Definition set_rw (x : segment_info) (elf : elf_info_t) : elf_info_t := mk_elf (entry_point elf) (ro elf) x.

(** The tests of the file header, in their order. *)
Definition bad_header (h : Elf32_Ehdr) : res bool :=
  if negb (word_of (slice (e_ident h) 0 4) =? ELF_MAGIC) then Ret true
  else
    c ← rget (e_ident h) EI_CLASS;
    d ← rget (e_ident h) EI_DATA;
    if negb (c =? ELFCLASS32) || negb (d =? ELFDATA2MSB) || negb (e_machine h =? EM_MIPS) then Ret true
    else
      v ← rget (e_ident h) EI_VERSION;
      if negb (e_version h =? EV_CURRENT) || negb (v =? EV_CURRENT) then Ret true
      else Ret (negb (e_type h =? ET_EXEC) || (e_phnum h =? 0)).

(** The [switch]: the segments seen and the structure, [None] for [return 0]. *)
Definition take_header (h : Elf32_Phdr) (segs : Z) (elf : elf_info_t) : option (Z * elf_info_t) :=
  if (p_type h =? PT_NULL) || (p_type h =? PT_NOTE) || (p_type h =? PT_PHDR) then Some (segs, elf)
  else if p_type h =? PT_LOAD then
    if negb (Z.land (p_flags h) PF_W =? 0) then
      if negb (Z.land segs SEG_RW =? 0) then None
      else Some (Z.lor segs SEG_RW, set_rw (segment_of h) elf)
    else
      if negb (Z.land segs SEG_RO =? 0) then None
      else Some (Z.lor segs SEG_RO, set_ro (segment_of h) elf)
  else None.

Section code.
Context {F : Type} `{!OpenFiles F, !FileCalls F}.

(** [n] turns of the loop over the program headers, [buf] being [program_hdr].
    The answer is [segs], or [None] when the function has returned 0.  An [int]
    is compared with a size, to which it is converted: below 2^31 that makes no
    difference. *)
Fixpoint program_headers (n : nat) (buf : list Z) (file current_position segs : Z) (elf : elf_info_t) : M F (option Z * elf_info_t) :=
  match n with
  | O => mret (Some segs, elf)
  | S n =>
      '(r, buf) ← vfs_read file buf sizeof_phdr;
      if negb (r =? sizeof_phdr) then mret (None, elf)
      else match take_header (phdr_of buf) segs elf with
      | None => mret (None, elf)
      | Some (segs, elf) =>
          let current_position := i32 (u32 (current_position + sizeof_phdr)) in
          _ ← vfs_seek file current_position;
          program_headers n buf file current_position segs elf
      end
  end.

(** The local structures [elf_hdr] and [program_hdr] are arguments: what they
    hold is not known. *)
Definition elf_parse_header (elf_hdr program_hdr : list Z) (elf : elf_info_t) (file : Z) : M F (Z * elf_info_t) :=
  '(r, elf_hdr) ← vfs_read file elf_hdr sizeof_ehdr;
  if negb (r =? sizeof_ehdr) then mret (0, elf)
  else
    let h := ehdr_of elf_hdr in
    bad ← lift (bad_header h);
    if bad : bool then mret (0, elf)
    else
      let elf := mk_elf (e_entry h) no_segment no_segment in
      let current_position := i32 (e_phoff h) in
      _ ← vfs_seek file current_position;
      '(segs, elf) ← program_headers (Z.to_nat (e_phnum h)) program_hdr file current_position 0 elf;
      mret (match segs with Some segs => if segs >? 0 then 1 else 0 | None => 0 end, elf).
End code.

(** ** What the file says *)
Definition ehdr (b : list Z) : Elf32_Ehdr := ehdr_of (slice b 0 52).
(** [n] program headers from position [pos] on, [stride] bytes apart. *)
Definition phdrs_from (stride : Z) (b : list Z) (pos : Z) (n : nat) : list Elf32_Phdr :=
  (fun k => phdr_of (slice b (Z.to_nat (pos + stride * Z.of_nat k)) 32)) <$> seq 0 n.
Definition phdrs (stride : Z) (b : list Z) : list Elf32_Phdr :=
  phdrs_from stride b (e_phoff (ehdr b)) (Z.to_nat (e_phnum (ehdr b))).

Definition is_load (w : bool) (h : Elf32_Phdr) : Prop := p_type h = PT_LOAD /\ Z.testbit (p_flags h) 1 = w.
Definition known (h : Elf32_Phdr) : Prop := p_type h = PT_LOAD \/ p_type h ∈ [PT_NULL; PT_NOTE; PT_PHDR].
#[export] Instance is_load_dec w h : Decision (is_load w h).
Proof. unfold is_load. apply _. Defined.
#[export] Instance known_dec h : Decision (known h).
Proof. unfold known. apply _. Defined.

(** An executable for this processor, whose headers lie in the file and which
    has at most one segment of each sort, and one at all. *)
Definition executable_at (stride : Z) (b : list Z) : Prop :=
  52 <= zlen b /\ slice b 0 7 = [0x7f; 0x45; 0x4c; 0x46; ELFCLASS32; ELFDATA2MSB; EV_CURRENT] /\
  e_type (ehdr b) = ET_EXEC /\ e_machine (ehdr b) = EM_MIPS /\ e_version (ehdr b) = EV_CURRENT /\ e_phnum (ehdr b) <> 0 /\
  e_phoff (ehdr b) + stride * e_phnum (ehdr b) <= zlen b /\ Forall known (phdrs stride b) /\
  zlen (filter (is_load false) (phdrs stride b)) <= 1 /\ zlen (filter (is_load true) (phdrs stride b)) <= 1 /\
  filter (is_load false) (phdrs stride b) ++ filter (is_load true) (phdrs stride b) <> [].
#[export] Instance executable_at_dec stride b : Decision (executable_at stride b).
Proof. unfold executable_at. apply _. Defined.

Definition first_segment (seg : Elf32_Phdr -> segment_info) (x : segment_info) (l : list Elf32_Phdr) : segment_info :=
  match l with [] => x | h :: _ => seg h end.
Definition image_at (stride : Z) (seg : Elf32_Phdr -> segment_info) (b : list Z) : elf_info_t :=
  mk_elf (e_entry (ehdr b)) (first_segment seg no_segment (filter (is_load false) (phdrs stride b)))
    (first_segment seg no_segment (filter (is_load true) (phdrs stride b))).

(** As the parser goes through the file: the headers are 32 bytes apart, and
    the pages are counted with 32 bits. *)
Definition executable (b : list Z) : Prop := executable_at sizeof_phdr b.
#[export] Instance executable_dec b : Decision (executable b).
Proof. unfold executable. apply _. Defined.
Definition image (b : list Z) : elf_info_t := image_at sizeof_phdr segment_of b.

(** As the format and the comments say: the headers are [e_phentsize] bytes
    apart, and the size in memory is rounded up to whole pages. *)
Definition valid_file (b : list Z) : Prop := executable_at (e_phentsize (ehdr b)) b.
#[export] Instance valid_file_dec b : Decision (valid_file b).
Proof. unfold valid_file. apply _. Defined.
Definition segment (h : Elf32_Phdr) : segment_info :=
  mk_segment (p_offset h) (p_filesz h) ((p_memsz h + 4095) / 4096) (p_vaddr h).
Definition described (b : list Z) : elf_info_t := image_at (e_phentsize (ehdr b)) segment b.
(** Where both readings agree: headers of the usual size, and no segment whose
    size overflows when it is rounded up. *)
Definition standard (b : list Z) : Prop :=
  e_phentsize (ehdr b) = sizeof_phdr /\ Forall (fun h => p_memsz h <= 0x100000000 - 4096) (phdrs sizeof_phdr b).

(** ** Facts *)
Lemma land_2 x : 0 <= x -> (Z.land x 2 =? 0) = negb (Z.testbit x 1).
Proof.
  intros Hx. assert (Hb : forall i, 0 <= i -> Z.testbit (Z.land x 2) i = (Z.testbit x i && (i =? 1))%bool).
  { intros i Hi. rewrite Z.land_spec. f_equal. change 2 with (2 ^ 1). rewrite Z.pow2_bits_eqb by lia. apply Z.eqb_sym. }
  destruct (Z.testbit x 1) eqn:E; cbn.
  - apply Z.eqb_neq. intros H0. specialize (Hb 1 ltac:(lia)). rewrite H0, E in Hb. done.
  - apply Z.eqb_eq. apply Z.bits_inj'. intros i Hi. rewrite Hb, Z.bits_0 by done. destruct (Z.eqb_spec i 1) as [->|]; [by rewrite E|by rewrite andb_false_r].
Qed.

Lemma segment_of_small h : 0 <= p_memsz h <= 0x100000000 - 4096 -> segment_of h = segment h.
Proof.
  intros Hm. unfold segment_of, segment, u32, PAGE_SIZE. f_equal. rewrite Zminus_mod_idemp_l.
  replace (p_memsz h + 4096 - 1) with (p_memsz h + 4095) by lia. by rewrite Z.mod_small by lia.
Qed.

Lemma word_at_u32 b i : Forall is_byte b -> is_u32 (word_at b i).
Proof. intros Hb. by apply word_of_u32, Forall_slice. Qed.
Lemma phdr_u32 b : Forall is_byte b -> is_u32 (p_memsz (phdr_of b)) /\ is_u32 (p_flags (phdr_of b)).
Proof. intros Hb. split; by apply word_at_u32. Qed.

(** The loop without the file. *)
Fixpoint take_headers (hs : list Elf32_Phdr) (segs : Z) (elf : elf_info_t) : option (Z * elf_info_t) :=
  match hs with
  | [] => Some (segs, elf)
  | h :: hs => match take_header h segs elf with None => None | Some (segs, elf) => take_headers hs segs elf end
  end.
Definition segs_of (r w : bool) : Z := Z.b2z r + 2 * Z.b2z w.
Definition some {A} (l : list A) : bool := match l with [] => false | _ => true end.

Lemma take_header_run h r w elf :
  is_u32 (p_flags h) ->
  take_header h (segs_of r w) elf =
    if decide (is_load true h) then if w then None else Some (segs_of r true, set_rw (segment_of h) elf)
    else if decide (is_load false h) then if r then None else Some (segs_of true w, set_ro (segment_of h) elf)
    else if decide (known h) then Some (segs_of r w, elf) else None.
Proof.
  intros Hf. unfold take_header. rewrite land_2 by apply Hf.
  destruct (Z.eqb_spec (p_type h) PT_LOAD) as [Hl|Hl].
  - rewrite Hl. cbn [Z.eqb PT_LOAD PT_NULL PT_NOTE PT_PHDR orb Pos.eqb]. destruct (Z.testbit (p_flags h) 1) eqn:E.
    + rewrite (decide_True (P := is_load true h)) by done. by destruct r, w.
    + rewrite (decide_False (P := is_load true h)) by (intros [_ ?]; congruence). rewrite (decide_True (P := is_load false h)) by done. by destruct r, w.
  - rewrite (decide_False (P := is_load true h)), (decide_False (P := is_load false h)) by (by intros [? _]).
    destruct (decide (known h)) as [[|Hin]|Hout]; [done|..].
    + destruct (Z.eqb_spec (p_type h) PT_NULL); [done|]. destruct (Z.eqb_spec (p_type h) PT_NOTE); [done|].
      destruct (Z.eqb_spec (p_type h) PT_PHDR); [done|]. set_unfold in Hin. tauto.
    + unfold known in Hout. set_unfold in Hout. rewrite !(proj2 (Z.eqb_neq _ _)) by tauto. done.
Qed.

Lemma take_headers_run hs r w elf :
  Forall (fun h => is_u32 (p_memsz h) /\ is_u32 (p_flags h)) hs ->
  let rs := filter (is_load false) hs in let ws := filter (is_load true) hs in
  take_headers hs (segs_of r w) elf =
    if decide (Forall known hs /\ zlen rs + Z.b2z r <= 1 /\ zlen ws + Z.b2z w <= 1) then
      Some (segs_of (r || some rs) (w || some ws), mk_elf (entry_point elf) (first_segment segment_of (ro elf) rs) (first_segment segment_of (rw elf) ws))
    else None.
Proof.
  revert r w elf. induction hs as [|h hs IH]; intros r w elf Hhs rs ws.
  { cbn. rewrite decide_True by (split; [done|]; destruct r, w; cbn; lia). rewrite !orb_false_r. by destruct elf. }
  apply Forall_cons in Hhs as [[Hm Hf] Hhs]. cbn [take_headers]. rewrite take_header_run by done. subst rs ws.
  rewrite !filter_cons. destruct (decide (is_load true h)) as [Hw|Hw].
  - assert (Hr : ~ is_load false h) by (destruct Hw as [_ Hw]; intros [_ ?]; congruence). rewrite (decide_False (P := is_load false h)) by done.
    assert (known h) by (left; apply Hw). destruct w; cbn [length first_segment some set_rw entry_point ro rw].
    + rewrite decide_False by (intros (_ & _ & Hlt); cbn in Hlt; lia). done.
    + rewrite IH by done. cbn [entry_point ro rw set_rw]. destruct (decide (Forall known hs /\ _)) as [(Hk & Hl & Hl')|Hno].
      * rewrite decide_True by (split; [by constructor|]; cbn in *; lia). assert (filter (is_load true) hs = []) as ->.
        { apply length_zero_iff_nil. cbn in Hl'. lia. } done.
      * rewrite decide_False; [done|]. intros (Hk & Hl & Hl'). apply Hno. apply Forall_cons in Hk as [_ Hk]. cbn in *. split; [done|lia].
  - destruct (decide (is_load false h)) as [Hr|Hr].
    + assert (known h) by (left; apply Hr). destruct r; cbn [length first_segment some set_ro entry_point ro rw].
      * rewrite decide_False by (intros (_ & Hlt & _); cbn in Hlt; lia). done.
      * rewrite IH by done. cbn [entry_point ro rw set_ro]. destruct (decide (Forall known hs /\ _)) as [(Hk & Hl & Hl')|Hno].
        -- rewrite decide_True by (split; [by constructor|]; cbn in *; lia). assert (filter (is_load false) hs = []) as ->.
           { apply length_zero_iff_nil. cbn in Hl. lia. } done.
        -- rewrite decide_False; [done|]. intros (Hk & Hl & Hl'). apply Hno. apply Forall_cons in Hk as [_ Hk]. cbn in *. split; [done|lia].
    + destruct (decide (known h)) as [Hk|Hk].
      * rewrite IH by done. assert (Hiff : forall P, (Forall known hs /\ P) <-> (Forall known (h :: hs) /\ P)) by (intros P; rewrite Forall_cons; tauto).
        by rewrite (decide_ext _ _ _ _ (Hiff _)).
      * rewrite decide_False; [done|]. intros (Hall & _). by apply Forall_cons in Hall as [? _].
Qed.

Lemma phdrs_from_S b pos n : 0 <= pos ->
  phdrs_from sizeof_phdr b pos (S n) = phdr_of (slice b (Z.to_nat pos) 32) :: phdrs_from sizeof_phdr b (pos + 32) n.
Proof.
  intros Hpos. unfold phdrs_from, sizeof_phdr. cbn [seq fmap list_fmap]. rewrite Z.mul_0_r, Z.add_0_r. f_equal.
  rewrite <- seq_shift, <- list_fmap_compose. apply list_fmap_ext. intros i k _. unfold compose. do 3 f_equal. lia.
Qed.
Lemma phdrs_from_u32 stride b pos n : Forall is_byte b -> Forall (fun h => is_u32 (p_memsz h) /\ is_u32 (p_flags h)) (phdrs_from stride b pos n).
Proof. intros Hb. apply Forall_forall. intros h (k & -> & _)%list_elem_of_fmap. by apply phdr_u32, Forall_slice. Qed.

(** Where the file is a standard one, the parser's reading is that of the
    format. *)
Lemma standard_agrees b : Forall is_byte b -> standard b -> (executable b <-> valid_file b) /\ image b = described b.
Proof.
  intros Hb [Hstride Hsmall]. unfold valid_file, described, image, executable. rewrite Hstride. split; [done|].
  pose proof (phdrs_from_u32 sizeof_phdr b (e_phoff (ehdr b)) (Z.to_nat (e_phnum (ehdr b))) Hb) as Hu.
  assert (Hseg : forall w, first_segment segment_of no_segment (filter (is_load w) (phdrs sizeof_phdr b)) =
    first_segment segment no_segment (filter (is_load w) (phdrs sizeof_phdr b))).
  { intros w. destruct (filter _ _) as [|h l] eqn:E; [done|]. apply segment_of_small.
    assert (Hin : h ∈ phdrs sizeof_phdr b) by (apply (list_elem_of_filter (is_load w)); rewrite E; by left).
    rewrite Forall_forall in Hsmall, Hu. pose proof (Hsmall h Hin). destruct (Hu h Hin) as [[? _] _]. done. }
  unfold image_at. by rewrite !Hseg.
Qed.

(** The halves and words of a header are those of the file. *)
Lemma slice_slice {A} (l : list A) i n j m : (j + m <= n)%nat -> slice (slice l i n) j m = slice l (i + j) m.
Proof.
  intros H. apply list_eq. intros k. rewrite !lookup_slice. case_decide; [|done].
  rewrite decide_True by lia. f_equal. lia.
Qed.
Lemma half_at_range b i : Forall is_byte b -> 0 <= half_at b i < 65536.
Proof.
  intros Hb. unfold half_at. assert (Forall is_byte (slice b i 2)) as H by by apply Forall_slice.
  destruct (slice b i 2) as [|b0 [|b1 [|]]]; try lia. decompose_Forall_hyps. unfold is_byte in *. lia.
Qed.

Lemma bad_header_run b :
  Forall is_byte b -> 52 <= zlen b ->
  let h := ehdr b in
  bad_header h = Ret (negb (bool_decide (slice b 0 7 = [0x7f; 0x45; 0x4c; 0x46; ELFCLASS32; ELFDATA2MSB; EV_CURRENT] /\
    e_type h = ET_EXEC /\ e_machine h = EM_MIPS /\ e_version h = EV_CURRENT /\ e_phnum h <> 0))).
Proof.
  intros Hb Hl h.
  assert (Hid : e_ident h = slice b 0 16) by (unfold h, ehdr, ehdr_of; cbn [e_ident]; by rewrite slice_slice by lia).
  assert (Hget : forall i, 0 <= i < 16 -> exists x, rget (e_ident h) i = Ret x /\ b !! Z.to_nat i = Some x).
  { intros i Hi. rewrite Hid. destruct (rget_in (slice b 0 16) i) as (x & Hx & Hs); [rewrite length_slice; lia|].
    exists x. split; [done|]. rewrite lookup_slice, decide_True in Hs by lia. done. }
  destruct (Hget EI_CLASS) as (c & Hc & Hcb); [vm_check|]. destruct (Hget EI_DATA) as (d & Hd & Hdb); [vm_check|].
  destruct (Hget EI_VERSION) as (v & Hv & Hvb); [vm_check|].
  assert (H7 : slice b 0 7 = slice b 0 4 ++ [c; d; v]).
  { change 7%nat with (4 + 3)%nat. rewrite <- (slice_app_slice b 0 4 3). f_equal. cbn [Nat.add]. by rewrite (slice_S _ _ _ c), (slice_S _ _ _ d), (slice_S _ _ _ v). }
  assert (H4 : slice (e_ident h) 0 4 = slice b 0 4) by (rewrite Hid; by apply slice_slice; lia).
  assert (Hl4 : length (slice b 0 4) = 4%nat) by (apply length_slice; lia).
  unfold bad_header. rewrite H4, Hc, Hd, Hv. unfold mbind, res_bind. rewrite H7.
  destruct (Z.eqb_spec (word_of (slice b 0 4)) ELF_MAGIC) as [Hm|Hm]; cbn [negb].
  2: { rewrite bool_decide_false; [done|]. intros [Heq _]. apply Hm.
    apply (app_inj_1 _ [0x7f; 0x45; 0x4c; 0x46]) in Heq as [-> _]; [done|by rewrite Hl4]. }
  assert (slice b 0 4 = [0x7f; 0x45; 0x4c; 0x46]) as ->.
  { rewrite <- (word_bytes_of (slice b 0 4) Hl4), Hm by by apply Forall_slice. done. }
  destruct (Z.eqb_spec c ELFCLASS32) as [->|]; [|rewrite bool_decide_false by (intros [[=] _]; congruence); done].
  destruct (Z.eqb_spec d ELFDATA2MSB) as [->|]; [|rewrite bool_decide_false by (intros [[=] _]; congruence); done].
  destruct (Z.eqb_spec (e_machine h) EM_MIPS) as [->|]; [|rewrite bool_decide_false by tauto; done].
  destruct (Z.eqb_spec (e_version h) EV_CURRENT) as [->|]; [|rewrite bool_decide_false by tauto; done].
  destruct (Z.eqb_spec v EV_CURRENT) as [->|]; [|rewrite bool_decide_false by (intros [[=] _]; congruence); done].
  cbn [negb orb]. f_equal. destruct (Z.eqb_spec (e_type h) ET_EXEC) as [->|]; [|rewrite bool_decide_false by tauto; done].
  destruct (Z.eqb_spec (e_phnum h) 0) as [->|]; [rewrite bool_decide_false by tauto; done|by rewrite bool_decide_true].
Qed.

Section parse.
Context {F : Type} `{OF : !OpenFiles F, FC : !FileCalls F}.
Implicit Types (s : F) (b : list Z).

(** The file after some reading. *)
Definition still_open (file : Z) b s s' : Prop := of_ok s' /\ of_same s s' /\ exists pos, of_file s' file pos b.

Lemma read_whole s file pos b buf n (Q : Z * list Z -> F -> Prop) :
  of_ok s -> of_file s file pos b -> 0 < n -> zlen buf = n ->
  (forall r buf' s', still_open file b s s' -> r <> n -> zlen (take (Z.to_nat r) buf') <= n -> (pos <= zlen b -> zlen b < pos + n) -> Q (r, buf') s') ->
  (forall s', of_ok s' -> of_same s s' -> of_file s' file (pos + n) b -> pos + n <= zlen b -> Q (n, slice b (Z.to_nat pos) (Z.to_nat n)) s') ->
  wp (vfs_read file buf n) Q s.
Proof.
  intros Hok Hf Hn Hbuf Hshort Hall. destruct (of_file_open _ _ _ _ Hf) as (_ & Hpos & _). destruct (Z.ltb_spec (zlen b) pos) as [Hlt|Hle].
  - eapply wp_mono; [apply (vfs_read_past s file pos b buf n); first [done|lia]|]. intros [r buf'] s' (Hr & Hok' & Hsame & Hf'). cbn in Hr.
    apply Hshort; [|lia|rewrite length_take; lia|lia]. split; [done|]. split; [done|]. by exists pos.
  - eapply wp_mono; [apply (vfs_read_law s file pos b buf n); first [done|lia]|]. cbv zeta. intros [r buf'] s' ([= -> ->] & Hok' & Hsame & Hf').
    destruct (Z.ltb_spec (zlen b) (pos + n)).
    + apply Hshort; [|lia|rewrite length_take; lia|lia]. split; [done|]. split; [done|]. by eexists.
    + replace (Z.min n (zlen b - pos)) with n in * by lia. rewrite splice_whole by (rewrite length_slice; lia). by apply Hall.
Qed.

Lemma still_open_trans file b s s1 s2 : of_same s s1 -> still_open file b s1 s2 -> still_open file b s s2.
Proof. intros H1 (Hok & H2 & Hf). split; [done|]. split; [|done]. intros h. rewrite (H2 h). apply H1. Qed.

Lemma program_headers_run n s buf file pos segs elf b :
  of_ok s -> of_file s file pos b -> zlen buf = 32 -> Forall is_byte b ->
  wp (program_headers n buf file pos segs elf) (fun a s' => still_open file b s s' /\
    match (if decide (n = O \/ pos + 32 * Z.of_nat n <= zlen b) then take_headers (phdrs_from sizeof_phdr b pos n) segs elf else None) with
    | Some (segs, elf) => a = (Some segs, elf)
    | None => a.1 = None
    end) s.
Proof.
  revert s buf pos segs elf. induction n as [|n IH]; intros s buf pos segs elf Hok Hf Hbuf Hb.
  { apply wp_ret. split; [|by rewrite decide_True by by left]. split; [done|]. split; [done|]. by exists pos. }
  destruct (of_file_open _ _ _ _ Hf) as (_ & Hpos & Hmax). cbn [program_headers]. apply wp_bind, (read_whole s file pos b buf sizeof_phdr); [done|done|done|done|..].
  { intros r buf' s' Hs' Hr _ Hshort. cbn [fst snd]. rewrite (proj2 (Z.eqb_neq _ _) Hr). cbn [negb]. apply wp_ret. split; [done|].
    rewrite decide_False; [done|]. unfold sizeof_phdr in *. intros [|Hle]; [done|]. specialize (Hshort ltac:(lia)). lia. }
  intros s1 Hok1 Hsame1 Hf1 Hle. rewrite Z.eqb_refl. cbn [negb]. change (Z.to_nat sizeof_phdr) with 32%nat. unfold sizeof_phdr in *.
  rewrite phdrs_from_S by lia. cbn [take_headers].
  destruct (take_header (phdr_of (slice b (Z.to_nat pos) 32)) segs elf) as [[segs' elf']|].
  2: { apply wp_ret. split; [|by destruct (decide _)]. split; [done|]. split; [done|]. by eexists. }
  rewrite u32_id, i32_id by (unfold is_u32, is_i32; lia).
  apply wp_bind. eapply wp_mono; [apply (vfs_seek_law s1 file _ (pos + 32) b Hok1 Hf1); lia|]. intros r s2 (_ & Hok2 & Hsame2 & Hf2).
  eapply wp_mono; [apply (IH s2 _ (pos + 32) segs' elf' Hok2 Hf2); [rewrite length_slice; lia|done]|].
  intros [r' elf''] s3 [Hs3 Hres]. split.
  { eapply (still_open_trans _ _ s s2); [|done]. intros h. rewrite (Hsame2 h). apply Hsame1. }
  rewrite (decide_ext (n = O \/ pos + 32 + 32 * Z.of_nat n <= zlen b) (S n = O \/ pos + 32 * Z.of_nat (S n) <= zlen b)) in Hres; [done|].
  split; intros [?|?]; right; lia.
Qed.

Definition good_ident b : Prop :=
  slice b 0 7 = [0x7f; 0x45; 0x4c; 0x46; ELFCLASS32; ELFDATA2MSB; EV_CURRENT] /\
  e_type (ehdr b) = ET_EXEC /\ e_machine (ehdr b) = EM_MIPS /\ e_version (ehdr b) = EV_CURRENT /\ e_phnum (ehdr b) <> 0.
Lemma headers_taken b : 52 <= zlen b -> Forall is_byte b -> good_ident b ->
  let n := Z.to_nat (e_phnum (ehdr b)) in
  let x := if decide (n = O \/ e_phoff (ehdr b) + 32 * Z.of_nat n <= zlen b) then
    take_headers (phdrs sizeof_phdr b) 0 (mk_elf (e_entry (ehdr b)) no_segment no_segment) else None in
  if decide (executable b) then exists segs, x = Some (segs, image b) /\ segs > 0 else x = None \/ exists elf, x = Some (0, elf).
Proof.
  intros Hl Hb Hgood n x. assert (0 <= e_phnum (ehdr b) < 65536) as Hn by by apply half_at_range, Forall_slice.
  assert (Hpos : e_phnum (ehdr b) <> 0) by apply Hgood. subst n. revert x. change 0 with (segs_of false false).
  rewrite (take_headers_run (phdrs sizeof_phdr b) _ _ _ (phdrs_from_u32 _ b _ _ Hb)). cbn [Z.b2z orb entry_point ro rw]. rewrite !Z.add_0_r, Z2Nat.id by lia.
  destruct (decide (Z.to_nat (e_phnum (ehdr b)) = O \/ _)) as [Hin|Hout].
  2: { rewrite decide_False; [by left|]. intros Hx. apply Hout. right. apply Hx. }
  destruct (decide (Forall known (phdrs sizeof_phdr b) /\ _)) as [(Hk & Hr & Hw)|Hno].
  2: { rewrite decide_False; [by left|]. intros Hx. apply Hno. unfold executable, executable_at in Hx. tauto. }
  destruct (decide (executable b)) as [Hx|Hx].
  - eexists. split; [done|]. assert (filter (is_load false) (phdrs sizeof_phdr b) ++ filter (is_load true) (phdrs sizeof_phdr b) <> []) as Hsome by apply Hx.
    by destruct (filter (is_load false) (phdrs sizeof_phdr b)), (filter (is_load true) (phdrs sizeof_phdr b)).
  - right. destruct (filter (is_load false) (phdrs sizeof_phdr b) ++ filter (is_load true) (phdrs sizeof_phdr b)) eqn:E.
    + apply app_eq_nil in E as [-> ->]. by eexists.
    + destruct Hx. destruct Hgood as (? & ? & ? & ? & ?), Hin as [|]; [lia|]. unfold executable, executable_at. rewrite E. done.
Qed.

Lemma elf_parse_run s file b elf_hdr program_hdr elf :
  of_ok s -> of_file s file 0 b -> Forall is_byte b -> e_phoff (ehdr b) < 2147483648 -> zlen elf_hdr = 52 -> zlen program_hdr = 32 ->
  wp (elf_parse_header elf_hdr program_hdr elf file) (fun a s' => still_open file b s s' /\
    if decide (executable b) then a = (1, image b) else a.1 = 0) s.
Proof.
  intros Hok Hf Hb Hoff Hehdr Hphdr. unfold elf_parse_header. apply wp_bind, (read_whole s file 0 b elf_hdr sizeof_ehdr); [done|done|done|done|..].
  { intros r buf s' Hs' Hr _ Hshort. cbn [fst snd]. rewrite (proj2 (Z.eqb_neq _ _) Hr). apply wp_ret. split; [done|].
    rewrite decide_False; [done|]. intros [H52 _]. specialize (Hshort ltac:(lia)). unfold sizeof_ehdr in *. lia. }
  intros s1 Hok1 Hsame1 Hf1 Hlen. cbn [fst snd]. rewrite Z.eqb_refl. cbn [negb]. change (ehdr_of (slice b (Z.to_nat 0) (Z.to_nat sizeof_ehdr))) with (ehdr b).
  unfold sizeof_ehdr in *. apply wp_bind. eapply wp_lift; [by apply bad_header_run; [|lia]|]. case_bool_decide as Hgood; cbn [negb].
  2: { apply wp_ret. split; [split; [done|]; split; [done|]; by eexists|]. rewrite decide_False; [done|]. intros Hx. apply Hgood. unfold executable, executable_at in Hx. tauto. }
  assert (is_u32 (e_phoff (ehdr b))) as [Ho _] by by apply word_at_u32, Forall_slice.
  assert (0 <= e_phnum (ehdr b) < 65536) as [Hn _] by by apply half_at_range, Forall_slice.
  rewrite i32_id by (unfold is_i32; lia). apply wp_bind.
  eapply wp_mono; [apply (vfs_seek_law s1 file _ (e_phoff (ehdr b)) b Hok1 Hf1); lia|]. intros r s2 (_ & Hok2 & Hsame2 & Hf2).
  apply wp_bind. eapply wp_mono; [by apply program_headers_run|]. intros [segs elf'] s3 [Hs3 Hres]. apply wp_ret. split.
  { eapply (still_open_trans _ _ s s2); [|done]. intros h. rewrite (Hsame2 h). apply Hsame1. }
  pose proof (headers_taken b Hlen Hb Hgood) as Ht. cbv zeta in Ht. unfold phdrs in Ht. destruct (decide (executable b)).
  - destruct Ht as (segs' & Ht & Hsegs). rewrite Ht in Hres. injection Hres as -> ->. by rewrite Z.gtb_ltb, (proj2 (Z.ltb_lt _ _)) by lia.
  - destruct Ht as [Ht|[e Ht]]; rewrite Ht in Hres; [cbn in Hres; by subst segs|by injection Hres as -> ->].
Qed.
End parse.
