(* ===== verification/Tfs.v ===== *)
(** * fs/tfs.c: the trivial filesystem

    A volume keeps, on a block device of 512-byte blocks, a header, an
    allocation bitmap, one directory block of 25 entries, and for each file an
    inode block with its size and up to 127 block numbers.  All operations work
    on three block buffers in the page that [tfs_init] takes, under one
    semaphore. *)
From S2P Require Import Prelude Bitmap Libc Cpu Kmalloc Pagepool Thread Sleepq Waiting Semaphore Gbd Sync Bytes.

Definition VFS_NAME_LENGTH : Z := 16.

Definition TFS_BLOCK_SIZE : Z := 512.
Definition TFS_MAGIC : Z := 3745.
Definition TFS_ALLOCATION_BLOCK : Z := 1.
Definition TFS_DIRECTORY_BLOCK : Z := 2.
Definition TFS_VOLUMENAME_MAX : Z := 16.
Definition TFS_FILENAME_MAX : Z := 16.
Definition TFS_BLOCKS_MAX : Z := 127.
Definition TFS_MAX_FILES : Z := 25.
Definition sizeof_tfs_t : Z := 24.
Definition sizeof_fs_t : Z := 52.

(** ** The code *)

(** [tfs_t]; the buffers are the bytes of the three blocks. *)
Record tfs_t := mk_tfs {
  totalblocks : Z;
  lock : Z;                  (** the semaphore *)
  buffer_inode : list Z;
  buffer_bat : list Z;
  buffer_md : list Z;
  tfs_page : Z               (** kernel address of the page, and of the fs_t *)
}.
Definition with_inode (b : list Z) (t : tfs_t) : tfs_t :=
  mk_tfs (totalblocks t) (lock t) b (buffer_bat t) (buffer_md t) (tfs_page t).
Definition with_bat (b : list Z) (t : tfs_t) : tfs_t :=
  mk_tfs (totalblocks t) (lock t) (buffer_inode t) b (buffer_md t) (tfs_page t).
Definition with_md (b : list Z) (t : tfs_t) : tfs_t :=
  mk_tfs (totalblocks t) (lock t) (buffer_inode t) (buffer_bat t) b (tfs_page t).

(** A mounted volume, its device, and the rest of the kernel it uses. *)
Record vol (D S : Type) := mk_vol { v_tfs : tfs_t; v_disk : D; v_sems : S; v_pool : pmem }.
Arguments mk_vol {D S} v_tfs v_disk v_sems v_pool.
Arguments v_tfs {D S} v.
Arguments v_disk {D S} v.
Arguments v_sems {D S} v.
Arguments v_pool {D S} v.

(** The directory entries are 20 bytes: the inode's block number and a name. *)
Definition entry_inode (i : Z) : Z := 5 * i.
Definition entry_name (md : list Z) (i : Z) : list Z := drop (Z.to_nat (20 * i + 4)) md.

(** The first entry, from [i] on, with the given name. *)
Fixpoint find_entry (n : nat) (i : Z) (md filename : list Z) : res (option Z) :=
  match n with
  | O => Ret None
  | S n =>
      c ← stringcmp (entry_name md i) filename;
      if c =? 0 then Ret (Some i) else find_entry n (i + 1) md filename
  end.
(** [tfs_create]'s scan: [None] if the name is taken, otherwise the last free
    entry, -1 if there is none. *)
Fixpoint find_slot (n : nat) (i : Z) (md filename : list Z) (index : Z) : res (option Z) :=
  match n with
  | O => Ret (Some index)
  | S n =>
      c ← stringcmp (entry_name md i) filename;
      if c =? 0 then Ret None
      else
        inode ← get_word md (entry_inode i);
        find_slot n (i + 1) md filename (if inode =? 0 then i else index)
  end.

Section tfs.
Context {D S : Type} `{!BlockDevice D, !Semaphores S, !Symbols}.
Abbreviation volume := (vol D S).

Definition on_disk {A} (m : M D A) : M volume A := fun s =>
  match m (v_disk s) with Ret (a, d) => Ret (a, mk_vol (v_tfs s) d (v_sems s) (v_pool s)) | Fail f => Fail f end.
Definition on_sems {A} (m : M S A) : M volume A := fun s =>
  match m (v_sems s) with Ret (a, x) => Ret (a, mk_vol (v_tfs s) (v_disk s) x (v_pool s)) | Fail f => Fail f end.
Definition on_pool {A} (m : M pmem A) : M volume A := fun s =>
  match m (v_pool s) with Ret (a, x) => Ret (a, mk_vol (v_tfs s) (v_disk s) (v_sems s) x) | Fail f => Fail f end.
Definition get_tfs : M volume tfs_t := gets v_tfs.
Definition upd_tfs (f : tfs_t -> tfs_t) : M volume unit :=
  modify (fun s => mk_vol (f (v_tfs s)) (v_disk s) (v_sems s) (v_pool s)).

(** Reading block [b] into a buffer, and writing a buffer to it. *)
Definition read_into (buf : tfs_t -> list Z) (set : list Z -> tfs_t -> tfs_t) (b : Z) : M volume Z :=
  t ← get_tfs;
  '(r, x) ← on_disk (read_block b (buf t));
  _ ← upd_tfs (set x);
  mret r.
Definition read_inode : Z -> M volume Z := read_into buffer_inode with_inode.
Definition read_bat : Z -> M volume Z := read_into buffer_bat with_bat.
Definition read_md : Z -> M volume Z := read_into buffer_md with_md.
Definition write_from (buf : tfs_t -> list Z) (b : Z) : M volume Z :=
  t ← get_tfs; on_disk (write_block b (buf t)).

(** Operations take the semaphore first and release it on every way out. *)
Definition locked {A} (body : M volume A) : M volume A :=
  t ← get_tfs;
  _ ← on_sems (sem_P (lock t));
  a ← body;
  _ ← on_sems (sem_V (lock t));
  mret a.

(** [ram] is what the page holds, [stack] what the local array [name] holds.
    The answer is the volume name, or [None] for NULL. *)
Definition tfs_init (ram stack : list Z) : M volume (option (list Z)) :=
  s ← gets id;
  if negb (block_size (v_disk s) =? TFS_BLOCK_SIZE) then mret None
  else
    sem ← on_sems (sem_create 1);
    match sem with
    | None => mret None
    | Some sem =>
        phys ← on_pool pagepool_get_phys_page;
        if phys =? 0 then _ ← on_sems (sem_destroy sem); mret None
        else
          let addr := ADDR_PHYS_TO_KERNEL phys in
          _ ← kassert (PAGE_SIZE >=? 3 * TFS_BLOCK_SIZE + sizeof_tfs_t + sizeof_fs_t);
          '(r, header) ← on_disk (read_block 0 (take (Z.to_nat TFS_BLOCK_SIZE) ram));
          let page := splice ram 0 header in
          if r =? 0 then
            _ ← on_sems (sem_destroy sem);
            _ ← on_pool (pagepool_free_phys_page (ADDR_KERNEL_TO_PHYS addr));
            mret None
          else
            magic ← lift (get_word page 0);
            if negb (magic =? TFS_MAGIC) then
              _ ← on_sems (sem_destroy sem);
              _ ← on_pool (pagepool_free_phys_page (ADDR_KERNEL_TO_PHYS addr));
              mret None
            else
              name ← lift (stringcopy stack (drop 4 page) TFS_VOLUMENAME_MAX);
              s ← gets id;
              let buffers := Z.to_nat (sizeof_fs_t + sizeof_tfs_t) in
              let size := Z.to_nat TFS_BLOCK_SIZE in
              _ ← upd_tfs (fun _ => mk_tfs (Z.min (total_blocks (v_disk s)) (8 * TFS_BLOCK_SIZE)) sem
                    (slice page buffers size) (slice page (buffers + size) size) (slice page (buffers + 2 * size) size) addr);
              volume_name ← lift (stringcopy (slice page 4 16) name VFS_NAME_LENGTH);
              mret (Some volume_name)
    end.

Definition tfs_unmount : M volume Z :=
  t ← get_tfs;
  _ ← on_sems (sem_P (lock t));
  _ ← on_sems (sem_destroy (lock t));
  _ ← on_pool (pagepool_free_phys_page (ADDR_KERNEL_TO_PHYS (tfs_page t)));
  mret VFS_OK.

(** The inode number is read from the buffer after the semaphore is
    released. *)
Definition tfs_open (filename : list Z) : M volume Z :=
  r ← locked (
    r ← read_md TFS_DIRECTORY_BLOCK;
    if r =? 0 then mret (inl VFS_ERROR)
    else
      t ← get_tfs;
      e ← lift (find_entry (Z.to_nat TFS_MAX_FILES) 0 (buffer_md t) filename);
      match e with Some i => mret (inr i) | None => mret (inl VFS_NOT_FOUND) end);
  match r with
  | inl code => mret code
  | inr i => t ← get_tfs; inode ← lift (get_word (buffer_md t) (entry_inode i)); mret (i32 inode)
  end.

Definition tfs_close (fileid : Z) : M volume Z := mret VFS_OK.

(** [bitmap_findnset(tfs->buffer_bat, tfs->totalblocks)] *)
Definition findnset_bat : M volume Z :=
  t ← get_tfs;
  '(w, n) ← lift (bitmap_findnset (words_of (buffer_bat t)) (totalblocks t));
  _ ← upd_tfs (with_bat (bytes_of w));
  mret n.
(** [buffer_md[index].inode = x], [buffer_inode->block[i] = x]; block [i] is
    word [i + 1] of the inode. *)
Definition set_entry_inode (index x : Z) : M volume unit :=
  t ← get_tfs; md ← lift (put_word (buffer_md t) (entry_inode index) (u32 x)); upd_tfs (with_md md).
Definition set_inode_word (i x : Z) : M volume unit :=
  t ← get_tfs; b ← lift (put_word (buffer_inode t) i (u32 x)); upd_tfs (with_inode b).

(** [for (i = 0; i < numblocks; i++)]: answers whether all were found. *)
Fixpoint alloc_blocks (n : nat) (i : Z) : M volume bool :=
  match n with
  | O => mret true
  | Datatypes.S n =>
      b ← findnset_bat;
      _ ← set_inode_word (i + 1) b;
      if b =? -1 then mret false else alloc_blocks n (i + 1)
  end.
(** [while (i < 127) block[i++] = 0] *)
Fixpoint clear_blocks (n : nat) (i : Z) : M volume unit :=
  match n with
  | O => mret tt
  | Datatypes.S n => _ ← set_inode_word (i + 1) 0; clear_blocks n (i + 1)
  end.
(** Zeros to the reserved blocks. *)
Fixpoint zero_blocks (n : nat) (i : Z) : M volume Z :=
  match n with
  | O => mret VFS_OK
  | Datatypes.S n =>
      t ← get_tfs;
      b ← lift (get_word (buffer_inode t) (i + 1));
      r ← write_from buffer_bat b;
      if r =? 0 then mret VFS_ERROR else zero_blocks n (i + 1)
  end.

Definition tfs_create (filename : list Z) (size : Z) : M volume Z :=
  x ← lift (int (size + TFS_BLOCK_SIZE));
  let numblocks := u32 (Z.quot (x - 1) TFS_BLOCK_SIZE) in
  locked (
    if numblocks >? TFS_BLOCK_SIZE / 4 - 1 then mret VFS_ERROR
    else
      r ← read_md TFS_DIRECTORY_BLOCK;
      if r =? 0 then mret VFS_ERROR
      else
        t ← get_tfs;
        slot ← lift (find_slot (Z.to_nat TFS_MAX_FILES) 0 (buffer_md t) filename (-1));
        match slot with
        | None => mret VFS_ERROR
        | Some index =>
            if index =? -1 then mret VFS_ERROR
            else
              name ← lift (stringcopy (entry_name (buffer_md t) index) filename TFS_FILENAME_MAX);
              _ ← upd_tfs (with_md (splice (buffer_md t) (Z.to_nat (20 * index + 4)) name));
              r ← read_bat TFS_ALLOCATION_BLOCK;
              if r =? 0 then mret VFS_ERROR
              else
                inode ← findnset_bat;
                _ ← set_entry_inode index inode;
                if inode =? -1 then mret VFS_ERROR
                else
                  _ ← set_inode_word 0 size;
                  ok ← alloc_blocks (Z.to_nat numblocks) 0;
                  if negb ok then mret VFS_ERROR
                  else
                    _ ← clear_blocks (Z.to_nat (TFS_BLOCK_SIZE / 4 - 1 - numblocks)) numblocks;
                    r ← write_from buffer_bat TFS_ALLOCATION_BLOCK;
                    if r =? 0 then mret VFS_ERROR
                    else
                      r ← write_from buffer_md TFS_DIRECTORY_BLOCK;
                      if r =? 0 then mret VFS_ERROR
                      else
                        r ← write_from buffer_inode inode;
                        if r =? 0 then mret VFS_ERROR
                        else
                          t ← get_tfs;
                          zeros ← lift (memoryset (buffer_bat t) 0 TFS_BLOCK_SIZE);
                          _ ← upd_tfs (with_bat zeros);
                          zero_blocks (Z.to_nat numblocks) 0
        end).

(** [while (block[i] != 0 && i < 127)]: the word after the inode buffer, which
    the test reads when all 127 blocks are in use, is the first of the next
    buffer. *)
Fixpoint free_blocks (n : nat) (i : Z) : M volume unit :=
  match n with
  | O => fail Timeout
  | Datatypes.S n =>
      t ← get_tfs;
      b ← lift (get_word (buffer_inode t ++ buffer_bat t) (i + 1));
      if negb (b =? 0) && (i <? TFS_BLOCK_SIZE / 4 - 1) then
        w ← lift (bitmap_set (words_of (buffer_bat t)) (i32 b) 0);
        _ ← upd_tfs (with_bat (bytes_of w));
        free_blocks n (i + 1)
      else mret tt
  end.
Definition tfs_remove (filename : list Z) : M volume Z :=
  locked (
    r ← read_md TFS_DIRECTORY_BLOCK;
    if r =? 0 then mret VFS_ERROR
    else
      t ← get_tfs;
      e ← lift (find_entry (Z.to_nat TFS_MAX_FILES) 0 (buffer_md t) filename);
      match e with
      | None => mret VFS_NOT_FOUND
      | Some index =>
          r ← read_bat TFS_ALLOCATION_BLOCK;
          if r =? 0 then mret VFS_ERROR
          else
            inode ← lift (get_word (buffer_md t) (entry_inode index));
            r ← read_inode inode;
            if r =? 0 then mret VFS_ERROR
            else
              t ← get_tfs;
              w ← lift (bitmap_set (words_of (buffer_bat t)) (i32 inode) 0);
              _ ← upd_tfs (with_bat (bytes_of w));
              _ ← free_blocks (Z.to_nat (TFS_BLOCK_SIZE / 4)) 0;
              _ ← set_entry_inode index 0;
              t ← get_tfs;
              md ← lift (rset (buffer_md t) (20 * index + 4) 0);
              _ ← upd_tfs (with_md md);
              r ← write_from buffer_bat TFS_ALLOCATION_BLOCK;
              if r =? 0 then mret VFS_ERROR
              else
                r ← write_from buffer_md TFS_DIRECTORY_BLOCK;
                if r =? 0 then mret VFS_ERROR else mret VFS_OK
      end).

(** The blocks after the first: [b1] the next block, [b2] the last one, [read]
    bytes are in the buffer. The answer is the return value and the buffer. *)
Fixpoint read_blocks (n : nat) (b1 b2 read bufsize : Z) (buffer : list Z) : M volume (Z * list Z) :=
  match n with
  | O => fail Timeout
  | Datatypes.S n =>
      if b1 <=? b2 then
        t ← get_tfs;
        b ← lift (get_word (buffer_inode t) (b1 + 1));
        r ← read_bat b;
        if r =? 0 then mret (VFS_ERROR, buffer)
        else
          t ← get_tfs;
          if b1 =? b2 then
            buffer ← lift (memcopy_to (bufsize - read) buffer read (buffer_bat t) 0);
            read_blocks n (b1 + 1) b2 (read + (bufsize - read)) bufsize buffer
          else
            buffer ← lift (memcopy_to TFS_BLOCK_SIZE buffer read (buffer_bat t) 0);
            read_blocks n (b1 + 1) b2 (read + TFS_BLOCK_SIZE) bufsize buffer
      else mret (read, buffer)
  end.
Definition tfs_read (fileid : Z) (buffer : list Z) (bufsize offset : Z) : M volume (Z * list Z) :=
  locked (
    t ← get_tfs;
    if (fileid <? 2) || (fileid >? totalblocks t) then mret (VFS_ERROR, buffer)
    else
      r ← read_inode fileid;
      if r =? 0 then mret (VFS_ERROR, buffer)
      else
        t ← get_tfs;
        filesize ← lift (get_word (buffer_inode t) 0);
        if (offset <? 0) || (offset >? i32 filesize) then mret (VFS_ERROR, buffer)
        else
          let bufsize := Z.min bufsize (i32 filesize - offset) in
          if bufsize =? 0 then mret (0, buffer)
          else
            let b1 := Z.quot offset TFS_BLOCK_SIZE in
            let b2 := Z.quot (offset + bufsize - 1) TFS_BLOCK_SIZE in
            b ← lift (get_word (buffer_inode t) (b1 + 1));
            r ← read_bat b;
            if r =? 0 then mret (VFS_ERROR, buffer)
            else
              t ← get_tfs;
              let read := Z.min (TFS_BLOCK_SIZE - Z.rem offset TFS_BLOCK_SIZE) bufsize in
              buffer ← lift (memcopy_to read buffer 0 (buffer_bat t) (Z.rem offset TFS_BLOCK_SIZE));
              read_blocks (Z.to_nat TFS_BLOCKS_MAX + 1) (b1 + 1) b2 read bufsize buffer).

Fixpoint write_blocks (n : nat) (b1 b2 written datasize : Z) (buffer : list Z) : M volume Z :=
  match n with
  | O => fail Timeout
  | Datatypes.S n =>
      if b1 <=? b2 then
        t ← get_tfs;
        b ← lift (get_word (buffer_inode t) (b1 + 1));
        if b1 =? b2 then
          r ← (if datasize - written <? TFS_BLOCK_SIZE then read_bat b else mret 1);
          if r =? 0 then mret VFS_ERROR
          else
            t ← get_tfs;
            bat ← lift (memcopy_to (datasize - written) (buffer_bat t) 0 buffer written);
            _ ← upd_tfs (with_bat bat);
            r ← write_from buffer_bat b;
            if r =? 0 then mret VFS_ERROR else write_blocks n (b1 + 1) b2 datasize datasize buffer
        else
          bat ← lift (memcopy_to TFS_BLOCK_SIZE (buffer_bat t) 0 buffer written);
          _ ← upd_tfs (with_bat bat);
          r ← write_from buffer_bat b;
          if r =? 0 then mret VFS_ERROR else write_blocks n (b1 + 1) b2 (written + TFS_BLOCK_SIZE) datasize buffer
      else mret written
  end.
Definition tfs_write (fileid : Z) (buffer : list Z) (datasize offset : Z) : M volume Z :=
  locked (
    t ← get_tfs;
    if (fileid <? 2) || (fileid >? totalblocks t) then mret VFS_ERROR
    else
      r ← read_inode fileid;
      if r =? 0 then mret VFS_ERROR
      else
        t ← get_tfs;
        filesize ← lift (get_word (buffer_inode t) 0);
        if (offset <? 0) || (offset >? i32 filesize) then mret VFS_ERROR
        else
          let datasize := Z.min datasize (i32 filesize - offset) in
          if datasize =? 0 then mret 0
          else
            let b1 := Z.quot offset TFS_BLOCK_SIZE in
            let b2 := Z.quot (offset + datasize - 1) TFS_BLOCK_SIZE in
            let written := Z.min (TFS_BLOCK_SIZE - Z.rem offset TFS_BLOCK_SIZE) datasize in
            b ← lift (get_word (buffer_inode t) (b1 + 1));
            r ← (if written <? TFS_BLOCK_SIZE then read_bat b else mret 1);
            if r =? 0 then mret VFS_ERROR
            else
              t ← get_tfs;
              bat ← lift (memcopy_to written (buffer_bat t) (Z.rem offset TFS_BLOCK_SIZE) buffer 0);
              _ ← upd_tfs (with_bat bat);
              r ← write_from buffer_bat b;
              if r =? 0 then mret VFS_ERROR
              else write_blocks (Z.to_nat TFS_BLOCKS_MAX + 1) (b1 + 1) b2 written datasize buffer).

(** [for (i = 0; i < totalblocks; i++) allocated += bitmap_get(buffer_bat, i)] *)
Fixpoint count_allocated (n : nat) (i : Z) (bat : list Z) (allocated : Z) : res Z :=
  match n with
  | O => Ret allocated
  | Datatypes.S n => b ← bitmap_get bat i; count_allocated n (i + 1) bat (allocated + b)
  end.
Definition tfs_getfree : M volume Z :=
  locked (
    r ← read_bat TFS_ALLOCATION_BLOCK;
    if r =? 0 then mret VFS_ERROR
    else
      t ← get_tfs;
      allocated ← lift (count_allocated (Z.to_nat (totalblocks t)) 0 (words_of (buffer_bat t)) 0);
      mret (i32 (u32 ((totalblocks t - allocated) * TFS_BLOCK_SIZE)))).
End tfs.

(** ** Files on a device *)
Section files.
Context {D : Type} `{!BlockDevice D}.
Implicit Types (d : D) (f : Z).

(** [d'] holds what [d] holds. *)
Definition same_disk d d' : Prop :=
  block_size d' = block_size d /\ total_blocks d' = total_blocks d /\ (forall c, contents d' c = contents d c) /\
  (reliable d -> reliable d').
(** [d'] holds what [d] holds in the blocks outside [l]. *)
Definition same_outside (l : list Z) d d' : Prop :=
  block_size d' = block_size d /\ total_blocks d' = total_blocks d /\ (forall c, c ∉ l -> contents d' c = contents d c) /\
  (reliable d -> reliable d').

(** The file whose inode is in block [f]: its size, its blocks, its bytes. *)
Definition file_size d f : Z := word (contents d f) 0.
Definition num_blocks d f : nat := Z.to_nat ((file_size d f + 511) / 512).
Definition file_block d f (i : nat) : Z := word (contents d f) (Z.of_nat i + 1).
Definition file_blocks d f : list Z := file_block d f <$> seq 0 (num_blocks d f).
Definition file_data d f : list Z := mjoin (contents d <$> file_blocks d f).
Definition file_bytes d f : list Z := take (Z.to_nat (file_size d f)) (file_data d f).

(** A file of a volume of [total] blocks. *)
Record file_ok (total : Z) d f : Prop := {
  fo_inode : 2 <= f < total;
  fo_size : 0 <= file_size d f <= 65024;
  fo_blocks : Forall (fun b => 0 <= b < total) (file_blocks d f);
  fo_nodup : NoDup (f :: file_blocks d f)
}.

Lemma same_disk_refl d : same_disk d d.
Proof. done. Qed.
Lemma same_disk_trans d d' d'' : same_disk d d' -> same_disk d' d'' -> same_disk d d''.
Proof.
  intros (H1 & H2 & H3 & H4) (H1' & H2' & H3' & H4'). split; [congruence|]. split; [congruence|].
  split; [intros c; by rewrite H3'|auto].
Qed.
Lemma same_disk_outside l d d' d'' : same_disk d d' -> same_outside l d' d'' -> same_outside l d d''.
Proof.
  intros (H1 & H2 & H3 & H4) (H1' & H2' & H3' & H4'). split; [congruence|]. split; [congruence|].
  split; [intros c Hc; by rewrite H3'|auto].
Qed.
Lemma same_outside_trans l d d' d'' : same_outside l d d' -> same_outside l d' d'' -> same_outside l d d''.
Proof.
  intros (H1 & H2 & H3 & H4) (H1' & H2' & H3' & H4'). split; [congruence|]. split; [congruence|].
  split; [intros c Hc; by rewrite H3', H3|auto].
Qed.
Lemma same_disk_is_outside l d d' : same_disk d d' -> same_outside l d d'.
Proof. intros (H1 & H2 & H3 & H4). split; [done|]. split; [done|]. split; [intros c _; apply H3|done]. Qed.

Lemma num_blocks_bound d f :
  0 <= file_size d f <= 65024 ->
  512 * Z.of_nat (num_blocks d f) - 511 <= file_size d f <= 512 * Z.of_nat (num_blocks d f) /\ (num_blocks d f <= 127)%nat.
Proof. intros H. unfold num_blocks. Z.div_mod_to_equations. lia. Qed.

Lemma file_block_in d f i : (i < num_blocks d f)%nat -> file_blocks d f !! i = Some (file_block d f i).
Proof. intros Hi. unfold file_blocks. rewrite list_lookup_fmap, lookup_seq_lt by done. done. Qed.

Lemma length_file_blocks d f : length (file_blocks d f) = num_blocks d f.
Proof. unfold file_blocks. by rewrite length_fmap, length_seq. Qed.

(** Everything about a file depends on the contents of its inode block. *)
Lemma file_blocks_same d d' f : contents d' f = contents d f -> file_blocks d' f = file_blocks d f.
Proof. intros H. unfold file_blocks, num_blocks, file_size, file_block. by rewrite H. Qed.

(** Concatenations of blocks of [n] elements. *)
Lemma length_join_blocks {A} (n : nat) (ls : list (list A)) :
  Forall (fun l => length l = n) ls -> length (mjoin ls) = (n * length ls)%nat.
Proof.
  induction 1 as [|l ls Hl _ IH]; [cbn; lia|]. change (mjoin (l :: ls)) with (l ++ mjoin ls).
  rewrite length_app, Hl, IH. cbn [length]. lia.
Qed.

Lemma lookup_join_blocks {A} (n : nat) (ls : list (list A)) b k l :
  Forall (fun l => length l = n) ls -> ls !! b = Some l -> (k < n)%nat -> mjoin ls !! (n * b + k)%nat = l !! k.
Proof.
  intros Hls. revert b. induction Hls as [|x ls Hx Hls IH]; intros b Hb Hk; [done|].
  change (mjoin (x :: ls)) with (x ++ mjoin ls). destruct b as [|b]; cbn [lookup list_lookup] in Hb.
  - injection Hb as ->. rewrite Nat.mul_0_r, Nat.add_0_l. by rewrite lookup_app_l by lia.
  - rewrite lookup_app_r by nia. rewrite Hx. replace (n * S b + k - n)%nat with (n * b + k)%nat by lia. by apply IH.
Qed.

Context (total : Z).

Lemma blocks_buffers d f :
  file_ok total d f -> block_size d = 512 -> total <= total_blocks d -> Forall (fun l => length l = 512%nat) (contents d <$> file_blocks d f).
Proof.
  intros [_ _ Hb _] Hs Ht. apply Forall_fmap. eapply Forall_impl; [exact Hb|]. intros b Hb'. cbn.
  cbn in *. destruct (contents_ok d b) as [Hl _]; lia.
Qed.

Lemma length_file_data d f :
  file_ok total d f -> block_size d = 512 -> total <= total_blocks d -> length (file_data d f) = (512 * num_blocks d f)%nat.
Proof.
  intros Hf Hs Ht. unfold file_data. rewrite (length_join_blocks 512) by (by apply blocks_buffers).
  by rewrite length_fmap, length_file_blocks.
Qed.

Lemma lookup_file_data d f b k :
  file_ok total d f -> block_size d = 512 -> total <= total_blocks d -> (b < num_blocks d f)%nat -> (k < 512)%nat ->
  file_data d f !! (512 * b + k)%nat = contents d (file_block d f b) !! k.
Proof.
  intros Hf Hs Ht Hb Hk. apply lookup_join_blocks; [by apply blocks_buffers| |done].
  rewrite list_lookup_fmap, file_block_in by done. done.
Qed.

(** Part of one block is part of the file. *)
Lemma slice_file_data d f b k n :
  file_ok total d f -> block_size d = 512 -> total <= total_blocks d -> (b < num_blocks d f)%nat -> (k + n <= 512)%nat ->
  slice (file_data d f) (512 * b + k) n = slice (contents d (file_block d f b)) k n.
Proof.
  intros Hf Hs Ht Hb Hk. apply list_eq. intros j. rewrite !lookup_slice. case_decide; [|done].
  rewrite <- (lookup_file_data d f b (k + j)) by (done || lia). f_equal. lia.
Qed.

Lemma file_ok_same d d' f : contents d' f = contents d f -> file_ok total d f -> file_ok total d' f.
Proof.
  intros Hc [H1 H2 H3 H4]. pose proof (file_blocks_same d d' f Hc) as Hb. split; try done; [|by rewrite Hb..].
  unfold file_size in *. by rewrite Hc.
Qed.

Lemma file_block_lookup d f i :
  file_ok total d f -> (i < num_blocks d f)%nat -> 0 <= file_block d f i < total /\ file_block d f i <> f.
Proof.
  intros [_ _ Hb Hn] Hi. pose proof (file_block_in d f i Hi) as Hin.
  rewrite Forall_lookup in Hb. split; [by apply (Hb i)|]. intros Heq. apply NoDup_cons in Hn as [Hn _]. apply Hn.
  apply (list_elem_of_lookup_2 _ i). by rewrite Hin, Heq.
Qed.

(** Writing inside one block of a file writes inside the file. *)
Lemma update_file_data d d' f b k xs :
  file_ok total d f -> block_size d = 512 -> total <= total_blocks d -> (b < num_blocks d f)%nat ->
  (k + length xs <= 512)%nat ->
  contents d' (file_block d f b) = splice (contents d (file_block d f b)) k xs ->
  (forall c, c <> file_block d f b -> contents d' c = contents d c) ->
  file_data d' f = splice (file_data d f) (512 * b + k) xs.
Proof.
  intros Hf Hs Ht Hb Hk Hw Hother. destruct (file_block_lookup d f b Hf Hb) as [Hrange Hne].
  pose proof (file_block_in d f b Hb) as Hin. pose proof (length_file_data d f Hf Hs Ht) as Hlen.
  assert (Hsame : file_blocks d' f = file_blocks d f) by (apply file_blocks_same, Hother; congruence).
  assert (Hbuf : length (contents d (file_block d f b)) = 512%nat).
  { destruct (contents_ok d (file_block d f b)) as [Hl _]; [lia|]. lia. }
  assert (Hlens : Forall (fun l => length l = 512%nat) (contents d' <$> file_blocks d' f)).
  { rewrite Hsame. pose proof (blocks_buffers d f Hf Hs Ht) as HF. rewrite Forall_fmap in HF. apply Forall_fmap.
    eapply Forall_impl; [exact HF|]. intros c Hc. cbn in *. destruct (decide (c = file_block d f b)) as [->|Hcne].
    - rewrite Hw, length_splice; lia.
    - by rewrite Hother. }
  apply list_eq. intros j. rewrite lookup_splice by lia.
  destruct (decide (j < 512 * num_blocks d f)%nat) as [Hj|Hj].
  2: { rewrite decide_False by lia. rewrite !lookup_ge_None_2; [done|lia|].
       unfold file_data. rewrite (length_join_blocks 512) by done. rewrite length_fmap, Hsame, length_file_blocks. lia. }
  assert (Hdiv : j = (512 * (j / 512) + j mod 512)%nat) by (apply Nat.div_mod_eq).
  pose proof (Nat.mod_upper_bound j 512 ltac:(lia)) as Hmod. set (q := (j / 512)%nat) in *. set (r := (j mod 512)%nat) in *.
  assert (Hq : (q < num_blocks d f)%nat) by lia.
  assert (Hj' : file_data d' f !! j = contents d' (file_block d f q) !! r).
  { rewrite Hdiv. apply lookup_join_blocks; [done| |done]. rewrite list_lookup_fmap, Hsame, file_block_in by done. done. }
  rewrite Hj'. destruct (decide (q = b)) as [->|Hqb].
  - rewrite Hw, lookup_splice by lia. repeat case_decide; try lia; [f_equal; lia|].
    rewrite <- (lookup_file_data d f b r) by done. f_equal. lia.
  - rewrite decide_False by lia. rewrite Hother.
    + rewrite <- (lookup_file_data d f q r) by done. f_equal. lia.
    + intros Heq. apply Hqb. destruct Hf as [_ _ _ Hn]. apply NoDup_cons in Hn as [_ Hn].
      eapply NoDup_lookup; [exact Hn|by apply file_block_in|]. rewrite file_block_in by done. congruence.
Qed.
End files.

(** ** Inside the critical section *)
Section body.
Context {D S : Type} `{!BlockDevice D, !Semaphores S, !Symbols}.
Abbreviation volume := (vol D S).

(** The volume's geometry and buffers. *)
Record body_ok (t : tfs_t) (d : D) : Prop := {
  bo_size : block_size d = 512;
  bo_total : 3 <= totalblocks t <= 4096;
  bo_disk : totalblocks t <= total_blocks d;
  bo_inode : is_buffer 512 (buffer_inode t);
  bo_bat : is_buffer 512 (buffer_bat t);
  bo_md : is_buffer 512 (buffer_md t)
}.
(** Only the buffers differ. *)
Definition same_vol (t t' : tfs_t) : Prop :=
  totalblocks t' = totalblocks t /\ lock t' = lock t /\ tfs_page t' = tfs_page t.
Record vol_ok (s : volume) : Prop := {
  vo_body : body_ok (v_tfs s) (v_disk s);
  vo_inv : sem_inv (v_sems s);
  vo_lock : sem_val (v_sems s) (lock (v_tfs s)) = Some 1
}.

(** What a computation that leaves semaphores and pages alone ends in. *)
Definition wpb {A} (m : M volume A) (R : A -> tfs_t -> D -> Prop) (t : tfs_t) (d : D) : Prop :=
  forall x p, wp m (fun a s => v_sems s = x /\ v_pool s = p /\ R a (v_tfs s) (v_disk s)) (mk_vol t d x p).

Section rules.
Context {A B : Type}.
Implicit Types (R : A -> tfs_t -> D -> Prop) (t : tfs_t) (d : D).

Lemma wpb_ret (a : A) R t d : R a t d -> wpb (mret a) R t d.
Proof. by intros HR x p. Qed.
Lemma wpb_mono (m : M volume A) R (R' : A -> tfs_t -> D -> Prop) t d :
  wpb m R t d -> (forall a t' d', R a t' d' -> R' a t' d') -> wpb m R' t d.
Proof. intros Hm HR x p. eapply wp_mono; [apply Hm|]. intros a s (? & ? & ?). auto. Qed.
Lemma wpb_bind (m : M volume B) (k : B -> M volume A) R t d :
  wpb m (fun b t' d' => wpb (k b) R t' d') t d -> wpb (m ≫= k) R t d.
Proof.
  intros Hm x p. apply wp_bind. eapply wp_mono; [apply Hm|]. intros b [t' d' x' p'] (Hx & Hp & Hk). cbn in *. subst. apply Hk.
Qed.
Lemma wpb_lift (r : res A) (a : A) R t d : r = Ret a -> R a t d -> wpb (lift r) R t d.
Proof. intros -> HR x p. by split_and!. Qed.
End rules.
Lemma wpb_get (R : tfs_t -> tfs_t -> D -> Prop) t d : R t t d -> wpb get_tfs R t d.
Proof. by intros HR x p. Qed.
Lemma wpb_upd f (R : unit -> tfs_t -> D -> Prop) t d : R tt (f t) d -> wpb (upd_tfs f) R t d.
Proof. by intros HR x p. Qed.

(** One block into a buffer. *)
Lemma wpb_read_into buf set b (R : Z -> tfs_t -> D -> Prop) t d :
  body_ok t d -> zlen (buf t) = 512 -> 0 <= b < total_blocks d ->
  (forall r x d', same_disk d d' -> is_buffer 512 x -> (r <> 0 -> x = contents d b) -> (reliable d -> r <> 0) ->
     R r (set x t) d') ->
  wpb (read_into buf set b) R t d.
Proof.
  intros Hok Hbuf Hb HR. apply wpb_bind, wpb_get, wpb_bind. intros x p. unfold wp, on_disk. cbn [v_disk v_tfs v_sems v_pool].
  pose proof (read_spec d b (buf t) Hb) as Hrd. rewrite (bo_size _ _ Hok) in Hrd. specialize (Hrd Hbuf).
  unfold wp in Hrd. destruct (read_block b (buf t) d) as [[[r y] d']|]; [|done].
  destruct Hrd as (Hbs & Htb & Hc & Hl & Hby & Hr & Hrel). split; [done|]. split; [done|].
  apply wpb_bind, wpb_upd, wpb_ret. apply HR.
  - pose proof (bo_size _ _ Hok). split; [cbn; congruence|]. split; [done|]. split; [done|]. intros Hd. by apply Hrel.
  - by split.
  - done.
  - intros Hd. by apply Hrel.
Qed.

Lemma body_inode x t d : body_ok t d -> is_buffer 512 x -> body_ok (with_inode x t) d.
Proof. intros [] ?. by split. Qed.
Lemma body_bat x t d : body_ok t d -> is_buffer 512 x -> body_ok (with_bat x t) d.
Proof. intros [] ?. by split. Qed.
Lemma body_md x t d : body_ok t d -> is_buffer 512 x -> body_ok (with_md x t) d.
Proof. intros [] ?. by split. Qed.
Lemma body_same t d d' : body_ok t d -> same_disk d d' -> body_ok t d'.
Proof. intros [] (? & ? & _). split; first [done|lia|congruence]. Qed.
Lemma body_outside l t d d' : body_ok t d -> same_outside l d d' -> body_ok t d'.
Proof. intros [] (? & ? & _). split; first [done|lia|congruence]. Qed.

Lemma wpb_read_inode b (R : Z -> tfs_t -> D -> Prop) t d :
  body_ok t d -> 0 <= b < total_blocks d ->
  (forall r x d', same_disk d d' -> body_ok (with_inode x t) d' -> (r <> 0 -> x = contents d b) ->
     (reliable d -> r <> 0) -> R r (with_inode x t) d') -> wpb (read_inode b) R t d.
Proof.
  intros Hok Hb HR. apply wpb_read_into; [done|apply Hok|done|]. intros r x d' Hs Hx Hr Hrel.
  apply HR; try done. apply body_inode; [by apply (body_same _ d)|done].
Qed.
Lemma wpb_read_bat b (R : Z -> tfs_t -> D -> Prop) t d :
  body_ok t d -> 0 <= b < total_blocks d ->
  (forall r x d', same_disk d d' -> body_ok (with_bat x t) d' -> (r <> 0 -> x = contents d b) ->
     (reliable d -> r <> 0) -> R r (with_bat x t) d') -> wpb (read_bat b) R t d.
Proof.
  intros Hok Hb HR. apply wpb_read_into; [done|apply Hok|done|]. intros r x d' Hs Hx Hr Hrel.
  apply HR; try done. apply body_bat; [by apply (body_same _ d)|done].
Qed.
Lemma wpb_read_md b (R : Z -> tfs_t -> D -> Prop) t d :
  body_ok t d -> 0 <= b < total_blocks d ->
  (forall r x d', same_disk d d' -> body_ok (with_md x t) d' -> (r <> 0 -> x = contents d b) ->
     (reliable d -> r <> 0) -> R r (with_md x t) d') -> wpb (read_md b) R t d.
Proof.
  intros Hok Hb HR. apply wpb_read_into; [done|apply Hok|done|]. intros r x d' Hs Hx Hr Hrel.
  apply HR; try done. apply body_md; [by apply (body_same _ d)|done].
Qed.
Lemma wpb_write_from buf b (R : Z -> tfs_t -> D -> Prop) t d :
  body_ok t d -> is_buffer 512 (buf t) -> 0 <= b < total_blocks d ->
  (forall r d', same_outside [b] d d' -> (r <> 0 -> contents d' b = buf t) -> (reliable d -> r <> 0) ->
     body_ok t d' -> R r t d') ->
  wpb (write_from buf b) R t d.
Proof.
  intros Hok Hbuf Hb HR. apply wpb_bind, wpb_get. intros x p. unfold wp, on_disk. cbn [v_disk v_tfs v_sems v_pool].
  pose proof (write_spec d b (buf t) Hb) as Hwr. rewrite (bo_size _ _ Hok) in Hwr. specialize (Hwr Hbuf).
  unfold wp in Hwr. destruct (write_block b (buf t) d) as [[r d']|]; [|done].
  destruct Hwr as (Hbs & Htb & Hc & Hr & Hrel). split; [done|]. split; [done|].
  assert (Hout : same_outside [b] d d').
  { pose proof (bo_size _ _ Hok). split; [congruence|]. split; [done|]. split; [|intros Hd; by apply Hrel].
    intros c Hc'. apply Hc. by intros ->; apply Hc', list_elem_of_singleton. }
  apply HR; [done|done|intros Hd; by apply Hrel|by apply (body_outside [b] _ d)].
Qed.

(** The semaphore is back where it was, whatever way the body takes. *)
Lemma wp_locked {A} (body : M volume A) (R : A -> tfs_t -> D -> Prop) s :
  vol_ok s -> wpb body (fun a t d => same_vol (v_tfs s) t /\ body_ok t d /\ R a t d) (v_tfs s) (v_disk s) ->
  wp (locked body) (fun a s' => vol_ok s' /\ same_vol (v_tfs s) (v_tfs s') /\ v_pool s' = v_pool s /\
    (forall j, sem_val (v_sems s') j = sem_val (v_sems s) j) /\ R a (v_tfs s') (v_disk s')) s.
Proof.
  intros [Hb Hinv Hlock] Hbody. unfold locked. apply wp_bind, wp_gets, wp_bind.
  pose proof (sem_P_spec (v_sems s) (lock (v_tfs s)) 1 Hinv Hlock ltac:(lia)) as HP. unfold wp at 1, on_sems. unfold wp in HP.
  destruct (sem_P (lock (v_tfs s)) (v_sems s)) as [[[] x1]|]; [|done]. destruct HP as (Hinv1 & Hval1).
  apply wp_bind. eapply wp_mono; [apply Hbody|]. intros a [t' d' x' p'] (Hx & Hp & (Ht & Hl & Hpg) & Hb' & HR). cbn in *. subst x' p'.
  apply wp_bind.
  pose proof (sem_V_spec x1 (lock (v_tfs s)) 0 Hinv1) as HV. rewrite Hval1, Z.eqb_refl in HV. specialize (HV eq_refl ltac:(lia)).
  unfold wp at 1. cbn [v_sems]. unfold wp in HV.
  destruct (sem_V (lock (v_tfs s)) x1) as [[[] x2]|]; [|done]. destruct HV as (Hinv2 & Hval2). apply wp_ret.
  assert (Hall : forall j, sem_val x2 j = sem_val (v_sems s) j).
  { intros j. rewrite Hval2, Hval1. destruct (Z.eqb_spec j (lock (v_tfs s))) as [->|]; [by rewrite Hlock|done]. }
  split; [split; cbn; [done|done|by rewrite Hl, Hall]|]. by split_and!.
Qed.

Lemma same_vol_refl t : same_vol t t.
Proof. done. Qed.
Lemma same_vol_trans t t' t'' : same_vol t t' -> same_vol t' t'' -> same_vol t t''.
Proof. intros (? & ? & ?) (? & ? & ?). unfold same_vol. split_and!; congruence. Qed.

(** ** Reading *)

Lemma same_disk_file d d' f :
  same_disk d d' -> file_data d' f = file_data d f /\ file_blocks d' f = file_blocks d f /\ file_size d' f = file_size d f /\
    (forall total, file_ok total d f -> file_ok total d' f).
Proof.
  intros (_ & _ & Hc & _). pose proof (file_blocks_same d d' f (Hc f)) as Hb.
  split; [|split; [done|split; [unfold file_size; by rewrite Hc|intros total; by apply file_ok_same]]].
  unfold file_data. rewrite Hb. f_equal. apply list_fmap_ext. intros i x _. apply Hc.
Qed.

(** The position of byte [offset] in the blocks. *)
Lemma block_pos d f offset n :
  0 <= offset -> 1 <= n -> offset + n <= file_size d f -> 0 <= file_size d f <= 65024 ->
  let b2 := (offset + n - 1) / 512 in
  0 <= offset / 512 <= b2 /\ (Z.to_nat b2 < num_blocks d f)%nat /\ b2 <= 126.
Proof. intros. subst b2. unfold num_blocks. Z.div_mod_to_equations. lia. Qed.

(** What [read] bytes read so far make of the buffer. *)
Definition read_so_far (data buf0 : list Z) (offset read : Z) : list Z :=
  splice buf0 0 (slice data (Z.to_nat offset) (Z.to_nat read)).

Lemma read_more data buf0 (blk : list Z) offset read n b :
  0 <= offset -> 0 <= read -> 0 <= n -> offset + read + n <= zlen data -> read + n <= zlen buf0 ->
  offset + read = 512 * b -> 0 <= b -> slice data (Z.to_nat (512 * b)) (Z.to_nat n) = slice blk 0 (Z.to_nat n) -> n <= zlen blk ->
  memcopy_to n (read_so_far data buf0 offset read) read blk 0 = Ret (read_so_far data buf0 offset (read + n)).
Proof.
  intros Ho Hr Hn Hd Hb Hpos Hb0 Hsl Hblk. unfold read_so_far.
  assert (Hlen : length (slice data (Z.to_nat offset) (Z.to_nat read)) = Z.to_nat read) by (apply length_slice; lia).
  rewrite memcopy_to_run by (rewrite ?length_splice; lia). f_equal. change (Z.to_nat 0) with 0%nat. rewrite <- Hsl.
  set (ys := slice data (Z.to_nat (512 * b)) (Z.to_nat n)).
  assert (Hys : length ys = Z.to_nat n) by (apply length_slice; lia).
  pose proof (splice_splice_app buf0 0 (slice data (Z.to_nat offset) (Z.to_nat read)) ys) as Happ.
  rewrite Hlen, Nat.add_0_l in Happ. rewrite Happ by lia. f_equal. subst ys.
  replace (Z.to_nat (512 * b)) with (Z.to_nat offset + Z.to_nat read)%nat by lia. rewrite slice_app_slice. f_equal. lia.
Qed.

Lemma get_block t d f b :
  buffer_inode t = contents d f -> zlen (buffer_inode t) = 512 -> 0 <= b <= 126 ->
  get_word (buffer_inode t) (b + 1) = Ret (file_block d f (Z.to_nat b)).
Proof.
  intros Hi Hl Hb. rewrite get_word_word by lia. unfold file_block. rewrite <- Hi. do 2 f_equal. lia.
Qed.

Definition read_ends (d0 : D) (f : Z) (buf0 : list Z) (offset n : Z) (t : tfs_t) (a : Z * list Z) (t' : tfs_t) (d' : D) : Prop :=
  same_vol t t' /\ body_ok t' d' /\ same_disk d0 d' /\
  ((a.1 = VFS_ERROR /\ ~ reliable d0) \/ a = (n, read_so_far (file_data d0 f) buf0 offset n)).

Lemma reliable_same d d' r : same_disk d d' -> (reliable d' -> r <> 0) -> r = 0 -> ~ reliable d.
Proof. intros (_ & _ & _ & Hk) Hr -> Hd. by apply Hr; [apply Hk|]. Qed.

Lemma read_blocks_run n d0 f buf0 offset bufsize b1 t d :
  body_ok t d -> same_disk d0 d -> buffer_inode t = contents d0 f -> file_ok (totalblocks t) d0 f ->
  0 <= offset -> 1 <= bufsize -> offset + bufsize <= file_size d0 f -> bufsize <= zlen buf0 ->
  offset / 512 < b1 <= (offset + bufsize - 1) / 512 + 1 -> (offset + bufsize - 1) / 512 - b1 + 2 <= Z.of_nat n ->
  let read := Z.min (512 * b1 - offset) bufsize in
  wpb (read_blocks n b1 ((offset + bufsize - 1) / 512) read bufsize (read_so_far (file_data d0 f) buf0 offset read))
    (read_ends d0 f buf0 offset bufsize t) t d.
Proof.
  intros Hok Hd Hino Hf Ho Hn Hsz Hbuf. revert b1 t d Hok Hd Hino Hf. induction n as [|n IH]; intros b1 t d Hok Hd Hino Hf Hb1 Hfuel.
  { cbn in Hfuel. lia. }
  cbv zeta. pose proof (fo_size _ _ _ Hf) as Hsize.
  destruct (block_pos d0 f offset bufsize Ho Hn Hsz Hsize) as ([Hp1 Hp2] & Hp3 & Hp4).
  set (b2 := (offset + bufsize - 1) / 512) in *. cbn [read_blocks]. destruct (Z.leb_spec b1 b2) as [Hle|Hgt].
  2: { apply wpb_ret. replace (Z.min (512 * b1 - offset) bufsize) with bufsize by (subst b2; Z.div_mod_to_equations; lia).
       split; [done|]. split; [done|]. split; [done|]. by right. }
  apply wpb_bind, wpb_get, wpb_bind.
  eapply wpb_lift.
  { rewrite Hino. rewrite get_word_word; [reflexivity|lia|]. rewrite <- Hino. destruct (bo_inode _ _ Hok) as [-> _]. lia. }
  assert (Hblk : word (contents d0 f) (b1 + 1) = file_block d0 f (Z.to_nat b1)).
  { unfold file_block. do 2 f_equal. lia. }
  rewrite Hblk. destruct (file_block_lookup _ d0 f (Z.to_nat b1) Hf) as [Hrange _]; [lia|].
  pose proof (bo_disk _ _ Hok) as Htot. pose proof Hd as (Hbs & Htb & Hcont & Hrelk).
  apply wpb_bind, wpb_read_bat; [done|lia|]. intros r x d' Hs Hok' Hx Hrel.
  destruct (Z.eqb_spec r 0) as [Hr|Hr].
  { apply wpb_ret. split; [done|]. split; [done|]. split; [by apply (same_disk_trans _ d)|]. left. split; [done|].
    by apply (reliable_same d0 d r). }
  rewrite Hcont in Hx. specialize (Hx Hr). apply wpb_bind, wpb_get.
  pose proof (bo_size _ _ Hok) as Hbsz. assert (Hbs0 : block_size d0 = 512) by congruence.
  assert (Htot0 : totalblocks t <= total_blocks d0) by lia.
  pose proof (length_file_data _ d0 f Hf Hbs0 Htot0) as Hlen.
  pose proof (bo_bat _ _ Hok') as [Hxl _]. cbn [with_bat buffer_bat] in *.
  destruct (num_blocks_bound d0 f Hsize) as [[_ Hnb] _].
  (* one more block, whole or the last part *)
  assert (Hstep : forall m, 1 <= m <= 512 -> 512 * b1 - offset + m <= bufsize ->
    memcopy_to m (read_so_far (file_data d0 f) buf0 offset (512 * b1 - offset)) (512 * b1 - offset) x 0 =
      Ret (read_so_far (file_data d0 f) buf0 offset (512 * b1 - offset + m))).
  { intros m Hm Hmax. apply (read_more _ _ _ _ _ _ b1); try lia.
    - Z.div_mod_to_equations; lia.
    - rewrite Hx. replace (Z.to_nat (512 * b1)) with (512 * Z.to_nat b1 + 0)%nat by lia.
      apply (slice_file_data (totalblocks t)); [done|done|done|lia|lia]. }
  replace (Z.min (512 * b1 - offset) bufsize) with (512 * b1 - offset) by (subst b2; Z.div_mod_to_equations; lia).
  assert (Hnext : forall m, 1 <= m -> 512 * b1 - offset + m = Z.min (512 * (b1 + 1) - offset) bufsize -> wpb
    (read_blocks n (b1 + 1) b2 (512 * b1 - offset + m) bufsize (read_so_far (file_data d0 f) buf0 offset (512 * b1 - offset + m)))
    (read_ends d0 f buf0 offset bufsize t) (with_bat x t) d').
  { intros m Hm Heq. rewrite Heq. eapply wpb_mono; [apply (IH (b1 + 1) (with_bat x t) d'); try done; [by apply (same_disk_trans _ d)|lia|lia]|done]. }
  destruct (Z.eqb_spec b1 b2) as [Heq|Hne].
  - apply wpb_bind. eapply wpb_lift; [apply Hstep; subst b2; Z.div_mod_to_equations; lia|].
    apply Hnext; subst b2; Z.div_mod_to_equations; lia.
  - apply wpb_bind. eapply wpb_lift; [apply Hstep; unfold TFS_BLOCK_SIZE; subst b2; Z.div_mod_to_equations; lia|].
    apply Hnext; unfold TFS_BLOCK_SIZE; subst b2; Z.div_mod_to_equations; lia.
Qed.

Lemma slice_file_bytes d f offset n :
  0 <= offset -> 0 <= n -> offset + n <= file_size d f ->
  slice (file_bytes d f) (Z.to_nat offset) (Z.to_nat n) = slice (file_data d f) (Z.to_nat offset) (Z.to_nat n).
Proof. intros. unfold file_bytes. apply slice_take. lia. Qed.

(** The inode block is in the buffer, the offset in the file. *)
Lemma get_size t d f :
  buffer_inode t = contents d f -> zlen (buffer_inode t) = 512 -> get_word (buffer_inode t) 0 = Ret (file_size d f).
Proof. intros Hi Hl. rewrite get_word_word by lia. by rewrite Hi. Qed.

Lemma read_so_far_nil data buf0 offset : read_so_far data buf0 offset 0 = buf0.
Proof. unfold read_so_far. change (Z.to_nat 0) with 0%nat. unfold slice. by rewrite take_0, splice_nil. Qed.

(** [tfs_read] once the inode is read and the offset checked. *)
Lemma read_tail_run d0 f buf0 offset bufsize t d :
  body_ok t d -> same_disk d0 d -> buffer_inode t = contents d0 f -> file_ok (totalblocks t) d0 f ->
  0 <= offset -> 1 <= bufsize -> offset + bufsize <= file_size d0 f -> bufsize <= zlen buf0 ->
  wpb (b ← lift (get_word (buffer_inode t) (Z.quot offset TFS_BLOCK_SIZE + 1));
       r ← read_bat b;
       if r =? 0 then mret (VFS_ERROR, buf0)
       else
         t ← get_tfs;
         let read := Z.min (TFS_BLOCK_SIZE - Z.rem offset TFS_BLOCK_SIZE) bufsize in
         buffer ← lift (memcopy_to read buf0 0 (buffer_bat t) (Z.rem offset TFS_BLOCK_SIZE));
         read_blocks (Z.to_nat TFS_BLOCKS_MAX + 1) (Z.quot offset TFS_BLOCK_SIZE + 1)
           (Z.quot (offset + bufsize - 1) TFS_BLOCK_SIZE) read bufsize buffer)
    (read_ends d0 f buf0 offset bufsize t) t d.
Proof.
  intros Hok Hd Hino Hf Ho Hn Hsz Hbuf. pose proof (fo_size _ _ _ Hf) as Hsize. unfold TFS_BLOCK_SIZE.
  rewrite !Z.quot_div_nonneg, !Z.rem_mod_nonneg by lia.
  destruct (block_pos d0 f offset bufsize Ho Hn Hsz Hsize) as ([Hp1 Hp2] & Hp3 & Hp4).
  destruct (bo_inode _ _ Hok) as [Hil _]. set (b1 := offset / 512) in *.
  apply wpb_bind. eapply wpb_lift; [apply (get_block t d0 f); [done|done|lia]|].
  destruct (file_block_lookup _ d0 f (Z.to_nat b1) Hf) as [Hrange _]; [lia|].
  pose proof (bo_disk _ _ Hok) as Htot. pose proof Hd as (Hbs & Htb & Hcont & _).
  apply wpb_bind, wpb_read_bat; [done|lia|]. intros r x d' Hs Hok' Hx Hrel.
  destruct (Z.eqb_spec r 0) as [Hr|Hr].
  { apply wpb_ret. split; [done|]. split; [done|]. split; [by apply (same_disk_trans _ d)|]. left. split; [done|].
    by apply (reliable_same d0 d r). }
  rewrite Hcont in Hx. specialize (Hx Hr). apply wpb_bind, wpb_get. cbv zeta. cbn [with_bat buffer_bat].
  pose proof (bo_size _ _ Hok) as Hbsz. assert (Hbs0 : block_size d0 = 512) by congruence.
  assert (Htot0 : totalblocks t <= total_blocks d0) by lia.
  pose proof (length_file_data _ d0 f Hf Hbs0 Htot0) as Hlen. destruct (num_blocks_bound d0 f Hsize) as [[_ Hnb] _].
  pose proof (bo_bat _ _ Hok') as [Hxl _]. cbn [with_bat buffer_bat] in Hxl.
  assert (Hread : Z.min (512 - offset mod 512) bufsize = Z.min (512 * (b1 + 1) - offset) bufsize).
  { subst b1. Z.div_mod_to_equations. lia. }
  assert (Hmod : 0 <= offset mod 512 < 512 /\ offset = 512 * b1 + offset mod 512) by (subst b1; Z.div_mod_to_equations; lia).
  rewrite Hread. apply wpb_bind. eapply wpb_lift.
  { rewrite memcopy_to_run by lia. reflexivity. }
  eapply wpb_mono.
  { assert (Hfirst : splice buf0 (Z.to_nat 0) (slice x (Z.to_nat (offset mod 512)) (Z.to_nat (Z.min (512 * (b1 + 1) - offset) bufsize)))
      = read_so_far (file_data d0 f) buf0 offset (Z.min (512 * (b1 + 1) - offset) bufsize)).
    { unfold read_so_far. change (Z.to_nat 0) with 0%nat. f_equal. rewrite Hx.
      replace (Z.to_nat offset) with (512 * Z.to_nat b1 + Z.to_nat (offset mod 512))%nat by lia.
      symmetry. apply (slice_file_data (totalblocks t)); [done|done|done|lia|lia]. }
    rewrite Hfirst. apply (read_blocks_run _ d0 f buf0 offset bufsize (b1 + 1) (with_bat x t) d'); try done; try lia.
    - by apply (same_disk_trans _ d).
    - unfold TFS_BLOCKS_MAX. lia. }
  done.
Qed.

Lemma tfs_read_run s f buffer bufsize offset :
  vol_ok s -> file_ok (totalblocks (v_tfs s)) (v_disk s) f -> 0 <= bufsize <= zlen buffer ->
  let d := v_disk s in let n := Z.min bufsize (file_size d f - offset) in
  wp (tfs_read f buffer bufsize offset) (fun a s' => vol_ok s' /\ same_vol (v_tfs s) (v_tfs s') /\ v_pool s' = v_pool s /\
    (forall j, sem_val (v_sems s') j = sem_val (v_sems s) j) /\ same_disk d (v_disk s') /\
    ((a.1 = VFS_ERROR /\ ~ reliable d) \/
     if (offset <? 0) || (offset >? file_size d f) then a = (VFS_ERROR, buffer)
     else a = (n, splice buffer 0 (slice (file_bytes d f) (Z.to_nat offset) (Z.to_nat n))))) s.
Proof.
  intros Hvol Hf Hbuf. pose proof (vo_body _ Hvol) as Hok. destruct s as [t d sm p]. cbn [v_tfs v_disk] in *. cbv zeta.
  pose proof (fo_size _ _ _ Hf) as Hsize. pose proof (fo_inode _ _ _ Hf) as Hino. pose proof (bo_disk _ _ Hok) as Htot.
  eapply wp_mono.
  { apply (wp_locked _ (fun a t' d' => same_disk d d' /\ ((a.1 = VFS_ERROR /\ ~ reliable d) \/
      if (offset <? 0) || (offset >? file_size d f) then a = (VFS_ERROR, buffer)
      else a = (Z.min bufsize (file_size d f - offset),
                splice buffer 0 (slice (file_bytes d f) (Z.to_nat offset) (Z.to_nat (Z.min bufsize (file_size d f - offset))))))));
      [exact Hvol|]. cbn [v_tfs v_disk].
    apply wpb_bind, wpb_get. replace ((f <? 2) || (f >? totalblocks t)) with false by (destruct (Z.ltb_spec f 2), (Z.gtb_spec f (totalblocks t)); cbn; lia).
    apply wpb_bind, wpb_read_inode; [done|lia|]. intros r x d' Hs Hok' Hx Hrel.
    destruct (Z.eqb_spec r 0) as [Hr|Hr].
    { apply wpb_ret. split; [done|]. split; [done|]. split; [done|]. left. split; [done|]. intros Hd. by apply Hrel. }
    specialize (Hx Hr). apply wpb_bind, wpb_get, wpb_bind. destruct (bo_inode _ _ Hok') as [Hil _].
    eapply wpb_lift; [apply (get_size (with_inode x t) d f); done|]. rewrite i32_id by (unfold is_i32; lia).
    destruct (Z.ltb_spec offset 0), (Z.gtb_spec offset (file_size d f)); cbn [orb];
      try (apply wpb_ret; split; [done|]; split; [done|]; split; [done|]; by right).
    set (n := Z.min bufsize (file_size d f - offset)). destruct (Z.eqb_spec n 0) as [Hn|Hn].
    { apply wpb_ret. rewrite Hn. split; [done|]. split; [done|]. split; [done|]. right.
      change (Z.to_nat 0) with 0%nat. unfold slice. by rewrite take_0, splice_nil. }
    eapply wpb_mono; [apply (read_tail_run d f buffer offset n (with_inode x t) d'); try done; subst n; lia|].
    intros a t' d'' (Hv & Hok'' & Hs' & Hend). split; [done|]. split; [done|]. split; [done|].
    destruct Hend as [Herr|Hres]; [by left|right]. rewrite Hres. unfold read_so_far. by rewrite slice_file_bytes by lia. }
  intros a s' (? & ? & ? & ? & ? & ?). by split_and!.
Qed.

(** ** Writing *)

Definition written_so_far (data buf : list Z) (offset w : Z) : list Z :=
  splice data (Z.to_nat offset) (take (Z.to_nat w) buf).

(** One more run of bytes, inside block [b]. *)
Lemma write_more total d d' f buf data0 x offset w m k b :
  file_ok total d f -> block_size d = 512 -> total <= total_blocks d -> 0 <= b < Z.of_nat (num_blocks d f) ->
  0 <= offset -> 0 <= w -> 0 <= m -> 0 <= k -> k + m <= 512 -> w + m <= zlen buf -> offset + w = 512 * b + k ->
  offset + w + m <= zlen data0 -> zlen data0 = zlen (file_data d f) ->
  file_data d f = written_so_far data0 buf offset w -> zlen x = 512 ->
  x = contents d (file_block d f (Z.to_nat b)) \/ m = 512 ->
  contents d' (file_block d f (Z.to_nat b)) = splice x (Z.to_nat k) (slice buf (Z.to_nat w) (Z.to_nat m)) ->
  same_outside [file_block d f (Z.to_nat b)] d d' ->
  file_data d' f = written_so_far data0 buf offset (w + m).
Proof.
  intros Hf Hs Ht Hb Ho Hw Hm Hk Hkm Hbuf Hpos Hend Hlen Hdata Hx Hwhole Hc (_ & _ & Hout & _).
  assert (Hxs : length (slice buf (Z.to_nat w) (Z.to_nat m)) = Z.to_nat m) by (apply length_slice; lia).
  rewrite (update_file_data total d d' f (Z.to_nat b) (Z.to_nat k) (slice buf (Z.to_nat w) (Z.to_nat m))); try done; try lia.
  - rewrite Hdata. unfold written_so_far. replace (512 * Z.to_nat b + Z.to_nat k)%nat with (Z.to_nat offset + Z.to_nat w)%nat by lia.
    assert (Htk : length (take (Z.to_nat w) buf) = Z.to_nat w) by (rewrite length_take; lia).
    pose proof (splice_splice_app data0 (Z.to_nat offset) (take (Z.to_nat w) buf) (slice buf (Z.to_nat w) (Z.to_nat m))) as Happ.
    rewrite Htk in Happ. rewrite Happ by lia. f_equal.
    change (take (Z.to_nat w) buf) with (slice buf 0 (Z.to_nat w)). change (Z.to_nat w) with (0 + Z.to_nat w)%nat at 2.
    rewrite slice_app_slice. unfold slice. rewrite drop_0. f_equal. lia.
  - destruct (contents_ok d (file_block d f (Z.to_nat b))) as [Hcl _].
    { destruct (file_block_lookup total d f (Z.to_nat b) Hf) as [? _]; lia. }
    destruct Hwhole as [Hxc | ->]; [by rewrite Hc, Hxc|]. assert (k = 0) as -> by lia. rewrite Hc. rewrite !splice_whole; [done|lia|lia].
  - intros c Hne. apply Hout. by rewrite list_elem_of_singleton.
Qed.

Definition write_ends (d0 : D) (f : Z) (buf : list Z) (offset n : Z) (t : tfs_t) (r : Z) (t' : tfs_t) (d' : D) : Prop :=
  same_vol t t' /\ body_ok t' d' /\ same_outside (file_blocks d0 f) d0 d' /\
  ((r = VFS_ERROR /\ ~ reliable d0) \/ (r = n /\ file_data d' f = written_so_far (file_data d0 f) buf offset n)).

(** A file whose blocks are being written. *)
Lemma outside_file total d0 d f :
  file_ok total d0 f -> same_outside (file_blocks d0 f) d0 d ->
  contents d f = contents d0 f /\ file_blocks d f = file_blocks d0 f /\ file_ok total d f /\ file_size d f = file_size d0 f /\
  (forall i, file_block d f i = file_block d0 f i).
Proof.
  intros Hf (_ & _ & Hout & _). pose proof (fo_nodup _ _ _ Hf) as [Hn _]%NoDup_cons. pose proof (Hout f Hn) as Hc.
  split; [done|]. split; [by apply file_blocks_same|]. split; [by apply (file_ok_same total d0)|].
  unfold file_size, file_block. by rewrite Hc.
Qed.

(** What holds between the blocks of a write. *)
Record writing (d0 : D) (f : Z) (buf : list Z) (offset w : Z) (t : tfs_t) (d : D) : Prop := {
  wr_body : body_ok t d;
  wr_out : same_outside (file_blocks d0 f) d0 d;
  wr_inode : buffer_inode t = contents d0 f;
  wr_data : file_data d f = written_so_far (file_data d0 f) buf offset w
}.

(** Writing the block buffer [x'] made of [x] and the next [m] bytes; [b] is
    the number of the block in the file. *)
Lemma write_block_run {A} (next : Z -> M volume A) d0 f buf offset w m k b t d x (R : A -> tfs_t -> D -> Prop) :
  writing d0 f buf offset w t d -> file_ok (totalblocks t) d0 f -> 0 <= b < Z.of_nat (num_blocks d0 f) ->
  0 <= offset -> 0 <= w -> 0 <= m -> 0 <= k -> k + m <= 512 -> w + m <= zlen buf -> offset + w = 512 * b + k ->
  offset + w + m <= file_size d0 f -> Forall is_byte buf -> buffer_bat t = x ->
  x = contents d (file_block d0 f (Z.to_nat b)) \/ m = 512 ->
  (forall r t' d', same_vol t t' -> r = 0 -> ~ reliable d0 -> body_ok t' d' ->
     same_outside (file_blocks d0 f) d0 d' -> wpb (next r) R t' d') ->
  (forall r t' d', same_vol t t' -> r <> 0 -> writing d0 f buf offset (w + m) t' d' -> wpb (next r) R t' d') ->
  wpb (bat ← lift (memcopy_to m x k buf w);
       _ ← upd_tfs (with_bat bat);
       r ← write_from buffer_bat (file_block d0 f (Z.to_nat b));
       next r) R t d.
Proof.
  intros [Hok Hout Hino Hdata] Hf Hb Ho Hw Hm Hk Hkm Hbuf Hpos Hend Hby Hx Hwhole Herr Hgood.
  destruct (outside_file _ _ _ _ Hf Hout) as (Hcf & Hbl & Hfd & Hsz & Hfb).
  pose proof (bo_bat _ _ Hok) as Hbat. rewrite Hx in Hbat. pose proof Hbat as [Hxl Hxb].
  pose proof (bo_size _ _ Hok) as Hbs. pose proof (bo_disk _ _ Hok) as Htot.
  assert (Hnb : num_blocks d f = num_blocks d0 f) by (unfold num_blocks; by rewrite Hsz).
  destruct (file_block_lookup _ d0 f (Z.to_nat b) Hf) as [Hrange _]; [lia|].
  apply wpb_bind. eapply wpb_lift; [apply memcopy_to_run; lia|].
  set (x' := splice x (Z.to_nat k) (slice buf (Z.to_nat w) (Z.to_nat m))). apply wpb_bind, wpb_upd.
  assert (Hx' : is_buffer 512 x').
  { apply splice_buffer; [done|by apply Forall_slice|]. rewrite length_slice by lia. lia. }
  assert (Hok' : body_ok (with_bat x' t) d) by (by apply body_bat).
  apply wpb_bind, wpb_write_from; [done|done|lia|]. intros r d' Hw1 Hwr Hrel Hok''.
  assert (Hin : file_block d0 f (Z.to_nat b) ∈ file_blocks d0 f).
  { eapply list_elem_of_lookup_2, file_block_in. lia. }
  assert (Hout' : same_outside (file_blocks d0 f) d0 d').
  { apply (same_outside_trans _ _ d); [done|]. destruct Hw1 as (H1 & H2 & H3 & H4). split_and!; try done.
    intros c Hc. apply H3. rewrite list_elem_of_singleton. by intros ->. }
  destruct (decide (r = 0)) as [Hr|Hr].
  - apply Herr; try done. intros Hd. apply Hrel; [|done]. destruct Hout as (_ & _ & _ & Hk'). by apply Hk'.
  - apply Hgood; [done|done|]. split; [done|done|done|].
    assert (Hbs0 : block_size d0 = 512) by (destruct Hout as (<- & _); done).
    assert (Htot0 : totalblocks t <= total_blocks d0) by (destruct Hout as (_ & <- & _); done).
    pose proof (length_file_data _ d0 f Hf Hbs0 Htot0) as Hl0. pose proof (length_file_data _ d f Hfd Hbs Htot) as Hl.
    destruct (num_blocks_bound d0 f (fo_size _ _ _ Hf)) as [[_ Hnb'] _].
    apply (write_more (totalblocks t) d d' f buf (file_data d0 f) x offset w m k b); try done; try lia.
    + by rewrite Hfb.
    + rewrite Hfb. by apply Hwr.
    + by rewrite Hfb.
Qed.

(** Reading the block to be written, unless all of it will be. *)
Lemma read_partial_run d0 f buf offset w b m t d (R : Z -> tfs_t -> D -> Prop) :
  writing d0 f buf offset w t d -> file_ok (totalblocks t) d0 f -> 0 <= b < Z.of_nat (num_blocks d0 f) -> m <= 512 ->
  (forall r t' d', same_vol t t' -> r = 0 -> ~ reliable d0 -> body_ok t' d' -> same_outside (file_blocks d0 f) d0 d' ->
     R r t' d') ->
  (forall r t' d', same_vol t t' -> r <> 0 -> writing d0 f buf offset w t' d' ->
     buffer_bat t' = contents d' (file_block d0 f (Z.to_nat b)) \/ m = 512 -> R r t' d') ->
  wpb (if m <? TFS_BLOCK_SIZE then read_bat (file_block d0 f (Z.to_nat b)) else mret 1) R t d.
Proof.
  intros Hwr Hf Hb Hm Herr Hgood. pose proof Hwr as [Hok Hout Hino Hdata]. unfold TFS_BLOCK_SIZE.
  destruct (Z.ltb_spec m 512).
  2: { apply wpb_ret, Hgood; [done|done|done|right; lia]. }
  destruct (file_block_lookup _ d0 f (Z.to_nat b) Hf) as [Hrange _]; [lia|].
  apply wpb_read_bat; [done|pose proof (bo_disk _ _ Hok); lia|]. intros r x d' Hs Hok' Hx Hrel.
  assert (Hout' : same_outside (file_blocks d0 f) d0 d') by (apply (same_outside_trans _ _ d); [done|by apply same_disk_is_outside]).
  destruct (decide (r = 0)) as [Hr|Hr].
  - apply Herr; try done. intros Hd. apply Hrel; [|done]. destruct Hout as (_ & _ & _ & Hk). by apply Hk.
  - apply Hgood; [done|done| |].
    + split; [done|done|done|]. destruct (same_disk_file d d' f Hs) as (-> & _). done.
    + left. cbn [with_bat buffer_bat]. destruct Hs as (_ & _ & -> & _). by apply Hx.
Qed.

Lemma write_blocks_run n d0 f buf offset datasize b1 t d :
  writing d0 f buf offset (Z.min (512 * b1 - offset) datasize) t d -> file_ok (totalblocks t) d0 f ->
  0 <= offset -> 1 <= datasize -> offset + datasize <= file_size d0 f -> datasize <= zlen buf -> Forall is_byte buf ->
  offset / 512 < b1 <= (offset + datasize - 1) / 512 + 1 -> (offset + datasize - 1) / 512 - b1 + 2 <= Z.of_nat n ->
  wpb (write_blocks n b1 ((offset + datasize - 1) / 512) (Z.min (512 * b1 - offset) datasize) datasize buf)
    (write_ends d0 f buf offset datasize t) t d.
Proof.
  intros Hwr Hf Ho Hn Hsz Hbuf Hby. revert b1 t d Hwr Hf. induction n as [|n IH]; intros b1 t d Hwr Hf Hb1 Hfuel.
  { cbn in Hfuel. lia. }
  pose proof (fo_size _ _ _ Hf) as Hsize. destruct (block_pos d0 f offset datasize Ho Hn Hsz Hsize) as ([Hp1 Hp2] & Hp3 & Hp4).
  set (b2 := (offset + datasize - 1) / 512) in *. cbn [write_blocks]. destruct (Z.leb_spec b1 b2) as [Hle|Hgt].
  2: { apply wpb_ret. replace (Z.min (512 * b1 - offset) datasize) with datasize in Hwr |- * by (subst b2; Z.div_mod_to_equations; lia).
       destruct Hwr as [Hok Hout _ Hdata]. split; [done|]. split; [done|]. split; [done|]. by right. }
  replace (Z.min (512 * b1 - offset) datasize) with (512 * b1 - offset) in Hwr |- * by (subst b2; Z.div_mod_to_equations; lia).
  apply wpb_bind, wpb_get, wpb_bind. pose proof Hwr as [Hok0 _ Hino0 _]. destruct (bo_inode _ _ Hok0) as [Hil _].
  eapply wpb_lift; [apply (get_block t d0 f); [apply Hwr|done|subst b2; lia]|].
  assert (Hb : 0 <= b1 < Z.of_nat (num_blocks d0 f)) by lia.
  (* the rest of the write, after a block *)
  assert (Hnext : forall m r t' d', 1 <= m -> 512 * b1 - offset + m = Z.min (512 * (b1 + 1) - offset) datasize -> same_vol t t' ->
    r <> 0 -> writing d0 f buf offset (512 * b1 - offset + m) t' d' ->
    wpb (if r =? 0 then mret VFS_ERROR else write_blocks n (b1 + 1) b2 (512 * b1 - offset + m) datasize buf)
      (write_ends d0 f buf offset datasize t) t' d').
  { intros m r t' d' Hm Heq Hv Hr Hw'. apply Z.eqb_neq in Hr as ->. rewrite Heq in *. destruct Hv as (Hv1 & Hv2 & Hv3).
    eapply wpb_mono; [apply IH; [done|by rewrite Hv1|lia|lia]|]. intros r' t'' d'' (Hv' & Hrest).
    split; [|done]. by apply (same_vol_trans _ t'). }
  assert (Herr : forall r t' d', same_vol t t' -> r = 0 -> ~ reliable d0 -> body_ok t' d' -> same_outside (file_blocks d0 f) d0 d' ->
    forall rest, wpb (if r =? 0 then mret VFS_ERROR else rest) (write_ends d0 f buf offset datasize t) t' d').
  { intros r t' d' Hv -> Hrel Hok' Hout' rest. apply wpb_ret. split; [done|]. split; [done|]. split; [done|]. by left. }
  destruct (Z.eqb_spec b1 b2) as [Heq|Hne].
  - apply wpb_bind, (read_partial_run d0 f buf offset (512 * b1 - offset) b1); [done|done|done|subst b2; Z.div_mod_to_equations; lia| |].
    { intros r t' d' Hv Hr Hrel Hok' Hout'. by apply Herr. }
    intros r t' d' Hv Hr Hw' Hx. apply Z.eqb_neq in Hr as ->. apply wpb_bind, wpb_get.
    pose proof Hv as (Hv1 & _ & _).
    apply (write_block_run _ d0 f buf offset (512 * b1 - offset) (datasize - (512 * b1 - offset)) 0 b1 t' d' (buffer_bat t'));
      try done; try lia; try (by rewrite Hv1); try (subst b2; Z.div_mod_to_equations; lia).
    + intros r' t'' d'' Hv' Hr' Hrel Hok' Hout'. apply Herr; try done. by apply (same_vol_trans _ t').
    + intros r' t'' d'' Hv' Hr' Hw''. pose proof (Hnext (datasize - (512 * b1 - offset)) r' t'' d'') as Hnx.
      replace (512 * b1 - offset + (datasize - (512 * b1 - offset))) with datasize in Hnx, Hw'' by lia.
      apply Hnx; [subst b2; Z.div_mod_to_equations; lia|subst b2; Z.div_mod_to_equations; lia|by apply (same_vol_trans _ t')|done|done].
  - unfold TFS_BLOCK_SIZE.
    apply (write_block_run _ d0 f buf offset (512 * b1 - offset) 512 0 b1 t d (buffer_bat t)); try done; try lia;
      try (subst b2; Z.div_mod_to_equations; lia); try (by right).
    + intros r' t'' d'' Hv' Hr' Hrel Hok' Hout'. by apply Herr.
    + intros r' t'' d'' Hv' Hr' Hw''. apply Hnext; try done. subst b2. Z.div_mod_to_equations. lia.
Qed.

Lemma written_so_far_nil data buf offset : written_so_far data buf offset 0 = data.
Proof. unfold written_so_far. change (Z.to_nat 0) with 0%nat. by rewrite take_0, splice_nil. Qed.

(** [tfs_write] once the inode is read and the offset checked. *)
Lemma write_tail_run d0 f buf offset datasize t d :
  body_ok t d -> same_disk d0 d -> buffer_inode t = contents d0 f -> file_ok (totalblocks t) d0 f ->
  0 <= offset -> 1 <= datasize -> offset + datasize <= file_size d0 f -> datasize <= zlen buf -> Forall is_byte buf ->
  let written := Z.min (TFS_BLOCK_SIZE - Z.rem offset TFS_BLOCK_SIZE) datasize in
  wpb (b ← lift (get_word (buffer_inode t) (Z.quot offset TFS_BLOCK_SIZE + 1));
       r ← (if written <? TFS_BLOCK_SIZE then read_bat b else mret 1);
       if r =? 0 then mret VFS_ERROR
       else
         t ← get_tfs;
         bat ← lift (memcopy_to written (buffer_bat t) (Z.rem offset TFS_BLOCK_SIZE) buf 0);
         _ ← upd_tfs (with_bat bat);
         r ← write_from buffer_bat b;
         if r =? 0 then mret VFS_ERROR
         else write_blocks (Z.to_nat TFS_BLOCKS_MAX + 1) (Z.quot offset TFS_BLOCK_SIZE + 1)
           (Z.quot (offset + datasize - 1) TFS_BLOCK_SIZE) written datasize buf)
    (write_ends d0 f buf offset datasize t) t d.
Proof.
  intros Hok Hd Hino Hf Ho Hn Hsz Hbuf Hby. pose proof (fo_size _ _ _ Hf) as Hsize. unfold TFS_BLOCK_SIZE.
  rewrite !Z.quot_div_nonneg, !Z.rem_mod_nonneg by lia. cbv zeta.
  destruct (block_pos d0 f offset datasize Ho Hn Hsz Hsize) as ([Hp1 Hp2] & Hp3 & Hp4).
  destruct (bo_inode _ _ Hok) as [Hil _].
  assert (Hmod : 0 <= offset mod 512 < 512 /\ offset = 512 * (offset / 512) + offset mod 512) by (Z.div_mod_to_equations; lia).
  set (b1 := offset / 512) in *. set (m := Z.min (512 - offset mod 512) datasize).
  assert (Hm : m = Z.min (512 * (b1 + 1) - offset) datasize) by lia.
  apply wpb_bind. eapply wpb_lift; [apply (get_block t d0 f); [done|done|lia]|].
  assert (Hwr : writing d0 f buf offset 0 t d).
  { destruct (same_disk_file _ _ f Hd) as (Hdata & _). split; [done|by apply same_disk_is_outside|done|].
    by rewrite written_so_far_nil. }
  assert (Herr : forall r t' d', same_vol t t' -> r = 0 -> ~ reliable d0 -> body_ok t' d' -> same_outside (file_blocks d0 f) d0 d' ->
    forall rest, wpb (if r =? 0 then mret VFS_ERROR else rest) (write_ends d0 f buf offset datasize t) t' d').
  { intros r t' d' Hv -> Hrel Hok' Hout' rest. apply wpb_ret. split; [done|]. split; [done|]. split; [done|]. by left. }
  apply wpb_bind, (read_partial_run d0 f buf offset 0 b1); [done|done|lia|lia| |].
  { intros r t' d' Hv Hr Hrel Hok' Hout'. by apply Herr. }
  intros r t' d' Hv Hr Hw' Hx. apply Z.eqb_neq in Hr as ->. apply wpb_bind, wpb_get. pose proof Hv as (Hv1 & _ & _).
  apply (write_block_run _ d0 f buf offset 0 m (offset mod 512) b1 t' d' (buffer_bat t')); try done; try lia; try (by rewrite Hv1).
  - intros r' t'' d'' Hv' Hr' Hrel Hok' Hout'. apply Herr; try done. by apply (same_vol_trans _ t').
  - intros r' t'' d'' Hv' Hr' Hw''. apply Z.eqb_neq in Hr' as ->. rewrite Z.add_0_l, Hm in Hw''.
    pose proof (same_vol_trans _ _ _ Hv Hv') as Hv''. destruct Hv'' as (Hv2 & Hv3 & Hv4).
    rewrite Hm. eapply wpb_mono; [apply write_blocks_run; try done|].
    + by rewrite Hv2.
    + lia.
    + unfold TFS_BLOCKS_MAX. lia.
    + intros r'' t3 d3 (Hv5 & Hrest). split; [|done]. by apply (same_vol_trans _ t'').
Qed.

(** What a write leaves of the file's bytes. *)
Lemma written_file_bytes total d d' f buf offset n :
  file_ok total d f -> block_size d = 512 -> total <= total_blocks d -> same_outside (file_blocks d f) d d' ->
  0 <= offset -> 0 <= n -> offset + n <= file_size d f -> n <= zlen buf ->
  file_data d' f = written_so_far (file_data d f) buf offset n ->
  file_bytes d' f = splice (file_bytes d f) (Z.to_nat offset) (take (Z.to_nat n) buf).
Proof.
  intros Hf Hs Ht Hout Ho Hn Hend Hbuf Hdata. destruct (outside_file _ _ _ _ Hf Hout) as (_ & _ & _ & Hsz & _).
  unfold file_bytes. rewrite Hsz, Hdata. unfold written_so_far.
  pose proof (length_file_data _ d f Hf Hs Ht) as Hl. destruct (num_blocks_bound d f (fo_size _ _ _ Hf)) as [[_ Hnb] _].
  apply take_splice; rewrite ?length_take; lia.
Qed.

Lemma tfs_write_run s f buffer datasize offset :
  vol_ok s -> file_ok (totalblocks (v_tfs s)) (v_disk s) f -> 0 <= datasize <= zlen buffer -> Forall is_byte buffer ->
  let d := v_disk s in let n := Z.min datasize (file_size d f - offset) in
  wp (tfs_write f buffer datasize offset) (fun r s' => vol_ok s' /\ same_vol (v_tfs s) (v_tfs s') /\ v_pool s' = v_pool s /\
    (forall j, sem_val (v_sems s') j = sem_val (v_sems s) j) /\ same_outside (file_blocks d f) d (v_disk s') /\
    ((r = VFS_ERROR /\ ~ reliable d) \/
     if (offset <? 0) || (offset >? file_size d f) then r = VFS_ERROR /\ same_disk d (v_disk s')
     else r = n /\ file_bytes (v_disk s') f = splice (file_bytes d f) (Z.to_nat offset) (take (Z.to_nat n) buffer))) s.
Proof.
  intros Hvol Hf Hbuf Hby. pose proof (vo_body _ Hvol) as Hok. destruct s as [t d sm p]. cbn [v_tfs v_disk] in *. cbv zeta.
  pose proof (fo_size _ _ _ Hf) as Hsize. pose proof (fo_inode _ _ _ Hf) as Hino. pose proof (bo_disk _ _ Hok) as Htot.
  pose proof (bo_size _ _ Hok) as Hbs.
  eapply wp_mono.
  { apply (wp_locked _ (fun r t' d' => same_outside (file_blocks d f) d d' /\ ((r = VFS_ERROR /\ ~ reliable d) \/
      if (offset <? 0) || (offset >? file_size d f) then r = VFS_ERROR /\ same_disk d d'
      else r = Z.min datasize (file_size d f - offset) /\
        file_bytes d' f = splice (file_bytes d f) (Z.to_nat offset) (take (Z.to_nat (Z.min datasize (file_size d f - offset))) buffer))));
      [exact Hvol|]. cbn [v_tfs v_disk].
    apply wpb_bind, wpb_get. replace ((f <? 2) || (f >? totalblocks t)) with false by (destruct (Z.ltb_spec f 2), (Z.gtb_spec f (totalblocks t)); cbn; lia).
    apply wpb_bind, wpb_read_inode; [done|lia|]. intros r x d' Hs Hok' Hx Hrel.
    pose proof (same_disk_is_outside (file_blocks d f) _ _ Hs) as Hout.
    destruct (Z.eqb_spec r 0) as [Hr|Hr].
    { apply wpb_ret. split; [done|]. split; [done|]. split; [done|]. left. split; [done|]. intros Hd. by apply Hrel. }
    specialize (Hx Hr). apply wpb_bind, wpb_get, wpb_bind. destruct (bo_inode _ _ Hok') as [Hil _].
    eapply wpb_lift; [apply (get_size (with_inode x t) d f); done|]. rewrite i32_id by (unfold is_i32; lia).
    destruct (Z.ltb_spec offset 0), (Z.gtb_spec offset (file_size d f)); cbn [orb];
      try (apply wpb_ret; split; [done|]; split; [done|]; split; [done|]; by right).
    set (n := Z.min datasize (file_size d f - offset)). destruct (Z.eqb_spec n 0) as [Hn|Hn].
    { apply wpb_ret. rewrite Hn. split; [done|]. split; [done|]. split; [done|]. right. split; [done|].
      destruct (same_disk_file _ _ f Hs) as (Hd1 & _ & Hd3 & _). change (Z.to_nat 0) with 0%nat. rewrite take_0, splice_nil.
      unfold file_bytes. by rewrite Hd1, Hd3. }
    eapply wpb_mono; [apply (write_tail_run d f buffer offset n (with_inode x t) d'); try done; subst n; lia|].
    intros r' t' d'' (Hv & Hok'' & Hout' & Hend). split; [done|]. split; [done|]. split; [done|].
    destruct Hend as [Herr|[Hres Hdata]]; [by left|right]. split; [done|].
    apply (written_file_bytes (totalblocks t) d d'' f buffer offset n); try done; subst n; lia. }
  intros a s' (? & ? & ? & ? & ? & ?). by split_and!.
Qed.
End body.

(** ** Directory and allocation bitmap *)
Section directory.
Context {D S : Type} `{!BlockDevice D, !Semaphores S, !Symbols}.
Abbreviation volume := (vol D S).

(** The name in entry [i] of a directory block. *)
Definition entry_cname (md : list Z) (i : Z) : option (list Z) := cstr (entry_name md i).
(** The first of the entries from [i] on, below [n], with a given name. *)
Definition first_entry (md name : list Z) (i n : Z) (r : option Z) : Prop :=
  match r with
  | Some j => i <= j < n /\ entry_cname md j = Some name /\ forall k, i <= k < j -> entry_cname md k <> Some name
  | None => forall k, i <= k < n -> entry_cname md k <> Some name
  end.
(** Every name is terminated. *)
Definition names_ok (md : list Z) : Prop := forall k, 0 <= k < TFS_MAX_FILES -> is_Some (entry_cname md k).

Lemma entry_cmp md filename name i c :
  Forall is_byte md -> Forall is_byte filename -> cstr filename = Some name -> entry_cname md i = Some c ->
  exists r, stringcmp (entry_name md i) filename = Ret r /\ (r = 0 <-> c = name).
Proof.
  intros Hmd Hfn Hn Hc. destruct (stringcmp_run (entry_name md i) filename c name) as (r & Hr & _ & H0 & _); try done.
  - by apply Forall_drop.
  - by exists r.
Qed.

Lemma find_entry_run n i md filename name :
  Forall is_byte md -> Forall is_byte filename -> cstr filename = Some name ->
  (forall k, i <= k < i + Z.of_nat n -> is_Some (entry_cname md k)) ->
  exists r, find_entry n i md filename = Ret r /\ first_entry md name i (i + Z.of_nat n) r.
Proof.
  intros Hmd Hfn Hn. revert i. induction n as [|n IH]; intros i Hk.
  { exists None. split; [done|]. intros k ?. lia. }
  destruct (Hk i ltac:(lia)) as [c Hc]. destruct (entry_cmp md filename name i c) as (r & Hr & H0); try done.
  cbn [find_entry]. rewrite Hr. unfold mbind, res_bind. destruct (Z.eqb_spec r 0) as [Heq|Hne].
  - exists (Some i). split; [done|]. split; [lia|]. split; [rewrite Hc; f_equal; by apply H0|]. intros k ?. lia.
  - destruct (IH (i + 1)) as (r' & Hr' & Hf). { intros k ?. apply Hk. lia. }
    assert (Hi : entry_cname md i <> Some name) by (rewrite Hc; intros [= ->]; by apply Hne, H0).
    exists r'. split; [done|]. destruct r' as [j|]; cbn in Hf |- *.
    + destruct Hf as (? & ? & Hf). split; [lia|]. split; [done|]. intros k ?.
      destruct (decide (k = i)) as [->|]; [done|]. apply Hf. lia.
    + intros k ?. destruct (decide (k = i)) as [->|]; [done|]. apply Hf. lia.
Qed.

Lemma tfs_open_run (s : volume) filename name :
  vol_ok s -> Forall is_byte filename -> cstr filename = Some name ->
  let d := v_disk s in let md := contents d TFS_DIRECTORY_BLOCK in
  names_ok md ->
  wp (tfs_open filename) (fun r s' => vol_ok s' /\ same_vol (v_tfs s) (v_tfs s') /\ v_pool s' = v_pool s /\
    (forall j, sem_val (v_sems s') j = sem_val (v_sems s) j) /\ same_disk d (v_disk s') /\
    ((r = VFS_ERROR /\ ~ reliable d) \/
     exists e, first_entry md name 0 TFS_MAX_FILES e /\
       r = match e with Some j => i32 (word md (entry_inode j)) | None => VFS_NOT_FOUND end)) s.
Proof.
  intros Hvol Hfn Hname d md Hmd. pose proof (vo_body _ Hvol) as Hok. pose proof (bo_disk _ _ Hok) as Htot.
  pose proof (bo_total _ _ Hok) as Htot'. pose proof (bo_size _ _ Hok) as Hbs.
  assert (Hbuf : is_buffer 512 md) by (subst md; rewrite <- Hbs; apply contents_ok; unfold TFS_DIRECTORY_BLOCK; subst d; lia).
  destruct (find_entry_run 25 0 md filename name) as (e & He & Hfirst); try done; [apply Hbuf|].
  unfold tfs_open. apply wp_bind. eapply wp_mono.
  { apply (wp_locked _ (fun r t' d' => same_disk d d' /\ ((r = inl VFS_ERROR /\ ~ reliable d) \/
      (buffer_md t' = md /\ r = match e with Some i => inr i | None => inl VFS_NOT_FOUND end)))); [done|].
    apply wpb_bind, wpb_read_md; [done|unfold TFS_DIRECTORY_BLOCK; lia|]. intros r x d' Hs Hok' Hx Hrel.
    destruct (Z.eqb_spec r 0) as [Hr|Hr].
    { apply wpb_ret. split; [done|]. split; [done|]. split; [done|]. left. split; [done|]. intros Hd. by apply Hrel. }
    assert (Hxm : x = md) by exact (Hx Hr). clear Hx. subst x. apply wpb_bind, wpb_get, wpb_bind. cbn [with_md buffer_md].
    eapply wpb_lift; [exact He|]. destruct e as [i|]; apply wpb_ret; (split; [done|]; split; [exact Hok'|]; split; [done|]; by right). }
  intros r s' (Hv & Hsv & Hp & Hsem & Hs & Hend). destruct Hend as [[-> Hrel]|[Hb ->]].
  { apply wp_ret. do 5 (split; [done|]). by left. }
  destruct e as [j|].
  - apply wp_bind, wp_gets. rewrite Hb. apply wp_bind. cbn in Hfirst. eapply wp_lift.
    { apply get_word_word; unfold entry_inode; [lia|]. destruct Hbuf as [-> _]. lia. }
    apply wp_ret. do 5 (split; [done|]). right. by exists (Some j).
  - apply wp_ret. do 5 (split; [done|]). right. by exists None.
Qed.

(** [bitmap_get] over all bits counts those that are set. *)
Lemma count_allocated_run n i bat acc :
  0 <= i -> i + Z.of_nat n <= bits bat ->
  count_allocated n i bat acc = Ret (acc + Z.of_nat n - (clears bat (Z.to_nat i + n) - clears bat (Z.to_nat i))).
Proof.
  revert i acc. induction n as [|n IH]; intros i acc Hi Hn; cbn [count_allocated].
  { rewrite Nat.add_0_r. f_equal. lia. }
  rewrite bitmap_get_bit by lia. unfold mbind, res_bind. rewrite IH by lia. f_equal.
  replace (Z.to_nat (i + 1)) with (Datatypes.S (Z.to_nat i)) by lia.
  replace (Z.to_nat i + Datatypes.S n)%nat with (Datatypes.S (Z.to_nat i) + n)%nat by lia.
  cbn [clears]. rewrite Z2Nat.id by lia. destruct (bit bat i); cbn; lia.
Qed.

Lemma tfs_getfree_run (s : volume) :
  vol_ok s ->
  let d := v_disk s in
  wp tfs_getfree (fun r s' => vol_ok s' /\ same_vol (v_tfs s) (v_tfs s') /\ v_pool s' = v_pool s /\
    (forall j, sem_val (v_sems s') j = sem_val (v_sems s) j) /\ same_disk d (v_disk s') /\
    ((r = VFS_ERROR /\ ~ reliable d) \/
     r = 512 * clears (words_of (contents d TFS_ALLOCATION_BLOCK)) (Z.to_nat (totalblocks (v_tfs s))))) s.
Proof.
  intros Hvol d. pose proof (vo_body _ Hvol) as Hok. pose proof (bo_disk _ _ Hok) as Htot.
  pose proof (bo_total _ _ Hok) as Htot'. pose proof (bo_size _ _ Hok) as Hbs.
  eapply wp_mono.
  { apply (wp_locked _ (fun r t' d' => same_disk d d' /\ ((r = VFS_ERROR /\ ~ reliable d) \/
      r = 512 * clears (words_of (contents d TFS_ALLOCATION_BLOCK)) (Z.to_nat (totalblocks (v_tfs s)))))); [done|].
    apply wpb_bind, wpb_read_bat; [done|unfold TFS_ALLOCATION_BLOCK; lia|]. intros r x d' Hs Hok' Hx Hrel.
    destruct (Z.eqb_spec r 0) as [Hr|Hr].
    { apply wpb_ret. split; [done|]. split; [done|]. split; [done|]. left. split; [done|]. intros Hd. by apply Hrel. }
    assert (Hxm : x = contents d TFS_ALLOCATION_BLOCK) by exact (Hx Hr). rewrite <- Hxm.
    apply wpb_bind, wpb_get, wpb_bind. destruct (bo_bat _ _ Hok') as [Hxl _]. cbn [with_bat buffer_bat totalblocks] in *.
    assert (Hbits : bits (words_of x) = 4096).
    { unfold bits. rewrite length_words_of. assert (length x = 512%nat) as -> by lia. done. }
    eapply wpb_lift; [apply count_allocated_run; lia|]. apply wpb_ret. split; [done|]. split; [done|]. split; [done|]. right.
    cbn [clears Z.to_nat Nat.add]. change (Z.to_nat 0) with 0%nat. cbn [clears Nat.add].
    pose proof (clears_nonneg (words_of x) (Z.to_nat (totalblocks (v_tfs s)))) as Hc.
    unfold TFS_BLOCK_SIZE. rewrite u32_id by (unfold is_u32; lia). rewrite i32_id by (unfold is_i32; lia). lia. }
  intros r s' (? & ? & ? & ? & ? & ?). by split_and!.
Qed.
End directory.

Section theorems.
Context {D S : Type} `{!BlockDevice D, !Semaphores S, !Symbols}.
Abbreviation volume := (vol D S).

(** What an operation leaves alone, whatever it answers: the volume's
    invariant holds again, the semaphores have the values they had, and no
    page has changed hands. *)
Definition kept (s s' : volume) : Prop :=
  vol_ok s' /\ same_vol (v_tfs s) (v_tfs s') /\ v_pool s' = v_pool s /\
  forall j, sem_val (v_sems s') j = sem_val (v_sems s) j.

(** A file on a volume, and two files without a block in common. *)
Definition is_file (s : volume) (f : Z) : Prop := file_ok (totalblocks (v_tfs s)) (v_disk s) f.
Definition apart (d : D) (f g : Z) : Prop := forall b, b ∈ g :: file_blocks d g -> b ∉ file_blocks d f.

(** [tfs_read] of a file answers the number of bytes between
    the offset and the end of the file, at most [bufsize], and puts exactly
    those bytes of the file at the start of the buffer, across however many
    blocks they lie in; an offset outside the file is answered by an error
    with the buffer as it was. It changes nothing on the device, and only a
    failing device makes it fail. *)
Theorem tfs_read_correct (s : volume) f buffer bufsize offset :
  vol_ok s -> is_file s f -> 0 <= bufsize <= zlen buffer ->
  let d := v_disk s in let n := Z.min bufsize (file_size d f - offset) in
  wp (tfs_read f buffer bufsize offset) (fun a s' => kept s s' /\ same_disk d (v_disk s') /\
    ((a.1 = VFS_ERROR /\ ~ reliable d) \/
     if (offset <? 0) || (offset >? file_size d f) then a = (VFS_ERROR, buffer)
     else a = (n, splice buffer 0 (slice (file_bytes d f) (Z.to_nat offset) (Z.to_nat n))))) s.
Proof.
  intros Hvol Hf Hbuf d n. eapply wp_mono; [by apply tfs_read_run|].
  intros a s' (? & ? & ? & ? & ? & ?). by unfold kept; split_and!.
Qed.

Lemma apart_bytes s d' f g :
  is_file s g -> apart (v_disk s) f g -> same_outside (file_blocks (v_disk s) f) (v_disk s) d' ->
  file_bytes d' g = file_bytes (v_disk s) g.
Proof.
  intros Hg Hap (_ & _ & Hout & _).
  assert (Hc : contents d' g = contents (v_disk s) g) by (apply Hout, Hap; set_solver).
  unfold file_bytes, file_data, file_size. rewrite (file_blocks_same _ _ _ Hc), Hc. do 2 f_equal.
  apply list_fmap_ext. intros i b Hb. apply Hout, Hap. apply list_elem_of_lookup_2 in Hb. set_solver.
Qed.

(** [tfs_write] to a file replaces exactly the bytes from the
    offset on by the caller's, as many as fit before the end of the file,
    and answers their number: partial first and last blocks keep their other
    bytes, the size of the file and every file without a block in common
    keep their contents. An offset outside the file is answered by an error
    with nothing changed, and only a failing device makes it fail. *)
Theorem tfs_write_correct (s : volume) f buffer datasize offset :
  vol_ok s -> is_file s f -> 0 <= datasize <= zlen buffer -> Forall is_byte buffer ->
  let d := v_disk s in let n := Z.min datasize (file_size d f - offset) in
  wp (tfs_write f buffer datasize offset) (fun r s' => kept s s' /\ is_file s' f /\
    (forall g, is_file s g -> apart d f g -> file_bytes (v_disk s') g = file_bytes d g) /\
    ((r = VFS_ERROR /\ ~ reliable d) \/
     if (offset <? 0) || (offset >? file_size d f) then r = VFS_ERROR /\ same_disk d (v_disk s')
     else r = n /\ file_bytes (v_disk s') f = splice (file_bytes d f) (Z.to_nat offset) (take (Z.to_nat n) buffer))) s.
Proof.
  intros Hvol Hf Hbuf Hby d n. eapply wp_mono; [by apply tfs_write_run|].
  intros r s' (Hv & Hsv & Hp & Hsem & Hout & Hend). split; [by unfold kept; split_and!|].
  destruct (outside_file _ _ _ _ Hf Hout) as (_ & _ & Hok & _). destruct Hsv as (Htot & _ & _).
  split; [unfold is_file; by rewrite Htot|]. split; [|done]. intros g Hg Hap. by apply apart_bytes with (f := f).
Qed.

(** Claim C32. Reading back what was written to a file, at the same
    offset, gives the bytes that were written. *)
Theorem tfs_write_read (s : volume) f data buffer n offset :
  vol_ok s -> is_file s f -> reliable (v_disk s) -> Forall is_byte data -> 0 <= offset -> 0 <= n ->
  offset + n <= file_size (v_disk s) f -> n <= zlen data -> n <= zlen buffer ->
  wp (w ← tfs_write f data n offset; '(r, buffer') ← tfs_read f buffer n offset; mret (w, r, buffer'))
    (fun a s' => kept s s' /\ a = (n, n, splice buffer 0 (take (Z.to_nat n) data))) s.
Proof.
  intros Hvol Hf Hrel Hby Ho Hn Hend Hdata Hbuf. apply wp_bind.
  eapply wp_mono; [apply (tfs_write_run s f data n offset); try done|].
  intros w s1 (Hv1 & (Ht1 & Hl1 & Hg1) & Hp1 & Hsem1 & Hout & [[_ Hbad]|Hw]); [done|].
  destruct (outside_file _ _ _ _ Hf Hout) as (_ & _ & Hf1 & Hsz & _).
  assert (Hrange : (offset <? 0) || (offset >? file_size (v_disk s) f) = false).
  { destruct (Z.ltb_spec offset 0), (Z.gtb_spec offset (file_size (v_disk s) f)); cbn; lia. }
  rewrite Hrange in Hw. destruct Hw as [-> Hbytes]. rewrite Z.min_l in * by lia.
  apply wp_bind. eapply wp_mono; [apply (tfs_read_run s1 f buffer n offset); [done|by rewrite Ht1|lia]|].
  intros [r b] s2 (Hv2 & (Ht2 & Hl2 & Hg2) & Hp2 & Hsem2 & Hs2 & Hend2). rewrite Hsz, Hrange, Z.min_l in Hend2 by lia.
  destruct Hend2 as [[_ Hbad]|Ha]; [destruct Hout as (_ & _ & _ & Hk); by destruct Hbad; apply Hk|].
  apply wp_ret. split.
  { split; [done|]. split; [unfold same_vol; split_and!; congruence|]. split; [congruence|]. intros j. by rewrite Hsem2. }
  injection Ha as -> ->. f_equal. f_equal. rewrite Hbytes.
  assert (Hl : length (take (Z.to_nat n) data) = Z.to_nat n) by (rewrite length_take; lia).
  rewrite <- Hl at 2. apply slice_splice_eq. rewrite Hl. unfold file_bytes. rewrite length_take.
  pose proof (vo_body _ Hvol) as Hok. rewrite (length_file_data _ _ f Hf (bo_size _ _ Hok) (bo_disk _ _ Hok)).
  destruct (num_blocks_bound (v_disk s) f (fo_size _ _ _ Hf)) as [[_ Hnb] _]. lia.
Qed.

(** [tfs_open] answers the inode of the first directory entry
    whose name is the one asked for, and [VFS_NOT_FOUND] when no entry has
    that name; it changes nothing on the device. *)
Theorem tfs_open_correct (s : volume) filename name :
  vol_ok s -> Forall is_byte filename -> cstr filename = Some name ->
  let d := v_disk s in let md := contents d TFS_DIRECTORY_BLOCK in
  names_ok md ->
  wp (tfs_open filename) (fun r s' => kept s s' /\ same_disk d (v_disk s') /\
    ((r = VFS_ERROR /\ ~ reliable d) \/
     exists e, first_entry md name 0 TFS_MAX_FILES e /\
       r = match e with Some j => i32 (word md (entry_inode j)) | None => VFS_NOT_FOUND end)) s.
Proof.
  intros Hvol Hfn Hname d md Hmd. eapply wp_mono; [by apply (tfs_open_run s filename name)|].
  intros r s' (? & ? & ? & ? & ? & ?). by unfold kept; split_and!.
Qed.

Lemma locked_answers {A} (body : M volume A) (a0 : A) s :
  vol_ok s -> wpb body (fun a t d => a = a0 /\ t = v_tfs s /\ d = v_disk s) (v_tfs s) (v_disk s) ->
  wp (locked body) (fun a s' => kept s s' /\ a = a0 /\ v_disk s' = v_disk s) s.
Proof.
  intros Hvol Hbody. pose proof (vo_body _ Hvol). eapply wp_mono.
  { apply (wp_locked _ (fun a t' d' => a = a0 /\ d' = v_disk s)); [done|].
    eapply wpb_mono; [exact Hbody|]. by intros a t d (-> & -> & ->). }
  intros a s' (? & ? & ? & ? & ? & ?). by unfold kept; split_and!.
Qed.

(** A request [tfs.c] must reject is answered by [VFS_ERROR]
    before anything reaches the device, with the semaphore given back: a
    file number outside the volume in [tfs_read] and [tfs_write], a size of
    more than 127 blocks in [tfs_create]. *)
Theorem tfs_rejects (s : volume) :
  vol_ok s ->
  (forall f buffer n offset, f < 2 \/ totalblocks (v_tfs s) < f ->
    wp (tfs_read f buffer n offset) (fun a s' => kept s s' /\ a = (VFS_ERROR, buffer) /\ v_disk s' = v_disk s) s /\
    wp (tfs_write f buffer n offset) (fun r s' => kept s s' /\ r = VFS_ERROR /\ v_disk s' = v_disk s) s) /\
  (forall filename size, 65024 < size < 2147483136 ->
    wp (tfs_create filename size) (fun r s' => kept s s' /\ r = VFS_ERROR /\ v_disk s' = v_disk s) s).
Proof.
  intros Hvol. pose proof (vo_body _ Hvol) as Hok. split.
  - intros f buffer n offset Hf.
    assert (Hb : (f <? 2) || (f >? totalblocks (v_tfs s)) = true).
    { destruct (Z.ltb_spec f 2), (Z.gtb_spec f (totalblocks (v_tfs s))); cbn; lia. }
    split; (apply locked_answers; [done|]; apply wpb_bind, wpb_get; rewrite Hb; by apply wpb_ret).
  - intros filename size Hsize. unfold tfs_create. apply wp_bind. eapply wp_lift.
    { unfold int, TFS_BLOCK_SIZE. rewrite decide_True by (unfold is_i32; lia). reflexivity. }
    cbv zeta. apply locked_answers; [done|].
    assert (Hn : u32 (Z.quot (size + TFS_BLOCK_SIZE - 1) TFS_BLOCK_SIZE) >? TFS_BLOCK_SIZE / 4 - 1 = true).
    { unfold TFS_BLOCK_SIZE. rewrite Z.quot_div_nonneg, u32_id by (unfold is_u32; Z.div_mod_to_equations; lia).
      change (512 / 4 - 1) with 127. apply Z.gtb_lt. Z.div_mod_to_equations. lia. }
    cbv beta in Hn. change (Z.quot (size + TFS_BLOCK_SIZE - 1) TFS_BLOCK_SIZE) with (Z.quot (size + 512 - 1) 512) in *.
    match goal with |- context [if ?b then _ else _] => replace b with true by (symmetry; exact Hn) end. by apply wpb_ret.
Qed.

(** [tfs_getfree] answers 512 times the number of blocks of
    the volume whose bit in the allocation block is clear. *)
Theorem tfs_getfree_correct (s : volume) :
  vol_ok s ->
  let d := v_disk s in
  wp tfs_getfree (fun r s' => kept s s' /\ same_disk d (v_disk s') /\
    ((r = VFS_ERROR /\ ~ reliable d) \/
     r = 512 * clears (words_of (contents d TFS_ALLOCATION_BLOCK)) (Z.to_nat (totalblocks (v_tfs s))))) s.
Proof.
  intros Hvol d. eapply wp_mono; [by apply tfs_getfree_run|].
  intros r s' (? & ? & ? & ? & ? & ?). by unfold kept; split_and!.
Qed.
End theorems.

(** ** A volume of eight blocks with one file *)
#[local] Existing Instance example_symbols.
#[local] Existing Instance example_layout.

(** The file [a], inode in block 3: 600 bytes in blocks 5 and 4. *)
Definition a_file : list Z := word_bytes 600 ++ word_bytes 5 ++ word_bytes 4 ++ replicate 500 0.
Definition a_directory : list Z := word_bytes 3 ++ [97; 0] ++ replicate 506 0.
Definition a_device : ramdisk := mk_ramdisk
  [word_bytes TFS_MAGIC ++ [118; 0] ++ replicate 506 0; word_bytes 63 ++ replicate 508 0; a_directory; a_file;
   replicate 512 2; replicate 512 1; replicate 512 0; replicate 512 0] [].
Definition a_volume : vol ramdisk (over semaphores kernel) :=
  mk_vol (mk_tfs 8 1 (replicate 512 0) (replicate 512 0) (replicate 512 0) 0x80003000) a_device sem_kernel small_pool.

Lemma a_volume_ok : vol_ok a_volume.
Proof.
  split; [|split; [apply sem_kernel_ok|split; [apply (caller_free_waiting (tab sem_kernel))|done]]|reflexivity].
  split; [done|cbn; lia|cbn; lia|split; [done|by apply Forall_replicate]..].
Qed.
Lemma a_volume_file : is_file a_volume 3.
Proof.
  unfold is_file. change (v_disk a_volume) with a_device.
  assert (Hb : file_blocks a_device 3 = [5; 4]) by (vm_compute; reflexivity).
  assert (Hs : file_size a_device 3 = 600) by (vm_compute; reflexivity).
  split; [cbn; lia|lia|rewrite Hb; repeat constructor; cbn; lia|rewrite Hb; apply (bool_decide_unpack _); vm_compute; exact I].
Qed.
Lemma a_device_reliable : reliable (v_disk a_volume).
Proof. reflexivity. Qed.

Lemma tfs_read_correct_witness :
  wp (tfs_read 3 (replicate 10 0) 10 508) (fun a _ => a = (10, [1; 1; 1; 1; 2; 2; 2; 2; 2; 2])) a_volume.
Proof.
  eapply wp_mono; [apply (tfs_read_correct a_volume 3 (replicate 10 0) 10 508)|].
  - apply a_volume_ok.
  - apply a_volume_file.
  - vm_check.
  - intros a s' (_ & _ & [[_ Hbad]|Ha]); [by destruct Hbad; apply a_device_reliable|].
    rewrite Ha. vm_compute. reflexivity.
Defined.

Lemma tfs_write_correct_witness :
  wp (tfs_write 3 [7; 8; 9; 10] 4 598) (fun r s' => r = 2 /\
    file_bytes (v_disk s') 3 = replicate 512 1 ++ replicate 86 2 ++ [7; 8]) a_volume.
Proof.
  eapply wp_mono; [apply (tfs_write_correct a_volume 3 [7; 8; 9; 10] 4 598)|].
  - apply a_volume_ok.
  - apply a_volume_file.
  - vm_check.
  - repeat constructor; unfold is_byte; lia.
  - intros r s' (_ & _ & _ & [[_ Hbad]|[Hr Hb]]); [by destruct Hbad; apply a_device_reliable|].
    split; [rewrite Hr; vm_compute; reflexivity|rewrite Hb; vm_compute; reflexivity].
Defined.

Lemma tfs_write_read_witness :
  wp (w ← tfs_write 3 [7; 8; 9; 10] 4 510; '(r, buffer') ← tfs_read 3 [0; 0; 0; 0; 0] 4 510; mret (w, r, buffer'))
    (fun a _ => a = (4, 4, [7; 8; 9; 10; 0])) a_volume.
Proof.
  eapply wp_mono; [apply (tfs_write_read a_volume 3 [7; 8; 9; 10] [0; 0; 0; 0; 0] 4 510)|].
  - apply a_volume_ok.
  - apply a_volume_file.
  - apply a_device_reliable.
  - repeat constructor; unfold is_byte; lia.
  - vm_check.
  - vm_check.
  - vm_check.
  - vm_check.
  - vm_check.
  - intros a s' [_ Ha]. rewrite Ha. vm_compute. reflexivity.
Defined.

Lemma a_directory_names : names_ok (contents (v_disk a_volume) TFS_DIRECTORY_BLOCK).
Proof.
  assert (Hall : Forall (fun k => is_Some (entry_cname (contents (v_disk a_volume) TFS_DIRECTORY_BLOCK) k)) (seqZ 0 25)).
  { apply (bool_decide_unpack _). vm_compute. exact I. }
  intros k Hk. rewrite Forall_forall in Hall. apply Hall, elem_of_seqZ. unfold TFS_MAX_FILES in Hk. lia.
Qed.

Lemma tfs_open_correct_witness : wp (tfs_open [97; 0; 5]) (fun r _ => r = 3) a_volume.
Proof.
  eapply wp_mono; [apply (tfs_open_correct a_volume [97; 0; 5] [97])|].
  - apply a_volume_ok.
  - repeat constructor; unfold is_byte; lia.
  - reflexivity.
  - apply a_directory_names.
  - intros r s' (_ & _ & [[_ Hbad]|(e & He & Hr)]); [by destruct Hbad; apply a_device_reliable|].
    assert (H0 : entry_cname (contents (v_disk a_volume) TFS_DIRECTORY_BLOCK) 0 = Some [97]) by (vm_compute; reflexivity).
    destruct e as [j|]; cbn [first_entry] in He.
    + destruct He as (Hj & _ & Hfirst). destruct (decide (j = 0)) as [->|]; [rewrite Hr; vm_compute; reflexivity|].
      by destruct (Hfirst 0); [lia|].
    + by destruct (He 0); [unfold TFS_MAX_FILES; lia|].
Defined.

Lemma tfs_rejects_witness :
  wp (tfs_create [98; 0] 65025) (fun r s' => r = VFS_ERROR /\ v_disk s' = v_disk a_volume) a_volume.
Proof.
  destruct (tfs_rejects a_volume a_volume_ok) as [_ Hc].
  eapply wp_mono; [apply Hc; lia|]. intros r s' [_ Hr]. exact Hr.
Defined.

Lemma tfs_getfree_correct_witness : wp tfs_getfree (fun r _ => r = 1024) a_volume.
Proof.
  eapply wp_mono; [apply (tfs_getfree_correct a_volume a_volume_ok)|].
  intros r s' (_ & _ & [[_ Hbad]|Hr]); [by destruct Hbad; apply a_device_reliable|]. rewrite Hr. vm_compute. reflexivity.
Defined.

(** Block [totalblocks] passes the check of a file number, and the disk driver
    panics on it. *)
Example tfs_read_past_the_end : tfs_read 8 [] 0 0 a_volume = Fail Panic.
Proof. vm_compute. reflexivity. Qed.
