(* ===== verification/Sfs.v ===== *)
(** * fs/sfs.c: the student filesystem

    Like the trivial file system, a volume keeps a header, an allocation
    bitmap, directory blocks of 25 entries and an inode block for each file.
    There are directories inside directories, any number of files can be read
    and written at once, and a file that is removed while it is open stays until
    it is closed: a table of 32 entries, behind [openfile_lock], counts the
    times each file is open and holds the lock and condition variable by which
    its readers and writers exclude each other.  The three block buffers of the
    volume are behind the semaphore [lock].

    Requests to the device are asynchronous: each call makes a semaphore that
    the device's interrupt handler raises when the request is done. *)
From S2P Require Import Prelude Bitmap Libc Cpu Kmalloc Pagepool Thread Sleepq Waiting Semaphore Gbd Sync ThreadSys Bytes Tfs.

Definition SFS_BLOCK_SIZE : Z := 512.
Definition SFS_BLOCKS_PER_VBLOCK : Z := 1.
Definition SFS_VBLOCK_SIZE : Z := SFS_BLOCK_SIZE * SFS_BLOCKS_PER_VBLOCK.
Definition SFS_MAGIC : Z := 3745.
Definition SFS_ALLOCATION_BLOCK : Z := 1.
Definition SFS_DIRECTORY_BLOCK : Z := 2.
Definition SFS_VOLUMENAME_MAX : Z := 16.
Definition SFS_FILENAME_MAX : Z := 16.
Definition SFS_MAX_OPEN_FILES : Z := 32.
Definition SFS_BLOCKS_MAX : Z := SFS_VBLOCK_SIZE / 4 - 1.
Definition sizeof_sfs_direntry_t : Z := 20.
Definition SFS_MAX_FILES : Z := SFS_VBLOCK_SIZE / sizeof_sfs_direntry_t.
Definition sizeof_sfs_t : Z := 36.
Definition sizeof_openfile_t : Z := 4.   (** the type of vfs.h, an [int] *)

(** ** Paths *)

Definition sfs_is_valid_filename_char (ch : Z) : bool :=
  (ch =? 95) || (ch =? 45) || (ch =? 46) || (ch =? 126) || (ch =? 32) ||
  ((48 <=? ch) && (ch <=? 57)) || ((65 <=? ch) && (ch <=? 90)) || ((97 <=? ch) && (ch <=? 122)).

(** [for (i = 1; i < len; i++)]; [n] is [len - i]. *)
Fixpoint valid_path_loop (n : nat) (i elemchars : Z) (path : list Z) : res bool :=
  match n with
  | O => Ret true
  | S n =>
      let elemchars := elemchars + 1 in
      if elemchars >=? SFS_FILENAME_MAX then Ret false
      else
        c ← rget path i;
        if c =? 47 then
          before ← rget path (i - 1);
          if before =? 47 then Ret false else valid_path_loop n (i + 1) 0 path
        else if sfs_is_valid_filename_char c then valid_path_loop n (i + 1) elemchars path
        else Ret false
  end.
(** The path is not NULL. *)
Definition sfs_is_valid_path (path : list Z) : res bool :=
  len ← strlen path;
  if len <? 1 then Ret false
  else
    first ← rget path 0;
    if negb (first =? 47) then Ret false else valid_path_loop (Z.to_nat (len - 1)) 1 0 path.

(** The index of the last '/' that does not end the path, [last] so far. *)
Fixpoint last_slash (path : list Z) (i last : Z) : res Z :=
  match path with
  | [] => Fail Undef
  | c :: rest =>
      if c =? 47 then
        match rest with
        | [] => Fail Undef
        | after :: _ => last_slash rest (i + 1) (if negb (after =? 0) then i else last)
        end
      else if c =? 0 then Ret last
      else last_slash rest (i + 1) last
  end.
Definition sfs_get_actual_filename (path : list Z) : res (list Z) :=
  last ← last_slash path 0 (-1); Ret (drop (Z.to_nat (last + 1)) path).

Definition sfs_is_folder (path : list Z) : res Z :=
  len ← strlen path;
  if 1 <=? len then c ← rget path (len - 1); Ret (if c =? 47 then 1 else 0) else Ret 0.

(** The next element of the path goes to [buffer]; the answer is the rest of
    the path, [None] for NULL, and the buffer. *)
Fixpoint next_elem (i : Z) (consumed_path buffer : list Z) : res (option (list Z) * list Z) :=
  match consumed_path with
  | [] => Fail Undef
  | c :: rest =>
      buffer ← rset buffer i c;
      if c =? 0 then Ret (if i =? 0 then None else Some consumed_path, buffer)
      else if c =? 47 then
        buffer ← rset buffer (i + 1) 0;
        Ret (Some rest, buffer)
      else next_elem (i + 1) rest buffer
  end.
Definition sfs_next_path_elem (consumed_path buffer : list Z) : res (option (list Z) * list Z) :=
  next_elem 0 consumed_path buffer.

(** ** The state *)

(** [sfs_openfile_t]; locks and condition variables are their numbers. *)
Record sfs_openfile_t := mk_openfile {
  io_lock : Z;
  io_cond : Z;
  times_opened : Z;
  readernum : Z;
  writer_tid : Z;
  fileid : Z;
  parentid : Z;
  is_folder : Z;
  is_deleted : Z
}.
Definition with_times_opened (x : Z) (e : sfs_openfile_t) : sfs_openfile_t :=
  mk_openfile (io_lock e) (io_cond e) x (readernum e) (writer_tid e) (fileid e) (parentid e) (is_folder e) (is_deleted e).
Definition with_readernum (x : Z) (e : sfs_openfile_t) : sfs_openfile_t :=
  mk_openfile (io_lock e) (io_cond e) (times_opened e) x (writer_tid e) (fileid e) (parentid e) (is_folder e) (is_deleted e).
Definition with_writer_tid (x : Z) (e : sfs_openfile_t) : sfs_openfile_t :=
  mk_openfile (io_lock e) (io_cond e) (times_opened e) (readernum e) x (fileid e) (parentid e) (is_folder e) (is_deleted e).
Definition with_parentid (x : Z) (e : sfs_openfile_t) : sfs_openfile_t :=
  mk_openfile (io_lock e) (io_cond e) (times_opened e) (readernum e) (writer_tid e) (fileid e) x (is_folder e) (is_deleted e).
Definition with_is_deleted (x : Z) (e : sfs_openfile_t) : sfs_openfile_t :=
  mk_openfile (io_lock e) (io_cond e) (times_opened e) (readernum e) (writer_tid e) (fileid e) (parentid e) (is_folder e) x.
(** The entry is given to a file. *)
Definition with_file (f parent folder : Z) (e : sfs_openfile_t) : sfs_openfile_t :=
  mk_openfile (io_lock e) (io_cond e) (times_opened e) (readernum e) (writer_tid e) f parent folder (is_deleted e).
Definition sfs_reset_entry (e : sfs_openfile_t) : sfs_openfile_t :=
  mk_openfile (io_lock e) (io_cond e) 0 0 (-1) (-1) (-1) 0 0.

(** [sfs_t]; the buffers are the bytes of the three blocks. *)
Record sfs_t := mk_sfs {
  totalblocks : Z;
  totalvblocks : Z;
  lock : Z;                       (** the semaphore *)
  buffer_inode : list Z;
  buffer_bat : list Z;
  buffer_md : list Z;
  open_files : list sfs_openfile_t;
  openfile_lock : Z;
  sfs_page : Z                    (** kernel address of the page, and of the fs_t *)
}.
Definition with_inode (b : list Z) (t : sfs_t) : sfs_t :=
  mk_sfs (totalblocks t) (totalvblocks t) (lock t) b (buffer_bat t) (buffer_md t) (open_files t) (openfile_lock t) (sfs_page t).
Definition with_bat (b : list Z) (t : sfs_t) : sfs_t :=
  mk_sfs (totalblocks t) (totalvblocks t) (lock t) (buffer_inode t) b (buffer_md t) (open_files t) (openfile_lock t) (sfs_page t).
Definition with_md (b : list Z) (t : sfs_t) : sfs_t :=
  mk_sfs (totalblocks t) (totalvblocks t) (lock t) (buffer_inode t) (buffer_bat t) b (open_files t) (openfile_lock t) (sfs_page t).
Definition with_open_files (l : list sfs_openfile_t) (t : sfs_t) : sfs_t :=
  mk_sfs (totalblocks t) (totalvblocks t) (lock t) (buffer_inode t) (buffer_bat t) (buffer_md t) l (openfile_lock t) (sfs_page t).

(** A mounted volume, its device, and what it uses of the kernel. *)
Record svol (D S L : Type) := mk_svol { sv_sfs : sfs_t; sv_disk : D; sv_sems : S; sv_locks : L; sv_pool : pmem }.
Arguments mk_svol {D S L} sv_sfs sv_disk sv_sems sv_locks sv_pool.
Arguments sv_sfs {D S L} s.
Arguments sv_disk {D S L} s.
Arguments sv_sems {D S L} s.
Arguments sv_locks {D S L} s.
Arguments sv_pool {D S L} s.

(** ** Directory blocks *)

(** [buffer_md[i].inode > 0 && stringcmp(buffer_md[i].name, filename) == 0],
    the first from [i] on: its inode number. *)
Fixpoint lookup_entry (n : nat) (i : Z) (md filename : list Z) : res (option Z) :=
  match n with
  | O => Ret None
  | S n =>
      inode ← get_word md (entry_inode i);
      if inode >? 0 then
        c ← stringcmp (entry_name md i) filename;
        if c =? 0 then Ret (Some inode) else lookup_entry n (i + 1) md filename
      else lookup_entry n (i + 1) md filename
  end.
(** The last entry without an inode, -1 if there is none. *)
Fixpoint free_slot (n : nat) (i : Z) (md : list Z) (index : Z) : res Z :=
  match n with
  | O => Ret index
  | S n =>
      inode ← get_word md (entry_inode i);
      free_slot n (i + 1) md (if inode =? 0 then i else index)
  end.
(** The entries of a file are cleared. *)
Fixpoint clear_entries (n : nat) (i : Z) (md : list Z) (fileid : Z) : res (list Z) :=
  match n with
  | O => Ret md
  | S n =>
      inode ← get_word md (entry_inode i);
      if i32 inode =? fileid then
        md ← put_word md (entry_inode i) 0;
        md ← rset md (20 * i + 4) 0;
        clear_entries n (i + 1) md fileid
      else clear_entries n (i + 1) md fileid
  end.
(** What reading a directory puts in the buffer: the names, and their number
    and length. *)
Fixpoint list_names (n : nat) (i : Z) (bat buffer : list Z) (numfiles read : Z) : res (Z * Z * list Z) :=
  match n with
  | O => Ret (numfiles, read, buffer)
  | S n =>
      inode ← get_word bat (entry_inode i);
      if inode >? 0 then
        let target := Z.to_nat (4 + read) in
        name ← stringcopy (drop target buffer) (entry_name bat i) SFS_FILENAME_MAX;
        len ← strlen (entry_name bat i);
        list_names n (i + 1) bat (take target buffer ++ name) (numfiles + 1) (read + (len + 1))
      else list_names n (i + 1) bat buffer numfiles read
  end.

(** The entry of the open file, or the first free one of those before it. *)
Fixpoint find_openfile (i : Z) (l : list sfs_openfile_t) (f : Z) (found : option Z) : option Z :=
  match l with
  | [] => found
  | e :: l =>
      if fileid e =? f then Some i
      else find_openfile (i + 1) l f
             (match found with None => if fileid e =? -1 then Some i else None | Some _ => found end)
  end.

Section sfs.
Context {D S L : Type} `{!BlockDevice D, !Semaphores S, !HasCpu L, !ThreadSys L, !LoneLocks L, !Symbols}.
Abbreviation volume := (svol D S L).
Abbreviation device := (D * S)%type.

Definition on_dev {A} (m : M D A) : M device A := fun s =>
  match m s.1 with Ret (a, d) => Ret (a, (d, s.2)) | Fail f => Fail f end.
Definition on_sem {A} (m : M S A) : M device A := fun s =>
  match m s.2 with Ret (a, x) => Ret (a, (s.1, x)) | Fail f => Fail f end.
Definition on_disk {A} (m : M device A) : M volume A := fun s =>
  match m (sv_disk s, sv_sems s) with
  | Ret (a, (d, x)) => Ret (a, mk_svol (sv_sfs s) d x (sv_locks s) (sv_pool s)) | Fail f => Fail f end.
Definition on_sems {A} (m : M S A) : M volume A := on_disk (on_sem m).
Definition on_locks {A} (m : M L A) : M volume A := fun s =>
  match m (sv_locks s) with
  | Ret (a, l) => Ret (a, mk_svol (sv_sfs s) (sv_disk s) (sv_sems s) l (sv_pool s)) | Fail f => Fail f end.
Definition on_pool {A} (m : M pmem A) : M volume A := fun s =>
  match m (sv_pool s) with
  | Ret (a, p) => Ret (a, mk_svol (sv_sfs s) (sv_disk s) (sv_sems s) (sv_locks s) p) | Fail f => Fail f end.
Definition get_sfs : M volume sfs_t := gets sv_sfs.
Definition upd_sfs (f : sfs_t -> sfs_t) : M volume unit :=
  modify (fun s => mk_svol (f (sv_sfs s)) (sv_disk s) (sv_sems s) (sv_locks s) (sv_pool s)).

(** ** Requests to the device *)

(** The loops over the blocks of a virtual block, from block [i] on, end at the
    first failure; the answer is the last [req.return_value].  When
    [semaphore_create] answers NULL, [semaphore_P] reads through it. *)
Fixpoint read_vblock_loop (n : nat) (i block sem : Z) (pbuf : list Z) (return_value : Z) : M device (Z * list Z) :=
  match n with
  | O => mret (return_value, pbuf)
  | Datatypes.S n =>
      let at_ := Z.to_nat (i * SFS_BLOCK_SIZE) in
      '(ok, buf) ← on_dev (read_block (u32 (block + i)) (slice pbuf at_ (Z.to_nat SFS_BLOCK_SIZE)));
      _ ← on_sem (sem_V sem);        (* by the device's interrupt handler *)
      _ ← on_sem (sem_P sem);
      let pbuf := splice pbuf at_ buf in
      if ok =? 0 then mret (-1, pbuf) else read_vblock_loop n (i + 1) block sem pbuf 0
  end.
Definition read_vblock (block : Z) (pbuf : list Z) : M device (Z * list Z) :=
  sem ← on_sem (sem_create 0);
  match sem with
  | None => fail Undef
  | Some sem =>
      '(return_value, pbuf) ← read_vblock_loop (Z.to_nat SFS_BLOCKS_PER_VBLOCK) 0 (u32 (block * SFS_BLOCKS_PER_VBLOCK)) sem pbuf (-1);
      _ ← on_sem (sem_destroy sem);
      mret (if return_value =? 0 then 1 else 0, pbuf)
  end.

Fixpoint write_vblock_loop (n : nat) (i block sem : Z) (pbuf : list Z) (return_value : Z) : M device Z :=
  match n with
  | O => mret return_value
  | Datatypes.S n =>
      ok ← on_dev (write_block (u32 (block + i)) (slice pbuf (Z.to_nat (i * SFS_BLOCK_SIZE)) (Z.to_nat SFS_BLOCK_SIZE)));
      _ ← on_sem (sem_V sem);
      _ ← on_sem (sem_P sem);
      if ok =? 0 then mret (-1) else write_vblock_loop n (i + 1) block sem pbuf 0
  end.
(** After a failure the semaphore is not destroyed. *)
Definition write_vblock (block : Z) (pbuf : list Z) : M device Z :=
  sem ← on_sem (sem_create 0);
  match sem with
  | None => fail Undef
  | Some sem =>
      return_value ← write_vblock_loop (Z.to_nat SFS_BLOCKS_PER_VBLOCK) 0 (u32 (block * SFS_BLOCKS_PER_VBLOCK)) sem pbuf (-1);
      if negb (return_value =? 0) then mret 0
      else _ ← on_sem (sem_destroy sem); mret 1
  end.

Definition read_into (buf : sfs_t -> list Z) (set : list Z -> sfs_t -> sfs_t) (b : Z) : M volume Z :=
  t ← get_sfs;
  '(r, x) ← on_disk (read_vblock b (buf t));
  _ ← upd_sfs (set x);
  mret r.
Definition read_inode : Z -> M volume Z := read_into buffer_inode with_inode.
Definition read_bat : Z -> M volume Z := read_into buffer_bat with_bat.
Definition read_md : Z -> M volume Z := read_into buffer_md with_md.
Definition write_from (buf : sfs_t -> list Z) (b : Z) : M volume Z :=
  t ← get_sfs; on_disk (write_vblock b (buf t)).

(** What is done between [semaphore_P(sfs->lock)] and [semaphore_V], which
    comes on every way out. *)
Definition locked {A} (body : M volume A) : M volume A :=
  t ← get_sfs;
  _ ← on_sems (sem_P (lock t));
  a ← body;
  _ ← on_sems (sem_V (lock t));
  mret a.
(** The same for [openfile_lock]. *)
Definition with_table {A} (body : M volume A) : M volume A :=
  t ← get_sfs;
  _ ← on_locks (lock_acquire (openfile_lock t));
  a ← body;
  _ ← on_locks (lock_release (openfile_lock t));
  mret a.
Definition get_entry (i : Z) : M volume sfs_openfile_t :=
  t ← get_sfs; lift (rget (open_files t) i).
Definition upd_entry (i : Z) (f : sfs_openfile_t -> sfs_openfile_t) : M volume unit :=
  t ← get_sfs;
  e ← lift (rget (open_files t) i);
  l ← lift (rset (open_files t) i (f e));
  upd_sfs (with_open_files l).

(** ** Removal *)

(** [while (i < SFS_BLOCKS_MAX && block[i] != 0)]; [n] is
    [SFS_BLOCKS_MAX - i]. *)
Fixpoint free_blocks (n : nat) (i : Z) : M volume unit :=
  match n with
  | O => mret tt
  | Datatypes.S n =>
      t ← get_sfs;
      b ← lift (get_word (buffer_inode t) (i + 1));
      if b =? 0 then mret tt
      else
        w ← lift (bitmap_set (words_of (buffer_bat t)) (i32 b) 0);
        _ ← upd_sfs (with_bat (bytes_of w));
        free_blocks n (i + 1)
  end.
Definition _delete (fileid parent is_folder : Z) : M volume unit :=
  locked (
    r ← read_bat SFS_ALLOCATION_BLOCK;
    if r =? 0 then mret tt
    else
      t ← get_sfs;
      w ← lift (bitmap_set (words_of (buffer_bat t)) fileid 0);
      _ ← upd_sfs (with_bat (bytes_of w));
      if is_folder =? 0 then
        r ← read_inode fileid;
        if r =? 0 then mret tt
        else
          _ ← free_blocks (Z.to_nat SFS_BLOCKS_MAX) 0;
          _ ← write_from buffer_bat SFS_ALLOCATION_BLOCK;
          mret tt
      else
        _ ← upd_sfs (fun t => with_open_files
              ((fun e => if parentid e =? fileid then with_parentid (-1) e else e) <$> open_files t) t);
        _ ← write_from buffer_bat SFS_ALLOCATION_BLOCK;
        mret tt).
Definition _delete_from_dirtree (fileid parent : Z) : M volume unit :=
  locked (
    if parent >? 0 then
      r ← read_md parent;
      if r =? 0 then mret tt
      else
        t ← get_sfs;
        md ← lift (clear_entries (Z.to_nat SFS_MAX_FILES) 0 (buffer_md t) fileid);
        _ ← upd_sfs (with_md md);
        _ ← write_from buffer_md parent;
        mret tt
    else mret tt).

(** ** The table of open files *)

(** The index of the entry, [None] for NULL. *)
Definition sfs_enter_ext (f parent is_open_op folder mark_as_deleted : Z) : M volume (option Z) :=
  if f <? 0 then mret None
  else
    with_table (
      t ← get_sfs;
      match find_openfile 0 (open_files t) f None with
      | None => mret None
      | Some i =>
          e ← get_entry i;
          if (fileid e =? -1) && (is_open_op =? 0) then mret None
          else
            _ ← (if fileid e =? -1 then upd_entry i (with_file f parent folder) else mret tt);
            _ ← (if negb (is_open_op =? 0) then
                   e ← get_entry i;
                   n ← lift (int (times_opened e + 1));
                   upd_entry i (with_times_opened n)
                 else mret tt);
            _ ← (if negb (mark_as_deleted =? 0) then
                   e ← get_entry i;
                   _ ← (if is_deleted e =? 0 then _delete_from_dirtree (fileid e) (parentid e) else mret tt);
                   upd_entry i (with_is_deleted 1)
                 else mret tt);
            mret (Some i)
      end).
Definition sfs_enter (f : Z) : M volume (option Z) := sfs_enter_ext f (-1) 0 0 0.

Definition sfs_exit (i is_close_op : Z) : M volume unit :=
  with_table (
    _ ← (if negb (is_close_op =? 0) then
           e ← get_entry i;
           n ← lift (int (times_opened e - 1));
           upd_entry i (with_times_opened n)
         else mret tt);
    e ← get_entry i;
    if times_opened e =? 0 then
      _ ← (if negb (is_deleted e =? 0) then _delete (fileid e) (parentid e) (is_folder e) else mret tt);
      upd_entry i sfs_reset_entry
    else mret tt).

(** ** Path resolution *)

(** The answer is the inode number or [VFS_ERROR], [*parent_inode], and
    [*parent_exists] where the function sets it. *)
Fixpoint resolve_loop (n : nat) (consumed_path filename : list Z) (block parent : Z) (want : bool) : M volume (Z * Z * option Z) :=
  match n with
  | O => fail Timeout
  | Datatypes.S n =>
      '(next, filename) ← lift (sfs_next_path_elem consumed_path filename);
      match next with
      | None => mret (block, parent, None)
      | Some consumed_path =>
          r ← read_md block;
          if r =? 0 then mret (VFS_ERROR, block, None)
          else
            t ← get_sfs;
            e ← lift (lookup_entry (Z.to_nat SFS_MAX_FILES) 0 (buffer_md t) filename);
            match e with
            | Some inode => resolve_loop n consumed_path filename (i32 inode) block want
            | None =>
                if want then
                  '(next, _) ← lift (sfs_next_path_elem consumed_path filename);
                  mret (VFS_ERROR, block, Some (match next with None => 1 | Some _ => 0 end))
                else mret (VFS_ERROR, block, None)
            end
      end
  end.
(** [want] tells whether [parent_exists] is not NULL; [filename] is what the
    local array holds at first.  A path that is not valid leaves
    [*parent_inode] alone. *)
Definition sfs_resolve_file_ext (path filename : list Z) (want : bool) : M volume (Z * option Z * option Z) :=
  ok ← lift (sfs_is_valid_path path);
  if negb ok then mret (VFS_ERROR, None, None)
  else
    '(block, parent, exists_) ← locked (resolve_loop (length path) (drop 1 path) filename SFS_DIRECTORY_BLOCK (-1) want);
    mret (block, Some parent, exists_).
Definition sfs_resolve_file (path filename : list Z) : M volume (Z * option Z) :=
  '(block, parent, _) ← sfs_resolve_file_ext path filename false; mret (block, parent).
(** A variable that was not set. *)
Definition the {A} (x : option A) : M volume A := match x with Some a => mret a | None => fail Undef end.

Definition sfs_open (filename stack : list Z) : M volume Z :=
  '(inode, parent) ← sfs_resolve_file filename stack;
  if inode =? VFS_ERROR then mret VFS_NOT_FOUND
  else
    parent ← the parent;
    folder ← lift (sfs_is_folder filename);
    entry ← sfs_enter_ext inode parent 1 folder 0;
    match entry with
    | None => mret VFS_ERROR
    | Some i =>
        e ← get_entry i;
        _ ← sfs_exit i (is_deleted e);
        mret (if negb (is_deleted e =? 0) then VFS_NOT_FOUND else inode)
    end.

Definition sfs_close (fileid : Z) : M volume Z :=
  entry ← sfs_enter fileid;
  match entry with
  | None => mret VFS_ERROR
  | Some i => _ ← sfs_exit i 1; mret VFS_OK
  end.

Definition sfs_remove (filename stack : list Z) : M volume Z :=
  '(inode, parent) ← sfs_resolve_file filename stack;
  root ← (if inode =? VFS_ERROR then mret 0 else lift (stringcmp filename [47; 0]));
  if (inode =? VFS_ERROR) || (root =? 0) then mret VFS_NOT_FOUND
  else
    parent ← the parent;
    folder ← lift (sfs_is_folder filename);
    entry ← sfs_enter_ext inode parent 1 folder 1;
    match entry with
    | None => mret VFS_ERROR
    | Some i => _ ← sfs_exit i 1; mret VFS_OK
    end.

(** ** Readers and writers of an entry *)

Definition on_entry {A} (i : Z) (m : M sfs_openfile_t A) : M volume A :=
  e ← get_entry i;
  '(a, e) ← lift (m e);
  _ ← upd_entry i (fun _ => e);
  mret a.
(** What is done under [io_lock].  A reader counts itself unless a file is
    being written; a writer claims the entry, then goes on when the readers
    before it are gone. *)
Definition admit_reader : M sfs_openfile_t bool :=
  e ← gets id;
  if negb (writer_tid e =? -1) then mret false
  else n ← lift (int (readernum e + 1)); _ ← modify (with_readernum n); mret true.
Definition claim_entry (tid : Z) : M sfs_openfile_t bool :=
  e ← gets id;
  if negb (writer_tid e =? -1) then mret false else _ ← modify (with_writer_tid tid); mret true.
Definition admit_writer : M sfs_openfile_t bool := e ← gets id; mret (negb (readernum e >? 0)).
(** The answer tells whether the waiting threads are to be woken. *)
Definition leave_reader : M sfs_openfile_t bool :=
  e ← gets id;
  n ← lift (int (readernum e - 1));
  _ ← modify (with_readernum n);
  mret (n =? 0).
Definition leave_writer : M sfs_openfile_t bool := _ ← modify (with_writer_tid (-1)); mret true.

(** The wait for a writer is cut where the thread goes to sleep: [Some st] is
    the interrupt state to restore. *)
Definition begin_read_try (i : Z) : M volume (option Z) :=
  e ← get_entry i;
  ok ← on_entry i admit_reader;
  if ok : bool then _ ← on_locks (lock_release (io_lock e)); mret None
  else st ← on_locks (condition_wait (io_cond e) (io_lock e)); mret (Some st).
Definition begin_read (i : Z) : M volume (option Z) :=
  e ← get_entry i; _ ← on_locks (lock_acquire (io_lock e)); begin_read_try i.
Definition begin_read_resume (i st : Z) : M volume (option Z) :=
  e ← get_entry i; _ ← on_locks (condition_wait_resume (io_lock e) st); begin_read_try i.

(** The flag tells whether the entry has been claimed. *)
Definition wait_readers (i : Z) : M volume (option (Z * bool)) :=
  e ← get_entry i;
  ok ← on_entry i admit_writer;
  if ok : bool then _ ← on_locks (lock_release (io_lock e)); mret None
  else st ← on_locks (condition_wait (io_cond e) (io_lock e)); mret (Some (st, true)).
Definition begin_write_try (i : Z) : M volume (option (Z * bool)) :=
  e ← get_entry i;
  tid ← on_locks thread_get_current_thread;
  ok ← on_entry i (claim_entry tid);
  if ok : bool then wait_readers i
  else st ← on_locks (condition_wait (io_cond e) (io_lock e)); mret (Some (st, false)).
Definition begin_write (i : Z) : M volume (option (Z * bool)) :=
  e ← get_entry i; _ ← on_locks (lock_acquire (io_lock e)); begin_write_try i.
Definition begin_write_resume (i st : Z) (claimed : bool) : M volume (option (Z * bool)) :=
  e ← get_entry i; _ ← on_locks (condition_wait_resume (io_lock e) st);
  if claimed then wait_readers i else begin_write_try i.

Definition leave (i : Z) (m : M sfs_openfile_t bool) : M volume unit :=
  e ← get_entry i;
  _ ← on_locks (lock_acquire (io_lock e));
  wake ← on_entry i m;
  _ ← (if wake : bool then on_locks (condition_broadcast (io_cond e) (io_lock e)) else mret tt);
  _ ← on_locks (lock_release (io_lock e));
  sfs_exit i 0.
Definition sfs_end_read (i : Z) : M volume unit := leave i leave_reader.
Definition sfs_end_write (i : Z) : M volume unit := leave i leave_writer.

(** ** Reading *)

(** [inode] and [bat] are the arrays on the stack. *)
Definition read_folder (fileid : Z) (buffer : list Z) (bufsize offset : Z) (bat : list Z) : M device (Z * list Z) :=
  if negb (offset =? 0) || (bufsize <? SFS_VBLOCK_SIZE) then mret (VFS_ERROR, buffer)
  else
    '(r, bat) ← read_vblock fileid bat;
    if r =? 0 then mret (VFS_ERROR, buffer)
    else
      '(numfiles, read, buffer) ← lift (list_names (Z.to_nat SFS_MAX_FILES) 0 bat buffer 0 0);
      buffer ← lift (put_word buffer 0 numfiles);
      mret (read + 4, buffer).
Fixpoint read_blocks (n : nat) (b1 b2 read bufsize : Z) (inode bat buffer : list Z) : M device (Z * list Z) :=
  match n with
  | O => fail Timeout
  | Datatypes.S n =>
      if b1 <=? b2 then
        b ← lift (get_word inode (b1 + 1));
        '(r, bat) ← read_vblock b bat;
        if r =? 0 then mret (VFS_ERROR, buffer)
        else if b1 =? b2 then
          buffer ← lift (memcopy_to (bufsize - read) buffer read bat 0);
          read_blocks n (b1 + 1) b2 (read + (bufsize - read)) bufsize inode bat buffer
        else
          buffer ← lift (memcopy_to SFS_VBLOCK_SIZE buffer read bat 0);
          read_blocks n (b1 + 1) b2 (read + SFS_VBLOCK_SIZE) bufsize inode bat buffer
      else mret (read, buffer)
  end.
Definition read_file (fileid : Z) (buffer : list Z) (bufsize offset : Z) (inode bat : list Z) : M device (Z * list Z) :=
  '(r, inode) ← read_vblock fileid inode;
  if r =? 0 then mret (VFS_ERROR, buffer)
  else
    filesize ← lift (get_word inode 0);
    if (offset <? 0) || (offset >? i32 filesize) then mret (VFS_ERROR, buffer)
    else
      let bufsize := Z.min bufsize (i32 filesize - offset) in
      if bufsize =? 0 then mret (0, buffer)
      else
        let b1 := Z.quot offset SFS_VBLOCK_SIZE in
        let b2 := Z.quot (offset + bufsize - 1) SFS_VBLOCK_SIZE in
        b ← lift (get_word inode (b1 + 1));
        '(r, bat) ← read_vblock b bat;
        if r =? 0 then mret (VFS_ERROR, buffer)
        else
          let read := Z.min (SFS_VBLOCK_SIZE - Z.rem offset SFS_VBLOCK_SIZE) bufsize in
          buffer ← lift (memcopy_to read buffer 0 bat (Z.rem offset SFS_VBLOCK_SIZE));
          read_blocks (Z.to_nat SFS_BLOCKS_MAX + 1) (b1 + 1) b2 read bufsize inode bat buffer.
(** Nobody is there to end the wait for a writer. *)
Definition sfs_read (fileid : Z) (buffer : list Z) (bufsize offset : Z) (inode bat : list Z) : M volume (Z * list Z) :=
  t ← get_sfs;
  if (fileid <? SFS_DIRECTORY_BLOCK) || (fileid >? i32 (totalvblocks t)) then mret (VFS_ERROR, buffer)
  else
    entry ← sfs_enter fileid;
    match entry with
    | None => mret (VFS_ERROR, buffer)
    | Some i =>
        waits ← begin_read i;
        match waits with
        | Some _ => fail Blocked
        | None =>
            e ← get_entry i;
            r ← on_disk (if negb (is_folder e =? 0) then read_folder fileid buffer bufsize offset bat
                         else read_file fileid buffer bufsize offset inode bat);
            _ ← sfs_end_read i;
            mret r
        end
    end.

(** ** Writing *)

Fixpoint write_blocks (n : nat) (b1 b2 written datasize : Z) (inode bat buffer : list Z) : M device Z :=
  match n with
  | O => fail Timeout
  | Datatypes.S n =>
      if b1 <=? b2 then
        b ← lift (get_word inode (b1 + 1));
        if b1 =? b2 then
          '(r, bat) ← (if datasize - written <? SFS_VBLOCK_SIZE then read_vblock b bat else mret (1, bat));
          if r =? 0 then mret VFS_ERROR
          else
            bat ← lift (memcopy_to (datasize - written) bat 0 buffer written);
            r ← write_vblock b bat;
            if r =? 0 then mret VFS_ERROR else write_blocks n (b1 + 1) b2 datasize datasize inode bat buffer
        else
          bat ← lift (memcopy_to SFS_VBLOCK_SIZE bat 0 buffer written);
          r ← write_vblock b bat;
          if r =? 0 then mret VFS_ERROR
          else write_blocks n (b1 + 1) b2 (written + SFS_VBLOCK_SIZE) datasize inode bat buffer
      else mret written
  end.
Definition write_file (fileid : Z) (buffer : list Z) (datasize offset : Z) (inode bat : list Z) : M device Z :=
  '(r, inode) ← read_vblock fileid inode;
  if r =? 0 then mret VFS_ERROR
  else
    filesize ← lift (get_word inode 0);
    if (offset <? 0) || (offset >? i32 filesize) then mret VFS_ERROR
    else
      let datasize := Z.min datasize (i32 filesize - offset) in
      if datasize =? 0 then mret 0
      else
        let b1 := Z.quot offset SFS_VBLOCK_SIZE in
        let b2 := Z.quot (offset + datasize - 1) SFS_VBLOCK_SIZE in
        let written := Z.min (SFS_VBLOCK_SIZE - Z.rem offset SFS_VBLOCK_SIZE) datasize in
        b ← lift (get_word inode (b1 + 1));
        '(r, bat) ← (if written <? SFS_VBLOCK_SIZE then read_vblock b bat else mret (1, bat));
        if r =? 0 then mret VFS_ERROR
        else
          bat ← lift (memcopy_to written bat (Z.rem offset SFS_VBLOCK_SIZE) buffer 0);
          r ← write_vblock b bat;
          if r =? 0 then mret VFS_ERROR
          else write_blocks (Z.to_nat SFS_BLOCKS_MAX + 1) (b1 + 1) b2 written datasize inode bat buffer.
Definition sfs_write (fileid : Z) (buffer : list Z) (datasize offset : Z) (inode bat : list Z) : M volume Z :=
  t ← get_sfs;
  if (fileid <? SFS_DIRECTORY_BLOCK) || (fileid >? i32 (totalvblocks t)) then mret VFS_ERROR
  else
    entry ← sfs_enter fileid;
    match entry with
    | None => mret VFS_ERROR
    | Some i =>
        e ← get_entry i;
        if negb (is_folder e =? 0) then mret VFS_ERROR
        else
          waits ← begin_write i;
          match waits with
          | Some _ => fail Blocked
          | None =>
              r ← on_disk (write_file fileid buffer datasize offset inode bat);
              _ ← sfs_end_write i;
              mret r
          end
    end.

(** ** Creation *)

(** [bitmap_findnset(sfs->buffer_bat, sfs->totalvblocks)] *)
Definition findnset_bat : M volume Z :=
  t ← get_sfs;
  '(w, n) ← lift (bitmap_findnset (words_of (buffer_bat t)) (totalvblocks t));
  _ ← upd_sfs (with_bat (bytes_of w));
  mret n.
Definition set_entry_inode (index x : Z) : M volume unit :=
  t ← get_sfs; md ← lift (put_word (buffer_md t) (entry_inode index) (u32 x)); upd_sfs (with_md md).
(** Word [i] of the inode: the size, and [block[i - 1]]. *)
Definition set_inode_word (i x : Z) : M volume unit :=
  t ← get_sfs; b ← lift (put_word (buffer_inode t) i (u32 x)); upd_sfs (with_inode b).
Fixpoint alloc_blocks (n : nat) (i : Z) : M volume bool :=
  match n with
  | O => mret true
  | Datatypes.S n =>
      b ← findnset_bat;
      _ ← set_inode_word (i + 1) b;
      if b =? -1 then mret false else alloc_blocks n (i + 1)
  end.
Fixpoint clear_blocks (n : nat) (i : Z) : M volume unit :=
  match n with
  | O => mret tt
  | Datatypes.S n => _ ← set_inode_word (i + 1) 0; clear_blocks n (i + 1)
  end.
Fixpoint zero_blocks (n : nat) (i : Z) : M volume Z :=
  match n with
  | O => mret VFS_OK
  | Datatypes.S n =>
      t ← get_sfs;
      b ← lift (get_word (buffer_inode t) (i + 1));
      r ← write_from buffer_bat b;
      if r =? 0 then mret VFS_ERROR else zero_blocks n (i + 1)
  end.

(** The part of [sfs_create] under the semaphore. *)
Definition create_in (parent : Z) (filename : list Z) (is_folder size numvblocks : Z) : M volume Z :=
  r ← read_md parent;
  if r =? 0 then mret VFS_ERROR
  else
    t ← get_sfs;
    index ← lift (free_slot (Z.to_nat SFS_MAX_FILES) 0 (buffer_md t) (-1));
    if index =? -1 then mret VFS_ERROR
    else
      actual ← lift (sfs_get_actual_filename filename);
      name ← lift (stringcopy (entry_name (buffer_md t) index) actual SFS_FILENAME_MAX);
      _ ← upd_sfs (with_md (splice (buffer_md t) (Z.to_nat (20 * index + 4)) name));
      r ← read_bat SFS_ALLOCATION_BLOCK;
      if r =? 0 then mret VFS_ERROR
      else
        inode ← findnset_bat;
        _ ← set_entry_inode index inode;
        if inode =? -1 then mret VFS_ERROR
        else
          ok ← (if is_folder =? 0 then
                  _ ← set_inode_word 0 size;
                  ok ← alloc_blocks (Z.to_nat numvblocks) 0;
                  if negb ok then mret false
                  else _ ← clear_blocks (Z.to_nat (SFS_BLOCKS_MAX - numvblocks)) numvblocks; mret true
                else mret true);
          if negb ok then mret VFS_ERROR
          else
            r ← write_from buffer_bat SFS_ALLOCATION_BLOCK;
            if r =? 0 then mret VFS_ERROR
            else
              r ← write_from buffer_md parent;
              if r =? 0 then mret VFS_ERROR
              else if is_folder =? 0 then
                r ← write_from buffer_inode inode;
                if r =? 0 then mret VFS_ERROR
                else
                  t ← get_sfs;
                  zeros ← lift (memoryset (buffer_bat t) 0 SFS_VBLOCK_SIZE);
                  _ ← upd_sfs (with_bat zeros);
                  zero_blocks (Z.to_nat numvblocks) 0
              else
                t ← get_sfs;
                zeros ← lift (memoryset (buffer_md t) 0 (sizeof_sfs_direntry_t * SFS_MAX_FILES));
                _ ← upd_sfs (with_md zeros);
                r ← write_from buffer_md inode;
                if r =? 0 then mret VFS_ERROR else mret VFS_OK.
(** When a directory on the path cannot be read, [parent_exists] is used
    though it was not set. *)
Definition sfs_create (filename : list Z) (size : Z) (stack : list Z) : M volume Z :=
  ok ← lift (sfs_is_valid_path filename);
  if negb ok then mret VFS_ERROR
  else
    is_folder ← lift (sfs_is_folder filename);
    let size := if negb (is_folder =? 0) then 0 else size in
    if (is_folder =? 0) && (size <? 0) then mret VFS_ERROR
    else
      x ← lift (int (size + SFS_BLOCK_SIZE));
      let numblocks := u32 (Z.quot (x - 1) SFS_BLOCK_SIZE) in
      let numvblocks := numblocks / SFS_BLOCKS_PER_VBLOCK + (if numblocks mod SFS_BLOCKS_PER_VBLOCK =? 0 then 0 else 1) in
      if numvblocks >? SFS_BLOCKS_MAX then mret VFS_ERROR
      else
        '(file_inode, parent, parent_exists) ← sfs_resolve_file_ext filename stack true;
        if negb (file_inode =? VFS_ERROR) then mret VFS_ERROR
        else
          parent ← the parent;
          if parent <? 0 then mret VFS_ERROR
          else
            parent_exists ← the parent_exists;
            if parent_exists =? 0 then mret VFS_ERROR
            else locked (create_in parent filename is_folder size numvblocks).

Definition sfs_getfree : M volume Z :=
  r ← locked (
    r ← read_bat SFS_ALLOCATION_BLOCK;
    if r =? 0 then mret None
    else
      t ← get_sfs;
      allocated ← lift (count_allocated (Z.to_nat (totalvblocks t)) 0 (words_of (buffer_bat t)) 0);
      mret (Some allocated));
  match r with
  | None => mret VFS_ERROR
  | Some allocated =>
      t ← get_sfs;
      if totalvblocks t =? 0 then fail Undef
      else mret (i32 (u32 ((totalvblocks t - allocated) * SFS_VBLOCK_SIZE + (totalblocks t mod totalvblocks t) * SFS_BLOCK_SIZE)))
  end.

(** ** Mounting *)

(** The entries of the table of open files. *)
Fixpoint init_entries (n : nat) : M volume (list sfs_openfile_t) :=
  match n with
  | O => mret []
  | Datatypes.S n =>
      cond ← on_locks condition_create;
      lock ← on_locks lock_create;
      l ← init_entries n;
      mret (sfs_reset_entry (mk_openfile lock cond 0 0 0 0 0 0 0) :: l)
  end.
(** [ram] is what the page holds, [stack] what the local array [name] holds.
    The answer is the volume name, or [None] for NULL. *)
Definition sfs_init (ram stack : list Z) : M volume (option (list Z)) :=
  s ← gets id;
  if negb (block_size (sv_disk s) =? SFS_BLOCK_SIZE) then mret None
  else
    sem ← on_sems (sem_create 1);
    match sem with
    | None => mret None
    | Some sem =>
        table_lock ← on_locks lock_create;
        let undo : M volume unit := _ ← on_sems (sem_destroy sem); on_locks (lock_destroy table_lock) in
        phys ← on_pool pagepool_get_phys_page;
        if phys =? 0 then _ ← undo; mret None
        else
          let addr := ADDR_PHYS_TO_KERNEL phys in
          let give_back : M volume unit := _ ← undo; on_pool (pagepool_free_phys_page (ADDR_KERNEL_TO_PHYS addr)) in
          _ ← kassert (PAGE_SIZE >=? 3 * SFS_VBLOCK_SIZE + sizeof_sfs_t + sizeof_fs_t + sizeof_openfile_t * SFS_MAX_OPEN_FILES);
          '(r, header) ← on_disk (read_vblock 0 (take (Z.to_nat SFS_VBLOCK_SIZE) ram));
          let page := splice ram 0 header in
          if r =? 0 then _ ← give_back; mret None
          else
            magic ← lift (get_word page 0);
            if negb (magic =? SFS_MAGIC) then _ ← give_back; mret None
            else
              name ← lift (stringcopy stack (drop 4 page) SFS_VOLUMENAME_MAX);
              s ← gets id;
              let buffers := Z.to_nat (sizeof_fs_t + sizeof_sfs_t) in
              let size := Z.to_nat SFS_VBLOCK_SIZE in
              l ← init_entries (Z.to_nat SFS_MAX_OPEN_FILES);
              _ ← upd_sfs (fun _ => mk_sfs (Z.min (total_blocks (sv_disk s)) (8 * SFS_VBLOCK_SIZE))
                    (Z.min (total_blocks (sv_disk s) / SFS_BLOCKS_PER_VBLOCK) (8 * SFS_VBLOCK_SIZE)) sem
                    (slice page buffers size) (slice page (buffers + size) size) (slice page (buffers + 2 * size) size)
                    l table_lock addr);
              volume_name ← lift (stringcopy (slice page 4 16) name VFS_NAME_LENGTH);
              mret (Some volume_name)
    end.

(** The files that are marked as deleted, from entry [i] on. *)
Fixpoint delete_marked (n : nat) (i : Z) : M volume unit :=
  match n with
  | O => mret tt
  | Datatypes.S n =>
      e ← get_entry i;
      _ ← (if (fileid e >? 0) && negb (is_deleted e =? 0) then _delete (fileid e) (parentid e) (is_folder e) else mret tt);
      delete_marked n (i + 1)
  end.
Definition sfs_unmount : M volume Z :=
  _ ← delete_marked (Z.to_nat SFS_MAX_OPEN_FILES) 0;
  t ← get_sfs;
  _ ← on_locks (lock_destroy (openfile_lock t));
  _ ← on_sems (sem_P (lock t));
  _ ← on_sems (sem_destroy (lock t));
  _ ← on_pool (pagepool_free_phys_page (ADDR_KERNEL_TO_PHYS (sfs_page t)));
  mret VFS_OK.
End sfs.
