(* ===== verification/SfsVol.v ===== *)
(** * Working on a student file system volume

    Rules for the steps that the operations of fs/sfs.c are made of: requests to
    the device, what is done on the buffers under the semaphore of the volume,
    and what is done under the lock of the table of open files, when no other
    thread is in the way. *)
From S2P Require Import Prelude Bitmap Libc Cpu Kmalloc Pagepool Gbd Sync ThreadSys Bytes Tfs Sfs.

Section device.
Context {D S : Type} `{!BlockDevice D, !Semaphores S}.
Abbreviation device := (D * S)%type.
Implicit Types (d : D) (x : S) (v : device).

(** ** Semaphores *)

(** One more can be created. *)
Definition sems_ready x : Prop := sem_inv x /\ exists i, sem_slot i /\ sem_val x i = None.
Definition same_sems x x' : Prop := sem_inv x' /\ forall j, sem_val x' j = sem_val x j.
Definition kept_sems x x' : Prop := sem_inv x' /\ forall j n, sem_val x j = Some n -> sem_val x' j = Some n.
(** Nothing but semaphores of failed writes is left behind, which [C] excludes. *)
Definition sems_from (C : Prop) x x' : Prop := kept_sems x x' /\ (C -> same_sems x x').

Lemma same_kept x x' : same_sems x x' -> kept_sems x x'.
Proof. intros [? H]. split; [done|]. intros j n. by rewrite H. Qed.
Lemma same_from C x x' : same_sems x x' -> sems_from C x x'.
Proof. intros H. split; [by apply same_kept|done]. Qed.
Lemma same_ready x x' : same_sems x x' -> sems_ready x -> sems_ready x'.
Proof. intros [? H] (_ & i & ? & ?). split; [done|]. exists i. by rewrite H. Qed.
Lemma same_sems_refl x : sem_inv x -> same_sems x x.
Proof. done. Qed.
Lemma same_sems_trans x x' x'' : same_sems x x' -> same_sems x' x'' -> same_sems x x''.
Proof. intros [? H] [? H']. split; [done|]. intros j. by rewrite H'. Qed.
Lemma sems_from_trans (C C' : Prop) x x' x'' :
  (C -> C') -> sems_from C x x' -> sems_from C' x' x'' -> sems_from C x x''.
Proof.
  intros Hd [[? H] Hs] [[? H'] Hs']. split; [split; [done|auto]|]. intros Hr. eapply same_sems_trans; auto.
Qed.

(** ** Requests *)

Record dev_ok v : Prop := {
  do_size : block_size v.1 = 512;
  do_total : is_u32 (total_blocks v.1);
  do_sems : sems_ready v.2
}.
(** The device holds the same; it holds the same outside [l]. *)
Definition same_dev v v' : Prop := same_disk v.1 v'.1 /\ same_sems v.2 v'.2.
Definition dev_outside (l : list Z) v v' : Prop := same_outside l v.1 v'.1 /\ sems_from (reliable v.1) v.2 v'.2.

Lemma same_dev_refl v : dev_ok v -> same_dev v v.
Proof. intros [_ _ [? _]]. split; [apply same_disk_refl|done]. Qed.
Lemma same_dev_trans v v' v'' : same_dev v v' -> same_dev v' v'' -> same_dev v v''.
Proof. intros [H1 H2] [H3 H4]. split; [by eapply same_disk_trans|by eapply same_sems_trans]. Qed.
Lemma same_dev_ok v v' : same_dev v v' -> dev_ok v -> dev_ok v'.
Proof. intros [(Hb & Ht & _) Hs] [? ? ?]. split; [congruence|by rewrite Ht|by eapply same_ready]. Qed.
Lemma same_dev_outside l v v' : same_dev v v' -> dev_outside l v v'.
Proof. intros [H1 H2]. split; [by apply same_disk_is_outside|by apply same_from]. Qed.
Lemma dev_outside_trans l v v' v'' : dev_outside l v v' -> dev_outside l v' v'' -> dev_outside l v v''.
Proof.
  intros [H1 H2] [H3 H4]. split; [by eapply same_outside_trans|]. eapply sems_from_trans; [|done|done]. apply H1.
Qed.
Lemma dev_outside_ok l v v' : dev_outside l v v' -> same_sems v.2 v'.2 -> dev_ok v -> dev_ok v'.
Proof. intros [(Hb & Ht & _) _] Hs [? ? ?]. split; [congruence|by rewrite Ht|by eapply same_ready]. Qed.
Lemma dev_outside_mono l l' v v' : l ⊆ l' -> dev_outside l v v' -> dev_outside l' v v'.
Proof. intros Hl [(H1 & H2 & H3 & H4) Hs]. split; [|done]. split; [done|]. split; [done|]. split; [|done]. intros c Hc. apply H3. set_solver. Qed.

Lemma wp_on_dev {A} (m : M D A) (Q : A -> device -> Prop) v : wp m (fun a d => Q a (d, v.2)) v.1 -> wp (on_dev m) Q v.
Proof. unfold wp, on_dev. by destruct (m v.1) as [[a d]|]. Qed.
Lemma wp_on_sem {A} (m : M S A) (Q : A -> device -> Prop) v : wp m (fun a x => Q a (v.1, x)) v.2 -> wp (on_sem m) Q v.
Proof. unfold wp, on_sem. by destruct (m v.2) as [[a x]|]. Qed.

(** The semaphore of a request, from its creation on. *)
Lemma wp_new_sem (Q : option Z -> device -> Prop) v :
  sems_ready v.2 ->
  (forall i x, sem_inv x -> sem_val v.2 i = None -> (forall j, sem_val x j = if j =? i then Some 0 else sem_val v.2 j) ->
     Q (Some i) (v.1, x)) ->
  wp (on_sem (sem_create 0)) Q v.
Proof.
  intros (Hinv & i0 & Hi0 & Hv0) HQ. apply wp_on_sem.
  eapply wp_mono; [apply wp_and; [apply (sem_create_spec v.2 0 Hinv); lia|apply (sem_create_slot v.2 0 Hinv); lia]|].
  intros [i|] x [[Hx Hval] Hslot]; [|by destruct (Hslot i0)]. destruct Hval as [Hi Hval]. by apply HQ.
Qed.
(** The handler raises it and the caller takes it. *)
Lemma wp_signalled {A} (k : M device A) (Q : A -> device -> Prop) i d x :
  sem_inv x -> sem_val x i = Some 0 ->
  (forall x', same_sems x x' -> wp k Q (d, x')) ->
  wp (_ ← on_sem (sem_V i); _ ← on_sem (sem_P i); k) Q (d, x).
Proof.
  intros Hx Hi Hk. apply wp_bind, wp_on_sem. eapply wp_mono; [apply (sem_V_spec x i 0 Hx Hi); lia|]. intros _ x1 [Hx1 Hv1].
  apply wp_bind, wp_on_sem. cbn [fst snd].
  eapply wp_mono; [apply (sem_P_spec x1 i 1 Hx1); [by rewrite Hv1, Z.eqb_refl|lia]|]. intros _ x2 [Hx2 Hv2].
  apply Hk. split; [done|]. intros j. rewrite Hv2, Hv1. by destruct (Z.eqb_spec j i) as [->|].
Qed.
Lemma wp_drop_sem (Q : unit -> device -> Prop) i d x0 x :
  sem_inv x -> sem_val x0 i = None -> (forall j, sem_val x j = if j =? i then Some 0 else sem_val x0 j) ->
  (forall x', same_sems x0 x' -> Q tt (d, x')) -> wp (on_sem (sem_destroy i)) Q (d, x).
Proof.
  intros Hx Hi Hv HQ. apply wp_on_sem. eapply wp_mono; [apply (sem_destroy_spec x i 0 Hx); [by rewrite Hv, Z.eqb_refl|lia]|].
  intros [] x' [Hx' Hv']. apply HQ. split; [done|]. intros j. rewrite Hv', Hv. by destruct (Z.eqb_spec j i) as [->|].
Qed.

Lemma one_block (pbuf : list Z) : zlen pbuf = 512 -> slice pbuf (Z.to_nat (0 * SFS_BLOCK_SIZE)) (Z.to_nat SFS_BLOCK_SIZE) = pbuf.
Proof. intros Hl. unfold slice. cbn [Z.mul Z.to_nat drop]. apply take_ge. unfold SFS_BLOCK_SIZE. lia. Qed.
Lemma vblock_number b : is_u32 b -> u32 (u32 (b * SFS_BLOCKS_PER_VBLOCK) + 0) = b.
Proof. intros Hb. unfold SFS_BLOCKS_PER_VBLOCK. by rewrite Z.mul_1_r, Z.add_0_r, !u32_id by (rewrite ?u32_id; done). Qed.

Lemma wp_read_vblock b buf (Q : Z * list Z -> device -> Prop) v :
  dev_ok v -> 0 <= b < total_blocks v.1 -> zlen buf = 512 ->
  (forall r buf' v', same_dev v v' -> is_buffer 512 buf' -> (r <> 0 -> buf' = contents v.1 b) -> (reliable v.1 -> r <> 0) ->
     Q (r, buf') v') ->
  wp (read_vblock b buf) Q v.
Proof.
  intros [Hsz Htot Hsems] Hb Hbuf HQ. unfold read_vblock.
  apply wp_bind, wp_new_sem; [done|]. intros i x Hx Hfree Hval. destruct v as [d x0]. cbn [fst snd] in *.
  apply wp_bind. change (Z.to_nat SFS_BLOCKS_PER_VBLOCK) with 1%nat. cbn [read_vblock_loop].
  assert (Hb32 : is_u32 b) by (unfold is_u32 in *; lia).
  rewrite one_block, vblock_number by done. apply wp_bind, wp_on_dev. cbn [fst snd].
  eapply wp_mono; [apply (read_spec d b buf Hb); by rewrite Hsz|].
  intros [ok buf'] d' (Hbs & Htb & Hc & Hl & Hby & Hr & Hrel).
  apply wp_signalled; [done|by rewrite Hval, Z.eqb_refl|]. intros x1 [Hx1 Hv1]. change (Z.to_nat (0 * SFS_BLOCK_SIZE)) with 0%nat.
  rewrite splice_whole by lia.
  assert (Hend : forall r, (r <> 0 -> ok <> 0) -> (ok <> 0 -> r <> 0) -> wp (_ ← on_sem (sem_destroy i); mret (r, buf')) Q (d', x1)).
  { intros r Hr1 Hr2. apply wp_bind, (wp_drop_sem _ i d' x0 x1); [done|done|intros j; by rewrite Hv1|]. intros x2 Hx2. apply wp_ret.
    apply HQ.
    - split; [|done]. split; [done|]. split; [done|]. split; [done|]. intros Hd. by apply Hrel.
    - split; [lia|done].
    - intros Hne. by apply Hr, Hr1.
    - intros Hd. by apply Hr2, Hrel. }
  destruct (Z.eqb_spec ok 0) as [->|Hne]; apply wp_ret; cbn [Z.eqb]; by apply Hend.
Qed.

(** One more semaphore is in use. *)
Definition one_more_sem x x' : Prop :=
  sem_inv x' /\ exists i, sem_val x i = None /\ forall j, sem_val x' j = if j =? i then Some 0 else sem_val x j.
Lemma write_vblock_run b buf v :
  dev_ok v -> 0 <= b < total_blocks v.1 -> is_buffer 512 buf ->
  wp (write_vblock b buf) (fun r v' => same_outside [b] v.1 v'.1 /\ (reliable v.1 -> r <> 0) /\
    if r =? 0 then one_more_sem v.2 v'.2 else contents v'.1 b = buf /\ same_sems v.2 v'.2) v.
Proof.
  intros [Hsz Htot Hsems] Hb Hbuf. unfold write_vblock.
  apply wp_bind, wp_new_sem; [done|]. intros i x Hx Hfree Hval. destruct v as [d x0]. cbn [fst snd] in *.
  apply wp_bind. change (Z.to_nat SFS_BLOCKS_PER_VBLOCK) with 1%nat. cbn [write_vblock_loop].
  assert (Hb32 : is_u32 b) by (unfold is_u32 in *; lia). pose proof Hbuf as [Hl _].
  rewrite one_block, vblock_number by done. apply wp_bind, wp_on_dev. cbn [fst snd].
  eapply wp_mono; [apply (write_spec d b buf Hb); by rewrite Hsz|].
  intros ok d' (Hbs & Htb & Hc & Hr & Hrel).
  assert (Hout : same_outside [b] d d').
  { split; [done|]. split; [done|]. split; [intros c Hc'; apply Hc; set_solver|]. intros Hd. by apply Hrel. }
  apply wp_signalled; [done|by rewrite Hval, Z.eqb_refl|]. intros x1 [Hx1 Hv1].
  destruct (Z.eqb_spec ok 0) as [->|Hne]; apply wp_ret; cbn [Z.eqb negb].
  - apply wp_ret. split; [done|]. split; [intros Hd; by apply Hrel|]. cbn [Z.eqb snd]. split; [done|].
    exists i. split; [done|]. intros j. by rewrite Hv1, Hval.
  - apply wp_bind, (wp_drop_sem _ i d' x0 x1); [done|done|intros j; by rewrite Hv1|]. intros x2 Hx2. apply wp_ret.
    split; [done|]. split; [done|]. cbn [Z.eqb Pos.eqb]. by split; [apply Hr|].
Qed.
Lemma wp_write_vblock b buf (Q : Z -> device -> Prop) v :
  dev_ok v -> 0 <= b < total_blocks v.1 -> is_buffer 512 buf ->
  (forall r v', dev_outside [b] v v' -> (r <> 0 -> contents v'.1 b = buf /\ same_sems v.2 v'.2) -> (reliable v.1 -> r <> 0) -> Q r v') ->
  wp (write_vblock b buf) Q v.
Proof.
  intros Hok Hb Hbuf HQ. eapply wp_mono; [by apply write_vblock_run|]. intros r v' (Hout & Hrel & Hcase).
  destruct (Z.eqb_spec r 0) as [->|Hne].
  - apply HQ; [|done|done]. destruct Hcase as (Hinv & i & Hi & Hval). split; [done|]. split; [|intros Hd; by destruct (Hrel Hd)].
    split; [done|]. intros j n Hj. rewrite Hval. destruct (Z.eqb_spec j i) as [->|]; congruence.
  - destruct Hcase as [Hc Hs]. apply HQ; [split; [done|by apply same_from]|done|done].
Qed.
End device.

(** ** On the buffers of a volume *)
Section body.
Context {D S L : Type} `{!BlockDevice D, !Semaphores S, !HasCpu L, !ThreadSys L, !LoneLocks L, !Symbols}.
Abbreviation volume := (svol D S L).
Abbreviation device := (D * S)%type.
Implicit Types (t : sfs_t) (v : device) (s : volume).

Record body_ok t v : Prop := {
  bo_dev : dev_ok v;
  bo_total : 3 <= totalvblocks t <= 4096;
  bo_disk : totalvblocks t <= total_blocks v.1;
  bo_inode : is_buffer 512 (buffer_inode t);
  bo_bat : is_buffer 512 (buffer_bat t);
  bo_md : is_buffer 512 (buffer_md t)
}.
(** Only the buffers differ. *)
Definition same_sfs t t' : Prop :=
  (totalblocks t', totalvblocks t', lock t', open_files t', openfile_lock t', sfs_page t') =
  (totalblocks t, totalvblocks t, lock t, open_files t, openfile_lock t, sfs_page t).

Lemma same_sfs_trans t t' t'' : same_sfs t t' -> same_sfs t' t'' -> same_sfs t t''.
Proof. unfold same_sfs. congruence. Qed.

Lemma body_set t v b :
  body_ok t v -> is_buffer 512 b -> body_ok (with_inode b t) v /\ body_ok (with_bat b t) v /\ body_ok (with_md b t) v.
Proof. intros [] ?. split_and!; by split. Qed.
Lemma sfs_body_same t v v' : same_dev v v' -> body_ok t v -> body_ok t v'.
Proof. intros Hs [? ? ? ? ? ?]. split; try done; [by eapply same_dev_ok|]. destruct Hs as [(_ & -> & _) _]. done. Qed.
Lemma sfs_body_outside l t v v' : dev_outside l v v' -> same_sems v.2 v'.2 -> body_ok t v -> body_ok t v'.
Proof. intros Hs Hx [? ? ? ? ? ?]. split; try done; [by eapply dev_outside_ok|]. destruct Hs as [(_ & -> & _) _]. done. Qed.

(** A computation that leaves locks and pages alone. *)
Definition wps {A} (m : M volume A) (R : A -> sfs_t -> device -> Prop) t v : Prop :=
  forall l p, wp m (fun a s => sv_locks s = l /\ sv_pool s = p /\ R a (sv_sfs s) (sv_disk s, sv_sems s)) (mk_svol t v.1 v.2 l p).

Section rules.
Context {A B : Type}.
Implicit Types (R : A -> sfs_t -> device -> Prop).

Lemma wps_ret (a : A) R t v : R a t v -> wps (mret a) R t v.
Proof. destruct v. by intros HR l p. Qed.
Lemma wps_mono (m : M volume A) R (R' : A -> sfs_t -> device -> Prop) t v :
  wps m R t v -> (forall a t' v', R a t' v' -> R' a t' v') -> wps m R' t v.
Proof. intros Hm HR l p. eapply wp_mono; [apply Hm|]. intros a s (? & ? & ?). auto. Qed.
Lemma wps_bind (m : M volume B) (k : B -> M volume A) R t v :
  wps m (fun b t' v' => wps (k b) R t' v') t v -> wps (m ≫= k) R t v.
Proof.
  intros Hm l p. apply wp_bind. eapply wp_mono; [apply Hm|]. intros b [t' d' x' l' p'] (Hl & Hp & Hk). cbn in *. subst. apply Hk.
Qed.
Lemma wps_lift (r : res A) (a : A) R t v : r = Ret a -> R a t v -> wps (lift r) R t v.
Proof. intros -> HR l p. destruct v. by split_and!. Qed.
Lemma wps_disk (m : M device A) R t v : wp m (fun a v' => R a t v') v -> wps (on_disk m) R t v.
Proof.
  intros Hm l p. unfold wp, on_disk in *. destruct v as [d x]. cbn. destruct (m (d, x)) as [[a [d' x']]|]; [|done]. by split_and!.
Qed.
End rules.
Lemma wps_get (R : sfs_t -> sfs_t -> device -> Prop) t v : R t t v -> wps get_sfs R t v.
Proof. destruct v. by intros HR l p. Qed.
Lemma wps_upd f (R : unit -> sfs_t -> device -> Prop) t v : R tt (f t) v -> wps (upd_sfs f) R t v.
Proof. destruct v. by intros HR l p. Qed.

Lemma wps_read_into buf set b (R : Z -> sfs_t -> device -> Prop) t v :
  body_ok t v -> zlen (buf t) = 512 -> 0 <= b < total_blocks v.1 ->
  (forall r x v', same_dev v v' -> is_buffer 512 x -> (r <> 0 -> x = contents v.1 b) -> (reliable v.1 -> r <> 0) ->
     R r (set x t) v') ->
  wps (read_into buf set b) R t v.
Proof.
  intros Hok Hbuf Hb HR. apply wps_bind, wps_get, wps_bind, wps_disk, wp_read_vblock; [apply Hok|done|done|].
  intros r x v' Hs Hx Hr Hrel. apply wps_bind, wps_upd, wps_ret. by apply HR.
Qed.

(** The three buffers: [set] puts one of them in its place. *)
Definition buffer_field (buf : sfs_t -> list Z) (set : list Z -> sfs_t -> sfs_t) : Prop :=
  (buf = buffer_inode /\ set = with_inode) \/ (buf = buffer_bat /\ set = with_bat) \/ (buf = buffer_md /\ set = with_md).
Lemma wps_read_block buf set b (R : Z -> sfs_t -> device -> Prop) t v :
  buffer_field buf set -> body_ok t v -> 0 <= b < total_blocks v.1 ->
  (forall r x v', same_dev v v' -> body_ok (set x t) v' -> (r <> 0 -> x = contents v.1 b) -> (reliable v.1 -> r <> 0) ->
     R r (set x t) v') ->
  wps (read_into buf set b) R t v.
Proof.
  intros Hf Hok Hb HR. apply wps_read_into; [done| |done|].
  - destruct Hok as [_ _ _ [Hi _] [Hb' _] [Hm _]]. by destruct Hf as [[-> ->]|[[-> ->]|[-> ->]]].
  - intros r x v' Hs Hx Hr Hrel. apply HR; try done. destruct (body_set t v' x) as (H1 & H2 & H3); [by eapply sfs_body_same|done|].
    by destruct Hf as [[-> ->]|[[-> ->]|[-> ->]]].
Qed.
Lemma wps_read_inode b (R : Z -> sfs_t -> device -> Prop) t v :
  body_ok t v -> 0 <= b < total_blocks v.1 ->
  (forall r x v', same_dev v v' -> body_ok (with_inode x t) v' -> (r <> 0 -> x = contents v.1 b) -> (reliable v.1 -> r <> 0) ->
     R r (with_inode x t) v') ->
  wps (read_inode b) R t v.
Proof. apply wps_read_block. by left. Qed.
Lemma wps_read_bat b (R : Z -> sfs_t -> device -> Prop) t v :
  body_ok t v -> 0 <= b < total_blocks v.1 ->
  (forall r x v', same_dev v v' -> body_ok (with_bat x t) v' -> (r <> 0 -> x = contents v.1 b) -> (reliable v.1 -> r <> 0) ->
     R r (with_bat x t) v') ->
  wps (read_bat b) R t v.
Proof. apply wps_read_block. right. by left. Qed.
Lemma wps_read_md b (R : Z -> sfs_t -> device -> Prop) t v :
  body_ok t v -> 0 <= b < total_blocks v.1 ->
  (forall r x v', same_dev v v' -> body_ok (with_md x t) v' -> (r <> 0 -> x = contents v.1 b) -> (reliable v.1 -> r <> 0) ->
     R r (with_md x t) v') ->
  wps (read_md b) R t v.
Proof. apply wps_read_block. right. by right. Qed.
Lemma wps_write_from buf b (R : Z -> sfs_t -> device -> Prop) t v :
  body_ok t v -> is_buffer 512 (buf t) -> 0 <= b < total_blocks v.1 ->
  (forall r v', dev_outside [b] v v' -> (r <> 0 -> contents v'.1 b = buf t /\ body_ok t v' /\ same_sems v.2 v'.2) -> (reliable v.1 -> r <> 0) -> R r t v') ->
  wps (write_from buf b) R t v.
Proof.
  intros Hok Hbuf Hb HR. apply wps_bind, wps_get, wps_disk, wp_write_vblock; [apply Hok|done|done|].
  intros r v' Hs Hr Hrel. apply HR; try done. intros Hne. destruct (Hr Hne). split; [done|]. split; [by eapply sfs_body_outside|done].
Qed.

(** ** Under the semaphore *)

(** The volume between two operations. *)
Record sems_ok s : Prop := {
  so_lock : sem_val (sv_sems s) (lock (sv_sfs s)) = Some 1;
  so_ready : sems_ready (sv_sems s)
}.
Lemma wp_sfs_locked {A} (C : Prop) (body : M volume A) (R : A -> sfs_t -> D -> Prop) s :
  sems_ok s ->
  (forall x, sems_ready x ->
     wps body (fun a t v => sems_from C x v.2 /\ R a t v.1) (sv_sfs s) (sv_disk s, x)) ->
  wp (locked body) (fun a s' => sv_locks s' = sv_locks s /\ sv_pool s' = sv_pool s /\
    sems_from C (sv_sems s) (sv_sems s') /\ R a (sv_sfs s') (sv_disk s')) s.
Proof.
  intros [Hlock (Hinv & i & Hi & Hfree)] Hbody. unfold locked. apply wp_bind, wp_gets, wp_bind.
  set (k := lock (sv_sfs s)) in *.
  pose proof (sem_P_spec (sv_sems s) k 1 Hinv Hlock ltac:(lia)) as HP. unfold wp at 1, on_sems, on_disk, on_sem. unfold wp in HP. cbn [fst snd].
  destruct (sem_P k (sv_sems s)) as [[[] x1]|]; [|done]. destruct HP as (Hinv1 & Hval1).
  assert (Hready1 : sems_ready x1).
  { split; [done|]. exists i. split; [done|]. rewrite Hval1. destruct (Z.eqb_spec i k) as [->|]; congruence. }
  apply wp_bind. eapply wp_mono; [exact (Hbody x1 Hready1 (sv_locks s) (sv_pool s))|].
  intros a [t' d' x' l' p'] (Hl & Hp & [[Hinv' Hkept] Hsame] & HR). cbn [sv_locks sv_pool sv_sfs sv_disk sv_sems fst snd] in *. subst l' p'.
  apply wp_bind. assert (Hk : sem_val x' k = Some 0) by (apply Hkept; rewrite Hval1, Z.eqb_refl; done).
  pose proof (sem_V_spec x' k 0 Hinv' Hk ltac:(lia)) as HV. unfold wp at 1. cbn [sv_sems]. unfold wp in HV.
  destruct (sem_V k x') as [[[] x2]|]; [|done]. destruct HV as (Hinv2 & Hval2). apply wp_ret. cbn [sv_locks sv_pool sv_sfs sv_disk sv_sems].
  split; [done|]. split; [done|]. split; [|done]. split; [split; [done|]|].
  - intros j n Hj. rewrite Hval2. destruct (Z.eqb_spec j k) as [->|Hne]; [change (0 + 1) with 1; congruence|]. apply Hkept. rewrite Hval1.
    by rewrite (proj2 (Z.eqb_neq j k) Hne).
  - intros Hr. destruct (Hsame Hr) as [_ Hs]. split; [done|]. intros j. rewrite Hval2, Hs, Hval1.
    destruct (Z.eqb_spec j k) as [->|]; [by rewrite Hlock|done].
Qed.

(** ** Under a lock *)

Definition held_by_me (y : L) (k : Z) : Prop := ts_lock y k = Mine /\ ts_quiet y k.
(** The locks are as they were. *)
Definition same_locks (y y' : L) : Prop :=
  ts_ok y' /\ (forall k, idle y k -> idle y' k) /\ ts_tid y' = ts_tid y.

Lemma same_locks_refl y : ts_ok y -> same_locks y y.
Proof. done. Qed.
Lemma same_locks_trans y y' y'' : same_locks y y' -> same_locks y' y'' -> same_locks y y''.
Proof. intros (? & ? & ?) (? & ? & ?). split; [done|]. split; [auto|congruence]. Qed.

Lemma wp_on_locks {A} (m : M L A) (Q : A -> volume -> Prop) s :
  wp m (fun a y => Q a (mk_svol (sv_sfs s) (sv_disk s) (sv_sems s) y (sv_pool s))) (sv_locks s) -> wp (on_locks m) Q s.
Proof. unfold wp, on_locks. by destruct (m (sv_locks s)) as [[a y]|]. Qed.

Definition set_locks (y : L) s : volume := mk_svol (sv_sfs s) (sv_disk s) (sv_sems s) y (sv_pool s).

(** The locks inside a bracket that holds [k]. *)
Definition inside_lock (k : Z) (y y' : L) : Prop :=
  ts_ok y' /\ held_by_me y' k /\ (forall j, j <> k -> idle y j -> idle y' j) /\ ts_tid y' = ts_tid y.

Lemma wp_lock_acquire k (Q : unit -> volume -> Prop) s :
  ts_ok (sv_locks s) -> idle (sv_locks s) k ->
  (forall y, inside_lock k (sv_locks s) y -> Q tt (set_locks y s)) -> wp (on_locks (lock_acquire k)) Q s.
Proof.
  intros Hok [Hfree Hq] HQ. apply wp_on_locks.
  eapply wp_mono; [apply wp_and; [by apply lock_acquire_spec|by apply lock_acquire_quiet]|].
  intros [] y [(Hy & _ & (Ht & _) & Hm & Hother & _) Hqs]. apply HQ. split; [done|]. split; [by split; [|apply Hqs]|]. split; [|done].
  intros j Hj [Hf Hqj]. split; [by rewrite Hother|by apply Hqs].
Qed.
Lemma wp_lock_release k y0 (Q : unit -> volume -> Prop) s :
  inside_lock k y0 (sv_locks s) -> (forall y, same_locks y0 y -> Q tt (set_locks y s)) -> wp (on_locks (lock_release k)) Q s.
Proof.
  intros (Hok & [Hm Hq] & Hother & Ht) HQ. apply wp_on_locks.
  eapply wp_mono; [apply wp_and; [by apply lock_release_spec|by apply lock_release_quiet]|].
  intros [] y [(Hy & _ & (Hty & _) & _ & Hoth) Hrq]. destruct (Hrq Hq) as [Hf Hqs]. apply HQ. split; [done|]. split; [|congruence]. intros j Hj.
  destruct (decide (j = k)) as [->|Hne]; [split; [done|by apply Hqs]|]. destruct (Hother j Hne Hj) as [Hfj Hqj].
  split; [by rewrite Hoth|by apply Hqs].
Qed.
Lemma wp_broadcast k c y0 (Q : unit -> volume -> Prop) s :
  inside_lock k y0 (sv_locks s) -> ts_cond c -> (forall y, inside_lock k y0 y -> Q tt (set_locks y s)) ->
  wp (on_locks (condition_broadcast c k)) Q s.
Proof.
  intros (Hok & [Hm Hq] & Hother & Ht) Hc HQ. apply wp_on_locks.
  eapply wp_mono; [apply wp_and; [by apply condition_broadcast_spec|by apply condition_broadcast_quiet]|].
  intros [] y [(Hy & _ & (Hty & _) & Hoth) Hqs]. apply HQ. split; [done|]. split; [split; [by rewrite Hoth|by apply Hqs]|].
  split; [|congruence]. intros j Hne Hj. destruct (Hother j Hne Hj) as [Hfj Hqj]. split; [by rewrite Hoth|by apply Hqs].
Qed.

Lemma wp_with_table {A} (body : M volume A) (Q : A -> sfs_t -> D -> S -> pmem -> Prop) s :
  ts_ok (sv_locks s) -> idle (sv_locks s) (openfile_lock (sv_sfs s)) ->
  (forall y, wp body (fun a s' => sv_locks s' = y /\ Q a (sv_sfs s') (sv_disk s') (sv_sems s') (sv_pool s')) (set_locks y s)) ->
  wp (with_table body) (fun a s' => same_locks (sv_locks s) (sv_locks s') /\
    Q a (sv_sfs s') (sv_disk s') (sv_sems s') (sv_pool s')) s.
Proof.
  intros Hok Hidle Hbody. apply wp_bind, wp_gets, wp_bind, wp_lock_acquire; [done|done|]. intros y Hy.
  apply wp_bind. eapply wp_mono; [apply Hbody|]. intros a s' [<- HQ].
  apply wp_bind, (wp_lock_release _ (sv_locks s)); [done|]. intros y' Hy'. apply wp_ret. by split.
Qed.

(** ** Entries of the table *)
Lemma wp_get_entry i e (Q : sfs_openfile_t -> volume -> Prop) s :
  0 <= i -> open_files (sv_sfs s) !! Z.to_nat i = Some e -> Q e s -> wp (get_entry i) Q s.
Proof. intros Hi He HQ. apply wp_bind, wp_gets. eapply wp_lift; [by apply rget_Ret|done]. Qed.
Definition set_entry (i : Z) (e : sfs_openfile_t) s : volume :=
  mk_svol (with_open_files (<[Z.to_nat i := e]> (open_files (sv_sfs s))) (sv_sfs s)) (sv_disk s) (sv_sems s) (sv_locks s) (sv_pool s).
Lemma wp_upd_entry i f e (Q : unit -> volume -> Prop) s :
  0 <= i -> open_files (sv_sfs s) !! Z.to_nat i = Some e -> Q tt (set_entry i (f e) s) -> wp (upd_entry i f) Q s.
Proof.
  intros Hi He HQ. apply wp_bind, wp_gets, wp_bind. eapply wp_lift; [by apply rget_Ret|]. apply wp_bind.
  apply lookup_lt_Some in He. eapply wp_lift; [apply rset_in; lia|]. by apply wp_modify.
Qed.
Lemma wp_on_entry {A} i (m : M sfs_openfile_t A) a e e' (Q : A -> volume -> Prop) s :
  0 <= i -> open_files (sv_sfs s) !! Z.to_nat i = Some e -> m e = Ret (a, e') -> Q a (set_entry i e' s) -> wp (on_entry i m) Q s.
Proof.
  intros Hi He Hm HQ. apply wp_bind, (wp_get_entry i e); [done|done|]. apply wp_bind. eapply wp_lift; [exact Hm|].
  apply wp_bind, (wp_upd_entry i _ e); [done|done|]. by apply wp_ret.
Qed.
End body.
