(* ===== verification/SfsPath.v ===== *)
(** * Paths of the student filesystem

    A path is '/' followed by its elements: names of directories, which end in
    '/', and at last the name of a file or a directory.  The tests of fs/sfs.c
    accept the paths whose elements fit the 16 bytes of a directory entry and of
    the buffer that the walk over the directories uses; [sfs_resolve_file] is
    the walk. *)
From S2P Require Import Prelude Bitmap Libc Cpu Gbd Sync ThreadSys Bytes Tfs Sfs SfsVol.

(** ** Elements *)

(** The elements of a path after its first '/'; [cur] is the part of the first
    element that has been passed. *)
Fixpoint split_path (cur s : list Z) : list (list Z) :=
  match s with
  | [] => match cur with [] => [] | _ => [cur] end
  | c :: s => if c =? 47 then (cur ++ [c]) :: split_path [] s else split_path (cur ++ [c]) s
  end.
Definition path_elements (s : list Z) : list (list Z) := split_path [] s.

Definition valid_char (c : Z) : Prop := sfs_is_valid_filename_char c = true.
Definition valid_elem (e : list Z) : Prop :=
  zlen e < SFS_FILENAME_MAX /\ exists name, name <> [] /\ Forall valid_char name /\ (e = name \/ e = name ++ [47]).
(** The paths that the file system accepts. *)
Definition valid_path (s : list Z) : Prop :=
  exists body, s = 47 :: body /\ Forall valid_elem (path_elements body).

Lemma valid_char_range c : valid_char c -> 0 < c < 128 /\ c <> 47.
Proof. unfold valid_char, sfs_is_valid_filename_char. zbool. lia. Qed.

Lemma valid_elem_chars e c : valid_elem e -> c ∈ e -> valid_char c \/ c = 47.
Proof.
  intros (_ & name & _ & Hn & He) Hc. rewrite Forall_forall in Hn. destruct He as [->| ->]; [left; by apply Hn|].
  apply elem_of_app in Hc as [Hc|Hc%list_elem_of_singleton]; [left; by apply Hn|by right].
Qed.

(** The first element starts with what has been passed of it. *)
Lemma split_path_first cur c s : exists e l, split_path cur (c :: s) = (cur ++ c :: e) :: l.
Proof.
  revert cur c. induction s as [|d s IH]; intros cur c; cbn [split_path].
  - destruct (c =? 47); [by exists [], []|]. cbn. destruct (cur ++ [c]) eqn:E; [by destruct cur|]. rewrite <- E. by exists [], [].
  - destruct (c =? 47); [by exists [], (split_path [] (d :: s))|]. destruct (IH (cur ++ [c]) d) as (e & l & Hl).
    exists (d :: e), l. by rewrite <- (app_assoc cur [c]) in Hl.
Qed.

(** What has been passed of an element. *)
Definition passed (cur : list Z) : Prop := Forall valid_char cur /\ zlen cur < SFS_FILENAME_MAX.

Lemma passed_elem cur : passed cur -> cur <> [] -> valid_elem cur.
Proof. intros [Hc Hl] Hne. split; [done|]. exists cur. by split_and!; [| |left]. Qed.

Lemma cstr_rget l s i : cstr l = Some s -> 0 <= i < zlen s -> exists c, s !! Z.to_nat i = Some c /\ rget l i = Ret c.
Proof.
  intros (_ & rest & ->)%cstr_inv Hi. destruct (lookup_lt_is_Some_2 s (Z.to_nat i)) as [c Hc]; [lia|]. exists c. split; [done|].
  apply rget_Ret. split; [lia|]. by apply lookup_app_l_Some.
Qed.

Lemma valid_path_loop_run n i path s cur :
  cstr path = Some s -> i + Z.of_nat n = zlen s -> 1 <= i -> passed cur ->
  s !! (Z.to_nat (i - 1)) = Some (default 47 (last cur)) ->
  exists b, valid_path_loop n i (zlen cur) path = Ret b /\ (b = true <-> Forall valid_elem (split_path cur (drop (Z.to_nat i) s))).
Proof.
  intros Hs. revert i cur. induction n as [|n IH]; intros i cur Hn Hi Hcur Hlast; cbn [valid_path_loop].
  { exists true. split; [done|]. rewrite drop_ge by lia. cbn [split_path]. split; [|done]. intros _.
    destruct cur eqn:E; [done|]. constructor; [by apply passed_elem|done]. }
  destruct (cstr_rget path s i Hs ltac:(lia)) as (c & Hc & Hget).
  assert (Hdrop : drop (Z.to_nat i) s = c :: drop (Z.to_nat (i + 1)) s).
  { rewrite (drop_S _ c) by done. f_equal. f_equal. lia. }
  rewrite Hdrop. destruct (split_path_first cur c (drop (Z.to_nat (i + 1)) s)) as (e & l & Hfirst).
  assert (Hreject : ~ valid_elem (cur ++ c :: e) -> false = true <-> Forall valid_elem (split_path cur (c :: drop (Z.to_nat (i + 1)) s))).
  { intros Hno. rewrite Hfirst. split; [done|]. by intros [? _]%Forall_cons. }
  rewrite Z.geb_leb. destruct (Z.leb_spec SFS_FILENAME_MAX (zlen cur + 1)) as [Hlong|Hshort].
  { exists false. split; [done|]. apply Hreject. intros [Hl _]. rewrite length_app in Hl. cbn [length] in Hl. lia. }
  rewrite Hget. cbn [mbind res_bind].
  assert (Hi' : Z.to_nat (i + 1 - 1) = Z.to_nat i) by lia.
  destruct (Z.eqb_spec c 47) as [->|Hne].
  - destruct (cstr_rget path s (i - 1) Hs ltac:(lia)) as (b & Hb & ->). cbn [mbind res_bind].
    rewrite Hb in Hlast. injection Hlast as ->. destruct (decide (cur = [])) as [->|Hcne].
    + cbn [last default Z.eqb]. exists false. split; [done|]. apply Hreject.
      intros (_ & name & Hnn & Hv & He). cbn [app] in He. destruct He as [He|He].
      * rewrite <- He in Hv. apply Forall_cons in Hv as [Hv _]. by apply valid_char_range in Hv as [_ ?].
      * destruct name as [|x name]; [done|]. injection He as <- _. apply Forall_cons in Hv as [Hv _]. by apply valid_char_range in Hv as [_ ?].
    + destruct (last cur) as [x|] eqn:El; [|by apply last_None in El]. change (default 47 (Some x)) with x.
      destruct Hcur as [Hv Hl]. assert (Hx : valid_char x).
      { rewrite Forall_forall in Hv. apply Hv. by apply last_Some_elem_of. }
      apply valid_char_range in Hx as [_ Hx]. rewrite (proj2 (Z.eqb_neq x 47) Hx).
      destruct (IH (i + 1) []) as (r & Hr & Hiff); [lia|lia|by split|by rewrite Hi'|]. exists r. cbn [length Z.of_nat] in Hr. split; [exact Hr|].
      cbn [split_path]. rewrite Z.eqb_refl, Forall_cons, <- Hiff. split; [|tauto]. intros Ht. split; [|done].
      split; [rewrite length_app; cbn [length]; lia|]. exists cur. by split_and!; [| |right].
  - destruct (sfs_is_valid_filename_char c) eqn:Ec.
    + destruct Hcur as [Hv Hl]. destruct (IH (i + 1) (cur ++ [c])) as (r & Hr & Hiff); [lia|lia| |by rewrite last_snoc, Hi'|].
      { split; [apply Forall_app; split; [done|by constructor]|]. rewrite length_app. cbn [length]. lia. }
      exists r. rewrite length_app in Hr. cbn [length] in Hr. rewrite Nat2Z.inj_add in Hr. split; [exact Hr|].
      cbn [split_path]. by rewrite (proj2 (Z.eqb_neq c 47) Hne).
    + exists false. split; [done|]. apply Hreject. intros Hv. destruct (valid_elem_chars _ c Hv) as [Hbad|]; [set_solver| |done].
      unfold valid_char in Hbad. congruence.
Qed.

Lemma sfs_is_valid_path_run path s :
  cstr path = Some s -> exists b, sfs_is_valid_path path = Ret b /\ (b = true <-> valid_path s).
Proof.
  intros Hs. unfold sfs_is_valid_path. rewrite (strlen_run path s Hs). cbn [mbind res_bind].
  destruct s as [|c body].
  { exists false. split; [done|]. split; [done|]. by intros (body & [=] & _). }
  destruct (Z.ltb_spec (zlen (c :: body)) 1); [cbn [length] in *; lia|].
  destruct (cstr_rget path (c :: body) 0 Hs ltac:(cbn; lia)) as (c' & [= <-] & ->). cbn [mbind res_bind].
  destruct (Z.eqb_spec c 47) as [->|Hne]; cbn [negb].
  - destruct (valid_path_loop_run (Z.to_nat (zlen (47 :: body) - 1)) 1 path (47 :: body) [] Hs) as (b & Hb & Hiff);
      [cbn [length]; lia|lia|by split|done|]. exists b. split; [exact Hb|]. rewrite Hiff. unfold valid_path. cbn [drop Z.to_nat Pos.to_nat Pos.iter_op Init.Nat.add].
    split; [intros H'; by exists body|]. by intros (body' & [= <-] & H').
  - exists false. split; [done|]. split; [done|]. by intros (body' & [=] & _).
Qed.

(** ** Taking the next element *)

Lemma next_elem_run s cur e l rest buffer :
  split_path cur s = e :: l -> Forall (fun c => c <> 0) s -> (length e < length buffer)%nat ->
  exists s', cur ++ s = e ++ s' /\ path_elements s' = l /\
    next_elem (zlen cur) (s ++ 0 :: rest) (splice buffer 0 cur) = Ret (Some (s' ++ 0 :: rest), splice buffer 0 (e ++ [0])).
Proof.
  revert cur. induction s as [|c s IH]; intros cur Hsplit Hs Hlen; cbn [split_path] in Hsplit.
  - destruct cur as [|x cur]; [done|]. injection Hsplit as <- <-. exists []. split; [done|]. split; [done|].
    cbn [app next_elem]. rewrite rset_append by lia. cbn. done.
  - apply Forall_cons in Hs as [Hc Hs]. cbn [app next_elem]. destruct (split_path_first cur c s) as (e' & l' & Hfirst).
    assert (Hshort : (length cur < length buffer)%nat).
    { cbn [split_path] in Hfirst. rewrite Hfirst in Hsplit. injection Hsplit as <- <-. rewrite length_app in Hlen. cbn in Hlen. lia. }
    rewrite rset_append by lia. cbn [mbind res_bind]. rewrite (proj2 (Z.eqb_neq c 0) Hc).
    destruct (Z.eqb_spec c 47) as [->|Hne].
    + injection Hsplit as <- <-. exists s. split; [by rewrite <- app_assoc|]. split; [done|].
      replace (zlen cur + 1) with (zlen (cur ++ [47])) by (rewrite length_app; cbn; lia). rewrite rset_append by lia. by rewrite <- app_assoc.
    + destruct (IH (cur ++ [c])) as (s' & Hcat & Hl & Hrun); [done|done|done|]. exists s'. split; [by rewrite <- app_assoc in Hcat|]. split; [done|].
      rewrite length_app in Hrun. cbn [length] in Hrun. by rewrite Nat2Z.inj_add in Hrun.
Qed.

Lemma sfs_next_path_elem_run s rest buffer :
  Forall (fun c => c <> 0) s -> Forall valid_elem (path_elements s) -> zlen buffer = SFS_FILENAME_MAX ->
  match path_elements s with
  | [] => s = [] /\ sfs_next_path_elem (s ++ 0 :: rest) buffer = Ret (None, splice buffer 0 [0])
  | e :: l => exists s', s = e ++ s' /\ path_elements s' = l /\ e <> [] /\
      sfs_next_path_elem (s ++ 0 :: rest) buffer = Ret (Some (s' ++ 0 :: rest), splice buffer 0 (e ++ [0]))
  end.
Proof.
  unfold path_elements. intros Hs Hv Hb. destruct (split_path [] s) as [|e l] eqn:E.
  - destruct s as [|c s]; [|destruct (split_path_first [] c s) as (? & ? & Hf); by rewrite E in Hf].
    split; [done|]. unfold sfs_next_path_elem, SFS_FILENAME_MAX in *. cbn [app next_elem].
    pose proof (rset_append buffer [] 0 ltac:(cbn; lia)) as Hset. rewrite splice_nil in Hset. change (rset buffer 0 0 = Ret (splice buffer 0 [0])) in Hset. by rewrite Hset.
  - apply Forall_cons in Hv as [(Hl & name & Hn & _ & He) _]. unfold SFS_FILENAME_MAX in *.
    destruct (next_elem_run s [] e l rest buffer E Hs ltac:(lia)) as (s' & Hcat & Hl' & Hrun). exists s'. split; [done|]. split; [done|].
    split; [by destruct He as [->| ->]; destruct name|]. by rewrite splice_nil in Hrun.
Qed.

(** ** Directories *)

(** The names in a directory block and their inodes, from entry [i] on. *)
Fixpoint dir_entries_from (n : nat) (i : Z) (md : list Z) : list (list Z * Z) :=
  match n with
  | O => []
  | S n =>
      let inode := word md (entry_inode i) in
      if inode =? 0 then dir_entries_from n (i + 1) md
      else (default [] (entry_cname md i), inode) :: dir_entries_from n (i + 1) md
  end.
Definition dir_entries (md : list Z) : list (list Z * Z) := dir_entries_from (Z.to_nat SFS_MAX_FILES) 0 md.
Fixpoint assoc (e : list Z) (l : list (list Z * Z)) : option Z :=
  match l with [] => None | (name, inode) :: l => if decide (name = e) then Some inode else assoc e l end.
Definition dir_lookup (md e : list Z) : option Z := assoc e (dir_entries md).
(** The names of the entries in use are terminated in their 16 bytes. *)
Definition dir_ok (md : list Z) : Prop :=
  forall k, 0 <= k < SFS_MAX_FILES -> word md (entry_inode k) <> 0 ->
    exists name, entry_cname md k = Some name /\ zlen name < SFS_FILENAME_MAX.

Lemma entry_word md i : zlen md = 512 -> 0 <= i < SFS_MAX_FILES -> get_word md (entry_inode i) = Ret (word md (entry_inode i)).
Proof.
  change SFS_MAX_FILES with 25. intros Hl Hi. apply get_word_word; unfold entry_inode; lia.
Qed.

Lemma lookup_entry_run n i md filename e :
  is_buffer 512 md -> dir_ok md -> Forall is_byte filename -> cstr filename = Some e -> 0 <= i -> i + Z.of_nat n <= SFS_MAX_FILES ->
  lookup_entry n i md filename = Ret (assoc e (dir_entries_from n i md)).
Proof.
  intros [Hl Hb] Hd Hf He. revert i. induction n as [|n IH]; intros i Hi Hn; [done|]. cbn [lookup_entry dir_entries_from].
  rewrite entry_word by lia. cbn [mbind res_bind]. pose proof (word_u32 md (entry_inode i) Hb) as Hw. unfold is_u32 in Hw.
  rewrite Z.gtb_ltb. destruct (Z.eqb_spec (word md (entry_inode i)) 0) as [H0|H0].
  - rewrite H0. cbn [Z.ltb Z.compare]. apply IH; lia.
  - rewrite (proj2 (Z.ltb_lt 0 _)) by lia. destruct (Hd i) as (c & Hc & _); [lia|done|].
    destruct (entry_cmp md filename e i c) as (r & Hr & Hiff); try done. rewrite Hr. cbn [mbind res_bind]. rewrite Hc. cbn [assoc].
    change (default [] (Some c)) with c. destruct (Z.eqb_spec r 0) as [Hr0|Hr0].
    + apply Hiff in Hr0 as ->. by rewrite decide_True.
    + rewrite decide_False by tauto. apply IH; lia.
Qed.

(** ** The walk over the directories *)
Section walk.
Context {D S L : Type} `{!BlockDevice D, !Semaphores S, !HasCpu L, !ThreadSys L, !LoneLocks L, !Symbols}.
Abbreviation volume := (svol D S L).
Abbreviation device := (D * S)%type.
Implicit Types (t : sfs_t) (v : device) (d : D).

(** What the walk ends in: the inode that the path names and the directory it
    is in, or the directory that lacks an element, and whether that was the
    last one. *)
Inductive walked := Found (block parent : Z) | Missing (parent : Z) (last : bool).
#[export] Instance walked_eq_dec : EqDecision walked.
Proof. solve_decision. Defined.

Fixpoint walk d (block parent : Z) (elems : list (list Z)) : walked :=
  match elems with
  | [] => Found block parent
  | e :: rest =>
      match dir_lookup (contents d block) e with
      | Some inode => walk d (i32 inode) block rest
      | None => Missing block (bool_decide (rest = []))
      end
  end.
(** The blocks it visits are directories of the device. *)
Fixpoint walkable d (block : Z) (elems : list (list Z)) : Prop :=
  match elems with
  | [] => True
  | e :: rest =>
      0 <= block < total_blocks d /\ dir_ok (contents d block) /\
      match dir_lookup (contents d block) e with Some inode => walkable d (i32 inode) rest | None => True end
  end.
(** The walk for a path, which starts with '/'. *)
Definition resolve d (path : list Z) : walked := walk d SFS_DIRECTORY_BLOCK (-1) (path_elements (tail path)).
Definition resolvable d (path : list Z) : Prop := walkable d SFS_DIRECTORY_BLOCK (path_elements (tail path)).

Definition walk_answer (want : bool) (w : walked) : Z * Z * option Z :=
  match w with
  | Found block parent => (block, parent, None)
  | Missing parent last => (VFS_ERROR, parent, if want then Some (if last then 1 else 0) else None)
  end.

Lemma walk_same d d' block parent elems :
  same_disk d d' -> walk d' block parent elems = walk d block parent elems /\ (walkable d block elems -> walkable d' block elems).
Proof.
  intros (_ & Ht & Hc & _). revert block parent. induction elems as [|e rest IH]; intros block parent; [done|]. cbn [walk walkable].
  rewrite Hc, Ht. destruct (dir_lookup (contents d block) e) as [inode|]; [|tauto]. destruct (IH (i32 inode) block) as [-> Hw]. tauto.
Qed.

Lemma resolve_loop_run n s rest filename block parent want t v :
  body_ok t v -> Forall (fun c => c <> 0) s -> Forall is_byte s -> Forall valid_elem (path_elements s) ->
  is_buffer SFS_FILENAME_MAX filename -> (length s < n)%nat -> walkable v.1 block (path_elements s) ->
  wps (L := L) (resolve_loop n (s ++ 0 :: rest) filename block parent want)
    (fun a t' v' => same_sfs t t' /\ body_ok t' v' /\ same_dev v v' /\
       ((a.1.1 = VFS_ERROR /\ a.2 = None /\ ~ reliable v.1) \/ a = walk_answer want (walk v.1 block parent (path_elements s)))) t v.
Proof.
  revert s filename block parent t v. induction n as [|n IH]; intros s filename block parent t v Hok Hs Hsb Hv Hfn Hn Hw; [lia|].
  cbn [resolve_loop]. pose proof (sfs_next_path_elem_run s rest filename Hs Hv (proj1 Hfn)) as Hnext.
  destruct (path_elements s) as [|e l] eqn:El.
  { destruct Hnext as [-> Hrun]. apply wps_bind. eapply wps_lift; [exact Hrun|]. apply wps_ret.
    split; [done|]. split; [done|]. split; [apply same_dev_refl, Hok|]. by right. }
  destruct Hnext as (s' & -> & Hl & Hne & Hrun). apply wps_bind. eapply wps_lift; [exact Hrun|]. cbn [walkable] in Hw.
  destruct Hw as (Hblk & Hdir & Hw). apply Forall_app in Hs as [He Hs]. apply Forall_app in Hsb as [Heb Hsb]. apply Forall_cons in Hv as [Hve Hv].
  pose proof Hve as [Hlen _]. pose proof Hfn as [Hfl Hfb]. unfold SFS_FILENAME_MAX in *.
  set (filename' := splice filename 0 (e ++ [0])).
  assert (Hfn' : is_buffer 16 filename').
  { split; [unfold filename'; rewrite length_splice; [done|rewrite length_app; cbn; lia]|]. apply Forall_splice; [done|].
    apply Forall_app. split; [done|]. constructor; [unfold is_byte; lia|done]. }
  assert (Hcstr : cstr filename' = Some e).
  { unfold filename', splice. cbn [take app]. rewrite take_0. cbn [app]. rewrite <- app_assoc. by apply cstr_app. }
  apply wps_bind, wps_read_md; [done|done|]. intros r x v' Hsame Hok' Hx Hrel. destruct (Z.eqb_spec r 0) as [Hr|Hr].
  { apply wps_ret. split; [done|]. split; [done|]. split; [done|]. left. split; [done|]. split; [done|]. intros Hd. by apply Hrel. }
  rewrite (Hx Hr) in *. clear Hx. set (md := contents v.1 block) in *. apply wps_bind, wps_get, wps_bind. cbn [with_md buffer_md].
  pose proof (bo_md _ _ Hok') as Hmd. cbn [with_md buffer_md] in Hmd.
  eapply wps_lift; [apply lookup_entry_run; [done|done|apply Hfn'|exact Hcstr|lia|done]|]. fold (dir_entries md).
  fold (dir_lookup md e). cbn [walk]. fold md. destruct (dir_lookup md e) as [inode|] eqn:Elook.
  - rewrite <- Hl in *. pose proof Hsame as [Hsd Hss]. eapply wps_mono.
    { apply IH; try done.
      - rewrite length_app in Hn. destruct e; [done|]. cbn in Hn. lia.
      - by apply (walk_same v.1 v'.1 (i32 inode) block). }
    intros a t' v'' (Hsfs & Hok'' & Hdev & Ha). split; [exact Hsfs|]. split; [done|]. split; [by eapply same_dev_trans|].
    destruct (walk_same v.1 v'.1 (i32 inode) block (path_elements s') Hsd) as [Hwalk _]. rewrite Hwalk in Ha.
    destruct Ha as [(? & ? & Hnr)| ->]; [left|by right]. split; [done|]. split; [done|]. intros Hd. apply Hnr. by apply Hsd.
  - destruct want.
    + pose proof (sfs_next_path_elem_run s' rest filename' Hs) as Hnext. rewrite Hl in Hnext. specialize (Hnext Hv (proj1 Hfn')).
      apply wps_bind. destruct l as [|e' l'].
      * destruct Hnext as [-> Hrun']. eapply wps_lift; [exact Hrun'|]. apply wps_ret. split; [done|]. split; [done|]. split; [done|]. by right.
      * destruct Hnext as (s'' & -> & _ & _ & Hrun'). eapply wps_lift; [exact Hrun'|]. apply wps_ret. split; [done|]. split; [done|]. split; [done|]. by right.
    + apply wps_ret. split; [done|]. split; [done|]. split; [done|]. by right.
Qed.

(** The volume between two operations. *)
Record vol_ok (s : volume) : Prop := {
  vo_body : body_ok (sv_sfs s) (sv_disk s, sv_sems s);
  vo_lock : sem_val (sv_sems s) (lock (sv_sfs s)) = Some 1
}.
Lemma vol_sems s : vol_ok s -> sems_ok s.
Proof. intros [Hb Hl]. split; [done|apply Hb]. Qed.

Lemma sfs_resolve_file_ext_run (s : volume) path p stack want :
  vol_ok s -> cstr path = Some p -> Forall is_byte p -> is_buffer SFS_FILENAME_MAX stack -> resolvable (sv_disk s) p ->
  wp (sfs_resolve_file_ext path stack want) (fun a s' => vol_ok s' /\ same_sfs (sv_sfs s) (sv_sfs s') /\
    sv_locks s' = sv_locks s /\ sv_pool s' = sv_pool s /\ same_dev (sv_disk s, sv_sems s) (sv_disk s', sv_sems s') /\
    ((~ valid_path p /\ a = (VFS_ERROR, None, None)) \/
     (valid_path p /\ exists b parent e, a = (b, Some parent, e) /\
        ((b = VFS_ERROR /\ e = None /\ ~ reliable (sv_disk s)) \/ (b, parent, e) = walk_answer want (resolve (sv_disk s) p))))) s.
Proof.
  intros Hvol Hp Hb Hst Hres. destruct (sfs_is_valid_path_run path p Hp) as (ok & Hok & Hiff). unfold sfs_resolve_file_ext.
  apply wp_bind. eapply wp_lift; [exact Hok|]. destruct ok; cbn [negb].
  2: { apply wp_ret. split; [done|]. split; [done|]. split; [done|]. split; [done|].
       split; [apply same_dev_refl, (vo_body _ Hvol)|]. left. split; [|done]. intros Hv. by apply Hiff in Hv. }
  pose proof (proj1 Hiff eq_refl) as Hvalid. pose proof Hvalid as (body & -> & Hv).
  apply cstr_inv in Hp as (Hnz & rest & ->). apply Forall_cons in Hnz as [_ Hnz]. apply Forall_cons in Hb as [_ Hb].
  apply wp_bind. eapply wp_mono.
  { apply (wp_sfs_locked True _ (fun a t d => same_sfs (sv_sfs s) t /\ (body_ok (sv_sfs s) (sv_disk s, sv_sems s) -> forall x, sems_ready x -> body_ok t (d, x)) /\
      same_disk (sv_disk s) d /\ ((a.1.1 = VFS_ERROR /\ a.2 = None /\ ~ reliable (sv_disk s)) \/
        a = walk_answer want (resolve (sv_disk s) (47 :: body))))); [by apply vol_sems|].
    intros x Hx. cbn [app drop]. eapply wps_mono.
    { apply (resolve_loop_run _ body rest stack SFS_DIRECTORY_BLOCK (-1) want (sv_sfs s) (sv_disk s, x)); try done.
      - destruct (vo_body _ Hvol) as [[? ? _] ? ? ? ? ?]. by split.
      - cbn [length app]. rewrite length_app. cbn. lia. }
    intros a t v (Hsfs & Hbody & [Hd Hs] & Ha). split; [by apply same_from|]. split; [done|]. split; [|by split].
    intros _ y Hy. destruct Hbody as [[? ? _] ? ? ? ? ?]. by split. }
  intros [[b parent] e] s' (Hlk & Hpl & [_ Hsems] & Hsfs & Hbody & Hd & Ha). specialize (Hsems I). apply wp_ret.
  split; [split|split; [done|split; [done|split; [done|split; [by split|]]]]].
  - apply Hbody; [apply Hvol|]. eapply same_ready; [done|apply (vo_body _ Hvol)].
  - destruct Hsems as [_ ->]. injection Hsfs as _ _ -> _ _ _. apply Hvol.
  - right. split; [done|]. exists b, parent, e. done.
Qed.
End walk.
