(* ===== verification/SfsFile.v ===== *)
(** * Reading and writing files of the student filesystem

    [read_file] and [write_file], the parts of [sfs_read] and [sfs_write] that
    talk to the device: a file is what its inode's blocks hold, as on a TFS
    volume, and the blocks outside the file are left alone. *)
From S2P Require Import Prelude Bitmap Libc Cpu Gbd Sync ThreadSys Bytes Tfs Sfs SfsVol.

Section file.
Context {D S : Type} `{!BlockDevice D, !Semaphores S}.
Abbreviation device := (D * S)%type.
Implicit Types (d : D) (v : device).

Lemma file_word v d0 f inode i total :
  dev_ok v -> same_disk d0 v.1 -> inode = contents d0 f -> file_ok total d0 f -> total <= total_blocks v.1 -> 0 <= i <= 127 ->
  get_word inode i = Ret (word (contents d0 f) i).
Proof.
  intros [Hbs _ _] (Hb & Ht & _) -> Hf Htot Hi. pose proof (fo_inode _ _ _ Hf). destruct (contents_ok d0 f) as [Hl _]; [lia|].
  apply get_word_word; lia.
Qed.

Lemma reliable_outside l d d' : same_outside l d d' -> ~ reliable d' -> ~ reliable d.
Proof. intros (_ & _ & _ & H) Hn Hd. auto. Qed.

(** ** Reading *)
Definition read_ends (v0 : device) (f : Z) (buf0 : list Z) (offset n : Z) (a : Z * list Z) (v : device) : Prop :=
  same_dev v0 v /\ ((a.1 = VFS_ERROR /\ ~ reliable v0.1) \/ a = (n, read_so_far (file_data v0.1 f) buf0 offset n)).

Lemma sfs_read_blocks_run n v0 f buf0 offset bufsize b1 bat v total :
  let d0 := v0.1 in let inode := contents d0 f in
  dev_ok v -> same_dev v0 v -> zlen bat = 512 -> file_ok total d0 f -> total <= total_blocks d0 ->
  0 <= offset -> 1 <= bufsize -> offset + bufsize <= file_size d0 f -> bufsize <= zlen buf0 ->
  offset / 512 < b1 <= (offset + bufsize - 1) / 512 + 1 -> (offset + bufsize - 1) / 512 - b1 + 2 <= Z.of_nat n ->
  let read := Z.min (512 * b1 - offset) bufsize in
  wp (read_blocks n b1 ((offset + bufsize - 1) / 512) read bufsize inode bat (read_so_far (file_data d0 f) buf0 offset read))
    (read_ends v0 f buf0 offset bufsize) v.
Proof.
  cbv zeta. intros Hok Hd Hbat Hf Htot Ho Hn Hsz Hbuf. revert b1 bat v Hok Hd Hbat.
  set (d0 := v0.1) in *. set (inode := contents d0 f).
  induction n as [|n IH]; intros b1 bat v Hok Hd Hbat Hb1 Hfuel; [cbn in Hfuel; lia|].
  pose proof (fo_size _ _ _ Hf) as Hsize.
  destruct (block_pos d0 f offset bufsize Ho Hn Hsz Hsize) as ([Hp1 Hp2] & Hp3 & Hp4).
  set (b2 := (offset + bufsize - 1) / 512) in *. cbn [read_blocks]. destruct (Z.leb_spec b1 b2) as [Hle|Hgt].
  2: { apply wp_ret. replace (Z.min (512 * b1 - offset) bufsize) with bufsize by (subst b2; Z.div_mod_to_equations; lia).
       split; [done|]. by right. }
  pose proof Hd as [Hsd _]. pose proof Hsd as (Hbs & Htb & Hcont & Hrelk). fold d0 in Hbs, Htb, Hcont, Hrelk.
  apply wp_bind. eapply wp_lift; [apply (file_word v d0 f _ _ total); try done; [by rewrite Htb|lia]|].
  assert (Hblk : word (contents d0 f) (b1 + 1) = file_block d0 f (Z.to_nat b1)) by (unfold file_block; do 2 f_equal; lia).
  rewrite Hblk. destruct (file_block_lookup _ d0 f (Z.to_nat b1) Hf) as [Hrange _]; [lia|].
  apply wp_bind, wp_read_vblock; [done|lia|done|]. intros r x v' Hs [Hxl _] Hx Hrel.
  pose proof (same_dev_trans _ _ _ Hd Hs) as Hd'.
  destruct (Z.eqb_spec r 0) as [Hr|Hr].
  { apply wp_ret. split; [done|]. left. split; [done|]. intros Hrd. by apply Hrel; [apply Hrelk|]. }
  rewrite Hcont in Hx. specialize (Hx Hr).
  assert (Hbs0 : block_size d0 = 512) by (rewrite <- Hbs; apply Hok).
  pose proof (length_file_data _ d0 f Hf Hbs0 Htot) as Hlen. destruct (num_blocks_bound d0 f Hsize) as [[_ Hnb] _].
  (* one more block, whole or the last part *)
  assert (Hstep : forall m, 1 <= m <= 512 -> 512 * b1 - offset + m <= bufsize ->
    memcopy_to m (read_so_far (file_data d0 f) buf0 offset (512 * b1 - offset)) (512 * b1 - offset) x 0 =
      Ret (read_so_far (file_data d0 f) buf0 offset (512 * b1 - offset + m))).
  { intros m Hm Hmax. apply (read_more _ _ _ _ _ _ b1); try lia.
    - Z.div_mod_to_equations; lia.
    - rewrite Hx. replace (Z.to_nat (512 * b1)) with (512 * Z.to_nat b1 + 0)%nat by lia.
      apply (slice_file_data total); [done|done|done|lia|lia]. }
  replace (Z.min (512 * b1 - offset) bufsize) with (512 * b1 - offset) by (subst b2; Z.div_mod_to_equations; lia).
  assert (Hnext : forall m, 1 <= m -> 512 * b1 - offset + m = Z.min (512 * (b1 + 1) - offset) bufsize -> wp
    (read_blocks n (b1 + 1) b2 (512 * b1 - offset + m) bufsize inode x (read_so_far (file_data d0 f) buf0 offset (512 * b1 - offset + m)))
    (read_ends v0 f buf0 offset bufsize) v').
  { intros m Hm Heq. rewrite Heq. apply IH; try done; [by apply (same_dev_ok v v')|lia|lia]. }
  destruct (Z.eqb_spec b1 b2) as [Heq|Hne].
  - apply wp_bind. eapply wp_lift; [apply Hstep; subst b2; Z.div_mod_to_equations; lia|].
    apply Hnext; subst b2; Z.div_mod_to_equations; lia.
  - change SFS_VBLOCK_SIZE with 512. apply wp_bind. eapply wp_lift; [apply Hstep; subst b2; Z.div_mod_to_equations; lia|].
    apply Hnext; subst b2; Z.div_mod_to_equations; lia.
Qed.

(** The range of a read or a write that stays in the file. *)
Record in_range (f offset n : Z) d : Prop := {
  ir_offset : 0 <= offset;
  ir_some : 1 <= n;
  ir_end : offset + n <= file_size d f
}.

(** [read_file] once the inode is read and the offset checked. *)
Lemma sfs_read_tail_run v0 f buf0 offset bufsize bat v total :
  let d0 := v0.1 in let inode := contents d0 f in
  dev_ok v -> same_dev v0 v -> zlen bat = 512 -> file_ok total d0 f -> total <= total_blocks d0 ->
  in_range f offset bufsize d0 -> bufsize <= zlen buf0 ->
  wp (b ← lift (get_word inode (Z.quot offset SFS_VBLOCK_SIZE + 1));
      '(r, bat) ← read_vblock b bat;
      if r =? 0 then mret (VFS_ERROR, buf0)
      else
        let read := Z.min (SFS_VBLOCK_SIZE - Z.rem offset SFS_VBLOCK_SIZE) bufsize in
        buffer ← lift (memcopy_to read buf0 0 bat (Z.rem offset SFS_VBLOCK_SIZE));
        read_blocks (Z.to_nat SFS_BLOCKS_MAX + 1) (Z.quot offset SFS_VBLOCK_SIZE + 1)
          (Z.quot (offset + bufsize - 1) SFS_VBLOCK_SIZE) read bufsize inode bat buffer)
    (read_ends v0 f buf0 offset bufsize) v.
Proof.
  cbv zeta. intros Hok Hd Hbat Hf Htot [Ho Hn Hsz] Hbuf. set (d0 := v0.1) in *. set (inode := contents d0 f).
  pose proof (fo_size _ _ _ Hf) as Hsize. change SFS_VBLOCK_SIZE with 512.
  rewrite !Z.quot_div_nonneg, !Z.rem_mod_nonneg by lia.
  destruct (block_pos d0 f offset bufsize Ho Hn Hsz Hsize) as ([Hp1 Hp2] & Hp3 & Hp4). set (b1 := offset / 512) in *.
  pose proof Hd as [Hsd _]. pose proof Hsd as (Hbs & Htb & Hcont & Hrelk). fold d0 in Hbs, Htb, Hcont, Hrelk.
  apply wp_bind. eapply wp_lift; [apply (file_word v d0 f _ _ total); try done; [by rewrite Htb|lia]|].
  assert (Hblk : word (contents d0 f) (b1 + 1) = file_block d0 f (Z.to_nat b1)) by (unfold file_block; do 2 f_equal; lia).
  rewrite Hblk. destruct (file_block_lookup _ d0 f (Z.to_nat b1) Hf) as [Hrange _]; [lia|].
  apply wp_bind, wp_read_vblock; [done|lia|done|]. intros r x v' Hs [Hxl _] Hx Hrel.
  pose proof (same_dev_trans _ _ _ Hd Hs) as Hd'.
  destruct (Z.eqb_spec r 0) as [Hr|Hr].
  { apply wp_ret. split; [done|]. left. split; [done|]. intros Hrd. by apply Hrel; [apply Hrelk|]. }
  rewrite Hcont in Hx. specialize (Hx Hr). assert (Hbs0 : block_size d0 = 512) by (rewrite <- Hbs; apply Hok).
  pose proof (length_file_data _ d0 f Hf Hbs0 Htot) as Hlen. destruct (num_blocks_bound d0 f Hsize) as [[_ Hnb] _].
  assert (Hread : Z.min (512 - offset mod 512) bufsize = Z.min (512 * (b1 + 1) - offset) bufsize).
  { subst b1. Z.div_mod_to_equations. lia. }
  assert (Hmod : 0 <= offset mod 512 < 512 /\ offset = 512 * b1 + offset mod 512) by (subst b1; Z.div_mod_to_equations; lia).
  rewrite Hread. apply wp_bind. eapply wp_lift; [rewrite memcopy_to_run by lia; reflexivity|].
  assert (Hfirst : splice buf0 (Z.to_nat 0) (slice x (Z.to_nat (offset mod 512)) (Z.to_nat (Z.min (512 * (b1 + 1) - offset) bufsize)))
      = read_so_far (file_data d0 f) buf0 offset (Z.min (512 * (b1 + 1) - offset) bufsize)).
  { unfold read_so_far. change (Z.to_nat 0) with 0%nat. f_equal. rewrite Hx.
    replace (Z.to_nat offset) with (512 * Z.to_nat b1 + Z.to_nat (offset mod 512))%nat by lia.
    symmetry. apply (slice_file_data total); [done|done|done|lia|lia]. }
  rewrite Hfirst. apply (sfs_read_blocks_run _ v0 f buf0 offset bufsize (b1 + 1) x v' total); try done; try lia.
  - by apply (same_dev_ok v v').
  - change (Z.to_nat SFS_BLOCKS_MAX) with 127%nat. lia.
Qed.

(** The answer of a read: [n] bytes, or an error when the offset is outside. *)
Definition read_answer d f (buffer : list Z) (bufsize offset : Z) : Z * list Z :=
  if (offset <? 0) || (offset >? file_size d f) then (VFS_ERROR, buffer)
  else
    let n := Z.min bufsize (file_size d f - offset) in
    (n, splice buffer 0 (slice (file_bytes d f) (Z.to_nat offset) (Z.to_nat n))).

Lemma read_file_run v f buffer bufsize offset inode bat total :
  dev_ok v -> file_ok total v.1 f -> total <= total_blocks v.1 -> zlen inode = 512 -> zlen bat = 512 -> 0 <= bufsize <= zlen buffer ->
  wp (read_file f buffer bufsize offset inode bat) (fun a v' => same_dev v v' /\
    ((a.1 = VFS_ERROR /\ ~ reliable v.1) \/ a = read_answer v.1 f buffer bufsize offset)) v.
Proof.
  intros Hok Hf Htot Hil Hbl Hbuf. pose proof (fo_inode _ _ _ Hf) as Hino. pose proof (fo_size _ _ _ Hf) as Hsize. unfold read_file, read_answer.
  apply wp_bind, wp_read_vblock; [done|lia|done|]. intros r x v' Hs [Hxl _] Hx Hrel.
  destruct (Z.eqb_spec r 0) as [Hr|Hr].
  { apply wp_ret. split; [done|]. left. split; [done|]. intros Hrd. by apply Hrel. }
  specialize (Hx Hr). subst x. set (d := v.1) in *. pose proof Hs as [(Hbs & Htb & _) _]. fold d in Htb.
  apply wp_bind. eapply wp_lift; [by apply (file_word v d f _ _ total)|].
  change (word (contents d f) 0) with (file_size d f). rewrite i32_id by (unfold is_i32; lia).
  destruct (Z.ltb_spec offset 0), (Z.gtb_spec offset (file_size d f)); cbn [orb]; try (apply wp_ret; split; [done|]; by right).
  set (n := Z.min bufsize (file_size d f - offset)). destruct (Z.eqb_spec n 0) as [Hn|Hn].
  { apply wp_ret. split; [done|]. right. rewrite Hn. change (Z.to_nat 0) with 0%nat. unfold slice. by rewrite take_0, splice_nil. }
  eapply wp_mono; [apply (sfs_read_tail_run v f buffer offset n bat v' total); try done; [by apply (same_dev_ok v v')|change v.1 with d; split; subst n; lia|subst n; lia]|].
  intros a v'' [Hs' Hend]. split; [done|]. destruct Hend as [Herr|Hres]; [by left|right]. rewrite Hres. unfold read_so_far. fold d.
  by rewrite slice_file_bytes by lia.
Qed.

(** ** Writing *)
Definition write_ends (v0 : device) (f : Z) (buf : list Z) (offset n : Z) (r : Z) (v : device) : Prop :=
  dev_outside (file_blocks v0.1 f) v0 v /\
  ((r = VFS_ERROR /\ ~ reliable v0.1) \/ (r = n /\ file_data v.1 f = written_so_far (file_data v0.1 f) buf offset n)).

(** What holds between the blocks of a write. *)
Record writing (v0 : device) (f : Z) (buf : list Z) (offset w : Z) (total : Z) v : Prop := {
  wr_dev : dev_ok v;
  wr_total : total <= total_blocks v.1;
  wr_out : dev_outside (file_blocks v0.1 f) v0 v;
  wr_data : file_data v.1 f = written_so_far (file_data v0.1 f) buf offset w
}.

(** An error in the middle of a write. *)
Lemma write_stops v0 f buf offset n v v' l r :
  dev_outside (file_blocks v0.1 f) v0 v -> l ⊆ file_blocks v0.1 f -> dev_outside l v v' -> (reliable v.1 -> r <> 0) -> r = 0 ->
  write_ends v0 f buf offset n VFS_ERROR v'.
Proof.
  intros Hout Hl Hout' Hrel ->. split; [by eapply dev_outside_trans, dev_outside_mono|]. left. split; [done|].
  apply (reliable_outside _ _ _ (proj1 Hout)). intros Hd. by apply Hrel.
Qed.

(** Writing the block buffer made of [x] and the next [m] bytes; [b] is the
    number of the block in the file. *)
Lemma sfs_write_block_run (next : M device Z) v0 f buf offset w m k b v x n total :
  writing v0 f buf offset w total v -> file_ok total v0.1 f -> 0 <= b < Z.of_nat (num_blocks v0.1 f) ->
  0 <= offset -> 0 <= w -> 0 <= m -> 0 <= k -> k + m <= 512 -> w + m <= zlen buf -> offset + w = 512 * b + k ->
  offset + w + m <= file_size v0.1 f -> Forall is_byte buf -> is_buffer 512 x ->
  x = contents v.1 (file_block v0.1 f (Z.to_nat b)) \/ m = 512 ->
  (forall v', writing v0 f buf offset (w + m) total v' -> wp next (write_ends v0 f buf offset n) v') ->
  wp (r ← write_vblock (file_block v0.1 f (Z.to_nat b)) (splice x (Z.to_nat k) (slice buf (Z.to_nat w) (Z.to_nat m)));
      if r =? 0 then mret VFS_ERROR else next) (write_ends v0 f buf offset n) v.
Proof.
  intros [Hok Htot [Hout Hsems] Hdata] Hf Hb Ho Hw Hm Hk Hkm Hbuf Hpos Hend Hby Hx Hwhole Hgood.
  destruct (outside_file _ _ _ _ Hf Hout) as (Hcf & Hbl & Hfd & Hsz & Hfb). pose proof Hx as [Hxl Hxb].
  assert (Hnb : num_blocks v.1 f = num_blocks v0.1 f) by (unfold num_blocks; by rewrite Hsz).
  destruct (file_block_lookup _ v0.1 f (Z.to_nat b) Hf) as [Hrange _]; [lia|].
  set (x' := splice x _ _). assert (Hx' : is_buffer 512 x').
  { apply splice_buffer; [done|by apply Forall_slice|]. rewrite length_slice by lia. lia. }
  assert (Hin : [file_block v0.1 f (Z.to_nat b)] ⊆ file_blocks v0.1 f).
  { intros c ->%list_elem_of_singleton. eapply list_elem_of_lookup_2, file_block_in. lia. }
  apply wp_bind, wp_write_vblock; [done|lia|done|]. intros r v' Hw1 Hwr Hrel. destruct (Z.eqb_spec r 0) as [Hr|Hr].
  { apply wp_ret. by eapply (write_stops v0 f buf offset n v v' _ r). }
  destruct (Hwr Hr) as [Hc Hss]. pose proof Hw1 as [Hout1 _]. apply Hgood. pose proof Hok as [Hbs _ _].
  assert (Hbs0 : block_size v0.1 = 512) by (destruct Hout as (<- & _); done).
  assert (Htot0 : total <= total_blocks v0.1) by (destruct Hout as (_ & <- & _); done).
  split.
  - by eapply dev_outside_ok.
  - destruct Hout1 as (_ & -> & _). done.
  - eapply dev_outside_trans; [by split|by eapply dev_outside_mono].
  - pose proof (length_file_data _ v0.1 f Hf Hbs0 Htot0) as Hl0. pose proof (length_file_data _ v.1 f Hfd Hbs Htot) as Hl.
    destruct (num_blocks_bound v0.1 f (fo_size _ _ _ Hf)) as [[_ Hnb'] _].
    apply (write_more total v.1 v'.1 f buf (file_data v0.1 f) x offset w m k b); try done; try lia.
    + by rewrite Hfb.
    + by rewrite Hfb.
    + by rewrite Hfb.
Qed.

(** Reading the block to be written, unless all of it will be. *)
Lemma sfs_read_partial_run v0 f buf offset w b m bat n v total (next : Z -> list Z -> M device Z) :
  writing v0 f buf offset w total v -> file_ok total v0.1 f -> 0 <= b < Z.of_nat (num_blocks v0.1 f) -> m <= 512 -> is_buffer 512 bat ->
  (forall r, r = 0 -> forall x, next r x = mret VFS_ERROR) ->
  (forall r x v', r <> 0 -> writing v0 f buf offset w total v' -> is_buffer 512 x ->
     x = contents v'.1 (file_block v0.1 f (Z.to_nat b)) \/ m = 512 -> wp (next r x) (write_ends v0 f buf offset n) v') ->
  wp ('(r, x) ← (if m <? SFS_VBLOCK_SIZE then read_vblock (file_block v0.1 f (Z.to_nat b)) bat else mret (1, bat)); next r x)
    (write_ends v0 f buf offset n) v.
Proof.
  intros Hwr Hf Hb Hm Hbat Herr Hgood. pose proof Hwr as [Hok Htot Hout Hdata]. change SFS_VBLOCK_SIZE with 512. apply wp_bind.
  destruct (Z.ltb_spec m 512).
  2: { apply wp_ret, Hgood; [done|done|done|right; lia]. }
  destruct (file_block_lookup _ v0.1 f (Z.to_nat b) Hf) as [Hrange _]; [lia|]. pose proof Hbat as [Hbl _].
  apply wp_read_vblock; [done|lia|done|]. intros r x v' Hs Hx Hxc Hrel. destruct (decide (r = 0)) as [Hr|Hr].
  - rewrite (Herr r Hr). apply wp_ret. eapply (write_stops v0 f buf offset n v v' [] r); [done|set_solver|by apply same_dev_outside|done|done].
  - pose proof Hs as [(H1 & H2 & H3 & _) _]. apply Hgood; [done| |done|left; rewrite H3; by apply Hxc]. split.
    + by apply (same_dev_ok v v').
    + by rewrite H2.
    + eapply dev_outside_trans; [done|by apply same_dev_outside].
    + destruct (same_disk_file v.1 v'.1 f (proj1 Hs)) as (-> & _). done.
Qed.

Lemma file_block_word v v0 f i total :
  dev_outside (file_blocks v0.1 f) v0 v -> dev_ok v -> file_ok total v0.1 f ->
  total <= total_blocks v.1 -> 0 <= i <= 126 -> get_word (contents v0.1 f) (i + 1) = Ret (file_block v0.1 f (Z.to_nat i)).
Proof.
  intros [(Hb & Ht & _) _] Hok Hf Htot Hi. pose proof (do_size _ Hok). pose proof (fo_inode _ _ _ Hf).
  destruct (contents_ok v0.1 f) as [Hl _]; [lia|]. rewrite get_word_word by lia. unfold file_block. do 2 f_equal. lia.
Qed.

Lemma sfs_write_blocks_run n v0 f buf offset datasize b1 bat v total :
  let d0 := v0.1 in
  writing v0 f buf offset (Z.min (512 * b1 - offset) datasize) total v -> file_ok total d0 f -> is_buffer 512 bat ->
  in_range f offset datasize d0 -> datasize <= zlen buf -> Forall is_byte buf ->
  offset / 512 < b1 <= (offset + datasize - 1) / 512 + 1 -> (offset + datasize - 1) / 512 - b1 + 2 <= Z.of_nat n ->
  wp (write_blocks n b1 ((offset + datasize - 1) / 512) (Z.min (512 * b1 - offset) datasize) datasize (contents d0 f) bat buf)
    (write_ends v0 f buf offset datasize) v.
Proof.
  cbv zeta. intros Hwr Hf Hbat [Ho Hn Hsz] Hbuf Hby. revert b1 bat v Hwr Hbat. set (d0 := v0.1) in *.
  induction n as [|n IH]; intros b1 bat v Hwr Hbat Hb1 Hfuel; [cbn in Hfuel; lia|].
  pose proof (fo_size _ _ _ Hf) as Hsize. destruct (block_pos d0 f offset datasize Ho Hn Hsz Hsize) as ([Hp1 Hp2] & Hp3 & Hp4).
  set (b2 := (offset + datasize - 1) / 512) in *. cbn [write_blocks]. destruct (Z.leb_spec b1 b2) as [Hle|Hgt].
  2: { apply wp_ret. replace (Z.min (512 * b1 - offset) datasize) with datasize in Hwr |- * by (subst b2; Z.div_mod_to_equations; lia).
       destruct Hwr as [_ _ Hout Hdata]. split; [done|]. by right. }
  replace (Z.min (512 * b1 - offset) datasize) with (512 * b1 - offset) in Hwr |- * by (subst b2; Z.div_mod_to_equations; lia).
  pose proof Hwr as [Hok Htot Hout _].
  apply wp_bind. eapply wp_lift; [apply (file_block_word v v0 f b1 total); try done; lia|].
  assert (Hb : 0 <= b1 < Z.of_nat (num_blocks d0 f)) by lia.
  (* the rest of the write, after a block *)
  assert (Hnext : forall m x v', 1 <= m -> 512 * b1 - offset + m = Z.min (512 * (b1 + 1) - offset) datasize -> is_buffer 512 x ->
    writing v0 f buf offset (512 * b1 - offset + m) total v' ->
    wp (write_blocks n (b1 + 1) b2 (512 * b1 - offset + m) datasize (contents d0 f) x buf) (write_ends v0 f buf offset datasize) v').
  { intros m x v' Hm Heq Hx Hw'. rewrite Heq in *. apply IH; [done|done|lia|lia]. }
  assert (Hbuffer : forall x m, is_buffer 512 x -> 0 <= m <= 512 -> 512 * b1 - offset + m <= zlen buf ->
    is_buffer 512 (splice x (Z.to_nat 0) (slice buf (Z.to_nat (512 * b1 - offset)) (Z.to_nat m)))).
  { intros x m [Hxl Hxb] Hm Hmb. apply splice_buffer; [done|by apply Forall_slice|].
    rewrite length_slice by (Z.div_mod_to_equations; lia). lia. }
  destruct (Z.eqb_spec b1 b2) as [Heq|Hne].
  - apply (sfs_read_partial_run v0 f buf offset (512 * b1 - offset) b1 (datasize - (512 * b1 - offset)) bat datasize v total);
      [done|done|done|subst b2; Z.div_mod_to_equations; lia|done|by intros r -> x|].
    intros r x v' Hr Hw' Hx Hxc. apply Z.eqb_neq in Hr as ->. pose proof Hx as [Hxl _].
    apply wp_bind. eapply wp_lift; [apply memcopy_to_run; subst b2; Z.div_mod_to_equations; lia|].
    eapply (sfs_write_block_run _ v0 f buf offset (512 * b1 - offset) (datasize - (512 * b1 - offset)) 0 b1 v' x datasize total);
      try done; try lia; try (subst b2; Z.div_mod_to_equations; lia).
    { fold d0. lia. }
    intros v'' Hw''. pose proof (Hnext (datasize - (512 * b1 - offset))) as Hnx.
    replace (512 * b1 - offset + (datasize - (512 * b1 - offset))) with datasize in Hnx, Hw'' by lia.
    apply Hnx; [subst b2; Z.div_mod_to_equations; lia|subst b2; Z.div_mod_to_equations; lia| |done].
    apply Hbuffer; [done|subst b2; Z.div_mod_to_equations; lia|lia].
  - change SFS_VBLOCK_SIZE with 512. pose proof Hbat as [Hxl _].
    apply wp_bind. eapply wp_lift; [apply memcopy_to_run; subst b2; Z.div_mod_to_equations; lia|].
    eapply (sfs_write_block_run _ v0 f buf offset (512 * b1 - offset) 512 0 b1 v bat datasize total); try done; try lia;
      try (subst b2; Z.div_mod_to_equations; lia); try (by right).
    { fold d0. subst b2. Z.div_mod_to_equations. lia. }
    intros v'' Hw''. apply Hnext; [lia|subst b2; Z.div_mod_to_equations; lia| |done].
    apply Hbuffer; [done|lia|subst b2; Z.div_mod_to_equations; lia].
Qed.

(** [write_file] once the inode is read and the offset checked. *)
Lemma sfs_write_tail_run v0 f buf offset datasize bat v total :
  let d0 := v0.1 in
  writing v0 f buf offset 0 total v -> file_ok total d0 f -> is_buffer 512 bat ->
  in_range f offset datasize d0 -> datasize <= zlen buf -> Forall is_byte buf ->
  let written := Z.min (SFS_VBLOCK_SIZE - Z.rem offset SFS_VBLOCK_SIZE) datasize in
  wp (b ← lift (get_word (contents d0 f) (Z.quot offset SFS_VBLOCK_SIZE + 1));
      '(r, bat) ← (if written <? SFS_VBLOCK_SIZE then read_vblock b bat else mret (1, bat));
      if r =? 0 then mret VFS_ERROR
      else
        bat ← lift (memcopy_to written bat (Z.rem offset SFS_VBLOCK_SIZE) buf 0);
        r ← write_vblock b bat;
        if r =? 0 then mret VFS_ERROR
        else write_blocks (Z.to_nat SFS_BLOCKS_MAX + 1) (Z.quot offset SFS_VBLOCK_SIZE + 1)
          (Z.quot (offset + datasize - 1) SFS_VBLOCK_SIZE) written datasize (contents d0 f) bat buf)
    (write_ends v0 f buf offset datasize) v.
Proof.
  cbv zeta. intros Hwr Hf Hbat [Ho Hn Hsz] Hbuf Hby. set (d0 := v0.1) in *.
  pose proof (fo_size _ _ _ Hf) as Hsize. change SFS_VBLOCK_SIZE with 512.
  rewrite !Z.quot_div_nonneg, !Z.rem_mod_nonneg by lia.
  destruct (block_pos d0 f offset datasize Ho Hn Hsz Hsize) as ([Hp1 Hp2] & Hp3 & Hp4). pose proof Hwr as [Hok Htot Hout _].
  assert (Hmod : 0 <= offset mod 512 < 512 /\ offset = 512 * (offset / 512) + offset mod 512) by (Z.div_mod_to_equations; lia).
  set (b1 := offset / 512) in *. set (m := Z.min (512 - offset mod 512) datasize).
  assert (Hm : m = Z.min (512 * (b1 + 1) - offset) datasize) by lia.
  apply wp_bind. eapply wp_lift; [apply (file_block_word v v0 f b1 total); try done; lia|].
  apply (sfs_read_partial_run v0 f buf offset 0 b1 m bat datasize v total); [done|done|fold d0; lia|lia|done|by intros r -> x|].
  intros r x v' Hr Hw' Hx Hxc. apply Z.eqb_neq in Hr as ->. pose proof Hx as [Hxl _].
  apply wp_bind. eapply wp_lift; [apply memcopy_to_run; lia|].
  assert (Hx' : is_buffer 512 (splice x (Z.to_nat (offset mod 512)) (slice buf (Z.to_nat 0) (Z.to_nat m)))).
  { apply splice_buffer; [done|by apply Forall_slice|]. rewrite length_slice by lia. lia. }
  eapply (sfs_write_block_run _ v0 f buf offset 0 m (offset mod 512) b1 v' x datasize total); try done; try (fold d0; lia).
  intros v'' Hw''. rewrite Z.add_0_l, Hm in Hw''. rewrite Hm. rewrite Hm in Hx'. apply (sfs_write_blocks_run _ v0 f buf offset datasize (b1 + 1) _ v'' total); try done; try (fold b1; lia).
  change (Z.to_nat SFS_BLOCKS_MAX) with 127%nat. lia.
Qed.

(** The answer of a write and the bytes it leaves. *)
Definition write_answer d d' f (buffer : list Z) (datasize offset r : Z) : Prop :=
  if (offset <? 0) || (offset >? file_size d f) then r = VFS_ERROR /\ same_disk d d'
  else
    let n := Z.min datasize (file_size d f - offset) in
    r = n /\ file_bytes d' f = splice (file_bytes d f) (Z.to_nat offset) (take (Z.to_nat n) buffer).

Lemma write_file_run v f buffer datasize offset inode bat total :
  dev_ok v -> file_ok total v.1 f -> total <= total_blocks v.1 -> zlen inode = 512 -> is_buffer 512 bat ->
  0 <= datasize <= zlen buffer -> Forall is_byte buffer ->
  wp (write_file f buffer datasize offset inode bat) (fun r v' => dev_outside (file_blocks v.1 f) v v' /\
    ((r = VFS_ERROR /\ ~ reliable v.1) \/ write_answer v.1 v'.1 f buffer datasize offset r)) v.
Proof.
  intros Hok Hf Htot Hil Hbl Hbuf Hby. pose proof (fo_inode _ _ _ Hf) as Hino. pose proof (fo_size _ _ _ Hf) as Hsize. unfold write_file, write_answer.
  apply wp_bind, wp_read_vblock; [done|lia|done|]. intros r x v' Hs [Hxl _] Hx Hrel. pose proof (same_dev_outside (file_blocks v.1 f) _ _ Hs) as Hout.
  destruct (Z.eqb_spec r 0) as [Hr|Hr].
  { apply wp_ret. split; [done|]. left. split; [done|]. intros Hrd. by apply Hrel. }
  specialize (Hx Hr). subst x. pose proof Hs as [Hsd _]. pose proof Hsd as (Hbs & Htb & _).
  apply wp_bind. eapply wp_lift; [by apply (file_word v v.1 f _ _ total)|].
  change (word (contents v.1 f) 0) with (file_size v.1 f). rewrite i32_id by (unfold is_i32; lia).
  destruct (Z.ltb_spec offset 0), (Z.gtb_spec offset (file_size v.1 f)); cbn [orb]; try (apply wp_ret; split; [done|]; by right).
  set (n := Z.min datasize (file_size v.1 f - offset)). destruct (same_disk_file _ _ f Hsd) as (Hd1 & _ & Hd3 & _).
  destruct (Z.eqb_spec n 0) as [Hn|Hn].
  { apply wp_ret. split; [done|]. right. rewrite Hn. split; [done|]. change (Z.to_nat 0) with 0%nat. rewrite take_0, splice_nil.
    unfold file_bytes. by rewrite Hd1, Hd3. }
  assert (Hwr : writing v f buffer offset 0 total v').
  { split; [by apply (same_dev_ok v v')|by rewrite Htb|done|]. by rewrite written_so_far_nil. }
  eapply wp_mono; [apply (sfs_write_tail_run v f buffer offset n bat v' total); try done; [split; subst n; lia|subst n; lia]|].
  intros r' v'' [Hout' Hend]. split; [done|]. destruct Hend as [Herr|[Hres Hdata]]; [by left|right]. split; [done|].
  apply (written_file_bytes total v.1 v''.1 f buffer offset n); try done; [apply Hok|apply Hout'|subst n; lia..].
Qed.
End file.
