(* ===== verification/SfsTable.v ===== *)
(** * Open files of the student filesystem

    The table of open files between two operations, when no thread is inside:
    every entry in use belongs to one file and counts how often it is open.
    Opening, closing, reading and writing through it. *)
From S2P Require Import Prelude Bitmap Libc Cpu Kmalloc Pagepool Gbd Sync ThreadSys Bytes Tfs Sfs SfsVol SfsPath SfsFile.

(** ** The table *)

(** Nobody reads or writes the file. *)
Definition entry_wf (e : sfs_openfile_t) : Prop :=
  e = sfs_reset_entry e \/
  (0 <= fileid e /\ 1 <= times_opened e < 2147483648 /\ readernum e = 0 /\ writer_tid e = -1).
Record table_wf (l : list sfs_openfile_t) : Prop := {
  tw_len : zlen l = SFS_MAX_OPEN_FILES;
  tw_entries : Forall entry_wf l;
  tw_unique i j e e' : l !! i = Some e -> l !! j = Some e' -> fileid e = fileid e' -> fileid e <> -1 -> i = j
}.

(** What the search answers: the entry of the file, otherwise a free one. *)
Lemma find_openfile_run i l f found :
  match find_openfile i l f found with
  | Some k => (exists e, 0 <= k - i /\ l !! Z.to_nat (k - i) = Some e /\
                ((fileid e = f) \/ (fileid e = -1 /\ found = None /\ forall e', e' ∈ l -> fileid e' <> f))) \/
      (found = Some k /\ forall e, e ∈ l -> fileid e <> f)
  | None => found = None /\ forall e, e ∈ l -> fileid e <> f /\ fileid e <> -1
  end.
Proof.
  revert i found. induction l as [|e l IH]; intros i found; cbn [find_openfile].
  { destruct found; [right|]; (split; [done|]; intros e He; by apply elem_of_nil in He). }
  destruct (Z.eqb_spec (fileid e) f) as [Hf|Hf].
  { left. exists e. rewrite Z.sub_diag. split; [lia|]. split; [done|]. by left. }
  set (found' := match found with None => _ | Some _ => found end). specialize (IH (i + 1) found').
  destruct (find_openfile (i + 1) l f found') as [k|].
  - destruct IH as [(e' & Hk & He' & Hcase)|[Hfd Hall]].
    + left. exists e'. split; [lia|]. replace (Z.to_nat (k - i)) with (S (Z.to_nat (k - (i + 1)))) by lia. split; [done|].
      destruct Hcase as [?|(H1 & H2 & H3)]; [by left|]. right. split; [done|].
      assert (found = None) as -> by (subst found'; by destruct found). split; [done|]. intros x [->|Hx]%elem_of_cons; auto.
    + assert (Hall' : forall x, x ∈ e :: l -> fileid x <> f) by (intros x [->|Hx]%elem_of_cons; auto).
      subst found'. destruct found as [k'|]; [right; by split|]. destruct (Z.eqb_spec (fileid e) (-1)); [|done]. injection Hfd as ->.
      left. exists e. rewrite Z.sub_diag. split; [lia|]. split; [done|]. right. done.
  - destruct IH as [Hfd Hall]. subst found'. destruct found as [k|]; [done|]. split; [done|].
    destruct (Z.eqb_spec (fileid e) (-1)); [done|]. intros x [->|Hx]%elem_of_cons; auto.
Qed.

(** The entry of an open file. *)
Definition entry_of (l : list sfs_openfile_t) (f : Z) (i : Z) (e : sfs_openfile_t) : Prop :=
  0 <= i /\ l !! Z.to_nat i = Some e /\ fileid e = f /\ f <> -1.

Lemma find_entry_of l f i e : table_wf l -> entry_of l f i e -> find_openfile 0 l f None = Some i.
Proof.
  intros [_ _ Hu] (Hi & He & Hf & Hne). pose proof (find_openfile_run 0 l f None) as Hrun.
  destruct (find_openfile 0 l f None) as [k|].
  - destruct Hrun as [(e' & Hk & He' & Hcase)|[[=] _]]. rewrite Z.sub_0_r in *.
    destruct Hcase as [Hf'|(_ & _ & Hno)]; [|by destruct (Hno e (list_elem_of_lookup_2 _ _ _ He))].
    f_equal. pose proof (Hu _ _ _ _ He' He ltac:(congruence) ltac:(congruence)). lia.
  - destruct Hrun as [_ Hno]. by destruct (Hno e (list_elem_of_lookup_2 _ _ _ He)).
Qed.

Lemma entry_of_wf l f i e :
  table_wf l -> entry_of l f i e -> 0 <= f /\ 1 <= times_opened e < 2147483648 /\ readernum e = 0 /\ writer_tid e = -1.
Proof.
  intros [_ Hw _] (Hi & He & <- & Hne). rewrite Forall_lookup in Hw. destruct (Hw _ _ He) as [Hr|?]; [|done].
  rewrite Hr in Hne. done.
Qed.

(** ** Readers and writers, on the entry *)
Lemma admit_reader_eq e :
  is_i32 (readernum e + 1) ->
  admit_reader e = Ret (if writer_tid e =? -1 then (true, with_readernum (readernum e + 1) e) else (false, e)).
Proof.
  intros Hr. unfold admit_reader, mbind, M_bind, gets, id. destruct (Z.eqb_spec (writer_tid e) (-1)); [|done]. cbn [negb].
  unfold lift, int. by rewrite decide_True.
Qed.
Lemma claim_entry_eq tid e :
  claim_entry tid e = Ret (if writer_tid e =? -1 then (true, with_writer_tid tid e) else (false, e)).
Proof. unfold claim_entry, mbind, M_bind, gets, id. by destruct (Z.eqb_spec (writer_tid e) (-1)). Qed.
Lemma admit_writer_eq e : admit_writer e = Ret (negb (readernum e >? 0), e).
Proof. done. Qed.
Lemma leave_reader_eq e :
  is_i32 (readernum e - 1) -> leave_reader e = Ret (readernum e - 1 =? 0, with_readernum (readernum e - 1) e).
Proof. intros Hr. unfold leave_reader, mbind, M_bind, gets, id, lift, int. by rewrite decide_True. Qed.
Lemma leave_writer_eq e : leave_writer e = Ret (true, with_writer_tid (-1) e).
Proof. done. Qed.

Section table.
Context {D S L : Type} `{!BlockDevice D, !Semaphores S, !HasCpu L, !ThreadSys L, !LoneLocks L, !Symbols}.
Abbreviation volume := (svol D S L).
Implicit Types (s : volume).

(** The locks of the volume and the threads, between two operations. *)
Record locks_ok s : Prop := {
  lo_threads : ts_ok (sv_locks s);
  lo_table : idle (sv_locks s) (openfile_lock (sv_sfs s));
  lo_entries : Forall (fun e => idle (sv_locks s) (io_lock e) /\ ts_cond (io_cond e)) (open_files (sv_sfs s))
}.
Record mounted s : Prop := {
  mo_vol : vol_ok s;
  mo_table : table_wf (open_files (sv_sfs s));
  mo_locks : locks_ok s
}.

Lemma locks_ok_same s y : locks_ok s -> same_locks (sv_locks s) y -> locks_ok (set_locks y s).
Proof.
  intros [Ht Htab He] (Hy & Hi & _). split; [done|by apply Hi|]. eapply Forall_impl; [exact He|]. intros e [? ?]. split; [by apply Hi|done].
Qed.
Lemma locks_ok_entry s i e e' :
  locks_ok s -> open_files (sv_sfs s) !! Z.to_nat i = Some e -> io_lock e' = io_lock e -> io_cond e' = io_cond e ->
  locks_ok (set_entry i e' s).
Proof.
  intros [Ht Htab He] Hi Hl Hc. split; [done|done|]. cbn. apply Forall_insert; [done|]. rewrite Hl, Hc. rewrite Forall_lookup in He. by apply (He (Z.to_nat i)).
Qed.
Lemma entry_locks s i e : locks_ok s -> open_files (sv_sfs s) !! Z.to_nat i = Some e -> idle (sv_locks s) (io_lock e) /\ ts_cond (io_cond e).
Proof. intros [_ _ He] Hi. rewrite Forall_lookup in He. by apply (He (Z.to_nat i)). Qed.

(** A computation on the device. *)
Definition set_dev (d : D) (x : S) s : volume := mk_svol (sv_sfs s) d x (sv_locks s) (sv_pool s).
Lemma wp_on_disk {A} (m : M (D * S) A) (Q : A -> volume -> Prop) s :
  wp m (fun a v => Q a (set_dev v.1 v.2 s)) (sv_disk s, sv_sems s) -> wp (on_disk m) Q s.
Proof. unfold wp, on_disk. by destruct (m (sv_disk s, sv_sems s)) as [[a [d x]]|]. Qed.

(** ** Entering and leaving *)

Lemma sfs_enter_run f s (Q : option Z -> volume -> Prop) :
  locks_ok s -> table_wf (open_files (sv_sfs s)) -> 0 <= f ->
  (forall y, same_locks (sv_locks s) y ->
     (forall i e, entry_of (open_files (sv_sfs s)) f i e -> Q (Some i) (set_locks y s)) /\
     ((forall i e, ~ entry_of (open_files (sv_sfs s)) f i e) -> Q None (set_locks y s))) ->
  wp (sfs_enter f) Q s.
Proof.
  intros Hl Htab Hf HQ. unfold sfs_enter, sfs_enter_ext. rewrite (proj2 (Z.ltb_ge f 0)) by lia.
  eapply wp_mono.
  { apply (wp_with_table _ (fun r t d x p => (t, d, x, p) = (sv_sfs s, sv_disk s, sv_sems s, sv_pool s) /\
      match r with
      | Some i => exists e, entry_of (open_files (sv_sfs s)) f i e
      | None => forall i e, ~ entry_of (open_files (sv_sfs s)) f i e end)); [apply Hl..|].
    intros y. apply wp_bind, wp_gets. cbn [sv_sfs set_locks]. pose proof (find_openfile_run 0 (open_files (sv_sfs s)) f None) as Hrun.
    destruct (find_openfile 0 (open_files (sv_sfs s)) f None) as [i|].
    - destruct Hrun as [(e & Hi & He & Hcase)|[[=] _]]. rewrite Z.sub_0_r in *. apply wp_bind, (wp_get_entry i e); [done|done|].
      destruct Hcase as [Hfe|(Hfe & _ & Hno)].
      + rewrite (proj2 (Z.eqb_neq (fileid e) (-1))) by lia. cbn [andb Z.eqb negb]. apply wp_bind, wp_ret, wp_bind, wp_ret, wp_bind, wp_ret, wp_ret.
        split; [done|]. split; [done|]. exists e. split; [done|]. split; [done|]. split; [done|lia].
      + rewrite Hfe. cbn [Z.eqb Pos.eqb andb]. apply wp_ret. split; [done|]. split; [done|]. intros j e' (Hj & He' & Hfe' & _).
        by apply (Hno e'); [eapply list_elem_of_lookup_2|].
    - apply wp_ret. split; [done|]. split; [done|]. destruct Hrun as [_ Hno]. intros j e' (Hj & He' & Hfe' & _).
      by destruct (Hno e'); [eapply list_elem_of_lookup_2|]. }
  intros r [t d x y p] [Hy [[= -> -> -> ->] Hr]]. cbn [sv_locks] in Hy. destruct (HQ y Hy) as [H1 H2]. destruct r as [i|].
  - destruct Hr as [e He]. by apply (H1 i e).
  - by apply H2.
Qed.

Lemma begin_read_run i e s (Q : option Z -> volume -> Prop) :
  locks_ok s -> 0 <= i -> open_files (sv_sfs s) !! Z.to_nat i = Some e -> writer_tid e = -1 -> is_i32 (readernum e + 1) ->
  (forall y, same_locks (sv_locks s) y -> Q None (set_entry i (with_readernum (readernum e + 1) e) (set_locks y s))) ->
  wp (begin_read i) Q s.
Proof.
  intros Hl Hi He Hw Hr HQ. destruct (entry_locks s i e Hl He) as [Hidle Hc].
  apply wp_bind, (wp_get_entry i e); [done|done|]. apply wp_bind, wp_lock_acquire; [apply Hl|done|]. intros y Hy.
  apply wp_bind, (wp_get_entry i e); [done|done|].
  apply wp_bind, (wp_on_entry i _ true e (with_readernum (readernum e + 1) e)); [done|done| |].
  { by rewrite admit_reader_eq, Hw. }
  apply wp_bind, (wp_lock_release _ (sv_locks s)); [done|]. intros y' Hy'. apply wp_ret. exact (HQ y' Hy').
Qed.
Lemma begin_write_run i e s (Q : option (Z * bool) -> volume -> Prop) :
  locks_ok s -> 0 <= i -> open_files (sv_sfs s) !! Z.to_nat i = Some e -> writer_tid e = -1 -> readernum e = 0 ->
  (forall y, same_locks (sv_locks s) y -> Q None (set_entry i (with_writer_tid (ts_tid (sv_locks s)) e) (set_locks y s))) ->
  wp (begin_write i) Q s.
Proof.
  intros Hl Hi He Hw Hr HQ. destruct (entry_locks s i e Hl He) as [Hidle Hc].
  apply wp_bind, (wp_get_entry i e); [done|done|]. apply wp_bind, wp_lock_acquire; [apply Hl|done|]. intros y Hy.
  pose proof Hy as (Hok & _ & _ & Htid).
  apply wp_bind, (wp_get_entry i e); [done|done|]. apply wp_bind, wp_on_locks, thread_get_spec; [done|].
  change (mk_svol _ _ _ _ _) with (set_locks y s). set (tid := ts_tid y).
  apply wp_bind, (wp_on_entry i _ true e (with_writer_tid tid e)); [done|done| |].
  { by rewrite claim_entry_eq, Hw. }
  set (s1 := set_entry _ _ _). assert (He1 : open_files (sv_sfs s1) !! Z.to_nat i = Some (with_writer_tid tid e)).
  { cbn. apply list_lookup_insert_eq. by eapply lookup_lt_Some. }
  apply wp_bind, (wp_get_entry i (with_writer_tid tid e)); [done|done|].
  apply wp_bind, (wp_on_entry i _ true (with_writer_tid tid e) (with_writer_tid tid e)); [done|done| |].
  { rewrite admit_writer_eq. cbn. by rewrite Hr. }
  apply wp_bind, (wp_lock_release _ (sv_locks s)); [done|]. intros y' Hy'. apply wp_ret.
  specialize (HQ y' Hy'). unfold tid in *. rewrite Htid in *. unfold s1, set_entry, set_locks, with_open_files in *. cbn in *. by rewrite list_insert_insert_eq.
Qed.

Lemma set_entry_same i e s : open_files (sv_sfs s) !! Z.to_nat i = Some e -> set_entry i e s = s.
Proof. intros He. destruct s as [t d x y p]. unfold set_entry. cbn in *. rewrite list_insert_id by done. by destruct t. Qed.
Lemma set_entry_lookup i e e' s : open_files (sv_sfs s) !! Z.to_nat i = Some e -> open_files (sv_sfs (set_entry i e' s)) !! Z.to_nat i = Some e'.
Proof. intros He. cbn. apply list_lookup_insert_eq. by eapply lookup_lt_Some. Qed.
Lemma set_entry_twice i e e' s : set_entry i e' (set_entry i e s) = set_entry i e' s.
Proof. unfold set_entry, with_open_files. cbn. by rewrite list_insert_insert_eq. Qed.
Lemma locks_ok_dev s d x : locks_ok s -> locks_ok (set_dev d x s).
Proof. intros []. by split. Qed.

(** Leaving an entry that stays open. *)
Lemma sfs_exit_stays i c e n s (Q : unit -> volume -> Prop) :
  locks_ok s -> 0 <= i -> open_files (sv_sfs s) !! Z.to_nat i = Some e -> n = times_opened e - (if c =? 0 then 0 else 1) ->
  is_i32 n -> n <> 0 ->
  (forall y, same_locks (sv_locks s) y -> Q tt (set_entry i (with_times_opened n e) (set_locks y s))) ->
  wp (sfs_exit i c) Q s.
Proof.
  intros Hl Hi He Hn Hint Hne HQ. unfold sfs_exit. eapply wp_mono.
  { apply (wp_with_table _ (fun _ t d x p => (t, d, x, p) =
      (sv_sfs (set_entry i (with_times_opened n e) s), sv_disk s, sv_sems s, sv_pool s))); [apply Hl..|].
    intros y. destruct (Z.eqb_spec c 0) as [->|Hc]; cbn [Z.eqb negb].
    - apply wp_bind, wp_ret, wp_bind, (wp_get_entry i e); [done|done|]. rewrite (proj2 (Z.eqb_neq _ _)) by lia. apply wp_ret.
      split; [done|]. assert (with_times_opened n e = e) as -> by (rewrite Hn, Z.sub_0_r; by destruct e). by rewrite set_entry_same.
    - apply wp_bind, wp_bind, (wp_get_entry i e); [done|done|]. apply wp_bind. eapply wp_lift; [unfold int; rewrite decide_True by (by rewrite <- Hn); done|].
      rewrite <- Hn. apply (wp_upd_entry i _ e); [done|done|].
      apply wp_bind, (wp_get_entry i (with_times_opened n e)); [done|by eapply set_entry_lookup|]. cbn [times_opened with_times_opened].
      rewrite (proj2 (Z.eqb_neq _ _)) by done. apply wp_ret. by split. }
  intros [] [t d x y p] [Hy [= -> -> -> ->]]. exact (HQ y Hy).
Qed.

Lemma leave_run i m e wake e' s (Q : unit -> volume -> Prop) :
  locks_ok s -> 0 <= i -> open_files (sv_sfs s) !! Z.to_nat i = Some e -> m e = Ret (wake, e') ->
  io_lock e' = io_lock e -> io_cond e' = io_cond e -> is_i32 (times_opened e') -> times_opened e' <> 0 ->
  (forall y, same_locks (sv_locks s) y -> Q tt (set_entry i e' (set_locks y s))) ->
  wp (leave i m) Q s.
Proof.
  intros Hl Hi He Hm Hlk Hcd Hint Hne HQ. destruct (entry_locks s i e Hl He) as [Hidle Hc].
  apply wp_bind, (wp_get_entry i e); [done|done|]. apply wp_bind, wp_lock_acquire; [apply Hl|done|]. intros y Hy.
  apply wp_bind, (wp_on_entry i _ wake e e'); [done|done|exact Hm|]. apply wp_bind.
  assert (Hrel : forall y1, inside_lock (io_lock e) (sv_locks s) y1 ->
    wp (_ ← on_locks (lock_release (io_lock e)); sfs_exit i 0) Q (set_locks y1 (set_entry i e' s))).
  { intros y1 Hy1. apply wp_bind, (wp_lock_release _ (sv_locks s)); [done|]. intros y2 Hy2.
    change (set_locks y2 _) with (set_locks y2 (set_entry i e' s)).
    apply (sfs_exit_stays i 0 e' (times_opened e')); [|done|by eapply set_entry_lookup|by rewrite Z.sub_0_r|done|done|].
    - apply (locks_ok_same (set_entry i e' s)); [by apply (locks_ok_entry s i e)|done].
    - intros y3 Hy3. cbn [sv_locks set_locks] in Hy3. assert (with_times_opened (times_opened e') e' = e') as -> by (by destruct e').
      change (set_locks y3 (set_locks y2 (set_entry i e' s))) with (set_entry i e' (set_locks y3 s)). rewrite set_entry_twice.
      apply HQ. by eapply same_locks_trans. }
  destruct wake.
  - apply (wp_broadcast _ _ (sv_locks s)); [done|done|]. intros y1 Hy1. exact (Hrel y1 Hy1).
  - apply wp_ret. exact (Hrel y Hy).
Qed.

(** ** Reading and writing *)

(** [f] is an open file, not a directory, whose blocks are those of a file. *)
Record open_file s (f : Z) (e : sfs_openfile_t) : Prop := {
  of_entry : exists i, entry_of (open_files (sv_sfs s)) f i e;
  of_folder : is_folder e = 0;
  of_file : file_ok (totalvblocks (sv_sfs s)) (sv_disk s) f
}.

Lemma vol_dev s d x : vol_ok s -> dev_ok (d, x) -> (totalvblocks (sv_sfs s) <= total_blocks d) ->
  sem_val x (lock (sv_sfs s)) = Some 1 -> vol_ok (set_dev d x s).
Proof. intros [[? ? ? ? ? ?] ?] ? ? ?. split; [by split|done]. Qed.

Lemma fileid_in_range s f : vol_ok s -> file_ok (totalvblocks (sv_sfs s)) (sv_disk s) f ->
  (f <? SFS_DIRECTORY_BLOCK) || (f >? i32 (totalvblocks (sv_sfs s))) = false.
Proof.
  intros [Hb _] Hf. pose proof (fo_inode _ _ _ Hf). pose proof (bo_total _ _ Hb). rewrite i32_id by (unfold is_i32; lia).
  unfold SFS_DIRECTORY_BLOCK. rewrite Z.gtb_ltb. zbool. lia.
Qed.

(** The volume is as it was, on another device. *)
Definition on_device s s' : Prop :=
  exists d x y, s' = set_dev d x (set_locks y s) /\ same_locks (sv_locks s) y.

Lemma sfs_read_run s f e buffer bufsize offset inode bat :
  mounted s -> open_file s f e -> zlen inode = 512 -> zlen bat = 512 -> 0 <= bufsize <= zlen buffer ->
  wp (sfs_read f buffer bufsize offset inode bat) (fun a s' => on_device s s' /\
    same_dev (sv_disk s, sv_sems s) (sv_disk s', sv_sems s') /\
    ((a.1 = VFS_ERROR /\ ~ reliable (sv_disk s)) \/ a = read_answer (sv_disk s) f buffer bufsize offset)) s.
Proof.
  intros [Hv Ht Hl] [[i He] Hfold Hf] Hil Hbl Hbuf. pose proof He as (Hi & Hlook & Hfid & Hne).
  destruct (entry_of_wf _ _ _ _ Ht He) as (Hf0 & Hto & Hrn & Hwt).
  apply wp_bind, wp_gets. rewrite fileid_in_range by done.
  apply wp_bind, sfs_enter_run; [done|done|done|]. intros y Hy. split; [|intros Hno; by destruct (Hno i e)].
  intros i' e' He'. assert (i' = i) as ->. { apply (find_entry_of _ _ _ _ Ht) in He, He'. congruence. }
  pose proof (locks_ok_same s y Hl Hy) as Hl1.
  apply wp_bind, (begin_read_run i e); [done|done|done|done|by rewrite Hrn|]. intros y1 Hy1. rewrite Hrn.
  apply wp_bind, (wp_get_entry i (with_readernum 1 e)); [done|by eapply set_entry_lookup|]. cbn [is_folder with_readernum].
  rewrite Hfold. cbn [Z.eqb negb]. apply wp_bind, wp_on_disk. cbn [sv_disk sv_sems set_entry set_locks].
  pose proof (vo_body _ Hv) as Hb. eapply wp_mono.
  { apply (read_file_run (sv_disk s, sv_sems s) f buffer bufsize offset inode bat (totalvblocks (sv_sfs s))); try done; apply Hb. }
  intros a [d x] [Hsame Ha]. cbn [fst snd] in *. set (s2 := set_dev d x _). apply wp_bind, (leave_run i _ (with_readernum 1 e) true e).
  - apply locks_ok_dev. apply (locks_ok_entry _ i e); [|done|done|done]. by eapply locks_ok_same.
  - done.
  - eapply set_entry_lookup. exact Hlook.
  - rewrite leave_reader_eq by (by cbn). change (Ret (true, with_readernum 0 e) = Ret (true, e)). rewrite <- Hrn. by destruct e.
  - done.
  - done.
  - unfold is_i32. lia.
  - lia.
  - intros y2 Hy2. apply wp_ret. split; [|done]. exists d, x, y2. split.
    + change (set_locks y2 s2) with (set_entry i (with_readernum 1 e) (set_dev d x (set_locks y2 s))). rewrite set_entry_twice.
      by apply set_entry_same.
    + do 2 (eapply same_locks_trans; [done|]). exact Hy2.
Qed.

Lemma sfs_write_run s f e buffer datasize offset inode bat :
  mounted s -> open_file s f e -> zlen inode = 512 -> is_buffer 512 bat -> 0 <= datasize <= zlen buffer -> Forall is_byte buffer ->
  wp (sfs_write f buffer datasize offset inode bat) (fun r s' => on_device s s' /\
    dev_outside (file_blocks (sv_disk s) f) (sv_disk s, sv_sems s) (sv_disk s', sv_sems s') /\
    ((r = VFS_ERROR /\ ~ reliable (sv_disk s)) \/ write_answer (sv_disk s) (sv_disk s') f buffer datasize offset r)) s.
Proof.
  intros [Hv Ht Hl] [[i He] Hfold Hf] Hil Hbl Hbuf Hby. pose proof He as (Hi & Hlook & Hfid & Hne).
  destruct (entry_of_wf _ _ _ _ Ht He) as (Hf0 & Hto & Hrn & Hwt).
  apply wp_bind, wp_gets. rewrite fileid_in_range by done.
  apply wp_bind, sfs_enter_run; [done|done|done|]. intros y Hy. split; [|intros Hno; by destruct (Hno i e)].
  intros i' e' He'. assert (i' = i) as ->. { apply (find_entry_of _ _ _ _ Ht) in He, He'. congruence. }
  pose proof (locks_ok_same s y Hl Hy) as Hl1.
  apply wp_bind, (wp_get_entry i e); [done|done|]. rewrite Hfold. cbn [Z.eqb negb].
  apply wp_bind, (begin_write_run i e); [done|done|done|done|done|]. intros y1 Hy1. set (e1 := with_writer_tid _ e).
  apply wp_bind, wp_on_disk. cbn [sv_disk sv_sems set_entry set_locks]. pose proof (vo_body _ Hv) as Hb. eapply wp_mono.
  { apply (write_file_run (sv_disk s, sv_sems s) f buffer datasize offset inode bat (totalvblocks (sv_sfs s))); try done; apply Hb. }
  intros r [d x] [Hsame Ha]. cbn [fst snd] in *. set (s2 := set_dev d x _). apply wp_bind, (leave_run i _ e1 true e).
  - apply locks_ok_dev. apply (locks_ok_entry _ i e); [|done|done|done]. by eapply locks_ok_same.
  - done.
  - eapply set_entry_lookup. exact Hlook.
  - rewrite leave_writer_eq. unfold e1. change (Ret (true, with_writer_tid (-1) e) = Ret (true, e)). rewrite <- Hwt. by destruct e.
  - done.
  - done.
  - unfold is_i32. lia.
  - lia.
  - intros y2 Hy2. apply wp_ret. split; [|done]. exists d, x, y2. split.
    + change (set_locks y2 s2) with (set_entry i e1 (set_dev d x (set_locks y2 s))). rewrite set_entry_twice. by apply set_entry_same.
    + do 2 (eapply same_locks_trans; [done|]). exact Hy2.
Qed.
End table.
