(* ===== verification/SfsRemove.v ===== *)
(** * Removing files of the student filesystem

    A file that is removed leaves its directory at once and gives its blocks
    back when nobody has it open any more. *)
From S2P Require Import Prelude Bitmap Libc Cpu Kmalloc Pagepool Gbd Sync ThreadSys Bytes Tfs Sfs SfsVol SfsPath SfsFile SfsTable.

(** ** Clearing directory entries *)

(** The entry [k] of both blocks is the same, as far as it is in use. *)
Definition same_entry (md md' : list Z) (k : Z) : Prop :=
  word md' (entry_inode k) = word md (entry_inode k) /\ (word md (entry_inode k) <> 0 -> entry_cname md' k = entry_cname md k).

Lemma cstr_prefix (l l' s : list Z) : cstr l = Some s -> take (S (length s)) l' = take (S (length s)) l -> cstr l' = Some s.
Proof.
  intros (Hnz & rest & ->)%cstr_inv Ht. rewrite <- (take_drop (S (length s)) l'), Ht.
  replace (S (length s)) with (length (s ++ [0])) at 1 by (rewrite length_app; cbn; lia).
  change (s ++ 0 :: rest) with (s ++ [0] ++ rest). rewrite app_assoc, take_app_length, <- app_assoc. by apply cstr_app.
Qed.

(** An entry depends on its 20 bytes. *)
Lemma same_entry_bytes md md' k :
  dir_ok md -> 0 <= k < SFS_MAX_FILES -> length md' = length md -> (forall j, 20 * k <= Z.of_nat j < 20 * k + 20 -> md' !! j = md !! j) ->
  same_entry md md' k.
Proof.
  change SFS_MAX_FILES with 25. intros Hd Hk Hlen Hj.
  assert (Hw : word md' (entry_inode k) = word md (entry_inode k)).
  { unfold word, get_word, entry_inode. rewrite Hlen. case_decide; [|done]. f_equal. unfold slice. apply list_eq. intros i.
    destruct (decide (i < 4)%nat); [|rewrite !lookup_take_ge by lia; done]. rewrite !lookup_take_lt, !lookup_drop by lia. apply Hj. lia. }
  split; [done|]. intros Hne. destruct (Hd k) as (name & Hn & Hl); [done|done|]. rewrite Hn. unfold SFS_FILENAME_MAX in Hl.
  apply (cstr_prefix (entry_name md k)); [exact Hn|]. unfold entry_name. apply list_eq. intros i.
  destruct (decide (i < S (length name))%nat); [|rewrite !lookup_take_ge by lia; done]. rewrite !lookup_take_lt, !lookup_drop by lia. apply Hj. lia.
Qed.

Lemma dir_ok_same md md' :
  (forall k, 0 <= k < SFS_MAX_FILES -> word md' (entry_inode k) = 0 \/ same_entry md md' k) -> dir_ok md -> dir_ok md'.
Proof.
  intros Hs Hd k Hk Hne. destruct (Hs k Hk) as [|[Hw Hn]]; [done|]. rewrite Hw in Hne. destruct (Hd k Hk Hne) as (name & Hc & Hl).
  exists name. by rewrite Hn.
Qed.

(** What the directory loses. *)
Lemma dir_entries_filter n i f md md' :
  (forall k, i <= k < i + Z.of_nat n ->
     if decide (i32 (word md (entry_inode k)) = f) then word md' (entry_inode k) = 0 else same_entry md md' k) ->
  dir_entries_from n i md' = filter (fun p => i32 p.2 <> f) (dir_entries_from n i md).
Proof.
  revert i. induction n as [|n IH]; intros i Hk; [done|]. cbn [dir_entries_from].
  rewrite (IH (i + 1)) by (intros k ?; apply Hk; lia). specialize (Hk i ltac:(lia)).
  destruct (decide (i32 (word md (entry_inode i)) = f)) as [Hf|Hf].
  - rewrite Hk. cbn [Z.eqb]. destruct (Z.eqb_spec (word md (entry_inode i)) 0); [done|]. rewrite filter_cons_False by (cbn; tauto). done.
  - destruct Hk as [-> Hn]. destruct (Z.eqb_spec (word md (entry_inode i)) 0); [done|]. rewrite filter_cons_True by done. by rewrite Hn.
Qed.

Lemma clear_entries_run n i md f :
  is_buffer 512 md -> dir_ok md -> 0 <= i -> i + Z.of_nat n <= SFS_MAX_FILES ->
  exists md', clear_entries n i md f = Ret md' /\ is_buffer 512 md' /\
    (forall k, 0 <= k < SFS_MAX_FILES -> (k < i \/ i + Z.of_nat n <= k \/ i32 (word md (entry_inode k)) <> f) -> same_entry md md' k) /\
    (forall k, i <= k < i + Z.of_nat n -> i32 (word md (entry_inode k)) = f -> word md' (entry_inode k) = 0).
Proof.
  change SFS_MAX_FILES with 25. revert i md. induction n as [|n IH]; intros i md Hb Hd Hi Hn.
  { exists md. split; [done|]. split; [done|]. split; [done|]. intros k ?. lia. }
  pose proof Hb as [Hl Hby]. cbn [clear_entries]. rewrite entry_word by (try change SFS_MAX_FILES with 25; lia). cbn [mbind res_bind].
  destruct (Z.eqb_spec (i32 (word md (entry_inode i))) f) as [Hf|Hf].
  - rewrite put_word_run by (unfold entry_inode; lia). cbn [mbind res_bind]. set (md1 := splice md _ _).
    assert (Hl1 : length md1 = length md) by (unfold md1; rewrite length_splice; [done|cbn; unfold entry_inode; lia]).
    rewrite rset_in by lia. set (md2 := <[_:=_]> md1).
    assert (Hl2 : length md2 = length md) by (unfold md2; by rewrite length_insert).
    assert (Hb2 : is_buffer 512 md2).
    { split; [lia|]. apply Forall_insert; [|unfold is_byte; lia]. apply Forall_splice; [done|apply word_bytes_byte]. }
    assert (Hout : forall j, ~ 20 * i <= Z.of_nat j < 20 * i + 20 -> md2 !! j = md !! j).
    { intros j Hj. unfold md2. rewrite list_lookup_insert_ne by lia. unfold md1. rewrite lookup_splice by (cbn; unfold entry_inode; lia).
      change (length (word_bytes 0)) with 4%nat. rewrite decide_False by (unfold entry_inode; lia). done. }
    assert (Hsame : forall k, 0 <= k < 25 -> k <> i -> same_entry md md2 k).
    { intros k Hk Hne. apply same_entry_bytes; [done|done|done|]. intros j Hj. apply Hout. lia. }
    assert (Hzero : word md2 (entry_inode i) = 0).
    { unfold md2, word, get_word, entry_inode. rewrite length_insert, Hl1, decide_True by lia.
      assert (slice (<[Z.to_nat (20 * i + 4):=0]> md1) (Z.to_nat (4 * (5 * i))) 4 = [0; 0; 0; 0]) as ->; [|done].
      assert (slice (<[Z.to_nat (20 * i + 4):=0]> md1) (Z.to_nat (4 * (5 * i))) 4 = slice md1 (Z.to_nat (4 * (5 * i))) 4) as ->.
      { unfold slice. apply list_eq. intros j. destruct (decide (j < 4)%nat); [|by rewrite !lookup_take_ge by lia].
        rewrite !lookup_take_lt, !lookup_drop by lia. apply list_lookup_insert_ne. lia. }
      unfold md1, entry_inode. change 4%nat with (length (word_bytes 0)). rewrite slice_splice_eq by (cbn; lia). done. }
    assert (Hd2 : dir_ok md2).
    { apply (dir_ok_same md); [|done]. change SFS_MAX_FILES with 25. intros k Hk. destruct (decide (k = i)) as [->|]; [by left|right; by apply Hsame]. }
    destruct (IH (i + 1) md2 Hb2 Hd2 ltac:(lia) ltac:(lia)) as (md' & Hrun & Hb' & Hs' & Hz'). exists md'. split; [exact Hrun|]. split; [done|].
    assert (Hi' : same_entry md2 md' i) by (apply Hs'; lia).
    split.
    + intros k Hk Hcase. destruct (decide (k = i)) as [->|Hne]; [lia|]. destruct (Hsame k Hk Hne) as [Hw Hc].
      destruct (Hs' k Hk) as [Hw' Hc']; [rewrite Hw; lia|]. split; [congruence|]. intros Hnz. rewrite Hc' by congruence. by apply Hc.
    + intros k Hk Hkf. destruct (decide (k = i)) as [->|Hne].
      * destruct Hi' as [Hw _]. congruence.
      * apply Hz'; [lia|]. destruct (Hsame k) as [-> _]; [lia|done|done].
  - destruct (IH (i + 1) md Hb Hd ltac:(lia) ltac:(lia)) as (md' & Hrun & Hb' & Hs' & Hz'). exists md'. split; [exact Hrun|]. split; [done|]. split.
    + intros k Hk Hcase. apply Hs'; [done|]. destruct (decide (k = i)) as [->|]; lia.
    + intros k Hk Hkf. apply Hz'; [|done]. destruct (decide (k = i)) as [->|]; [done|lia].
Qed.

(** A directory block without its entries for [f]. *)
Definition without (f : Z) (md md' : list Z) : Prop :=
  dir_entries md' = filter (fun p => i32 p.2 <> f) (dir_entries md) /\ dir_ok md'.

Lemma clear_all_run md f :
  is_buffer 512 md -> dir_ok md ->
  exists md', clear_entries (Z.to_nat SFS_MAX_FILES) 0 md f = Ret md' /\ is_buffer 512 md' /\ without f md md'.
Proof.
  intros Hb Hd. destruct (clear_entries_run (Z.to_nat SFS_MAX_FILES) 0 md f Hb Hd ltac:(lia) ltac:(done)) as (md' & Hrun & Hb' & Hs & Hz).
  exists md'. split; [done|]. split; [done|].
  assert (Hall : forall k, 0 <= k < SFS_MAX_FILES -> if decide (i32 (word md (entry_inode k)) = f) then word md' (entry_inode k) = 0 else same_entry md md' k).
  { intros k Hk. case_decide; [apply Hz; [|done]; change (Z.of_nat (Z.to_nat SFS_MAX_FILES)) with SFS_MAX_FILES; lia|apply Hs; tauto]. }
  split.
  - apply dir_entries_filter. intros k Hk. apply Hall. change (Z.of_nat (Z.to_nat SFS_MAX_FILES)) with SFS_MAX_FILES in Hk. lia.
  - apply (dir_ok_same md); [|done]. intros k Hk. specialize (Hall k Hk). case_decide; tauto.
Qed.

(** ** Clearing bits of the allocation bitmap *)

(** The bitmap [w'] is [w] with the positions in [l] clear. *)
Definition freed (w w' : list Z) (l : list Z) : Prop :=
  words_ok w' /\ length w' = length w /\ forall q, 0 <= q < bits w -> bit w' q = if decide (q ∈ l) then false else bit w q.

Lemma freed_none w : words_ok w -> freed w w [].
Proof. intros Hw. split; [done|]. split; [done|]. intros q _. by rewrite decide_False by (by apply not_elem_of_nil). Qed.
Lemma freed_cons w w1 w2 b l : updates_bit w w1 b false -> freed w1 w2 l -> freed w w2 (b :: l).
Proof.
  intros (Hl & Hw & Hb) (Hw2 & Hl2 & Hb2). split; [done|]. split; [congruence|]. intros q Hq.
  assert (Hbits : bits w1 = bits w) by (unfold bits; by rewrite Hl). rewrite Hb2, Hb by (by rewrite ?Hbits).
  destruct (decide (q ∈ l)); [by rewrite decide_True by (by right)|]. destruct (Z.eqb_spec q b) as [->|].
  - by rewrite decide_True by (by left).
  - by rewrite decide_False by (intros [?|?]%elem_of_cons; done).
Qed.

Lemma bat_words b : is_buffer 512 b -> words_ok (words_of b) /\ length (words_of b) = 128%nat /\ bits (words_of b) = 4096 /\ bytes_of (words_of b) = b.
Proof.
  intros [Hl Hb]. pose proof (length_words_of b) as Hlw. assert (length b = (4 * 128)%nat) as Hl' by lia. rewrite Hl' in Hlw.
  split; [by apply words_of_ok|]. split; [done|]. split; [unfold bits; rewrite Hlw; done|]. by apply (bytes_words_of 128).
Qed.
Lemma bytes_buffer w : words_ok w -> length w = 128%nat -> is_buffer 512 (bytes_of w) /\ words_of (bytes_of w) = w.
Proof. intros Hw Hl. split; [split; [rewrite length_bytes_of, Hl; done|apply bytes_of_byte]|by apply words_bytes_of]. Qed.

Section remove.
Context {D S L : Type} `{!BlockDevice D, !Semaphores S, !HasCpu L, !ThreadSys L, !LoneLocks L, !Symbols}.
Abbreviation volume := (svol D S L).
Abbreviation device := (D * S)%type.
Implicit Types (d : D) (v : device) (t : sfs_t) (s : volume).

(** The blocks that an inode lists, up to the first zero. *)
Fixpoint listed (n : nat) (i : Z) (inode : list Z) : list Z :=
  match n with
  | O => []
  | Datatypes.S n => let b := word inode (i + 1) in if b =? 0 then [] else b :: listed n (i + 1) inode
  end.
Definition inode_blocks (inode : list Z) : list Z := listed (Z.to_nat SFS_BLOCKS_MAX) 0 inode.
(** What removing the file in block [f] frees. *)
Definition owned_blocks d (f folder : Z) : list Z := if folder =? 0 then f :: inode_blocks (contents d f) else [f].

Lemma free_blocks_run n i t v :
  body_ok t v -> 0 <= i -> i + Z.of_nat n = 127 -> Forall (fun b => 0 <= b < 4096) (listed n i (buffer_inode t)) ->
  wps (L := L) (free_blocks n i) (fun _ t' v' => v' = v /\ exists w, t' = with_bat (bytes_of w) t /\
    freed (words_of (buffer_bat t)) w (listed n i (buffer_inode t))) t v.
Proof.
  revert i t. induction n as [|n IH]; intros i t Hok Hi Hn Hf; cbn [free_blocks listed] in *.
  { apply wps_ret. split; [done|]. destruct (bat_words _ (bo_bat _ _ Hok)) as (Hw & _ & _ & Hb). exists (words_of (buffer_bat t)).
    split; [rewrite Hb; by destruct t|by apply freed_none]. }
  destruct (bat_words _ (bo_bat _ _ Hok)) as (Hw & Hlen & Hbits & Hb). destruct (bo_inode _ _ Hok) as [Hil _].
  apply wps_bind, wps_get, wps_bind. eapply wps_lift; [apply get_word_word; lia|].
  set (b := word (buffer_inode t) (i + 1)) in *. destruct (Z.eqb_spec b 0) as [Hb0|Hb0].
  { apply wps_ret. split; [done|]. exists (words_of (buffer_bat t)). split; [rewrite Hb; by destruct t|by apply freed_none]. }
  apply Forall_cons in Hf as [Hrange Hf]. rewrite i32_id by (unfold is_i32; lia).
  destruct (bitmap_set_bit (words_of (buffer_bat t)) b false Hw) as (w1 & Hset & Hupd); [lia|]. cbn [Z.b2z] in Hset.
  apply wps_bind. eapply wps_lift; [exact Hset|]. apply wps_bind, wps_upd. pose proof Hupd as (Hl1 & Hw1 & _).
  destruct (bytes_buffer w1 Hw1 ltac:(congruence)) as [Hbuf Hwb]. destruct (body_set t v _ Hok Hbuf) as (_ & Hok1 & _).
  eapply wps_mono; [apply (IH (i + 1) (with_bat (bytes_of w1) t)); [done|lia|lia|done]|].
  intros _ t' v' (-> & w & -> & Hfr). split; [done|]. exists w. split; [done|]. cbn [with_bat buffer_bat buffer_inode] in Hfr.
  rewrite Hwb in Hfr. by eapply freed_cons.
Qed.

(** Only the device, its semaphores and the buffers may differ. *)
Definition orphaned (f : Z) (l : list sfs_openfile_t) : list sfs_openfile_t :=
  (fun e => if parentid e =? f then with_parentid (-1) e else e) <$> l.
Definition same_but_files t t' : Prop := same_sfs (with_open_files (open_files t') t) t'.

Lemma same_files t t' : same_sfs t t' -> same_but_files t t' /\ open_files t' = open_files t.
Proof. unfold same_but_files, same_sfs. cbn. intros [= ? ? ? ? ? ?]. split; congruence. Qed.

(** What an operation under the semaphore may change on a reliable device: the
    blocks [l], the buffers and the table of open files. *)
Definition changed (l : list Z) s s' : Prop :=
  vol_ok s' /\ sv_locks s' = sv_locks s /\ sv_pool s' = sv_pool s /\ same_but_files (sv_sfs s) (sv_sfs s') /\
  same_outside l (sv_disk s) (sv_disk s') /\ same_sems (sv_sems s) (sv_sems s') /\ reliable (sv_disk s').
Definition body_changed (l : list Z) t d (x : S) t' v' : Prop :=
  same_but_files t t' /\ body_ok t' v' /\ same_outside l d v'.1 /\ same_sems x v'.2.

Lemma same_but_files_refl t : same_but_files t t.
Proof. by apply same_files. Qed.
Lemma same_but_files_trans t t' t'' : same_but_files t t' -> same_but_files t' t'' -> same_but_files t t''.
Proof. unfold same_but_files, same_sfs. cbn. intros [= ? ? ? ? ?] [= ? ? ? ? ?]. congruence. Qed.
Lemma changed_trans l s s' s'' : changed l s s' -> changed l s' s'' -> changed l s s''.
Proof.
  intros (_ & Hl & Hp & Ht & Hd & Hx & _) (Hv & Hl' & Hp' & Ht' & Hd' & Hx' & Hr). split; [done|]. split; [congruence|]. split; [congruence|].
  split; [by eapply same_but_files_trans|]. split; [by eapply same_outside_trans|]. split; [by eapply same_sems_trans|done].
Qed.
Lemma changed_mono l l' s s' : l ⊆ l' -> changed l s s' -> changed l' s s'.
Proof.
  intros Hl (H1 & H2 & H3 & H4 & (Hb & Ht & Hc & Hr) & H6). do 4 (split; [done|]). split; [|done]. split; [done|]. split; [done|]. split; [|done].
  intros c Hn. apply Hc. set_solver.
Qed.

Lemma wp_locked_change {A} (body : M volume A) (R : A -> sfs_t -> D -> Prop) l s :
  vol_ok s -> reliable (sv_disk s) ->
  (forall x, body_ok (sv_sfs s) (sv_disk s, x) ->
     wps body (fun a t v => body_changed l (sv_sfs s) (sv_disk s) x t v /\ R a t v.1) (sv_sfs s) (sv_disk s, x)) ->
  wp (locked body) (fun a s' => changed l s s' /\ R a (sv_sfs s') (sv_disk s')) s.
Proof.
  intros Hv Hrel Hbody. pose proof Hv as [Hb Hlock]. eapply wp_mono.
  { apply (wp_sfs_locked True body (fun a t d => same_but_files (sv_sfs s) t /\ (forall x, sems_ready x -> body_ok t (d, x)) /\
      same_outside l (sv_disk s) d /\ R a t d)); [by apply vol_sems|].
    intros x Hx. eapply wps_mono.
    { apply (Hbody x). destruct Hb as [[? ? _] ? ? ? ? ?]. by split. }
    intros a t v [(Ht & Hb' & Hout & Hsems) HR]. split; [by apply same_from|]. split; [done|]. split; [|done].
    intros y Hy. destruct Hb' as [[? ? _] ? ? ? ? ?]. by split. }
  intros a s' (Hl & Hp & [_ Hsems] & Ht & Hb' & Hout & HR). specialize (Hsems I). split; [|done].
  split; [split; [apply Hb'; eapply same_ready; [done|apply Hb]|]|split_and!; try done; by apply Hout].
  destruct Hsems as [_ ->]. injection Ht as _ _ -> _ _. done.
Qed.

Lemma body_changed_start l t d x : body_ok t (d, x) -> body_changed l t d x t (d, x).
Proof. intros Hb. split; [apply same_but_files_refl|]. split; [done|]. split; [done|]. destruct Hb as [[_ _ [? _]] _ _ _ _ _]. done. Qed.

(** A block that can be read, and a buffer that can be written. *)
Lemma body_read {A} buf set b l t0 d0 x0 t v (k : Z -> M volume A) (R : A -> sfs_t -> device -> Prop) :
  buffer_field buf set -> body_changed l t0 d0 x0 t v -> reliable d0 -> 0 <= b < total_blocks d0 ->
  (forall r v', r <> 0 -> body_changed l t0 d0 x0 (set (contents v.1 b) t) v' -> same_disk v.1 v'.1 ->
     wps (k r) R (set (contents v.1 b) t) v') ->
  wps (r ← read_into buf set b; k r) R t v.
Proof.
  intros Hf (Ht & Hb & Hout & Hsems) Hrel Hrange HR. pose proof Hout as (_ & Htb & _ & Hrd).
  apply wps_bind, wps_read_block; [done|done|by rewrite Htb|]. intros r x v' [Hsd Hss] Hok Hx Hrel'. assert (Hne : r <> 0) by (by apply Hrel', Hrd).
  rewrite (Hx Hne) in *. apply HR; [done| |done]. split; [|split; [done|split]].
  - destruct Hf as [[-> ->]|[[-> ->]|[-> ->]]]; exact Ht.
  - eapply same_outside_trans; [done|by apply same_disk_is_outside].
  - by eapply same_sems_trans.
Qed.
Lemma body_write {A} buf b l t0 d0 x0 t v (k : Z -> M volume A) (R : A -> sfs_t -> device -> Prop) :
  body_changed l t0 d0 x0 t v -> reliable d0 -> 0 <= b < total_blocks d0 -> b ∈ l -> is_buffer 512 (buf t) ->
  (forall r v', r <> 0 -> body_changed l t0 d0 x0 t v' -> contents v'.1 b = buf t -> same_outside [b] v.1 v'.1 -> wps (k r) R t v') ->
  wps (r ← write_from buf b; k r) R t v.
Proof.
  intros (Ht & Hb & Hout & Hsems) Hrel Hrange Hin Hbuf HR. pose proof Hout as (_ & Htb & _ & Hrd).
  apply wps_bind, wps_write_from; [done|done|by rewrite Htb|]. intros r v' Hdev Hw Hrel'. assert (Hne : r <> 0) by (by apply Hrel', Hrd).
  destruct (Hw Hne) as (Hc & Hok & Hss). apply HR; [done| |done|apply Hdev]. split; [done|]. split; [done|]. split; [|by eapply same_sems_trans].
  eapply same_outside_trans; [done|]. apply (dev_outside_mono [b] l); [|done]. intros c ->%list_elem_of_singleton. done.
Qed.
(** A change of the buffers only. *)
Lemma body_buffers l t0 d0 x0 t t' v : body_changed l t0 d0 x0 t v -> same_sfs t t' -> body_ok t' v -> body_changed l t0 d0 x0 t' v.
Proof. intros (Ht & _ & Hout & Hs) Hsfs Hb. split; [|done]. eapply same_but_files_trans; [done|by apply same_files]. Qed.

(** ** The deletion of a file *)

Lemma _delete_run f parent folder s :
  vol_ok s -> reliable (sv_disk s) -> 0 <= f < totalvblocks (sv_sfs s) ->
  Forall (fun b => 0 <= b < 4096) (owned_blocks (sv_disk s) f folder) ->
  wp (_delete f parent folder) (fun _ s' => changed [SFS_ALLOCATION_BLOCK] s s' /\
    open_files (sv_sfs s') = (if folder =? 0 then open_files (sv_sfs s) else orphaned f (open_files (sv_sfs s))) /\
    freed (words_of (contents (sv_disk s) SFS_ALLOCATION_BLOCK)) (words_of (contents (sv_disk s') SFS_ALLOCATION_BLOCK))
      (owned_blocks (sv_disk s) f folder)) s.
Proof.
  intros Hv Hrel Hf Hown. pose proof (bo_total _ _ (vo_body _ Hv)) as Htot. pose proof (bo_disk _ _ (vo_body _ Hv)) as Hdisk. cbn [fst] in Hdisk.
  unfold SFS_ALLOCATION_BLOCK.
  apply (wp_locked_change _ (fun _ t d => open_files t = _ /\ freed _ (words_of (contents d 1)) _) [1] s Hv Hrel).
  intros x Hb. apply (body_read buffer_bat with_bat 1 [1] (sv_sfs s) (sv_disk s) x); [right; by left|by apply body_changed_start|done|lia|].
  intros r v Hr Hch Hsd. apply Z.eqb_neq in Hr as ->. cbn [fst] in *. set (bat := contents (sv_disk s) 1) in *.
  pose proof Hch as (_ & Hok & _). destruct (bat_words bat (bo_bat _ _ Hok)) as (Hw & Hlen & Hbits & Hbytes).
  apply wps_bind, wps_get, wps_bind. cbn [with_bat buffer_bat].
  destruct (bitmap_set_bit (words_of bat) f false Hw) as (w1 & Hset & Hupd); [lia|]. cbn [Z.b2z] in Hset. eapply wps_lift; [exact Hset|].
  pose proof Hupd as (Hl1 & Hw1 & _). destruct (bytes_buffer w1 Hw1 ltac:(congruence)) as [Hbuf1 Hwb1].
  apply wps_bind, wps_upd. set (t1 := with_bat (bytes_of w1) _). destruct (body_set _ _ _ Hok Hbuf1) as (_ & Hok1 & _). fold t1 in Hok1.
  assert (Hch1 : body_changed [1] (sv_sfs s) (sv_disk s) x t1 v) by (by eapply body_buffers).
  (* the updated bitmap is written *)
  assert (Hend : forall t2 v2 w2 l, body_changed [1] (sv_sfs s) (sv_disk s) x t2 v2 -> buffer_bat t2 = bytes_of w2 -> freed w1 w2 l ->
    open_files t2 = (if folder =? 0 then open_files (sv_sfs s) else orphaned f (open_files (sv_sfs s))) -> owned_blocks (sv_disk s) f folder = f :: l ->
    wps (L := L) (_ ← write_from buffer_bat 1; mret tt) (fun _ t' v' => body_changed [1] (sv_sfs s) (sv_disk s) x t' v' /\
      open_files t' = (if folder =? 0 then open_files (sv_sfs s) else orphaned f (open_files (sv_sfs s))) /\
      freed (words_of bat) (words_of (contents v'.1 1)) (owned_blocks (sv_disk s) f folder)) t2 v2).
  { intros t2 v2 w2 l Hch2 Hbat2 Hfr Hof ->. pose proof Hfr as (Hw2 & Hl2 & _).
    destruct (bytes_buffer w2 Hw2 ltac:(congruence)) as [Hbuf2 Hwb2].
    apply (body_write _ 1 [1] (sv_sfs s) (sv_disk s) x); [done|done|lia|by left|by rewrite Hbat2|].
    intros r3 v3 _ Hch3 Hc _. apply wps_ret. split; [done|]. split; [done|]. rewrite Hc, Hbat2, Hwb2. by eapply freed_cons. }
  unfold owned_blocks in *. destruct (folder =? 0) eqn:Efold.
  - apply (body_read buffer_inode with_inode f [1] (sv_sfs s) (sv_disk s) x); [by left|done|done|lia|].
    intros r2 v2 Hr2 Hch2 Hsd2. apply Z.eqb_neq in Hr2 as ->. apply Forall_cons in Hown as [_ Hown].
    assert (Hino : contents v.1 f = contents (sv_disk s) f) by apply Hsd. rewrite Hino in *.
    apply wps_bind. eapply wps_mono.
    { apply (free_blocks_run (Z.to_nat SFS_BLOCKS_MAX) 0); [apply Hch2|lia|done|exact Hown]. }
    intros _ t3 v3 (-> & w & -> & Hfr). cbn [with_inode with_bat buffer_bat buffer_inode t1] in Hfr. rewrite Hwb1 in Hfr.
    pose proof Hfr as (Hww & Hlw & _). destruct (bytes_buffer w Hww ltac:(congruence)) as [Hbufw _].
    destruct (body_set _ _ _ (proj1 (proj2 Hch2)) Hbufw) as (_ & Hok3 & _).
    eapply Hend; [by eapply body_buffers|done|exact Hfr|done|done].
  - apply wps_bind, wps_upd. eapply Hend; [|done|by apply freed_none|done|done].
    destruct Hch1 as (Ht1 & Hb1 & Ho1 & Hs1). split; [unfold same_but_files, same_sfs in *; cbn in *; congruence|]. split; [|done]. destruct Hb1. by split.
Qed.

Lemma _delete_from_dirtree_run f parent s :
  vol_ok s -> reliable (sv_disk s) -> 0 < parent < total_blocks (sv_disk s) -> dir_ok (contents (sv_disk s) parent) ->
  wp (_delete_from_dirtree f parent) (fun _ s' => changed [parent] s s' /\ open_files (sv_sfs s') = open_files (sv_sfs s) /\
    without f (contents (sv_disk s) parent) (contents (sv_disk s') parent)) s.
Proof.
  intros Hv Hrel Hp Hd. apply (wp_locked_change _ (fun _ t d => open_files t = _ /\ without f _ (contents d parent)) [parent] s Hv Hrel).
  intros x Hb. rewrite Z.gtb_ltb, (proj2 (Z.ltb_lt 0 parent)) by lia.
  apply (body_read buffer_md with_md parent [parent] (sv_sfs s) (sv_disk s) x); [right; by right|by apply body_changed_start|done|lia|].
  intros r v Hr Hch Hsd. apply Z.eqb_neq in Hr as ->. cbn [fst] in *. set (md := contents (sv_disk s) parent) in *.
  pose proof Hch as (_ & Hok & _). apply wps_bind, wps_get, wps_bind. cbn [with_md buffer_md].
  destruct (clear_all_run md f (bo_md _ _ Hok) Hd) as (md' & Hrun & Hbuf & Hwithout). eapply wps_lift; [exact Hrun|].
  apply wps_bind, wps_upd. destruct (body_set _ _ _ Hok Hbuf) as (_ & _ & Hok1).
  apply (body_write _ parent [parent] (sv_sfs s) (sv_disk s) x); [by eapply body_buffers|done|lia|by left|done|].
  intros r2 v2 _ Hch2 Hc _. apply wps_ret. split; [done|]. split; [done|]. by rewrite Hc.
Qed.

(** ** The table after opening and closing *)

Lemma table_wf_set l i e e' :
  table_wf l -> l !! i = Some e -> entry_wf e' ->
  (fileid e' = fileid e \/ fileid e' = -1 \/ forall x, x ∈ l -> fileid x <> fileid e') -> table_wf (<[i:=e']> l).
Proof.
  intros [Hl Hw Hu] Hi He' Hf. split; [by rewrite length_insert|by apply Forall_insert|].
  assert (Hother : forall j x, j <> i -> l !! j = Some x -> fileid e' <> -1 -> fileid x <> fileid e').
  { intros j x Hne Hx Hn Heq. destruct Hf as [Hf|[Hf|Hf]]; [|done|].
    - apply Hne. apply (Hu j i x e); congruence.
    - by apply (Hf x); [eapply list_elem_of_lookup_2|]. }
  intros j k x x' Hj Hk Heq Hne. destruct (decide (j = i)) as [->|Hji], (decide (k = i)) as [->|Hki]; [done| | |].
  - rewrite list_lookup_insert_eq in Hj by (by eapply lookup_lt_Some). rewrite list_lookup_insert_ne in Hk by done. injection Hj as <-.
    exfalso. by apply (Hother k x').
  - rewrite list_lookup_insert_eq in Hk by (by eapply lookup_lt_Some). rewrite list_lookup_insert_ne in Hj by done. injection Hk as <-.
    exfalso. apply (Hother j x); congruence.
  - rewrite list_lookup_insert_ne in Hj, Hk by done. by eapply Hu.
Qed.

Lemma orphaned_fields f l i e' : orphaned f l !! i = Some e' -> exists e, l !! i = Some e /\
  (fileid e', times_opened e', readernum e', writer_tid e', io_lock e', io_cond e', is_deleted e', is_folder e') =
  (fileid e, times_opened e, readernum e, writer_tid e, io_lock e, io_cond e, is_deleted e, is_folder e) /\ (parentid e' = parentid e \/ parentid e' = -1).
Proof.
  unfold orphaned. rewrite list_lookup_fmap. destruct (l !! i) as [e|]; [|done]. intros [= <-]. exists e. split; [done|].
  destruct (parentid e =? f); (split; [done|]); [by right|by left].
Qed.
Lemma table_wf_orphaned f l : table_wf l -> table_wf (orphaned f l).
Proof.
  intros [Hl Hw Hu]. split; [unfold orphaned; by rewrite length_fmap| |].
  - apply Forall_lookup. intros i e' He'. destruct (orphaned_fields f l i e' He') as (e & He & [= H1 H2 H3 H4 H5 H6 H7 H8] & Hp).
    rewrite Forall_lookup in Hw. destruct (Hw i e He) as [Hr|?]; [left|right; congruence].
    destruct e, e'. cbn in *. injection Hr as -> -> -> -> -> -> ->. subst. unfold sfs_reset_entry. cbn. by destruct Hp as [->| ->].
  - intros i j x x' Hx Hx' Heq Hne. destruct (orphaned_fields f l i x Hx) as (y & Hy & [= H1 _ _ _ _ _ _ _] & _).
    destruct (orphaned_fields f l j x' Hx') as (y' & Hy' & [= H1' _ _ _ _ _ _ _] & _). apply (Hu i j y y'); congruence.
Qed.

Definition opened_entry (f parent folder : Z) (e : sfs_openfile_t) : sfs_openfile_t :=
  with_times_opened (times_opened e + 1) (if fileid e =? -1 then with_file f parent folder e else e).

(** The search finds an entry that can be opened for [f]. *)
Definition slot_for (l : list sfs_openfile_t) (f i : Z) (e : sfs_openfile_t) : Prop :=
  0 <= i /\ l !! Z.to_nat i = Some e /\ find_openfile 0 l f None = Some i.
Lemma slot_wf l f i e :
  slot_for l f i e -> 0 <= f -> (fileid e = f \/ (fileid e = -1 /\ forall x, x ∈ l -> fileid x <> f)).
Proof.
  intros (Hi & He & Hfind) Hf. pose proof (find_openfile_run 0 l f None) as Hrun. rewrite Hfind in Hrun.
  destruct Hrun as [(e' & Hk & He' & Hcase)|[[=] _]]. rewrite Z.sub_0_r in *. rewrite He' in He. injection He as ->.
  destruct Hcase as [?|(? & _ & ?)]; [by left|by right].
Qed.
Lemma find_slot_for l f : match find_openfile 0 l f None with Some i => exists e, slot_for l f i e | None => forall i e, ~ slot_for l f i e end.
Proof.
  pose proof (find_openfile_run 0 l f None) as Hrun. destruct (find_openfile 0 l f None) as [i|] eqn:E.
  - destruct Hrun as [(e & Hk & He & _)|[[=] _]]. rewrite Z.sub_0_r in *. by exists e.
  - intros i e (_ & _ & Hf). congruence.
Qed.

Lemma opened_wf l f parent folder i e :
  table_wf l -> slot_for l f i e -> 0 <= f -> times_opened e < 2147483647 ->
  let e' := opened_entry f parent folder e in
  entry_wf e' /\ fileid e' = f /\ table_wf (<[Z.to_nat i := e']> l) /\ times_opened e' = times_opened e + 1 /\
  io_lock e' = io_lock e /\ io_cond e' = io_cond e /\ is_deleted e' = is_deleted e.
Proof.
  intros Htab Hslot Hf Hmax e'. pose proof Hslot as (Hi & He & _). pose proof (tw_entries _ Htab) as Hw. rewrite Forall_lookup in Hw.
  pose proof (Hw _ _ He) as Hwf. assert (He' : entry_wf e' /\ fileid e' = f).
  { unfold e', opened_entry. destruct (slot_wf _ _ _ _ Hslot Hf) as [Hfe|[Hfe _]].
    - rewrite (proj2 (Z.eqb_neq (fileid e) (-1))) by lia. split; [|done]. destruct Hwf as [Hr|(H1 & H2 & H3 & H4)]; [rewrite Hr in Hfe; cbn in Hfe; lia|].
      right. cbn. lia.
    - rewrite Hfe. cbn [Z.eqb Pos.eqb]. split; [|done]. destruct Hwf as [->|]; [|lia]. right. cbn. lia. }
  split; [apply He'|]. split; [apply He'|]. split.
  - eapply table_wf_set; [done|done|apply He'|]. destruct He' as [_ ->]. destruct (slot_wf _ _ _ _ Hslot Hf) as [?|[_ ?]]; [by left|by right; right].
  - unfold e', opened_entry. by destruct (fileid e =? -1).
Qed.

(** Closing an entry once. *)
Lemma closed_wf l i e e' :
  table_wf l -> l !! i = Some e -> (entry_wf e' /\ fileid e' = fileid e) \/ e' = sfs_reset_entry e -> table_wf (<[i:=e']> l).
Proof.
  intros Htab Hi [[Hw Hf]| ->]; eapply table_wf_set; try done; [by left|by left|by right; left].
Qed.

(** ** Opening *)
Lemma enter_open_run f parent folder s (Q : option Z -> volume -> Prop) :
  locks_ok s -> 0 <= f -> (forall i e, slot_for (open_files (sv_sfs s)) f i e -> is_i32 (times_opened e + 1)) ->
  (forall y, same_locks (sv_locks s) y ->
     (forall i e, slot_for (open_files (sv_sfs s)) f i e -> Q (Some i) (set_entry i (opened_entry f parent folder e) (set_locks y s))) /\
     ((forall i e, ~ slot_for (open_files (sv_sfs s)) f i e) -> Q None (set_locks y s))) ->
  wp (sfs_enter_ext f parent 1 folder 0) Q s.
Proof.
  intros Hl Hf Hint HQ. unfold sfs_enter_ext. rewrite (proj2 (Z.ltb_ge f 0)) by lia. eapply wp_mono.
  { apply (wp_with_table _ (fun r t d x p => match r with
      | Some i => exists e, slot_for (open_files (sv_sfs s)) f i e /\
          (t, d, x, p) = (sv_sfs (set_entry i (opened_entry f parent folder e) s), sv_disk s, sv_sems s, sv_pool s)
      | None => (forall i e, ~ slot_for (open_files (sv_sfs s)) f i e) /\ (t, d, x, p) = (sv_sfs s, sv_disk s, sv_sems s, sv_pool s) end)); [apply Hl..|].
    intros y. apply wp_bind, wp_gets. cbn [sv_sfs set_locks]. pose proof (find_slot_for (open_files (sv_sfs s)) f) as Hfind.
    destruct (find_openfile 0 (open_files (sv_sfs s)) f None) as [i|]; [|by apply wp_ret].
    destruct Hfind as [e Hslot]. pose proof Hslot as (Hi & He & _). specialize (Hint i e Hslot).
    apply wp_bind, (wp_get_entry i e); [done|done|]. cbn [Z.eqb negb]. rewrite andb_false_r.
    set (e1 := if fileid e =? -1 then with_file f parent folder e else e).
    assert (Hto : times_opened e1 = times_opened e) by (unfold e1; by destruct (fileid e =? -1)).
    assert (Hrest : wp (_ ← (e ← get_entry i; n ← lift (int (times_opened e + 1)); upd_entry i (with_times_opened n)); _ ← mret tt; mret (Some i))
      (fun r s' => sv_locks s' = y /\ match r with
        | Some i => exists e, slot_for (open_files (sv_sfs s)) f i e /\ (sv_sfs s', sv_disk s', sv_sems s', sv_pool s') =
            (sv_sfs (set_entry i (opened_entry f parent folder e) s), sv_disk s, sv_sems s, sv_pool s)
        | None => (forall i e, ~ slot_for (open_files (sv_sfs s)) f i e) /\ (sv_sfs s', sv_disk s', sv_sems s', sv_pool s') = (sv_sfs s, sv_disk s, sv_sems s, sv_pool s) end)
      (set_entry i e1 (set_locks y s))).
    { apply wp_bind, wp_bind, (wp_get_entry i e1); [done|by eapply set_entry_lookup|]. apply wp_bind. rewrite Hto.
      eapply wp_lift; [unfold int; by rewrite decide_True|]. apply (wp_upd_entry i _ e1); [done|by eapply set_entry_lookup|].
      apply wp_bind, wp_ret, wp_ret. rewrite set_entry_twice. split; [done|]. exists e. split; [done|]. unfold opened_entry. fold e1. done. }
    apply wp_bind. unfold e1 in Hrest. destruct (fileid e =? -1).
    - apply (wp_upd_entry i _ e); [done|done|]. exact Hrest.
    - apply wp_ret. rewrite set_entry_same in Hrest by done. exact Hrest. }
  intros r [t d x y p] [Hy Hr]. cbn [sv_locks sv_sfs sv_disk sv_sems sv_pool] in *. destruct (HQ y Hy) as [H1 H2]. destruct r as [i|].
  - destruct Hr as (e & Hslot & [= -> -> -> ->]). exact (H1 i e Hslot).
  - destruct Hr as (Hno & [= -> -> -> ->]). exact (H2 Hno).
Qed.

(** ** Closing for the last time *)

(** What the last close leaves of the volume: a deleted file's blocks are
    freed. *)
Definition last_closed (i : Z) (e : sfs_openfile_t) s s' : Prop :=
  mounted s' /\ same_but_files (sv_sfs s) (sv_sfs s') /\ sv_pool s' = sv_pool s /\ same_sems (sv_sems s) (sv_sems s') /\ reliable (sv_disk s') /\
  (exists l, (l = open_files (sv_sfs s) \/ l = orphaned (fileid e) (open_files (sv_sfs s))) /\
     open_files (sv_sfs s') = <[Z.to_nat i := sfs_reset_entry e]> l) /\
  if is_deleted e =? 0 then same_disk (sv_disk s) (sv_disk s')
  else same_outside [SFS_ALLOCATION_BLOCK] (sv_disk s) (sv_disk s') /\
    freed (words_of (contents (sv_disk s) SFS_ALLOCATION_BLOCK)) (words_of (contents (sv_disk s') SFS_ALLOCATION_BLOCK))
      (owned_blocks (sv_disk s) (fileid e) (is_folder e)).

Lemma reset_entry_twice e x : sfs_reset_entry (with_times_opened x e) = sfs_reset_entry e /\ sfs_reset_entry (with_parentid x e) = sfs_reset_entry e.
Proof. done. Qed.

Lemma exit_last_run i e s :
  locks_ok s -> vol_ok s -> table_wf (<[Z.to_nat i := sfs_reset_entry e]> (open_files (sv_sfs s))) -> reliable (sv_disk s) ->
  0 <= i -> open_files (sv_sfs s) !! Z.to_nat i = Some e -> times_opened e = 1 ->
  (is_deleted e <> 0 -> 0 <= fileid e < totalvblocks (sv_sfs s) /\
     Forall (fun b => 0 <= b < 4096) (owned_blocks (sv_disk s) (fileid e) (is_folder e))) ->
  wp (sfs_exit i 1) (fun _ s' => last_closed i e s s') s.
Proof.
  intros Hl Hv Htab Hrel Hi He Hto Hdel. set (e0 := with_times_opened 0 e). pose proof Hv as [Hvb Hvl].
  assert (Htab0 : forall l, l = open_files (sv_sfs s) \/ l = orphaned (fileid e) (open_files (sv_sfs s)) -> table_wf (<[Z.to_nat i := sfs_reset_entry e]> l)).
  { intros l [->| ->]; [done|]. unfold orphaned. apply (table_wf_orphaned (fileid e)) in Htab. unfold orphaned in Htab.
    rewrite list_fmap_insert in Htab. replace (if parentid (sfs_reset_entry e) =? fileid e then _ else _) with (sfs_reset_entry e) in Htab; [exact Htab|].
    by destruct (parentid (sfs_reset_entry e) =? fileid e). }
  unfold sfs_exit. eapply wp_mono.
  { apply (wp_with_table _ (fun _ t d x p => forall y, ts_ok y -> (forall k, idle (sv_locks s) k -> idle y k) -> last_closed i e s (mk_svol t d x y p))); [apply Hl..|].
    intros y. cbn [Z.eqb negb]. apply wp_bind, wp_bind, (wp_get_entry i e); [done|done|]. apply wp_bind.
    eapply wp_lift; [unfold int; rewrite decide_True by (unfold is_i32; lia); done|]. rewrite Hto. change (1 - 1) with 0.
    apply (wp_upd_entry i _ e); [done|done|]. fold e0. set (s0 := set_entry i e0 (set_locks y s)).
    assert (He0 : open_files (sv_sfs s0) !! Z.to_nat i = Some e0) by (by eapply set_entry_lookup).
    apply wp_bind, (wp_get_entry i e0); [done|exact He0|]. cbn [times_opened with_times_opened e0 Z.eqb is_deleted fileid parentid is_folder].
    (* whatever happened to the device, the entry is reset *)
    assert (Hend : forall s1 l, vol_ok s1 -> sv_locks s1 = y -> sv_pool s1 = sv_pool s -> same_but_files (sv_sfs s) (sv_sfs s1) ->
      same_sems (sv_sems s) (sv_sems s1) -> reliable (sv_disk s1) ->
      (l = open_files (sv_sfs s) \/ l = orphaned (fileid e) (open_files (sv_sfs s))) ->
      (exists e1, sfs_reset_entry e1 = sfs_reset_entry e /\ open_files (sv_sfs s1) = <[Z.to_nat i := e1]> l) ->
      (if is_deleted e =? 0 then same_disk (sv_disk s) (sv_disk s1)
       else same_outside [SFS_ALLOCATION_BLOCK] (sv_disk s) (sv_disk s1) /\
         freed (words_of (contents (sv_disk s) SFS_ALLOCATION_BLOCK)) (words_of (contents (sv_disk s1) SFS_ALLOCATION_BLOCK))
           (owned_blocks (sv_disk s) (fileid e) (is_folder e))) ->
      wp (upd_entry i sfs_reset_entry) (fun _ s' => sv_locks s' = y /\
        forall y, ts_ok y -> (forall k, idle (sv_locks s) k -> idle y k) -> last_closed i e s (mk_svol (sv_sfs s') (sv_disk s') (sv_sems s') y (sv_pool s'))) s1).
    { intros s1 l Hv1 Hy1 Hp1 Ht1 Hx1 Hr1 Hcase (e1 & Hre & Hl1) Hd1.
      assert (Hlen : length l = length (open_files (sv_sfs s))) by (destruct Hcase as [->| ->]; [done|unfold orphaned; by rewrite length_fmap]).
      assert (Hlook : open_files (sv_sfs s1) !! Z.to_nat i = Some e1).
      { rewrite Hl1. apply list_lookup_insert_eq. rewrite Hlen. by eapply lookup_lt_Some. }
      apply (wp_upd_entry i _ e1); [done|done|]. split; [done|]. intros y' Hy' Hidle. rewrite Hre. cbn [set_entry sv_sfs sv_disk sv_sems sv_pool].
      assert (Hfinal : <[Z.to_nat i := sfs_reset_entry e]> (open_files (sv_sfs s1)) = <[Z.to_nat i := sfs_reset_entry e]> l).
      { by rewrite Hl1, list_insert_insert_eq. }
      rewrite Hfinal. pose proof Ht1 as Ht1'. injection Ht1' as Hb1 Htv1 Hlk1 Holk1 Hpg1.
      split; [split|split; [|split; [done|split; [done|split; [done|split; [exists l; by split|done]]]]]].
      - destruct Hv1 as [[H1 H2 H3 H4 H5 H6] H7]. split; [by split|done].
      - cbn. by apply Htab0.
      - split; cbn [sv_locks sv_sfs with_open_files open_files openfile_lock]; [done|rewrite Holk1; apply Hidle, Hl|].
        pose proof (lo_entries _ Hl) as Hentries. rewrite Forall_lookup in Hentries.
        assert (Hall : Forall (fun x => idle y' (io_lock x) /\ ts_cond (io_cond x)) l).
        { apply Forall_lookup. intros k x Hx. destruct Hcase as [->| ->].
          - destruct (Hentries k x Hx). split; [by apply Hidle|done].
          - destruct (orphaned_fields _ _ _ _ Hx) as (x0 & Hx0 & [= _ _ _ _ Hil Hic _ _] & _). destruct (Hentries k x0 Hx0). rewrite Hil, Hic. split; [by apply Hidle|done]. }
        apply Forall_insert; [done|]. cbn. destruct (Hentries _ _ He). split; [by apply Hidle|done].
      - unfold same_but_files, same_sfs. cbn. congruence. }
    destruct (is_deleted e =? 0) eqn:Edel; cbn [negb].
    - apply wp_bind, wp_ret, (Hend s0 (open_files (sv_sfs s))); try done; [by destruct Hvb; split|split; [apply Hvb|done]|by left|by exists e0].
    - apply Z.eqb_neq in Edel. destruct (Hdel Edel) as [Hfr Hown]. apply wp_bind. eapply wp_mono.
      { apply (_delete_run (fileid e) (parentid e) (is_folder e) s0); [|done|done|done]. destruct Hvb. split; [by split|done]. }
      intros _ s1 ((Hv1 & Hy1 & Hp1 & Ht1 & Hd1 & Hx1 & Hr1) & Hof & Hfreed).
      assert (Ht1' : same_but_files (sv_sfs s) (sv_sfs s1)).
      { unfold same_but_files, same_sfs in *. cbn in *. congruence. }
      destruct (is_folder e =? 0).
      + apply (Hend s1 (open_files (sv_sfs s))); try done; [by left|by exists e0].
      + apply (Hend s1 (orphaned (fileid e) (open_files (sv_sfs s)))); try done; [by right|]. rewrite Hof. cbn. unfold orphaned. rewrite list_fmap_insert.
        eexists. split; [|done]. by destruct (parentid e0 =? fileid e). }
  intros _ s' [(Hy & Hidle & _) Hlast]. specialize (Hlast (sv_locks s') Hy Hidle). by destruct s'.
Qed.
End remove.
