(* ===== verification/SfsOps.v ===== *)
(** * The operations of the student filesystem

    [sfs_open], [sfs_close], [sfs_remove], [sfs_read] and [sfs_write] as the
    virtual file system calls them, one thread at a time. *)
From S2P Require Import Prelude Bitmap Libc Cpu Kmalloc Pagepool Gbd Sync ThreadSys Bytes Tfs Sfs SfsVol SfsPath SfsFile SfsTable SfsRemove.

Section ops.
Context {D S L : Type} `{!BlockDevice D, !Semaphores S, !HasCpu L, !ThreadSys L, !LoneLocks L, !Symbols}.
Abbreviation volume := (svol D S L).
Implicit Types (d : D) (s : volume).

Lemma mounted_on_device s s' : mounted s -> on_device s s' -> vol_ok s' -> mounted s'.
Proof.
  intros [Hv Ht Hl] (d & x & y & -> & Hy) Hv'. split; [done|done|]. apply locks_ok_dev. by apply locks_ok_same.
Qed.
Lemma vol_same_dev s s' :
  vol_ok s -> same_sfs (sv_sfs s) (sv_sfs s') -> same_dev (sv_disk s, sv_sems s) (sv_disk s', sv_sems s') ->
  is_buffer 512 (buffer_inode (sv_sfs s')) -> is_buffer 512 (buffer_bat (sv_sfs s')) -> is_buffer 512 (buffer_md (sv_sfs s')) -> vol_ok s'.
Proof.
  intros [[H1 H2 H3 _ _ _] Hk] Ht Hd Hi Hb Hm. injection Ht as _ Htv Hlk _ _ _. pose proof Hd as [(_ & Htb & _) [_ Hs]]. cbn [fst snd] in *. split.
  - split; try done; [by eapply same_dev_ok|by rewrite Htv|cbn [fst]; by rewrite Htv, Htb].
  - by rewrite Hs, Hlk.
Qed.
Lemma mounted_same_sfs s s' :
  mounted s -> vol_ok s' -> same_sfs (sv_sfs s) (sv_sfs s') -> sv_locks s' = sv_locks s -> mounted s'.
Proof.
  intros [Hv Ht [H1 H2 H3]] Hv' Hs Hl. injection Hs as _ _ _ Hof Hol _. split; [done|by rewrite Hof|]. split; rewrite ?Hl, ?Hof, ?Hol; done.
Qed.
Lemma mounted_locks s y : mounted s -> same_locks (sv_locks s) y -> mounted (set_locks y s).
Proof. intros [Hv Ht Hl] Hy. split; [|done|by apply locks_ok_same]. destruct Hv as [[] ?]. split; [by split|done]. Qed.
Lemma mounted_entry s i e e' :
  mounted s -> 0 <= i -> open_files (sv_sfs s) !! Z.to_nat i = Some e -> table_wf (<[Z.to_nat i := e']> (open_files (sv_sfs s))) ->
  io_lock e' = io_lock e -> io_cond e' = io_cond e -> mounted (set_entry i e' s).
Proof.
  intros [Hv Ht Hl] Hi He Hw Hlk Hcd. split; [|done|by eapply locks_ok_entry]. destruct Hv as [[] ?]. split; [by split|done].
Qed.

(** ** Strings the operations look at *)
Definition folder_flag (p : list Z) : Z := if decide (last p = Some 47) then 1 else 0.
Lemma sfs_is_folder_run path p : cstr path = Some p -> sfs_is_folder path = Ret (folder_flag p).
Proof.
  intros Hp. unfold sfs_is_folder, folder_flag. rewrite (strlen_run path p Hp). cbn [mbind res_bind]. rewrite last_lookup.
  destruct (Z.leb_spec 1 (zlen p)) as [Hl|Hl].
  - destruct (cstr_rget path p (zlen p - 1) Hp ltac:(lia)) as (c & Hc & ->). cbn [mbind res_bind].
    replace (Z.to_nat (zlen p - 1)) with (Nat.pred (length p)) in Hc by lia. rewrite Hc.
    destruct (Z.eqb_spec c 47) as [->|Hne]; [by rewrite decide_True|rewrite decide_False by congruence; done].
  - destruct p; [done|]. cbn [length] in Hl. lia.
Qed.

(** ** Opening *)

(** What resolving a path on a reliable device comes to. *)
Lemma resolve_run s path p stack (Q : Z * option Z -> volume -> Prop) :
  mounted s -> reliable (sv_disk s) -> cstr path = Some p -> Forall is_byte p -> is_buffer SFS_FILENAME_MAX stack -> valid_path p ->
  resolvable (sv_disk s) p ->
  (forall s', mounted s' -> same_sfs (sv_sfs s) (sv_sfs s') -> sv_locks s' = sv_locks s -> sv_pool s' = sv_pool s ->
     same_dev (sv_disk s, sv_sems s) (sv_disk s', sv_sems s') ->
     match resolve (sv_disk s) p with
     | Found f parent => Q (f, Some parent) s'
     | Missing parent _ => Q (VFS_ERROR, Some parent) s'
     end) ->
  wp (sfs_resolve_file path stack) Q s.
Proof.
  intros Hm Hrel Hp Hb Hst Hvalid Hres HQ. apply wp_bind. eapply wp_mono; [by apply (sfs_resolve_file_ext_run s path p stack false); try done; apply Hm|].
  intros a s' (Hv & Ht & Hl & Hpl & Hd & Ha). destruct Ha as [[? _]|(_ & b & parent & e & -> & Hcase)]; [done|].
  destruct Hcase as [(_ & _ & Hno)|Heq]; [done|]. apply wp_ret.
  specialize (HQ s' (mounted_same_sfs _ _ Hm Hv Ht Hl) Ht Hl Hpl Hd).
  destruct (resolve (sv_disk s) p) as [f par|par last']; cbn [walk_answer] in Heq; by injection Heq as -> -> _.
Qed.

(** The table after an attempt to open [f], and the answer. *)
Definition open_answer (l l' : list sfs_openfile_t) (f parent folder r : Z) : Prop :=
  (exists i e, slot_for l f i e /\
     if decide (is_deleted e = 0) then r = f /\ l' = <[Z.to_nat i := opened_entry f parent folder e]> l
     else r = VFS_NOT_FOUND /\ l' = l) \/
  ((forall i e, ~ slot_for l f i e) /\ r = VFS_ERROR /\ l' = l).

Lemma sfs_open_run s path p stack :
  mounted s -> reliable (sv_disk s) -> cstr path = Some p -> Forall is_byte p -> is_buffer SFS_FILENAME_MAX stack -> valid_path p ->
  resolvable (sv_disk s) p -> Forall (fun e => times_opened e < 2147483647) (open_files (sv_sfs s)) ->
  (forall f parent, resolve (sv_disk s) p = Found f parent -> 0 <= f) ->
  wp (sfs_open path stack) (fun r s' => mounted s' /\ same_dev (sv_disk s, sv_sems s) (sv_disk s', sv_sems s') /\
    match resolve (sv_disk s) p with
    | Found f parent => open_answer (open_files (sv_sfs s)) (open_files (sv_sfs s')) f parent (folder_flag p) r
    | Missing _ _ => r = VFS_NOT_FOUND /\ open_files (sv_sfs s') = open_files (sv_sfs s)
    end) s.
Proof.
  intros Hm Hrel Hp Hb Hst Hvalid Hres Hmax Hpos. unfold sfs_open. apply wp_bind, (resolve_run s path p); try done.
  intros s1 Hm1 Hs1 Hl1 Hp1 Hd1. assert (Hof : open_files (sv_sfs s1) = open_files (sv_sfs s)) by (by injection Hs1 as _ _ _ -> _ _).
  destruct (resolve (sv_disk s) p) as [f parent|parent last'] eqn:Er.
  2: { cbn [Z.eqb VFS_ERROR Pos.eqb]. apply wp_ret. split; [done|]. split; [done|]. by split. }
  pose proof (Hpos f parent eq_refl) as Hf. assert ((f =? VFS_ERROR) = false) as -> by (unfold VFS_ERROR; apply Z.eqb_neq; lia).
  apply wp_bind, wp_ret, wp_bind. eapply wp_lift; [by apply sfs_is_folder_run|]. rewrite Forall_lookup in Hmax.
  assert (Hint : forall i e, slot_for (open_files (sv_sfs s1)) f i e -> times_opened e < 2147483647 /\ is_i32 (times_opened e + 1)).
  { intros i e (Hi & He & _). rewrite Hof in He. pose proof (Hmax _ _ He). split; [done|].
    pose proof (tw_entries _ (mo_table _ Hm)) as Hw. rewrite Forall_lookup in Hw. unfold is_i32. destruct (Hw _ _ He) as [->|]; cbn; lia. }
  apply wp_bind, enter_open_run; [apply Hm1|done|by intros i e Hslot; destruct (Hint i e Hslot)|].
  intros y Hy. split; [|intros Hno; apply wp_ret; split; [by apply mounted_locks|]; split; [done|]; right; rewrite <- Hof; by split].
  intros i e Hslot. destruct (Hint i e Hslot) as [Hmx _]. pose proof Hslot as (Hi & He & _).
  destruct (opened_wf _ f parent (folder_flag p) i e (mo_table _ Hm1) Hslot Hf Hmx) as (Hew & Hef & Htw & Hto & Hil & Hic & Hdel).
  set (e' := opened_entry f parent (folder_flag p) e) in *.
  set (s2 := set_entry i e' (set_locks y s1)). assert (He2 : open_files (sv_sfs s2) !! Z.to_nat i = Some e') by (by eapply set_entry_lookup).
  assert (Hm2 : mounted s2) by (apply (mounted_entry _ i e); [by apply mounted_locks|done..]).
  apply wp_bind, (wp_get_entry i e'); [done|done|]. rewrite Hdel. apply wp_bind. destruct (decide (is_deleted e = 0)) as [H0|H0].
  - rewrite H0. apply (sfs_exit_stays i 0 e' (times_opened e')); [apply Hm2|done|done|by rewrite Z.sub_0_r| | |].
    + rewrite Hto. by destruct (Hint i e Hslot).
    + destruct Hew as [Hr|(_ & ? & _)]; [|lia]. rewrite Hr in Hef. cbn in Hef. lia.
    + intros y2 Hy2. apply wp_ret. cbn [Z.eqb negb]. assert (with_times_opened (times_opened e') e' = e') as -> by (by destruct e').
      rewrite set_entry_same by done. split; [by apply mounted_locks|]. split; [done|]. left. exists i, e. rewrite <- Hof. split; [done|].
      rewrite decide_True by done. by split.
  - assert (Hused : fileid e <> -1).
    { pose proof (tw_entries _ (mo_table _ Hm1)) as Hw. rewrite Forall_lookup in Hw. destruct (Hw _ _ He) as [Hr|(? & _)]; [|lia]. rewrite Hr in H0. done. }
    assert (Hwt : with_times_opened (times_opened e) e' = e).
    { unfold e', opened_entry. rewrite (proj2 (Z.eqb_neq _ _)) by done. by destruct e. }
    pose proof (tw_entries _ (mo_table _ Hm1)) as Hw. rewrite Forall_lookup in Hw. destruct (Hw _ _ He) as [Hr|(_ & Hto1 & _)]; [by rewrite Hr in Hused|].
    rewrite (proj2 (Z.eqb_neq (is_deleted e) 0)) by done.
    apply (sfs_exit_stays i (is_deleted e) e' (times_opened e)); [apply Hm2|done|done| | |lia|].
    + rewrite (proj2 (Z.eqb_neq (is_deleted e) 0)) by done. lia.
    + unfold is_i32. lia.
    + intros y2 Hy2. apply wp_ret. cbn [negb]. rewrite Hwt.
      change (set_locks y2 s2) with (set_entry i e' (set_locks y2 s1)). rewrite set_entry_twice, set_entry_same by done.
      split; [apply mounted_locks; [done|]; by eapply same_locks_trans|]. split; [done|]. left. exists i, e. rewrite <- Hof. split; [done|].
      rewrite decide_False by done. by split.
Qed.

(** ** Closing *)

(** The blocks that the last close would free are blocks of the volume. *)
Definition deletable s (f folder : Z) : Prop :=
  0 <= f < totalvblocks (sv_sfs s) /\ Forall (fun b => 0 <= b < 4096) (owned_blocks (sv_disk s) f folder).

Definition same_table s s' : Prop :=
  open_files (sv_sfs s') = open_files (sv_sfs s) /\ sv_disk s' = sv_disk s.
(** Entry [i] is open once less; the last close resets it. *)
Definition closed_once (i : Z) (e : sfs_openfile_t) s s' : Prop :=
  if decide (times_opened e = 1) then last_closed i e s s'
  else mounted s' /\ sv_disk s' = sv_disk s /\
    sv_sfs s' = with_open_files (<[Z.to_nat i := with_times_opened (times_opened e - 1) e]> (open_files (sv_sfs s))) (sv_sfs s).

Lemma exit_close_run i e s :
  mounted s -> reliable (sv_disk s) -> 0 <= i -> open_files (sv_sfs s) !! Z.to_nat i = Some e -> fileid e <> -1 ->
  (times_opened e = 1 -> is_deleted e <> 0 -> deletable s (fileid e) (is_folder e)) ->
  wp (sfs_exit i 1) (fun _ s' => closed_once i e s s') s.
Proof.
  intros Hm Hrel Hi He Hne Hdel. destruct (entry_of_wf _ (fileid e) i e (mo_table _ Hm)) as (Hf & Hto & Hrn & Hwt); [done|].
  unfold closed_once. case_decide as H1.
  - apply exit_last_run; try done; [apply Hm|apply Hm| |by apply Hdel]. eapply closed_wf; [apply Hm|done|by right].
  - apply (sfs_exit_stays i 1 e (times_opened e - 1)); [apply Hm|done|done|done|unfold is_i32; lia|lia|]. intros y Hy. split; [|done].
    apply (mounted_entry (set_locks y s) i e); [by apply mounted_locks|done|done| |done|done].
    eapply closed_wf; [apply Hm|done|]. left. split; [|done]. right. cbn. lia.
Qed.

Lemma sfs_close_run s f :
  mounted s -> reliable (sv_disk s) -> 0 <= f ->
  (forall i e, entry_of (open_files (sv_sfs s)) f i e -> times_opened e = 1 -> is_deleted e <> 0 -> deletable s f (is_folder e)) ->
  wp (sfs_close f) (fun r s' =>
    (r = VFS_ERROR /\ (forall i e, ~ entry_of (open_files (sv_sfs s)) f i e) /\ mounted s' /\ same_table s s') \/
    (r = VFS_OK /\ exists i e, entry_of (open_files (sv_sfs s)) f i e /\ closed_once i e s s')) s.
Proof.
  intros Hm Hrel Hf Hdel. apply wp_bind, sfs_enter_run; [apply Hm|apply Hm|done|]. intros y Hy. pose proof (mounted_locks s y Hm Hy) as Hm1. split.
  - intros i e He. pose proof He as (Hi & Hlook & Hfe & Hne). apply wp_bind. eapply wp_mono.
    { apply (exit_close_run i e); [done|done|done|done|by rewrite Hfe|]. rewrite Hfe. by apply (Hdel i e). }
    intros [] s' Hc. apply wp_ret. right. split; [done|]. by exists i, e.
  - intros Hno. apply wp_ret. by left.
Qed.

(** ** Removing *)

(** What the operations may change besides the locks. *)
Definition updated (l : list Z) s s' : Prop :=
  same_but_files (sv_sfs s) (sv_sfs s') /\ sv_pool s' = sv_pool s /\ same_outside l (sv_disk s) (sv_disk s') /\
  same_sems (sv_sems s) (sv_sems s') /\ reliable (sv_disk s').

(** The open count, the mark and the directory, when [f] is entered to be
    removed. *)
Lemma enter_mark_run f parent folder s (Q : option Z -> volume -> Prop) :
  mounted s -> reliable (sv_disk s) -> 0 <= f -> 0 < parent < total_blocks (sv_disk s) -> dir_ok (contents (sv_disk s) parent) ->
  (forall i e, slot_for (open_files (sv_sfs s)) f i e -> times_opened e < 2147483647 /\ is_deleted e = 0 /\
     (fileid e = f -> parentid e = parent)) ->
  (forall s1, mounted s1 -> 
     (forall i e, slot_for (open_files (sv_sfs s)) f i e -> updated [parent] s s1 ->
        open_files (sv_sfs s1) = <[Z.to_nat i := with_is_deleted 1 (opened_entry f parent folder e)]> (open_files (sv_sfs s)) ->
        without f (contents (sv_disk s) parent) (contents (sv_disk s1) parent) -> Q (Some i) s1) /\
     ((forall i e, ~ slot_for (open_files (sv_sfs s)) f i e) -> same_table s s1 -> Q None s1)) ->
  wp (sfs_enter_ext f parent 1 folder 1) Q s.
Proof.
  intros Hm Hrel Hf Hp Hdir Hslots HQ. unfold sfs_enter_ext. rewrite (proj2 (Z.ltb_ge f 0)) by lia. eapply wp_mono.
  { apply (wp_with_table _ (fun r t d x p => match r with
      | Some i => exists e, slot_for (open_files (sv_sfs s)) f i e /\ vol_ok (mk_svol t d x (sv_locks s) p) /\
          updated [parent] s (mk_svol t d x (sv_locks s) p) /\
          open_files t = <[Z.to_nat i := with_is_deleted 1 (opened_entry f parent folder e)]> (open_files (sv_sfs s)) /\
          without f (contents (sv_disk s) parent) (contents d parent)
      | None => (forall i e, ~ slot_for (open_files (sv_sfs s)) f i e) /\ (t, d, x, p) = (sv_sfs s, sv_disk s, sv_sems s, sv_pool s) end)); [apply Hm..|].
    intros y. apply wp_bind, wp_gets. cbn [sv_sfs set_locks]. pose proof (find_slot_for (open_files (sv_sfs s)) f) as Hfind.
    destruct (find_openfile 0 (open_files (sv_sfs s)) f None) as [i|]; [|by apply wp_ret].
    destruct Hfind as [e Hslot]. pose proof Hslot as (Hi & He & _). destruct (Hslots i e Hslot) as (Hmax & Hdel & Hpar).
    destruct (opened_wf _ f parent folder i e (mo_table _ Hm) Hslot Hf Hmax) as (Hwf & Hfe & Htw & Hto & Hil & Hic & Hdl).
    apply wp_bind, (wp_get_entry i e); [done|done|]. cbn [Z.eqb negb]. rewrite andb_false_r.
    set (e1 := if fileid e =? -1 then with_file f parent folder e else e).
    assert (He1 : times_opened e1 = times_opened e) by (unfold e1; by destruct (fileid e =? -1)).
    assert (Hp1 : parentid (opened_entry f parent folder e) = parent).
    { unfold opened_entry. destruct (slot_wf _ _ _ _ Hslot Hf) as [Hs|[-> _]]; [|done].
      rewrite (proj2 (Z.eqb_neq (fileid e) (-1))) by lia. by apply Hpar. }
    apply wp_bind, (wp_mono _ (fun _ s' => s' = set_entry i e1 (set_locks y s))).
    { unfold e1. destruct (fileid e =? -1); [by apply (wp_upd_entry i _ e)|]. apply wp_ret. by rewrite set_entry_same. }
    intros _ s1 ->. apply wp_bind, wp_bind, (wp_get_entry i e1); [done|by eapply set_entry_lookup|]. apply wp_bind. rewrite He1.
    eapply wp_lift; [unfold int; rewrite decide_True; [done|]|].
    { destruct Hwf as [Hr|?]; [rewrite Hr in Hfe; cbn in Hfe; lia|]. unfold is_i32. lia. }
    apply (wp_upd_entry i _ e1); [done|by eapply set_entry_lookup|]. rewrite set_entry_twice.
    change (with_times_opened (times_opened e + 1) e1) with (opened_entry f parent folder e). set (e2 := opened_entry f parent folder e) in *.
    assert (Hlook : open_files (sv_sfs (set_entry i e2 (set_locks y s))) !! Z.to_nat i = Some e2) by (by eapply set_entry_lookup).
    apply wp_bind, wp_bind, (wp_get_entry i e2); [done|done|]. rewrite Hdl, Hdel, Hfe, Hp1. cbn [Z.eqb]. apply wp_bind.
    eapply wp_mono.
    { apply (_delete_from_dirtree_run f parent); [|done|done|done]. destruct (mo_vol _ Hm) as [[] ?]. split; [by split|done]. }
    intros _ s2 ((Hv2 & Hl2 & Hpool2 & Ht2 & Hd2 & Hx2 & Hr2) & Hof2 & Hwo). apply (wp_upd_entry i _ e2); [done|by rewrite Hof2|]. apply wp_ret.
    split; [done|]. exists e. split; [done|]. split; [destruct Hv2 as [[] ?]; split; [by split|done]|]. split.
    { split; [unfold same_but_files, same_sfs in *; cbn in *; congruence|done]. }
    split; [|done]. cbn [set_entry sv_sfs with_open_files open_files]. rewrite Hof2. cbn. by rewrite list_insert_insert_eq. }
  intros r [t d x y p] [Hy Hr]. cbn [sv_locks sv_sfs sv_disk sv_sems sv_pool] in *. destruct r as [i|].
  - destruct Hr as (e & Hslot & Hv & Hup & Hof & Hwo). pose proof Hslot as (Hi & He & _). destruct (Hslots i e Hslot) as (Hmax & Hdel & Hpar).
    destruct (opened_wf _ f parent folder i e (mo_table _ Hm) Hslot Hf Hmax) as (Hwf & Hfe & Htw & Hto & Hil & Hic & Hdl).
    set (e2 := opened_entry f parent folder e) in *.
    assert (Hm1 : mounted (mk_svol t d x y p)).
    { pose proof (mo_locks _ Hm) as Hl. pose proof (locks_ok_entry _ i e (with_is_deleted 1 e2) Hl He Hil Hic) as Hl1.
      pose proof (locks_ok_same _ y Hl1 Hy) as [Hl2 Hl3 Hl4]. destruct Hup as (Ht & _). injection Ht as _ _ _ Hol _. split.
      - destruct Hv as [[] ?]. split; [by split|done].
      - cbn. rewrite Hof. eapply table_wf_set; [apply Hm|done|right; destruct Hwf as [Hr|?]; [rewrite Hr in Hfe; cbn in Hfe; lia|done]|].
        change (fileid (with_is_deleted 1 e2)) with (fileid e2). rewrite Hfe. destruct (slot_wf _ _ _ _ Hslot Hf) as [?|[_ ?]]; [by left|by right; right].
      - split; cbn in *; [done|by rewrite Hol|by rewrite Hof]. }
    by apply (proj1 (HQ _ Hm1) i e).
  - destruct Hr as (Hno & [= -> -> -> ->]). apply (HQ _ (mounted_locks s y Hm Hy)); done.
Qed.

Lemma owned_same_outside d d' f folder l : same_outside l d d' -> f ∉ l -> owned_blocks d' f folder = owned_blocks d f folder.
Proof. intros (_ & _ & Hc & _) Hf. unfold owned_blocks. destruct (folder =? 0); [|done]. by rewrite Hc. Qed.

Lemma same_outside_mono l l' d d' : l ⊆ l' -> same_outside l d d' -> same_outside l' d d'.
Proof. intros Hl (H1 & H2 & H3 & H4). split; [done|]. split; [done|]. split; [|done]. intros c Hc. apply H3. set_solver. Qed.

Lemma same_outside_two a b d d' d'' : same_outside [a] d d' -> same_outside [b] d' d'' -> same_outside [a; b] d d''.
Proof. intros H1 H2. eapply same_outside_trans; (eapply same_outside_mono; [|done]); set_solver. Qed.

(** What removing [f] from the directory [parent] comes to: the name is gone,
    and the blocks as well unless the file is open. *)
Definition removed (f parent folder : Z) s s' : Prop :=
  mounted s' /\ reliable (sv_disk s') /\ same_but_files (sv_sfs s) (sv_sfs s') /\ without f (contents (sv_disk s) parent) (contents (sv_disk s') parent) /\
  exists i e, slot_for (open_files (sv_sfs s)) f i e /\
    if decide (times_opened e = 0) then
      same_outside [parent; SFS_ALLOCATION_BLOCK] (sv_disk s) (sv_disk s') /\
      freed (words_of (contents (sv_disk s) SFS_ALLOCATION_BLOCK)) (words_of (contents (sv_disk s') SFS_ALLOCATION_BLOCK))
        (owned_blocks (sv_disk s) f folder) /\
      (open_files (sv_sfs s') = open_files (sv_sfs s) \/ open_files (sv_sfs s') = orphaned f (open_files (sv_sfs s)))
    else
      same_outside [parent] (sv_disk s) (sv_disk s') /\
      open_files (sv_sfs s') = <[Z.to_nat i := with_is_deleted 1 e]> (open_files (sv_sfs s)).

(** A file that can be removed: it is not the root, its directory and its
    blocks are blocks of the volume, and where it is open the table knows it
    as it is. *)
Record removable s (f parent folder : Z) : Prop := {
  rm_blocks : deletable s f folder;
  rm_parent : 1 < parent < total_blocks (sv_disk s);
  rm_self : f <> parent;
  rm_dir : dir_ok (contents (sv_disk s) parent);
  rm_slot i e : slot_for (open_files (sv_sfs s)) f i e -> times_opened e < 2147483647 /\ is_deleted e = 0 /\
    (fileid e = f -> parentid e = parent /\ is_folder e = folder)
}.

Lemma remove_entered_run f parent folder i e s s1 :
  mounted s -> removable s f parent folder -> slot_for (open_files (sv_sfs s)) f i e -> mounted s1 -> updated [parent] s s1 ->
  open_files (sv_sfs s1) = <[Z.to_nat i := with_is_deleted 1 (opened_entry f parent folder e)]> (open_files (sv_sfs s)) ->
  without f (contents (sv_disk s) parent) (contents (sv_disk s1) parent) ->
  wp (sfs_exit i 1) (fun _ => removed f parent folder s) s1.
Proof.
  intros Hm Hr Hslot Hm1 (Ht1 & Hp1 & Hd1 & Hx1 & Hr1) Hof1 Hwo. pose proof Hslot as (Hi & He & _).
  destruct (rm_slot _ _ _ _ Hr i e Hslot) as (Hmax & Hdel & Hfile). destruct (rm_blocks _ _ _ _ Hr) as [Hf Hown].
  pose proof (rm_self _ _ _ _ Hr) as Hself. pose proof (rm_parent _ _ _ _ Hr) as Hpar.
  destruct (opened_wf _ f parent folder i e (mo_table _ Hm) Hslot ltac:(lia) Hmax) as (Hwf & Hfe & _ & Hto & _ & _ & _).
  set (e2 := with_is_deleted 1 (opened_entry f parent folder e)) in *. assert (Hlt := lookup_lt_Some _ _ _ He).
  assert (Hfolder : is_folder e2 = folder).
  { unfold e2, opened_entry. destruct (slot_wf _ _ _ _ Hslot ltac:(lia)) as [Hs|[-> _]]; [|done].
    rewrite (proj2 (Z.eqb_neq (fileid e) (-1))) by lia. by apply Hfile. }
  assert (Howned : owned_blocks (sv_disk s1) f folder = owned_blocks (sv_disk s) f folder).
  { eapply owned_same_outside; [done|]. intros ->%list_elem_of_singleton. done. }
  assert (Halloc : contents (sv_disk s1) SFS_ALLOCATION_BLOCK = contents (sv_disk s) SFS_ALLOCATION_BLOCK).
  { apply Hd1. intros Hin%list_elem_of_singleton. unfold SFS_ALLOCATION_BLOCK in Hin. lia. }
  assert (Htv : totalvblocks (sv_sfs s1) = totalvblocks (sv_sfs s)) by (by injection Ht1 as _ -> _ _ _).
  eapply wp_mono.
  { apply (exit_close_run i e2); [done|done|done|rewrite Hof1; by apply list_lookup_insert_eq|change (fileid e2) with (fileid (opened_entry f parent folder e)); lia|].
    intros _ _. change (fileid e2) with (fileid (opened_entry f parent folder e)). rewrite Hfe, Hfolder. unfold deletable. rewrite Howned, Htv. exact (conj Hf Hown). }
  intros [] s2. unfold closed_once. change (times_opened e2) with (times_opened (opened_entry f parent folder e)). rewrite Hto.
  destruct (decide (times_opened e + 1 = 1)) as [H1|H1]; intros Hclosed.
  - destruct Hclosed as (Hm2 & Ht2 & _ & _ & Hr2 & (l & Hl & Hof2) & Hd2). change (is_deleted e2 =? 0) with false in Hd2.
    change (fileid e2) with (fileid (opened_entry f parent folder e)) in *. rewrite Hfe, Hfolder, Howned, Halloc in *. destruct Hd2 as [Hd2 Hfr].
    split; [done|]. split; [done|]. split; [by eapply same_but_files_trans|]. split.
    { destruct Hd2 as (_ & _ & -> & _); [done|]. intros Hin%list_elem_of_singleton. unfold SFS_ALLOCATION_BLOCK in Hin. lia. }
    exists i, e. split; [done|]. rewrite decide_True by lia. split.
    { by eapply same_outside_two. }
    split; [done|]. assert (Hreset : e = sfs_reset_entry e).
    { pose proof (tw_entries _ (mo_table _ Hm)) as Hw. rewrite Forall_lookup in Hw. destruct (Hw _ _ He) as [?|(_ & ? & _)]; [done|lia]. }
    assert (sfs_reset_entry e2 = e) as Hre.
    { rewrite Hreset. unfold e2, opened_entry. by destruct (fileid e =? -1). }
    rewrite Hre, Hof1 in *. destruct Hl as [->| ->].
    + left. by rewrite Hof2, list_insert_insert_eq, list_insert_id.
    + right. rewrite Hof2. unfold orphaned at 1. rewrite list_fmap_insert, list_insert_insert_eq. fold (orphaned f (open_files (sv_sfs s))).
      apply list_insert_id. unfold orphaned. rewrite list_lookup_fmap, He. cbn [fmap option_fmap option_map].
      assert (parentid e = -1) as -> by (by rewrite Hreset). by rewrite (proj2 (Z.eqb_neq (-1) f)) by lia.
  - destruct Hclosed as (Hm2 & Hd2 & Hof2). split; [done|]. rewrite Hd2. split; [done|].
    split; [rewrite Hof2; clear -Ht1; unfold same_but_files, same_sfs in *; cbn in *; congruence|]. split; [done|]. exists i, e. split; [done|].
    rewrite decide_False by lia. split; [done|]. rewrite Hof2. cbn [with_open_files open_files]. rewrite Hof1, list_insert_insert_eq. f_equal.
    replace (times_opened e + 1 - 1) with (times_opened e) by lia. unfold e2, opened_entry.
    assert ((fileid e =? -1) = false) as ->; [|by destruct e]. apply Z.eqb_neq. intros Hfree.
    pose proof (tw_entries _ (mo_table _ Hm)) as Hw. rewrite Forall_lookup in Hw. destruct (Hw _ _ He) as [Hre|(? & _)]; [|lia].
    apply H1. rewrite Hre. reflexivity.
Qed.

Lemma cstr_all_bytes l p : cstr l = Some p -> Forall is_byte l -> Forall is_byte p.
Proof. intros (_ & rest & ->)%cstr_inv. by intros [? _]%Forall_app. Qed.

Lemma sfs_remove_run s path p stack :
  mounted s -> reliable (sv_disk s) -> cstr path = Some p -> Forall is_byte path -> is_buffer SFS_FILENAME_MAX stack -> valid_path p ->
  resolvable (sv_disk s) p ->
  (forall f parent, resolve (sv_disk s) p = Found f parent -> 0 <= f /\ (p <> [47] -> removable s f parent (folder_flag p))) ->
  wp (sfs_remove path stack) (fun r s' =>
    match resolve (sv_disk s) p with
    | Found f parent =>
        if decide (p = [47]) then r = VFS_NOT_FOUND /\ same_disk (sv_disk s) (sv_disk s')
        else (r = VFS_OK /\ removed f parent (folder_flag p) s s') \/
             ((forall i e, ~ slot_for (open_files (sv_sfs s)) f i e) /\ r = VFS_ERROR /\ same_disk (sv_disk s) (sv_disk s'))
    | Missing _ _ => r = VFS_NOT_FOUND /\ same_disk (sv_disk s) (sv_disk s')
    end) s.
Proof.
  intros Hm Hrel Hp Hpath Hst Hvalid Hres Hrm. pose proof (cstr_all_bytes _ _ Hp Hpath) as Hb. unfold sfs_remove. apply wp_bind, (resolve_run s path p); try done.
  intros s1 Hm1 Hs1 Hl1 Hp1 [Hd1 Hx1]. cbn [fst snd] in *. assert (Hof : open_files (sv_sfs s1) = open_files (sv_sfs s)) by (by injection Hs1 as _ _ _ -> _ _).
  destruct (resolve (sv_disk s) p) as [f parent|parent last'] eqn:Er.
  2: { cbn [Z.eqb VFS_ERROR Pos.eqb]. apply wp_bind, wp_ret. cbn [orb]. by apply wp_ret. }
  destruct (Hrm f parent eq_refl) as [Hf Hrem]. assert ((f =? VFS_ERROR) = false) as -> by (unfold VFS_ERROR; apply Z.eqb_neq; lia).
  destruct (stringcmp_run path [47; 0] p [47]) as (c & Hc & _ & H0 & _); [done|repeat constructor; unfold is_byte; lia|done|done|].
  apply wp_bind. eapply wp_lift; [exact Hc|]. cbn [orb]. case_decide as Hroot.
  { rewrite (proj2 H0 Hroot). cbn [Z.eqb]. by apply wp_ret. }
  rewrite (proj2 (Z.eqb_neq c 0)) by tauto. specialize (Hrem Hroot). pose proof Hrem as [[Hfr Hown] Hpar Hself Hdir Hslot].
  apply wp_bind, wp_ret, wp_bind. eapply wp_lift; [by apply sfs_is_folder_run|]. apply wp_bind.
  pose proof Hd1 as (_ & Htb1 & Hc1 & Hr1).
  assert (Hrem1 : removable s1 f parent (folder_flag p)).
  { split; [|by rewrite Htb1|done|by rewrite Hc1|by rewrite Hof]. unfold deletable, owned_blocks in *. rewrite Hc1. injection Hs1 as _ -> _ _ _ _. done. }
  apply enter_mark_run; [done|by apply Hr1|done|rewrite Htb1; lia|by rewrite Hc1|intros i e Hs|].
  { destruct (rm_slot _ _ _ _ Hrem1 i e Hs) as (? & ? & Hfe). split; [done|]. split; [done|]. intros ?. by apply Hfe. }
  intros s2 Hm2. split.
  - intros i e Hsl Hup Hof2 Hwo. apply wp_bind. eapply wp_mono; [by apply (remove_entered_run f parent (folder_flag p) i e s1 s2)|].
    intros [] s3 (Hm3 & Hr3 & Ht3 & Hwo3 & i' & e' & Hsl' & Hcase). apply wp_ret. left. split; [done|]. split; [done|]. split; [done|].
    split; [eapply same_but_files_trans; [by apply same_files|done]|]. rewrite Hc1 in Hwo3. split; [done|]. exists i', e'. rewrite Hof in *. split; [done|]. unfold owned_blocks in *. rewrite !Hc1 in Hcase.
    case_decide; destruct Hcase as [Hd3 Hrest]; (split; [|done]); (eapply same_outside_trans; [by apply same_disk_is_outside|done]).
  - intros Hno [_ Hd2]. apply wp_ret. right. rewrite <- Hof. split; [done|]. split; [done|]. by rewrite Hd2.
Qed.
End ops.
