(* ===== verification/SfsTheorems.v ===== *)
(** * What the student filesystem guarantees

    The operations of fs/sfs.c on a mounted volume that no other thread uses at
    the time: paths, reading and writing, opening, closing and removing.  What
    readers and writers of one file do to each other is in [SfsSync.v]. *)
From S2P Require Import Prelude Bitmap Libc Cpu Kmalloc Pagepool Thread Scheduler Waiting Sleepq Semaphore LockCond Gbd Sync ThreadSys Kthreads Bytes Tfs Sfs SfsVol SfsPath SfsFile SfsTable SfsRemove SfsOps.

Section theorems.
Context {D S L : Type} `{!BlockDevice D, !Semaphores S, !HasCpu L, !ThreadSys L, !LoneLocks L, !Symbols}.
Abbreviation volume := (svol D S L).
Implicit Types (d : D) (s : volume).

(** ** Lemmas *)

(** A file whose blocks are not written is as it was. *)
Lemma file_outside l d d' f :
  same_outside l d d' -> f ∉ l -> (forall b, b ∈ file_blocks d f -> b ∉ l) ->
  file_size d' f = file_size d f /\ file_bytes d' f = file_bytes d f /\ forall total, file_ok total d f -> file_ok total d' f.
Proof.
  intros (_ & _ & Hc & _) Hf Hb. pose proof (Hc f Hf) as Hino. pose proof (file_blocks_same _ _ _ Hino) as Hbl.
  assert (Hs : file_size d' f = file_size d f) by (unfold file_size; by rewrite Hino). split; [done|]. split.
  - unfold file_bytes, file_data. rewrite Hbl, Hs. do 2 f_equal. apply list_fmap_ext. intros i b Hi. apply Hc, Hb. by eapply list_elem_of_lookup_2.
  - intros total [H1 H2 H3 H4]. split; [done|by rewrite Hs|by rewrite Hbl|by rewrite Hbl].
Qed.
Lemma read_answer_same d d' f buffer n offset :
  file_size d' f = file_size d f -> file_bytes d' f = file_bytes d f -> read_answer d' f buffer n offset = read_answer d f buffer n offset.
Proof. unfold read_answer. by intros -> ->. Qed.

Lemma on_device_mounted s s' :
  mounted s -> on_device s s' -> same_dev (sv_disk s, sv_sems s) (sv_disk s', sv_sems s') -> mounted s'.
Proof.
  intros Hm Hon Hd. eapply mounted_on_device; [done|done|]. destruct Hon as (d & x & y & -> & _). cbn in *.
  pose proof Hd as [(_ & Htb & _) [_ Hs]]. cbn [fst snd] in *. destruct (mo_vol _ Hm) as [[H1 H2 H3 H4 H5 H6] H7].
  apply (vol_dev (set_locks y s)); [split; [by split|done]|by eapply same_dev_ok|cbn; by rewrite Htb|by rewrite <- H7].
Qed.
Lemma on_device_table s s' : on_device s s' -> sv_sfs s' = sv_sfs s.
Proof. by intros (d & x & y & -> & _). Qed.

Lemma slot_of_entry l f i e : table_wf l -> entry_of l f i e -> slot_for l f i e.
Proof. intros Ht He. pose proof (find_entry_of _ _ _ _ Ht He). destruct He as (? & ? & _). by split. Qed.
Lemma slot_unique l f i e i' e' : slot_for l f i e -> slot_for l f i' e' -> i' = i /\ e' = e.
Proof. intros (_ & H1 & H2) (_ & H3 & H4). assert (i' = i) as -> by congruence. split; [done|congruence]. Qed.

(** Reading and writing leave the volume ready for the next operation. *)
Lemma sfs_read_mounted s f e buffer bufsize offset inode bat :
  mounted s -> open_file s f e -> zlen inode = 512 -> zlen bat = 512 -> 0 <= bufsize <= zlen buffer ->
  wp (sfs_read f buffer bufsize offset inode bat) (fun a s' => mounted s' /\ sv_sfs s' = sv_sfs s /\
    same_dev (sv_disk s, sv_sems s) (sv_disk s', sv_sems s') /\
    ((a.1 = VFS_ERROR /\ ~ reliable (sv_disk s)) \/ a = read_answer (sv_disk s) f buffer bufsize offset)) s.
Proof.
  intros Hm Hf Hi Hb Hn. eapply wp_mono; [by apply (sfs_read_run s f e)|]. intros a s' (Hon & Hd & Ha).
  split; [by eapply on_device_mounted|]. split; [by apply on_device_table|done].
Qed.
Lemma sfs_write_mounted s f e buffer datasize offset inode bat :
  mounted s -> open_file s f e -> zlen inode = 512 -> is_buffer 512 bat -> 0 <= datasize <= zlen buffer -> Forall is_byte buffer ->
  wp (sfs_write f buffer datasize offset inode bat) (fun r s' => sv_sfs s' = sv_sfs s /\
    same_outside (file_blocks (sv_disk s) f) (sv_disk s) (sv_disk s') /\
    (reliable (sv_disk s) -> mounted s' /\ same_sems (sv_sems s) (sv_sems s')) /\
    ((r = VFS_ERROR /\ ~ reliable (sv_disk s)) \/ write_answer (sv_disk s) (sv_disk s') f buffer datasize offset r)) s.
Proof.
  intros Hm Hf Hi Hb Hn Hby. eapply wp_mono; [by apply (sfs_write_run s f e)|]. intros r s' (Hon & [Hout Hsems] & Hr).
  cbn [fst snd] in *. split; [by apply on_device_table|]. split; [done|]. split; [|done].
  intros Hrel. destruct (Hsems) as [_ Hsame]. specialize (Hsame Hrel). split; [|done].
  eapply mounted_on_device; [done|done|]. destruct Hon as (d & x & y & -> & _). cbn in *.
  destruct (mo_vol _ Hm) as [[H1 H2 H3 H4 H5 H6] H7]. pose proof Hout as (_ & Htb & _).
  apply (vol_dev (set_locks y s)); [split; [by split|done]|by eapply (dev_outside_ok _ (sv_disk s, sv_sems s))|cbn; by rewrite Htb|].
  destruct Hsame as [_ Hsame]. by rewrite <- H7.
Qed.

(** The open file [f] has been removed. *)
Definition unlinked (f parent i : Z) (e : sfs_openfile_t) s s1 : Prop :=
  mounted s1 /\ reliable (sv_disk s1) /\ same_but_files (sv_sfs s) (sv_sfs s1) /\
  without f (contents (sv_disk s) parent) (contents (sv_disk s1) parent) /\ same_outside [parent] (sv_disk s) (sv_disk s1) /\
  open_files (sv_sfs s1) = <[Z.to_nat i := with_is_deleted 1 e]> (open_files (sv_sfs s)).
Lemma unlinked_entry f parent i e s s1 :
  unlinked f parent i e s s1 -> entry_of (open_files (sv_sfs s)) f i e -> entry_of (open_files (sv_sfs s1)) f i (with_is_deleted 1 e).
Proof.
  intros (_ & _ & _ & _ & _ & ->) (Hi & Hlook & Hfe & Hne). split; [done|]. split; [|done].
  apply list_lookup_insert_eq. by eapply lookup_lt_Some.
Qed.
Lemma remove_open_run s path p stack f parent i e :
  mounted s -> reliable (sv_disk s) -> cstr path = Some p -> Forall is_byte path -> is_buffer SFS_FILENAME_MAX stack -> valid_path p ->
  resolvable (sv_disk s) p -> resolve (sv_disk s) p = Found f parent -> p <> [47] -> removable s f parent (folder_flag p) ->
  entry_of (open_files (sv_sfs s)) f i e -> times_opened e = 1 ->
  wp (sfs_remove path stack) (fun r s1 => r = VFS_OK /\ unlinked f parent i e s s1) s.
Proof.
  intros Hm Hrel Hp Hb Hst Hv Hres Hw Hroot Hrm He Hto. pose proof (slot_of_entry _ _ _ _ (mo_table _ Hm) He) as Hslot.
  eapply wp_mono; [apply (sfs_remove_run s path p stack); try done|].
  { rewrite Hw. intros ? ? [= <- <-]. split; [apply (rm_blocks _ _ _ _ Hrm)|done]. }
  intros r1 s1. rewrite Hw, decide_False by done. intros [[-> Hd1]|(Hno & _)]; [|by destruct (Hno i e)].
  destruct Hd1 as (Hm1 & Hr1 & Ht1 & Hwo & i' & e' & Hslot' & Hcase). destruct (slot_unique _ _ _ _ _ _ Hslot Hslot') as [-> ->].
  rewrite decide_False in Hcase by lia. destruct Hcase as [Hout Hof1]. split; [done|]. by repeat (split; [done|]).
Qed.
Lemma close_unlinked_run s f parent i e s1 s2 :
  unlinked f parent i e s s1 -> removable s f parent 0 -> entry_of (open_files (sv_sfs s)) f i e -> times_opened e = 1 -> is_folder e = 0 ->
  mounted s2 -> sv_sfs s2 = sv_sfs s1 -> same_disk (sv_disk s1) (sv_disk s2) ->
  wp (sfs_close f) (fun r s3 => r = VFS_OK /\ mounted s3 /\
    without f (contents (sv_disk s) parent) (contents (sv_disk s3) parent) /\
    freed (words_of (contents (sv_disk s) SFS_ALLOCATION_BLOCK)) (words_of (contents (sv_disk s3) SFS_ALLOCATION_BLOCK))
      (owned_blocks (sv_disk s) f 0) /\
    open_files (sv_sfs s3) !! Z.to_nat i = Some (sfs_reset_entry e)) s2.
Proof.
  intros Hun Hrm He Hto Hfold Hm2 Ht2 (_ & _ & Hc2 & Hr2). pose proof (unlinked_entry _ _ _ _ _ _ Hun He) as He1.
  destruct Hun as (Hm1 & Hr1 & Ht1 & Hwo & (_ & _ & Hc1 & _) & Hof1). destruct Hrm as [[Hf Hown] Hpar Hself _ _]. unfold SFS_ALLOCATION_BLOCK in *.
  assert (Hcf : contents (sv_disk s2) f = contents (sv_disk s) f) by (rewrite Hc2; apply Hc1; by rewrite list_elem_of_singleton).
  assert (Hca : contents (sv_disk s2) 1 = contents (sv_disk s) 1) by (rewrite Hc2; apply Hc1; rewrite list_elem_of_singleton; lia).
  assert (Howned : owned_blocks (sv_disk s2) f 0 = owned_blocks (sv_disk s) f 0) by (unfold owned_blocks; by rewrite Hcf).
  assert (Hone : forall i' e', entry_of (open_files (sv_sfs s2)) f i' e' -> i' = i /\ e' = with_is_deleted 1 e).
  { rewrite Ht2. intros i' e' He'. eapply slot_unique; (eapply slot_of_entry; [apply Hm1|done]). }
  eapply wp_mono; [apply (sfs_close_run s2 f); [done|by apply Hr2|lia|]|].
  { intros i' e' [_ ->]%Hone _ _. cbn [is_folder with_is_deleted]. rewrite Hfold. unfold deletable. rewrite Howned, Ht2.
    injection Ht1 as _ -> _ _ _. by split. }
  intros r s3 [(_ & Hno & _)|(-> & i' & e' & He' & Hcl)]; [exfalso; apply (Hno i (with_is_deleted 1 e)); by rewrite Ht2|].
  apply Hone in He' as [-> ->]. unfold closed_once in Hcl. cbn [times_opened with_is_deleted] in Hcl. rewrite decide_True in Hcl by done.
  destruct Hcl as (Hm3 & _ & _ & _ & _ & (l & Hl & Hof3) & Hd3 & Hfr). cbn [is_folder fileid with_is_deleted Z.eqb] in *.
  destruct He as (Hi & Hlook & Hfe & Hne). rewrite Hfe, Hfold, Howned in *. unfold SFS_ALLOCATION_BLOCK in *. rewrite Hca in Hfr.
  split; [done|]. split; [done|]. split; [|split; [done|]].
  - destruct Hd3 as (_ & _ & -> & _); [by rewrite Hc2|]. rewrite list_elem_of_singleton. lia.
  - rewrite Hof3. change (sfs_reset_entry (with_is_deleted 1 e)) with (sfs_reset_entry e). apply list_lookup_insert_eq.
    pose proof (lookup_lt_Some _ _ _ Hlook). rewrite Ht2, Hof1 in Hl.
    destruct Hl as [->| ->]; [|unfold orphaned; rewrite length_fmap]; by rewrite length_insert.
Qed.

(** ** Theorems *)

(** The test of a path is equivalent to its grammar: '/' and then
    elements of at most 15 of the characters allowed, of which those before the
    last end in '/'; and it stays inside the string. *)
Theorem sfs_is_valid_path_correct path p :
  cstr path = Some p -> exists b, sfs_is_valid_path path = Ret b /\ (b = true <-> valid_path p).
Proof. apply sfs_is_valid_path_run. Qed.

(** Claim C22. Resolving a path is equivalent to the walk that looks up each of
    its elements in the directory the walk has come to: the inode, or what is
    missing, with the directory where the walk ended; a path that is not valid is
    refused.  The elements fit the buffer on the stack, nothing is written, and
    the semaphores are as they were, although every block that is read takes a
    new one. *)
Theorem sfs_resolve_correct s path p stack want :
  vol_ok s -> cstr path = Some p -> Forall is_byte p -> is_buffer SFS_FILENAME_MAX stack -> resolvable (sv_disk s) p ->
  wp (sfs_resolve_file_ext path stack want) (fun a s' => vol_ok s' /\
    same_dev (sv_disk s, sv_sems s) (sv_disk s', sv_sems s') /\ open_files (sv_sfs s') = open_files (sv_sfs s) /\
    ((~ valid_path p /\ a = (VFS_ERROR, None, None)) \/
     (valid_path p /\ exists b parent e, a = (b, Some parent, e) /\
        ((b = VFS_ERROR /\ e = None /\ ~ reliable (sv_disk s)) \/ (b, parent, e) = walk_answer want (resolve (sv_disk s) p))))) s.
Proof.
  intros Hv Hp Hb Hst Hres. eapply wp_mono; [by apply (sfs_resolve_file_ext_run s path p stack want)|].
  intros a s' (Hv' & Ht & _ & _ & Hd & Ha). split; [done|]. split; [done|]. split; [by injection Ht as _ _ _ -> _ _|done].
Qed.

(** [sfs_read] gives exactly the bytes of the open file from the
    offset on, at most [bufsize] of them, wherever its blocks lie; an offset
    outside the file is an error, and so may be any read from a device that
    fails.  It leaves the volume as it was, ready for the next operation. *)
Theorem sfs_read_correct s f e buffer bufsize offset inode bat :
  mounted s -> open_file s f e -> zlen inode = 512 -> zlen bat = 512 -> 0 <= bufsize <= zlen buffer ->
  wp (sfs_read f buffer bufsize offset inode bat) (fun a s' => mounted s' /\ sv_sfs s' = sv_sfs s /\
    same_dev (sv_disk s, sv_sems s) (sv_disk s', sv_sems s') /\
    ((a.1 = VFS_ERROR /\ ~ reliable (sv_disk s)) \/ a = read_answer (sv_disk s) f buffer bufsize offset)) s.
Proof. apply sfs_read_mounted. Qed.

(** Writing a block either stores it, or answers 0 and leaves the
    semaphore of the request behind: every write that the device refuses leaves
    the system one semaphore less. *)
Theorem write_vblock_correct (v : D * S) b buf :
  dev_ok v -> 0 <= b < total_blocks v.1 -> is_buffer 512 buf ->
  wp (write_vblock b buf) (fun r v' => same_outside [b] v.1 v'.1 /\ (reliable v.1 -> r <> 0) /\
    if r =? 0 then one_more_sem v.2 v'.2 else contents v'.1 b = buf /\ same_sems v.2 v'.2) v.
Proof. apply write_vblock_run. Qed.

(** [sfs_write] replaces exactly the bytes of the open file from the
    offset on that it answers, and writes no block but those of the file; on a
    device that works it leaves the volume ready for the next operation. *)
Theorem sfs_write_correct s f e buffer datasize offset inode bat :
  mounted s -> open_file s f e -> zlen inode = 512 -> is_buffer 512 bat -> 0 <= datasize <= zlen buffer -> Forall is_byte buffer ->
  wp (sfs_write f buffer datasize offset inode bat) (fun r s' => sv_sfs s' = sv_sfs s /\
    same_outside (file_blocks (sv_disk s) f) (sv_disk s) (sv_disk s') /\
    (reliable (sv_disk s) -> mounted s' /\ same_sems (sv_sems s) (sv_sems s')) /\
    ((r = VFS_ERROR /\ ~ reliable (sv_disk s)) \/ write_answer (sv_disk s) (sv_disk s') f buffer datasize offset r)) s.
Proof. apply sfs_write_mounted. Qed.

(** Claim C20. Reading an open file back at the offset of a write gives the
    bytes written, on a device that works. *)
Theorem sfs_write_read s f e data buffer n offset inode bat inode' bat' :
  mounted s -> open_file s f e -> reliable (sv_disk s) -> zlen inode = 512 -> is_buffer 512 bat -> zlen inode' = 512 -> zlen bat' = 512 ->
  Forall is_byte data -> 0 <= n <= zlen data -> n <= zlen buffer -> 0 <= offset -> offset + n <= file_size (sv_disk s) f ->
  wp (w ← sfs_write f data n offset inode bat; '(r, buffer') ← sfs_read f buffer n offset inode' bat'; mret (w, r, buffer'))
    (fun a s' => mounted s' /\ a = (n, n, splice buffer 0 (take (Z.to_nat n) data))) s.
Proof.
  intros Hm Hf Hrel Hi Hb Hi' Hb' Hby Hn Hbuf Ho Hend. pose proof (of_file _ _ _ Hf) as Hok. pose proof (fo_size _ _ _ Hok) as Hsize.
  apply wp_bind. eapply wp_mono; [by apply (sfs_write_mounted s f e)|]. intros w s1 (Ht1 & Hout & Hm1 & [[_ Hbad]|Hw]); [done|].
  destruct (Hm1 Hrel) as [Hmo1 _]. destruct (outside_file _ _ _ _ Hok Hout) as (_ & _ & Hf1 & Hsz & _).
  assert (Hrange : (offset <? 0) || (offset >? file_size (sv_disk s) f) = false).
  { destruct (Z.ltb_spec offset 0), (Z.gtb_spec offset (file_size (sv_disk s) f)); cbn; lia. }
  unfold write_answer in Hw. rewrite Hrange in Hw. destruct Hw as [-> Hbytes]. rewrite Z.min_l in * by lia.
  apply wp_bind. eapply wp_mono; [apply (sfs_read_mounted s1 f e buffer n offset); [done| |done|done|lia]|].
  { destruct Hf as [He Hd _]. split; [by rewrite Ht1|done|by rewrite Ht1]. }
  intros [r b] s2 (Hm2 & _ & _ & [[_ Hbad]|Ha]); [destruct Hout as (_ & _ & _ & Hk); by destruct Hbad; apply Hk|].
  apply wp_ret. split; [done|]. unfold read_answer in Ha. rewrite Hsz, Hrange, Z.min_l in Ha by lia. injection Ha as -> ->.
  f_equal. f_equal. rewrite Hbytes. assert (Hl : length (take (Z.to_nat n) data) = Z.to_nat n) by (rewrite length_take; lia).
  rewrite <- Hl at 2. apply slice_splice_eq. rewrite Hl. unfold file_bytes. rewrite length_take.
  pose proof (vo_body _ (mo_vol _ Hm)) as Hv. rewrite (length_file_data _ _ f Hok (do_size _ (bo_dev _ _ Hv)) (bo_disk _ _ Hv)).
  destruct (num_blocks_bound (sv_disk s) f Hsize) as [[_ Hnb] _]. lia.
Qed.

(** Opening a path gives the inode that the walk finds, and counts
    the file as open once more in its entry of the table, or in a free one; it
    answers [VFS_NOT_FOUND] when there is no such file, or when the file is
    removed and only waits to be closed, and [VFS_ERROR] when no entry is free. *)
Theorem sfs_open_correct s path p stack :
  mounted s -> reliable (sv_disk s) -> cstr path = Some p -> Forall is_byte p -> is_buffer SFS_FILENAME_MAX stack -> valid_path p ->
  resolvable (sv_disk s) p -> Forall (fun e => times_opened e < 2147483647) (open_files (sv_sfs s)) ->
  (forall f parent, resolve (sv_disk s) p = Found f parent -> 0 <= f) ->
  wp (sfs_open path stack) (fun r s' => mounted s' /\ same_dev (sv_disk s, sv_sems s) (sv_disk s', sv_sems s') /\
    match resolve (sv_disk s) p with
    | Found f parent => open_answer (open_files (sv_sfs s)) (open_files (sv_sfs s')) f parent (folder_flag p) r
    | Missing _ _ => r = VFS_NOT_FOUND /\ open_files (sv_sfs s') = open_files (sv_sfs s)
    end) s.
Proof. apply sfs_open_run. Qed.

(** Claim C19. A file that is removed while it is open, once, on a device
    without errors: [d], the disk right after the removal, differs from the
    disk before in the block of its directory only, in which its name is gone
    and every other name is left, so that its blocks are still allocated; a
    read through the handle then gives the bytes the file had; and closing the
    handle frees its inode and its blocks in the allocation bitmap, and no
    others, and its entry of the table. *)
Theorem sfs_remove_while_open s path p stack f parent i e buffer n offset inode bat :
  mounted s -> reliable (sv_disk s) -> cstr path = Some p -> Forall is_byte path -> is_buffer SFS_FILENAME_MAX stack -> valid_path p ->
  resolvable (sv_disk s) p -> resolve (sv_disk s) p = Found f parent -> p <> [47] -> folder_flag p = 0 -> removable s f parent 0 ->
  entry_of (open_files (sv_sfs s)) f i e -> times_opened e = 1 -> is_folder e = 0 -> file_ok (totalvblocks (sv_sfs s)) (sv_disk s) f ->
  parent ∉ file_blocks (sv_disk s) f -> zlen inode = 512 -> zlen bat = 512 -> 0 <= n <= zlen buffer ->
  wp (r1 ← sfs_remove path stack; d ← gets sv_disk; a ← sfs_read f buffer n offset inode bat; r2 ← sfs_close f; mret (r1, d, a, r2))
    (fun '(r1, d, a, r2) s' => mounted s' /\ r1 = VFS_OK /\ a = read_answer (sv_disk s) f buffer n offset /\ r2 = VFS_OK /\
       without f (contents (sv_disk s) parent) (contents d parent) /\ same_outside [parent] (sv_disk s) d /\
       without f (contents (sv_disk s) parent) (contents (sv_disk s') parent) /\
       freed (words_of (contents (sv_disk s) SFS_ALLOCATION_BLOCK)) (words_of (contents (sv_disk s') SFS_ALLOCATION_BLOCK))
         (owned_blocks (sv_disk s) f 0) /\
       open_files (sv_sfs s') !! Z.to_nat i = Some (sfs_reset_entry e)) s.
Proof.
  intros Hm Hrel Hp Hb Hst Hv Hres Hw Hroot Hflag Hrm He Hto Hfold Hfile Hpar Hil Hbl Hn.
  apply wp_bind. eapply wp_mono; [by apply (remove_open_run s path p stack f parent i e); rewrite ?Hflag|]. intros r1 s1 [-> Hun].
  pose proof Hun as (Hm1 & Hr1 & Ht1 & Hwo & Hout & Hof1).
  destruct (file_outside [parent] _ _ f Hout) as (Hsz & Hby & Hok).
  { rewrite list_elem_of_singleton. apply (rm_self _ _ _ _ Hrm). }
  { by intros b Hin ->%list_elem_of_singleton. }
  apply wp_bind, wp_gets.
  apply wp_bind. eapply wp_mono; [apply (sfs_read_mounted s1 f (with_is_deleted 1 e)); [done| |done|done|done]|].
  { split; [exists i; by eapply unlinked_entry|done|]. injection Ht1 as _ -> _ _ _. by apply Hok. }
  intros a s2 (Hm2 & Ht2 & [Hd2 _] & [[_ Hbad]|Ha]); [by destruct Hbad|]. rewrite (read_answer_same _ _ _ _ _ _ Hsz Hby) in Ha.
  apply wp_bind. eapply wp_mono; [by apply (close_unlinked_run s f parent i e s1 s2)|].
  intros r2 s3 (-> & Hm3 & Hwo3 & Hfr & He3). apply wp_ret. split_and!; done.
Qed.
End theorems.

(** ** A volume of eight blocks with one open file *)
#[local] Existing Instance example_symbols.
#[local] Existing Instance example_layout.

(** The device of [Tfs.v] with the same file [a] in the root directory. *)
Definition a_handle : sfs_openfile_t := mk_openfile 1 1 1 0 (-1) 3 2 0 0.
Definition an_open_table : list sfs_openfile_t :=
  a_handle :: ((fun k => mk_openfile k k 0 0 (-1) (-1) (-1) 0 0) <$> seqZ 2 31).
Definition sfs_threads : over lock_tables kernel := mk_over open_tables (two_threads 2).
Definition an_sfs : svol ramdisk (over semaphores kernel) (over lock_tables kernel) :=
  mk_svol (mk_sfs 8 8 1 (replicate 512 0) (replicate 512 0) (replicate 512 0) an_open_table 40 0x80003000)
    a_device sem_kernel sfs_threads small_pool.

Lemma sfs_threads_ok : settled sfs_threads.
Proof.
  apply open_settled; [apply two_threads_ok; by right|apply two_threads_waiting|]. split; [vm_check|]. intros a _. apply not_elem_of_empty.
Qed.
Lemma sfs_idle i : is_lock i -> idle sfs_threads i.
Proof.
  intros Hi. split.
  - apply view_free. split; [done|]. unfold sfs_threads. by rewrite open_free.
  - intros _. unfold sfs_threads. by rewrite open_free.
Qed.
Lemma an_open_table_wf : table_wf an_open_table.
Proof.
  assert (Hrest : forall i e, an_open_table !! i = Some e -> i = 0%nat /\ e = a_handle \/ fileid e = -1 /\ e = sfs_reset_entry e).
  { intros [|i] e Hi; [by injection Hi as <-; left|right]. by apply list_lookup_fmap_Some in Hi as (k & -> & _). }
  split; [reflexivity| |].
  - apply Forall_lookup. intros i e [[_ ->]|[_ He]]%Hrest; [right; cbn; lia|by left].
  - intros i j e e' [[-> ->]|[He _]]%Hrest [[-> ->]|[He' _]]%Hrest Heq Hne; [done|cbn in *; lia|cbn in *; lia|done].
Qed.
Lemma an_sfs_mounted : mounted an_sfs.
Proof.
  split; [|exact an_open_table_wf|split].
  - split; [split; [split; [done|vm_check|]|cbn; lia|cbn; lia|split; [done|by apply Forall_replicate]..]|vm_compute; reflexivity].
    split; [split; [apply sem_kernel_ok|split; [apply (caller_free_waiting (tab sem_kernel))|done]]|exists 2; vm_check].
  - exact sfs_threads_ok.
  - by apply sfs_idle.
  - apply Forall_cons. split; [by split; [apply sfs_idle|]|]. apply Forall_fmap, Forall_forall. intros k Hk%elem_of_seqZ.
    cbn. unfold is_cond, CONFIG_MAX_CONDITION_VARIABLES. split; [apply sfs_idle; unfold is_lock, CONFIG_MAX_LOCKS|]; lia.
Qed.
Lemma an_sfs_file : open_file an_sfs 3 a_handle.
Proof. split; [exists 0; by split|done|exact a_volume_file]. Qed.

Lemma sfs_is_valid_path_correct_witness : exists b, sfs_is_valid_path [47; 97; 47; 98; 0] = Ret b /\ b = true.
Proof.
  destruct (sfs_is_valid_path_correct [47; 97; 47; 98; 0] [47; 97; 47; 98] eq_refl) as (b & Hb & Hiff).
  exists b. split; [exact Hb|]. apply Hiff. exists [97; 47; 98]. split; [reflexivity|].
  change (Forall valid_elem [[97; 47]; [98]]). apply Forall_cons. split; [|apply Forall_singleton]; (split; [cbn; unfold SFS_FILENAME_MAX; lia|]).
  - exists [97]. split; [discriminate|]. split; [by apply Forall_singleton|by right].
  - exists [98]. split; [discriminate|]. split; [by apply Forall_singleton|by left].
Defined.

(** The path "/a". *)
Definition a_path : list Z := [47; 97; 0].
Definition a_stack : list Z := replicate 16 0.
Lemma a_path_valid : valid_path [47; 97].
Proof.
  exists [97]. split; [reflexivity|]. change (Forall valid_elem [[97]]). apply Forall_singleton. split; [cbn; unfold SFS_FILENAME_MAX; lia|].
  exists [97]. split; [discriminate|]. split; [by apply Forall_singleton|by left].
Qed.
Lemma a_stack_ok : is_buffer SFS_FILENAME_MAX a_stack.
Proof. split; [reflexivity|by apply Forall_replicate]. Qed.
Lemma a_path_bytes : Forall is_byte [47; 97; 0].
Proof. repeat constructor; unfold is_byte; lia. Qed.
Lemma a_root_ok : dir_ok (contents a_device 2).
Proof.
  intros k Hk. change SFS_MAX_FILES with 25 in Hk.
  assert (Hall : Forall (fun k => word (contents a_device 2) (entry_inode k) <> 0 -> k = 0) (seqZ 0 25)).
  { apply (bool_decide_unpack _). vm_compute. exact I. }
  rewrite Forall_forall in Hall. intros Hne. assert (k = 0) as -> by (apply Hall; [apply elem_of_seqZ; lia|done]).
  exists [97]. by vm_compute.
Qed.
Lemma a_path_resolvable : resolvable a_device [47; 97].
Proof. split; [vm_check|]. split; [exact a_root_ok|]. vm_compute. exact I. Qed.
Lemma a_path_resolves : resolve a_device [47; 97] = Found 3 2.
Proof. vm_compute. reflexivity. Qed.

Lemma sfs_resolve_correct_witness :
  wp (sfs_resolve_file_ext a_path a_stack false) (fun a _ => a = (3, Some 2, None)) an_sfs.
Proof.
  eapply wp_mono; [apply (sfs_resolve_correct an_sfs a_path [47; 97] a_stack false)|].
  - apply an_sfs_mounted.
  - reflexivity.
  - repeat constructor; unfold is_byte; lia.
  - exact a_stack_ok.
  - exact a_path_resolvable.
  - intros a s' (_ & _ & _ & [[Hno _]|(_ & b & parent & e & -> & [(_ & _ & Hbad)|Heq])]); [by destruct Hno; apply a_path_valid|by destruct Hbad|].
    change (sv_disk an_sfs) with a_device in Heq. rewrite a_path_resolves in Heq. by injection Heq as -> -> ->.
Defined.

Lemma sfs_read_correct_witness :
  wp (sfs_read 3 (replicate 10 0) 10 508 (replicate 512 0) (replicate 512 0)) (fun a s' => mounted s' /\
    a = (10, [1; 1; 1; 1; 2; 2; 2; 2; 2; 2])) an_sfs.
Proof.
  eapply wp_mono; [apply (sfs_read_correct an_sfs 3 a_handle (replicate 10 0) 10 508)|].
  - exact an_sfs_mounted.
  - exact an_sfs_file.
  - reflexivity.
  - reflexivity.
  - vm_check.
  - intros a s' (Hm & _ & _ & [[_ Hbad]|Ha]); [by destruct Hbad|]. split; [exact Hm|]. rewrite Ha. vm_compute. reflexivity.
Defined.

Lemma sfs_write_correct_witness :
  wp (sfs_write 3 [7; 8; 9; 10] 4 598 (replicate 512 0) (replicate 512 0)) (fun r s' => r = 2 /\
    file_bytes (sv_disk s') 3 = replicate 512 1 ++ replicate 86 2 ++ [7; 8]) an_sfs.
Proof.
  eapply wp_mono; [apply (sfs_write_correct an_sfs 3 a_handle [7; 8; 9; 10] 4 598)|].
  - exact an_sfs_mounted.
  - exact an_sfs_file.
  - reflexivity.
  - split; [reflexivity|by apply Forall_replicate].
  - vm_check.
  - repeat constructor; unfold is_byte; lia.
  - intros r s' (_ & _ & _ & [[_ Hbad]|[Hr Hb]]); [by destruct Hbad|].
    split; [rewrite Hr; vm_compute; reflexivity|rewrite Hb; vm_compute; reflexivity].
Defined.

Lemma sfs_write_read_witness :
  wp (w ← sfs_write 3 [7; 8; 9; 10] 4 510 (replicate 512 0) (replicate 512 0);
      '(r, buffer') ← sfs_read 3 [0; 0; 0; 0; 0] 4 510 (replicate 512 0) (replicate 512 0); mret (w, r, buffer'))
    (fun a _ => a = (4, 4, [7; 8; 9; 10; 0])) an_sfs.
Proof.
  eapply wp_mono; [apply (sfs_write_read an_sfs 3 a_handle [7; 8; 9; 10] [0; 0; 0; 0; 0] 4 510)|].
  - exact an_sfs_mounted.
  - exact an_sfs_file.
  - reflexivity.
  - reflexivity.
  - split; [reflexivity|by apply Forall_replicate].
  - reflexivity.
  - reflexivity.
  - repeat constructor; unfold is_byte; lia.
  - vm_check.
  - vm_check.
  - vm_check.
  - vm_check.
  - intros a s' [_ Ha]. rewrite Ha. vm_compute. reflexivity.
Defined.

Lemma sfs_open_correct_witness :
  wp (sfs_open a_path a_stack) (fun r s' => mounted s' /\ r = 3 /\
    open_files (sv_sfs s') !! 0%nat = Some (with_times_opened 2 a_handle)) an_sfs.
Proof.
  eapply wp_mono; [apply (sfs_open_correct an_sfs a_path [47; 97] a_stack)|].
  - exact an_sfs_mounted.
  - reflexivity.
  - reflexivity.
  - repeat constructor; unfold is_byte; lia.
  - exact a_stack_ok.
  - exact a_path_valid.
  - exact a_path_resolvable.
  - apply Forall_cons. split; [cbn; lia|]. apply Forall_fmap, Forall_true. intros k. cbn. lia.
  - change (sv_disk an_sfs) with a_device. rewrite a_path_resolves. intros f parent [= <- <-]. lia.
  - change (sv_disk an_sfs) with a_device. rewrite a_path_resolves. intros r s' (Hm & _ & [(i & e & Hslot & Hr)|[Hno _]]).
    + assert (Hs : slot_for an_open_table 3 0 a_handle) by (by split).
      destruct (slot_unique _ _ _ _ _ _ Hs Hslot) as [-> ->]. rewrite decide_True in Hr by reflexivity. destruct Hr as [-> Hof].
      split; [exact Hm|]. split; [reflexivity|]. by rewrite Hof.
    + exfalso. by apply (Hno 0 a_handle).
Defined.

Lemma a_file_removable : removable an_sfs 3 2 0.
Proof.
  assert (Hs : slot_for an_open_table 3 0 a_handle) by (by split).
  split; [split; [cbn; lia|]|cbn; lia|lia|exact a_root_ok|].
  - apply (bool_decide_unpack _). vm_compute. exact I.
  - intros i e Hslot. destruct (slot_unique _ _ _ _ _ _ Hs Hslot) as [-> ->]. vm_check.
Qed.
Lemma sfs_remove_while_open_witness :
  wp (r1 ← sfs_remove a_path a_stack; d ← gets sv_disk;
      a ← sfs_read 3 (replicate 10 0) 10 508 (replicate 512 0) (replicate 512 0);
      r2 ← sfs_close 3; mret (r1, d, a, r2))
    (fun '(r1, d, a, r2) s' => mounted s' /\ r1 = VFS_OK /\ a = (10, [1; 1; 1; 1; 2; 2; 2; 2; 2; 2]) /\ r2 = VFS_OK /\
      dir_entries (contents d 2) = [] /\ dir_entries (contents (sv_disk s') 2) = []) an_sfs.
Proof.
  eapply wp_mono; [apply (sfs_remove_while_open an_sfs a_path [47; 97] a_stack 3 2 0 a_handle (replicate 10 0) 10 508)|].
  - exact an_sfs_mounted.
  - reflexivity.
  - reflexivity.
  - exact a_path_bytes.
  - exact a_stack_ok.
  - exact a_path_valid.
  - exact a_path_resolvable.
  - exact a_path_resolves.
  - discriminate.
  - reflexivity.
  - exact a_file_removable.
  - by split.
  - reflexivity.
  - reflexivity.
  - exact a_volume_file.
  - apply (bool_decide_unpack _). vm_compute. exact I.
  - reflexivity.
  - reflexivity.
  - vm_check.
  - intros [[[r1 d] a] r2] s' (Hm & -> & -> & -> & [Hd _] & _ & [Hdir _] & _). split; [exact Hm|].
    split; [reflexivity|]. split; [vm_compute; reflexivity|]. split; [reflexivity|].
    rewrite Hd, Hdir. split; vm_compute; reflexivity.
Defined.

(** Block 5 cannot be written. *)
Definition a_bad_device : ramdisk := mk_ramdisk (rd_blocks a_device) [5].
Lemma write_vblock_correct_witness :
  wp (write_vblock 5 (replicate 512 9)) (fun r v' => r = 0 /\ one_more_sem sem_kernel v'.2) (a_bad_device, sem_kernel).
Proof.
  eapply wp_mono; [apply wp_and; [apply (write_vblock_correct (a_bad_device, sem_kernel) 5 (replicate 512 9))|]|].
  - destruct (bo_dev _ _ (vo_body _ (mo_vol _ an_sfs_mounted))) as [_ _ Hs]. split; [reflexivity|vm_check|exact Hs].
  - vm_check.
  - split; [reflexivity|]. apply Forall_replicate. unfold is_byte. lia.
  - instantiate (1 := fun r _ => r = 0). vm_compute. reflexivity.
  - intros r v' [(_ & _ & Hcase) ->]. split; [reflexivity|]. exact Hcase.
Defined.
