(* ===== verification/SfsSync.v ===== *)
(** * Readers and writers of one file of the student filesystem

    Threads that read and write a file through its entry in the table of open
    files, in any interleaving.  Each step is what a thread does under the
    [io_lock] of the entry, up to where it releases the lock or goes to sleep on
    [io_cond]; the lock keeps other threads out in between.  A broadcast makes
    every sleeping thread ready to take the lock and look again.  The file stays
    open: opening and closing it are not among the steps. *)
From S2P Require Import Prelude Libc Cpu Sfs SfsTable.

(** ** Threads *)

(** What a waiting thread waits for: to be counted as a reader, to claim the
    entry, or to write after having claimed it. *)
Inductive goal := ToRead | ToClaim | ToWrite.
Inductive phase := Idle | Waiting (g : goal) (asleep : bool) | Reading | Writing.
#[export] Instance goal_eq_dec : EqDecision goal.
Proof. solve_decision. Defined.
#[export] Instance phase_eq_dec : EqDecision phase.
Proof. solve_decision. Defined.

Inductive event := BeginRead | BeginWrite | Resume | End.

(** The threads of one entry; a thread's number is its place in the list. *)
Record sharing := mk_sharing { entry : sfs_openfile_t; threads : list phase }.

(** The pieces of [sfs_begin_read] and [sfs_begin_write] between two places
    where they give up the lock; the flag is that of [leave_reader]. *)
Definition try_read : M sfs_openfile_t (bool * phase) :=
  ok ← admit_reader; mret (false, if ok : bool then Reading else Waiting ToRead true).
Definition try_write : M sfs_openfile_t (bool * phase) :=
  ok ← admit_writer; mret (false, if ok : bool then Writing else Waiting ToWrite true).
Definition try_claim (tid : Z) : M sfs_openfile_t (bool * phase) :=
  ok ← claim_entry tid; if ok : bool then try_write else mret (false, Waiting ToClaim true).
Definition finish (leave : M sfs_openfile_t bool) : M sfs_openfile_t (bool * phase) := wake ← leave; mret (wake, Idle).
(** What the event makes a thread do, if it can happen. *)
Definition reaction (tid : Z) (ph : phase) (ev : event) : option (M sfs_openfile_t (bool * phase)) :=
  match ph, ev with
  | Idle, BeginRead => Some try_read
  | Idle, BeginWrite => Some (try_claim tid)
  | Waiting ToRead false, Resume => Some try_read
  | Waiting ToClaim false, Resume => Some (try_claim tid)
  | Waiting ToWrite false, Resume => Some try_write
  | Reading, End => Some (finish leave_reader)
  | Writing, End => Some (finish leave_writer)
  | _, _ => None
  end.
Definition wake_up (ph : phase) : phase := match ph with Waiting g _ => Waiting g false | _ => ph end.
Definition react (t : nat) (ev : event) (s : sharing) : option (res sharing) :=
  ph ← threads s !! t;
  m ← reaction (Z.of_nat t) ph ev;
  Some ('(wake, ph', e) ← m (entry s);
        Ret (mk_sharing e (<[t := ph']> (if wake : bool then wake_up <$> threads s else threads s)))).

Definition step_by (allowed : event -> Prop) (s s' : sharing) : Prop :=
  exists t ev, allowed ev /\ react t ev s = Some (Ret s').
(** Threads that read and write the file, which stays open; and threads that
    only go on with what they have begun. *)
Definition file_event (ev : event) : Prop := ev = BeginRead \/ ev = BeginWrite \/ ev = Resume \/ ev = End.
Definition going_on (ev : event) : Prop := ev = Resume \/ ev = End.

Definition fresh (n : nat) (e : sfs_openfile_t) : sharing := mk_sharing e (replicate n Idle).

(** A run of events, for the examples. *)
Fixpoint run_events (evs : list (nat * event)) (s : sharing) : option sharing :=
  match evs with
  | [] => Some s
  | (t, ev) :: evs => match react t ev s with Some (Ret s') => run_events evs s' | _ => None end
  end.

(** ** Counting threads *)
Fixpoint count (p : phase -> bool) (l : list phase) : Z :=
  match l with [] => 0 | x :: l => Z.b2z (p x) + count p l end.

Lemma count_bounds p l : 0 <= count p l <= zlen l.
Proof. induction l as [|x l IH]; cbn [count length]; [lia|]. destruct (p x); cbn [Z.b2z]; lia. Qed.
Lemma count_insert p l i x y : l !! i = Some x -> count p (<[i:=y]> l) = count p l - Z.b2z (p x) + Z.b2z (p y).
Proof.
  revert i. induction l as [|z l IH]; intros [|i]; [done|done| |]; cbn.
  - intros [= ->]. lia.
  - intros Hi. rewrite IH by done. lia.
Qed.
Lemma count_wake p l : (forall x, p (wake_up x) = p x) -> count p (wake_up <$> l) = count p l.
Proof. intros Hp. induction l as [|x l IH]; [done|]. cbn. by rewrite Hp, IH. Qed.
Lemma count_none p l : count p l = 0 <-> forall i x, l !! i = Some x -> p x = false.
Proof.
  induction l as [|z l IH]; [done|]. pose proof (count_bounds p l). cbn [count]. split.
  - intros H0 [|i] x Hx.
    + injection Hx as <-. destruct (p z); cbn [Z.b2z] in H0; [lia|done].
    + destruct (p z); cbn [Z.b2z] in H0; [lia|]. apply (proj1 IH) with i; [lia|done].
  - intros Hall. rewrite (Hall 0%nat z eq_refl). cbn. apply IH. intros i x. apply (Hall (S i)).
Qed.
Lemma count_some p l : 0 < count p l -> exists i x, l !! i = Some x /\ p x = true.
Proof.
  induction l as [|z l IH]; cbn [count]; [lia|]. destruct (p z) eqn:E; cbn [Z.b2z]; intros Hc.
  - by exists 0%nat, z.
  - destruct IH as (i & x & Hx); [lia|]. by exists (S i), x.
Qed.

(** ** The invariant *)
Definition is_reading (ph : phase) : bool := match ph with Reading => true | _ => false end.
(** The thread has claimed the entry. *)
Definition claimed (ph : phase) : bool := match ph with Writing | Waiting ToWrite _ => true | _ => false end.
Definition busy (ph : phase) : bool := match ph with Idle => false | _ => true end.
Definition ready (ph : phase) : bool := match ph with Waiting _ false => true | _ => false end.

Definition one_claimed (w : Z) (l : list phase) : Prop :=
  (w = -1 /\ count claimed l = 0) \/
  (exists t x, w = Z.of_nat t /\ l !! t = Some x /\ claimed x = true /\ count claimed l = 1).
Definition asleep_ok (e : sfs_openfile_t) (l : list phase) : Prop :=
  forall t g, l !! t = Some (Waiting g true) -> match g with ToWrite => 0 < readernum e | _ => writer_tid e <> -1 end.
Record inv (s : sharing) : Prop := {
  inv_few : zlen (threads s) < 2147483648;
  inv_readers : readernum (entry s) = count is_reading (threads s);
  inv_claimed : one_claimed (writer_tid (entry s)) (threads s);
  inv_exclusive : Writing ∈ threads s -> readernum (entry s) = 0;
  inv_asleep : asleep_ok (entry s) (threads s)
}.

Lemma one_claimed_is w l t x : one_claimed w l -> l !! t = Some x -> claimed x = true -> w = Z.of_nat t /\ count claimed l = 1.
Proof.
  intros [[_ H0]|(t' & y & -> & Hy & Hcy & H1)] Hx Hc.
  - by rewrite (proj1 (count_none _ _) H0 _ _ Hx) in Hc.
  - destruct (decide (t = t')) as [->|Hne]; [done|]. pose proof (count_insert claimed l t x Idle Hx) as Hi. rewrite Hc, H1 in Hi. cbn in Hi.
    by rewrite (proj1 (count_none _ _) Hi t' y) in Hcy by (by rewrite list_lookup_insert_ne).
Qed.
(** A thread that has not claimed the entry changes into one that has not. *)
Lemma one_claimed_same w l t x y : one_claimed w l -> l !! t = Some x -> claimed x = claimed y -> one_claimed w (<[t:=y]> l).
Proof.
  intros Hone Hx Hxy. pose proof (count_insert claimed l t x y Hx) as Hi. rewrite Hxy in Hi.
  destruct Hone as [[-> H0]|(t' & z & -> & Hz & Hcz & H1)]; [left; split; [done|lia]|right].
  destruct (decide (t' = t)) as [->|Hne].
  - exists t, y. rewrite list_lookup_insert_eq by (by eapply lookup_lt_Some). split; [done|]. split; [done|]. split; [|lia]. congruence.
  - exists t', z. rewrite list_lookup_insert_ne by done. split; [done|]. split; [done|]. split; [done|lia].
Qed.
Lemma one_claimed_new l t x y : one_claimed (-1) l -> l !! t = Some x -> claimed y = true -> one_claimed (Z.of_nat t) (<[t:=y]> l).
Proof.
  intros [[_ H0]|(t' & _ & ? & _)] Hx Hy; [|lia]. right. exists t, y. rewrite list_lookup_insert_eq by (by eapply lookup_lt_Some).
  rewrite (count_insert _ _ _ x) by done. rewrite Hy, (proj1 (count_none _ _) H0 _ _ Hx), H0. done.
Qed.
Lemma one_claimed_gone w l t x y : one_claimed w l -> l !! t = Some x -> claimed x = true -> claimed y = false -> one_claimed (-1) (<[t:=y]> l).
Proof.
  intros Hone Hx Hcx Hcy. destruct (one_claimed_is _ _ _ _ Hone Hx Hcx) as [-> H1]. left. split; [done|].
  rewrite (count_insert _ _ _ x) by done. by rewrite Hcx, Hcy, H1.
Qed.
Lemma one_claimed_wake w l : one_claimed w l -> one_claimed w (wake_up <$> l).
Proof.
  intros [[-> H0]|(t & x & -> & Hx & Hc & H1)]; [left|right; exists t, (wake_up x); rewrite list_lookup_fmap, Hx];
    rewrite count_wake by (by intros []); [done|]. split; [done|]. split; [done|]. by destruct x.
Qed.

(** What a step of a thread that reads or writes comes to. *)
Inductive moved (t : nat) (s : sharing) : sharing -> Prop :=
| reader_in ph : threads s !! t = Some ph -> ph = Idle \/ ph = Waiting ToRead false -> writer_tid (entry s) = -1 ->
    moved t s (mk_sharing (with_readernum (readernum (entry s) + 1) (entry s)) (<[t := Reading]> (threads s)))
| stays_out ph g : threads s !! t = Some ph -> ph = Idle \/ ph = Waiting g false -> g <> ToWrite -> writer_tid (entry s) <> -1 ->
    moved t s (mk_sharing (entry s) (<[t := Waiting g true]> (threads s)))
| claims ph : threads s !! t = Some ph -> ph = Idle \/ ph = Waiting ToClaim false -> writer_tid (entry s) = -1 ->
    moved t s (mk_sharing (with_writer_tid (Z.of_nat t) (entry s))
      (<[t := if readernum (entry s) >? 0 then Waiting ToWrite true else Writing]> (threads s)))
| goes_on : threads s !! t = Some (Waiting ToWrite false) ->
    moved t s (mk_sharing (entry s) (<[t := if readernum (entry s) >? 0 then Waiting ToWrite true else Writing]> (threads s)))
| reader_out : threads s !! t = Some Reading ->
    moved t s (mk_sharing (with_readernum (readernum (entry s) - 1) (entry s))
      (<[t := Idle]> (if readernum (entry s) - 1 =? 0 then wake_up <$> threads s else threads s)))
| writer_out : threads s !! t = Some Writing ->
    moved t s (mk_sharing (with_writer_tid (-1) (entry s)) (<[t := Idle]> (wake_up <$> threads s))).

Lemma try_read_eq e : is_i32 (readernum e + 1) ->
  try_read e = Ret (if writer_tid e =? -1 then ((false, Reading), with_readernum (readernum e + 1) e) else ((false, Waiting ToRead true), e)).
Proof. intros Hr. unfold try_read, mbind, M_bind. rewrite admit_reader_eq by done. by destruct (writer_tid e =? -1). Qed.
Lemma try_write_eq e : try_write e = Ret ((false, if readernum e >? 0 then Waiting ToWrite true else Writing), e).
Proof. unfold try_write, mbind, M_bind. rewrite admit_writer_eq. by destruct (readernum e >? 0). Qed.
Lemma try_claim_eq tid e :
  try_claim tid e = Ret (if writer_tid e =? -1
    then ((false, if readernum e >? 0 then Waiting ToWrite true else Writing), with_writer_tid tid e) else ((false, Waiting ToClaim true), e)).
Proof. unfold try_claim, mbind, M_bind. rewrite claim_entry_eq. destruct (writer_tid e =? -1); [|done]. by rewrite try_write_eq. Qed.
Lemma finish_reader_eq e : is_i32 (readernum e - 1) ->
  finish leave_reader e = Ret ((readernum e - 1 =? 0, Idle), with_readernum (readernum e - 1) e).
Proof. intros Hr. unfold finish, mbind, M_bind. by rewrite leave_reader_eq. Qed.
Lemma finish_writer_eq e : finish leave_writer e = Ret ((true, Idle), with_writer_tid (-1) e).
Proof. done. Qed.

Lemma inv_ints s : inv s -> 0 <= readernum (entry s) < 2147483648 /\
  (forall t, threads s !! t = Some Reading -> 1 <= readernum (entry s)) /\
  (forall t x, threads s !! t = Some x -> is_reading x = false -> readernum (entry s) < 2147483647).
Proof.
  intros [Hf Hr _ _ _]. pose proof (count_bounds is_reading (threads s)). split; [lia|]. split.
  - intros t Ht. pose proof (count_insert is_reading _ _ _ Idle Ht) as Hc. cbn in Hc. pose proof (count_bounds is_reading (<[t:=Idle]> (threads s))). lia.
  - intros t x Ht Hx. pose proof (count_insert is_reading _ _ _ Reading Ht) as Hc. rewrite Hx in Hc. cbn in Hc.
    pose proof (count_bounds is_reading (<[t:=Reading]> (threads s))) as Hb. rewrite length_insert in Hb. lia.
Qed.

Lemma react_moved t ev s r : inv s -> file_event ev -> react t ev s = Some r -> exists s', r = Ret s' /\ moved t s s'.
Proof.
  intros Hinv Hev. destruct (inv_ints s Hinv) as (Hr & Hr1 & Hr2). unfold react.
  destruct (threads s !! t) as [ph|] eqn:Et; [|done]. cbn [mbind option_bind].
  assert (Hread : is_reading ph = false -> is_i32 (readernum (entry s) + 1)) by (intros Hp; specialize (Hr2 t ph Et Hp); unfold is_i32; lia).
  assert (Htr : forall ph', ph = Idle \/ ph = Waiting ToRead false -> ph' = try_read ->
    forall r, Some ('(wake, ph', e) ← ph' (entry s); Ret (mk_sharing e (<[t := ph']> (if wake : bool then wake_up <$> threads s else threads s)))) = Some r ->
    exists s', r = Ret s' /\ moved t s s').
  { intros ? Hph -> r' Heq. rewrite try_read_eq in Heq by (apply Hread; by destruct Hph as [-> | ->]).
    destruct (Z.eqb_spec (writer_tid (entry s)) (-1)) as [Hw|Hw]; injection Heq as <-; eexists; (split; [done|]); cbn.
    - by apply (reader_in t s ph).
    - by apply (stays_out t s ph ToRead). }
  assert (Htc : ph = Idle \/ ph = Waiting ToClaim false ->
    forall r, Some ('(wake, ph', e) ← try_claim (Z.of_nat t) (entry s); Ret (mk_sharing e (<[t := ph']> (if wake : bool then wake_up <$> threads s else threads s)))) = Some r ->
    exists s', r = Ret s' /\ moved t s s').
  { intros Hph r' Heq. rewrite try_claim_eq in Heq.
    destruct (Z.eqb_spec (writer_tid (entry s)) (-1)) as [Hw|Hw]; injection Heq as <-; eexists; (split; [done|]); cbn.
    - by apply (claims t s ph).
    - by apply (stays_out t s ph ToClaim). }
  destruct Hev as [->|[->|[->| ->]]], ph as [|[] []| |]; cbn [reaction mbind option_bind]; try done.
  - intros Heq. by eapply Htr; [by left| |exact Heq].
  - intros Heq. by eapply Htc; [by left|exact Heq].
  - intros Heq. by eapply Htr; [by right| |exact Heq].
  - intros Heq. by eapply Htc; [by right|exact Heq].
  - rewrite try_write_eq. intros [= <-]. eexists. split; [done|]. by apply goes_on.
  - rewrite finish_reader_eq by (specialize (Hr1 t Et); unfold is_i32; lia). intros [= <-]. eexists. split; [done|]. by apply reader_out.
  - rewrite finish_writer_eq. intros [= <-]. eexists. split; [done|]. by apply writer_out.
Qed.

(** ** The invariant is kept *)
Lemma wake_lookup (l : list phase) t x : (wake_up <$> l) !! t = Some x -> exists y, l !! t = Some y /\ x = wake_up y.
Proof. rewrite list_lookup_fmap. destruct (l !! t) as [y|]; [|done]. intros [= <-]. by exists y. Qed.
Lemma nobody_asleep (l : list phase) t g : (wake_up <$> l) !! t = Some (Waiting g true) -> False.
Proof. by intros ([|g' []| |] & _ & [=])%wake_lookup. Qed.
Lemma elem_insert_ne (l : list phase) t x y : x ∈ <[t:=y]> l -> x <> y -> x ∈ l.
Proof.
  intros [i Hi]%list_elem_of_lookup Hne. destruct (decide (i = t)) as [->|Hit].
  - pose proof (lookup_lt_Some _ _ _ Hi) as Hlt. rewrite length_insert in Hlt. rewrite list_lookup_insert_eq in Hi by done. congruence.
  - rewrite list_lookup_insert_ne in Hi by done. by eapply list_elem_of_lookup_2.
Qed.
Lemma asleep_insert e e' l t x :
  asleep_ok e l -> (writer_tid e <> -1 -> writer_tid e' <> -1) -> (0 < readernum e -> 0 < readernum e') ->
  (forall g, x = Waiting g true -> match g with ToWrite => 0 < readernum e' | _ => writer_tid e' <> -1 end) -> asleep_ok e' (<[t:=x]> l).
Proof.
  intros Hok Hw Hr Hx t' g Ht'. destruct (decide (t' = t)) as [->|Hne].
  - pose proof (lookup_lt_Some _ _ _ Ht') as Hlt. rewrite length_insert in Hlt. rewrite list_lookup_insert_eq in Ht' by done. apply Hx. congruence.
  - rewrite list_lookup_insert_ne in Ht' by done. specialize (Hok t' g Ht'). destruct g; auto.
Qed.
Lemma asleep_woken e l t : asleep_ok e (<[t:=Idle]> (wake_up <$> l)).
Proof.
  intros t' g Ht'. exfalso. destruct (decide (t' = t)) as [->|Hne].
  - pose proof (lookup_lt_Some _ _ _ Ht') as Hlt. rewrite length_insert in Hlt. by rewrite list_lookup_insert_eq in Ht' by done.
  - rewrite list_lookup_insert_ne in Ht' by done. by eapply nobody_asleep.
Qed.
(** Nobody writes while the entry is free, or while its writer waits. *)
Lemma no_writer w l t x : one_claimed w l -> (w = -1 \/ l !! t = Some x /\ claimed x = true /\ x <> Writing) -> Writing ∉ l.
Proof.
  intros Hone Hcase [i Hi]%list_elem_of_lookup. destruct (one_claimed_is _ _ _ _ Hone Hi eq_refl) as [-> _].
  destruct Hcase as [?|(Hx & Hc & Hne)]; [lia|]. destruct (one_claimed_is _ _ _ _ Hone Hx Hc) as [Ht _].
  assert (i = t) as -> by lia. congruence.
Qed.

Lemma moved_inv t s s' : inv s -> moved t s s' -> inv s'.
Proof.
  intros Hinv Hm. destruct (inv_ints s Hinv) as (Hr & _). destruct Hinv as [Hfew Hreaders Hone Hexcl Has].
  destruct Hm as [ph Ht Hph Hw|ph g Ht Hph Hg Hw|ph Ht Hph Hw|Ht|Ht|Ht]; split; cbn [entry threads]; rewrite ?length_insert; try done.
  - rewrite (count_insert _ _ _ ph) by done. cbn. assert (is_reading ph = false) as -> by (by destruct Hph as [->| ->]). cbn. lia.
  - eapply one_claimed_same; [done|done|by destruct Hph as [->| ->]].
  - intros Hin%elem_insert_ne; [|done]. by destruct (no_writer _ _ t ph Hone (or_introl Hw)).
  - eapply asleep_insert; [done|done|cbn; lia|done].
  - rewrite (count_insert _ _ _ ph) by done. cbn. assert (is_reading ph = false) as -> by (by destruct Hph as [->| ->]). cbn. lia.
  - eapply one_claimed_same; [done|done|]. by destruct Hph as [->| ->], g.
  - intros Hin%elem_insert_ne; [by apply Hexcl|done].
  - eapply asleep_insert; [done|done|done|]. intros g' [= <-]. by destruct g.
  - rewrite (count_insert _ _ _ ph) by done. assert (is_reading ph = false) as -> by (by destruct Hph as [->| ->]). cbn.
    destruct (readernum (entry s) >? 0); cbn; lia.
  - cbn. eapply one_claimed_new; [by rewrite <- Hw|done|]. by destruct (readernum (entry s) >? 0).
  - cbn. rewrite Z.gtb_ltb. destruct (Z.ltb_spec 0 (readernum (entry s))); [|lia]. intros Hin%elem_insert_ne; [by apply Hexcl|done].
  - eapply asleep_insert; [done|done|done|]. cbn. rewrite Z.gtb_ltb. destruct (Z.ltb_spec 0 (readernum (entry s))); [|done]. by intros g [= <-].
  - rewrite (count_insert _ _ _ _ _ Ht). cbn. destruct (readernum (entry s) >? 0); cbn; lia.
  - eapply one_claimed_same; [done|done|]. by destruct (readernum (entry s) >? 0).
  - rewrite Z.gtb_ltb. destruct (Z.ltb_spec 0 (readernum (entry s))); [|lia]. intros Hin%elem_insert_ne; [by apply Hexcl|done].
  - eapply asleep_insert; [done|done|done|]. rewrite Z.gtb_ltb. destruct (Z.ltb_spec 0 (readernum (entry s))); [|done]. by intros g [= <-].
  - destruct (readernum (entry s) - 1 =? 0); by rewrite ?length_fmap.
  - assert (Hc : count is_reading (<[t:=Idle]> (threads s)) = readernum (entry s) - 1) by (rewrite (count_insert _ _ _ _ _ Ht); cbn; lia).
    destruct (readernum (entry s) - 1 =? 0); [|done]. change Idle with (wake_up Idle). rewrite <- list_fmap_insert, count_wake by (by intros []). done.
  - assert (Hone' : one_claimed (writer_tid (entry s)) (<[t:=Idle]> (threads s))) by (by eapply one_claimed_same).
    destruct (readernum (entry s) - 1 =? 0); [|done]. change Idle with (wake_up Idle). rewrite <- list_fmap_insert. by apply one_claimed_wake.
  - intros Hin%elem_insert_ne; [|done]. assert (Hin' : Writing ∈ threads s).
    { destruct (readernum (entry s) - 1 =? 0); [|done]. apply list_elem_of_fmap in Hin as ([|? []| |] & [=] & Hin). done. }
    pose proof (proj1 (proj2 (inv_ints s ltac:(by split))) t Ht). specialize (Hexcl Hin'). lia.
  - destruct (Z.eqb_spec (readernum (entry s) - 1) 0); [apply asleep_woken|]. eapply asleep_insert; [done|done|cbn; lia|done].
  - by rewrite length_fmap.
  - change Idle with (wake_up Idle). rewrite <- list_fmap_insert, count_wake by (by intros []). rewrite (count_insert _ _ _ _ _ Ht). cbn. lia.
  - cbn. change Idle with (wake_up Idle). rewrite <- list_fmap_insert. apply one_claimed_wake. by eapply one_claimed_gone.
  - intros Hin%elem_insert_ne; [|done]. apply list_elem_of_fmap in Hin as ([|? []| |] & [=] & Hin). cbn. by apply Hexcl.
  - apply asleep_woken.
Qed.

Lemma step_inv s s' : inv s -> step_by file_event s s' -> inv s'.
Proof.
  intros Hinv (t & ev & Hev & Hr). destruct (react_moved t ev s _ Hinv Hev Hr) as (s1 & [= <-] & Hm). by eapply moved_inv.
Qed.
Lemma fresh_inv n e : Z.of_nat n < 2147483648 -> readernum e = 0 -> writer_tid e = -1 -> inv (fresh n e).
Proof.
  intros Hn Hr Hw. assert (H0 : forall p, p Idle = false -> count p (replicate n Idle) = 0).
  { intros p Hp. apply count_none. intros i x Hx. by apply lookup_replicate in Hx as [-> _]. }
  split; cbn [fresh entry threads].
  - by rewrite length_replicate.
  - by rewrite H0.
  - left. by rewrite H0.
  - intros Hin. by apply elem_of_replicate in Hin as [[=] _].
  - intros t g Ht. by apply lookup_replicate in Ht as [[=] _].
Qed.
Lemma reach_inv n e s :
  Z.of_nat n < 2147483648 -> readernum e = 0 -> writer_tid e = -1 -> rtc (step_by file_event) (fresh n e) s -> inv s.
Proof.
  intros Hn Hr Hw Hreach. assert (Hinv : inv (fresh n e)) by (by apply fresh_inv). revert Hinv.
  induction Hreach as [|s1 s2 s3 Hs _ IH]; [done|]. intros Hinv. apply IH. by eapply step_inv.
Qed.

Lemma inv_one_writer s t t' ph : inv s -> threads s !! t = Some Writing -> threads s !! t' = Some ph -> t' <> t -> ph <> Writing /\ ph <> Reading.
Proof.
  intros Hinv Ht Ht' Hne. destruct (inv_ints s Hinv) as (_ & Hr & _). split; intros ->.
  - destruct (one_claimed_is _ _ _ _ (inv_claimed _ Hinv) Ht eq_refl) as [H1 _].
    destruct (one_claimed_is _ _ _ _ (inv_claimed _ Hinv) Ht' eq_refl) as [H2 _]. lia.
  - specialize (Hr t' Ht'). rewrite (inv_exclusive _ Hinv) in Hr by (by eapply list_elem_of_lookup_2). lia.
Qed.

(** ** Nobody waits for ever *)

(** Every step of a thread that goes on lets one thread finish, or leaves one
    thread less ready. *)
Definition work (s : sharing) : nat :=
  Z.to_nat (count busy (threads s) * (zlen (threads s) + 1) + count ready (threads s)).

Lemma going_busy t ev s r : going_on ev -> react t ev s = Some r -> file_event ev /\ exists ph, threads s !! t = Some ph /\ busy ph = true.
Proof.
  unfold react. intros Hev. split; [by destruct Hev as [-> | ->]; unfold file_event; tauto|]. destruct (threads s !! t) as [ph|]; [|done].
  exists ph. split; [done|]. destruct ph; [by destruct Hev as [-> | ->]|done..].
Qed.

Lemma work_goes_down e' l s :
  zlen l = zlen (threads s) ->
  (count busy l < count busy (threads s) \/ count busy l = count busy (threads s) /\ count ready l < count ready (threads s)) ->
  (work (mk_sharing e' l) < work s)%nat.
Proof.
  intros Hl Hc. unfold work. cbn [threads]. pose proof (count_bounds ready l). pose proof (count_bounds ready (threads s)).
  pose proof (count_bounds busy l). pose proof (count_bounds busy (threads s)). rewrite Hl in *. apply Z2Nat.inj_lt; nia.
Qed.

Lemma moved_work t s s' : inv s -> moved t s s' -> (exists ph, threads s !! t = Some ph /\ busy ph = true) -> (work s' < work s)%nat.
Proof.
  intros Hinv Hm (ph0 & Ht0 & Hb).
  assert (Hset : forall e' x, ready ph0 = true -> busy x = true -> ready x = false ->
    (work (mk_sharing e' (<[t:=x]> (threads s))) < work s)%nat).
  { intros e' x Hr Hx Hrx. apply work_goes_down; [by rewrite length_insert|]. rewrite !(count_insert _ _ _ _ _ Ht0), Hb, Hr, Hx, Hrx. cbn. lia. }
  assert (Hdone : forall e' l, (forall i, l !! i = threads s !! i) \/ l = wake_up <$> threads s ->
    (work (mk_sharing e' (<[t:=Idle]> l)) < work s)%nat).
  { intros e' l Hl. assert (Hcb : count busy (<[t:=Idle]> l) = count busy (threads s) - 1 /\ zlen (<[t:=Idle]> l) = zlen (threads s)).
    { rewrite length_insert. destruct Hl as [Hl| ->].
      - assert (l = threads s) as -> by (by apply list_eq). split; [|done]. rewrite (count_insert _ _ _ _ _ Ht0), Hb. cbn. lia.
      - split; [|by rewrite length_fmap]. change Idle with (wake_up Idle). rewrite <- list_fmap_insert, count_wake by (by intros []).
        rewrite (count_insert _ _ _ _ _ Ht0), Hb. cbn. lia. }
    apply work_goes_down; [apply Hcb|]. left. lia. }
  destruct Hm as [ph Ht Hph Hw|ph g Ht Hph Hg Hw|ph Ht Hph Hw|Ht|Ht|Ht]; rewrite Ht in Ht0; injection Ht0 as <-.
  - apply Hset; [|done|done]. by destruct Hph as [->| ->].
  - apply Hset; [|done|done]. by destruct Hph as [->| ->].
  - apply Hset; [by destruct Hph as [->| ->]|by destruct (readernum (entry s) >? 0)..].
  - apply Hset; [done|by destruct (readernum (entry s) >? 0)..].
  - apply Hdone. destruct (readernum (entry s) - 1 =? 0); [by right|by left].
  - apply Hdone. by right.
Qed.

Lemma going_acc s : inv s -> Acc (flip (step_by going_on)) s.
Proof.
  remember (work s) as n eqn:Hn. revert s Hn. induction (lt_wf n) as [n _ IH]. intros s -> Hinv. constructor. intros s' (t & ev & Hev & Hr).
  destruct (going_busy t ev s _ Hev Hr) as [Hf Hb]. destruct (react_moved t ev s _ Hinv Hf Hr) as (s1 & [= <-] & Hm).
  apply (IH (work s')); [by eapply moved_work|done|by eapply moved_inv].
Qed.

(** When no thread can go on, no thread has anything left to do. *)
Lemma stuck_idle s : inv s -> (forall s', ~ step_by going_on s s') -> Forall (eq Idle) (threads s).
Proof.
  intros Hinv Hstuck.
  assert (Hno : forall t ev, going_on ev -> react t ev s = None).
  { intros t ev Hev. destruct (react t ev s) as [r|] eqn:Er; [|done]. destruct (going_busy t ev s _ Hev Er) as [Hf _].
    destruct (react_moved t ev s _ Hinv Hf Er) as (s' & -> & _). exfalso. apply (Hstuck s'). by exists t, ev. }
  assert (Hphase : forall t ph, threads s !! t = Some ph -> ph = Idle \/ exists g, ph = Waiting g true).
  { intros t ph Ht. pose proof (Hno t Resume (or_introl eq_refl)) as H1. pose proof (Hno t End (or_intror eq_refl)) as H2.
    unfold react in *. rewrite Ht in *. destruct ph as [|g []| |]; [by left|right; by exists g| |done|done]. by destruct g. }
  assert (Hreaders : readernum (entry s) = 0).
  { rewrite (inv_readers _ Hinv). apply count_none. intros t ph Ht. by destruct (Hphase t ph Ht) as [->|[g ->]]. }
  assert (Hfree : writer_tid (entry s) = -1).
  { destruct (inv_claimed _ Hinv) as [[? _]|(t & ph & _ & Ht & Hc & _)]; [done|exfalso].
    destruct (Hphase t ph Ht) as [->|[[] ->]]; try done. pose proof (inv_asleep _ Hinv t ToWrite Ht) as Ha. cbn in Ha. lia. }
  apply Forall_lookup. intros t ph Ht. destruct (Hphase t ph Ht) as [->|[g ->]]; [done|exfalso].
  pose proof (inv_asleep _ Hinv t g Ht) as Ha. destruct g; [done|done|lia].
Qed.

(** ** What the sharing of a file guarantees *)

(** Claim C3. Readers and writers of an open file exclude each other: however
    many threads begin, wait, resume and end reads and writes of the file, in any
    order, no step fails, a thread that writes is the only one that reads or
    writes, and [readernum] is the number of threads that read. *)
Theorem readers_writers_exclusive n e s :
  Z.of_nat n < 2147483648 -> readernum e = 0 -> writer_tid e = -1 -> rtc (step_by file_event) (fresh n e) s ->
  (forall t t' ph, threads s !! t = Some Writing -> threads s !! t' = Some ph -> t' <> t -> ph <> Writing /\ ph <> Reading) /\
  readernum (entry s) = count is_reading (threads s) /\
  (forall t ev r, file_event ev -> react t ev s = Some r -> exists s', r = Ret s').
Proof.
  intros Hn Hr Hw Hreach. pose proof (reach_inv n e s Hn Hr Hw Hreach) as Hinv. split; [|split].
  - intros t t' ph. by apply inv_one_writer.
  - apply Hinv.
  - intros t ev r Hev Hre. destruct (react_moved t ev s r Hinv Hev Hre) as (s' & ? & _). by exists s'.
Qed.

(** Claim C4. No wake-up is lost and no thread waits for ever: from any state
    that readers and writers reach, if threads only go on with what they have
    begun, then only finitely many steps are possible, and where no step is
    possible every thread has finished. *)
Theorem readers_writers_finish n e s :
  Z.of_nat n < 2147483648 -> readernum e = 0 -> writer_tid e = -1 -> rtc (step_by file_event) (fresh n e) s ->
  Acc (flip (step_by going_on)) s /\
  forall s', rtc (step_by going_on) s s' -> (forall s'', ~ step_by going_on s' s'') -> Forall (eq Idle) (threads s').
Proof.
  intros Hn Hr Hw Hreach. pose proof (reach_inv n e s Hn Hr Hw Hreach) as Hinv. split; [by apply going_acc|].
  intros s' Hgo. apply stuck_idle. clear Hreach. induction Hgo as [|s1 s2 s3 (t & ev & Hev & Hs) _ IH]; [done|].
  apply IH. apply (step_inv s1); [done|]. exists t, ev. split; [by apply (going_busy t ev s1 _ Hev Hs)|done].
Qed.

Lemma events_reach evs s s' : Forall (fun x => file_event x.2) evs -> run_events evs s = Some s' -> rtc (step_by file_event) s s'.
Proof.
  intros Hev. revert s. induction Hev as [|[t ev] evs Hev _ IH]; intros s; cbn.
  - by intros [= ->].
  - destruct (react t ev s) as [[s1|]|] eqn:Er; [|done..]. intros Hrun. eapply rtc_l; [by exists t, ev|]. by apply IH.
Qed.

(** A reader, a writer that waits for it, and a reader that waits for that
    writer. *)
Definition three_begun : list (nat * event) := [(0%nat, BeginRead); (1%nat, BeginWrite); (2%nat, BeginRead)].
Definition an_entry : sfs_openfile_t := mk_openfile 3 4 1 0 (-1) 7 2 0 0.
Example three_begun_threads :
  threads <$> run_events three_begun (fresh 3 an_entry) = Some [Reading; Waiting ToWrite true; Waiting ToRead true].
Proof. reflexivity. Qed.

Lemma readers_writers_exclusive_witness :
  exists s, threads s = [Idle; Writing; Waiting ToRead false] /\ readernum (entry s) = count is_reading (threads s).
Proof.
  set (s := mk_sharing (with_writer_tid 1 an_entry) [Idle; Writing; Waiting ToRead false]). exists s. split; [done|].
  apply (readers_writers_exclusive 3 an_entry s); [done|done|done|].
  apply (events_reach (three_begun ++ [(0%nat, End); (1%nat, Resume)])); [|reflexivity]. repeat constructor; unfold file_event; cbn; tauto.
Defined.
Lemma readers_writers_finish_witness :
  exists s, threads s = [Reading; Waiting ToWrite true; Waiting ToRead true] /\ Acc (flip (step_by going_on)) s.
Proof.
  set (s := mk_sharing (with_writer_tid 1 (with_readernum 1 an_entry)) [Reading; Waiting ToWrite true; Waiting ToRead true]).
  exists s. split; [done|]. apply (readers_writers_finish 3 an_entry s); [done|done|done|].
  apply (events_reach three_begun); [|reflexivity]. repeat constructor; unfold file_event; cbn; tauto.
Defined.
