(* ===== verification/Xprintf.v ===== *)
(** * lib/xprintf.c: formatted output

    [vxnprintf] and its callers, over a buffer and the console.  The variable
    arguments are the list of those passed; an argument that is missing or of
    the other kind is undefined behaviour, as in C. *)
From S2P Require Import Prelude Libc Cpu Semaphore.

(** ** The code *)

(** What the output goes to: the caller's buffer, the polling TTY. *)
Record io := mk_io { out_buffer : list Z; console : polltty }.

(** One variable argument: a word, or a pointer to a string. *)
Inductive vararg := Word (w : Z) | String (s : list Z).

Definition FLAG_TTY : Z := 0x8000.
Definition FLAG_SMALLS : Z := 0x01.
Definition FLAG_ALT : Z := 0x02.
Definition FLAG_ZEROPAD : Z := 0x04.
Definition FLAG_LEFT : Z := 0x08.
Definition FLAG_SPACE : Z := 0x10.
Definition FLAG_SIGN : Z := 0x20.
Definition flag (flags f : Z) : bool := negb (Z.land flags f =? 0).

(** [buf] is an index into the buffer. *)
Definition printc (buf c flags : Z) : M io unit := fun s =>
  if flag flags FLAG_TTY then
    if negb (c =? 0) then
      match polltty_putchar c (console s) with
      | Ret (_, t) => Ret (tt, mk_io (out_buffer s) t)
      | Fail f => Fail f
      end
    else Ret (tt, s)
  else
    match rset (out_buffer s) buf c with
    | Ret b => Ret (tt, mk_io b (console s))
    | Fail f => Fail f
    end.

(** ['0'..'9'], ['A'..'F'], ['0'..'9'], ['a'..'f'] *)
Definition digits : list Z := seqZ 48 10 ++ seqZ 65 6 ++ seqZ 48 10 ++ seqZ 97 6.

(** [rev] holds the [i] characters stored so far in the array of 11. *)
Definition rev_put (rev : list Z) (c : Z) : res (list Z) :=
  if zlen rev <? 11 then Ret (rev ++ [c]) else Fail Undef.
(** [do ... while (n != 0)] *)
Fixpoint rev_digits (fuel : nat) (rev : list Z) (n base flags : Z) : res (list Z) :=
  match fuel with
  | O => Fail Timeout
  | S fuel =>
      d ← rget digits (if flag flags FLAG_SMALLS then 16 + n mod base else n mod base);
      rev ← rev_put rev d;
      if n / base =? 0 then Ret rev else rev_digits fuel rev (n / base) base flags
  end.
(** [while (i < limit) rev[i++] = c] *)
Fixpoint rev_pad (fuel : nat) (rev : list Z) (limit c : Z) : res (list Z) :=
  match fuel with
  | O => Fail Timeout
  | S fuel => if zlen rev <? limit then rev ← rev_put rev c; rev_pad fuel rev limit c else Ret rev
  end.
(** [while (i >= 0 && written < size)] *)
Fixpoint put_reversed (fuel : nat) (buf : Z) (rev : list Z) (i written size flags : Z) : M io Z :=
  match fuel with
  | O => fail Timeout
  | S fuel =>
      if (i >=? 0) && (written <? size) then
        c ← lift (rget rev i);
        _ ← printc buf c flags;
        put_reversed fuel (buf + 1) rev (i - 1) (written + 1) size flags
      else mret written
  end.

Definition print_uint (buf size n base flags prec width : Z) : M io Z :=
  if size <=? 0 then mret 0
  else
    rev ← lift (rev_digits 33 [] n base flags);
    let prec := Z.min prec 11 in
    let width := Z.min width 11 in
    rev ← lift (rev_pad 12 rev prec 48);
    rev ← lift (rev_pad 12 rev width 32);
    put_reversed 13 buf rev (zlen rev - 1) 0 size flags.

Fixpoint scan_int (s : list Z) (value : Z) : res (Z * list Z) :=
  match s with
  | [] => Fail Undef
  | c :: s' =>
      if (schar c >? 48) && (schar c <? 57) then value ← int (10 * value + (schar c - 48)); scan_int s' value
      else Ret (value, s)
  end.

(** [*fmt++] *)
Definition next (fmt : list Z) : res (Z * list Z) :=
  match fmt with [] => Fail Undef | c :: fmt => Ret (c, fmt) end.

(** What the modifiers of one conversion say. *)
Record mods := mk_mods { m_flags : Z; m_width : Z; m_prec : Z }.

(** The [switch] on a modifier; [None] when [ch] is not one. *)
Definition modifier (ch : Z) (fmt : list Z) (m : mods) : res (option (list Z * mods)) :=
  let set f := Ret (Some (fmt, mk_mods (Z.lor (m_flags m) f) (m_width m) (m_prec m))) in
  if ch =? 35 then set FLAG_ALT
  else if ch =? 48 then set FLAG_ZEROPAD
  else if ch =? 32 then set FLAG_SPACE
  else if ch =? 43 then set FLAG_SIGN
  else if ch =? 45 then set FLAG_LEFT
  else if ch =? 46 then '(p, fmt) ← scan_int fmt 0; Ret (Some (fmt, mk_mods (m_flags m) (m_width m) p))
  else if (49 <=? ch) && (ch <=? 57) then
    '(w, fmt) ← scan_int (ch :: fmt) 0; Ret (Some (fmt, mk_mods (m_flags m) w (m_prec m)))
  else Ret None.
(** [do ... while (moremods && ch != '\0')]: the conversion character, the
    rest of the format and the modifiers. *)
Fixpoint read_modifiers (fuel : nat) (ch : Z) (fmt : list Z) (m : mods) : res (Z * list Z * mods) :=
  match fuel with
  | O => Fail Timeout
  | S fuel =>
      r ← modifier ch fmt m;
      match r with
      | None => Ret (ch, fmt, m)
      | Some (fmt, m) =>
          '(ch, fmt) ← next fmt;
          if ch =? 0 then Ret (ch, fmt, m) else read_modifiers fuel ch fmt m
      end
  end.

(** [va_arg(ap, int)], [va_arg(ap, unsigned int)], [va_arg(ap, char * )] *)
Definition va_word (ap : list vararg) : res (Z * list vararg) :=
  match ap with Word w :: ap => Ret (w, ap) | _ => Fail Undef end.
Definition va_string (ap : list vararg) : res (list Z * list vararg) :=
  match ap with String s :: ap => Ret (s, ap) | _ => Fail Undef end.

(** [while (written < w && *s != '\0')]; [written] and [buf] advance together. *)
Fixpoint put_string (s : list Z) (buf written w flags : Z) : M io Z :=
  if written <? w then
    match s with
    | [] => fail Undef
    | c :: s =>
        if c =? 0 then mret written
        else _ ← printc buf c flags; put_string s (buf + 1) (written + 1) w flags
    end
  else mret written.

(** The cases ['o'], ['u'], ['x'] and ['X'] end alike. *)
Definition print_unsigned (buf written size : Z) (ap : list vararg) (base flags prec width : Z) : M io (Z * Z * list vararg) :=
  let prec := if (prec <? width) && flag flags FLAG_ZEROPAD then width else prec in
  '(uarg, ap) ← lift (va_word ap);
  w ← print_uint buf (size - written) (u32 uarg) base flags prec width;
  mret (buf + w, written + w, ap).

(** The [switch] on the type of the argument. *)
Definition conversion (ch : Z) (m : mods) (buf written size : Z) (ap : list vararg) : M io (Z * Z * list vararg) :=
  let flags := m_flags m in
  let width := m_width m in
  let prec := m_prec m in
  if (ch =? 105) || (ch =? 100) then
    '(arg, ap) ← lift (va_word ap);
    let arg := i32 arg in
    '(buf, written, arg) ←
      (if arg <? 0 then _ ← printc buf 45 flags; arg ← lift (int (- arg)); mret (buf + 1, written + 1, arg)
       else mret (buf, written, arg));
    '(buf, written) ←
      (if flag flags FLAG_SIGN then _ ← printc buf 43 flags; mret (buf + 1, written + 1)
       else if flag flags FLAG_SPACE then _ ← printc buf 32 flags; mret (buf + 1, written + 1)
       else mret (buf, written));
    w ← print_uint buf (size - written) arg 10 flags 0 0;
    mret (buf + w, written + w, ap)
  else if ch =? 111 then print_unsigned buf written size ap 8 flags prec width
  else if ch =? 117 then print_unsigned buf written size ap 10 flags prec width
  else if (ch =? 112) || (ch =? 120) || (ch =? 88) then
    let flags := if ch =? 112 then Z.lor flags FLAG_ALT else flags in
    let flags := if (ch =? 112) || (ch =? 120) then Z.lor flags FLAG_SMALLS else flags in
    if flag flags FLAG_ALT then
      _ ← printc buf 48 flags;
      '(buf, written) ←
        (if written + 1 <? size then _ ← printc (buf + 1) 120 flags; mret (buf + 2, written + 2)
         else mret (buf + 1, written + 1));
      print_unsigned buf written size ap 16 flags prec (width - 2)
    else print_unsigned buf written size ap 16 flags prec width
  else if ch =? 99 then
    '(arg, ap) ← lift (va_word ap);
    _ ← printc buf (arg mod 256) flags;
    mret (buf + 1, written + 1, ap)
  else if ch =? 115 then
    '(s, ap) ← lift (va_string ap);
    w ← lift (if prec =? -1 then Ret size else x ← int (written + prec); Ret (if x <? size then x else size));
    n ← put_string s buf written w flags;
    mret (buf + (n - written), n, ap)
  else
    _ ← printc buf ch flags;
    mret (buf + 1, written + 1, ap).

(** [while (written < size)]: where the output ends and its length. *)
Fixpoint format_loop (fuel : nat) (buf written size : Z) (fmt : list Z) (ap : list vararg) (flags : Z) : M io (Z * Z) :=
  match fuel with
  | O => fail Timeout
  | S fuel =>
      if written <? size then
        '(ch, fmt) ← lift (next fmt);
        if ch =? 0 then mret (buf, written)
        else if negb (ch =? 37) then _ ← printc buf ch flags; format_loop fuel (buf + 1) (written + 1) size fmt ap flags
        else
          '(ch, fmt) ← lift (next fmt);
          if ch =? 0 then mret (buf, written)
          else
            '(ch, fmt, m) ← lift (read_modifiers (S (length fmt)) ch fmt (mk_mods (Z.land flags FLAG_TTY) (-1) (-1)));
            if ch =? 0 then mret (buf, written)
            else
              '(buf, written, ap) ← conversion ch m buf written size ap;
              format_loop fuel buf written size fmt ap (m_flags m)
      else mret (buf, written)
  end.
Definition vxnprintf (buf size : Z) (fmt : list Z) (ap : list vararg) (flags : Z) : M io Z :=
  if size <=? 0 then mret 0
  else
    '(buf, written) ← format_loop (S (length fmt)) buf 0 size fmt ap flags;
    if written =? size then _ ← printc (buf - 1) 0 flags; mret (-1)
    else _ ← printc buf 0 flags; mret written.

Definition vsnprintf (size : Z) (fmt : list Z) (ap : list vararg) : M io Z := vxnprintf 0 size fmt ap 0.
Definition snprintf (size : Z) (fmt : list Z) (ap : list vararg) : M io Z := vxnprintf 0 size fmt ap 0.

(** Printing to the console, by one processor at a time. *)
Record printer := mk_printer { pr_cpu : cpu; pr_io : io }.
#[export] Instance HasCpu_printer : HasCpu printer.
Proof.
  refine {| cpu_of := pr_cpu; with_cpu c s := mk_printer c (pr_io s) |}; [done|by intros []|done].
Defined.
Definition on_io {A} (m : M io A) : M printer A := fun s =>
  match m (pr_io s) with Ret (a, x) => Ret (a, mk_printer (pr_cpu s) x) | Fail f => Fail f end.

Section kprintf.
Context (kprintf_slock : Z).
Definition kvprintf (fmt : list Z) (ap : list vararg) : M printer Z :=
  critical kprintf_slock (on_io (vxnprintf 0 0x7fffffff fmt ap FLAG_TTY)).
Definition kprintf (fmt : list Z) (ap : list vararg) : M printer Z :=
  critical kprintf_slock (on_io (vxnprintf 0 0x7fffffff fmt ap FLAG_TTY)).
End kprintf.

(** ** What a format means *)

(** Digits of [n], least significant first; one digit for 0. *)
Fixpoint lsd (fuel : nat) (base n : Z) : list Z :=
  match fuel with
  | O => []
  | S fuel => n mod base :: (if n / base =? 0 then [] else lsd fuel base (n / base))
  end.
Definition digit_char (smalls : bool) (d : Z) : Z := if d <? 10 then d + 48 else if smalls then d + 87 else d + 55.
(** At least [k] characters, by padding on the left. *)
Definition pad (c k : Z) (l : list Z) : list Z := replicate (Z.to_nat (k - zlen l)) c ++ l.
Definition uint_text (smalls : bool) (base prec width n : Z) : list Z :=
  pad 32 (Z.min width 11) (pad 48 (Z.min prec 11) (digit_char smalls <$> reverse (lsd 33 base n))).

(** The characters of one conversion and the arguments left; [None] where the
    behaviour is undefined or the code leaves its buffer. *)
Definition conv_unsigned (smalls : bool) (base : Z) (m : mods) (width : Z) (ap : list vararg) : option (list Z * list vararg) :=
  match ap with
  | Word w :: ap =>
      let prec := if (m_prec m <? width) && flag (m_flags m) FLAG_ZEROPAD then width else m_prec m in
      Some (uint_text smalls base prec width (u32 w), ap)
  | _ => None
  end.
Definition conv_output (c : Z) (m : mods) (ap : list vararg) : option (list Z * list vararg) :=
  if (c =? 105) || (c =? 100) then
    match ap with
    | Word w :: ap =>
        let n := i32 w in
        let sign := if flag (m_flags m) FLAG_SIGN then [43] else if flag (m_flags m) FLAG_SPACE then [32] else [] in
        if n <? 0 then
          if (n =? -2147483648) || negb (bool_decide (sign = [])) then None
          else Some (45 :: uint_text false 10 0 0 (- n), ap)
        else Some (sign ++ uint_text false 10 0 0 n, ap)
    | _ => None
    end
  else if c =? 111 then conv_unsigned false 8 m (m_width m) ap
  else if c =? 117 then conv_unsigned false 10 m (m_width m) ap
  else if (c =? 112) || (c =? 120) || (c =? 88) then
    let smalls := negb (c =? 88) in
    if (c =? 112) || flag (m_flags m) FLAG_ALT then
      '(l, ap) ← conv_unsigned smalls 16 m (m_width m - 2) ap; Some (48 :: 120 :: l, ap)
    else conv_unsigned smalls 16 m (m_width m) ap
  else if c =? 99 then match ap with Word w :: ap => Some ([w mod 256], ap) | _ => None end
  else if c =? 115 then
    match ap with
    | String s :: ap =>
        s ← cstr s;
        if m_prec m =? -1 then Some (s, ap)
        else if m_prec m <=? 65536 then Some (take (Z.to_nat (m_prec m)) s, ap) else None
    | _ => None
    end
  else Some ([c], ap).

Lemma flag_lor a f g : flag (Z.lor a f) g = flag a g || flag f g.
Proof.
  unfold flag. rewrite Z.land_lor_distr_l.
  destruct (Z.eqb_spec (Z.land a g) 0) as [->|Ha]; [rewrite Z.lor_0_l; done|].
  destruct (Z.eqb_spec (Z.lor (Z.land a g) (Z.land f g)) 0) as [[? _]%Z.lor_eq_0_iff|]; [done|done].
Qed.

(** Flags of constants, by evaluation. *)
Ltac flags_eval :=
  rewrite ?flag_lor;
  repeat match goal with
  | |- context [flag ?f ?g] =>
      lazymatch f with
      | FLAG_ALT => idtac | FLAG_SMALLS => idtac | FLAG_ZEROPAD => idtac
      | FLAG_SPACE => idtac | FLAG_SIGN => idtac | FLAG_LEFT => idtac
      end;
      let v := eval vm_compute in (flag f g) in change (flag f g) with v
  end.

(** *** Formats: characters and conversions with flags, a width and a
    precision.  The digits of a width or a precision are 1 to 8: [scan_int]
    stops at 0 and at 9. *)
Record spec := mk_spec { sp_flags : list Z; sp_width : list Z; sp_prec : option (list Z); sp_conv : Z }.
Inductive item := Lit (c : Z) | Conv (sp : spec).

Definition flag_of (c : Z) : Z :=
  if c =? 35 then FLAG_ALT else if c =? 48 then FLAG_ZEROPAD else if c =? 32 then FLAG_SPACE
  else if c =? 43 then FLAG_SIGN else FLAG_LEFT.
Definition number (ds : list Z) : Z := digits_value 0 ((fun c => c - 48) <$> ds).
Definition number_ok (ds : list Z) : Prop := Forall (fun c => 49 <= c <= 56) ds /\ is_i32 (number ds).

Definition is_flag (c : Z) : Prop := c ∈ [35; 48; 32; 43; 45].
Definition is_conv (c : Z) : Prop := is_byte c /\ c <> 0 /\ ~ is_flag c /\ c <> 46 /\ ~ (49 <= c <= 57).
Record spec_ok (sp : spec) : Prop := {
  sk_flags : Forall is_flag (sp_flags sp);
  sk_width : number_ok (sp_width sp);
  sk_prec : forall ds, sp_prec sp = Some ds -> number_ok ds;
  sk_conv : is_conv (sp_conv sp)
}.
Definition item_ok (x : item) : Prop :=
  match x with Lit c => c <> 0 /\ c <> 37 | Conv sp => spec_ok sp end.

Definition spec_mods (tty : bool) (sp : spec) : mods :=
  mk_mods (foldl (fun f c => Z.lor f (flag_of c)) (if tty then FLAG_TTY else 0) (sp_flags sp))
    (match sp_width sp with [] => -1 | ds => number ds end)
    (match sp_prec sp with None => -1 | Some ds => number ds end).

Definition render_tail (sp : spec) : list Z :=
  sp_width sp ++ match sp_prec sp with None => [] | Some ds => 46 :: ds end ++ [sp_conv sp].
Definition render (x : item) : list Z :=
  match x with Lit c => [c] | Conv sp => 37 :: sp_flags sp ++ render_tail sp end.
Definition render_all (l : list item) : list Z := mjoin (render <$> l).

(** The text of a format and its arguments. *)
Fixpoint output (tty : bool) (l : list item) (ap : list vararg) : option (list Z) :=
  match l with
  | [] => Some []
  | Lit c :: l => (c ::.) <$> output tty l ap
  | Conv sp :: l => '(o, ap) ← conv_output (sp_conv sp) (spec_mods tty sp) ap; (o ++.) <$> output tty l ap
  end.

(** *** Digits and padding *)

Lemma lsd_range fuel base n : 0 < base -> Forall (fun d => 0 <= d < base) (lsd fuel base n).
Proof.
  intros Hb. revert n. induction fuel as [|fuel IH]; intros n; cbn [lsd]; constructor.
  - by apply Z.mod_pos_bound.
  - case_match; [constructor|apply IH].
Qed.

Lemma length_lsd fuel base n k : 2 <= base -> 0 <= n < base ^ Z.of_nat k -> (1 <= k)%nat -> (length (lsd fuel base n) <= k)%nat.
Proof.
  intros Hb. revert n k. induction fuel as [|fuel IH]; intros n k Hn Hk; cbn [lsd length]; [lia|].
  destruct (Z.eqb_spec (n / base) 0) as [Hz|Hnz]; cbn [length]; [lia|].
  destruct k as [|k]; [lia|]. rewrite Nat2Z.inj_succ, Z.pow_succ_r in Hn by lia.
  assert (Hdiv : 0 <= n / base < base ^ Z.of_nat k) by (split; [apply Z.div_pos; lia|apply Z.div_lt_upper_bound; lia]).
  destruct k as [|k]; [cbn in Hdiv; lia|]. specialize (IH (n / base) (S k) Hdiv ltac:(lia)). lia.
Qed.

Lemma digits_get (smalls : bool) d : 0 <= d < 16 -> rget digits (if smalls then 16 + d else d) = Ret (digit_char smalls d).
Proof.
  intros Hd. apply rget_Ret. split; [destruct smalls; lia|].
  assert (Hall : Forall (fun d => digits !! Z.to_nat (if smalls then 16 + d else d) = Some (digit_char smalls d)) (seqZ 0 16)).
  { apply (bool_decide_unpack _). destruct smalls; vm_compute; exact I. }
  rewrite Forall_forall in Hall. apply Hall, elem_of_seqZ. lia.
Qed.

Lemma rev_digits_run fuel rev n base flags :
  2 <= base <= 16 -> 0 <= n < 2 ^ Z.of_nat fuel -> (1 <= fuel)%nat -> zlen rev + zlen (lsd fuel base n) <= 11 ->
  rev_digits fuel rev n base flags = Ret (rev ++ (digit_char (flag flags FLAG_SMALLS) <$> lsd fuel base n)).
Proof.
  intros Hb. revert rev n. induction fuel as [|fuel IH]; intros rev n Hn Hf Hl; [lia|].
  cbn [rev_digits lsd]. rewrite (digits_get (flag flags FLAG_SMALLS)).
  2: { pose proof (Z.mod_pos_bound n base). lia. }
  unfold mbind, res_bind, rev_put. cbn [lsd length] in Hl. rewrite (proj2 (Z.ltb_lt (zlen rev) 11)) by lia.
  destruct (Z.eqb_spec (n / base) 0) as [Hz|Hnz]; [done|].
  rewrite Nat2Z.inj_succ, Z.pow_succ_r in Hn by lia.
  assert (Hdiv : 0 <= n / base < 2 ^ Z.of_nat fuel).
  { split; [apply Z.div_pos; lia|]. apply Z.div_lt_upper_bound; [lia|]. nia. }
  assert (1 <= fuel)%nat by (destruct fuel; [cbn in Hdiv; lia|lia]).
  rewrite IH; [|lia|done|rewrite length_app; cbn [length]; lia]. cbn [fmap list_fmap]. by rewrite <- app_assoc.
Qed.

Lemma rev_pad_run fuel rev limit c :
  limit <= 11 -> (Z.to_nat (limit - zlen rev) < fuel)%nat ->
  rev_pad fuel rev limit c = Ret (rev ++ replicate (Z.to_nat (limit - zlen rev)) c).
Proof.
  intros Hl. revert rev. induction fuel as [|fuel IH]; intros rev Hf; [lia|]. cbn [rev_pad].
  destruct (Z.ltb_spec (zlen rev) limit) as [Hlt|Hge].
  - unfold rev_put. rewrite (proj2 (Z.ltb_lt (zlen rev) 11)) by lia. unfold mbind, res_bind.
    rewrite IH by (rewrite length_app; cbn [length]; lia). rewrite length_app. cbn [length].
    replace (Z.to_nat (limit - zlen rev)) with (S (Z.to_nat (limit - Z.of_nat (length rev + 1)))) by lia.
    cbn [replicate]. by rewrite <- app_assoc.
  - replace (Z.to_nat (limit - zlen rev)) with 0%nat by lia. cbn. by rewrite app_nil_r.
Qed.

Lemma length_pad c k l : zlen (pad c k l) = Z.max (zlen l) k.
Proof. unfold pad. rewrite length_app, length_replicate. lia. Qed.
Lemma reverse_pad c k l : reverse (pad c k l) = reverse l ++ replicate (Z.to_nat (k - zlen l)) c.
Proof. unfold pad. rewrite reverse_app, reverse_replicate. done. Qed.

(** *** Reading the modifiers *)

Definition read_from (fuel : nat) (s : list Z) (m : mods) : res (Z * list Z * mods) :=
  '(ch, fmt) ← next s; if ch =? 0 then Ret (ch, fmt, m) else read_modifiers fuel ch fmt m.

Lemma scan_int_run ds c rest acc :
  Forall (fun c => 49 <= c <= 56) ds -> (schar c >? 48) && (schar c <? 57) = false -> 0 <= acc ->
  is_i32 (digits_value acc ((fun c => c - 48) <$> ds)) ->
  scan_int (ds ++ c :: rest) acc = Ret (digits_value acc ((fun c => c - 48) <$> ds), c :: rest).
Proof.
  intros Hds Hc. revert acc. induction Hds as [|d ds Hd Hds IH]; intros acc Ha Hr; cbn [app scan_int].
  { by rewrite Hc. }
  rewrite schar_id by (unfold ascii; lia). rewrite Z.gtb_ltb, (proj2 (Z.ltb_lt 48 d)), (proj2 (Z.ltb_lt d 57)) by lia. cbn [andb].
  assert (Hge : 10 * acc + (d - 48) <= digits_value (10 * acc + (d - 48)) ((fun c => c - 48) <$> ds)).
  { apply digits_value_ge; [lia|]. apply Forall_fmap. eapply Forall_impl; [exact Hds|]. intros x Hx. cbn in *. lia. }
  unfold is_i32 in Hr. cbn in Hr. unfold digits_value in *. unfold int. rewrite decide_True by (unfold is_i32; lia).
  unfold mbind, res_bind. rewrite IH by (unfold is_i32; lia). done.
Qed.

Lemma read_flag fuel c s m :
  is_flag c -> read_modifiers (S fuel) c s m = read_from fuel s (mk_mods (Z.lor (m_flags m) (flag_of c)) (m_width m) (m_prec m)).
Proof. unfold is_flag. rewrite !elem_of_cons, elem_of_nil. intros [->|[->|[->|[->|[->|[]]]]]]; done. Qed.

Lemma conv_stops c : is_conv c \/ c = 46 -> (schar c >? 48) && (schar c <? 57) = false.
Proof.
  intros Hc. assert (is_byte c /\ ~ (49 <= c <= 57)) as [Hb Hn].
  { destruct Hc as [(? & _ & _ & _ & ?)| ->]; [done|]. unfold is_byte. lia. }
  unfold is_byte in Hb. rewrite Z.gtb_ltb. apply andb_false_iff. unfold schar.
  destruct (decide (c < 128)).
  - rewrite Z.mod_small by lia. rewrite !Z.ltb_ge. lia.
  - left. apply Z.ltb_ge. replace (c + 128) with (c - 128 + 1 * 256) by lia. rewrite Z.mod_add, Z.mod_small by lia. lia.
Qed.

Lemma read_width fuel d ds c rest m :
  number_ok (d :: ds) -> (schar c >? 48) && (schar c <? 57) = false ->
  read_modifiers (S fuel) d (ds ++ c :: rest) m = read_from fuel (c :: rest) (mk_mods (m_flags m) (number (d :: ds)) (m_prec m)).
Proof.
  intros [Hds Hr] Hc. pose proof (Forall_inv Hds) as Hd. cbn in Hd. cbn [read_modifiers]. unfold modifier.
  destruct (Z.eqb_spec d 35), (Z.eqb_spec d 48), (Z.eqb_spec d 32), (Z.eqb_spec d 43), (Z.eqb_spec d 45), (Z.eqb_spec d 46); try lia.
  rewrite (proj2 (Z.leb_le 49 d)), (proj2 (Z.leb_le d 57)) by lia. cbn [andb].
  change (d :: ds ++ c :: rest) with ((d :: ds) ++ c :: rest). rewrite scan_int_run by (done || lia). done.
Qed.

Lemma read_prec fuel ds c rest m :
  number_ok ds -> (schar c >? 48) && (schar c <? 57) = false ->
  read_modifiers (S fuel) 46 (ds ++ c :: rest) m = read_from fuel (c :: rest) (mk_mods (m_flags m) (m_width m) (number ds)).
Proof. intros [Hds Hr] Hc. cbn [read_modifiers]. unfold modifier. cbn [Z.eqb]. cbn. rewrite scan_int_run by (done || lia). done. Qed.

Lemma read_conv fuel c rest m : is_conv c -> read_from (S fuel) (c :: rest) m = Ret (c, rest, m).
Proof.
  intros (Hb & Hnz & Hf & Hdot & Hd). unfold read_from. cbn. apply Z.eqb_neq in Hnz as ->. unfold modifier, is_flag in *.
  rewrite !not_elem_of_cons in Hf. destruct Hf as (F1 & F2 & F3 & F4 & F5 & _).
  rewrite (proj2 (Z.eqb_neq _ _) F1), (proj2 (Z.eqb_neq _ _) F2), (proj2 (Z.eqb_neq _ _) F3), (proj2 (Z.eqb_neq _ _) F4),
    (proj2 (Z.eqb_neq _ _) F5), (proj2 (Z.eqb_neq _ _) Hdot).
  destruct (Z.leb_spec 49 c), (Z.leb_spec c 57); try lia; done.
Qed.

Lemma read_from_unfold fuel c s m : c <> 0 -> read_from fuel (c :: s) m = read_modifiers fuel c s m.
Proof. intros Hc. unfold read_from. cbn. by apply Z.eqb_neq in Hc as ->. Qed.

(** The width and the precision. *)
Lemma read_tail fuel sp rest m :
  spec_ok sp -> (length (render_tail sp) <= fuel)%nat -> m_width m = -1 -> m_prec m = -1 ->
  read_from fuel (render_tail sp ++ rest) m =
    Ret (sp_conv sp, rest, mk_mods (m_flags m) (m_width (spec_mods true sp)) (m_prec (spec_mods true sp))).
Proof.
  intros [_ Hw Hp Hc] Hfuel Hmw Hmp. destruct m as [fl w p]. cbn in Hmw, Hmp. subst w p. cbn [m_flags].
  assert (Hend : forall fuel w, (length (match sp_prec sp with None => [] | Some ds => 46%Z :: ds end ++ [sp_conv sp]) <= fuel)%nat ->
    read_from fuel ((match sp_prec sp with None => [] | Some ds => 46 :: ds end ++ [sp_conv sp]) ++ rest) (mk_mods fl w (-1)) =
      Ret (sp_conv sp, rest, mk_mods fl w (m_prec (spec_mods true sp)))).
  { clear fuel Hfuel. intros fuel w Hfuel. cbn [spec_mods m_prec]. destruct (sp_prec sp) as [ds|]; cbn [app length] in *.
    - destruct fuel as [|fuel]; [lia|]. rewrite read_from_unfold by done. rewrite <- app_assoc. cbn [app].
      rewrite read_prec by (by apply Hp || by apply conv_stops; left). rewrite length_app in Hfuel. cbn in Hfuel.
      destruct fuel as [|fuel]; [lia|]. by rewrite read_conv.
    - destruct fuel as [|fuel]; [lia|]. by rewrite read_conv. }
  unfold render_tail in *. cbn [spec_mods m_width]. destruct (sp_width sp) as [|d ds] eqn:Ew; [by apply Hend|].
  rewrite <- app_assoc. pose proof (Forall_inv (proj1 Hw)) as Hd. cbn in Hd. cbn [app].
  rewrite read_from_unfold by lia. cbn [app length] in Hfuel. rewrite length_app in Hfuel. destruct fuel as [|fuel]; [lia|].
  assert (Hnext : exists c r, (match sp_prec sp with None => [] | Some ds => 46 :: ds end ++ [sp_conv sp]) ++ rest = c :: r /\
    (is_conv c \/ c = 46)).
  { destruct (sp_prec sp) as [ps|]; cbn [app]; eauto. }
  destruct Hnext as (c & r & Heq & Hcr). rewrite Heq. rewrite read_width by (done || by apply conv_stops). rewrite <- Heq.
  apply Hend. lia.
Qed.

Lemma read_flags fuel fs sp rest m :
  spec_ok sp -> Forall is_flag fs -> (length fs + length (render_tail sp) <= fuel)%nat -> m_width m = -1 -> m_prec m = -1 ->
  read_from fuel (fs ++ render_tail sp ++ rest) m =
    Ret (sp_conv sp, rest, mk_mods (foldl (fun f c => Z.lor f (flag_of c)) (m_flags m) fs)
      (m_width (spec_mods true sp)) (m_prec (spec_mods true sp))).
Proof.
  intros Hsp Hfs. revert fuel m. induction Hfs as [|c fs Hc Hfs IH]; intros fuel m Hfuel Hw Hp; cbn [app foldl length] in *.
  { by apply read_tail. }
  destruct fuel as [|fuel]; [lia|]. rewrite read_from_unfold.
  2: { intros ->. unfold is_flag in Hc. set_solver. }
  rewrite read_flag by done. by rewrite IH by (done || lia).
Qed.

(** ** Characters *)

(** The state after the characters [cur] have been output, from [s0]. *)
Definition sink (tty : bool) (s0 : io) (cur : list Z) : io :=
  if tty then
    mk_io (out_buffer s0)
      (mk_polltty (polltty_present (console s0)) (tty_in (console s0))
         (tty_out (console s0) ++ if polltty_present (console s0) then filter (.≠ 0) cur else []))
  else mk_io (splice (out_buffer s0) 0 cur) (console s0).

Section output.
Context (tty : bool) (s0 : io) (size : Z).
Context (Hroom : tty = false -> size <= zlen (out_buffer s0)).
Implicit Types (cur l : list Z).

Lemma printc_run cur c flags :
  flag flags FLAG_TTY = tty -> zlen cur < size -> printc (zlen cur) c flags (sink tty s0 cur) = Ret (tt, sink tty s0 (cur ++ [c])).
Proof.
  intros Hf Hlt. unfold printc. rewrite Hf. unfold sink. destruct tty.
  - rewrite filter_app. destruct (polltty_present (console s0)) eqn:Ep; cbn -[filter].
    + destruct (Z.eqb_spec c 0) as [->|Hc]; cbn -[filter].
      * rewrite filter_cons_False by auto. by rewrite app_nil_r.
      * unfold polltty_putchar, modify. cbn -[filter]. by rewrite filter_cons_True, app_assoc by done.
    + destruct (Z.eqb_spec c 0) as [->|Hc]; cbn -[filter]; [done|]. unfold polltty_putchar, modify. cbn -[filter]. done.
  - specialize (Hroom eq_refl). cbn [out_buffer console].
    assert (Hl : length (splice (out_buffer s0) 0 cur) = length (out_buffer s0)) by (rewrite length_splice; lia).
    rewrite rset_splice by lia. do 2 f_equal. f_equal. rewrite Nat2Z.id.
    rewrite <- (splice_splice_app (out_buffer s0) 0 cur [c]) by (cbn; lia). done.
Qed.

Lemma put_reversed_run fuel cur xs tl w flags :
  flag flags FLAG_TTY = tty -> 0 <= w -> zlen cur + (size - zlen cur - w) <= size -> 0 <= zlen cur -> (length xs < fuel)%nat ->
  put_reversed fuel (zlen cur) (reverse xs ++ tl) (zlen xs - 1) w (size - (zlen cur - w)) flags (sink tty s0 cur) =
    Ret (w + zlen (take (Z.to_nat (size - zlen cur)) xs), sink tty s0 (cur ++ take (Z.to_nat (size - zlen cur)) xs)).
Proof.
  intros Hf. revert fuel cur tl w. induction xs as [|x xs IH]; intros fuel cur tl w Hw Hs Hc Hfuel.
  { destruct fuel; [lia|]. cbn [put_reversed]. rewrite take_nil, app_nil_r. cbn. unfold mret, M_ret. by rewrite Z.add_0_r. }
  destruct fuel as [|fuel]; [cbn in Hfuel; lia|]. cbn [put_reversed]. cbn [length] in *.
  rewrite Z.geb_leb, (proj2 (Z.leb_le 0 _)) by lia. cbn [andb].
  destruct (Z.ltb_spec w (size - (zlen cur - w))) as [Hlt|Hge].
  2: { replace (Z.to_nat (size - zlen cur)) with 0%nat by lia. rewrite take_0, app_nil_r. cbn. unfold mret, M_ret. by rewrite Z.add_0_r. }
  assert (Hget : rget (reverse (x :: xs) ++ tl) (Z.of_nat (S (length xs)) - 1) = Ret x).
  { apply rget_Ret. split; [lia|]. rewrite reverse_cons, <- app_assoc, lookup_app_r by (rewrite length_reverse; lia).
    rewrite length_reverse. replace (Z.to_nat _ - length xs)%nat with 0%nat by lia. done. }
  rewrite Hget. unfold mbind, M_bind, lift. rewrite printc_run by (done || lia).
  rewrite reverse_cons, <- app_assoc. cbn [app].
  replace (Z.of_nat (S (length xs)) - 1 - 1) with (zlen xs - 1) by lia.
  assert (Hc1 : zlen (cur ++ [x]) = zlen cur + 1) by (rewrite length_app; cbn; lia).
  specialize (IH fuel (cur ++ [x]) (x :: tl) (w + 1)). rewrite Hc1 in IH.
  replace (size - (zlen cur + 1 - (w + 1))) with (size - (zlen cur - w)) in IH by lia. rewrite IH by lia.
  replace (Z.to_nat (size - zlen cur)) with (S (Z.to_nat (size - (zlen cur + 1)))) by lia. cbn [take].
  rewrite <- app_assoc. cbn [app length]. do 2 f_equal. lia.
Qed.

Lemma print_uint_run cur n base flags prec width :
  flag flags FLAG_TTY = tty -> zlen cur <= size -> 8 <= base <= 16 -> is_u32 n ->
  let l := take (Z.to_nat (size - zlen cur)) (uint_text (flag flags FLAG_SMALLS) base prec width n) in
  print_uint (zlen cur) (size - zlen cur) n base flags prec width (sink tty s0 cur) = Ret (zlen l, sink tty s0 (cur ++ l)).
Proof.
  intros Hf Hs Hb Hn l. unfold print_uint. destruct (Z.leb_spec (size - zlen cur) 0) as [Hle|Hgt].
  { subst l. replace (Z.to_nat (size - zlen cur)) with 0%nat by lia. rewrite take_0, app_nil_r. done. }
  set (smalls := flag flags FLAG_SMALLS) in *. unfold is_u32 in Hn.
  assert (Hlen : (length (lsd 33 base n) <= 11)%nat).
  { apply length_lsd; [lia| |lia]. assert (8 ^ 11 <= base ^ Z.of_nat 11) by (apply Z.pow_le_mono_l; lia). change (8 ^ 11) with 8589934592 in *. lia. }
  set (ds := digit_char smalls <$> reverse (lsd 33 base n)).
  assert (Hds : zlen ds <= 11) by (subst ds; rewrite length_fmap, length_reverse; lia).
  unfold mbind, M_bind, lift. rewrite rev_digits_run; [|lia|change (2 ^ Z.of_nat 33) with 8589934592; lia|lia|cbn [length]; lia].
  cbn [app]. fold smalls. assert (Hrev : digit_char smalls <$> lsd 33 base n = reverse ds).
  { subst ds. by rewrite <- fmap_reverse, reverse_involutive. }
  rewrite Hrev. rewrite rev_pad_run by (rewrite ?length_reverse; lia). rewrite length_reverse, <- reverse_pad.
  assert (Hp1 : zlen (pad 48 (Z.min prec 11) ds) <= 11) by (rewrite length_pad; lia).
  rewrite rev_pad_run by (rewrite ?length_reverse; lia). rewrite length_reverse, <- reverse_pad.
  assert (Hp2 : zlen (pad 32 (Z.min width 11) (pad 48 (Z.min prec 11) ds)) <= 11) by (rewrite length_pad; lia).
  change (pad 32 (Z.min width 11) (pad 48 (Z.min prec 11) ds)) with (uint_text smalls base prec width n) in *.
  pose proof (put_reversed_run 13 cur (uint_text smalls base prec width n) [] 0 flags Hf ltac:(lia) ltac:(lia) ltac:(lia) ltac:(lia)) as Hput.
  rewrite app_nil_r, Z.sub_0_r in Hput. rewrite length_reverse. apply Hput.
Qed.

(** [cur] and then as much of [out] as fits. *)
Definition more cur (out : list Z) : list Z := cur ++ take (Z.to_nat (size - zlen cur)) out.

Lemma more_nil cur : more cur [] = cur.
Proof. unfold more. by rewrite take_nil, app_nil_r. Qed.
Lemma more_cons cur c out : zlen cur < size -> more cur (c :: out) = more (cur ++ [c]) out.
Proof.
  intros Hlt. unfold more. rewrite length_app. cbn [length].
  replace (Z.to_nat (size - zlen cur)) with (S (Z.to_nat (size - Z.of_nat (length cur + 1)))) by lia.
  cbn [take]. by rewrite <- app_assoc.
Qed.
Lemma more_full cur out : size <= zlen cur -> more cur out = cur.
Proof. intros Hge. unfold more. replace (Z.to_nat (size - zlen cur)) with 0%nat by lia. by rewrite take_0, app_nil_r. Qed.
Lemma length_more cur out : zlen cur <= size -> zlen (more cur out) = Z.min size (zlen cur + zlen out).
Proof. intros H. unfold more. rewrite length_app, length_take. lia. Qed.
Lemma more_app cur l out : zlen cur <= size -> more (more cur l) out = more cur (l ++ out).
Proof.
  intros Hc. revert cur Hc. induction l as [|c l IH]; intros cur Hc; [by rewrite more_nil|].
  destruct (decide (zlen cur < size)) as [Hlt|Hge].
  - cbn [app]. rewrite !more_cons by done. apply IH. rewrite length_app. cbn. lia.
  - rewrite !(more_full cur) by lia. done.
Qed.

Lemma print_uint_more cur n base flags prec width :
  flag flags FLAG_TTY = tty -> zlen cur <= size -> 8 <= base <= 16 -> is_u32 n ->
  let cur' := more cur (uint_text (flag flags FLAG_SMALLS) base prec width n) in
  print_uint (zlen cur) (size - zlen cur) n base flags prec width (sink tty s0 cur) = Ret (zlen cur' - zlen cur, sink tty s0 cur').
Proof. intros. rewrite print_uint_run by done. subst cur'. unfold more. do 2 f_equal. rewrite length_app. lia. Qed.

Lemma print_unsigned_run cur ap base m flags width out ap' :
  flag flags FLAG_TTY = tty -> zlen cur <= size -> 8 <= base <= 16 -> flag flags FLAG_ZEROPAD = flag (m_flags m) FLAG_ZEROPAD ->
  conv_unsigned (flag flags FLAG_SMALLS) base m width ap = Some (out, ap') ->
  print_unsigned (zlen cur) (zlen cur) size ap base flags (m_prec m) width (sink tty s0 cur) =
    Ret (zlen (more cur out), zlen (more cur out), ap', sink tty s0 (more cur out)).
Proof.
  intros Hf Hs Hb Hz. unfold conv_unsigned, print_unsigned. destruct ap as [|[w|] ap]; [done| |done]. rewrite Hz.
  intros [= <- <-]. cbn [va_word]. unfold mbind, M_bind. cbn [lift]. rewrite print_uint_more by (done || apply u32_range).
  unfold mret, M_ret. repeat f_equal; lia.
Qed.

Lemma put_string_run s str cur w flags :
  flag flags FLAG_TTY = tty -> zlen cur <= size -> w <= size -> cstr s = Some str ->
  let cur' := cur ++ take (Z.to_nat (w - zlen cur)) str in
  put_string s (zlen cur) (zlen cur) w flags (sink tty s0 cur) = Ret (zlen cur', sink tty s0 cur').
Proof.
  intros Hf. revert str cur. induction s as [|c s IH]; intros str cur Hs Hw Hstr; [done|]. cbv zeta. cbn [put_string].
  destruct (Z.ltb_spec (zlen cur) w) as [Hlt|Hge].
  2: { replace (Z.to_nat (w - zlen cur)) with 0%nat by lia. by rewrite take_0, app_nil_r. }
  apply cstr_cons in Hstr as [[-> ->]|(Hc & str' & Hstr & ->)]; [by rewrite take_nil, app_nil_r|].
  apply Z.eqb_neq in Hc as ->. unfold mbind, M_bind. rewrite printc_run by (done || lia).
  assert (Hl : zlen (cur ++ [c]) = zlen cur + 1) by (rewrite length_app; cbn; lia). rewrite <- Hl.
  rewrite (IH str') by (done || lia). rewrite Hl.
  replace (Z.to_nat (w - zlen cur)) with (S (Z.to_nat (w - (zlen cur + 1)))) by lia. cbn [take]. by rewrite <- app_assoc.
Qed.

Lemma printc_more cur c flags (k : Z -> M io (Z * Z * list vararg)) :
  flag flags FLAG_TTY = tty -> zlen cur < size ->
  (_ ← printc (zlen cur) c flags; k (zlen cur + 1)) (sink tty s0 cur) = k (zlen (cur ++ [c])) (sink tty s0 (cur ++ [c])).
Proof.
  intros. unfold mbind, M_bind. rewrite printc_run by done. rewrite length_app. cbn [length].
  by replace (Z.of_nat (length cur + 1)) with (zlen cur + 1) by lia.
Qed.

(** The conversions to hexadecimal. *)
Lemma hex_run c m cur ap out ap' :
  flag (m_flags m) FLAG_TTY = tty -> flag (m_flags m) FLAG_SMALLS = false -> zlen cur < size ->
  (c =? 112) || (c =? 120) || (c =? 88) = true ->
  (let smalls := negb (c =? 88) in
   if (c =? 112) || flag (m_flags m) FLAG_ALT then
     '(l, ap) ← conv_unsigned smalls 16 m (m_width m - 2) ap; Some (48 :: 120 :: l, ap)
   else conv_unsigned smalls 16 m (m_width m) ap) = Some (out, ap') ->
  (let flags := if c =? 112 then Z.lor (m_flags m) FLAG_ALT else m_flags m in
   let flags := if (c =? 112) || (c =? 120) then Z.lor flags FLAG_SMALLS else flags in
   if flag flags FLAG_ALT then
     _ ← printc (zlen cur) 48 flags;
     '(buf, written) ←
       (if zlen cur + 1 <? size then _ ← printc (zlen cur + 1) 120 flags; mret (zlen cur + 2, zlen cur + 2)
        else mret (zlen cur + 1, zlen cur + 1));
     print_unsigned buf written size ap 16 flags (m_prec m) (m_width m - 2)
   else print_unsigned (zlen cur) (zlen cur) size ap 16 flags (m_prec m) (m_width m)) (sink tty s0 cur) =
    Ret (zlen (more cur out), zlen (more cur out), ap', sink tty s0 (more cur out)).
Proof.
  intros Hf Hsm Hlt Hc Hout. cbv zeta in *.
  set (fl := if (c =? 112) || (c =? 120) then _ else _).
  assert (Hfl : flag fl FLAG_TTY = tty /\ flag fl FLAG_SMALLS = negb (c =? 88) /\
    flag fl FLAG_ALT = (c =? 112) || flag (m_flags m) FLAG_ALT /\ flag fl FLAG_ZEROPAD = flag (m_flags m) FLAG_ZEROPAD).
  { subst fl. destruct (Z.eqb_spec c 112) as [->|]; [|destruct (Z.eqb_spec c 120) as [->|]]; cbn [orb] in *; flags_eval;
      rewrite ?Hf, ?Hsm, ?orb_false_r, ?orb_true_r; try done. by rewrite Hc. }
  destruct Hfl as (Hfl & Hfs & Hfa & Hfz). clearbody fl. rewrite Hfa. rewrite <- Hfs in Hout.
  destruct ((c =? 112) || flag (m_flags m) FLAG_ALT).
  2: { apply (print_unsigned_run cur ap 16 m fl (m_width m)); try done; lia. }
  destruct (conv_unsigned (flag fl FLAG_SMALLS) 16 m (m_width m - 2) ap) as [[l ap1]|] eqn:Hu; [|done].
  injection Hout as <- <-. etransitivity; [apply bind_run, printc_run; done|]. rewrite more_cons by done.
  assert (Hl1 : zlen (cur ++ [48]) = zlen cur + 1) by (rewrite length_app; cbn; lia).
  destruct (Z.ltb_spec (zlen cur + 1) size) as [Hlt1|Hge1].
  - etransitivity; [apply bind_run; rewrite <- Hl1; etransitivity; [apply bind_run, printc_run; [done|lia]|reflexivity]|].
    rewrite more_cons by lia.
    assert (Hl2 : zlen ((cur ++ [48]) ++ [120]) = zlen cur + 2) by (rewrite length_app; cbn; lia). rewrite <- Hl2.
    apply (print_unsigned_run _ ap 16 m fl (m_width m - 2)); try done; lia.
  - etransitivity; [apply bind_run; reflexivity|]. rewrite (more_full _ (120 :: l)) by lia. rewrite <- Hl1.
    etransitivity; [apply (print_unsigned_run _ ap 16 m fl (m_width m - 2) l ap1); try done; lia|].
    by rewrite (more_full (cur ++ [48]) l) by lia.
Qed.

Lemma string_run m cur ap out ap' :
  flag (m_flags m) FLAG_TTY = tty -> zlen cur < size -> zlen cur + 65536 < 2147483648 -> -1 <= m_prec m ->
  match ap with
  | String s :: ap =>
      s ← cstr s;
      if m_prec m =? -1 then Some (s, ap)
      else if m_prec m <=? 65536 then Some (take (Z.to_nat (m_prec m)) s, ap) else None
  | _ => None
  end = Some (out, ap') ->
  ('(s, ap) ← lift (va_string ap);
   w ← lift (if m_prec m =? -1 then Ret size else x ← int (zlen cur + m_prec m); Ret (if x <? size then x else size));
   n ← put_string s (zlen cur) (zlen cur) w (m_flags m);
   mret (zlen cur + (n - zlen cur), n, ap)) (sink tty s0 cur) =
    Ret (zlen (more cur out), zlen (more cur out), ap', sink tty s0 (more cur out)).
Proof.
  intros Hf Hlt Hint Hprec Hout. destruct ap as [|[|s] ap]; [done..|]. cbn [va_string].
  etransitivity; [apply bind_run; reflexivity|]. destruct (cstr s) as [str|] eqn:Hstr; [|done].
  unfold mbind, option_bind in Hout.
  assert (Hend : forall w, w <= size -> take (Z.to_nat (w - zlen cur)) str = take (Z.to_nat (size - zlen cur)) out -> ap = ap' ->
    (n ← put_string s (zlen cur) (zlen cur) w (m_flags m); mret (zlen cur + (n - zlen cur), n, ap)) (sink tty s0 cur) =
      Ret (zlen (more cur out), zlen (more cur out), ap', sink tty s0 (more cur out))).
  { intros w Hw Htk <-. etransitivity; [apply bind_run, put_string_run; done || lia|]. rewrite Htk. unfold more, mret, M_ret.
    repeat f_equal; lia. }
  destruct (Z.eqb_spec (m_prec m) (-1)) as [He|Hne].
  - injection Hout as <- <-. etransitivity; [apply bind_run; reflexivity|]. apply Hend; done || lia.
  - destruct (Z.leb_spec (m_prec m) 65536) as [Hp|]; [|done]. injection Hout as <- <-.
    etransitivity. { apply bind_run. unfold int. rewrite decide_True by (unfold is_i32; lia). reflexivity. }
    apply Hend; [destruct (Z.ltb_spec (zlen cur + m_prec m) size); lia| |done].
    rewrite take_take. f_equal. destruct (Z.ltb_spec (zlen cur + m_prec m) size); lia.
Qed.

Lemma conversion_run c m cur ap out ap' :
  flag (m_flags m) FLAG_TTY = tty -> flag (m_flags m) FLAG_SMALLS = false -> zlen cur < size -> zlen cur + 65536 < 2147483648 ->
  -1 <= m_prec m -> conv_output c m ap = Some (out, ap') ->
  conversion c m (zlen cur) (zlen cur) size ap (sink tty s0 cur) =
    Ret (zlen (more cur out), zlen (more cur out), ap', sink tty s0 (more cur out)).
Proof.
  intros Hf Hsm Hlt Hint Hprec Hout. unfold conv_output in Hout. unfold conversion. cbv zeta.
  destruct ((c =? 105) || (c =? 100)).
  { destruct ap as [|[w|] ap]; [done| |done]. cbn [va_word]. unfold mbind at 1, M_bind at 1. cbn [lift].
    pose proof (i32_range w) as Hr. unfold is_i32 in Hr. set (n := i32 w) in *. clearbody n.
    destruct (Z.ltb_spec n 0) as [Hneg|Hpos].
    - destruct (Z.eqb_spec n (-2147483648)); [done|]. cbn [orb] in Hout.
      destruct (flag (m_flags m) FLAG_SIGN); [by rewrite bool_decide_eq_false_2 in Hout|].
      destruct (flag (m_flags m) FLAG_SPACE); [by rewrite bool_decide_eq_false_2 in Hout|].
      rewrite bool_decide_eq_true_2 in Hout by done. cbn [negb] in Hout. injection Hout as <- <-.
      unfold mbind, M_bind. rewrite printc_run by done. unfold int. rewrite decide_True by (unfold is_i32; lia). cbn [lift].
      unfold mret, M_ret. rewrite more_cons by done.
      assert (Hl : zlen (cur ++ [45]) = zlen cur + 1) by (rewrite length_app; cbn; lia). rewrite <- Hl.
      rewrite print_uint_more by (done || lia || (unfold is_u32; lia)). rewrite Hsm. repeat f_equal; lia.
    - assert (Hsign : forall cur', zlen cur' <= size ->
        (w ← print_uint (zlen cur') (size - zlen cur') n 10 (m_flags m) 0 0; mret (zlen cur' + w, zlen cur' + w, ap)) (sink tty s0 cur')
        = Ret (zlen (more cur' (uint_text false 10 0 0 n)), zlen (more cur' (uint_text false 10 0 0 n)), ap,
            sink tty s0 (more cur' (uint_text false 10 0 0 n)))).
      { intros cur' Hc'. unfold mbind, M_bind. rewrite print_uint_more by (done || lia || (unfold is_u32; lia)). rewrite Hsm.
        unfold mret, M_ret. repeat f_equal; lia. }
      assert (Hl : forall x, zlen (cur ++ [x]) = zlen cur + 1) by (intros x; rewrite length_app; cbn; lia).
      etransitivity; [apply bind_run; reflexivity|].
      assert (Hput : forall x, (_ ← printc (zlen cur) x (m_flags m); mret (zlen cur + 1, zlen cur + 1)) (sink tty s0 cur)
        = Ret ((zlen (cur ++ [x]), zlen (cur ++ [x])), sink tty s0 (cur ++ [x]))).
      { intros x. unfold mbind, M_bind. rewrite printc_run by done. by rewrite Hl. }
      destruct (flag (m_flags m) FLAG_SIGN); [|destruct (flag (m_flags m) FLAG_SPACE)]; injection Hout as <- <-; cbn [app];
        rewrite ?more_cons by done;
        (etransitivity; [apply bind_run; first [apply Hput|reflexivity]|]; apply Hsign; rewrite ?Hl; lia). }
  destruct (c =? 111); [apply (print_unsigned_run cur ap 8 m); try done; [lia|by rewrite Hsm]|].
  destruct (c =? 117); [apply (print_unsigned_run cur ap 10 m); try done; [lia|by rewrite Hsm]|].
  destruct ((c =? 112) || (c =? 120) || (c =? 88)) eqn:Ehex; [by apply hex_run|].
  destruct (c =? 99).
  { destruct ap as [|[w|] ap]; [done| |done]. injection Hout as <- <-. cbn [va_word]. unfold mbind, M_bind. cbn [lift].
    rewrite printc_run by done. rewrite more_cons, more_nil by done. rewrite length_app. cbn [length]. unfold mret, M_ret. repeat f_equal; lia. }
  destruct (c =? 115).
  { by apply string_run. }
  injection Hout as <- <-. unfold mbind, M_bind. rewrite printc_run by done. rewrite more_cons, more_nil by done.
  rewrite length_app. cbn [length]. unfold mret, M_ret. repeat f_equal; lia.
Qed.

Lemma flag_foldl g fl fs :
  Forall is_flag fs -> (g = FLAG_TTY \/ g = FLAG_SMALLS) -> flag (foldl (fun f c => Z.lor f (flag_of c)) fl fs) g = flag fl g.
Proof.
  intros Hfs Hg. revert fl. induction Hfs as [|c fs Hc Hfs IH]; intros fl; cbn [foldl]; [done|].
  rewrite IH, flag_lor. replace (flag (flag_of c) g) with false; [apply orb_false_r|].
  unfold is_flag in Hc. rewrite !elem_of_cons, elem_of_nil in Hc.
  destruct Hc as [->|[->|[->|[->|[->|[]]]]]]; by destruct Hg as [->| ->].
Qed.

Lemma land_tty flags : Z.land flags FLAG_TTY = if flag flags FLAG_TTY then FLAG_TTY else 0.
Proof.
  unfold flag. destruct (Z.eqb_spec (Z.land flags FLAG_TTY) 0) as [He|Hne]; cbn [negb]; [done|].
  change FLAG_TTY with (2 ^ 15) in *. apply Z.bits_inj'. intros n Hn. rewrite Z.land_spec, Z.pow2_bits_eqb by lia.
  destruct (Z.eqb_spec 15 n) as [<-|]; [|apply andb_false_r]. rewrite andb_true_r.
  destruct (Z.testbit flags 15) eqn:Et; [done|]. destruct Hne. apply Z.bits_inj'. intros k Hk.
  rewrite Z.land_spec, Z.pow2_bits_eqb, Z.bits_0 by lia. destruct (Z.eqb_spec 15 k) as [<-|]; [by rewrite Et|apply andb_false_r].
Qed.

(** One conversion, from the percent sign. *)
Lemma read_spec sp flags rest :
  spec_ok sp -> flag flags FLAG_TTY = tty ->
  exists c0 s, sp_flags sp ++ render_tail sp ++ rest = c0 :: s /\ c0 <> 0 /\
    read_modifiers (S (length s)) c0 s (mk_mods (Z.land flags FLAG_TTY) (-1) (-1)) = Ret (sp_conv sp, rest, spec_mods tty sp).
Proof.
  intros Hsp Hf. pose proof (read_flags (length (sp_flags sp ++ render_tail sp ++ rest)) (sp_flags sp) sp rest
    (mk_mods (Z.land flags FLAG_TTY) (-1) (-1)) Hsp (sk_flags _ Hsp)) as Hrun.
  rewrite !length_app in Hrun. specialize (Hrun ltac:(lia) eq_refl eq_refl). cbn [m_flags] in Hrun.
  rewrite land_tty, Hf in Hrun. rewrite land_tty, Hf.
  destruct (sp_flags sp ++ render_tail sp ++ rest) as [|c0 s] eqn:E.
  { apply (f_equal length) in E. rewrite !length_app in E. unfold render_tail in E. rewrite !length_app in E. cbn in E. lia. }
  assert (Hc0 : c0 <> 0).
  { assert (Hin : sp_flags sp ++ render_tail sp ++ rest = c0 :: s) by done. clear Hrun. destruct Hsp as [Hfl [Hw _] _ Hc].
    unfold render_tail in Hin. destruct (sp_flags sp) as [|f fs]; cbn [app] in Hin.
    - destruct (sp_width sp) as [|d ds]; cbn [app] in Hin.
      + destruct (sp_prec sp); cbn [app] in Hin; injection Hin as <- _; [done|apply Hc].
      + injection Hin as <- _. apply Forall_inv in Hw. cbn in Hw. lia.
    - injection Hin as <- _. apply Forall_inv in Hfl. intros ->. unfold is_flag in Hfl. set_solver. }
  exists c0, s. split; [done|]. split; [done|].
  rewrite read_from_unfold in Hrun by done.
  apply (f_equal length) in E. rewrite !length_app in E. cbn [length] in E. rewrite <- !length_app in Hrun.
  replace (length (sp_flags sp ++ render_tail sp ++ rest)) with (S (length s)) in Hrun by (rewrite !length_app; lia).
  rewrite Hrun. done.
Qed.

Lemma format_loop_run fuel items junk cur ap flags out :
  Forall item_ok items -> output tty items ap = Some out -> flag flags FLAG_TTY = tty -> zlen cur <= size ->
  (length (render_all items) < fuel)%nat -> (size + 65536 < 2147483648 \/ zlen cur + zlen out + 65536 < 2147483648) ->
  format_loop fuel (zlen cur) (zlen cur) size (render_all items ++ 0 :: junk) ap flags (sink tty s0 cur) =
    Ret ((zlen (more cur out), zlen (more cur out)), sink tty s0 (more cur out)).
Proof.
  intros Hitems. revert fuel cur ap flags out. induction Hitems as [|x items Hx Hitems IH];
    intros fuel cur ap flags out Hout Hf Hs Hfuel Hint; (destruct fuel as [|fuel]; [lia|]); cbn [format_loop];
    destruct (Z.ltb_spec (zlen cur) size) as [Hlt|Hge]; rewrite ?(more_full cur out) by lia; try done.
  { injection Hout as <-. by rewrite more_nil. }
  unfold render_all in *. cbn [fmap list_fmap] in *. change (mjoin (render x :: (render <$> items))) with (render x ++ mjoin (render <$> items)) in *.
  rewrite length_app in Hfuel. rewrite <- app_assoc. destruct x as [c|sp]; cbn [render output] in *.
  - destruct Hx as [Hc0 Hc37]. destruct (output tty items ap) as [o|] eqn:Ho; [|done]. injection Hout as <-.
    cbn [app next]. unfold mbind, M_bind. cbn [lift].
    rewrite (proj2 (Z.eqb_neq c 0) Hc0), (proj2 (Z.eqb_neq c 37) Hc37). cbn [negb]. rewrite printc_run by done.
    rewrite more_cons by done. assert (Hl : zlen (cur ++ [c]) = zlen cur + 1) by (rewrite length_app; cbn; lia).
    cbn [length] in *. rewrite <- Hl. apply (IH fuel (cur ++ [c]) ap flags o); try done; lia.
  - destruct (conv_output (sp_conv sp) (spec_mods tty sp) ap) as [[o1 ap1]|] eqn:Hco; [|done].
    unfold mbind, option_bind in Hout. destruct (output tty items ap1) as [o|] eqn:Ho; [|done]. injection Hout as <-.
    cbn [app]. rewrite <- app_assoc.
    destruct (read_spec sp flags (mjoin (render <$> items) ++ 0 :: junk) Hx Hf) as (c0 & s & Heq & Hc0 & Hread).
    rewrite Heq. etransitivity; [apply bind_run; reflexivity|]. cbn [Z.eqb negb Pos.eqb].
    etransitivity; [apply bind_run; reflexivity|]. cbv beta iota. rewrite (proj2 (Z.eqb_neq c0 0) Hc0).
    etransitivity; [apply bind_run; rewrite Hread; reflexivity|]. cbv beta iota.
    pose proof (sk_conv _ Hx) as (_ & Hcnz & _). rewrite (proj2 (Z.eqb_neq _ 0) Hcnz).
    assert (Hfl : flag (m_flags (spec_mods tty sp)) FLAG_TTY = tty /\ flag (m_flags (spec_mods tty sp)) FLAG_SMALLS = false).
    { cbn [spec_mods m_flags]. rewrite !flag_foldl by (apply Hx || auto). by destruct tty. }
    destruct Hfl as [Hfl Hsm].
    assert (Hprec : -1 <= m_prec (spec_mods tty sp)).
    { cbn [spec_mods m_prec]. destruct (sp_prec sp) as [ds|] eqn:Ep; [|lia]. destruct (sk_prec _ Hx ds Ep) as [Hds _].
      unfold number. assert (0 <= digits_value 0 ((fun c => c - 48) <$> ds)); [|lia]. apply digits_value_ge; [lia|].
      apply Forall_fmap. eapply Forall_impl; [exact Hds|]. intros z Hz. cbn in *. lia. }
    rewrite length_app in Hint.
    etransitivity; [apply bind_run, conversion_run; done || lia|]. cbv beta iota.
    pose proof (length_more cur o1 ltac:(lia)) as Hl1. rewrite <- more_app by lia. cbn [length] in Hfuel. rewrite !length_app in Hfuel.
    apply (IH fuel (more cur o1) ap1 (m_flags (spec_mods tty sp)) o); try done; lia.
Qed.

(** What the output looks like when [size] characters are allowed. *)
Lemma vxnprintf_run items junk ap flags out :
  Forall item_ok items -> output tty items ap = Some out -> flag flags FLAG_TTY = tty -> 0 < size ->
  (size + 65536 < 2147483648 \/ zlen out + 65536 < 2147483648) ->
  vxnprintf 0 size (render_all items ++ 0 :: junk) ap flags (sink tty s0 []) =
    Ret (if zlen out <? size then zlen out else -1,
         if zlen out <? size then sink tty s0 (out ++ [0]) else
         if tty then sink tty s0 (take (Z.to_nat size) out) else sink tty s0 (take (Z.to_nat (size - 1)) out ++ [0])).
Proof.
  intros Hitems Hout Hf Hsize Hint. unfold vxnprintf. destruct (Z.leb_spec size 0); [lia|].
  etransitivity.
  { apply bind_run. apply (format_loop_run _ items junk [] ap flags out); try done; [cbn; lia|rewrite length_app; lia]. }
  cbv beta iota. pose proof (length_more [] out ltac:(cbn; lia)) as Hl. cbn [length] in Hl.
  assert (Hm : more [] out = take (Z.to_nat size) out) by (unfold more; cbn; by rewrite Z.sub_0_r).
  destruct (Z.ltb_spec (zlen out) size) as [Hlt|Hge].
  - rewrite (proj2 (Z.eqb_neq _ size)) by lia. rewrite Hm, take_ge by lia.
    etransitivity; [apply bind_run, printc_run; [done|lia]|]. done.
  - rewrite (proj2 (Z.eqb_eq _ size)) by lia. rewrite Hm.
    set (o := take (Z.to_nat size) out). assert (Hlo : zlen o = size) by (subst o; rewrite length_take; lia).
    assert (Hsplit : exists c, o = take (Z.to_nat (size - 1)) out ++ [c]).
    { destruct (lookup_lt_is_Some_2 out (Z.to_nat (size - 1))) as [c Hc]; [lia|]. exists c. subst o.
      replace (Z.to_nat size) with (S (Z.to_nat (size - 1))) by lia. by apply take_S_r. }
    destruct Hsplit as [c Hc].
    etransitivity; [apply bind_run|reflexivity]. rewrite Hlo. unfold printc. rewrite Hf. unfold sink.
    destruct tty; [done|]. cbn [out_buffer console]. specialize (Hroom eq_refl).
    rewrite rset_splice by (rewrite ?length_splice; lia). rewrite Hc.
    set (o1 := take (Z.to_nat (size - 1)) out). assert (Hlo1 : length o1 = Z.to_nat (size - 1)) by (subst o1; rewrite length_take; lia).
    do 2 f_equal. f_equal. rewrite <- (splice_splice_app (out_buffer s0) 0 o1 [c]) by (cbn; lia).
    rewrite <- (splice_splice_app (out_buffer s0) 0 o1 [0]) by (cbn; lia).
    rewrite Hlo1, Nat.add_0_l.
    apply list_eq. intros k. rewrite !lookup_splice by (rewrite ?length_splice; rewrite ?length_splice; cbn; lia). cbn [length].
    repeat case_decide; done || lia.
Qed.
End output.

(** ** Numbers *)
Lemma digits_lsd fuel n : (1 <= fuel)%nat -> 0 <= n < 10 ^ Z.of_nat fuel -> digits_value 0 (reverse (lsd fuel 10 n)) = n.
Proof.
  revert n. induction fuel as [|fuel IH]; intros n Hf Hn; [lia|]. cbn [lsd]. rewrite reverse_cons. unfold digits_value.
  rewrite foldl_app. cbn [foldl]. destruct (Z.eqb_spec (n / 10) 0) as [Hz|Hnz].
  - cbn. Z.div_mod_to_equations. lia.
  - rewrite Nat2Z.inj_succ, Z.pow_succ_r in Hn by lia.
    assert (Hdiv : 0 <= n / 10 < 10 ^ Z.of_nat fuel) by (split; [apply Z.div_pos; lia|apply Z.div_lt_upper_bound; lia]).
    assert (1 <= fuel)%nat by (destruct fuel; [cbn in Hdiv; lia|lia]).
    unfold digits_value in IH. rewrite IH by done. Z.div_mod_to_equations. lia.
Qed.

Lemma decimal_text n :
  0 <= n < 2147483648 -> exists ds, uint_text false 10 0 0 n = ((fun d => d + 48) <$> ds) /\ Forall (fun d => 0 <= d < 10) ds /\
    digits_value 0 ds = n /\ (1 <= length ds <= 10)%nat.
Proof.
  intros Hn. exists (reverse (lsd 33 10 n)). assert (Hr : Forall (fun d => 0 <= d < 10) (reverse (lsd 33 10 n))).
  { apply Forall_reverse, lsd_range. lia. }
  assert (Hlen : (length (lsd 33 10 n) <= 10)%nat) by (apply length_lsd; [lia|change (10 ^ Z.of_nat 10) with 10000000000; lia|lia]).
  assert (Hpos : (1 <= length (lsd 33 10 n))%nat) by (change (lsd 33 10 n) with (n mod 10 :: (if n / 10 =? 0 then [] else lsd 32 10 (n / 10))); cbn [length]; lia).
  split; [|split; [done|split; [|by rewrite length_reverse]]].
  - unfold uint_text, pad. rewrite !Z2Nat.nonpos by (rewrite ?length_app; lia). cbn [replicate app].
    apply list_fmap_ext. intros i d Hd. rewrite Forall_forall in Hr. apply list_elem_of_lookup_2 in Hd. specialize (Hr d Hd).
    cbn in Hr. unfold digit_char. by rewrite (proj2 (Z.ltb_lt d 10)) by lia.
  - apply digits_lsd; [lia|]. assert (2147483648 < 10 ^ Z.of_nat 33) by (vm_compute; reflexivity). lia.
Qed.

(** ["%d"] *)
Definition decimal : list item := [Conv (mk_spec [] [] None 100)].
Lemma decimal_ok : Forall item_ok decimal.
Proof.
  repeat constructor; cbn; try done; unfold is_flag, is_i32, is_byte; cbn; try lia.
  rewrite !elem_of_cons, elem_of_nil. lia.
Qed.

Lemma atoi_decimal n rest :
  0 <= n < 2147483648 ->
  atoi_digits (uint_text false 10 0 0 n ++ 0 :: rest) 1 0 = Ret n /\ atoi_digits (uint_text false 10 0 0 n ++ 0 :: rest) (-1) 0 = Ret (- n).
Proof.
  intros Hn. destruct (decimal_text n Hn) as (ds & -> & Hds & Hv & Hl). split.
  - pose proof (atoi_digits_run ds 0 rest 1 0 ltac:(lia) ltac:(lia) Hds eq_refl) as Hrun. rewrite Hv in Hrun.
    rewrite Z.mul_0_r, Z.mul_1_l in Hrun. apply Hrun. unfold is_i32. lia.
  - pose proof (atoi_digits_run ds 0 rest (-1) 0 ltac:(lia) ltac:(lia) Hds eq_refl) as Hrun. rewrite Hv in Hrun.
    rewrite Z.mul_0_r in Hrun. replace (- n) with (-1 * n) by lia. apply Hrun. unfold is_i32. lia.
Qed.

Lemma atoi_of_digit d s : 48 <= d <= 57 -> atoi (d :: s) = atoi_digits (d :: s) 1 0.
Proof.
  intros Hd. unfold atoi. change (d :: s) with ([] ++ d :: s) at 1. rewrite atoi_skip_run; [|constructor|].
  - unfold mbind, res_bind. rewrite (proj2 (Z.eqb_neq d 0)), (proj2 (Z.eqb_neq d 45)), (proj2 (Z.eqb_neq d 43)) by lia. done.
  - unfold is_space. rewrite !(proj2 (Z.eqb_neq d _)) by lia. done.
Qed.

Lemma sink_nil tty s : sink tty s [] = s.
Proof.
  destruct s as [b [p i o]]. destruct tty; unfold sink; [|by rewrite splice_nil]. cbn -[filter].
  destruct p; cbn; by rewrite app_nil_r.
Qed.

(** ** The theorems *)

(** For every format of characters and conversions (flags, a width and a
    precision of digits 1 to 8, any conversion character) and arguments of the
    kinds it asks for, in which no negative number meets the flags + or space,
    none is the smallest, and no precision of a string is over 65536
    ([conv_output]): [snprintf] with [size] bytes of room writes the text of
    the format, cut to [size - 1] characters, and a null, at the start of the
    buffer and nothing else, and answers the length of the text, or -1 when it
    was cut. *)
Theorem snprintf_output items junk ap out size buf con :
  Forall item_ok items -> output false items ap = Some out -> 0 < size <= zlen buf -> size + 65536 < 2147483648 ->
  snprintf size (render_all items ++ 0 :: junk) ap (mk_io buf con) =
    Ret (if zlen out <? size then zlen out else -1,
         mk_io (splice buf 0 (take (Z.to_nat (size - 1)) out ++ [0])) con).
Proof.
  intros Hitems Hout Hsize Hint.
  pose proof (vxnprintf_run false (mk_io buf con) size ltac:(cbn; lia) items junk ap 0 out Hitems Hout eq_refl ltac:(lia) ltac:(lia)) as Hrun.
  rewrite sink_nil in Hrun. unfold snprintf. rewrite Hrun. destruct (Z.ltb_spec (zlen out) size); [|done].
  by rewrite (take_ge out) by lia.
Qed.

(** [kprintf] of such a format whose text fits the length
    counter writes exactly the characters of the text to the console (null
    characters excepted), answers their number, and leaves the processor as
    it was: interrupts as before, the console's spinlock free. *)
Theorem kprintf_output kprintf_slock items junk ap out s :
  Forall item_ok items -> output true items ap = Some out -> zlen out + 65536 < 2147483648 ->
  cpu_ready kprintf_slock (pr_cpu s) -> polltty_present (console (pr_io s)) = true ->
  wp (kprintf kprintf_slock (render_all items ++ 0 :: junk) ap) (fun r s' =>
    r = zlen out /\ pr_cpu s' = pr_cpu s /\ out_buffer (pr_io s') = out_buffer (pr_io s) /\
    tty_in (console (pr_io s')) = tty_in (console (pr_io s)) /\
    tty_out (console (pr_io s')) = tty_out (console (pr_io s)) ++ filter (.≠ 0) out) s.
Proof.
  intros Hitems Hout Hint [Hst Hl] Htty. destruct s as [c i]. cbn [pr_cpu pr_io] in *.
  unfold kprintf. apply wp_critical; [done|done|].
  pose proof (vxnprintf_run true i 0x7fffffff ltac:(done) items junk ap FLAG_TTY out Hitems Hout eq_refl ltac:(lia) ltac:(lia)) as Hrun.
  rewrite sink_nil, (proj2 (Z.ltb_lt (zlen out) _)) in Hrun by lia.
  unfold wp, on_io. cbn [pr_io with_cpu HasCpu_printer]. rewrite Hrun. split; [done|]. cbn -[filter].
  rewrite Htty. do 4 (split; [done|]). f_equal. rewrite filter_app. cbn. by rewrite app_nil_r.
Qed.

(** Printing an [int] with ["%d"] and reading the text with
    [atoi] gives the number back. *)
Theorem snprintf_atoi n buf con :
  -2147483648 < n < 2147483648 -> 12 <= zlen buf ->
  exists len text, snprintf 12 (render_all decimal ++ [0]) [Word n] (mk_io buf con) = Ret (len, mk_io text con) /\
    0 < len < 12 /\ atoi text = Ret n.
Proof.
  intros Hn Hbuf. set (t := uint_text false 10 0 0 (Z.abs n)).
  assert (Hout : output false decimal [Word n] = Some (if n <? 0 then 45 :: t else t)).
  { cbn -[uint_text Z.eqb Z.ltb i32]. unfold conv_output. cbn -[uint_text i32]. rewrite i32_id by (unfold is_i32; lia).
    subst t. destruct (Z.ltb_spec n 0) as [Hneg|Hpos].
    - rewrite (proj2 (Z.eqb_neq n _)) by lia. rewrite Z.abs_neq by lia. cbv -[uint_text Z.opp app]. by rewrite app_nil_r.
    - rewrite Z.abs_eq by lia. cbv -[uint_text Z.opp app]. by rewrite app_nil_r. }
  destruct (decimal_text (Z.abs n) ltac:(lia)) as (ds & Ht & Hds & Hv & Hl). fold t in Ht.
  assert (Hlt : (1 <= length t <= 10)%nat) by (rewrite Ht, length_fmap; lia).
  set (out := if n <? 0 then 45 :: t else t) in *.
  assert (Hlo : 0 < zlen out < 12) by (subst out; destruct (n <? 0); cbn [length]; lia).
  assert (Hrun : snprintf 12 (render_all decimal ++ [0]) [Word n] (mk_io buf con) = Ret (zlen out, mk_io (splice buf 0 (out ++ [0])) con)).
  { unfold snprintf.
    pose proof (vxnprintf_run false (mk_io buf con) 12 ltac:(cbn; lia) decimal [] [Word n] 0 out decimal_ok Hout eq_refl ltac:(lia) ltac:(lia)) as Hrun.
    rewrite sink_nil, (proj2 (Z.ltb_lt (zlen out) 12)) in Hrun by lia. exact Hrun. }
  eexists _, _. split; [exact Hrun|]. split; [done|].
  unfold splice. rewrite take_0. cbn [app]. rewrite <- app_assoc. cbn [app]. set (rest := drop _ buf).
  destruct (atoi_decimal (Z.abs n) rest ltac:(lia)) as [Hp Hm]. fold t in Hp, Hm. subst out. destruct (Z.ltb_spec n 0) as [Hneg|Hpos].
  - cbn [app]. replace n with (- Z.abs n) by lia. exact Hm.
  - assert (Hd : exists d t', t = d :: t' /\ 48 <= d <= 57).
    { rewrite Ht. destruct ds as [|d ds]; [cbn in Hl; lia|]. apply Forall_inv in Hds. exists (d + 48), ((fun d => d + 48) <$> ds). split; [done|]. cbn in Hds. lia. }
    destruct Hd as (d & t' & Heq & Hd). rewrite Heq in *. cbn [app] in *. rewrite atoi_of_digit by done. rewrite Hp. f_equal. lia.
Qed.

(** ["%9d"]: the scan of the width never gets past the digit 9, whatever the
    number of rounds. *)
Example nine_never_ends fuel fmt m : read_modifiers fuel 57 fmt m = Fail Timeout.
Proof.
  revert m. induction fuel as [|fuel IH]; intros m; [done|]. cbn [read_modifiers].
  assert (Hmod : modifier 57 fmt m = Ret (Some (57 :: fmt, mk_mods (m_flags m) 0 (m_prec m)))) by done.
  rewrite Hmod. cbn. apply IH.
Qed.

(** A negative number with the flag [+] is written with both signs, and at the
    end of the buffer the second one is written after it. *)
Example both_signs :
  snprintf 8 [37; 43; 100; 0] [Word (-5)] (mk_io (replicate 8 0) (mk_polltty true [] []))
    = Ret (3, mk_io [45; 43; 53; 0; 0; 0; 0; 0] (mk_polltty true [] [])).
Proof. vm_compute. reflexivity. Qed.
Example sign_overflow :
  snprintf 1 [37; 43; 100; 0] [Word (-5)] (mk_io (replicate 1 0) (mk_polltty true [] [])) = Fail Undef.
Proof. vm_compute. reflexivity. Qed.

(** ["n=%#6X %.2s"] *)
Definition example_format : list item :=
  [Lit 110; Lit 61; Conv (mk_spec [35] [54] None 88); Lit 32; Conv (mk_spec [] [] (Some [50]) 115)].
Definition example_args : list vararg := [Word 255; String [97; 98; 99; 0]].
Lemma example_format_ok : Forall item_ok example_format.
Proof.
  repeat constructor; cbn; try done; unfold is_flag, is_i32, is_byte; cbn; try lia.
  all: rewrite ?elem_of_cons, ?elem_of_nil; try lia.
  all: match goal with H : sp_prec _ = Some _ |- _ => injection H as <- end; cbn; repeat constructor; lia.
Qed.

Lemma snprintf_output_witness :
  snprintf 11 (render_all example_format ++ [0]) example_args (mk_io (replicate 12 7) (mk_polltty true [] [])) =
    Ret (-1, mk_io [110; 61; 48; 120; 32; 32; 70; 70; 32; 97; 0; 7] (mk_polltty true [] [])).
Proof.
  rewrite (snprintf_output example_format [] example_args [110; 61; 48; 120; 32; 32; 70; 70; 32; 97; 98] 11).
  - vm_compute. reflexivity.
  - apply example_format_ok.
  - vm_compute. reflexivity.
  - vm_check.
  - vm_check.
Defined.

Lemma kprintf_output_witness :
  wp (kprintf 0x80020018 (render_all example_format ++ [0]) example_args) (fun r s' => r = 11 /\
    tty_out (console (pr_io s')) = [62; 110; 61; 48; 120; 32; 32; 70; 70; 32; 97; 98])
    (mk_printer (mk_cpu 0x1000ff01 ∅) (mk_io [] (mk_polltty true [] [62]))).
Proof.
  eapply wp_mono; [apply (kprintf_output 0x80020018 example_format [] example_args [110; 61; 48; 120; 32; 32; 70; 70; 32; 97; 98])|].
  - apply example_format_ok.
  - vm_compute. reflexivity.
  - vm_check.
  - split; [vm_check|apply not_elem_of_empty].
  - reflexivity.
  - intros r s' (Hr & _ & _ & _ & Ht). split; [exact Hr|]. rewrite Ht. vm_compute. reflexivity.
Defined.

Lemma snprintf_atoi_witness :
  exists len text, snprintf 12 (render_all decimal ++ [0]) [Word (-2147483647)] (mk_io (replicate 12 7) (mk_polltty true [] [])) =
    Ret (len, mk_io text (mk_polltty true [] [])) /\ 0 < len < 12 /\ atoi text = Ret (-2147483647).
Proof.
  apply (snprintf_atoi (-2147483647)).
  - lia.
  - vm_check.
Defined.
