(* ===== verification/Vfs.v ===== *)
(** * fs/vfs.c, fs/filesystems.c: the virtual file system

    The tables of mounted file systems and of open files, under two
    semaphores, and the count of operations under way, which the forced
    unmount at shutdown waits for.  A file system is used through the
    operations of its [fs_t], here the class [FileSystems]. *)
From S2P Require Import Prelude Bitmap Libc Cpu Kmalloc Pagepool Semaphore Gbd Sync Bytes Tfs.

Definition CONFIG_MAX_FILESYSTEMS : Z := 8.
Definition CONFIG_MAX_OPEN_FILES : Z := 512.
Definition FILEHANDLE_STDIN : Z := 0.
Definition FILEHANDLE_STDOUT : Z := 1.
Definition FILEHANDLE_STDERR : Z := 2.
Definition YAMS_TYPECODE_DISK : Z := 0x301.

(** ** fs/vfs.h: [fs_t]

    [F] is the state of the file systems and their disks; a file system is
    known by the address of its [fs_t], 0 being NULL. *)
Class FileSystemOps (F S : Type) := {
  fs_volume_name : F -> Z -> list Z;
  fs_unmount : Z -> M (F * S) Z;
  fs_open : Z -> list Z -> M (F * S) Z;
  fs_close : Z -> Z -> M (F * S) Z;
  (** [fs_read fs fileid buffer bufsize offset] *)
  fs_read : Z -> Z -> list Z -> Z -> Z -> M (F * S) (Z * list Z);
  fs_write : Z -> Z -> list Z -> Z -> Z -> M (F * S) Z;
  fs_create : Z -> list Z -> Z -> M (F * S) Z;
  fs_remove : Z -> list Z -> M (F * S) Z;
  fs_getfree : Z -> M (F * S) Z;
  (** The table of drivers in filesystems.c: what their [init] functions make
      of a disk. *)
  drivers : list (Z -> M (F * S) Z)
}.

(** ** The code *)

Record vfs_entry_t := mk_vfs_entry { ve_filesystem : Z; mountpoint : list Z }.
Record openfile_entry_t := mk_openfile { of_filesystem : Z; fileid : Z; seek_position : Z }.

(** The static variables of vfs.c, the file systems and the semaphores.
    [None] is a NULL semaphore. *)
Record vfs (F S : Type) := mk_vfs {
  vfs_table_sem : option Z;
  filesystems : list vfs_entry_t;
  openfile_table_sem : option Z;
  files : list openfile_entry_t;
  vfs_op_sem : option Z;
  vfs_unmount_sem : option Z;
  vfs_ops : Z;
  vfs_usable : bool;
  vfs_fs : F;
  vfs_sems : S
}.
Arguments mk_vfs {F S} vfs_table_sem filesystems openfile_table_sem files vfs_op_sem vfs_unmount_sem vfs_ops vfs_usable vfs_fs vfs_sems.
Arguments vfs_table_sem {F S} v.
Arguments filesystems {F S} v.
Arguments openfile_table_sem {F S} v.
Arguments files {F S} v.
Arguments vfs_op_sem {F S} v.
Arguments vfs_unmount_sem {F S} v.
Arguments vfs_ops {F S} v.
Arguments vfs_usable {F S} v.
Arguments vfs_fs {F S} v.
Arguments vfs_sems {F S} v.

(** [*p] *)
Definition char_at (s : list Z) : res Z := match s with [] => Fail Undef | c :: _ => Ret c end.

(** The volume name, up to ']'; [n] of the 15 rounds are left, [i] characters
    are stored. [None] is the error. *)
Fixpoint parse_volume (n : nat) (i : Z) (pathname volumebuf : list Z) : res (option (list Z * Z * list Z)) :=
  match n with
  | O => Ret None
  | S n =>
      c ← char_at pathname;
      if c =? 0 then Ret None
      else if c =? 93 then Ret (Some (volumebuf, i, tail pathname))
      else volumebuf ← rset volumebuf i c; parse_volume n (i + 1) (tail pathname) volumebuf
  end.
Fixpoint parse_filename (n : nat) (i : Z) (pathname filenamebuf : list Z) : res (Z * list Z) :=
  match n with
  | O => Ret (VFS_ERROR, filenamebuf)
  | S n =>
      c ← char_at pathname;
      filenamebuf ← rset filenamebuf i c;
      if c =? 0 then Ret (if i =? 0 then VFS_ERROR else VFS_OK, filenamebuf)
      else parse_filename n (i + 1) (tail pathname) filenamebuf
  end.
(** The return value and the two buffers. *)
Definition vfs_parse_pathname (pathname volumebuf filenamebuf : list Z) : res (Z * list Z * list Z) :=
  c ← char_at pathname;
  v ← (if c =? 91 then parse_volume (Z.to_nat (VFS_NAME_LENGTH - 1)) 0 (tail pathname) volumebuf
       else Ret (Some (volumebuf, 0, pathname)));
  match v with
  | None => Ret (VFS_ERROR, volumebuf, filenamebuf)
  | Some (volumebuf, i, pathname) =>
      volumebuf ← rset volumebuf i 0;
      '(r, filenamebuf) ← parse_filename (Z.to_nat VFS_NAME_LENGTH) 0 pathname filenamebuf;
      Ret (r, volumebuf, filenamebuf)
  end.

(** drivers/device.c: the [n]-th device of a type. *)
Record device_t := mk_device { dev_type : Z; generic_device : Z }.
Fixpoint device_get (device_table : list device_t) (typecode n : Z) : option device_t :=
  match device_table with
  | [] => None
  | d :: device_table =>
      if dev_type d =? typecode then if n =? 0 then Some d else device_get device_table typecode (n - 1)
      else device_get device_table typecode n
  end.

Section vfs_ops.
Context {F S : Type} `{!Semaphores S, !FileSystemOps F S}.
Abbreviation state := (vfs F S).

Definition on_fs {A} (m : M (F * S) A) : M state A := fun s =>
  match m (vfs_fs s, vfs_sems s) with
  | Ret (a, (f, x)) => Ret (a, mk_vfs (vfs_table_sem s) (filesystems s) (openfile_table_sem s) (files s) (vfs_op_sem s)
      (vfs_unmount_sem s) (vfs_ops s) (vfs_usable s) f x)
  | Fail e => Fail e
  end.
Definition with_sems (x : S) (s : state) : state :=
  mk_vfs (vfs_table_sem s) (filesystems s) (openfile_table_sem s) (files s) (vfs_op_sem s)
    (vfs_unmount_sem s) (vfs_ops s) (vfs_usable s) (vfs_fs s) x.
Definition with_sem {A} (m : M S A) : M state A := fun s =>
  match m (vfs_sems s) with Ret (a, x) => Ret (a, with_sems x s) | Fail e => Fail e end.
Definition set_filesystems (l : list vfs_entry_t) : M state unit := modify (fun s =>
  mk_vfs (vfs_table_sem s) l (openfile_table_sem s) (files s) (vfs_op_sem s) (vfs_unmount_sem s) (vfs_ops s)
    (vfs_usable s) (vfs_fs s) (vfs_sems s)).
Definition set_files (l : list openfile_entry_t) : M state unit := modify (fun s =>
  mk_vfs (vfs_table_sem s) (filesystems s) (openfile_table_sem s) l (vfs_op_sem s) (vfs_unmount_sem s) (vfs_ops s)
    (vfs_usable s) (vfs_fs s) (vfs_sems s)).
Definition set_ops (n : Z) (u : bool) : M state unit := modify (fun s =>
  mk_vfs (vfs_table_sem s) (filesystems s) (openfile_table_sem s) (files s) (vfs_op_sem s) (vfs_unmount_sem s) n
    u (vfs_fs s) (vfs_sems s)).

(** [semaphore_P] and [semaphore_V] on a pointer. *)
Definition P (x : option Z) : M state unit := match x with Some i => with_sem (sem_P i) | None => fail Undef end.
Definition V (x : option Z) : M state unit := match x with Some i => with_sem (sem_V i) | None => fail Undef end.
(** A section under one semaphore, released on every way out. *)
Definition holding {A} (sem : state -> option Z) (body : M state A) : M state A :=
  x ← gets sem; _ ← P x; a ← body; x ← gets sem; _ ← V x; mret a.

(** [files[file].x = ...] *)
Definition upd_file (file : Z) (g : openfile_entry_t -> openfile_entry_t) : M state unit :=
  l ← gets files; e ← lift (rget l file); l ← lift (rset l file (g e)); set_files l.
Definition set_fs (fs : Z) (e : openfile_entry_t) : openfile_entry_t := mk_openfile fs (fileid e) (seek_position e).
Definition set_seek (n : Z) (e : openfile_entry_t) : openfile_entry_t := mk_openfile (of_filesystem e) (fileid e) n.
Definition upd_row (row : Z) (g : vfs_entry_t -> vfs_entry_t) : M state unit :=
  l ← gets filesystems; e ← lift (rget l row); l ← lift (rset l row (g e)); set_filesystems l.
Definition clear_row (e : vfs_entry_t) : vfs_entry_t := mk_vfs_entry 0 (mountpoint e).

(** [for (i = 0; i < n; i++) l[i].filesystem = NULL;] *)
Fixpoint clear_rows (n : nat) (i : Z) (l : list vfs_entry_t) : res (list vfs_entry_t) :=
  match n with
  | O => Ret l
  | Datatypes.S n => e ← rget l i; l ← rset l i (clear_row e); clear_rows n (i + 1) l
  end.
Fixpoint clear_files (n : nat) (i : Z) (l : list openfile_entry_t) : res (list openfile_entry_t) :=
  match n with
  | O => Ret l
  | Datatypes.S n => e ← rget l i; l ← rset l i (set_fs 0 e); clear_files n (i + 1) l
  end.

Definition vfs_init : M state unit :=
  table_sem ← with_sem (sem_create 1);
  openfile_sem ← with_sem (sem_create 1);
  _ ← kassert (bool_decide (is_Some table_sem) && bool_decide (is_Some openfile_sem));
  s ← gets id;
  l ← lift (clear_rows (Z.to_nat CONFIG_MAX_FILESYSTEMS) 0 (filesystems s));
  _ ← set_filesystems l;
  l ← lift (clear_files (Z.to_nat CONFIG_MAX_OPEN_FILES) 0 (files s));
  _ ← set_files l;
  _ ← upd_file FILEHANDLE_STDIN (set_fs 1);
  _ ← upd_file FILEHANDLE_STDOUT (set_fs 1);
  _ ← upd_file FILEHANDLE_STDERR (set_fs 1);
  op_sem ← with_sem (sem_create 1);
  unmount_sem ← with_sem (sem_create 0);
  modify (fun s => mk_vfs table_sem (filesystems s) openfile_sem (files s) op_sem unmount_sem 0 true (vfs_fs s) (vfs_sems s)).

(** The rows of the table, forcefully unmounted. *)
Fixpoint unmount_rows (n : nat) (row : Z) : M state unit :=
  match n with
  | O => mret tt
  | Datatypes.S n =>
      l ← gets filesystems;
      e ← lift (rget l row);
      _ ← (if negb (ve_filesystem e =? 0) then _ ← on_fs (fs_unmount (ve_filesystem e)); upd_row row clear_row else mret tt);
      unmount_rows n (row + 1)
  end.
Definition vfs_deinit : M state unit :=
  s ← gets id;
  _ ← P (vfs_op_sem s);
  s ← gets id;
  _ ← set_ops (vfs_ops s) false;
  _ ← (if vfs_ops s >? 0 then
         _ ← V (vfs_op_sem s);
         _ ← P (vfs_unmount_sem s);
         _ ← P (vfs_op_sem s);
         s ← gets id;
         kassert (vfs_ops s =? 0)
       else mret tt);
  _ ← holding vfs_table_sem (holding openfile_table_sem (unmount_rows (Z.to_nat CONFIG_MAX_FILESYSTEMS) 0));
  V (vfs_op_sem s).

Definition vfs_start_op : M state Z :=
  holding vfs_op_sem (
    s ← gets id;
    if vfs_usable s then n ← lift (int (vfs_ops s + 1)); _ ← set_ops n (vfs_usable s); mret VFS_OK
    else mret VFS_UNUSABLE).
Definition vfs_end_op : M state unit :=
  holding vfs_op_sem (
    s ← gets id;
    let ops := vfs_ops s - 1 in
    _ ← set_ops ops (vfs_usable s);
    _ ← kassert (ops >=? 0);
    if negb (vfs_usable s) && (ops =? 0) then V (vfs_unmount_sem s) else mret tt).
(** An operation that ends with [vfs_end_op] on every way out. *)
Definition operation (body : M state Z) : M state Z :=
  r ← vfs_start_op;
  if negb (r =? VFS_OK) then mret VFS_UNUSABLE
  else ret ← body; _ ← vfs_end_op; mret ret.

Definition has_name (name : list Z) (e : vfs_entry_t) : res bool := r ← stringcmp (mountpoint e) name; Ret (r =? 0).
Definition vfs_get_filesystem (name : list Z) : M state Z :=
  l ← gets filesystems;
  row ← lift (scan (Z.to_nat CONFIG_MAX_FILESYSTEMS) 0 (has_name name) l);
  if row >=? CONFIG_MAX_FILESYSTEMS then mret 0 else e ← lift (rget l row); mret (ve_filesystem e).

(** [None] is a NULL name. *)
Definition vfs_mount (fs : Z) (name : option (list Z)) : M state Z :=
  match name with
  | None => mret VFS_ERROR
  | Some name =>
      c ← lift (char_at name);
      if c =? 0 then mret VFS_ERROR
      else operation (holding vfs_table_sem (
        l ← gets filesystems;
        row ← lift (scan (Z.to_nat CONFIG_MAX_FILESYSTEMS) 0 (fun e => Ret (ve_filesystem e =? 0)) l);
        if row >=? CONFIG_MAX_FILESYSTEMS then mret VFS_LIMIT
        else
          i ← lift (scan (Z.to_nat CONFIG_MAX_FILESYSTEMS) 0 (has_name name) l);
          if i <? CONFIG_MAX_FILESYSTEMS then mret VFS_ERROR
          else
            e ← lift (rget l row);
            point ← lift (stringcopy (mountpoint e) name VFS_NAME_LENGTH);
            _ ← upd_row row (fun _ => mk_vfs_entry fs point);
            mret VFS_OK))
  end.

Definition vfs_unmount (name : list Z) : M state Z :=
  operation (holding vfs_table_sem (
    l ← gets filesystems;
    row ← lift (scan (Z.to_nat CONFIG_MAX_FILESYSTEMS) 0 (has_name name) l);
    fs ← (if row >=? CONFIG_MAX_FILESYSTEMS then mret 0 else e ← lift (rget l row); mret (ve_filesystem e));
    if fs =? 0 then mret VFS_NOT_FOUND
    else holding openfile_table_sem (
      l ← gets files;
      i ← lift (scan (Z.to_nat CONFIG_MAX_OPEN_FILES) 0 (fun e => Ret (of_filesystem e =? fs)) l);
      if i <? CONFIG_MAX_OPEN_FILES then mret VFS_IN_USE
      else
        _ ← on_fs (fs_unmount fs);
        _ ← upd_row row clear_row;
        mret VFS_OK))).

Fixpoint try_all (l : list (Z -> M (F * S) Z)) (disk : Z) : M state Z :=
  match l with
  | [] => mret 0
  | init :: l => fs ← on_fs (init disk); if negb (fs =? 0) then mret fs else try_all l disk
  end.
Definition filesystems_try_all (disk : Z) : M state Z := try_all drivers disk.

Definition vfs_mount_fs (disk : Z) (volumename : option (list Z)) : M state Z :=
  filesystem ← filesystems_try_all disk;
  if filesystem =? 0 then mret VFS_NO_SUCH_FS
  else
    s ← gets id;
    let volumename := match volumename with Some n => n | None => fs_volume_name (vfs_fs s) filesystem end in
    c ← lift (char_at volumename);
    if c =? 0 then _ ← on_fs (fs_unmount filesystem); mret VFS_INVALID_PARAMS
    else
      ret ← vfs_mount filesystem (Some volumename);
      _ ← (if ret =? VFS_OK then mret tt else _ ← on_fs (fs_unmount filesystem); mret tt);
      mret ret.
Fixpoint mount_disks (n : nat) (i : Z) (device_table : list device_t) : M state unit :=
  match n with
  | O => mret tt
  | Datatypes.S n =>
      match device_get device_table YAMS_TYPECODE_DISK i with
      | None => mret tt
      | Some dev =>
          if generic_device dev =? 0 then mount_disks n (i + 1) device_table
          else _ ← vfs_mount_fs (generic_device dev) None; mount_disks n (i + 1) device_table
      end
  end.
Definition vfs_mount_all (device_table : list device_t) : M state unit :=
  mount_disks (Z.to_nat CONFIG_MAX_FILESYSTEMS) 0 device_table.

(** [volumename] and [filename] are what the local arrays hold. *)
Definition vfs_open (volumename filename pathname : list Z) : M state Z :=
  operation (
    '(r, volumename, filename) ← lift (vfs_parse_pathname pathname volumename filename);
    if negb (r =? VFS_OK) then mret VFS_ERROR
    else
      x ← holding vfs_table_sem (holding openfile_table_sem (
        l ← gets files;
        file ← lift (scan (Z.to_nat CONFIG_MAX_OPEN_FILES) 0 (fun e => Ret (of_filesystem e =? 0)) l);
        if file >=? CONFIG_MAX_OPEN_FILES then mret (inl VFS_LIMIT)
        else
          fs ← vfs_get_filesystem volumename;
          if fs =? 0 then mret (inl VFS_NO_SUCH_FS)
          else _ ← upd_file file (set_fs fs); mret (inr (file, fs))));
      match x with
      | inl ret => mret ret
      | inr (file, fs) =>
          fileid ← on_fs (fs_open fs filename);
          if fileid <? 0 then _ ← holding openfile_table_sem (upd_file file (set_fs 0)); mret fileid
          else _ ← upd_file file (fun e => mk_openfile (of_filesystem e) fileid 0); mret file
      end).

Definition vfs_verify_open (file : Z) : M state (option openfile_entry_t) :=
  if negb ((file >=? 0) && (file <? CONFIG_MAX_OPEN_FILES)) then mret None
  else
    l ← gets files;
    e ← lift (rget l file);
    if of_filesystem e =? 0 then mret None else mret (Some e).

(** The functions below return [VFS_ERROR] without [vfs_end_op] when the file
    is not open or an argument is bad: [None]. *)
Definition leaky_operation (body : M state (option Z)) : M state Z :=
  r ← vfs_start_op;
  if negb (r =? VFS_OK) then mret VFS_UNUSABLE
  else
    ret ← body;
    match ret with
    | None => mret VFS_ERROR
    | Some ret => _ ← vfs_end_op; mret ret
    end.

Definition vfs_close (file : Z) : M state Z :=
  leaky_operation (holding openfile_table_sem (
    openfile ← vfs_verify_open file;
    match openfile with
    | None => mret None
    | Some e =>
        ret ← on_fs (fs_close (of_filesystem e) (fileid e));
        _ ← upd_file file (set_fs 0);
        mret (Some ret)
    end)).

Definition vfs_seek (file position : Z) : M state Z :=
  leaky_operation (
    if negb (position >=? 0) then mret None
    else holding openfile_table_sem (
      openfile ← vfs_verify_open file;
      match openfile with
      | None => mret None
      | Some e => _ ← upd_file file (set_seek position); mret (Some VFS_OK)
      end)).

(** [if (ret > 0) openfile->seek_position += ret;] *)
Definition advance (file ret : Z) : M state unit :=
  if ret >? 0 then holding openfile_table_sem (
    l ← gets files; e ← lift (rget l file); n ← lift (int (seek_position e + ret)); upd_file file (set_seek n))
  else mret tt.

(** [None] is a NULL buffer; the answer is the return value and the buffer. *)
Definition vfs_read (file : Z) (buffer : option (list Z)) (bufsize : Z) : M state (Z * option (list Z)) :=
  r ← vfs_start_op;
  if negb (r =? VFS_OK) then mret (VFS_UNUSABLE, buffer)
  else
    openfile ← vfs_verify_open file;
    match openfile, buffer with
    | Some e, Some b =>
        if negb (bufsize >=? 0) then mret (VFS_ERROR, buffer)
        else
          '(ret, b) ← on_fs (fs_read (of_filesystem e) (fileid e) b bufsize (seek_position e));
          _ ← advance file ret;
          _ ← vfs_end_op;
          mret (ret, Some b)
    | _, _ => mret (VFS_ERROR, buffer)
    end.

Definition vfs_write (file : Z) (buffer : option (list Z)) (datasize : Z) : M state Z :=
  leaky_operation (
    openfile ← vfs_verify_open file;
    match openfile with
    | None => mret None
    | Some e =>
        match buffer with
        | Some b =>
            _ ← kassert (datasize >=? 0);
            ret ← on_fs (fs_write (of_filesystem e) (fileid e) b datasize (seek_position e));
            _ ← advance file ret;
            mret (Some ret)
        | None => kpanic
        end
    end).

Definition vfs_create (volumename filename pathname : list Z) (size : Z) : M state Z :=
  if size <? 0 then mret VFS_OK
  else operation (
    '(r, volumename, filename) ← lift (vfs_parse_pathname pathname volumename filename);
    if negb (r =? VFS_OK) then mret VFS_ERROR
    else holding vfs_table_sem (
      fs ← vfs_get_filesystem volumename;
      if fs =? 0 then mret VFS_NO_SUCH_FS else on_fs (fs_create fs filename size))).

Definition vfs_remove (volumename filename pathname : list Z) : M state Z :=
  operation (
    '(r, volumename, filename) ← lift (vfs_parse_pathname pathname volumename filename);
    if negb (r =? VFS_OK) then mret VFS_ERROR
    else holding vfs_table_sem (
      fs ← vfs_get_filesystem volumename;
      if fs =? 0 then mret VFS_NO_SUCH_FS else on_fs (fs_remove fs filename))).

Definition vfs_getfree (filesystem : list Z) : M state Z :=
  operation (holding vfs_table_sem (
    fs ← vfs_get_filesystem filesystem;
    if fs =? 0 then mret VFS_NO_SUCH_FS else on_fs (fs_getfree fs))).
End vfs_ops.

(** ** What the virtual file system relies on *)

(** [name] is a null-terminated string. *)
Definition is_name (name : list Z) : Prop := Forall is_byte name /\ is_Some (cstr name).

Section laws.
Context {F S : Type} `{!Semaphores S}.

(** The semaphores have the values [v]. *)
Definition sems_like (v : Z -> option Z) (x : S) : Prop := sem_inv x /\ forall j, sem_val x j = v j.

(** An operation of a file system gives every semaphore back. *)
Definition fs_run {A} (m : M (F * S) A) (Q : A -> F -> Prop) (f : F) (x : S) : Prop :=
  wp m (fun a s => sems_like (sem_val x) s.2 /\ Q a s.1) (f, x).
End laws.

(** A file system's promises: between operations its semaphores are free; a
    mounted one keeps its files, whose bytes [fs_read] and [fs_write] access
    like an array. *)
Class FileSystems (F S : Type) `{!Semaphores S, !FileSystemOps F S} := {
  fs_sems : F -> list Z;
  fs_mounted : F -> Z -> Prop;
  fs_file : F -> Z -> Z -> list Z -> Prop;
  (** the file id a name stands for *)
  fs_entry : F -> Z -> list Z -> Z -> Prop;
  fs_reliable : F -> Prop;

  (** Nothing is lost. *)
  fs_keeps (f f' : F) : Prop :=
    fs_sems f' = fs_sems f /\ (forall fs, fs_mounted f fs -> fs_mounted f' fs) /\ (fs_reliable f -> fs_reliable f');
  fs_idle (f : F) (x : S) : Prop := sem_inv x /\ Forall (fun i => sem_val x i = Some 1) (fs_sems f);

  fs_mounted_pos f fs : fs_mounted f fs -> 1 < fs;
  fs_open_law f x fs name nm :
    fs_idle f x -> fs_mounted f fs -> Forall is_byte name -> cstr name = Some nm ->
    fs_run (fs_open fs name) (fun r f' => fs_keeps f f' /\ (forall fs id b, fs_file f fs id b -> fs_file f' fs id b) /\
      (0 <= r -> fs_entry f fs nm r)) f x;
  fs_close_law f x fs id :
    fs_idle f x -> fs_mounted f fs ->
    fs_run (fs_close fs id) (fun r f' => fs_keeps f f' /\ forall fs id b, fs_file f fs id b -> fs_file f' fs id b) f x;
  fs_getfree_law f x fs :
    fs_idle f x -> fs_mounted f fs ->
    fs_run (fs_getfree fs) (fun r f' => fs_keeps f f' /\ forall fs id b, fs_file f fs id b -> fs_file f' fs id b) f x;
  fs_read_law f x fs id b buffer n offset :
    fs_idle f x -> fs_mounted f fs -> fs_file f fs id b -> 0 <= n <= zlen buffer -> 0 <= offset ->
    fs_run (fs_read fs id buffer n offset) (fun a f' => fs_keeps f f' /\
      (forall fs id b, fs_file f fs id b -> fs_file f' fs id b) /\ zlen b < 2147483648 /\
      ((a.1 < 0 /\ ~ fs_reliable f) \/
       if offset <=? zlen b then
         a = (Z.min n (zlen b - offset), splice buffer 0 (slice b (Z.to_nat offset) (Z.to_nat (Z.min n (zlen b - offset)))))
       else a.1 < 0)) f x;
  fs_write_law f x fs id b buffer n offset :
    fs_idle f x -> fs_mounted f fs -> fs_file f fs id b -> 0 <= n <= zlen buffer -> Forall is_byte buffer -> 0 <= offset ->
    fs_run (fs_write fs id buffer n offset) (fun r f' => fs_keeps f f' /\ zlen b < 2147483648 /\
      ((r < 0 /\ ~ fs_reliable f) \/
       if offset <=? zlen b then
         r = Z.min n (zlen b - offset) /\
         fs_file f' fs id (splice b (Z.to_nat offset) (take (Z.to_nat (Z.min n (zlen b - offset))) buffer))
       else r < 0 /\ forall fs id b, fs_file f fs id b -> fs_file f' fs id b)) f x;
  (** Unmounting gives up semaphores of the file systems. *)
  fs_unmount_law f x fs :
    fs_idle f x -> fs_mounted f fs ->
    wp (fs_unmount fs) (fun _ s => fs_idle s.1 s.2 /\ fs_sems s.1 ⊆ fs_sems f /\
      (forall j, j ∉ fs_sems f -> sem_val s.2 j = sem_val x j) /\
      (forall fs', fs' <> fs -> fs_mounted f fs' -> fs_mounted s.1 fs')) (f, x)
}.

(** ** Strings *)

Lemma char_at_cstr s c : cstr s = Some c -> exists x, char_at s = Ret x /\ (x = 0 <-> c = []) /\ (forall y l, c = y :: l -> x = y /\ cstr (tail s) = Some l).
Proof.
  destruct s as [|x s]; [done|]. intros [[-> ->]|(Hx & s' & Hs & ->)]%cstr_cons; exists x || exists 0; (split; [done|]).
  - split; [done|]. intros y l [=].
  - split; [split; [done|discriminate]|]. by intros y l [= <- <-].
Qed.

(** A path, taken apart: the volume name in brackets, if any, and the file
    name. *)
Fixpoint volume_part (p : list Z) : option (list Z * list Z) :=
  match p with
  | [] => None
  | c :: p => if c =? 93 then Some ([], p) else '(v, r) ← volume_part p; Some (c :: v, r)
  end.
Definition split_path (p : list Z) : option (list Z * list Z) :=
  '(v, name) ← match p with
               | c :: r => if c =? 91 then volume_part r else Some ([], p)
               | [] => Some ([], p)
               end;
  if (zlen v <=? 14) && (0 <? zlen name) && (zlen name <=? 15) then Some (v, name) else None.

Section parse.
Implicit Types p buf v : list Z.

Lemma parse_volume_run n i path p buf :
  cstr path = Some p -> 0 <= i -> i + Z.of_nat n <= zlen buf ->
  match volume_part p with
  | Some (v, r) =>
      if decide (length v < n)%nat then
        exists path', parse_volume n i path buf = Ret (Some (splice buf (Z.to_nat i) v, i + zlen v, path')) /\ cstr path' = Some r
      else parse_volume n i path buf = Ret None
  | None => parse_volume n i path buf = Ret None
  end.
Proof.
  revert i path p buf. induction n as [|n IH]; intros i path p buf Hp Hi Hn.
  { cbn [parse_volume]. destruct (volume_part p) as [[v r]|]; [|done]. rewrite decide_False by lia. done. }
  destruct (char_at_cstr path p Hp) as (x & Hx & H0 & Hcons). cbn [parse_volume]. rewrite Hx. unfold mbind, res_bind.
  destruct p as [|c p]; cbn [volume_part].
  { rewrite (proj2 (Z.eqb_eq x 0)) by (by apply H0). done. }
  destruct (Hcons c p eq_refl) as [-> Htl]. rewrite (proj2 (Z.eqb_neq c 0)) by (intros E; apply H0 in E; done).
  destruct (Z.eqb_spec c 93) as [->|Hc].
  { rewrite decide_True by (cbn; lia). exists (tail path). split; [|done]. by rewrite splice_nil, Z.add_0_r. }
  rewrite rset_in by lia.
  specialize (IH (i + 1) (tail path) p (<[Z.to_nat i:=c]> buf) Htl ltac:(lia)). rewrite length_insert in IH. specialize (IH ltac:(lia)).
  destruct (volume_part p) as [[v r]|]; [|done]. unfold mbind, option_bind. cbn [length]. destruct (decide (length v < n)%nat).
  - rewrite decide_True by lia. destruct IH as (path' & -> & Hr). exists path'. split; [|done].
    rewrite splice_cons by lia. replace (Z.to_nat (i + 1)) with (S (Z.to_nat i)) by lia. do 4 f_equal. lia.
  - by rewrite decide_False by lia.
Qed.

Lemma parse_filename_run n i path p buf :
  cstr path = Some p -> 0 <= i -> i + Z.of_nat n <= zlen buf ->
  exists buf', parse_filename n i path buf =
      Ret (if decide (length p < n)%nat then if i + zlen p =? 0 then VFS_ERROR else VFS_OK else VFS_ERROR, buf') /\
    length buf' = length buf /\ ((length p < n)%nat -> buf' = splice buf (Z.to_nat i) (p ++ [0])).
Proof.
  revert i path p buf. induction n as [|n IH]; intros i path p buf Hp Hi Hn.
  { exists buf. rewrite decide_False by lia. split; [done|]. split; [done|lia]. }
  destruct (char_at_cstr path p Hp) as (x & Hx & H0 & Hcons). cbn [parse_filename]. rewrite Hx. unfold mbind, res_bind.
  rewrite rset_in by lia. destruct p as [|c p].
  { assert (x = 0) as -> by (by apply H0). exists (<[Z.to_nat i:=0]> buf). rewrite decide_True by (cbn; lia).
    cbn [length app]. rewrite Z.add_0_r. split; [done|]. split; [by rewrite length_insert|]. intros _.
    by rewrite splice_cons, splice_nil by lia. }
  destruct (Hcons c p eq_refl) as [-> Htl]. rewrite (proj2 (Z.eqb_neq c 0)) by (intros E; apply H0 in E; done).
  destruct (IH (i + 1) (tail path) p (<[Z.to_nat i:=c]> buf) Htl ltac:(lia)) as (buf' & -> & Hl & Hb); [rewrite length_insert; lia|].
  rewrite length_insert in Hl. exists buf'. cbn [length]. split; [|split; [done|]].
  - replace (i + 1 + zlen p) with (i + Z.of_nat (S (length p))) by lia. repeat case_decide; done || lia.
  - intros Hlt. rewrite Hb by lia. cbn [app]. rewrite (splice_cons buf) by lia.
    by replace (Z.to_nat (i + 1)) with (S (Z.to_nat i)) by lia.
Qed.

(** The start of a buffer after a string was stored there. *)
Lemma cstr_splice buf s : Forall (fun c => c <> 0) s -> cstr (splice buf 0 (s ++ [0])) = Some s.
Proof. intros Hs. unfold splice. rewrite take_0. cbn [app]. rewrite <- app_assoc. by apply cstr_app. Qed.

Lemma volume_part_nonzero p v r : Forall (fun c => c <> 0) p -> volume_part p = Some (v, r) -> Forall (fun c => c <> 0) v /\ Forall (fun c => c <> 0) r.
Proof.
  revert v r. induction p as [|c p IH]; intros v r Hp; [done|]. cbn [volume_part]. apply Forall_cons in Hp as [Hc Hp].
  destruct (c =? 93); [intros [= <- <-]; by split|]. destruct (volume_part p) as [[v' r']|]; [|done].
  intros [= <- <-]. destruct (IH v' r' Hp eq_refl). split; [by constructor|done].
Qed.
Lemma volume_part_byte p v r : Forall is_byte p -> volume_part p = Some (v, r) -> Forall is_byte v /\ Forall is_byte r.
Proof.
  revert v r. induction p as [|c p IH]; intros v r Hp; [done|]. cbn [volume_part]. apply Forall_cons in Hp as [Hc Hp].
  destruct (c =? 93); [intros [= <- <-]; by split|]. destruct (volume_part p) as [[v' r']|]; [|done].
  intros [= <- <-]. destruct (IH v' r' Hp eq_refl). split; [by constructor|done].
Qed.

(** After the volume name: storing the null and the file name. *)
Lemma parse_rest path p volumebuf filenamebuf v :
  cstr path = Some p -> Forall (fun c => c <> 0) v -> (length v <= 14)%nat -> zlen volumebuf = 16 -> zlen filenamebuf = 16 ->
  exists r vb fb, (volumebuf ← rset (splice volumebuf 0 v) (zlen v) 0;
      '(r, filenamebuf) ← parse_filename (Z.to_nat VFS_NAME_LENGTH) 0 path filenamebuf;
      Ret (r, volumebuf, filenamebuf)) = Ret (r, vb, fb) /\ zlen vb = 16 /\ zlen fb = 16 /\
    if (0 <? zlen p) && (zlen p <=? 15) then
      r = VFS_OK /\ vb = splice volumebuf 0 (v ++ [0]) /\ fb = splice filenamebuf 0 (p ++ [0])
    else r = VFS_ERROR.
Proof.
  intros Hp Hv Hl Hvb Hfb. rewrite rset_splice by (rewrite length_splice by lia; lia).
  assert (Hvb' : splice (splice volumebuf 0 v) (Z.to_nat (zlen v)) [0] = splice volumebuf 0 (v ++ [0])).
  { rewrite <- (splice_splice_app volumebuf 0 v [0]) by (cbn; lia). by rewrite Nat2Z.id. }
  rewrite Hvb'. unfold mbind, res_bind.
  destruct (parse_filename_run (Z.to_nat VFS_NAME_LENGTH) 0 path p filenamebuf Hp ltac:(lia)) as (fb & -> & Hlf & Hf);
    [rewrite Hfb; unfold VFS_NAME_LENGTH; lia|].
  eexists _, _, _. split; [reflexivity|]. split; [rewrite length_splice; rewrite ?length_app; cbn; lia|]. split; [lia|].
  change (Z.to_nat VFS_NAME_LENGTH) with 16%nat in *. rewrite Z.add_0_l.
  destruct (Z.ltb_spec 0 (zlen p)), (Z.leb_spec (zlen p) 15); cbn [andb]; case_decide; try lia; try done.
  - rewrite (proj2 (Z.eqb_neq (zlen p) 0)) by lia. rewrite Hf by lia. done.
  - by rewrite (proj2 (Z.eqb_eq (zlen p) 0)) by lia.
Qed.

Lemma vfs_parse_pathname_run path p volumebuf filenamebuf :
  cstr path = Some p -> zlen volumebuf = 16 -> zlen filenamebuf = 16 ->
  exists r vb fb, vfs_parse_pathname path volumebuf filenamebuf = Ret (r, vb, fb) /\ zlen vb = 16 /\ zlen fb = 16 /\
    match split_path p with
    | Some (v, name) => r = VFS_OK /\ vb = splice volumebuf 0 (v ++ [0]) /\ fb = splice filenamebuf 0 (name ++ [0]) /\
        Forall (fun c => c <> 0) v /\ Forall (fun c => c <> 0) name /\ (length v <= 14)%nat /\ (length name <= 15)%nat
    | None => r = VFS_ERROR
    end.
Proof.
  intros Hp Hvb Hfb. pose proof Hp as (Hnz & _)%cstr_inv.
  destruct (char_at_cstr path p Hp) as (x & Hx & H0 & Hcons). unfold vfs_parse_pathname, split_path. rewrite Hx.
  unfold mbind at 1, res_bind at 1.
  assert (Hplain : x <> 91 -> exists r vb fb,
    (volumebuf ← rset (splice volumebuf 0 []) (zlen (@nil Z)) 0;
      '(r, filenamebuf) ← parse_filename (Z.to_nat VFS_NAME_LENGTH) 0 path filenamebuf;
      Ret (r, volumebuf, filenamebuf)) = Ret (r, vb, fb) /\ zlen vb = 16 /\ zlen fb = 16 /\
    if (0 <? zlen p) && (zlen p <=? 15) then
      r = VFS_OK /\ vb = splice volumebuf 0 ([] ++ [0]) /\ fb = splice filenamebuf 0 (p ++ [0])
    else r = VFS_ERROR).
  { intros _. apply parse_rest; try done. cbn. lia. }
  destruct p as [|c p].
  { assert (x = 0) as -> by (by apply H0). destruct Hplain as (r & vb & fb & Hr & ? & ? & Hend); [done|].
    exists r, vb, fb. rewrite splice_nil in Hr. cbn [Z.eqb Pos.eqb]. done. }
  destruct (Hcons c p eq_refl) as [-> Htl]. destruct (Z.eqb_spec c 91) as [->|Hc].
  - pose proof (parse_volume_run (Z.to_nat (VFS_NAME_LENGTH - 1)) 0 (tail path) p volumebuf Htl ltac:(lia)) as Hrun.
    change (Z.to_nat (VFS_NAME_LENGTH - 1)) with 15%nat in *. specialize (Hrun ltac:(lia)).
    destruct (volume_part p) as [[v name]|] eqn:Hv.
    + apply Forall_cons in Hnz as [_ Hnz]. destruct (volume_part_nonzero p v name Hnz Hv) as [Hvz Hnz'].
      destruct (decide (length v < 15)%nat).
      * destruct Hrun as (path' & -> & Hpath'). unfold mbind at 1, res_bind at 1. cbn [Z.to_nat Z.add].
        destruct (parse_rest path' name volumebuf filenamebuf v Hpath' Hvz ltac:(lia) Hvb Hfb) as (r & vb & fb & Hr & ? & ? & Hend).
        exists r, vb, fb. split; [exact Hr|]. split; [done|]. split; [done|]. unfold mbind, option_bind.
        rewrite (proj2 (Z.leb_le (zlen v) 14)) by lia. cbn [andb].
        destruct (Z.ltb_spec 0 (zlen name)), (Z.leb_spec (zlen name) 15); cbn [andb] in *; try done.
        destruct Hend as (? & ? & ?). split_and!; try done; lia.
      * rewrite Hrun. unfold mbind, res_bind. exists VFS_ERROR, volumebuf, filenamebuf. unfold option_bind.
        rewrite (proj2 (Z.leb_gt (zlen v) 14)) by lia. done.
    + rewrite Hrun. by exists VFS_ERROR, volumebuf, filenamebuf.
  - destruct Hplain as (r & vb & fb & Hr & ? & ? & Hend); [done|]. rewrite splice_nil in Hr.
    exists r, vb, fb. unfold mbind at 1, res_bind at 1. split; [exact Hr|]. split; [done|]. split; [done|].
    unfold mbind, option_bind. cbn [length]. change (Z.of_nat 0 <=? 14) with true. cbn [andb].
    destruct (Z.ltb_spec 0 (zlen (c :: p))), (Z.leb_spec (zlen (c :: p)) 15); cbn [andb length] in *; zbool; try lia; try done;
      destruct (Z.ltb_spec 0 (Z.of_nat (S (length p)))), (Z.leb_spec (Z.of_nat (S (length p))) 15); try lia; cbn [andb] in Hend |- *;
      try done. destruct Hend as (? & ? & ?). split_and!; try done; cbn; lia.
Qed.
End parse.

(** ** The abstract state *)

(** The tables, the operations under way, the file systems, and the values of
    the semaphores while nobody holds one. *)
Record view (F : Type) := mk_view {
  rows : list vfs_entry_t;
  opened : list openfile_entry_t;
  under_way : Z;
  usable : bool;
  fss : F;
  values : Z -> option Z
}.
Arguments mk_view {F} rows opened under_way usable fss values.
Arguments rows {F} v.
Arguments opened {F} v.
Arguments under_way {F} v.
Arguments usable {F} v.
Arguments fss {F} v.
Arguments values {F} v.

(** The semaphores of vfs.c, in the order of [vfs_init]. *)
Record sem_ids := mk_ids { id_table : Z; id_files : Z; id_op : Z; id_unmount : Z }.
Definition ids_list (d : sem_ids) : list Z := [id_table d; id_files d; id_op d; id_unmount d].

Section views.
Context {F S : Type} `{!Semaphores S, !FileSystemOps F S, !FileSystems F S}.
Context (ids : sem_ids).
Abbreviation state := (vfs F S).
Implicit Types (w : view F) (H : list Z).

(** The values while the semaphores [H] are held. *)
Definition held_values w H (j : Z) : option Z := if decide (j ∈ H) then Some 0 else values w j.
Definition concrete w (y : S) : state :=
  mk_vfs (Some (id_table ids)) (rows w) (Some (id_files ids)) (opened w) (Some (id_op ids)) (Some (id_unmount ids))
    (under_way w) (usable w) (fss w) y.

(** [m], run with the semaphores [H] held, ends with them held. *)
Definition wpv {A} H (m : M state A) (R : A -> view F -> Prop) w : Prop :=
  forall y, sems_like (held_values w H) y ->
    wp m (fun a s => exists w' y', s = concrete w' y' /\ sems_like (held_values w' H) y' /\ R a w') (concrete w y).

Section rules.
Context {A B : Type}.
Implicit Types (R : A -> view F -> Prop).

Lemma wpv_ret H (a : A) R w : R a w -> wpv H (mret a) R w.
Proof. intros HR y Hy. by exists w, y. Qed.
Lemma wpv_mono H (m : M state A) R (R' : A -> view F -> Prop) w : wpv H m R w -> (forall a w', R a w' -> R' a w') -> wpv H m R' w.
Proof. intros Hm HR y Hy. eapply wp_mono; [by apply Hm|]. intros a s (w' & y' & ? & ? & ?). exists w', y'. auto. Qed.
Lemma wpv_bind H (m : M state B) (k : B -> M state A) R w :
  wpv H m (fun b w' => wpv H (k b) R w') w -> wpv H (m ≫= k) R w.
Proof. intros Hm y Hy. apply wp_bind. eapply wp_mono; [by apply Hm|]. intros b s (w' & y' & -> & Hy' & Hk). by apply Hk. Qed.
Lemma wpv_lift H (r : res A) a R w : r = Ret a -> R a w -> wpv H (lift r) R w.
Proof. intros -> HR y Hy. by exists w, y. Qed.
Lemma wpv_gets H (g : state -> A) R w : (forall y, R (g (concrete w y)) w) -> wpv H (gets g) R w.
Proof. intros HR y Hy. exists w, y. by split_and!. Qed.
End rules.

Lemma sems_like_ext (v v' : Z -> option Z) (y : S) : (forall j, v j = v' j) -> sems_like v y -> sems_like v' y.
Proof. intros Hv [Hi Hy]. split; [done|]. intros j. by rewrite Hy. Qed.

Lemma wpv_set_files H l R w :
  R tt (mk_view (rows w) l (under_way w) (usable w) (fss w) (values w)) -> wpv H (set_files l) R w.
Proof. intros HR y Hy. by eexists (mk_view _ _ _ _ _ _), y. Qed.
Lemma wpv_set_rows H l R w :
  R tt (mk_view l (opened w) (under_way w) (usable w) (fss w) (values w)) -> wpv H (set_filesystems l) R w.
Proof. intros HR y Hy. by eexists (mk_view _ _ _ _ _ _), y. Qed.
Lemma wpv_set_ops H n u R w :
  R tt (mk_view (rows w) (opened w) n u (fss w) (values w)) -> wpv H (set_ops n u) R w.
Proof. intros HR y Hy. by eexists (mk_view _ _ _ _ _ _), y. Qed.

(** Taking a free semaphore, and giving it back. *)
Lemma held_cons w H i j : i ∉ H -> held_values w (i :: H) j = if j =? i then Some 0 else held_values w H j.
Proof.
  intros Hi. unfold held_values. destruct (Z.eqb_spec j i) as [->|Hne]; [by rewrite decide_True by left|].
  destruct (decide (j ∈ H)); [by rewrite decide_True by (by right)|by rewrite decide_False by (rewrite not_elem_of_cons; done)].
Qed.

Lemma wp_P_held H i w y (Q : unit -> state -> Prop) :
  i ∉ H -> values w i = Some 1 -> sems_like (held_values w H) y ->
  (forall y', sems_like (held_values w (i :: H)) y' -> Q tt (concrete w y')) -> wp (P (Some i)) Q (concrete w y).
Proof.
  intros Hi Hv [Hinv Hy] HQ. assert (Hyi : sem_val y i = Some 1) by (rewrite Hy; unfold held_values; by rewrite decide_False).
  pose proof (sem_P_spec y i 1 Hinv Hyi ltac:(lia)) as HP. unfold wp, P, with_sem in *. cbn [vfs_sems concrete].
  destruct (sem_P i y) as [[[] y1]|]; [|done]. destruct HP as [Hinv1 Hy1]. apply (HQ y1). split; [done|].
  intros j. rewrite Hy1, Hy, held_cons by done. done.
Qed.

Lemma wp_V_held H i w y (Q : unit -> state -> Prop) :
  i ∉ H -> values w i = Some 1 -> sems_like (held_values w (i :: H)) y ->
  (forall y', sems_like (held_values w H) y' -> Q tt (concrete w y')) -> wp (V (Some i)) Q (concrete w y).
Proof.
  intros Hi Hv [Hinv Hy] HQ. assert (Hyi : sem_val y i = Some 0) by (rewrite Hy, held_cons by done; by rewrite Z.eqb_refl).
  pose proof (sem_V_spec y i 0 Hinv Hyi ltac:(lia)) as HV. unfold wp, V, with_sem in *. cbn [vfs_sems concrete].
  destruct (sem_V i y) as [[[] y1]|]; [|done]. destruct HV as [Hinv1 Hy1]. apply (HQ y1). split; [done|].
  intros j. rewrite Hy1, Hy, held_cons by done. destruct (Z.eqb_spec j i) as [->|]; [|done].
  unfold held_values. by rewrite decide_False.
Qed.

(** A section under a free semaphore. *)
Lemma wpv_holding {A} H sem i (body : M state A) R w :
  (forall w y, sem (concrete w y) = Some i) -> i ∉ H -> values w i = Some 1 ->
  wpv (i :: H) body (fun a w' => values w' i = Some 1 /\ R a w') w ->
  wpv H (holding sem body) R w.
Proof.
  intros Hsem Hi Hv Hbody y Hy. unfold holding. apply wp_bind, wp_gets. rewrite Hsem. apply wp_bind.
  apply (wp_P_held H); [done|done|done|]. intros y1 Hy1. apply wp_bind. eapply wp_mono; [by apply Hbody|].
  intros a s (w' & y2 & -> & Hy2 & Hv' & HR). apply wp_bind, wp_gets. rewrite Hsem. apply wp_bind.
  apply (wp_V_held H); [done|done|done|]. intros y3 Hy3. apply wp_ret. by exists w', y3.
Qed.

(** An operation of a file system, whose semaphores nobody holds. *)
Lemma wpv_on_fs {A} H (m : M (F * S) A) (Q : A -> F -> Prop) R w :
  (forall y, sems_like (held_values w H) y -> fs_run m Q (fss w) y) ->
  (forall a f', Q a f' -> R a (mk_view (rows w) (opened w) (under_way w) (usable w) f' (values w))) -> wpv H (on_fs m) R w.
Proof.
  intros Hm HR y Hy. specialize (Hm y Hy). unfold fs_run in Hm. unfold wp, on_fs in *. cbn [vfs_fs vfs_sems concrete].
  destruct (m (fss w, y)) as [[a [f' y']]|]; [|done]. destruct Hm as [[Hinv Hs] HQ]. cbn [fst snd] in *.
  exists (mk_view (rows w) (opened w) (under_way w) (usable w) f' (values w)), y'. split; [done|]. split; [|by apply HR].
  split; [done|]. intros j. rewrite Hs. apply Hy.
Qed.

(** *** The table of rows and of files *)

(** What a mounted volume's row holds. *)
Definition row_ok (f : F) (e : vfs_entry_t) : Prop :=
  zlen (mountpoint e) = 16 /\ is_name (mountpoint e) /\ (ve_filesystem e <> 0 -> fs_mounted f (ve_filesystem e)).
Definition name_of (e : vfs_entry_t) : option (list Z) := cstr (mountpoint e).

Record view_ok w : Prop := {
  vk_ids : NoDup (ids_list ids) /\ Forall (fun i => i ∉ fs_sems (fss w)) (ids_list ids);
  vk_values : values w (id_table ids) = Some 1 /\ values w (id_files ids) = Some 1 /\ values w (id_op ids) = Some 1 /\
    values w (id_unmount ids) = Some 0;
  vk_fs : Forall (fun i => values w i = Some 1) (fs_sems (fss w));
  vk_rows : zlen (rows w) = CONFIG_MAX_FILESYSTEMS;
  vk_row : Forall (row_ok (fss w)) (rows w);
  vk_files : zlen (opened w) = CONFIG_MAX_OPEN_FILES;
  (** no file system is mounted twice *)
  vk_once : forall i j ei ej, rows w !! i = Some ei -> rows w !! j = Some ej -> ve_filesystem ei <> 0 ->
    ve_filesystem ei = ve_filesystem ej -> i = j;
  (** the file system of an open file is mounted *)
  vk_open : Forall (fun e => of_filesystem e = 0 \/ of_filesystem e = 1 \/
    exists r, r ∈ rows w /\ ve_filesystem r = of_filesystem e) (opened w);
  vk_ops : 0 <= under_way w <= 2147483647;
  vk_usable : usable w = true
}.

(** A state of vfs.c between operations. *)
Definition vfs_at w (s : state) : Prop := exists y, s = concrete w y /\ sems_like (values w) y.
Definition vfs_ok w (s : state) : Prop := vfs_at w s /\ view_ok w.

Lemma wpv_run {A} (m : M state A) R w s : vfs_at w s -> wpv [] m R w -> wp m (fun a s' => exists w', vfs_at w' s' /\ R a w') s.
Proof.
  intros (y & -> & Hy) Hm. eapply wp_mono.
  { apply Hm. revert Hy. apply sems_like_ext. intros j. unfold held_values. by rewrite decide_False by apply not_elem_of_nil. }
  intros a s (w' & y' & -> & Hy' & HR). exists w'. split; [|done]. exists y'. split; [done|]. revert Hy'. apply sems_like_ext.
  intros j. unfold held_values. by rewrite decide_False by apply not_elem_of_nil.
Qed.

(** The file systems are idle while vfs.c holds its own semaphores. *)
Lemma idle_held w H y :
  view_ok w -> Forall (fun i => i ∈ ids_list ids) H -> sems_like (held_values w H) y -> fs_idle (fss w) y.
Proof.
  intros Hok HH [Hinv Hy]. split; [done|]. apply Forall_forall. intros i Hi. rewrite Hy. unfold held_values.
  rewrite decide_False; [by apply (proj1 (Forall_forall _ _) (vk_fs _ Hok))|].
  intros Hin. destruct (vk_ids _ Hok) as [_ Hd]. rewrite Forall_forall in HH, Hd. by apply (Hd i); [apply HH|].
Qed.

Lemma op_begin H w (R : Z -> view F -> Prop) :
  view_ok w -> under_way w < 2147483647 -> id_op ids ∉ H -> R VFS_OK (mk_view (rows w) (opened w) (under_way w + 1) (usable w) (fss w) (values w)) ->
  wpv H vfs_start_op R w.
Proof.
  intros Hok Hmax Hi HR. destruct (vk_values _ Hok) as (_ & _ & Hv & _). pose proof (vk_ops _ Hok).
  apply (wpv_holding H vfs_op_sem (id_op ids)); [done|done|done|].
  apply wpv_bind, wpv_gets. intros y. cbn [vfs_usable concrete id vfs_ops]. pose proof (vk_usable _ Hok) as Hu. rewrite Hu in *.
  apply wpv_bind. eapply wpv_lift; [unfold int; rewrite decide_True by (unfold is_i32; lia); reflexivity|].
  apply wpv_bind, wpv_set_ops, wpv_ret. by split.
Qed.

Lemma op_end H w (R : unit -> view F -> Prop) :
  usable w = true -> values w (id_op ids) = Some 1 -> id_op ids ∉ H -> 1 <= under_way w ->
  R tt (mk_view (rows w) (opened w) (under_way w - 1) (usable w) (fss w) (values w)) -> wpv H vfs_end_op R w.
Proof.
  intros Hu Hv Hi Hn HR. apply (wpv_holding H vfs_op_sem (id_op ids)); [done|done|done|].
  apply wpv_bind, wpv_gets. intros y. cbn [vfs_usable concrete id vfs_ops].
  apply wpv_bind, wpv_set_ops, wpv_bind. intros y' Hy'. apply wp_kassert.
  { apply Z.geb_le. lia. }
  exists (mk_view (rows w) (opened w) (under_way w - 1) (usable w) (fss w) (values w)), y'. split; [done|]. split; [done|]. rewrite Hu in HR |- *. cbn [negb andb].
  apply wpv_ret. by split.
Qed.

Definition with_under_way (n : Z) w : view F := mk_view (rows w) (opened w) n (usable w) (fss w) (values w).

Lemma view_ok_under_way n w : view_ok w -> 0 <= n <= 2147483647 -> view_ok (with_under_way n w).
Proof. intros [] Hn. by split. Qed.

(** [operation]: the body runs with one more operation under way. *)
Lemma wpv_operation (body : M state Z) (R : Z -> view F -> Prop) w :
  view_ok w -> under_way w < 2147483647 ->
  wpv [] body (fun r w' => usable w' = true /\ under_way w' = under_way w + 1 /\ values w' (id_op ids) = Some 1 /\ R r (with_under_way (under_way w) w'))
    (with_under_way (under_way w + 1) w) ->
  wpv [] (operation body) R w.
Proof.
  intros Hok Hmax Hbody. apply wpv_bind, op_begin; [done|done|apply not_elem_of_nil|]. cbn [Z.eqb negb VFS_OK].
  apply wpv_bind. eapply wpv_mono; [exact Hbody|]. intros r w' (Hu & Hn & Hv & HR). apply wpv_bind, op_end; [done|done|apply not_elem_of_nil| |].
  { pose proof (vk_ops _ Hok). lia. }
  apply wpv_ret. replace (under_way w' - 1) with (under_way w) by lia. exact HR.
Qed.
Lemma wpv_leaky (body : M state (option Z)) (R : Z -> view F -> Prop) w :
  view_ok w -> under_way w < 2147483647 ->
  wpv [] body (fun r w' => match r with
      | Some r => usable w' = true /\ under_way w' = under_way w + 1 /\ values w' (id_op ids) = Some 1 /\ R r (with_under_way (under_way w) w')
      | None => R VFS_ERROR w'
      end) (with_under_way (under_way w + 1) w) ->
  wpv [] (leaky_operation body) R w.
Proof.
  intros Hok Hmax Hbody. apply wpv_bind, op_begin; [done|done|apply not_elem_of_nil|]. cbn [Z.eqb negb VFS_OK].
  apply wpv_bind. eapply wpv_mono; [exact Hbody|]. intros [r|] w'; [|by apply wpv_ret]. intros (Hu & Hn & Hv & HR).
  apply wpv_bind, op_end; [done|done|apply not_elem_of_nil| |].
  { pose proof (vk_ops _ Hok). lia. }
  apply wpv_ret. replace (under_way w' - 1) with (under_way w) by lia. exact HR.
Qed.
End views.

(** ** Searching the tables *)

(** The file system mounted under a name: the first row of that name. *)
Definition named (nm : list Z) (e : vfs_entry_t) : bool := bool_decide (cstr (mountpoint e) = Some nm).
Definition volume (l : list vfs_entry_t) (nm : list Z) : Z := from_option ve_filesystem 0 (List.find (named nm) l).

Lemma find_first {A} (g : A -> bool) l k :
  first_index g l k -> List.find g l = if decide (k < zlen l) then l !! Z.to_nat k else None.
Proof.
  intros (Hr & Hb & Ha). destruct (decide (k < zlen l)) as [Hlt|Hge].
  - destruct (Ha Hlt) as (x & Hx & Hg). rewrite Hx. rewrite <- (take_drop_middle _ _ _ Hx). clear Ha.
    assert (Hall : Forall (fun x => g x = false) (take (Z.to_nat k) l)).
    { apply Forall_lookup. intros j y [Hy Hj]%lookup_take_Some. apply (Hb (Z.of_nat j)); [lia|]. by rewrite Nat2Z.id. }
    induction Hall as [|y l' Hy Hall IH]; cbn [app List.find]; [by rewrite Hg|by rewrite Hy].
  - pose proof (first_index_none g l k (conj Hr (conj Hb Ha)) ltac:(lia)) as Hall. clear -Hall.
    induction Hall as [|x l Hx Hall IH]; cbn [List.find]; [done|by rewrite Hx].
Qed.

Lemma has_name_run name nm e f :
  forall (m : Z -> Prop), is_name name -> cstr name = Some nm ->
  (zlen (mountpoint e) = 16 /\ is_name (mountpoint e) /\ (ve_filesystem e <> 0 -> m (f e))) ->
  has_name name e = Ret (named nm e).
Proof.
  intros m [Hb _] Hn (_ & [Hb' [c Hc]] & _). unfold has_name, named.
  destruct (stringcmp_run (mountpoint e) name c nm Hb' Hb Hc Hn) as (r & -> & _ & H0 & _). unfold mbind, res_bind. f_equal.
  rewrite Hc. destruct (Z.eqb_spec r 0) as [Hr|Hr].
  - symmetry. apply bool_decide_eq_true. f_equal. by apply H0.
  - symmetry. apply bool_decide_eq_false. intros [= Hcn]. by apply Hr, H0.
Qed.

Section ops.
Context {F S : Type} `{!Semaphores S, !FileSystemOps F S, !FileSystems F S}.
Context (ids : sem_ids).
Abbreviation state := (vfs F S).
Implicit Types (w : view F) (H : list Z) (s : state).

Definition with_opened (l : list openfile_entry_t) w : view F := mk_view (rows w) l (under_way w) (usable w) (fss w) (values w).
Definition with_rows (l : list vfs_entry_t) w : view F := mk_view l (opened w) (under_way w) (usable w) (fss w) (values w).
Definition with_fss (f : F) w : view F := mk_view (rows w) (opened w) (under_way w) (usable w) f (values w).

Lemma view_ok_keeps f' w : view_ok ids w -> fs_keeps (fss w) f' -> view_ok ids (with_fss f' w).
Proof.
  intros [] (Hs & Hm & _). split; cbn [with_fss rows opened under_way usable fss values]; rewrite ?Hs; try done.
  eapply Forall_impl; [done|]. intros e (? & ? & ?). split; [done|]. split; [done|]. auto.
Qed.

Lemma view_ok_file w i e :
  view_ok ids w -> (of_filesystem e = 0 \/ of_filesystem e = 1 \/ exists r, r ∈ rows w /\ ve_filesystem r = of_filesystem e) ->
  view_ok ids (with_opened (<[i := e]> (opened w)) w).
Proof.
  intros [] He. split; cbn [with_opened rows opened under_way usable fss values]; try done; [by rewrite length_insert|].
  by apply Forall_insert.
Qed.

Lemma file_open_ok w i e :
  view_ok ids w -> opened w !! i = Some e ->
  of_filesystem e = 0 \/ of_filesystem e = 1 \/ exists r, r ∈ rows w /\ ve_filesystem r = of_filesystem e.
Proof. intros Hok He. by apply (proj1 (Forall_lookup _ _) (vk_open _ _ Hok) _ _ He). Qed.

(** An open file of a mounted file system. *)
Definition is_open w (file : Z) (e : openfile_entry_t) : Prop :=
  0 <= file /\ opened w !! Z.to_nat file = Some e /\ 1 < of_filesystem e.

Lemma open_mounted w file e : view_ok ids w -> is_open w file e -> fs_mounted (fss w) (of_filesystem e) /\ file < CONFIG_MAX_OPEN_FILES.
Proof.
  intros Hok (H0 & He & Hfs). split.
  - destruct (file_open_ok w _ e Hok He) as [?|[?|(r & Hr & Hrf)]]; [lia|lia|].
    apply (proj1 (Forall_forall _ _) (vk_row _ _ Hok)) in Hr as (_ & _ & Hm). rewrite <- Hrf. apply Hm. lia.
  - apply lookup_lt_Some in He. rewrite <- (vk_files _ _ Hok). lia.
Qed.

Lemma wpv_upd_file H file g e (R : unit -> view F -> Prop) w :
  0 <= file -> opened w !! Z.to_nat file = Some e ->
  R tt (with_opened (<[Z.to_nat file := g e]> (opened w)) w) -> wpv ids H (upd_file file g) R w.
Proof.
  intros H0 He HR. pose proof (lookup_lt_Some _ _ _ He) as Hlt. apply wpv_bind, wpv_gets. intros y. cbn [files concrete].
  apply wpv_bind. eapply wpv_lift; [by apply rget_Ret|]. apply wpv_bind. eapply wpv_lift; [by apply rset_in; lia|].
  by apply wpv_set_files.
Qed.

Lemma wpv_verify_open H file (R : option openfile_entry_t -> view F -> Prop) w :
  view_ok ids w ->
  (forall e, 0 <= file -> opened w !! Z.to_nat file = Some e -> of_filesystem e <> 0 -> R (Some e) w) ->
  ((file < 0 \/ CONFIG_MAX_OPEN_FILES <= file \/ exists e, opened w !! Z.to_nat file = Some e /\ of_filesystem e = 0) -> R None w) ->
  wpv ids H (vfs_verify_open file) R w.
Proof.
  intros Hok Hsome Hnone. unfold vfs_verify_open. pose proof (vk_files _ _ Hok) as Hl.
  destruct (Z.geb_spec file 0), (Z.ltb_spec file CONFIG_MAX_OPEN_FILES); cbn [andb negb]; try (apply wpv_ret, Hnone; lia).
  apply wpv_bind, wpv_gets. intros y. cbn [files concrete]. destruct (rget_in (opened w) file) as (e & Hr & He); [lia|].
  apply wpv_bind. eapply wpv_lift; [exact Hr|]. destruct (Z.eqb_spec (of_filesystem e) 0) as [Hz|Hnz]; apply wpv_ret; [|by apply Hsome].
  apply Hnone. right. right. by exists e.
Qed.

Lemma wpv_get_filesystem H name nm (R : Z -> view F -> Prop) w :
  view_ok ids w -> is_name name -> cstr name = Some nm -> R (volume (rows w) nm) w -> wpv ids H (vfs_get_filesystem name) R w.
Proof.
  intros Hok Hname Hn HR. apply wpv_bind, wpv_gets. intros y. cbn [filesystems concrete].
  destruct (scan_first (Z.to_nat CONFIG_MAX_FILESYSTEMS) (has_name name) (named nm) (rows w)) as (k & Hk & Hf).
  { rewrite (vk_rows _ _ Hok). done. }
  { eapply Forall_impl; [apply (vk_row _ _ Hok)|]. intros e He. by apply (has_name_run name nm e ve_filesystem (fs_mounted (fss w))). }
  apply wpv_bind. eapply wpv_lift; [exact Hk|]. unfold volume in HR. rewrite (find_first _ _ _ Hf), (vk_rows _ _ Hok) in HR.
  destruct (decide (k < CONFIG_MAX_FILESYSTEMS)) as [Hlt|Hge].
  - rewrite Z.geb_leb, (proj2 (Z.leb_gt _ _)) by lia. destruct (rget_in (rows w) k) as (e & Hr & He); [destruct Hf; rewrite (vk_rows _ _ Hok); lia|].
    rewrite He in HR. apply wpv_bind. eapply wpv_lift; [exact Hr|]. by apply wpv_ret.
  - rewrite Z.geb_leb, (proj2 (Z.leb_le _ _)) by lia. by apply wpv_ret.
Qed.

Lemma in_ids : id_table ids ∈ ids_list ids /\ id_files ids ∈ ids_list ids /\ id_op ids ∈ ids_list ids /\ id_unmount ids ∈ ids_list ids.
Proof. unfold ids_list. set_solver. Qed.

(** *** The operations on open files *)

Lemma held_ids : Forall (fun i => i ∈ ids_list ids) [id_files ids; id_table ids] /\ Forall (fun i => i ∈ ids_list ids) [id_files ids] /\
  Forall (fun i => i ∈ ids_list ids) [id_table ids] /\ Forall (fun i => i ∈ ids_list ids) [].
Proof. destruct in_ids as (? & ? & ? & ?). by repeat (split || constructor). Qed.

Lemma under_way_ok w : view_ok ids w -> under_way w < 2147483647 -> view_ok ids (with_under_way (under_way w + 1) w).
Proof. intros Hok Hmax. apply view_ok_under_way; [done|]. pose proof (vk_ops _ _ Hok). lia. Qed.

(** Inside the section of the table of files. *)
Lemma wpv_files {A} (body : M state A) (R : A -> view F -> Prop) w :
  view_ok ids w -> wpv ids [id_files ids] body (fun a w' => values w' (id_files ids) = Some 1 /\ R a w') w ->
  wpv ids [] (holding openfile_table_sem body) R w.
Proof. intros Hok. apply wpv_holding; [done|apply not_elem_of_nil|apply (vk_values _ _ Hok)]. Qed.

Lemma seek_run w file e pos :
  view_ok ids w -> under_way w < 2147483647 -> is_open w file e -> 0 <= pos ->
  wpv ids [] (vfs_seek file pos) (fun r w' => r = VFS_OK /\ w' = with_opened (<[Z.to_nat file := set_seek pos e]> (opened w)) w) w.
Proof.
  intros Hok Hmax Hopen Hpos. pose proof Hopen as (H0 & He & Hfs). apply wpv_leaky; [done|done|].
  rewrite Z.geb_leb, (proj2 (Z.leb_le 0 pos)) by done. cbn [negb].
  pose proof (under_way_ok w Hok Hmax) as Hok'. apply wpv_files; [done|].
  apply wpv_bind, wpv_verify_open; [done| |].
  - intros e' _ He' _. cbn [with_under_way opened] in He'. replace e' with e in * by congruence.
    apply wpv_bind, (wpv_upd_file _ file _ e); [done|done|]. apply wpv_ret.
    split; [apply (vk_values _ _ Hok)|]. split; [apply (vk_usable _ _ Hok)|]. split; [done|]. split; [apply (vk_values _ _ Hok)|]. done.
  - intros [?|[?|(e' & He' & Hz)]]; [lia| |].
    + apply lookup_lt_Some in He. pose proof (vk_files _ _ Hok). lia.
    + cbn [with_under_way opened] in He'. replace e' with e in * by congruence. lia.
Qed.

(** A handle that is not open. *)
Definition not_open w (file : Z) : Prop :=
  file < 0 \/ CONFIG_MAX_OPEN_FILES <= file \/ exists e, opened w !! Z.to_nat file = Some e /\ of_filesystem e = 0.

Lemma close_not_open w file :
  view_ok ids w -> under_way w < 2147483647 -> not_open w file ->
  wpv ids [] (vfs_close file) (fun r w' => r = VFS_ERROR /\ w' = with_under_way (under_way w + 1) w) w.
Proof.
  intros Hok Hmax Hno. apply wpv_leaky; [done|done|]. pose proof (under_way_ok w Hok Hmax) as Hok'. apply wpv_files; [done|].
  apply wpv_bind, wpv_verify_open; [done| |].
  - intros e H0 He Hne. cbn [with_under_way opened] in He. destruct Hno as [?|[?|(e' & He' & Hz)]]; [lia| |congruence].
    apply lookup_lt_Some in He. pose proof (vk_files _ _ Hok). lia.
  - intros _. apply wpv_ret. split; [apply (vk_values _ _ Hok)|]. done.
Qed.

Lemma close_run w file e :
  view_ok ids w -> under_way w < 2147483647 -> is_open w file e ->
  wpv ids [] (vfs_close file) (fun r w' => view_ok ids w' /\ exists f',
    w' = with_opened (<[Z.to_nat file := set_fs 0 e]> (opened w)) (with_fss f' w) /\ fs_keeps (fss w) f' /\
    forall fs id b, fs_file (fss w) fs id b -> fs_file f' fs id b) w.
Proof.
  intros Hok Hmax Hopen. pose proof Hopen as (H0 & He & Hfs). destruct (open_mounted w file e Hok Hopen) as [Hm Hlt].
  apply wpv_leaky; [done|done|]. pose proof (under_way_ok w Hok Hmax) as Hok'. apply wpv_files; [done|].
  apply wpv_bind, wpv_verify_open; [done| |].
  - intros e' _ He' _. cbn [with_under_way opened] in He'. replace e' with e in * by congruence. apply wpv_bind.
    apply (wpv_on_fs _ _ _ (fun _ f' => fs_keeps (fss w) f' /\ forall fs id b, fs_file (fss w) fs id b -> fs_file f' fs id b)).
    { intros y Hy. apply fs_close_law; [|done]. by apply (idle_held ids _ [id_files ids] y Hok' (proj1 (proj2 held_ids))). }
    intros r f' [Hk Hf]. apply wpv_bind, (wpv_upd_file _ file _ e); [done|done|]. apply wpv_ret.
    split; [apply (vk_values _ _ Hok)|]. split; [apply (vk_usable _ _ Hok)|]. split; [done|]. split; [apply (vk_values _ _ Hok)|].
    split; [|by exists f'].
    apply (view_ok_file (with_fss f' w)); [by apply view_ok_keeps|by left].
  - intros [?|[?|(e' & He' & Hz)]]; [lia|lia|]. cbn [with_under_way opened] in He'. replace e' with e in * by congruence. lia.
Qed.

Lemma advance_run w file e n (R : unit -> view F -> Prop) :
  view_ok ids w -> 0 <= file -> opened w !! Z.to_nat file = Some e -> 0 <= seek_position e -> seek_position e + n < 2147483648 ->
  R tt (if 0 <? n then with_opened (<[Z.to_nat file := set_seek (seek_position e + n) e]> (opened w)) w else w) ->
  wpv ids [] (advance file n) R w.
Proof.
  intros Hok H0 He Hs Hn HR. unfold advance. rewrite Z.gtb_ltb. destruct (Z.ltb_spec 0 n); [|by apply wpv_ret].
  apply wpv_files; [done|]. apply wpv_bind, wpv_gets. intros y. cbn [files concrete].
  apply wpv_bind. eapply wpv_lift; [by apply rget_Ret|].
  apply wpv_bind. eapply wpv_lift; [unfold int; rewrite decide_True by (unfold is_i32; lia); reflexivity|].
  apply (wpv_upd_file _ file _ e); [done|done|]. split; [apply (vk_values _ _ Hok)|done].
Qed.

(** What a transfer of [r] bytes makes of the open file. *)
Definition moved w (file : Z) (e : openfile_entry_t) (r : Z) (f' : F) : view F :=
  if 0 <? r then with_opened (<[Z.to_nat file := set_seek (seek_position e + r) e]> (opened w)) (with_fss f' w) else with_fss f' w.

Lemma moved_ok w file e r f' : view_ok ids w -> is_open w file e -> fs_keeps (fss w) f' -> view_ok ids (moved w file e r f').
Proof.
  intros Hok (_ & He & _) Hk. unfold moved. pose proof (view_ok_keeps f' w Hok Hk) as Hok'.
  destruct (0 <? r); [|done]. apply (view_ok_file (with_fss f' w)); [done|]. apply (file_open_ok w _ e Hok He).
Qed.

Lemma read_run w file e b buffer n :
  view_ok ids w -> under_way w < 2147483647 -> is_open w file e -> fs_file (fss w) (of_filesystem e) (fileid e) b ->
  0 <= seek_position e < 2147483648 -> 0 <= n <= zlen buffer ->
  wpv ids [] (vfs_read file (Some buffer) n) (fun a w' => exists r buffer' f', a = (r, Some buffer') /\
    w' = moved w file e r f' /\ fs_keeps (fss w) f' /\ (forall fs id b, fs_file (fss w) fs id b -> fs_file f' fs id b) /\
    ((r < 0 /\ ~ fs_reliable (fss w)) \/
     if seek_position e <=? zlen b then
       r = Z.min n (zlen b - seek_position e) /\ buffer' = splice buffer 0 (slice b (Z.to_nat (seek_position e)) (Z.to_nat r))
     else r < 0)) w.
Proof.
  intros Hok Hmax Hopen Hfile Hs Hn. pose proof Hopen as (H0 & He & Hfs). destruct (open_mounted w file e Hok Hopen) as [Hm Hlt].
  apply wpv_bind, op_begin; [done|done|apply not_elem_of_nil|]. cbn [Z.eqb negb VFS_OK].
  pose proof (under_way_ok w Hok Hmax) as Hok'. apply wpv_bind, wpv_verify_open; [done| |].
  2: { intros [?|[?|(e' & He' & Hz)]]; [lia|lia|]. cbn [with_under_way opened] in He'. replace e' with e in * by congruence. lia. }
  intros e' _ He' _. cbn [with_under_way opened] in He'. replace e' with e in * by congruence.
  rewrite Z.geb_leb, (proj2 (Z.leb_le 0 n)) by lia. cbn [negb]. apply wpv_bind. eapply wpv_on_fs.
  { intros y Hy. apply (fs_read_law (fss w) y (of_filesystem e) (fileid e) b buffer n (seek_position e)); try done; [|lia].
    by apply (idle_held ids _ [] y Hok' (Forall_nil_2 _)). }
  intros [r buffer'] f' (Hk & Hfiles & Hlb & Hr). apply wpv_bind.
  assert (Hrn : seek_position e + r < 2147483648).
  { destruct Hr as [[Hneg _]|Hr]; [cbn in Hneg; lia|]. destruct (Z.leb_spec (seek_position e) (zlen b)); [injection Hr as -> _; lia|cbn in Hr; lia]. }
  apply (advance_run _ file e r); try done; [|lia|].
  { by apply (view_ok_keeps f' (with_under_way (under_way w + 1) w)). }
  apply wpv_bind, op_end; [destruct (0 <? r); apply (vk_usable _ _ Hok)|destruct (0 <? r); apply (vk_values _ _ Hok)|apply not_elem_of_nil| |].
  { pose proof (vk_ops _ _ Hok). destruct (0 <? r); cbn; lia. }
  apply wpv_ret. exists r, buffer', f'. split; [done|]. split.
  { unfold moved. destruct (0 <? r); cbn; (by replace (under_way w + 1 - 1) with (under_way w) by lia). }
  split; [done|]. split; [done|]. destruct Hr as [[Hneg Hrel]|Hr]; [by left|right].
  destruct (seek_position e <=? zlen b); [|done]. by injection Hr as -> ->.
Qed.

Lemma write_run w file e b buffer n :
  view_ok ids w -> under_way w < 2147483647 -> is_open w file e -> fs_file (fss w) (of_filesystem e) (fileid e) b ->
  0 <= seek_position e < 2147483648 -> 0 <= n <= zlen buffer -> Forall is_byte buffer ->
  wpv ids [] (vfs_write file (Some buffer) n) (fun r w' => exists f',
    w' = moved w file e r f' /\ fs_keeps (fss w) f' /\
    ((r < 0 /\ ~ fs_reliable (fss w)) \/
     if seek_position e <=? zlen b then
       r = Z.min n (zlen b - seek_position e) /\
       fs_file f' (of_filesystem e) (fileid e) (splice b (Z.to_nat (seek_position e)) (take (Z.to_nat r) buffer))
     else r < 0 /\ forall fs id b, fs_file (fss w) fs id b -> fs_file f' fs id b)) w.
Proof.
  intros Hok Hmax Hopen Hfile Hs Hn Hby. pose proof Hopen as (H0 & He & Hfs). destruct (open_mounted w file e Hok Hopen) as [Hm Hlt].
  apply wpv_leaky; [done|done|].
  pose proof (under_way_ok w Hok Hmax) as Hok'. apply wpv_bind, wpv_verify_open; [done| |].
  2: { intros [?|[?|(e' & He' & Hz)]]; [lia|lia|]. cbn [with_under_way opened] in He'. replace e' with e in * by congruence. lia. }
  intros e' _ He' _. cbn [with_under_way opened] in He'. replace e' with e in * by congruence.
  rewrite Z.geb_leb, (proj2 (Z.leb_le 0 n)) by lia. apply wpv_bind, wpv_ret, wpv_bind. eapply wpv_on_fs.
  { intros y Hy. apply (fs_write_law (fss w) y (of_filesystem e) (fileid e) b buffer n (seek_position e)); try done; [|lia].
    by apply (idle_held ids _ [] y Hok' (Forall_nil_2 _)). }
  intros r f' (Hk & Hlb & Hr). apply wpv_bind.
  assert (Hrn : seek_position e + r < 2147483648).
  { destruct Hr as [[Hneg _]|Hr]; [lia|]. destruct (Z.leb_spec (seek_position e) (zlen b)); destruct Hr; lia. }
  apply (advance_run _ file e r); try done; [|lia|].
  { by apply (view_ok_keeps f' (with_under_way (under_way w + 1) w)). }
  apply wpv_ret. split; [destruct (0 <? r); apply (vk_usable _ _ Hok)|]. split; [by destruct (0 <? r)|].
  split; [destruct (0 <? r); apply (vk_values _ _ Hok)|]. exists f'. split; [unfold moved; by destruct (0 <? r)|]. split; [done|].
  destruct Hr as [[Hneg Hrel]|Hr]; [by left|right]. destruct (seek_position e <=? zlen b); [|done].
  destruct Hr as [-> Hf]. by split.
Qed.

(** *** Opening *)

Lemma split_path_byte path v name : Forall is_byte path -> split_path path = Some (v, name) -> Forall is_byte v /\ Forall is_byte name.
Proof.
  intros Hb Hs. unfold split_path in Hs. destruct path as [|c r].
  - done.
  - destruct (c =? 91).
    + destruct (volume_part r) as [[v' n']|] eqn:Hv; [|done]. unfold mbind, option_bind in Hs. destruct (_ && _); [|done].
      injection Hs as <- <-. apply Forall_cons in Hb as [_ Hb]. by apply (volume_part_byte r).
    + unfold mbind, option_bind in Hs. destruct (_ && _); [|done]. injection Hs as <- <-. by split.
Qed.

Lemma cstr_bytes path p : Forall is_byte path -> cstr path = Some p -> Forall is_byte p.
Proof. intros Hb (_ & rest & ->)%cstr_inv. by apply Forall_app in Hb as [? _]. Qed.

Lemma buffer_name buf nm : is_buffer 16 buf -> Forall is_byte nm -> Forall (fun c => c <> 0) nm -> (length nm <= 15)%nat ->
  Forall is_byte (splice buf 0 (nm ++ [0])) /\ cstr (splice buf 0 (nm ++ [0])) = Some nm.
Proof.
  intros [_ Hb] Hn Hnz Hl. split; [|by apply cstr_splice]. apply Forall_splice; [done|]. apply Forall_app. split; [done|].
  constructor; [unfold is_byte; lia|constructor].
Qed.

Lemma volume_row l nm : volume l nm <> 0 -> exists e, e ∈ l /\ ve_filesystem e = volume l nm.
Proof.
  unfold volume. destruct (List.find (named nm) l) as [e|] eqn:Hf; [|done]. intros _. apply List.find_some in Hf as [Hin _].
  exists e. split; [by apply list_elem_of_In|done].
Qed.
Lemma volume_mounted w nm : view_ok ids w -> volume (rows w) nm <> 0 -> fs_mounted (fss w) (volume (rows w) nm).
Proof.
  intros Hok Hv. destruct (volume_row (rows w) nm Hv) as (e & Hin & He).
  apply (proj1 (Forall_forall _ _) (vk_row _ _ Hok)) in Hin as (_ & _ & Hm). rewrite <- He. apply Hm. by rewrite He.
Qed.

Definition free_file (e : openfile_entry_t) : bool := of_filesystem e =? 0.

(** The sections of both tables: a free handle for the volume. *)
Lemma reserve_handle_run w volumename vol (R : Z + (Z * Z) -> view F -> Prop) k :
  view_ok ids w -> is_name volumename -> cstr volumename = Some vol -> first_index free_file (opened w) k ->
  (if CONFIG_MAX_OPEN_FILES <=? k then R (inl VFS_LIMIT) w
   else if volume (rows w) vol =? 0 then R (inl VFS_NO_SUCH_FS) w
   else forall e, opened w !! Z.to_nat k = Some e -> of_filesystem e = 0 ->
     R (inr (k, volume (rows w) vol)) (with_opened (<[Z.to_nat k := set_fs (volume (rows w) vol) e]> (opened w)) w)) ->
  wpv ids [] (holding vfs_table_sem (holding openfile_table_sem (
        l ← gets files;
        file ← lift (scan (Z.to_nat CONFIG_MAX_OPEN_FILES) 0 (fun e => Ret (of_filesystem e =? 0)) l);
        if file >=? CONFIG_MAX_OPEN_FILES then mret (inl VFS_LIMIT)
        else
          fs ← vfs_get_filesystem volumename;
          if fs =? 0 then mret (inl VFS_NO_SUCH_FS)
          else _ ← upd_file file (set_fs fs); mret (inr (file, fs))))) R w.
Proof.
  intros Hok Hname Hvol Hk HR. destruct (vk_values _ _ Hok) as (Hv1 & Hv2 & _). destruct (vk_ids _ _ Hok) as [Hnd _].
  unfold ids_list in Hnd. rewrite !NoDup_cons, !not_elem_of_cons in Hnd.
  apply (wpv_holding ids [] vfs_table_sem (id_table ids)); [done|apply not_elem_of_nil|done|].
  apply (wpv_holding ids _ openfile_table_sem (id_files ids)); [done|apply not_elem_of_cons; split; [naive_solver|apply not_elem_of_nil]|done|].
  apply wpv_bind, wpv_gets. intros y. cbn [files concrete].
  destruct (scan_first (Z.to_nat CONFIG_MAX_OPEN_FILES) (fun e => Ret (of_filesystem e =? 0)) free_file (opened w)) as (k' & Hk' & Hf).
  { rewrite (vk_files _ _ Hok). done. }
  { apply Forall_forall. done. }
  assert (k' = k) as ->.
  { destruct Hk as (Hr1 & Hb1 & Ha1), Hf as (Hr2 & Hb2 & Ha2). destruct (Z.lt_trichotomy k k') as [Hlt|[->|Hlt]]; [|done|].
    - destruct Ha1 as (x & Hx & Hg); [lia|]. rewrite (Hb2 k x) in Hg; [done|lia|done].
    - destruct Ha2 as (x & Hx & Hg); [lia|]. rewrite (Hb1 k' x) in Hg; [done|lia|done]. }
  apply wpv_bind. eapply wpv_lift; [exact Hk'|]. rewrite Z.geb_leb. destruct (Z.leb_spec CONFIG_MAX_OPEN_FILES k) as [Hge|Hlt].
  { by apply wpv_ret. }
  apply wpv_bind, (wpv_get_filesystem _ volumename vol); [done|done|done|].
  destruct (Z.eqb_spec (volume (rows w) vol) 0) as [Hz|Hnz]; [by apply wpv_ret|].
  destruct Hk as (Hr & _ & Ha). destruct Ha as (e & He & Hg); [rewrite (vk_files _ _ Hok); lia|]. apply Z.eqb_eq in Hg.
  apply wpv_bind, (wpv_upd_file _ k _ e); [lia|done|]. apply wpv_ret. split; [done|]. split; [done|]. by apply HR.
Qed.

Lemma open_run w volbuf filebuf path p :
  view_ok ids w -> under_way w < 2147483647 -> Forall is_byte path -> cstr path = Some p -> is_buffer 16 volbuf -> is_buffer 16 filebuf ->
  wpv ids [] (vfs_open volbuf filebuf path) (fun r w' =>
    match split_path p with
    | None => r = VFS_ERROR /\ w' = w
    | Some (vol, name) =>
        exists k, first_index free_file (opened w) k /\
        if CONFIG_MAX_OPEN_FILES <=? k then r = VFS_LIMIT /\ w' = w
        else if volume (rows w) vol =? 0 then r = VFS_NO_SUCH_FS /\ w' = w
        else exists f', fs_keeps (fss w) f' /\ (forall fs id b, fs_file (fss w) fs id b -> fs_file f' fs id b) /\
          ((r < 0 /\ w' = with_fss f' w) \/
           exists id, 0 <= id /\ fs_entry (fss w) (volume (rows w) vol) name id /\ r = k /\
             w' = with_opened (<[Z.to_nat k := mk_openfile (volume (rows w) vol) id 0]> (opened w)) (with_fss f' w))
    end) w.
Proof.
  intros Hok Hmax Hpath Hp Hvb Hfb. pose proof (under_way_ok w Hok Hmax) as Hok'.
  destruct (vfs_parse_pathname_run path p volbuf filebuf Hp (proj1 Hvb) (proj1 Hfb)) as (r & vb & fb & Hparse & _ & _ & Hsplit).
  apply wpv_operation; [done|done|]. apply wpv_bind. eapply wpv_lift; [exact Hparse|].
  assert (Hsame : forall (Q : Prop), Q -> usable w = true /\ under_way (with_under_way (under_way w + 1) w) = under_way w + 1 /\
    values w (id_op ids) = Some 1 /\ Q).
  { intros Q HQ. split; [apply (vk_usable _ _ Hok)|]. split; [done|]. split; [apply (vk_values _ _ Hok)|done]. }
  destruct (split_path p) as [[vol name]|] eqn:Hsp.
  2: { subst r. apply wpv_ret. apply Hsame. split; [done|]. by destruct w. }
  destruct Hsplit as (-> & -> & -> & Hvz & Hnz & Hvl & Hnl). cbn [Z.eqb negb VFS_OK].
  destruct (split_path_byte p vol name (cstr_bytes path p Hpath Hp) Hsp) as [Hvby Hnby].
  destruct (buffer_name volbuf vol Hvb Hvby Hvz ltac:(lia)) as [Hvn1 Hvn2].
  destruct (buffer_name filebuf name Hfb Hnby Hnz Hnl) as [Hfn1 Hfn2].
  destruct (scan_first (Z.to_nat CONFIG_MAX_OPEN_FILES) (fun e => Ret (of_filesystem e =? 0)) free_file (opened w)) as (k & _ & Hk).
  { rewrite (vk_files _ _ Hok). done. }
  { apply Forall_forall. done. }
  apply wpv_bind, (reserve_handle_run _ _ vol _ k); [done|by split; [|exists vol]|done|done|]. cbn [with_under_way rows opened].
  destruct (Z.leb_spec CONFIG_MAX_OPEN_FILES k) as [Hge|Hlt].
  { apply wpv_ret, Hsame. exists k. split; [done|]. rewrite (proj2 (Z.leb_le _ k)) by done. split; [done|]. by destruct w. }
  destruct (Z.eqb_spec (volume (rows w) vol) 0) as [Hz|Hfs].
  { apply wpv_ret, Hsame. exists k. split; [done|]. rewrite (proj2 (Z.leb_gt _ k)) by done.
    split; [done|]. by destruct w. }
  intros e He He0. set (fs := volume (rows w) vol) in *. pose proof (volume_mounted w vol Hok Hfs) as Hm. fold fs in Hm.
  assert (Hrow : exists r, r ∈ rows w /\ ve_filesystem r = fs) by (by apply volume_row).
  assert (Hok2 : view_ok ids (with_opened (<[Z.to_nat k := set_fs fs e]> (opened w)) (with_under_way (under_way w + 1) w))).
  { apply (view_ok_file (with_under_way (under_way w + 1) w)); [done|]. right. right. exact Hrow. }
  apply wpv_bind. eapply wpv_on_fs.
  { intros y Hy. apply (fs_open_law (fss w) y fs _ name); try done. by apply (idle_held ids _ [] y Hok2 (Forall_nil_2 _)). }
  intros id f' (Hkeep & Hfiles & Hentry). cbn [with_opened with_under_way rows opened under_way usable fss values].
  destruct Hk as (Hr0 & Hk). destruct (Z.ltb_spec id 0) as [Hneg|Hpos].
  - apply wpv_bind, wpv_files.
    { apply (view_ok_keeps f' (with_opened (<[Z.to_nat k := set_fs fs e]> (opened w)) (with_under_way (under_way w + 1) w))); done. }
    apply (wpv_upd_file _ k _ (set_fs fs e)); [lia| |].
    { cbn [opened]. apply list_lookup_insert_eq. by apply lookup_lt_Some in He. }
    split; [apply (vk_values _ _ Hok)|]. apply wpv_ret, Hsame. exists k. split; [by split|].
    rewrite (proj2 (Z.leb_gt _ k)) by done. exists f'. split; [done|]. split; [done|]. left. split; [done|].
    unfold with_fss, with_under_way, with_opened. cbn. f_equal. rewrite list_insert_insert_eq.
    rewrite (list_insert_id (opened w)); [done|]. rewrite He. f_equal. destruct e. cbn in He0. by subst.
  - apply wpv_bind, (wpv_upd_file _ k _ (set_fs fs e)); [lia| |].
    { cbn [opened]. apply list_lookup_insert_eq. by apply lookup_lt_Some in He. }
    apply wpv_ret, Hsame. exists k. split; [by split|].
    rewrite (proj2 (Z.leb_gt _ k)) by done. exists f'. split; [done|]. split; [done|]. right.
    exists id. split; [done|]. split; [by apply Hentry|]. split; [done|].
    unfold with_fss, with_under_way, with_opened. cbn. f_equal. by rewrite list_insert_insert_eq.
Qed.

(** *** Mounting and unmounting *)

Lemma name_scan w name nm :
  view_ok ids w -> is_name name -> cstr name = Some nm ->
  exists k, scan (Z.to_nat CONFIG_MAX_FILESYSTEMS) 0 (has_name name) (rows w) = Ret k /\ first_index (named nm) (rows w) k.
Proof.
  intros Hok Hname Hn. apply scan_first; [rewrite (vk_rows _ _ Hok); done|].
  eapply Forall_impl; [apply (vk_row _ _ Hok)|]. intros e He. by apply (has_name_run name nm e ve_filesystem (fs_mounted (fss w))).
Qed.

Definition free_row (e : vfs_entry_t) : bool := ve_filesystem e =? 0.

Lemma with_under_way_id w : with_under_way (under_way w) (with_under_way (under_way w + 1) w) = w.
Proof. by destruct w. Qed.

Lemma wpv_table {A} (body : M state A) (R : A -> view F -> Prop) w :
  view_ok ids w -> wpv ids [id_table ids] body (fun a w' => values w' (id_table ids) = Some 1 /\ R a w') w ->
  wpv ids [] (holding vfs_table_sem body) R w.
Proof. intros Hok. apply wpv_holding; [done|apply not_elem_of_nil|apply (vk_values _ _ Hok)]. Qed.

Lemma wpv_upd_row H k g e (R : unit -> view F -> Prop) w :
  0 <= k -> rows w !! Z.to_nat k = Some e ->
  R tt (with_rows (<[Z.to_nat k := g e]> (rows w)) w) -> wpv ids H (upd_row k g) R w.
Proof.
  intros H0 He HR. pose proof (lookup_lt_Some _ _ _ He) as Hlt. apply wpv_bind, wpv_gets. intros y. cbn [filesystems concrete].
  apply wpv_bind. eapply wpv_lift; [by apply rget_Ret|]. apply wpv_bind. eapply wpv_lift; [by apply rset_in; lia|].
  by apply wpv_set_rows.
Qed.

Lemma mount_row_ok w k fs point nm e :
  view_ok ids w -> rows w !! k = Some e -> ve_filesystem e = 0 -> fs_mounted (fss w) fs ->
  (forall r, r ∈ rows w -> ve_filesystem r <> fs) -> is_buffer 16 point -> cstr point = Some nm ->
  view_ok ids (with_rows (<[k := mk_vfs_entry fs point]> (rows w)) w).
Proof.
  intros [] He Hz Hm Hnew [Hl Hb] Hc. pose proof (lookup_lt_Some _ _ _ He) as Hk.
  split; cbn [with_rows rows opened under_way usable fss values]; try done; [by rewrite length_insert| | |].
  - apply Forall_insert; [done|]. split; [done|]. split; [split; [done|by exists nm]|done].
  - assert (Hout : forall i ei, rows w !! i = Some ei -> ve_filesystem ei <> fs) by (intros i ei Hi; by eapply Hnew, list_elem_of_lookup_2).
    intros i j ei ej [(<- & <- & _)|(Hi & Hei)]%list_lookup_insert_Some [(<- & <- & _)|(Hj & Hej)]%list_lookup_insert_Some; try done; cbn [ve_filesystem].
    + intros _ Heq. by destruct (Hout _ _ Hej).
    + intros _ Heq. by destruct (Hout _ _ Hei).
    + intros Hne Heq. by apply (vk_once0 i j ei ej).
  - eapply Forall_impl; [done|]. intros o [?|[?|(r & Hr & Hro)]]; [by left|by right; left|]. cbn.
    destruct (decide (ve_filesystem r = 0)) as [Hr0|Hr0]; [left; congruence|]. right. right. exists r. split; [|done].
    apply list_elem_of_lookup in Hr as [i Hi]. apply list_elem_of_lookup. exists i.
    rewrite list_lookup_insert_ne; [done|]. intros ->. congruence.
Qed.

(** [vfs_mount] with a name. *)
Lemma mount_run w fs name nm :
  view_ok ids w -> under_way w < 2147483647 -> is_name name -> cstr name = Some nm -> nm <> [] ->
  fs_mounted (fss w) fs -> (forall r, r ∈ rows w -> ve_filesystem r <> fs) ->
  wpv ids [] (vfs_mount fs (Some name)) (fun r w' => exists k, first_index free_row (rows w) k /\
    if CONFIG_MAX_FILESYSTEMS <=? k then r = VFS_LIMIT /\ w' = w
    else if bool_decide (Exists (fun e => named nm e = true) (rows w)) then r = VFS_ERROR /\ w' = w
    else r = VFS_OK /\ view_ok ids w' /\ exists point, cstr point = Some (take 15 nm) /\
      w' = with_rows (<[Z.to_nat k := mk_vfs_entry fs point]> (rows w)) w) w.
Proof.
  intros Hok Hmax Hname Hn Hne Hm Hnew. pose proof (under_way_ok w Hok Hmax) as Hok'.
  destruct (char_at_cstr name nm Hn) as (x & Hx & H0 & _). unfold vfs_mount. apply wpv_bind. eapply wpv_lift; [exact Hx|].
  rewrite (proj2 (Z.eqb_neq x 0)) by (rewrite H0; done). apply wpv_operation; [done|done|]. apply wpv_table; [done|].
  assert (Hend : forall Q : Prop, Q -> values w (id_table ids) = Some 1 /\ usable w = true /\
    under_way (with_under_way (under_way w + 1) w) = under_way w + 1 /\ values w (id_op ids) = Some 1 /\ Q).
  { intros Q HQ. split; [apply (vk_values _ _ Hok)|]. split; [apply (vk_usable _ _ Hok)|]. split; [done|]. split; [apply (vk_values _ _ Hok)|done]. }
  apply wpv_bind, wpv_gets. intros y. cbn [filesystems concrete with_under_way rows].
  destruct (scan_first (Z.to_nat CONFIG_MAX_FILESYSTEMS) (fun e => Ret (ve_filesystem e =? 0)) free_row (rows w)) as (k & Hk & Hf).
  { rewrite (vk_rows _ _ Hok). done. }
  { apply Forall_forall. done. }
  apply wpv_bind. eapply wpv_lift; [exact Hk|]. rewrite Z.geb_leb.
  destruct (Z.leb_spec CONFIG_MAX_FILESYSTEMS k) as [Hge|Hlt].
  { apply wpv_ret, Hend. exists k. split; [done|]. rewrite (proj2 (Z.leb_le _ k)) by done. by rewrite with_under_way_id. }
  destruct (name_scan w name nm Hok Hname Hn) as (i & Hi & Hfi).
  apply wpv_bind. eapply wpv_lift; [exact Hi|]. destruct (Z.ltb_spec i CONFIG_MAX_FILESYSTEMS) as [Hdup|Hnodup].
  { apply wpv_ret, Hend. exists k. split; [done|]. rewrite (proj2 (Z.leb_gt _ k)) by done.
    destruct Hfi as (_ & _ & Ha). destruct Ha as (e & He & Hg); [rewrite (vk_rows _ _ Hok); done|].
    rewrite bool_decide_eq_true_2; [by rewrite with_under_way_id|]. apply Exists_exists. exists e. split; [by eapply list_elem_of_lookup_2|done]. }
  pose proof Hf as (Hr & Hb & Ha). destruct Ha as (e & He & Hg); [rewrite (vk_rows _ _ Hok); done|]. apply Z.eqb_eq in Hg.
  apply wpv_bind. eapply wpv_lift; [by apply rget_Ret; split; [lia|exact He]|].
  pose proof (proj1 (Forall_lookup _ _) (vk_row _ _ Hok) _ _ He) as (Hpl & [Hpb _] & _).
  destruct (stringcopy_run (mountpoint e) name VFS_NAME_LENGTH nm) as (point & Hcopy & Hpoint & Hc); [unfold VFS_NAME_LENGTH; lia|done|].
  apply wpv_bind. eapply wpv_lift; [exact Hcopy|]. apply wpv_bind, (wpv_upd_row _ k _ e); [lia|done|].
  apply wpv_ret, Hend. exists k. split; [done|]. rewrite (proj2 (Z.leb_gt _ k)) by done. rewrite bool_decide_eq_false_2.
  2: { intros (e' & Hin & Hg')%Exists_exists. pose proof (first_index_none _ _ _ Hfi) as Hall. rewrite (vk_rows _ _ Hok) in Hall.
       specialize (Hall Hnodup). rewrite Forall_forall in Hall. by rewrite Hall in Hg'. }
  split; [done|]. change (Z.to_nat (VFS_NAME_LENGTH - 1)) with 15%nat in *.
  assert (Hbuf : is_buffer 16 point).
  { rewrite Hpoint. assert (Hnb : Forall is_byte (take 15 nm ++ [0])).
    { apply Forall_app. split; [apply Forall_take; by apply (cstr_bytes name); [apply Hname|]|]. constructor; [unfold is_byte; lia|constructor]. }
    split; [|by apply Forall_splice]. rewrite length_splice; [done|]. rewrite length_app, length_take. cbn [length]. lia. }
  split; [|exists point; split; [done|]; unfold with_rows, with_under_way; by destruct w].
  apply (mount_row_ok w (Z.to_nat k) fs point (take 15 nm) e); done.
Qed.

(** What the file systems keep free, and what vfs.c keeps for itself. *)
Definition sems_apart w : Prop :=
  Forall (fun i => i ∉ fs_sems (fss w)) (ids_list ids) /\ Forall (fun i => values w i = Some 1) (fs_sems (fss w)).

Lemma wpv_fs_unmount H fs (R : Z -> view F -> Prop) w :
  sems_apart w -> Forall (fun i => i ∈ ids_list ids) H -> fs_mounted (fss w) fs ->
  (forall r f' v', let w' := mk_view (rows w) (opened w) (under_way w) (usable w) f' v' in
     sems_apart w' -> (forall i, i ∈ ids_list ids -> v' i = values w i) ->
     (forall fs', fs' <> fs -> fs_mounted (fss w) fs' -> fs_mounted f' fs') -> R r w') ->
  wpv ids H (on_fs (fs_unmount fs)) R w.
Proof.
  intros [Hids Hfs] HH Hm HR y [Hinv Hy]. rewrite Forall_forall in Hids, HH.
  assert (Hidle : fs_idle (fss w) y).
  { split; [done|]. apply Forall_forall. intros i Hi. rewrite Hy. unfold held_values.
    rewrite decide_False; [by apply (proj1 (Forall_forall _ _) Hfs)|]. intros Hin. by apply (Hids i); [apply HH|]. }
  pose proof (fs_unmount_law (fss w) y fs Hidle Hm) as Hlaw. unfold wp, on_fs in *. cbn [vfs_fs vfs_sems concrete].
  destruct (fs_unmount fs (fss w, y)) as [[r [f' y']]|]; [|done]. destruct Hlaw as ([Hinv' Hfree] & Hsub & Hother & Hmounted).
  cbn [fst snd] in *. set (v' := fun j => if decide (j ∈ H) then values w j else sem_val y' j).
  assert (Hsame : forall j, j ∉ fs_sems (fss w) -> v' j = values w j).
  { intros j Hj. unfold v'. destruct (decide (j ∈ H)) as [Hin|Hnin]; [done|]. rewrite Hother, Hy by done. unfold held_values.
    by rewrite decide_False. }
  exists (mk_view (rows w) (opened w) (under_way w) (usable w) f' v'), y'. split; [done|]. split.
  { split; [done|]. intros j. unfold held_values. cbn [values]. unfold v'. destruct (decide (j ∈ H)) as [Hin|Hnin]; [|done].
    rewrite Hother, Hy by (by apply Hids, HH). unfold held_values. by rewrite decide_True. }
  apply HR.
  - split; cbn [fss values]; apply Forall_forall.
    + intros i Hi Hin. by apply (Hids i Hi), Hsub.
    + intros i Hi. unfold v'. rewrite decide_False; [by apply (proj1 (Forall_forall _ _) Hfree)|].
      intros Hin. by apply (Hids i); [apply HH|apply Hsub].
  - intros i Hi. apply Hsame. by apply Hids.
  - done.
Qed.

Lemma unmount_row_ok w k e f' v' :
  let w' := mk_view (<[k := clear_row e]> (rows w)) (opened w) (under_way w) (usable w) f' v' in
  view_ok ids w -> rows w !! k = Some e -> ve_filesystem e <> 0 -> Forall (fun o => of_filesystem o <> ve_filesystem e) (opened w) ->
  sems_apart w' -> (forall i, i ∈ ids_list ids -> v' i = values w i) ->
  (forall fs', fs' <> ve_filesystem e -> fs_mounted (fss w) fs' -> fs_mounted f' fs') -> view_ok ids w'.
Proof.
  intros w' Hok He Hne Hclosed [Ha1 Ha2] Hv Hm. pose proof Hok as [[Hid1 Hid2] Hval Hfs Hl Hrow Hfl Honce Hopen Hops Hus].
  pose proof (lookup_lt_Some _ _ _ He) as Hk. pose proof (proj1 (Forall_lookup _ _) Hrow _ _ He) as (He1 & He2 & He3).
  split; cbn [rows opened under_way usable fss values w']; try done.
  - destruct Hval as (V1 & V2 & V3 & V4), in_ids as (? & ? & ? & ?). by rewrite !Hv.
  - by rewrite length_insert.
  - apply Forall_lookup. intros i r [(<- & <- & _)|(Hi & Hr)]%list_lookup_insert_Some; [by split_and!|].
    pose proof (proj1 (Forall_lookup _ _) Hrow _ _ Hr) as (R1 & R2 & R3). split; [done|]. split; [done|]. intros Hnz.
    apply Hm; [|by apply R3]. intros Heq. by apply Hi, (Honce k i e r).
  - intros i j ei ej [(<- & <- & _)|(Hi & Hei)]%list_lookup_insert_Some [(<- & <- & _)|(Hj & Hej)]%list_lookup_insert_Some; try done.
    by apply Honce.
  - apply Forall_forall. intros o Ho. pose proof (proj1 (Forall_forall _ _) Hopen _ Ho) as [?|[?|(r & Hr & Hro)]]; [by left|by right; left|].
    pose proof (proj1 (Forall_forall _ _) Hclosed _ Ho) as Hno. cbn in Hno. right. right. exists r. split; [|done].
    apply list_elem_of_lookup in Hr as [i Hi]. apply list_elem_of_lookup. exists i. rewrite list_lookup_insert_ne; [done|].
    intros ->. congruence.
Qed.

Definition uses (fs : Z) (o : openfile_entry_t) : bool := of_filesystem o =? fs.

Lemma unmount_run w name nm :
  view_ok ids w -> under_way w < 2147483647 -> is_name name -> cstr name = Some nm ->
  wpv ids [] (vfs_unmount name) (fun r w' => let fs := volume (rows w) nm in
    if fs =? 0 then r = VFS_NOT_FOUND /\ w' = w
    else if bool_decide (Exists (fun o => uses fs o = true) (opened w)) then r = VFS_IN_USE /\ w' = w
    else r = VFS_OK /\ view_ok ids w' /\ opened w' = opened w /\ under_way w' = under_way w /\
      exists k e, first_index (named nm) (rows w) k /\ rows w !! Z.to_nat k = Some e /\
        rows w' = <[Z.to_nat k := clear_row e]> (rows w)) w.
Proof.
  intros Hok Hmax Hname Hn. pose proof (under_way_ok w Hok Hmax) as Hok'. cbv zeta.
  apply wpv_operation; [done|done|]. apply wpv_table; [done|].
  assert (Hend : forall Q : Prop, Q -> values w (id_table ids) = Some 1 /\ usable w = true /\
    under_way (with_under_way (under_way w + 1) w) = under_way w + 1 /\ values w (id_op ids) = Some 1 /\ Q).
  { intros Q HQ. split; [apply (vk_values _ _ Hok)|]. split; [apply (vk_usable _ _ Hok)|]. split; [done|]. split; [apply (vk_values _ _ Hok)|done]. }
  apply wpv_bind, wpv_gets. intros y. cbn [filesystems concrete with_under_way rows].
  destruct (name_scan w name nm Hok Hname Hn) as (k & Hk & Hf).
  apply wpv_bind. eapply wpv_lift; [exact Hk|]. rewrite Z.geb_leb.
  assert (Hvol : volume (rows w) nm = if decide (k < CONFIG_MAX_FILESYSTEMS) then from_option ve_filesystem 0 (rows w !! Z.to_nat k) else 0).
  { unfold volume. rewrite (find_first _ _ _ Hf), (vk_rows _ _ Hok). by destruct (decide _). }
  assert (Hnf : volume (rows w) nm = 0 -> wpv ids [id_table ids] (mret VFS_NOT_FOUND : M state Z) (fun a w' => values w' (id_table ids) = Some 1 /\
    usable w' = true /\ under_way w' = under_way w + 1 /\ values w' (id_op ids) = Some 1 /\
    if volume (rows w) nm =? 0 then a = VFS_NOT_FOUND /\ with_under_way (under_way w) w' = w else False) (with_under_way (under_way w + 1) w)).
  { intros Hz. apply wpv_ret, Hend. rewrite Hz. cbn. by rewrite with_under_way_id. }
  destruct (Z.leb_spec CONFIG_MAX_FILESYSTEMS k) as [Hge|Hlt].
  { rewrite decide_False in Hvol by lia. apply wpv_bind, wpv_ret. cbn [Z.eqb].
    eapply wpv_mono; [by apply Hnf|]. rewrite Hvol. cbn. done. }
  rewrite decide_True in Hvol by done. pose proof Hf as (Hr & _ & Ha). destruct Ha as (e & He & Hg); [rewrite (vk_rows _ _ Hok); done|].
  rewrite He in Hvol. cbn in Hvol. apply wpv_bind, wpv_bind. eapply wpv_lift; [by apply rget_Ret; split; [lia|exact He]|].
  apply wpv_ret. rewrite Hvol. destruct (Z.eqb_spec (ve_filesystem e) 0) as [Hz|Hnz].
  { eapply wpv_mono; [apply Hnf; congruence|]. rewrite Hvol, Hz. cbn. done. }
  destruct (vk_ids _ _ Hok) as [Hnd Hap]. pose proof Hnd as Hnd'. unfold ids_list in Hnd'. rewrite !NoDup_cons, !not_elem_of_cons in Hnd'.
  apply (wpv_holding ids _ openfile_table_sem (id_files ids)); [done|apply not_elem_of_cons; split; [naive_solver|apply not_elem_of_nil]|apply (vk_values _ _ Hok)|].
  assert (Hend2 : forall Q : Prop, Q -> values w (id_files ids) = Some 1 /\ values w (id_table ids) = Some 1 /\ usable w = true /\
    under_way (with_under_way (under_way w + 1) w) = under_way w + 1 /\ values w (id_op ids) = Some 1 /\ Q).
  { intros Q HQ. split; [apply (vk_values _ _ Hok)|by apply Hend]. }
  apply wpv_bind, wpv_gets. intros y'. cbn [files concrete with_under_way opened].
  destruct (scan_first (Z.to_nat CONFIG_MAX_OPEN_FILES) (fun o => Ret (of_filesystem o =? ve_filesystem e)) (uses (ve_filesystem e)) (opened w))
    as (i & Hi & Hfi).
  { rewrite (vk_files _ _ Hok). done. }
  { apply Forall_forall. done. }
  apply wpv_bind. eapply wpv_lift; [exact Hi|]. destruct (Z.ltb_spec i CONFIG_MAX_OPEN_FILES) as [Hused|Hunused].
  { apply wpv_ret, Hend2. rewrite bool_decide_eq_true_2; [by rewrite with_under_way_id|].
    destruct Hfi as (_ & _ & Hai). destruct Hai as (o & Ho & Hgo); [rewrite (vk_files _ _ Hok); done|].
    apply Exists_exists. exists o. split; [by eapply list_elem_of_lookup_2|done]. }
  pose proof (first_index_none _ _ _ Hfi) as Hall. rewrite (vk_files _ _ Hok) in Hall. specialize (Hall Hunused).
  assert (Hclosed : Forall (fun o => of_filesystem o <> ve_filesystem e) (opened w)).
  { eapply Forall_impl; [exact Hall|]. intros o Ho. by apply Z.eqb_neq. }
  pose proof (proj1 (Forall_lookup _ _) (vk_row _ _ Hok) _ _ He) as (_ & _ & Hm).
  apply wpv_bind, (wpv_fs_unmount _ (ve_filesystem e)); [split; [done|apply (vk_fs _ _ Hok)]| |by apply Hm|].
  { destruct in_ids as (? & ? & ? & ?). by repeat constructor. }
  intros r f' v' w' Hap' Hv' Hm'. apply wpv_bind, (wpv_upd_row _ k _ e); [lia|done|]. apply wpv_ret.
  assert (Hv0 : forall i, i ∈ ids_list ids -> v' i = values w i) by (intros j Hj; by apply Hv').
  destruct (vk_values _ _ Hok) as (V1 & V2 & V3 & _), in_ids as (I1 & I2 & I3 & _).
  split; [cbn; by rewrite Hv0|]. split; [cbn; by rewrite Hv0|].
  split; [apply (vk_usable _ _ Hok)|]. split; [done|]. split; [cbn; by rewrite Hv0|].
  rewrite bool_decide_eq_false_2.
  2: { intros (o & Ho & Hgo)%Exists_exists. rewrite Forall_forall in Hall. by rewrite Hall in Hgo. }
  split; [done|]. split; [|split; [done|split; [done|by exists k, e]]].
  apply (unmount_row_ok w (Z.to_nat k) e f' v'); done.
Qed.

(** *** Shutting down *)

(** While the rows from [i] on are still to be unmounted. *)
Record closing (i : Z) w : Prop := {
  cl_apart : sems_apart w;
  cl_rows : zlen (rows w) = CONFIG_MAX_FILESYSTEMS;
  cl_mounted : forall j e, rows w !! j = Some e -> ve_filesystem e <> 0 -> i <= Z.of_nat j /\ fs_mounted (fss w) (ve_filesystem e);
  cl_once : forall j k ej ek, rows w !! j = Some ej -> rows w !! k = Some ek -> ve_filesystem ej <> 0 ->
    ve_filesystem ej = ve_filesystem ek -> j = k
}.

Lemma unmount_rows_run n i H w :
  closing i w -> 0 <= i -> i + Z.of_nat n = CONFIG_MAX_FILESYSTEMS -> Forall (fun j => j ∈ ids_list ids) H ->
  wpv ids H (unmount_rows n i) (fun _ w' => Forall (fun e => ve_filesystem e = 0) (rows w') /\ opened w' = opened w /\
    under_way w' = under_way w /\ usable w' = usable w /\ forall j, j ∈ ids_list ids -> values w' j = values w j) w.
Proof.
  revert i w. induction n as [|n IH]; intros i w Hcl Hi Hn HH; cbn [unmount_rows].
  { apply wpv_ret. split; [|done]. apply Forall_lookup. intros j e He. destruct (decide (ve_filesystem e = 0)) as [|Hnz]; [done|].
    destruct (cl_mounted _ _ Hcl j e He Hnz) as [Hj _]. apply lookup_lt_Some in He. pose proof (cl_rows _ _ Hcl). lia. }
  apply wpv_bind, wpv_gets. intros y. cbn [filesystems concrete].
  destruct (rget_in (rows w) i) as (e & Hr & He); [rewrite (cl_rows _ _ Hcl); lia|].
  apply wpv_bind. eapply wpv_lift; [exact Hr|]. apply wpv_bind.
  destruct (Z.eqb_spec (ve_filesystem e) 0) as [Hz|Hnz]; cbn [negb].
  - apply wpv_ret. apply IH; [|lia|lia|done]. destruct Hcl as [Ha Hl Hm Ho]. split; try done. intros j ej Hj Hne.
    destruct (Hm j ej Hj Hne) as [Hij Hmj]. split; [|done]. destruct (decide (Z.of_nat j = i)) as [Heq|]; [|lia].
    exfalso. apply Hne. assert (Z.to_nat i = j) as Hji by lia. rewrite Hji in He. congruence.
  - pose proof Hcl as [Ha Hl Hm Ho]. destruct (Hm _ e He Hnz) as [_ Hme].
    apply wpv_bind, (wpv_fs_unmount H (ve_filesystem e)); [done|done|done|].
    intros r f' v' w' Hap Hv Hm'. apply (wpv_upd_row _ i _ e); [done|done|].
    eapply wpv_mono; [apply (IH (i + 1)); [|lia|lia|done]|].
    + split; [exact Hap|cbn; by rewrite length_insert| |].
      * intros j ej [(<- & <- & _)|(Hj & Hej)]%list_lookup_insert_Some Hne; [done|]. cbn in Hej. destruct (Hm j ej Hej Hne) as [Hij Hmj].
        split; [lia|]. apply Hm'; [|done]. intros Heq. by apply Hj, (Ho (Z.to_nat i) j e ej).
      * intros j k ej ek [(<- & <- & _)|(Hj & Hej)]%list_lookup_insert_Some [(<- & <- & _)|(Hk & Hek)]%list_lookup_insert_Some; try done.
        by apply Ho.
    + intros _ w'' (Hrows & Hop & Hu & Hus & Hval). split; [done|]. split; [done|]. split; [done|]. split; [done|].
      intros j Hj. rewrite Hval by done. by apply Hv.
Qed.

(** No operation is under way: every volume is unmounted. *)
Lemma deinit_run w s :
  vfs_at ids w s -> view_ok ids w -> under_way w = 0 ->
  wp vfs_deinit (fun _ s' => exists w', vfs_at ids w' s' /\ Forall (fun e => ve_filesystem e = 0) (rows w') /\ usable w' = false /\
    under_way w' = 0 /\ opened w' = opened w) s.
Proof.
  intros (y & -> & Hy) Hok Hz. destruct (vk_values _ _ Hok) as (V1 & V2 & V3 & V4), in_ids as (I1 & I2 & I3 & I4).
  destruct (vk_ids _ _ Hok) as [Hnd Hap]. pose proof Hnd as Hnd'. unfold ids_list in Hnd'. rewrite !NoDup_cons, !not_elem_of_cons in Hnd'.
  unfold vfs_deinit. apply wp_bind, wp_gets, wp_bind. cbn [id vfs_op_sem concrete].
  apply (wp_P_held ids [] (id_op ids)); [apply not_elem_of_nil|done|revert Hy; apply sems_like_ext; intros j; unfold held_values; by rewrite decide_False by apply not_elem_of_nil|].
  intros y1 Hy1. apply wp_bind, wp_gets, wp_bind, wp_modify. cbn [id vfs_ops concrete].
  set (w1 := mk_view (rows w) (opened w) (under_way w) false (fss w) (values w)).
  change (mk_vfs _ _ _ _ _ _ _ _ _ _) with (concrete ids w1 y1). rewrite Hz, Z.gtb_ltb. cbn [Z.ltb Z.compare].
  apply wp_bind, wp_ret, wp_bind. eapply wp_mono.
  { apply (wpv_holding ids [id_op ids] vfs_table_sem (id_table ids)
      (holding openfile_table_sem (unmount_rows (Z.to_nat CONFIG_MAX_FILESYSTEMS) 0))
      (fun _ w' => Forall (fun e => ve_filesystem e = 0) (rows w') /\ opened w' = opened w /\
        under_way w' = under_way w /\ usable w' = false /\ values w' (id_op ids) = Some 1)); [done| |done| |exact Hy1].
    { apply not_elem_of_cons. split; [naive_solver|apply not_elem_of_nil]. }
    apply (wpv_holding ids _ openfile_table_sem (id_files ids)); [done| |done|].
    { rewrite !not_elem_of_cons. split; [naive_solver|]. split; [naive_solver|apply not_elem_of_nil]. }
    eapply wpv_mono; [apply unmount_rows_run; [|lia|done|by repeat constructor]|].
    - split; [split; [done|apply (vk_fs _ _ Hok)]|apply (vk_rows _ _ Hok)| |apply (vk_once _ _ Hok)].
      intros j e He Hne. split; [lia|]. pose proof (proj1 (Forall_lookup _ _) (vk_row _ _ Hok) _ _ He) as (_ & _ & Hm). by apply Hm.
    - intros _ w' (Hrows & Hop & Hu & Hus & Hval). rewrite !Hval by done. done. }
  intros _ s' (w' & y' & -> & Hy' & Hrows & Hop & Hu & Hus & Hv). apply (wp_V_held ids [] (id_op ids)); [apply not_elem_of_nil|done|done|].
  intros y2 Hy2. exists w'. split; [|split_and!; congruence || done]. exists y2. split; [done|].
  revert Hy2. apply sems_like_ext. intros j. unfold held_values. by rewrite decide_False by apply not_elem_of_nil.
Qed.

(** Operations are under way: the caller waits for the last one to end. *)
Lemma deinit_waits w s : vfs_at ids w s -> view_ok ids w -> 0 < under_way w -> fails Blocked vfs_deinit s.
Proof.
  intros (y & -> & Hy) Hok Hz. destruct (vk_values _ _ Hok) as (V1 & V2 & V3 & V4).
  unfold vfs_deinit. apply fails_bind, wp_gets, fails_bind. cbn [id vfs_op_sem concrete].
  apply (wp_P_held ids [] (id_op ids)); [apply not_elem_of_nil|done|revert Hy; apply sems_like_ext; intros j; unfold held_values; by rewrite decide_False by apply not_elem_of_nil|].
  intros y1 Hy1. apply fails_bind, wp_gets, fails_bind, wp_modify. cbn [id vfs_ops concrete].
  set (w1 := mk_view (rows w) (opened w) (under_way w) false (fss w) (values w)).
  change (mk_vfs _ _ _ _ _ _ _ _ _ _) with (concrete ids w1 y1). rewrite Z.gtb_ltb, (proj2 (Z.ltb_lt 0 _)) by done.
  apply fails_bind_l, fails_bind. apply (wp_V_held ids [] (id_op ids)); [apply not_elem_of_nil|done|exact Hy1|]. intros y2 [Hinv2 Hy2].
  apply fails_bind_l. cbn [vfs_unmount_sem concrete P].
  pose proof (sem_P_blocks y2 (id_unmount ids) 0 Hinv2) as Hb. unfold fails, with_sem in *. cbn [vfs_sems concrete].
  rewrite Hb; [done| |lia]. rewrite Hy2. unfold held_values. by rewrite decide_False by apply not_elem_of_nil.
Qed.
End ops.
