(* ===== verification/Mount.v ===== *)
(** * A TFS volume under the virtual file system

    The trivial file system implements the [fs_t] interface of fs/vfs.h: its
    operations keep the promises of the class [FileSystems], so the theorems
    about fs/vfs.c hold of files on a TFS volume. *)
From S2P Require Import Prelude Bitmap Libc Cpu Kmalloc Pagepool Thread Sleepq Waiting Semaphore Gbd Sync Bytes Tfs Vfs.

(** ** fs/tfs.c behind [fs_t] *)

(** One volume with its disk; [mp_mounted] while its [fs_t] exists, which is in
    the volume's page. *)
Record mount_point (D : Type) := mk_mount {
  mp_tfs : tfs_t;
  mp_disk : D;
  mp_pool : pmem;
  mp_name : list Z;
  mp_mounted : bool
}.
Arguments mk_mount {D} mp_tfs mp_disk mp_pool mp_name mp_mounted.
Arguments mp_tfs {D} m.
Arguments mp_disk {D} m.
Arguments mp_pool {D} m.
Arguments mp_name {D} m.
Arguments mp_mounted {D} m.

Section mount.
Context {D S : Type} `{!BlockDevice D, !Semaphores S, !Symbols}.
Abbreviation mount := (mount_point D).

(** What [tfs_init] finds in its page and on its stack. *)
Context (ram stack : list Z).

Definition on_vol {A} (m : M (vol D S) A) : M (mount * S) A := fun s =>
  match m (mk_vol (mp_tfs s.1) (mp_disk s.1) s.2 (mp_pool s.1)) with
  | Ret (a, v) => Ret (a, (mk_mount (v_tfs v) (v_disk v) (v_pool v) (mp_name s.1) (mp_mounted s.1), v_sems v))
  | Fail f => Fail f
  end.
(** A call through the [fs_t] at address [fs]. *)
Definition through {A} (fs : Z) (m : M (vol D S) A) : M (mount * S) A := fun s =>
  if mp_mounted s.1 && (fs =? tfs_page (mp_tfs s.1)) then on_vol m s else Fail Undef.

#[export] Instance tfs_ops : FileSystemOps mount S := {|
  fs_volume_name m _ := mp_name m;
  fs_unmount fs :=
    r ← through fs tfs_unmount;
    _ ← modify (fun s => (mk_mount (mp_tfs s.1) (mp_disk s.1) (mp_pool s.1) (mp_name s.1) false, s.2));
    mret r;
  fs_open fs filename := through fs (tfs_open filename);
  fs_close fs fileid := through fs (tfs_close fileid);
  fs_read fs fileid buffer bufsize offset := through fs (tfs_read fileid buffer bufsize offset);
  fs_write fs fileid buffer datasize offset := through fs (tfs_write fileid buffer datasize offset);
  fs_create fs filename size := through fs (tfs_create filename size);
  fs_remove fs filename := through fs (tfs_remove filename);
  fs_getfree fs := through fs tfs_getfree;
  drivers := [fun _ =>
    name ← on_vol (tfs_init ram stack);
    match name with
    | None => mret 0
    | Some name =>
        s ← gets id;
        _ ← modify (fun s => (mk_mount (mp_tfs s.1) (mp_disk s.1) (mp_pool s.1) name true, s.2));
        mret (tfs_page (mp_tfs s.1))
    end]
|}.

(** ** The promises *)

(** The volume's page can be given back. *)
Definition page_held (p : pmem) (page : Z) : Prop :=
  exists i, ADDR_KERNEL_TO_PHYS page = i * PAGE_SIZE /\ pool_ok (pm_pool p) /\ cpu_ready pagepool_slock (pm_cpu p) /\
    pagepool_static_end (pm_pool p) <= i < pagepool_num_pages (pm_pool p) /\ reserved (pm_pool p) i = true.

Definition tfs_mounted (m : mount) (fs : Z) : Prop :=
  mp_mounted m = true /\ fs = tfs_page (mp_tfs m) /\ 1 < fs /\ body_ok (mp_tfs m) (mp_disk m) /\
  names_ok (contents (mp_disk m) TFS_DIRECTORY_BLOCK) /\ page_held (mp_pool m) fs.
(** A file whose blocks are neither the header nor the bitmap nor the
    directory. *)
Definition tfs_file (m : mount) (fs id : Z) (b : list Z) : Prop :=
  mp_mounted m = true /\ fs = tfs_page (mp_tfs m) /\ file_ok (totalblocks (mp_tfs m)) (mp_disk m) id /\
  body_ok (mp_tfs m) (mp_disk m) /\ Forall (fun c => 3 <= c) (file_blocks (mp_disk m) id) /\ file_bytes (mp_disk m) id = b.
Definition tfs_entry (m : mount) (fs : Z) (nm : list Z) (id : Z) : Prop :=
  let md := contents (mp_disk m) TFS_DIRECTORY_BLOCK in
  exists j, first_entry md nm 0 TFS_MAX_FILES (Some j) /\ id = i32 (word md (entry_inode j)).
Definition tfs_sems (m : mount) : list Z := if mp_mounted m then [lock (mp_tfs m)] else [].

Definition mount_vol (m : mount) (x : S) : vol D S := mk_vol (mp_tfs m) (mp_disk m) x (mp_pool m).

Lemma mounted_vol (m : mount) (x : S) fs :
  sem_inv x -> Forall (fun i => sem_val x i = Some 1) (tfs_sems m) -> tfs_mounted m fs -> vol_ok (mount_vol m x).
Proof.
  intros Hx Hs (Hm & _ & _ & Hb & _). unfold tfs_sems in Hs. rewrite Hm in Hs. apply Forall_inv in Hs. by split.
Qed.

(** A disk of the same volume on which the file [f] keeps its blocks. *)
Lemma file_stays (m : mount) t d d' f :
  file_ok (totalblocks (mp_tfs m)) (mp_disk m) f -> same_vol (mp_tfs m) t -> contents d' f = contents d f -> mp_disk m = d ->
  file_ok (totalblocks t) d' f.
Proof. intros Hf (-> & _ & _) Hc <-. by apply (file_ok_same _ (mp_disk m)). Qed.

(** What every operation that leaves the volume mounted comes to. *)
Lemma through_run {A} (op : M (vol D S) A) (Q : A -> tfs_t -> D -> Prop) (m : mount) (x : S) fs :
  sem_inv x -> tfs_mounted m fs ->
  wp op (fun a s' => vol_ok s' /\ same_vol (mp_tfs m) (v_tfs s') /\ v_pool s' = mp_pool m /\
    (forall j, sem_val (v_sems s') j = sem_val x j) /\ Q a (v_tfs s') (v_disk s')) (mount_vol m x) ->
  fs_run (through fs op) (fun a m' => exists t d, m' = mk_mount t d (mp_pool m) (mp_name m) true /\ same_vol (mp_tfs m) t /\
    body_ok t d /\ Q a t d) m x.
Proof.
  intros Hx Hm Hop. pose proof Hm as (Hmm & Hfs & _). unfold fs_run, wp, through, on_vol in *. cbn [fst snd]. rewrite Hmm, Hfs, Z.eqb_refl.
  cbn [andb]. destruct (op _) as [[a s']|]; [|done]. destruct Hop as (Hvol & Hsv & Hp & Hsem & HQ). cbn [fst snd].
  split; [split; [apply Hvol|done]|]. exists (v_tfs s'), (v_disk s'). rewrite Hp. split; [done|]. split; [done|]. split; [apply Hvol|done].
Qed.

(** A disk that holds the same in the directory. *)
Lemma mounted_same (m : mount) t d fs :
  tfs_mounted m fs -> same_vol (mp_tfs m) t -> body_ok t d ->
  contents d TFS_DIRECTORY_BLOCK = contents (mp_disk m) TFS_DIRECTORY_BLOCK ->
  tfs_mounted (mk_mount t d (mp_pool m) (mp_name m) true) fs.
Proof.
  intros (Hm & -> & Hpos & Hb & Hn & Hp) (Ht & Hl & Hpg) Hb' Hc. unfold tfs_mounted. cbn. rewrite Hpg, Hc. by split_and!.
Qed.

Lemma file_same (m : mount) t d fs id b :
  tfs_file m fs id b -> same_vol (mp_tfs m) t -> body_ok t d -> same_disk (mp_disk m) d ->
  tfs_file (mk_mount t d (mp_pool m) (mp_name m) true) fs id b.
Proof.
  intros (Hm & -> & Hf & Hb & Hbl & Hby) (Ht & Hl & Hpg) Hb' Hs. unfold tfs_file. cbn. rewrite Hpg, Ht.
  destruct (same_disk_file (mp_disk m) d id Hs) as (Hd & Hbk & Hsz & Hok). unfold file_bytes in *. rewrite Hd, Hbk, Hsz.
  split_and!; try done. by apply Hok.
Qed.

Lemma keeps_same (m : mount) t d :
  mp_mounted m = true -> same_vol (mp_tfs m) t -> body_ok t d -> contents d TFS_DIRECTORY_BLOCK = contents (mp_disk m) TFS_DIRECTORY_BLOCK ->
  (reliable (mp_disk m) -> reliable d) ->
  let m' := mk_mount t d (mp_pool m) (mp_name m) true in
  tfs_sems m' = tfs_sems m /\ (forall fs, tfs_mounted m fs -> tfs_mounted m' fs) /\ (reliable (mp_disk m) -> reliable (mp_disk m')).
Proof.
  intros Hm Hsv Hb Hc Hr m'. split; [|split; [|done]].
  - unfold tfs_sems. rewrite Hm. cbn. by destruct Hsv as (_ & -> & _).
  - intros fs Hfs. by apply mounted_same.
Qed.

(** An operation that changes nothing on the disk. *)
Definition quiet_end (m : mount) (t : tfs_t) (d : D) : Prop := same_disk (mp_disk m) d.

Lemma quiet_run {A} (op : M (vol D S) A) (Q : A -> Prop) (R : A -> mount -> Prop) (m : mount) (x : S) fs :
  sem_inv x -> tfs_mounted m fs ->
  wp op (fun a s' => vol_ok s' /\ same_vol (mp_tfs m) (v_tfs s') /\ v_pool s' = mp_pool m /\
    (forall j, sem_val (v_sems s') j = sem_val x j) /\ same_disk (mp_disk m) (v_disk s') /\ Q a) (mount_vol m x) ->
  (forall a t d, same_vol (mp_tfs m) t -> body_ok t d -> same_disk (mp_disk m) d -> Q a -> R a (mk_mount t d (mp_pool m) (mp_name m) true)) ->
  fs_run (through fs op) R m x.
Proof.
  intros Hx Hm Hop HR. eapply wp_mono.
  { apply (through_run op (fun a t d => same_disk (mp_disk m) d /\ Q a) m x fs Hx Hm). exact Hop. }
  intros a s [Hs (t & d & Heq & Hsv & Hb & Hd & HQ)]. split; [done|]. rewrite Heq. by apply HR.
Qed.

Lemma quiet_keeps (m : mount) t d :
  mp_mounted m = true -> same_vol (mp_tfs m) t -> body_ok t d -> same_disk (mp_disk m) d ->
  let m' := mk_mount t d (mp_pool m) (mp_name m) true in
  (tfs_sems m' = tfs_sems m /\ (forall fs, tfs_mounted m fs -> tfs_mounted m' fs) /\ (reliable (mp_disk m) -> reliable (mp_disk m'))) /\
  (forall fs id b, tfs_file m fs id b -> tfs_file m' fs id b).
Proof.
  intros Hm Hsv Hb Hd m'. split; [apply keeps_same; try done; apply Hd|]. intros fs id b Hf. by apply (file_same m t d).
Qed.

Lemma tfs_close_run (v : vol D S) id : vol_ok v -> wp (tfs_close id) (fun a s' => vol_ok s' /\ same_vol (v_tfs v) (v_tfs s') /\ v_pool s' = v_pool v /\
    (forall j, sem_val (v_sems s') j = sem_val (v_sems v) j) /\ same_disk (v_disk v) (v_disk s') /\ True) v.
Proof. intros Hv. apply wp_ret. by split_and!. Qed.

Lemma file_bytes_length (m : mount) fs id b : tfs_file m fs id b -> zlen b = file_size (mp_disk m) id /\ zlen b < 2147483648.
Proof.
  intros (_ & _ & Hf & Hb & _ & <-). unfold file_bytes. rewrite length_take.
  rewrite (length_file_data _ _ id Hf (bo_size _ _ Hb) (bo_disk _ _ Hb)).
  destruct (num_blocks_bound (mp_disk m) id (fo_size _ _ _ Hf)) as [[_ Hnb] _]. pose proof (fo_size _ _ _ Hf). lia.
Qed.

Lemma tfs_unmount_run (m : mount) (x : S) fs :
  sem_inv x -> Forall (fun i => sem_val x i = Some 1) (tfs_sems m) -> tfs_mounted m fs ->
  wp (fs_unmount fs) (fun _ s => (sem_inv s.2 /\ Forall (fun i => sem_val s.2 i = Some 1) (tfs_sems s.1)) /\ tfs_sems s.1 ⊆ tfs_sems m /\
      (forall j, j ∉ tfs_sems m -> sem_val s.2 j = sem_val x j) /\
      (forall fs', fs' <> fs -> tfs_mounted m fs' -> tfs_mounted s.1 fs')) (m, x).
Proof.
  intros Hx Hs Hm. pose proof (mounted_vol m x fs Hx Hs Hm) as Hvol. pose proof Hm as (Hmm & Hfs & _ & _ & _ & Hpage).
  pose proof (vo_lock _ Hvol) as Hlk. cbn [v_sems v_tfs mount_vol] in Hlk.
  apply wp_bind. assert (Hrun : wp tfs_unmount (fun r v => r = VFS_OK /\ sem_inv (v_sems v) /\
    forall j, sem_val (v_sems v) j = if j =? lock (mp_tfs m) then None else sem_val x j) (mount_vol m x)).
  { unfold tfs_unmount. apply wp_bind, wp_gets, wp_bind. cbn [v_tfs mount_vol].
    pose proof (sem_P_spec x (lock (mp_tfs m)) 1 Hx Hlk ltac:(lia)) as HP. unfold wp at 1, on_sems. unfold wp in HP. cbn [v_sems mount_vol].
    destruct (sem_P (lock (mp_tfs m)) x) as [[[] x1]|]; [|done]. destruct HP as [Hx1 Hv1].
    assert (Hl1 : sem_val x1 (lock (mp_tfs m)) = Some 0) by (rewrite Hv1, Z.eqb_refl; done).
    apply wp_bind. pose proof (sem_destroy_spec x1 (lock (mp_tfs m)) 0 Hx1 Hl1 ltac:(lia)) as HD. unfold wp at 1, on_sems. unfold wp in HD.
    cbn [v_sems v_tfs v_disk v_pool]. destruct (sem_destroy (lock (mp_tfs m)) x1) as [[[] x2]|]; [|done]. destruct HD as [Hx2 Hv2].
    destruct Hpage as (i & Hi & Hpok & Hcpu & Hrange & Hres). pose proof (free_phys_page_run (mp_pool m) i Hpok Hcpu Hrange Hres) as Hfree.
    apply wp_bind. unfold wp at 1, on_pool. cbn [v_pool v_tfs v_disk v_sems mount_vol]. rewrite Hfs in Hi. rewrite Hi. unfold wp in Hfree.
    destruct (pagepool_free_phys_page (i * PAGE_SIZE) (mp_pool m)) as [[[] p2]|]; [|done].
    apply wp_ret. split; [done|]. split; [done|]. intros j. cbn [v_sems]. rewrite Hv2, Hv1. by destruct (j =? lock (mp_tfs m)). }
  unfold wp at 1, through, on_vol. unfold wp in Hrun. cbn [fst snd]. rewrite Hmm, Hfs, Z.eqb_refl. cbn [andb].
  unfold mount_vol in Hrun. destruct (tfs_unmount _) as [[r v]|]; [|done]. destruct Hrun as (_ & Hinv & Hval).
  apply wp_bind, wp_modify, wp_ret. cbn [fst snd mp_tfs mp_disk mp_pool mp_name mp_mounted]. unfold tfs_sems. cbn [mp_mounted]. rewrite Hmm.
  split; [split; [done|constructor]|]. split; [set_solver|]. split.
  - intros j Hj. rewrite Hval. destruct (Z.eqb_spec j (lock (mp_tfs m))) as [->|]; [|done]. by destruct Hj; left.
  - intros fs' Hne (_ & Hfs' & _). congruence.
Qed.

#[export] Instance tfs_filesystems : FileSystems mount S.
Proof using .
  refine {|
    fs_sems := tfs_sems;
    fs_mounted := tfs_mounted;
    fs_file := tfs_file;
    fs_entry := tfs_entry;
    fs_reliable m := reliable (mp_disk m)
  |}.
  - intros m fs (_ & _ & H1 & _). exact H1.
  - intros m x fs name nm [Hx Hs] Hm Hb Hn. pose proof (mounted_vol m x fs Hx Hs Hm) as Hvol. pose proof Hm as (Hmm & _ & _ & _ & Hnames & _).
    apply (quiet_run _ (fun r => 0 <= r -> tfs_entry m fs nm r)); [done|done| |].
    + eapply wp_mono; [by apply (tfs_open_run (mount_vol m x) name nm)|]. intros r s' (H1 & H2 & H3 & H4 & H5 & Hend).
      split_and!; try done. intros Hr. destruct Hend as [[-> _]|(e & He & ->)]; [unfold VFS_ERROR in Hr; lia|].
      destruct e as [j|]; [by exists j|unfold VFS_NOT_FOUND in Hr; lia].
    + intros r t d Hsv Hbd Hd HQ. destruct (quiet_keeps m t d Hmm Hsv Hbd Hd) as [Hk Hf]. split; [exact Hk|]. by split.
  - intros m x fs id [Hx Hs] Hm. pose proof (mounted_vol m x fs Hx Hs Hm) as Hvol. pose proof Hm as (Hmm & _).
    apply (quiet_run _ (fun r => True)); [done|done|by apply (tfs_close_run (mount_vol m x))|].
    intros r t d Hsv Hbd Hd _. by apply quiet_keeps.
  - intros m x fs [Hx Hs] Hm. pose proof (mounted_vol m x fs Hx Hs Hm) as Hvol. pose proof Hm as (Hmm & _).
    apply (quiet_run _ (fun r => True)); [done|done| |].
    + eapply wp_mono; [by apply (tfs_getfree_run (mount_vol m x))|]. intros r s' (H1 & H2 & H3 & H4 & H5 & _). by split_and!.
    + intros r t d Hsv Hbd Hd _. by apply quiet_keeps.
  - intros m x fs id b buffer n offset [Hx Hs] Hm Hfile Hn Ho. pose proof (mounted_vol m x fs Hx Hs Hm) as Hvol. pose proof Hm as (Hmm & _).
    destruct (file_bytes_length m fs id b Hfile) as [Hlb Hlb2]. pose proof Hfile as (_ & _ & Hf & _ & _ & Hby).
    apply (quiet_run _ (fun a => (a.1 < 0 /\ ~ reliable (mp_disk m)) \/
       if offset <=? zlen b then
         a = (Z.min n (zlen b - offset), splice buffer 0 (slice b (Z.to_nat offset) (Z.to_nat (Z.min n (zlen b - offset)))))
       else a.1 < 0)); [done|done| |].
    + eapply wp_mono; [by apply (tfs_read_run (mount_vol m x) id buffer n offset)|]. intros a s' (H1 & H2 & H3 & H4 & H5 & Hend).
      split_and!; try done. destruct Hend as [[Ha Hr]|Hend]; [left; by rewrite Ha|right]. cbn [v_disk mount_vol] in Hend.
      rewrite <- Hlb, Hby in Hend. destruct (Z.ltb_spec offset 0); [lia|]. cbn [orb] in Hend. rewrite Z.gtb_ltb in Hend.
      destruct (Z.leb_spec offset (zlen b)), (Z.ltb_spec (zlen b) offset); try lia; [done|by rewrite Hend].
    + intros a t d Hsv Hbd Hd HQ. destruct (quiet_keeps m t d Hmm Hsv Hbd Hd) as [Hk Hfs]. split; [exact Hk|]. split; [exact Hfs|]. by split.
  - intros m x fs id b buffer n offset [Hx Hs] Hm Hfile Hn Hbuf Ho. pose proof (mounted_vol m x fs Hx Hs Hm) as Hvol. pose proof Hm as (Hmm & _).
    destruct (file_bytes_length m fs id b Hfile) as [Hlb Hlb2]. pose proof Hfile as (_ & Hfs & Hf & Hbo & Hbl & Hby).
    eapply wp_mono.
    { apply (through_run _ (fun r t d => same_outside (file_blocks (mp_disk m) id) (mp_disk m) d /\
        ((r = VFS_ERROR /\ ~ reliable (mp_disk m)) \/
         if (offset <? 0) || (offset >? file_size (mp_disk m) id) then r = VFS_ERROR /\ same_disk (mp_disk m) d
         else r = Z.min n (file_size (mp_disk m) id - offset) /\
           file_bytes d id = splice (file_bytes (mp_disk m) id) (Z.to_nat offset) (take (Z.to_nat (Z.min n (file_size (mp_disk m) id - offset))) buffer)))
        m x fs Hx Hm). by apply (tfs_write_run (mount_vol m x) id buffer n offset). }
    intros r s [Hsl (t & d & Heq & Hsv & Hbd & Hout & Hend)]. split; [done|]. rewrite Heq.
    destruct (outside_file _ _ _ _ Hf Hout) as (Hc & Hbk & Hfo & Hsz & _).
    assert (Hdir : contents d TFS_DIRECTORY_BLOCK = contents (mp_disk m) TFS_DIRECTORY_BLOCK).
    { apply Hout. intros Hin. rewrite Forall_forall in Hbl. specialize (Hbl _ Hin). unfold TFS_DIRECTORY_BLOCK in Hbl. cbn in Hbl. lia. }
    split; [apply keeps_same; try done; apply Hout|]. split; [done|]. destruct Hend as [[-> Hr]|Hend]; [by left|right].
    rewrite <- Hlb, Hby in Hend. destruct (Z.ltb_spec offset 0); [lia|]. cbn [orb] in Hend. rewrite Z.gtb_ltb in Hend.
    destruct (Z.leb_spec offset (zlen b)), (Z.ltb_spec (zlen b) offset); try lia.
    + destruct Hend as [-> Hbytes]. split; [done|]. unfold tfs_file. cbn. pose proof Hsv as (-> & _ & ->). rewrite Hbk. by split_and!.
    + destruct Hend as [-> Hsd]. split; [done|]. intros fs' id' b' Hf'. by apply (file_same m t d).
  - intros m x fs [Hx Hs] Hm. by apply tfs_unmount_run.
Defined.
End mount.

(** ** The theorems about fs/vfs.c *)

(** [vfs_parse_pathname] never leaves its three buffers; it
    accepts exactly the paths [[volume]name] and [name] with a volume name of
    at most 14 characters and a file name of 1 to 15, and then leaves the two
    names, null-terminated, in the buffers. *)
Theorem vfs_parse_pathname_correct path p volumebuf filenamebuf :
  cstr path = Some p -> zlen volumebuf = 16 -> zlen filenamebuf = 16 ->
  exists r vb fb, vfs_parse_pathname path volumebuf filenamebuf = Ret (r, vb, fb) /\
    match split_path p with
    | Some (v, name) => r = VFS_OK /\ cstr vb = Some v /\ cstr fb = Some name
    | None => r = VFS_ERROR
    end.
Proof.
  intros Hp Hv Hf. destruct (vfs_parse_pathname_run path p volumebuf filenamebuf Hp Hv Hf) as (r & vb & fb & Hr & _ & _ & Hend).
  exists r, vb, fb. split; [done|]. destruct (split_path p) as [[v name]|]; [|done].
  destruct Hend as (-> & -> & -> & Hvz & Hnz & _). split; [done|]. split; by apply cstr_splice.
Qed.

Section theorems.
Context {F S : Type} `{!Semaphores S, !FileSystemOps F S, !FileSystems F S}.
Context (ids : sem_ids).
Abbreviation state := (vfs F S).
Implicit Types (s : state) (w : view F).

(** Claim C30. [vfs_open] answers the lowest free handle, whose entry then
    holds the mounted file system of that name, the file's id in it and
    position 0; a path that does not parse, a full table, an unknown volume
    and an error of the file system are answered by their codes with the
    tables as they were. The semaphores are given back and the count of
    operations is what it was. *)
Theorem vfs_open_correct w s volbuf filebuf path p :
  vfs_at ids w s -> view_ok ids w -> under_way w < 2147483647 ->
  Forall is_byte path -> cstr path = Some p -> is_buffer 16 volbuf -> is_buffer 16 filebuf ->
  wp (vfs_open volbuf filebuf path) (fun r s' => exists w', vfs_at ids w' s' /\
    match split_path p with
    | None => r = VFS_ERROR /\ w' = w
    | Some (vol, name) =>
        exists k, first_index free_file (opened w) k /\
        if CONFIG_MAX_OPEN_FILES <=? k then r = VFS_LIMIT /\ w' = w
        else if volume (rows w) vol =? 0 then r = VFS_NO_SUCH_FS /\ w' = w
        else exists f', fs_keeps (fss w) f' /\ (forall fs id b, fs_file (fss w) fs id b -> fs_file f' fs id b) /\
          ((r < 0 /\ w' = with_fss f' w) \/
           exists id, 0 <= id /\ fs_entry (fss w) (volume (rows w) vol) name id /\ r = k /\
             w' = with_opened (<[Z.to_nat k := mk_openfile (volume (rows w) vol) id 0]> (opened w)) (with_fss f' w))
    end) s.
Proof. intros Hat Hok Hmax Hb Hp Hv Hf. apply (wpv_run ids _ _ w); [done|]. by apply open_run. Qed.

Lemma moved_open w file e r f' :
  is_open w file e -> is_open (moved w file e r f') file (if 0 <? r then set_seek (seek_position e + r) e else e).
Proof.
  intros (H0 & He & Hfs). unfold moved, is_open. destruct (0 <? r); cbn [opened with_opened with_fss]; [|done].
  split; [done|]. split; [|done]. apply list_lookup_insert_eq. by apply lookup_lt_Some in He.
Qed.

(** Claim C28. Writing through a handle, seeking back and reading as much
    gives the bytes written; the handle's position is after them, the
    semaphores are given back and the count of operations is what it was. *)
Theorem vfs_write_seek_read w s file e b data buffer n :
  vfs_at ids w s -> view_ok ids w -> under_way w < 2147483647 ->
  is_open w file e -> fs_file (fss w) (of_filesystem e) (fileid e) b -> fs_reliable (fss w) ->
  0 <= seek_position e -> 1 <= n -> seek_position e + n <= zlen b -> zlen b < 2147483648 ->
  n <= zlen data -> n <= zlen buffer -> Forall is_byte data ->
  wp (x ← vfs_write file (Some data) n; _ ← vfs_seek file (seek_position e); '(r, out) ← vfs_read file (Some buffer) n;
      mret (x, r, out))
    (fun a s' => a = (n, n, Some (splice buffer 0 (take (Z.to_nat n) data))) /\ exists w', vfs_at ids w' s' /\ view_ok ids w' /\
      is_open w' file (set_seek (seek_position e + n) e) /\ under_way w' = under_way w /\ rows w' = rows w) s.
Proof.
  intros Hat Hok Hmax Hopen Hfile Hrel Hs Hn Hend Hb Hd Hbuf Hby.
  eapply wp_mono.
  { apply (wpv_run ids _ (fun a w' => a = (n, n, Some (splice buffer 0 (take (Z.to_nat n) data))) /\ view_ok ids w' /\
      is_open w' file (set_seek (seek_position e + n) e) /\ under_way w' = under_way w /\ rows w' = rows w) w); [done|].
    apply wpv_bind. eapply wpv_mono; [apply (write_run ids w file e b data n); try done; lia|].
    intros x w1 (f1 & -> & Hk1 & [[_ Hbad]|Hw]); [done|]. rewrite (proj2 (Z.leb_le _ _)) in Hw by lia. rewrite Z.min_l in Hw by lia.
    destruct Hw as [-> Hf1]. pose proof (moved_ok ids w file e n f1 Hok Hopen Hk1) as Hok1.
    pose proof (moved_open w file e n f1 Hopen) as Hopen1. rewrite (proj2 (Z.ltb_lt 0 n)) in Hopen1 by lia.
    assert (Hmv : under_way (moved w file e n f1) = under_way w /\ rows (moved w file e n f1) = rows w /\ fss (moved w file e n f1) = f1).
    { unfold moved. by destruct (0 <? n). }
    destruct Hmv as (Hu1 & Hr1 & Hfs1). set (e1 := set_seek (seek_position e + n) e) in *.
    apply wpv_bind. eapply wpv_mono; [apply (seek_run ids (moved w file e n f1) file e1 (seek_position e)); try done; lia|].
    intros _ w2 [_ ->]. set (w1 := moved w file e n f1) in *.
    assert (Hopen2 : is_open (with_opened (<[Z.to_nat file:=set_seek (seek_position e) e1]> (opened w1)) w1) file (set_seek (seek_position e) e1)).
    { destruct Hopen1 as (H0 & He & Hfs). split; [done|]. split; [|done]. cbn. apply list_lookup_insert_eq. by apply lookup_lt_Some in He. }
    assert (Hok2 : view_ok ids (with_opened (<[Z.to_nat file:=set_seek (seek_position e) e1]> (opened w1)) w1)).
    { apply view_ok_file; [done|]. destruct Hopen1 as (_ & He & _). apply (file_open_ok ids w1 _ e1 Hok1 He). }
    set (w2 := with_opened _ w1) in *. set (b1 := splice b (Z.to_nat (seek_position e)) (take (Z.to_nat n) data)) in *.
    assert (Hlb1 : zlen b1 = zlen b) by (subst b1; rewrite length_splice; rewrite ?length_take; lia).
    apply wpv_bind. eapply wpv_mono; [apply (read_run ids w2 file (set_seek (seek_position e) e1) b1 buffer n); try done|].
    - cbn. lia.
    - subst w2. cbn. rewrite Hfs1. exact Hf1.
    - cbn. lia.
    - lia.
    - intros a w3 (r & buffer' & f3 & -> & -> & Hk3 & _ & Hr). destruct Hr as [[_ Hbad]|Hr].
      { destruct Hbad. subst w2. cbn. rewrite Hfs1. destruct Hk1 as (_ & _ & Hk1). by apply Hk1. }
      cbn [seek_position set_seek] in Hr. rewrite (proj2 (Z.leb_le _ _)) in Hr by lia. rewrite Z.min_l in Hr by lia. destruct Hr as [-> ->].
      apply wpv_ret. split.
      { assert (Htk : length (take (Z.to_nat n) data) = Z.to_nat n) by (rewrite length_take; lia). do 3 f_equal. subst b1.
        rewrite <- Htk at 2. apply slice_splice_eq. lia. }
      pose proof (moved_ok ids w2 file (set_seek (seek_position e) e1) n f3 Hok2 Hopen2 Hk3) as Hok3.
      pose proof (moved_open w2 file _ n f3 Hopen2) as Hopen3. rewrite (proj2 (Z.ltb_lt 0 n)) in Hopen3 by lia.
      split; [done|]. split; [exact Hopen3|]. unfold moved. rewrite (proj2 (Z.ltb_lt 0 n)) by lia. by subst w2. }
  intros a s' (w' & Hat' & -> & Hrest). split; [done|]. by exists w'.
Qed.

(** Claim C29. [vfs_unmount] finds the volume by its name, refuses with
    [VFS_IN_USE] while a handle is open on it, and otherwise unmounts it and
    clears its row and no other; so the file system of every open file stays
    mounted. *)
Theorem vfs_unmount_correct w s name nm :
  vfs_at ids w s -> view_ok ids w -> under_way w < 2147483647 -> is_name name -> cstr name = Some nm ->
  wp (vfs_unmount name) (fun r s' => exists w', vfs_at ids w' s' /\ let fs := volume (rows w) nm in
    if fs =? 0 then r = VFS_NOT_FOUND /\ w' = w
    else if bool_decide (Exists (fun o => uses fs o = true) (opened w)) then r = VFS_IN_USE /\ w' = w
    else r = VFS_OK /\ view_ok ids w' /\ opened w' = opened w /\ under_way w' = under_way w /\
      exists k e, first_index (named nm) (rows w) k /\ rows w !! Z.to_nat k = Some e /\
        rows w' = <[Z.to_nat k := clear_row e]> (rows w)) s.
Proof. intros Hat Hok Hmax Hname Hn. apply (wpv_run ids _ _ w); [done|]. by apply unmount_run. Qed.

(** [vfs_mount] puts the file system into the first free row
    under the first 15 characters of the name, unless a row (used or not)
    has that name or no row is free; the tables stay well formed. *)
Theorem vfs_mount_correct w s fs name nm :
  vfs_at ids w s -> view_ok ids w -> under_way w < 2147483647 -> is_name name -> cstr name = Some nm -> nm <> [] ->
  fs_mounted (fss w) fs -> (forall r, r ∈ rows w -> ve_filesystem r <> fs) ->
  wp (vfs_mount fs (Some name)) (fun r s' => exists w', vfs_at ids w' s' /\ exists k, first_index free_row (rows w) k /\
    if CONFIG_MAX_FILESYSTEMS <=? k then r = VFS_LIMIT /\ w' = w
    else if bool_decide (Exists (fun e => named nm e = true) (rows w)) then r = VFS_ERROR /\ w' = w
    else r = VFS_OK /\ view_ok ids w' /\ exists point, cstr point = Some (take 15 nm) /\
      w' = with_rows (<[Z.to_nat k := mk_vfs_entry fs point]> (rows w)) w) s.
Proof. intros Hat Hok Hmax Hname Hn Hne Hm Hnew. apply (wpv_run ids _ _ w); [done|]. by apply mount_run. Qed.

(** Claim C31. The forced unmount completes when no operation is under way,
    and leaves every volume unmounted and the VFS unusable; but after
    [vfs_close] of a handle that is not open, which answers an error without
    ending its operation, it waits for an end that never comes. *)
Theorem vfs_deinit_waits w s :
  vfs_at ids w s -> view_ok ids w -> under_way w < 2147483647 ->
  (under_way w = 0 -> wp vfs_deinit (fun _ s' => exists w', vfs_at ids w' s' /\
     Forall (fun e => ve_filesystem e = 0) (rows w') /\ usable w' = false) s) /\
  (forall file, not_open w file -> fails Blocked (_ ← vfs_close file; vfs_deinit) s).
Proof.
  intros Hat Hok Hmax. split.
  - intros Hz. eapply wp_mono; [by apply (deinit_run ids w)|]. intros _ s' (w' & ? & ? & ? & _). by exists w'.
  - intros file Hno. apply fails_bind. eapply wp_mono; [apply (wpv_run ids _ (fun r w' => r = VFS_ERROR /\ w' = with_under_way (under_way w + 1) w) w s Hat); by apply close_not_open|].
    intros r s' (w' & Hat' & _ & ->). pose proof (vk_ops _ _ Hok). apply (deinit_waits ids (with_under_way (under_way w + 1) w)); [done| |cbn; lia].
    apply view_ok_under_way; [done|lia].
Qed.
End theorems.

(** ** The volume of [Tfs.v], mounted as [v], with handle 3 open on its file at
    position 508 *)
#[local] Existing Instance example_symbols.
#[local] Existing Instance example_layout.

(** Semaphore 1 is the volume's; 2 to 5 are those of vfs.c. *)
Definition mount_sems : over semaphores kernel :=
  mk_over (mk_semaphores (mk_semaphore (-2) 1 :: replicate 4 (mk_semaphore 1 1) ++ mk_semaphore 0 1 :: replicate 121 (mk_semaphore 0 (-1))
    ++ [mk_semaphore (-1) 1]) 1) waiting_kernel.
Lemma mount_sems_ok : sem_inv mount_sems.
Proof.
  split; [|split; [apply (caller_free_waiting (tab mount_sems))|done]]. split.
  - destruct waiting_kernel_ok. by exists [], [], waiting_lists, 1.
  - reflexivity.
  - vm_check.
  - intros i Hi. apply Z.eqb_eq. revert i Hi.
    assert (Forall (fun i => zlen (waiting mount_sems (sem_addr i)) =? Z.max 0 (- value (sem mount_sems i)) = true) (seqZ 0 128)) as Hall.
    { apply (bool_decide_unpack _). vm_compute. exact I. }
    intros i Hi. rewrite Forall_forall in Hall. apply Hall, elem_of_seqZ. unfold is_sem, CONFIG_MAX_SEMAPHORES in Hi. lia.
  - assert (Forall (fun i => creator (sem mount_sems i) = -1 -> waiting mount_sems (sem_addr i) = []) (seqZ 0 128)) as Hall.
    { apply (bool_decide_unpack _). vm_compute. exact I. }
    intros i Hi. rewrite Forall_forall in Hall. apply Hall, elem_of_seqZ. unfold is_sem, CONFIG_MAX_SEMAPHORES in Hi. lia.
Qed.

Definition v_page : Z := 0x80003000.
Definition mount_fs_of (d : ramdisk) : mount_point ramdisk :=
  mk_mount (mk_tfs 8 1 (replicate 512 0) (replicate 512 0) (replicate 512 0) v_page) d
    (mk_pmem (mk_kmem 0xffffffff 0x80028000) (mk_pool [15; 0] 40 36 3) (mk_cpu 0x1000ff01 ∅)) [118; 0] true.
Abbreviation mount_fs := (mount_fs_of a_device).
Definition a_row : vfs_entry_t := mk_vfs_entry v_page (118 :: replicate 15 0).
Definition empty_row : vfs_entry_t := mk_vfs_entry 0 (replicate 16 0).
Definition a_handle : openfile_entry_t := mk_openfile v_page 3 508.
Definition mount_ids : sem_ids := mk_ids 2 3 4 5.
Definition mount_view_of (d : ramdisk) : view (mount_point ramdisk) :=
  mk_view (a_row :: replicate 7 empty_row) (replicate 3 (mk_openfile 1 0 0) ++ a_handle :: replicate 508 (mk_openfile 0 0 0)) 0 true
    (mount_fs_of d) (sem_val mount_sems).
Abbreviation mount_view := (mount_view_of a_device).
Definition mount_state_of (d : ramdisk) : vfs (mount_point ramdisk) (over semaphores kernel) := concrete mount_ids (mount_view_of d) mount_sems.
Abbreviation mount_state := (mount_state_of a_device).
#[local] Instance mount_ops : FileSystemOps (mount_point ramdisk) (over semaphores kernel) := tfs_ops [] [].
#[local] Instance mount_filesystems : FileSystems (mount_point ramdisk) (over semaphores kernel) := tfs_filesystems [] [].

Lemma mount_at d : vfs_at mount_ids (mount_view_of d) (mount_state_of d).
Proof. exists mount_sems. split; [done|]. split; [apply mount_sems_ok|done]. Qed.

(** A device with the blocks of the volume and a directory. *)
Definition device_ok (d : ramdisk) : Prop := 8 <= zlen (rd_blocks d) /\ names_ok (contents d TFS_DIRECTORY_BLOCK).
Lemma a_device_ok : device_ok a_device.
Proof. split; [vm_check|apply a_directory_names]. Qed.

Lemma mount_body d : device_ok d -> body_ok (mp_tfs (mount_fs_of d)) (mp_disk (mount_fs_of d)).
Proof. intros [Hd _]. split; [done|cbn; lia|exact Hd|split; [done|by apply Forall_replicate]..]. Qed.

Lemma mount_mounted d : device_ok d -> fs_mounted (S := over semaphores kernel) (mount_fs_of d) v_page.
Proof.
  intros Hd. split; [done|]. split; [done|]. split; [done|]. split; [by apply mount_body|]. split; [apply Hd|].
  exists 3. split; [reflexivity|]. split.
  { split; cbn.
    - repeat constructor; vm_check.
    - vm_check.
    - lia.
    - done.
    - lia.
    - intros i Hi. assert (i = 0 \/ i = 1 \/ i = 2) as [->|[->| ->]] by lia; done. }
  split; [split; [vm_check|apply not_elem_of_empty]|]. split; [cbn; lia|reflexivity].
Qed.

Lemma mount_file : fs_file (S := over semaphores kernel) mount_fs v_page 3 (replicate 512 1 ++ replicate 88 2).
Proof.
  split; [done|]. split; [done|]. split; [apply a_volume_file|]. split; [apply mount_body, a_device_ok|].
  assert (Hb : file_blocks a_device 3 = [5; 4]) by (vm_compute; reflexivity). split; [|vm_compute; reflexivity].
  change (mp_disk mount_fs) with a_device. rewrite Hb. repeat constructor; lia.
Qed.

Lemma mount_view_ok d : device_ok d -> view_ok (S := over semaphores kernel) mount_ids (mount_view_of d).
Proof.
  intros Hd. split.
  - split; [apply (bool_decide_unpack _); vm_compute; exact I|].
    change (fs_sems (fss (mount_view_of d))) with [1]. repeat constructor; cbn; rewrite elem_of_cons, elem_of_nil; lia.
  - vm_compute. done.
  - change (fs_sems (fss (mount_view_of d))) with [1]. repeat constructor.
  - reflexivity.
  - constructor; [|apply Forall_replicate].
    + split; [done|]. split; [|intros _; by apply mount_mounted]. split; [by repeat constructor|]. by exists [118].
    + split; [done|]. split; [|done]. split; [by apply Forall_replicate|]. by exists [].
  - reflexivity.
  - intros i j ei ej Hi Hj Hne Heq. change (rows (mount_view_of d)) with (a_row :: replicate 7 empty_row) in Hi, Hj.
    destruct i as [|i].
    + destruct j as [|j]; [done|]. apply lookup_replicate in Hj as [-> _]. injection Hi as <-. done.
    + apply lookup_replicate in Hi as [-> _]. done.
  - apply Forall_app. split; [apply Forall_replicate; by right; left|]. constructor; [|apply Forall_replicate; by left].
    right. right. exists a_row. split; [by left|done].
  - cbn. lia.
  - reflexivity.
Qed.

Lemma mount_open : is_open mount_view 3 a_handle.
Proof. split; [lia|]. split; [reflexivity|vm_check]. Qed.

Lemma vfs_parse_pathname_correct_witness :
  exists r vb fb, vfs_parse_pathname [91; 118; 93; 97; 0] (replicate 16 7) (replicate 16 7) = Ret (r, vb, fb) /\
    r = VFS_OK /\ cstr vb = Some [118] /\ cstr fb = Some [97].
Proof. apply (vfs_parse_pathname_correct [91; 118; 93; 97; 0] [91; 118; 93; 97]); reflexivity. Defined.

Lemma vfs_open_correct_witness :
  wp (vfs_open (replicate 16 7) (replicate 16 7) [91; 118; 93; 97; 0]) (fun r _ => r = 4 \/ r < 0) mount_state.
Proof.
  eapply wp_mono; [apply (vfs_open_correct mount_ids mount_view mount_state (replicate 16 7) (replicate 16 7) [91; 118; 93; 97; 0] [91; 118; 93; 97])|].
  - apply mount_at.
  - apply mount_view_ok, a_device_ok.
  - cbn. lia.
  - repeat constructor; unfold is_byte; lia.
  - reflexivity.
  - split; [reflexivity|by apply Forall_replicate].
  - split; [reflexivity|by apply Forall_replicate].
  - intros r s' (w' & _ & Hr). change (split_path [91; 118; 93; 97]) with (Some ([118], [97])) in Hr.
    destruct Hr as (k & (Hk1 & Hk2 & Hk3) & Hr).
    assert (k = 4) as ->.
    { destruct (Z.lt_trichotomy k 4) as [Hlt|[->|Hgt]]; [|reflexivity|].
      - exfalso. destruct Hk3 as (x & Hx & Hg); [vm_compute zlen; lia|].
        assert (k = 0 \/ k = 1 \/ k = 2 \/ k = 3) as [->|[->|[->| ->]]] by lia; injection Hx as <-; discriminate.
      - exfalso. specialize (Hk2 4 (mk_openfile 0 0 0) ltac:(lia) eq_refl). discriminate. }
    destruct Hr as (f' & _ & _ & [[Hneg _]|(id & _ & _ & -> & _)]); [by right|by left].
Defined.

Lemma vfs_write_seek_read_witness :
  wp (x ← vfs_write 3 (Some [7; 8; 9; 10; 11; 12]) 6; _ ← vfs_seek 3 508; '(r, out) ← vfs_read 3 (Some (replicate 7 0)) 6; mret (x, r, out))
    (fun a s' => a = (6, 6, Some [7; 8; 9; 10; 11; 12; 0])) mount_state.
Proof.
  eapply wp_mono; [apply (vfs_write_seek_read mount_ids mount_view mount_state 3 a_handle (replicate 512 1 ++ replicate 88 2)
    [7; 8; 9; 10; 11; 12] (replicate 7 0) 6)|].
  - apply mount_at.
  - apply mount_view_ok, a_device_ok.
  - cbn. lia.
  - apply mount_open.
  - apply mount_file.
  - reflexivity.
  - cbn. lia.
  - lia.
  - vm_check.
  - vm_check.
  - vm_check.
  - vm_check.
  - repeat constructor; unfold is_byte; lia.
  - intros a s' [Ha _]. rewrite Ha. vm_compute. reflexivity.
Defined.

Lemma vfs_unmount_correct_witness : wp (vfs_unmount [118; 0]) (fun r _ => r = VFS_IN_USE) mount_state.
Proof.
  eapply wp_mono; [apply (vfs_unmount_correct mount_ids mount_view mount_state [118; 0] [118])|].
  - apply mount_at.
  - apply mount_view_ok, a_device_ok.
  - cbn. lia.
  - split; [repeat constructor; unfold is_byte; lia|by exists [118]].
  - reflexivity.
  - intros r s' (w' & _ & Hr). change (volume (rows mount_view) [118]) with v_page in Hr. cbn zeta in Hr.
    rewrite bool_decide_eq_true_2 in Hr; [by destruct Hr|]. apply Exists_exists. exists a_handle. split; [|reflexivity].
    apply (list_elem_of_lookup_2 _ 3). reflexivity.
Defined.

(** The same volume before it is mounted. *)
Definition bare_view : view (mount_point ramdisk) :=
  mk_view (replicate 8 empty_row) (replicate 512 (mk_openfile 0 0 0)) 0 true mount_fs (sem_val mount_sems).
Lemma bare_at : vfs_at mount_ids bare_view (concrete mount_ids bare_view mount_sems).
Proof. exists mount_sems. split; [done|]. split; [apply mount_sems_ok|done]. Qed.
Lemma bare_view_ok : view_ok (S := over semaphores kernel) mount_ids bare_view.
Proof.
  pose proof (mount_view_ok _ a_device_ok) as [H1 H2 H3 _ _ _ _ _ _ _]. split; try done.
  - apply Forall_replicate. split; [done|]. split; [|done]. split; [by apply Forall_replicate|]. by exists [].
  - intros i j ei ej Hi _ Hne _. apply lookup_replicate in Hi as [-> _]. done.
  - apply Forall_replicate. by left.
Qed.

Lemma vfs_mount_correct_witness :
  wp (vfs_mount v_page (Some [118; 0])) (fun r s' => r = VFS_OK) (concrete mount_ids bare_view mount_sems).
Proof.
  eapply wp_mono; [apply (vfs_mount_correct mount_ids bare_view _ v_page [118; 0] [118])|].
  - apply bare_at.
  - apply bare_view_ok.
  - cbn. lia.
  - split; [repeat constructor; unfold is_byte; lia|by exists [118]].
  - reflexivity.
  - discriminate.
  - apply mount_mounted, a_device_ok.
  - intros r Hr. apply elem_of_replicate in Hr as [-> _]. discriminate.
  - intros r s' (w' & _ & k & (Hk1 & Hk2 & Hk3) & Hr).
    assert (k = 0) as ->.
    { destruct (decide (k = 0)) as [->|Hne]; [reflexivity|]. specialize (Hk2 0 empty_row ltac:(lia) eq_refl). discriminate. }
    rewrite bool_decide_eq_false_2 in Hr; [by destruct Hr|]. intros (e & He & Hg)%Exists_exists.
    apply elem_of_replicate in He as [-> _]. discriminate.
Defined.

Lemma vfs_deinit_waits_witness : vfs_deinit mount_state <> Fail Blocked /\ fails Blocked (_ ← vfs_close 600; vfs_deinit) mount_state.
Proof.
  destruct (vfs_deinit_waits mount_ids mount_view mount_state (mount_at _) (mount_view_ok _ a_device_ok)) as [Hdone Hwait]; [cbn; lia|]. split.
  - specialize (Hdone eq_refl). intros Hf. unfold wp in Hdone. by rewrite Hf in Hdone.
  - apply Hwait. right. left. vm_compute. discriminate.
Defined.
