(* ===== verification/Process.v ===== *)
(** * proc/process.c, proc/syscall_handler_proc.c: the process table

    A process is an entry of the process table, an address space and the thread
    that runs it.  The state joins the table with the threads and locks, the
    page tables, and the open files; each of the three is used through what it
    promises.  Children hang on their parent in a list linked by [next]. *)
From S2P Require Import Prelude Bitmap Libc Cpu Kmalloc Pagepool Vm Tlb Space Frames ThreadSys.

Definition CONFIG_MAX_PROCESSES : Z := 32.
Definition MAX_OPEN_FILES_PER_PROCESS : Z := 10.
Definition PROCESS_NAME_MAX_LENGTH : Z := 8.
Definition FILEHANDLE_UNUSED : Z := -1.
Definition PROCESS_NO_PARENT_PID : Z := -1.
Definition PROCESS_NO_OWNER_TID : Z := -1.
Definition PROCESS_NO_RETVAL : Z := -1.
Definition RETVAL_SYSCALL_USERLAND_NOK : Z := -1.

(** ** The code *)

(** [process_table_t]; [name] has 8 bytes, [filehandle] 10 elements. *)
Record process_table_t := mk_process {
  tid : Z;
  name : list Z;
  next : Z;
  die_cond : Z;
  die_lock : Z;
  retval : Z;
  parent_pid : Z;
  last_child_pid : Z;
  filehandle : list Z;
  heap_vaddr : Z
}.
#[export] Instance process_inhabited : Inhabited process_table_t := populate (mk_process 0 [] 0 0 0 0 0 0 [] 0).

Definition set_parent_pid (x : Z) (e : process_table_t) : process_table_t :=
  mk_process (tid e) (name e) (next e) (die_cond e) (die_lock e) (retval e) x (last_child_pid e) (filehandle e) (heap_vaddr e).
Definition set_last_child_pid (x : Z) (e : process_table_t) : process_table_t :=
  mk_process (tid e) (name e) (next e) (die_cond e) (die_lock e) (retval e) (parent_pid e) x (filehandle e) (heap_vaddr e).
Definition set_filehandle (x : list Z) (e : process_table_t) : process_table_t :=
  mk_process (tid e) (name e) (next e) (die_cond e) (die_lock e) (retval e) (parent_pid e) (last_child_pid e) x (heap_vaddr e).
Definition set_die (lock cond : Z) (e : process_table_t) : process_table_t :=
  mk_process (tid e) (name e) (next e) cond lock (retval e) (parent_pid e) (last_child_pid e) (filehandle e) (heap_vaddr e).
(** [entry->tid = PROCESS_NO_OWNER_TID; entry->retval = retval] *)
Definition set_finished (r : Z) (e : process_table_t) : process_table_t :=
  mk_process PROCESS_NO_OWNER_TID (name e) (next e) (die_cond e) (die_lock e) r (parent_pid e) (last_child_pid e) (filehandle e) (heap_vaddr e).

Definition init_process_filehandle (entry : process_table_t) : process_table_t :=
  set_filehandle (replicate (Z.to_nat MAX_OPEN_FILES_PER_PROCESS) FILEHANDLE_UNUSED) entry.
Definition free_process_table_entry (e : process_table_t) : process_table_t :=
  init_process_filehandle
    (mk_process PROCESS_NO_OWNER_TID (name e) PROCESS_NO_PARENT_PID (die_cond e) (die_lock e) PROCESS_NO_RETVAL
      PROCESS_NO_PARENT_PID PROCESS_NO_PARENT_PID (filehandle e) 0).

Record pstate (L F : Type) := mk_pstate {
  process_table : list process_table_t;
  process_table_lock : Z;
  ps_threads : L;
  ps_space : space;
  ps_files : F
}.
Arguments mk_pstate {L F}.
Arguments process_table {L F}.
Arguments process_table_lock {L F}.
Arguments ps_threads {L F}.
Arguments ps_space {L F}.
Arguments ps_files {L F}.

Section process.
Context {L F : Type} `{!HasCpu L, !ThreadSys L, !OpenFiles F, !Symbols}.
Abbreviation state := (pstate L F).

#[export] Instance HasCpu_pstate : HasCpu state.
Proof.
  refine {| cpu_of s := cpu_of (ps_threads s);
            with_cpu c s := mk_pstate (process_table s) (process_table_lock s) (with_cpu c (ps_threads s)) (ps_space s) (ps_files s) |}.
  - intros c s. apply cpu_of_with.
  - intros []. cbn. by rewrite with_cpu_of.
  - intros c c' s. cbn. by rewrite with_cpu_with.
Defined.

Definition on_threads {A} (m : M L A) : M state A := fun s =>
  match m (ps_threads s) with
  | Ret (a, t) => Ret (a, mk_pstate (process_table s) (process_table_lock s) t (ps_space s) (ps_files s))
  | Fail f => Fail f
  end.
(** The same processor runs the memory's critical sections. *)
Definition on_space {A} (m : M space A) : M state A := fun s =>
  match m (with_cpu (cpu_of s) (ps_space s)) with
  | Ret (a, x) => Ret (a, mk_pstate (process_table s) (process_table_lock s) (with_cpu (cpu_of x) (ps_threads s)) x (ps_files s))
  | Fail f => Fail f
  end.
Definition on_files {A} (m : M F A) : M state A := fun s =>
  match m (ps_files s) with
  | Ret (a, x) => Ret (a, mk_pstate (process_table s) (process_table_lock s) (ps_threads s) (ps_space s) x)
  | Fail f => Fail f
  end.

Definition get_process (i : Z) : M state process_table_t := fun s =>
  match rget (process_table s) i with Ret e => Ret (e, s) | Fail f => Fail f end.
Definition put_process (i : Z) (e : process_table_t) : M state unit := fun s =>
  t ← rset (process_table s) i e;
  Ret (tt, mk_pstate t (process_table_lock s) (ps_threads s) (ps_space s) (ps_files s)).
Definition upd_process (i : Z) (f : process_table_t -> process_table_t) : M state unit :=
  e ← get_process i; put_process i (f e).

(** The loop of [process_table_init], from entry [i] on. *)
Fixpoint init_entries (n : nat) (i : Z) : M state unit :=
  match n with
  | O => mret tt
  | S n =>
      _ ← upd_process i free_process_table_entry;
      l ← on_threads lock_create;
      c ← on_threads condition_create;
      _ ← upd_process i (set_die l c);
      _ ← upd_process i init_process_filehandle;
      init_entries n (i + 1)
  end.
Definition process_table_init : M state unit :=
  stat ← interrupt_disable;
  l ← on_threads lock_create;
  _ ← modify (fun s => mk_pstate (process_table s) l (ps_threads s) (ps_space s) (ps_files s));
  _ ← init_entries (Z.to_nat CONFIG_MAX_PROCESSES) 0;
  _ ← interrupt_set_state stat;
  mret tt.

Definition get_current_process_pid : M state Z :=
  stat ← interrupt_disable;
  found ← on_threads get_userland_pid;
  _ ← interrupt_set_state stat;
  mret found.
(** The index of the entry, [None] for NULL. *)
Definition get_current_process_entry : M state (option Z) :=
  stat ← interrupt_disable;
  pid ← get_current_process_pid;
  let found := if (pid >=? 0) && (pid <? CONFIG_MAX_PROCESSES) then Some pid else None in
  _ ← interrupt_set_state stat;
  mret found.

(** [process_start]: the loop that takes the first free entry, for a child of
    [parent] ([PROCESS_NO_PARENT_PID] for none). "foobar" is the name. *)
Definition default_name : list Z := [102; 111; 111; 98; 97; 114; 0].
Fixpoint claim_entry (n : nat) (i parent : Z) : M state (option Z) :=
  match n with
  | O => mret None
  | S n =>
      e ← get_process i;
      if (tid e =? PROCESS_NO_OWNER_TID) && (parent_pid e =? PROCESS_NO_PARENT_PID) then
        t ← on_threads thread_get_current_thread;
        nm ← lift (stringcopy (name e) default_name PROCESS_NAME_MAX_LENGTH);
        _ ← put_process i (mk_process t nm PROCESS_NO_PARENT_PID (die_cond e) (die_lock e) PROCESS_NO_RETVAL parent
                             PROCESS_NO_PARENT_PID (filehandle e) (heap_vaddr e));
        _ ← on_threads (set_userland_pid i);
        _ ← (if negb (parent =? PROCESS_NO_PARENT_PID) then
               p ← get_process parent;
               _ ← (if negb (last_child_pid p =? PROCESS_NO_PARENT_PID) then
                      upd_process i (fun e => mk_process (tid e) (name e) (last_child_pid p) (die_cond e) (die_lock e) (retval e)
                        (parent_pid e) (last_child_pid e) (filehandle e) (heap_vaddr e))
                    else mret tt);
               upd_process parent (set_last_child_pid i)
             else mret tt);
        mret (Some i)
      else claim_entry n (i + 1) parent
  end.
Definition start_entry (parent : Z) : M state (option Z) :=
  intr_status ← interrupt_disable;
  l ← gets process_table_lock;
  _ ← on_threads (lock_acquire l);
  r ← claim_entry (Z.to_nat CONFIG_MAX_PROCESSES) 0 parent;
  _ ← on_threads (lock_release l);
  _ ← interrupt_set_state intr_status;
  mret r.

(** proc/syscall_handler_fs.c *)
Fixpoint close_filehandles (n : nat) (i pt : Z) : M state unit :=
  match n with
  | O => mret tt
  | S n =>
      e ← get_process pt;
      h ← lift (rget (filehandle e) i);
      _ ← (if h >? 0 then _ ← on_files (vfs_close h); mret tt else mret tt);
      e ← get_process pt;
      l ← lift (rset (filehandle e) i (-1));
      _ ← put_process pt (set_filehandle l e);
      close_filehandles n (i + 1) pt
  end.
Definition syscall_close_all_filehandles (pt : Z) : M state unit :=
  close_filehandles (Z.to_nat MAX_OPEN_FILES_PER_PROCESS) 0 pt.

(** [while (child_pid != PROCESS_NO_PARENT_PID)] *)
Definition orphan_child (child_pid : Z) : M state (Z + unit) :=
  if negb (child_pid =? PROCESS_NO_PARENT_PID) then
    _ ← upd_process child_pid (set_parent_pid PROCESS_NO_PARENT_PID);
    c ← get_process child_pid;
    mret (inl (next c))
  else mret (inr tt).

(** [syscall_handle_exit] up to the children: the interrupt state, the lock of
    the table, the page table, and the entry. *)
Definition exit_begin (me : Z) : M state (Z * Z * Z * process_table_t) :=
  _ ← syscall_close_all_filehandles me;
  intr_stat ← interrupt_disable;
  e ← get_process me;
  _ ← on_threads (lock_acquire (die_lock e));
  table_lock ← gets process_table_lock;
  _ ← on_threads (lock_acquire table_lock);
  pagetable ← on_threads get_pagetable;
  e ← get_process me;
  _ ← on_space (on_vm (vm_unmap pagetable (heap_vaddr e)));
  mret (intr_stat, table_lock, pagetable, e).
(** From [my_entry->tid = PROCESS_NO_OWNER_TID] on. *)
Definition exit_end (me retval intr_stat table_lock pagetable : Z) (e : process_table_t) : M state unit :=
  _ ← upd_process me (set_finished retval);
  _ ← on_threads (condition_broadcast (die_cond e) (die_lock e));
  _ ← on_space (release_space pagetable);
  _ ← on_threads (set_pagetable 0);
  _ ← on_threads (set_userland_pid (-1));
  _ ← on_threads (lock_release table_lock);
  _ ← on_threads (lock_release (die_lock e));
  _ ← interrupt_set_state intr_stat;
  mret tt.
Definition syscall_handle_exit (fuel : nat) (retval : Z) : M state unit :=
  retval ← lift (if retval <? 0 then int (- retval) else Ret retval);
  _ ← get_current_process_pid;
  my_entry ← get_current_process_entry;
  _ ← (match my_entry with
       | None => mret tt
       | Some me =>
           '(intr_stat, table_lock, pagetable, e) ← exit_begin me;
           _ ← loop fuel orphan_child (last_child_pid e);
           exit_end me retval intr_stat table_lock pagetable e
       end);
  on_threads thread_finish.

(** From the test of [while (child_entry->tid != PROCESS_NO_OWNER_TID)] on:
    [inl] when the thread waits. *)
Definition join_wait (child : Z) : M state (Z + Z) :=
  e ← get_process child;
  if negb (tid e =? PROCESS_NO_OWNER_TID) then
    st ← on_threads (condition_wait (die_cond e) (die_lock e));
    mret (inl st)
  else
    let r := retval e in
    _ ← upd_process child (set_parent_pid PROCESS_NO_PARENT_PID);
    _ ← on_threads (lock_release (die_lock e));
    mret (inr r).
Definition syscall_handle_join (pid : Z) : M state (Z + Z) :=
  my_entry ← get_current_process_entry;
  match my_entry with
  | None => mret (inr RETVAL_SYSCALL_USERLAND_NOK)
  | Some _ =>
      if (pid <=? 0) || (pid >? CONFIG_MAX_PROCESSES) then mret (inr RETVAL_SYSCALL_USERLAND_NOK)
      else
        let child := pid - 1 in
        c ← get_process child;
        me ← get_current_process_pid;
        if negb (parent_pid c =? me) then mret (inr RETVAL_SYSCALL_USERLAND_NOK)
        else _ ← on_threads (lock_acquire (die_lock c)); join_wait child
  end.
Definition syscall_handle_join_resume (pid st : Z) : M state (Z + Z) :=
  e ← get_process (pid - 1);
  _ ← on_threads (condition_wait_resume (die_lock e) st);
  join_wait (pid - 1).
End process.

(** ** Facts *)
Section facts.
Context {L F : Type} `{!HasCpu L, TS : !ThreadSys L, OF : !OpenFiles F, !Symbols}.
Abbreviation state := (pstate L F).
Implicit Types s : state.

Definition is_pid (i : Z) : Prop := 0 <= i < CONFIG_MAX_PROCESSES.
Definition proc s (i : Z) : process_table_t := process_table s !!! Z.to_nat i.
Definition with_procs (tb : list process_table_t) s : state := mk_pstate tb (process_table_lock s) (ps_threads s) (ps_space s) (ps_files s).
Definition set_proc (i : Z) (e : process_table_t) s : state := with_procs (<[Z.to_nat i := e]> (process_table s)) s.
Definition with_threads (x : L) s : state := mk_pstate (process_table s) (process_table_lock s) x (ps_space s) (ps_files s).
Definition table_full s : Prop := zlen (process_table s) = CONFIG_MAX_PROCESSES.

Lemma wp_on_threads {A} (m : M L A) (Q : A -> state -> Prop) s :
  wp m (fun a t => Q a (with_threads t s)) (ps_threads s) -> wp (on_threads m) Q s.
Proof. unfold wp, on_threads. by destruct (m (ps_threads s)) as [[a t]|]. Qed.

Lemma wp_on_files {A} (m : M F A) (Q : A -> state -> Prop) s :
  wp m (fun a t => Q a (mk_pstate (process_table s) (process_table_lock s) (ps_threads s) (ps_space s) t)) (ps_files s) ->
  wp (on_files m) Q s.
Proof. unfold wp, on_files. by destruct (m (ps_files s)) as [[a t]|]. Qed.

Lemma wp_on_space {A} (m : M space A) (Q : A -> state -> Prop) s :
  wp m (fun a x => cpu_of x = cpu_of s /\
    Q a (mk_pstate (process_table s) (process_table_lock s) (ps_threads s) x (ps_files s))) (with_cpu (cpu_of s) (ps_space s)) ->
  wp (on_space m) Q s.
Proof.
  unfold wp, on_space. destruct (m _) as [[a t]|]; [|done]. intros [-> HQ]. cbn. by rewrite with_cpu_of.
Qed.

Lemma wp_get_process s i (Q : process_table_t -> state -> Prop) :
  table_full s -> is_pid i -> Q (proc s i) s -> wp (get_process i) Q s.
Proof.
  intros Hlen Hi HQ. unfold wp, get_process. destruct (rget_in (process_table s) i) as (e & -> & He); [unfold table_full, is_pid in *; lia|].
  unfold proc in HQ. by rewrite (list_lookup_total_correct _ _ _ He) in HQ.
Qed.

Lemma wp_put_process s i e (Q : unit -> state -> Prop) :
  table_full s -> is_pid i -> Q tt (set_proc i e s) -> wp (put_process i e) Q s.
Proof. intros Hlen Hi HQ. unfold wp, put_process. rewrite rset_in by (unfold table_full, is_pid in *; lia). done. Qed.

Lemma wp_upd_process s i f (Q : unit -> state -> Prop) :
  table_full s -> is_pid i -> Q tt (set_proc i (f (proc s i)) s) -> wp (upd_process i f) Q s.
Proof. intros Hlen Hi HQ. apply wp_bind, wp_get_process; [done|done|]. by apply wp_put_process. Qed.

Lemma set_proc_full i e s : table_full s -> table_full (set_proc i e s).
Proof. unfold table_full, set_proc. cbn. by rewrite length_insert. Qed.

Lemma proc_set s i e j : table_full s -> is_pid i -> is_pid j -> proc (set_proc i e s) j = if j =? i then e else proc s j.
Proof.
  intros Hlen Hi Hj. unfold proc, set_proc, table_full, is_pid in *. cbn. destruct (Z.eqb_spec j i) as [-> |Hne].
  - apply list_lookup_total_insert_eq. lia.
  - apply list_lookup_total_insert_ne. lia.
Qed.

Lemma ps_ready s : ts_ok (ps_threads s) -> is_u32 (status (cpu_of s)).
Proof. apply (ts_ready (ps_threads s)). Qed.

(** Interrupts off and on again around code that leaves the processor alone. *)
Lemma ts_off s : ts_ok (ps_threads s) ->
  let s1 := with_cpu (mk_cpu (Z.land 0xffff00fe (status (cpu_of s))) (held (cpu_of s))) s in
  ts_ok (ps_threads s1) /\ ts_tid (ps_threads s1) = ts_tid (ps_threads s) /\ ts_pid (ps_threads s1) = ts_pid (ps_threads s) /\
  ts_table (ps_threads s1) = ts_table (ps_threads s) /\ ts_lock (ps_threads s1) = ts_lock (ps_threads s).
Proof.
  intros Hok. apply ts_cpu; [done| |done]. cbn. rewrite Z.land_comm. apply is_u32_land; [by apply ts_ready|lia].
Qed.

Lemma with_threads_id s : with_threads (ps_threads s) s = s.
Proof. by destruct s. Qed.

Lemma off_on st s : with_cpu (mk_cpu (status (cpu_of s)) (held (cpu_of (with_cpu (mk_cpu st (held (cpu_of s))) s))))
  (with_cpu (mk_cpu st (held (cpu_of s))) s) = s.
Proof. rewrite with_cpu_with, cpu_of_with. cbn [held]. replace (mk_cpu _ _) with (cpu_of s) by (by destruct (cpu_of s)). apply with_cpu_of. Qed.

Lemma wp_get_pid s (Q : Z -> state -> Prop) : ts_ok (ps_threads s) -> Q (ts_pid (ps_threads s)) s -> wp (on_threads get_userland_pid) Q s.
Proof. intros Hok HQ. apply wp_on_threads, get_pid_spec; [done|]. by rewrite with_threads_id. Qed.
Lemma wp_get_table s (Q : Z -> state -> Prop) : ts_ok (ps_threads s) -> Q (ts_table (ps_threads s)) s -> wp (on_threads get_pagetable) Q s.
Proof. intros Hok HQ. apply wp_on_threads, get_table_spec; [done|]. by rewrite with_threads_id. Qed.
Lemma wp_get_tid s (Q : Z -> state -> Prop) : ts_ok (ps_threads s) -> Q (ts_tid (ps_threads s)) s -> wp (on_threads thread_get_current_thread) Q s.
Proof. intros Hok HQ. apply wp_on_threads, thread_get_spec; [done|]. by rewrite with_threads_id. Qed.

Lemma wp_current_pid s (Q : Z -> state -> Prop) :
  ts_ok (ps_threads s) -> Q (ts_pid (ps_threads s)) s -> wp get_current_process_pid Q s.
Proof.
  intros Hok HQ. unfold get_current_process_pid. apply wp_bind, wp_disable.
  destruct (ts_off s Hok) as (Hok1 & _ & Hp & _).
  apply wp_bind, wp_get_pid; [done|]. rewrite Hp.
  apply wp_bind. apply wp_restore; [by apply ps_ready|by rewrite cpu_of_with|]. intros a. apply wp_ret. by rewrite off_on.
Qed.

Lemma wp_current_entry s (Q : option Z -> state -> Prop) :
  ts_ok (ps_threads s) ->
  Q (if decide (is_pid (ts_pid (ps_threads s))) then Some (ts_pid (ps_threads s)) else None) s -> wp get_current_process_entry Q s.
Proof.
  intros Hok HQ. unfold get_current_process_entry. apply wp_bind, wp_disable.
  destruct (ts_off s Hok) as (Hok1 & _ & Hp & _).
  apply wp_bind, wp_current_pid; [done|]. rewrite Hp.
  apply wp_bind. apply wp_restore; [by apply ps_ready|by rewrite cpu_of_with|]. intros a. apply wp_ret. rewrite off_on.
  unfold is_pid in HQ. rewrite Z.geb_leb.
  destruct (Z.leb_spec 0 (ts_pid (ps_threads s))) as [H1|H1], (Z.ltb_spec (ts_pid (ps_threads s)) CONFIG_MAX_PROCESSES) as [H2|H2]; cbn [andb];
    first [rewrite decide_True in HQ by lia|rewrite decide_False in HQ by lia]; done.
Qed.

(** The table: 32 entries with arrays of their sizes. *)
Definition entry_wf (e : process_table_t) : Prop :=
  (zlen (name e) = PROCESS_NAME_MAX_LENGTH /\ zlen (filehandle e) = MAX_OPEN_FILES_PER_PROCESS) /\ ts_cond (die_cond e).
Definition table_wf s : Prop := table_full s /\ forall i, is_pid i -> entry_wf (proc s i).
Definition free_entry (e : process_table_t) : Prop := tid e = PROCESS_NO_OWNER_TID /\ parent_pid e = PROCESS_NO_PARENT_PID.
#[export] Instance free_entry_dec e : Decision (free_entry e).
Proof. unfold free_entry. apply _. Defined.

Lemma set_proc_wf i e s : table_wf s -> is_pid i -> entry_wf e -> table_wf (set_proc i e s).
Proof.
  intros [Hf He] Hi Hw. split; [by apply set_proc_full|]. intros j Hj. rewrite proc_set by done. case_bool; [done|by apply He].
Qed.

(** The entry of a new process. *)
Definition new_process (e : process_table_t) (t parent nxt : Z) : process_table_t :=
  mk_process t (splice (name e) 0 default_name) nxt (die_cond e) (die_lock e) PROCESS_NO_RETVAL parent PROCESS_NO_PARENT_PID
    (filehandle e) (heap_vaddr e).
(** Nothing but the table and the current thread's [userland_pid] differs. *)
Definition only_table s s' : Prop :=
  process_table_lock s' = process_table_lock s /\ ps_space s' = ps_space s /\ ps_files s' = ps_files s.
(** Entry [k] has been taken for a child of [parent]. *)
Definition started s s' (k parent : Z) : Prop :=
  table_wf s' /\ only_table s s' /\
  (forall j, is_pid j -> proc s' j =
     if j =? k then new_process (proc s k) (ts_tid (ps_threads s)) parent
                      (if parent =? PROCESS_NO_PARENT_PID then PROCESS_NO_PARENT_PID else last_child_pid (proc s parent))
     else if j =? parent then set_last_child_pid k (proc s j) else proc s j) /\
  ts_ok (ps_threads s') /\ cpu_of s' = cpu_of s /\ ts_pid (ps_threads s') = k /\ ts_tid (ps_threads s') = ts_tid (ps_threads s) /\
  ts_table (ps_threads s') = ts_table (ps_threads s) /\ (forall k, ts_lock (ps_threads s') k = ts_lock (ps_threads s) k).

Lemma new_process_wf e t parent nxt : entry_wf e -> entry_wf (new_process e t parent nxt).
Proof. intros [[Hn Hh] Hc]. split; [split; [|done]|done]. cbn. rewrite length_splice; [done|]. unfold PROCESS_NAME_MAX_LENGTH in *. cbn. lia. Qed.

Lemma take_entry_run s k parent :
  table_wf s -> ts_ok (ps_threads s) -> is_pid k -> parent = PROCESS_NO_PARENT_PID \/ is_pid parent /\ parent <> k ->
  wp (t ← on_threads thread_get_current_thread;
      nm ← lift (stringcopy (name (proc s k)) default_name PROCESS_NAME_MAX_LENGTH);
      _ ← put_process k (mk_process t nm PROCESS_NO_PARENT_PID (die_cond (proc s k)) (die_lock (proc s k)) PROCESS_NO_RETVAL parent
                             PROCESS_NO_PARENT_PID (filehandle (proc s k)) (heap_vaddr (proc s k)));
      _ ← on_threads (set_userland_pid k);
      _ ← (if negb (parent =? PROCESS_NO_PARENT_PID) then
             p ← get_process parent;
             _ ← (if negb (last_child_pid p =? PROCESS_NO_PARENT_PID) then
                    upd_process k (fun e => mk_process (tid e) (name e) (last_child_pid p) (die_cond e) (die_lock e) (retval e)
                      (parent_pid e) (last_child_pid e) (filehandle e) (heap_vaddr e))
                  else mret tt);
             upd_process parent (set_last_child_pid k)
           else mret tt);
      mret (Some k)) (fun r s' => r = Some k /\ started s s' k parent) s.
Proof.
  intros Hwf Hts Hk Hparent. pose proof Hwf as [Hfull He]. pose proof (He k Hk) as Hek.
  apply wp_bind, wp_get_tid; [done|].
  destruct (stringcopy_run (name (proc s k)) default_name PROCESS_NAME_MAX_LENGTH [102; 111; 111; 98; 97; 114]) as (nm & Hcopy & -> & _);
    [destruct Hek as [[-> _] _]; by vm_compute|reflexivity|].
  apply wp_bind. eapply wp_lift; [exact Hcopy|]. change (take _ _ ++ [0]) with default_name.
  apply wp_bind, wp_put_process; [done|done|].
  set (e1 := mk_process _ _ _ _ _ _ _ _ _ _). set (s1 := set_proc k e1 s).
  assert (Hwf1 : table_wf s1) by (apply set_proc_wf; [done|done|by apply (new_process_wf _ 0 0 0)]).
  apply wp_bind, wp_on_threads. eapply wp_mono; [by apply set_pid_spec|].
  intros _ x (Hx1 & Hx2 & Hx3 & Hx4 & Hx5 & Hx6). set (s2 := with_threads x s1).
  assert (Hwf2 : table_wf s2) by apply Hwf1.
  assert (Hp2 : forall j, is_pid j -> proc s2 j = if j =? k then e1 else proc s j) by (intros j Hj; by apply proc_set).
  apply wp_bind. destruct (Z.eqb_spec parent PROCESS_NO_PARENT_PID) as [Hno|Hyes]; cbn [negb].
  - apply wp_ret, wp_ret. split; [done|]. split; [done|]. split; [done|]. split; [|done]. intros j Hj. rewrite Hp2 by done.
    rewrite (proj2 (Z.eqb_eq _ _) Hno). destruct (j =? k); [done|]. destruct (Z.eqb_spec j parent) as [-> |]; [|done]. unfold is_pid, PROCESS_NO_PARENT_PID in *. lia.
  - destruct Hparent as [|[Hpar Hne]]; [done|]. apply wp_bind, wp_get_process; [apply Hwf2|done|].
    rewrite Hp2, (proj2 (Z.eqb_neq _ _) Hne) by done. set (lc := last_child_pid (proc s parent)).
    apply wp_bind.
    assert (Hlink : forall s3, table_wf s3 -> ps_threads s3 = x -> only_table s s3 ->
      (forall j, is_pid j -> proc s3 j = if j =? k then new_process (proc s k) (ts_tid (ps_threads s)) parent lc else proc s j) ->
      wp (upd_process parent (set_last_child_pid k)) (fun _ s' => wp (mret (Some k)) (fun r s' => r = Some k /\ started s s' k parent) s') s3).
    { intros s3 Hwf3 Hth3 Hot3 Hp3. apply wp_upd_process; [apply Hwf3|done|]. apply wp_ret. split; [done|].
      assert (Hpp : proc s3 parent = proc s parent) by (rewrite Hp3 by done; by rewrite (proj2 (Z.eqb_neq _ _) Hne)).
      split; [apply set_proc_wf; [done|done|]; rewrite Hpp; exact (He parent Hpar)|]. split; [exact Hot3|]. split.
      - intros j Hj. rewrite proc_set by (done || apply Hwf3). rewrite (proj2 (Z.eqb_neq _ _) Hyes). fold lc.
        destruct (Z.eqb_spec j parent) as [-> |Hjp].
        + by rewrite (proj2 (Z.eqb_neq _ _) Hne), Hpp.
        + by apply Hp3.
      - cbn [set_proc with_procs ps_threads]. unfold cpu_of at 1. cbn. rewrite Hth3. done. }
    destruct (Z.eqb_spec lc PROCESS_NO_PARENT_PID) as [Hlc|Hlc]; cbn [negb].
    + apply wp_ret. apply Hlink; try done. rewrite Hlc. exact Hp2.
    + apply wp_upd_process; [apply Hwf2|done|].
      assert (Hek2 : proc s2 k = e1) by (rewrite Hp2 by done; by rewrite Z.eqb_refl). rewrite Hek2.
      apply Hlink; try done.
      * apply set_proc_wf; [done|done|]. apply (new_process_wf _ 0 0 0 Hek).
      * intros j Hj. rewrite proc_set by (done || apply Hwf2). destruct (j =? k) eqn:E; [done|]. by rewrite Hp2, E.
Qed.

Lemma free_entry_test e : (tid e =? PROCESS_NO_OWNER_TID) && (parent_pid e =? PROCESS_NO_PARENT_PID) = bool_decide (free_entry e).
Proof.
  unfold free_entry. destruct (Z.eqb_spec (tid e) PROCESS_NO_OWNER_TID), (Z.eqb_spec (parent_pid e) PROCESS_NO_PARENT_PID); cbn;
    symmetry; first [apply bool_decide_eq_true_2|apply bool_decide_eq_false_2]; tauto.
Qed.

(** The parent of a new process is a process itself. *)
Definition parent_ok s (parent : Z) : Prop := parent = PROCESS_NO_PARENT_PID \/ is_pid parent /\ ~ free_entry (proc s parent).

Lemma claim_entry_run n i s parent :
  table_wf s -> ts_ok (ps_threads s) -> parent_ok s parent -> 0 <= i -> i + Z.of_nat n = CONFIG_MAX_PROCESSES ->
  wp (claim_entry n i parent) (fun r s' =>
    match r with
    | Some k => i <= k < CONFIG_MAX_PROCESSES /\ free_entry (proc s k) /\ (forall j, i <= j < k -> ~ free_entry (proc s j)) /\ started s s' k parent
    | None => s' = s /\ forall j, i <= j < CONFIG_MAX_PROCESSES -> ~ free_entry (proc s j)
    end) s.
Proof.
  intros Hwf Hts Hpar. revert i. induction n as [|n IH]; intros i Hi Hn; cbn [claim_entry].
  { apply wp_ret. split; [done|]. intros j Hj. lia. }
  assert (Hpid : is_pid i) by (unfold is_pid; lia).
  apply wp_bind, wp_get_process; [apply Hwf|done|]. rewrite free_entry_test. case_bool_decide as Hfree.
  - eapply wp_mono; [apply take_entry_run; [done|done|done|]|].
    + destruct Hpar as [?|[Hp Hnf]]; [by left|right]. split; [done|]. by intros ->.
    + intros r s' [-> Hst]. split; [unfold is_pid in Hpid; lia|]. split; [done|]. split; [lia|done].
  - eapply wp_mono; [apply IH; lia|]. intros [k|] s'.
    + intros (Hk & Hkf & Hlow & Hst). split; [lia|]. split; [done|]. split; [|done]. intros j Hj.
      destruct (decide (j = i)) as [-> |]; [done|]. apply Hlow. lia.
    + intros [-> Hlow]. split; [done|]. intros j Hj. destruct (decide (j = i)) as [-> |]; [done|]. apply Hlow. lia.
Qed.

(** What the bracket of [start_entry] leaves of the thread and the locks. *)
Definition same_but_lock `{!LoneLocks L} (l : Z) (x x' : L) : Prop :=
  ts_tid x' = ts_tid x /\ ts_table x' = ts_table x /\ (forall k, k <> l -> ts_lock x' k = ts_lock x k) /\
  (ts_quiet x l -> ts_lock x' l = Free /\ forall k, ts_quiet x k -> ts_quiet x' k).

Section claim.
Context {LO : LoneLocks L}.

Lemma keeps_put_process i e : keeps (fun s => ts_quiet (ps_threads s)) (put_process i e).
Proof. intros s u s'. unfold put_process. destruct (rset (process_table s) i e); [|done]. cbn. by intros [= _ <-]. Qed.
Lemma keeps_get_process i : keeps (fun s => ts_quiet (ps_threads s)) (get_process i).
Proof. intros s u s'. unfold get_process. destruct (rget (process_table s) i); [|done]. by intros [= _ <-]. Qed.
Lemma keeps_threads {A} (m : M L A) : keeps ts_quiet m -> keeps (fun s : state => ts_quiet (ps_threads s)) (on_threads m).
Proof. intros Hm s a s' Hrun. unfold on_threads in Hrun. destruct (m (ps_threads s)) as [[b x]|] eqn:E; [|done]. injection Hrun as _ <-. apply (Hm _ _ _ E). Qed.
Lemma claim_entry_quiet n i parent : keeps (fun s => ts_quiet (ps_threads s)) (claim_entry n i parent).
Proof.
  revert i. induction n as [|n IH]; intros i; cbn [claim_entry]; [apply keeps_ret|]. apply keeps_bind; [apply keeps_get_process|intros e].
  case_match; [|apply IH]. apply keeps_bind; [apply keeps_threads, get_tid_quiet|intros t]. apply keeps_bind; [apply keeps_lift|intros nm].
  apply keeps_bind; [apply keeps_put_process|intros _]. apply keeps_bind; [apply keeps_threads, set_pid_quiet|intros _].
  assert (Hupd : forall j f, keeps (fun s : state => ts_quiet (ps_threads s)) (upd_process j f)).
  { intros j f. apply keeps_bind; [apply keeps_get_process|intros e']. apply keeps_put_process. }
  apply keeps_bind; [|intros _; apply keeps_ret]. case_match; [|apply keeps_ret]. apply keeps_bind; [apply keeps_get_process|intros p].
  apply keeps_bind; [case_match; [apply Hupd|apply keeps_ret]|intros _; apply Hupd].
Qed.

(** The bracket of [start_entry] and of the end of a process: interrupts off,
    a lock taken, and both given back. *)
Lemma start_entry_run s parent :
  table_wf s -> ts_ok (ps_threads s) -> parent_ok s parent -> ts_lock (ps_threads s) (process_table_lock s) = Free ->
  wp (start_entry parent) (fun r s' =>
    table_wf s' /\ ts_ok (ps_threads s') /\ only_table s s' /\ cpu_of s' = cpu_of s /\
    match r with
    | Some k => is_pid k /\ free_entry (proc s k) /\ (forall j, 0 <= j < k -> ~ free_entry (proc s j)) /\
        ts_pid (ps_threads s') = k /\
        forall j, is_pid j -> proc s' j =
          if j =? k then new_process (proc s k) (ts_tid (ps_threads s)) parent
                           (if parent =? PROCESS_NO_PARENT_PID then PROCESS_NO_PARENT_PID else last_child_pid (proc s parent))
          else if j =? parent then set_last_child_pid k (proc s j) else proc s j
    | None => process_table s' = process_table s /\ forall j, is_pid j -> ~ free_entry (proc s j)
    end /\ same_but_lock (process_table_lock s) (ps_threads s) (ps_threads s')) s.
Proof.
  intros Hwf Hts Hpar Hlock. unfold start_entry. apply wp_bind, wp_disable.
  destruct (ts_off s Hts) as (Hok1 & Ht1 & Hp1 & Hg1 & Hl1). set (s1 := with_cpu _ s) in *.
  assert (Hc1 : cpu_of s1 = mk_cpu (Z.land 0xffff00fe (status (cpu_of s))) (held (cpu_of s))) by apply cpu_of_with.
  assert (Hq1 : ts_quiet (ps_threads s1) = ts_quiet (ps_threads s)) by apply ts_quiet_cpu.
  apply wp_bind, wp_gets. apply wp_bind, wp_on_threads.
  eapply wp_mono; [apply wp_and; [apply lock_acquire_spec|apply lock_acquire_quiet]; first [done|by rewrite Hl1]|].
  intros _ x2 [(Hok2 & Hc2 & (Ht2 & Hp2 & Hg2) & Hm2 & Ho2 & _) Hq2]. set (s2 := with_threads x2 s1).
  apply wp_bind. eapply wp_mono; [apply (keeps_wp (fun s => ts_quiet (ps_threads s))); [apply claim_entry_quiet|]; apply (claim_entry_run _ 0 s2 parent); try done|].
  assert (Hfin : forall (r : option Z) s3, ts_ok (ps_threads s3) -> cpu_of s3 = cpu_of s1 -> (forall k, ts_lock (ps_threads s3) k = ts_lock x2 k) ->
    ts_tid (ps_threads s3) = ts_tid x2 -> ts_table (ps_threads s3) = ts_table x2 -> ts_quiet (ps_threads s3) = ts_quiet x2 -> only_table s s3 -> table_wf s3 ->
    wp (_ ← on_threads (lock_release (process_table_lock s1)); _ ← interrupt_set_state (status (cpu_of s)); mret r) (fun r' s' =>
      r' = r /\ process_table s' = process_table s3 /\ ts_pid (ps_threads s') = ts_pid (ps_threads s3) /\
      table_wf s' /\ ts_ok (ps_threads s') /\ only_table s s' /\ cpu_of s' = cpu_of s /\
      same_but_lock (process_table_lock s) (ps_threads s) (ps_threads s')) s3).
  { intros r s3 Hok3 Hc3 Hl3 Ht3 Hg3 Hq3 Hot3 Hwf3. apply wp_bind, wp_on_threads.
    eapply wp_mono; [apply wp_and; [apply lock_release_spec|apply lock_release_quiet]; first [done|by rewrite Hl3]|].
    intros _ x4 [(Hok4 & Hc4 & (Ht4 & Hp4 & Hg4) & _ & Ho4) Hq4]. set (s4 := with_threads x4 s3).
    assert (Hcpu4 : cpu_of s4 = cpu_of s1) by (transitivity (cpu_of s3); [exact Hc4|done]).
    apply wp_bind, wp_restore; [by apply ps_ready|by rewrite Hcpu4, Hc1|]. intros a. apply wp_ret.
    destruct (ts_cpu (mk_cpu (status (cpu_of s)) (held (cpu_of s4))) x4 Hok4) as (Hok5 & Ht5 & Hp5 & Hg5 & Hl5); [by apply ps_ready|done|].
    split; [done|]. split; [done|]. split; [exact (eq_trans Hp5 Hp4)|]. split; [exact Hwf3|]. split; [exact Hok5|]. split; [exact Hot3|].
    split; [rewrite cpu_of_with, Hcpu4, Hc1; by destruct (cpu_of s)|].
    split; [exact (eq_trans Ht5 (eq_trans Ht4 (eq_trans Ht3 (eq_trans Ht2 Ht1))))|].
    split; [exact (eq_trans Hg5 (eq_trans Hg4 (eq_trans Hg3 (eq_trans Hg2 Hg1))))|]. split.
    - intros k Hk. rewrite <- Hl1, <- Ho2, <- Hl3, <- Ho4 by done. exact (f_equal (fun g => g k) Hl5).
    - intros Hq. assert (Hin : forall k, ts_quiet (ps_threads s) k -> ts_quiet (ps_threads s3) k).
      { intros k Hk. rewrite Hq3. apply Hq2. by rewrite Hq1. }
      destruct (Hq4 (Hin _ Hq)) as [Hfree Hk4]. split; [exact (eq_trans (f_equal (fun g => g _) Hl5) Hfree)|]. intros k Hk.
      cbn [with_threads ps_threads with_cpu]. change (ts_quiet (with_cpu (mk_cpu (status (cpu_of s)) (held (cpu_of s4))) x4) k). rewrite ts_quiet_cpu. by apply Hk4, Hin. }
  intros [k|] s3.
  - intros [(Hk & Hfree & Hlow & Hwf3 & Hot3 & Hproc & Hok3 & Hc3 & Hp3 & Ht3 & Hg3 & Hl3) Hq3].
    eapply wp_mono; [apply Hfin; try done; by etrans|]. intros r s' (-> & Htb & Hpid & Hwf' & Hts' & Hot & Hcpu & Hsame).
    split; [done|]. split; [done|]. split; [done|]. split; [done|]. split; [|done]. split; [done|]. split; [done|]. split; [done|].
    split; [by rewrite Hpid|]. intros j Hj. unfold proc at 1. rewrite Htb. cbn [s2 with_threads ps_threads] in Hproc.
    rewrite <- Ht1, <- Ht2. by apply Hproc.
  - intros [[-> Hlow] Hq3]. eapply wp_mono; [apply Hfin; try done|]. intros r s' (-> & Htb & Hpid & Hwf' & Hts' & Hot & Hcpu & Hsame).
    split; [done|]. split; [done|]. split; [done|]. split; [done|]. split; [|done]. by split.
Qed.
End claim.

(** ** The list of children *)

Fixpoint child_chain s (h : Z) (l : list Z) : Prop :=
  match l with
  | [] => h = PROCESS_NO_PARENT_PID
  | x :: l => h = x /\ is_pid x /\ child_chain s (next (proc s x)) l
  end.

Lemma child_chain_pids s h l : child_chain s h l -> Forall is_pid l.
Proof. revert h. induction l as [|x l IH]; intros h; [done|]. intros (_ & Hx & Hl). constructor; [done|by eapply IH]. Qed.

Lemma child_chain_unique s h l k : child_chain s h l -> child_chain s h k -> l = k.
Proof.
  revert h k. induction l as [|x l IH]; intros h [|y k]; cbn; [done|..].
  - intros -> (<- & Hy & _). unfold is_pid, PROCESS_NO_PARENT_PID in Hy. lia.
  - intros (<- & Hx & _) Hh. unfold is_pid, PROCESS_NO_PARENT_PID in *. lia.
  - intros (<- & _ & Hl) (-> & _ & Hk). f_equal. by eapply IH.
Qed.

Lemma child_chain_drop s h l i x : child_chain s h l -> l !! i = Some x -> child_chain s x (drop i l).
Proof.
  revert h l. induction i as [|i IH]; intros h [|y l]; try done; cbn.
  - intros (-> & Hy & Hl) [= <-]. by cbn.
  - intros (_ & _ & Hl). by eapply IH.
Qed.

(** A list that ends visits no entry twice, so it has at most 32 of them. *)
Lemma child_chain_short s h l : child_chain s h l -> NoDup l /\ (length l <= 32)%nat.
Proof.
  intros Hl. assert (Hnd : NoDup l).
  { apply NoDup_alt. intros i j x Hi Hj. pose proof (child_chain_drop _ _ _ _ _ Hl Hi) as H1. pose proof (child_chain_drop _ _ _ _ _ Hl Hj) as H2.
    pose proof (f_equal length (child_chain_unique _ _ _ _ H1 H2)) as Heq. rewrite !length_drop in Heq.
    apply lookup_lt_Some in Hi, Hj. lia. }
  split; [done|]. transitivity (length (seqZ 0 32)); [|by rewrite length_seqZ].
  apply submseteq_length, NoDup_submseteq; [done|]. intros x Hx. apply child_chain_pids in Hl. rewrite Forall_forall in Hl. specialize (Hl x Hx).
  apply elem_of_seqZ. unfold is_pid, CONFIG_MAX_PROCESSES in Hl. lia.
Qed.

(** The entries of [l] have lost their parent. *)
Definition orphaned s s' (l : list Z) : Prop :=
  table_wf s' /\ only_table s s' /\ ps_threads s' = ps_threads s /\
  forall j, is_pid j -> proc s' j = if decide (j ∈ l) then set_parent_pid PROCESS_NO_PARENT_PID (proc s j) else proc s j.

Lemma orphan_step s c : table_wf s -> is_pid c ->
  orphan_child c s = Ret (inl (next (proc s c)), set_proc c (set_parent_pid PROCESS_NO_PARENT_PID (proc s c)) s).
Proof.
  intros Hwf Hc. assert (Hw : wp (orphan_child c) (fun r s' => r = inl (next (proc s c)) /\
    s' = set_proc c (set_parent_pid PROCESS_NO_PARENT_PID (proc s c)) s) s).
  { unfold orphan_child. rewrite (proj2 (Z.eqb_neq _ _)) by (unfold is_pid, PROCESS_NO_PARENT_PID in *; lia).
    apply wp_bind, wp_upd_process; [apply Hwf|done|]. apply wp_bind, wp_get_process; [by apply set_proc_full, Hwf|done|].
    apply wp_ret. rewrite proc_set by (done || apply Hwf). by rewrite Z.eqb_refl. }
  apply wp_run in Hw as (r & s' & -> & -> & ->). done.
Qed.

Lemma set_parent_wf s c : table_wf s -> is_pid c -> table_wf (set_proc c (set_parent_pid PROCESS_NO_PARENT_PID (proc s c)) s).
Proof. intros Hwf Hc. apply set_proc_wf; [done|done|]. apply Hwf, Hc. Qed.

Lemma orphan_loop_run s h l fuel :
  table_wf s -> child_chain s h l -> (length l < fuel)%nat -> wp (loop fuel orphan_child h) (fun _ s' => orphaned s s' l) s.
Proof.
  revert s h fuel. induction l as [|x l IH]; intros s h fuel Hwf Hl Hfuel.
  - destruct fuel as [|fuel]; [cbn in Hfuel; lia|]. cbn in Hl. subst h. cbn [loop]. apply wp_bind.
    unfold orphan_child. rewrite Z.eqb_refl. apply wp_ret, wp_ret. split; [done|]. split; [by unfold only_table|].
    split; [done|]. intros j _. by rewrite decide_False by apply not_elem_of_nil.
  - destruct Hl as (-> & Hx & Hl). destruct fuel as [|fuel]; [cbn in Hfuel; lia|]. cbn [loop]. apply wp_bind. eapply wp_eq; [by apply orphan_step|].
    set (s1 := set_proc _ _ s). pose proof (set_parent_wf s x Hwf Hx) as Hwf1. fold s1 in Hwf1.
    assert (Hp1 : forall j, is_pid j -> proc s1 j = if j =? x then set_parent_pid PROCESS_NO_PARENT_PID (proc s x) else proc s j).
    { intros j Hj. by apply proc_set; [apply Hwf|..]. }
    assert (Hl1 : child_chain s1 (next (proc s x)) l).
    { clear - Hl Hp1. revert Hl. generalize (next (proc s x)). induction l as [|y l IH]; intros h; [done|]. cbn. intros (-> & Hy & Hl). split; [done|]. split; [done|].
      rewrite Hp1 by done. destruct (Z.eqb_spec y x) as [-> |]; by apply IH. }
    eapply wp_mono; [apply IH; [done|done|cbn in Hfuel; lia]|]. intros _ s2 (Hwf2 & Hot2 & Hth2 & Hp2).
    split; [done|]. split; [exact Hot2|]. split; [by rewrite Hth2|]. intros j Hj. rewrite Hp2, Hp1 by done.
    destruct (Z.eqb_spec j x) as [-> |Hne].
    + rewrite (decide_True (P := x ∈ x :: l)) by by left. by case_decide.
    + rewrite (decide_ext (j ∈ x :: l) (j ∈ l)); [done|]. rewrite elem_of_cons. tauto.
Qed.

(** An entry that is its own next sibling. *)
Lemma orphan_loop_hangs s c fuel :
  table_wf s -> is_pid c -> next (proc s c) = c -> fails Timeout (loop fuel orphan_child c) s.
Proof.
  intros Hwf Hc Hself. apply (loop_never_ends orphan_child (fun a s => a = c /\ table_wf s /\ next (proc s c) = c)); [|done].
  clear s Hwf Hself. intros a s (-> & Hwf & Hself). eexists _, _. split; [by apply orphan_step|]. split; [done|].
  split; [by apply set_parent_wf|]. rewrite proc_set by (done || apply Hwf). by rewrite Z.eqb_refl.
Qed.

(** ** The open files of a process *)

(** The handles above 0 are open files, each in one place only. *)
Definition handles_open (f : F) (hs : list Z) : Prop :=
  (forall h, h ∈ hs -> 0 < h -> of_open f h) /\ NoDup (filter (fun h => 0 < h) hs).
Definition closed (f f' : F) (hs : list Z) : Prop :=
  of_ok f' /\ forall k, of_open f' k <-> of_open f k /\ ~ (k ∈ hs /\ 0 < k).

Lemma close_filehandles_run n i s pt :
  table_wf s -> is_pid pt -> of_ok (ps_files s) -> 0 <= i -> i + Z.of_nat n = MAX_OPEN_FILES_PER_PROCESS ->
  handles_open (ps_files s) (drop (Z.to_nat i) (filehandle (proc s pt))) ->
  wp (close_filehandles n i pt) (fun _ s' =>
    table_wf s' /\ process_table_lock s' = process_table_lock s /\ ps_threads s' = ps_threads s /\ ps_space s' = ps_space s /\
    (forall j, is_pid j -> proc s' j =
       if j =? pt then set_filehandle (take (Z.to_nat i) (filehandle (proc s pt)) ++ replicate n (-1)) (proc s pt) else proc s j) /\
    closed (ps_files s) (ps_files s') (drop (Z.to_nat i) (filehandle (proc s pt)))) s.
Proof.
  revert i s. induction n as [|n IH]; intros i s Hwf Hpt Hof Hi Hn Hho; cbn [close_filehandles].
  { pose proof (proj2 Hwf pt Hpt) as [[_ Hlen] _]. rewrite take_ge, drop_ge by lia. apply wp_ret. split; [done|]. split; [done|]. split; [done|]. split; [done|].
    split; [|split; [done|]].
    - intros j Hj. destruct (Z.eqb_spec j pt) as [-> |]; [|done]. cbn. rewrite app_nil_r. by destruct (proc s pt).
    - intros k. split; [|by intros [? _]]. intros Hk. split; [done|]. by intros [Hin%elem_of_nil _]. }
  pose proof (proj2 Hwf pt Hpt) as [[Hnm Hlen] Hcnd].
  apply wp_bind, wp_get_process; [apply Hwf|done|]. set (e := proc s pt) in *.
  destruct (rget_in (filehandle e) i) as (h & Hr & Hh); [unfold MAX_OPEN_FILES_PER_PROCESS in *; lia|].
  apply wp_bind. eapply wp_lift; [exact Hr|]. rewrite (drop_S _ _ _ Hh) in *.
  apply wp_bind. 
  assert (Hrest : forall f1, of_ok f1 -> (forall k, of_open f1 k <-> of_open (ps_files s) k /\ ~ (k = h /\ 0 < k)) ->
    wp (e ← get_process pt; l ← lift (rset (filehandle e) i (-1)); _ ← put_process pt (set_filehandle l e); close_filehandles n (i + 1) pt)
      (fun _ s' => table_wf s' /\ process_table_lock s' = process_table_lock s /\ ps_threads s' = ps_threads s /\ ps_space s' = ps_space s /\
        (forall j, is_pid j -> proc s' j = if j =? pt then set_filehandle (take (Z.to_nat i) (filehandle e) ++ replicate (S n) (-1)) e else proc s j) /\
        closed (ps_files s) (ps_files s') (h :: drop (S (Z.to_nat i)) (filehandle e)))
      (mk_pstate (process_table s) (process_table_lock s) (ps_threads s) (ps_space s) f1)).
  { intros f1 Hof1 Hopen1. set (s1 := mk_pstate _ _ _ _ f1).
    assert (Hp1 : forall j, proc s1 j = proc s j) by done.
    apply wp_bind, wp_get_process; [apply Hwf|done|]. rewrite Hp1. fold e.
    apply wp_bind. eapply wp_lift; [apply rset_in; unfold MAX_OPEN_FILES_PER_PROCESS in *; lia|].
    apply wp_bind, wp_put_process; [apply Hwf|done|]. set (l1 := <[Z.to_nat i:=-1]> (filehandle e)). set (s2 := set_proc pt _ s1).
    assert (Hwf2 : table_wf s2) by (apply set_proc_wf; [exact Hwf|done|]; split; [split; [done|]; cbn; unfold l1; by rewrite length_insert|done]).
    assert (Hpt2 : proc s2 pt = set_filehandle l1 e).
    { unfold s2. rewrite proc_set by (done || apply Hwf). by rewrite Z.eqb_refl. }
    assert (Hfh2 : filehandle (proc s2 pt) = l1) by (by rewrite Hpt2).
    assert (Hdrop : drop (Z.to_nat (i + 1)) l1 = drop (S (Z.to_nat i)) (filehandle e)).
    { replace (Z.to_nat (i + 1)) with (S (Z.to_nat i)) by lia. unfold l1. apply drop_insert_lt. lia. }
    destruct Hho as [Hall Hnd]. eapply wp_mono; [apply (IH (i + 1) s2 Hwf2 Hpt Hof1); [lia|lia|]|].
    { rewrite Hfh2, Hdrop. split.
      - intros k Hk Hpos. apply Hopen1. split; [apply Hall; [by right|done]|]. intros [-> _].
        rewrite filter_cons_True in Hnd by done. apply NoDup_cons in Hnd as [Hnin _]. apply Hnin. by apply list_elem_of_filter.
      - rewrite filter_cons in Hnd. case_decide; [by apply NoDup_cons in Hnd as [_ ?]|done]. }
    rewrite Hfh2, Hdrop, Hpt2. intros _ s3 (Hwf3 & Hl3 & Hth3 & Hsp3 & Hp3 & Hok3 & Hopen3).
    split; [done|]. split; [by rewrite Hl3|]. split; [by rewrite Hth3|]. split; [by rewrite Hsp3|]. split; [|split; [done|]].
    - intros j Hj. rewrite Hp3 by done. destruct (j =? pt) eqn:E.
      + cbn [set_filehandle tid name next die_cond die_lock retval parent_pid last_child_pid heap_vaddr].
        replace (Z.to_nat (i + 1)) with (S (Z.to_nat i)) by lia. unfold l1. rewrite (take_S_r _ _ (-1)) by (apply list_lookup_insert_eq; lia).
        rewrite take_insert_ge by lia. by rewrite <- app_assoc.
      + unfold s2. rewrite proc_set by (done || apply Hwf). by rewrite E.
    - intros k. cbn [s2 set_proc with_procs s1 ps_files] in Hopen3. rewrite Hopen3, Hopen1, elem_of_cons. tauto. }
  destruct (Z.gtb_spec h 0) as [Hpos|Hneg].
  - apply wp_bind, wp_on_files. eapply wp_mono; [apply (vfs_close_spec _ h); [done|by apply (proj1 Hho h); [left|]]|].
    intros a f1 (Hof1 & Hno & Hoth). apply wp_ret. apply Hrest; [done|]. intros k. destruct (decide (k = h)) as [-> |Hne].
    + split; [done|]. intros [_ Hk]. by destruct Hk.
    + rewrite Hoth by done. tauto.
  - apply wp_ret. replace s with (mk_pstate (process_table s) (process_table_lock s) (ps_threads s) (ps_space s) (ps_files s)) at 1 by (by destruct s).
    apply Hrest; [done|]. intros k. split; [|by intros [? _]]. intros Hk. split; [done|]. lia.
Qed.

(** ** The end of a process *)

(** The entry of a process that has ended, and those of its children. *)
Definition ended_entry s (me ret : Z) (l : list Z) (j : Z) : process_table_t :=
  let e := if j =? me then set_filehandle (replicate (Z.to_nat MAX_OPEN_FILES_PER_PROCESS) (-1)) (proc s j) else proc s j in
  let e := if decide (j ∈ l) then set_parent_pid PROCESS_NO_PARENT_PID e else e in
  if j =? me then set_finished ret e else e.

(** What the end of the current process needs: its locks are free, its open
    files are open, its address space can be released, its heap is mapped. *)
Record can_exit s (me : Z) (t : pagetable) (f : Z) : Prop := {
  ce_wf : table_wf s;
  ce_ts : ts_ok (ps_threads s);
  ce_me : ts_pid (ps_threads s) = me /\ is_pid me;
  ce_die : ts_lock (ps_threads s) (die_lock (proc s me)) = Free;
  ce_table : ts_lock (ps_threads s) (process_table_lock s) = Free;
  ce_locks : die_lock (proc s me) <> process_table_lock s;
  ce_files : of_ok (ps_files s) /\ handles_open (ps_files s) (filehandle (proc s me));
  ce_space : space_ok (with_cpu (cpu_of s) (ps_space s)) (ts_table (ps_threads s)) t;
  ce_heap : is_u32 (heap_vaddr (proc s me)) /\ exists d, translate t (heap_vaddr (proc s me) / 4096) = Some (f, d)
}.

(** The state between [exit_begin] and [exit_end]. *)
Record exiting s (me : Z) (t : pagetable) (f : Z) (s1 : state) (t1 : pagetable) : Prop := {
  ex_wf : table_wf s1;
  ex_ts : ts_ok (ps_threads s1);
  ex_lock : process_table_lock s1 = process_table_lock s;
  ex_files : closed (ps_files s) (ps_files s1) (filehandle (proc s me));
  ex_cpu : cpu_of s1 = mk_cpu (Z.land 0xffff00fe (status (cpu_of s))) (held (cpu_of s));
  ex_mine : ts_lock (ps_threads s1) (die_lock (proc s me)) = Mine /\ ts_lock (ps_threads s1) (process_table_lock s) = Mine;
  ex_space : space_ok (with_cpu (cpu_of s1) (ps_space s1)) (ts_table (ps_threads s)) t1;
  ex_frames : frames t ≡ₚ f :: frames t1;
  ex_asid : pt_ASID t1 = pt_ASID t;
  ex_freed : freed (pm_pool (vm_pmem (sp_vm (ps_space s)))) (pm_pool (vm_pmem (sp_vm (ps_space s1)))) [f];
  ex_tables : vm_tables (sp_vm (ps_space s1)) = <[ts_table (ps_threads s) := t1]> (vm_tables (sp_vm (ps_space s)))
}.

Lemma exit_begin_run s me t f :
  can_exit s me t f ->
  wp (exit_begin me) (fun r s1 => exists t1, exiting s me t f s1 t1 /\
    (forall j, is_pid j -> proc s1 j = if j =? me then set_filehandle (replicate (Z.to_nat MAX_OPEN_FILES_PER_PROCESS) (-1)) (proc s j) else proc s j) /\
    r = (status (cpu_of s), process_table_lock s, ts_table (ps_threads s), proc s1 me)) s.
Proof.
  intros [Hwf Hts [Hpid Hme] Hdie Htl Hne [Hof Hho] Hsp (Hheap & d & Htr)]. unfold exit_begin.
  apply wp_bind. eapply wp_mono; [apply (close_filehandles_run _ 0 s me); done|].
  change (Z.to_nat 0) with 0%nat. rewrite drop_0. intros _ s1 (Hwf1 & Hl1 & Hth1 & Hsp1 & Hp1 & Hcl1).
  rewrite take_0 in Hp1. cbn [app] in Hp1.
  assert (Hme1 : proc s1 me = set_filehandle (replicate (Z.to_nat MAX_OPEN_FILES_PER_PROCESS) (-1)) (proc s me)).
  { rewrite Hp1 by done. by rewrite Z.eqb_refl. }
  assert (Hc1 : cpu_of s1 = cpu_of s) by (unfold cpu_of; cbn; by rewrite Hth1).
  rewrite <- Hth1 in *. apply wp_bind, wp_disable. destruct (ts_off s1 Hts) as (Hok2 & Ht2 & Hp2 & Hg2 & Hlk2).
  set (s2 := with_cpu _ s1) in *. rewrite Hc1 in *.
  assert (Hc2 : cpu_of s2 = mk_cpu (Z.land 0xffff00fe (status (cpu_of s))) (held (cpu_of s))).
  { unfold s2. rewrite cpu_of_with. by rewrite Hc1. }
  apply wp_bind, wp_get_process; [apply Hwf1|done|]. change (proc s2 me) with (proc s1 me). rewrite Hme1. cbn [set_filehandle die_lock].
  apply wp_bind, wp_on_threads. eapply wp_mono; [apply lock_acquire_spec; [done|by rewrite Hlk2]|].
  intros _ x3 (Hok3 & Hc3 & (Ht3 & Hp3 & Hg3) & Hm3 & Hlk3 & _). set (s3 := with_threads x3 s2).
  apply wp_bind, wp_gets. change (process_table_lock s3) with (process_table_lock s1). rewrite Hl1.
  apply wp_bind, wp_on_threads. eapply wp_mono; [apply lock_acquire_spec; [done|rewrite Hlk3 by done; by rewrite Hlk2]|].
  intros _ x4 (Hok4 & Hc4 & (Ht4 & Hp4 & Hg4) & Hm4 & Hlk4 & _). set (s4 := with_threads x4 s3).
  apply wp_bind, wp_get_table; [done|]. change (ps_threads s4) with x4. rewrite Hg4. change (ps_threads s3) with x3. rewrite Hg3, Hg2.
  apply wp_bind, wp_get_process; [apply Hwf1|done|]. change (proc s4 me) with (proc s1 me).
  assert (Hc5 : cpu_of s4 = mk_cpu (Z.land 0xffff00fe (status (cpu_of s))) (held (cpu_of s))).
  { transitivity (cpu_of s3); [exact Hc4|]. transitivity (cpu_of s2); [exact Hc3|done]. }
  assert (Hsp5 : space_ok (with_cpu (cpu_of s4) (ps_space s4)) (ts_table (ps_threads s1)) t).
  { change (ps_space s4) with (ps_space s1). rewrite Hsp1. rewrite <- (with_cpu_with (cpu_of s4) (cpu_of s)).
    apply space_ok_cpu; [done|by apply (ps_ready s4)|]. rewrite cpu_of_with, Hc5. done. }
  apply wp_bind, wp_on_space. eapply wp_mono; [apply (vm_unmap_space _ _ t _ f d Hsp5); by rewrite Hme1|].
  intros _ x5 (t1 & Hsp6 & Hperm & Hfr & Htab & Hasid & Hc6). rewrite cpu_of_with in Hc6. split; [done|]. apply wp_ret.
  exists t1. change (vm_tables (sp_vm (with_cpu (cpu_of s4) (ps_space s4)))) with (vm_tables (sp_vm (ps_space s1))) in Htab.
  change (pm_pool (vm_pmem (sp_vm (with_cpu (cpu_of s4) (ps_space s4))))) with (pm_pool (vm_pmem (sp_vm (ps_space s1)))) in Hfr.
  rewrite Hsp1 in *. split; [split; try done|split; [|done]].
  - rewrite Hlk4; [|by apply not_eq_sym]. split; [exact Hm3|exact Hm4].
  - cbn [ps_space]. unfold cpu_of at 1. cbn [HasCpu_pstate ps_threads]. 
    replace (cpu_of (ps_threads s4)) with (cpu_of x5) by exact Hc6. rewrite with_cpu_of. by rewrite <- Hth1.
  - rewrite <- Hth1. exact Htab.
  - intros j Hj. transitivity (proc s1 j); [done|]. rewrite Hp1 by done. by destruct (Z.eqb_spec j me) as [-> |].
Qed.

Lemma exiting_orphaned s me t f s1 t1 s2 l : exiting s me t f s1 t1 -> orphaned s1 s2 l -> exiting s me t f s2 t1.
Proof.
  intros [] (Hwf & (Hl & Hs & Hf) & Hth & _).
  assert (Hc : cpu_of s2 = cpu_of s1) by (unfold cpu_of; cbn; by rewrite Hth).
  split; rewrite ?Hl, ?Hs, ?Hf, ?Hth, ?Hc; done.
Qed.

(** The address space [t] at [addr] is gone: its frames, and the page the
    table was in, are back in the pool, and the translation buffer translates
    nothing of it. *)
Definition space_gone (x x' : space) (addr : Z) (t : pagetable) : Prop :=
  (exists i, table_page (sp_vm x) addr i /\ freed (pm_pool (vm_pmem (sp_vm x))) (pm_pool (vm_pmem (sp_vm x'))) (frames t ++ [i])) /\
  vm_tables (sp_vm x') = delete addr (vm_tables (sp_vm x)) /\
  sp_asid x' = pt_ASID t mod 2 ^ 8 /\ forall p, tlb_translate (tlb_of x') p = None.

Lemma exit_end_run s me t f s2 t1 ret :
  exiting s me t f s2 t1 -> is_pid me -> pool_ok (pm_pool (vm_pmem (sp_vm (ps_space s)))) ->
  die_lock (proc s me) <> process_table_lock s -> is_u32 (status (cpu_of s)) ->
  forall e, die_lock e = die_lock (proc s me) -> ts_cond (die_cond e) ->
  wp (exit_end me ret (status (cpu_of s)) (process_table_lock s) (ts_table (ps_threads s)) e) (fun _ s3 =>
    table_wf s3 /\ ts_ok (ps_threads s3) /\ process_table_lock s3 = process_table_lock s /\ ps_files s3 = ps_files s2 /\
    cpu_of s3 = cpu_of s /\ ts_pid (ps_threads s3) = -1 /\ ts_table (ps_threads s3) = 0 /\
    (forall j, is_pid j -> proc s3 j = if j =? me then set_finished ret (proc s2 j) else proc s2 j) /\
    space_gone (ps_space s) (ps_space s3) (ts_table (ps_threads s)) t) s2.
Proof.
  intros [Hwf Hts Hlk Hfl Hcpu [Hm1 Hm2] Hsp Hperm Hasid Hfr Htab] Hme Hpool Hne Hst e He Hcnd. unfold exit_end. rewrite He.
  apply wp_bind, wp_upd_process; [apply Hwf|done|]. set (s3 := set_proc me _ s2).
  assert (Hwf3 : table_wf s3) by (apply set_proc_wf; [done|done|exact (proj2 Hwf me Hme)]).
  apply wp_bind, wp_on_threads. eapply wp_mono; [by apply (condition_broadcast_spec (ps_threads s2))|].
  intros _ x4 (Hok4 & Hc4 & (Ht4 & Hp4 & Hg4) & Hlk4). set (s4 := with_threads x4 s3).
  assert (Hcpu4 : cpu_of s4 = cpu_of s2) by exact Hc4.
  apply wp_bind, wp_on_space. rewrite Hcpu4.
  eapply wp_mono; [apply (release_space_run _ _ _ Hsp)|].
  intros _ x5 (i & Hi & Hf5 & _ & Htab5 & Hasid5 & Htr5 & Hc5). rewrite cpu_of_with in Hc5. split; [done|]. set (s5 := mk_pstate _ _ _ x5 _).
  apply wp_bind, wp_on_threads. eapply wp_mono; [by apply (set_table_spec x4)|].
  intros _ x6 (Hok6 & Hc6 & Ht6 & Hp6 & Hg6 & Hlk6).
  apply wp_bind, wp_on_threads. eapply wp_mono; [by apply (set_pid_spec x6)|].
  intros _ x7 (Hok7 & Hc7 & Ht7 & Hp7 & Hg7 & Hlk7). cbn [with_threads ps_threads] in *.
  apply wp_bind, wp_on_threads. eapply wp_mono; [apply (lock_release_spec x7); [done|by rewrite Hlk7, Hlk6, Hlk4]|].
  intros _ x8 (Hok8 & Hc8 & (Ht8 & Hp8 & Hg8) & _ & Hlk8).
  apply wp_bind, wp_on_threads. eapply wp_mono; [apply (lock_release_spec x8); [done|rewrite Hlk8 by done; by rewrite Hlk7, Hlk6, Hlk4]|].
  intros _ x9 (Hok9 & Hc9 & (Ht9 & Hp9 & Hg9) & _ & _). set (s9 := with_threads x9 _).
  assert (Hcpu9 : cpu_of s9 = cpu_of s2) by (unfold cpu_of; cbn; congruence).
  apply wp_bind, wp_restore; [done|by rewrite Hcpu9, Hcpu|]. intros a. apply wp_ret.
  assert (Hheld : mk_cpu (status (cpu_of s)) (held (cpu_of s9)) = cpu_of s) by (rewrite Hcpu9, Hcpu; by destruct (cpu_of s)).
  rewrite Hheld. destruct (ts_cpu (cpu_of s) x9 Hok9 Hst) as (Hok & Ht & Hp & Hg & _).
  { change (cpu_of x9) with (cpu_of s9). by rewrite Hcpu9, Hcpu. }
  split; [done|]. split; [done|]. split; [exact Hlk|]. split; [done|]. split; [apply cpu_of_with|].
  split; [exact (eq_trans Hp (eq_trans Hp9 (eq_trans Hp8 Hp7)))|].
  split; [exact (eq_trans Hg (eq_trans Hg9 (eq_trans Hg8 (eq_trans Hg7 Hg6))))|]. split.
  { intros j Hj. transitivity (proc s3 j); [done|]. unfold s3. rewrite proc_set by (done || apply Hwf). by destruct (Z.eqb_spec j me) as [-> |]. }
  cbn [with_cpu HasCpu_pstate ps_space s9 with_threads s5].
  change (vm_tables (sp_vm (with_cpu (cpu_of s2) (ps_space s4)))) with (vm_tables (sp_vm (ps_space s2))) in Htab5.
  change (pm_pool (vm_pmem (sp_vm (with_cpu (cpu_of s2) (ps_space s4))))) with (pm_pool (vm_pmem (sp_vm (ps_space s2)))) in Hf5.
  split; [exists i; split|split; [|split; [by rewrite Hasid5, Hasid|done]]].
  - destruct Hi as (Ha & Hi1 & Hi2 & Hi3). cbn in Hi2, Hi3. destruct Hfr as (_ & Hn & Hs & _ & Hb). rewrite Hn, Hs in Hi2.
    pose proof (po_static _ Hpool). split; [done|]. split; [done|]. split; [done|]. rewrite Hb in Hi3 by lia. by case_decide.
  - rewrite Hperm. exact (freed_app _ _ _ [f] (frames t1 ++ [i]) Hfr Hf5).
  - transitivity (delete (ts_table (ps_threads s)) (vm_tables (sp_vm (ps_space s2)))); [exact Htab5|]. rewrite Htab. by rewrite delete_insert_eq.
Qed.

Lemma wp_thread_finish s (Q : unit -> state -> Prop) :
  ts_ok (ps_threads s) -> ts_table (ps_threads s) = 0 -> (forall x, Q tt (with_threads x s)) -> wp (on_threads thread_finish) Q s.
Proof. intros Hok Htb HQ. apply wp_on_threads. eapply wp_mono; [by apply thread_finish_spec|]. intros [] x _. apply HQ. Qed.

Lemma exit_run s me t f l fuel ret :
  can_exit s me t f -> child_chain s (last_child_pid (proc s me)) l -> (32 < fuel)%nat -> is_i32 ret -> -2147483648 < ret ->
  wp (syscall_handle_exit fuel ret) (fun _ s' =>
    table_wf s' /\ closed (ps_files s) (ps_files s') (filehandle (proc s me)) /\
    (forall j, is_pid j -> proc s' j = ended_entry s me (Z.abs ret) l j) /\
    space_gone (ps_space s) (ps_space s') (ts_table (ps_threads s)) t) s.
Proof.
  intros Hce Hl Hfuel Hret Hmin. pose proof Hce as [Hwf Hts [Hpid Hme] _ _ Hne _ Hsp _]. unfold syscall_handle_exit.
  apply wp_bind. eapply (wp_lift _ _ _ (Z.abs ret)).
  { destruct (Z.ltb_spec ret 0); [|f_equal; lia]. unfold int. rewrite decide_True by (unfold is_i32 in *; lia). f_equal. lia. }
  apply wp_bind, wp_current_pid; [done|]. apply wp_bind, wp_current_entry; [done|]. rewrite Hpid, decide_True by done.
  apply wp_bind, wp_bind. eapply wp_mono; [by apply (exit_begin_run s me t f)|].
  intros r s1 (t1 & Hex & Hp1 & ->).
  assert (Hme1 : proc s1 me = set_filehandle (replicate (Z.to_nat MAX_OPEN_FILES_PER_PROCESS) (-1)) (proc s me)).
  { rewrite Hp1 by done. by rewrite Z.eqb_refl. }
  assert (Hl1 : child_chain s1 (last_child_pid (proc s1 me)) l).
  { rewrite Hme1. cbn [set_filehandle last_child_pid]. clear - Hl Hp1. revert Hl. generalize (last_child_pid (proc s me)).
    induction l as [|y l IH]; intros h; [done|]. cbn. intros (-> & Hy & Hl). split; [done|]. split; [done|]. rewrite Hp1 by done.
    destruct (y =? me); by apply IH. }
  destruct (child_chain_short _ _ _ Hl) as [_ Hshort].
  apply wp_bind. eapply wp_mono; [apply (orphan_loop_run s1 _ l); [apply Hex|done|lia]|]. intros ? s2 Hor. cbv beta in Hor.
  pose proof (exiting_orphaned _ _ _ _ _ _ _ _ Hex Hor) as Hex2. pose proof Hor as (_ & (_ & _ & Hf2) & _ & Hp2).
  eapply wp_mono; [apply (exit_end_run s me t f s2 t1 (Z.abs ret) Hex2); try done; [apply Hsp|by apply ps_ready|by rewrite Hme1|apply Hex, Hme]|].
  intros _ s3 (Hwf3 & Hok3 & Hlk3 & Hf3 & _ & _ & Htb3 & Hp3 & Hgone). apply wp_thread_finish; [done|done|]. intros x.
  split; [done|]. split; [cbn; rewrite Hf3; apply Hex2|]. split; [|done].
  intros j Hj. transitivity (proc s3 j); [done|]. rewrite Hp3 by done. unfold ended_entry. by rewrite Hp2, Hp1 by done.
Qed.

(** ** Waiting for a child *)

Lemma join_wait_run s c :
  table_wf s -> ts_ok (ps_threads s) -> is_pid c -> ts_lock (ps_threads s) (die_lock (proc s c)) = Mine ->
  (tid (proc s c) <> PROCESS_NO_OWNER_TID -> ts_can_wait (ps_threads s)) ->
  wp (join_wait c) (fun r s' => only_table s s' /\ ts_lock (ps_threads s') (die_lock (proc s c)) <> Mine /\
    if decide (tid (proc s c) = PROCESS_NO_OWNER_TID) then
      r = inr (retval (proc s c)) /\ table_wf s' /\ ts_ok (ps_threads s') /\
      forall j, is_pid j -> proc s' j = if j =? c then set_parent_pid PROCESS_NO_PARENT_PID (proc s c) else proc s j
    else (exists st, r = inl st) /\ process_table s' = process_table s) s.
Proof.
  intros Hwf Hts Hc Hmine Hcw. unfold join_wait. apply wp_bind, wp_get_process; [apply Hwf|done|].
  destruct (Z.eqb_spec (tid (proc s c)) PROCESS_NO_OWNER_TID) as [Ht|Ht]; cbn [negb].
  - apply wp_bind, wp_upd_process; [apply Hwf|done|].
    apply wp_bind, wp_on_threads. eapply wp_mono; [by apply lock_release_spec|].
    intros _ x (Hok & _ & _ & Hno & _). apply wp_ret. split; [done|]. split; [done|]. rewrite decide_True by done. split; [done|].
    split; [by apply (set_parent_wf s c)|]. split; [done|]. intros j Hj. by apply proc_set; [apply Hwf|..].
  - apply wp_bind, wp_on_threads. eapply wp_mono; [apply condition_wait_spec; [done|apply Hwf, Hc|by apply Hcw|done]|].
    intros st x Hno. apply wp_ret. split; [done|]. split; [done|]. rewrite decide_False by done. split; [by exists st|done].
Qed.

(** The caller is a process and [pid] one of its children. *)
Definition may_join s (pid : Z) : Prop :=
  is_pid (ts_pid (ps_threads s)) /\ 0 < pid <= CONFIG_MAX_PROCESSES /\ parent_pid (proc s (pid - 1)) = ts_pid (ps_threads s).
#[export] Instance may_join_dec s pid : Decision (may_join s pid).
Proof. unfold may_join, is_pid. apply _. Defined.

Lemma join_run s pid :
  table_wf s -> ts_ok (ps_threads s) ->
  (may_join s pid -> ts_lock (ps_threads s) (die_lock (proc s (pid - 1))) = Free /\
     (tid (proc s (pid - 1)) <> PROCESS_NO_OWNER_TID -> ts_can_wait (ps_threads s))) ->
  wp (syscall_handle_join pid) (fun r s' =>
    if decide (may_join s pid) then only_table s s' /\ ts_lock (ps_threads s') (die_lock (proc s (pid - 1))) <> Mine /\
      if decide (tid (proc s (pid - 1)) = PROCESS_NO_OWNER_TID) then
        r = inr (retval (proc s (pid - 1))) /\ table_wf s' /\ ts_ok (ps_threads s') /\
        forall j, is_pid j -> proc s' j = if j =? pid - 1 then set_parent_pid PROCESS_NO_PARENT_PID (proc s j) else proc s j
      else (exists st, r = inl st) /\ process_table s' = process_table s
    else r = inr RETVAL_SYSCALL_USERLAND_NOK /\ s' = s) s.
Proof.
  intros Hwf Hts Hfree. unfold syscall_handle_join. apply wp_bind, wp_current_entry; [done|].
  case_decide as Hme; [|apply wp_ret; rewrite decide_False; [done|by intros [? _]]].
  destruct ((pid <=? 0) || (pid >? CONFIG_MAX_PROCESSES)) eqn:Er.
  { apply wp_ret. rewrite decide_False; [done|]. intros (_ & Hr & _). apply orb_prop in Er as [Er|Er]; [zbool; lia|].
    rewrite Z.gtb_ltb in Er. zbool. lia. }
  apply orb_false_iff in Er as [Er1 Er2]. rewrite Z.gtb_ltb in Er2. zbool.
  assert (Hc : is_pid (pid - 1)) by (unfold is_pid; lia).
  apply wp_bind, wp_get_process; [apply Hwf|done|]. apply wp_bind, wp_current_pid; [done|].
  destruct (Z.eqb_spec (parent_pid (proc s (pid - 1))) (ts_pid (ps_threads s))) as [Hp|Hp]; cbn [negb].
  2: { apply wp_ret. rewrite decide_False; [done|]. by intros (_ & _ & ?). }
  assert (Hmay : may_join s pid) by (split; [done|]; split; [lia|done]).
  apply wp_bind, wp_on_threads. eapply wp_mono; [apply lock_acquire_spec; [done|by apply Hfree]|].
  intros _ x (Hok & _ & _ & Hm & _ & Hcw). set (s1 := with_threads x s).
  eapply wp_mono; [apply (join_wait_run s1 (pid - 1)); [done..|intros Hrun; by apply Hcw, Hfree]|].
  intros r s' (Hot & Hno & Hr). rewrite decide_True by done. split; [exact Hot|]. split; [done|]. change (proc s1 (pid - 1)) with (proc s (pid - 1)) in Hr.
  case_decide; [|done]. destruct Hr as (-> & Hwf' & Hts' & Hp'). split; [done|]. split; [done|]. split; [done|].
  intros j Hj. rewrite Hp' by done. by destruct (Z.eqb_spec j (pid - 1)) as [-> |].
Qed.

(** The parent goes on after it was woken. *)
Lemma join_resume_run s pid st :
  table_wf s -> ts_ok (ps_threads s) -> 0 < pid <= CONFIG_MAX_PROCESSES -> is_u32 st ->
  ts_lock (ps_threads s) (die_lock (proc s (pid - 1))) = Free -> tid (proc s (pid - 1)) = PROCESS_NO_OWNER_TID ->
  wp (syscall_handle_join_resume pid st) (fun r s' => only_table s s' /\ table_wf s' /\ r = inr (retval (proc s (pid - 1))) /\
    forall j, is_pid j -> proc s' j = if j =? pid - 1 then set_parent_pid PROCESS_NO_PARENT_PID (proc s j) else proc s j) s.
Proof.
  intros Hwf Hts Hpid Hst Hfree Htid. assert (Hc : is_pid (pid - 1)) by (unfold is_pid; lia).
  unfold syscall_handle_join_resume. apply wp_bind, wp_get_process; [apply Hwf|done|].
  apply wp_bind, wp_on_threads. eapply wp_mono; [by apply condition_wait_resume_spec|].
  intros _ x (Hok & _ & Hm & _). set (s1 := with_threads x s).
  eapply wp_mono; [apply (join_wait_run s1 (pid - 1)); done|]. change (proc s1 (pid - 1)) with (proc s (pid - 1)).
  intros r s' (Hot & _ & Hr). rewrite decide_True in Hr by done. destruct Hr as (-> & Hwf' & _ & Hp'). split; [exact Hot|]. split; [done|].
  split; [done|]. intros j Hj. rewrite Hp' by done. by destruct (Z.eqb_spec j (pid - 1)) as [-> |].
Qed.
End facts.
