(* ===== verification/Handles.v ===== *)
(** * The open files of processes are those of the virtual file system

    vfs.c provides what the end of a process uses of it: closing an open
    handle closes that one and no other. *)
From S2P Require Import Prelude Libc Gbd ThreadSys Sync Tfs Vfs Mount.

Section handles.
Context {F S : Type} `{!Semaphores S, !FileSystemOps F S, !FileSystems F S}.
Context (ids : sem_ids).
Implicit Types s : vfs F S.

(** The handles of the terminal are in use. *)
Definition reserved (l : list openfile_entry_t) : Prop :=
  forall h, 0 <= h <= 2 -> exists e, l !! Z.to_nat h = Some e /\ of_filesystem e = 1.
Definition files_ok s : Prop := reserved (files s) /\ exists w, vfs_at ids w s /\ view_ok ids w /\ under_way w < 2147483647.
Definition file_open s (h : Z) : Prop := exists e, 0 <= h /\ files s !! Z.to_nat h = Some e /\ 1 < of_filesystem e.

Lemma at_files w s : vfs_at ids w s -> files s = opened w /\ vfs_fs s = fss w.
Proof. by intros (y & -> & _). Qed.
Lemma reserved_insert l h e : reserved l -> (forall e', l !! Z.to_nat h = Some e' -> of_filesystem e' <> 1) -> 0 <= h -> reserved (<[Z.to_nat h := e]> l).
Proof.
  intros Hr Hh H0 k Hk. destruct (Hr k Hk) as (x & Hx & Hfs). exists x. split; [|done].
  destruct (decide (k = h)) as [->|Hne]; [by destruct (Hh x Hx)|]. by rewrite list_lookup_insert_ne by lia.
Qed.
(** One row has changed. *)
Lemma open_insert l s s' h e : files s = l -> files s' = <[Z.to_nat h := e]> l -> 0 <= h -> (Z.to_nat h < length l)%nat ->
  (file_open s' h <-> 1 < of_filesystem e) /\ forall k, k <> h -> file_open s' k <-> file_open s k.
Proof.
  intros Hs Hs' Hh Hlen. unfold file_open. rewrite Hs, Hs'. split.
  - rewrite list_lookup_insert_eq by done. split; [by intros (? & _ & [= <-] & ?)|]. intros He. by exists e.
  - intros k Hne. split; intros (x & Hk & Hx & Hlt); exists x; (split; [done|split; [|done]]); by rewrite list_lookup_insert_ne in * by lia.
Qed.

Lemma close_handle s h : files_ok s -> file_open s h ->
  wp (vfs_close h) (fun _ s' => files_ok s' /\ ~ file_open s' h /\ forall k, k <> h -> file_open s' k <-> file_open s k) s.
Proof.
  intros (Hres & w & Hat & Hok & Hmax) (e & Hh & He & Hfs). destruct (at_files w s Hat) as [Hfiles _].
  assert (Hopen : is_open w h e) by (split; [done|]; by rewrite <- Hfiles).
  pose proof (wpv_run ids _ _ w s Hat (close_run ids w h e Hok Hmax Hopen)) as Hrun. eapply wp_mono; [exact Hrun|].
  intros r s' (w' & Hat' & Hok' & f' & -> & _). destruct (at_files _ s' Hat') as [Hfiles' _]. cbn in Hfiles'. rewrite <- Hfiles in Hfiles'.
  assert (Hin : (Z.to_nat h < length (files s))%nat) by (by eapply lookup_lt_Some).
  destruct (open_insert _ s s' h _ eq_refl Hfiles' Hh Hin) as [Hopen' Hother]. split; [|split; [rewrite Hopen'; cbn; lia|done]].
  split; [|by exists (with_opened (<[Z.to_nat h := set_fs 0 e]> (opened w)) (with_fss f' w))].
  rewrite Hfiles'. apply reserved_insert; [done| |done]. intros e' He'. assert (e' = e) as -> by congruence. lia.
Qed.

#[local] Instance vfs_handles : OpenFiles (vfs F S) :=
  {| ThreadSys.vfs_close := vfs_close; of_ok := files_ok; of_open := file_open; vfs_close_spec := close_handle |}.

(** ** The other calls *)
(** What the local arrays of vfs.c hold is not known. *)
Context (volbuf filebuf : list Z) (Hvol : is_buffer 16 volbuf) (Hfile : is_buffer 16 filebuf).

Definition file_at s (h pos : Z) (b : list Z) : Prop :=
  exists e, 0 <= h /\ files s !! Z.to_nat h = Some e /\ 1 < of_filesystem e /\ seek_position e = pos /\
    fs_file (vfs_fs s) (of_filesystem e) (fileid e) b /\ fs_reliable (vfs_fs s) /\ 0 <= pos < 2147483648 /\ zlen b < 2147483648.
(** The row of [h] has got another position. *)
Lemma moved_handle s s' h e pos f w' :
  files_ok s -> files s !! Z.to_nat h = Some e -> 0 <= h -> 1 < of_filesystem e ->
  vfs_at ids w' s' -> view_ok ids w' -> under_way w' < 2147483647 ->
  opened w' = <[Z.to_nat h := set_seek pos e]> (files s) -> fss w' = f ->
  files_ok s' /\ (forall k, file_open s' k <-> file_open s k) /\ files s' !! Z.to_nat h = Some (set_seek pos e) /\ vfs_fs s' = f.
Proof.
  intros (Hres & _) He Hh Hfs Hat' Hok' Hmax' Ho <-. destruct (at_files _ _ Hat') as [Hf' Hfss']. rewrite Ho in Hf'.
  assert (Hin : (Z.to_nat h < length (files s))%nat) by (by eapply lookup_lt_Some).
  destruct (open_insert _ s s' h _ eq_refl Hf' Hh Hin) as [Hopen' Hother]. split; [|split; [|split; [|done]]].
  - split; [|by exists w']. rewrite Hf'. apply reserved_insert; [done| |done]. intros e' He'. assert (e' = e) as -> by congruence. lia.
  - intros k. destruct (decide (k = h)) as [->|]; [|by apply Hother]. rewrite Hopen'. cbn. split; [|done]. intros _. by exists e.
  - rewrite Hf'. by apply list_lookup_insert_eq.
Qed.

Lemma moved_eq (w : view F) h e r f : is_open w h e -> 0 <= r ->
  opened (moved w h e r f) = <[Z.to_nat h := set_seek (seek_position e + r) e]> (opened w) /\ fss (moved w h e r f) = f /\
  under_way (moved w h e r f) = under_way w.
Proof.
  intros (_ & He & _) Hr. unfold moved. destruct (Z.ltb_spec 0 r) as [|Hz]; [done|]. split; [|done]. cbn.
  assert (r = 0) as -> by lia. rewrite Z.add_0_r, list_insert_id; [done|]. rewrite He. by destruct e.
Qed.

Lemma seek_handle s h pos pos' b : files_ok s -> file_at s h pos b -> 0 <= pos' < 2147483648 ->
  wp (vfs_seek h pos') (fun r s' => r = VFS_OK /\ files_ok s' /\ (forall k, file_open s' k <-> file_open s k) /\ file_at s' h pos' b) s.
Proof.
  intros Hf (e & Hh & He & Hfs & Hpos & Hb & Hrel & Hin & Hlen) Hpos'. pose proof Hf as (_ & w & Hat & Hok & Hmax).
  destruct (at_files w s Hat) as [Hfiles Hfss]. assert (Hopen : is_open w h e) by (split; [done|]; by rewrite <- Hfiles).
  pose proof (wpv_run ids _ _ w s Hat (seek_run ids w h e pos' Hok Hmax Hopen ltac:(lia))) as Hrun.
  eapply wp_mono; [exact Hrun|].
  intros r s' (w' & Hat' & -> & ->). split; [done|].
  destruct (moved_handle s s' h e pos' (fss w) (with_opened (<[Z.to_nat h:=set_seek pos' e]> (opened w)) w) Hf He Hh Hfs Hat') as (Hf' & Hsame & He' & Hfss'); [|done|by rewrite Hfiles|done|].
  { apply view_ok_file; [done|]. apply (file_open_ok ids w (Z.to_nat h) e Hok). by rewrite <- Hfiles. }
  split; [done|]. split; [done|]. exists (set_seek pos' e). rewrite Hfss', <- Hfss. done.
Qed.

(** The buffer of a caller that has one. *)
Definition read_buffer (h : Z) (buffer : list Z) (n : Z) : M (vfs F S) (Z * list Z) :=
  a ← vfs_read h (Some buffer) n; mret (a.1, default buffer a.2).
(** Both answers of a read: what the file has, or an error past its end. *)
Lemma read_buffer_run s h pos b buffer n : files_ok s -> file_at s h pos b -> 0 <= n <= zlen buffer ->
  wp (read_buffer h buffer n) (fun a s' =>
    if pos <=? zlen b then let r := Z.min n (zlen b - pos) in
      a = (r, splice buffer 0 (slice b (Z.to_nat pos) (Z.to_nat r))) /\ files_ok s' /\ (forall k, file_open s' k <-> file_open s k) /\ file_at s' h (pos + r) b
    else a.1 < 0 /\ files_ok s' /\ (forall k, file_open s' k <-> file_open s k) /\ file_at s' h pos b) s.
Proof.
  intros Hf (e & Hh & He & Hfs & Hpos & Hb & Hrel & Hin & Hlen) Hn. pose proof Hf as (_ & w & Hat & Hok & Hmax).
  destruct (at_files w s Hat) as [Hfiles Hfss]. assert (Hopen : is_open w h e) by (split; [done|]; by rewrite <- Hfiles).
  rewrite Hfss in Hb, Hrel. pose proof (wpv_run ids _ _ w s Hat (read_run ids w h e b buffer n Hok Hmax Hopen Hb ltac:(lia) ltac:(lia))) as Hrun.
  apply wp_bind. eapply wp_mono; [exact Hrun|].
  intros a s' (w' & Hat' & r & buffer' & f & -> & -> & Hk & Hkf & [[_ Hno]|Hr]); [by destruct (Hno Hrel)|].
  rewrite Hpos in Hr. apply wp_ret. cbn [fst snd default]. destruct (Z.leb_spec pos (zlen b)) as [Hle|Hgt].
  - destruct Hr as [-> ->]. set (r := Z.min n (zlen b - pos)) in *.
    destruct (moved_eq w h e r f Hopen ltac:(lia)) as (Ho & Hfm & Hu). rewrite Hpos in Ho.
    destruct (moved_handle s s' h e (pos + r) f (moved w h e r f) Hf He Hh Hfs Hat') as (Hf' & Hsame & He' & Hfss'); [by apply moved_ok|lia|by rewrite Hfiles|done|].
    split; [done|]. split; [done|]. split; [done|]. exists (set_seek (pos + r) e). rewrite Hfss'. cbn.
    split; [done|]. split; [done|]. split; [done|]. split; [done|]. split; [by apply Hkf|]. split; [by apply Hk|]. split; lia.
  - assert (Hm : moved w h e r f = with_fss f w) by (unfold moved; by rewrite (proj2 (Z.ltb_ge 0 r)) by lia). rewrite Hm in Hat'.
    destruct (moved_handle s s' h e pos f (with_fss f w) Hf He Hh Hfs Hat') as (Hf' & Hsame & He' & Hfss'); [by apply view_ok_keeps|done|..|done|].
    { cbn. rewrite <- Hfiles, list_insert_id; [done|]. rewrite He. subst pos. by destruct e. }
    split; [done|]. split; [done|]. split; [done|]. exists (set_seek pos e). rewrite Hfss'. cbn.
    split; [done|]. split; [done|]. split; [done|]. split; [done|]. split; [by apply Hkf|]. split; [by apply Hk|]. done.
Qed.

Lemma write_handle s h pos b buffer n : files_ok s -> file_at s h pos b -> pos <= zlen b -> 0 <= n <= zlen buffer -> Forall is_byte buffer ->
  wp (vfs_write h (Some buffer) n) (fun a s' => let r := Z.min n (zlen b - pos) in
    a = r /\ files_ok s' /\ (forall k, file_open s' k <-> file_open s k) /\
    file_at s' h (pos + r) (splice b (Z.to_nat pos) (take (Z.to_nat r) buffer))) s.
Proof.
  intros Hf (e & Hh & He & Hfs & Hpos & Hb & Hrel & Hin & Hlen) Hend Hn Hby. pose proof Hf as (_ & w & Hat & Hok & Hmax).
  destruct (at_files w s Hat) as [Hfiles Hfss]. assert (Hopen : is_open w h e) by (split; [done|]; by rewrite <- Hfiles).
  rewrite Hfss in Hb, Hrel. pose proof (wpv_run ids _ _ w s Hat (write_run ids w h e b buffer n Hok Hmax Hopen Hb ltac:(lia) ltac:(lia) Hby)) as Hrun.
  eapply wp_mono; [exact Hrun|].
  intros a s' (w' & Hat' & f & -> & Hk & [[_ Hno]|Hr]); [by destruct (Hno Hrel)|].
  rewrite Hpos in Hr. rewrite (proj2 (Z.leb_le pos (zlen b))) in Hr by lia. destruct Hr as [-> Hkf]. set (r := Z.min n (zlen b - pos)) in *.
  destruct (moved_eq w h e r f Hopen ltac:(lia)) as (Ho & Hfm & Hu). rewrite Hpos in Ho.
  destruct (moved_handle s s' h e (pos + r) f (moved w h e r f) Hf He Hh Hfs Hat') as (Hf' & Hsame & He' & Hfss'); [by apply moved_ok|lia|by rewrite Hfiles|done|].
  split; [done|]. split; [done|]. split; [done|]. exists (set_seek (pos + r) e). rewrite Hfss'. cbn.
  assert (Hl : zlen (splice b (Z.to_nat pos) (take (Z.to_nat r) buffer)) = zlen b) by (rewrite length_splice; [done|]; rewrite length_take; lia).
  rewrite Hl. split; [done|]. split; [done|]. split; [done|]. split; [done|]. split; [done|]. split; [by apply Hk|]. split; lia.
Qed.

Lemma open_handle s path str : files_ok s -> Forall is_byte path -> cstr path = Some str ->
  wp (vfs_open volbuf filebuf path) (fun r s' => files_ok s' /\ if r <? 0 then forall k, file_open s' k <-> file_open s k else
    0 < r /\ ~ file_open s r /\ file_open s' r /\ forall k, k <> r -> file_open s' k <-> file_open s k) s.
Proof.
  intros Hf Hby Hstr. pose proof Hf as (Hres & w & Hat & Hok & Hmax). destruct (at_files w s Hat) as [Hfiles Hfss].
  pose proof (wpv_run ids _ _ w s Hat (open_run ids w volbuf filebuf path str Hok Hmax Hby Hstr Hvol Hfile)) as Hrun.
  eapply wp_mono; [exact Hrun|].
  intros r s' (w' & Hat' & Hr). destruct (at_files w' s' Hat') as [Hfiles' _].
  assert (Hnone : r < 0 -> opened w' = opened w -> view_ok ids w' -> under_way w' = under_way w ->
    files_ok s' /\ if r <? 0 then forall k, file_open s' k <-> file_open s k else
      0 < r /\ ~ file_open s r /\ file_open s' r /\ forall k, k <> r -> file_open s' k <-> file_open s k).
  { intros Hneg Ho Hok' Hu. assert (Heq : files s' = files s) by congruence. split.
    - split; [by rewrite Heq|]. exists w'. split; [done|]. split; [done|]. lia.
    - rewrite (proj2 (Z.ltb_lt r 0)) by done. intros k. unfold file_open. by rewrite Heq. }
  destruct (split_path str) as [[vol name]|]; [|by destruct Hr as [-> ->]; apply Hnone].
  destruct Hr as (k & Hk & Hr). destruct (CONFIG_MAX_OPEN_FILES <=? k) eqn:Ek; [by destruct Hr as [-> ->]; apply Hnone|].
  destruct (Z.eqb_spec (volume (rows w) vol) 0) as [|Hvol0]; [by destruct Hr as [-> ->]; apply Hnone|].
  destruct Hr as (f & Hkeep & _ & [[Hneg ->]|(id & Hid & _ & -> & ->)]); [apply Hnone; try done; by apply view_ok_keeps|].
  zbool. destruct Hk as (Hk0 & _ & Hk2). pose proof (vk_files _ _ Hok) as Hlen.
  destruct Hk2 as (x & Hx & Hfree); [unfold CONFIG_MAX_OPEN_FILES in *; lia|]. unfold free_file in Hfree. zbool.
  rewrite (proj2 (Z.ltb_ge k 0)) by lia. cbn in Hfiles'. rewrite <- Hfiles in Hfiles'.
  assert (Hxs : files s !! Z.to_nat k = Some x) by (by rewrite Hfiles).
  assert (Hin : (Z.to_nat k < length (files s))%nat) by (by eapply lookup_lt_Some).
  destruct (open_insert _ s s' k _ eq_refl Hfiles' ltac:(lia) Hin) as [Hopen' Hother].
  assert (Hfs1 : 1 < volume (rows w) vol).
  { destruct (volume_row _ _ Hvol0) as (row & Hrow & Heq). rewrite <- Heq in *.
    apply (fs_mounted_pos (fss w)). pose proof (vk_row _ _ Hok) as Hrows. rewrite Forall_forall in Hrows. by apply (Hrows row Hrow). }
  assert (Hlow : 2 < k).
  { destruct (Z.ltb_spec 2 k); [done|]. destruct (Hres k) as (y & Hy & Hy1); [lia|]. assert (y = x) as -> by congruence. lia. }
  split; [split|].
  - rewrite Hfiles'. apply reserved_insert; [done| |lia]. intros e' He'. assert (e' = x) as -> by congruence. lia.
  - eexists. split; [exact Hat'|]. split; [|done].
    apply (view_ok_file ids (with_fss f w)); [by apply view_ok_keeps|]. right. right. destruct (volume_row _ _ Hvol0) as (row & ? & ?). by exists row.
  - split; [lia|]. split; [|split; [by apply Hopen'|done]]. intros (y & _ & Hy & Hy1). assert (y = x) as -> by congruence. lia.
Qed.

#[local] Program Instance vfs_calls : FileCalls (vfs F S) := {|
  ThreadSys.vfs_open := vfs_open volbuf filebuf;
  ThreadSys.vfs_seek := vfs_seek;
  ThreadSys.vfs_read := read_buffer;
  ThreadSys.vfs_write h buffer n := vfs_write h (Some buffer) n;
  ThreadSys.vfs_create := vfs_create volbuf filebuf;
  ThreadSys.vfs_remove := vfs_remove volbuf filebuf;
  of_file := file_at
|}.
Next Obligation. intros s h pos b (e & Hh & He & Hfs & _ & _ & _ & Hpos & Hlen). split; [by exists e|done]. Qed.
Next Obligation. exact open_handle. Qed.
Next Obligation. intros s h pos pos' b Hf Hat Hpos. by apply (seek_handle s h pos pos' b). Qed.
Next Obligation.
  intros s h pos b buffer n Hf Hat Hpos Hn. pose proof (read_buffer_run s h pos b buffer n Hf Hat Hn) as H.
  by rewrite (proj2 (Z.leb_gt pos (zlen b))) in H.
Qed.
Next Obligation.
  intros s h pos b buffer n Hf Hat Hpos Hn. pose proof (read_buffer_run s h pos b buffer n Hf Hat Hn) as H.
  by rewrite (proj2 (Z.leb_le pos (zlen b))) in H.
Qed.
Next Obligation. exact write_handle. Qed.
End handles.
