(* ===== verification/Lifecycle.v ===== *)
(** * The life of a process: theorems

    What starting, ending and joining processes does to the process table, the
    open files and the memory, and the run of two processes over the kernel's
    own threads and locks. *)
From S2P Require Import Prelude Bitmap Libc Cpu Kmalloc Pagepool Vm Tlb Semaphore.
From S2P Require Import Gbd Sync Tfs Vfs Mount Handles Waiting Thread Sleepq LockCond Kthreads Space ThreadSys Process.

(** ** The theorems *)
Section theorems.
Context {L F : Type} `{!HasCpu L, TS : !ThreadSys L, LO : !LoneLocks L, OF : !OpenFiles F, !Symbols}.
Implicit Types s : pstate L F.

(** Claim C26. Starting a child after a finished child has been joined: the
    entry that the join freed is still the head of its parent's list of
    children, it is taken again, and becomes its own next sibling. From then
    on the parent's exit never ends, with interrupts off and the table locked.
    [x2] and [x3] are the threads of the new child and of the parent later. *)
Theorem exit_after_second_child_hangs s c x2 x3 t f fuel ret :
  table_wf s -> ts_ok (ps_threads s) -> is_pid c -> may_join s (c + 1) ->
  let me := ts_pid (ps_threads s) in
  last_child_pid (proc s me) = c -> tid (proc s c) = PROCESS_NO_OWNER_TID -> tid (proc s me) <> PROCESS_NO_OWNER_TID ->
  (forall j, 0 <= j < c -> ~ free_entry (proc s j)) ->
  ts_lock (ps_threads s) (die_lock (proc s c)) = Free ->
  ts_ok x2 -> ts_lock x2 (process_table_lock s) = Free -> is_i32 ret -> -2147483648 < ret ->
  can_exit (with_threads x3 s) me t f ->
  wp (syscall_handle_join (c + 1)) (fun r s1 => r = inr (retval (proc s c)) /\
    wp (start_entry me) (fun r s2 => r = Some c /\ next (proc s2 c) = c /\
      fails Timeout (syscall_handle_exit fuel ret) (with_threads x3 s2))
      (with_threads x2 s1)) s.
Proof.
  intros Hwf Hts Hc Hmay me Hlast Htid Hme Hlow Hlock Hx2 Hl2 Hret Hmin Hcex. pose proof Hmay as (Hpme & _ & Hpar). replace (c + 1 - 1) with c in Hpar by lia.
  fold me in Hpar, Hpme. assert (Hcme : me <> c) by (intros Heq; rewrite <- Heq in Htid; done).
  eapply wp_mono; [apply join_run; [done|done|intros _; by replace (c + 1 - 1) with c by lia]|].
  replace (c + 1 - 1) with c by lia. intros r s1. rewrite decide_True by done. intros ((Hlk1 & Hsp1 & Hfl1) & _ & Hr). rewrite decide_True in Hr by done.
  destruct Hr as (-> & Hwf1 & Hts1 & Hp1). split; [done|].
  assert (Hme1 : proc s1 me = proc s me) by (rewrite Hp1 by done; by rewrite (proj2 (Z.eqb_neq _ _) Hcme)).
  assert (Hc1 : proc s1 c = set_parent_pid PROCESS_NO_PARENT_PID (proc s c)) by (rewrite Hp1 by done; by rewrite Z.eqb_refl).
  eapply wp_mono; [apply (start_entry_run (with_threads x2 s1) me); [done|done| |cbn; by rewrite Hlk1]|].
  { right. split; [done|]. change (proc (with_threads x2 s1) me) with (proc s1 me). rewrite Hme1. by intros [? _]. }
  intros [k|] s2 (Hwf2 & Hts2 & (Hlk2 & Hsp2 & Hfl2) & _ & Hr & _).
  2: { destruct Hr as [_ Hno]. destruct (Hno c Hc). change (proc (with_threads x2 s1) c) with (proc s1 c). rewrite Hc1. by split. }
  destruct Hr as (Hk & Hfree & Hklow & _ & Hp2).
  change (forall j, 0 <= j < k -> ~ free_entry (proc s1 j)) in Hklow. change (free_entry (proc s1 k)) in Hfree.
  assert (k = c) as ->.
  { destruct (Z.lt_trichotomy k c) as [Hlt|[->|Hgt]]; [|done|].
    - exfalso. apply (Hlow k); [unfold is_pid in Hk; lia|]. rewrite Hp1 in Hfree by done. rewrite (proj2 (Z.eqb_neq k c)) in Hfree by lia. done.
    - exfalso. apply (Hklow c); [unfold is_pid in Hc; lia|]. rewrite Hc1. by split. }
  assert (Hnext : next (proc s2 c) = c).
  { rewrite Hp2 by done. rewrite Z.eqb_refl. cbn [new_process next]. rewrite (proj2 (Z.eqb_neq me PROCESS_NO_PARENT_PID)) by (unfold is_pid, PROCESS_NO_PARENT_PID in *; lia).
    change (proc (with_threads x2 s1) me) with (proc s1 me). by rewrite Hme1. }
  assert (Hlast2 : last_child_pid (proc s2 me) = c).
  { rewrite Hp2 by done. rewrite (proj2 (Z.eqb_neq me c)), Z.eqb_refl by done. done. }
  assert (Hme2 : proc s2 me = set_last_child_pid c (proc s me)).
  { rewrite Hp2 by done. rewrite (proj2 (Z.eqb_neq me c)), Z.eqb_refl by done. change (proc (with_threads x2 s1) me) with (proc s1 me). by rewrite Hme1. }
  assert (Hce : can_exit (with_threads x3 s2) me t f).
  { destruct Hcex as [_ Hc2 Hc3 Hc4 Hc5 Hc6 Hc7 Hc8 Hc9].
    change (proc (with_threads x3 s) me) with (proc s me) in *. cbn [with_threads ps_threads ps_files ps_space process_table_lock] in *.
    split; change (proc (with_threads x3 s2) me) with (proc s2 me); rewrite ?Hme2; cbn [with_threads ps_threads ps_files ps_space process_table_lock];
      rewrite ?Hlk2, ?Hsp2, ?Hfl2; cbn [with_threads ps_files ps_space process_table_lock]; rewrite ?Hlk1, ?Hsp1, ?Hfl1; done. }
  split; [done|]. split; [done|]. pose proof Hce as [_ Hts3 [Hpid _] _ _ _ _ _ _].
  unfold syscall_handle_exit. apply fails_bind. eapply (wp_lift _ _ _ (Z.abs ret)).
  { destruct (Z.ltb_spec ret 0); [|f_equal; lia]. unfold int. rewrite decide_True by (unfold is_i32 in *; lia). f_equal. lia. }
  apply fails_bind, wp_current_pid; [done|]. apply fails_bind, wp_current_entry; [done|]. rewrite Hpid, decide_True by done.
  apply fails_bind_l, fails_bind. eapply wp_mono; [by apply (exit_begin_run _ me t f)|].
  intros r s3 (t1 & Hex & Hp3 & ->). apply fails_bind_l.
  change (forall j, is_pid j -> proc s3 j = if j =? me then set_filehandle (replicate (Z.to_nat MAX_OPEN_FILES_PER_PROCESS) (-1)) (proc s2 j) else proc s2 j) in Hp3.
  rewrite Hp3, Z.eqb_refl by done. cbn [set_filehandle last_child_pid]. rewrite Hlast2.
  apply orphan_loop_hangs; [apply Hex|done|]. rewrite Hp3 by done. by rewrite (proj2 (Z.eqb_neq c me)) by done.
Qed.

(** Claim C24. When the list of its children ends, the exit of a process does
    too, and leaves nothing behind: its entry keeps the status for the parent,
    its children have lost theirs, its files are closed and no others, every
    frame of its address space and the page of its page table are back in the
    pool and nothing else is, and the translation buffer translates nothing. *)
Theorem exit_correct s me t f l fuel ret :
  can_exit s me t f -> child_chain s (last_child_pid (proc s me)) l -> (32 < fuel)%nat -> is_i32 ret -> -2147483648 < ret ->
  wp (syscall_handle_exit fuel ret) (fun _ s' =>
    table_wf s' /\ closed (ps_files s) (ps_files s') (filehandle (proc s me)) /\
    (forall j, is_pid j -> proc s' j = ended_entry s me (Z.abs ret) l j) /\
    space_gone (ps_space s) (ps_space s') (ts_table (ps_threads s)) t) s.
Proof. apply exit_run. Qed.

(** A new process gets the lowest free entry, as the first child in
    its parent's list, and no entry in use changes but for that link; there is
    none only when all 32 entries are in use. The locks and the interrupt
    state are given back. *)
Theorem start_entry_correct s parent :
  table_wf s -> ts_ok (ps_threads s) -> parent_ok s parent -> ts_lock (ps_threads s) (process_table_lock s) = Free ->
  wp (start_entry parent) (fun r s' =>
    table_wf s' /\ ts_ok (ps_threads s') /\ only_table s s' /\ cpu_of s' = cpu_of s /\
    match r with
    | Some k => is_pid k /\ free_entry (proc s k) /\ (forall j, 0 <= j < k -> ~ free_entry (proc s j)) /\
        ts_pid (ps_threads s') = k /\
        forall j, is_pid j -> proc s' j =
          if j =? k then new_process (proc s k) (ts_tid (ps_threads s)) parent
                           (if parent =? PROCESS_NO_PARENT_PID then PROCESS_NO_PARENT_PID else last_child_pid (proc s parent))
          else if j =? parent then set_last_child_pid k (proc s j) else proc s j
    | None => process_table s' = process_table s /\ forall j, is_pid j -> ~ free_entry (proc s j)
    end) s.
Proof. intros. eapply wp_mono; [by apply start_entry_run|]. by intros r s' (? & ? & ? & ? & ? & _). Qed.

(** Claim C25. The status a process exits with, made non-negative, is what its
    parent's join answers: when the parent ([x2] is its thread, [st] its
    interrupt state) joins after the exit, and when it was waiting in its join
    and goes on after the exit; the join frees the entry. A join before the
    exit waits, without the lock. Nobody else's join gets anything. *)
Theorem exit_status_joined s me t f l fuel ret x2 st :
  can_exit s me t f -> child_chain s (last_child_pid (proc s me)) l -> me ∉ l -> (32 < fuel)%nat -> is_i32 ret -> -2147483648 < ret ->
  ts_ok x2 -> is_pid (ts_pid x2) -> tid (proc s me) <> PROCESS_NO_OWNER_TID -> ts_lock x2 (die_lock (proc s me)) = Free ->
  ts_can_wait x2 -> is_u32 st ->
  wp (syscall_handle_join (me + 1)) (fun r s1 =>
    if decide (parent_pid (proc s me) = ts_pid x2) then
      (exists st, r = inl st) /\ process_table s1 = process_table s /\ ts_lock (ps_threads s1) (die_lock (proc s me)) <> Mine
    else r = inr RETVAL_SYSCALL_USERLAND_NOK /\ s1 = with_threads x2 s) (with_threads x2 s) /\
  wp (syscall_handle_exit fuel ret) (fun _ s1 =>
    wp (syscall_handle_join (me + 1)) (fun r s2 =>
      if decide (parent_pid (proc s me) = ts_pid x2) then r = inr (Z.abs ret) /\ free_entry (proc s2 me)
      else r = inr RETVAL_SYSCALL_USERLAND_NOK /\ s2 = with_threads x2 s1) (with_threads x2 s1) /\
    wp (syscall_handle_join_resume (me + 1) st) (fun r s2 => r = inr (Z.abs ret) /\ free_entry (proc s2 me)) (with_threads x2 s1)) s.
Proof.
  intros Hce Hl Hnin Hfuel Hret Hmin Hx2 Hpx Hrun Hlock Hcw Hst. pose proof Hce as [Hwf _ [_ Hme] _ _ _ _ _ _].
  assert (Hiff : forall s', parent_pid (proc s' me) = parent_pid (proc s me) ->
    may_join (with_threads x2 s') (me + 1) <-> parent_pid (proc s me) = ts_pid x2).
  { intros s' Hp. unfold may_join. cbn [with_threads ps_threads]. change (proc (with_threads x2 s') (me + 1 - 1)) with (proc s' (me + 1 - 1)).
    replace (me + 1 - 1) with me by lia. rewrite Hp. unfold is_pid in *. split; [by intros (_ & _ & ?)|]. split; [done|]. split; [lia|done]. }
  split.
  - eapply wp_mono; [apply join_run; [exact Hwf|done|intros _; by replace (me + 1 - 1) with me by lia]|].
    intros r s1. replace (me + 1 - 1) with me by lia. specialize (Hiff s eq_refl).
    destruct (decide (parent_pid (proc s me) = ts_pid x2)) as [Hp|Hp].
    + rewrite decide_True by (by apply Hiff). rewrite decide_False by done. by intros (_ & ? & ? & ?).
    + rewrite decide_False by (by rewrite Hiff). done.
  - eapply wp_mono; [by apply (exit_run s me t f l)|]. intros _ s1 (Hwf1 & _ & Hp1 & _).
    assert (Hme1 : proc s1 me = set_finished (Z.abs ret) (set_filehandle (replicate (Z.to_nat MAX_OPEN_FILES_PER_PROCESS) (-1)) (proc s me))).
    { rewrite Hp1 by done. unfold ended_entry. rewrite Z.eqb_refl. by rewrite decide_False. }
    assert (Hmex : proc (with_threads x2 s1) me = proc s1 me) by done.
    split.
    + eapply wp_mono; [apply join_run; [exact Hwf1|done|intros _; replace (me + 1 - 1) with me by lia; rewrite Hmex, Hme1; by split]|].
      intros r s2. replace (me + 1 - 1) with me by lia. specialize (Hiff s1 ltac:(by rewrite Hme1)).
      rewrite Hmex, Hme1. destruct (decide (parent_pid (proc s me) = ts_pid x2)) as [Hp|Hp].
      * rewrite decide_True by (by apply Hiff). rewrite decide_True by done. intros (_ & _ & -> & _ & _ & Hp2). split; [done|].
        rewrite Hp2 by done. rewrite Z.eqb_refl, Hmex, Hme1. by split.
      * rewrite decide_False by (by rewrite Hiff). done.
    + eapply wp_mono; [apply join_resume_run; [exact Hwf1|done|unfold is_pid in Hme; lia|done|..]; replace (me + 1 - 1) with me by lia; rewrite Hmex, Hme1; done|].
      replace (me + 1 - 1) with me by lia. rewrite Hmex, Hme1. intros r s2 (_ & _ & -> & Hp2). split; [done|].
      rewrite Hp2 by done. rewrite Z.eqb_refl, Hmex, Hme1. by split.
Qed.
End theorems.

(** ** Two processes

    Thread 2 runs process 1, whose parent is process 0, run by thread 1;
    process 2 is a child of process 1.  Process 1 has handle 3 open on the file
    of the volume of [Mount.v], and its memory is [a_space], with the heap in
    page 0x401. *)
#[local] Existing Instance example_symbols.
#[local] Existing Instance example_layout.
#[local] Existing Instance mount_ops.
#[local] Existing Instance mount_filesystems.
#[local] Instance mount_handles : OpenFiles (vfs (mount_point ramdisk) (over semaphores kernel)) := vfs_handles mount_ids.

Definition of_process (pid table : Z) (t : thread) : thread := set_pagetable_of table (set_userland_pid_of pid t).
Definition process_kernel (current : Z) : kernel :=
  upd (upd (two_threads current) 1 (of_process 0 0)) 2 (of_process 1 0x80003000).
Definition process_threads (current : Z) : over lock_tables kernel :=
  mk_over open_tables (process_kernel current).

Lemma process_kernel_ok current : current = 1 \/ current = 2 ->
  sys_ok (process_kernel current) /\ caller (process_kernel current) = current /\ forall r, waiters (process_kernel current) r = [].
Proof.
  intros Hc. assert (Hk1 : same_links (two_threads current) (upd (two_threads current) 1 (of_process 0 0))) by (by apply upd_same_links).
  assert (Hk2 : same_links (upd (two_threads current) 1 (of_process 0 0)) (process_kernel current)) by (by apply upd_same_links).
  destruct (same_links_sys _ _ Hk1 (two_threads_ok current Hc)) as (Hok1 & Hc1 & Hw1).
  destruct (same_links_sys _ _ Hk2 Hok1) as (Hok2 & Hc2 & Hw2). split; [done|]. split; [by destruct Hc as [-> | ->]|].
  intros r. rewrite Hw2, Hw1. apply two_threads_waiting.
Qed.

Lemma process_settled current : current = 1 \/ current = 2 -> settled (process_threads current).
Proof.
  intros Hc. destruct (process_kernel_ok current Hc) as (Hok & _ & Hw). apply open_settled; [done|done|].
  split; [vm_check|]. intros a _. apply not_elem_of_empty.
Qed.

Lemma process_can_wait current : current = 1 \/ current = 2 -> may_wait (process_threads current).
Proof.
  intros Hc. destruct (process_kernel_ok current Hc) as (_ & Hcur & Hw). split.
  - change (0 < caller (process_kernel current) < 2147483648). rewrite Hcur. destruct Hc; lia.
  - intros r _. change (waiting (process_threads current) r) with (waiters (process_kernel current) r). rewrite Hw. apply not_elem_of_nil.
Qed.

Lemma process_lock current i : is_lock i -> ts_lock (process_threads current) i = Free.
Proof. intros Hi. apply view_free. split; [done|]. unfold process_threads. by rewrite open_free. Qed.

Definition no_files : list Z := replicate 10 (-1).
Definition free_row (i : Z) : process_table_t := mk_process (-1) (replicate 8 0) (-1) i i (-1) (-1) (-1) no_files 0.
Definition process_rows : list process_table_t :=
  mk_process 1 (replicate 8 0) (-1) 0 0 (-1) (-1) 1 no_files 0
  :: mk_process 2 (replicate 8 0) (-1) 1 1 (-1) 0 2 (3 :: replicate 9 (-1)) 0x401000
  :: mk_process 3 (replicate 8 0) (-1) 2 2 (-1) 1 (-1) no_files 0
  :: (free_row <$> seqZ 3 29).
Abbreviation two_state := (pstate (over lock_tables kernel) (vfs (mount_point ramdisk) (over semaphores kernel))).
Definition two_processes : two_state := mk_pstate process_rows 100 (process_threads 2) a_space mount_state.

Lemma process_rows_wf (s : two_state) : process_table s = process_rows -> table_wf s.
Proof.
  intros Heq. split; [unfold table_full; by rewrite Heq|]. intros i Hi. unfold proc. rewrite Heq.
  assert (Hall : Forall (fun e => (zlen (name e) = 8 /\ zlen (filehandle e) = 10) /\ 0 <= die_cond e < 128) process_rows).
  { apply (bool_decide_unpack _). vm_compute. exact I. }
  destruct (lookup_lt_is_Some_2 process_rows (Z.to_nat i)) as [e He]; [unfold is_pid, CONFIG_MAX_PROCESSES in Hi; change (length process_rows) with 32%nat; lia|].
  rewrite (list_lookup_total_correct _ _ _ He). exact (Forall_lookup_1 _ _ _ _ Hall He).
Qed.

Lemma two_threads_fields : ts_tid (process_threads 2) = 2 /\ ts_pid (process_threads 2) = 1 /\ ts_table (process_threads 2) = 0x80003000.
Proof. by vm_compute. Qed.

Lemma mount_files_ok d : device_ok d -> of_ok (mount_state_of d).
Proof.
  intros Hd. split; [|exists (mount_view_of d); split; [apply mount_at|split; [by apply mount_view_ok|vm_compute; reflexivity]]].
  intros h Hh. assert (h = 0 \/ h = 1 \/ h = 2) as [-> |[-> | ->]] by lia; eexists; split; reflexivity.
Qed.
Lemma mount_files : of_ok mount_state /\ handles_open mount_state (3 :: replicate 9 (-1)).
Proof.
  split; [apply mount_files_ok, a_device_ok|].
  split.
  - intros h [->|Hin%elem_of_replicate]%elem_of_cons Hpos; [|destruct Hin; lia]. exists a_handle. split; [lia|]. split; [reflexivity|vm_check].
  - apply (bool_decide_unpack _). vm_compute. exact I.
Qed.

Lemma two_can_exit : can_exit two_processes 1 a_table 5.
Proof.
  destruct two_threads_fields as (_ & Hpid & Htab). split.
  - by apply process_rows_wf.
  - apply process_settled. by right.
  - split; [exact Hpid|vm_check].
  - apply process_lock. vm_check.
  - apply process_lock. vm_check.
  - discriminate.
  - exact mount_files.
  - change (ps_threads two_processes) with (process_threads 2). rewrite Htab. apply space_ok_cpu; [exact a_space_ok|vm_check|reflexivity].
  - split; [vm_check|]. exists 1. reflexivity.
Qed.

Lemma exit_correct_witness :
  wp (syscall_handle_exit 33 (-7)) (fun _ s' => retval (proc s' 1) = 7 /\ tid (proc s' 1) = PROCESS_NO_OWNER_TID /\
    parent_pid (proc s' 2) = PROCESS_NO_PARENT_PID /\ ~ of_open (ps_files s') 3) two_processes.
Proof.
  eapply wp_mono; [apply (exit_correct two_processes 1 a_table 5 [2] 33 (-7))|].
  - exact two_can_exit.
  - split; [reflexivity|]. split; [vm_check|reflexivity].
  - lia.
  - vm_check.
  - lia.
  - intros _ s' (_ & (_ & Hc) & Hp & _). split; [|split; [|split]].
    + rewrite Hp by vm_check. reflexivity.
    + rewrite Hp by vm_check. reflexivity.
    + rewrite Hp by vm_check. reflexivity.
    + rewrite Hc. intros [_ Hno]. apply Hno. split; [by left|lia].
Defined.

Lemma start_entry_correct_witness :
  wp (start_entry 1) (fun r s' => r = Some 3 /\ next (proc s' 3) = 2 /\ last_child_pid (proc s' 1) = 3) two_processes.
Proof.
  eapply wp_mono; [apply (start_entry_correct two_processes 1)|].
  - by apply process_rows_wf.
  - apply process_settled. by right.
  - right. split; [vm_check|]. intros [Ht _]. discriminate.
  - apply process_lock. vm_check.
  - intros [k|] s' (_ & _ & _ & _ & Hr).
    + destruct Hr as (Hk & Hf & Hlow & _ & Hp).
      assert (k = 3) as ->.
      { unfold is_pid, CONFIG_MAX_PROCESSES in Hk. destruct (Z.lt_trichotomy k 3) as [Hlt|[Heq|Hgt]]; [|exact Heq|].
        - assert (k = 0 \/ k = 1 \/ k = 2) as [-> |[-> | ->]] by lia; destruct Hf; discriminate.
        - exfalso. apply (Hlow 3); [lia|split; reflexivity]. }
      split; [reflexivity|]. rewrite !Hp by vm_check. split; reflexivity.
    + exfalso. destruct Hr as [_ Hno]. apply (Hno 3); [vm_check|split; reflexivity].
Defined.

Lemma exit_status_joined_witness :
  wp (syscall_handle_exit 33 (-7)) (fun _ s1 =>
    wp (syscall_handle_join 2) (fun r _ => r = inr 7) (with_threads (process_threads 1) s1) /\
    wp (syscall_handle_join_resume 2 0xff01) (fun r _ => r = inr 7) (with_threads (process_threads 1) s1)) two_processes.
Proof.
  destruct (exit_status_joined two_processes 1 a_table 5 [2] 33 (-7) (process_threads 1) 0xff01) as [_ He].
  - exact two_can_exit.
  - split; [reflexivity|]. split; [vm_check|reflexivity].
  - intros Hin%list_elem_of_singleton. discriminate.
  - lia.
  - vm_check.
  - lia.
  - apply process_settled. by left.
  - vm_check.
  - discriminate.
  - apply process_lock. vm_check.
  - apply process_can_wait. by left.
  - vm_check.
  - eapply wp_mono; [exact He|]. intros _ s1 [Hj Hr]. split.
    + eapply wp_mono; [exact Hj|]. intros r s2 Hp. cbv beta in Hp. rewrite decide_True in Hp by reflexivity. by destruct Hp as [-> _].
    + eapply wp_mono; [exact Hr|]. by intros r s2 [-> _].
Defined.

(** Process 2 is gone, and process 1 joins it. *)
Definition child_gone : two_state :=
  mk_pstate (<[2%nat := set_finished 9 (process_rows !!! 2%nat)]> process_rows) 100 (process_threads 2) a_space mount_state.
Lemma exit_after_second_child_hangs_witness :
  wp (syscall_handle_join 3) (fun r s1 => r = inr 9 /\
    wp (start_entry 1) (fun r s2 => r = Some 2 /\ next (proc s2 2) = 2 /\
      fails Timeout (syscall_handle_exit 50 0) (with_threads (process_threads 2) s2)) (with_threads (process_threads 2) s1)) child_gone.
Proof.
  assert (Hwf : table_wf child_gone).
  { change child_gone with (set_proc 2 (set_finished 9 (process_rows !!! 2%nat)) two_processes).
    apply set_proc_wf; [by apply process_rows_wf|vm_check|]. split; [split; reflexivity|vm_check]. }
  eapply wp_mono; [apply (exit_after_second_child_hangs child_gone 2 (process_threads 2) (process_threads 2) a_table 5 50 0)|].
  - exact Hwf.
  - apply process_settled. by right.
  - vm_check.
  - split; [vm_check|]. split; [vm_check|reflexivity].
  - reflexivity.
  - reflexivity.
  - discriminate.
  - intros j Hj. assert (j = 0 \/ j = 1) as [-> | ->] by lia; intros [Ht _]; discriminate.
  - apply process_lock. vm_check.
  - apply process_settled. by right.
  - apply process_lock. vm_check.
  - vm_check.
  - lia.
  - destruct two_can_exit as [_ H2 H3 H4 H5 H6 H7 H8 H9]. split; [exact Hwf|exact H2|exact H3|exact H4|exact H5|exact H6|exact H7|exact H8|exact H9].
  - intros r s1 [-> Hs]. split; [reflexivity|]. exact Hs.
Defined.
