(* ===== verification/Syscall.v ===== *)
(** * proc/syscall_handler_fs.c: the file system calls

    A process names files by handles of its own table, and data by addresses of
    its own memory.  The state adds to that of Process.v the physical memory
    and the terminal; a call copies through a buffer of 512 bytes.  A call that
    ends the process answers [None]. *)
From S2P Require Import Prelude Bitmap Libc Cpu Kmalloc Pagepool Vm Tlb Space User ThreadSys Process.

Definition CONFIG_SYSCALL_MAX_BUFFER_SIZE : Z := 512.
Definition VFS_PATH_LENGTH : Z := 256.
Definition FILEHANDLE_STDIN : Z := 0.
Definition FILEHANDLE_STDOUT : Z := 1.
Definition FILEHANDLE_ILLEGAL : Z := -505.
(** Two pages for at most 512 bytes, and 32 children. *)
Definition COPY_FUEL : nat := 3.
Definition EXIT_FUEL : nat := 33.

(** ** The code *)
Record sys (L F T : Type) := mk_sys {
  sy_proc : pstate L F;
  sy_ram : Z -> Z;
  sy_tty : option T      (** [device_get(YAMS_TYPECODE_TTY, 0)] *)
}.
Arguments mk_sys {L F T} sy_proc sy_ram sy_tty.
Arguments sy_proc {L F T} s.
Arguments sy_ram {L F T} s.
Arguments sy_tty {L F T} s.

Section code.
Context {L F T : Type} `{!HasCpu L, !ThreadSys L, !OpenFiles F, !FileCalls F, !Terminal T, !Symbols}.
Abbreviation state := (sys L F T).

Definition on_process {A} (m : M (pstate L F) A) : M state A := fun s =>
  match m (sy_proc s) with Ret (a, x) => Ret (a, mk_sys x (sy_ram s) (sy_tty s)) | Fail f => Fail f end.
(** The processor translates with the page table of the current thread. *)
Definition on_user {A} (table : Z) (m : M uspace A) : M state A := fun s =>
  match vm_tables (sp_vm (ps_space (sy_proc s))) !! table with
  | None => Fail Undef
  | Some t => match m (mk_uspace t (sy_ram s)) with Ret (a, u) => Ret (a, mk_sys (sy_proc s) (us_ram u) (sy_tty s)) | Fail f => Fail f end
  end.
Definition on_tty {A} (m : M T A) : M state A := fun s =>
  match sy_tty s with
  | None => Fail Undef
  | Some x => match m x with Ret (a, y) => Ret (a, mk_sys (sy_proc s) (sy_ram s) (Some y)) | Fail f => Fail f end
  end.

(** [thread_get_current_thread_entry()->pagetable] *)
Definition current_pagetable : M state Z := on_process (on_threads get_pagetable).
(** [get_current_process_entry()], then used. *)
Definition current_process : M state Z :=
  pt ← on_process get_current_process_entry; match pt with Some pt => mret pt | None => fail Undef end.
(** [syscall_handle_exit(retval); return -1;] *)
Definition kill_process {A} (retval : Z) : M state (option A) :=
  _ ← on_process (syscall_handle_exit EXIT_FUEL retval); mret None.

Definition handle_index (filehandle : Z) (pt : Z) : M state Z :=
  e ← on_process (get_process pt);
  lift (Prelude.scan (Z.to_nat MAX_OPEN_FILES_PER_PROCESS) 0 (fun h => Ret (h =? filehandle)) (Process.filehandle e)).
Definition set_handle (pt i h : Z) : M state unit :=
  e ← on_process (get_process pt);
  l ← lift (rset (filehandle e) i h);
  on_process (put_process pt (set_filehandle l e)).
Definition check_filehandle (filehandle pt : Z) : M state Z :=
  i ← handle_index filehandle pt;
  mret (if i <? MAX_OPEN_FILES_PER_PROCESS then 1 else VFS_NOT_OPEN).

(** The local arrays [temp] are arguments: what they hold is not known. *)
Definition syscall_handle_open (temp : list Z) (filename : Z) : M state (option Z) :=
  pt ← on_process get_current_process_entry;
  p ← current_pagetable;
  '(r, temp) ← on_user p (read_string_from_vm COPY_FUEL filename temp VFS_PATH_LENGTH);
  if r =? RETVAL_SYSCALL_HELPERS_NOK then kill_process 0
  else
    pt ← (match pt with Some pt => mret pt | None => fail Undef end);
    i ← handle_index FILEHANDLE_UNUSED pt;
    if i <? MAX_OPEN_FILES_PER_PROCESS then
      filehandle ← on_process (on_files (vfs_open temp));
      if filehandle <? 0 then mret (Some filehandle)
      else _ ← set_handle pt i filehandle; mret (Some filehandle)
    else mret (Some VFS_ERROR).

Definition syscall_handle_close (filehandle : Z) : M state (option Z) :=
  if filehandle <? 0 then mret (Some FILEHANDLE_ILLEGAL)
  else
    pt ← current_process;
    i ← handle_index filehandle pt;
    if i <? MAX_OPEN_FILES_PER_PROCESS then
      _ ← on_process (on_files (vfs_close filehandle));
      _ ← set_handle pt i (-1);
      mret (Some 0)
    else mret (Some VFS_NOT_OPEN).

Definition syscall_handle_seek (filehandle offset : Z) : M state (option Z) :=
  if filehandle <? 0 then mret (Some FILEHANDLE_ILLEGAL)
  else
    pt ← current_process;
    r ← check_filehandle filehandle pt;
    if r =? VFS_NOT_OPEN then mret (Some VFS_NOT_FOUND)
    else r ← on_process (on_files (vfs_seek filehandle offset)); mret (Some r).

(** One turn of the loop of [syscall_handle_read]: [count] and [temp]. *)
Definition read_chunk (p filehandle buffer length : Z) (x : Z * list Z) : M state ((Z * list Z) + option Z) :=
  let '(count, temp) := x in
  if count <? length then
    let to_be_read := Z.min (length - count) CONFIG_SYSCALL_MAX_BUFFER_SIZE in
    '(readed, temp) ← (if filehandle =? FILEHANDLE_STDIN then on_tty (gcd_read temp to_be_read)
                       else on_process (on_files (vfs_read filehandle temp to_be_read)));
    if negb (filehandle =? FILEHANDLE_STDIN) && (readed <? 0) then mret (inr (Some VFS_ERROR))
    else
      r ← on_user p (write_data_to_vm COPY_FUEL temp (u32 (buffer + count)) readed);
      if r =? RETVAL_SYSCALL_HELPERS_NOK then r ← kill_process 1; mret (inr r)
      else
        count ← lift (int (count + readed));
        mret (if readed <? to_be_read then inr (Some count) else inl (count, temp))
  else mret (inr (Some count)).
Definition syscall_handle_read (fuel : nat) (temp : list Z) (filehandle buffer length : Z) : M state (option Z) :=
  if filehandle <? 0 then mret (Some FILEHANDLE_ILLEGAL)
  else
    p ← current_pagetable;
    pt ← current_process;
    r ← check_filehandle filehandle pt;
    if (r =? VFS_NOT_OPEN) && negb (filehandle =? FILEHANDLE_STDIN) then mret (Some VFS_NOT_FOUND)
    else loop fuel (read_chunk p filehandle buffer length) (0, temp).

Definition write_chunk (p filehandle buffer length : Z) (x : Z * list Z) : M state ((Z * list Z) + option Z) :=
  let '(count, temp) := x in
  if count <? length then
    let readed := Z.min (length - count) CONFIG_SYSCALL_MAX_BUFFER_SIZE in
    '(r, temp) ← on_user p (read_data_from_vm COPY_FUEL (u32 (buffer + count)) temp readed);
    if r =? RETVAL_SYSCALL_HELPERS_NOK then r ← kill_process 1; mret (inr r)
    else
      written ← (if filehandle =? FILEHANDLE_STDOUT then _ ← on_tty (gcd_write temp readed); mret readed
                 else on_process (on_files (vfs_write filehandle temp readed)));
      if written <? readed then count ← lift (int (count + written)); mret (inr (Some count))
      else count ← lift (int (count + readed)); mret (inl (count, temp))
  else mret (inr (Some count)).
Definition syscall_handle_write (fuel : nat) (temp : list Z) (filehandle buffer length : Z) : M state (option Z) :=
  if filehandle <? 0 then mret (Some FILEHANDLE_ILLEGAL)
  else
    p ← current_pagetable;
    pt ← current_process;
    r ← check_filehandle filehandle pt;
    if (r =? VFS_NOT_OPEN) && negb (filehandle =? FILEHANDLE_STDOUT) then mret (Some VFS_NOT_FOUND)
    else loop fuel (write_chunk p filehandle buffer length) (0, temp).

(** [strlen] of an address of the process. *)
Definition user_strlen (fuel : nat) (p str : Z) : M state Z :=
  on_user p (loop fuel (fun i => c ← load (u32 (str + i)); mret (if c =? 0 then inr i else inl (i + 1))) 0).
(** The path that [syscall_handle_create] and [syscall_handle_delete] get:
    [inl] with the answer when there is none. *)
Definition path_argument (temp : list Z) (filename : Z) : M state (option Z + list Z) :=
  p ← current_pagetable;
  '(r, temp) ← on_user p (read_string_from_vm COPY_FUEL filename temp VFS_PATH_LENGTH);
  if r =? RETVAL_SYSCALL_HELPERS_NOK then r ← kill_process 0; mret (inl r)
  else
    n ← user_strlen (Z.to_nat VFS_PATH_LENGTH) p filename;
    mret (if n >? VFS_PATH_LENGTH then inl (Some VFS_INVALID_PARAMS) else inr temp).
Definition syscall_handle_create (temp : list Z) (filename size : Z) : M state (option Z) :=
  r ← path_argument temp filename;
  match r with inl r => mret r | inr temp => r ← on_process (on_files (vfs_create temp size)); mret (Some r) end.
Definition syscall_handle_delete (temp : list Z) (filename : Z) : M state (option Z) :=
  r ← path_argument temp filename;
  match r with inl r => mret r | inr temp => r ← on_process (on_files (vfs_remove temp)); mret (Some r) end.
End code.
