(* ===== verification/Start.v ===== *)
(** * proc/process.c: starting a process

    [process_start] takes an entry of the process table, builds an address
    space, loads an ELF file into it, puts the arguments on the stack and goes
    to the program; after a failure it takes back what it has done.  The kernel
    writes to the process's own addresses, as the processor translates them
    with the page table of the thread.  The parent waits on its [die_cond] for
    the [ready] of the structure that both share. *)
From S2P Require Import Prelude Bitmap Libc Cpu Thread Kmalloc Pagepool Vm Tlb Space Frames User ThreadSys Bytes Elf Process Syscall.

Definition CONFIG_USERLAND_STACK_SIZE : Z := 1.
Definition CONFIG_SYSCALL_MAX_ARGC : Z := 32.
Definition USERLAND_STACK_TOP : Z := 0x7fffeffc.
Definition PAGE_SIZE_MASK : Z := 0xfffff000.
Definition MIPS_REGISTER_A1 : Z := 4.

(** ** The code *)

(** [child_process_create_data_t], in the memory of the parent; [argv] are the
    characters from each pointer on. *)
Record child_process_create_data_t := mk_child {
  cd_parent_pid : Z; cd_child_pid : Z; cd_ready : Z; cd_filename : list Z; cd_argc : Z; cd_argv : list (list Z)
}.
Definition set_ready (pid : Z) (d : child_process_create_data_t) : child_process_create_data_t :=
  mk_child (cd_parent_pid d) pid 1 (cd_filename d) (cd_argc d) (cd_argv d).

(** What the local variables of [process_start] hold before it writes them,
    and the page that [vm_create_pagetable] gets. *)
Record start_locals := mk_locals {
  lo_ehdr : list Z; lo_phdr : list Z; lo_elf : elf_info_t; lo_virtual_argv : list Z; lo_page : Z -> list tlb_entry
}.

Definition set_heap_vaddr (x : Z) (e : process_table_t) : process_table_t :=
  mk_process (tid e) (name e) (Process.next e) (die_cond e) (die_lock e) (retval e) (parent_pid e) (last_child_pid e) (filehandle e) x.

Section code.
Context {L F T : Type} `{!HasCpu L, !ThreadSys L, !OpenFiles F, !FileCalls F, !Terminal T, !Symbols}.
Abbreviation state := (sys L F T).

Definition on_memory {A} (m : M space A) : M state A := on_process (on_space m).

(** [_interrupt_disable(); ...; _interrupt_set_state(...)] around [m]. *)
Definition uninterrupted {A} (m : M state A) : M state A :=
  stat ← on_process interrupt_disable;
  a ← m;
  _ ← on_process (interrupt_set_state stat);
  mret a.

(** *** The memory of the process, at its own addresses *)
Fixpoint store_bytes (p a : Z) (xs : list Z) : M state unit :=
  match xs with
  | [] => mret tt
  | x :: xs => _ ← on_user p (store a x); store_bytes p (u32 (a + 1)) xs
  end.
(** [memoryset] and [memcopy] to it; the latter copies words where both
    addresses allow it. *)
Definition user_memoryset (p a value size : Z) : M state unit := store_bytes p a (replicate (Z.to_nat size) value).
Definition user_memcopy (buflen p a : Z) (source : list Z) : M state unit :=
  if decide (buflen <= zlen source) then store_bytes p a (take (Z.to_nat buflen) source) else fail Undef.
(** [vfs_read] to it: the file system stores what it answers to have read. *)
Definition user_vfs_read (p file a bufsize : Z) : M state Z :=
  '(r, buffer) ← on_process (on_files (vfs_read file (replicate (Z.to_nat bufsize) 0) bufsize));
  _ ← store_bytes p a (take (Z.to_nat r) buffer);
  mret r.

(** *** Taking back *)
Definition free_process_heap (entry pagetable : Z) : M state unit :=
  e ← on_process (get_process entry);
  if negb (heap_vaddr e =? 0) then on_memory (on_vm (vm_unmap pagetable (heap_vaddr e))) else mret tt.

(** The answer is what becomes of [data]. *)
Definition restore_process_state (data : option child_process_create_data_t) (entry : option Z) (release_page_table : bool)
    (executable_filehandle : Z) : M state (option child_process_create_data_t) :=
  pagetable ← current_pagetable;
  _ ← (match entry with
       | None => mret tt
       | Some e => uninterrupted (
           _ ← free_process_heap e pagetable;
           _ ← on_process (upd_process e free_process_table_entry);
           on_process (on_threads (set_userland_pid (-1))))
       end);
  _ ← (if negb (pagetable =? 0) && release_page_table then uninterrupted (
         _ ← on_memory (free_space pagetable);
         on_process (on_threads (set_pagetable 0)))
       else mret tt);
  data ← (match data with
          | None => mret None
          | Some d =>
              parent ← on_process (get_process (cd_parent_pid d));
              _ ← on_process (on_threads (condition_broadcast (die_cond parent) (die_lock parent)));
              _ ← on_process (on_threads (lock_release (die_lock parent)));
              mret (Some (set_ready (cd_child_pid d) d))
          end);
  _ ← (if executable_filehandle >=? 0 then on_process (on_files (vfs_close executable_filehandle)) else mret 0);
  mret data.

(** *** Building the address space: false where [process_start] gives up *)
Definition map_page (pagetable vaddr : Z) : M state bool :=
  phys_page ← on_memory (on_vm (on_pmem pagepool_get_phys_page));
  if phys_page =? 0 then mret false
  else
    r ← on_memory (vm_map_at pagetable phys_page vaddr 1);
    mret (negb (r <? 0)).
(** [n] pages from [vaddr] on, upwards or downwards. *)
Fixpoint map_pages (n : nat) (pagetable vaddr step : Z) : M state bool :=
  match n with
  | O => mret true
  | S n =>
      ok ← map_page pagetable vaddr;
      if ok : bool then map_pages n pagetable (u32 (vaddr + step)) step else mret false
  end.
Definition map_heap (me pagetable : Z) (elf : elf_info_t) : M state bool :=
  l ← on_process (gets process_table_lock);
  _ ← uninterrupted (
    _ ← on_process (on_threads (lock_acquire l));
    _ ← on_process (upd_process me (set_heap_vaddr (u32 (vaddr (rw elf) + pages (rw elf) * PAGE_SIZE))));
    on_process (on_threads (lock_release l)));
  e ← on_process (get_process me);
  map_page pagetable (heap_vaddr e).

Definition stack_bottom : Z := Z.land USERLAND_STACK_TOP PAGE_SIZE_MASK - (CONFIG_USERLAND_STACK_SIZE - 1) * PAGE_SIZE.
Definition build_space (me pagetable : Z) (elf : elf_info_t) : M state bool :=
  if entry_point elf <? PAGE_SIZE then mret false
  else
    maxindex ← on_memory (on_tlb (gets _tlb_get_maxindex));
    if u32 (u32 (pages (ro elf) + pages (rw elf)) + CONFIG_USERLAND_STACK_SIZE) >? u32 (maxindex + 1) then mret false
    else
      ok ← map_pages (Z.to_nat CONFIG_USERLAND_STACK_SIZE) pagetable (Z.land USERLAND_STACK_TOP PAGE_SIZE_MASK) (- PAGE_SIZE);
      if negb ok then mret false
      else
        ok ← map_pages (Z.to_nat (i32 (pages (ro elf)))) pagetable (vaddr (ro elf)) PAGE_SIZE;
        if negb ok then mret false
        else
          ok ← map_pages (Z.to_nat (i32 (pages (rw elf)))) pagetable (vaddr (rw elf)) PAGE_SIZE;
          if negb ok then mret false else map_heap me pagetable elf.

(** *** Loading *)
Definition set_asid (pagetable : Z) : M state unit :=
  uninterrupted (t ← on_memory (on_vm (get_table pagetable)); on_memory (on_tlb (_tlb_set_asid (pt_ASID t)))).
Definition clear_space (pagetable : Z) (elf : elf_info_t) : M state unit :=
  _ ← set_asid pagetable;
  _ ← user_memoryset pagetable (vaddr (ro elf)) 0 (i32 (u32 (pages (ro elf) * PAGE_SIZE)));
  _ ← user_memoryset pagetable (vaddr (rw elf)) 0 (i32 (u32 (pages (rw elf) * PAGE_SIZE)));
  user_memoryset pagetable stack_bottom 0 (CONFIG_USERLAND_STACK_SIZE * PAGE_SIZE).
Definition load_segment (pagetable file : Z) (x : segment_info) : M state bool :=
  if size x >? 0 then
    if vaddr x <? PAGE_SIZE then mret false
    else
      r ← on_process (on_files (vfs_seek file (i32 (location x))));
      if negb (r =? VFS_OK) then mret false
      else
        r ← user_vfs_read pagetable file (vaddr x) (i32 (size x));
        mret (r =? i32 (size x))
  else mret true.
(** The read-only pages, in the page table and in the translation buffer. *)
Fixpoint protect_pages (n : nat) (pagetable vaddr : Z) : M state unit :=
  match n with
  | O => mret tt
  | S n =>
      t ← on_memory (on_vm (get_table pagetable));
      t ← lift (vm_set_dirty t vaddr 0);
      _ ← on_memory (on_vm (put_table pagetable t));
      protect_pages n pagetable (u32 (vaddr + PAGE_SIZE))
  end.
Fixpoint refresh_pages (n : nat) (pagetable vaddr : Z) : M state unit :=
  match n with
  | O => mret tt
  | S n =>
      t ← on_memory (on_vm (get_table pagetable));
      r ← lift (vm_get_entry_by_vaddr (Some t) vaddr);
      match r with
      | None => kpanic
      | Some i =>
          e ← lift (rget (entries t) i);
          _ ← on_memory (on_tlb (tlb_replace_entry_if_exists e e));
          refresh_pages n pagetable (u32 (vaddr + PAGE_SIZE))
      end
  end.
Definition protect_space (pagetable : Z) (elf : elf_info_t) : M state unit :=
  let n := Z.to_nat (i32 (pages (ro elf))) in
  _ ← protect_pages n pagetable (vaddr (ro elf));
  _ ← refresh_pages n pagetable (vaddr (ro elf));
  set_asid pagetable.
Definition load_program (me pagetable file : Z) (elf : elf_info_t) : M state bool :=
  ok ← build_space me pagetable elf;
  if negb ok then mret false
  else
    _ ← clear_space pagetable elf;
    ok ← load_segment pagetable file (ro elf);
    if negb ok then mret false
    else
      ok ← load_segment pagetable file (rw elf);
      if negb ok then mret false else _ ← protect_space pagetable elf; mret true.

(** *** The arguments *)

(** The string at [source] on the stack: the new stack pointer. *)
Definition push_string (pagetable sp : Z) (source : list Z) : M state Z :=
  l ← lift (strlen source);
  let arglen := l + 1 in
  let sp := u32 (sp - arglen) in
  let sp := sp - sp mod 4 in
  _ ← user_memcopy arglen pagetable sp source;
  mret sp.
(** [argv[i]] and so on; [virtual_argv] has the pointer to string [i] at
    [i + 1]. *)
Fixpoint push_strings (n : nat) (i : Z) (argv : list (list Z)) (pagetable sp : Z) (virtual_argv : list Z) : M state (Z * list Z) :=
  match n with
  | O => mret (sp, virtual_argv)
  | S n =>
      s ← lift (rget argv i);
      sp ← push_string pagetable sp s;
      virtual_argv ← lift (rset virtual_argv (i + 1) sp);
      push_strings n (i + 1) argv pagetable sp virtual_argv
  end.
(** [for (i = n - 1; i >= 0; i--)] *)
Fixpoint push_pointers (n : nat) (pagetable sp : Z) (virtual_argv : list Z) : M state Z :=
  match n with
  | O => mret sp
  | S n =>
      let sp := u32 (sp - 4) in
      p ← lift (rget virtual_argv (Z.of_nat n));
      _ ← user_memcopy 4 pagetable sp (word_bytes p);
      push_pointers n pagetable sp virtual_argv
  end.
Definition push_arguments (pagetable : Z) (executable : list Z) (argc : Z) (argv : list (list Z)) (virtual_argv : list Z) : M state (Z * Z) :=
  '(sp, virtual_argv) ← push_strings (Z.to_nat argc) 0 argv pagetable USERLAND_STACK_TOP virtual_argv;
  sp ← push_string pagetable sp executable;
  virtual_argv ← lift (rset virtual_argv 0 sp);
  argc ← lift (int (argc + 1));
  sp ← push_pointers (Z.to_nat argc) pagetable sp virtual_argv;
  mret (argc, sp).

Definition user_context (pc argc sp : Z) : context_t :=
  mk_context (<[Z.to_nat MIPS_REGISTER_SP := u32 (sp - 8)]> (<[Z.to_nat MIPS_REGISTER_A1 := if argc >? 0 then sp else 0]>
    (<[Z.to_nat MIPS_REGISTER_A0 := argc]> (replicate 29 0)))) 0 0 pc 0 0.
(** kernel/thread.c: the context with which the program starts. *)
Definition USERLAND_ENABLE_BIT : Z := 0x10.
Definition thread_goto_userland (c : context_t) : context_t :=
  mk_context (cpu_regs c) (ctx_hi c) (ctx_lo c) (ctx_pc c)
    (Z.lor (Z.lor (Z.lor (ctx_status c) USERLAND_ENABLE_BIT) INTERRUPT_MASK_ALL) INTERRUPT_MASK_MASTER) (prev_context c).
(** From the end of the loading on; it does not come back. *)
Definition enter_program (locals : start_locals) (executable : list Z) (data : option child_process_create_data_t) (me pagetable file : Z)
    (elf : elf_info_t) : M state (option child_process_create_data_t * option context_t) :=
  _ ← on_process (on_files (vfs_close file));
  '(argc, sp) ← push_arguments pagetable executable (match data with Some d => cd_argc d | None => 0 end)
                  (match data with Some d => cd_argv d | None => [] end) (lo_virtual_argv locals);
  data ← (match data with
          | None => mret None
          | Some d =>
              pid ← lift (int (me + 1));
              parent ← on_process (get_process (cd_parent_pid d));
              _ ← on_process (on_threads (condition_broadcast (die_cond parent) (die_lock parent)));
              _ ← on_process (on_threads (lock_release (die_lock parent)));
              mret (Some (set_ready pid d))
          end);
  mret (data, Some (thread_goto_userland (user_context (entry_point elf) argc sp))).

(** From the page table on. *)
Definition start_program (locals : start_locals) (executable : list Z) (data : option child_process_create_data_t) (me pagetable : Z) :
    M state (option child_process_create_data_t * option context_t) :=
  file ← on_process (on_files (vfs_open executable));
  '(ok, elf) ← (if file <? 0 then mret (0, lo_elf locals)
                else on_process (on_files (elf_parse_header (lo_ehdr locals) (lo_phdr locals) (lo_elf locals) file)));
  if ok =? 0 then data ← restore_process_state data (Some me) true file; mret (data, None)
  else
    ok ← load_program me pagetable file elf;
    if negb ok then data ← restore_process_state data (Some me) true file; mret (data, None)
    else enter_program locals executable data me pagetable file elf.

Definition process_start (locals : start_locals) (executable : list Z) (data : option child_process_create_data_t) :
    M state (option child_process_create_data_t * option context_t) :=
  _ ← (match data with
       | None => mret tt
       | Some d => parent ← on_process (get_process (cd_parent_pid d)); on_process (on_threads (lock_acquire (die_lock parent)))
       end);
  entry ← on_process (start_entry (match data with Some d => cd_parent_pid d | None => PROCESS_NO_PARENT_PID end));
  match entry with
  | None => data ← restore_process_state data None true (-1); mret (data, None)
  | Some me =>
      pagetable ← current_pagetable;
      if negb (pagetable =? 0) then data ← restore_process_state data (Some me) true (-1); mret (data, None)
      else
        tid ← on_process (on_threads thread_get_current_thread);
        pagetable ← on_memory (on_vm (vm_create_pagetable (lo_page locals) tid));
        if pagetable =? 0 then data ← restore_process_state data (Some me) true (-1); mret (data, None)
        else
          _ ← uninterrupted (on_process (on_threads (set_pagetable pagetable)));
          start_program locals executable data me pagetable
  end.
End code.
