(* ===== verification/SyscallTheorems.v ===== *)
(** * The file system calls are correct

    Reading and writing files through the calls of a process, whose buffers may
    cross pages and be longer than the buffer of the kernel. *)
From S2P Require Import Prelude Bitmap Libc Cpu Kmalloc Pagepool Semaphore Gbd Sync Tfs Vfs Mount Handles.
From S2P Require Import Waiting Thread Sleepq LockCond Kthreads Vm Tlb Space User ThreadSys Process Lifecycle Syscall.

(** ** Storing in pieces *)
Lemma stored_app u a xs u1 ys u2 :
  stored u a xs u1 -> stored u1 (a + zlen xs) ys u2 -> stored u a (xs ++ ys) u2.
Proof.
  intros (Ht1 & Ho1 & Hd1) (Ht2 & Ho2 & Hd2). rewrite Ht1 in *. split; [congruence|]. rewrite length_app. split.
  - intros p Hp. rewrite Ho2, Ho1; [done| |].
    + intros k Hk. apply Hp. lia.
    + intros k Hk. replace (a + zlen xs + k) with (a + (zlen xs + k)) by lia. apply Hp. lia.
  - intros Hna. assert (Hx : user_data u1 a xs) by (apply Hd1; intros i j ? ?; apply Hna; lia).
    assert (Hy : user_data u2 (a + zlen xs) ys).
    { apply Hd2. intros i j Hi Hj He. assert (zlen xs + i = zlen xs + j); [|lia]. apply Hna; [lia|lia|]. by rewrite !Z.add_assoc. }
    intros k x [Hk|[Hge Hk]]%lookup_app_Some.
    + pose proof (lookup_lt_Some _ _ _ Hk). specialize (Hx k x Hk). unfold user_byte in *. rewrite Ht2, Ht1 in *.
      destruct (user_addr (us_table u) (a + Z.of_nat k)) as [p|] eqn:Ep; [|done]. cbn in *. rewrite Ho2; [done|].
      intros j Hj Hp. assert (zlen xs + j = Z.of_nat k); [|lia]. apply Hna; [lia|lia|]. rewrite Ep, <- Hp. f_equal. lia.
    + specialize (Hy _ _ Hk). replace (a + zlen xs + Z.of_nat (k - length xs)) with (a + Z.of_nat k) in Hy by lia. done.
Qed.
Lemma stored_none u a a' u' : stored u a [] u' -> stored u a' [] u'.
Proof. intros (Ht & Ho & _). split; [done|]. split; [|by intros _ k x ?]. intros p _. apply Ho. cbn. lia. Qed.
(** Writable bytes are in the user segment. *)
Lemma writable_user t a : user_table t -> writable t a = true -> 4096 <= a < 2147483648.
Proof.
  intros Hu Hw. unfold writable in Hw. destruct (translate t (a / 4096)) as [m|] eqn:E; [|done]. apply Hu in E.
  pose proof (Z.div_mod a 4096 ltac:(lia)). pose proof (Z.mod_pos_bound a 4096 ltac:(lia)). lia.
Qed.
Lemma mapped_user t a : user_table t -> user_addr t a <> None -> 4096 <= a < 2147483648.
Proof.
  intros Hu Hw. unfold user_addr in Hw. destruct (translate t (a / 4096)) as [m|] eqn:E; [|done]. apply Hu in E.
  pose proof (Z.div_mod a 4096 ltac:(lia)). pose proof (Z.mod_pos_bound a 4096 ltac:(lia)). lia.
Qed.

(** ** The calling process *)
Section calls.
Context {L F T : Type} `{!HasCpu L, TS : !ThreadSys L, OF : !OpenFiles F, FC : !FileCalls F, TM : !Terminal T, !Symbols}.
Abbreviation state := (sys L F T).
Implicit Types (s : state) (t : pagetable) (h : Z).

Definition files_of s : F := ps_files (sy_proc s).
Definition memory_of s t : uspace := mk_uspace t (sy_ram s).
Definition handles_of s (me : Z) : list Z := filehandle (proc (sy_proc s) me).
Record calling s (me : Z) t : Prop := {
  ca_wf : table_wf (sy_proc s);
  ca_ts : ts_ok (ps_threads (sy_proc s));
  ca_me : ts_pid (ps_threads (sy_proc s)) = me /\ is_pid me;
  ca_table : vm_tables (sp_vm (ps_space (sy_proc s))) !! ts_table (ps_threads (sy_proc s)) = Some t;
  ca_ok : pt_ok t;
  ca_user : user_table t;
  ca_files : of_ok (files_of s)
}.
(** Only the files, the memory and the terminal differ. *)
Definition with_files (f : F) s : state :=
  mk_sys (mk_pstate (process_table (sy_proc s)) (process_table_lock (sy_proc s)) (ps_threads (sy_proc s)) (ps_space (sy_proc s)) f) (sy_ram s) (sy_tty s).
Definition with_ram (m : Z -> Z) s : state := mk_sys (sy_proc s) m (sy_tty s).
Definition with_tty (x : option T) s : state := mk_sys (sy_proc s) (sy_ram s) x.
Definition same_process s s' : Prop :=
  process_table (sy_proc s') = process_table (sy_proc s) /\ process_table_lock (sy_proc s') = process_table_lock (sy_proc s) /\
  ps_threads (sy_proc s') = ps_threads (sy_proc s) /\ ps_space (sy_proc s') = ps_space (sy_proc s).

Lemma wp_wpk {S A} K (m : M S A) Q (x : S) : wp m Q x -> wpk K m Q x.
Proof. unfold wp, wpk. by destruct (m x) as [[]|[]]. Qed.
Lemma wp_on_process {A} (m : M (pstate L F) A) (Q : A -> state -> Prop) s :
  wp m (fun a x => Q a (mk_sys x (sy_ram s) (sy_tty s))) (sy_proc s) -> wp (on_process m) Q s.
Proof. unfold wp, on_process. by destruct (m (sy_proc s)) as [[]|]. Qed.
Lemma wp_files {A} (m : M F A) (Q : A -> state -> Prop) s :
  wp m (fun a f => Q a (with_files f s)) (files_of s) -> wp (on_process (on_files m)) Q s.
Proof. intros Hm. apply wp_on_process, wp_on_files. exact Hm. Qed.
Lemma wp_on_tty {A} (m : M T A) x (Q : A -> state -> Prop) s :
  sy_tty s = Some x -> wp m (fun a y => Q a (with_tty (Some y) s)) x -> wp (on_tty m) Q s.
Proof. intros Hx. unfold wp, on_tty. rewrite Hx. by destruct (m x) as [[]|]. Qed.
Lemma wpk_on_user {A} K p t (m : M uspace A) (Q : A -> state -> Prop) s :
  vm_tables (sp_vm (ps_space (sy_proc s))) !! p = Some t ->
  wpk K m (fun a u => Q a (with_ram (us_ram u) s)) (memory_of s t) -> wpk K (on_user p m) Q s.
Proof. intros Ht. unfold wpk, on_user. rewrite Ht. unfold memory_of. by destruct (m _) as [[]|[]]. Qed.

Lemma calling_same s s' me t : calling s me t -> same_process s s' -> of_ok (files_of s') -> calling s' me t.
Proof.
  intros [[Hl Hw] Hts Hme Ht Hok Hu _] (E1 & _ & E3 & E4) Hf. split; rewrite ?E3, ?E4; try done.
  split; [unfold table_full; by rewrite E1|]. intros i Hi. unfold proc. rewrite E1. by apply Hw.
Qed.
Lemma handles_same s s' me : same_process s s' -> handles_of s' me = handles_of s me.
Proof. intros (E & _). unfold handles_of, proc. by rewrite E. Qed.

Lemma wp_pagetable s me t (Q : Z -> state -> Prop) :
  calling s me t -> Q (ts_table (ps_threads (sy_proc s))) s -> wp current_pagetable Q s.
Proof.
  intros Hc HQ. apply wp_on_process, wp_on_threads, get_table_spec; [apply Hc|]. by destruct s as [[] ? ?].
Qed.
Lemma wp_process s me t (Q : Z -> state -> Prop) : calling s me t -> Q me s -> wp current_process Q s.
Proof.
  intros [_ Hts [<- Hme] _ _ _ _] HQ. apply wp_bind, wp_on_process, wp_current_entry; [done|]. rewrite decide_True by done.
  apply wp_ret. by destruct s.
Qed.
Lemma wp_handle_index s me t h (Q : Z -> state -> Prop) : calling s me t ->
  (forall i, first_index (fun x => x =? h) (handles_of s me) i -> Q i s) -> wp (handle_index h me) Q s.
Proof.
  intros [[Hf Hw] _ [_ Hme] _ _ _ _] HQ. apply wp_bind, wp_on_process, wp_get_process; [done|done|].
  destruct (Hw me Hme) as [[_ Hlen] _].
  destruct (scan_first (Z.to_nat MAX_OPEN_FILES_PER_PROCESS) (fun x => Ret (x =? h)) (fun x => x =? h) (handles_of s me)) as (i & Hi & Hfirst).
  - unfold handles_of. rewrite Hlen. done.
  - by apply Forall_forall.
  - eapply wp_lift; [exact Hi|]. destruct s. by apply HQ.
Qed.
Lemma first_index_in h (l : list Z) i : first_index (fun x => x =? h) l i -> i < zlen l <-> h ∈ l.
Proof.
  intros Hf. split.
  - intros Hlt. destruct (proj2 (proj2 Hf) Hlt) as (x & Hx & ->%Z.eqb_eq). by eapply list_elem_of_lookup_2.
  - intros Hin. destruct (Z.lt_decidable i (zlen l)) as [|Hge]; [done|]. exfalso.
    pose proof (first_index_none _ _ _ Hf ltac:(lia)) as Hall. rewrite Forall_forall in Hall. specialize (Hall h Hin). by rewrite Z.eqb_refl in Hall.
Qed.
Lemma wp_check s me t h (Q : Z -> state -> Prop) : calling s me t ->
  Q (if decide (h ∈ handles_of s me) then 1 else VFS_NOT_OPEN) s -> wp (check_filehandle h me) Q s.
Proof.
  intros Hc HQ. apply wp_bind, (wp_handle_index s me t); [done|]. intros i Hi. apply wp_ret.
  destruct (proj2 (ca_wf _ _ _ Hc) me) as [[_ Hlen] _]; [apply Hc|]. pose proof (first_index_in _ _ _ Hi) as Hin.
  change (filehandle (proc (sy_proc s) me)) with (handles_of s me) in Hlen. rewrite Hlen in Hin.
  destruct (Z.ltb_spec i MAX_OPEN_FILES_PER_PROCESS); [rewrite decide_True in HQ by tauto|rewrite decide_False in HQ by (intros ?%Hin; lia)]; done.
Qed.

(** ** Reading *)
Definition chunks (n : Z) : nat := Z.to_nat ((n + 511) / 512).
Lemma chunks_less n k : 0 < n -> k = Z.min n 512 -> (chunks (n - k) < chunks n)%nat.
Proof.
  intros Hn ->. unfold chunks. destruct (Z.min_spec n 512) as [[Hlt ->]|[Hge ->]].
  - rewrite Z.sub_diag. change ((0 + 511) / 512) with 0. pose proof (Z.div_le_lower_bound (n + 511) 512 1 ltac:(lia) ltac:(lia)). lia.
  - replace (n - 512 + 511) with (n + 511 + (-1) * 512) by lia. rewrite Z.div_add by lia.
    pose proof (Z.div_le_lower_bound (n + 511) 512 1 ltac:(lia) ltac:(lia)). lia.
Qed.
Lemma same_process_refl s : same_process s s.
Proof. done. Qed.

(** What a read has done after [count] bytes. *)
Definition has_read s t h buffer b pos (x : Z * list Z) s' : Prop :=
  let '(count, temp) := x in
  0 <= count /\ zlen temp = 512 /\ same_process s s' /\ sy_tty s' = sy_tty s /\ of_same (files_of s) (files_of s') /\ of_ok (files_of s') /\
  of_file (files_of s') h (pos + count) b /\
  stored (memory_of s t) buffer (slice b (Z.to_nat pos) (Z.to_nat count)) (memory_of s' t).

Lemma read_chunk_run s me t h buffer length b pos count temp s' :
  let n := Z.min length (zlen b - pos) in
  calling s me t -> 0 < h -> 0 <= pos <= zlen b -> length < 2147483648 -> 0 <= count <= n -> zlen b < 2147483648 ->
  (forall i, 0 <= i < n -> writable t (buffer + i) = true) -> is_u32 buffer ->
  has_read s t h buffer b pos (count, temp) s' ->
  wpk False (read_chunk (ts_table (ps_threads (sy_proc s))) h buffer length (count, temp)) (fun r s2 =>
    match r with
    | inl (count', temp') => has_read s t h buffer b pos (count', temp') s2 /\ count' <= n /\ count < length /\
        count' = count + Z.min (length - count) 512
    | inr r => r = Some n /\ exists temp', has_read s t h buffer b pos (n, temp') s2 end) s'.
Proof.
  intros n Hc Hh Hpos Hlen Hcount Hb Hw Hbuf Hread. pose proof Hread as (_ & Htemp & Hsame & Htty & Hof & Hok & Hfile & Hst).
  unfold read_chunk. destruct (Z.ltb_spec count length) as [Hlt|Hge].
  2: { apply wpk_ret. assert (n = count) as Hn by (unfold n in *; lia). split; [by rewrite Hn|]. exists temp. by rewrite Hn. }
  rewrite (proj2 (Z.eqb_neq h FILEHANDLE_STDIN)) by (unfold FILEHANDLE_STDIN; lia). cbn [negb andb].
  set (k := Z.min (length - count) CONFIG_SYSCALL_MAX_BUFFER_SIZE). assert (Hk : 0 < k <= 512) by (unfold k, CONFIG_SYSCALL_MAX_BUFFER_SIZE; lia).
  apply wpk_bind, wp_wpk, wp_files. eapply wp_mono; [apply (vfs_read_law _ h (pos + count) b temp k); [done|done|lia|lia]|].
  intros a f (-> & Hokf & Hoff & Hff). set (r := Z.min k (zlen b - (pos + count))) in *.
  assert (Hr : 0 <= r <= k /\ (r < k -> count + r = n) /\ count + r <= n /\ pos + count + r <= zlen b) by (unfold r, n, k, CONFIG_SYSCALL_MAX_BUFFER_SIZE in *; lia).
  cbn [fst snd]. rewrite (proj2 (Z.ltb_ge r 0)) by lia.
  assert (Hxs : zlen (slice b (Z.to_nat (pos + count)) (Z.to_nat r)) = r) by (rewrite length_slice; lia).
  assert (Hs1 : same_process s (with_files f s')) by (destruct s' as [[] ? ?]; exact Hsame).
  pose proof (calling_same _ _ _ _ Hc Hs1 Hokf) as Hc1.
  apply wpk_bind, (wpk_on_user _ _ t).
  { destruct Hs1 as (_ & _ & _ & ->). apply Hc. }
  eapply wpk_mono; [eapply (wpk_weaken _ False); [apply write_data_run; try apply Hc; [apply u32_range|lia|rewrite length_splice; lia|unfold COPY_FUEL; lia]|]|].
  { intros (i & Hi & Hno). cbn [us_table memory_of] in Hno.
    assert (Hu : is_u32 (buffer + count)) by (pose proof (writable_user t _ (ca_user _ _ _ Hc) (Hw count ltac:(lia))); unfold is_u32; lia).
    rewrite u32_id, <- Z.add_assoc in Hno by done. rewrite Hw in Hno by lia. done. }
  intros r' u [[-> Hu]|(_ & i & Hi & Hno & _)].
  2: { exfalso. cbn [us_table memory_of] in Hno.
    assert (Hu : is_u32 (buffer + count)) by (pose proof (writable_user t _ (ca_user _ _ _ Hc) (Hw count ltac:(lia))); unfold is_u32; lia).
    rewrite u32_id, <- Z.add_assoc in Hno by done. specialize (Hw (count + i) ltac:(lia)). unfold writable, user_addr in *.
    by destruct (translate t _) as [[? ?]|]. }
  cbn [Z.eqb RETVAL_SYSCALL_HELPERS_OK RETVAL_SYSCALL_HELPERS_NOK].
  assert (Htake : take (Z.to_nat r) (splice temp 0 (slice b (Z.to_nat (pos + count)) (Z.to_nat r))) = slice b (Z.to_nat (pos + count)) (Z.to_nat r)).
  { unfold splice. rewrite take_0. cbn [app]. rewrite take_app_le by lia. apply take_ge. lia. }
  rewrite Htake in Hu. apply wpk_bind. eapply wpk_lift; [unfold int; rewrite decide_True; [done|unfold is_i32; lia]|].
  assert (Hdone : forall temp', zlen temp' = 512 -> has_read s t h buffer b pos (count + r, temp') (with_ram (us_ram u) (with_files f s'))).
  { intros temp' Ht'. split; [lia|]. split; [done|]. split; [exact Hs1|]. split; [exact Htty|]. split.
    - intros k'. rewrite (Hoff k'). apply Hof.
    - split; [exact Hokf|]. split; [by rewrite Z.add_assoc|].
      assert (slice b (Z.to_nat pos) (Z.to_nat (count + r)) = slice b (Z.to_nat pos) (Z.to_nat count) ++ slice b (Z.to_nat (pos + count)) (Z.to_nat r)) as ->.
      { replace (Z.to_nat (pos + count)) with (Z.to_nat pos + Z.to_nat count)%nat by lia. rewrite slice_app_slice. f_equal. lia. }
      assert (Heq : mk_uspace t (us_ram u) = u) by (destruct u, Hu as [He _]; cbn in He; by subst).
      unfold memory_of at 2. cbn [sy_ram with_ram]. rewrite Heq. eapply stored_app; [exact Hst|].
      rewrite length_slice by lia. replace (Z.of_nat (Z.to_nat count)) with count by lia.
      destruct (Z.eq_dec r 0) as [Hr0|Hr0].
      + assert (slice b (Z.to_nat (pos + count)) (Z.to_nat r) = []) as Hnil by (rewrite Hr0; done). rewrite Hnil in *. by eapply stored_none.
      + rewrite u32_id in Hu; [exact Hu|]. pose proof (writable_user t _ (ca_user _ _ _ Hc) (Hw count ltac:(lia))). unfold is_u32. lia. }
  assert (Hlt' : zlen (splice temp 0 (slice b (Z.to_nat (pos + count)) (Z.to_nat r))) = 512) by (rewrite length_splice; lia).
  apply wpk_ret. destruct (Z.ltb_spec r k) as [Hrk|Hrk].
  - assert (count + r = n) as Hn by tauto. rewrite <- Hn. split; [done|]. eexists. by apply Hdone.
  - split; [by apply Hdone|]. split; [lia|]. split; [done|]. unfold r, k, CONFIG_SYSCALL_MAX_BUFFER_SIZE in *. lia.
Qed.

Lemma syscall_read_run s me t h buffer length b pos temp fuel :
  let n := Z.min length (zlen b - pos) in
  calling s me t -> 0 < h -> h ∈ handles_of s me -> of_file (files_of s) h pos b -> pos <= zlen b -> 0 <= length < 2147483648 -> zlen temp = 512 ->
  (forall i, 0 <= i < n -> writable t (buffer + i) = true) -> is_u32 buffer -> (chunks length < fuel)%nat ->
  wp (syscall_handle_read fuel temp h buffer length) (fun r s' => r = Some n /\ exists temp', has_read s t h buffer b pos (n, temp') s') s.
Proof.
  intros n Hc Hh Hin Hfile Hend Hlen Htemp Hw Hbuf Hfuel. unfold syscall_handle_read. rewrite (proj2 (Z.ltb_ge h 0)) by lia.
  destruct (of_file_open _ _ _ _ Hfile) as (_ & Hpos & Hb).
  apply wp_bind, (wp_pagetable s me t); [done|]. apply wp_bind, (wp_process s me t); [done|].
  apply wp_bind, (wp_check s me t); [done|]. rewrite decide_True by done. cbn [Z.eqb VFS_NOT_OPEN andb].
  apply wp_wpk_False.
  apply (wpk_loop False _ (fun x s' => has_read s t h buffer b pos x s' /\ x.1 <= n) (fun x => chunks (length - x.1))).
  - intros [count temp'] s' [Hr Hn]. cbn [fst] in *. pose proof Hr as (H0 & _).
    eapply wpk_mono; [apply (read_chunk_run s me t h buffer length b pos count temp' s'); first [done|lia]|].
    intros [[count' temp'']|r] s2; [|done]. intros (Hr2 & Hn2 & Hlt & He). split; [done|]. cbn [fst]. subst count'.
    replace (length - (count + Z.min (length - count) 512)) with (length - count - Z.min (length - count) 512) by lia.
    apply chunks_less; [lia|done].
  - cbn [fst]. by rewrite Z.sub_0_r.
  - cbn [fst]. split; [|lia]. split; [done|]. split; [done|]. split; [done|]. split; [done|]. split; [done|]. split; [apply Hc|].
    split; [by rewrite Z.add_0_r|]. apply stored_nil.
Qed.

(** ** Writing *)
(** Where the bytes go: [sink] takes them in pieces, [cap] of them at most, and
    [taken] is what has become of the first so many. *)
Definition sink h (temp : list Z) (k : Z) : M state Z :=
  if h =? FILEHANDLE_STDOUT then _ ← on_tty (gcd_write temp k); mret k else on_process (on_files (vfs_write h temp k)).
Definition taking s (taken : Z -> state -> Prop) (count : Z) s' : Prop :=
  same_process s s' /\ sy_ram s' = sy_ram s /\ of_ok (files_of s') /\ taken count s'.
Definition sinks s h (xs : list Z) (cap : Z) (taken : Z -> state -> Prop) : Prop :=
  forall count k temp s', taking s taken count s' -> 0 < k <= 512 -> 0 <= count <= cap -> count + k <= zlen xs ->
    is_buffer 512 temp -> take (Z.to_nat k) temp = slice xs (Z.to_nat count) (Z.to_nat k) ->
    wp (sink h temp k) (fun w s2 => w = Z.min k (cap - count) /\ taking s taken (count + w) s2) s'.

Lemma user_data_chunk u a xs ys i n :
  user_data u a xs -> user_data u (a + i) ys -> zlen ys = n -> 0 <= i -> i + n <= zlen xs -> ys = slice xs (Z.to_nat i) (Z.to_nat n).
Proof.
  intros Hx Hy Hn Hi Hlen. apply (list_eq_same_length _ _ (Z.to_nat n)); [rewrite length_slice; lia|lia|].
  intros k x y Hk Hxk Hyk. specialize (Hy _ _ Hxk). rewrite lookup_slice, decide_True in Hyk by lia.
  specialize (Hx _ _ Hyk). replace (a + Z.of_nat (Z.to_nat i + k)) with (a + i + Z.of_nat k) in Hx by lia. congruence.
Qed.

Lemma write_chunk_run s me t h buffer xs cap taken count temp s' :
  let n := Z.min (zlen xs) cap in
  calling s me t -> user_data (memory_of s t) buffer xs -> Forall is_byte xs -> zlen xs < 2147483648 -> is_u32 buffer ->
  sinks s h xs cap taken -> 0 <= count <= n -> is_buffer 512 temp -> taking s taken count s' ->
  wpk False (write_chunk (ts_table (ps_threads (sy_proc s))) h buffer (zlen xs) (count, temp)) (fun r s2 =>
    match r with
    | inl (count', temp') => taking s taken count' s2 /\ is_buffer 512 temp' /\ count' <= n /\ count < zlen xs /\
        count' = count + Z.min (zlen xs - count) 512
    | inr r => r = Some n /\ taking s taken n s2 end) s'.
Proof.
  intros n Hc Hdata Hby Hlen Hbuf Hsink Hcount [Htemp Htb] Htk. pose proof Htk as (Hsame & Hram & Hok & _).
  unfold write_chunk. destruct (Z.ltb_spec count (zlen xs)) as [Hlt|Hge].
  2: { apply wpk_ret. assert (n = count) as -> by (unfold n in *; lia). by split. }
  set (k := Z.min (zlen xs - count) CONFIG_SYSCALL_MAX_BUFFER_SIZE). assert (Hk : 0 < k <= 512 /\ count + k <= zlen xs) by (unfold k, CONFIG_SYSCALL_MAX_BUFFER_SIZE; lia).
  pose proof (calling_same _ _ _ _ Hc Hsame Hok) as Hc1.
  assert (Hmem : memory_of s' t = memory_of s t) by (unfold memory_of; by rewrite Hram).
  assert (Hbyte : forall i, 0 <= i < zlen xs -> user_byte (memory_of s t) (buffer + i) <> None).
  { intros i Hi. destruct (lookup_lt_is_Some_2 xs (Z.to_nat i)) as [x Hx]; [lia|]. specialize (Hdata _ _ Hx).
    rewrite Z2Nat.id in Hdata by lia. by rewrite Hdata. }
  assert (Hu : u32 (buffer + count) = buffer + count).
  { apply u32_id. assert (Ha : user_addr t (buffer + count) <> None).
    { intros He. destruct (Hbyte count); [lia|]. unfold user_byte. cbn [us_table memory_of]. by rewrite He. }
    pose proof (mapped_user t _ (ca_user _ _ _ Hc) Ha). unfold is_u32. lia. }
  rewrite Hu. apply wpk_bind, (wpk_on_user _ _ t).
  { destruct Hsame as (_ & _ & _ & ->). apply Hc. }
  rewrite Hmem.
  eapply wpk_mono; [eapply (wpk_weaken _ False); [apply read_data_run; try apply Hc; [rewrite <- Hu; apply u32_range|lia|lia|unfold COPY_FUEL; lia]|]|].
  { intros (i & Hi & Hno). rewrite <- Z.add_assoc in Hno. by destruct (Hbyte (count + i) ltac:(lia)). }
  intros [r temp'] u (-> & ys & Hys & Hout & Hr). cbn [fst snd] in *.
  destruct Hr as [[-> Hn]|(_ & Hn & Hno)].
  2: { exfalso. rewrite <- Z.add_assoc in Hno. by destruct (Hbyte (count + zlen ys) ltac:(lia)). }
  cbn [Z.eqb RETVAL_SYSCALL_HELPERS_OK RETVAL_SYSCALL_HELPERS_NOK].
  pose proof (user_data_chunk _ _ _ _ count k Hdata Hys Hn ltac:(lia) ltac:(lia)) as Heq. subst ys temp'.
  set (temp' := splice temp 0 (slice xs (Z.to_nat count) (Z.to_nat k))).
  assert (Htemp' : is_buffer 512 temp').
  { split; [unfold temp'; rewrite length_splice; lia|]. unfold temp', splice, slice. rewrite take_0. cbn [app].
    apply Forall_app. split; [by apply Forall_take, Forall_drop|by apply Forall_drop]. }
  assert (Htake : take (Z.to_nat k) temp' = slice xs (Z.to_nat count) (Z.to_nat k)).
  { unfold temp', splice. rewrite take_0. cbn [app]. rewrite take_app_le by lia. apply take_ge. lia. }
  assert (Hs1 : with_ram (us_ram (memory_of s t)) s' = s') by (unfold with_ram, memory_of; cbn; rewrite <- Hram; by destruct s').
  rewrite Hs1. apply wpk_bind, wp_wpk. change (if h =? FILEHANDLE_STDOUT then _ else _) with (sink h temp' k).
  eapply wp_mono; [apply (Hsink count k temp' s'); first [done|lia|unfold n in *; lia]|].
  intros w s2 [-> Htk2]. set (w := Z.min k (cap - count)) in *. assert (Hw : 0 <= w <= k /\ (w < k -> count + w = n) /\ count + w <= n) by (unfold w, n, k, CONFIG_SYSCALL_MAX_BUFFER_SIZE in *; lia).
  assert (Hint : forall z, 0 <= z <= n -> int z = Ret z) by (intros z Hz; unfold int; rewrite decide_True; [done|unfold is_i32, n in *; lia]).
  destruct (Z.ltb_spec w k) as [Hwk|Hwk]; apply wpk_bind; (eapply wpk_lift; [apply Hint; lia|]); apply wpk_ret.
  - assert (n = count + w) as -> by (symmetry; tauto). by split.
  - assert (k = w) as Hkw by lia. rewrite Hkw. split; [done|]. split; [done|]. split; [lia|]. split; [done|].
    rewrite <- Hkw. unfold k, CONFIG_SYSCALL_MAX_BUFFER_SIZE. done.
Qed.

Lemma syscall_write_run s me t h buffer xs cap taken temp fuel :
  let n := Z.min (zlen xs) cap in
  calling s me t -> 0 <= h -> h ∈ handles_of s me \/ h = FILEHANDLE_STDOUT -> user_data (memory_of s t) buffer xs -> Forall is_byte xs ->
  zlen xs < 2147483648 -> is_u32 buffer -> is_buffer 512 temp -> (chunks (zlen xs) < fuel)%nat -> 0 <= cap ->
  sinks s h xs cap taken -> taken 0 s ->
  wp (syscall_handle_write fuel temp h buffer (zlen xs)) (fun r s' => r = Some n /\ taking s taken n s') s.
Proof.
  intros n Hc Hh Hin Hdata Hby Hlen Hbuf Htemp Hfuel Hcap Hsink H0. unfold syscall_handle_write. rewrite (proj2 (Z.ltb_ge h 0)) by lia.
  apply wp_bind, (wp_pagetable s me t); [done|]. apply wp_bind, (wp_process s me t); [done|].
  apply wp_bind, (wp_check s me t); [done|].
  assert (Hgo : ((if decide (h ∈ handles_of s me) then 1 else VFS_NOT_OPEN) =? VFS_NOT_OPEN) && negb (h =? FILEHANDLE_STDOUT) = false).
  { destruct Hin as [Hin| ->]; [by rewrite decide_True|by rewrite Z.eqb_refl, andb_false_r]. }
  rewrite Hgo. apply wp_wpk_False.
  apply (wpk_loop False _ (fun x s' => taking s taken x.1 s' /\ is_buffer 512 x.2 /\ 0 <= x.1 <= n) (fun x => chunks (zlen xs - x.1))).
  - intros [count temp'] s' (Htk & Ht' & Hn). cbn [fst snd] in *.
    eapply wpk_mono; [by apply (write_chunk_run s me t h buffer xs cap taken count temp' s')|].
    intros [[count' temp'']|r] s2; [|done]. intros (Htk2 & Ht2 & Hn2 & Hlt & He). cbn [fst snd]. split; [split; [done|]; split; [done|lia]|]. subst count'.
    replace (zlen xs - (count + Z.min (zlen xs - count) 512)) with (zlen xs - count - Z.min (zlen xs - count) 512) by lia.
    apply chunks_less; [lia|done].
  - cbn [fst]. by rewrite Z.sub_0_r.
  - cbn [fst snd]. split; [|split; [done|lia]]. split; [done|]. split; [done|]. split; [apply Hc|done].
Qed.

(** A file takes what fits between the position and its end. *)
Definition in_file s h pos b (xs : list Z) (count : Z) s' : Prop :=
  sy_tty s' = sy_tty s /\ of_same (files_of s) (files_of s') /\
  of_file (files_of s') h (pos + count) (splice b (Z.to_nat pos) (take (Z.to_nat count) xs)).
Lemma file_sinks s h pos b xs :
  h <> FILEHANDLE_STDOUT -> 0 <= pos <= zlen b -> sinks s h xs (zlen b - pos) (in_file s h pos b xs).
Proof.
  intros Hh Hpos count k temp s' (Hsame & Hram & Hok & Htty & Hof & Hf) Hk Hcount Hlen [Htemp Htb] Htake.
  unfold sink. rewrite (proj2 (Z.eqb_neq _ _) Hh). apply wp_files.
  assert (Hxs : length (take (Z.to_nat count) xs) = Z.to_nat count) by (rewrite length_take; lia).
  assert (Hb : zlen (splice b (Z.to_nat pos) (take (Z.to_nat count) xs)) = zlen b) by (rewrite length_splice; lia).
  eapply wp_mono; [apply (vfs_write_law _ h _ _ temp k Hok Hf); [lia|lia|done]|]. cbv zeta. rewrite Hb.
  replace (zlen b - (pos + count)) with (zlen b - pos - count) by lia. set (w := Z.min k (zlen b - pos - count)).
  intros a f (-> & Hokf & Hoff & Hff). split; [done|].
  split; [destruct s' as [[] ? ?]; exact Hsame|]. split; [exact Hram|]. split; [exact Hokf|]. split; [exact Htty|].
  split; [intros j; rewrite (Hoff j); apply Hof|]. rewrite Z.add_assoc.
  assert (Hpiece : take (Z.to_nat w) temp = slice xs (Z.to_nat count) (Z.to_nat w)).
  { transitivity (take (Z.to_nat w) (take (Z.to_nat k) temp)); [rewrite take_take; f_equal; lia|]. rewrite Htake. unfold slice. rewrite take_take. f_equal. lia. }
  rewrite Hpiece in Hff. replace (Z.to_nat (pos + count)) with (Z.to_nat pos + length (take (Z.to_nat count) xs))%nat in Hff by lia.
  rewrite splice_splice_app in Hff by (rewrite length_slice; lia).
  replace (Z.to_nat (count + w)) with (Z.to_nat count + Z.to_nat w)%nat by lia.
  rewrite <- take_take_drop. exact Hff.
Qed.

(** The terminal takes everything. *)
Definition on_terminal s (x : T) (xs : list Z) (count : Z) s' : Prop :=
  files_of s' = files_of s /\ exists y, sy_tty s' = Some y /\ tm_ok y /\ tm_typed y = tm_typed x /\
    tm_written y = tm_written x ++ take (Z.to_nat count) xs.
Lemma terminal_sinks s x xs : sinks s FILEHANDLE_STDOUT xs (zlen xs) (on_terminal s x xs).
Proof.
  intros count k temp s' (Hsame & Hram & Hok & Hf & y & Hy & Hyok & Hty & Hwr) Hk Hcount Hlen [Htemp Htb] Htake.
  unfold sink. rewrite Z.eqb_refl. apply wp_bind, (wp_on_tty _ y); [done|].
  eapply wp_mono; [apply (gcd_write_law y temp k Hyok); [lia|done]|]. intros a z (_ & Hzok & Hzt & Hzw). apply wp_ret.
  replace (Z.min k (zlen xs - count)) with k by lia. split; [done|]. split; [done|]. split; [done|]. split; [done|].
  split; [done|]. exists z. split; [done|]. split; [done|]. split; [congruence|]. rewrite Hzw, Hwr, Htake, <- (assoc_L (++)).
  replace (Z.to_nat (count + k)) with (Z.to_nat count + Z.to_nat k)%nat by lia. by rewrite <- take_take_drop.
Qed.

(** ** Whose files *)
(** Every handle of a process is an open file, and of no other process. *)
Definition isolated s : Prop := forall i, is_pid i ->
  NoDup (filter (fun h => 0 < h) (handles_of s i)) /\
  forall h, h ∈ handles_of s i -> h = FILEHANDLE_UNUSED \/
    0 < h /\ of_open (files_of s) h /\ forall j, is_pid j -> h ∈ handles_of s j -> j = i.

Definition put_handle me i h s : state :=
  let x := sy_proc s in
  mk_sys (set_proc me (set_filehandle (<[Z.to_nat i := h]> (handles_of s me)) (proc x me)) x) (sy_ram s) (sy_tty s).
Lemma wp_set_handle s me t i h (Q : unit -> state -> Prop) :
  calling s me t -> 0 <= i < MAX_OPEN_FILES_PER_PROCESS -> Q tt (put_handle me i h s) -> wp (set_handle me i h) Q s.
Proof.
  intros [[Hf Hw] _ [_ Hme] _ _ _ _] Hi HQ. apply wp_bind, wp_on_process, wp_get_process; [done|done|].
  destruct (Hw me Hme) as [[_ Hlen] _]. apply wp_bind. eapply wp_lift; [apply rset_in; unfold MAX_OPEN_FILES_PER_PROCESS in *; lia|].
  apply wp_on_process, wp_put_process; [by destruct s|done|]. by destruct s.
Qed.
Lemma handles_put s me t i h j : calling s me t -> 0 <= i < MAX_OPEN_FILES_PER_PROCESS -> is_pid j ->
  handles_of (put_handle me i h s) j = if j =? me then <[Z.to_nat i := h]> (handles_of s me) else handles_of s j.
Proof.
  intros [[Hf Hw] _ [_ Hme] _ _ _ _] Hi Hj. unfold handles_of at 1. cbn [sy_proc put_handle].
  rewrite proc_set by done. by destruct (j =? me).
Qed.

Lemma filter_insert_same (l : list Z) n x y : l !! n = Some x -> ~ 0 < x -> ~ 0 < y ->
  filter (fun h => 0 < h) (<[n := y]> l) = filter (fun h => 0 < h) l.
Proof.
  intros Hx H1 H2. rewrite (insert_take_drop l n y) by (by eapply lookup_lt_Some). rewrite <- (take_drop_middle l n x Hx) at 3.
  by rewrite !filter_app, !filter_cons_False.
Qed.
Lemma nodup_filter_insert (l : list Z) n x y : l !! n = Some x -> y ∉ l ->
  NoDup (filter (fun h => 0 < h) l) -> NoDup (filter (fun h => 0 < h) (<[n := y]> l)).
Proof.
  intros Hx Hy. rewrite (insert_take_drop l n y) by (by eapply lookup_lt_Some). rewrite <- (take_drop_middle l n x Hx) in Hy |- * at 1.
  rewrite !filter_app, !filter_cons. rewrite elem_of_app, elem_of_cons in Hy.
  intros (H1 & H2 & H3)%NoDup_app. apply NoDup_app. split; [done|]. assert (Hd : NoDup (filter (fun h => 0 < h) (drop (S n) l))).
  { destruct (decide (0 < x)); [by apply NoDup_cons in H3 as [_ ?]|done]. }
  assert (Hrest : forall z, z ∈ filter (fun h => 0 < h) (take n l) -> z ∉ filter (fun h => 0 < h) (drop (S n) l)).
  { intros z Hz Hz'. apply (H2 z Hz). destruct (decide (0 < x)); [by right|done]. }
  clear H2 H3. destruct (decide (0 < y)).
  - split; [|apply NoDup_cons; split; [intros [_ ?]%list_elem_of_filter; tauto|done]].
    intros z Hz [->|Hz']%elem_of_cons; [apply list_elem_of_filter in Hz as [_ ?]; tauto|by apply (Hrest z)].
  - by split.
Qed.

Lemma elem_of_insert (l : list Z) n x y : x ∈ <[n := y]> l -> x = y \/ x ∈ l.
Proof.
  intros [k Hk]%list_elem_of_lookup. destruct (decide (k = n)) as [->|Hne].
  - left. destruct (decide (n < length l)%nat); [by rewrite list_lookup_insert_eq in Hk by done; injection Hk|].
    rewrite list_insert_ge in Hk by lia. apply lookup_lt_Some in Hk. lia.
  - rewrite list_lookup_insert_ne in Hk by done. right. by eapply list_elem_of_lookup_2.
Qed.
Lemma calling_put s me t i h : calling s me t -> 0 <= i < MAX_OPEN_FILES_PER_PROCESS -> calling (put_handle me i h s) me t.
Proof.
  intros Hc Hi. pose proof Hc as [[Hf Hw] Hts Hme Ht Hok Hu Hfi]. split; try done. destruct (Hw me (proj2 Hme)) as [[Hn Hl] Hcd].
  apply set_proc_wf; [by split|apply Hme|]. split; [split; [done|]|done]. cbn. by rewrite length_insert.
Qed.

(** The path of a call, read into the buffer. *)
Lemma read_path_run s me t src temp str (Q : Z * list Z -> state -> Prop) :
  calling s me t -> is_u32 src -> is_buffer 512 temp -> user_string (memory_of s t) src str -> zlen str < VFS_PATH_LENGTH ->
  Q (zlen str + 1, splice temp 0 (str ++ [0])) s ->
  wp (on_user (ts_table (ps_threads (sy_proc s))) (read_string_from_vm COPY_FUEL src temp VFS_PATH_LENGTH)) Q s.
Proof.
  intros Hc Hsrc [Htemp _] Hstr Hlen HQ. apply wp_wpk_False, (wpk_on_user _ _ t); [apply Hc|].
  eapply wpk_mono; [eapply wpk_weaken; [apply (read_string_run COPY_FUEL _ src temp VFS_PATH_LENGTH); try apply Hc; [done|unfold VFS_PATH_LENGTH; lia|unfold VFS_PATH_LENGTH; lia|unfold COPY_FUEL; lia]|]|].
  - intros (i & Hi & Hno & Hall). specialize (Hall str Hstr).
    destruct Hstr as [Hd _]. destruct (lookup_lt_is_Some_2 (str ++ [0]) (Z.to_nat i)) as [x Hx]; [rewrite length_app; cbn; lia|].
    specialize (Hd _ _ Hx). rewrite Z2Nat.id in Hd by lia. congruence.
  - intros r u (-> & [(str' & Hs' & _ & ->)|(_ & _ & Hno)]).
    + assert (str' = str) as -> by (by eapply user_string_unique). by destruct s.
    + specialize (Hno str Hstr). lia.
Qed.

Lemma once_removed (l : list Z) n x y : l !! n = Some x -> 0 < x -> x <> y -> NoDup (filter (fun h => 0 < h) l) -> x ∉ <[n := y]> l.
Proof.
  intros Hx H0 Hne Hn. rewrite (insert_take_drop l n y) by (by eapply lookup_lt_Some). rewrite <- (take_drop_middle l n x Hx) in Hn.
  rewrite filter_app, filter_cons_True in Hn by done. apply NoDup_app in Hn as (_ & H2 & [H3 _]%NoDup_cons).
  rewrite elem_of_app, elem_of_cons. intros [Hin|[?|Hin]]; [|done|].
  - apply (H2 x); [by apply list_elem_of_filter|by left].
  - apply H3. by apply list_elem_of_filter.
Qed.

(** The new state of a call that changes one handle of the caller. *)
Lemma isolated_put s s' me i x h :
  isolated s -> is_pid me -> handles_of s me !! Z.to_nat i = Some x ->
  (forall j, is_pid j -> handles_of s' j = if j =? me then <[Z.to_nat i := h]> (handles_of s me) else handles_of s j) ->
  (h = FILEHANDLE_UNUSED /\ 0 < x /\ (forall k, k <> x -> of_open (files_of s') k <-> of_open (files_of s) k) \/
   x = FILEHANDLE_UNUSED /\ 0 < h /\ ~ of_open (files_of s) h /\ of_open (files_of s') h /\
     (forall k, k <> h -> of_open (files_of s') k <-> of_open (files_of s) k)) ->
  isolated s'.
Proof.
  intros Hiso Hme Hx Hh Hcase j Hj. destruct (Hiso me Hme) as [Hn _]. pose proof (Hiso j Hj) as [Hnj Hall].
  assert (Hxin : x ∈ handles_of s me) by (by eapply list_elem_of_lookup_2).
  destruct Hcase as [(-> & Hx0 & Hopen)|(-> & Hh0 & Hno & Hyes & Hopen)].
  - assert (Hgone : x ∉ <[Z.to_nat i := FILEHANDLE_UNUSED]> (handles_of s me)).
    { apply (once_removed _ _ _ _ Hx Hx0); [unfold FILEHANDLE_UNUSED; lia|done]. }
    assert (Hnot : forall k y, is_pid k -> y ∈ handles_of s' k -> y <> FILEHANDLE_UNUSED -> y ∈ handles_of s k /\ y <> x).
    { intros k y Hk Hy Hy0. rewrite Hh in Hy by done. destruct (Z.eqb_spec k me) as [->|Hne].
      - split; [by apply elem_of_insert in Hy as [?|?]|]. intros ->. done.
      - split; [done|]. intros ->. destruct (Hiso k Hk) as [_ Hk2]. destruct (Hk2 x Hy) as [?|(_ & _ & Huniq)]; [done|]. apply Hne. symmetry. by apply Huniq. }
    split.
    + rewrite Hh by done. destruct (Z.eqb_spec j me) as [->|]; [|done].
      destruct (decide (FILEHANDLE_UNUSED ∈ handles_of s me)) as [Hin|Hnin]; [|by eapply nodup_filter_insert].
      rewrite (insert_take_drop _ _ _) by (by eapply lookup_lt_Some). rewrite <- (take_drop_middle _ _ _ Hx) in Hn.
      rewrite filter_app, filter_cons_False by (unfold FILEHANDLE_UNUSED; lia). rewrite filter_app, filter_cons_True in Hn by done.
      apply NoDup_app in Hn as (H1 & H2 & [_ H3]%NoDup_cons). apply NoDup_app. split; [done|]. split; [|done].
      intros z Hz Hz'. apply (H2 z Hz). by right.
    + intros y Hy. destruct (decide (y = FILEHANDLE_UNUSED)) as [->|Hy0]; [by left|right].
      destruct (Hnot j y Hj Hy Hy0) as [Hin Hyx]. destruct (Hall y Hin) as [?|(Hpos & Hop & Huniq)]; [done|].
      split; [done|]. split; [by apply Hopen|]. intros k Hk Hyk. apply Huniq; [done|]. by apply (Hnot k y Hk Hyk).
  - assert (Hnew : forall k, is_pid k -> h ∉ handles_of s k).
    { intros k Hk Hin. destruct (Hiso k Hk) as [_ Hk2]. destruct (Hk2 h Hin) as [?|(_ & ? & _)]; [unfold FILEHANDLE_UNUSED in *; lia|done]. }
    split.
    + rewrite Hh by done. destruct (j =? me); [|done]. eapply nodup_filter_insert; [exact Hx|by apply Hnew|done].
    + intros y Hy. rewrite Hh in Hy by done. assert (Hcase : y ∈ handles_of s j \/ j = me /\ y = h).
      { destruct (Z.eqb_spec j me) as [->|]; [|by left]. apply elem_of_insert in Hy as [->|]; [by right|by left]. }
      assert (Hback : forall k, is_pid k -> y ∈ handles_of s' k -> y ∈ handles_of s k \/ k = me /\ y = h).
      { intros k Hk Hyk. rewrite Hh in Hyk by done. destruct (Z.eqb_spec k me) as [->|]; [|by left]. apply elem_of_insert in Hyk as [->|]; [by right|by left]. }
      destruct Hcase as [Hin|[-> ->]].
      * destruct (Hall y Hin) as [?|(Hpos & Hop & Huniq)]; [by left|right]. assert (y <> h) by (intros ->; by apply (Hnew j Hj)).
        split; [done|]. split; [by apply Hopen|]. intros k Hk Hyk. destruct (Hback k Hk Hyk) as [?|[_ ?]]; [by apply Huniq|done].
      * right. split; [done|]. split; [done|]. intros k Hk Hyk. destruct (Hback k Hk Hyk) as [Hin'|[? _]]; [by destruct (Hnew k Hk)|done].
Qed.
Lemma isolated_files s f : isolated s -> of_same (files_of s) f -> isolated (with_files f s).
Proof.
  intros Hiso Hf j Hj. destruct (Hiso j Hj) as [Hn Hall]. split; [exact Hn|]. intros h Hh. destruct (Hall h Hh) as [?|(? & ? & ?)]; [by left|right].
  split; [done|]. split; [by apply Hf|done].
Qed.
Lemma calling_files s me t f : calling s me t -> of_ok f -> calling (with_files f s) me t.
Proof. intros Hc Hf. by apply (calling_same s _ me t Hc). Qed.

(** What opening and closing leave. *)
Definition only_handles s me s' : Prop :=
  sy_ram s' = sy_ram s /\ sy_tty s' = sy_tty s /\ forall j, is_pid j -> j <> me -> handles_of s' j = handles_of s j.

Lemma open_call_run s me t src temp str :
  calling s me t -> isolated s -> is_u32 src -> is_buffer 512 temp ->
  user_string (memory_of s t) src str -> Forall is_byte str -> zlen str < VFS_PATH_LENGTH ->
  wp (syscall_handle_open temp src) (fun r s' => calling s' me t /\ isolated s' /\ only_handles s me s' /\ exists a, r = Some a /\
    if decide (FILEHANDLE_UNUSED ∈ handles_of s me) then
      (a < 0 /\ handles_of s' me = handles_of s me /\ of_same (files_of s) (files_of s')) \/
      (0 < a /\ ~ of_open (files_of s) a /\ of_open (files_of s') a /\
       exists i, first_index (fun h => h =? FILEHANDLE_UNUSED) (handles_of s me) i /\ handles_of s' me = <[Z.to_nat i := a]> (handles_of s me))
    else a = VFS_ERROR /\ s' = s) s.
Proof.
  intros Hc Hiso Hsrc Htemp Hstr Hby Hlen. unfold syscall_handle_open. pose proof (ca_me _ _ _ Hc) as [Hpid Hme].
  apply wp_bind, wp_on_process, wp_current_entry; [apply Hc|]. rewrite Hpid, decide_True by done. assert (mk_sys (sy_proc s) (sy_ram s) (sy_tty s) = s) as -> by (by destruct s).
  apply wp_bind, (wp_pagetable s me t); [done|].
  apply wp_bind, (read_path_run s me t src temp str); [done..|]. rewrite (proj2 (Z.eqb_neq _ _)) by (unfold RETVAL_SYSCALL_HELPERS_NOK; lia).
  apply wp_bind, wp_ret, wp_bind, (wp_handle_index s me t); [done|]. intros i Hi. pose proof (first_index_in _ _ _ Hi) as Hin.
  destruct (proj2 (ca_wf _ _ _ Hc) me Hme) as [[_ Hl] _]. change (filehandle (proc (sy_proc s) me)) with (handles_of s me) in Hl. rewrite Hl in Hin.
  destruct (Z.ltb_spec i MAX_OPEN_FILES_PER_PROCESS) as [Hlt|Hge].
  2: { apply wp_ret. split; [done|]. split; [done|]. split; [by repeat split|]. exists VFS_ERROR. split; [done|].
    rewrite decide_False by (intros ?%Hin; lia). done. }
  destruct (decide (FILEHANDLE_UNUSED ∈ handles_of s me)) as [_|Hd]; [|tauto]. assert (Hpath : cstr (splice temp 0 (str ++ [0])) = Some str /\ Forall is_byte (splice temp 0 (str ++ [0]))).
  { unfold splice. rewrite take_0. cbn [app]. rewrite <- (assoc_L (++)). split; [apply cstr_app; by apply Hstr|].
    apply Forall_app. split; [done|]. constructor; [unfold is_byte; lia|]. apply Forall_drop, Htemp. }
  destruct Hpath as [Hcs Hpb]. apply wp_bind, wp_files. eapply wp_mono; [by apply (vfs_open_law (files_of s) _ str); [apply Hc| |]|].
  intros a f (Hokf & Hcase). pose proof (calling_files _ _ _ f Hc Hokf) as Hc1. destruct (Z.ltb_spec a 0) as [Hneg|Hpos].
  { apply wp_ret. split; [done|]. split; [by apply isolated_files|]. split; [by repeat split|]. exists a. split; [done|]. by left. }
  destruct Hcase as (H0 & Hno & Hyes & Hother).
  destruct (proj2 (proj2 Hi)) as (x & Hx & Hxu); [rewrite Hl; lia|]. apply Z.eqb_eq in Hxu. subst x.
  assert (Hi2 : 0 <= i < MAX_OPEN_FILES_PER_PROCESS) by (destruct Hi as [[? _] _]; lia).
  apply wp_bind, (wp_set_handle _ me t); [done|done|]. apply wp_ret. split; [by apply calling_put|]. split; [|split; [split; [done|]; split; [done|]|]].
  - apply (isolated_put s _ me i FILEHANDLE_UNUSED a Hiso Hme Hx); [|by right].
    intros j Hj. rewrite (handles_put _ me t) by done. done.
  - intros j Hj Hne. rewrite (handles_put _ me t) by done. by rewrite (proj2 (Z.eqb_neq j me)).
  - exists a. split; [done|]. right. split; [done|]. split; [done|]. split; [done|]. exists i. split; [done|].
    rewrite (handles_put _ me t) by done. by rewrite Z.eqb_refl.
Qed.

Lemma close_call_run s me t h :
  calling s me t -> isolated s ->
  wp (syscall_handle_close h) (fun r s' => calling s' me t /\ isolated s' /\ only_handles s me s' /\
    if h <? 0 then r = Some FILEHANDLE_ILLEGAL /\ s' = s
    else if decide (h ∈ handles_of s me) then r = Some 0 /\ ~ of_open (files_of s') h /\ h ∉ handles_of s' me /\
      (forall k, k <> h -> of_open (files_of s') k <-> of_open (files_of s) k) /\ forall k, k <> h -> k ∈ handles_of s me -> k ∈ handles_of s' me
    else r = Some VFS_NOT_OPEN /\ s' = s) s.
Proof.
  intros Hc Hiso. unfold syscall_handle_close. pose proof (ca_me _ _ _ Hc) as [Hpid Hme].
  destruct (Z.ltb_spec h 0) as [Hneg|Hpos]; [by apply wp_ret|].
  apply wp_bind, (wp_process s me t); [done|]. apply wp_bind, (wp_handle_index s me t); [done|]. intros i Hi. pose proof (first_index_in _ _ _ Hi) as Hin.
  destruct (proj2 (ca_wf _ _ _ Hc) me Hme) as [[_ Hl] _]. change (filehandle (proc (sy_proc s) me)) with (handles_of s me) in Hl. rewrite Hl in Hin.
  destruct (Z.ltb_spec i MAX_OPEN_FILES_PER_PROCESS) as [Hlt|Hge].
  2: { apply wp_ret. rewrite decide_False by (intros ?%Hin; lia). done. }
  assert (Hhin : h ∈ handles_of s me) by tauto. destruct (decide (h ∈ handles_of s me)) as [_|Hd]; [|done].
  destruct (Hiso me Hme) as [Hnd Hall]. destruct (Hall h Hhin) as [?|(H0 & Hopen & Huniq)]; [unfold FILEHANDLE_UNUSED in *; lia|].
  destruct (proj2 (proj2 Hi)) as (x & Hx & Hxh); [rewrite Hl; lia|]. apply Z.eqb_eq in Hxh. subst x.
  assert (Hi2 : 0 <= i < MAX_OPEN_FILES_PER_PROCESS) by (destruct Hi as [[? _] _]; lia).
  apply wp_bind, wp_files. eapply wp_mono; [by apply (vfs_close_spec (files_of s) h); [apply Hc|]|].
  intros a f (Hokf & Hno & Hother). pose proof (calling_files _ _ _ f Hc Hokf) as Hc1.
  apply wp_bind, (wp_set_handle _ me t); [done|done|]. apply wp_ret. split; [by apply calling_put|].
  assert (Hput : forall j, is_pid j -> handles_of (put_handle me i (-1) (with_files f s)) j = if j =? me then <[Z.to_nat i := -1]> (handles_of s me) else handles_of s j)
    by (intros j Hj; by rewrite (handles_put _ me t)).
  split; [|split; [split; [done|]; split; [done|]|]].
  - apply (isolated_put s _ me i h FILEHANDLE_UNUSED Hiso Hme Hx Hput). by left.
  - intros j Hj Hne. rewrite Hput by done. by rewrite (proj2 (Z.eqb_neq j me)).
  - split; [done|]. split; [done|]. rewrite Hput, Z.eqb_refl by done. split; [apply (once_removed _ _ _ _ Hx H0); [lia|done]|]. split; [done|].
    intros k Hk [n Hn]%list_elem_of_lookup. apply list_elem_of_lookup. exists n. rewrite list_lookup_insert_ne; [done|]. intros <-. congruence.
Qed.

Lemma seek_call_run s me t h pos pos' b :
  calling s me t -> 0 <= h -> h ∈ handles_of s me -> of_file (files_of s) h pos b -> 0 <= pos' < 2147483648 ->
  wp (syscall_handle_seek h pos') (fun r s' => r = Some VFS_OK /\ exists f, s' = with_files f s /\ of_ok f /\ of_same (files_of s) f /\ of_file f h pos' b) s.
Proof.
  intros Hc Hh Hin Hf Hpos. unfold syscall_handle_seek. rewrite (proj2 (Z.ltb_ge h 0)) by done.
  apply wp_bind, (wp_process s me t); [done|]. apply wp_bind, (wp_check s me t); [done|]. rewrite decide_True by done. cbn [Z.eqb VFS_NOT_OPEN].
  apply wp_bind, wp_files. eapply wp_mono; [by apply (vfs_seek_law (files_of s) h pos pos' b); [apply Hc|..]|].
  intros r f (-> & Hok & Hsame & Hf'). apply wp_ret. split; [done|]. by exists f.
Qed.

(** ** Theorems *)

(** Claim C13. Through the system calls of a process: writing bytes of its memory to an
    open file, seeking back and reading them to another place of its memory
    copies them, whatever their number and wherever page boundaries are; the
    calls answer the number of bytes, the rest of the file and of the memory
    stay as they were. *)
Theorem syscall_write_read s me t h pos b src dest xs temp temp' fuel :
  calling s me t -> 1 < h -> h ∈ handles_of s me -> of_file (files_of s) h pos b ->
  user_data (memory_of s t) src xs -> Forall is_byte xs -> pos + zlen xs <= zlen b -> is_u32 src ->
  (forall i, 0 <= i < zlen xs -> writable t (dest + i) = true) -> no_alias t dest (zlen xs) -> is_u32 dest ->
  is_buffer 512 temp -> is_buffer 512 temp' -> (chunks (zlen xs) < fuel)%nat ->
  wp (w ← syscall_handle_write fuel temp h src (zlen xs); k ← syscall_handle_seek h pos;
      r ← syscall_handle_read fuel temp' h dest (zlen xs); mret (w, k, r)) (fun a s' =>
    a = (Some (zlen xs), Some VFS_OK, Some (zlen xs)) /\ user_data (memory_of s' t) dest xs /\
    (forall p, (forall k, 0 <= k < zlen xs -> user_addr t (dest + k) <> Some p) -> sy_ram s' p = sy_ram s p) /\
    of_file (files_of s') h (pos + zlen xs) (splice b (Z.to_nat pos) xs) /\ calling s' me t /\ same_process s s') s.
Proof.
  intros Hc Hh Hin Hf Hdata Hby Hfit Hsrc Hw Hna Hdest Htemp Htemp' Hfuel. destruct (of_file_open _ _ _ _ Hf) as (_ & Hpos & Hlen).
  apply wp_bind. eapply wp_mono.
  { apply (syscall_write_run s me t h src xs (zlen b - pos) (in_file s h pos b xs) temp fuel); try done; [lia|by left|lia|lia|apply file_sinks; [unfold FILEHANDLE_STDOUT; lia|lia]|].
    split; [done|]. split; [done|]. rewrite Z.add_0_r, take_0, splice_nil. done. }
  cbv zeta. replace (Z.min (zlen xs) (zlen b - pos)) with (zlen xs) by lia.
  intros r s1 (-> & Hsame1 & Hram1 & Hok1 & _ & _ & Hf1). rewrite Nat2Z.id, firstn_all in Hf1.
  pose proof (calling_same _ _ _ _ Hc Hsame1 Hok1) as Hc1.
  assert (Hin1 : h ∈ handles_of s1 me) by (by rewrite (handles_same s)).
  assert (Hb1 : zlen (splice b (Z.to_nat pos) xs) = zlen b) by (rewrite length_splice; lia).
  apply wp_bind. eapply wp_mono; [apply (seek_call_run s1 me t h (pos + zlen xs) pos (splice b (Z.to_nat pos) xs) Hc1); [lia|done|exact Hf1|lia]|].
  intros r s2 (-> & f & -> & Hok2 & Hof2 & Hf2). pose proof (calling_files _ _ _ f Hc1 Hok2) as Hc2.
  apply wp_bind. eapply wp_mono; [apply (syscall_read_run (with_files f s1) me t h dest (zlen xs) (splice b (Z.to_nat pos) xs) pos temp' fuel Hc2);
    rewrite ?Hb1; first [done|lia|apply Htemp'|intros i Hi; apply Hw; lia]|].
  rewrite Hb1. replace (Z.min (zlen xs) (zlen b - pos)) with (zlen xs) by lia.
  intros r s3 (-> & temp2 & _ & _ & Hsame3 & _ & _ & Hok3 & Hf3 & Hst). apply wp_ret. split; [done|].
  rewrite Nat2Z.id, slice_splice_eq in Hst by lia. destruct Hst as (_ & Hother & Hd). split; [by apply Hd|].
  split; [intros p Hp; rewrite <- Hram1; by apply Hother|]. split; [exact Hf3|]. split; [by apply (calling_same _ _ _ _ Hc2)|].
  destruct Hsame1 as (? & ? & ? & ?), Hsame3 as (E1 & E2 & E3 & E4). cbn in E1, E2, E3, E4. split_and!; congruence.
Qed.

(** Reading an open file by a system call answers the number of bytes
    between the position and the end of the file, at most as many as asked
    for, stores exactly these in the memory of the process and moves the
    position over them. *)
Theorem syscall_read_correct s me t h pos b buffer length temp fuel :
  let n := Z.min length (zlen b - pos) in
  calling s me t -> 0 < h -> h ∈ handles_of s me -> of_file (files_of s) h pos b -> pos <= zlen b -> 0 <= length < 2147483648 -> is_buffer 512 temp ->
  (forall i, 0 <= i < n -> writable t (buffer + i) = true) -> is_u32 buffer -> (chunks length < fuel)%nat ->
  wp (syscall_handle_read fuel temp h buffer length) (fun r s' => r = Some n /\ same_process s s' /\ of_file (files_of s') h (pos + n) b /\
    stored (memory_of s t) buffer (slice b (Z.to_nat pos) (Z.to_nat n)) (memory_of s' t)) s.
Proof.
  intros n Hc Hh Hin Hf Hend Hlen [Ht _] Hw Hbuf Hfuel. eapply wp_mono; [by apply (syscall_read_run s me t h buffer length b pos temp fuel)|].
  by intros r s' (-> & temp' & _ & _ & Hsame & _ & _ & _ & Hf' & Hst).
Qed.

(** A process prints by writing to handle 1, which it need not have opened:
    the terminal gets exactly the bytes of its memory, all of them and in
    order, and nothing else changes. *)
Theorem syscall_print_correct s me t x src xs temp fuel :
  calling s me t -> sy_tty s = Some x -> tm_ok x -> user_data (memory_of s t) src xs -> Forall is_byte xs -> zlen xs < 2147483648 ->
  is_u32 src -> is_buffer 512 temp -> (chunks (zlen xs) < fuel)%nat ->
  wp (syscall_handle_write fuel temp FILEHANDLE_STDOUT src (zlen xs)) (fun r s' => r = Some (zlen xs) /\
    same_process s s' /\ sy_ram s' = sy_ram s /\ files_of s' = files_of s /\
    exists y, sy_tty s' = Some y /\ tm_typed y = tm_typed x /\ tm_written y = tm_written x ++ xs) s.
Proof.
  intros Hc Hx Hok Hdata Hby Hlen Hsrc Htemp Hfuel. eapply wp_mono.
  { apply (syscall_write_run s me t FILEHANDLE_STDOUT src xs (zlen xs) (on_terminal s x xs) temp fuel); try done; [by right|lia|apply terminal_sinks|].
    split; [done|]. exists x. rewrite take_0, app_nil_r. done. }
  cbv zeta. rewrite Z.min_id. intros r s' (-> & Hsame & Hram & _ & Hf & y & Hy & _ & Ht & Hw). rewrite Nat2Z.id, firstn_all in Hw.
  split; [done|]. split; [done|]. split; [done|]. split; [done|]. by exists y.
Qed.

(** Claim C14. No two processes ever share an open file: opening and closing by system
    calls keep every handle of every process open and its own. Opening puts a
    file that was not open into the first free place of the caller, or answers
    an error; closing takes exactly the handle away. *)
Theorem syscall_handles_isolated s me t :
  calling s me t -> isolated s ->
  (forall src temp str, is_u32 src -> is_buffer 512 temp -> user_string (memory_of s t) src str -> Forall is_byte str -> zlen str < VFS_PATH_LENGTH ->
    wp (syscall_handle_open temp src) (fun r s' => calling s' me t /\ isolated s' /\ only_handles s me s' /\ exists a, r = Some a /\
      if decide (FILEHANDLE_UNUSED ∈ handles_of s me) then
        (a < 0 /\ handles_of s' me = handles_of s me /\ of_same (files_of s) (files_of s')) \/
        (0 < a /\ ~ of_open (files_of s) a /\ of_open (files_of s') a /\
         exists i, first_index (fun h => h =? FILEHANDLE_UNUSED) (handles_of s me) i /\ handles_of s' me = <[Z.to_nat i := a]> (handles_of s me))
      else a = VFS_ERROR /\ s' = s) s) /\
  forall h, wp (syscall_handle_close h) (fun r s' => calling s' me t /\ isolated s' /\ only_handles s me s' /\
    if h <? 0 then r = Some FILEHANDLE_ILLEGAL /\ s' = s
    else if decide (h ∈ handles_of s me) then r = Some 0 /\ ~ of_open (files_of s') h /\ h ∉ handles_of s' me /\
      (forall k, k <> h -> of_open (files_of s') k <-> of_open (files_of s) k) /\ forall k, k <> h -> k ∈ handles_of s me -> k ∈ handles_of s' me
    else r = Some VFS_NOT_OPEN /\ s' = s) s.
Proof. intros Hc Hiso. split; [intros src temp str; by intros; apply (open_call_run s me t src temp str)|intros h; by apply close_call_run]. Qed.

(** Claim C15. A process can use no file that it has not opened: with a handle that is not
    its own every call answers an error and changes nothing, except that
    anyone may read from handle 0 and write to handle 1. *)
Theorem syscall_foreign_handle s me t h temp fuel buffer length offset :
  calling s me t -> h ∉ handles_of s me ->
  wp (syscall_handle_seek h offset) (fun r s' => r = Some (if h <? 0 then FILEHANDLE_ILLEGAL else VFS_NOT_FOUND) /\ s' = s) s /\
  (h <> FILEHANDLE_STDIN -> wp (syscall_handle_read fuel temp h buffer length) (fun r s' =>
     r = Some (if h <? 0 then FILEHANDLE_ILLEGAL else VFS_NOT_FOUND) /\ s' = s) s) /\
  (h <> FILEHANDLE_STDOUT -> wp (syscall_handle_write fuel temp h buffer length) (fun r s' =>
     r = Some (if h <? 0 then FILEHANDLE_ILLEGAL else VFS_NOT_FOUND) /\ s' = s) s).
Proof.
  intros Hc Hno.
  assert (Hcheck : forall Q : Z -> state -> Prop, Q VFS_NOT_OPEN s -> wp (check_filehandle h me) Q s).
  { intros Q HQ. apply (wp_check s me t); [done|]. by rewrite decide_False. }
  split; [|split; intros Hstd]; [unfold syscall_handle_seek|unfold syscall_handle_read|unfold syscall_handle_write];
    (destruct (h <? 0); [by apply wp_ret|]); try (apply wp_bind, (wp_pagetable s me t); [done|]);
    apply wp_bind, (wp_process s me t); try done; apply wp_bind, Hcheck; cbn [Z.eqb VFS_NOT_OPEN andb Pos.eqb];
    rewrite ?(proj2 (Z.eqb_neq _ _) Hstd); by apply wp_ret.
Qed.
End calls.

(** ** The process of [Lifecycle.v]

    Process 1 has handle 3 open on a file of 600 bytes, at position 508, and
    two pages of memory; the terminal is a pair of strings. *)
Record toy_tty := mk_toy_tty { tt_typed : list Z; tt_written : list Z }.
#[local] Program Instance toy_terminal : Terminal toy_tty := {|
  gcd_read buf n := fun s =>
    if decide (tt_typed s = []) then Fail Blocked
    else let r := Z.min n (zlen (tt_typed s)) in
      Ret ((r, splice buf 0 (take (Z.to_nat r) (tt_typed s))), mk_toy_tty (drop (Z.to_nat r) (tt_typed s)) (tt_written s));
  gcd_write buf n := fun s => Ret (n, mk_toy_tty (tt_typed s) (tt_written s ++ take (Z.to_nat n) buf));
  tm_ok _ := True;
  tm_typed := tt_typed;
  tm_written := tt_written
|}.
Next Obligation. intros s buf n _ Hne Hn. unfold wp. by rewrite decide_False. Qed.
Next Obligation. by intros s buf n _ Hn Hb. Qed.

#[local] Existing Instance example_symbols.
#[local] Existing Instance example_layout.
#[local] Existing Instance mount_ops.
#[local] Existing Instance mount_filesystems.
#[local] Existing Instance mount_handles.
Definition local_array : list Z := replicate 16 7.
Lemma local_array_ok : is_buffer 16 local_array.
Proof. split; [done|]. by apply Forall_replicate. Qed.
#[local] Instance mount_calls : FileCalls (vfs (mount_point ramdisk) (over semaphores kernel)) :=
  vfs_calls mount_ids local_array local_array local_array_ok local_array_ok.

(** Byte [i] of physical memory is [i mod 251], but for the path at 0x401080. *)
Definition a_memory (p : Z) : Z :=
  if p =? 0x5080 then 91 else if p =? 0x5081 then 118 else if p =? 0x5082 then 93 else if p =? 0x5083 then 97
  else if p =? 0x5084 then 0 else p mod 251.
Definition a_system : sys (over lock_tables kernel) (vfs (mount_point ramdisk) (over semaphores kernel)) toy_tty :=
  mk_sys two_processes a_memory (Some (mk_toy_tty [] [62])).

Lemma a_table_translate p :
  translate a_table p = if decide (p / 2 = 0x200) then if Z.even p then Some (4, 1) else Some (5, 1) else None.
Proof.
  unfold translate, find_pair. change (take (Z.to_nat (valid_count a_table)) (entries a_table)) with [an_entry].
  unfold an_entry. cbn [list_find VPN2]. destruct (decide (p / 2 = 0x200)) as [-> |Hne]; [done|]. by rewrite decide_False by congruence.
Qed.
Lemma a_table_user : user_table a_table.
Proof. intros p m. rewrite a_table_translate. case_decide as H; [|done]. pose proof (Z.div_mod p 2 ltac:(lia)). pose proof (Z.mod_pos_bound p 2 ltac:(lia)). lia. Qed.
Lemma a_system_calling : calling a_system 1 a_table.
Proof.
  destruct two_threads_fields as (_ & Hpid & Htab). split.
  - by apply process_rows_wf.
  - apply process_settled. by right.
  - split; [exact Hpid|vm_check].
  - change (ps_threads (sy_proc a_system)) with (process_threads 2). rewrite Htab. reflexivity.
  - apply a_table_ok.
  - apply a_table_user.
  - apply mount_files.
Qed.
Definition file_of_600 : list Z := replicate 512 1 ++ replicate 88 2.
Lemma a_system_file : of_file (files_of a_system) 3 508 file_of_600.
Proof. exists a_handle. split; [lia|]. split; [reflexivity|]. split; [vm_check|]. split; [done|]. split; [apply mount_file|]. split; [reflexivity|]. split; vm_check. Qed.
Lemma a_system_handles i : is_pid i -> handles_of a_system i = if i =? 1 then 3 :: replicate 9 (-1) else no_files.
Proof.
  intros Hi. assert (Hall : Forall (fun i => handles_of a_system i = if i =? 1 then 3 :: replicate 9 (-1) else no_files) (seqZ 0 32)).
  { apply (bool_decide_unpack _). vm_compute. exact I. }
  rewrite Forall_forall in Hall. apply Hall, elem_of_seqZ. unfold is_pid, CONFIG_MAX_PROCESSES in Hi. lia.
Qed.
Lemma a_system_isolated : isolated a_system.
Proof.
  assert (Hin : forall i h, is_pid i -> h ∈ handles_of a_system i -> h = FILEHANDLE_UNUSED \/ i = 1 /\ h = 3).
  { intros i h Hi Hh. rewrite a_system_handles in Hh by done. destruct (Z.eqb_spec i 1) as [->|]; [apply elem_of_cons in Hh as [->|Hh]; [by right|]|].
    - left. by apply elem_of_replicate in Hh as [-> _].
    - left. by apply elem_of_replicate in Hh as [-> _]. }
  intros i Hi. split.
  - rewrite a_system_handles by done. destruct (i =? 1); apply (bool_decide_unpack _); vm_compute; exact I.
  - intros h Hh. destruct (Hin i h Hi Hh) as [?|[-> ->]]; [by left|right]. split; [lia|].
    split; [by apply (of_file_open _ _ _ _ a_system_file)|]. intros j Hj Hhj. destruct (Hin j 3 Hj Hhj) as [|[-> _]]; [discriminate|done].
Qed.
(** A range of the two pages. *)
Lemma two_pages_range a n : 0x400000 <= a -> a + n <= 0x402000 ->
  (forall i, 0 <= i < n -> writable a_table (a + i) = true) /\
  (forall i, 0 <= i < n -> user_addr a_table (a + i) = Some (a + i - 0x400000 + 0x4000)).
Proof.
  intros Ha Hn. assert (Hp : forall i, 0 <= i < n -> ((a + i) / 4096 = 0x400 \/ (a + i) / 4096 = 0x401) /\ a + i = 4096 * ((a + i) / 4096) + (a + i) mod 4096).
  { intros i Hi. pose proof (Z.div_mod (a + i) 4096 ltac:(lia)). pose proof (Z.mod_pos_bound (a + i) 4096 ltac:(lia)). split; lia. }
  split; intros i Hi; destruct (Hp i Hi) as [Hpage Heq]; unfold writable, user_addr; rewrite a_table_translate;
    destruct Hpage as [E|E]; rewrite E in *; try done.
  - transitivity (Some (4 * 4096 + (a + i) mod 4096)); [done|]. f_equal. lia.
  - transitivity (Some (5 * 4096 + (a + i) mod 4096)); [done|]. f_equal. lia.
Qed.
Lemma two_pages_no_alias a n : 0x400000 <= a -> a + n <= 0x402000 -> no_alias a_table a n.
Proof. intros Ha Hn i j Hi Hj. destruct (two_pages_range a n Ha Hn) as [_ Hu]. rewrite !Hu by done. intros [= ?]. lia. Qed.
Definition kernel_buffer : list Z := replicate 512 0.
Lemma kernel_buffer_ok : is_buffer 512 kernel_buffer.
Proof. split; [done|]. by apply Forall_replicate. Qed.
(** Twelve bytes at the end of the first page. *)
Definition some_data : list Z := a_memory <$> seqZ 0x4ffa 12.
Lemma some_data_there : user_data (memory_of a_system a_table) 0x400ffa some_data.
Proof.
  intros k x Hk. pose proof (lookup_lt_Some _ _ _ Hk) as Hlt. change (k < 12)%nat in Hlt.
  unfold some_data in Hk. apply list_lookup_fmap_Some in Hk as (y & -> & Hy). apply lookup_seqZ in Hy as [-> _].
  unfold user_byte. cbn [memory_of us_table us_ram]. destruct (two_pages_range 0x400ffa 12 ltac:(lia) ltac:(lia)) as [_ Hu].
  rewrite Hu by lia. cbn. do 2 f_equal. lia.
Qed.

Lemma syscall_write_read_witness :
  wp (w ← syscall_handle_write 2 kernel_buffer 3 0x400ffa 12; k ← syscall_handle_seek 3 508;
      r ← syscall_handle_read 2 kernel_buffer 3 0x400100 12; mret (w, k, r)) (fun a s' =>
    a = (Some 12, Some 0, Some 12) /\ user_data (memory_of s' a_table) 0x400100 some_data) a_system.
Proof.
  eapply wp_mono; [apply (syscall_write_read a_system 1 a_table 3 508 file_of_600 0x400ffa 0x400100 some_data kernel_buffer kernel_buffer 2)|].
  - exact a_system_calling.
  - lia.
  - left.
  - exact a_system_file.
  - exact some_data_there.
  - apply (bool_decide_unpack _). vm_compute. exact I.
  - vm_check.
  - vm_check.
  - apply (two_pages_range 0x400100 12); lia.
  - apply (two_pages_no_alias 0x400100 12); lia.
  - vm_check.
  - exact kernel_buffer_ok.
  - exact kernel_buffer_ok.
  - vm_compute. lia.
  - intros a s' (-> & Hd & _). split; [reflexivity|exact Hd].
Defined.

Lemma syscall_read_correct_witness :
  wp (syscall_handle_read 3 kernel_buffer 3 0x400f00 600) (fun r s' => r = Some 92 /\
    user_data (memory_of s' a_table) 0x400f00 ([1; 1; 1; 1] ++ replicate 88 2)) a_system.
Proof.
  eapply wp_mono; [apply (syscall_read_correct a_system 1 a_table 3 508 file_of_600 0x400f00 600 kernel_buffer 3)|].
  - exact a_system_calling.
  - lia.
  - left.
  - exact a_system_file.
  - vm_check.
  - lia.
  - exact kernel_buffer_ok.
  - apply (two_pages_range 0x400f00 92); lia.
  - vm_check.
  - vm_compute. lia.
  - intros r s' (-> & _ & _ & (_ & _ & Hd)). split; [reflexivity|]. apply Hd, two_pages_no_alias; vm_compute; congruence.
Defined.

Lemma syscall_print_correct_witness :
  wp (syscall_handle_write 2 kernel_buffer 1 0x400ffa 12) (fun r s' => r = Some 12 /\
    exists y, sy_tty s' = Some y /\ tt_written y = 62 :: some_data) a_system.
Proof.
  eapply wp_mono; [apply (syscall_print_correct a_system 1 a_table (mk_toy_tty [] [62]) 0x400ffa some_data kernel_buffer 2)|].
  - exact a_system_calling.
  - reflexivity.
  - exact I.
  - exact some_data_there.
  - apply (bool_decide_unpack _). vm_compute. exact I.
  - vm_check.
  - vm_check.
  - exact kernel_buffer_ok.
  - vm_compute. lia.
  - intros r s' (-> & _ & _ & _ & y & Hy & _ & Hw). split; [reflexivity|]. exists y. split; [exact Hy|exact Hw].
Defined.

(** The path "[v]a" at 0x401080. *)
Lemma a_path_there : user_string (memory_of a_system a_table) 0x401080 [91; 118; 93; 97].
Proof.
  split; [|repeat constructor; lia]. intros k x Hk. pose proof (lookup_lt_Some _ _ _ Hk) as Hlt. change (k < 5)%nat in Hlt.
  unfold user_byte. cbn [memory_of us_table us_ram]. destruct (two_pages_range 0x401080 5 ltac:(lia) ltac:(lia)) as [_ Hu].
  rewrite Hu by lia. destruct k as [|[|[|[|[|k]]]]]; [injection Hk as <-; reflexivity..|lia].
Qed.
Lemma syscall_handles_isolated_witness :
  wp (syscall_handle_open kernel_buffer 0x401080) (fun r s' => isolated s' /\ exists a, r = Some a) a_system /\
  wp (syscall_handle_close 3) (fun r s' => r = Some 0 /\ 3 ∉ handles_of s' 1) a_system.
Proof.
  destruct (syscall_handles_isolated a_system 1 a_table a_system_calling a_system_isolated) as [Ho Hcl]. split.
  - eapply wp_mono; [apply (Ho 0x401080 kernel_buffer [91; 118; 93; 97])|].
    + vm_check.
    + exact kernel_buffer_ok.
    + exact a_path_there.
    + repeat constructor; unfold is_byte; lia.
    + vm_check.
    + intros r s' (_ & Hiso & _ & a & -> & _). split; [exact Hiso|]. exists a. reflexivity.
  - eapply wp_mono; [apply (Hcl 3)|]. intros r s' (_ & _ & _ & Hr). cbn [Z.ltb Z.compare] in Hr. rewrite decide_True in Hr by by left. tauto.
Defined.

Lemma syscall_foreign_handle_witness :
  wp (syscall_handle_read 2 kernel_buffer 4 0x400100 12) (fun r s' => r = Some (-5) /\ s' = a_system) a_system.
Proof.
  assert (Hno : 4 ∉ handles_of a_system 1).
  { rewrite a_system_handles by vm_check. intros [Hin|[Hin _]%elem_of_replicate]%elem_of_cons; discriminate. }
  destruct (syscall_foreign_handle a_system 1 a_table 4 kernel_buffer 2 0x400100 12 0 a_system_calling Hno) as (_ & Hread & _).
  apply Hread. discriminate.
Defined.
