(* ===== verification/Loading.v ===== *)
(** * Loading a program: lemmas

    What the stages of [process_start] do to the memory of the process: pages
    are added, bytes are stored at its addresses, segments are read from the
    file, pages are protected, arguments are pushed. *)
From S2P Require Import Prelude Bitmap Libc Cpu Kmalloc Pagepool Gbd Thread Vm Tlb Space Frames User ThreadSys Bytes Elf Process Lifecycle Syscall SyscallTheorems Start.

(** ** Bytes at user addresses *)
Definition injective (t : pagetable) : Prop :=
  forall p q f d d', translate t p = Some (f, d) -> translate t q = Some (f, d') -> p = q.

Lemma addr_injective t a b p : injective t -> user_addr t a = Some p -> user_addr t b = Some p -> a = b.
Proof.
  intros Hinj. unfold user_addr. destruct (translate t (a / 4096)) as [[f d]|] eqn:Ea; [|done]. destruct (translate t (b / 4096)) as [[g e]|] eqn:Eb; [|done].
  cbn. intros [= <-] [= Heq]. pose proof (Z.mod_pos_bound a 4096 ltac:(lia)). pose proof (Z.mod_pos_bound b 4096 ltac:(lia)).
  assert (f = g) as -> by lia. pose proof (Hinj _ _ _ _ _ Ea Eb). pose proof (Z.div_mod a 4096 ltac:(lia)). pose proof (Z.div_mod b 4096 ltac:(lia)). lia.
Qed.

(** What the process finds at an address. *)
Definition seen (t : pagetable) (r : Z -> Z) (x : Z) : option Z := user_byte (mk_uspace t r) x.
(** [xs] is stored at [a], and nothing else changes in the memory of the
    process or elsewhere. *)
Definition writes (t : pagetable) (r r' : Z -> Z) (a : Z) (xs : list Z) : Prop :=
  (forall x, seen t r' x = if decide (a <= x < a + zlen xs) then xs !! Z.to_nat (x - a) else seen t r x) /\
  forall p, p / 4096 ∉ frames t -> r' p = r p.
Definition all_writable (t : pagetable) (a n : Z) : Prop := 0 <= a /\ a + n <= 2147483648 /\ forall i, 0 <= i < n -> writable t (a + i) = true.

Lemma writes_nil t r a : writes t r r a [].
Proof. split; [|done]. intros x. rewrite decide_False; [done|]. cbn. lia. Qed.

Lemma writes_one t r a v p : pt_ok t -> injective t -> user_addr t a = Some p ->
  writes t r (fun q => if q =? p then v else r q) a [v].
Proof.
  intros Hok Hinj Hp. split.
  - intros x. unfold seen, user_byte. cbn [us_table us_ram length]. case_decide as Hx.
    + assert (x = a) as -> by lia. rewrite Hp, Z.sub_diag. cbn. by rewrite Z.eqb_refl.
    + destruct (user_addr t x) as [q|] eqn:Eq; [|done]. cbn. destruct (Z.eqb_spec q p) as [->|]; [|done].
      destruct Hx. rewrite (addr_injective t x a p) by done. lia.
  - intros q Hq. destruct (Z.eqb_spec q p) as [->|]; [|done]. destruct Hq. apply frames_mapped; [done|].
    unfold user_addr in Hp. destruct (translate t (a / 4096)) as [[f d]|] eqn:E; [|done]. cbn in Hp. injection Hp as <-.
    pose proof (Z.mod_pos_bound a 4096 ltac:(lia)). exists (a / 4096), d. rewrite E. do 2 f_equal.
    rewrite Z.div_add_l, Z.div_small by lia. lia.
Qed.

Lemma writes_app t r1 r2 r3 a xs ys : writes t r1 r2 a xs -> writes t r2 r3 (a + zlen xs) ys -> writes t r1 r3 a (xs ++ ys).
Proof.
  intros [Hs1 Ho1] [Hs2 Ho2]. split; [|intros p Hp; by rewrite Ho2, Ho1]. intros x. rewrite Hs2, Hs1, length_app.
  destruct (decide (a <= x < a + zlen xs)) as [H1|H1].
  - rewrite decide_False, decide_True by lia. by rewrite lookup_app_l by lia.
  - destruct (decide (a + zlen xs <= x < a + zlen xs + zlen ys)) as [H2|H2].
    + rewrite decide_True by lia. rewrite lookup_app_r by lia. f_equal. lia.
    + by rewrite decide_False by lia.
Qed.

Lemma all_writable_mapped t a n i : all_writable t a n -> 0 <= i < n -> exists p, user_addr t (a + i) = Some p.
Proof.
  intros (_ & _ & Hw) Hi. specialize (Hw i Hi). unfold writable, user_addr in *.
  destruct (translate t ((a + i) / 4096)) as [[f d]|]; [by eexists|done].
Qed.

(** ** Pages are added to the table

    [x1] with the table [t1] is [x0] with [t0] and more pages, those of [P],
    writable and in the frames [fs], which were free. *)
Abbreviation spool s := (pm_pool (vm_pmem (sp_vm s))).
Record more `{Symbols} (x0 x1 : space) (addr : Z) (t0 t1 : pagetable) (fs : list Z) (P : Z -> bool) : Prop := {
  mr_mem : mem_ok x1 addr t1;
  mr_tlb : sp_rows x1 = sp_rows x0 /\ sp_asid x1 = sp_asid x0 /\ cpu_of x1 = cpu_of x0;
  mr_tables : vm_tables (sp_vm x1) = <[addr := t1]> (vm_tables (sp_vm x0));
  mr_size : pagepool_num_pages (spool x1) = pagepool_num_pages (spool x0) /\ pagepool_static_end (spool x1) = pagepool_static_end (spool x0);
  mr_free : pagepool_num_free_pages (spool x1) = pagepool_num_free_pages (spool x0) - zlen fs;
  mr_pool : forall q, 0 <= q < pagepool_num_pages (spool x0) -> reserved (spool x1) q = bool_decide (q ∈ fs) || reserved (spool x0) q;
  mr_new : Forall (fun f => reserved (spool x0) f = false) fs;
  mr_frames : frames t1 ≡ₚ fs ++ frames t0;
  mr_count : valid_count t1 <= valid_count t0 + zlen fs;
  mr_asid : pt_ASID t1 = pt_ASID t0;
  mr_pages : forall q, if P q then exists f, translate t1 q = Some (f, 1) else translate t1 q = translate t0 q;
  mr_pairs : forall v, v ∈ VPN2 <$> used t1 -> v ∈ VPN2 <$> used t0 \/ exists q, P q = true /\ q / 2 = v
}.

Section more.
Context `{Symbols}.
Implicit Types (x : space) (t : pagetable) (P Q : Z -> bool).

Lemma more_none x addr t P : mem_ok x addr t -> (forall q, P q = false) -> more x x addr t t [] P.
Proof.
  intros Hm HP. split; try done; cbn [length]; try lia.
  - by rewrite insert_id by apply (mo_table _ _ _ Hm).
  - intros q. by rewrite HP.
  - by left.
Qed.

Lemma more_trans x0 x1 x2 addr t0 t1 t2 fs gs P Q :
  more x0 x1 addr t0 t1 fs P -> more x1 x2 addr t1 t2 gs Q -> more x0 x2 addr t0 t2 (gs ++ fs) (fun q => Q q || P q).
Proof.
  intros [M1 (A1 & A2 & A3) B1 (S1 & S2) F1 P1 N1 L1 C1 I1 G1 R1] [M2 (A4 & A5 & A6) B2 (S3 & S4) F2 P2 N2 L2 C2 I2 G2 R2].
  split; rewrite ?length_app; try done; try lia.
  - split_and!; congruence.
  - by rewrite B2, B1, insert_insert_eq.
  - intros q Hq. rewrite P2, P1 by lia. rewrite orb_assoc. f_equal. rewrite <- bool_decide_or. apply bool_decide_ext. by rewrite elem_of_app.
  - apply Forall_app. split; [|done]. rewrite Forall_forall in *. intros f Hf. specialize (N2 f Hf).
    destruct (decide (0 <= f < pagepool_num_pages (spool x0))) as [Hr|Hr].
    + rewrite P1 in N2 by done. by apply orb_false_elim in N2 as [_ ?].
    + destruct Hr. assert (f ∈ frames t2) as Hin by (rewrite L2; apply elem_of_app; by left).
      destruct (mo_frames _ _ _ M2) as [_ Hall]. rewrite Forall_forall in Hall. destruct (Hall f Hin) as [Hr _].
      destruct (mo_vm _ _ _ M2) as (Hp & _). pose proof (po_static _ Hp). lia.
  - by rewrite L2, L1, app_assoc.
  - intros q. specialize (G1 q). specialize (G2 q). destruct (Q q); [done|]. cbn [orb]. by rewrite G2.
  - intros v [[Hv|(q & Hq & <-)]%R1|(q & Hq & <-)]%R2; [by left|right; exists q..]; by rewrite Hq, ?orb_true_r.
Qed.

Lemma more_ext x0 x1 addr t0 t1 fs P Q : (forall q, P q = Q q) -> more x0 x1 addr t0 t1 fs P -> more x0 x1 addr t0 t1 fs Q.
Proof.
  intros HPQ Hm. split; try apply Hm.
  - intros q. rewrite <- HPQ. apply (mr_pages _ _ _ _ _ _ _ Hm).
  - intros v [Hv|(q & Hq & <-)]%(mr_pairs _ _ _ _ _ _ _ Hm); [by left|right]. exists q. by rewrite <- HPQ.
Qed.
End more.

Section loading.
Context {L F T : Type} `{!HasCpu L, TS : !ThreadSys L, LO : !LoneLocks L, OF : !OpenFiles F, FC : !FileCalls F, TM : !Terminal T, !Symbols}.
Abbreviation state := (sys L F T).
Implicit Types (s : state) (t : pagetable).

(** The address spaces as the processor finds them, and a state with others. *)
Definition mem_of s : space := with_cpu (cpu_of (sy_proc s)) (ps_space (sy_proc s)).
Definition with_mem (x : space) s : state :=
  mk_sys (mk_pstate (process_table (sy_proc s)) (process_table_lock (sy_proc s)) (ps_threads (sy_proc s)) x (ps_files (sy_proc s))) (sy_ram s) (sy_tty s).
Abbreviation same_cpu x s := (cpu_of x = cpu_of (sy_proc s)).

Lemma mem_with_mem x s : same_cpu x s -> mem_of (with_mem x s) = x.
Proof. intros Hx. unfold mem_of. change (cpu_of (sy_proc (with_mem x s))) with (cpu_of (sy_proc s)). rewrite <- Hx. exact (with_cpu_of x). Qed.

Lemma wp_on_memory {A} (m : M space A) (Q : A -> state -> Prop) s :
  wp m (fun a x => same_cpu x s /\ Q a (with_mem x s)) (mem_of s) -> wp (on_memory m) Q s.
Proof. intros Hm. by apply wp_on_process, wp_on_space. Qed.

Lemma on_user_table s addr t : mem_ok (mem_of s) addr t -> vm_tables (sp_vm (ps_space (sy_proc s))) !! addr = Some t.
Proof. intros Hm. apply (mo_table _ _ _ Hm). Qed.

Lemma wp_store s addr t a v (Q : unit -> state -> Prop) :
  vm_tables (sp_vm (ps_space (sy_proc s))) !! addr = Some t -> pt_ok t -> injective t -> 0 <= a < 2147483648 -> writable t a = true ->
  (forall r, writes t (sy_ram s) r a [v] -> Q tt (with_ram r s)) -> wp (on_user addr (store a v)) Q s.
Proof.
  intros Ht Hok Hinj Ha Hw HQ. apply wp_wpk_False, (wpk_on_user _ _ t); [done|]. apply wpk_store; [done| |by cbn; rewrite Hw].
  intros p Hp _. apply HQ. by apply writes_one.
Qed.

Lemma store_bytes_run s addr t a xs :
  vm_tables (sp_vm (ps_space (sy_proc s))) !! addr = Some t -> pt_ok t -> injective t -> all_writable t a (zlen xs) ->
  wp (store_bytes addr a xs) (fun _ s' => exists r, s' = with_ram r s /\ writes t (sy_ram s) r a xs) s.
Proof.
  intros Ht Hok Hinj. revert s a Ht. induction xs as [|x xs IH]; intros s a Ht (Ha & Hend & Hw); cbn [store_bytes].
  { apply wp_ret. exists (sy_ram s). split; [by destruct s|apply writes_nil]. }
  cbn [length] in *. apply wp_bind, (wp_store s addr t); [done|done|done|lia| |].
  { rewrite <- (Z.add_0_r a). apply Hw. lia. }
  intros r Hr. destruct xs as [|y xs].
  - apply wp_ret. by exists r.
  - rewrite u32_id by (cbn in *; unfold is_u32; lia). eapply wp_mono; [apply (IH (with_ram r s)); [done|]|].
    + split; [lia|]. split; [cbn in *; lia|]. intros i Hi. replace (a + 1 + i) with (a + (i + 1)) by lia. apply Hw. cbn in *. lia.
    + intros _ s' (r' & -> & Hr'). exists r'. split; [done|]. by apply (writes_app t _ r _ a [x]).
Qed.

Abbreviation free_frames x := (pagepool_num_free_pages (spool x)).

Definition only_mem s s' : Prop := exists x, s' = with_mem x s.
Definition grown s s' (addr : Z) t t' (fs : list Z) (P : Z -> bool) : Prop := only_mem s s' /\ more (mem_of s) (mem_of s') addr t t' fs P.

Lemma only_mem_refl s : only_mem s s.
Proof. exists (ps_space (sy_proc s)). by destruct s as [[] ? ?]. Qed.
Lemma only_mem_trans s1 s2 s3 : only_mem s1 s2 -> only_mem s2 s3 -> only_mem s1 s3.
Proof. intros [x ->] [y ->]. by exists y. Qed.
Lemma grown_none s addr t P : mem_ok (mem_of s) addr t -> (forall q, P q = false) -> grown s s addr t t [] P.
Proof. intros Hm HP. split; [apply only_mem_refl|by apply more_none]. Qed.
Lemma grown_trans s1 s2 s3 addr t1 t2 t3 fs gs P Q R :
  grown s1 s2 addr t1 t2 fs P -> grown s2 s3 addr t2 t3 gs Q -> (forall q, Q q || P q = R q) -> grown s1 s3 addr t1 t3 (gs ++ fs) R.
Proof.
  intros [Ho1 H1] [Ho2 H2] HR. split; [by eapply only_mem_trans|]. eapply more_ext; [exact HR|]. by eapply more_trans.
Qed.

Lemma free_nonneg x addr t : mem_ok x addr t -> 0 <= free_frames x.
Proof. intros [_ (Hp & _) _ _]. rewrite (po_count _ Hp). apply clears_nonneg. Qed.

(** One page, or no frame is left. *)
Lemma map_page_run s addr t vaddr :
  mem_ok (mem_of s) addr t -> is_u32 vaddr -> translate t (vaddr / 4096) = None -> valid_count t < PAGETABLE_ENTRIES ->
  wp (map_page addr vaddr) (fun ok s' => ok = bool_decide (0 < free_frames (mem_of s)) /\
    if ok then exists t' f, grown s s' addr t t' [f] (fun q => q =? vaddr / 4096) else only_mem s s' /\ mem_of s' = mem_of s) s.
Proof.
  intros Hm Hv Hnone Hroom. unfold map_page. apply wp_bind, wp_on_memory.
  eapply wp_mono; [by apply take_frame_run|]. intros a x [(Hz & -> & ->)|(i & p & -> & Hi & -> & Hfr & Hup & Hm1 & Hsp)].
  { assert (Hc : cpu_of (mem_of s) = cpu_of (sy_proc s)) by apply cpu_of_with.
    split; [exact Hc|]. apply wp_ret. rewrite bool_decide_false by lia. split; [done|]. split; [by eexists|by apply mem_with_mem]. }
  split; [done|]. rewrite (proj2 (Z.eqb_neq _ 0)) by (unfold PAGE_SIZE; lia).
  pose proof Hup as (Hn & Hs & Hf & _ & _ & Hb). pose proof (free_nonneg _ _ _ Hm1) as Hnn. change (0 <= pagepool_num_free_pages p) in Hnn.
  apply wp_bind, wp_on_memory. rewrite mem_with_mem by done.
  eapply wp_mono; [apply (vm_map_at_run _ addr t i vaddr 1); try done; [lia|by right]|].
  intros r x (-> & t' & Hupd & Hgrow & Hperm & -> & Hm2). split; [done|]. apply wp_ret. rewrite bool_decide_true by lia. split; [done|].
  cbn [negb Z.ltb Z.compare]. exists t', i. split; [by eexists|]. rewrite mem_with_mem by done.
  destruct Hupd as (_ & Ha & Htr). pose proof (mo_vm _ _ _ Hm) as (Hp & _). pose proof (po_pages _ Hp). pose proof (po_static _ Hp).
  split; try done.
  - intros q Hq. change (reserved p q = bool_decide (q ∈ [i]) || reserved (spool (mem_of s)) q). unfold reserved. rewrite Hb by lia.
    destruct (Z.eqb_spec q i) as [->|Hne]; [by rewrite bool_decide_true by by left|]. rewrite bool_decide_false; [done|]. by rewrite list_elem_of_singleton.
  - by apply Forall_singleton.
  - cbn. apply Hgrow.
  - intros q. rewrite Htr. destruct (q =? vaddr / 4096); [by eexists|done].
  - destruct Hgrow as (_ & l & Hl & Hall). rewrite Forall_forall in Hall. intros v. rewrite Hl, elem_of_app. intros [Hin|Hin]; [by left|right].
    exists (vaddr / 4096). rewrite Z.eqb_refl. split; [done|]. symmetry. by apply Hall.
Qed.

Definition within (p n q : Z) : bool := (p <=? q) && (q <? p + n).
Lemma within_spec p n q : within p n q = true <-> p <= q < p + n.
Proof. unfold within. rewrite andb_true_iff, Z.leb_le, Z.ltb_lt. done. Qed.

(** The first of them, as many as there are frames. *)
Lemma map_pages_run n s addr t p step :
  mem_ok (mem_of s) addr t -> (step = PAGE_SIZE \/ n = 1%nat) -> 0 <= p -> p + Z.of_nat n <= 2 ^ 20 ->
  (forall q, p <= q < p + Z.of_nat n -> translate t q = None) -> valid_count t + Z.of_nat n <= PAGETABLE_ENTRIES ->
  let m := Z.min (Z.of_nat n) (free_frames (mem_of s)) in
  wp (map_pages n addr (p * 4096) step) (fun ok s' => ok = bool_decide (Z.of_nat n <= free_frames (mem_of s)) /\
    exists t' fs, zlen fs = m /\ grown s s' addr t t' fs (within p m)) s.
Proof.
  cbv zeta. revert s t p. induction n as [|n IH]; intros s t p Hm Hstep Hp Hend Hnone Hroom; pose proof (free_nonneg _ _ _ Hm) as Hnn; cbn [map_pages].
  { apply wp_ret. rewrite bool_decide_true by lia. split; [done|]. exists t, []. split; [cbn [length]; lia|]. apply grown_none; [done|]. intros q. apply not_true_iff_false. rewrite within_spec. lia. }
  assert (Hdiv : p * 4096 / 4096 = p) by by apply Z.div_mul.
  apply wp_bind. eapply wp_mono; [apply (map_page_run s addr t); try done; rewrite ?Hdiv; [unfold is_u32; lia|apply Hnone; lia|lia]|].
  rewrite Hdiv. intros ok s1 (-> & Hcase). case_bool_decide as Hfree.
  2: { destruct Hcase as [Ho Hms]. apply wp_ret. rewrite bool_decide_false by lia. split; [done|]. exists t, []. split; [cbn [length]; lia|].
    split; [done|]. rewrite Hms. apply more_none; [done|]. intros q. apply not_true_iff_false. rewrite within_spec. lia. }
  destruct Hcase as (t1 & f & Hg1). pose proof (proj2 Hg1) as Hm1.
  pose proof (mr_free _ _ _ _ _ _ _ Hm1) as Hf1. cbn [length] in Hf1.
  destruct n as [|n].
  { apply wp_ret. rewrite bool_decide_true by lia. split; [done|]. exists t1, [f]. split; [cbn [length]; lia|]. destruct Hg1 as [Ho H1]. split; [done|]. eapply more_ext; [|exact H1].
    intros q. cbv beta. apply eq_true_iff_eq. rewrite within_spec, Z.eqb_eq. lia. }
  destruct Hstep as [->|]; [|done]. rewrite u32_id by (unfold is_u32, PAGE_SIZE; lia).
  replace (p * 4096 + PAGE_SIZE) with ((p + 1) * 4096) by (unfold PAGE_SIZE; lia).
  eapply wp_mono; [apply (IH s1 t1 (p + 1)); [apply (mr_mem _ _ _ _ _ _ _ Hm1)|by left|lia|lia|..]|].
  - intros q Hq. pose proof (mr_pages _ _ _ _ _ _ _ Hm1 q) as Hpg. cbv beta in Hpg. rewrite (proj2 (Z.eqb_neq _ _)) in Hpg by lia. rewrite Hpg. apply Hnone. lia.
  - pose proof (mr_count _ _ _ _ _ _ _ Hm1). cbn [length] in *. lia.
  - intros ok s2 (-> & t2 & fs & Hfs & Hg2). split; [apply bool_decide_ext; rewrite Hf1; lia|]. exists t2, (fs ++ [f]). split; [rewrite length_app; cbn [length]; lia|].
    eapply grown_trans; [exact Hg1|exact Hg2|]. intros q. cbv beta. apply eq_true_iff_eq. rewrite orb_true_iff, !within_spec, Z.eqb_eq. lia.
Qed.

(** *** The translation buffer *)
Definition with_cpu_of (c : cpu) s : state := mk_sys (with_cpu c (sy_proc s)) (sy_ram s) (sy_tty s).
Definition off_cpu s : cpu := mk_cpu (Z.land 0xffff00fe (status (cpu_of (sy_proc s)))) (held (cpu_of (sy_proc s))).

Lemma wp_uninterrupted {A} (m : M state A) (Q : A -> state -> Prop) s :
  ts_ok (ps_threads (sy_proc s)) ->
  wp m (fun a s2 => cpu_of (sy_proc s2) = off_cpu s /\ Q a (with_cpu_of (cpu_of (sy_proc s)) s2)) (with_cpu_of (off_cpu s) s) ->
  wp (uninterrupted m) Q s.
Proof.
  intros Hts Hm. unfold uninterrupted. apply wp_bind, wp_on_process, wp_disable. apply wp_bind. eapply wp_mono; [exact Hm|].
  intros a s2 [Hc HQ]. apply wp_bind, wp_on_process, wp_restore; [by apply ps_ready|by rewrite Hc|]. intros b. apply wp_ret.
  rewrite Hc. cbn [held off_cpu]. by destruct (cpu_of (sy_proc s)).
Qed.

Lemma ts_off_sys s : ts_ok (ps_threads (sy_proc s)) ->
  let s1 := with_cpu_of (off_cpu s) s in
  ts_ok (ps_threads (sy_proc s1)) /\ ts_tid (ps_threads (sy_proc s1)) = ts_tid (ps_threads (sy_proc s)) /\
  ts_pid (ps_threads (sy_proc s1)) = ts_pid (ps_threads (sy_proc s)) /\ ts_table (ps_threads (sy_proc s1)) = ts_table (ps_threads (sy_proc s)) /\
  ts_lock (ps_threads (sy_proc s1)) = ts_lock (ps_threads (sy_proc s)).
Proof. apply ts_off. Qed.
Lemma mem_of_cpu c s : mem_of (with_cpu_of c s) = with_cpu c (mem_of s).
Proof. unfold mem_of, with_cpu_of. cbn [sy_proc]. rewrite cpu_of_with. cbn. reflexivity. Qed.
Lemma mem_cpu_back s x : with_cpu_of (cpu_of (sy_proc s)) (with_mem x (with_cpu_of (off_cpu s) s)) = with_mem x s.
Proof.
  unfold with_cpu_of, with_mem. cbn. do 2 f_equal. rewrite with_cpu_with. apply (Cpu.with_cpu_of (ps_threads (sy_proc s))).
Qed.

(** Page pool and page tables are as they were. *)
Definition retuned s s' : Prop := only_mem s s' /\ sp_vm (mem_of s') = sp_vm (mem_of s).
Lemma retuned_refl s : retuned s s.
Proof. split; [apply only_mem_refl|done]. Qed.
Lemma retuned_trans s1 s2 s3 : retuned s1 s2 -> retuned s2 s3 -> retuned s1 s3.
Proof. intros [H1 E1] [H2 E2]. split; [by eapply only_mem_trans|congruence]. Qed.
Lemma retuned_mem s s' addr t : retuned s s' -> mem_ok (mem_of s) addr t -> mem_ok (mem_of s') addr t.
Proof. intros [_ E] Hm. destruct (mem_of s') as [v rows asid]. cbn in E. subst v. by apply (mem_rows (mem_of s)). Qed.

Lemma wp_retune {A} (m : M tlb A) (Q : A -> state -> Prop) s :
  wp m (fun a x => tlb_cpu x = cpu_of (sy_proc s) /\ forall s', retuned s s' -> sp_rows (mem_of s') = tlb_rows x -> sp_asid (mem_of s') = tlb_asid x -> Q a s')
    (tlb_of (mem_of s)) ->
  wp (on_memory (on_tlb m)) Q s.
Proof.
  intros Hm. apply wp_on_memory, wp_on_tlb. eapply wp_mono; [exact Hm|]. intros a x [Hc HQ].
  assert (Hx : cpu_of (mk_space (with_cpu (tlb_cpu x) (sp_vm (mem_of s))) (tlb_rows x) (tlb_asid x)) = cpu_of (sy_proc s)) by exact Hc.
  split; [done|]. apply HQ; rewrite ?mem_with_mem by done; [|done..]. split; [by eexists|]. rewrite mem_with_mem by done. cbn. rewrite Hc.
  destruct s as [[? ? ? [[[] ?] ? ?] ?] ? ?]. done.
Qed.

Lemma retuned_back s s2 :
  retuned (with_cpu_of (off_cpu s) s) s2 ->
  cpu_of (sy_proc s2) = off_cpu s /\
  let s' := with_cpu_of (cpu_of (sy_proc s)) s2 in
  retuned s s' /\ sp_rows (mem_of s') = sp_rows (mem_of s2) /\ sp_asid (mem_of s') = sp_asid (mem_of s2).
Proof.
  intros [[x ->] E]. split; [apply cpu_of_with|]. cbv zeta. split; [|done]. split; [exists x; apply mem_cpu_back|].
  rewrite mem_of_cpu. change (with_cpu (cpu_of (sy_proc s)) (sp_vm (mem_of (with_mem x (with_cpu_of (off_cpu s) s)))) = sp_vm (mem_of s)).
  rewrite E, mem_of_cpu. change (with_cpu (cpu_of (sy_proc s)) (with_cpu (off_cpu s) (sp_vm (mem_of s))) = sp_vm (mem_of s)).
  rewrite with_cpu_with. exact (Cpu.with_cpu_of (sp_vm (mem_of s))).
Qed.
Lemma mem_off s addr t : ts_ok (ps_threads (sy_proc s)) -> mem_ok (mem_of s) addr t -> mem_ok (mem_of (with_cpu_of (off_cpu s) s)) addr t.
Proof.
  intros Hts Hm. rewrite mem_of_cpu. apply mem_cpu; [done| |done]. destruct (ts_off_sys s Hts) as (Hok1 & _). pose proof (ts_ready _ Hok1) as Hr.
  cbn in Hr. rewrite cpu_of_with in Hr. exact Hr.
Qed.

Lemma wp_mem_table s addr t (Q : pagetable -> state -> Prop) :
  mem_ok (mem_of s) addr t -> (forall s', retuned s s' -> mem_of s' = mem_of s -> Q t s') -> wp (on_memory (on_vm (get_table addr))) Q s.
Proof.
  intros Hm HQ. apply wp_on_memory, (wp_get_stable _ addr t); [apply Hm|]. split; [done|]. apply HQ; [split; [by eexists|]|]; by rewrite mem_with_mem.
Qed.

Lemma set_asid_run s addr t :
  ts_ok (ps_threads (sy_proc s)) -> mem_ok (mem_of s) addr t ->
  wp (set_asid addr) (fun _ s' => retuned s s' /\ sp_rows (mem_of s') = sp_rows (mem_of s) /\ sp_asid (mem_of s') = pt_ASID t mod 2 ^ 8) s.
Proof.
  intros Hts Hm. unfold set_asid. apply wp_uninterrupted; [done|]. pose proof (mem_off s addr t Hts Hm) as Hm1.
  apply wp_bind, (wp_mem_table _ addr t); [done|]. intros s2 Hr2 Heq.
  apply wp_retune, wp_modify. rewrite land_255. split; [apply (retuned_back s) in Hr2 as [Hc _]; exact (eq_sym Hc) || exact (eq_refl _)|].
  intros s3 Hr3 Hrows Hasid. pose proof (retuned_trans _ _ _ Hr2 Hr3) as Hr. destruct (retuned_back s s3 Hr) as (Hc & Hb & Hb1 & Hb2).
  split; [done|]. split; [done|]. rewrite Hb1, Hb2, Hrows, Hasid. split; [|done]. transitivity (sp_rows (mem_of s2)); [done|]. by rewrite Heq, mem_of_cpu.
Qed.

(** *** Read-only pages *)
Lemma frames_same t t' p f d d' :
  pt_ok t -> NoDup (frames t) -> translate t p = Some (f, d) -> updates t t' p (Some (f, d')) -> frames t' ≡ₚ frames t.
Proof.
  intros Hok Hnd Hp (Hok' & _ & Htr). pose proof (proj1 (frames_nodup t Hok) Hnd) as Hinj.
  assert (Hfr : forall q, fst <$> translate t' q = fst <$> translate t q).
  { intros q. rewrite Htr. destruct (Z.eqb_spec q p) as [->|]; [by rewrite Hp|done]. }
  assert (Hold : forall q g e, translate t' q = Some (g, e) -> exists e', translate t q = Some (g, e')).
  { intros q g e Hq. specialize (Hfr q). rewrite Hq in Hfr. destruct (translate t q) as [[g' e']|]; [|done]. cbn in Hfr. injection Hfr as <-. by eexists. }
  apply NoDup_Permutation; [|done|].
  - apply frames_nodup; [done|]. intros q r g e e' Hq Hr. destruct (Hold _ _ _ Hq), (Hold _ _ _ Hr). by eapply Hinj.
  - intros g. rewrite !frames_mapped by done. split; intros (q & e & Hq).
    + destruct (Hold _ _ _ Hq) as [e' ?]. by exists q, e'.
    + specialize (Hfr q). rewrite Hq in Hfr. destruct (translate t' q) as [[g' e']|] eqn:E; [|done]. cbn in Hfr. injection Hfr as ->. by exists q, e'.
Qed.

(** The pages of [P] cannot be written any more. *)
Definition protected t t' (P : Z -> bool) : Prop :=
  forall q, translate t' q = if P q then (fun m => (m.1, 0)) <$> translate t q else translate t q.

Lemma protect_pages_run n s addr t p :
  mem_ok (mem_of s) addr t -> 0 <= p -> p + Z.of_nat n < 2 ^ 20 -> (forall q, p <= q < p + Z.of_nat n -> translate t q <> None) ->
  wp (protect_pages n addr (p * 4096)) (fun _ s' => only_mem s s' /\ exists t', mem_ok (mem_of s') addr t' /\ pt_ASID t' = pt_ASID t /\
    frames t' ≡ₚ frames t /\ protected t t' (within p (Z.of_nat n)) /\
    vm_pmem (sp_vm (mem_of s')) = vm_pmem (sp_vm (mem_of s)) /\ vm_tables (sp_vm (mem_of s')) = <[addr := t']> (vm_tables (sp_vm (mem_of s)))) s.
Proof.
  revert s t p. induction n as [|n IH]; intros s t p Hm Hp Hend Hin; cbn [protect_pages].
  { apply wp_ret. split; [apply only_mem_refl|]. exists t. split; [done|]. split; [done|]. split; [done|]. split.
    - intros q. assert (within p (Z.of_nat 0) q = false) as -> by (apply not_true_iff_false; rewrite within_spec; lia). done.
    - split; [done|]. by rewrite insert_id by apply (mo_table _ _ _ Hm). }
  assert (Hdiv : p * 4096 / 4096 = p) by by apply Z.div_mul.
  apply wp_bind, (wp_mem_table s addr t); [done|]. intros s1 Hr1 Heq1.
  pose proof (vm_set_dirty_run t (p * 4096) 0 (mem_table_ok _ _ _ Hm) ltac:(unfold is_u32; lia) ltac:(by left)) as Hd. rewrite Hdiv in Hd.
  destruct (translate t p) as [[f d]|] eqn:Htp; [|by destruct (Hin p); [lia|]]. destruct Hd as (t1 & Hset & Hup).
  apply wp_bind. eapply wp_lift; [exact Hset|]. apply wp_bind, wp_on_memory, wp_on_vm, wp_modify. rewrite Heq1.
  pose proof (frames_same t t1 p f d 0 (mem_table_ok _ _ _ Hm) (proj1 (mo_frames _ _ _ Hm)) Htp Hup) as Hperm.
  assert (Hm1 : mem_ok (with_table addr t1 (mem_of s)) addr t1).
  { apply (mem_ok_table _ addr t t1 Hm); [apply Hup|rewrite Hperm; apply Hm|]. intros g Hg Hno. rewrite Hperm in Hg. by destruct Hno. }
  destruct Hr1 as [Ho1 _]. split; [destruct Ho1 as [x ->]; done|]. rewrite u32_id by (unfold is_u32, PAGE_SIZE; lia).
  set (s2 := with_mem (with_table addr t1 (mem_of s)) s1).
  assert (Heq2 : mem_of s2 = with_table addr t1 (mem_of s)) by (apply mem_with_mem; by destruct Ho1 as [x ->]).
  replace (p * 4096 + PAGE_SIZE) with ((p + 1) * 4096) by (unfold PAGE_SIZE; lia). destruct Hup as (_ & Ha1 & Htr1).
  eapply wp_mono; [apply (IH s2 t1 (p + 1)); [by rewrite Heq2|lia|lia|]|].
  - intros q Hq. rewrite Htr1, (proj2 (Z.eqb_neq _ _)) by lia. apply Hin. lia.
  - intros _ s3 (Ho3 & t3 & Hm3 & Ha3 & Hp3 & Hpr3 & Hpm3 & Htb3). split; [eapply only_mem_trans; [exact Ho1|eapply only_mem_trans; [by eexists|exact Ho3]]|].
    exists t3. split; [done|]. split; [congruence|]. split; [by rewrite Hp3|]. split.
    + intros q. rewrite Hpr3, Htr1. destruct (Z.eqb_spec q p) as [->|Hne].
      * assert (within (p + 1) (Z.of_nat n) p = false) as -> by (apply not_true_iff_false; rewrite within_spec; lia).
        assert (within p (Z.of_nat (S n)) p = true) as -> by (apply within_spec; lia). by rewrite Htp.
      * assert (within p (Z.of_nat (S n)) q = within (p + 1) (Z.of_nat n) q) as -> by (apply eq_true_iff_eq; rewrite !within_spec; lia). done.
    + rewrite Hpm3, Htb3, Heq2. split; [done|]. cbn. by rewrite insert_insert_eq.
Qed.

Lemma refresh_pages_run n s addr t p :
  ts_ok (ps_threads (sy_proc s)) -> mem_ok (mem_of s) addr t -> 1 <= p -> p + Z.of_nat n < 2 ^ 20 -> (forall q, p <= q < p + Z.of_nat n -> translate t q <> None) ->
  wp (refresh_pages n addr (p * 4096)) (fun _ s' => retuned s s') s.
Proof.
  revert s p. induction n as [|n IH]; intros s p Hts Hm Hp Hend Hin; cbn [refresh_pages]; [apply wp_ret, retuned_refl|].
  assert (Hdiv : p * 4096 / 4096 = p) by by apply Z.div_mul. pose proof (mem_table_ok _ _ _ Hm) as Hok.
  apply wp_bind, (wp_mem_table s addr t); [done|]. intros s1 Hr1 Heq1.
  apply wp_bind. eapply wp_lift; [apply vm_get_entry_run; [done|lia]|]. rewrite Hdiv.
  assert (Htp : translate t p <> None) by (apply Hin; lia). unfold translate in Htp. destruct (find_pair t (p / 2)) as [[k e]|] eqn:Hf; [|done].
  pose proof (find_pair_Some _ _ _ _ Hok Hf) as (Hk & Hke & _ & _ & He). cbn [fmap option_fmap option_map fst].
  apply wp_bind. eapply wp_lift; [apply rget_Ret; rewrite Nat2Z.id; split; [lia|exact Hke]|].
  apply wp_bind, wp_retune. pose proof (find_pair_asid _ _ _ _ Hok Hf) as Hae. pose proof (Z.mod_pos_bound (pt_ASID t) (2 ^ 8) ltac:(lia)).
  eapply wp_eq.
  { apply tlb_replace_exact; [|lia|done]. rewrite Heq1. cbn. by apply ps_ready. }
  split; [by destruct Hr1 as [[x ->] _]|]. intros s2 Hr2 _ _. rewrite u32_id by (unfold is_u32, PAGE_SIZE; lia).
  replace (p * 4096 + PAGE_SIZE) with ((p + 1) * 4096) by (unfold PAGE_SIZE; lia). pose proof (retuned_trans _ _ _ Hr1 Hr2) as Hr.
  eapply wp_mono; [apply (IH s2 (p + 1)); [by destruct Hr as [[x ->] _]|by eapply retuned_mem|lia|lia|intros q Hq; apply Hin; lia]|].
  intros [] s3 Hr3. by eapply retuned_trans.
Qed.

(** ** The stages

    While a program is loaded only the memory, the files, the heap of the
    process and the lock of the process table change. *)
Record during (me : Z) s s' : Prop := {
  du_wf : table_wf (sy_proc s');
  du_table_lock : process_table_lock (sy_proc s') = process_table_lock (sy_proc s);
  du_ts : ts_ok (ps_threads (sy_proc s'));
  du_thread : ts_tid (ps_threads (sy_proc s')) = ts_tid (ps_threads (sy_proc s)) /\ ts_pid (ps_threads (sy_proc s')) = ts_pid (ps_threads (sy_proc s)) /\
    ts_table (ps_threads (sy_proc s')) = ts_table (ps_threads (sy_proc s));
  du_cpu : cpu_of (sy_proc s') = cpu_of (sy_proc s);
  du_locks : forall k, k <> process_table_lock (sy_proc s) -> ts_lock (ps_threads (sy_proc s')) k = ts_lock (ps_threads (sy_proc s)) k;
  du_quiet : idle (ps_threads (sy_proc s)) (process_table_lock (sy_proc s)) ->
    idle (ps_threads (sy_proc s')) (process_table_lock (sy_proc s)) /\ forall k, ts_quiet (ps_threads (sy_proc s)) k -> ts_quiet (ps_threads (sy_proc s')) k;
  du_rows : forall j, is_pid j -> proc (sy_proc s') j =
    if j =? me then set_heap_vaddr (heap_vaddr (proc (sy_proc s') me)) (proc (sy_proc s) j) else proc (sy_proc s) j;
  du_tty : sy_tty s' = sy_tty s
}.
Lemma set_heap_id e : set_heap_vaddr (heap_vaddr e) e = e.
Proof. by destruct e. Qed.
Lemma during_same me s x r f :
  table_wf (sy_proc s) -> ts_ok (ps_threads (sy_proc s)) -> during me s (with_files f (with_ram r (with_mem x s))).
Proof. intros Hwf Hts. split; try done. intros j Hj. destruct (Z.eqb_spec j me) as [->|]; [|done]. symmetry. apply set_heap_id. Qed.
Lemma during_mem me s s' : table_wf (sy_proc s) -> ts_ok (ps_threads (sy_proc s)) -> only_mem s s' -> during me s s'.
Proof. intros Hwf Hts [x ->]. apply (during_same me s x (sy_ram s) (ps_files (sy_proc s)) Hwf Hts). Qed.
Lemma during_trans me s1 s2 s3 : is_pid me -> during me s1 s2 -> during me s2 s3 -> during me s1 s3.
Proof.
  intros Hme [W1 L1 T1 (I1 & P1 & G1) C1 K1 Q1 R1 Y1] [W2 L2 T2 (I2 & P2 & G2) C2 K2 Q2 R2 Y2]. split; try done; try congruence.
  - split_and!; congruence.
  - intros k Hk. rewrite K2, K1 by congruence. done.
  - intros Hi. rewrite L1 in Q2. destruct (Q1 Hi) as [Hi1 Hk1]. destruct (Q2 Hi1) as [Hi2 Hk2]. split; [done|]. intros k Hk. by apply Hk2, Hk1.
  - intros j Hj. rewrite R2, R1 by done. by destruct (j =? me).
Qed.

Lemma heap_entry_run s me addr :
  table_wf (sy_proc s) -> ts_ok (ps_threads (sy_proc s)) -> is_pid me -> ts_lock (ps_threads (sy_proc s)) (process_table_lock (sy_proc s)) = Free ->
  wp (uninterrupted (
    _ ← on_process (on_threads (lock_acquire (process_table_lock (sy_proc s))));
    _ ← on_process (upd_process me (set_heap_vaddr addr));
    on_process (on_threads (lock_release (process_table_lock (sy_proc s)))))) (fun _ s' =>
    during me s s' /\ heap_vaddr (proc (sy_proc s') me) = addr /\ sy_ram s' = sy_ram s /\ files_of s' = files_of s /\ mem_of s' = mem_of s) s.
Proof.
  intros Hwf Hts Hme Hlock. apply wp_uninterrupted; [done|]. destruct (ts_off_sys s Hts) as (Hok1 & Ht1 & Hp1 & Hg1 & Hl1). set (s1 := with_cpu_of (off_cpu s) s) in *.
  assert (Hc1 : cpu_of (sy_proc s1) = off_cpu s) by apply cpu_of_with.
  apply wp_bind, wp_on_process, wp_on_threads. eapply wp_mono; [apply wp_and; [apply lock_acquire_spec|apply lock_acquire_quiet]; first [done|by rewrite Hl1]|].
  intros _ x2 [(Hok2 & Hc2 & (Ht2 & Hp2 & Hg2) & Hm2 & Ho2 & _) Hq2].
  apply wp_bind, wp_on_process, wp_upd_process; [apply Hwf|done|].
  apply wp_on_process, wp_on_threads. eapply wp_mono; [apply wp_and; [by apply lock_release_spec|by apply lock_release_quiet]|].
  intros _ x3 [(Hok3 & Hc3 & (Ht3 & Hp3 & Hg3) & _ & Ho3) Hq3]. cbn [sy_proc set_proc with_procs ps_threads with_threads] in *.
  assert (Hcpu : cpu_of x3 = off_cpu s) by (rewrite Hc3, Hc2; exact Hc1). split; [exact Hcpu|].
  destruct (ts_cpu (cpu_of (sy_proc s)) x3 Hok3) as (Hok4 & Ht4 & Hp4 & Hg4 & Hl4); [by apply ps_ready|by rewrite Hcpu|].
  match goal with |- during _ _ ?x /\ _ => set (s4 := x) end.
  assert (Hproc : forall j, is_pid j -> proc (sy_proc s4) j = if j =? me then set_heap_vaddr addr (proc (sy_proc s) me) else proc (sy_proc s) j).
  { intros j Hj. by apply (proc_set (sy_proc s1) me); [apply Hwf|..]. }
  assert (Hc4 : cpu_of (sy_proc s4) = cpu_of (sy_proc s)) by apply cpu_of_with.
  assert (Hheap : heap_vaddr (proc (sy_proc s4) me) = addr) by (rewrite Hproc by done; by rewrite Z.eqb_refl).
  split.
  - split.
    + apply (set_proc_wf me (set_heap_vaddr addr (proc (sy_proc s) me)) (sy_proc s) Hwf Hme (proj2 Hwf me Hme)).
    + done.
    + exact Hok4.
    + split_and!; [exact (eq_trans Ht4 (eq_trans Ht3 (eq_trans Ht2 Ht1)))|exact (eq_trans Hp4 (eq_trans Hp3 (eq_trans Hp2 Hp1)))|exact (eq_trans Hg4 (eq_trans Hg3 (eq_trans Hg2 Hg1)))].
    + exact Hc4.
    + intros k Hk. rewrite <- Hl1, <- Ho2, <- Ho3 by done. exact (f_equal (fun g => g k) Hl4).
    + intros [_ Hq]. assert (Hin : forall k, ts_quiet (ps_threads (sy_proc s)) k -> ts_quiet x2 k).
      { intros k Hk. apply Hq2. unfold s1. cbn. by rewrite ts_quiet_cpu. }
      destruct (Hq3 (Hin _ Hq)) as [Hf3 Hk3]. assert (Hout : forall k, ts_quiet (ps_threads (sy_proc s)) k -> ts_quiet (ps_threads (sy_proc s4)) k).
      { intros k Hk. unfold s4. cbn. rewrite ts_quiet_cpu. by apply Hk3, Hin. }
      split; [split; [exact (eq_trans (f_equal (fun g => g _) Hl4) Hf3)|by apply Hout]|exact Hout].
    + intros j Hj. rewrite Hheap, Hproc by done. by destruct (Z.eqb_spec j me) as [->|].
    + done.
  - split; [exact Hheap|]. split; [done|]. split; [done|]. unfold mem_of. rewrite Hc4. done.
Qed.

Lemma wp_maxindex s (Q : Z -> state -> Prop) :
  (forall s', retuned s s' -> mem_of s' = mem_of s -> Q (zlen (sp_rows (mem_of s)) - 1) s') -> wp (on_memory (on_tlb (gets _tlb_get_maxindex))) Q s.
Proof.
  intros HQ. apply wp_on_memory, wp_on_tlb, wp_gets. split; [done|].
  assert (Heq : forall x : space, mk_space (with_cpu (cpu_of x) (sp_vm x)) (sp_rows x) (sp_asid x) = x) by (by intros [[[] ?] ? ?]).
  cbn [tlb_cpu tlb_rows tlb_asid tlb_of]. rewrite Heq. apply HQ; [split; [by eexists|]|]; by rewrite mem_with_mem.
Qed.

(** Where the pages of an image are: page-aligned segments with their bytes,
    apart from each other, between the first page and the stack, and a page
    for the heap behind the writable segment. *)
Definition stack_page : Z := 0x7fffe.
Definition heap_page (elf : elf_info_t) : Z := vaddr (rw elf) / 4096 + pages (rw elf).
Definition segment_ok (g : segment_info) : Prop :=
  0 <= pages g /\ vaddr g mod 4096 = 0 /\ 0 <= size g <= 4096 * pages g /\ 0 <= location g < 2147483648.
Record layout (elf : elf_info_t) : Prop := {
  la_ro : segment_ok (ro elf) /\ 0 <= vaddr (ro elf) / 4096 /\ vaddr (ro elf) / 4096 + pages (ro elf) <= stack_page /\
    (pages (ro elf) = 0 \/ 1 <= vaddr (ro elf) / 4096);
  la_rw : segment_ok (rw elf) /\ 1 <= vaddr (rw elf) / 4096 /\ heap_page elf < stack_page;
  la_apart : vaddr (ro elf) / 4096 + pages (ro elf) <= vaddr (rw elf) / 4096 \/ heap_page elf < vaddr (ro elf) / 4096
}.
Definition ro_page (elf : elf_info_t) : Z -> bool := within (vaddr (ro elf) / 4096) (pages (ro elf)).
Definition rw_page (elf : elf_info_t) : Z -> bool := within (vaddr (rw elf) / 4096) (pages (rw elf)).
Definition image_page (elf : elf_info_t) (q : Z) : bool := ((q =? heap_page elf) || (rw_page elf q || (ro_page elf q || (q =? stack_page)))).
(** The frames it takes: those of the segments, the stack and the heap. *)
Definition image_frames (elf : elf_info_t) : Z := pages (ro elf) + pages (rw elf) + 2.
(** The tests before anything is built. *)
Definition startable (rows : Z) (elf : elf_info_t) : Prop := 4096 <= entry_point elf /\ pages (ro elf) + pages (rw elf) + 1 <= rows.

Lemma segment_vaddr g : segment_ok g -> vaddr g = vaddr g / 4096 * 4096.
Proof. intros (_ & Hm & _). pose proof (Z.div_mod (vaddr g) 4096 ltac:(lia)). lia. Qed.

(** Pages added to an empty table, [n] so far. *)
Definition added x x' (addr : Z) t (P : Z -> bool) (n : Z) : Prop :=
  exists t' fs, zlen fs = n /\ more x x' addr t t' fs P.
Lemma added_room x x' addr t P n : (forall q, translate t q = None) -> valid_count t = 0 -> added x x' addr t P n ->
  exists t', mem_ok x' addr t' /\ (forall q, P q = false -> translate t' q = None) /\ valid_count t' <= n /\
    pagepool_num_free_pages (spool x') = pagepool_num_free_pages (spool x) - n.
Proof.
  intros He Hc (t' & fs & <- & Hm). exists t'. split; [apply Hm|]. split; [|split; [|apply Hm]].
  - intros q Hq. pose proof (mr_pages _ _ _ _ _ _ _ Hm q) as Hp. rewrite Hq in Hp. by rewrite Hp.
  - pose proof (mr_count _ _ _ _ _ _ _ Hm). lia.
Qed.

Lemma add_pages_run k s s1 addr t P n p step :
  (forall q, translate t q = None) -> valid_count t = 0 -> added (mem_of s) (mem_of s1) addr t P n ->
  (step = PAGE_SIZE \/ k = 1%nat) -> 0 <= p -> p + Z.of_nat k <= 2 ^ 20 -> (forall q, p <= q < p + Z.of_nat k -> P q = false) ->
  n + Z.of_nat k <= PAGETABLE_ENTRIES ->
  let m := Z.min (Z.of_nat k) (free_frames (mem_of s) - n) in
  wp (map_pages k addr (p * 4096) step) (fun ok s2 => ok = bool_decide (n + Z.of_nat k <= free_frames (mem_of s)) /\ only_mem s1 s2 /\
    added (mem_of s) (mem_of s2) addr t (fun q => within p m q || P q) (n + m)) s1.
Proof.
  intros He Hc Ha Hstep Hp Hend Hno Hroom m. destruct (added_room _ _ _ _ _ _ He Hc Ha) as (t1 & Hm1 & Hn1 & Hc1 & Hf1).
  destruct Ha as (t1' & fs & Hfs & Hmore). assert (t1' = t1) as ->.
  { pose proof (mo_table _ _ _ Hm1). pose proof (mo_table _ _ _ (mr_mem _ _ _ _ _ _ _ Hmore)). congruence. }
  eapply wp_mono; [apply (map_pages_run k s1 addr t1 p step Hm1 Hstep Hp Hend); [intros q Hq; by apply Hn1, Hno|lia]|].
  rewrite Hf1. fold m. intros ok s2 (-> & t2 & gs & Hgs & Ho & Hm2). split; [apply bool_decide_ext; lia|]. split; [done|].
  exists t2, (gs ++ fs). split; [rewrite length_app; lia|]. by eapply more_trans.
Qed.

Lemma build_space_run s me addr t elf :
  table_wf (sy_proc s) -> ts_ok (ps_threads (sy_proc s)) -> is_pid me -> ts_lock (ps_threads (sy_proc s)) (process_table_lock (sy_proc s)) = Free ->
  mem_ok (mem_of s) addr t -> (forall q, translate t q = None) -> valid_count t = 0 -> layout elf ->
  1 <= zlen (sp_rows (mem_of s)) <= 64 ->
  wp (build_space me addr elf) (fun ok s' => during me s s' /\ sy_ram s' = sy_ram s /\ files_of s' = files_of s /\
    ok = bool_decide (startable (zlen (sp_rows (mem_of s))) elf /\ image_frames elf <= free_frames (mem_of s)) /\
    exists t' fs P, more (mem_of s) (mem_of s') addr t t' fs P /\
      if ok then heap_vaddr (proc (sy_proc s') me) = heap_page elf * 4096 /\ P = image_page elf
      else heap_vaddr (proc (sy_proc s') me) = heap_vaddr (proc (sy_proc s) me) \/
        heap_vaddr (proc (sy_proc s') me) = heap_page elf * 4096 /\ free_frames (mem_of s) = image_frames elf - 1 /\
        forall q, P q = true -> image_page elf q = true /\ q <> heap_page elf) s.
Proof.
  intros Hwf Hts Hme Hlock Hm Hempty Hcount [(Hro & Hro1 & Hro2 & Hro3) (Hrw & Hrw1 & Hrw2) Hap] Hrows. unfold build_space.
  pose proof (free_nonneg _ _ _ Hm) as Hnn. unfold image_frames.
  pose proof (segment_vaddr _ Hro) as Hrov. pose proof (segment_vaddr _ Hrw) as Hrwv. destruct Hro as (Hrop & _), Hrw as (Hrwp & _).
  assert (Hdone : forall s', only_mem s s' -> during me s s' /\ sy_ram s' = sy_ram s /\ files_of s' = files_of s).
  { intros s' Ho. split; [by apply during_mem|]. by destruct Ho as [x ->]. }
  match goal with |- wp _ ?Q _ => set (Post := Q) end.
  (* where it gives up before the heap *)
  assert (Hgive : forall s' P n, only_mem s s' -> added (mem_of s) (mem_of s') addr t P n ->
    ~ (startable (zlen (sp_rows (mem_of s))) elf /\ pages (ro elf) + pages (rw elf) + 2 <= free_frames (mem_of s)) -> Post false s').
  { intros s' P n Ho (t' & fs & _ & Hmore) Hno. unfold Post. destruct (Hdone s' Ho) as (? & ? & ?). split; [done|]. split; [done|]. split; [done|].
    split; [by rewrite bool_decide_false|]. exists t', fs, P. split; [done|]. left. by destruct Ho as [x ->]. }
  assert (Hadd : forall s', mem_of s' = mem_of s -> added (mem_of s) (mem_of s') addr t (fun _ => false) 0).
  { intros s' Heq. exists t, []. split; [done|]. rewrite Heq. by apply more_none. }
  destruct (Z.ltb_spec (entry_point elf) PAGE_SIZE) as [He|He]; unfold PAGE_SIZE in He.
  { apply wp_ret. apply (Hgive s _ _ (only_mem_refl s) (Hadd s eq_refl)). unfold startable. lia. }
  apply wp_bind, wp_maxindex. intros s0 [Ho0 _] Heq0. unfold stack_page, CONFIG_USERLAND_STACK_SIZE in *. assert (Hhp : heap_page elf = vaddr (rw elf) / 4096 + pages (rw elf)) by done.
  rewrite (u32_id (pages (ro elf) + pages (rw elf))), !u32_id by (unfold is_u32; lia).
  replace (zlen (sp_rows (mem_of s)) - 1 + 1) with (zlen (sp_rows (mem_of s))) by lia. rewrite Z.gtb_ltb.
  destruct (Z.ltb_spec (zlen (sp_rows (mem_of s))) (pages (ro elf) + pages (rw elf) + 1)) as [Hbig|Hfit].
  { apply wp_ret. apply (Hgive s0 _ _ Ho0 (Hadd s0 Heq0)). unfold startable. lia. }
  pose proof (Hadd s0 Heq0) as Hadd0. set (nf := free_frames (mem_of s)) in *.
  apply wp_bind. change (Z.land USERLAND_STACK_TOP PAGE_SIZE_MASK) with (0x7fffe * 4096).
  eapply wp_mono; [apply (add_pages_run 1 s s0 addr t _ 0 0x7fffe _ Hempty Hcount Hadd0); [by right|lia|lia|done|unfold PAGETABLE_ENTRIES; lia]|].
  fold nf. intros ok s1 (-> & Ho1 & Hadd1). pose proof (only_mem_trans _ _ _ Ho0 Ho1) as Ho01.
  case_bool_decide as Hfr1; cbn [negb]; [|apply wp_ret, (Hgive s1 _ _ Ho01 Hadd1); lia].
  replace (Z.min (Z.of_nat 1) (nf - 0)) with 1 in Hadd1 by lia.
  apply wp_bind. rewrite Hrov, i32_id by (unfold is_i32; lia).
  eapply wp_mono; [apply (add_pages_run _ s s1 addr t _ _ (vaddr (ro elf) / 4096) _ Hempty Hcount Hadd1); rewrite ?Z2Nat.id by done;
    [by left|done|lia|intros q Hq; apply not_true_iff_false; rewrite orb_false_r, within_spec; lia|unfold PAGETABLE_ENTRIES; lia]|].
  fold nf. rewrite Z2Nat.id by done. intros ok s2 (-> & Ho2 & Hadd2). pose proof (only_mem_trans _ _ _ Ho01 Ho2) as Ho02.
  case_bool_decide as Hfr2; cbn [negb]; [|apply wp_ret, (Hgive s2 _ _ Ho02 Hadd2); lia].
  rewrite Z.min_l in Hadd2 by lia.
  apply wp_bind. rewrite Hrwv, i32_id by (unfold is_i32; lia).
  eapply wp_mono; [apply (add_pages_run _ s s2 addr t _ _ (vaddr (rw elf) / 4096) _ Hempty Hcount Hadd2); rewrite ?Z2Nat.id by done;
    [by left|lia|lia|intros q Hq; apply not_true_iff_false; rewrite orb_false_r, orb_true_iff, !within_spec; lia|unfold PAGETABLE_ENTRIES; lia]|].
  fold nf. rewrite Z2Nat.id by done. intros ok s3 (-> & Ho3 & Hadd3). pose proof (only_mem_trans _ _ _ Ho02 Ho3) as Ho.
  case_bool_decide as Hfr3; cbn [negb]; [|apply wp_ret, (Hgive s3 _ _ Ho Hadd3); lia].
  rewrite Z.min_l in Hadd3 by lia.
  destruct (Hdone s3 Ho) as (Hd3 & Hram3 & Hf3).
  (* the heap *)
  unfold map_heap. apply wp_bind, wp_on_process, wp_gets.
  replace (mk_sys (sy_proc s3) (sy_ram s3) (sy_tty s3)) with s3 by (by destruct s3).
  rewrite u32_id by (unfold is_u32, PAGE_SIZE; lia).
  apply wp_bind. eapply wp_mono; [apply (heap_entry_run s3 me); [apply Hd3|apply Hd3|done|by destruct Ho as [x ->]]|].
  intros _ s4 (Hd4 & Hheap4 & Hram4 & Hf4 & Hm4). pose proof (during_trans me _ _ _ Hme Hd3 Hd4) as Hd.
  apply wp_bind, wp_on_process, wp_get_process; [apply Hd4|done|].
  replace (mk_sys (sy_proc s4) (sy_ram s4) (sy_tty s4)) with s4 by (by destruct s4). rewrite Hheap4.
  replace (vaddr (rw elf) + pages (rw elf) * PAGE_SIZE) with (heap_page elf * 4096) by (unfold PAGE_SIZE; lia).
  rewrite <- Hm4 in Hadd3. destruct (added_room _ _ _ _ _ _ Hempty Hcount Hadd3) as (t4 & Hmok4 & Hn4 & Hc4 & Hf4').
  destruct Hadd3 as (t4' & fs & Hfs & Hmore4). assert (t4' = t4) as ->.
  { pose proof (mo_table _ _ _ Hmok4). pose proof (mo_table _ _ _ (mr_mem _ _ _ _ _ _ _ Hmore4)). congruence. }
  assert (Hdiv : heap_page elf * 4096 / 4096 = heap_page elf) by by apply Z.div_mul.
  eapply wp_mono; [apply (map_page_run s4 addr t4); rewrite ?Hdiv; [done|unfold is_u32; lia| |unfold PAGETABLE_ENTRIES; lia]|].
  { apply Hn4. apply not_true_iff_false. rewrite !orb_true_iff, !within_spec. lia. }
  rewrite Hdiv, Hf4'. fold nf. intros ok s5 (-> & Hcase).
  assert (Ho5 : only_mem s4 s5) by (case_bool_decide; [by destruct Hcase as (? & ? & ? & _)|apply Hcase]).
  assert (Hd5 : during me s s5).
  { eapply during_trans; [done|exact Hd|]. apply during_mem; [apply Hd4|apply Hd4|done]. }
  assert (Hproc5 : sy_ram s5 = sy_ram s4 /\ files_of s5 = files_of s4 /\ proc (sy_proc s5) me = proc (sy_proc s4) me) by (by destruct Ho5 as [x ->]).
  destruct Hproc5 as (Hr5 & Hf5 & Hp5). unfold Post. clear Post Hgive. split; [done|]. split; [congruence|]. split; [congruence|].
  assert (Hheap5 : heap_vaddr (proc (sy_proc s5) me) = heap_page elf * 4096) by (rewrite Hp5, Hheap4; unfold PAGE_SIZE; lia).
  assert (Hst : startable (zlen (sp_rows (mem_of s))) elf) by done.
  split; [apply bool_decide_ext; split; [intros ?; split; [done|lia]|intros [_ ?]; lia]|].
  case_bool_decide as Hlast.
  - destruct Hcase as (t5 & f & _ & Hmore5). exists t5, ([f] ++ fs), (image_page elf). split; [|by split].
    eapply more_ext; [|by eapply more_trans]. intros q. cbv beta. unfold image_page, rw_page, ro_page, stack_page.
    apply eq_true_iff_eq. rewrite !orb_true_iff, !within_spec, !Z.eqb_eq. lia.
  - destruct Hcase as [_ Hm5]. rewrite Hm5. exists t4, fs. eexists. split; [exact Hmore4|]. right. split; [done|]. split; [lia|].
    intros q. unfold image_page, rw_page, ro_page, stack_page. rewrite !orb_true_iff, !within_spec, !Z.eqb_eq. lia.
Qed.

(** *** Storing *)
(** The memory of the process has the bytes that [c] gives, and its old ones
    elsewhere. *)
Definition effect t (r r' : Z -> Z) (c : Z -> option Z) : Prop :=
  (forall x, seen t r' x = match c x with Some v => Some v | None => seen t r x end) /\ forall p, p / 4096 ∉ frames t -> r' p = r p.
Lemma effect_none t r : effect t r r (fun _ => None).
Proof. done. Qed.
Lemma effect_trans t r1 r2 r3 c1 c2 c : effect t r1 r2 c1 -> effect t r2 r3 c2 ->
  (forall x, c x = match c2 x with Some v => Some v | None => c1 x end) -> effect t r1 r3 c.
Proof.
  intros [H1 O1] [H2 O2] Hc. split; [|intros p Hp; by rewrite O2, O1]. intros x. rewrite Hc, H2, H1. by destruct (c2 x).
Qed.
Lemma writes_effect t r r' a xs c : writes t r r' a xs ->
  (forall x, c x = if decide (a <= x < a + zlen xs) then xs !! Z.to_nat (x - a) else None) -> effect t r r' c.
Proof.
  intros [Hs Ho] Hc. split; [|done]. intros x. rewrite Hc, Hs. case_decide; [|done].
  destruct (lookup_lt_is_Some_2 xs (Z.to_nat (x - a))) as [v ->]; [lia|done].
Qed.

Lemma pages_writable t p n : 0 <= p -> p + n <= 2 ^ 19 -> (forall q, p <= q < p + n -> exists f, translate t q = Some (f, 1)) ->
  all_writable t (p * 4096) (n * 4096).
Proof.
  intros Hp Hn Hq. split; [lia|]. split; [lia|]. intros i Hi. unfold writable.
  pose proof (Z.div_mod (p * 4096 + i) 4096 ltac:(lia)). pose proof (Z.mod_pos_bound (p * 4096 + i) 4096 ltac:(lia)).
  destruct (Hq ((p * 4096 + i) / 4096)) as [f ->]; [lia|done].
Qed.
Lemma all_writable_part t a n m : all_writable t a n -> m <= n -> all_writable t a m.
Proof. intros (H1 & H2 & H3) Hm. split; [done|]. split; [lia|]. intros i Hi. apply H3. lia. Qed.

Definition page_of (x : Z) : Z := x / 4096.
Lemma page_range_of p n x : p * 4096 <= x < p * 4096 + n * 4096 <-> within p n (page_of x) = true.
Proof.
  rewrite within_spec. unfold page_of. pose proof (Z.div_mod x 4096 ltac:(lia)). pose proof (Z.mod_pos_bound x 4096 ltac:(lia)). lia.
Qed.

Lemma clear_pages_run s addr t p n size :
  mem_ok (mem_of s) addr t -> 0 <= n -> size = n * 4096 -> all_writable t (p * 4096) (n * 4096) ->
  wp (user_memoryset addr (p * 4096) 0 size) (fun _ s' => exists r, s' = with_ram r s /\
    effect t (sy_ram s) r (fun x => if within p n (page_of x) then Some 0 else None)) s.
Proof.
  intros Hm Hn -> Hw. assert (Hl : zlen (replicate (Z.to_nat (n * 4096)) 0) = n * 4096) by (rewrite length_replicate; lia).
  eapply wp_mono; [apply (store_bytes_run s addr t); [by apply on_user_table|by eapply mem_table_ok| |by rewrite Hl]|].
  { intros q1 q2 f d d'. by eapply mem_injective. }
  intros _ s' (r & -> & Hr). exists r. split; [done|]. eapply writes_effect; [exact Hr|]. intros x. rewrite Hl.
  destruct (within p n (page_of x)) eqn:E.
  - apply page_range_of in E. rewrite decide_True by done. symmetry. apply lookup_replicate. split; [done|lia].
  - rewrite decide_False; [done|]. rewrite page_range_of. by rewrite E.
Qed.

(** What a segment holds once it is loaded, and the bytes that loading stores. *)
Definition segment_byte (b : list Z) (g : segment_info) (x : Z) : Z :=
  if x - vaddr g <? size g then b !!! Z.to_nat (location g + (x - vaddr g)) else 0.
Definition segment_bytes (b : list Z) (g : segment_info) (x : Z) : option Z :=
  if decide (vaddr g <= x < vaddr g + size g) then Some (segment_byte b g x) else None.
Definition segment_in (b : list Z) (g : segment_info) : Prop := size g = 0 \/ location g + size g <= zlen b.
#[export] Instance segment_in_dec b g : Decision (segment_in b g).
Proof. unfold segment_in. apply _. Defined.

Lemma load_segment_run s addr t file pos b g :
  mem_ok (mem_of s) addr t -> segment_ok g -> size g < 2147483648 -> (0 < size g -> 4096 <= vaddr g) -> all_writable t (vaddr g) (size g) ->
  of_ok (files_of s) -> of_file (files_of s) file pos b ->
  wp (load_segment addr file g) (fun ok s' => ok = bool_decide (segment_in b g) /\ exists r f, s' = with_ram r (with_files f s) /\
    still_open file b (files_of s) f /\ exists c, effect t (sy_ram s) r c /\ (ok = true -> forall x, c x = segment_bytes b g x)) s.
Proof.
  intros Hm (_ & _ & Hsize & Hloc) Hmax Hva Hw Hok Hf. unfold load_segment, segment_in. rewrite Z.gtb_ltb. destruct (Z.ltb_spec 0 (size g)) as [Hpos|Hz].
  2: { apply wp_ret. split; [rewrite bool_decide_true; [done|left; lia]|]. exists (sy_ram s), (files_of s). split; [by destruct s as [[] ? ?]|].
    split; [split; [done|]; split; [done|by eexists]|]. exists (fun _ => None). split; [done|]. intros _ x. unfold segment_bytes. rewrite decide_False; [done|lia]. }
  specialize (Hva Hpos). rewrite (proj2 (Z.ltb_ge (vaddr g) PAGE_SIZE)) by (unfold PAGE_SIZE; lia). rewrite !i32_id by (unfold is_i32; lia).
  apply wp_bind, wp_files. eapply wp_mono; [apply (vfs_seek_law _ file pos (location g) b Hok Hf); lia|].
  intros r0 f0 (-> & Hok0 & Hsame0 & Hf0). cbn [Z.eqb VFS_OK negb].
  apply wp_bind. unfold user_vfs_read. apply wp_bind, wp_files.
  assert (Hbuf : zlen (replicate (Z.to_nat (size g)) 0) = size g) by (rewrite length_replicate; lia).
  apply (read_whole _ file (location g) b _ (size g)); [done|done|done|done|..].
  - intros r buf f Hs Hr Hlen Hshort. cbn [fst snd].
    apply wp_bind. eapply wp_mono; [apply (store_bytes_run (with_files f (with_files f0 s)) addr t); [by apply on_user_table in Hm|by eapply mem_table_ok| |]|].
    { intros q1 q2 g1 d d'. by eapply mem_injective. }
    { eapply all_writable_part; [exact Hw|done]. }
    intros _ s2 (r' & -> & Hr'). apply wp_ret, wp_ret. split.
    { rewrite (proj2 (Z.eqb_neq _ _) Hr). symmetry. apply bool_decide_false. intros [|]; lia. }
    exists r', f. split; [done|]. split; [by eapply still_open_trans|]. eexists. split; [by eapply writes_effect|].
    by rewrite (proj2 (Z.eqb_neq _ _) Hr).
  - intros f Hok1 Hsame1 Hf1 Hend. cbn [fst snd]. set (xs := take _ _).
    assert (Hxs : xs = slice b (Z.to_nat (location g)) (Z.to_nat (size g))) by (apply take_ge; rewrite length_slice; lia).
    assert (Hl : zlen xs = size g) by (rewrite Hxs, length_slice; lia).
    apply wp_bind. eapply wp_mono; [apply (store_bytes_run (with_files f (with_files f0 s)) addr t); [by apply on_user_table in Hm|by eapply mem_table_ok| |by rewrite Hl]|].
    { intros q1 q2 g1 d d'. by eapply mem_injective. }
    intros _ s2 (r' & -> & Hr'). apply wp_ret, wp_ret. split.
    { rewrite Z.eqb_refl. symmetry. apply bool_decide_true. by right. }
    exists r', f. split; [done|]. split.
    { eapply still_open_trans; [exact Hsame0|]. split; [done|]. split; [done|by eexists]. }
    exists (segment_bytes b g). split; [|done]. eapply writes_effect; [exact Hr'|]. intros x. rewrite Hl. unfold segment_bytes. case_decide as Hx; [|done].
    rewrite Hxs, lookup_slice, decide_True by lia. unfold segment_byte. rewrite (proj2 (Z.ltb_lt _ _)) by lia.
    replace (Z.to_nat (location g + (x - vaddr g))) with (Z.to_nat (location g) + Z.to_nat (x - vaddr g))%nat by lia.
    symmetry. apply list_lookup_lookup_total_lt. lia.
Qed.

Lemma layout_ro elf : layout elf -> vaddr (ro elf) = vaddr (ro elf) / 4096 * 4096 /\ 0 <= vaddr (ro elf) / 4096 /\ 0 <= pages (ro elf) /\
  vaddr (ro elf) / 4096 + pages (ro elf) <= 0x7fffe.
Proof. intros [(Hg & H1 & H2 & _) _ _]. split; [by apply segment_vaddr|]. split; [done|]. split; [apply Hg|done]. Qed.
Lemma layout_rw elf : layout elf -> vaddr (rw elf) = vaddr (rw elf) / 4096 * 4096 /\ 1 <= vaddr (rw elf) / 4096 /\ 0 <= pages (rw elf) /\
  heap_page elf = vaddr (rw elf) / 4096 + pages (rw elf) /\ heap_page elf < 0x7fffe.
Proof. intros [_ (Hg & H1 & H2) _]. split; [by apply segment_vaddr|]. split; [done|]. split; [apply Hg|done]. Qed.

(** Every page of the image can be written. *)
Definition open_image t elf : Prop := forall q, image_page elf q = true -> exists f, translate t q = Some (f, 1).
Lemma open_ro t elf : layout elf -> open_image t elf -> all_writable t (vaddr (ro elf)) (pages (ro elf) * 4096).
Proof.
  intros Hl Ho. destruct (layout_ro elf Hl) as (Hv & H1 & H2 & H3). rewrite Hv. apply pages_writable; [done|lia|].
  intros q Hq. apply Ho. unfold image_page. rewrite !orb_true_iff. right; right; left. by apply within_spec.
Qed.
Lemma open_rw t elf : layout elf -> open_image t elf -> all_writable t (vaddr (rw elf)) (pages (rw elf) * 4096).
Proof.
  intros Hl Ho. destruct (layout_rw elf Hl) as (Hv & H1 & H2 & H3 & H4). rewrite Hv. apply pages_writable; [lia|lia|].
  intros q Hq. apply Ho. unfold image_page. rewrite !orb_true_iff. right; left. by apply within_spec.
Qed.
Lemma open_stack t elf : open_image t elf -> all_writable t (stack_page * 4096) (1 * 4096).
Proof.
  intros Ho. apply pages_writable; [done|done|]. intros q Hq. apply Ho. unfold image_page, stack_page in *. rewrite !orb_true_iff. right; right; right. apply Z.eqb_eq. lia.
Qed.

Definition cleared (elf : elf_info_t) (x : Z) : option Z :=
  if ro_page elf (page_of x) || rw_page elf (page_of x) || (page_of x =? stack_page) then Some 0 else None.

Lemma clear_space_run s addr t elf :
  ts_ok (ps_threads (sy_proc s)) -> mem_ok (mem_of s) addr t -> layout elf -> open_image t elf ->
  wp (clear_space addr elf) (fun _ s' => exists s1 r, retuned s s1 /\ s' = with_ram r s1 /\ effect t (sy_ram s) r (cleared elf)) s.
Proof.
  intros Hts Hm Hl Ho. destruct (layout_ro elf Hl) as (Hrv & Hr1 & Hr2 & Hr3), (layout_rw elf Hl) as (Hwv & Hw1 & Hw2 & Hw3 & Hw4).
  unfold clear_space. apply wp_bind. eapply wp_mono; [by apply set_asid_run|]. intros _ s1 (Hret & _).
  pose proof (retuned_mem _ _ _ _ Hret Hm) as Hm1. rewrite !u32_id, !i32_id by (unfold is_u32, is_i32, PAGE_SIZE; lia).
  pose proof (open_ro t elf Hl Ho) as Wr. pose proof (open_rw t elf Hl Ho) as Ww. rewrite Hrv in Wr. rewrite Hwv in Ww. rewrite Hrv, Hwv.
  apply wp_bind. eapply wp_mono; [apply (clear_pages_run s1 addr t _ (pages (ro elf))); done|]. intros _ s2 (r2 & -> & He2).
  apply wp_bind. eapply wp_mono; [apply (clear_pages_run (with_ram r2 s1) addr t _ (pages (rw elf))); done|]. intros _ s3 (r3 & -> & He3).
  change stack_bottom with (stack_page * 4096).
  eapply wp_mono; [apply (clear_pages_run (with_ram r3 (with_ram r2 s1)) addr t _ 1); [done|lia|done|by eapply open_stack]|]. intros _ s4 (r4 & -> & He4).
  exists s1, r4. split; [done|]. split; [done|]. assert (Hr : sy_ram s1 = sy_ram s) by (by destruct Hret as [[x ->] _]). rewrite Hr in He2.
  eapply effect_trans; [eapply effect_trans; [exact He2|exact He3|intros x; exact (eq_refl _)]|exact He4|]. intros x. cbv beta. unfold cleared.
  assert (Hst : within stack_page 1 (page_of x) = (page_of x =? stack_page)) by (apply eq_true_iff_eq; rewrite within_spec, Z.eqb_eq; lia).
  rewrite Hst. fold (ro_page elf) (rw_page elf). by destruct (ro_page elf (page_of x)), (rw_page elf (page_of x)), (page_of x =? stack_page).
Qed.

Lemma seen_protected t t' r P x : protected t t' P -> seen t' r x = seen t r x.
Proof.
  intros Hp. unfold seen, user_byte, user_addr. cbn [us_table us_ram]. rewrite Hp. destruct (P (x / 4096)); [|done]. by destruct (translate t (x / 4096)) as [[]|].
Qed.

Lemma protect_space_run s addr t elf :
  ts_ok (ps_threads (sy_proc s)) -> mem_ok (mem_of s) addr t -> layout elf -> open_image t elf ->
  wp (protect_space addr elf) (fun _ s' => only_mem s s' /\ exists t', mem_ok (mem_of s') addr t' /\ pt_ASID t' = pt_ASID t /\
    frames t' ≡ₚ frames t /\ protected t t' (ro_page elf) /\ vm_pmem (sp_vm (mem_of s')) = vm_pmem (sp_vm (mem_of s)) /\
    vm_tables (sp_vm (mem_of s')) = <[addr := t']> (vm_tables (sp_vm (mem_of s))) /\ sp_asid (mem_of s') = pt_ASID t' mod 2 ^ 8) s.
Proof.
  intros Hts Hm Hl Ho. destruct (layout_ro elf Hl) as (Hrv & Hr1 & Hr2 & Hr3). pose proof (la_ro _ Hl) as (_ & _ & _ & Hr4).
  unfold protect_space. rewrite i32_id by (unfold is_i32; lia). rewrite Hrv.
  assert (Hin : forall q, vaddr (ro elf) / 4096 <= q < vaddr (ro elf) / 4096 + Z.of_nat (Z.to_nat (pages (ro elf))) -> exists f, translate t q = Some (f, 1)).
  { intros q Hq. apply Ho. unfold image_page. rewrite !orb_true_iff. right; right; left. apply within_spec. lia. }
  apply wp_bind. eapply wp_mono; [apply (protect_pages_run _ s addr t); [done|done|lia|]|].
  { intros q Hq. destruct (Hin q Hq) as [f ->]. done. }
  rewrite Z2Nat.id by done. intros _ s1 (Ho1 & t1 & Hm1 & Ha1 & Hp1 & Hpr1 & Hpm1 & Htb1).
  assert (Hts1 : ts_ok (ps_threads (sy_proc s1))) by (by destruct Ho1 as [x ->]).
  apply wp_bind. apply (wp_mono _ (fun _ s2 => retuned s1 s2)).
  { destruct (Z.eq_dec (pages (ro elf)) 0) as [->|Hne]; [apply wp_ret, retuned_refl|].
    apply (refresh_pages_run _ s1 addr t1); [done|done|lia|lia|]. intros q Hq. rewrite Hpr1. destruct (Hin q Hq) as [f ->]. by destruct (within _ _ q). }
  intros [] s2 Hq2. assert (Hts2 : ts_ok (ps_threads (sy_proc s2))) by (by destruct Hq2 as [[x ->] _]).
  pose proof (retuned_mem _ _ _ _ Hq2 Hm1) as Hm2. eapply wp_mono; [by apply set_asid_run|]. intros _ s3 (Hr3' & _ & Hasid3).
  pose proof (retuned_trans _ _ _ Hq2 Hr3') as Hr. split; [eapply only_mem_trans; [exact Ho1|apply Hr]|]. exists t1.
  split; [by eapply retuned_mem|]. split; [done|]. split; [done|]. split; [done|]. rewrite (proj2 Hr). done.
Qed.

(** *** The whole *)

(** [x1] is [x0] but for the table [t], whose frames were free. *)
Record took (x0 x1 : space) (addr : Z) t : Prop := {
  tk_mem : mem_ok x1 addr t;
  tk_cpu : cpu_of x1 = cpu_of x0;
  tk_tables : vm_tables (sp_vm x1) = <[addr := t]> (vm_tables (sp_vm x0));
  tk_size : pagepool_num_pages (spool x1) = pagepool_num_pages (spool x0) /\ pagepool_static_end (spool x1) = pagepool_static_end (spool x0);
  tk_free : pagepool_num_free_pages (spool x1) = pagepool_num_free_pages (spool x0) - zlen (frames t);
  tk_pool : forall q, 0 <= q < pagepool_num_pages (spool x0) -> reserved (spool x1) q = bool_decide (q ∈ frames t) || reserved (spool x0) q;
  tk_new : Forall (fun f => reserved (spool x0) f = false) (frames t)
}.
Lemma no_frames t : pt_ok t -> (forall q, translate t q = None) -> frames t = [].
Proof.
  intros Hok He. apply elem_of_nil_inv. intros f. rewrite frames_mapped by done. intros (q & d & Hq). by rewrite He in Hq.
Qed.
Lemma more_took x0 x1 addr t t1 fs P : pt_ok t -> (forall q, translate t q = None) -> more x0 x1 addr t t1 fs P -> took x0 x1 addr t1.
Proof.
  intros Hok He [M (A1 & A2 & A3) B S0 F0 P1 N L0 C I G _]. rewrite (no_frames t Hok He), app_nil_r in L0. split; try done.
  - by rewrite L0.
  - intros q Hq. rewrite P1 by done. f_equal. apply bool_decide_ext. by rewrite L0.
  - by rewrite L0.
Qed.
Lemma took_same x0 x1 x2 addr t1 t2 : took x0 x1 addr t1 -> mem_ok x2 addr t2 -> frames t2 ≡ₚ frames t1 ->
  vm_pmem (sp_vm x2) = vm_pmem (sp_vm x1) -> vm_tables (sp_vm x2) = <[addr := t2]> (vm_tables (sp_vm x1)) -> took x0 x2 addr t2.
Proof.
  intros [M A B S0 F0 P N] M2 L0 Hpm Htb. split; rewrite ?Hpm, ?L0; try done.
  - rewrite <- A. unfold cpu_of. cbn. by rewrite Hpm.
  - by rewrite Htb, B, insert_insert_eq.
  - intros q Hq. rewrite P by done. f_equal. apply bool_decide_ext. by rewrite L0.
Qed.

Definition loadable (rows : Z) (b : list Z) (elf : elf_info_t) : Prop := startable rows elf /\ segment_in b (ro elf) /\ segment_in b (rw elf).
#[export] Instance loadable_dec rows b elf : Decision (loadable rows b elf).
Proof. unfold loadable, startable. apply _. Defined.

(** What the process finds in its memory. *)
Record loaded (b : list Z) (elf : elf_info_t) t (r : Z -> Z) : Prop := {
  ld_ro : forall x, ro_page elf (page_of x) = true -> seen t r x = Some (segment_byte b (ro elf) x) /\ writable t x = false;
  ld_rw : forall x, rw_page elf (page_of x) = true -> seen t r x = Some (segment_byte b (rw elf) x) /\ writable t x = true;
  ld_stack : forall x, page_of x = stack_page -> seen t r x = Some 0 /\ writable t x = true;
  ld_heap : forall x, page_of x = heap_page elf -> writable t x = true;
  ld_only : forall q, translate t q <> None <-> image_page elf q = true
}.

Lemma loaded_image b elf t0 t t' r r' c :
  layout elf -> (forall q, translate t0 q = None) -> (forall q, if image_page elf q then exists f, translate t q = Some (f, 1) else translate t q = translate t0 q) ->
  protected t t' (ro_page elf) -> effect t r r' c ->
  (forall x, c x = match segment_bytes b (rw elf) x with Some v => Some v | None => match segment_bytes b (ro elf) x with Some v => Some v | None => cleared elf x end end) ->
  loaded b elf t' r'.
Proof.
  intros Hl He Ht Hp [Hs _] Hc. destruct (layout_ro elf Hl) as (Hrv & Hr1 & Hr2 & Hr3), (layout_rw elf Hl) as (Hwv & Hw1 & Hw2 & Hw3 & Hw4).
  destruct Hl as [((_ & _ & Hrs & _) & _) ((_ & _ & Hws & _) & _) Hap].
  assert (Htr : forall q, translate t' q = if ro_page elf q then (fun m => (m.1, 0)) <$> translate t q else translate t q) by exact Hp.
  assert (Hseg : forall g x, vaddr g = vaddr g / 4096 * 4096 -> 0 <= size g <= 4096 * pages g -> within (vaddr g / 4096) (pages g) (page_of x) = false -> segment_bytes b g x = None).
  { intros g x Hg Hsz Hw. unfold segment_bytes. rewrite decide_False; [done|]. intros Hx. apply not_true_iff_false in Hw. apply Hw. apply page_range_of. lia. }
  assert (Hin : forall g x, vaddr g = vaddr g / 4096 * 4096 -> within (vaddr g / 4096) (pages g) (page_of x) = true ->
    match segment_bytes b g x with Some v => v | None => 0 end = segment_byte b g x).
  { intros g x Hg Hw. apply page_range_of in Hw. unfold segment_bytes, segment_byte. case_decide; [done|]. rewrite (proj2 (Z.ltb_ge _ _)); [done|lia]. }
  assert (Hnot : forall x, within (vaddr (ro elf) / 4096) (pages (ro elf)) (page_of x) = true -> within (vaddr (rw elf) / 4096) (pages (rw elf)) (page_of x) = false).
  { intros x Hx. apply not_true_iff_false. rewrite within_spec in *. lia. }
  assert (Hmap : forall q, image_page elf q = true -> exists f, translate t q = Some (f, 1)) by (intros q Hq; specialize (Ht q); by rewrite Hq in Ht).
  assert (Hwr : forall x, image_page elf (page_of x) = true -> writable t' x = negb (ro_page elf (page_of x))).
  { intros x Hx. unfold writable. rewrite Htr. destruct (Hmap _ Hx) as [f Hf]. unfold page_of in *. rewrite Hf. by destruct (ro_page elf (x / 4096)). }
  assert (Hror : forall x, page_of x = stack_page \/ page_of x = heap_page elf \/ rw_page elf (page_of x) = true -> ro_page elf (page_of x) = false).
  { intros x Hx. apply not_true_iff_false. unfold ro_page, rw_page, stack_page in *. rewrite within_spec in *. lia. }
  split.
  - intros x Hx. rewrite (seen_protected _ _ _ _ _ Hp), Hs, Hc, (Hseg _ _ Hwv Hws (Hnot x Hx)). rewrite <- (Hin _ x Hrv Hx).
    unfold cleared. rewrite Hx. split; [by destruct (segment_bytes b (ro elf) x)|]. rewrite Hwr, Hx; [done|]. unfold image_page. rewrite !orb_true_iff. tauto.
  - intros x Hx. pose proof (Hror x ltac:(tauto)) as Hno. rewrite (seen_protected _ _ _ _ _ Hp), Hs, Hc, (Hseg _ x Hrv Hrs Hno). rewrite <- (Hin _ x Hwv Hx).
    unfold cleared. rewrite Hx, Hno. split; [by destruct (segment_bytes b (rw elf) x)|]. rewrite Hwr, Hno; [done|]. unfold image_page. rewrite !orb_true_iff. tauto.
  - intros x Hx. pose proof (Hror x ltac:(tauto)) as Hno. assert (Hno2 : rw_page elf (page_of x) = false).
    { apply not_true_iff_false. unfold rw_page, stack_page in *. rewrite within_spec. lia. }
    rewrite (seen_protected _ _ _ _ _ Hp), Hs, Hc, (Hseg _ x Hrv Hrs Hno), (Hseg _ x Hwv Hws Hno2). unfold cleared. rewrite Hno, Hno2, Hx. split; [done|].
    rewrite Hwr, Hno; [done|]. unfold image_page. rewrite Hx, !orb_true_iff. tauto.
  - intros x Hx. pose proof (Hror x ltac:(tauto)) as Hno. rewrite Hwr, Hno; [done|]. unfold image_page. rewrite Hx, Z.eqb_refl. done.
  - intros q. rewrite Htr. specialize (Ht q). destruct (image_page elf q).
    + destruct Ht as [f ->]. by destruct (ro_page elf q).
    + rewrite Ht, He. by destruct (ro_page elf q).
Qed.

(** The entry names the page of the heap, which is mapped; or no frame was left
    for it, after all the other pages. *)
Definition heap_named s s' (me : Z) t (elf : elf_info_t) : Prop :=
  heap_vaddr (proc (sy_proc s') me) = heap_page elf * 4096 /\
  (translate t (heap_page elf) <> None \/
   free_frames (mem_of s) = image_frames elf - 1 /\
   forall v, v ∈ VPN2 <$> used t -> exists q, q / 2 = v /\ image_page elf q = true /\ q <> heap_page elf).

Lemma load_program_run s me addr t file pos b elf :
  table_wf (sy_proc s) -> ts_ok (ps_threads (sy_proc s)) -> is_pid me -> ts_lock (ps_threads (sy_proc s)) (process_table_lock (sy_proc s)) = Free ->
  mem_ok (mem_of s) addr t -> (forall q, translate t q = None) -> valid_count t = 0 -> layout elf ->
  1 <= zlen (sp_rows (mem_of s)) <= 64 ->
  of_ok (files_of s) -> of_file (files_of s) file pos b ->
  wp (load_program me addr file elf) (fun ok s' => during me s s' /\ still_open file b (files_of s) (files_of s') /\
    ok = bool_decide (loadable (zlen (sp_rows (mem_of s))) b elf /\ image_frames elf <= free_frames (mem_of s)) /\
    exists t', took (mem_of s) (mem_of s') addr t' /\ (forall p, p / 4096 ∉ frames t' -> sy_ram s' p = sy_ram s p) /\
      (heap_vaddr (proc (sy_proc s') me) = heap_vaddr (proc (sy_proc s) me) \/ heap_named s s' me t' elf) /\
      (ok = true -> heap_vaddr (proc (sy_proc s') me) = heap_page elf * 4096 /\ loaded b elf t' (sy_ram s'))) s.
Proof.
  intros Hwf Hts Hme Hlock Hm He Hc Hl Hrows Hok Hf. pose proof (mem_table_ok _ _ _ Hm) as Hptok. unfold load_program. apply wp_bind.
  eapply wp_mono; [by apply build_space_run|]. intros ok s1 (Hd1 & Hram1 & Hf1 & -> & t1 & fs & P & Hmore & Hcase). unfold loadable.
  assert (Hstill : still_open file b (files_of s) (files_of s)) by (split; [done|]; split; [done|by eexists]).
  pose proof (more_took _ _ _ _ _ _ _ Hptok He Hmore) as Htook1.
  case_bool_decide as Hst; cbn [negb].
  2: { apply wp_ret. rewrite Hf1. split; [done|]. split; [done|]. split; [symmetry; apply bool_decide_false; tauto|].
    exists t1. split; [exact Htook1|]. split; [intros p _; by rewrite Hram1|]. split; [|done].
    destruct Hcase as [Hh|(Hh & Hn & HP)]; [by left|right]. split; [done|]. right. split; [done|]. intros v Hv.
    destruct (mr_pairs _ _ _ _ _ _ _ Hmore v Hv) as [Hv0|(q & Hq & Hqv)]; [|exists q; split; [done|by apply HP]].
    unfold used in Hv0. rewrite Hc in Hv0. cbn in Hv0. by apply elem_of_nil in Hv0. }
  destruct Hcase as [Hheap ->]. destruct Hst as [Hst Hfree]. pose proof (mr_mem _ _ _ _ _ _ _ Hmore) as Hm1.
  assert (Hopen : open_image t1 elf) by (intros q Hq; pose proof (mr_pages _ _ _ _ _ _ _ Hmore q) as Hpg; by rewrite Hq in Hpg).
  assert (Hth : translate t1 (heap_page elf) <> None).
  { destruct (Hopen (heap_page elf)) as [f ->]; [|done]. unfold image_page. by rewrite Z.eqb_refl. }
  apply wp_bind. eapply wp_mono; [apply (clear_space_run s1 addr t1 elf); [apply Hd1|done|done|done]|].
  intros _ s2' (s2 & r2 & Hret2 & -> & He2). pose proof (retuned_mem _ _ _ _ Hret2 Hm1) as Hm2.
  assert (Hafter : forall x r f, during me s (with_files f (with_ram r (with_mem x s1)))).
  { intros x r f. eapply during_trans; [done|exact Hd1|]. apply during_same; apply Hd1. }
  destruct Hret2 as [[x2 ->] Hvm2]. assert (Hmem : forall r f, mem_of (with_files f (with_ram r (with_mem x2 s1))) = mem_of (with_mem x2 s1)) by done.
  assert (Htook2 : took (mem_of s) (mem_of (with_mem x2 s1)) addr t1).
  { eapply took_same; [exact Htook1|done|done|by rewrite Hvm2|]. rewrite Hvm2. by rewrite insert_id by apply (mo_table _ _ _ Hm1). }
  pose proof Hl as [(Hro & _ & Hro2 & Hro3) (Hrw & Hrw1 & Hrw2) _]. pose proof (layout_ro elf Hl) as (Hrv & _). pose proof (layout_rw elf Hl) as (Hwv & _ & _ & Hhp & _).
  assert (Hgive : forall r f c, still_open file b (files_of s) f -> effect t1 (sy_ram s) r c -> ~ (loadable (zlen (sp_rows (mem_of s))) b elf /\ image_frames elf <= free_frames (mem_of s)) ->
    let s' := with_files f (with_ram r (with_mem x2 s1)) in
    during me s s' /\ still_open file b (files_of s) (files_of s') /\ false = bool_decide (loadable (zlen (sp_rows (mem_of s))) b elf /\ image_frames elf <= free_frames (mem_of s)) /\
    exists t', took (mem_of s) (mem_of s') addr t' /\ (forall p, p / 4096 ∉ frames t' -> sy_ram s' p = sy_ram s p) /\
      (heap_vaddr (proc (sy_proc s') me) = heap_vaddr (proc (sy_proc s) me) \/ heap_named s s' me t' elf) /\
      (false = true -> heap_vaddr (proc (sy_proc s') me) = heap_page elf * 4096 /\ loaded b elf t' (sy_ram s'))).
  { intros r f c Hs [_ Ho] Hno s'. split; [apply Hafter|]. split; [done|]. split; [symmetry; by apply bool_decide_false|].
    exists t1. split; [exact Htook2|]. split; [exact Ho|]. split; [|done]. right. split; [exact Hheap|by left]. }
  rewrite Hram1 in He2.
  apply wp_bind. eapply wp_mono; [apply (load_segment_run _ addr t1 file pos b (ro elf)); [exact Hm2|done|unfold segment_ok, stack_page in *; lia| | | |]|].
  { intros Hpos. destruct Hro3 as [Hz|]; [|lia]. destruct Hro as (_ & _ & Hsz & _). lia. }
  { eapply all_writable_part; [by apply open_ro|]. destruct Hro as (_ & _ & Hsz & _). lia. }
  { rewrite <- Hf1 in Hok. exact Hok. }
  { rewrite <- Hf1 in Hf. exact Hf. }
  intros ok3 s3 (-> & r3 & f3 & -> & Hs3 & c3 & He3 & Hc3). change (files_of (with_ram r2 (with_mem x2 s1))) with (files_of s1) in Hs3. rewrite Hf1 in Hs3.
  pose proof (effect_trans _ _ _ _ _ _ _ He2 He3 (fun x => eq_refl)) as He3'.
  case_bool_decide as Hr3; cbn [negb].
  2: { apply wp_ret. apply (Hgive r3 f3 _ Hs3 He3'). unfold loadable. tauto. }
  destruct Hs3 as (Hok3 & Hsame3 & pos3 & Hf3).
  apply wp_bind. eapply wp_mono; [apply (load_segment_run _ addr t1 file pos3 b (rw elf)); [exact Hm2|done|unfold segment_ok, stack_page in *; lia|lia| |exact Hok3|exact Hf3]|].
  { eapply all_writable_part; [by apply open_rw|]. destruct Hrw as (_ & _ & Hsz & _). lia. }
  intros ok4 s4 (-> & r4 & f4 & -> & Hs4 & c4 & He4 & Hc4).
  pose proof (effect_trans _ _ _ _ _ _ _ He3' He4 (fun x => eq_refl)) as He4'.
  assert (Hs4' : still_open file b (files_of s) f4) by (by eapply still_open_trans).
  case_bool_decide as Hr4; cbn [negb].
  2: { apply wp_ret. apply (Hgive r4 f4 _ Hs4' He4'). unfold loadable. tauto. }
  set (s4 := with_files f4 (with_ram r4 (with_mem x2 s1))).
  apply wp_bind. eapply wp_mono; [apply (protect_space_run s4 addr t1 elf); [apply (Hafter x2 r4 f4)|exact Hm2|done|done]|].
  intros _ s5 (Ho5 & t5 & Hm5 & Ha5 & Hp5 & Hpr5 & Hpm5 & Htb5 & Hasid5). apply wp_ret.
  assert (Hs5 : sy_ram s5 = r4 /\ files_of s5 = f4 /\ heap_vaddr (proc (sy_proc s5) me) = heap_page elf * 4096).
  { destruct Ho5 as [x ->]. split; [done|]. split; [done|exact Hheap]. }
  destruct Hs5 as (Hr5 & Hf5 & Hh5). rewrite Hr5, Hf5, Hh5.
  split; [destruct Ho5 as [x ->]; apply (Hafter x r4 f4)|]. split; [done|]. split; [symmetry; by apply bool_decide_true|].
  exists t5. split; [eapply took_same; [exact Htook2|done|done|done|done]|]. split; [intros p Hp; rewrite Hp5 in Hp; by apply (proj2 He4')|].
  split; [right; split; [done|left]|].
  - rewrite Hpr5. destruct (ro_page elf (heap_page elf)); [|done]. by destruct (translate t1 (heap_page elf)) as [[]|].
  - intros _. split; [done|]. eapply (loaded_image b elf t t1 t5 (sy_ram s) r4); [done|done| |done|exact He4'|].
    + intros q. apply (mr_pages _ _ _ _ _ _ _ Hmore q).
    + intros x. cbv beta. by rewrite Hc4, Hc3.
Qed.
End loading.
