(* ===== verification/Arguments.v ===== *)
(** * proc/process.c: the arguments of [main]

    The strings and the array of their addresses go to the top of the stack,
    each below the one before. *)
From S2P Require Import Prelude Bitmap Libc Cpu Kmalloc Pagepool Gbd Thread Vm Tlb Space Frames User ThreadSys Bytes Elf Process Lifecycle Syscall SyscallTheorems Start Loading.

(** Bytes that the process finds. *)
Definition data_at t (r : Z -> Z) (a : Z) (xs : list Z) : Prop := forall k x, xs !! k = Some x -> seen t r (a + Z.of_nat k) = Some x.
(** Nothing below [lo] or from [hi] on has changed. *)
Definition between t (r r' : Z -> Z) (lo hi : Z) : Prop :=
  (forall x, ~ lo <= x < hi -> seen t r' x = seen t r x) /\ forall p, p / 4096 ∉ frames t -> r' p = r p.

Lemma writes_data t r r' a xs : writes t r r' a xs -> data_at t r' a xs.
Proof.
  intros [Hs _] k x Hk. pose proof (lookup_lt_Some _ _ _ Hk). rewrite Hs, decide_True by lia. rewrite <- Hk. f_equal. lia.
Qed.
Lemma writes_between t r r' a xs lo hi : writes t r r' a xs -> lo <= a -> a + zlen xs <= hi -> between t r r' lo hi.
Proof. intros [Hs Ho] Hlo Hhi. split; [|done]. intros x Hx. rewrite Hs, decide_False by lia. done. Qed.
Lemma between_data t r r' lo hi a xs : between t r r' lo hi -> a + zlen xs <= lo \/ hi <= a -> data_at t r a xs -> data_at t r' a xs.
Proof. intros [Hs _] Hd Hx k x Hk. pose proof (lookup_lt_Some _ _ _ Hk). rewrite Hs by lia. by apply Hx. Qed.
Lemma between_trans t r1 r2 r3 lo mid hi : lo <= mid <= hi -> between t r1 r2 mid hi -> between t r2 r3 lo mid -> between t r1 r3 lo hi.
Proof. intros Hm [H1 O1] [H2 O2]. split; [intros x Hx; rewrite H2, H1 by lia; done|intros p Hp; by rewrite O2, O1]. Qed.
Lemma between_refl t r lo : between t r r lo lo.
Proof. done. Qed.
Lemma writes_before t r1 r2 r3 a xs ys : writes t r1 r2 (a + zlen xs) ys -> writes t r2 r3 a xs -> writes t r1 r3 a (xs ++ ys).
Proof.
  intros [Hs1 Ho1] [Hs2 Ho2]. split; [|intros p Hp; by rewrite Ho2, Ho1]. intros x. rewrite Hs2, Hs1, length_app.
  destruct (decide (a <= x < a + zlen xs)) as [H1|H1].
  - rewrite decide_True by lia. by rewrite lookup_app_l by lia.
  - destruct (decide (a + zlen xs <= x < a + zlen xs + zlen ys)) as [H2|H2].
    + rewrite decide_True by lia. rewrite lookup_app_r by lia. f_equal. lia.
    + by rewrite decide_False by lia.
Qed.

Section arguments.
Context {L F T : Type} `{!HasCpu L, TS : !ThreadSys L, OF : !OpenFiles F, FC : !FileCalls F, TM : !Terminal T, !Symbols}.
Abbreviation state := (sys L F T).
Implicit Types (s : state) (t : pagetable).
Context (addr : Z) (t : pagetable) (lo top : Z) (Hlo : 0 <= lo <= top) (Hstack : all_writable t lo (top - lo)).

(** The state has the page table. *)
Abbreviation has_table s := (mem_ok (mem_of s) addr t).
Lemma stack_store s a xs : has_table s -> lo <= a -> a + zlen xs <= top ->
  wp (store_bytes addr a xs) (fun _ s' => exists r, s' = with_ram r s /\ writes t (sy_ram s) r a xs) s.
Proof.
  intros Hm Ha Hend. apply (store_bytes_run s addr t); [by apply on_user_table|by eapply mem_table_ok|intros q1 q2 f d d'; by eapply mem_injective|].
  destruct Hstack as (_ & H2 & H3). split; [lia|]. split; [lia|]. intros i Hi. replace (a + i) with (lo + (a - lo + i)) by lia. apply H3. lia.
Qed.

Lemma push_string_run s sp source str :
  has_table s -> sp <= top -> top < 4294967296 -> lo + zlen str + 4 <= sp -> cstr source = Some str ->
  wp (push_string addr sp source) (fun sp' s' => sp' mod 4 = 0 /\ sp - (zlen str + 4) <= sp' /\ sp' + zlen str + 1 <= sp /\
    exists r, s' = with_ram r s /\ writes t (sy_ram s) r sp' (str ++ [0])) s.
Proof.
  intros Hm Hsp Htop Hroom Hs. unfold push_string. apply wp_bind. eapply wp_lift; [by apply strlen_run|]. cbv zeta.
  rewrite u32_id by (unfold is_u32; lia). set (sp1 := sp - (zlen str + 1)). pose proof (Z.mod_pos_bound sp1 4 ltac:(lia)).
  pose proof (Z.div_mod sp1 4 ltac:(lia)). unfold user_memcopy. pose proof (cstr_inv _ _ Hs) as (_ & rest & ->).
  rewrite decide_True by (rewrite length_app; cbn; lia).
  assert (Htake : take (Z.to_nat (zlen str + 1)) (str ++ 0 :: rest) = str ++ [0]).
  { replace (Z.to_nat (zlen str + 1)) with (length (str ++ [0])) by (rewrite length_app; cbn; lia).
    replace (str ++ 0 :: rest) with ((str ++ [0]) ++ rest) by (by rewrite <- app_assoc). apply take_app_length. }
  rewrite Htake. apply wp_bind. eapply wp_mono; [apply stack_store; [done|unfold sp1 in *; lia|rewrite length_app; cbn; unfold sp1 in *; lia]|].
  intros _ s' (r & -> & Hr). apply wp_ret. split.
  { replace (sp1 - sp1 mod 4) with (sp1 / 4 * 4) by lia. by apply Z.mod_mul. }
  split; [unfold sp1 in *; lia|]. split; [unfold sp1 in *; lia|]. by exists r.
Qed.

(** What strings need of the stack. *)
Definition room (strs : list (list Z)) : Z := foldr (fun str n => zlen str + 4 + n) 0 strs.
(** A string at an address in a range. *)
Definition string_at (r : Z -> Z) (from to p : Z) (str : list Z) : Prop :=
  data_at t r p (str ++ [0]) /\ from <= p /\ p + zlen str + 1 <= to.
Lemma room_nonneg strs : 0 <= room strs.
Proof. induction strs as [|str strs IH]; [done|]. unfold room in *; cbn [foldr]. lia. Qed.

Lemma between_string r r' a b from to p str : between t r r' a b -> b <= from -> string_at r from to p str -> string_at r' from to p str.
Proof. intros Hb Hle (Hd & H1 & H2). split; [|done]. eapply between_data; [exact Hb|right; lia|done]. Qed.

Lemma push_strings_run strs s i argv sp va :
  has_table s -> sp <= top -> top < 4294967296 -> lo + room strs <= sp -> 0 <= i -> i + 1 + zlen strs <= zlen va ->
  (forall k str, strs !! k = Some str -> exists source, argv !! Z.to_nat (i + Z.of_nat k) = Some source /\ cstr source = Some str) ->
  wp (push_strings (length strs) i argv addr sp va) (fun a s' => exists r sp' ps, s' = with_ram r s /\
    a = (sp', splice va (Z.to_nat (i + 1)) ps) /\ (strs <> [] -> sp' mod 4 = 0) /\ sp - room strs <= sp' <= sp /\
    between t (sy_ram s) r sp' sp /\ Forall2 (string_at r sp' sp) ps strs) s.
Proof.
  revert s i sp va. induction strs as [|str strs IH]; intros s i sp va Hm Hsp Htop Hroom Hi Hva Hargv; cbn [length push_strings room foldr] in *.
  { apply wp_ret. exists (sy_ram s), sp, []. rewrite splice_nil. split; [by destruct s|]. split; [done|]. split; [done|]. split; [lia|]. done. }
  fold (room strs) in *. pose proof (room_nonneg strs) as Hnn.
  destruct (Hargv O str eq_refl) as (source & Hsrc & Hs). rewrite Z.add_0_r in Hsrc.
  apply wp_bind. eapply wp_lift; [apply rget_Ret; by split|].
  apply wp_bind. eapply wp_mono; [apply (push_string_run s sp source str); try done; lia|].
  intros sp1 s1 (Hal & Hsp1 & Hsp1' & r1 & -> & Hr1).
  apply wp_bind. eapply wp_lift; [apply rset_in; lia|]. set (va1 := <[Z.to_nat (i + 1) := sp1]> va).
  eapply wp_mono; [apply (IH (with_ram r1 s) (i + 1) sp1 va1); try done; try lia|].
  - unfold va1. rewrite length_insert. lia.
  - intros k str' Hk. destruct (Hargv (S k) str' Hk) as (source' & H1 & H2). exists source'. split; [|done]. rewrite <- H1. f_equal. lia.
  - intros a s2 (r2 & sp2 & ps & -> & -> & Hal2 & Hsp2 & Hb2 & Hps). exists r2, sp2, (sp1 :: ps). split; [done|].
    assert (Hlen : length ps = length strs) by (by eapply Forall2_length). split.
    { f_equal. rewrite splice_cons by lia. f_equal. lia. }
    split; [intros _; destruct strs as [|str' strs]; [|by apply Hal2]; cbn in Hsp2; assert (sp2 = sp1) as -> by lia; done|]. split; [lia|].
    assert (Hb1 : between t (sy_ram s) r1 sp1 sp) by (eapply writes_between; [exact Hr1|lia|rewrite length_app; cbn; lia]).
    split; [eapply between_trans; [|exact Hb1|exact Hb2]; lia|].
    constructor.
    + split; [|split; lia]. eapply between_data; [exact Hb2|right; lia|]. by eapply writes_data.
    + eapply Forall2_impl; [exact Hps|]. intros p str' (Hd & H1 & H2). split; [done|]. lia.
Qed.

Lemma push_pointers_run n s sp va :
  has_table s -> sp <= top -> top < 4294967296 -> lo + 4 * Z.of_nat n <= sp -> (n <= length va)%nat ->
  wp (push_pointers n addr sp va) (fun sp' s' => sp' = sp - 4 * Z.of_nat n /\ exists r, s' = with_ram r s /\
    writes t (sy_ram s) r sp' (bytes_of (take n va))) s.
Proof.
  revert s sp va. induction n as [|n IH]; intros s sp va Hm Hsp Htop Hroom Hva; cbn [push_pointers].
  { apply wp_ret. split; [lia|]. exists (sy_ram s). split; [by destruct s|]. rewrite take_0. apply writes_nil. }
  rewrite u32_id by (unfold is_u32; lia). destruct (rget_in va (Z.of_nat n)) as (p & Hp & Hlk); [lia|]. rewrite Nat2Z.id in Hlk.
  apply wp_bind. eapply wp_lift; [exact Hp|]. apply wp_bind. unfold user_memcopy. rewrite decide_True by (change (zlen (word_bytes p)) with 4; lia).
  change (take (Z.to_nat 4) (word_bytes p)) with (word_bytes p).
  eapply wp_mono; [apply stack_store; [done|lia|change (zlen (word_bytes p)) with 4; lia]|]. intros _ s1 (r1 & -> & Hr1).
  eapply wp_mono; [apply (IH (with_ram r1 s) (sp - 4) va); try done; lia|].
  intros sp' s2 (-> & r2 & -> & Hr2). split; [lia|]. exists r2. split; [done|].
  rewrite (take_S_r _ _ _ Hlk). assert (Happ : forall l, bytes_of (l ++ [p]) = bytes_of l ++ word_bytes p).
  { induction l as [|w l IHl]; cbn [app bytes_of]; [by rewrite app_nil_r|]. by rewrite IHl, app_assoc. }
  rewrite Happ. apply (writes_before t _ r1); [|exact Hr2]. rewrite length_bytes_of, length_take.
  replace (sp - 4 - 4 * Z.of_nat n + Z.of_nat (4 * (n `min` length va))) with (sp - 4) by lia. done.
Qed.

(** [argc] and [argv] of a program with the arguments [strs]. *)
Definition has_arguments (r : Z -> Z) (argc argv : Z) (strs : list (list Z)) : Prop :=
  argc = zlen strs /\ argv mod 4 = 0 /\ lo <= argv /\
  forall k str, strs !! k = Some str -> exists p, data_at t r (argv + 4 * Z.of_nat k) (word_bytes p) /\ string_at r argv top p str.

Lemma data_slice t' r a xs j n : data_at t' r a xs -> data_at t' r (a + Z.of_nat j) (slice xs j n).
Proof.
  intros Hd k x Hk. rewrite lookup_slice in Hk. case_decide; [|done]. replace (a + Z.of_nat j + Z.of_nat k) with (a + Z.of_nat (j + k)) by lia. by apply Hd.
Qed.
Lemma slice_bytes_of ws k w : ws !! k = Some w -> slice (bytes_of ws) (4 * k) 4 = word_bytes w.
Proof.
  revert k. induction ws as [|v ws IH]; intros [|k]; [done..|by intros [= ->]|]. cbn [lookup list_lookup]. intros Hk. rewrite <- (IH k Hk).
  unfold slice. replace (4 * S k)%nat with (4 + 4 * k)%nat by lia. reflexivity.
Qed.

Lemma push_arguments_run s executable name argc argv strs va :
  has_table s -> top = USERLAND_STACK_TOP -> zlen va = CONFIG_SYSCALL_MAX_ARGC + 1 -> argc = zlen strs -> argc <= CONFIG_SYSCALL_MAX_ARGC ->
  lo + room (name :: strs) + 4 * (argc + 1) <= USERLAND_STACK_TOP -> cstr executable = Some name ->
  (forall k str, strs !! k = Some str -> exists source, argv !! k = Some source /\ cstr source = Some str) ->
  wp (push_arguments addr executable argc argv va) (fun a s' => exists r sp, a = (argc + 1, sp) /\ s' = with_ram r s /\
    between t (sy_ram s) r sp top /\ has_arguments r (argc + 1) sp (name :: strs)) s.
Proof.
  intros Hm Ht Hva -> Hmax Hroom Hname Hargv. cbn [room foldr] in Hroom. fold (room strs) in Hroom. unfold CONFIG_SYSCALL_MAX_ARGC, USERLAND_STACK_TOP in *.
  pose proof (room_nonneg strs) as Hnn. unfold push_arguments. rewrite Nat2Z.id. unfold USERLAND_STACK_TOP. rewrite <- Ht.
  apply wp_bind. eapply wp_mono; [apply (push_strings_run strs s 0 argv top va); try done; try lia; intros k str Hk; rewrite Z.add_0_l, Nat2Z.id; by apply Hargv|].
  intros a s1 (r1 & sp1 & ps & -> & -> & _ & Hsp1 & Hb1 & Hps). assert (Hlen : length ps = length strs) by (by eapply Forall2_length).
  apply wp_bind. eapply wp_mono; [apply (push_string_run (with_ram r1 s) sp1 executable name); first [done|lia]|].
  intros sp2 s2 (Hal2 & Hsp2 & Hsp2' & r2 & -> & Hr2). assert (Hl : zlen (splice va (Z.to_nat (0 + 1)) ps) = 33) by (rewrite length_splice; lia).
  apply wp_bind. eapply wp_lift; [apply rset_in; lia|]. apply wp_bind. eapply wp_lift; [unfold int; rewrite decide_True; [done|unfold is_i32; lia]|].
  replace (Z.to_nat (zlen strs + 1)) with (S (length strs)) by lia.
  apply wp_bind. eapply wp_mono; [apply (push_pointers_run (S (length strs)) (with_ram r2 (with_ram r1 s)) sp2); first [done|lia|rewrite length_insert; lia]|].
  intros sp3 s3 (-> & r3 & -> & Hr3). apply wp_ret. set (sp3 := sp2 - 4 * Z.of_nat (S (length strs))) in *. exists r3, sp3. split; [done|]. split; [done|].
  assert (Hwords : take (S (length strs)) (<[Z.to_nat 0:=sp2]> (splice va (Z.to_nat (0 + 1)) ps)) = sp2 :: ps).
  { destruct va as [|v va]; [done|]. change (Z.to_nat (0 + 1)) with 1%nat. change (Z.to_nat 0) with 0%nat.
    unfold splice. change (take 1 (v :: va)) with [v]. cbn [take app insert list_insert]. f_equal. rewrite <- Hlen. apply take_app_length. }
  rewrite Hwords in Hr3. assert (Hl3 : zlen (bytes_of (sp2 :: ps)) = 4 * Z.of_nat (S (length strs))) by (rewrite length_bytes_of; cbn [length]; lia).
  assert (Hb2 : between t r1 r2 sp2 sp1) by (eapply writes_between; [exact Hr2|lia|rewrite length_app; cbn; lia]).
  assert (Hb3 : between t r2 r3 sp3 sp2) by (eapply writes_between; [exact Hr3|lia|unfold sp3; lia]).
  split; [eapply between_trans; [|eapply between_trans; [|exact Hb1|exact Hb2]|exact Hb3]; unfold sp3; lia|].
  split; [cbn [length]; lia|]. split.
  { unfold sp3. replace (sp2 - 4 * Z.of_nat (S (length strs))) with (sp2 + (- Z.of_nat (S (length strs))) * 4) by lia. by rewrite Z.mod_add. }
  split; [unfold sp3; lia|]. pose proof (writes_data _ _ _ _ _ Hr3) as Hd3.
  assert (Hword : forall k p, (sp2 :: ps) !! k = Some p -> data_at t r3 (sp3 + 4 * Z.of_nat k) (word_bytes p)).
  { intros k p Hk. rewrite <- (slice_bytes_of _ _ _ Hk). replace (sp3 + 4 * Z.of_nat k) with (sp3 + Z.of_nat (4 * k)) by lia. by apply data_slice. }
  intros [|k] str Hk.
  - injection Hk as <-. exists sp2. split; [by apply (Hword O)|]. split; [|unfold sp3; lia].
    eapply between_data; [exact Hb3|right; lia|]. by eapply writes_data.
  - cbn in Hk. destruct (Forall2_lookup_r _ _ _ _ _ Hps Hk) as (p & Hp & Hstr). exists p. split; [by apply (Hword (S k))|].
    assert (Hb : between t r1 r3 sp3 sp1) by (eapply between_trans; [|exact Hb2|exact Hb3]; unfold sp3; lia).
    pose proof (between_string _ _ _ _ _ _ _ _ Hb (Z.le_refl _) Hstr) as (Hd & Hlo1 & Hhi1).
    split; [done|]. unfold sp3. lia.
Qed.
End arguments.
