(* ===== verification/Starting.v ===== *)
(** * proc/process.c: the whole of [process_start], lemmas

    From the claim of an entry to the program, or back: the state of the thread
    and its locks around the loading of [Loading.v], and what a failed start
    takes back. *)
From S2P Require Import Prelude Bitmap Libc Cpu Kmalloc Pagepool Gbd Thread Vm Tlb Space Frames User ThreadSys Bytes Elf Process Lifecycle Syscall SyscallTheorems Start Loading Arguments.

Lemma freed_perm p p' fs gs : fs ≡ₚ gs -> freed p p' fs -> freed p p' gs.
Proof.
  intros Hp (Hok & Hn & Hs & Hf & Hb). split; [done|]. split; [done|]. split; [done|]. split; [by rewrite Hf, Hp|].
  intros q Hq. rewrite Hb by done. destruct (decide (q ∈ gs)) as [Hin|Hin]; rewrite <- Hp in Hin; [by rewrite decide_True|by rewrite decide_False].
Qed.

Lemma wp_bind_inv {S A B} (m : M S A) (k : A -> M S B) (Q : B -> S -> Prop) s : wp (m ≫= k) Q s -> wp m (fun a s' => wp (k a) Q s') s.
Proof. unfold wp, mbind, M_bind. by destruct (m s) as [[a s']|]. Qed.

Section starting.
Context {L F T : Type} `{!HasCpu L, TS : !ThreadSys L, LO : !LoneLocks L, OF : !OpenFiles F, FC : !FileCalls F, TM : !Terminal T, !Symbols}.
Abbreviation state := (sys L F T).
Implicit Types (s : state) (t : pagetable) (x : space).
Abbreviation thr s := (ps_threads (sy_proc s)).
Abbreviation cpu s := (cpu_of (sy_proc s)).
Abbreviation free_frames x := (pagepool_num_free_pages (spool x)).

(** ** Interrupts off and on again *)
Record same_but_cpu s s' : Prop := {
  sc_ok : ts_ok (thr s');
  sc_thread : ts_tid (thr s') = ts_tid (thr s) /\ ts_pid (thr s') = ts_pid (thr s) /\ ts_table (thr s') = ts_table (thr s);
  sc_lock : ts_lock (thr s') = ts_lock (thr s);
  sc_quiet : ts_quiet (thr s') = ts_quiet (thr s);
  sc_mem : mem_of s' = with_cpu (cpu s') (mem_of s);
  sc_rows : process_table (sy_proc s') = process_table (sy_proc s) /\ process_table_lock (sy_proc s') = process_table_lock (sy_proc s);
  sc_files : files_of s' = files_of s;
  sc_rest : sy_ram s' = sy_ram s /\ sy_tty s' = sy_tty s
}.
Lemma same_with_cpu c s : ts_ok (thr s) -> is_u32 (status c) -> held c = held (cpu s) -> same_but_cpu s (with_cpu_of c s) /\ cpu (with_cpu_of c s) = c.
Proof.
  intros Hok Hst Hh. destruct (ts_cpu c (thr s) Hok Hst Hh) as (Hok' & Ht & Hp & Hg & Hl).
  assert (Hc : cpu (with_cpu_of c s) = c) by apply cpu_of_with.
  split; [|exact Hc]. split; try done. apply ts_quiet_cpu.
Qed.
Lemma wp_uninterrupted_same {A} (m : M state A) (Q : A -> state -> Prop) s :
  ts_ok (thr s) ->
  (forall s1, same_but_cpu s s1 -> cpu s1 = off_cpu s ->
    wp m (fun a s2 => ts_ok (thr s2) /\ cpu s2 = off_cpu s /\ forall s', same_but_cpu s2 s' -> cpu s' = cpu s -> Q a s') s1) ->
  wp (uninterrupted m) Q s.
Proof.
  intros Hok Hm. apply wp_uninterrupted; [done|]. destruct (ts_off_sys s Hok) as (Hok1 & _).
  assert (Hst : is_u32 (status (off_cpu s))) by (pose proof (ts_ready _ Hok1) as Hr; cbn in Hr; by rewrite cpu_of_with in Hr).
  destruct (same_with_cpu (off_cpu s) s Hok Hst eq_refl) as [Hs1 Hc1]. eapply wp_mono; [by apply Hm|].
  intros a s2 (Hok2 & Hc2 & HQ). split; [done|].
  destruct (same_with_cpu (cpu s) s2 Hok2) as [Hs2 Hc3]; [by apply ps_ready|by rewrite Hc2|]. by apply HQ.
Qed.

(** A step of the thread or of the locks. *)
Definition with_thr (x : L) s : state := mk_sys (with_threads x (sy_proc s)) (sy_ram s) (sy_tty s).
Lemma wp_threads {A} (m : M L A) (Q : A -> state -> Prop) s : wp m (fun a y => Q a (with_thr y s)) (thr s) -> wp (on_process (on_threads m)) Q s.
Proof. intros Hm. apply wp_on_process, wp_on_threads. exact Hm. Qed.
Lemma mem_with_thr y s : cpu_of y = cpu s -> mem_of (with_thr y s) = mem_of s.
Proof. intros Hy. unfold mem_of. change (cpu (with_thr y s)) with (cpu_of y). by rewrite Hy. Qed.

(** ** What a failed start takes back *)

(** [x'] is [x] without the frames [fs] of the table at [addr], which is [t']
    now. *)
Record shrunk x x' (addr : Z) t t' (fs : list Z) : Prop := {
  sh_mem : mem_ok x' addr t';
  sh_cpu : cpu_of x' = cpu_of x;
  sh_tables : vm_tables (sp_vm x') = <[addr := t']> (vm_tables (sp_vm x));
  sh_rows : sp_rows x' = sp_rows x /\ sp_asid x' = sp_asid x;
  sh_frames : frames t ≡ₚ fs ++ frames t';
  sh_pool : freed (spool x) (spool x') fs
}.
Lemma shrunk_none x addr t : mem_ok x addr t -> shrunk x x addr t t [].
Proof.
  intros Hm. split; try done; [by rewrite insert_id by apply Hm|]. apply freed_nil. by destruct (mo_vm _ _ _ Hm).
Qed.

Lemma shrunk_cpu x x' c addr t t' fs : is_u32 (status (cpu_of x)) -> held c = held (cpu_of x) ->
  shrunk (with_cpu c x) x' addr t t' fs -> shrunk x (with_cpu (cpu_of x) x') addr t t' fs.
Proof.
  intros Hst Hh [Hm Hc Htab Hrw Hfr Hp]. split; try done. apply mem_cpu; [done|done|]. by rewrite Hc.
Qed.

(** The page of the heap, if the entry names one, is mapped, or its pair of
    pages has no entry in the table. *)
Definition heap_mapped t (e : process_table_t) : Prop :=
  heap_vaddr e = 0 \/ is_u32 (heap_vaddr e) /\
    (translate t (heap_vaddr e / 4096) <> None \/ find_pair t (heap_vaddr e / 4096 / 2) = None).

Lemma free_heap_run s me addr t :
  table_wf (sy_proc s) -> is_pid me -> mem_ok (mem_of s) addr t -> heap_mapped t (proc (sy_proc s) me) ->
  wp (free_process_heap me addr) (fun _ s' => only_mem s s' /\ exists t' fs, shrunk (mem_of s) (mem_of s') addr t t' fs) s.
Proof.
  intros Hwf Hme Hm Hh. unfold free_process_heap. apply wp_bind, wp_on_process, wp_get_process; [apply Hwf|done|].
  assert (Hsame : only_mem s s /\ exists t' fs, shrunk (mem_of s) (mem_of s) addr t t' fs) by (split; [apply only_mem_refl|by eexists _, _; apply shrunk_none]).
  destruct (Z.eqb_spec (heap_vaddr (proc (sy_proc s) me)) 0) as [Hz|Hnz]; cbn [negb].
  { apply wp_ret. by destruct s. }
  replace (mk_sys (sy_proc s) (sy_ram s) (sy_tty s)) with s by (by destruct s).
  destruct Hh as [|[Hu [Htr|Hnone]]]; [done| |].
  2: { apply wp_on_memory. eapply wp_mono; [by apply (vm_unmap_absent _ addr t)|]. intros _ x ->.
    assert (Hc : cpu_of (mem_of s) = cpu s) by apply cpu_of_with.
    split; [exact Hc|]. rewrite mem_with_mem by exact Hc. split; [by eexists|]. exists t, []. by apply shrunk_none. }
  destruct (translate t _) as [[f d]|] eqn:E; [|done].
  apply wp_on_memory. eapply wp_mono; [by eapply vm_unmap_mem|]. intros _ x (t' & p & -> & Hm' & Hperm & Hf & _).
  assert (Hc : cpu_of (with_table addr t' (with_spool p (mem_of s))) = cpu s) by reflexivity.
  split; [exact Hc|]. rewrite mem_with_mem by exact Hc. split; [by eexists|]. exists t', [f]. by split.
Qed.

(** The address space is gone. *)
Definition given_back x x' (addr : Z) t : Prop :=
  (exists i, table_page (sp_vm x) addr i /\ freed (spool x) (spool x') (frames t ++ [i])) /\
  vm_tables (sp_vm x') = delete addr (vm_tables (sp_vm x)) /\ vm_ok (sp_vm x') /\ cpu_of x' = cpu_of x /\
  sp_rows x' = sp_rows x /\ sp_asid x' = sp_asid x.
Lemma free_table_run x0 x addr t0 t fs :
  shrunk x0 x addr t0 t fs -> pool_ok (spool x0) -> (forall i, table_page (sp_vm x0) addr i -> i ∉ fs) ->
  wp (free_space addr) (fun _ x' => given_back x0 x' addr t0) x.
Proof.
  intros [Hm Hc Htab Hrw Hfr Hpool] Hp0 Hno. eapply wp_mono; [by apply free_space_run|]. intros _ x' (i & p & Hi & Hf & Hvm & ->).
  pose proof Hpool as (_ & Hn & Hs & _ & Hb). destruct Hi as (Ha & Hi1 & Hi2 & Hi3). rewrite Hn, Hs in Hi2.
  pose proof (po_static _ Hp0). rewrite Hb in Hi3 by lia. split; [|split; [|split; [exact Hvm|split; [exact Hc|exact Hrw]]]].
  - exists i. split; [split; [done|]; split; [done|]; split; [done|]; by case_decide|].
    eapply freed_perm; [|eapply freed_app; [exact Hpool|exact Hf]]. by rewrite app_assoc, <- Hfr.
  - cbn. by rewrite Htab, delete_insert_eq.
Qed.

(** *** The parent *)

(** The lock [l], if any, has been given back, and no other has changed. *)
Definition locks_given (l : option Z) (y y' : L) : Prop :=
  (forall k, l <> Some k -> ts_lock y' k = ts_lock y k) /\
  ((forall k, l = Some k -> ts_quiet y k) -> (forall k, l = Some k -> ts_lock y' k = Free) /\ forall k, ts_quiet y k -> ts_quiet y' k).
Definition same_who (y y' : L) : Prop := ts_tid y' = ts_tid y /\ ts_pid y' = ts_pid y /\ ts_table y' = ts_table y.
Definition parent_lock s (d : child_process_create_data_t) : Z := die_lock (proc (sy_proc s) (cd_parent_pid d)).
(** The parent is a process, whose lock the thread has. *)
Definition parent_held s (d : option child_process_create_data_t) : Prop :=
  forall d', d = Some d' -> is_pid (cd_parent_pid d') /\ ts_lock (thr s) (parent_lock s d') = Mine.

Lemma wake_parent_run {A} s d (m : M state A) (Q : A -> state -> Prop) :
  table_wf (sy_proc s) -> ts_ok (thr s) -> is_pid (cd_parent_pid d) -> ts_lock (thr s) (parent_lock s d) = Mine ->
  (forall y, ts_ok y -> cpu_of y = cpu s -> same_who (thr s) y -> locks_given (Some (parent_lock s d)) (thr s) y -> wp m Q (with_thr y s)) ->
  wp (parent ← on_process (get_process (cd_parent_pid d));
      _ ← on_process (on_threads (condition_broadcast (die_cond parent) (die_lock parent)));
      _ ← on_process (on_threads (lock_release (die_lock parent)));
      m) Q s.
Proof.
  intros Hwf Hts Hp Hl HQ. apply wp_bind, wp_on_process, wp_get_process; [apply Hwf|done|]. set (e := proc _ _).
  replace (mk_sys (sy_proc s) (sy_ram s) (sy_tty s)) with s by (by destruct s).
  assert (Hcond : ts_cond (die_cond e)) by apply (proj2 Hwf _ Hp).
  apply wp_bind, wp_threads. eapply wp_mono; [apply wp_and; [by apply condition_broadcast_spec|by apply condition_broadcast_quiet]|].
  intros _ y1 [(Hok1 & Hc1 & (Ht1 & Hp1 & Hg1) & Hl1) Hq1].
  apply wp_bind, wp_threads. eapply wp_mono; [apply wp_and; [apply lock_release_spec|apply lock_release_quiet]; [done| |done|]; by rewrite Hl1|].
  intros _ y2 [(Hok2 & Hc2 & (Ht2 & Hp2 & Hg2) & _ & Hl2) Hq2]. cbn [with_thr sy_proc with_threads ps_threads] in *.
  apply HQ; [done|exact (eq_trans Hc2 Hc1)|split_and!; congruence|]. split.
  - intros k Hk. rewrite Hl2, Hl1; [done|]. by intros ->.
  - intros Hq. destruct Hq2 as [Hf Hk2]; [by apply Hq1, Hq|]. split; [by intros k [= <-]|]. intros k Hk. by apply Hk2, Hq1.
Qed.

(** The locks are as they were in between. *)
Lemma locks_given_trans l y1 y2 y3 y4 :
  (forall k, ts_lock y2 k = ts_lock y1 k) -> ts_quiet y2 = ts_quiet y1 -> locks_given l y2 y3 -> (forall k, ts_lock y4 k = ts_lock y3 k) -> ts_quiet y4 = ts_quiet y3 -> locks_given l y1 y4.
Proof.
  intros El Eq [H1 H2] El' Eq'. split; [intros k Hk; by rewrite El', H1, El|]. rewrite Eq', <- Eq. intros Hq. destruct (H2 Hq) as [H3 H4].
  split; [|done]. intros k Hk. rewrite El'. by apply H3.
Qed.

(** *** The entry and the address space *)
Record dropped s s' (me pid table : Z) (rows : process_table_t -> process_table_t) : Prop := {
  dr_wf : table_wf (sy_proc s');
  dr_table_lock : process_table_lock (sy_proc s') = process_table_lock (sy_proc s);
  dr_ts : ts_ok (thr s');
  dr_cpu : cpu s' = cpu s;
  dr_thread : ts_tid (thr s') = ts_tid (thr s) /\ ts_pid (thr s') = pid /\ ts_table (thr s') = table;
  dr_rows : forall j, is_pid j -> proc (sy_proc s') j = if j =? me then rows (proc (sy_proc s) j) else proc (sy_proc s) j;
  dr_rest : sy_ram s' = sy_ram s /\ sy_tty s' = sy_tty s /\ files_of s' = files_of s;
  dr_locks : (forall k, ts_lock (thr s') k = ts_lock (thr s) k) /\ ts_quiet (thr s') = ts_quiet (thr s)
}.
Lemma free_entry_wf e : entry_wf e -> entry_wf (free_process_table_entry e).
Proof. intros [[Hn Hh] Hc]. split; [split; [done|reflexivity]|done]. Qed.

(** [R] is what the memory is like once the heap is gone. *)
Lemma drop_entry_gen s me addr (R : space -> Prop) :
  table_wf (sy_proc s) -> ts_ok (thr s) -> is_pid me ->
  (forall s1, table_wf (sy_proc s1) -> proc (sy_proc s1) me = proc (sy_proc s) me -> mem_of s1 = with_cpu (cpu s1) (mem_of s) ->
    is_u32 (status (cpu s1)) -> held (cpu s1) = held (cpu s) ->
    wp (free_process_heap me addr) (fun _ s2 => only_mem s1 s2 /\ R (with_cpu (cpu s) (mem_of s2))) s1) ->
  wp (uninterrupted (_ ← free_process_heap me addr; _ ← on_process (upd_process me free_process_table_entry);
        on_process (on_threads (set_userland_pid (-1)))))
    (fun _ s' => dropped s s' me (-1) (ts_table (thr s)) free_process_table_entry /\ R (mem_of s')) s.
Proof.
  intros Hwf Hts Hme HR. apply wp_uninterrupted_same; [done|]. intros s1 [Hok1 (Ht1 & Hp1 & Hg1) Hl1 Hq1 Hm1 [Htb1 Htl1] Hf1 [Hr1 Hy1]] Hc1.
  assert (Hproc1 : forall j, proc (sy_proc s1) j = proc (sy_proc s) j) by (intros j; unfold proc; by rewrite Htb1).
  assert (Hwf1 : table_wf (sy_proc s1)) by (split; [unfold table_full; rewrite Htb1; apply Hwf|intros j Hj; rewrite Hproc1; by apply Hwf]).
  apply wp_bind. eapply wp_mono; [apply (HR s1 Hwf1 (Hproc1 me) Hm1); [by apply ps_ready|by rewrite Hc1]|].
  intros _ s2 ([x ->] & Hsh). apply wp_bind, wp_on_process, wp_upd_process; [apply Hwf1|done|].
  set (s3 := set_proc me _ _). assert (Hwf3 : table_wf s3) by (apply set_proc_wf; [exact Hwf1|done|apply free_entry_wf; exact (proj2 Hwf1 me Hme)]).
  apply wp_threads. eapply wp_mono; [apply (keeps_wp ts_quiet); [apply set_pid_quiet|by apply (set_pid_spec (thr s1))]|].
  intros _ y [(Hok4 & Hc4 & Ht4 & Hp4 & Hg4 & Hl4) Hq4]. split; [exact Hok4|]. split; [exact (eq_trans Hc4 Hc1)|].
  set (s4 := with_thr y _). intros s' [Hok5 (Ht5 & Hp5 & Hg5) Hl5 Hq5 Hm5 [Htb5 Htl5] Hf5 [Hr5 Hy5]] Hc5.
  assert (Hproc5 : forall j, proc (sy_proc s') j = proc s3 j) by (intros j; unfold proc; by rewrite Htb5).
  assert (Hm4 : mem_of s4 = mem_of (with_mem x s1)) by exact (mem_with_thr y (mk_sys s3 _ _) Hc4).
  split.
  - split; [|exact (eq_trans Htl5 Htl1)|done|done|..].
    + split; [unfold table_full; rewrite Htb5; apply Hwf3|intros j Hj; rewrite Hproc5; by apply Hwf3].
    + split_and!; [exact (eq_trans Ht5 (eq_trans Ht4 Ht1))|exact (eq_trans Hp5 Hp4)|exact (eq_trans Hg5 (eq_trans Hg4 Hg1))].
    + intros j Hj. rewrite Hproc5. unfold s3. rewrite proc_set by (done || apply Hwf1). change (proc (sy_proc (with_mem x s1)) me) with (proc (sy_proc s1) me).
      change (proc (sy_proc (with_mem x s1)) j) with (proc (sy_proc s1) j). rewrite !Hproc1. by destruct (Z.eqb_spec j me) as [->|].
    + split_and!; [exact (eq_trans Hr5 Hr1)|exact (eq_trans Hy5 Hy1)|exact (eq_trans Hf5 Hf1)].
    + rewrite Hl5, Hq5. split; [|exact (eq_trans Hq4 Hq1)]. intros k. rewrite <- Hl1. exact (Hl4 k).
  - by rewrite Hm5, Hm4, Hc5.
Qed.
Lemma drop_entry_run s me addr t :
  table_wf (sy_proc s) -> ts_ok (thr s) -> is_pid me -> mem_ok (mem_of s) addr t -> heap_mapped t (proc (sy_proc s) me) ->
  wp (uninterrupted (_ ← free_process_heap me addr; _ ← on_process (upd_process me free_process_table_entry);
        on_process (on_threads (set_userland_pid (-1)))))
    (fun _ s' => dropped s s' me (-1) (ts_table (thr s)) free_process_table_entry /\ exists t' fs, shrunk (mem_of s) (mem_of s') addr t t' fs) s.
Proof.
  intros Hwf Hts Hme Hm Hh. apply (drop_entry_gen s me addr (fun x => exists t' fs, shrunk (mem_of s) x addr t t' fs) Hwf Hts Hme).
  intros s1 Hwf1 Hp1 Hm1 Hst1 Hc1. assert (Hmem1 : mem_ok (mem_of s1) addr t) by (rewrite Hm1; apply mem_cpu; [done|done|by rewrite Hc1]).
  eapply wp_mono; [apply (free_heap_run s1 me addr t Hwf1 Hme Hmem1); by rewrite Hp1|]. intros _ s2 (Ho & t' & fs & Hsh). split; [exact Ho|].
  exists t', fs. rewrite Hm1 in Hsh. apply (shrunk_cpu (mem_of s) _ (cpu s1)); [by apply ps_ready|done|done].
Qed.
(** There was no heap yet. *)
Lemma drop_entry_none s me addr :
  table_wf (sy_proc s) -> ts_ok (thr s) -> is_pid me -> heap_vaddr (proc (sy_proc s) me) = 0 ->
  wp (uninterrupted (_ ← free_process_heap me addr; _ ← on_process (upd_process me free_process_table_entry);
        on_process (on_threads (set_userland_pid (-1)))))
    (fun _ s' => dropped s s' me (-1) (ts_table (thr s)) free_process_table_entry /\ mem_of s' = mem_of s) s.
Proof.
  intros Hwf Hts Hme Hz. apply (drop_entry_gen s me addr (fun x => x = mem_of s) Hwf Hts Hme).
  intros s1 Hwf1 Hp1 Hm1 _ _. unfold free_process_heap. apply wp_bind, wp_on_process, wp_get_process; [apply Hwf1|done|].
  rewrite Hp1, Hz. apply wp_ret. replace (mk_sys (sy_proc s1) (sy_ram s1) (sy_tty s1)) with s1 by (by destruct s1).
  split; [apply only_mem_refl|]. rewrite Hm1, with_cpu_with. change (cpu s) with (cpu_of (sy_proc s)).
  unfold mem_of. by rewrite with_cpu_with.
Qed.

Lemma given_back_cpu x x' c addr t : is_u32 (status (cpu_of x)) -> held c = held (cpu_of x) ->
  given_back (with_cpu c x) x' addr t -> given_back x (with_cpu (cpu_of x) x') addr t.
Proof.
  intros Hst Hh (H1 & H2 & (Hp & (_ & Hh1) & Hr) & Hc & Hrw). split; [exact H1|]. split; [exact H2|]. split; [|split; [apply cpu_of_with|exact Hrw]].
  split; [exact Hp|]. split; [|exact Hr]. split; [exact Hst|]. change (pagepool_slock ∉ held (cpu_of x)). rewrite <- Hh.
  change (held c) with (held (cpu_of (with_cpu c x))). rewrite <- Hc. exact Hh1.
Qed.
Lemma drop_table_run s x0 me addr t0 t fs :
  table_wf (sy_proc s) -> ts_ok (thr s) -> shrunk x0 (mem_of s) addr t0 t fs -> pool_ok (spool x0) -> (forall i, table_page (sp_vm x0) addr i -> i ∉ fs) -> cpu_of x0 = cpu s ->
  wp (uninterrupted (_ ← on_memory (free_space addr); on_process (on_threads (set_pagetable 0))))
    (fun _ s' => dropped s s' me (ts_pid (thr s)) 0 id /\ given_back x0 (mem_of s') addr t0) s.
Proof.
  intros Hwf Hts Hsh Hp0 Hno Hx0. apply wp_uninterrupted_same; [done|]. intros s1 [Hok1 (Ht1 & Hp1 & Hg1) Hl1 Hq1 Hm1 [Htb1 Htl1] Hf1 [Hr1 Hy1]] Hc1.
  assert (Hst1 : is_u32 (status (cpu s1))) by by apply ps_ready.
  assert (Hsh1 : shrunk (with_cpu (cpu s1) x0) (mem_of s1) addr t0 t fs).
  { rewrite Hm1. destruct Hsh as [Hm Hc Htab Hrw Hfr Hpool]. split; try done. apply mem_cpu; [done|done|]. by rewrite Hc1, Hc, Hx0. }
  apply wp_bind, wp_on_memory. eapply wp_mono; [apply (free_table_run _ _ _ _ _ _ Hsh1 Hp0 Hno)|]. intros a1 x Hback.
  pose proof Hback as (_ & _ & _ & Hcx & _). assert (Hcx1 : cpu_of x = cpu s1) by exact Hcx. split; [exact Hcx1|].
  apply wp_threads. eapply wp_mono; [apply (keeps_wp ts_quiet); [apply set_table_quiet|by apply (set_table_spec (thr s1))]|].
  intros _ y [(Hok4 & Hc4 & Ht4 & Hp4 & Hg4 & Hl4) Hq4]. split; [exact Hok4|]. split; [exact (eq_trans Hc4 Hc1)|].
  set (s4 := with_thr y _). intros s' [Hok5 (Ht5 & Hp5 & Hg5) Hl5 Hq5 Hm5 [Htb5 Htl5] Hf5 [Hr5 Hy5]] Hc5.
  assert (Hm4 : mem_of s4 = x) by (unfold s4; rewrite (mem_with_thr y (with_mem x s1) Hc4); by apply mem_with_mem).
  assert (Hrows : process_table (sy_proc s') = process_table (sy_proc s)) by exact (eq_trans Htb5 Htb1).
  split.
  - split; [|exact (eq_trans Htl5 Htl1)|done|done|..].
    + split; [unfold table_full; rewrite Hrows; apply Hwf|intros j Hj; unfold proc; rewrite Hrows; by apply Hwf].
    + split_and!; [exact (eq_trans Ht5 (eq_trans Ht4 Ht1))|exact (eq_trans Hp5 (eq_trans Hp4 Hp1))|exact (eq_trans Hg5 Hg4)].
    + intros j Hj. unfold proc. rewrite Hrows. by destruct (j =? me).
    + split_and!; [exact (eq_trans Hr5 Hr1)|exact (eq_trans Hy5 Hy1)|exact (eq_trans Hf5 Hf1)].
    + rewrite Hl5, Hq5. split; [|exact (eq_trans Hq4 Hq1)]. intros k. rewrite <- Hl1. exact (Hl4 k).
  - rewrite Hm5, Hm4, Hc5, <- Hx0. apply (given_back_cpu _ _ (cpu s1)); [rewrite Hx0; by apply ps_ready|by rewrite Hc1, Hx0|exact Hback].
Qed.

(** *** The whole *)
Record restored s s' (d : option child_process_create_data_t) (me addr : Z) t (file : Z) : Prop := {
  re_wf : table_wf (sy_proc s');
  re_table_lock : process_table_lock (sy_proc s') = process_table_lock (sy_proc s);
  re_ts : ts_ok (thr s');
  re_cpu : cpu s' = cpu s;
  re_thread : ts_tid (thr s') = ts_tid (thr s) /\ ts_pid (thr s') = -1 /\ ts_table (thr s') = 0;
  re_rows : forall j, is_pid j -> proc (sy_proc s') j = if j =? me then free_process_table_entry (proc (sy_proc s) j) else proc (sy_proc s) j;
  re_mem : given_back (mem_of s) (mem_of s') addr t;
  re_rest : sy_ram s' = sy_ram s /\ sy_tty s' = sy_tty s;
  re_files : of_ok (files_of s') /\ forall k, of_open (files_of s') k <-> of_open (files_of s) k /\ (file < 0 \/ k <> file);
  re_locks : locks_given (parent_lock s <$> d) (thr s) (thr s')
}.

(** The end of [restore_process_state]: the parent goes on, the file is closed. *)
Lemma restore_end_run s d file (Q : option child_process_create_data_t -> state -> Prop) :
  table_wf (sy_proc s) -> ts_ok (thr s) -> parent_held s d -> of_ok (files_of s) -> (0 <= file -> of_open (files_of s) file) ->
  (forall y f, ts_ok y -> cpu_of y = cpu s -> same_who (thr s) y -> locks_given (parent_lock s <$> d) (thr s) y ->
    of_ok f -> (forall k, of_open f k <-> of_open (files_of s) k /\ (file < 0 \/ k <> file)) ->
    Q ((fun d => set_ready (cd_child_pid d) d) <$> d) (with_files f (with_thr y s))) ->
  wp (data ← (match d with
              | None => mret None
              | Some d =>
                  parent ← on_process (get_process (cd_parent_pid d));
                  _ ← on_process (on_threads (condition_broadcast (die_cond parent) (die_lock parent)));
                  _ ← on_process (on_threads (lock_release (die_lock parent)));
                  mret (Some (set_ready (cd_child_pid d) d))
              end);
      _ ← (if file >=? 0 then on_process (on_files (vfs_close file)) else mret 0);
      mret data) Q s.
Proof.
  intros Hwf Hts Hd Hok Hfile HQ.
  assert (Hclose : forall y data, ts_ok y -> cpu_of y = cpu s -> same_who (thr s) y -> locks_given (parent_lock s <$> d) (thr s) y ->
    data = ((fun d => set_ready (cd_child_pid d) d) <$> d) ->
    wp (_ ← (if file >=? 0 then on_process (on_files (vfs_close file)) else mret 0); mret data) Q (with_thr y s)).
  { intros y data Hy Hc Hw Hg ->. rewrite Z.geb_leb. destruct (Z.leb_spec 0 file) as [Hle|Hgt].
    - apply wp_bind, wp_files. eapply wp_mono; [apply vfs_close_spec; [exact Hok|by apply Hfile]|]. intros r f (Hf & Hno & Hk). apply wp_ret.
      apply HQ; try done. intros k. destruct (decide (k = file)) as [->|Hne]; [split; [done|intros [_ [|]]; [lia|done]]|].
      rewrite Hk by done. split; [intros ?; split; [done|by right]|by intros [? _]].
    - apply wp_bind, wp_ret, wp_ret. apply (HQ y (files_of s)); try done. intros k. split; [intros ?; split; [done|by left]|by intros [? _]]. }
  apply wp_bind. destruct d as [d|].
  - destruct (Hd d eq_refl) as [Hp Hl]. apply (wake_parent_run s d); [done|done|done|done|]. intros y Hy Hc Hw Hg. apply wp_ret. by apply Hclose.
  - apply wp_ret. replace s with (with_thr (thr s) s) by (by destruct s as [[] ? ?]). by apply Hclose.
Qed.

Lemma restore_run s d me addr t file :
  table_wf (sy_proc s) -> ts_ok (thr s) -> ts_table (thr s) = addr -> addr <> 0 -> is_pid me -> mem_ok (mem_of s) addr t ->
  heap_mapped t (proc (sy_proc s) me) -> parent_held s d -> of_ok (files_of s) -> (0 <= file -> of_open (files_of s) file) ->
  wp (restore_process_state d (Some me) true file) (fun data s' => data = ((fun d => set_ready (cd_child_pid d) d) <$> d) /\
    restored s s' d me addr t file) s.
Proof.
  intros Hwf Hts Htab Haddr Hme Hm Hh Hd Hok Hfile. unfold restore_process_state, current_pagetable.
  apply wp_bind, wp_threads, get_table_spec; [done|]. replace (with_thr (thr s) s) with s by (by destruct s as [[] ? ?]). rewrite Htab.
  apply wp_bind. eapply wp_mono; [apply (drop_entry_run s me addr t); done|].
  intros _ s1 [[Hwf1 Htl1 Hts1 Hc1 (Ht1 & Hp1 & Hg1) Hr1 (Hram1 & Htty1 & Hf1) [Hl1 Hq1]] (t' & fs & Hsh)].
  rewrite (proj2 (Z.eqb_neq addr 0)) by done. cbn [negb andb].
  pose proof Hm as [Ht Hvm Huse Hapart]. apply wp_bind. eapply wp_mono; [apply (drop_table_run s1 (mem_of s) me addr t t' fs Hwf1 Hts1 Hsh)|].
  { apply Hvm. }
  { intros i Hi Hin. apply (Hapart addr t i Ht Hi). rewrite (sh_frames _ _ _ _ _ _ Hsh). apply elem_of_app. by left. }
  { rewrite Hc1. reflexivity. }
  intros _ s2 [[Hwf2 Htl2 Hts2 Hc2 (Ht2 & Hp2 & Hg2) Hr2 (Hram2 & Htty2 & Hf2) [Hl2 Hq2]] Hback].
  assert (Hfiles : files_of s2 = files_of s) by congruence.
  assert (Hrows : forall j, is_pid j -> proc (sy_proc s2) j = if j =? me then free_process_table_entry (proc (sy_proc s) j) else proc (sy_proc s) j).
  { intros j Hj. rewrite Hr2 by done. rewrite <- Hr1 by done. by destruct (j =? me). }
  assert (Hpl : forall d', is_pid (cd_parent_pid d') -> parent_lock s2 d' = parent_lock s d').
  { intros d' Hd'. unfold parent_lock. rewrite Hrows by done. by destruct (_ =? me). }
  apply (restore_end_run s2 d file); try done.
  - intros d' Hd'. destruct (Hd d' Hd') as [Hp Hlk]. split; [done|]. by rewrite Hpl, Hl2, Hl1 by done.
  - by rewrite Hfiles.
  - by rewrite Hfiles.
  - rewrite Hfiles. intros y f Hy Hcy (Hty & Hpy & Hgy) Hgiven Hokf Hopen. split; [done|].
    assert (Hmem : mem_of (with_files f (with_thr y s2)) = mem_of s2) by exact (mem_with_thr y s2 Hcy).
    split; try done.
    + exact (eq_trans Htl2 Htl1).
    + exact (eq_trans Hcy (eq_trans Hc2 Hc1)).
    + split_and!; [exact (eq_trans Hty (eq_trans Ht2 Ht1))|exact (eq_trans Hpy (eq_trans Hp2 Hp1))|exact (eq_trans Hgy Hg2)].
    + by rewrite Hmem.
    + split; [exact (eq_trans Hram2 Hram1)|exact (eq_trans Htty2 Htty1)].
    + assert (Hdl : parent_lock s2 <$> d = parent_lock s <$> d) by (destruct d as [d|]; [cbn; f_equal; apply Hpl; by apply (Hd d)|done]).
      rewrite Hdl in Hgiven. apply (locks_given_trans _ (thr s) (thr s2) y y); [|by rewrite Hq2, Hq1|done..]. intros k. by rewrite Hl2, Hl1.
Qed.

(** ** The page table *)
Lemma new_table_mem x v a t i rows asid :
  vm_ok v -> new_table (sp_vm x) v a t i -> valid_count t = 0 -> mem_ok (mk_space v rows asid) a t.
Proof.
  intros Hv (_ & _ & _ & _ & _ & _ & Htab) Hc. assert (Hfr : frames t = []) by (unfold frames, used; by rewrite Hc).
  split; [cbn; rewrite Htab; apply lookup_insert_eq|done| |]; rewrite Hfr; [split; constructor|]. intros b u j _ _. apply not_elem_of_nil.
Qed.
Lemma create_table_run s page asid :
  vm_ok (sp_vm (mem_of s)) -> page_contents page ->
  wp (on_memory (on_vm (vm_create_pagetable page asid))) (fun a s' => only_mem s s' /\
    (a = 0 /\ free_frames (mem_of s) = 0 /\ mem_of s' = mem_of s \/
     a <> 0 /\ exists t i,
       new_table (sp_vm (mem_of s)) (sp_vm (mem_of s')) a t i /\ mem_ok (mem_of s') a t /\ sp_rows (mem_of s') = sp_rows (mem_of s) /\
       pt_ASID t = asid /\ valid_count t = 0 /\ forall q, translate t q = None)) s.
Proof.
  intros Hv Hpage. apply wp_on_memory, wp_on_vm. eapply wp_mono; [by apply vm_create_run|].
  intros a v [Hv' [(-> & -> & Hz)|(t & i & Hn & Ha & Hc & Htr)]].
  { assert (Hx : mk_space (sp_vm (mem_of s)) (sp_rows (mem_of s)) (sp_asid (mem_of s)) = mem_of s) by done.
    rewrite Hx. assert (Hcpu : cpu_of (mem_of s) = cpu s) by apply cpu_of_with. split; [exact Hcpu|]. split; [by eexists|]. left.
    by rewrite mem_with_mem. }
  assert (Hcpu : cpu_of (mk_space v (sp_rows (mem_of s)) (sp_asid (mem_of s))) = cpu s) by (destruct Hn as (_ & _ & _ & _ & _ & Hcp & _); exact Hcp).
  split; [exact Hcpu|]. split; [by eexists|]. right. split.
  { destruct Hn as (_ & _ & _ & (-> & Hi & _) & _). rewrite phys_to_kernel by (unfold PAGE_SIZE; lia). unfold PAGE_SIZE. lia. }
  exists t, i. rewrite mem_with_mem by exact Hcpu. split; [exact Hn|]. split; [by eapply new_table_mem|]. done.
Qed.

(** The pool is as it was. *)
Record regained x x' : Prop := {
  rg_vm : vm_ok (sp_vm x');
  rg_cpu : cpu_of x' = cpu_of x;
  rg_tables : vm_tables (sp_vm x') = vm_tables (sp_vm x);
  rg_free : free_frames x' = free_frames x /\ pagepool_num_pages (spool x') = pagepool_num_pages (spool x);
  rg_pool : forall q, 0 <= q < pagepool_num_pages (spool x) -> reserved (spool x') q = reserved (spool x) q
}.
Lemma table_page_unique v v' a i j : table_page v a i -> table_page v' a j -> i = j.
Proof. intros (Ha & Hi & _) (Hb & Hj & _). rewrite Ha, !phys_to_kernel in Hb by (unfold PAGE_SIZE; lia). unfold PAGE_SIZE in Hb. lia. Qed.
(** The frames of the table were free before it was made. *)
Lemma took_free x0 x1 x2 a t1 t2 i : vm_ok (sp_vm x0) -> new_table (sp_vm x0) (sp_vm x1) a t1 i -> took x1 x2 a t2 ->
  i ∉ frames t2 /\ forall f, f ∈ frames t2 -> 0 <= f < pagepool_num_pages (spool x0) /\ reserved (spool x0) f = false.
Proof.
  intros Hv (Hi & _ & _ & (_ & _ & Hir & Hires) & (Hn & _ & _ & _ & _ & Hb) & _) Ht. pose proof (tk_new _ _ _ _ Ht) as Hnew. rewrite Forall_forall in Hnew.
  destruct Hv as (Hp & _). pose proof (po_pages _ Hp) as Hpg. pose proof (po_static _ Hp) as Hst.
  assert (Hnoti : i ∉ frames t2) by (intros Hin; rewrite (Hnew i Hin) in Hires; done).
  split; [exact Hnoti|]. intros f Hf. destruct (mo_frames _ _ _ (tk_mem _ _ _ _ Ht)) as [_ Hall]. rewrite Forall_forall in Hall.
  destruct (Hall f Hf) as [Hr _]. destruct (tk_size _ _ _ _ Ht) as [Hn2 Hs2]. rewrite Hn2, Hn in Hr.
  assert (0 <= f). { destruct (mo_vm _ _ _ (tk_mem _ _ _ _ Ht)) as (Hp2 & _). pose proof (po_static _ Hp2). lia. }
  split; [lia|]. pose proof (Hnew f Hf) as Hfr. unfold reserved in *. rewrite Hb in Hfr by lia.
  destruct (Z.eqb_spec f i) as [->|]; [done|exact Hfr].
Qed.
Lemma regained_run x0 x1 x2 x3 a t1 t2 i :
  vm_ok (sp_vm x0) -> cpu_of x1 = cpu_of x0 -> new_table (sp_vm x0) (sp_vm x1) a t1 i -> took x1 x2 a t2 -> given_back x2 x3 a t2 -> regained x0 x3.
Proof.
  intros Hv Hc1 Hnew Ht ((j & Hj & Hfr) & Htab & Hv3 & Hc3 & _). destruct (took_free _ _ _ _ _ _ _ Hv Hnew Ht) as [Hni Hff].
  pose proof Hnew as (Hi & Hires & Hnone & Hpage & (Hn & _ & Hf & _ & _ & Hb) & _ & Htab1). pose proof Ht as [_ Hc2 Htab2 (Hn2 & Hs2) Hf2 Hb2 _].
  assert (j = i) as -> by (eapply table_page_unique; [exact Hj|exact Hpage]).
  destruct Hfr as (_ & Hn3 & _ & Hf3 & Hb3). split.
  - exact Hv3.
  - congruence.
  - rewrite Htab, Htab2, delete_insert_eq, Htab1. by apply delete_insert_id.
  - rewrite Hf3, Hf2, Hf, length_app. cbn [length]. split; [lia|congruence].
  - intros q Hq. rewrite Hb3 by congruence. rewrite Hb2 by congruence.
    destruct Hv as (Hp & _). pose proof (po_pages _ Hp).
    assert (Hr1 : reserved (spool x1) q = if q =? i then true else reserved (spool x0) q) by (unfold reserved; by rewrite Hb by lia).
    rewrite Hr1. destruct (decide (q ∈ frames t2 ++ [i])) as [Hin|Hout].
    + apply elem_of_app in Hin as [Hin|Hin]; [by rewrite (proj2 (Hff q Hin))|]. apply list_elem_of_singleton in Hin as ->. by rewrite Hires.
    + rewrite not_elem_of_app, list_elem_of_singleton in Hout. destruct Hout as [H1 H2]. rewrite bool_decide_false by done.
      by rewrite (proj2 (Z.eqb_neq q i)) by done.
Qed.

(** ** The claim of an entry *)
Definition parent_of (d : option child_process_create_data_t) : Z := match d with Some d => cd_parent_pid d | None => PROCESS_NO_PARENT_PID end.

Record can_start s (d : option child_process_create_data_t) : Prop := {
  st_wf : table_wf (sy_proc s);
  st_ts : ts_ok (thr s);
  st_table : ts_table (thr s) = 0;
  st_idle : idle (thr s) (process_table_lock (sy_proc s));
  st_parent : forall d', d = Some d' -> is_pid (cd_parent_pid d') /\ ~ free_entry (proc (sy_proc s) (cd_parent_pid d')) /\
    idle (thr s) (parent_lock s d') /\ parent_lock s d' <> process_table_lock (sy_proc s);
  st_heap : forall k, is_pid k -> free_entry (proc (sy_proc s) k) -> heap_vaddr (proc (sy_proc s) k) = 0;
  st_vm : vm_ok (sp_vm (mem_of s)) /\ 1 <= zlen (sp_rows (mem_of s)) <= 64;
  st_files : of_ok (files_of s)
}.

(** Row [j] of the table when entry [me] has been claimed. *)
Definition claimed s d (me j : Z) : process_table_t :=
  let e := proc (sy_proc s) j in
  if j =? me then new_process (proc (sy_proc s) me) (ts_tid (thr s)) (parent_of d)
                    (match d with None => PROCESS_NO_PARENT_PID | Some d => last_child_pid (proc (sy_proc s) (cd_parent_pid d)) end)
  else match d with None => e | Some d => if j =? cd_parent_pid d then set_last_child_pid me e else e end.

(** The thread, of the process [pid] now, has its parent's lock. *)
Record running s s' d (pid table : Z) : Prop := {
  rn_wf : table_wf (sy_proc s');
  rn_table_lock : process_table_lock (sy_proc s') = process_table_lock (sy_proc s);
  rn_ts : ts_ok (thr s');
  rn_cpu : cpu s' = cpu s;
  rn_thread : ts_tid (thr s') = ts_tid (thr s) /\ ts_pid (thr s') = pid /\ ts_table (thr s') = table;
  rn_idle : idle (thr s') (process_table_lock (sy_proc s));
  rn_locks : forall k, k <> process_table_lock (sy_proc s) -> parent_lock s <$> d <> Some k -> ts_lock (thr s') k = ts_lock (thr s) k;
  rn_parent : forall d', d = Some d' -> ts_lock (thr s') (parent_lock s d') = Mine /\ ts_quiet (thr s') (parent_lock s d');
  rn_die : forall j, is_pid j -> die_lock (proc (sy_proc s') j) = die_lock (proc (sy_proc s) j);
  rn_tty : sy_tty s' = sy_tty s
}.
(** Entry [me] has been claimed. *)
Definition claimed_rows s s' d (me : Z) : Prop := forall j, is_pid j -> proc (sy_proc s') j =
  if j =? me then set_heap_vaddr (heap_vaddr (proc (sy_proc s') me)) (claimed s d me j) else claimed s d me j.
Lemma claimed_die s d me j : die_lock (claimed s d me j) = die_lock (proc (sy_proc s) j) /\ die_cond (claimed s d me j) = die_cond (proc (sy_proc s) j).
Proof. unfold claimed. destruct (Z.eqb_spec j me) as [->|]; [done|]. destruct d as [d|]; [|done]. by destruct (_ =? _). Qed.
Lemma running_parent s s' d pid table d' : running s s' d pid table -> is_pid (cd_parent_pid d') -> parent_lock s' d' = parent_lock s d'.
Proof. intros Hr Hp. by apply (rn_die _ _ _ _ _ Hr). Qed.
Lemma running_held s s' d pid table : can_start s d -> running s s' d pid table -> parent_held s' d.
Proof.
  intros Hst Hr d' Hd'. destruct (st_parent _ _ Hst d' Hd') as (Hp & _). split; [done|].
  rewrite (running_parent s s' d pid table) by done. by apply (rn_parent _ _ _ _ _ Hr).
Qed.
Lemma running_during s s1 s2 d me pid table : can_start s d -> is_pid me -> running s s1 d pid table -> during me s1 s2 -> running s s2 d pid table.
Proof.
  intros Hst Hme [W1 L1 T1 C1 (I1 & P1 & G1) D1 K1 Q1 R1 Y1] [W2 L2 T2 (I2 & P2 & G2) C2 K2 Q2 R2 Y2]. rewrite L1 in Q2, K2. destruct (Q2 D1) as [D2 Q2'].
  split; try done; try congruence.
  - split_and!; congruence.
  - intros k Hk Hpk. by rewrite K2, K1.
  - intros d' Hd'. destruct (Q1 d' Hd') as [Hm Hq]. split; [|by apply Q2']. rewrite K2; [done|]. by destruct (st_parent _ _ Hst d' Hd') as (_ & _ & _ & ?).
  - intros j Hj. rewrite <- R1, R2 by done. by destruct (j =? me).
Qed.
Lemma claimed_during s s1 s2 d me : claimed_rows s s1 d me -> is_pid me -> during me s1 s2 -> claimed_rows s s2 d me.
Proof. intros H1 Hme Hd j Hj. rewrite (du_rows _ _ _ Hd j Hj), (H1 j Hj). destruct (Z.eqb_spec j me) as [->|]; reflexivity. Qed.

Lemma claim_run s d :
  can_start s d ->
  wp (_ ← (match d with
           | None => mret tt
           | Some d => parent ← on_process (get_process (cd_parent_pid d)); on_process (on_threads (lock_acquire (die_lock parent)))
           end);
      on_process (start_entry (parent_of d)))
    (fun r s' => mem_of s' = mem_of s /\ files_of s' = files_of s /\ sy_ram s' = sy_ram s /\ exists pid, running s s' d pid 0 /\ match r with
       | Some me => is_pid me /\ free_entry (proc (sy_proc s) me) /\ pid = me /\ claimed_rows s s' d me /\ heap_vaddr (proc (sy_proc s') me) = 0
       | None => (forall j, is_pid j -> ~ free_entry (proc (sy_proc s) j)) /\ process_table (sy_proc s') = process_table (sy_proc s)
       end) s.
Proof.
  intros Hst. pose proof Hst as [Hwf Hts Htab [Hfree Hquiet] Hpar Hheap _ _].
  set (step := match d with None => _ | Some _ => _ end).
  assert (Hstep : wp step (fun _ s1 => exists y, s1 = with_thr y s /\ ts_ok y /\ cpu_of y = cpu s /\ same_who (thr s) y /\
    (forall k, parent_lock s <$> d <> Some k -> ts_lock y k = ts_lock (thr s) k) /\ (forall d', d = Some d' -> ts_lock y (parent_lock s d') = Mine) /\
    forall k, ts_quiet (thr s) k -> ts_quiet y k) s).
  { subst step. destruct d as [d|].
    - destruct (Hpar d eq_refl) as (Hp & _ & [Hf Hq] & _). apply wp_bind, wp_on_process, wp_get_process; [apply Hwf|done|].
      replace (mk_sys (sy_proc s) (sy_ram s) (sy_tty s)) with s by (by destruct s). fold (parent_lock s d).
      apply wp_threads. eapply wp_mono; [apply wp_and; [by apply lock_acquire_spec|by apply lock_acquire_quiet]|].
      intros _ y [(Hok & Hc & Hw & Hm & Ho & _) Hqs]. exists y. split; [done|]. split; [done|]. split; [done|]. split; [done|].
      split; [intros k Hk; apply Ho; intros ->; by destruct Hk|]. split; [by intros d' [= <-]|done].
    - apply wp_ret. exists (thr s). split; [by destruct s as [[] ? ?]|]. split; [done|]. split; [done|]. split; [done|]. split; [done|]. by split. }
  apply wp_bind. eapply wp_mono; [exact Hstep|]. intros _ s1 (y & -> & Hy & Hcy & (Hty & Hpy & Hgy) & Hly & Hmine & Hqy).
  assert (Hout : parent_lock s <$> d <> Some (process_table_lock (sy_proc s))).
  { destruct d as [d|]; [|done]. intros [= Heq]. by destruct (Hpar d eq_refl) as (_ & _ & _ & ?). }
  apply wp_on_process. eapply wp_mono; [apply (start_entry_run (with_threads y (sy_proc s)) (parent_of d))|].
  { exact Hwf. } { done. }
  { destruct d as [d|]; [right|by left]. by destruct (Hpar d eq_refl) as (? & ? & _). }
  { cbn. by rewrite Hly. }
  intros r p (Hwf' & Hts' & (Htl & Hsp & Hfl) & Hcpu & Hr & Hid & Htb & Hlk & Hq). cbn [with_threads ps_threads process_table_lock ps_space ps_files] in *.
  set (s' := mk_sys p _ _). destruct (Hq (Hqy _ Hquiet)) as [Hidle Hqk].
  assert (Hcpu' : cpu s' = cpu s) by exact (eq_trans Hcpu Hcy).
  assert (Hmem : mem_of s' = mem_of s) by (unfold mem_of; rewrite Hcpu'; unfold s'; cbn [sy_proc]; by rewrite Hsp).
  split; [exact Hmem|]. split; [exact Hfl|]. split; [done|]. exists (ts_pid (ps_threads p)).
  assert (Hrun : (forall j, is_pid j -> die_lock (proc p j) = die_lock (proc (sy_proc s) j)) -> running s s' d (ts_pid (ps_threads p)) 0).
  { intros Hdie. split; try done.
    - split_and!; [exact (eq_trans Hid Hty)|done|exact (eq_trans Htb (eq_trans Hgy Htab))].
    - split; [exact Hidle|by apply Hqk, Hqy].
    - intros k Hk Hpk. rewrite <- Hly by done. by apply Hlk.
    - intros d' Hd'. destruct (Hpar d' Hd') as (_ & _ & [_ Hqd] & Hne). split; [|by apply Hqk, Hqy]. rewrite <- (Hmine d' Hd'). by apply Hlk. }
  destruct r as [me|].
  - destruct Hr as (Hme & Hf & _ & Hpid & Hrows). change (proc (with_threads y (sy_proc s))) with (proc (sy_proc s)) in *. rewrite Hty in Hrows.
    assert (Hcl : forall j, is_pid j -> proc p j = claimed s d me j).
    { intros j Hj. rewrite Hrows by done. unfold claimed, parent_of. destruct d as [d|]; [|rewrite Z.eqb_refl, (proj2 (Z.eqb_neq j PROCESS_NO_PARENT_PID)) by (unfold is_pid, PROCESS_NO_PARENT_PID in *; lia); by destruct (j =? me)].
      destruct (Hpar d eq_refl) as (Hp & _). rewrite (proj2 (Z.eqb_neq (cd_parent_pid d) _)); [done|]. unfold is_pid, PROCESS_NO_PARENT_PID in *. lia. }
    split; [apply Hrun; intros j Hj; rewrite Hcl by done; apply claimed_die|]. split; [done|]. split; [done|]. split; [done|].
    assert (Hz : heap_vaddr (proc p me) = 0) by (rewrite Hcl by done; unfold claimed; rewrite Z.eqb_refl; by apply Hheap).
    split; [|exact Hz]. intros j Hj. change (proc (sy_proc s') me) with (proc p me). change (proc (sy_proc s') j) with (proc p j). rewrite Hz, Hcl by done.
    destruct (Z.eqb_spec j me) as [->|]; [|done]. rewrite <- (Hcl me Hj) at 2. symmetry. rewrite <- Hz at 1. rewrite <- (Hcl me Hj). apply set_heap_id.
  - destruct Hr as [Hpt Hno]. split; [|done]. apply Hrun. intros j Hj. unfold proc. by rewrite Hpt.
Qed.

(** ** The end, of both kinds *)
Record left s s' d (pid table : Z) : Prop := {
  lf_wf : table_wf (sy_proc s');
  lf_table_lock : process_table_lock (sy_proc s') = process_table_lock (sy_proc s);
  lf_ts : ts_ok (thr s');
  lf_cpu : cpu s' = cpu s;
  lf_thread : ts_tid (thr s') = ts_tid (thr s) /\ ts_pid (thr s') = pid /\ ts_table (thr s') = table;
  lf_idle : idle (thr s') (process_table_lock (sy_proc s)) /\ forall d', d = Some d' -> idle (thr s') (parent_lock s d');
  lf_locks : forall k, k <> process_table_lock (sy_proc s) -> parent_lock s <$> d <> Some k -> ts_lock (thr s') k = ts_lock (thr s) k;
  lf_files : of_ok (files_of s') /\ of_same (files_of s) (files_of s');
  lf_tty : sy_tty s' = sy_tty s
}.
Lemma running_left s s1 s2 d pid0 table0 pid table :
  can_start s d -> running s s1 d pid0 table0 -> table_wf (sy_proc s2) -> process_table_lock (sy_proc s2) = process_table_lock (sy_proc s1) ->
  ts_ok (thr s2) -> cpu s2 = cpu s1 -> ts_tid (thr s2) = ts_tid (thr s1) /\ ts_pid (thr s2) = pid /\ ts_table (thr s2) = table ->
  locks_given (parent_lock s <$> d) (thr s1) (thr s2) -> sy_tty s2 = sy_tty s1 -> of_ok (files_of s2) -> of_same (files_of s) (files_of s2) ->
  left s s2 d pid table.
Proof.
  intros Hst [W1 L1 T1 C1 (I1 & P1 & G1) [Df Dq] K1 Q1 R1 Y1] W2 L2 T2 C2 (I2 & P2 & G2) [E1 E2] Y2 O2 F2.
  assert (Hne : parent_lock s <$> d <> Some (process_table_lock (sy_proc s))).
  { destruct d as [d'|]; [|done]. intros [= Heq]. by destruct (st_parent _ _ Hst d' eq_refl) as (_ & _ & _ & ?). }
  destruct E2 as [E2 E3].
  { intros k Hk. destruct d as [d'|]; [|done]. injection Hk as <-. by apply (Q1 d'). }
  split; try done; try congruence.
  - split_and!; congruence.
  - split; [split; [by rewrite E1|by apply E3]|]. intros d' ->. split; [by apply E2|]. apply E3. by apply (Q1 d').
  - intros k Hk Hpk. by rewrite E1, K1.
Qed.

Lemma set_table_run s s1 d pid addr :
  running s s1 d pid 0 ->
  wp (uninterrupted (on_process (on_threads (set_pagetable addr)))) (fun _ s2 => running s s2 d pid addr /\
    process_table (sy_proc s2) = process_table (sy_proc s1) /\ mem_of s2 = mem_of s1 /\ files_of s2 = files_of s1 /\ sy_ram s2 = sy_ram s1) s1.
Proof.
  intros [W1 L1 T1 C1 (I1 & P1 & G1) D1 K1 Q1 R1 Y1]. apply wp_uninterrupted_same; [done|].
  intros s2 [Hok2 (Ht2 & Hp2 & Hg2) Hl2 Hq2 Hm2 [Htb2 Htl2] Hf2 [Hr2 Hy2]] Hc2.
  apply wp_threads. eapply wp_mono; [apply (keeps_wp ts_quiet); [apply set_table_quiet|by apply (set_table_spec (thr s2))]|].
  intros _ y [(Hok3 & Hc3 & Ht3 & Hp3 & Hg3 & Hl3) Hq3]. split; [exact Hok3|]. split; [exact (eq_trans Hc3 Hc2)|].
  intros s4 [Hok4 (Ht4 & Hp4 & Hg4) Hl4 Hq4 Hm4 [Htb4 Htl4] Hf4 [Hr4 Hy4]] Hc4.
  assert (Hrows : process_table (sy_proc s4) = process_table (sy_proc s1)) by exact (eq_trans Htb4 Htb2).
  assert (Hlock : forall k, ts_lock (thr s4) k = ts_lock (thr s1) k) by (intros k; rewrite Hl4; rewrite <- Hl2; exact (Hl3 k)).
  assert (Hquiet : ts_quiet (thr s4) = ts_quiet (thr s1)) by (rewrite Hq4, <- Hq2; exact Hq3).
  split; [|split; [exact Hrows|split; [|split; [exact (eq_trans Hf4 Hf2)|exact (eq_trans Hr4 Hr2)]]]].
  - split.
    + split; [unfold table_full; rewrite Hrows; apply W1|intros j Hj; unfold proc; rewrite Hrows; by apply W1].
    + exact (eq_trans Htl4 (eq_trans Htl2 L1)).
    + done.
    + congruence.
    + split_and!; [exact (eq_trans Ht4 (eq_trans Ht3 (eq_trans Ht2 I1)))|exact (eq_trans Hp4 (eq_trans Hp3 (eq_trans Hp2 P1)))|exact (eq_trans Hg4 Hg3)].
    + unfold idle. by rewrite Hlock, Hquiet.
    + intros k Hk Hpk. rewrite Hlock. by apply K1.
    + intros d' Hd'. rewrite Hlock, Hquiet. by apply Q1.
    + intros j Hj. unfold proc. rewrite Hrows. by apply R1.
    + rewrite Hy4. exact (eq_trans Hy2 Y1).
  - rewrite Hm4, (mem_with_thr y s2 Hc3), Hm2, with_cpu_with, Hc4. exact (with_cpu_with _ _ (ps_space (sy_proc s1))).
Qed.

(** ** Entering the program *)

(** The strings that the program gets: its path and the arguments. *)
Record arguments_ok (locals : start_locals) (executable : list Z) d (name : list Z) (strs : list (list Z)) : Prop := {
  ao_name : cstr executable = Some name;
  ao_none : d = None -> strs = [];
  ao_some : forall d', d = Some d' -> cd_argc d' = zlen strs /\ forall k str, strs !! k = Some str -> exists source, cd_argv d' !! k = Some source /\ cstr source = Some str;
  ao_count : zlen strs <= CONFIG_SYSCALL_MAX_ARGC;
  ao_room : stack_page * 4096 + room (name :: strs) + 4 * (zlen strs + 1) <= USERLAND_STACK_TOP;
  ao_array : zlen (lo_virtual_argv locals) = CONFIG_SYSCALL_MAX_ARGC + 1
}.
Abbreviation has_args t r argc sp strs := (has_arguments t (stack_page * 4096) USERLAND_STACK_TOP r argc sp strs).

Lemma enter_run s s1 locals executable d me addr t file elf name strs :
  can_start s d -> running s s1 d me addr -> is_pid me -> arguments_ok locals executable d name strs ->
  mem_ok (mem_of s1) addr t -> (forall x : Z, page_of x = stack_page -> writable t x = true) ->
  of_ok (files_of s1) -> of_open (files_of s1) file -> (forall k, of_open (files_of s) k <-> of_open (files_of s1) k /\ k <> file) ->
  wp (enter_program locals executable d me addr file elf) (fun a s2 => exists sp,
    a = (set_ready (me + 1) <$> d, Some (thread_goto_userland (user_context (entry_point elf) (zlen strs + 1) sp))) /\
    left s s2 d me addr /\ process_table (sy_proc s2) = process_table (sy_proc s1) /\ mem_of s2 = mem_of s1 /\
    between t (sy_ram s1) (sy_ram s2) sp USERLAND_STACK_TOP /\ has_args t (sy_ram s2) (zlen strs + 1) sp (name :: strs)) s1.
Proof.
  intros Hst Hrun Hme [Hname Hnone Hsome Hcount Hroom Harr] Hm Hw Hok Hopen Hfiles. unfold enter_program.
  apply wp_bind, wp_files. eapply wp_mono; [by apply vfs_close_spec|]. intros c f (Hokf & Hno & Hk).
  set (s2 := with_files f s1).
  assert (Hargs : match d with Some d => cd_argc d | None => 0 end = zlen strs /\
    forall k str, strs !! k = Some str -> exists source, match d with Some d => cd_argv d | None => [] end !! k = Some source /\ cstr source = Some str).
  { destruct d as [d|]; [by apply Hsome|]. by rewrite Hnone. }
  destruct Hargs as [Hargc Hargv]. unfold stack_page, USERLAND_STACK_TOP in Hroom.
  apply wp_bind. eapply wp_mono; [apply (push_arguments_run addr t (stack_page * 4096) USERLAND_STACK_TOP)|].
  all: try done. all: try by rewrite Hargc.
  { split; [unfold stack_page; lia|]. split; [unfold stack_page, USERLAND_STACK_TOP; lia|]. intros i Hi. apply Hw. unfold page_of.
    unfold stack_page, USERLAND_STACK_TOP in *. rewrite Z.add_comm, Z.div_add, Z.div_small by lia. done. }
  intros a s3 (r & sp & -> & -> & Hbet & Hhas). rewrite Hargc in *. set (s3 := with_ram r s2).
  assert (Hend : forall y data, ts_ok y -> cpu_of y = cpu s1 -> same_who (thr s1) y -> locks_given (parent_lock s <$> d) (thr s1) y ->
    data = (set_ready (me + 1) <$> d) ->
    exists sp', (data, Some (thread_goto_userland (user_context (entry_point elf) (zlen strs + 1) sp))) = (set_ready (me + 1) <$> d, Some (thread_goto_userland (user_context (entry_point elf) (zlen strs + 1) sp'))) /\
    left s (with_thr y s3) d me addr /\ process_table (sy_proc (with_thr y s3)) = process_table (sy_proc s1) /\ mem_of (with_thr y s3) = mem_of s1 /\
    between t (sy_ram s1) (sy_ram (with_thr y s3)) sp' USERLAND_STACK_TOP /\ has_args t (sy_ram (with_thr y s3)) (zlen strs + 1) sp' (name :: strs)).
  { intros y data Hy Hc (Ht & Hp & Hg) Hgiven ->. exists sp. split; [done|].
    split; [|split; [done|split; [exact (mem_with_thr y s3 Hc)|by split]]].
    destruct (rn_thread _ _ _ _ _ Hrun) as (Ht1 & Hp1 & Hg1). apply (running_left s s1 _ d me addr); try done.
    - apply Hrun.
    - split_and!; [done|exact (eq_trans Hp Hp1)|exact (eq_trans Hg Hg1)].
    - intros k. rewrite Hfiles. change (of_open f k <-> of_open (files_of s1) k /\ k <> file).
      destruct (decide (k = file)) as [->|Hne]; [by split; [|intros [_ ?]]|]. rewrite Hk by done. tauto. }
  apply wp_bind. destruct d as [d|].
  - destruct (running_held _ _ _ _ _ Hst Hrun d eq_refl) as [Hp Hl].
    apply wp_bind. eapply wp_lift; [unfold int; rewrite decide_True; [done|unfold is_pid, CONFIG_MAX_PROCESSES, is_i32 in *; lia]|].
    apply (wake_parent_run s3 d); [apply Hrun|apply Hrun|done|done|]. intros y Hy Hc Hwho Hgiven. apply wp_ret, wp_ret. apply Hend; try done.
    change (parent_lock s3 d) with (parent_lock s1 d) in Hgiven. by rewrite (running_parent s s1 (Some d) me addr) in Hgiven by done.
  - apply wp_ret, wp_ret. apply (Hend (thr s1)); try done. apply Hrun.
Qed.

(** ** Giving up *)

(** The state is as before the start, but for the parent's lists of children;
    [k] is the entry that was claimed. *)
Record abandoned s s' d (k : option Z) : Prop := {
  ab_left : exists pid, left s s' d pid 0 /\ (k <> None -> pid = -1);
  ab_rows : forall j, is_pid j -> proc (sy_proc s') j = match k with
    | None => proc (sy_proc s) j
    | Some me => if j =? me then free_process_table_entry (claimed s d me j) else claimed s d me j
    end;
  ab_mem : regained (mem_of s) (mem_of s');
  ab_ram : forall p, (0 <= p / 4096 < pagepool_num_pages (spool (mem_of s)) -> reserved (spool (mem_of s)) (p / 4096) = true) -> sy_ram s' p = sy_ram s p
}.
Definition told (d : option child_process_create_data_t) : option child_process_create_data_t := (fun d => set_ready (cd_child_pid d) d) <$> d.

(** Between the page table and the program. *)
Record underway s s1 d (me addr file : Z) t (i : Z) : Prop := {
  uw_running : running s s1 d me addr;
  uw_me : is_pid me;
  uw_addr : addr <> 0;
  uw_rows : claimed_rows s s1 d me;
  uw_mem : exists x1 t1, cpu_of x1 = cpu_of (mem_of s) /\ new_table (sp_vm (mem_of s)) (sp_vm x1) addr t1 i /\ took x1 (mem_of s1) addr t;
  uw_heap : heap_mapped t (proc (sy_proc s1) me);
  uw_ram : forall p, p / 4096 ∉ frames t -> sy_ram s1 p = sy_ram s p;
  uw_ok : of_ok (files_of s1);
  uw_file : if file <? 0 then of_same (files_of s) (files_of s1)
            else of_open (files_of s1) file /\ forall k, of_open (files_of s) k <-> of_open (files_of s1) k /\ k <> file
}.
Lemma free_set_heap h e : free_process_table_entry (set_heap_vaddr h e) = free_process_table_entry e.
Proof. reflexivity. Qed.

Lemma abandon_run s s1 d me addr file t i :
  can_start s d -> underway s s1 d me addr file t i ->
  wp (restore_process_state d (Some me) true file) (fun data s' => data = told d /\ abandoned s s' d (Some me)) s1.
Proof.
  intros Hst [Hrun Hme Ha Hrows (x1 & t1 & Hc1 & Hnew & Htook) Hheap Hram Hok Hfile]. pose proof Hrun as [W1 L1 T1 C1 (I1 & P1 & G1) D1 K1 Q1 R1 Y1].
  eapply wp_mono; [apply (restore_run s1 d me addr t file); try done|].
  { apply (tk_mem _ _ _ _ Htook). }
  { by eapply running_held. }
  { intros Hpos. rewrite (proj2 (Z.ltb_ge file 0)) in Hfile by done. by destruct Hfile. }
  intros data s2 (-> & [W2 L2 T2 C2 (I2 & P2 & G2) R2 M2 (Ram2 & Y2) (O2 & F2) E2]). split; [done|].
  pose proof (proj1 (st_vm _ _ Hst)) as Hvm. split.
  - exists (-1). split; [|done]. apply (running_left s s1 s2 d me addr); try done.
    + assert (Hdl : parent_lock s1 <$> d = parent_lock s <$> d).
      { destruct d as [d|]; [|done]. cbn. f_equal. apply (running_parent s s1 (Some d) me addr); [done|]. by apply (st_parent _ _ Hst d eq_refl). }
      by rewrite <- Hdl.
    + intros k. rewrite F2. destruct (Z.ltb_spec file 0).
      * rewrite (Hfile k). split; [by intros [? _]|]. intros ?. split; [done|by left].
      * destruct Hfile as [_ Hk]. rewrite Hk. split; [intros [? [|]]; [lia|done]|]. intros [? ?]. split; [done|by right].
  - intros j Hj. rewrite R2 by done. pose proof (Hrows j Hj) as Hrow. destruct (j =? me); rewrite Hrow; [apply free_set_heap|reflexivity].
  - eapply regained_run; [exact Hvm|exact Hc1|exact Hnew|exact Htook|exact M2].
  - intros p Hp. rewrite Ram2. apply Hram. intros Hin. destruct (took_free _ _ _ _ _ _ _ Hvm Hnew Htook) as [_ Hff].
    destruct (Hff _ Hin) as [Hr Hf]. by rewrite Hp in Hf.
Qed.

(** ** The whole of [process_start] *)

(** The file system opens the path on a file of the bytes [b], or on none. *)
Definition opens (path : list Z) (f : F) (b : option (list Z)) : Prop :=
  wp (vfs_open path) (fun r f' => of_ok f' /\ match b with
    | None => r < 0 /\ of_same f f'
    | Some b => 0 < r /\ ~ of_open f r /\ (forall k, k <> r -> of_open f' k <-> of_open f k) /\ of_file f' r 0 b
    end) f.
(** No other page of the image is in the pair of the page of the heap. *)
Definition heap_alone (elf : elf_info_t) : Prop :=
  forall q, image_page elf q = true -> q <> heap_page elf -> q / 2 <> heap_page elf / 2.
(** With exactly one frame too few, and that for the heap, what the code takes
    back depends on the other half of the heap's entry. *)
Record program_ok s (locals : start_locals) (path : list Z) (b : option (list Z)) : Prop := {
  pr_open : opens path (files_of s) b;
  pr_file : forall c, b = Some c -> Forall is_byte c /\ e_phoff (ehdr c) < 2147483648 /\
    (executable c -> layout (image c) /\ (free_frames (mem_of s) = image_frames (image c) -> heap_alone (image c)));
  pr_locals : zlen (lo_ehdr locals) = 52 /\ zlen (lo_phdr locals) = 32 /\ page_contents (lo_page locals)
}.
(** The new program [elf] of the file [b] with its arguments, at the end. *)
Record entered s s' d (me : Z) (b : list Z) (elf : elf_info_t) (strs : list (list Z)) (sp : Z) : Prop := {
  en_left : exists addr, addr <> 0 /\ left s s' d me addr /\ exists t i x1 t1 r,
    new_table (sp_vm (mem_of s)) (sp_vm x1) addr t1 i /\ cpu_of x1 = cpu_of (mem_of s) /\ took x1 (mem_of s') addr t /\
    loaded b elf t r /\ between t r (sy_ram s') sp USERLAND_STACK_TOP /\ has_args t (sy_ram s') (zlen strs) sp strs /\
    forall p, p / 4096 ∉ frames t -> sy_ram s' p = sy_ram s p;
  en_rows : claimed_rows s s' d me;
  en_heap : heap_vaddr (proc (sy_proc s') me) = heap_page elf * 4096
}.

Lemma no_entry_run s s1 d pid :
  can_start s d -> running s s1 d pid 0 -> mem_of s1 = mem_of s -> files_of s1 = files_of s -> sy_ram s1 = sy_ram s ->
  process_table (sy_proc s1) = process_table (sy_proc s) ->
  wp (restore_process_state d None true (-1)) (fun data s' => data = told d /\ abandoned s s' d None) s1.
Proof.
  intros Hst Hrun Hmem Hfl Hram Htb. pose proof Hrun as [W1 L1 T1 C1 (I1 & P1 & G1) D1 K1 Q1 R1 Y1]. unfold restore_process_state, current_pagetable.
  apply wp_bind, wp_threads, get_table_spec; [done|]. replace (with_thr (thr s1) s1) with s1 by (by destruct s1 as [[] ? ?]).
  apply wp_bind, wp_ret. rewrite G1. cbn [negb andb Z.eqb]. apply wp_bind, wp_ret.
  apply (restore_end_run s1 d (-1)); [done|done|by eapply running_held|rewrite Hfl; apply Hst|lia|].
  intros y f Hy Hcy (Hty & Hpy & Hgy) Hgiven Hokf Hk. split; [done|].
  assert (Hdl : parent_lock s1 <$> d = parent_lock s <$> d).
  { destruct d as [d|]; [|done]. cbn. f_equal. apply (running_parent s s1 (Some d) pid 0); [done|]. by apply (st_parent _ _ Hst d eq_refl). }
  rewrite Hdl in Hgiven. split.
  - exists pid. split; [|done]. apply (running_left s s1 _ d pid 0); try done.
    + split_and!; [done|exact (eq_trans Hpy P1)|exact (eq_trans Hgy G1)].
    + intros k. change (of_open f k <-> of_open (files_of s) k). rewrite Hk, Hfl. split; [by intros [? _]|]. intros ?. split; [done|by left].
  - intros j Hj. change (proc (sy_proc (with_files f (with_thr y s1))) j) with (proc (sy_proc s1) j). unfold proc. by rewrite Htb.
  - assert (Hm : mem_of (with_files f (with_thr y s1)) = mem_of s) by (rewrite <- Hmem; exact (mem_with_thr y s1 Hcy)).
    destruct (st_vm _ _ Hst) as [Hvm _]. split; rewrite Hm; done.
  - intros p _. change (sy_ram s1 p = sy_ram s p). by rewrite Hram.
Qed.

(** There is no frame for a page table. *)
Lemma no_table_run s s1 d me :
  can_start s d -> running s s1 d me 0 -> is_pid me -> claimed_rows s s1 d me -> heap_vaddr (proc (sy_proc s1) me) = 0 ->
  mem_of s1 = mem_of s -> files_of s1 = files_of s -> sy_ram s1 = sy_ram s ->
  wp (restore_process_state d (Some me) true (-1)) (fun data s' => data = told d /\ abandoned s s' d (Some me)) s1.
Proof.
  intros Hst Hrun Hme Hcl Hheap Hmem Hfl Hram. pose proof Hrun as [W1 L1 T1 C1 (I1 & P1 & G1) D1 K1 Q1 R1 Y1]. unfold restore_process_state, current_pagetable.
  apply wp_bind, wp_threads, get_table_spec; [done|]. replace (with_thr (thr s1) s1) with s1 by (by destruct s1 as [[] ? ?]). rewrite G1.
  apply wp_bind. eapply wp_mono; [by apply (drop_entry_none s1 me 0)|].
  intros _ s2 [[Hwf2 Htl2 Hts2 Hc2 (Ht2 & Hp2 & Hg2) Hr2 (Hram2 & Htty2 & Hf2) [Hl2 Hq2]] Hmem2].
  cbn [negb andb Z.eqb]. apply wp_bind, wp_ret.
  assert (Hpl : forall d', is_pid (cd_parent_pid d') -> parent_lock s2 d' = parent_lock s1 d').
  { intros d' Hd'. unfold parent_lock. rewrite Hr2 by done. by destruct (_ =? me). }
  apply (restore_end_run s2 d (-1)); [done|done| |rewrite Hf2, Hfl; apply Hst|lia|].
  { intros d' Hd'. destruct (running_held _ _ _ _ _ Hst Hrun d' Hd') as [Hp Hlk]. split; [done|]. by rewrite Hpl, Hl2. }
  rewrite Hf2, Hfl. intros y f Hy Hcy (Hty & Hpy & Hgy) Hgiven Hokf Hk. split; [done|].
  assert (Hdl : parent_lock s2 <$> d = parent_lock s <$> d).
  { destruct d as [d|]; [|done]. destruct (st_parent _ _ Hst d eq_refl) as (Hp & _). cbn. f_equal. rewrite Hpl by done. by apply (running_parent s s1 (Some d) me 0). }
  rewrite Hdl in Hgiven. split.
  - exists (-1). split; [|done]. apply (running_left s s1 _ d me 0); try done.
    + exact (eq_trans Hcy Hc2).
    + split_and!; [exact (eq_trans Hty Ht2)|exact (eq_trans Hpy Hp2)|exact (eq_trans Hgy (eq_trans Hg2 G1))].
    + apply (locks_given_trans _ (thr s1) (thr s2) y y); [exact Hl2|by rewrite Hq2|done..].
    + intros k. change (of_open f k <-> of_open (files_of s) k). rewrite Hk. split; [by intros [? _]|]. intros ?. split; [done|by left].
  - intros j Hj. change (proc (sy_proc (with_files f (with_thr y s2))) j) with (proc (sy_proc s2) j). rewrite Hr2, (Hcl j Hj) by done.
    destruct (Z.eqb_spec j me) as [->|]; [apply free_set_heap|done].
  - assert (Hm : mem_of (with_files f (with_thr y s2)) = mem_of s) by (rewrite <- Hmem, <- Hmem2; exact (mem_with_thr y s2 Hcy)).
    destruct (st_vm _ _ Hst) as [Hvm _]. split; rewrite Hm; done.
  - intros p _. change (sy_ram s2 p = sy_ram s p). by rewrite Hram2, Hram.
Qed.

Definition start_result s d (me : Z) (b : option (list Z)) (name : list Z) (strs : list (list Z)) (a : option child_process_create_data_t * option context_t) s' : Prop :=
  match b with
  | Some c => if decide (executable c /\ loadable (zlen (sp_rows (mem_of s))) c (image c) /\ image_frames (image c) < free_frames (mem_of s)) then
      exists sp, a = (set_ready (me + 1) <$> d, Some (thread_goto_userland (user_context (entry_point (image c)) (zlen strs + 1) sp))) /\
        entered s s' d me c (image c) (name :: strs) sp
      else a = (told d, None) /\ abandoned s s' d (Some me)
  | None => a = (told d, None) /\ abandoned s s' d (Some me)
  end.
Lemma start_program_run s s1 locals path d me addr t i b name strs :
  can_start s d -> program_ok s locals path b -> arguments_ok locals path d name strs ->
  underway s s1 d me addr (-1) t i -> sp_rows (mem_of s1) = sp_rows (mem_of s) -> free_frames (mem_of s1) = free_frames (mem_of s) - 1 ->
  (forall q, translate t q = None) -> valid_count t = 0 -> files_of s1 = files_of s -> heap_vaddr (proc (sy_proc s1) me) = 0 -> sy_ram s1 = sy_ram s ->
  new_table (sp_vm (mem_of s)) (sp_vm (mem_of s1)) addr t i -> cpu_of (mem_of s1) = cpu_of (mem_of s) ->
  wp (start_program locals path d me addr) (start_result s d me b name strs) s1.
Proof.
  intros Hst [Hopen Hfile (Hl1 & Hl2 & _)] Hargs Huw Hrows Hfree He Hc Hfl Hheap Hram Hnew Hcpu.
  pose proof Huw as [Hrun Hme Ha Hcl _ _ _ _ _]. unfold start_program.
  assert (Hm1 : mem_ok (mem_of s1) addr t) by (destruct Huw as [_ _ _ _ (? & ? & _ & _ & Htk) _ _ _ _]; apply (tk_mem _ _ _ _ Htk)).
  assert (Hgive : forall f file,
    of_ok f -> (if file <? 0 then of_same (files_of s) f else of_open f file /\ forall k, of_open (files_of s) k <-> of_open f k /\ k <> file) ->
    wp (data ← restore_process_state d (Some me) true file; mret (data, None)) (fun a s' => a = (told d, @None context_t) /\ abandoned s s' d (Some me)) (with_files f s1)).
  { intros f file Hokf Hff. apply wp_bind. eapply wp_mono; [apply (abandon_run s (with_files f s1) d me addr file t i Hst)|].
    - destruct Huw as [_ _ _ _ Hmem Hheap' Hram' _ _]. split; try done. destruct Hrun. by split.
    - intros data s' [-> Hab]. by apply wp_ret. }
  apply wp_bind, wp_files. rewrite Hfl. eapply wp_mono; [exact Hopen|]. intros file f [Hokf Hb]. destruct b as [c|].
  2: { destruct Hb as [Hneg Hsame]. apply wp_bind. rewrite (proj2 (Z.ltb_lt file 0)) by done. apply wp_ret. cbn [Z.eqb].
    apply Hgive; [done|]. by rewrite (proj2 (Z.ltb_lt file 0)). }
  destruct Hb as (Hpos & Hno & Hk & Hof). destruct (Hfile c eq_refl) as (Hby & Hoff & Hlay). apply wp_bind. rewrite (proj2 (Z.ltb_ge file 0)) by lia.
  destruct (of_file_open _ _ _ _ Hof) as [Hfo _].
  assert (Hback : forall f', of_same f f' -> of_open f' file /\ forall k, of_open (files_of s) k <-> of_open f' k /\ k <> file).
  { intros f' Hs. split; [by apply Hs|]. intros k. rewrite (Hs k). destruct (decide (k = file)) as [->|Hne]; [by split; [|intros [_ ?]]|]. rewrite Hk by done. tauto. }
  apply wp_files. eapply wp_mono; [by apply (elf_parse_run f file c)|]. intros [ok elf] f2 [(Hok2 & Hs2 & pos & Hof2) Hex].
  assert (Hno_result : ~ (executable c /\ loadable (zlen (sp_rows (mem_of s))) c (image c) /\ image_frames (image c) < free_frames (mem_of s)) -> forall a s', a = (told d, None) /\ abandoned s s' d (Some me) -> start_result s d me (Some c) name strs a s').
  { intros Hn a s' Hr. unfold start_result. by rewrite decide_False. }
  destruct (decide (executable c)) as [Hexe|Hnot].
  2: { cbn in Hex. subst ok. cbn [Z.eqb]. eapply wp_mono; [apply (Hgive f2 file); [done|]|apply Hno_result; tauto]. rewrite (proj2 (Z.ltb_ge file 0)) by lia. by apply Hback. }
  injection Hex as -> ->. cbn [Z.eqb]. destruct (Hlay Hexe) as [Hla Halone]. set (s2 := with_files f2 (with_files f s1)).
  apply wp_bind. eapply wp_mono; [apply (load_program_run s2 me addr t file pos c (image c))|].
  1-2: apply Hrun. 1: done. 1: { change (process_table_lock (sy_proc s2)) with (process_table_lock (sy_proc s1)). rewrite (rn_table_lock _ _ _ _ _ Hrun). apply (rn_idle _ _ _ _ _ Hrun). }
  1-4: done. 1: { change (mem_of s2) with (mem_of s1). rewrite Hrows. apply (st_vm _ _ Hst). } 1-2: done.
  change (mem_of s2) with (mem_of s1). rewrite Hrows, Hfree. intros ok s3 (Hd & (Hok3 & Hs3 & pos3 & Hof3) & -> & t' & Htk & Hr & Hhv & Hload).
  assert (Hrun2 : running s s2 d me addr) by (destruct Hrun; by split).
  assert (Hrun3 : running s s3 d me addr) by (by apply (running_during s s2 s3 d me)).
  assert (Hcl3 : claimed_rows s s3 d me) by (by apply (claimed_during s s2 s3 d me)).
  assert (Hback3 := Hback (files_of s3) ltac:(intros k; rewrite (Hs3 k); apply (Hs2 k))).
  assert (Hr3 : forall p, p / 4096 ∉ frames t' -> sy_ram s3 p = sy_ram s p) by (intros p Hp; rewrite Hr by done; change (sy_ram s1 p = sy_ram s p); by rewrite Hram).
  case_bool_decide as Hld; cbn [negb].
  - destruct (Hload eq_refl) as [Hhp Hldd]. destruct Hld as [Hld Hroom]. eapply wp_mono; [apply (enter_run s s3 locals path d me addr t' file (image c) name strs); try done|].
    { apply (tk_mem _ _ _ _ Htk). } { intros x Hx. by apply (ld_stack _ _ _ _ Hldd). } { exact (proj1 Hback3). } { exact (proj2 Hback3). }
    intros a s4 (sp & -> & Hleft & Htb4 & Hmem4 & Hbet & Hhas). unfold start_result. rewrite decide_True by (split; [done|]; split; [done|lia]). exists sp. split; [done|]. split.
    + exists addr. split; [done|]. split; [done|]. exists t', i, (mem_of s1), t, (sy_ram s3). rewrite Hmem4. split; [done|]. split; [done|]. split; [done|].
      split; [done|]. split; [done|]. split; [cbn [length] in *; by replace (Z.of_nat (S (length strs))) with (zlen strs + 1) by lia|].
      intros p Hp. rewrite (proj2 Hbet) by done. by apply Hr3.
    + intros j Hj. unfold proc. rewrite Htb4. by apply Hcl3.
    + unfold proc. rewrite Htb4. exact Hhp.
  - apply wp_bind. eapply wp_mono; [apply (abandon_run s s3 d me addr file t' i Hst)|].
    2: { intros data s' [-> Hab]. apply wp_ret, Hno_result; [|done]. intros (_ & Hld' & Hroom). apply Hld. split; [done|lia]. }
    split; try done.
    + by exists (mem_of s1), t.
    + destruct Hhv as [Hh|[Hh Hin]]; [left; rewrite Hh; exact Hheap|right]. rewrite Hh. rewrite Z.div_mul by done.
      destruct (layout_rw _ Hla) as (_ & Hw1 & Hw2 & Hw3 & Hw4). split; [unfold is_u32; lia|].
      destruct Hin as [Hin|[Hone Hpairs]]; [by left|right].
      change (free_frames (mem_of s2)) with (free_frames (mem_of s1)) in Hone. rewrite Hfree in Hone. specialize (Halone ltac:(lia)).
      apply list_find_None, Forall_forall. intros e Hine Heq.
      destruct (Hpairs (VPN2 e)) as (q & Hq & Himg & Hne); [apply list_elem_of_fmap; by exists e|]. apply (Halone q Himg Hne). congruence.
    + rewrite (proj2 (Z.ltb_ge file 0)) by lia. exact Hback3.
Qed.

Lemma heap_none t e : heap_vaddr e = 0 -> heap_mapped t e.
Proof. by left. Qed.
(** A page table without pages. *)
Lemma took_nothing x addr t : mem_ok x addr t -> frames t = [] -> took x x addr t.
Proof.
  intros Hm Hf. split; rewrite ?Hf; try done.
  - by rewrite insert_id by apply Hm.
  - cbn. lia.
Qed.

Lemma process_start_run s locals path d b name strs :
  can_start s d -> program_ok s locals path b -> arguments_ok locals path d name strs ->
  wp (process_start locals path d) (fun a s' =>
    (exists me, is_pid me /\ free_entry (proc (sy_proc s) me) /\ start_result s d me b name strs a s') \/
    ((forall j, is_pid j -> ~ free_entry (proc (sy_proc s) j)) /\ a = (told d, None) /\ abandoned s s' d None)) s.
Proof.
  intros Hst Hprog Hargs. unfold process_start. fold (parent_of d). pose proof (wp_bind_inv _ _ _ _ (claim_run s d Hst)) as Hclaim.
  apply wp_bind. eapply wp_mono; [exact Hclaim|]. intros [] s0 Hclaim2. apply wp_bind. eapply wp_mono; [exact Hclaim2|]. clear Hclaim Hclaim2.
  intros [me|] s1 (Hmem & Hfl & Hram & pid & Hrun & Hr).
  2: { destruct Hr as [Hno Htb]. apply wp_bind. eapply wp_mono; [by apply (no_entry_run s s1 d pid)|]. intros data s' [-> Hab]. apply wp_ret. by right. }
  destruct Hr as (Hme & Hfree & -> & Hcl & Hheap). pose proof Hrun as [W1 L1 T1 C1 (I1 & P1 & G1) D1 K1 Q1 R1 Y1].
  assert (Heta : forall s, with_thr (thr s) s = s) by (by intros [[] ? ?]).
  apply wp_bind, wp_threads, get_table_spec; [done|]. rewrite Heta, G1. cbn [negb Z.eqb].
  apply wp_bind, wp_threads, thread_get_spec; [done|]. rewrite Heta. destruct (st_vm _ _ Hst) as (Hvm & Hrw).
  apply wp_bind. eapply wp_mono; [apply (create_table_run s1); [by rewrite Hmem|apply (pr_locals _ _ _ _ Hprog)]|].
  intros addr s2 ([x ->] & [(-> & Hz & Hm2)|(Ha & t & i & Hnew & Hm2 & Hrows2 & Hasid & Hc & He)]).
  { cbn [Z.eqb]. assert (Hrun2 : running s (with_mem x s1) d me 0) by (destruct Hrun; by split). rewrite Hmem in Hm2.
    apply wp_bind. eapply wp_mono; [by apply (no_table_run s (with_mem x s1) d me Hst)|].
    { intros data s' [-> Hab]. apply wp_ret. left. exists me. split; [done|]. split; [done|]. unfold start_result. destruct b as [c|]; [|done].
      rewrite decide_False; [done|]. intros (Hexe & _ & Hroom). rewrite Hmem in Hz.
      destruct (pr_file _ _ _ _ Hprog c eq_refl) as (_ & _ & Hlay). destruct (Hlay Hexe) as [Hla _].
      destruct (layout_ro _ Hla) as (_ & _ & ? & _), (layout_rw _ Hla) as (_ & _ & ? & _). unfold image_frames in Hroom. lia. } }
  rewrite (proj2 (Z.eqb_neq _ _) Ha).
  assert (Hrun2 : running s (with_mem x s1) d me 0) by (destruct Hrun; by split).
  apply wp_bind. eapply wp_mono; [apply (set_table_run s _ d me addr Hrun2)|]. intros _ s3 (Hrun3 & Htb3 & Hmem3 & Hfl3 & Hram3).
  rewrite Hmem in Hnew, Hrows2. rewrite <- Hmem3 in Hnew, Hm2, Hrows2.
  assert (Hproc3 : forall j, proc (sy_proc s3) j = proc (sy_proc s1) j) by (intros j; unfold proc; by rewrite Htb3).
  assert (Hfr0 : frames t = []) by (unfold frames, used; by rewrite Hc).
  assert (Hcpu3 : cpu_of (mem_of s3) = cpu_of (mem_of s)) by exact (eq_trans (rn_cpu _ _ _ _ _ Hrun3) eq_refl).
  assert (Hf3 : files_of s3 = files_of s) by (rewrite Hfl3; exact Hfl).
  assert (Hr3 : sy_ram s3 = sy_ram s) by (rewrite Hram3; exact Hram).
  eapply wp_mono; [apply (start_program_run s s3 locals path d me addr t i b name strs); try done|].
  - split; try done.
    + intros j Hj. rewrite !Hproc3. by apply Hcl.
    + exists (mem_of s3), t. split; [done|]. split; [done|]. by apply took_nothing.
    + apply heap_none. by rewrite Hproc3.
    + intros p _. by rewrite Hr3.
    + rewrite Hf3. apply Hst.
    + cbn. by rewrite Hf3.
  - destruct Hnew as (_ & _ & _ & _ & (_ & _ & -> & _) & _). lia.
  - by rewrite Hproc3.
  - intros a s' Hres. left. by exists me.
Qed.
End starting.
