(* ===== verification/Heap.v ===== *)
(** * proc/syscall_handler_proc.c: the end of the heap

    [syscall_handle_memlimit] moves the end of the heap of a process, page by
    page.  The static variable [offset], which all processes share, is an
    argument and part of the answer. *)
From S2P Require Import Prelude Bitmap Libc Cpu Kmalloc Pagepool Semaphore Gbd Sync Tfs Vfs Mount Handles.
From S2P Require Import Waiting Thread Sleepq LockCond Kthreads Vm Tlb Space Frames User ThreadSys Bytes Elf Process Lifecycle Syscall SyscallTheorems Start Loading Starting.

(** How many pages apart two addresses are. *)
Definition page_diff (vaddr_new vaddr_old : Z) : Z :=
  let page_new := Z.land vaddr_new PAGE_SIZE_MASK in
  let page_old := Z.land vaddr_old PAGE_SIZE_MASK in
  Z.quot (i32 (u32 (page_new - page_old))) PAGE_SIZE.

(** The body of the outer loop of [can_be_mapped]: is the page at [vaddr]
    mapped? *)
Definition already_mapped (t : pagetable) (vaddr : Z) : res bool :=
  r ← scan_table t (fun _ e =>
    if VPN2 e =? Z.shiftr vaddr 13 then
      if ADDR_IS_ON_EVEN_PAGE vaddr then
        if V0 e =? 1 then Ret (Some tt) else Ret None
      else
        if V1 e =? 1 then Ret (Some tt) else Ret None
    else Ret None);
  Ret (match r with Some _ => true | None => false end).
Fixpoint none_mapped (n : nat) (t : pagetable) (vaddr : Z) : res bool :=
  match n with
  | O => Ret true
  | S n => b ← already_mapped t vaddr; if b : bool then Ret false else none_mapped n t (u32 (vaddr + PAGE_SIZE))
  end.
Definition can_be_mapped (n start_page_vaddr : Z) (t : pagetable) : res bool :=
  if n >? PAGETABLE_ENTRIES - valid_count t then Ret false else none_mapped (Z.to_nat n) t start_page_vaddr.

Section code.
Context {L F T : Type} `{!HasCpu L, !ThreadSys L, !OpenFiles F, !FileCalls F, !Terminal T, !Symbols}.
Abbreviation state := (sys L F T).

Fixpoint grow_heap (n : nat) (pagetable vaddr : Z) : M state unit :=
  match n with
  | O => mret tt
  | S n =>
      phys_page ← on_memory (on_vm (on_pmem pagepool_get_phys_page));
      _ ← on_memory (vm_map_at pagetable phys_page vaddr 1);
      grow_heap n pagetable (u32 (vaddr + PAGE_SIZE))
  end.
Fixpoint shrink_heap (n : nat) (pagetable vaddr : Z) : M state unit :=
  match n with
  | O => mret tt
  | S n => _ ← on_memory (on_vm (vm_unmap pagetable vaddr)); shrink_heap n pagetable (u32 (vaddr - PAGE_SIZE))
  end.
(** The answer and the new [offset]. *)
Definition syscall_handle_memlimit (offset heap_end : Z) : M state (Z * Z) := uninterrupted (
  me ← current_process;
  pagetable ← current_pagetable;
  proc ← on_process (get_process me);
  let heap_now := u32 (heap_vaddr proc + offset) in
  let page_now := Z.land heap_now PAGE_SIZE_MASK in
  if negb (heap_end =? 0) then
    let required_pages := page_diff heap_end heap_now in
    if (heap_end >=? stack_bottom) || (heap_end <? heap_vaddr proc) then mret (0, offset)
    else
      let moved := u32 (offset + i32 (u32 (heap_end - heap_now))) in
      if required_pages >? 0 then
        free ← on_memory (on_vm (on_pmem pagepool_get_free_pages));
        refused ← (if required_pages >? free then mret true
                   else t ← on_memory (on_vm (get_table pagetable)); lift (can_be_mapped required_pages page_now t));
        if refused : bool then mret (0, offset)
        else _ ← grow_heap (Z.to_nat required_pages) pagetable (u32 (page_now + PAGE_SIZE)); mret (heap_end, moved)
      else
        _ ← (if required_pages <? 0 then shrink_heap (Z.to_nat (- required_pages)) pagetable page_now else mret tt);
        mret (heap_end, moved)
  else mret (heap_now, offset)).
End code.

(** ** Pages and addresses *)
Lemma page_mask a : is_u32 a -> Z.land a PAGE_SIZE_MASK = a / 4096 * 4096.
Proof.
  intros Ha. change 4096 with (2 ^ 12). rewrite <- Z.shiftr_div_pow2, <- Z.shiftl_mul_pow2 by lia.
  apply Z.bits_inj'. intros n Hn. rewrite Z.land_spec, Z.shiftl_spec by done.
  change PAGE_SIZE_MASK with (Z.shiftl (Z.ones 20) 12). rewrite Z.shiftl_spec by done. destruct (Z.ltb_spec n 12).
  - rewrite !(Z.testbit_neg_r _ (n - 12)) by lia. by rewrite andb_false_r.
  - rewrite Z.shiftr_spec by lia. replace (n - 12 + 12) with n by lia. destruct (Z.ltb_spec n 32).
    + by rewrite Z.ones_spec_low, andb_true_r by lia.
    + rewrite Z.ones_spec_high by lia. rewrite andb_false_r. symmetry. destruct (decide (a = 0)) as [->|]; [apply Z.bits_0|].
      apply Z.bits_above_log2; [apply Ha|]. unfold is_u32 in Ha. apply Z.log2_lt_pow2; [lia|]. apply Z.lt_le_trans with (2 ^ 32); [lia|]. apply Z.pow_le_mono_r; lia.
Qed.
Lemma i32_u32 x : is_i32 x -> i32 (u32 x) = x.
Proof. unfold is_i32, i32, u32. intros Hx. Z.div_mod_to_equations. lia. Qed.
Lemma page_diff_run a b : 0 <= a < 2 ^ 31 -> 0 <= b < 2 ^ 31 -> page_diff a b = a / 4096 - b / 4096.
Proof.
  intros Ha Hb. unfold page_diff. rewrite !page_mask by (unfold is_u32; lia). rewrite <- Z.mul_sub_distr_r.
  pose proof (Z.div_mod a 4096 ltac:(lia)). pose proof (Z.mod_pos_bound a 4096 ltac:(lia)).
  pose proof (Z.div_mod b 4096 ltac:(lia)). pose proof (Z.mod_pos_bound b 4096 ltac:(lia)).
  rewrite i32_u32 by (unfold is_i32; lia). unfold PAGE_SIZE. by rewrite Z.quot_mul.
Qed.

Lemma already_mapped_run t v : pt_ok t -> already_mapped t v = Ret (bool_decide (translate t (v / 4096) <> None)).
Proof.
  intros Hok. unfold already_mapped. rewrite even_page, pair_of_addr. set (p := v / 4096).
  rewrite (scan_table_find t (p / 2)); [|done|intros i e Hne; by rewrite (proj2 (Z.eqb_neq _ _) Hne)].
  unfold translate. destruct (find_pair t (p / 2)) as [[k e]|] eqn:Hf; [|by rewrite bool_decide_false by tauto].
  destruct (find_pair_Some _ _ _ _ Hok Hf) as (_ & _ & -> & _ & _). rewrite Z.eqb_refl. unfold half.
  destruct (Z.even p); [destruct (V0 e =? 1)|destruct (V1 e =? 1)]; cbn; f_equal; symmetry; (by rewrite bool_decide_true) || by rewrite bool_decide_false by tauto.
Qed.
(** Is one of the [n] pages from [p] on mapped? *)
Definition any_mapped (t : pagetable) (p n : Z) : bool := existsb (fun q => bool_decide (translate t q <> None)) (seqZ p n).
Lemma any_mapped_true t p n : any_mapped t p n = true <-> exists q, p <= q < p + n /\ translate t q <> None.
Proof.
  unfold any_mapped. rewrite existsb_exists. split.
  - intros (q & Hin & Hq). exists q. apply bool_decide_eq_true in Hq. split; [|done]. by apply elem_of_seqZ, list_elem_of_In.
  - intros (q & Hr & Hq). exists q. split; [by apply list_elem_of_In, elem_of_seqZ|by apply bool_decide_eq_true].
Qed.
Lemma none_mapped_run n v t : pt_ok t -> 0 <= v -> v + Z.of_nat n * 4096 <= 2 ^ 32 ->
  none_mapped n t v = Ret (negb (any_mapped t (v / 4096) (Z.of_nat n))).
Proof.
  intros Hok. revert v. induction n as [|n IH]; intros v Hv Hend; [done|]. cbn [none_mapped]. unfold any_mapped.
  rewrite already_mapped_run, seqZ_cons by (done || lia). cbn [existsb mbind res_bind].
  case_bool_decide; [done|]. cbn [orb]. replace (Z.pred (Z.of_nat (S n))) with (Z.of_nat n) by lia.
  destruct n as [|n]; [done|]. unfold PAGE_SIZE. rewrite u32_id by (unfold is_u32; lia).
  assert (Hd : (v + 4096) / 4096 = Z.succ (v / 4096)) by (change (v + 4096) with (v + 1 * 4096); rewrite Z.div_add by lia; lia).
  rewrite IH by (done || lia). by rewrite Hd.
Qed.
(** What [can_be_mapped] answers: yes when there is room in the table and none
    of the pages is mapped.  Its caller then refuses. *)
Definition refuses (t : pagetable) (p n : Z) : bool := (n <=? PAGETABLE_ENTRIES - valid_count t) && negb (any_mapped t p n).
Lemma can_be_mapped_run n v t : pt_ok t -> 0 <= n -> 0 <= v -> v + n * 4096 <= 2 ^ 32 -> can_be_mapped n v t = Ret (refuses t (v / 4096) n).
Proof.
  intros Hok Hn Hv Hend. unfold can_be_mapped, refuses. rewrite Z.gtb_ltb.
  destruct (Z.ltb_spec (PAGETABLE_ENTRIES - valid_count t) n), (Z.leb_spec n (PAGETABLE_ENTRIES - valid_count t)); try lia; [done|].
  rewrite none_mapped_run by (done || lia). by rewrite Z2Nat.id by done.
Qed.

Section heap.
Context {L F T : Type} `{!HasCpu L, TS : !ThreadSys L, LO : !LoneLocks L, OF : !OpenFiles F, FC : !FileCalls F, TM : !Terminal T, !Symbols}.
Abbreviation state := (sys L F T).
Implicit Types (s : state) (t : pagetable).
Abbreviation free_frames x := (pagepool_num_free_pages (spool x)).

(** ** Pages come and go *)

(** [t'] is [t] with the page [q], which is one of [n]: it keeps the mapping it
    has; or it gets a frame of its own, writable; or it stays without one,
    because the table has no entry left. *)
Definition page_grown t t' (n q : Z) : Prop :=
  match translate t q with
  | Some m => translate t' q = Some m
  | None => (exists f, translate t' q = Some (f, 1)) \/
      translate t' q = None /\ valid_count t' = PAGETABLE_ENTRIES /\ PAGETABLE_ENTRIES < valid_count t + n
  end.
(** [n] frames have been taken for the pages from [p] on. *)
Record enlarged (x x' : space) (addr : Z) t t' (p n : Z) : Prop := {
  en_mem : mem_ok x' addr t';
  en_cpu : cpu_of x' = cpu_of x;
  en_tables : vm_tables (sp_vm x') = <[addr := t']> (vm_tables (sp_vm x));
  en_free : free_frames x' = free_frames x - n;
  en_table : pt_ASID t' = pt_ASID t /\ valid_count t <= valid_count t' <= valid_count t + n;
  en_pages : forall q, if within p n q then page_grown t t' n q else translate t' q = translate t q
}.
Lemma enlarged_none x addr t p : mem_ok x addr t -> enlarged x x addr t t p 0.
Proof.
  intros Hm. split; try done; [by rewrite insert_id by apply Hm|lia|split; [done|lia]|].
  intros q. replace (within p 0 q) with false; [done|]. symmetry. apply not_true_iff_false. rewrite within_spec. lia.
Qed.
(** One turn of the loop. *)
Lemma enlarged_one s addr t p :
  mem_ok (mem_of s) addr t -> 0 <= p < 2 ^ 20 -> 0 < free_frames (mem_of s) ->
  wp (f ← on_memory (on_vm (on_pmem pagepool_get_phys_page)); on_memory (vm_map_at addr f (p * 4096) 1))
    (fun _ s' => only_mem s s' /\ exists t', enlarged (mem_of s) (mem_of s') addr t t' p 1) s.
Proof.
  intros Hm Hp Hfree. assert (Hdiv : p * 4096 / 4096 = p) by by apply Z.div_mul.
  apply wp_bind, wp_on_memory. eapply wp_mono; [by apply take_frame_run|].
  intros a x [(Hz & _)|(i & pl & -> & Hi & -> & Hfr & Hup & Hm1 & Hsp)]; [lia|]. split; [done|].
  apply wp_on_memory. rewrite mem_with_mem by done.
  eapply wp_mono; [apply (vm_map_at_any _ addr t i (p * 4096) 1); try done; [lia|unfold is_u32; lia|by right]|].
  rewrite Hdiv. intros r x (t' & -> & Hm2 & Hcase). split; [done|]. split; [by eexists|]. exists t'. rewrite mem_with_mem by done.
  destruct Hup as (_ & _ & Hf & _). pose proof (mem_table_ok _ _ _ Hm) as Hok. pose proof (pt_count _ Hok).
  split; try done.
  - destruct Hcase as [(_ & _ & (_ & Ha & _) & Hg & _)|(_ & -> & _)]; [split; [done|apply Hg]|split; [done|lia]].
  - intros q. destruct Hcase as [(_ & Hnone & (_ & _ & Htr) & _)|(_ & -> & Hcase)].
    + rewrite Htr. unfold page_grown. destruct (Z.eqb_spec q p) as [->|Hne].
      * replace (within p 1 p) with true by (symmetry; apply within_spec; lia). rewrite Hnone, Htr, Z.eqb_refl. left. by eexists.
      * replace (within p 1 q) with false; [done|]. symmetry. apply not_true_iff_false. rewrite within_spec. lia.
    + destruct (within p 1 q) eqn:E; [|done]. apply within_spec in E. assert (q = p) as -> by lia. unfold page_grown.
      destruct (translate t p) as [m|] eqn:Et; [done|]. right. destruct Hcase as [|[Hfull _]]; [done|]. split; [done|]. split; [done|]. lia.
Qed.
Lemma enlarged_trans x1 x2 x3 addr t1 t2 t3 p n : 0 <= n ->
  enlarged x1 x2 addr t1 t2 p 1 -> enlarged x2 x3 addr t2 t3 (p + 1) n -> enlarged x1 x3 addr t1 t3 p (1 + n).
Proof.
  intros Hn [M1 C1 T1 F1 [A1 V1] P1] [M2 C2 T2 F2 [A2 V2] P2]. pose proof (pt_count _ (mem_table_ok _ _ _ M2)) as Hmax.
  split; [done|congruence|by rewrite T2, T1, insert_insert_eq|lia|split; [congruence|lia]|].
  intros q. specialize (P1 q). specialize (P2 q). destruct (within p (1 + n) q) eqn:E.
  - apply within_spec in E. destruct (decide (q = p)) as [->|Hne].
    + replace (within p 1 p) with true in P1 by (symmetry; apply within_spec; lia).
      replace (within (p + 1) n p) with false in P2 by (symmetry; apply not_true_iff_false; rewrite within_spec; lia).
      unfold page_grown in *. destruct (translate t1 p) as [m|]; [congruence|].
      destruct P1 as [[f Hf]|(Hf & Hfull & Hlt)]; [left; exists f; congruence|right]. split; [congruence|]. lia.
    + replace (within p 1 q) with false in P1 by (symmetry; apply not_true_iff_false; rewrite within_spec; lia).
      replace (within (p + 1) n q) with true in P2 by (symmetry; apply within_spec; lia).
      unfold page_grown in *. rewrite P1 in P2. destruct (translate t1 q) as [m|]; [done|].
      destruct P2 as [|(? & ? & ?)]; [by left|right]. split; [done|]. lia.
  - apply not_true_iff_false in E. rewrite within_spec in E.
    replace (within p 1 q) with false in P1 by (symmetry; apply not_true_iff_false; rewrite within_spec; lia).
    replace (within (p + 1) n q) with false in P2 by (symmetry; apply not_true_iff_false; rewrite within_spec; lia). congruence.
Qed.
Lemma grow_heap_run n s addr t p :
  mem_ok (mem_of s) addr t -> 0 <= p -> p + Z.of_nat n <= 2 ^ 20 -> Z.of_nat n <= free_frames (mem_of s) ->
  wp (grow_heap n addr (p * 4096)) (fun _ s' => only_mem s s' /\ exists t', enlarged (mem_of s) (mem_of s') addr t t' p (Z.of_nat n)) s.
Proof.
  revert s t p. induction n as [|n IH]; intros s t p Hm Hp Hend Hfree; cbn [grow_heap].
  { apply wp_ret. split; [apply only_mem_refl|]. exists t. by apply enlarged_none. }
  assert (Hassoc : forall A (m1 : M state A) (k : A -> M state Z) (k2 : M state unit) Q, wp (a ← (b ← m1; k b); k2) Q s -> wp (b ← m1; a ← k b; k2) Q s).
  { intros A m1 k k2 Q. unfold wp, mbind, M_bind. by destruct (m1 s) as [[? ?]|]. }
  apply Hassoc, wp_bind. eapply wp_mono; [apply (enlarged_one s addr t p); [done|lia|lia]|].
  intros _ s1 (Ho1 & t1 & H1). destruct n as [|n].
  { apply wp_ret. split; [done|]. by exists t1. }
  rewrite u32_id by (unfold is_u32, PAGE_SIZE; lia). replace (p * 4096 + PAGE_SIZE) with ((p + 1) * 4096) by (unfold PAGE_SIZE; lia).
  eapply wp_mono; [apply (IH s1 t1 (p + 1)); [apply (en_mem _ _ _ _ _ _ _ H1)|lia|lia|]|].
  - rewrite (en_free _ _ _ _ _ _ _ H1). lia.
  - intros _ s2 (Ho2 & t2 & H2). split; [by eapply only_mem_trans|]. exists t2.
    replace (Z.of_nat (S (S n))) with (1 + Z.of_nat (S n)) by lia. eapply enlarged_trans; [lia|exact H1|exact H2].
Qed.

Lemma shrunk_trans x1 x2 x3 addr t1 t2 t3 fs gs : shrunk x1 x2 addr t1 t2 fs -> shrunk x2 x3 addr t2 t3 gs -> shrunk x1 x3 addr t1 t3 (fs ++ gs).
Proof.
  intros [M1 C1 T1 [R1 A1] F1 P1] [M2 C2 T2 [R2 A2] F2 P2].
  split; [done|congruence|by rewrite T2, T1, insert_insert_eq|split; congruence|by rewrite F1, F2, app_assoc|by eapply freed_app].
Qed.
(** The pages of [P] are no longer mapped. *)
Definition without t t' (P : Z -> bool) : Prop := pt_ASID t' = pt_ASID t /\ forall q, translate t' q = if P q then None else translate t q.
Lemma shrink_heap_run n s addr t p :
  mem_ok (mem_of s) addr t -> Z.of_nat n <= p < 2 ^ 20 -> (forall q, p - Z.of_nat n < q <= p -> translate t q <> None) ->
  wp (shrink_heap n addr (p * 4096)) (fun _ s' => only_mem s s' /\ exists t' fs, zlen fs = Z.of_nat n /\ shrunk (mem_of s) (mem_of s') addr t t' fs /\
    without t t' (within (p - Z.of_nat n + 1) (Z.of_nat n))) s.
Proof.
  revert s t p. induction n as [|n IH]; intros s t p Hm Hp Hall; cbn [shrink_heap].
  { apply wp_ret. split; [apply only_mem_refl|]. exists t, []. split; [done|]. split; [by apply shrunk_none|]. split; [done|].
    intros q. unfold within. replace (_ && _) with false; [done|]. symmetry. apply not_true_iff_false. rewrite andb_true_iff, Z.leb_le, Z.ltb_lt. lia. }
  assert (Hdiv : p * 4096 / 4096 = p) by by apply Z.div_mul.
  destruct (translate t p) as [[f d]|] eqn:E; [|by destruct (Hall p ltac:(lia))].
  apply wp_bind, wp_on_memory. eapply wp_mono; [apply (vm_unmap_mem _ addr t _ f d); [done|unfold is_u32; lia|by rewrite Hdiv]|].
  rewrite Hdiv. intros _ x (t1 & pl & -> & Hm1 & Hperm & Hf & (Hok1 & Ha1 & Htr1) & _).
  assert (Hc : cpu_of (with_table addr t1 (with_spool pl (mem_of s))) = cpu_of (sy_proc s)) by reflexivity. split; [exact Hc|].
  set (s1 := with_mem _ s). assert (Hmem1 : mem_of s1 = with_table addr t1 (with_spool pl (mem_of s))) by by apply mem_with_mem.
  assert (Hsh : shrunk (mem_of s) (mem_of s1) addr t t1 [f]) by (rewrite Hmem1; by split).
  assert (Hnext : u32 (p * 4096 - PAGE_SIZE) = (p - 1) * 4096) by (rewrite u32_id; unfold is_u32, PAGE_SIZE; lia). rewrite Hnext.
  eapply wp_mono; [apply (IH s1 t1 (p - 1)); [by rewrite Hmem1|lia|]|].
  - intros q Hq. rewrite Htr1. rewrite (proj2 (Z.eqb_neq q p)) by lia. apply Hall. lia.
  - intros _ s2 (Ho & t2 & fs & Hl & Hs2 & Ha2 & Ht2). split; [eapply only_mem_trans; [by eexists|exact Ho]|]. exists t2, ([f] ++ fs).
    split; [cbn; lia|]. split; [by eapply shrunk_trans|]. split; [congruence|]. intros q. rewrite Ht2, Htr1. unfold within.
    destruct (Z.eqb_spec q p) as [->|Hne].
    + rewrite (proj2 (Z.leb_le (p - Z.of_nat (S n) + 1) p)), (proj2 (Z.ltb_lt p (p - Z.of_nat (S n) + 1 + Z.of_nat (S n)))) by lia. cbn. by case_match.
    + replace (p - 1 - Z.of_nat n + 1) with (p - Z.of_nat (S n) + 1) by lia.
      destruct (Z.leb_spec (p - Z.of_nat (S n) + 1) q); [|done]. cbn [andb].
      destruct (Z.ltb_spec q (p - Z.of_nat (S n) + 1 + Z.of_nat n)), (Z.ltb_spec q (p - Z.of_nat (S n) + 1 + Z.of_nat (S n))); lia || done.
Qed.

(** ** The system call *)

(** Process [me] runs; the last byte of its heap, says [offset], is that many
    bytes behind its first page's start, below the stack. *)
Record heap_owner s (me addr : Z) t (offset : Z) : Prop := {
  ho_wf : table_wf (sy_proc s);
  ho_ts : ts_ok (ps_threads (sy_proc s));
  ho_me : is_pid me /\ ts_pid (ps_threads (sy_proc s)) = me /\ ts_table (ps_threads (sy_proc s)) = addr;
  ho_mem : mem_ok (mem_of s) addr t;
  ho_end : 0 < heap_vaddr (proc (sy_proc s) me) /\ 0 <= offset /\ heap_vaddr (proc (sy_proc s) me) + offset < stack_bottom
}.
(** And its heap is mapped as far as that. *)
Definition heap_at s (me addr : Z) t (offset : Z) : Prop :=
  heap_owner s me addr t offset /\
  forall q, heap_vaddr (proc (sy_proc s) me) / 4096 <= q <= (heap_vaddr (proc (sy_proc s) me) + offset) / 4096 -> translate t q <> None.
(** What the table says of the pages between the old and the new last page of
    the heap. *)
Definition resized t t' (last last' : Z) : Prop := pt_ASID t' = pt_ASID t /\ forall q,
  if within (last + 1) (last' - last) q then page_grown t t' (last' - last) q
  else translate t' q = if within (last' + 1) (last - last') q then None else translate t q.
(** The tests of the pages, for a heap whose last page is [last]. *)
Definition grants t (free last last' : Z) : bool :=
  (last' <=? last) || ((last' - last <=? free) && negb (refuses t last (last' - last))).

(** The state after the critical section, of which only the memory differs. *)
Lemma memory_back s s2 : only_mem (with_cpu_of (off_cpu s) s) s2 ->
  cpu_of (sy_proc s2) = off_cpu s /\ let s' := with_cpu_of (cpu_of (sy_proc s)) s2 in only_mem s s' /\ mem_of s' = with_cpu (cpu_of (mem_of s)) (mem_of s2).
Proof.
  intros [x ->]. split; [apply cpu_of_with|]. cbv zeta. split; [exists x; apply mem_cpu_back|]. rewrite mem_of_cpu. done.
Qed.

Lemma wp_off {A} (m : M state A) (Q : A -> state -> Prop) s :
  ts_ok (ps_threads (sy_proc s)) ->
  wp m (fun a s2 => only_mem (with_cpu_of (off_cpu s) s) s2 /\
    forall s', only_mem s s' -> mem_of s' = with_cpu (cpu_of (mem_of s)) (mem_of s2) -> Q a s')
    (with_cpu_of (off_cpu s) s) -> wp (uninterrupted m) Q s.
Proof.
  intros Hts Hm. apply wp_uninterrupted; [done|]. eapply wp_mono; [exact Hm|]. intros a s2 [Ho HQ]. destruct (memory_back s s2 Ho) as (Hc & Ho' & Hm').
  split; [exact Hc|]. by apply HQ.
Qed.

Lemma wp_here {A} s me addr (k : Z -> Z -> process_table_t -> M state A) (Q : A -> state -> Prop) :
  table_wf (sy_proc s) -> ts_ok (ps_threads (sy_proc s)) -> is_pid me -> ts_pid (ps_threads (sy_proc s)) = me -> ts_table (ps_threads (sy_proc s)) = addr ->
  wp (k me addr (proc (sy_proc s) me)) Q s -> wp (me ← current_process; p ← current_pagetable; e ← on_process (get_process me); k me p e) Q s.
Proof.
  intros [Hwf _] Hts Hme Hpid Htab Hk. apply wp_bind, wp_bind, wp_on_process, wp_current_entry; [done|]. rewrite Hpid, decide_True by done. apply wp_ret.
  apply wp_bind, wp_on_process, wp_on_threads, get_table_spec; [done|]. cbn [sy_proc]. rewrite Htab.
  apply wp_bind, wp_on_process, wp_get_process; [done|done|]. destruct s as [[] ? ?]. exact Hk.
Qed.
Lemma heap_moved s s' me addr t t' offset heap_end :
  heap_owner s me addr t offset -> only_mem s s' -> mem_ok (mem_of s') addr t' -> let start := heap_vaddr (proc (sy_proc s) me) in
  let last := (start + offset) / 4096 in
  start <= heap_end < stack_bottom -> resized t t' last (heap_end / 4096) ->
  heap_owner s' me addr t' (heap_end - start) /\
  (heap_at s me addr t offset -> valid_count t + (heap_end / 4096 - last) <= PAGETABLE_ENTRIES -> heap_at s' me addr t' (heap_end - start)).
Proof.
  intros [Hwf Hts Hme _ (Hpos & Hoff & Hend)] [x ->] Hm start last Hin [_ Hres].
  assert (Ho : heap_owner (with_mem x s) me addr t' (heap_end - start)).
  { split; try done. change (proc (sy_proc (with_mem x s)) me) with (proc (sy_proc s) me). fold start. lia. }
  split; [exact Ho|]. intros [_ Hpages] Hroom. split; [exact Ho|].
  change (proc (sy_proc (with_mem x s)) me) with (proc (sy_proc s) me). fold start in Hpages |- *. fold last in Hpages.
  replace (start + (heap_end - start)) with heap_end by lia. intros q Hq. specialize (Hres q).
  destruct (within (last + 1) _ q) eqn:E1.
  - unfold page_grown in Hres. destruct (translate t q) as [m|]; [by rewrite Hres|].
    destruct Hres as [[f ->]|(_ & _ & Hlt)]; [done|lia].
  - replace (within (heap_end / 4096 + 1) _ q) with false in Hres by (symmetry; apply not_true_iff_false; rewrite within_spec; lia).
    rewrite Hres. apply Hpages. apply not_true_iff_false in E1. rewrite within_spec in E1. lia.
Qed.
(** Nothing but the processor's state in the memory's own record may differ. *)
Definition untouched s s' : Prop := only_mem s s' /\ mem_of s' = mem_of s.
Lemma untouched_off s s' x : only_mem s s' -> mem_of s' = with_cpu (cpu_of (mem_of s)) x -> x = mem_of (with_cpu_of (off_cpu s) s) -> untouched s s'.
Proof. intros Ho Hm ->. split; [done|]. rewrite Hm, mem_of_cpu, with_cpu_with. apply Cpu.with_cpu_of. Qed.
Lemma untouched_trans s1 s2 s3 : untouched s1 s2 -> untouched s2 s3 -> untouched s1 s3.
Proof. intros [O1 M1] [O2 M2]. split; [by eapply only_mem_trans|congruence]. Qed.
Lemma wp_free_pages s (Q : Z -> state -> Prop) : (forall s', untouched s s' -> Q (free_frames (mem_of s)) s') ->
  wp (on_memory (on_vm (on_pmem pagepool_get_free_pages))) Q s.
Proof.
  intros HQ. apply wp_on_memory, wp_on_vm, wp_on_pmem, wp_gets. split; [exact (cpu_of_with _ _)|]. apply HQ.
  split; [by eexists|]. rewrite mem_with_mem by exact (cpu_of_with _ _). by destruct (mem_of s) as [[] ? ?].
Qed.
Lemma memlimit_run s me addr t offset heap_end :
  heap_owner s me addr t offset -> is_u32 heap_end ->
  let start := heap_vaddr (proc (sy_proc s) me) in
  let last := (start + offset) / 4096 in
  let last' := heap_end / 4096 in
  (start <= heap_end -> forall q, last' < q <= last -> translate t q <> None) ->
  wp (syscall_handle_memlimit offset heap_end) (fun a s' =>
    if heap_end =? 0 then a = (start + offset, offset) /\ untouched s s'
    else if decide (start <= heap_end < stack_bottom /\ grants t (free_frames (mem_of s)) last last' = true) then
      a = (heap_end, heap_end - start) /\ only_mem s s' /\ exists t', heap_owner s' me addr t' (heap_end - start) /\ resized t t' last last' /\
      vm_tables (sp_vm (mem_of s')) = <[addr := t']> (vm_tables (sp_vm (mem_of s))) /\
      free_frames (mem_of s') = free_frames (mem_of s) - (last' - last) /\
      (heap_at s me addr t offset -> valid_count t + (last' - last) <= PAGETABLE_ENTRIES -> heap_at s' me addr t' (heap_end - start))
    else a = (0, offset) /\ untouched s s') s.
Proof.
  intros Hown Hu start last last' Hmapped. pose proof Hown as [Hwf Hts (Hme & Hpid & Htab) Hm (Hpos & Hoff & Hend)].
  destruct (ts_off_sys s Hts) as (Hts1 & _ & Hp1 & Hg1 & _). pose proof (mem_off s addr t Hts Hm) as Hm1. pose proof (mem_table_ok _ _ _ Hm) as Hok.
  set (s1 := with_cpu_of (off_cpu s) s) in *. change stack_bottom with 0x7fffe000 in *.
  assert (Hlast : 0 <= last < 2 ^ 19) by (subst last; split; [apply Z.div_pos; lia|apply Z.div_lt_upper_bound; lia]).
  assert (Hfree0 : 0 <= free_frames (mem_of s)) by by eapply free_nonneg.
  assert (Hfree1 : free_frames (mem_of s1) = free_frames (mem_of s)) by (subst s1; by rewrite mem_of_cpu).
  apply wp_off; [done|]. fold s1.
  apply (wp_here s1 me addr); [exact Hwf|done|done|by rewrite Hp1|by rewrite Hg1|]. cbv zeta. change stack_bottom with 0x7fffe000.
  change (proc (sy_proc s1) me) with (proc (sy_proc s) me). fold start.
  assert (Hnow : u32 (start + offset) = start + offset) by (apply u32_id; unfold is_u32; lia). rewrite Hnow.
  rewrite page_mask by (unfold is_u32; lia). fold last.
  destruct (Z.eqb_spec heap_end 0) as [->|Hnz]; cbn [negb].
  { apply wp_ret. split; [apply only_mem_refl|]. intros s' Ho Hms. split; [done|]. by eapply untouched_off. }
  destruct (decide (start <= heap_end < 0x7fffe000)) as [Hin|Hout].
  2: { replace ((heap_end >=? 0x7fffe000) || (heap_end <? start)) with true by (symmetry; apply orb_true_iff; rewrite Z.geb_le, Z.ltb_lt; lia).
    apply wp_ret. split; [apply only_mem_refl|]. intros s' Ho Hms. rewrite decide_False by tauto. split; [done|]. by eapply untouched_off. }
  replace ((heap_end >=? 0x7fffe000) || (heap_end <? start)) with false by (symmetry; apply orb_false_iff; rewrite Z.geb_leb, Z.leb_gt, Z.ltb_ge; lia).
  rewrite page_diff_run by lia. fold last. fold last'. set (new := last') in *.
  assert (Hnew : 0 <= new < 2 ^ 19) by (subst new last'; split; [apply Z.div_pos; lia|apply Z.div_lt_upper_bound; lia]).
  assert (Hmoved : u32 (offset + i32 (u32 (heap_end - (start + offset)))) = heap_end - start) by (rewrite i32_u32 by (unfold is_i32; lia); rewrite u32_id; unfold is_u32; lia).
  rewrite Hmoved. rewrite Z.gtb_ltb.
  specialize (Hmapped (proj1 Hin)).
  assert (Hfinish : forall s2 t', mem_ok (mem_of s2) addr t' -> cpu_of (mem_of s2) = cpu_of (mem_of s1) ->
    resized t t' last new -> vm_tables (sp_vm (mem_of s2)) = <[addr := t']> (vm_tables (sp_vm (mem_of s1))) ->
    free_frames (mem_of s2) = free_frames (mem_of s) - (new - last) -> grants t (free_frames (mem_of s)) last new = true ->
    forall s', only_mem s s' -> mem_of s' = with_cpu (cpu_of (mem_of s)) (mem_of s2) ->
    if decide (start <= heap_end < 0x7fffe000 /\ grants t (free_frames (mem_of s)) last new = true) then
      (heap_end, heap_end - start) = (heap_end, heap_end - start) /\ only_mem s s' /\ exists t', heap_owner s' me addr t' (heap_end - start) /\ resized t t' last new /\
      vm_tables (sp_vm (mem_of s')) = <[addr := t']> (vm_tables (sp_vm (mem_of s))) /\ free_frames (mem_of s') = free_frames (mem_of s) - (new - last) /\
      (heap_at s me addr t offset -> valid_count t + (new - last) <= PAGETABLE_ENTRIES -> heap_at s' me addr t' (heap_end - start))
    else (heap_end, heap_end - start) = (0, offset) /\ untouched s s').
  { intros s2 t' Hm2 Hc2 Hres Htb Hfr Hle s' Ho Hms. rewrite decide_True by done. split; [done|]. split; [done|]. exists t'.
    assert (Hm' : mem_ok (mem_of s') addr t').
    { rewrite Hms. apply mem_cpu; [done| |]; [|by rewrite Hc2; subst s1; rewrite mem_of_cpu]. change (cpu_of (mem_of s)) with (cpu_of (with_cpu (cpu_of (sy_proc s)) (ps_space (sy_proc s)))). rewrite cpu_of_with. by apply ps_ready. }
    destruct (heap_moved s s' me addr t t' offset heap_end Hown Ho Hm' Hin Hres) as [Ho' Hat].
    split; [exact Ho'|]. split; [done|]. split; [|split; [by rewrite Hms|exact Hat]].
    rewrite Hms. transitivity (vm_tables (sp_vm (mem_of s2))); [done|]. rewrite Htb. subst s1. by rewrite mem_of_cpu. }
  destruct (Z.ltb_spec 0 (new - last)).
  - apply wp_bind, wp_free_pages. intros s2 Hs2. rewrite Hfree1.
    assert (Hback : forall s2 s', untouched s1 s2 -> only_mem s s' -> mem_of s' = with_cpu (cpu_of (mem_of s)) (mem_of s2) -> untouched s s').
    { intros s3 s' [_ E] Ho Hms. by eapply untouched_off. }
    assert (Hgr : grants t (free_frames (mem_of s)) last new = (new - last <=? free_frames (mem_of s)) && negb (refuses t last (new - last))).
    { unfold grants. by rewrite (proj2 (Z.leb_gt new last)) by lia. }
    rewrite Z.gtb_ltb. destruct (Z.ltb_spec (free_frames (mem_of s)) (new - last)).
    { apply wp_bind, wp_ret, wp_ret. split; [apply Hs2|]. intros s' Ho Hms. rewrite decide_False; [split; [done|]; by eapply Hback|].
      rewrite Hgr, (proj2 (Z.leb_gt _ _)) by lia. by intros [_ ?]. }
    apply wp_bind, wp_bind, (wp_mem_table s2 addr t); [by rewrite (proj2 Hs2)|]. intros s3 [Ho3 _] Hm3.
    assert (Hs3 : untouched s1 s3) by (apply (untouched_trans _ s2); [done|by split]).
    apply wp_lift with (refuses t last (new - last)).
    { rewrite can_be_mapped_run by (done || lia). by rewrite Z.div_mul by done. }
    rewrite (proj2 (Z.leb_le _ _)) in Hgr by lia. cbn [andb] in Hgr. destruct (refuses t last (new - last)) eqn:Eref; cbn [negb] in Hgr.
    { apply wp_ret. split; [apply Hs3|]. intros s' Ho Hms. rewrite decide_False; [split; [done|]; by eapply Hback|]. rewrite Hgr. by intros [_ ?]. }
    apply wp_bind.
    assert (Hup : u32 (last * 4096 + PAGE_SIZE) = (last + 1) * 4096) by (rewrite u32_id; unfold is_u32, PAGE_SIZE; lia). rewrite Hup.
    eapply wp_mono; [apply (grow_heap_run _ s3 addr t (last + 1)); rewrite ?(proj2 Hs3); try done; try lia|].
    intros _ s4 (Ho4 & t' & Hen). apply wp_ret. rewrite Z2Nat.id in Hen by lia. rewrite (proj2 Hs3) in Hen.
    split; [eapply only_mem_trans; [apply Hs3|done]|]. apply (Hfinish s4 t'); [apply Hen|apply Hen| |apply Hen| |done].
    + split; [apply Hen|]. intros q. pose proof (en_pages _ _ _ _ _ _ _ Hen q) as Hq. destruct (within (last + 1) (new - last) q) eqn:E; [done|].
      rewrite Hq. replace (within (new + 1) (last - new) q) with false; [done|]. symmetry. apply not_true_iff_false. rewrite within_spec. lia.
    + rewrite (en_free _ _ _ _ _ _ _ Hen), Hfree1. lia.
  - assert (Hgr : grants t (free_frames (mem_of s)) last new = true) by (unfold grants; by rewrite (proj2 (Z.leb_le new last)) by lia).
    destruct (Z.ltb_spec (new - last) 0).
    + apply wp_bind. eapply wp_mono; [apply (shrink_heap_run _ s1 addr t last); [done| |]|].
      { assert (0 <= new) by lia. lia. }
      { intros q Hq. apply Hmapped. lia. }
      intros _ s2 (Ho2 & t' & fs & Hl & Hsh & Ha & Htr). apply wp_ret. split; [done|]. rewrite Z2Nat.id in Hl, Htr by lia.
      apply (Hfinish s2 t'); [apply Hsh|apply Hsh| |apply Hsh| |done].
      * split; [done|]. intros q. rewrite Htr. replace (within (last + 1) (new - last) q) with false by (symmetry; apply not_true_iff_false; rewrite within_spec; lia).
        by replace (last - - (new - last) + 1) with (new + 1) by lia; replace (- (new - last)) with (last - new) by lia.
      * destruct (sh_pool _ _ _ _ _ _ Hsh) as (_ & _ & _ & Hf & _). rewrite Hf, Hfree1. lia.
    + apply wp_bind, wp_ret, wp_ret. split; [apply only_mem_refl|]. assert (new = last) as Heq by lia.
      apply (Hfinish s1 t); [done|done| |by rewrite insert_id by apply Hm1|lia|done].
      split; [done|]. intros q. rewrite Heq, Z.sub_diag. unfold within. rewrite Z.add_0_r. destruct (Z.leb_spec (last + 1) q), (Z.ltb_spec q (last + 1)); try lia; done.
Qed.


(** Claim C12. The offset of the end of the heap is one variable for all
    processes: when another process has moved it to a page that the caller has
    not mapped, the caller cannot enlarge its heap, however many pages are
    free, because the test of the pages is the wrong way round. *)
Theorem memlimit_foreign_offset s me addr t offset heap_end :
  table_wf (sy_proc s) -> ts_ok (ps_threads (sy_proc s)) -> is_pid me -> ts_pid (ps_threads (sy_proc s)) = me -> ts_table (ps_threads (sy_proc s)) = addr ->
  mem_ok (mem_of s) addr t ->
  let start := heap_vaddr (proc (sy_proc s) me) in
  let last := (start + offset) / 4096 in
  0 < start -> 0 <= offset -> start + offset < stack_bottom -> start <= heap_end < stack_bottom -> last < heap_end / 4096 ->
  (forall q, last <= q < heap_end / 4096 -> translate t q = None) -> valid_count t + (heap_end / 4096 - last) <= PAGETABLE_ENTRIES ->
  wp (syscall_handle_memlimit offset heap_end) (fun a s' => a = (0, offset) /\ untouched s s') s.
Proof.
  intros Hwf Hts Hme Hpid Htab Hm start last Hpos Hoff Hend Hin Hgrow Hnone Hroom. change stack_bottom with 0x7fffe000 in *.
  destruct (ts_off_sys s Hts) as (Hts1 & _ & Hp1 & Hg1 & _). pose proof (mem_off s addr t Hts Hm) as Hm1. pose proof (mem_table_ok _ _ _ Hm) as Hok.
  apply wp_off; [done|]. set (s1 := with_cpu_of (off_cpu s) s) in *.
  assert (Hlast : 0 <= last < 2 ^ 19) by (subst last; split; [apply Z.div_pos; lia|apply Z.div_lt_upper_bound; lia]).
  assert (Hnew : heap_end / 4096 < 2 ^ 19) by (apply Z.div_lt_upper_bound; lia).
  apply (wp_here s1 me addr); [exact Hwf|done|done|by rewrite Hp1|by rewrite Hg1|]. cbv zeta. change stack_bottom with 0x7fffe000.
  change (proc (sy_proc s1) me) with (proc (sy_proc s) me). fold start.
  rewrite (u32_id (start + offset)) by (unfold is_u32; lia). rewrite page_mask by (unfold is_u32; lia). fold last.
  rewrite (proj2 (Z.eqb_neq heap_end 0)) by lia. cbn [negb].
  replace ((heap_end >=? 0x7fffe000) || (heap_end <? start)) with false by (symmetry; apply orb_false_iff; rewrite Z.geb_leb, Z.leb_gt, Z.ltb_ge; lia).
  rewrite page_diff_run by lia. fold last. rewrite Z.gtb_ltb, (proj2 (Z.ltb_lt 0 _)) by lia.
  apply wp_bind, wp_free_pages. intros s2 Hs2. destruct (_ >? _).
  { apply wp_bind, wp_ret, wp_ret. split; [apply Hs2|]. intros s' Ho Hms. split; [done|]. eapply untouched_off; [done|done|apply Hs2]. }
  apply wp_bind, wp_bind, (wp_mem_table s2 addr t); [by rewrite (proj2 Hs2)|]. intros s3 [Ho3 _] Hm3.
  assert (Hs3 : untouched s1 s3) by (apply (untouched_trans _ s2); [done|by split]).
  apply wp_lift with true.
  { rewrite can_be_mapped_run by (done || lia). rewrite Z.div_mul by done. unfold refuses. rewrite (proj2 (Z.leb_le _ _)) by lia.
    replace (any_mapped t last (heap_end / 4096 - last)) with false; [done|]. symmetry. apply not_true_iff_false. rewrite any_mapped_true.
    intros (q & Hq & Hne). apply Hne, Hnone. lia. }
  apply wp_ret. split; [apply Hs3|]. intros s' Ho Hms. split; [done|]. eapply untouched_off; [done|done|apply Hs3].
Qed.
End heap.

(** ** The heap of process 1 of Lifecycle.v: page 0x401 *)
#[local] Existing Instance example_symbols.
#[local] Existing Instance example_layout.
#[local] Existing Instance mount_ops.
#[local] Existing Instance mount_filesystems.
#[local] Existing Instance mount_handles.
#[local] Existing Instance mount_calls.

Lemma a_system_mem : mem_ok (mem_of a_system) 0x80003000 a_table.
Proof.
  change (mem_of a_system) with (with_cpu (cpu_of (process_threads 2)) a_space). apply mem_cpu; [|vm_check|reflexivity].
  pose proof a_space_ok as [Ht Hv _ _ Hf Ha]. by split.
Qed.
Lemma a_system_heap : heap_at a_system 1 0x80003000 a_table 0.
Proof.
  split; [split|].
  - by apply process_rows_wf.
  - apply process_settled. by right.
  - split; [vm_check|]. by vm_compute.
  - exact a_system_mem.
  - by vm_compute.
  - intros q Hq. change (0x401 <= q <= 0x401) in Hq. assert (q = 0x401) as -> by lia. done.
Qed.
Lemma memlimit_foreign_offset_witness : wp (syscall_handle_memlimit 0x2010 0x404000) (fun a _ => a = (0, 0x2010)) a_system.
Proof.
  eapply wp_mono; [apply (memlimit_foreign_offset a_system 1 0x80003000 a_table 0x2010 0x404000)|].
  - by apply process_rows_wf.
  - apply process_settled. by right.
  - vm_check.
  - by vm_compute.
  - by vm_compute.
  - exact a_system_mem.
  - by vm_compute.
  - lia.
  - by vm_compute.
  - by vm_compute.
  - by vm_compute.
  - intros q Hq. change (0x403 <= q < 0x404) in Hq. rewrite a_table_translate. rewrite decide_False; [done|]. Z.div_mod_to_equations. lia.
  - vm_check.
  - by intros a s' [-> _].
Defined.
