(* ===== verification/Dispatch.v ===== *)
(** * proc/syscall.c: the dispatch of system calls

    The number and the arguments of a system call are in the registers of the
    process; [handle_execp] copies the path and the arguments of a new program
    out of its memory, and [syscall_handle_execp] of proc/syscall_handler_proc.c
    starts it in a thread of its own and waits for it. *)
From S2P Require Import Prelude Bitmap Libc Cpu Kmalloc Pagepool Semaphore Gbd Sync Tfs Vfs Mount Handles.
From S2P Require Import Waiting Thread Sleepq LockCond Kthreads Vm Tlb Space Frames User ThreadSys Bytes Elf Process Lifecycle Syscall SyscallTheorems Start Loading Arguments Starting Heap.

Definition MIPS_REGISTER_V0 : Z := 1.
Definition MIPS_REGISTER_A2 : Z := 5.
Definition MIPS_REGISTER_A3 : Z := 6.
Definition SYSCALL_HALT : Z := 0x001.
Definition SYSCALL_EXEC : Z := 0x101.
Definition SYSCALL_EXIT : Z := 0x102.
Definition SYSCALL_JOIN : Z := 0x103.
Definition SYSCALL_MEMLIMIT : Z := 0x105.
Definition SYSCALL_OPEN : Z := 0x201.
Definition SYSCALL_CLOSE : Z := 0x202.
Definition SYSCALL_SEEK : Z := 0x203.
Definition SYSCALL_READ : Z := 0x204.
Definition SYSCALL_WRITE : Z := 0x205.
Definition SYSCALL_CREATE : Z := 0x206.
Definition SYSCALL_DELETE : Z := 0x207.

(** The threads that a process starts: [thread_create(new_process_thread,
    &dat)] and [thread_run]. *)
Class ChildThreads (L : Type) := { thread_create : M L Z; thread_run : Z -> M L unit }.

(** What the local arrays hold: [filename] and [temp] of [handle_execp], the
    path of [syscall_handle_open] and others, the buffer for data. *)
Record syscall_locals := mk_syscall_locals { sl_filename : list Z; sl_temp : list Z; sl_path : list Z; sl_buffer : list Z }.

(** Where a call of the system leaves the process: on with these registers and
    this [offset] of the heap; waiting for a child, to be started or joined;
    at its end; or with the machine halted. *)
Inductive outcome :=
| Returned (user_context : context_t) (offset : Z)
| WaitStart (d : child_process_create_data_t) (st : Z)
| WaitJoin (pid st : Z)
| Exited
| Halted.

Section code.
Context {L F T : Type} `{!HasCpu L, !ThreadSys L, !ChildThreads L, !OpenFiles F, !FileCalls F, !Terminal T, !Symbols}.
Abbreviation state := (sys L F T).

(** *** Starting a child *)

(** [while (!is_data_ready(&dat))], from its test on: [inl] when the thread
    waits. *)
Definition wait_ready (me : Z) (d : child_process_create_data_t) : M state (Z + Z) :=
  e ← on_process (get_process me);
  if cd_ready d =? 0 then
    st ← on_process (on_threads (condition_wait (die_cond e) (die_lock e)));
    mret (inl st)
  else
    _ ← on_process (on_threads (lock_release (die_lock e)));
    mret (inr (cd_child_pid d)).
Definition syscall_handle_execp (filename : list Z) (argc : Z) (argv : list (list Z)) : M state (child_process_create_data_t * (Z + Z)) :=
  parent_pid ← on_process get_current_process_pid;
  let d := mk_child parent_pid PROCESS_NO_PARENT_PID 0 filename argc argv in
  child_thread ← on_process (on_threads thread_create);
  if (parent_pid =? PROCESS_NO_PARENT_PID) || (child_thread <? 0) then mret (d, inr PROCESS_NO_PARENT_PID)
  else
    me ← current_process;
    e ← on_process (get_process me);
    _ ← on_process (on_threads (lock_acquire (die_lock e)));
    _ ← on_process (on_threads (thread_run child_thread));
    r ← wait_ready me d;
    mret (d, r).
(** The thread goes on, with what has become of [dat]; [my_entry] is that of
    the parent. *)
Definition syscall_handle_execp_resume (d : child_process_create_data_t) (st : Z) : M state (Z + Z) :=
  e ← on_process (get_process (cd_parent_pid d));
  _ ← on_process (on_threads (condition_wait_resume (die_lock e) st));
  wait_ready (cd_parent_pid d) d.

(** *** The arguments of a new program *)

(** A word of the process, which the processor reads only at its boundary. *)
Definition load_word (a : Z) : M uspace Z :=
  if a mod 4 =? 0 then b0 ← load a; b1 ← load (a + 1); b2 ← load (a + 2); b3 ← load (a + 3); mret (word_of [b0; b1; b2; b3])
  else fail Panic.
Definition inside_memory (pagetable a : Z) : M state bool :=
  on_user pagetable (
    t ← gets us_table;
    '(inside, _, _) ← lift (vm_get_vaddr_page_offsets (Some t) a);
    mret (negb (inside =? 0))).
(** A string of the process, to [temp + used]. *)
Definition read_string_at (pagetable a : Z) (temp : list Z) (used max_length : Z) : M state (Z * list Z) :=
  '(r, out) ← on_user pagetable (read_string_from_vm COPY_FUEL a (drop (Z.to_nat used) temp) max_length);
  mret (r, take (Z.to_nat used) temp ++ out).
(** The arguments from [i] on: where they start in [temp], or [None]. *)
Fixpoint read_arguments (n : nat) (i pagetable virt_argv : Z) (temp : list Z) (total_used : Z) (argv : list Z) : M state (option (list Z * list Z)) :=
  match n with
  | O => mret (Some (temp, argv))
  | S n =>
      ok ← inside_memory pagetable (u32 (virt_argv + i));
      if negb ok then mret None
      else
        p ← on_user pagetable (load_word (u32 (virt_argv + 4 * i)));
        '(used, temp) ← read_string_at pagetable p temp total_used (CONFIG_SYSCALL_MAX_BUFFER_SIZE - total_used);
        if used =? RETVAL_SYSCALL_HELPERS_NOK then mret None
        else read_arguments n (i + 1) pagetable virt_argv temp (total_used + used) (argv ++ [total_used])
  end.
(** Up to the call of [syscall_handle_execp]: its arguments, or [None]. *)
Definition execp_arguments (locals : syscall_locals) (pagetable virt_filename argc virt_argv : Z) : M state (option (list Z * Z * list (list Z))) :=
  ok ← inside_memory pagetable virt_filename;
  if negb ok then mret None
  else
    '(r, filename) ← on_user pagetable (read_string_from_vm COPY_FUEL virt_filename (sl_filename locals) CONFIG_SYSCALL_MAX_BUFFER_SIZE);
    if r =? RETVAL_SYSCALL_HELPERS_NOK then mret None
    else
      bad ← (if argc <? 0 then mret true
             else ok ← (if argc >? 0 then inside_memory pagetable virt_argv else mret true);
                  mret (negb ok || (argc >=? CONFIG_SYSCALL_MAX_ARGC)));
      if bad : bool then mret None
      else
        r ← read_arguments (Z.to_nat argc) 0 pagetable virt_argv (sl_temp locals) 0 [];
        mret (match r with
              | None => None
              | Some (temp, argv) => Some (filename, argc, (fun o => drop (Z.to_nat o) temp) <$> argv)
              end).

(** *** Dispatch *)
Definition register (c : context_t) (i : Z) : M state Z := lift (rget (cpu_regs c) i).
Definition answer (c : context_t) (v : Z) : M state context_t :=
  regs ← lift (rset (cpu_regs c) MIPS_REGISTER_V0 (u32 v));
  mret (mk_context regs (ctx_hi c) (ctx_lo c) (ctx_pc c) (ctx_status c) (prev_context c)).
(** [user_context->pc += 4] *)
Definition next_instruction (c : context_t) : context_t :=
  mk_context (cpu_regs c) (ctx_hi c) (ctx_lo c) (u32 (ctx_pc c + 4)) (ctx_status c) (prev_context c).
Definition returned (c : context_t) (offset v : Z) : M state outcome := c ← answer c v; mret (Returned (next_instruction c) offset).
(** The call of a function that may end the process. *)
Definition call (c : context_t) (offset : Z) (m : M state (option Z)) : M state outcome :=
  r ← m; match r with Some v => returned c offset v | None => mret Exited end.

Definition handle_execp (locals : syscall_locals) (c : context_t) (offset : Z) : M state outcome :=
  pagetable ← current_pagetable;
  virt_filename ← register c MIPS_REGISTER_A1;
  argc ← register c MIPS_REGISTER_A2;
  virt_argv ← register c MIPS_REGISTER_A3;
  args ← execp_arguments locals pagetable virt_filename (i32 argc) virt_argv;
  match args with
  | None => returned c offset RETVAL_SYSCALL_USERLAND_NOK
  | Some (filename, argc, argv) =>
      '(d, r) ← syscall_handle_execp filename argc argv;
      match r with
      | inl st => mret (WaitStart d st)
      | inr created_child => returned c offset (if created_child <? 0 then RETVAL_SYSCALL_USERLAND_NOK else created_child)
      end
  end.
Definition handle_execp_resume (c : context_t) (offset : Z) (d : child_process_create_data_t) (st : Z) : M state outcome :=
  r ← syscall_handle_execp_resume d st;
  match r with
  | inl st => mret (WaitStart d st)
  | inr created_child => returned c offset (if created_child <? 0 then RETVAL_SYSCALL_USERLAND_NOK else created_child)
  end.
Definition joined (c : context_t) (offset pid : Z) (r : Z + Z) : M state outcome :=
  match r with inl st => mret (WaitJoin pid st) | inr v => returned c offset v end.

(** One turn for every 512 bytes, and one more. *)
Definition copy_turns (length : Z) : nat := S (S (Z.to_nat (length / CONFIG_SYSCALL_MAX_BUFFER_SIZE))).
Definition syscall_handle (locals : syscall_locals) (offset : Z) (c : context_t) : M state outcome :=
  number ← register c MIPS_REGISTER_A0;
  a1 ← register c MIPS_REGISTER_A1;
  a2 ← register c MIPS_REGISTER_A2;
  a3 ← register c MIPS_REGISTER_A3;
  if number =? SYSCALL_HALT then mret Halted
  else if number =? SYSCALL_EXEC then handle_execp locals c offset
  else if number =? SYSCALL_EXIT then _ ← on_process (syscall_handle_exit EXIT_FUEL (i32 a1)); mret Exited
  else if number =? SYSCALL_JOIN then r ← on_process (syscall_handle_join (i32 a1)); joined c offset (i32 a1) r
  else if number =? SYSCALL_MEMLIMIT then '(r, offset) ← syscall_handle_memlimit offset a1; returned c offset r
  else if number =? SYSCALL_OPEN then call c offset (syscall_handle_open (sl_path locals) a1)
  else if number =? SYSCALL_CLOSE then call c offset (syscall_handle_close (i32 a1))
  else if number =? SYSCALL_READ then call c offset (syscall_handle_read (copy_turns (i32 a3)) (sl_buffer locals) (i32 a1) a2 (i32 a3))
  else if number =? SYSCALL_WRITE then call c offset (syscall_handle_write (copy_turns (i32 a3)) (sl_buffer locals) (i32 a1) a2 (i32 a3))
  else if number =? SYSCALL_SEEK then call c offset (syscall_handle_seek (i32 a1) (i32 a2))
  else if number =? SYSCALL_CREATE then call c offset (syscall_handle_create (sl_path locals) a1 (i32 a2))
  else if number =? SYSCALL_DELETE then call c offset (syscall_handle_delete (sl_path locals) a1)
  else returned c offset RETVAL_SYSCALL_USERLAND_NOK.
End code.

(** ** Strings one behind the other *)
Definition packed (strs : list (list Z)) : list Z := concat ((fun str => str ++ [0]) <$> strs).
Fixpoint starts (used : Z) (strs : list (list Z)) : list Z :=
  match strs with [] => [] | str :: strs => used :: starts (used + (zlen str + 1)) strs end.

Lemma packed_cons str strs : packed (str :: strs) = (str ++ [0]) ++ packed strs.
Proof. done. Qed.
Lemma length_packed_cons str strs : zlen (packed (str :: strs)) = zlen str + 1 + zlen (packed strs).
Proof. rewrite packed_cons, !length_app. cbn. lia. Qed.
Lemma length_starts used strs : length (starts used strs) = length strs.
Proof. revert used. induction strs as [|str strs IH]; intros used; [done|]. cbn. by rewrite IH. Qed.
Lemma splice_drop (l : list Z) i xs : take i l ++ splice (drop i l) 0 xs = splice l i xs.
Proof. unfold splice. by rewrite take_0, drop_drop. Qed.
Lemma packed_string strs used temp k str :
  0 <= used -> used + zlen (packed strs) <= zlen temp -> Forall (fun s => Forall (fun c => c <> 0) s) strs -> strs !! k = Some str ->
  exists o, starts used strs !! k = Some o /\ cstr (drop (Z.to_nat o) (splice temp (Z.to_nat used) (packed strs))) = Some str.
Proof.
  revert used temp k. induction strs as [|x strs IH]; intros used temp k Hu Hlen Hnz Hk; [done|]. apply Forall_cons in Hnz as [Hx Hnz].
  rewrite length_packed_cons in Hlen. destruct k as [|k].
  - injection Hk as ->. exists used. split; [done|]. unfold splice. rewrite drop_app_ge, length_take by (rewrite length_take; lia).
    rewrite Nat.min_l, Nat.sub_diag by lia. rewrite packed_cons, <- !app_assoc. by apply cstr_app.
  - rewrite packed_cons, <- splice_splice_app.
    + rewrite length_app. cbn [length]. replace (Z.to_nat used + (length x + 1))%nat with (Z.to_nat (used + (zlen x + 1))) by lia.
      apply IH; [lia| |done|done]. rewrite length_splice; [lia|]. rewrite length_app. cbn. lia.
    + rewrite length_app. cbn. lia.
Qed.
(** Strings that fit into the buffer fit on the stack. *)
Lemma room_packed strs : room strs = zlen (packed strs) + 3 * zlen strs.
Proof. induction strs as [|x strs IH]; [done|]. rewrite length_packed_cons. change (room (x :: strs)) with (zlen x + 4 + room strs). rewrite IH. cbn [length]. lia. Qed.

Section arguments.
Context {L F T : Type} `{!HasCpu L, TS : !ThreadSys L, !ChildThreads L, OF : !OpenFiles F, FC : !FileCalls F, TM : !Terminal T, !Symbols}.
Abbreviation state := (sys L F T).
Implicit Types (s : state) (t : pagetable).
Abbreviation table s := (ts_table (ps_threads (sy_proc s))).

(** ** What the process has written *)
Lemma wp_on_user {A} p t (m : M uspace A) (Q : A -> state -> Prop) s :
  vm_tables (sp_vm (ps_space (sy_proc s))) !! p = Some t -> wp m (fun a u => u = memory_of s t /\ Q a s) (memory_of s t) -> wp (on_user p m) Q s.
Proof.
  intros Ht Hm. apply wp_wpk_False, (wpk_on_user _ _ t); [done|]. apply wp_wpk. eapply wp_mono; [exact Hm|]. intros a u [-> HQ]. by destruct s.
Qed.
Lemma user_string_byte u a str k : user_string u a str -> 0 <= k <= zlen str -> user_byte u (a + k) <> None.
Proof.
  intros [Hd _] Hk. destruct (lookup_lt_is_Some_2 (str ++ [0]) (Z.to_nat k)) as [x Hx]; [rewrite length_app; cbn; lia|].
  specialize (Hd _ _ Hx). rewrite Z2Nat.id in Hd by lia. by rewrite Hd.
Qed.
Lemma wp_read_string s me t src target max str (Q : Z * list Z -> state -> Prop) :
  calling s me t -> is_u32 src -> 0 <= max <= 4095 -> max <= zlen target -> user_string (memory_of s t) src str ->
  (zlen str < max -> Q (zlen str + 1, splice target 0 (str ++ [0])) s) -> (max <= zlen str -> forall out, Q (RETVAL_SYSCALL_HELPERS_NOK, out) s) ->
  wp (on_user (table s) (read_string_from_vm COPY_FUEL src target max)) Q s.
Proof.
  intros Hc Hsrc Hmax Hlen Hstr Hfits Hlong. apply (wp_on_user _ t); [apply Hc|]. apply wp_wpk_False.
  eapply wpk_mono; [eapply wpk_weaken; [by apply (read_string_run COPY_FUEL _ src target max); try apply Hc; try done; unfold COPY_FUEL; lia|]|].
  - intros (i & Hi & Hno & Hall). specialize (Hall str Hstr). by destruct (user_string_byte _ _ _ i Hstr ltac:(lia)).
  - intros [r out] u (-> & [(str' & Hs' & Hl & [= -> ->])|(Hr & _ & Hno)]); (split; [done|]).
    + assert (str' = str) as -> by (by eapply user_string_unique). by apply Hfits.
    + cbn in Hr. subst r. apply Hlong. by apply Hno.
Qed.

Lemma inside_memory_run s me t a : calling s me t -> is_u32 a -> user_byte (memory_of s t) a <> None ->
  wp (inside_memory (table s) a) (fun ok s' => ok = true /\ s' = s) s.
Proof.
  intros Hc Ha Hb. apply (wp_on_user _ t); [apply Hc|]. apply wp_bind, wp_gets. cbn [us_table memory_of].
  destruct (page_check t (ca_ok _ _ _ Hc) (ca_user _ _ _ Hc) a Ha) as (inside & x & pstart & Hrun & Hin).
  apply wp_bind. eapply wp_lift; [exact Hrun|]. apply wp_ret. split; [done|]. split; [|done].
  assert (Htr : translate t (a / 4096) <> None) by (intros E; apply Hb; unfold user_byte, user_addr; cbn; by rewrite E).
  destruct Hin as [[_ ?]|[(Hi & _)|(Hi & _)]]; [done|..]; by rewrite (proj2 (Z.eqb_neq _ _) Hi).
Qed.

Lemma load_word_run u a w : user_table (us_table u) -> 0 <= a -> a mod 4 = 0 -> is_u32 w -> user_data u a (word_bytes w) -> wp (load_word a) (fun p u' => p = w /\ u' = u) u.
Proof.
  intros Hu Ha Hal Hw Hd. unfold load_word. rewrite Hal. cbn [Z.eqb].
  assert (Hbyte : forall k x (Q : Z -> uspace -> Prop), word_bytes w !! k = Some x -> Q x u -> wp (load (a + Z.of_nat k)) Q u).
  { intros k x Q Hk HQ. specialize (Hd k x Hk). assert (Hr : 0 <= a + Z.of_nat k < 2147483648).
    { unfold user_byte, user_addr in Hd. destruct (translate (us_table u) ((a + Z.of_nat k) / 4096)) as [m|] eqn:E; [|done].
      apply Hu in E. pose proof (Z.div_mod (a + Z.of_nat k) 4096 ltac:(lia)). pose proof (Z.mod_pos_bound (a + Z.of_nat k) 4096 ltac:(lia)). lia. }
    apply wp_wpk_False, wpk_load; [done| |congruence]. intros y Hy _. congruence. }
  apply wp_bind. rewrite <- (Z.add_0_r a) at 1. eapply (Hbyte 0%nat); [done|].
  apply wp_bind. eapply (Hbyte 1%nat); [done|]. apply wp_bind. eapply (Hbyte 2%nat); [done|]. apply wp_bind. eapply (Hbyte 3%nat); [done|].
  apply wp_ret. split; [|done]. by apply word_of_bytes.
Qed.

(** [ptrs] at [a] point to the strings [strs]. *)
Record pointers s t (a : Z) (ptrs : list Z) (strs : list (list Z)) : Prop := {
  pt_aligned : 0 <= a /\ a mod 4 = 0 /\ a + 4 * zlen ptrs <= 2147483648;
  pt_words : forall k p, ptrs !! k = Some p -> is_u32 p /\ user_data (memory_of s t) (a + 4 * Z.of_nat k) (word_bytes p);
  pt_strings : Forall2 (fun p str => user_string (memory_of s t) p str) ptrs strs
}.
Lemma pointers_byte s t a ptrs strs i : pointers s t a ptrs strs -> 0 <= i < 4 * zlen ptrs -> user_byte (memory_of s t) (a + i) <> None.
Proof.
  intros [_ Hw _] Hi. pose proof (Z.div_mod i 4 ltac:(lia)). pose proof (Z.mod_pos_bound i 4 ltac:(lia)).
  destruct (lookup_lt_is_Some_2 ptrs (Z.to_nat (i / 4))) as [p Hp]; [lia|]. destruct (Hw _ _ Hp) as [_ Hd].
  destruct (lookup_lt_is_Some_2 (word_bytes p) (Z.to_nat (i mod 4))) as [x Hx]; [cbn; lia|].
  specialize (Hd _ _ Hx). rewrite !Z2Nat.id in Hd by lia. replace (a + 4 * (i / 4) + i mod 4) with (a + i) in Hd by lia. by rewrite Hd.
Qed.
Lemma pointers_strings s t a ptrs strs : pointers s t a ptrs strs -> Forall (fun str => Forall (fun c => c <> 0) str) strs.
Proof. intros [_ _ Hs]. induction Hs as [|p str ? ? [_ Hnz] _ IH]; by constructor. Qed.

Lemma read_arguments_run s me t a all_ptrs all_strs ptrs strs i temp used argv :
  calling s me t -> pointers s t a all_ptrs all_strs -> drop (Z.to_nat i) all_ptrs = ptrs -> drop (Z.to_nat i) all_strs = strs -> 0 <= i ->
  zlen temp = CONFIG_SYSCALL_MAX_BUFFER_SIZE -> 0 <= used <= CONFIG_SYSCALL_MAX_BUFFER_SIZE ->
  wp (read_arguments (length ptrs) i (table s) a temp used argv) (fun r s' => s' = s /\
    r = if used + zlen (packed strs) <=? CONFIG_SYSCALL_MAX_BUFFER_SIZE then Some (splice temp (Z.to_nat used) (packed strs), argv ++ starts used strs) else None) s.
Proof.
  intros Hc Hall. unfold CONFIG_SYSCALL_MAX_BUFFER_SIZE. pose proof Hall as [(Ha0 & Hal & Hend) Hw Hstrs].
  revert ptrs i temp used argv. induction strs as [|str strs IH]; intros ptrs i temp used argv Hp Hs Hi Htemp Hu.
  { assert (length ptrs = 0%nat) as Hl. { pose proof (Forall2_length _ _ _ Hstrs). rewrite <- Hp, length_drop. apply (f_equal length) in Hs. rewrite length_drop in Hs. cbn in Hs. lia. }
    rewrite Hl. apply wp_ret. split; [done|]. rewrite (proj2 (Z.leb_le _ _)) by (cbn; lia). cbn. by rewrite splice_nil, app_nil_r. }
  assert (Hk2 : all_strs !! Z.to_nat i = Some str) by (rewrite <- (Nat.add_0_r (Z.to_nat i)), <- lookup_drop, Hs; done).
  destruct (Forall2_lookup_r _ _ _ _ _ Hstrs Hk2) as (p & Hk1 & Hstr). destruct (Hw _ _ Hk1) as [Hpu Hd]. rewrite Z2Nat.id in Hd by done.
  assert (Hlt : i < zlen all_ptrs) by (apply lookup_lt_Some in Hk1; lia).
  rewrite (drop_S _ p) in Hp by done. subst ptrs. rewrite (drop_S _ str) in Hs by done. injection Hs as Hs. cbn [length read_arguments]. unfold CONFIG_SYSCALL_MAX_BUFFER_SIZE.
  assert (H1 : u32 (a + i) = a + i) by (apply u32_id; unfold is_u32; lia). assert (H2 : u32 (a + 4 * i) = a + 4 * i) by (apply u32_id; unfold is_u32; lia). rewrite H1, H2.
  apply wp_bind. eapply wp_mono; [apply (inside_memory_run s me t (a + i)); [done|unfold is_u32; lia|]|]; [by apply (pointers_byte s t a _ _ i Hall); lia|].
  intros ok s' [-> ->]. cbn [negb].
  apply wp_bind, (wp_on_user _ t); [apply Hc|]. eapply wp_mono; [apply (load_word_run (memory_of s t) (a + 4 * i) p); [apply Hc|lia| |done|done]|].
  { rewrite (Z.mul_comm 4 i), Z_mod_plus_full. done. }
  intros q u [-> ->]. split; [done|]. apply wp_bind. unfold read_string_at. apply wp_bind.
  rewrite length_packed_cons.
  apply (wp_read_string s me t p _ _ str); try done; [lia|rewrite length_drop; lia|..].
  - intros Hfits. apply wp_ret. rewrite (proj2 (Z.eqb_neq _ _)) by (unfold RETVAL_SYSCALL_HELPERS_NOK; lia). rewrite splice_drop.
    assert (Hl1 : length (str ++ [0]) = (length str + 1)%nat) by (rewrite length_app; cbn; lia).
    eapply wp_mono; [apply (IH (drop (S (Z.to_nat i)) all_ptrs) (i + 1)); [by rewrite Z2Nat.inj_add, Nat.add_1_r by lia|by rewrite Z2Nat.inj_add, Nat.add_1_r by lia|lia| |lia]|].
    + rewrite length_splice; [done|]. rewrite Hl1. lia.
    + intros r s' [-> ->]. split; [done|]. replace (used + (zlen str + 1) + zlen (packed strs)) with (used + (zlen str + 1 + zlen (packed strs))) by lia.
      destruct (Z.leb_spec (used + (zlen str + 1 + zlen (packed strs))) 512); [|done]. do 2 f_equal.
      * replace (Z.to_nat (used + (zlen str + 1))) with (Z.to_nat used + length (str ++ [0%Z]))%nat by (rewrite Hl1; lia).
        rewrite splice_splice_app by (rewrite Hl1; lia). done.
      * by rewrite <- app_assoc.
  - intros Hlong out. apply wp_ret. cbn [Z.eqb]. apply wp_ret. split; [done|]. rewrite (proj2 (Z.leb_gt _ _)); [done|]. lia.
Qed.

Lemma inside_memory_total s me t a : calling s me t -> is_u32 a -> wp (inside_memory (table s) a) (fun _ s' => s' = s) s.
Proof.
  intros Hc Ha. apply (wp_on_user _ t); [apply Hc|]. apply wp_bind, wp_gets. cbn [us_table memory_of].
  destruct (page_check t (ca_ok _ _ _ Hc) (ca_user _ _ _ Hc) a Ha) as (inside & x & pstart & Hrun & _).
  apply wp_bind. eapply wp_lift; [exact Hrun|]. by apply wp_ret.
Qed.

(** Claim C8. The path and the arguments of a new program are copied out of the
    memory of the process when there are less than 32 and they fit into the two
    buffers of 512 bytes, and the call fails with nothing changed otherwise.
    What is copied is what [process_start] asks for: the strings, one after the
    other, which always fit on the stack of the new process. *)
Theorem execp_arguments_correct s me t locals vf argc a ptrs name strs :
  calling s me t -> is_u32 vf -> user_string (memory_of s t) vf name ->
  zlen (sl_filename locals) = CONFIG_SYSCALL_MAX_BUFFER_SIZE -> zlen (sl_temp locals) = CONFIG_SYSCALL_MAX_BUFFER_SIZE ->
  is_u32 a -> (0 <= argc < CONFIG_SYSCALL_MAX_ARGC -> zlen ptrs = argc /\ pointers s t a ptrs strs) ->
  wp (execp_arguments locals (table s) vf argc a) (fun r s' => s' = s /\
    if decide (zlen name < CONFIG_SYSCALL_MAX_BUFFER_SIZE /\ 0 <= argc < CONFIG_SYSCALL_MAX_ARGC /\ zlen (packed strs) <= CONFIG_SYSCALL_MAX_BUFFER_SIZE) then
      exists filename argv, r = Some (filename, argc, argv) /\ forall start parent, zlen (lo_virtual_argv start) = CONFIG_SYSCALL_MAX_ARGC + 1 ->
        arguments_ok start filename (Some (mk_child parent PROCESS_NO_PARENT_PID 0 filename argc argv)) name strs
    else r = None) s.
Proof.
  unfold CONFIG_SYSCALL_MAX_BUFFER_SIZE, CONFIG_SYSCALL_MAX_ARGC. intros Hc Hvf Hname Hlf Hlt Ha Hptrs. unfold execp_arguments, CONFIG_SYSCALL_MAX_BUFFER_SIZE, CONFIG_SYSCALL_MAX_ARGC.
  apply wp_bind. eapply wp_mono; [apply (inside_memory_run s me t vf Hc Hvf)|].
  { rewrite <- (Z.add_0_r vf). apply (user_string_byte _ _ name); [done|lia]. }
  intros ok s' [-> ->]. cbn [negb]. apply wp_bind.
  apply (wp_read_string s me t vf _ _ name); try done; try lia.
  2: { intros Hlong out. apply wp_ret. split; [done|]. by rewrite decide_False by lia. }
  intros Hfits. rewrite (proj2 (Z.eqb_neq _ _)) by (unfold RETVAL_SYSCALL_HELPERS_NOK; lia).
  destruct (Z.ltb_spec argc 0). { apply wp_bind, wp_ret, wp_ret. split; [done|]. by rewrite decide_False by lia. }
  destruct (decide (argc < 32)) as [Hmax|Hmax].
  2: { apply wp_bind, wp_bind. apply (wp_mono _ (fun _ s' => s' = s)); [rewrite Z.gtb_ltb, (proj2 (Z.ltb_lt 0 argc)) by lia; by apply (inside_memory_total s me t)|].
    intros ok s' ->. apply wp_ret. rewrite Z.geb_leb, (proj2 (Z.leb_le 32 argc)) by lia. rewrite orb_true_r. apply wp_ret. split; [done|]. by rewrite decide_False by lia. }
  destruct (Hptrs ltac:(lia)) as [Hn Hp]. apply wp_bind, wp_bind.
  apply (wp_mono _ (fun ok s' => ok = true /\ s' = s)).
  { destruct (Z.gtb_spec argc 0); [|by apply wp_ret]. apply (inside_memory_run s me t a Hc Ha). rewrite <- (Z.add_0_r a). apply (pointers_byte s t a ptrs strs); [done|lia]. }
  intros ok s' [-> ->]. apply wp_ret. rewrite Z.geb_leb, (proj2 (Z.leb_gt 32 argc)) by lia. cbn [negb orb].
  replace (Z.to_nat argc) with (length ptrs) by lia. apply wp_bind.
  eapply wp_mono; [apply (read_arguments_run s me t a ptrs strs ptrs strs 0 (sl_temp locals) 0 []); try done; unfold CONFIG_SYSCALL_MAX_BUFFER_SIZE; lia|].
  intros r s' [-> ->]. apply wp_ret. split; [done|]. cbn [app]. unfold CONFIG_SYSCALL_MAX_BUFFER_SIZE. rewrite Z.add_0_l.
  destruct (Z.leb_spec (zlen (packed strs)) 512); [|by rewrite decide_False by lia]. rewrite decide_True by lia.
  eexists _, _. split; [done|]. intros start parent Hva.
  pose proof (Forall2_length _ _ _ (pt_strings _ _ _ _ _ Hp)) as Hl.
  split; cbn [cd_argc cd_argv]; unfold CONFIG_SYSCALL_MAX_ARGC; try done; try lia.
  - unfold splice. rewrite take_0, <- app_assoc. apply cstr_app. apply Hname.
  - intros d' [= <-]. cbn [cd_argc cd_argv]. split; [lia|]. intros k str Hk.
    destruct (packed_string strs 0 (sl_temp locals) k str) as (o & Ho & Hstr); [lia|lia|by eapply pointers_strings|done|].
    exists (drop (Z.to_nat o) (splice (sl_temp locals) (Z.to_nat 0) (packed strs))). split; [by rewrite list_lookup_fmap, Ho|done].
  - change (room (name :: strs)) with (zlen name + 4 + room strs). rewrite room_packed. unfold stack_page, USERLAND_STACK_TOP. lia.
Qed.

(** ** The registers of the process *)

(** [c'] is [c] after a call that answers [v]. *)
Definition answered (c : context_t) (v : Z) (c' : context_t) : Prop :=
  cpu_regs c' = <[Z.to_nat MIPS_REGISTER_V0 := u32 v]> (cpu_regs c) /\ ctx_pc c' = u32 (ctx_pc c + 4) /\
  (ctx_hi c', ctx_lo c', ctx_status c', prev_context c') = (ctx_hi c, ctx_lo c, ctx_status c, prev_context c).
Definition context_ok (c : context_t) : Prop := zlen (cpu_regs c) = 29 /\ Forall is_u32 (cpu_regs c) /\ is_u32 (ctx_pc c).
Definition leaves (c : context_t) (o : outcome) : Prop := match o with Returned c' _ => exists v, answered c v c' | _ => True end.
Definition ends_well (c : context_t) (m : M state outcome) : Prop := forall s o s', m s = Ret (o, s') -> leaves c o.

Lemma answered_ok c v c' : context_ok c -> answered c v c' -> context_ok c'.
Proof.
  intros (Hl & Hr & Hp) (Er & Ep & _). split; [by rewrite Er, length_insert|]. split; [|rewrite Ep; apply u32_range].
  rewrite Er. apply Forall_insert; [done|apply u32_range].
Qed.
Lemma returned_run c offset v s : context_ok c -> exists c', returned c offset v s = Ret (Returned c' offset, s) /\ answered c v c'.
Proof.
  intros (Hl & _). eexists. split.
  - unfold returned, answer, mbind, M_bind, lift. rewrite rset_in by (unfold MIPS_REGISTER_V0; lia). done.
  - done.
Qed.
Lemma ends_bind {A} c (m : M state A) (k : A -> M state outcome) : (forall a, ends_well c (k a)) -> ends_well c (m ≫= k).
Proof. intros Hk s o s'. unfold mbind, M_bind. destruct (m s) as [[a s1]|]; [|done]. apply Hk. Qed.
Lemma ends_ret c o : leaves c o -> ends_well c (mret o).
Proof. intros Ho s o' s' [= <- <-]. done. Qed.
Lemma ends_returned c offset v : context_ok c -> ends_well c (returned c offset v).
Proof. intros Hc s o s' Hrun. destruct (returned_run c offset v s Hc) as (c' & Hr & Ha). rewrite Hr in Hrun. injection Hrun as <- <-. by exists v. Qed.
Lemma ends_call c offset m : context_ok c -> ends_well c (call c offset m).
Proof. intros Hc. apply ends_bind. intros [v|]; [by apply ends_returned|by apply ends_ret]. Qed.
Lemma ends_joined c offset pid r : context_ok c -> ends_well c (joined c offset pid r).
Proof. intros Hc. destruct r; [by apply ends_ret|by apply ends_returned]. Qed.
Lemma ends_execp locals c offset : context_ok c -> ends_well c (handle_execp locals c offset).
Proof.
  intros Hc. unfold handle_execp. do 4 (apply ends_bind; intros ?). apply ends_bind. intros [[[filename argc] argv]|]; [|by apply ends_returned].
  apply ends_bind. intros [d [st|v]]; [by apply ends_ret|by apply ends_returned].
Qed.

(** Claim C10. A system call leaves the process its registers: a call that
    returns puts its answer into [v0], moves the program counter to the next
    instruction and changes nothing else of the context, which stays 29 words
    of 32 bits; a number that is no system call is answered by -1 with the
    whole system as it was. *)
Theorem syscall_handle_registers locals offset c :
  context_ok c ->
  (forall s c' offset' s', syscall_handle locals offset c s = Ret (Returned c' offset', s') -> context_ok c' /\ exists v, answered c v c') /\
  (forall s, cpu_regs c !!! Z.to_nat MIPS_REGISTER_A0 ∉ [SYSCALL_HALT; SYSCALL_EXEC; SYSCALL_EXIT; SYSCALL_JOIN; SYSCALL_MEMLIMIT; SYSCALL_OPEN; SYSCALL_CLOSE;
     SYSCALL_SEEK; SYSCALL_READ; SYSCALL_WRITE; SYSCALL_CREATE; SYSCALL_DELETE] ->
   wp (syscall_handle locals offset c) (fun o s' => s' = s /\ exists c', o = Returned c' offset /\ answered c (-1) c') s).
Proof.
  intros Hc. split.
  - intros s c' offset' s' Hrun. assert (Hends : ends_well c (syscall_handle locals offset c)).
    { unfold syscall_handle. do 4 (apply ends_bind; intros ?).
      repeat match goal with |- ends_well _ (if _ then _ else _) => destruct (_ =? _) end;
        first [by apply ends_ret|by apply ends_execp|by apply ends_call|by apply ends_returned|idtac].
      - apply ends_bind. intros _. by apply ends_ret.
      - apply ends_bind. intros r. by apply ends_joined.
      - apply ends_bind. intros [r o]. by apply ends_returned. }
    destruct (Hends _ _ _ Hrun) as [v Hv]. split; [by eapply answered_ok|by exists v].
  - intros s Hno. pose proof Hc as (Hl & _). unfold syscall_handle, register.
    assert (Hreg : forall i (Q : Z -> state -> Prop), 0 <= i < 29 -> Q (cpu_regs c !!! Z.to_nat i) s -> wp (lift (rget (cpu_regs c) i)) Q s).
    { intros i Q Hi HQ. destruct (rget_in (cpu_regs c) i) as (x & Hx & Hk); [lia|]. eapply wp_lift; [exact Hx|]. by rewrite (list_lookup_total_correct _ _ _ Hk) in HQ. }
    do 4 (apply wp_bind, Hreg; [vm_check|]). rewrite !not_elem_of_cons in Hno. destruct_and!.
    rewrite !(proj2 (Z.eqb_neq _ _)) by done. destruct (returned_run c offset RETVAL_SYSCALL_USERLAND_NOK s Hc) as (c' & Hr & Ha).
    eapply wp_eq; [exact Hr|]. split; [done|]. by exists c'.
Qed.

(** ** The parent goes on *)
Lemma wp_lock_step {A} (m : M L A) (Q : A -> state -> Prop) s :
  table_wf (sy_proc s) -> wp m (fun a y => forall s', process_table (sy_proc s') = process_table (sy_proc s) -> ps_threads (sy_proc s') = y -> table_wf (sy_proc s') -> Q a s') (ps_threads (sy_proc s)) ->
  wp (on_process (on_threads m)) Q s.
Proof. intros Hwf Hm. apply wp_on_process, wp_on_threads. eapply wp_mono; [exact Hm|]. intros a y HQ. by apply HQ. Qed.

(** Claim C11. When the thread of the child has started its program, the parent's
    call answers the number of the child plus 1, which is what join takes; when
    it has given up, -1.  The parent's lock is free for others then; woken
    before that, the parent waits again. *)
Theorem execp_resume_correct s c offset d st :
  table_wf (sy_proc s) -> ts_ok (ps_threads (sy_proc s)) -> is_pid (cd_parent_pid d) -> is_u32 st ->
  let l := die_lock (proc (sy_proc s) (cd_parent_pid d)) in
  ts_lock (ps_threads (sy_proc s)) l = Free -> ts_can_wait (ps_threads (sy_proc s)) -> context_ok c ->
  (forall pid, is_pid pid -> wp (handle_execp_resume c offset (set_ready (pid + 1) d) st) (fun o s' =>
     ts_lock (ps_threads (sy_proc s')) l <> Mine /\ exists c', o = Returned c' offset /\ answered c (pid + 1) c') s) /\
  (cd_child_pid d = PROCESS_NO_PARENT_PID -> wp (handle_execp_resume c offset (set_ready (cd_child_pid d) d) st) (fun o s' =>
     ts_lock (ps_threads (sy_proc s')) l <> Mine /\ exists c', o = Returned c' offset /\ answered c (-1) c') s) /\
  (cd_ready d = 0 -> wp (handle_execp_resume c offset d st) (fun o s' =>
     ts_lock (ps_threads (sy_proc s')) l <> Mine /\ exists st', o = WaitStart d st') s).
Proof.
  intros Hwf Hts Hpar Hst l Hl Hcan Hc.
  assert (Hgo : forall d' (Q : outcome -> state -> Prop), cd_parent_pid d' = cd_parent_pid d ->
    (forall s1, process_table (sy_proc s1) = process_table (sy_proc s) -> table_wf (sy_proc s1) -> ts_ok (ps_threads (sy_proc s1)) ->
      ts_lock (ps_threads (sy_proc s1)) l = Mine -> ts_can_wait (ps_threads (sy_proc s1)) -> wp (wait_ready (cd_parent_pid d) d') (fun r s' => wp (match r with
        | inl st => mret (WaitStart d' st)
        | inr p => returned c offset (if p <? 0 then RETVAL_SYSCALL_USERLAND_NOK else p) end) Q s') s1) ->
    wp (handle_execp_resume c offset d' st) Q s).
  { intros d' Q Hd Hk. apply wp_bind. unfold syscall_handle_execp_resume. rewrite Hd.
    apply wp_bind, wp_on_process, wp_get_process; [apply Hwf|done|]. fold l. apply wp_bind, wp_lock_step; [done|].
    eapply wp_mono; [by apply (condition_wait_resume_spec (ps_threads (sy_proc s)) l st)|].
    intros _ y (Hok & _ & Hmine & Hcan') s1 Ht Hy Hwf1. apply Hk; rewrite ?Hy; auto. }
  assert (Hready : forall d' v, cd_parent_pid d' = cd_parent_pid d -> cd_ready d' = 1 -> (if cd_child_pid d' <? 0 then -1 else cd_child_pid d') = v ->
    wp (handle_execp_resume c offset d' st) (fun o s' => ts_lock (ps_threads (sy_proc s')) l <> Mine /\ exists c', o = Returned c' offset /\ answered c v c') s).
  { intros d' v Hd Hr Hv. apply Hgo; [done|]. intros s1 Ht Hwf1 Hok1 Hmine _. apply wp_bind, wp_on_process, wp_get_process; [apply Hwf1|done|].
    rewrite Hr. cbn [Z.eqb]. assert (Hl1 : die_lock (proc (sy_proc s1) (cd_parent_pid d)) = l) by (unfold proc; by rewrite Ht). rewrite Hl1.
    apply wp_bind, wp_lock_step; [done|]. eapply wp_mono; [by apply (lock_release_spec (ps_threads (sy_proc s1)) l)|].
    intros _ y (_ & _ & _ & Hno & _) s2 _ Hy _. apply wp_ret. destruct (returned_run c offset v s2 Hc) as (c' & Hrun & Ha).
    change RETVAL_SYSCALL_USERLAND_NOK with (-1). rewrite Hv. eapply wp_eq; [exact Hrun|]. split; [by rewrite Hy|]. by exists c'. }
  split; [|split].
  - intros pid Hpid. apply Hready; try done. cbn [cd_child_pid set_ready]. unfold is_pid in Hpid. by rewrite (proj2 (Z.ltb_ge _ _)) by lia.
  - intros Hn. apply Hready; try done. cbn [cd_child_pid set_ready]. by rewrite Hn.
  - intros Hr. apply Hgo; [done|]. intros s1 Ht Hwf1 Hok1 Hmine Hcan1. apply wp_bind, wp_on_process, wp_get_process; [apply Hwf1|done|].
    rewrite Hr. cbn [Z.eqb]. assert (Hl1 : die_lock (proc (sy_proc s1) (cd_parent_pid d)) = l) by (unfold proc; by rewrite Ht). rewrite Hl1.
    apply wp_bind, wp_lock_step; [done|]. eapply wp_mono; [apply (condition_wait_spec (ps_threads (sy_proc s1)) _ l); try done; apply (proj2 Hwf1 _ Hpar)|].
    intros st' y Hno s2 _ Hy _. apply wp_ret, wp_ret. split; [by rewrite Hy|]. by exists st'.
Qed.
End arguments.

(** ** Threads of kernel/thread.c

    [new_process_thread] is the function of the thread and [dat] its argument;
    [stacks] and [finish] are as in Thread.v. *)
#[export] Instance kernel_children `{Symbols} (stacks finish new_process_thread dat : Z) : ChildThreads (over lock_tables kernel) := {|
  thread_create := on_sys (Thread.thread_create stacks finish new_process_thread dat);
  thread_run t := on_sys (Scheduler.thread_run t)
|}.

(** ** Process 1 of Lifecycle.v calls *)
#[local] Existing Instance example_symbols.
#[local] Existing Instance example_layout.
#[local] Existing Instance mount_ops.
#[local] Existing Instance mount_filesystems.
#[local] Existing Instance mount_handles.
#[local] Existing Instance mount_calls.
#[local] Existing Instance toy_terminal.
#[local] Instance example_children : ChildThreads (over lock_tables kernel) := kernel_children 0x80100000 0x80001234 0x80005678 0x80110000.

Definition some_syscall_locals : syscall_locals := mk_syscall_locals (replicate 512 7) (replicate 512 7) (replicate 256 7) (replicate 512 7).
(** The registers of a call with its number and arguments. *)
Definition call_context (number a1 a2 a3 : Z) : context_t := mk_context ([0; 5; 0; number; a1; a2; a3] ++ replicate 22 9) 0 0 0x400100 0 0.
Lemma call_context_ok number a1 a2 a3 : is_u32 number -> is_u32 a1 -> is_u32 a2 -> is_u32 a3 -> context_ok (call_context number a1 a2 a3).
Proof.
  intros. assert (is_u32 0) by vm_check. assert (is_u32 5) by vm_check. assert (is_u32 9) by vm_check.
  split; [done|]. split; [|vm_check]. apply Forall_app. split; [|by apply Forall_replicate].
  do 7 (apply Forall_cons; split; [done|]). by apply Forall_nil_2.
Qed.

(** [execp] of the path at 0x401080 makes thread 3 ready and waits. *)
Example execp_waits :
  wp (syscall_handle some_syscall_locals 0 (call_context SYSCALL_EXEC 0x401080 0 0)) (fun o (s' : sys (over lock_tables kernel) (vfs (mount_point ramdisk) (over semaphores kernel)) toy_tty) =>
    (exists d st, o = WaitStart d st /\ cd_parent_pid d = 1 /\ cstr (cd_filename d) = Some [91; 118; 93; 97]) /\
    ts_lock (ps_threads (sy_proc s')) 1 <> Mine /\ state (thr (Waiting.sys (ps_threads (sy_proc s'))) 3) = THREAD_READY) a_system.
Proof. vm_compute. split; [by do 2 eexists|by split]. Qed.

(** Two pointers at 0x401100, to the string at 0x401110 and to the path. *)
Definition argv_bytes : list Z := word_bytes 0x401110 ++ word_bytes 0x401080 ++ replicate 8 1 ++ [98; 99; 0].
Definition argv_memory (p : Z) : Z := if decide (0x5100 <= p < 0x5113) then argv_bytes !!! Z.to_nat (p - 0x5100) else a_memory p.
Definition a_caller : sys (over lock_tables kernel) (vfs (mount_point ramdisk) (over semaphores kernel)) toy_tty := with_ram argv_memory a_system.
Lemma a_caller_calling : calling a_caller 1 a_table.
Proof. destruct a_system_calling. by split. Qed.
(** Bytes of the page 0x401, in frame 5. *)
Lemma caller_data a xs : 0x401000 <= a -> a + zlen xs <= 0x402000 ->
  bool_decide (Forall (fun k => argv_memory (a - 0x401000 + 0x5000 + k) = xs !!! Z.to_nat k) (seqZ 0 (zlen xs))) = true -> user_data (memory_of a_caller a_table) a xs.
Proof.
  intros Ha Hend Hall%bool_decide_eq_true_1 k x Hk. pose proof (lookup_lt_Some _ _ _ Hk). rewrite Forall_forall in Hall. specialize (Hall (Z.of_nat k)).
  rewrite Nat2Z.id, (list_lookup_total_correct _ _ _ Hk) in Hall. unfold user_byte. cbn [us_table us_ram memory_of a_caller with_ram sy_ram].
  pose proof (proj2 (two_pages_range (a + Z.of_nat k) 1 ltac:(lia) ltac:(lia)) 0 ltac:(lia)) as Hu. rewrite Z.add_0_r in Hu. rewrite Hu. cbn. rewrite <- Hall by (apply elem_of_seqZ; lia).
  do 2 f_equal. lia.
Qed.
Lemma caller_argument : user_string (memory_of a_caller a_table) 0x401110 [98; 99].
Proof. split; [apply caller_data; [vm_check|vm_check|by vm_compute]|]. repeat constructor; lia. Qed.
Lemma caller_path : user_string (memory_of a_caller a_table) 0x401080 [91; 118; 93; 97].
Proof. split; [apply caller_data; [vm_check|vm_check|by vm_compute]|]. repeat constructor; lia. Qed.
Lemma caller_pointers : pointers a_caller a_table 0x401100 [0x401110; 0x401080] [[98; 99]; [91; 118; 93; 97]].
Proof.
  split; [by vm_compute|..].
  - intros [|[|k]] p Hk; [injection Hk as <-|injection Hk as <-|done]; (split; [vm_check|]); (apply caller_data; [vm_check|vm_check|by vm_compute]).
  - constructor; [exact caller_argument|constructor; [exact caller_path|constructor]].
Qed.

Lemma execp_arguments_correct_witness :
  wp (execp_arguments some_syscall_locals (ts_table (ps_threads (sy_proc a_caller))) 0x401080 2 0x401100) (fun r s' => s' = a_caller /\ exists filename argv, r = Some (filename, 2, argv) /\
    cstr filename = Some [91; 118; 93; 97] /\ exists x, argv !! 0%nat = Some x /\ cstr x = Some [98; 99]) a_caller.
Proof.
  eapply wp_mono; [apply (execp_arguments_correct a_caller 1 a_table some_syscall_locals 0x401080 2 0x401100 [0x401110; 0x401080] [91; 118; 93; 97] [[98; 99]; [91; 118; 93; 97]])|].
  - exact a_caller_calling.
  - vm_check.
  - exact caller_path.
  - reflexivity.
  - reflexivity.
  - vm_check.
  - intros _. split; [reflexivity|exact caller_pointers].
  - intros r s' [-> Hr]. split; [reflexivity|]. rewrite decide_True in Hr by (split; [vm_check|split; [split; vm_check|vm_check]]).
    destruct Hr as (filename & argv & -> & Hok). exists filename, argv. split; [reflexivity|].
    destruct (Hok (mk_locals [] [] (mk_elf 0 no_segment no_segment) (replicate 33 7) (fun _ => [])) 1 eq_refl) as [Hname _ Hargs _ _ _].
    split; [exact Hname|]. exact (proj2 (Hargs _ eq_refl) 0%nat [98; 99] eq_refl).
Defined.

Lemma syscall_handle_registers_witness :
  wp (syscall_handle some_syscall_locals 0 (call_context 0x999 1 2 3)) (fun o s' => s' = a_system /\ exists c', o = Returned c' 0 /\ ctx_pc c' = 0x400104) a_system.
Proof.
  destruct (syscall_handle_registers (L := over lock_tables kernel) (F := vfs (mount_point ramdisk) (over semaphores kernel)) (T := toy_tty)
    some_syscall_locals 0 (call_context 0x999 1 2 3)) as [_ Hno].
  - apply call_context_ok; vm_check.
  - eapply wp_mono; [apply Hno|].
    + rewrite !not_elem_of_cons. repeat split; try discriminate. apply not_elem_of_nil.
    + intros o s' (-> & c' & -> & (_ & Hpc & _)). split; [reflexivity|]. exists c'. split; [reflexivity|exact Hpc].
Defined.

Definition a_request : child_process_create_data_t := mk_child 1 PROCESS_NO_PARENT_PID 0 [91; 118; 93; 97; 0] 0 [].
Lemma execp_resume_correct_witness :
  wp (handle_execp_resume (call_context SYSCALL_EXEC 0x401080 0 0) 0 (set_ready 4 a_request) 0xff01) (fun o _ =>
    exists c', o = Returned c' 0 /\ cpu_regs c' !! 1%nat = Some 4) a_system.
Proof.
  destruct (execp_resume_correct a_system (call_context SYSCALL_EXEC 0x401080 0 0) 0 a_request 0xff01) as [Hgo _].
  - by apply process_rows_wf.
  - apply process_settled. by right.
  - vm_check.
  - vm_check.
  - apply process_lock. vm_check.
  - apply process_can_wait. by right.
  - apply call_context_ok; vm_check.
  - eapply wp_mono; [apply (Hgo 3); vm_check|]. intros o s' (_ & c' & -> & (Hr & _)). exists c'. split; [reflexivity|]. rewrite Hr. reflexivity.
Defined.
