(* ===== verification/ElfTheorems.v ===== *)
(** * proc/elf.c: theorems *)
From S2P Require Import Prelude Gbd ThreadSys Bytes Mount Lifecycle SyscallTheorems Elf.

Section theorems.
Context {F : Type} `{OF : !OpenFiles F, FC : !FileCalls F}.

(** Claim C16. For a file whose program headers start below 2^31, with [a] the
    answer of the header parser and the file unchanged.  In a standard file,
    whose program headers have the usual 32 bytes and whose segments take at most
    2^32 - 4096 bytes of memory, the parser accepts exactly the
    executables for this machine whose headers lie in the file and which have
    at most one segment of each sort and one at all, and it describes their
    segments, with their sizes in memory rounded up to pages.  In any other
    file it does the same with headers that it takes to be 32 bytes apart,
    whatever their size in the file header, and with the pages counted with 32
    bits.  (From 2^31 on the position is negative, the failed seek goes
    unnoticed and what follows the file header is parsed.) *)
Theorem elf_parse_header_correct s file b elf_hdr program_hdr elf :
  of_ok s -> of_file s file 0 b -> Forall is_byte b -> e_phoff (ehdr b) < 2147483648 -> zlen elf_hdr = 52 -> zlen program_hdr = 32 ->
  wp (elf_parse_header elf_hdr program_hdr elf file) (fun a s' => still_open file b s s' /\
    (standard b -> if decide (valid_file b) then a = (1, described b) else a.1 = 0) /\
    if decide (executable b) then a = (1, image b) else a.1 = 0) s.
Proof.
  intros Hok Hf Hb Hoff H1 H2. eapply wp_mono; [by apply (elf_parse_run s file b)|]. intros a s' [Hs Ha]. split; [done|]. split; [|done].
  intros Hstd. destruct (standard_agrees b Hb Hstd) as [Hiff <-]. by rewrite <- (decide_ext _ _ _ _ Hiff).
Qed.
End theorems.

(** ** A program of two segments

    It is written to the file of 600 bytes of [Lifecycle.v] and parsed. *)
#[local] Existing Instance mount_handles.
#[local] Existing Instance mount_calls.

Definition half_bytes (h : Z) : list Z := [h / 256 mod 256; h mod 256].
Definition a_program : list Z :=
  [0x7f; 0x45; 0x4c; 0x46; 1; 2; 1] ++ replicate 9 0 ++ half_bytes ET_EXEC ++ half_bytes EM_MIPS ++ word_bytes EV_CURRENT ++
  word_bytes 0x401000 ++ word_bytes 52 ++ word_bytes 0 ++ word_bytes 0 ++ half_bytes 52 ++ half_bytes 32 ++ half_bytes 3 ++ half_bytes 0 ++ half_bytes 0 ++ half_bytes 0 ++
  (bytes_of [PT_LOAD; 148; 0x401000; 0; 8; 8; 5; 4096]) ++ (bytes_of [PT_NOTE; 0; 0; 0; 0; 0; 0; 0]) ++ bytes_of [PT_LOAD; 156; 0x402000; 0; 4; 5000; 6; 4096].

Lemma elf_parse_header_correct_witness :
  wp (_ ← vfs_seek 3 0; _ ← vfs_write 3 a_program 148; _ ← vfs_seek 3 0;
      elf_parse_header (replicate 52 7) (replicate 32 7) (mk_elf 0 no_segment no_segment) 3)
    (fun a _ => a = (1, mk_elf 0x401000 (mk_segment 148 8 1 0x401000) (mk_segment 156 4 2 0x402000))) mount_state.
Proof.
  apply wp_bind. eapply wp_mono; [apply (vfs_seek_law mount_state 3 508 0 file_of_600); [apply mount_files|exact a_system_file|lia]|].
  intros r s1 (_ & Hok1 & _ & Hf1).
  apply wp_bind. eapply wp_mono; [apply (vfs_write_law s1 3 0 file_of_600 a_program 148 Hok1 Hf1); [lia|vm_check|apply (bool_decide_unpack _); vm_compute; exact I]|].
  intros w s2 (_ & Hok2 & _ & Hf2).
  apply wp_bind. eapply wp_mono; [apply (vfs_seek_law s2 3 _ 0 _ Hok2 Hf2); lia|]. intros r2 s3 (_ & Hok3 & _ & Hf3).
  eapply wp_mono; [apply (elf_parse_header_correct s3 3 _ _ _ _ Hok3 Hf3)|].
  - apply (bool_decide_unpack _). vm_compute. exact I.
  - vm_check.
  - reflexivity.
  - reflexivity.
  - intros a s4 (_ & Ha & _). rewrite decide_True in Ha by (apply (bool_decide_unpack _); vm_compute; exact I). rewrite Ha; [vm_compute; reflexivity|].
    split; [reflexivity|]. apply (bool_decide_unpack _). vm_compute. exact I.
Defined.
