(* ===== verification/StartTheorems.v ===== *)
(** * proc/process.c: theorems on starting a process

    The image of a program in the memory of the process, its arguments on its
    stack, and what is taken back after a failure. *)
From S2P Require Import Prelude Bitmap Libc Cpu Kmalloc Pagepool Semaphore Gbd Sync Tfs Vfs Mount Handles.
From S2P Require Import Waiting Thread Sleepq LockCond Kthreads Vm Tlb Space Frames User ThreadSys Bytes Elf Process Lifecycle Syscall SyscallTheorems Start Loading Arguments Starting ElfTheorems.

Section theorems.
Context {L F T : Type} `{!HasCpu L, TS : !ThreadSys L, LO : !LoneLocks L, OF : !OpenFiles F, FC : !FileCalls F, TM : !Terminal T, !Symbols}.
Abbreviation state := (sys L F T).
Implicit Types (s : state) (t : pagetable).


(** The arguments are pushed below the top of the stack: [argv] points
    to [argc] pointers, each to the string of an argument with its end, the
    path of the program first; nothing else changes. *)
Theorem push_arguments_correct s addr t lo executable name argc argv strs va :
  mem_ok (mem_of s) addr t -> all_writable t lo (USERLAND_STACK_TOP - lo) -> 0 <= lo ->
  zlen va = CONFIG_SYSCALL_MAX_ARGC + 1 -> argc = zlen strs -> argc <= CONFIG_SYSCALL_MAX_ARGC ->
  lo + room (name :: strs) + 4 * (argc + 1) <= USERLAND_STACK_TOP -> cstr executable = Some name ->
  (forall k str, strs !! k = Some str -> exists source, argv !! k = Some source /\ cstr source = Some str) ->
  wp (push_arguments addr executable argc argv va) (fun a s' => exists r sp, a = (argc + 1, sp) /\ s' = with_ram r s /\
    between t (sy_ram s) r sp USERLAND_STACK_TOP /\ has_arguments t lo USERLAND_STACK_TOP r (argc + 1) sp (name :: strs)) s.
Proof.
  intros Hm Hw Hlo Hva Hargc Hmax Hroom Hname Hargv. pose proof (room_nonneg (name :: strs)) as Hnn. subst argc.
  apply (push_arguments_run addr t lo USERLAND_STACK_TOP); first [done|lia].
Qed.


End theorems.

(** ** A program is loaded

    The thread of process 1 of [Lifecycle.v] with an empty page table, and the
    program of [ElfTheorems.v]. *)
#[local] Existing Instance example_symbols.
#[local] Existing Instance example_layout.
#[local] Existing Instance mount_ops.
#[local] Existing Instance mount_filesystems.
#[local] Existing Instance mount_handles.
#[local] Existing Instance mount_calls.

Definition empty_table : pagetable := mk_pagetable 2 0 (replicate 340 blank_entry).
Definition loading_space : space :=
  mk_space (mk_vmem (mk_pmem (mk_kmem 0xffffffff 0x80028000) (mk_pool [15; 0] 40 36 3) (mk_cpu 0xff01 ∅)) {[0x80003000 := empty_table]})
    (replicate 16 blank_entry) 0.
Definition a_loading : sys (over lock_tables kernel) (vfs (mount_point ramdisk) (over semaphores kernel)) toy_tty :=
  mk_sys (mk_pstate process_rows 100 (process_threads 2) loading_space mount_state) a_memory None.

Lemma loading_mem : mem_ok (mem_of a_loading) 0x80003000 empty_table.
Proof.
  change (mem_of a_loading) with (with_cpu (cpu_of (process_threads 2)) loading_space). apply mem_cpu; [|vm_check|reflexivity].
  split.
  - reflexivity.
  - split.
    { split; cbn; [repeat constructor; vm_check|vm_check|lia|vm_check|lia|]. intros i Hi. assert (i = 0 \/ i = 1 \/ i = 2) as [->|[-> | ->]] by lia; reflexivity. }
    split; [split; [vm_check|apply not_elem_of_empty]|]. split; [vm_check|].
    intros addr t Ht. change (({[0x80003000 := empty_table]} : gmap Z pagetable) !! addr = Some t) in Ht.
    apply lookup_singleton_Some in Ht as [<- <-]. split; [apply fresh_table_ok; [reflexivity|apply blank_entries_ok]|].
    exists 3. split; [reflexivity|]. split; [lia|]. split; [cbn; lia|reflexivity].
  - split; [constructor|constructor].
  - intros a u i _ _. apply not_elem_of_nil.
Qed.
Lemma loading_empty q : translate empty_table q = None.
Proof. reflexivity. Qed.

Definition an_image : elf_info_t := mk_elf 0x401000 (mk_segment 148 8 1 0x401000) (mk_segment 156 4 2 0x402000).
Lemma an_image_layout : layout an_image.
Proof. split; [| |left; vm_check]; (split; [repeat split; vm_check|]); split; [vm_check|split; [vm_check|by right]|vm_check|vm_check]. Qed.

(** The parts of the file that become the segments. *)
Definition program_file : list Z := splice file_of_600 0 a_program.


Lemma push_arguments_correct_witness :
  wp (_ ← map_page 0x80003000 0x7fffe000;
      push_arguments 0x80003000 [91; 118; 93; 97; 0] 1 [[98; 99; 0; 7]] (replicate 33 0)) (fun a s' => a.1 = 2 /\
    exists t, has_arguments t 0x7fffe000 USERLAND_STACK_TOP (sy_ram s') 2 a.2 [[91; 118; 93; 97]; [98; 99]]) a_loading.
Proof.
  apply wp_bind. eapply wp_mono; [apply (map_page_run a_loading 0x80003000 empty_table); [exact loading_mem|vm_check|reflexivity|vm_check]|].
  intros ok s (-> & Hcase). rewrite bool_decide_true in Hcase by (by apply Z.ltb_lt; vm_compute). destruct Hcase as (t & f & _ & Hmore). pose proof (mr_mem _ _ _ _ _ _ _ Hmore) as Hm. pose proof (mr_pages _ _ _ _ _ _ _ Hmore 0x7fffe) as [g Hg].
  eapply wp_mono; [apply (push_arguments_correct s 0x80003000 t 0x7fffe000 [91; 118; 93; 97; 0] [91; 118; 93; 97] 1 [[98; 99; 0; 7]] [[98; 99]])|].
  - exact Hm.
  - split; [lia|]. split; [vm_check|]. intros i Hi. unfold USERLAND_STACK_TOP in Hi. unfold writable.
    replace ((0x7fffe000 + i) / 4096) with 0x7fffe; [by rewrite Hg|]. rewrite (Z.add_comm _ i). change 0x7fffe000 with (0x7fffe * 4096).
    rewrite Z.div_add, Z.div_small by lia. done.
  - lia.
  - reflexivity.
  - reflexivity.
  - vm_check.
  - vm_check.
  - reflexivity.
  - intros [|k] str Hk; [|by destruct k]. injection Hk as <-. eexists. split; reflexivity.
  - intros a s' (r & sp & -> & -> & _ & Ha). split; [done|]. by exists t.
Defined.

(** ** A process is started

    The program is the file [a] of the volume; thread 1, which has no page table
    yet, starts it with one argument as a child of process 1. *)
Definition program_device : ramdisk := mk_ramdisk
  (<[5%nat := take 512 program_file]> (<[4%nat := drop 512 program_file ++ replicate 424 0]> (rd_blocks a_device))) [].
Definition program_path : list Z := [91; 118; 93; 97; 0].
Definition a_child : child_process_create_data_t := mk_child 1 0 0 program_path 1 [[98; 99; 0]].
Definition some_locals : start_locals :=
  mk_locals (replicate 52 7) (replicate 32 7) (mk_elf 0 no_segment no_segment) (replicate 33 7) (fun _ => replicate 340 blank_entry).
Definition a_starting : sys (over lock_tables kernel) (vfs (mount_point ramdisk) (over semaphores kernel)) toy_tty :=
  mk_sys (mk_pstate process_rows 100 (process_threads 1) a_space (mount_state_of program_device)) a_memory None.

Lemma program_device_ok : device_ok program_device.
Proof.
  split; [vm_check|].
  assert (Hall : Forall (fun k => is_Some (entry_cname (contents program_device TFS_DIRECTORY_BLOCK) k)) (seqZ 0 25)).
  { apply (bool_decide_unpack _). vm_compute. exact I. }
  intros k Hk. rewrite Forall_forall in Hall. apply Hall, elem_of_seqZ. unfold TFS_MAX_FILES in Hk. lia.
Qed.
Lemma program_fs_file : fs_file (S := over semaphores kernel) (mount_fs_of program_device) v_page 3 program_file.
Proof.
  assert (Hb : file_blocks program_device 3 = [5; 4]) by (vm_compute; reflexivity).
  assert (Hs : file_size program_device 3 = 600) by (vm_compute; reflexivity).
  split; [done|]. split; [done|]. change (mp_disk (mount_fs_of program_device)) with program_device. split; [|split; [apply mount_body, program_device_ok|]].
  - split; [cbn; lia|lia|rewrite Hb; repeat constructor; cbn; lia|rewrite Hb; apply (bool_decide_unpack _); vm_compute; exact I].
  - split; [rewrite Hb; repeat constructor; lia|vm_compute; reflexivity].
Qed.
Lemma program_opens : opens program_path (mount_state_of program_device) (Some program_file).
Proof.
  assert (Hbytes : Forall is_byte program_path) by (repeat constructor; unfold is_byte; lia).
  pose proof (vfs_open_law (mount_state_of program_device) program_path [91; 118; 93; 97] (mount_files_ok _ program_device_ok) Hbytes eq_refl) as H1.
  pose proof (wpv_run mount_ids _ _ _ _ (mount_at program_device) (open_run mount_ids (mount_view_of program_device) local_array local_array program_path _
    (mount_view_ok _ program_device_ok) eq_refl Hbytes eq_refl local_array_ok local_array_ok)) as H2.
  assert (H3 : wp (Vfs.vfs_open local_array local_array program_path) (fun r s' => r = 4 /\ files s' !! 4%nat = Some (mk_openfile v_page 3 0))
    (mount_state_of program_device)) by (vm_compute; by split).
  eapply wp_mono; [exact (wp_and _ _ _ _ H1 (wp_and _ _ _ _ H2 H3))|]. clear H1 H2 H3.
  intros r s' ((Hok & Hr) & (w' & Hat & Hw) & -> & Hrow). destruct Hr as (H0 & Hno & _ & Hk). split; [exact Hok|]. split; [done|]. split; [exact Hno|]. split; [exact Hk|].
  change (split_path [91; 118; 93; 97]) with (Some ([118], [97])) in Hw. destruct Hw as (k & _ & Hw). cbv beta iota in Hw.
  change (volume (rows (mount_view_of program_device)) [118]) with v_page in Hw.
  destruct (CONFIG_MAX_OPEN_FILES <=? k); [by destruct Hw|]. destruct Hw as (f' & (_ & _ & Hkeep) & Hfile & [[? _]|(id & _ & _ & _ & ->)]); [done|].
  destruct Hat as (y & -> & _). exists (mk_openfile v_page 3 0). split; [done|]. split; [exact Hrow|]. split; [vm_check|]. split; [done|].
  split; [apply Hfile, program_fs_file|]. split; [by apply Hkeep|]. split; vm_check.
Qed.

Lemma a_starting_idle k : is_lock k -> idle (ps_threads (sy_proc a_starting)) k.
Proof. intros Hk. split; [by apply process_lock|]. intros _. change (waiting_thread_count (lock (mk_over open_tables (process_kernel 1)) k) = 0). by rewrite open_free. Qed.
Lemma a_starting_ok : can_start a_starting (Some a_child).
Proof.
  split.
  - by apply process_rows_wf.
  - apply process_settled. by left.
  - by vm_compute.
  - apply a_starting_idle. vm_check.
  - intros d' [= <-]. split; [vm_check|]. split; [by intros [Hno _]|]. split; [apply a_starting_idle; vm_check|done].
  - intros k Hk [Ht _].
    assert (Hall : Forall (fun e => tid e = PROCESS_NO_OWNER_TID -> heap_vaddr e = 0) process_rows) by (apply (bool_decide_unpack _); vm_compute; exact I).
    rewrite Forall_forall in Hall. apply Hall; [|exact Ht]. apply (list_elem_of_lookup_2 _ (Z.to_nat k)), list_lookup_lookup_total_lt.
    unfold is_pid, CONFIG_MAX_PROCESSES in Hk. change (Z.to_nat k < 32)%nat. lia.
  - split; [|by vm_compute]. pose proof (space_ok_cpu (cpu_of (process_threads 1)) a_space _ _ a_space_ok) as Hs. unshelve epose proof (Hs _ _) as Hs2; [vm_check|reflexivity|]. exact (so_vm _ _ _ Hs2).
  - apply mount_files_ok, program_device_ok.
Qed.
Lemma a_program_ok : program_ok a_starting some_locals program_path (Some program_file).
Proof.
  assert (Himg : image program_file = an_image) by (vm_compute; reflexivity).
  split.
  - exact program_opens.
  - intros c [= <-]. split; [apply (bool_decide_unpack _); vm_compute; exact I|]. split; [vm_check|]. intros _. rewrite Himg. split; [exact an_image_layout|]. by vm_compute.
  - split; [done|]. split; [done|]. intros a. split; [done|apply blank_entries_ok].
Qed.



