(* ===== verification/Ring.v ===== *)
(** * Ring buffers: a run of elements that wraps around the end of an array *)
From S2P Require Import Prelude.

Section ring.
Context {A : Type} `{!Inhabited A} (size : Z) (size_pos : 0 < size).
Implicit Types (buf : list A) (h n : Z).

(** The [n] elements from index [h] on, in order. *)
Definition ring buf h n : list A := (fun i => buf !!! Z.to_nat ((h + i) mod size)) <$> seqZ 0 n.

Lemma length_ring buf h n : 0 <= n -> zlen (ring buf h n) = n.
Proof. intros Hn. unfold ring. rewrite length_fmap, length_seqZ. lia. Qed.

Lemma ring_none buf h : ring buf h 0 = [].
Proof. done. Qed.

Lemma mod_differ a d : 0 < d < size -> (a + d) mod size <> a mod size.
Proof.
  intros Hd Heq. pose proof (Z.div_mod (a + d) size ltac:(lia)) as H1. pose proof (Z.div_mod a size ltac:(lia)) as H2.
  assert (Hk : d = size * ((a + d) / size - a / size)) by lia.
  destruct (Z.lt_trichotomy ((a + d) / size - a / size) 0) as [|[|]]; nia.
Qed.

(** A slot outside the run. *)
Lemma ring_insert_out buf h n j x :
  n <= j < size -> zlen buf = size -> ring (<[Z.to_nat ((h + j) mod size):=x]> buf) h n = ring buf h n.
Proof.
  intros Hj Hl. unfold ring. apply list_fmap_ext. intros k i Hi.
  apply lookup_seqZ in Hi as [-> Hk]. apply list_lookup_total_insert_ne. intros Heq.
  pose proof (Z.mod_pos_bound (h + j) size size_pos). pose proof (Z.mod_pos_bound (h + (0 + Z.of_nat k)) size size_pos).
  apply (mod_differ (h + (0 + Z.of_nat k)) (j - Z.of_nat k)); [lia|].
  replace (h + (0 + Z.of_nat k) + (j - Z.of_nat k)) with (h + j) by lia. lia.
Qed.

Lemma ring_snoc buf h n : 0 <= n -> ring buf h (n + 1) = ring buf h n ++ [buf !!! Z.to_nat ((h + n) mod size)].
Proof.
  intros Hn. unfold ring. rewrite seqZ_app by lia. rewrite fmap_app. f_equal.
Qed.

Lemma index_in buf i : zlen buf = size -> (Z.to_nat (i mod size) < length buf)%nat.
Proof. intros Hl. pose proof (Z.mod_pos_bound i size size_pos). lia. Qed.

(** Adding behind. *)
Lemma ring_push buf h n x :
  0 <= n < size -> zlen buf = size -> ring (<[Z.to_nat ((h + n) mod size):=x]> buf) h (n + 1) = ring buf h n ++ [x].
Proof.
  intros Hn Hl. rewrite ring_snoc by lia. rewrite ring_insert_out by lia. do 2 f_equal.
  apply list_lookup_total_insert_eq. by apply index_in.
Qed.

(** Taking the first. *)
Lemma ring_pop buf h n :
  0 < n -> ring buf h n = (buf !!! Z.to_nat (h mod size)) :: ring buf ((h + 1) mod size) (n - 1).
Proof.
  intros Hn. unfold ring. rewrite seqZ_cons by lia. cbn [fmap list_fmap]. rewrite Z.add_0_r. f_equal.
  replace (Z.succ 0) with (1 + 0) by lia. rewrite <- fmap_add_seqZ, <- list_fmap_compose. replace (Z.pred n) with (n - 1) by lia.
  apply list_fmap_ext. intros k i _. cbn. rewrite Zplus_mod_idemp_l. do 2 f_equal. f_equal. lia.
Qed.

(** Adding to a full ring replaces the first element as well. *)
Lemma ring_push_full buf h x :
  zlen buf = size -> ring (<[Z.to_nat ((h + size) mod size):=x]> buf) h (size + 1) = x :: tail (ring buf h size) ++ [x].
Proof.
  intros Hl. assert (Hw : (h + size) mod size = h mod size).
  { rewrite <- (Z.mul_1_l size) at 1. by rewrite Z_mod_plus_full. }
  rewrite ring_snoc by lia. rewrite Hw. rewrite list_lookup_total_insert_eq by (by apply index_in).
  rewrite !(ring_pop _ h size) by lia. rewrite list_lookup_total_insert_eq by (by apply index_in). cbn [tail app]. f_equal.
  assert (Hh : h mod size = ((h + 1) mod size + (size - 1)) mod size).
  { rewrite Zplus_mod_idemp_l. replace (h + 1 + (size - 1)) with (h + size) by lia. done. }
  rewrite Hh. rewrite ring_insert_out by lia. done.
Qed.
End ring.
