(* ===== verification/Tty.v ===== *)
(** * drivers/tty.c: the terminal driver

    Writers put characters into a buffer that the handler of the terminal's
    interrupts empties into the device; the handler puts what is typed into
    another buffer, from which readers take it.  Both wait, in the sleep
    queue, for their buffer: [tty_write] and [tty_read] are cut where they
    switch to another thread.  The terminal itself is a class: its three
    registers, and what the documentation of the machine says about them. *)
From S2P Require Import Prelude Cpu Ring Waiting.

(** ** The terminal *)

Definition TTY_STATUS_RAVAIL (status : Z) : Z := Z.land status 0x00000001.
Definition TTY_STATUS_WBUSY (status : Z) : Z := Z.shiftr (Z.land status 0x00000002) 1.
Definition TTY_STATUS_RIRQ (status : Z) : Z := Z.shiftr (Z.land status 0x00000004) 2.
Definition TTY_STATUS_WIRQ (status : Z) : Z := Z.shiftr (Z.land status 0x00000008) 3.
Definition TTY_STATUS_ERROR (status : Z) : Z := Z.shiftr (Z.land status 0x80000000) 31.
Definition TTY_COMMAND_RIRQ : Z := 0x01.
Definition TTY_COMMAND_WIRQ : Z := 0x02.
Definition TTY_COMMAND_WIRQE : Z := 0x03.
Definition TTY_COMMAND_WIRQD : Z := 0x04.
Definition TTY_BUF_SIZE : Z := 2048.

(** What there is to know about a terminal: the words typed and not read, the
    characters shown, whether it is showing one, the interrupts it asks for,
    and whether it may ask when it has shown one. *)
Record port := mk_port {
  p_in : list Z;
  p_out : list Z;
  p_busy : bool;
  p_rirq : bool;
  p_wirq : bool;
  p_wirqe : bool
}.

Class TtyHardware (D : Type) := {
  (** Reading and writing the registers. *)
  io_status : D -> Z;
  io_take : D -> Z * D;          (** reading the data port *)
  io_put : Z -> D -> D;          (** writing it *)
  io_command : Z -> D -> D;

  hw : D -> port;
  hw_ravail d : Z.testbit (io_status d) 0 = bool_decide (p_in (hw d) <> []);
  hw_wbusy d : Z.testbit (io_status d) 1 = p_busy (hw d);
  hw_rirq d : Z.testbit (io_status d) 2 = p_rirq (hw d);
  hw_wirq d : Z.testbit (io_status d) 3 = p_wirq (hw d);
  (** The commands acknowledge interrupts and switch those of output. *)
  hw_ack_read d : p_rirq (hw d) = true -> let d' := io_command TTY_COMMAND_RIRQ d in
    Z.testbit (io_status d') 31 = false /\
    hw d' = mk_port (p_in (hw d)) (p_out (hw d)) (p_busy (hw d)) false (p_wirq (hw d)) (p_wirqe (hw d));
  hw_ack_write d : hw (io_command TTY_COMMAND_WIRQ d) =
    mk_port (p_in (hw d)) (p_out (hw d)) (p_busy (hw d)) (p_rirq (hw d)) false (p_wirqe (hw d));
  hw_enable d : exists b, hw (io_command TTY_COMMAND_WIRQE d) =
    mk_port (p_in (hw d)) (p_out (hw d)) (p_busy (hw d)) (p_rirq (hw d)) b true;
  hw_disable d : hw (io_command TTY_COMMAND_WIRQD d) =
    mk_port (p_in (hw d)) (p_out (hw d)) (p_busy (hw d)) (p_rirq (hw d)) (p_wirq (hw d)) false;
  (** Reading takes the word typed first. *)
  hw_take d w ws : p_in (hw d) = w :: ws -> exists d', io_take d = (w, d') /\
    hw d' = mk_port ws (p_out (hw d)) (p_busy (hw d)) (p_rirq (hw d)) (p_wirq (hw d)) (p_wirqe (hw d));
  (** A terminal that is not busy shows the low byte of what is written; it is
      busy for a while, or has asked for an interrupt already. *)
  hw_put d w : p_busy (hw d) = false -> exists b r, hw (io_put w d) =
      mk_port (p_in (hw d)) (p_out (hw d) ++ [w mod 256]) b (p_rirq (hw d)) r (p_wirqe (hw d)) /\
    (p_wirqe (hw d) = true -> b || r = true);
  (** It has shown its character. *)
  hw_finish : D -> D;
  hw_finished d : p_busy (hw d) = true -> hw (hw_finish d) =
    mk_port (p_in (hw d)) (p_out (hw d)) false (p_rirq (hw d)) (p_wirq (hw d) || p_wirqe (hw d)) (p_wirqe (hw d))
}.

(** What the terminal does by itself: a key is typed, or a character has been
    shown. *)
Inductive hw_step (p : port) : option Z -> port -> Prop :=
| hw_typed w : hw_step p (Some w) (mk_port (p_in p ++ [w]) (p_out p) (p_busy p) true (p_wirq p) (p_wirqe p))
| hw_shown : p_busy p = true ->
    hw_step p None (mk_port (p_in p) (p_out p) false (p_rirq p) (p_wirq p || p_wirqe p) (p_wirqe p)).

(** ** The code *)

(** [tty_real_device_t], its address and the registers. *)
Record tty_real_device_t (D : Type) := mk_tty {
  tty_rd : Z;
  slock : Z;
  read_buf : list Z;
  read_head : Z;
  read_count : Z;
  write_buf : list Z;
  write_head : Z;
  write_count : Z;
  iobase : D
}.
Arguments mk_tty {D} _ _ _ _ _ _ _ _ _.
Arguments tty_rd {D} t.
Arguments slock {D} t.
Arguments read_buf {D} t.
Arguments read_head {D} t.
Arguments read_count {D} t.
Arguments write_buf {D} t.
Arguments write_head {D} t.
Arguments write_count {D} t.
Arguments iobase {D} t.

Section code.
Context {D K : Type} `{!TtyHardware D, !HasCpu K, !Symbols, !SleepQueues K}.
Abbreviation tty := (tty_real_device_t D).
Abbreviation state := (over tty K).

(** The addresses threads sleep on. *)
Definition read_buf_addr (t : tty) : Z := tty_rd t + 4.
Definition write_buf_addr (t : tty) : Z := tty_rd t + 2060.

Definition with_io (d : D) (t : tty) : tty :=
  mk_tty (tty_rd t) (slock t) (read_buf t) (read_head t) (read_count t) (write_buf t) (write_head t) (write_count t) d.
Definition with_read (b : list Z) (h n : Z) (t : tty) : tty :=
  mk_tty (tty_rd t) (slock t) b h n (write_buf t) (write_head t) (write_count t) (iobase t).
Definition with_write (b : list Z) (h n : Z) (t : tty) : tty :=
  mk_tty (tty_rd t) (slock t) (read_buf t) (read_head t) (read_count t) b h n (iobase t).

Definition get_status : M tty Z := gets (fun t => io_status (iobase t)).
Definition put_command (c : Z) : M tty unit := modify (fun t => with_io (io_command c (iobase t)) t).
Definition get_data : M tty Z := fun t => let (w, d) := io_take (iobase t) in Ret (w, with_io d t).
Definition put_data (w : Z) : M tty unit := modify (fun t => with_io (io_put w (iobase t)) t).

(** A [char] as the word written to a register, and the converse. *)
Definition word_of_char (c : Z) : Z := if c <? 128 then c else u32 (c - 256).
Definition char_of_word (w : Z) : Z := w mod 256.

(** Initially both buffers are empty; [lock] is kprintf's spinlock for the
    first terminal and a new one for the others. *)
Definition tty_init_real (addr lock : Z) (rbuf wbuf : list Z) (d : D) : tty := mk_tty addr lock rbuf 0 0 wbuf 0 0 d.

(** [iobase->data = write_buf[write_head]], and the character is gone. *)
Definition emit : M tty unit :=
  t ← gets id;
  c ← lift (rget (write_buf t) (write_head t));
  _ ← put_data (word_of_char c);
  modify (fun t => with_write (write_buf t) (Z.rem (write_head t + 1) TTY_BUF_SIZE) (write_count t - 1) t).

(** The handler's loop over the characters to write, [n] rounds at most. *)
Fixpoint send_all (n : nat) : M tty unit :=
  status ← get_status;
  t ← gets id;
  if (TTY_STATUS_WBUSY status =? 0) && (0 <? write_count t) then
    match n with
    | O => fail Timeout
    | S n => _ ← put_command TTY_COMMAND_WIRQ; _ ← emit; send_all n
    end
  else mret tt.

(** The loop between the two commands that switch the interrupts of output. *)
Definition send_part : M tty unit :=
  _ ← put_command TTY_COMMAND_WIRQD;
  _ ← put_command TTY_COMMAND_WIRQ;
  t ← gets id;
  _ ← send_all (Z.to_nat (write_count t));
  put_command TTY_COMMAND_WIRQE.

Definition store_char (data : Z) : M tty unit :=
  t ← gets id;
  if TTY_BUF_SIZE <? read_count t then mret tt
  else
    let index := Z.rem (read_head t + read_count t) TTY_BUF_SIZE in
    b ← lift (rset (read_buf t) index data);
    modify (fun t => with_read b (read_head t) (read_count t + 1) t).

(** The handler's loop over the characters typed. *)
Fixpoint receive_all (n : nat) : M tty unit :=
  status ← get_status;
  if TTY_STATUS_RAVAIL status =? 0 then mret tt
  else
    match n with
    | O => fail Timeout
    | S n => w ← get_data; _ ← store_char (char_of_word w); receive_all n
    end.

(** The command, the test for an error and the loop. *)
Definition receive_part : M tty unit :=
  _ ← put_command TTY_COMMAND_RIRQ;
  status ← get_status;
  _ ← kassert (TTY_STATUS_ERROR status =? 0);
  t ← gets id;
  receive_all (length (p_in (hw (iobase t)))).

Definition write_interrupt : M state unit :=
  t ← on_tab (gets id);
  _ ← spinlock_acquire (slock t);
  _ ← on_tab send_part;
  t ← on_tab (gets id);
  _ ← (if write_count t =? 0 then sq_wake_all (write_buf_addr t) else mret tt);
  spinlock_release (slock t).

Definition read_interrupt : M state unit :=
  t ← on_tab (gets id);
  _ ← spinlock_acquire (slock t);
  _ ← on_tab receive_part;
  _ ← spinlock_release (slock t);
  sq_wake_all (read_buf_addr t).

Definition tty_interrupt_handle : M state unit :=
  status ← on_tab get_status;
  _ ← (if TTY_STATUS_WIRQ status =? 0 then mret tt else write_interrupt);
  status ← on_tab get_status;
  if TTY_STATUS_RIRQ status =? 0 then mret tt else read_interrupt.

(** [while (write_count < TTY_BUF_SIZE && i < len)]: answers the new [i]. *)
Fixpoint fill (n : nat) (buf : list Z) (len i : Z) : M tty Z :=
  t ← gets id;
  if (write_count t <? TTY_BUF_SIZE) && (i <? len) then
    match n with
    | O => fail Timeout
    | S n =>
        let index := Z.rem (write_head t + write_count t) TTY_BUF_SIZE in
        c ← lift (rget buf i);
        b ← lift (rset (write_buf t) index c);
        _ ← modify (fun t => with_write b (write_head t) (write_count t + 1) t);
        fill n buf len (i + 1)
    end
  else mret i.

(** Fill the buffer; if the device is not busy, write one character to cause
    an interrupt. *)
Definition write_round (buf : list Z) (len i : Z) : M tty Z :=
  i' ← fill (Z.to_nat (len - i)) buf len i;
  status ← get_status;
  _ ← (if TTY_STATUS_WBUSY status =? 0 then emit else mret tt);
  mret i'.

(** A call that returns its result, or one that has gone to sleep with [i]
    characters written and this interrupt state to restore. *)
Inductive progress := Returned (r : Z) | Asleep (i intr_status : Z).

Fixpoint write_loop (n : nat) (buf : list Z) (len i intr_status : Z) : M state progress :=
  t ← on_tab (gets id);
  if i <? len then
    if 0 <? write_count t then
      _ ← sq_add (write_buf_addr t);
      _ ← spinlock_release (slock t);
      mret (Asleep i intr_status)
    else
      match n with
      | O => fail Timeout
      | S n =>
          i' ← on_tab (write_round buf len i);
          write_loop n buf len i' intr_status
      end
  else
    _ ← spinlock_release (slock t);
    _ ← interrupt_set_state intr_status;
    mret (Returned i).

Definition tty_write (buf : list Z) (len : Z) : M state progress :=
  intr_status ← interrupt_disable;
  t ← on_tab (gets id);
  _ ← spinlock_acquire (slock t);
  write_loop (Z.to_nat len) buf len 0 intr_status.
Definition tty_write_resume (buf : list Z) (len i intr_status : Z) : M state progress :=
  t ← on_tab (gets id);
  _ ← spinlock_acquire (slock t);
  write_loop (Z.to_nat (len - i)) buf len i intr_status.

(** [while (read_count > 0 && i < len)]: the characters put into the caller's
    buffer, after those in [acc]. *)
Fixpoint drain (n : nat) (len : Z) (acc : list Z) : M tty (list Z) :=
  t ← gets id;
  if (0 <? read_count t) && (zlen acc <? len) then
    match n with
    | O => fail Timeout
    | S n =>
        c ← lift (rget (read_buf t) (read_head t));
        _ ← modify (fun t => with_read (read_buf t) (Z.rem (read_head t + 1) TTY_BUF_SIZE) (read_count t - 1) t);
        drain n len (acc ++ [c])
    end
  else mret acc.

(** [None] when the caller has gone to sleep; otherwise what was read, whose
    length is the result. *)
Definition read_attempt (len intr_status : Z) : M state (option (list Z)) :=
  t ← on_tab (gets id);
  _ ← spinlock_acquire (slock t);
  if read_count t =? 0 then
    _ ← sq_add (read_buf_addr t);
    _ ← spinlock_release (slock t);
    mret None
  else
    cs ← on_tab (drain (Z.to_nat (read_count t)) len []);
    _ ← spinlock_release (slock t);
    _ ← interrupt_set_state intr_status;
    mret (Some cs).

Definition tty_read (len : Z) : M state (Z * option (list Z)) :=
  intr_status ← interrupt_disable;
  r ← read_attempt len intr_status;
  mret (intr_status, r).
Definition tty_read_resume (len intr_status : Z) : M state (Z * option (list Z)) :=
  r ← read_attempt len intr_status;
  mret (intr_status, r).
End code.

(** ** What the buffers hold *)
Section facts.
Context {D K : Type} `{!TtyHardware D, !HasCpu K, !Symbols, SQ : !SleepQueues K}.
Abbreviation tty := (tty_real_device_t D).
Abbreviation state := (over tty K).
Implicit Types (t : tty) (s : state).

(** Characters typed and stored, not yet read; characters written and not yet
    given to the device. *)
Definition unread t : list Z := ring TTY_BUF_SIZE (read_buf t) (read_head t) (read_count t).
Definition unsent t : list Z := ring TTY_BUF_SIZE (write_buf t) (write_head t) (write_count t).
Definition bytes (cs : list Z) : list Z := (fun c => c mod 256) <$> cs.
(** All that has been or will be shown, all that can still be read. *)
Definition output t : list Z := p_out (hw (iobase t)) ++ bytes (unsent t).
Definition input t : list Z := unread t ++ (char_of_word <$> p_in (hw (iobase t))).
Definition chars (buf : list Z) (i j : Z) : list Z := slice buf (Z.to_nat i) (Z.to_nat (j - i)).

(** What the handler does with a character: the buffer of 2048 takes 2049, the
    last of which replaces the first as well, and drops the others. *)
Definition accept (v : list Z) (c : Z) : list Z :=
  if TTY_BUF_SIZE <? zlen v then v
  else if zlen v =? TTY_BUF_SIZE then c :: tail v ++ [c] else v ++ [c].

Definition place t : Z * Z := (tty_rd t, slock t).
Definition read_side t := (read_buf t, read_head t, read_count t, p_in (hw (iobase t)), p_rirq (hw (iobase t))).
Definition write_side t := (write_buf t, write_head t, write_count t,
  (p_out (hw (iobase t)), p_busy (hw (iobase t)), p_wirq (hw (iobase t)), p_wirqe (hw (iobase t)))).

Record tty_ok t : Prop := {
  to_lock : slock t <> sleepq_slock /\ slock t <> thread_table_slock;
  to_addr : 0 < tty_rd t /\ tty_rd t + 2060 < 4294967296;
  to_rlen : zlen (read_buf t) = TTY_BUF_SIZE;
  to_rhead : 0 <= read_head t < TTY_BUF_SIZE;
  to_rcount : 0 <= read_count t <= TTY_BUF_SIZE + 1;
  to_wlen : zlen (write_buf t) = TTY_BUF_SIZE;
  to_whead : 0 <= write_head t < TTY_BUF_SIZE;
  to_wcount : 0 <= write_count t <= TTY_BUF_SIZE
}.

(** Both buffers are as they should be; nobody waits to write unless there is
    something to show, nor to read unless there is nothing to read; and
    whatever there is to show or to read, the terminal has asked for the
    interrupt or will when it has shown a character. *)
Record tty_inv t (k : K) : Prop := {
  ti_tab : tty_ok t;
  ti_sys : sq_ok k;
  ti_enabled : p_wirqe (hw (iobase t)) = true;
  ti_sending : 0 < write_count t -> p_busy (hw (iobase t)) || p_wirq (hw (iobase t)) = true;
  ti_typed : p_in (hw (iobase t)) <> [] -> p_rirq (hw (iobase t)) = true;
  ti_writers : waiting k (write_buf_addr t) <> [] -> 0 < write_count t;
  ti_readers : waiting k (read_buf_addr t) <> [] -> read_count t = 0
}.

Lemma size_pos : 0 < TTY_BUF_SIZE.
Proof. done. Qed.

Lemma bytes_word c : word_of_char c mod 256 = c mod 256.
Proof.
  unfold word_of_char, u32. destruct (c <? 128); [done|].
  rewrite <- (Znumtheory.Zmod_div_mod 256 4294967296) by (done || by exists 16777216).
  replace (c - 256) with (c + (-1) * 256) by lia. apply Z_mod_plus_full.
Qed.

Lemma flag_zero x i : 0 <= i -> (Z.shiftr (Z.land x (2 ^ i)) i =? 0) = negb (Z.testbit x i).
Proof.
  intros Hi. destruct (Z.eqb_spec (Z.shiftr (Z.land x (2 ^ i)) i) 0) as [E|E].
  - apply (f_equal (fun y => Z.testbit y 0)) in E. rewrite Z.shiftr_spec, Z.land_spec, Z.bits_0 in E by lia.
    rewrite Z.add_0_l, Z.pow2_bits_true in E by lia. by rewrite andb_true_r in E; rewrite E.
  - destruct (Z.testbit x i) eqn:Hb; [done|]. exfalso. apply E. apply Z.bits_inj'. intros n Hn.
    rewrite Z.shiftr_spec, Z.land_spec, Z.bits_0, Z.pow2_bits_eqb by lia.
    destruct (Z.eqb_spec i (n + i)) as [Hni|]; [|apply andb_false_r]. by rewrite <- Hni, Hb.
Qed.
Lemma busy_flag (d : D) : (TTY_STATUS_WBUSY (io_status d) =? 0) = negb (p_busy (hw d)).
Proof. rewrite <- hw_wbusy. by apply (flag_zero _ 1). Qed.
Lemma rirq_flag (d : D) : (TTY_STATUS_RIRQ (io_status d) =? 0) = negb (p_rirq (hw d)).
Proof. rewrite <- hw_rirq. by apply (flag_zero _ 2). Qed.
Lemma wirq_flag (d : D) : (TTY_STATUS_WIRQ (io_status d) =? 0) = negb (p_wirq (hw d)).
Proof. rewrite <- hw_wirq. by apply (flag_zero _ 3). Qed.
Lemma ravail_flag (d : D) : (TTY_STATUS_RAVAIL (io_status d) =? 0) = bool_decide (p_in (hw d) = []).
Proof.
  pose proof (flag_zero (io_status d) 0 ltac:(lia)) as Hf. rewrite Z.shiftr_0_r in Hf. unfold TTY_STATUS_RAVAIL.
  change 1 with (2 ^ 0). rewrite Hf, hw_ravail. repeat case_bool_decide; done.
Qed.

Lemma wp_get {S A} (k : S -> M S A) (Q : A -> S -> Prop) (x : S) : wp (k x) Q x -> wp (t ← gets id; k t) Q x.
Proof. done. Qed.

Lemma chars_snoc buf i j c : 0 <= i <= j -> buf !! Z.to_nat j = Some c -> chars buf i (j + 1) = chars buf i j ++ [c].
Proof.
  intros Hij Hc. unfold chars, slice. replace (Z.to_nat (j + 1 - i)) with (S (Z.to_nat (j - i))) by lia.
  apply take_S_r. rewrite lookup_drop. by replace (Z.to_nat i + Z.to_nat (j - i))%nat with (Z.to_nat j) by lia.
Qed.
Lemma chars_app buf i j k : 0 <= i <= j -> j <= k -> chars buf i k = chars buf i j ++ chars buf j k.
Proof.
  intros Hij Hjk. unfold chars. replace (Z.to_nat j) with (Z.to_nat i + Z.to_nat (j - i))%nat by lia.
  rewrite slice_app_slice. f_equal. lia.
Qed.
Lemma chars_nil buf i j : j <= i -> chars buf i j = [].
Proof. intros Hij. unfold chars, slice. by replace (Z.to_nat (j - i)) with O by lia. Qed.

(** Output that loses nothing: characters move from the buffer to the device. *)
Record sends t t' : Prop := {
  sd_ok : tty_ok t';
  sd_place : place t' = place t;
  sd_read : read_side t' = read_side t;
  sd_output : output t' = output t;
  sd_count : write_count t' <= write_count t
}.

Lemma sends_refl t : tty_ok t -> sends t t.
Proof. intros Hok. by split. Qed.

Lemma sends_trans t1 t2 t3 : sends t1 t2 -> sends t2 t3 -> sends t1 t3.
Proof. intros [] []. split; [done|congruence..|lia]. Qed.

Lemma sends_io t d :
  tty_ok t -> p_in (hw d) = p_in (hw (iobase t)) -> p_out (hw d) = p_out (hw (iobase t)) ->
  p_rirq (hw d) = p_rirq (hw (iobase t)) -> sends t (with_io d t).
Proof.
  intros [] Hi Ho Hr. split; [by split|done| | |cbn; lia].
  - unfold read_side. cbn. by rewrite Hi, Hr.
  - unfold output. cbn. by rewrite Ho.
Qed.

Lemma emit_run t :
  tty_ok t -> 0 < write_count t -> p_busy (hw (iobase t)) = false ->
  wp emit (fun _ t' => sends t t' /\ write_count t' = write_count t - 1 /\
    p_wirqe (hw (iobase t')) = p_wirqe (hw (iobase t)) /\
    (p_wirqe (hw (iobase t)) = true -> p_busy (hw (iobase t')) || p_wirq (hw (iobase t')) = true)) t.
Proof.
  intros Hok Hc Hb. unfold emit. apply wp_get, wp_bind.
  destruct (rget_in (write_buf t) (write_head t)) as (c & Hr & Hl); [rewrite (to_wlen _ Hok); apply Hok|].
  eapply wp_lift; [exact Hr|]. apply wp_bind, wp_modify, wp_modify. cbn.
  destruct (hw_put (iobase t) (word_of_char c) Hb) as (b & r & Hput & Hnext).
  pose proof (to_whead _ Hok) as Hh. rewrite Z.rem_mod_nonneg by lia.
  split; [|split; [done|rewrite Hput; by split; [|auto]]]. split.
  - destruct Hok. split; cbn; try done; [apply Z.mod_pos_bound; lia|lia].
  - done.
  - unfold read_side. cbn. by rewrite Hput.
  - unfold output, unsent. cbn. rewrite Hput. cbn [p_out]. rewrite <- app_assoc. f_equal.
    rewrite (ring_pop _ _ (write_head t) (write_count t)) by lia. rewrite (Z.mod_small (write_head t)) by lia.
    rewrite (list_lookup_total_correct _ _ _ Hl). cbn. by rewrite bytes_word.
  - cbn. lia.
Qed.

Lemma send_all_run n t :
  tty_ok t -> write_count t <= Z.of_nat n ->
  wp (send_all n) (fun _ t' => sends t t' /\ (p_busy (hw (iobase t')) = true \/ write_count t' = 0) /\
    (p_busy (hw (iobase t)) = false -> 0 < write_count t -> write_count t' < write_count t)) t.
Proof.
  revert t. induction n as [|n IH]; intros t Hok Hn; cbn [send_all]; apply wp_bind, wp_gets, wp_get; rewrite busy_flag.
  - replace (0 <? write_count t) with false by lia. rewrite andb_false_r. apply wp_ret.
    pose proof (to_wcount _ Hok). split; [by apply sends_refl|]. split; [right; lia|lia].
  - destruct (p_busy (hw (iobase t))) eqn:Hb; cbn [negb andb].
    { apply wp_ret. split; [by apply sends_refl|]. by split; [left|]. }
    destruct (Z.ltb_spec 0 (write_count t)) as [Hc|Hc].
    2:{ apply wp_ret. pose proof (to_wcount _ Hok). split; [by apply sends_refl|]. split; [right; lia|lia]. }
    apply wp_bind, wp_modify. set (t1 := with_io _ t).
    assert (Hs1 : sends t t1) by (apply sends_io; rewrite ?hw_ack_write; done).
    apply wp_bind. eapply wp_mono; [apply emit_run; [apply Hs1|done|cbn; by rewrite hw_ack_write]|].
    intros _ t2 (Hs2 & Hc2 & _). change (write_count t1) with (write_count t) in Hc2.
    eapply wp_mono; [apply IH; [apply Hs2|lia]|]. intros _ t3 (Hs3 & Hend & _).
    split; [by eapply sends_trans, sends_trans|]. split; [done|]. intros _ _. pose proof (sd_count _ _ Hs3). lia.
Qed.

Lemma send_part_run t :
  tty_ok t ->
  wp send_part (fun _ t' => sends t t' /\ p_wirqe (hw (iobase t')) = true /\
    (p_busy (hw (iobase t')) = true \/ write_count t' = 0) /\
    (p_busy (hw (iobase t)) = false -> 0 < write_count t -> write_count t' < write_count t)) t.
Proof.
  intros Hok. unfold send_part. apply wp_bind, wp_modify. set (t1 := with_io _ t).
  assert (Hs1 : sends t t1) by (apply sends_io; rewrite ?hw_disable; done).
  apply wp_bind, wp_modify. set (t2 := with_io _ t1).
  assert (Hs2 : sends t1 t2) by (apply sends_io; rewrite ?hw_ack_write; first [done|apply Hs1]).
  apply wp_get, wp_bind. eapply wp_mono; [apply send_all_run; [apply Hs2|]|].
  { pose proof (to_wcount _ (sd_ok _ _ Hs2)). lia. }
  intros _ t3 (Hs3 & Hend & Hlt). apply wp_modify.
  destruct (hw_enable (iobase t3)) as [b Hb].
  assert (Hs4 : sends t3 (with_io (io_command TTY_COMMAND_WIRQE (iobase t3)) t3)) by (apply sends_io; rewrite ?Hb; first [done|apply Hs3]).
  split; [by eapply sends_trans, sends_trans, sends_trans|]. cbn. rewrite Hb. split; [done|]. split; [done|].
  intros Hbusy Hc. apply Hlt; [|done]. cbn. by rewrite hw_ack_write; cbn; rewrite hw_disable.
Qed.

(** *** Input *)
Lemma length_unread t : tty_ok t -> zlen (unread t) = read_count t.
Proof. intros Hok. apply length_ring, Hok. Qed.

Lemma store_char_run t c :
  tty_ok t ->
  wp (store_char c) (fun _ t' => tty_ok t' /\ place t' = place t /\ write_side t' = write_side t /\
    iobase t' = iobase t /\ unread t' = accept (unread t) c) t.
Proof.
  intros Hok. pose proof (to_rcount _ Hok) as Hc. pose proof (to_rhead _ Hok) as Hh. pose proof (to_rlen _ Hok) as Hl.
  unfold store_char. apply wp_get. unfold accept. rewrite length_unread by done.
  destruct (Z.ltb_spec TTY_BUF_SIZE (read_count t)); [by apply wp_ret|].
  rewrite Z.rem_mod_nonneg by lia. pose proof (Z.mod_pos_bound (read_head t + read_count t) TTY_BUF_SIZE size_pos) as Hi.
  apply wp_bind. eapply wp_lift; [apply rset_in; lia|]. apply wp_modify. split; [|split; [done|split; [done|split; [done|]]]].
  - destruct Hok. split; cbn; try done; [rewrite length_insert; done|lia].
  - unfold unread. cbn. destruct (Z.eqb_spec (read_count t) TTY_BUF_SIZE) as [Heq|].
    + rewrite Heq. by apply (ring_push_full _ size_pos).
    + apply (ring_push _ size_pos); [lia|done].
Qed.

Lemma receive_all_run n t :
  tty_ok t -> (length (p_in (hw (iobase t))) <= n)%nat ->
  wp (receive_all n) (fun _ t' => tty_ok t' /\ place t' = place t /\ write_side t' = write_side t /\
    p_in (hw (iobase t')) = [] /\ unread t' = foldl accept (unread t) (char_of_word <$> p_in (hw (iobase t)))) t.
Proof.
  revert t. induction n as [|n IH]; intros t Hok Hn; cbn [receive_all]; apply wp_bind, wp_gets; rewrite ravail_flag;
    destruct (p_in (hw (iobase t))) as [|w ws] eqn:Hin; cbn [bool_decide decide_rel]; try (apply wp_ret; by rewrite Hin); cbn [length] in Hn; [lia|].
  destruct (hw_take (iobase t) w ws Hin) as (d' & Htake & Hd').
  apply wp_bind. apply (wp_eq _ _ _ w (with_io d' t)); [unfold get_data; by rewrite Htake|].
  set (t1 := with_io d' t). assert (Hok1 : tty_ok t1) by (by destruct Hok).
  apply wp_bind. eapply wp_mono; [by apply store_char_run|]. intros _ t2 (Hok2 & Hp2 & Hw2 & Hio2 & Hu2).
  assert (Hd2 : hw (iobase t2) = hw d') by (by rewrite Hio2).
  eapply wp_mono; [apply IH; [done|rewrite Hd2, Hd'; cbn; lia]|].
  intros _ t3 (Hok3 & Hp3 & Hw3 & Hin3 & Hu3). split; [done|]. split; [by rewrite Hp3, Hp2|]. split.
  - rewrite Hw3, Hw2. unfold write_side. cbn. by rewrite Hd'.
  - split; [done|]. rewrite Hu3, Hu2, Hd2, Hd'. done.
Qed.

Lemma receive_part_run t :
  tty_ok t -> p_rirq (hw (iobase t)) = true ->
  wp receive_part (fun _ t' => tty_ok t' /\ place t' = place t /\ write_side t' = write_side t /\
    p_in (hw (iobase t')) = [] /\ unread t' = foldl accept (unread t) (char_of_word <$> p_in (hw (iobase t)))) t.
Proof.
  intros Hok Hr. destruct (hw_ack_read (iobase t) Hr) as [Herr Hack].
  unfold receive_part. apply wp_bind, wp_modify. set (t1 := with_io _ t). apply wp_bind, wp_gets, wp_bind, wp_kassert.
  { pose proof (flag_zero (io_status (iobase t1)) 31 ltac:(lia)) as Hf. unfold TTY_STATUS_ERROR.
    change 0x80000000 with (2 ^ 31). rewrite Hf. cbn [t1 with_io iobase]. by rewrite Herr. }
  apply wp_get. assert (Hok1 : tty_ok t1) by (by destruct Hok).
  eapply wp_mono; [by apply receive_all_run|]. intros _ t2 (Hok2 & Hp2 & Hw2 & Hin2 & Hu2).
  split; [done|]. split; [done|]. split; [|split; [done|]].
  - rewrite Hw2. unfold write_side. cbn. by rewrite Hack.
  - rewrite Hu2. cbn. by rewrite Hack.
Qed.

(** Where there is room nothing is lost. *)
Lemma accept_room v cs : zlen v + zlen cs <= TTY_BUF_SIZE -> foldl accept v cs = v ++ cs.
Proof.
  revert v. induction cs as [|c cs IH]; intros v Hr; cbn [foldl length] in *; [by rewrite app_nil_r|].
  unfold accept at 2. rewrite (proj2 (Z.ltb_ge _ _)), (proj2 (Z.eqb_neq _ _)) by lia.
  rewrite IH by (rewrite length_app; cbn; lia). by rewrite <- app_assoc.
Qed.

(** *** The threads' side *)
Lemma fill_run n buf len i t :
  tty_ok t -> 0 <= i <= len -> len <= zlen buf -> len - i <= Z.of_nat n ->
  wp (fill n buf len i) (fun j t' => tty_ok t' /\ place t' = place t /\ read_side t' = read_side t /\
    iobase t' = iobase t /\ i <= j <= len /\ unsent t' = unsent t ++ chars buf i j /\
    write_count t' = write_count t + (j - i) /\ (j = len \/ write_count t' = TTY_BUF_SIZE)) t.
Proof.
  revert i t. induction n as [|n IH]; intros i t Hok Hi Hlen Hn; cbn [fill]; apply wp_get;
    pose proof (to_wcount _ Hok) as Hc; pose proof (to_whead _ Hok) as Hh; pose proof (to_wlen _ Hok) as Hl.
  { replace (i <? len) with false by lia. rewrite andb_false_r. apply wp_ret. rewrite chars_nil, app_nil_r by lia.
    split_and!; try done; lia. }
  destruct (Z.ltb_spec (write_count t) TTY_BUF_SIZE), (Z.ltb_spec i len); cbn [andb];
    try (apply wp_ret; rewrite chars_nil, app_nil_r by lia; split_and!; try done; lia).
  rewrite Z.rem_mod_nonneg by lia. pose proof (Z.mod_pos_bound (write_head t + write_count t) TTY_BUF_SIZE size_pos) as Hx.
  destruct (rget_in buf i) as (c & Hr & Hb); [lia|]. apply wp_bind. eapply wp_lift; [exact Hr|].
  apply wp_bind. eapply wp_lift; [apply rset_in; lia|]. apply wp_bind, wp_modify. set (t1 := with_write _ _ _ t).
  assert (Hok1 : tty_ok t1) by (destruct Hok; split; cbn; try done; [by rewrite length_insert|lia]).
  eapply wp_mono; [apply (IH (i + 1) t1 Hok1); lia|].
  intros j t2 (Hok2 & Hp2 & Hr2 & Hio2 & Hj & Hu2 & Hc2 & Hend). split; [done|]. split; [done|]. split; [done|]. split; [done|].
  split; [lia|]. split; [|split; [cbn in Hc2; lia|done]]. rewrite Hu2, (chars_app buf i (i + 1) j) by lia.
  rewrite (chars_snoc buf i i c) by (lia || done). rewrite (chars_nil buf i i) by lia. cbn [app].
  assert (Hu1 : unsent t1 = unsent t ++ [c]) by (apply (ring_push _ size_pos); [lia|done]).
  by rewrite Hu1, <- app_assoc.
Qed.

Lemma drain_run n len acc t :
  tty_ok t -> read_count t <= Z.of_nat n ->
  wp (drain n len acc) (fun cs t' => tty_ok t' /\ place t' = place t /\ write_side t' = write_side t /\
    iobase t' = iobase t /\ let k := Z.to_nat (len - zlen acc) in cs = acc ++ take k (unread t) /\ unread t' = drop k (unread t)) t.
Proof.
  revert acc t. induction n as [|n IH]; intros acc t Hok Hn; cbn [drain]; apply wp_get;
    pose proof (to_rcount _ Hok) as Hc; pose proof (to_rhead _ Hok) as Hh; pose proof (to_rlen _ Hok) as Hl.
  { replace (0 <? read_count t) with false by lia. cbn [andb]. apply wp_ret. unfold unread.
    replace (read_count t) with 0 by lia. rewrite ring_none, take_nil, drop_nil, app_nil_r. done. }
  destruct (Z.ltb_spec 0 (read_count t)); cbn [andb].
  2:{ apply wp_ret. unfold unread. replace (read_count t) with 0 by lia. rewrite ring_none, take_nil, drop_nil, app_nil_r. done. }
  destruct (Z.ltb_spec (zlen acc) len).
  2:{ apply wp_ret. replace (Z.to_nat (len - zlen acc)) with O by lia. rewrite take_0, drop_0, app_nil_r. done. }
  destruct (rget_in (read_buf t) (read_head t)) as (c & Hr & Hb); [lia|]. apply wp_bind. eapply wp_lift; [exact Hr|].
  apply wp_bind, wp_modify. rewrite Z.rem_mod_nonneg by lia. set (t1 := with_read _ _ _ t).
  assert (Hok1 : tty_ok t1) by (destruct Hok; split; cbn; try done; [apply Z.mod_pos_bound; lia|lia]).
  eapply wp_mono; [apply (IH (acc ++ [c]) t1 Hok1); cbn; lia|].
  intros cs t2 (Hok2 & Hp2 & Hw2 & Hio2 & -> & Hu2). split; [done|]. split; [done|]. split; [done|]. split; [done|].
  assert (Hu1 : unread t = c :: unread t1).
  { unfold unread. rewrite (ring_pop _ _ (read_head t)) by lia. rewrite (Z.mod_small (read_head t)) by lia.
    by rewrite (list_lookup_total_correct _ _ _ Hb). }
  rewrite Hu2, Hu1, length_app. cbn [length].
  replace (Z.to_nat (len - zlen acc)) with (S (Z.to_nat (len - Z.of_nat (length acc + 1)))) by lia.
  cbn. by rewrite <- app_assoc.
Qed.

(** *** The driver within the kernel *)

(** The processor may enter the driver; the calling thread may sleep. *)
Definition may_enter t (c : cpu) : Prop :=
  is_u32 (status c) /\ slock t ∉ held c /\ sleepq_slock ∉ held c /\ thread_table_slock ∉ held c.
Definition may_sleep (k : K) : Prop := cur_of k <> 0 /\ forall r, is_resource r -> cur_of k ∉ waiting k r.
(** If [b], the threads that slept on [a] sleep no more. *)
Definition wakes (b : bool) (a : Z) (k k' : K) : Prop :=
  forall r, is_resource r -> waiting k' r = if b && (r =? a) then [] else waiting k r.

Lemma wakes_cases b a k k' : wakes b a k k' -> forall r, is_resource r -> waiting k' r = [] \/ waiting k' r = waiting k r.
Proof. intros Hw r Hr. rewrite Hw by done. destruct (b && (r =? a)); auto. Qed.

Lemma addr_resource t : tty_ok t -> is_resource (read_buf_addr t) /\ is_resource (write_buf_addr t).
Proof. intros [_ Ha _ _ _ _ _ _]. unfold is_resource, read_buf_addr, write_buf_addr. lia. Qed.

Lemma addrs_differ t : (read_buf_addr t =? write_buf_addr t) = false.
Proof. unfold read_buf_addr, write_buf_addr. lia. Qed.

Lemma place_eq t t' : place t' = place t ->
  slock t' = slock t /\ read_buf_addr t' = read_buf_addr t /\ write_buf_addr t' = write_buf_addr t.
Proof. intros [= H1 H2]. unfold read_buf_addr, write_buf_addr. by rewrite H1, H2. Qed.

Lemma wake_run s a (Q : unit -> state -> Prop) b :
  sq_ok (sys s) -> is_resource a -> is_u32 (status (cpu_of s)) ->
  sleepq_slock ∉ held (cpu_of s) -> thread_table_slock ∉ held (cpu_of s) ->
  (forall k, sq_ok k -> cpu_of k = cpu_of s -> cur_of k = cur_of (sys s) -> wakes b a (sys s) k -> Q tt (mk_over (tab s) k)) ->
  wp (if b then sq_wake_all a else mret tt) Q s.
Proof.
  intros Hok Ha Hst Hl1 Hl2 HQ. destruct b; cbn [andb] in *.
  - eapply wp_mono; [by apply over_wake_all|]. intros [] [t' k] (Ht & Hok' & Hcpu & Hcur & Hw). cbn in Ht. subst t'. by apply HQ.
  - apply wp_ret. destruct s as [t k]. by apply HQ.
Qed.

(** What the handler's two parts do, in a state where the driver is idle. *)
Lemma write_interrupt_run s :
  tty_inv (tab s) (sys s) -> may_enter (tab s) (cpu_of s) ->
  wp write_interrupt (fun _ s' => tty_inv (tab s') (sys s') /\ cpu_of s' = cpu_of s /\ cur_of s' = cur_of s /\
    sends (tab s) (tab s') /\ wakes (write_count (tab s') =? 0) (write_buf_addr (tab s)) (sys s) (sys s') /\
    (p_busy (hw (iobase (tab s))) = false -> 0 < write_count (tab s) -> write_count (tab s') < write_count (tab s))) s.
Proof.
  intros Hinv (Hst & Hl & Hl1 & Hl2). pose proof (ti_tab _ _ Hinv) as Hok. destruct (to_lock _ Hok) as [Hne1 Hne2].
  destruct (addr_resource _ Hok) as [Hra Hwa].
  unfold write_interrupt. apply wp_bind, wp_on_tab, wp_gets, wp_bind. destruct s as [t k]. cbn [tab sys id] in *.
  apply wp_acquire; [done|]. apply wp_bind, wp_on_tab. eapply wp_mono; [by apply send_part_run|].
  intros _ t1 (Hs & He & Hend & Hlt). apply wp_bind, wp_on_tab, wp_gets, wp_bind. cbn [tab sys id with_cpu HasCpu_over].
  destruct (place_eq _ _ (sd_place _ _ Hs)) as (Hp1 & Hp2 & Hp3). rewrite Hp3.
  apply wake_run; cbn [tab sys]; [apply sq_ok_cpu, Hinv|done|cbn; rewrite cpu_of_with..|]; cbn [status held]; [done|set_solver..|].
  intros k2 Hok2 Hcpu2 Hcur2 Hw2. apply wp_release. rewrite Hp1. cbn [tab sys with_cpu HasCpu_over].
  cbn [cpu_of HasCpu_over sys] in *. rewrite Hcpu2, !cpu_of_with. cbn [status held].
  rewrite held_release by done. replace (mk_cpu _ _) with (cpu_of k) by (by destruct (cpu_of k)).
  rewrite cur_of_cpu in Hcur2.
  assert (Hw : wakes (write_count t1 =? 0) (write_buf_addr t) k (with_cpu (cpu_of k) k2)).
  { intros r Hr. rewrite waiting_cpu, Hw2 by done. by rewrite waiting_cpu. }
  split; [|split; [done|split; [cbn; by rewrite cur_of_cpu|by split]]].
  pose proof (sd_read _ _ Hs) as [= Hr1 Hr2 Hr3 Hr4 Hr5]. destruct Hinv as [_ Hsys _ _ Hty Hwr Hrd]. split.
  - apply Hs.
  - by apply sq_ok_cpu.
  - done.
  - intros Hc. destruct Hend as [->|Hz]; [done|lia].
  - by rewrite Hr4, Hr5.
  - rewrite Hp3, Hw, Z.eqb_refl, andb_true_r by done. destruct (Z.eqb_spec (write_count t1) 0); [done|].
    intros _. pose proof (to_wcount _ (sd_ok _ _ Hs)). lia.
  - rewrite Hp2, Hr3, Hw by done. rewrite addrs_differ, andb_false_r. done.
Qed.

Lemma read_interrupt_run s :
  tty_inv (tab s) (sys s) -> may_enter (tab s) (cpu_of s) -> p_rirq (hw (iobase (tab s))) = true ->
  wp read_interrupt (fun _ s' => tty_inv (tab s') (sys s') /\ cpu_of s' = cpu_of s /\ cur_of s' = cur_of s /\
    place (tab s') = place (tab s) /\ write_side (tab s') = write_side (tab s) /\ p_in (hw (iobase (tab s'))) = [] /\
    unread (tab s') = foldl accept (unread (tab s)) (char_of_word <$> p_in (hw (iobase (tab s)))) /\
    wakes true (read_buf_addr (tab s)) (sys s) (sys s')) s.
Proof.
  intros Hinv (Hst & Hl & Hl1 & Hl2) Hr. pose proof (ti_tab _ _ Hinv) as Hok.
  destruct (addr_resource _ Hok) as [Hra Hwa].
  unfold read_interrupt. apply wp_bind, wp_on_tab, wp_gets, wp_bind. destruct s as [t k]. cbn [tab sys id] in *.
  apply wp_acquire; [done|]. apply wp_bind, wp_on_tab. eapply wp_mono; [by apply receive_part_run|].
  intros _ t1 (Hok1 & Hp & Hws & Hin & Hu). apply wp_bind, wp_release.
  cbn [tab sys with_cpu cpu_of HasCpu_over]. rewrite !cpu_of_with, !with_cpu_with. cbn [status held].
  rewrite held_release by done. replace (mk_cpu _ _) with (cpu_of k) by (by destruct (cpu_of k)). rewrite with_cpu_of.
  destruct (place_eq _ _ Hp) as (Hp1 & Hp2 & Hp3).
  apply (wake_run _ _ _ true); [apply Hinv|done..|].
  cbn [tab sys cpu_of HasCpu_over]. intros k2 Hok2 Hcpu2 Hcur2 Hw2. split; [|by split_and!].
  injection Hws as Hw1 Hw3 Hw4 Hw5 Hw6 Hw7 Hw8. destruct Hinv as [_ Hsys He Hse Hty Hwr Hrd]. split.
  - done.
  - done.
  - by rewrite Hw8.
  - by rewrite Hw4, Hw6, Hw7.
  - by rewrite Hin.
  - rewrite Hp3, Hw4, Hw2 by done. rewrite Z.eqb_sym, addrs_differ. done.
  - rewrite Hp2, Hw2, Z.eqb_refl by done. done.
Qed.

(** The whole handler: what is typed goes behind what was typed before, what is
    shown or will be does not change, and nobody is left waiting without
    reason. *)
Definition interrupt_done s s' : Prop :=
  tty_inv (tab s') (sys s') /\ cpu_of s' = cpu_of s /\ cur_of s' = cur_of s /\ place (tab s') = place (tab s) /\
  output (tab s') = output (tab s) /\ write_count (tab s') <= write_count (tab s) /\ p_in (hw (iobase (tab s'))) = [] /\
  unread (tab s') = foldl accept (unread (tab s)) (char_of_word <$> p_in (hw (iobase (tab s)))) /\
  (p_in (hw (iobase (tab s))) <> [] -> waiting (sys s') (read_buf_addr (tab s)) = []) /\
  (p_wirq (hw (iobase (tab s))) = true ->
    (p_busy (hw (iobase (tab s))) = false -> 0 < write_count (tab s) -> write_count (tab s') < write_count (tab s)) /\
    (write_count (tab s') = 0 -> waiting (sys s') (write_buf_addr (tab s)) = [])) /\
  (forall r, is_resource r -> r <> read_buf_addr (tab s) -> r <> write_buf_addr (tab s) -> waiting (sys s') r = waiting (sys s) r) /\
  (forall r, is_resource r -> waiting (sys s') r = [] \/ waiting (sys s') r = waiting (sys s) r).

Lemma interrupt_run s :
  tty_inv (tab s) (sys s) -> may_enter (tab s) (cpu_of s) ->
  wp tty_interrupt_handle (fun _ s' => interrupt_done s s') s.
Proof.
  intros Hinv Hen. pose proof (ti_tab _ _ Hinv) as Hok. destruct (addr_resource _ Hok) as [Hra Hwa].
  unfold tty_interrupt_handle. apply wp_bind, wp_on_tab, wp_gets, wp_bind. destruct s as [t k]. rewrite wirq_flag. cbn [tab sys] in *.
  set (b := p_wirq (hw (iobase t))).
  eapply (wp_mono _ (fun _ s1 => tty_inv (tab s1) (sys s1) /\ cpu_of s1 = cpu_of k /\ cur_of s1 = cur_of k /\
    sends t (tab s1) /\ wakes (b && (write_count (tab s1) =? 0)) (write_buf_addr t) k (sys s1) /\
    (b = true -> p_busy (hw (iobase t)) = false -> 0 < write_count t -> write_count (tab s1) < write_count t))).
  { destruct b; cbn [negb andb]; [|by apply wp_ret; split_and!; try done; apply sends_refl].
    eapply wp_mono; [by apply write_interrupt_run|]. cbn [tab sys]. intros _ s1 (H1 & H2 & H3 & H4 & H5 & H6). by split_and!. }
  intros _ [t1 k1] (Hinv1 & Hcpu1 & Hcur1 & Hs1 & Hw1 & Hlt1). cbn [tab sys] in *.
  apply wp_bind, wp_on_tab, wp_gets. cbn [tab sys]. rewrite rirq_flag.
  destruct (place_eq _ _ (sd_place _ _ Hs1)) as (Hp1 & Hp2 & Hp3).
  pose proof (sd_read _ _ Hs1) as [= Hr1 Hr2 Hr3 Hr4 Hr5].
  assert (Hun : unread t1 = unread t) by (unfold unread; by rewrite Hr1, Hr2, Hr3).
  assert (Hz1 : b = true -> write_count t1 = 0 -> waiting k1 (write_buf_addr t) = []).
  { intros Hb Hz. rewrite Hw1 by done. by rewrite Hb, Hz, !Z.eqb_refl. }
  destruct (p_rirq (hw (iobase t1))) eqn:Hrirq; cbn [negb].
  - eapply wp_mono; [apply read_interrupt_run; [done| |done]|].
    { cbn [tab cpu_of HasCpu_over sys] in *. unfold may_enter in *. by rewrite Hcpu1, Hp1. }
    cbn [tab sys]. intros _ [t2 k2] (Hinv2 & Hcpu2 & Hcur2 & Hpl2 & Hws2 & Hin2 & Hu2 & Hw2). cbn [tab sys] in *.
    injection Hws2 as Hwb Hwh Hwc Hpo _ _ _. unfold interrupt_done. cbn [tab sys].
    split; [done|]. split; [by rewrite Hcpu2|]. split; [by rewrite Hcur2|]. split; [by rewrite Hpl2, (sd_place _ _ Hs1)|].
    split; [rewrite <- (sd_output _ _ Hs1); unfold output, unsent; by rewrite Hwb, Hwh, Hwc, Hpo|].
    split; [rewrite Hwc; apply Hs1|]. split; [done|]. split; [by rewrite Hu2, Hun, Hr4|]. split; [|split].
    + intros _. rewrite Hw2, Hp2 by done. by rewrite Z.eqb_refl.
    + intros Hb. rewrite Hwc. split; [by apply Hlt1|]. intros Hz. rewrite Hw2, Hp2 by done.
      rewrite Z.eqb_sym, addrs_differ. by apply Hz1.
    + split; intros r Hr.
      * intros Hne1 Hne2. rewrite Hw2, Hp2 by done. rewrite (proj2 (Z.eqb_neq r _)) by done. cbn [andb].
        rewrite Hw1 by done. rewrite (proj2 (Z.eqb_neq r _)) by done. by rewrite andb_false_r.
      * destruct (wakes_cases _ _ _ _ Hw2 r Hr) as [->| ->]; [by left|by apply (wakes_cases _ _ _ _ Hw1)].
  - assert (Hin : p_in (hw (iobase t)) = []).
    { destruct (p_in (hw (iobase t))) eqn:Hin; [done|]. pose proof (ti_typed _ _ Hinv) as Hty. rewrite Hin in Hty.
      rewrite <- Hr5 in Hty. by discriminate Hty. }
    apply wp_ret. unfold interrupt_done. cbn [tab sys]. rewrite Hr4, Hin, Hun.
    split; [done|]. split; [done|]. split; [done|]. split; [apply Hs1|]. split; [apply Hs1|]. split; [apply Hs1|].
    split; [done|]. split; [done|]. split; [done|]. split; [intros Hb; split; [by apply Hlt1|by apply Hz1]|].
    split; [|by apply (wakes_cases _ _ _ _ Hw1)].
    intros r Hr _ Hne2. rewrite Hw1 by done. rewrite (proj2 (Z.eqb_neq r _)) by done. by rewrite andb_false_r.
Qed.

(** *** Writing *)
Lemma write_round_run buf len i t :
  tty_ok t -> write_count t = 0 -> p_wirqe (hw (iobase t)) = true -> 0 <= i < len -> len <= zlen buf ->
  wp (write_round buf len i) (fun j t' => tty_ok t' /\ place t' = place t /\ read_side t' = read_side t /\
    p_wirqe (hw (iobase t')) = true /\ i < j <= len /\ output t' = output t ++ bytes (chars buf i j) /\
    (0 < write_count t' -> p_busy (hw (iobase t')) || p_wirq (hw (iobase t')) = true)) t.
Proof.
  intros Hok Hc He Hi Hlen. unfold write_round. apply wp_bind. eapply wp_mono; [apply fill_run; lia || done|].
  intros j t1 (Hok1 & Hp1 & Hr1 & Hio1 & Hj & Hu1 & Hc1 & Hend). apply wp_bind, wp_gets, wp_bind. rewrite busy_flag.
  assert (Hij : i < j) by (unfold TTY_BUF_SIZE in Hend; lia).
  assert (Ho1 : output t1 = output t ++ bytes (chars buf i j)).
  { unfold output. rewrite Hio1, Hu1. unfold bytes. by rewrite fmap_app, app_assoc. }
  destruct (p_busy (hw (iobase t1))) eqn:Hb; cbn [negb].
  - apply wp_ret, wp_ret. rewrite Hb. split_and!; first [done|by rewrite Hio1|lia].
  - eapply wp_mono; [apply emit_run; [done|lia|done]|]. intros _ t2 (Hs2 & _ & He2 & Hn2). apply wp_ret.
    rewrite Hio1 in *. rewrite He2. split; [apply Hs2|]. split; [by rewrite (sd_place _ _ Hs2)|].
    split; [by rewrite (sd_read _ _ Hs2)|]. split; [done|]. split; [lia|]. split; [by rewrite (sd_output _ _ Hs2)|]. auto.
Qed.

Definition reached (r : progress) : Z := match r with Returned j => j | Asleep j _ => j end.

(** A call of [tty_write], or what runs when it is woken, has got from
    character [i] to where the answer says. *)
Definition write_done (buf : list Z) (len i st : Z) (h : gset Z) s (r : progress) s' : Prop :=
  tty_inv (tab s') (sys s') /\ cur_of s' = cur_of s /\ place (tab s') = place (tab s) /\
  read_side (tab s') = read_side (tab s) /\ output (tab s') = output (tab s) ++ bytes (chars buf i (reached r)) /\
  p_in (hw (iobase (tab s'))) = p_in (hw (iobase (tab s))) /\ (write_count (tab s) = 0 -> i < len -> i < reached r) /\
  match r with
  | Returned j => j = Z.max 0 len /\ cpu_of s' = mk_cpu st h /\ forall q, waiting (sys s') q = waiting (sys s) q
  | Asleep j st' => i <= j < len /\ st' = st /\ cpu_of s' = mk_cpu (Z.land 0xffff00fe st) h /\
      forall q, is_resource q -> waiting (sys s') q =
        if q =? write_buf_addr (tab s) then waiting (sys s) q ++ [cur_of s] else waiting (sys s) q
  end.

Lemma tty_inv_cpu t k c : tty_inv t k -> tty_inv t (with_cpu c k).
Proof. intros []. split; rewrite ?waiting_cpu; try done. by apply sq_ok_cpu. Qed.

Lemma write_loop_run n buf len i st h s :
  tty_inv (tab s) (sys s) -> may_sleep (sys s) -> is_u32 st ->
  cpu_of s = mk_cpu (Z.land 0xffff00fe st) ({[slock (tab s)]} ∪ h) -> slock (tab s) ∉ h -> sleepq_slock ∉ h ->
  0 <= i <= Z.max 0 len -> len <= zlen buf -> len - i <= Z.of_nat n ->
  wp (write_loop n buf len i st) (write_done buf len i st h s) s.
Proof.
  revert i s. induction n as [|n IH]; intros i [t k] Hinv [Hc0 Hnw] Hst Hcpu Hl Hl1 Hi Hlen Hn; cbn [write_loop];
    apply wp_bind, wp_on_tab, wp_gets; cbn [tab sys id] in *.
  all: assert (Hexit : len <= i -> wp (_ ← spinlock_release (slock t); _ ← interrupt_set_state st; mret (Returned i))
         (write_done buf len i st h (mk_over t k)) (mk_over t k)).
  1, 3: intros Hli; apply wp_bind, wp_release, wp_bind; rewrite Hcpu; cbn [status held]; rewrite held_release by done;
    apply wp_restore; [done|by rewrite cpu_of_with|]; intros _; apply wp_ret; cbn [tab sys with_cpu HasCpu_over cpu_of];
    unfold write_done; cbn [tab sys reached]; rewrite chars_nil, app_nil_r by lia; cbn [cpu_of HasCpu_over cur_of SleepQueues_over sys];
    rewrite !cpu_of_with, !cur_of_cpu; split_and!; try done; [by do 2 apply tty_inv_cpu|lia|lia|intros q; by rewrite !waiting_cpu].
  { rewrite (proj2 (Z.ltb_ge i len)) by lia. apply Hexit. lia. }
  destruct (Z.ltb_spec i len) as [Hlt|]; [|by apply Hexit]. clear Hexit.
  pose proof (ti_tab _ _ Hinv) as Hok. destruct (to_lock _ Hok) as [Hne1 _]. destruct (addr_resource _ Hok) as [Hra Hwa].
  destruct (Z.ltb_spec 0 (write_count t)) as [Hc|Hc].
  - apply wp_bind. eapply wp_mono.
    { apply over_add; [apply Hinv|exact Hwa| | | |exact Hc0|exact Hnw]; rewrite Hcpu; cbn [status held];
        [apply is_u32_land; [vm_check|apply Hst]|apply disable_off|set_solver]. }
    intros _ [t1 k1] (Ht1 & Hok1 & Hcpu1 & Hcur1 & Hw1). cbn [tab sys] in *. subst t1.
    apply wp_bind, wp_release, wp_ret. rewrite Hcpu1, Hcpu. cbn [status held with_cpu HasCpu_over tab sys]. rewrite held_release by done.
    assert (Hw : forall q, is_resource q -> waiting k1 q = if q =? write_buf_addr t then waiting k q ++ [cur_of k] else waiting k q).
    { intros q Hq. etransitivity; [exact (Hw1 q Hq)|]. by destruct (Z.eqb_spec q (write_buf_addr t)) as [->|]. }
    unfold write_done. cbn [tab sys reached cpu_of HasCpu_over cur_of SleepQueues_over].
    rewrite chars_nil, app_nil_r, cpu_of_with, cur_of_cpu by lia.
    split; [|split_and!; try done; [lia|intros q Hq; rewrite waiting_cpu; by apply Hw]].
    apply tty_inv_cpu. destruct Hinv as [_ _ He Hse Hty _ Hrd]. split; try done.
    rewrite Hw, addrs_differ by done. done.
  - apply wp_bind, wp_on_tab. pose proof (to_wcount _ Hok). cbn [tab sys].
    eapply wp_mono; [apply write_round_run; [done|lia|apply Hinv|lia|lia]|].
    intros j t1 (Hok1 & Hp1 & Hr1 & He1 & Hj & Ho1 & Hse1). cbn [tab sys] in *.
    destruct (place_eq _ _ Hp1) as (Hs1 & Hra1 & Hwa1). injection Hr1 as Hb1 Hb2 Hb3 Hb4 Hb5.
    assert (Hinv1 : tty_inv t1 k).
    { destruct Hinv as [_ Hsys He Hse Hty Hwr Hrd]. split; try done.
      - by rewrite Hb4, Hb5.
      - rewrite Hwa1. intros Hne. specialize (Hwr Hne). lia.
      - by rewrite Hra1, Hb3. }
    eapply wp_mono; [apply (IH j (mk_over t1 k)); cbn [tab sys]; rewrite ?Hs1; first [done|lia]|].
    intros r s2 (Hinv2 & Hcur2 & Hp2 & Hr2 & Ho2 & Hin2 & _ & Hres). cbn [tab sys] in *. unfold write_done. cbn [tab sys].
    split; [done|]. split; [done|]. split; [by rewrite Hp2|]. split; [rewrite Hr2; unfold read_side; congruence|]. rewrite Hwa1 in Hres.
    split.
    + rewrite Ho2, Ho1, <- app_assoc. f_equal. unfold bytes. rewrite <- fmap_app. f_equal. symmetry. apply chars_app; [lia|].
      destruct r; cbn [reached]; lia.
    + split; [by rewrite Hin2|]. split; [intros _ _; destruct r; cbn [reached]; lia|].
      destruct r; [done|]. split; [lia|]. apply Hres.
Qed.

Lemma write_done_cpu buf len i st h t k c r s' :
  write_done buf len i st h (mk_over t (with_cpu c k)) r s' -> write_done buf len i st h (mk_over t k) r s'.
Proof.
  unfold write_done. cbn [tab sys cur_of SleepQueues_over]. rewrite cur_of_cpu.
  intros (H1 & H2 & H3 & H4 & H5 & Hi & Hp & H6). split_and!; try done. destruct r as [j|j st'].
  - destruct H6 as (H6 & H7 & H8). split_and!; try done; intros q; by rewrite H8, waiting_cpu.
  - destruct H6 as (H6 & H7 & H8 & H9). split; [done|]. split; [done|]. split; [done|]. intros q Hq. by rewrite H9, waiting_cpu.
Qed.

Lemma may_sleep_cpu k c : may_sleep k -> may_sleep (with_cpu c k).
Proof. intros [H1 H2]. split; [by rewrite cur_of_cpu|]. intros r. rewrite waiting_cpu, cur_of_cpu. apply H2. Qed.

Lemma tty_write_run buf len s :
  tty_inv (tab s) (sys s) -> may_enter (tab s) (cpu_of s) -> may_sleep (sys s) -> len <= zlen buf ->
  wp (tty_write buf len) (write_done buf len 0 (status (cpu_of s)) (held (cpu_of s)) s) s.
Proof.
  destruct s as [t k]. cbn [tab sys cpu_of HasCpu_over]. intros Hinv (Hst & Hl & Hl1 & Hl2) Hms Hlen.
  unfold tty_write. apply wp_bind, wp_disable, wp_bind, wp_on_tab, wp_gets, wp_bind.
  cbn [tab sys id with_cpu cpu_of HasCpu_over]. apply wp_acquire; cbn [tab sys id with_cpu cpu_of HasCpu_over]; rewrite cpu_of_with; [done|].
  cbn [status held]. rewrite with_cpu_with. eapply wp_mono.
  { apply (write_loop_run _ buf len 0 (status (cpu_of k)) (held (cpu_of k))); cbn [tab sys cpu_of HasCpu_over]; first
      [by apply tty_inv_cpu|by apply may_sleep_cpu|by rewrite cpu_of_with|done|lia]. }
  intros r s'. apply write_done_cpu.
Qed.

(** The scheduler has chosen a thread that slept in [tty_write]. *)
Lemma tty_write_resume_run buf len i st s :
  tty_inv (tab s) (sys s) -> may_enter (tab s) (cpu_of s) -> may_sleep (sys s) -> len <= zlen buf ->
  is_u32 st -> status (cpu_of s) = Z.land 0xffff00fe st -> 0 <= i < len ->
  wp (tty_write_resume buf len i st) (write_done buf len i st (held (cpu_of s)) s) s.
Proof.
  destruct s as [t k]. cbn [tab sys cpu_of HasCpu_over]. intros Hinv (_ & Hl & Hl1 & Hl2) Hms Hlen Hst Hs Hi.
  unfold tty_write_resume. apply wp_bind, wp_on_tab, wp_gets, wp_bind.
  cbn [tab sys id]. apply wp_acquire; [done|]. cbn [tab sys id with_cpu cpu_of HasCpu_over].
  eapply wp_mono.
  { apply (write_loop_run _ buf len i st (held (cpu_of k))); cbn [tab sys cpu_of HasCpu_over]; first
      [by apply tty_inv_cpu|by apply may_sleep_cpu|by rewrite cpu_of_with, Hs|done|lia]. }
  intros r s'. apply write_done_cpu.
Qed.

(** *** Reading *)
Definition read_done (len st : Z) (h : gset Z) s (r : option (list Z)) s' : Prop :=
  tty_inv (tab s') (sys s') /\ cur_of s' = cur_of s /\ place (tab s') = place (tab s) /\
  write_side (tab s') = write_side (tab s) /\ p_in (hw (iobase (tab s'))) = p_in (hw (iobase (tab s))) /\
  match r with
  | Some cs => unread (tab s) <> [] /\ cs = take (Z.to_nat len) (unread (tab s)) /\
      unread (tab s') = drop (Z.to_nat len) (unread (tab s)) /\
      cpu_of s' = mk_cpu st h /\ forall q, waiting (sys s') q = waiting (sys s) q
  | None => unread (tab s) = [] /\ unread (tab s') = [] /\ cpu_of s' = mk_cpu (Z.land 0xffff00fe st) h /\
      forall q, is_resource q -> waiting (sys s') q =
        if q =? read_buf_addr (tab s) then waiting (sys s) q ++ [cur_of s] else waiting (sys s) q
  end.

Lemma read_attempt_run len st s :
  tty_inv (tab s) (sys s) -> may_enter (tab s) (cpu_of s) -> may_sleep (sys s) ->
  is_u32 st -> status (cpu_of s) = Z.land 0xffff00fe st ->
  wp (read_attempt len st) (read_done len st (held (cpu_of s)) s) s.
Proof.
  destruct s as [t k]. cbn [tab sys cpu_of HasCpu_over]. intros Hinv (Hs32 & Hl & Hl1 & Hl2) Hms Hst Hs.
  pose proof (ti_tab _ _ Hinv) as Hok. destruct (to_lock _ Hok) as [Hne1 _]. destruct (addr_resource _ Hok) as [Hra Hwa].
  pose proof (length_unread t Hok) as Hlen.
  unfold read_attempt. apply wp_bind, wp_on_tab, wp_gets, wp_bind.
  cbn [tab sys id]. apply wp_acquire; [done|]. cbn [tab sys id with_cpu cpu_of HasCpu_over].
  set (k0 := with_cpu _ k). destruct (may_sleep_cpu k _ Hms : may_sleep k0) as [Hc0 Hnw].
  assert (Hcpu0 : cpu_of k0 = mk_cpu (status (cpu_of k)) ({[slock t]} ∪ held (cpu_of k))) by apply cpu_of_with.
  assert (Hw0 : forall q, waiting k0 q = waiting k q) by (intros q; apply waiting_cpu).
  assert (Hcur0 : cur_of k0 = cur_of k) by apply cur_of_cpu.
  pose proof (tty_inv_cpu t k _ Hinv : tty_inv t k0) as Hinv0.
  destruct (Z.eqb_spec (read_count t) 0) as [Hz|Hz].
  - apply wp_bind. eapply wp_mono.
    { apply (over_add (mk_over t k0)); [apply Hinv0|exact Hra| | | |exact Hc0|exact Hnw]; cbn [cpu_of HasCpu_over sys];
        rewrite Hcpu0; cbn [status held]; rewrite ?Hs; [apply is_u32_land; [vm_check|apply Hst]|apply disable_off|set_solver]. }
    intros _ [t1 k1] (Ht1 & Hok1 & Hcpu1 & Hcur1 & Hw1). cbn [tab sys] in *. subst t1.
    apply wp_bind, wp_release, wp_ret. cbn [cpu_of HasCpu_over sys tab with_cpu] in *. rewrite Hcpu1, Hcpu0. cbn [status held].
    rewrite held_release by done.
    assert (Hw : forall q, is_resource q -> waiting k1 q = if q =? read_buf_addr t then waiting k q ++ [cur_of k] else waiting k q).
    { intros q Hq. etransitivity; [exact (Hw1 q Hq)|]. cbn [cur_of SleepQueues_over sys waiting]. rewrite !Hw0, Hcur0.
      by destruct (Z.eqb_spec q (read_buf_addr t)) as [->|]. }
    unfold read_done. cbn [tab sys cpu_of HasCpu_over cur_of SleepQueues_over] in *. rewrite cpu_of_with, cur_of_cpu, Hs.
    assert (Hnil : unread t = []) by (destruct (unread t); [done|cbn in Hlen; lia]).
    split; [|split_and!; try done; [by rewrite Hcur1|intros q Hq; rewrite waiting_cpu; by apply Hw]].
    apply tty_inv_cpu. destruct Hinv as [_ _ He Hse Hty Hwr _]. split; try done.
    rewrite Hw, Z.eqb_sym, addrs_differ by done. done.
  - apply wp_bind, wp_on_tab. cbn [tab sys]. eapply wp_mono; [apply drain_run; [done|lia]|].
    intros cs t1 (Hok1 & Hp1 & Hw1 & Hio1 & -> & Hu1). cbn [length] in *. rewrite Z.sub_0_r in *.
    destruct (place_eq _ _ Hp1) as (Hs1 & Hra1 & Hwa1).
    apply wp_bind, wp_release, wp_bind. cbn [cpu_of HasCpu_over sys tab with_cpu] in *. rewrite Hcpu0. cbn [status held].
    rewrite held_release by done. apply wp_restore; [done|cbn [cpu_of HasCpu_over sys]; by rewrite cpu_of_with|]. intros _. apply wp_ret.
    unfold read_done. cbn [tab sys cpu_of HasCpu_over cur_of SleepQueues_over with_cpu app]. rewrite !cpu_of_with, !cur_of_cpu.
    split; [|split_and!; try done; [by rewrite Hio1|by destruct (unread t); [cbn in Hlen; lia|]|intros q; by rewrite !waiting_cpu]].
    do 2 apply tty_inv_cpu. injection Hw1 as Hb1 Hb2 Hb3 Hb4 Hb5 Hb6 Hb7. destruct Hinv0 as [_ Hsys He Hse Hty Hwr Hrd]. split; try done.
    + by rewrite Hb7.
    + by rewrite Hb3, Hb5, Hb6.
    + by rewrite Hio1.
    + by rewrite Hwa1, Hb3.
    + rewrite Hra1. intros Hne. by specialize (Hrd Hne).
Qed.

(** *** Runs *)

(** What a step does: a thread passes on characters or takes some, the
    terminal moves, or nothing of this. *)
Inductive action := Wrote (cs : list Z) | Took (cs : list Z) | Device (typed : option Z) | Other.

(** Interrupts, calls of the two operations, threads that slept in one and have
    been chosen again, the terminal's own steps, and all that neither uses the
    terminal nor makes a thread sleep on its buffers or wake. *)
Inductive tty_step : state -> action -> state -> Prop :=
| step_interrupt s s' : may_enter (tab s) (cpu_of s) -> tty_interrupt_handle s = Ret (tt, s') -> tty_step s Other s'
| step_write s buf len r s' : may_enter (tab s) (cpu_of s) -> may_sleep (sys s) -> len <= zlen buf ->
    tty_write buf len s = Ret (r, s') -> tty_step s (Wrote (chars buf 0 (reached r))) s'
| step_write_resume s buf len i st r s' : may_enter (tab s) (cpu_of s) -> may_sleep (sys s) -> len <= zlen buf ->
    is_u32 st -> status (cpu_of s) = Z.land 0xffff00fe st -> 0 <= i < len ->
    tty_write_resume buf len i st s = Ret (r, s') -> tty_step s (Wrote (chars buf i (reached r))) s'
| step_read s len st r s' : may_enter (tab s) (cpu_of s) -> may_sleep (sys s) ->
    tty_read len s = Ret ((st, r), s') -> tty_step s (Took (default [] r)) s'
| step_read_resume s len st r s' : may_enter (tab s) (cpu_of s) -> may_sleep (sys s) ->
    is_u32 st -> status (cpu_of s) = Z.land 0xffff00fe st ->
    tty_read_resume len st s = Ret ((st, r), s') -> tty_step s (Took (default [] r)) s'
| step_terminal s o d : hw_step (hw (iobase (tab s))) o (hw d) ->
    tty_step s (Device o) (mk_over (with_io d (tab s)) (sys s))
| step_switch s k : sq_ok k ->
    (forall r, r = read_buf_addr (tab s) \/ r = write_buf_addr (tab s) -> waiting k r = waiting (sys s) r) ->
    tty_step s Other (mk_over (tab s) k).

(** Runs through states with the property [P]. *)
Inductive tty_run (P : state -> Prop) : state -> list action -> state -> Prop :=
| run_nil s : tty_run P s [] s
| run_cons s a s1 tr s' : P s -> tty_step s a s1 -> tty_run P s1 tr s' -> tty_run P s (a :: tr) s'.

Definition wrote (a : action) : list Z := match a with Wrote cs => cs | _ => [] end.
Definition took (a : action) : list Z := match a with Took cs => cs | _ => [] end.
Definition typed (a : action) : list Z := match a with Device (Some w) => [char_of_word w] | _ => [] end.

(** The buffer has room for all that has been typed. *)
Definition roomy s : Prop := read_count (tab s) + zlen (p_in (hw (iobase (tab s)))) <= TTY_BUF_SIZE.

Lemma tty_read_run len s :
  tty_inv (tab s) (sys s) -> may_enter (tab s) (cpu_of s) -> may_sleep (sys s) ->
  wp (tty_read len) (fun a s' => a.1 = status (cpu_of s) /\ read_done len (status (cpu_of s)) (held (cpu_of s)) s a.2 s') s.
Proof.
  destruct s as [t k]. cbn [tab sys cpu_of HasCpu_over]. intros Hinv (Hst & Hl & Hl1 & Hl2) Hms.
  unfold tty_read. apply wp_bind, wp_disable, wp_bind. cbn [with_cpu cpu_of HasCpu_over tab sys].
  set (c := mk_cpu _ _). eapply wp_mono.
  { apply (read_attempt_run len (status (cpu_of k)) (mk_over t (with_cpu c k))); cbn [tab sys cpu_of HasCpu_over];
      [by apply tty_inv_cpu| |by apply may_sleep_cpu|done|by rewrite cpu_of_with].
    unfold may_enter. rewrite cpu_of_with. split; [|done]. apply is_u32_land; [vm_check|apply Hst]. }
  intros r s' (H1 & H2 & H3 & H4 & H5 & H6). apply wp_ret. split; [done|].
  cbn [tab sys cpu_of HasCpu_over cur_of SleepQueues_over fst snd] in *. rewrite cpu_of_with in H6. rewrite cur_of_cpu in H2.
  split; [done|]. split; [done|]. split; [done|]. split; [done|]. split; [done|]. cbn [tab sys].
  destruct r as [cs|].
  - destruct H6 as (H6 & H7 & H8 & H9 & H10). split_and!; try done. intros q. by rewrite H10, waiting_cpu.
  - destruct H6 as (H6 & H7 & H8 & H9). split; [done|]. split; [done|]. split; [done|]. intros q Hq. cbn [cur_of SleepQueues_over sys].
    by rewrite H9, waiting_cpu, cur_of_cpu.
Qed.

Lemma read_done_took len st h s r s' : read_done len st h s r s' ->
  tty_inv (tab s') (sys s') /\ output (tab s') = output (tab s) /\ input (tab s) = default [] r ++ input (tab s').
Proof.
  intros (Hinv & _ & _ & [= Hw1 Hw2 Hw3 Hw4 _ _ _] & Hin & Hr). split; [done|].
  split; [unfold output, unsent; by rewrite Hw1, Hw2, Hw3, Hw4|]. unfold input. rewrite Hin. destruct r as [cs|]; cbn [from_option id].
  - destruct Hr as (_ & -> & -> & _). by rewrite app_assoc, take_drop.
  - by destruct Hr as (-> & -> & _).
Qed.

Lemma tty_step_ok s a s' :
  tty_inv (tab s) (sys s) -> tty_step s a s' ->
  tty_inv (tab s') (sys s') /\ output (tab s') = output (tab s) ++ bytes (wrote a) /\
  (roomy s -> input (tab s) ++ typed a = took a ++ input (tab s')).
Proof.
  intros Hinv Hstep. assert (Hof : forall A (m : M state A) Q a s', wp m Q s -> m s = Ret (a, s') -> Q a s').
  { intros A m Q b s1. unfold wp. intros HQ Hm. by rewrite Hm in HQ. }
  destruct Hstep as [s s' He Hr|s buf len r s' He Hm Hl Hr|s buf len i st r s' He Hm Hl H1 H2 Hi Hr|s len st r s' He Hm Hr
    |s len st r s' He Hm H1 H2 Hr|[t k] o d Hd|[t k] k' Hk Hw]; cbn [wrote took typed]; unfold bytes at 1; rewrite ?fmap_nil, ?app_nil_r.
  - apply (Hof _ _ _ _ _ (interrupt_run s Hinv He)) in Hr as (Hinv' & _ & _ & _ & Ho & _ & Hin & Hu & _).
    split; [done|]. split; [done|]. intros Hroom. cbn. unfold input. rewrite Hin, Hu, fmap_nil, app_nil_r.
    symmetry. apply accept_room. rewrite length_fmap, length_unread by apply Hinv. exact Hroom.
  - apply (Hof _ _ _ _ _ (tty_write_run buf len s Hinv He Hm Hl)) in Hr as (Hinv' & _ & _ & [= Hb1 Hb2 Hb3 Hb4 _] & Ho & _).
    split; [done|]. split; [done|]. intros _. unfold input, unread. by rewrite Hb1, Hb2, Hb3, Hb4.
  - apply (Hof _ _ _ _ _ (tty_write_resume_run buf len i st s Hinv He Hm Hl H1 H2 Hi)) in Hr as (Hinv' & _ & _ & [= Hb1 Hb2 Hb3 Hb4 _] & Ho & _).
    split; [done|]. split; [done|]. intros _. unfold input, unread. by rewrite Hb1, Hb2, Hb3, Hb4.
  - apply (Hof _ _ _ _ _ (tty_read_run len s Hinv He Hm)) in Hr as (_ & (Hinv' & Ho & Hi)%read_done_took). by split_and!.
  - unfold tty_read_resume in Hr. apply bind_inv in Hr as (r' & s1 & Hr & [= -> ->]).
    apply (Hof _ _ _ _ _ (read_attempt_run len st s Hinv He Hm H1 H2)) in Hr as (Hinv' & Ho & Hi)%read_done_took. by split_and!.
  - cbn [tab sys] in *. unfold output, input. cbn. destruct Hinv as [Hok Hsys Hen Hse Hty Hwr Hrd].
    remember (hw d) as p' eqn:Hp. destruct Hd as [w|Hb]; cbn.
    + split; [|split; [done|]].
      * split; cbn; rewrite <- ?Hp; cbn; try done. by destruct Hok.
      * intros _. by rewrite fmap_app, app_assoc.
    + split; [|split; [by rewrite ?app_nil_r|by rewrite ?app_nil_r]].
      split; cbn; rewrite <- ?Hp; cbn; try done; [by destruct Hok|]. rewrite Hen. by rewrite orb_true_r.
  - cbn [tab sys] in *. split; [|split; [by rewrite ?app_nil_r|by rewrite ?app_nil_r]].
    destruct Hinv. split; try done; rewrite Hw; auto.
Qed.

Lemma tty_run_ok P s tr s' :
  tty_inv (tab s) (sys s) -> tty_run P s tr s' ->
  tty_inv (tab s') (sys s') /\ output (tab s') = output (tab s) ++ bytes (mjoin (wrote <$> tr)) /\
  ((forall s, P s -> roomy s) -> input (tab s) ++ mjoin (typed <$> tr) = mjoin (took <$> tr) ++ input (tab s')).
Proof.
  intros Hinv Hrun. induction Hrun as [s|s a s1 tr s' HP Hstep _ IH].
  { split; [done|]. cbn. unfold bytes. by rewrite ?fmap_nil, ?app_nil_r. }
  destruct (tty_step_ok s a s1 Hinv Hstep) as (Hinv1 & Ho1 & Hi1). destruct (IH Hinv1) as (Hinv' & Ho' & Hi').
  split; [done|]. cbn. split.
  - rewrite Ho', Ho1, <- app_assoc. f_equal. unfold bytes. by rewrite fmap_app.
  - intros Hroom. rewrite app_assoc, Hi1 by auto. rewrite <- !app_assoc. f_equal. by apply Hi'.
Qed.

(** *** By itself *)

(** The terminal finishes what it shows, if anything, and its interrupt is
    handled. *)
Definition pulse : M state unit :=
  _ ← on_tab (modify (fun t => if p_busy (hw (iobase t)) then with_io (hw_finish (iobase t)) t else t));
  tty_interrupt_handle.
Fixpoint pulses (n : nat) : M state unit :=
  match n with O => mret tt | S n => _ ← pulse; pulses n end.

(** The output ends and nothing else changes, but for threads that are woken. *)
Definition drained s s' : Prop :=
  tty_inv (tab s') (sys s') /\ cpu_of s' = cpu_of s /\ cur_of s' = cur_of s /\ place (tab s') = place (tab s) /\
  output (tab s') = output (tab s) /\ (p_in (hw (iobase (tab s))) = [] -> unread (tab s') = unread (tab s) /\ p_in (hw (iobase (tab s'))) = []) /\
  (forall r, is_resource r -> waiting (sys s') r = [] \/ waiting (sys s') r = waiting (sys s) r).

Lemma pulse_run s :
  tty_inv (tab s) (sys s) -> may_enter (tab s) (cpu_of s) ->
  wp pulse (fun _ s' => drained s s' /\ (write_count (tab s') < write_count (tab s) \/ write_count (tab s') = 0)) s.
Proof.
  intros Hinv He. destruct s as [t k]. cbn [tab sys] in *. unfold pulse. apply wp_bind, wp_on_tab, wp_modify. cbn [tab sys].
  set (t0 := if p_busy (hw (iobase t)) then with_io (hw_finish (iobase t)) t else t).
  assert (H0 : tty_inv t0 k /\ place t0 = place t /\ output t0 = output t /\ unread t0 = unread t /\ write_count t0 = write_count t /\
    p_in (hw (iobase t0)) = p_in (hw (iobase t)) /\ p_busy (hw (iobase t0)) = false /\ (0 < write_count t -> p_wirq (hw (iobase t0)) = true)).
  { destruct Hinv as [Hok Hsys Hen Hse Hty Hwr Hrd]. subst t0. destruct (p_busy (hw (iobase t))) eqn:Hb.
    - pose proof (hw_finished _ Hb) as Hf. unfold output. cbn. rewrite Hf. cbn. split; [|by rewrite Hen, orb_true_r].
      split; cbn; rewrite ?Hf; cbn; try done; [by destruct Hok|by rewrite Hen, orb_true_r].
    - split; [by split; rewrite ?Hb|]. do 6 (split; [done|]). intros Hc. by apply Hse. }
  destruct H0 as (Hinv0 & Hp0 & Ho0 & Hu0 & Hc0 & Hi0 & Hb0 & Hq0). destruct (place_eq _ _ Hp0) as (Hs0 & Hr0 & Hw0).
  eapply wp_mono; [apply (interrupt_run (mk_over t0 k)); [done|]|].
  { unfold may_enter in *. cbn [tab]. by rewrite Hs0. }
  intros _ [t1 k1] (Hinv1 & Hcpu1 & Hcur1 & Hp1 & Ho1 & Hle1 & Hin1 & Hu1 & _ & Hprog & _ & Hw1). cbn [tab sys] in *.
  split.
  - split; [done|]. split; [done|]. split; [done|]. cbn [tab sys]. split; [by rewrite Hp1|]. split; [by rewrite Ho1|]. split; [|done].
    rewrite <- Hi0. intros Hnil. rewrite Hu1, Hnil. by split.
  - rewrite Hc0 in *. destruct (decide (0 < write_count t)) as [Hc|].
    + left. by apply (Hprog (Hq0 Hc)).
    + right. pose proof (to_wcount _ (ti_tab _ _ Hinv1)). lia.
Qed.

Lemma drained_refl s : tty_inv (tab s) (sys s) -> drained s s.
Proof. intros Hinv. split_and!; auto. Qed.

Lemma drained_trans s1 s2 s3 : drained s1 s2 -> drained s2 s3 -> drained s1 s3.
Proof.
  intros (_ & Hcpu1 & Hcur1 & Hp1 & Ho1 & Hi1 & Hw1) (Hinv & Hcpu2 & Hcur2 & Hp2 & Ho2 & Hi2 & Hw2).
  split; [done|]. split; [congruence|]. split; [congruence|]. split; [congruence|]. split; [congruence|]. split.
  - intros Hnil. destruct (Hi1 Hnil) as [Hu Hnil2]. destruct (Hi2 Hnil2) as [Hu2 Hnil3]. split; [congruence|done].
  - intros r Hr. destruct (Hw2 r Hr) as [->| ->]; [by left|by apply Hw1].
Qed.

Lemma drained_enter s s' : drained s s' -> may_enter (tab s) (cpu_of s) -> may_enter (tab s') (cpu_of s').
Proof. intros (_ & Hcpu & _ & Hp & _). destruct (place_eq _ _ Hp) as (Hs & _). unfold may_enter. by rewrite Hcpu, Hs. Qed.

Lemma nobody_waits t k : tty_inv t k -> write_count t = 0 -> waiting k (write_buf_addr t) = [].
Proof. intros [_ _ _ _ _ Hwr _] Hz. destruct (waiting k (write_buf_addr t)); [done|]. specialize (Hwr ltac:(done)). lia. Qed.

Lemma pulses_run n s :
  tty_inv (tab s) (sys s) -> may_enter (tab s) (cpu_of s) -> write_count (tab s) <= Z.of_nat n ->
  wp (pulses n) (fun _ s' => drained s s' /\ write_count (tab s') = 0 /\ waiting (sys s') (write_buf_addr (tab s)) = []) s.
Proof.
  revert s. induction n as [|n IH]; intros s Hinv He Hn; cbn [pulses].
  - apply wp_ret. pose proof (to_wcount _ (ti_tab _ _ Hinv)). assert (write_count (tab s) = 0) by lia.
    split; [by apply drained_refl|]. split; [done|by apply nobody_waits].
  - apply wp_bind. eapply wp_mono; [by apply pulse_run|]. intros _ s1 [Hd Hlt].
    eapply wp_mono; [apply IH; [apply Hd|by apply (drained_enter s)|]|].
    + pose proof (to_wcount _ (ti_tab _ _ Hinv)). destruct Hlt; lia.
    + intros _ s2 (Hd2 & Hc & Hw). split; [by apply (drained_trans _ s1)|]. split; [done|].
      destruct Hd as (_ & _ & _ & Hp & _). destruct (place_eq _ _ Hp) as (_ & _ & Ha). by rewrite Ha in Hw.
Qed.
End facts.
