(* ===== verification/TtyTheorems.v ===== *)
(** * The terminal: nothing typed or written is lost, nobody waits in vain *)
From S2P Require Import Prelude Libc Cpu Ring Waiting Thread Sleepq Semaphore ThreadSys Tty.

(** ** The properties *)
Section theorems.
Context {D K : Type} `{!TtyHardware D, !HasCpu K, !Symbols, SQ : !SleepQueues K}.
Implicit Types s : over (tty_real_device_t D) K.

(** What [tty_init] sets up, with interrupts for output switched on and no
    thread waiting. *)
Lemma tty_init_inv addr lock rbuf wbuf (d : D) (k : K) :
  zlen rbuf = TTY_BUF_SIZE -> zlen wbuf = TTY_BUF_SIZE -> 0 < addr -> addr + 2060 < 4294967296 ->
  lock <> sleepq_slock -> lock <> thread_table_slock -> sq_ok k -> waiting k (addr + 4) = [] -> waiting k (addr + 2060) = [] ->
  p_wirqe (hw d) = true -> (p_in (hw d) <> [] -> p_rirq (hw d) = true) ->
  tty_inv (tty_init_real addr lock rbuf wbuf d) k.
Proof.
  intros. by split.
Qed.

(** Claim C23. However the terminal's interrupts, the keys typed, the threads
    that write, read, sleep and are woken, and the rest of the kernel
    interleave: what the terminal shows, followed by what the buffer still
    holds, is what it was plus the characters the writers passed on, in the
    order in which they did.  And as long as what has been typed fits into the
    buffer of 2048, what the readers have taken, followed by what can still be
    read, is what could be read before plus the characters typed, in order.
    In every state nobody waits to write unless characters are left to show, or
    to read unless there are none, and the interrupt that will end the wait
    is due. *)
Theorem terminal_streams (P : over (tty_real_device_t D) K -> Prop) s tr s' :
  tty_inv (tab s) (sys s) -> tty_run P s tr s' ->
  tty_inv (tab s') (sys s') /\
  output (tab s') = output (tab s) ++ bytes (mjoin (wrote <$> tr)) /\
  ((forall s, P s -> roomy s) -> input (tab s) ++ mjoin (typed <$> tr) = mjoin (took <$> tr) ++ input (tab s')).
Proof. apply tty_run_ok. Qed.

(** The handler always returns, takes all that has been typed and
    wakes the readers if that is anything, writes at least one character if
    the terminal is ready and wakes the writers when none is left.  [tty_write]
    returns [len] when it has put all characters behind those of other
    writers, or sleeps, having put some; it goes on from there when it is
    woken.  [tty_read] returns the first characters that can be read, [len] at
    most, or sleeps when there are none.  Interrupts and spinlocks are
    afterwards as they were before; a thread that sleeps holds none. *)
Theorem tty_calls_correct s :
  tty_inv (tab s) (sys s) -> may_enter (tab s) (cpu_of s) ->
  wp tty_interrupt_handle (fun _ s' => interrupt_done s s') s /\
  (may_sleep (sys s) ->
    (forall buf len, len <= zlen buf ->
      wp (tty_write buf len) (write_done buf len 0 (status (cpu_of s)) (held (cpu_of s)) s) s) /\
    (forall len, wp (tty_read len) (fun a s' => a.1 = status (cpu_of s) /\
      read_done len (status (cpu_of s)) (held (cpu_of s)) s a.2 s') s) /\
    forall st, is_u32 st -> status (cpu_of s) = Z.land 0xffff00fe st ->
      (forall buf len i, len <= zlen buf -> 0 <= i < len ->
        wp (tty_write_resume buf len i st) (write_done buf len i st (held (cpu_of s)) s) s) /\
      (forall len, wp (tty_read_resume len st) (fun a s' => a.1 = st /\ read_done len st (held (cpu_of s)) s a.2 s') s)).
Proof.
  intros Hinv He. split; [by apply interrupt_run|]. intros Hm.
  split; [intros; by apply tty_write_run|]. split; [intros; by apply tty_read_run|].
  intros st Hst Hs. split; [intros; by apply tty_write_resume_run|].
  intros len. apply wp_bind. eapply wp_mono; [by apply (read_attempt_run len st)|]. intros r s' Hr. by apply wp_ret.
Qed.

(** The test for a full buffer lets one character too many in: when 2048
    characters wait to be read and another is typed, the first of them is gone
    and the new one is read twice. *)
Theorem tty_overflow s w :
  tty_inv (tab s) (sys s) -> may_enter (tab s) (cpu_of s) -> read_count (tab s) = TTY_BUF_SIZE -> p_in (hw (iobase (tab s))) = [w] ->
  wp tty_interrupt_handle (fun _ s' => unread (tab s') = char_of_word w :: tail (unread (tab s)) ++ [char_of_word w]) s.
Proof.
  intros Hinv He Hc Hin. eapply wp_mono; [by apply interrupt_run|].
  intros _ s' (_ & _ & _ & _ & _ & _ & _ & -> & _). rewrite Hin. cbn. unfold accept. rewrite length_unread by apply Hinv.
  by rewrite Hc.
Qed.
End theorems.

(** ** The driver as the terminal of the system calls

    The calls as one thread sees them: while it sleeps in a write the terminal
    shows what there is and the thread is chosen again. *)
Section terminal.
Context {D K : Type} `{!TtyHardware D, !HasCpu K, !Symbols, SQ : !SleepQueues K}.
Abbreviation state := (over (tty_real_device_t D) K).
Implicit Types s : state.

Definition whole_read (buf : list Z) (len : Z) : M state (Z * list Z) :=
  '(_, r) ← tty_read len;
  match r with Some cs => mret (zlen cs, splice buf 0 cs) | None => fail Blocked end.
Fixpoint finish_write (n : nat) (buf : list Z) (len : Z) (r : progress) : M state Z :=
  match r, n with
  | Returned j, _ => mret j
  | Asleep i st, O => fail Timeout
  | Asleep i st, S n =>
      t ← on_tab (gets id);
      _ ← pulses (Z.to_nat (write_count t));
      r ← tty_write_resume buf len i st;
      finish_write n buf len r
  end.
Definition whole_write (buf : list Z) (len : Z) : M state Z :=
  r ← tty_write buf len; finish_write (Z.to_nat len) buf len r.

(** The calling thread sleeps for nothing but its turn to write. *)
Definition asleep_writing s : Prop :=
  cur_of s <> 0 /\ forall r, is_resource r -> r <> write_buf_addr (tab s) -> cur_of s ∉ waiting (sys s) r.

Definition after_write (buf : list Z) (len st : Z) (h : gset Z) s (r : progress) : Prop :=
  tty_inv (tab s) (sys s) /\ p_in (hw (iobase (tab s))) = [] /\
  match r with
  | Returned j => j = Z.max 0 len /\ cpu_of s = mk_cpu st h /\ may_sleep (sys s)
  | Asleep i st' => 0 <= i < len /\ st' = st /\ cpu_of s = mk_cpu (Z.land 0xffff00fe st) h /\ asleep_writing s
  end.

Lemma write_done_after buf len i st h s r s' :
  may_sleep (sys s) -> 0 <= i -> p_in (hw (iobase (tab s))) = [] -> write_done buf len i st h s r s' -> after_write buf len st h s' r.
Proof.
  intros [Hc0 Hnw] Hi Hnil (Hinv & Hcur & Hp & _ & _ & Hin & _ & Hr). split; [done|]. split; [by rewrite Hin|].
  destruct (place_eq _ _ Hp) as (_ & _ & Ha). destruct r as [j|j st'].
  - destruct Hr as (-> & Hcpu & Hw). split; [done|]. split; [done|]. split; cbn [cur_of SleepQueues_over] in Hcur; rewrite Hcur; [done|].
    intros q Hq. rewrite Hw. by apply Hnw.
  - destruct Hr as (Hj & -> & Hcpu & Hw). split; [lia|]. split; [done|]. split; [done|].
    split; cbn [cur_of SleepQueues_over] in *; rewrite Hcur; [done|]. intros q Hq Hne. rewrite Hw by done.
    rewrite Ha in Hne. rewrite (proj2 (Z.eqb_neq _ _)) by done. by apply Hnw.
Qed.

Definition enterable s (h : gset Z) : Prop :=
  slock (tab s) ∉ h /\ sleepq_slock ∉ h /\ thread_table_slock ∉ h.

Lemma finish_write_run n buf len st h s r :
  after_write buf len st h s r -> is_u32 st -> enterable s h -> len <= zlen buf ->
  match r with Asleep i _ => len - i <= Z.of_nat n | _ => True end ->
  wp (finish_write n buf len r) (fun a s' => a = Z.max 0 len /\ tty_inv (tab s') (sys s') /\ p_in (hw (iobase (tab s'))) = [] /\
    cpu_of s' = mk_cpu st h /\ may_sleep (sys s') /\ place (tab s') = place (tab s) /\ unread (tab s') = unread (tab s) /\
    output (tab s') = output (tab s) ++ bytes (chars buf (reached r) (Z.max 0 len))) s.
Proof.
  revert s r. induction n as [|n IH]; intros s [j|i st'] (Hinv & Hnil & Hr) Hst (Hl & Hl1 & Hl2) Hlen Hn; cbn [finish_write reached].
  1, 3: apply wp_ret; destruct Hr as (-> & Hcpu & Hms); rewrite chars_nil, app_nil_r by lia; by split_and!.
  { lia. }
  destruct Hr as (Hi & -> & Hcpu & Hc0 & Hnw). apply wp_bind, wp_on_tab, wp_gets. cbn [id].
  apply wp_bind. pose proof (to_wcount _ (ti_tab _ _ Hinv)) as Hwc. destruct s as [t k]. cbn [tab sys] in *.
  eapply wp_mono.
  { apply pulses_run; cbn [tab sys]; [done| |lia]. rewrite Hcpu. split; [|by split]. apply is_u32_land; [vm_check|apply Hst]. }
  intros _ s1 (Hd & Hc1 & Hw1). pose proof Hd as (Hinv1 & Hcpu1 & Hcur1 & Hp1 & Ho1 & Hi1 & Hall1). cbn [tab sys cur_of SleepQueues_over] in *.
  destruct (Hi1 Hnil) as [Hu1 Hnil1]. destruct (place_eq _ _ Hp1) as (Hs1 & _ & Ha1).
  assert (Hms1 : may_sleep (sys s1)).
  { split; [by rewrite Hcur1|]. intros r Hr. rewrite Hcur1. destruct (decide (r = write_buf_addr t)) as [->|Hne].
    - rewrite Hw1. apply not_elem_of_nil.
    - destruct (Hall1 r Hr) as [->| ->]; [apply not_elem_of_nil|by apply Hnw]. }
  assert (He1 : may_enter (tab s1) (cpu_of s1)).
  { rewrite Hcpu1, Hcpu. split; [|split; cbn [held]; by rewrite ?Hs1]. apply is_u32_land; [vm_check|apply Hst]. }
  apply wp_bind. eapply wp_mono; [apply tty_write_resume_run; try done; by rewrite Hcpu1, Hcpu|].
  intros r s2 Hdone. pose proof (write_done_after buf len i st _ _ _ _ Hms1 (proj1 Hi) Hnil1 Hdone) as Haf.
  rewrite Hcpu1, Hcpu in Hdone, Haf. cbn [held] in Hdone, Haf.
  destruct Hdone as (Hinv2 & Hcur2 & Hp2 & Hrd2 & Ho2 & _ & Hprog & Hres). specialize (Hprog Hc1 ltac:(lia)).
  destruct (place_eq _ _ Hp2) as (Hs2 & _).
  eapply wp_mono; [apply IH; [done|done|unfold enterable; by rewrite Hs2, Hs1|done|]|].
  { destruct r; [done|]. cbn in Hprog. lia. }
  intros a s3 (Ha & Hinv3 & Hin3 & Hcpu3 & Hms3 & Hp3 & Hu3 & Ho3).
  split; [done|]. split; [done|]. split; [done|]. split; [done|]. split; [done|]. split; [by rewrite Hp3, Hp2|]. split.
  - rewrite Hu3, <- Hu1. unfold unread. injection Hrd2 as Hb1 Hb2 Hb3 _ _. by rewrite Hb1, Hb2, Hb3.
  - rewrite Ho3, Ho2, Ho1, <- app_assoc. f_equal. unfold bytes. rewrite <- fmap_app. f_equal. symmetry. apply chars_app; [lia|].
    destruct r; cbn [reached] in *; [|lia]. destruct Hres as (-> & _). lia.
Qed.

(** Nobody else uses the terminal, and all that was typed is in the buffer. *)
Record terminal_ok s : Prop := {
  tk_inv : tty_inv (tab s) (sys s);
  tk_enter : may_enter (tab s) (cpu_of s);
  tk_sleep : may_sleep (sys s);
  tk_typed : p_in (hw (iobase (tab s))) = []
}.

Lemma bytes_id cs : Forall is_byte cs -> bytes cs = cs.
Proof. induction 1 as [|c cs Hc _ IH]; [done|]. unfold bytes in *. cbn. rewrite IH. f_equal. by apply Z.mod_small. Qed.

Lemma whole_read_run s buf n : terminal_ok s -> unread (tab s) <> [] -> 0 <= n <= zlen buf ->
  wp (whole_read buf n) (fun a s' => let r := Z.min n (zlen (unread (tab s))) in
    a = (r, splice buf 0 (take (Z.to_nat r) (unread (tab s)))) /\ terminal_ok s' /\
    unread (tab s') = drop (Z.to_nat r) (unread (tab s)) /\ output (tab s') = output (tab s)) s.
Proof.
  intros [Hinv He Hms Hnil] Hu Hn. unfold whole_read. apply wp_bind. eapply wp_mono; [by apply tty_read_run|].
  intros [st r] s' [Hst Hd]. cbn [fst snd] in *. destruct (read_done_took _ _ _ _ _ _ Hd) as (_ & Ho & _).
  destruct Hd as (Hinv' & Hcur & Hp & _ & Hin & Hr). destruct r as [cs|]; [|by destruct Hr as (? & _)].
  destruct Hr as (_ & -> & Hu' & Hcpu & Hw). apply wp_ret. cbn zeta.
  assert (Hk : forall (l : list Z), zlen (take (Z.to_nat n) l) = Z.min n (zlen l)) by (intros l; rewrite length_take; lia).
  assert (Ht : take (Z.to_nat n) (unread (tab s)) = take (Z.to_nat (Z.min n (zlen (unread (tab s))))) (unread (tab s))).
  { destruct (Z.le_gt_cases n (zlen (unread (tab s)))); [f_equal; lia|]. rewrite !take_ge by lia. done. }
  split; [rewrite Hk; by f_equal; rewrite <- Ht|]. split; [|split; [|done]].
  - destruct (place_eq _ _ Hp) as (Hs & _). split; [done| | |by rewrite Hin].
    + unfold may_enter in *. rewrite Hcpu, Hs. by destruct (cpu_of s).
    + destruct Hms as [Hc Hq]. cbn [cur_of SleepQueues_over] in Hcur. split; rewrite Hcur; [done|]. intros q Hr. rewrite Hw. by apply Hq.
  - rewrite Hu'. destruct (Z.le_gt_cases n (zlen (unread (tab s)))); [f_equal; lia|]. rewrite !drop_ge by lia. done.
Qed.

Lemma whole_write_run s buf n : terminal_ok s -> 0 <= n <= zlen buf -> Forall is_byte buf ->
  wp (whole_write buf n) (fun a s' => a = n /\ terminal_ok s' /\ unread (tab s') = unread (tab s) /\
    output (tab s') = output (tab s) ++ take (Z.to_nat n) buf) s.
Proof.
  intros [Hinv He Hms Hnil] Hn Hb. unfold whole_write. apply wp_bind. eapply wp_mono; [apply tty_write_run; try done; lia|].
  intros r s1 Hd. pose proof (write_done_after buf n 0 _ _ _ _ _ Hms (Z.le_refl 0) Hnil Hd) as Haf.
  destruct Hd as (_ & _ & Hp & Hrd & Ho & _ & _ & Hres). destruct (place_eq _ _ Hp) as (Hs & _). pose proof He as (Hst & Hl & Hl1 & Hl2).
  eapply wp_mono; [apply (finish_write_run _ _ _ _ _ _ _ Haf); [done|unfold enterable; by rewrite Hs|lia|]|].
  { destruct r; [done|]. lia. }
  intros a s2 (-> & Hinv2 & Hin2 & Hcpu2 & Hms2 & Hp2 & Hu2 & Ho2). rewrite Z.max_r in * by lia. split; [done|].
  destruct (place_eq _ _ Hp2) as (Hs2 & _).
  split; [split; try done; unfold may_enter; by rewrite Hcpu2, Hs2, Hs|]. split.
  - rewrite Hu2. unfold unread. injection Hrd as Hb1 Hb2 Hb3 _ _. by rewrite Hb1, Hb2, Hb3.
  - assert (Hj : 0 <= reached r <= n) by (destruct r; cbn [reached]; destruct Hres as (? & _); lia).
    rewrite Ho2, Ho, <- app_assoc. f_equal. unfold bytes. rewrite <- fmap_app, <- chars_app by lia.
    unfold chars, slice. rewrite drop_0, Z.sub_0_r. apply bytes_id. by apply Forall_take.
Qed.

#[export] Instance tty_terminal : Terminal state := {|
  gcd_read := whole_read;
  gcd_write := whole_write;
  tm_ok := terminal_ok;
  tm_typed s := unread (tab s);
  tm_written s := output (tab s);
  gcd_read_law s buf n := whole_read_run s buf n;
  gcd_write_law s buf n := whole_write_run s buf n
|}.
(** Output goes on until the end by itself: after as many rounds
    of "the terminal has shown its character, its interrupt is handled" as the
    buffer holds characters, everything that was written is shown, in order,
    the buffer is empty and no writer waits.  So a thread that writes any number
    of characters, however often it has to wait for the buffer, has in the end
    passed on all of them, in order and behind what was written before. *)
Theorem tty_drains n s :
  tty_inv (tab s) (sys s) -> may_enter (tab s) (cpu_of s) -> write_count (tab s) <= Z.of_nat n ->
  wp (pulses n) (fun _ s' => p_out (hw (iobase (tab s'))) = output (tab s) /\ write_count (tab s') = 0 /\
    waiting (sys s') (write_buf_addr (tab s)) = []) s /\
  (may_sleep (sys s) -> p_in (hw (iobase (tab s))) = [] -> forall buf len, 0 <= len <= zlen buf -> Forall is_byte buf ->
    wp (whole_write buf len) (fun a s' => a = len /\ output (tab s') = output (tab s) ++ take (Z.to_nat len) buf /\
      unread (tab s') = unread (tab s)) s).
Proof.
  intros Hinv He Hn. split.
  - eapply wp_mono; [by apply pulses_run|]. intros _ s' ((_ & _ & _ & _ & <- & _) & Hc & Hw).
    split; [|done]. unfold output, unsent. by rewrite Hc, ring_none, app_nil_r.
  - intros Hms Hnil buf len Hlen Hb. eapply wp_mono; [by apply whole_write_run|]. by intros a s' (-> & _ & Hu & Ho).
Qed.
End terminal.

(** ** A terminal *)
#[export] Instance port_terminal : TtyHardware port.
Proof.
  refine {|
    io_status p := (if p_in p is [] then 0 else 1) + (if p_busy p then 2 else 0) + (if p_rirq p then 4 else 0) + (if p_wirq p then 8 else 0);
    io_take p := match p_in p with
      | [] => (0, p)
      | w :: ws => (w, mk_port ws (p_out p) (p_busy p) (p_rirq p) (p_wirq p) (p_wirqe p))
      end;
    io_put w p := if p_busy p then p else mk_port (p_in p) (p_out p ++ [w mod 256]) true (p_rirq p) (p_wirq p) (p_wirqe p);
    io_command c p := mk_port (p_in p) (p_out p) (p_busy p)
      (if c =? TTY_COMMAND_RIRQ then false else p_rirq p) (if c =? TTY_COMMAND_WIRQ then false else p_wirq p)
      (if c =? TTY_COMMAND_WIRQE then true else if c =? TTY_COMMAND_WIRQD then false else p_wirqe p);
    hw p := p;
    hw_finish p := mk_port (p_in p) (p_out p) false (p_rirq p) (p_wirq p || p_wirqe p) (p_wirqe p)
  |}.
  1-4: by intros [[] ? [] [] [] []].
  - intros [[] ? [] [] [] []] Hr; try discriminate Hr; by split.
  - by intros [].
  - intros []. by eexists.
  - by intros [].
  - intros [] w ws Hin. cbn in *. subst. by eexists.
  - intros [] w Hb. cbn in *. subst. cbn. by do 2 eexists.
  - by intros [].
Defined.

(** ** Runs over the kernel of [Sleepq.v] *)
#[local] Existing Instance example_symbols.
#[local] Existing Instance example_layout.

(** A terminal nobody has used yet, with its data at 0x80030000. *)
Definition new_tty : over (tty_real_device_t port) kernel :=
  mk_over (tty_init_real 0x80030000 0x80020018 (replicate 2048 0) (replicate 2048 0) (mk_port [] [] false false false true)) waiting_kernel.

Lemma new_tty_inv : tty_inv (tab new_tty) (sys new_tty).
Proof.
  apply tty_init_inv; try done. destruct waiting_kernel_ok. by exists [], [], waiting_lists, 1.
Qed.

Lemma waiting_may_enter (t : tty_real_device_t port) : slock t = 0x80020018 -> may_enter t (cpu_of waiting_kernel).
Proof. intros Hl. unfold may_enter. rewrite Hl. split; [vm_check|]. split; [|split]; apply not_elem_of_empty. Qed.

Lemma waiting_may_sleep : may_sleep waiting_kernel.
Proof. split; [discriminate|]. intros r _. apply running_not_waiting. Qed.

(** A thread writes "hi"; a key is pressed; the terminal has shown the first
    character; its interrupt; the thread reads. *)
Definition tty1 := after (tty_write [104; 105] 2) new_tty.
Definition type_key (w : Z) (t : tty_real_device_t port) : port :=
  let p := iobase t in mk_port (p_in p ++ [w]) (p_out p) (p_busy p) true (p_wirq p) (p_wirqe p).
Definition tty2 := mk_over (with_io (type_key 120 (tab tty1)) (tab tty1)) (sys tty1).
Definition shown (t : tty_real_device_t port) : port :=
  let p := iobase t in mk_port (p_in p) (p_out p) false (p_rirq p) (p_wirq p || p_wirqe p) (p_wirqe p).
Definition tty3 := mk_over (with_io (shown (tab tty2)) (tab tty2)) (sys tty2).
Definition tty4 := after tty_interrupt_handle tty3.
Definition tty5 := after (tty_read 10) tty4.

Example tty_runs :
  p_out (iobase (tab tty1)) = [104] /\ unsent (tab tty1) = [105] /\ p_out (iobase (tab tty4)) = [104; 105] /\
  unread (tab tty4) = [120] /\ unread (tab tty5) = [].
Proof. vm_compute. done. Qed.

Lemma terminal_streams_witness :
  exists s', tty_run roomy new_tty [Wrote [104; 105]; Device (Some 120); Device None; Other; Took [120]] s' /\
    output (tab s') = [104; 105] /\ input (tab s') = [].
Proof.
  assert (H1 : tty_step new_tty (Wrote [104; 105]) tty1).
  { apply (step_write new_tty [104; 105] 2 (Returned 2) tty1); [by apply waiting_may_enter|apply waiting_may_sleep|discriminate|].
    vm_compute. reflexivity. }
  assert (H2 : tty_step tty1 (Device (Some 120)) tty2) by (apply (step_terminal tty1 (Some 120)), hw_typed).
  assert (H3 : tty_step tty2 (Device None) tty3) by (apply (step_terminal tty2 None), hw_shown; vm_compute; reflexivity).
  assert (H4 : tty_step tty3 Other tty4).
  { apply (step_interrupt tty3 tty4); [by apply (waiting_may_enter (tab tty3))|vm_compute; reflexivity]. }
  assert (H5 : tty_step tty4 (Took [120]) tty5).
  { apply (step_read tty4 10 0x1000ff01 (Some [120]) tty5); [by apply (waiting_may_enter (tab tty4))|apply waiting_may_sleep|].
    vm_compute. reflexivity. }
  assert (Hrun : tty_run roomy new_tty [Wrote [104; 105]; Device (Some 120); Device None; Other; Took [120]] tty5).
  { apply (run_cons _ _ _ tty1); [vm_check|exact H1|]. apply (run_cons _ _ _ tty2); [vm_check|exact H2|].
    apply (run_cons _ _ _ tty3); [vm_check|exact H3|]. apply (run_cons _ _ _ tty4); [vm_check|exact H4|].
    apply (run_cons _ _ _ tty5); [vm_check|exact H5|apply run_nil]. }
  exists tty5. split; [exact Hrun|].
  destruct (terminal_streams roomy new_tty _ tty5 new_tty_inv Hrun) as (_ & Hout & Hin).
  split; [exact Hout|]. specialize (Hin (fun s Hs => Hs)).
  apply (app_inv_head [120]). symmetry. exact Hin.
Defined.

Lemma tty_calls_correct_witness :
  wp (tty_write [104; 105] 2) (fun r s' => exists j, r = Returned j /\ j = 2 /\ output (tab s') = [104; 105]) new_tty.
Proof.
  destruct (tty_calls_correct new_tty) as [_ Hcalls].
  - apply new_tty_inv.
  - by apply waiting_may_enter.
  - destruct (Hcalls waiting_may_sleep) as [Hw _].
    assert (Hr : wp (tty_write [104; 105] 2) (fun r s' => r = Returned 2) new_tty) by (vm_compute; reflexivity).
    eapply wp_mono; [eapply wp_and; [exact Hr|apply (Hw [104; 105] 2); discriminate]|].
    intros r s' [Hr2 (_ & _ & _ & _ & Hout & _)]. exists 2. split; [exact Hr2|]. split; [reflexivity|].
    rewrite Hr2 in Hout. exact Hout.
Defined.

Lemma tty_drains_witness :
  wp (pulses 1) (fun _ s' => p_out (iobase (tab s')) = [104; 105]) tty1.
Proof.
  eapply wp_mono.
  - refine (proj1 (tty_drains 1 tty1 _ _ _)).
    + assert (Hr : tty_write [104; 105] 2 new_tty = Ret (Returned 2, tty1)) by (vm_compute; reflexivity).
      pose proof (tty_write_run [104; 105] 2 new_tty new_tty_inv (waiting_may_enter (tab new_tty) eq_refl) waiting_may_sleep ltac:(done)) as Hw.
      unfold wp in Hw. rewrite Hr in Hw. apply Hw.
    + by apply (waiting_may_enter (tab tty1)).
    + vm_check.
  - intros _ s' [Hout _]. etransitivity; [exact Hout|]. vm_compute. reflexivity.
Defined.
