(* ===== verification/Exceptions.v ===== *)
(** * kernel/exception.c, proc/exception.c: exceptions

    What the processor's exceptions do to the thread that caused them.  A miss
    in the translation buffer is repaired from the page table of the thread or
    ends its process; a system call is handled; every other exception ends the
    process, or stops the kernel if it happened there. *)
From S2P Require Import Prelude Bitmap Libc Cpu Kmalloc Pagepool Semaphore Gbd Sync Tfs Vfs Mount Handles.
From S2P Require Import Waiting Thread Sleepq LockCond Kthreads Vm Tlb Space Frames User ThreadSys Bytes Elf Process Lifecycle Syscall SyscallTheorems Start Loading Arguments Starting Heap Dispatch.

(** ** The code *)
Definition EXCEPTION_TLBM : Z := 1.
Definition EXCEPTION_TLBL : Z := 2.
Definition EXCEPTION_TLBS : Z := 3.
Definition EXCEPTION_ADDRL : Z := 4.
Definition EXCEPTION_ADDRS : Z := 5.
Definition EXCEPTION_BUSI : Z := 6.
Definition EXCEPTION_BUSD : Z := 7.
Definition EXCEPTION_SYSCALL : Z := 8.
Definition EXCEPTION_BREAK : Z := 9.
Definition EXCEPTION_RESVI : Z := 10.
Definition EXCEPTION_COPROC : Z := 11.
Definition EXCEPTION_AOFLOW : Z := 12.
Definition EXCEPTION_TRAP : Z := 13.
Definition PROCESS_EXIT_STATUS_EXCEPTION_ADDRL : Z := 653013.
Definition PROCESS_EXIT_STATUS_EXCEPTION_ADDRS : Z := 653014.
Definition PROCESS_EXIT_STATUS_EXCEPTION_BUSI : Z := 653015.
Definition PROCESS_EXIT_STATUS_EXCEPTION_BUSD : Z := 653016.
Definition PROCESS_EXIT_STATUS_EXCEPTION_BREAK : Z := 653017.
Definition PROCESS_EXIT_STATUS_EXCEPTION_RESVI : Z := 653018.
Definition PROCESS_EXIT_STATUS_EXCEPTION_COPROC : Z := 653019.
Definition PROCESS_EXIT_STATUS_EXCEPTION_AOFLOW : Z := 653020.
Definition PROCESS_EXIT_STATUS_EXCEPTION_TRAP : Z := 653021.
Definition PROCESS_EXIT_STATUS_EXCEPTION_UNKNOWN : Z := 653022.

Definition interrupt_clear_EXL {S} `{!HasCpu S} : M S unit :=
  modify (fun s => set_status (Z.land (status (cpu_of s)) 0xfffffffd) s).
Definition interrupt_set_EXL {S} `{!HasCpu S} : M S unit :=
  modify (fun s => set_status (Z.lor (status (cpu_of s)) 0x00000002) s).

Section code.
Context {L F T : Type} `{!HasCpu L, !ThreadSys L, !ChildThreads L, !OpenFiles F, !FileCalls F, !Terminal T, !Symbols}.
Abbreviation state := (sys L F T).

(** [thread_get_current_thread_entry()->pagetable], and what it points to. *)
Definition pagetable_of_thread : M state (option pagetable) := fun s =>
  '(p, s) ← current_pagetable s;
  if p =? 0 then Ret (None, s)
  else match vm_tables (sp_vm (ps_space (sy_proc s))) !! p with Some t => Ret (Some t, s) | None => Fail Undef end.

(** The handlers of vm/tlb.c: whether the thread goes on. *)
Definition handle_tlb (handler : option pagetable -> M tlb tlb_outcome) : M state bool :=
  t ← pagetable_of_thread;
  o ← on_memory (on_tlb (handler t));
  match o with
  | Resume => mret true
  | ExitProcess v => _ ← on_process (syscall_handle_exit EXIT_FUEL v); mret false
  | FinishThread => _ ← on_process (on_threads thread_finish); mret false
  end.

(** [random] is the row that the hardware picks, [badvaddr] the address of the
    exception. *)
Definition kernel_exception_handle (random : nat) (badvaddr exception : Z) : M state bool :=
  intr_status ← on_process interrupt_disable;
  _ ← on_process interrupt_clear_EXL;
  goes_on ← (if exception =? EXCEPTION_TLBM then handle_tlb tlb_modified_exception
             else if exception =? EXCEPTION_TLBL then handle_tlb (tlb_load_exception random badvaddr)
             else if exception =? EXCEPTION_TLBS then handle_tlb (tlb_store_exception random badvaddr)
             else kpanic);
  if goes_on : bool then
    _ ← on_process interrupt_set_EXL;
    _ ← on_process (interrupt_set_state intr_status);
    mret true
  else mret false.

(** The status with which the other exceptions end a process. *)
Definition exit_status (exception : Z) : Z :=
  if exception =? EXCEPTION_ADDRL then PROCESS_EXIT_STATUS_EXCEPTION_ADDRL
  else if exception =? EXCEPTION_ADDRS then PROCESS_EXIT_STATUS_EXCEPTION_ADDRS
  else if exception =? EXCEPTION_BUSI then PROCESS_EXIT_STATUS_EXCEPTION_BUSI
  else if exception =? EXCEPTION_BUSD then PROCESS_EXIT_STATUS_EXCEPTION_BUSD
  else if exception =? EXCEPTION_BREAK then PROCESS_EXIT_STATUS_EXCEPTION_BREAK
  else if exception =? EXCEPTION_RESVI then PROCESS_EXIT_STATUS_EXCEPTION_RESVI
  else if exception =? EXCEPTION_COPROC then PROCESS_EXIT_STATUS_EXCEPTION_COPROC
  else if exception =? EXCEPTION_AOFLOW then PROCESS_EXIT_STATUS_EXCEPTION_AOFLOW
  else if exception =? EXCEPTION_TRAP then PROCESS_EXIT_STATUS_EXCEPTION_TRAP
  else PROCESS_EXIT_STATUS_EXCEPTION_UNKNOWN.

(** The way back to the process, after the switch. *)
Definition leave_exception (o : outcome) : M state outcome :=
  match o with
  | Returned _ _ =>
      _ ← on_process interrupt_set_EXL;
      _ ← on_process interrupt_enable;
      mret o
  | _ => mret o
  end.
(** [c] is the context of the process, saved when the exception happened. *)
Definition user_exception_handle (locals : syscall_locals) (offset : Z) (random : nat) (badvaddr exception : Z) (c : context_t) : M state outcome :=
  _ ← on_process interrupt_disable;
  _ ← on_process interrupt_clear_EXL;
  let tlb handler := (goes_on ← handle_tlb handler; mret (if goes_on : bool then Returned c offset else Exited)) in
  o ← (if exception =? EXCEPTION_TLBM then tlb tlb_modified_exception
       else if exception =? EXCEPTION_TLBL then tlb (tlb_load_exception random badvaddr)
       else if exception =? EXCEPTION_TLBS then tlb (tlb_store_exception random badvaddr)
       else if exception =? EXCEPTION_SYSCALL then
         _ ← on_process interrupt_enable;
         o ← syscall_handle locals offset c;
         match o with
         | Returned _ _ => _ ← on_process interrupt_disable; mret o
         | _ => mret o
         end
       else _ ← on_process (syscall_handle_exit EXIT_FUEL (exit_status exception)); mret Exited);
  leave_exception o.
End code.

(** ** Facts *)
Section facts.
Context {L F T : Type} `{!HasCpu L, TS : !ThreadSys L, !ChildThreads L, OF : !OpenFiles F, FC : !FileCalls F, TM : !Terminal T, !Symbols, HL : !Layout}.
Abbreviation state := (sys L F T).
Implicit Types (s : state) (t : pagetable).
Abbreviation table s := (ts_table (ps_threads (sy_proc s))).

(** The translation buffer under the kernel's processor. *)
Definition buffer s : tlb := tlb_of (ps_space (sy_proc s)).
(** The access that failed is one the page table allows. *)
Definition may_retry t (exception badvaddr : Z) : bool :=
  (0x1000 <=? badvaddr) &&
  (if exception =? EXCEPTION_TLBL then allowed t (badvaddr / 4096) 0
   else if exception =? EXCEPTION_TLBS then allowed t (badvaddr / 4096) 1 else false).

(** The process is gone, with the status [v]. *)
Definition process_ended s s' (me : Z) t (l : list Z) (v : Z) : Prop :=
  table_wf (sy_proc s') /\ closed (ps_files (sy_proc s)) (ps_files (sy_proc s')) (filehandle (proc (sy_proc s) me)) /\
  (forall j, is_pid j -> proc (sy_proc s') j = ended_entry (sy_proc s) me v l j) /\
  space_gone (ps_space (sy_proc s)) (ps_space (sy_proc s')) (table s) t.

Definition with_cpu_sys (c : cpu) s : state := mk_sys (with_cpu c (sy_proc s)) (sy_ram s) (sy_tty s).

Lemma can_exit_cpu c (p : pstate L F) me t f :
  can_exit p me t f -> is_u32 (status c) -> held c = held (cpu_of p) ->
  can_exit (with_cpu c p) me t f /\ ts_table (ps_threads (with_cpu c p)) = ts_table (ps_threads p).
Proof.
  intros [Hwf Hts [Hpid Hme] Hd Ht Hne Hf Hsp Hh] Hst Hc.
  destruct (ts_cpu c (ps_threads p) Hts Hst Hc) as (Hok & _ & Hp & Htab & Hlk).
  split; [|done]. split; cbn [with_cpu HasCpu_pstate ps_threads ps_files ps_space process_table_lock].
  - done.
  - done.
  - by rewrite Hp.
  - by rewrite Hlk.
  - by rewrite Hlk.
  - done.
  - done.
  - cbn [cpu_of HasCpu_pstate ps_threads]. rewrite cpu_of_with, Htab. rewrite <- (with_cpu_with c (cpu_of p)).
    apply space_ok_cpu; [done|done|]. rewrite Hc. by rewrite cpu_of_with.
  - done.
Qed.

Lemma child_chain_same (p p' : pstate L F) h l : process_table p' = process_table p -> child_chain p h l -> child_chain p' h l.
Proof.
  intros Hp. revert h. induction l as [|x l IH]; intros h; [done|]. intros (-> & Hx & Hl). split; [done|]. split; [done|].
  unfold proc. rewrite Hp. by apply IH.
Qed.

(** The processor after the entry of a handler. *)
Definition entered (c : cpu) : cpu := mk_cpu (Z.land (Z.land 0xffff00fe (status c)) 0xfffffffd) (held c).

Lemma handler_entry_run {A} s (k : Z -> M state A) (Q : A -> state -> Prop) :
  wp (k (status (cpu_of (sy_proc s)))) Q (with_cpu_sys (entered (cpu_of (sy_proc s))) s) ->
  wp (st ← on_process interrupt_disable; _ ← on_process interrupt_clear_EXL; k st) Q s.
Proof.
  intros Hk. apply wp_bind, wp_on_process, wp_disable, wp_bind, wp_on_process, wp_modify.
  cbn [sy_proc]. unfold set_status. rewrite cpu_of_with, with_cpu_with. exact Hk.
Qed.

Lemma entered_u32 c : is_u32 (status c) -> is_u32 (status (entered c)).
Proof. intros Hst. cbn. rewrite Z.land_comm. apply is_u32_land; [vm_check|]. apply Z.land_nonneg. by left. Qed.

Lemma exit_run_sys s c me t f l v :
  can_exit (sy_proc s) me t f -> child_chain (sy_proc s) (last_child_pid (proc (sy_proc s) me)) l ->
  is_u32 (status c) -> held c = held (cpu_of (sy_proc s)) -> 0 <= v < 2147483648 ->
  wp (on_process (syscall_handle_exit EXIT_FUEL v)) (fun _ s' => process_ended s s' me t l v) (with_cpu_sys c s).
Proof.
  intros Hce Hl Hst Hc Hv. destruct (can_exit_cpu c _ _ _ _ Hce Hst Hc) as [Hce' Htab].
  apply wp_on_process. eapply wp_mono.
  { apply (exit_run _ me t f l EXIT_FUEL v Hce'); [by apply (child_chain_same (sy_proc s))|unfold EXIT_FUEL; lia|unfold is_i32; lia|lia]. }
  intros _ p (H1 & H2 & H3 & H4). rewrite Z.abs_eq in H3 by lia. unfold process_ended. cbn [sy_proc] in *. rewrite Htab in H4. done.
Qed.

(** The state after the row of the missing pages is written. *)
Definition refilled s (random : nat) t (badvaddr : Z) : state :=
  let p := sy_proc s in let x := ps_space p in
  mk_sys (mk_pstate (process_table p) (process_table_lock p) (ps_threads p)
      (mk_space (with_cpu (cpu_of p) (sp_vm x)) (<[random := default blank_entry (snd <$> find_pair t (badvaddr / 4096 / 2))]> (sp_rows x)) (pt_ASID t mod 2 ^ 8))
      (ps_files p)) (sy_ram s) (sy_tty s).

Definition handler_of (random : nat) (badvaddr exception : Z) : option pagetable -> M tlb tlb_outcome :=
  if exception =? EXCEPTION_TLBM then tlb_modified_exception
  else if exception =? EXCEPTION_TLBL then tlb_load_exception random badvaddr else tlb_store_exception random badvaddr.

Lemma handler_run random badvaddr exception t (x : tlb) :
  pt_ok t -> 0 <= badvaddr < 4294967296 -> exception ∈ [EXCEPTION_TLBM; EXCEPTION_TLBL; EXCEPTION_TLBS] ->
  handler_of random badvaddr exception (Some t) x =
    Ret (if may_retry t exception badvaddr then
           (Resume, mk_tlb (<[random := default blank_entry (snd <$> find_pair t (badvaddr / 4096 / 2))]> (tlb_rows x)) (pt_ASID t mod 2 ^ 8) (tlb_cpu x))
         else (ExitProcess PROCESS_EXIT_STATUS_EXCEPTION_TLBS, x)).
Proof.
  intros Hok Hb He. unfold handler_of, may_retry.
  apply elem_of_cons in He as [-> |He]; [by rewrite andb_false_r|].
  apply elem_of_cons in He as [-> |He]; [|apply list_elem_of_singleton in He as ->]; cbn [EXCEPTION_TLBL EXCEPTION_TLBS EXCEPTION_TLBM Z.eqb];
    unfold tlb_load_exception, tlb_store_exception; cbn [Pos.eqb]; unfold mbind, M_bind; rewrite fill_any_run by done; by case_bool.
Qed.

Lemma wp_on_memory_tlb {A} (m : M tlb A) (a : A) (x : tlb) s (Q : A -> state -> Prop) :
  m (tlb_of (with_cpu (cpu_of (sy_proc s)) (ps_space (sy_proc s)))) = Ret (a, x) -> tlb_cpu x = cpu_of (sy_proc s) ->
  (let p := sy_proc s in Q a (mk_sys (mk_pstate (process_table p) (process_table_lock p) (ps_threads p)
     (mk_space (with_cpu (cpu_of p) (sp_vm (ps_space p))) (tlb_rows x) (tlb_asid x)) (ps_files p)) (sy_ram s) (sy_tty s))) ->
  wp (on_memory (on_tlb m)) Q s.
Proof.
  intros Hm Hc HQ. apply wp_on_process, wp_on_space, wp_on_tlb. apply (wp_eq _ _ _ _ _ Hm). cbn [cpu_of HasCpu_space sp_vm].
  split; [by rewrite cpu_of_with|]. rewrite Hc. cbn [with_cpu HasCpu_space sp_vm]. rewrite with_cpu_with. exact HQ.
Qed.

Lemma pagetable_run s me t f (Q : option pagetable -> state -> Prop) :
  can_exit (sy_proc s) me t f -> Q (Some t) s -> wp pagetable_of_thread Q s.
Proof.
  intros Hce HQ. pose proof (ce_ts _ _ _ _ Hce) as Hts. pose proof (so_table _ _ _ (ce_space _ _ _ _ Hce)) as Ht.
  pose proof (so_vm _ _ _ (ce_space _ _ _ _ Hce)) as Hvm.
  unfold wp, pagetable_of_thread.
  assert (Hcur : wp current_pagetable (fun p s' => p = table s /\ s' = s) s).
  { apply wp_on_process. apply wp_on_threads, get_table_spec; [done|]. split; [done|]. rewrite with_threads_id. by destruct s. }
  apply wp_run in Hcur as (p & s' & -> & -> & ->). cbn. pose proof (table_not_null _ _ _ Hvm Ht) as Hne.
  rewrite (proj2 (Z.eqb_neq _ _)) by exact Hne. cbn in Ht. by rewrite Ht.
Qed.

Lemma handle_tlb_run s me t f l random badvaddr exception :
  can_exit (sy_proc s) me t f -> child_chain (sy_proc s) (last_child_pid (proc (sy_proc s) me)) l ->
  0 <= badvaddr < 4294967296 -> exception ∈ [EXCEPTION_TLBM; EXCEPTION_TLBL; EXCEPTION_TLBS] ->
  wp (handle_tlb (handler_of random badvaddr exception)) (fun goes_on s' =>
    goes_on = may_retry t exception badvaddr /\
    if goes_on : bool then s' = refilled s random t badvaddr
    else process_ended s s' me t l PROCESS_EXIT_STATUS_EXCEPTION_TLBS) s.
Proof.
  intros Hce Hl Hb He. pose proof (ce_space _ _ _ _ Hce) as Hsp. pose proof (so_vm _ _ _ Hsp) as (_ & _ & _ & Htab).
  pose proof (proj1 (Htab _ _ (so_table _ _ _ Hsp))) as Hok.
  unfold handle_tlb. apply wp_bind, (pagetable_run _ me t f); [done|]. apply wp_bind.
  set (x := tlb_of (with_cpu (cpu_of (sy_proc s)) (ps_space (sy_proc s)))).
  assert (Hx : tlb_cpu x = cpu_of (sy_proc s)) by apply cpu_of_with.
  pose proof (handler_run random badvaddr exception t x Hok Hb He) as Hrun. destruct (may_retry t exception badvaddr).
  - eapply wp_on_memory_tlb; [exact Hrun|exact Hx|]. by apply wp_ret.
  - eapply wp_on_memory_tlb; [exact Hrun|exact Hx|]. cbn zeta. apply wp_bind.
    set (s1 := mk_sys _ _ _). assert (Hce1 : can_exit (sy_proc s1) me t f).
    { destruct Hce as [H1 H2 H3 H4 H5 H6 H7 H8 H9]. split; [exact H1|exact H2|exact H3|exact H4|exact H5|exact H6|exact H7| |exact H9].
      change (space_ok (with_cpu (cpu_of (sy_proc s)) (with_cpu (cpu_of (sy_proc s)) (ps_space (sy_proc s)))) (table s) t).
      by rewrite with_cpu_with. }
    apply wp_on_process. eapply wp_mono; [apply (exit_run _ me t f l EXIT_FUEL PROCESS_EXIT_STATUS_EXCEPTION_TLBS Hce1)|].
    + by apply (child_chain_same (sy_proc s)).
    + unfold EXIT_FUEL. lia.
    + vm_check.
    + vm_check.
    + intros _ p (H1 & H2 & H3 & H4). apply wp_ret. split; [done|]. by split_and!.
Qed.

Lemma fatal_range exception : 0 <= exit_status exception < 2147483648.
Proof. unfold exit_status. repeat case_bool; vm_check. Qed.

Lemma handler_leave_run s c offset (Q : outcome -> state -> Prop) :
  Q (Returned c offset) (with_cpu_sys (mk_cpu (Z.lor 0x0000ff01 (Z.lor (status (cpu_of (sy_proc s))) 2)) (held (cpu_of (sy_proc s)))) s) ->
  wp (leave_exception (Returned c offset)) Q s.
Proof.
  intros HQ. apply wp_bind, wp_on_process, wp_modify, wp_bind, wp_on_process. unfold wp, interrupt_enable, set_status. cbn [sy_proc].
  rewrite !cpu_of_with, !with_cpu_with. exact HQ.
Qed.

(** The buffer after a miss has been repaired. *)
Lemma refilled_coherent s random t exception badvaddr :
  pt_ok t -> may_retry t exception badvaddr = true -> coherent t (buffer s) -> (random < length (tlb_rows (buffer s)))%nat ->
  tlb_translate (buffer s) (badvaddr / 4096) = None ->
  coherent t (buffer (refilled s random t badvaddr)) /\
  tlb_translate (buffer (refilled s random t badvaddr)) (badvaddr / 4096) = translate t (badvaddr / 4096).
Proof.
  intros Hok Hmay Hco Hlt Hmiss. unfold may_retry in Hmay. apply andb_prop in Hmay as [_ Hmay].
  assert (Hall : exists check, allowed t (badvaddr / 4096) check = true) by (destruct (exception =? EXCEPTION_TLBL); [by eexists|]; destruct (exception =? EXCEPTION_TLBS); [by eexists|done]).
  destruct Hall as [check Hall].
  destruct (refill_coherent t (buffer s) random _ check Hok Hco Hmiss Hall Hlt) as [[Ha Hr Hd] Htr].
  unfold buffer, refilled, tlb_of, tlb_translate, hits in *.
  cbn [sy_proc ps_space sp_rows sp_asid tlb_rows tlb_asid tlb_cpu] in *. by split.
Qed.

(** Claim C40. Any exception but a system call of a running process [me] that
    could exit ([can_exit], with the children [l]), in the state [s].  A load or store at 0x1000 or above that the page table
    allows is tried again: the registers are as they were, and so are the
    process table, the files, the memory, the page tables, the terminal and the
    translation buffer but for one row; if the buffer was coherent with the
    page table and did not translate the address, it still is and now does.
    The process runs with interrupts on behind the exception level.  Every
    other exception ends the process as if by exit: its files are closed, its
    frames are back in the pool, its children have lost their parent, the
    other entries are as exit leaves them, and the status tells the parent
    which exception it was (one status for the three of the translation
    buffer). *)
Theorem user_exception_correct s me t f l locals offset random badvaddr exception c :
  can_exit (sy_proc s) me t f -> child_chain (sy_proc s) (last_child_pid (proc (sy_proc s) me)) l ->
  0 <= badvaddr < 4294967296 -> exception <> EXCEPTION_SYSCALL ->
  wp (user_exception_handle locals offset random badvaddr exception c) (fun o s' =>
    if may_retry t exception badvaddr then
      o = Returned c offset /\ process_table (sy_proc s') = process_table (sy_proc s) /\ ps_files (sy_proc s') = ps_files (sy_proc s) /\
      sy_ram s' = sy_ram s /\ sy_tty s' = sy_tty s /\ (exists e, tlb_rows (buffer s') = <[random := e]> (tlb_rows (buffer s))) /\
      vm_tables (sp_vm (ps_space (sy_proc s'))) = vm_tables (sp_vm (ps_space (sy_proc s))) /\
      Z.testbit (status (cpu_of (sy_proc s'))) 1 = true /\ Z.land (status (cpu_of (sy_proc s'))) 0xff01 = 0xff01 /\
      (coherent t (buffer s) -> (random < length (tlb_rows (buffer s)))%nat ->
       tlb_translate (buffer s) (badvaddr / 4096) = None ->
       coherent t (buffer s') /\ tlb_translate (buffer s') (badvaddr / 4096) = translate t (badvaddr / 4096))
    else o = Exited /\ process_ended s s' me t l
      (if decide (exception ∈ [EXCEPTION_TLBM; EXCEPTION_TLBL; EXCEPTION_TLBS]) then PROCESS_EXIT_STATUS_EXCEPTION_TLBS else exit_status exception)) s.
Proof.
  intros Hce Hl Hb Hne. pose proof (ps_ready _ (ce_ts _ _ _ _ Hce)) as Hst.
  apply (handler_entry_run s (fun _ => _)). set (c1 := entered _). set (s1 := with_cpu_sys c1 s).
  assert (Hst1 : is_u32 (status c1)) by (by apply entered_u32).
  destruct (can_exit_cpu c1 _ _ _ _ Hce Hst1 eq_refl) as [Hce1 Htab1].
  assert (Hl1 : child_chain (sy_proc s1) (last_child_pid (proc (sy_proc s1) me)) l) by (by apply (child_chain_same (sy_proc s))).
  apply wp_bind. destruct (decide (exception ∈ _)) as [Hin|Hnin].
  - eapply (wp_mono _ (fun o s' => if may_retry t exception badvaddr then o = Returned c offset /\ s' = refilled s1 random t badvaddr
      else o = Exited /\ process_ended s1 s' me t l PROCESS_EXIT_STATUS_EXCEPTION_TLBS)).
    { pose proof (handle_tlb_run s1 me t f l random badvaddr exception Hce1 Hl1 Hb Hin) as Hrun. unfold handler_of in Hrun.
      apply elem_of_cons in Hin as [-> |Hin]; [|apply elem_of_cons in Hin as [-> |Hin]; [|apply list_elem_of_singleton in Hin as ->]];
        cbn [EXCEPTION_TLBM EXCEPTION_TLBL EXCEPTION_TLBS Z.eqb Pos.eqb] in *; apply wp_bind; (eapply wp_mono; [exact Hrun|]);
        intros g s2 [-> Hg]; apply wp_ret; by destruct (may_retry _ _ _). }
    intros o s2 Hres. destruct (may_retry t exception badvaddr) eqn:Hmay.
    + destruct Hres as [-> ->]. apply handler_leave_run. split; [done|]. do 4 (split; [done|]). split; [by eexists|]. split; [done|]. split; [|split].
      * cbn [with_cpu_sys sy_proc with_cpu HasCpu_pstate ps_threads cpu_of]. rewrite cpu_of_with. cbn [status].
        rewrite !Z.lor_spec. by rewrite orb_true_r.
      * cbn [with_cpu_sys sy_proc with_cpu HasCpu_pstate ps_threads cpu_of]. rewrite cpu_of_with. cbn [status].
        apply Z.bits_inj'. intros n Hn. rewrite Z.land_spec, Z.lor_spec. by destruct (Z.testbit 0xff01 n); rewrite ?andb_false_r.
      * pose proof (ce_space _ _ _ _ Hce) as Hsp. pose proof (so_vm _ _ _ Hsp) as (_ & _ & _ & Htb).
        pose proof (proj1 (Htb _ _ (so_table _ _ _ Hsp))) as Hok. intros Hco Hlt Hmiss.
        destruct (refilled_coherent s1 random t exception badvaddr Hok Hmay) as [Hco' Htr]; [done|done|done|]. by split.
    + destruct Hres as [-> Hend]. apply wp_ret. split; [done|]. unfold process_ended in *. cbn [s1 with_cpu_sys sy_proc] in Hend. by rewrite Htab1 in Hend.
  - assert (Hno : may_retry t exception badvaddr = false).
    { unfold may_retry. rewrite (proj2 (Z.eqb_neq exception EXCEPTION_TLBL)), (proj2 (Z.eqb_neq exception EXCEPTION_TLBS)), andb_false_r; [done|..];
        intros ->; apply Hnin; apply (bool_decide_unpack _); vm_compute; exact I. }
    rewrite Hno. rewrite (proj2 (Z.eqb_neq exception EXCEPTION_TLBM)), (proj2 (Z.eqb_neq exception EXCEPTION_TLBL)),
      (proj2 (Z.eqb_neq exception EXCEPTION_TLBS)), (proj2 (Z.eqb_neq exception EXCEPTION_SYSCALL)); [|done|..];
      [|intros ->; apply Hnin; apply (bool_decide_unpack _); vm_compute; exact I..].
    apply wp_bind. eapply wp_mono; [by apply (exit_run_sys s c1 me t f l); try done; apply fatal_range|].
    intros u s2 Hend. apply wp_ret, wp_ret. split; [done|exact Hend].
Qed.
End facts.

(** ** Process 1 of Lifecycle.v reads a word at an odd address *)
#[local] Existing Instance example_symbols.
#[local] Existing Instance example_layout.
#[local] Existing Instance mount_ops.
#[local] Existing Instance mount_filesystems.
#[local] Existing Instance mount_handles.
#[local] Existing Instance mount_calls.
#[local] Existing Instance toy_terminal.
#[local] Instance exception_children : ChildThreads (over lock_tables kernel) := kernel_children 0x80100000 0x80001234 0x80005678 0x80110000.

Lemma user_exception_correct_witness :
  wp (user_exception_handle some_syscall_locals 0 3 0x401001 EXCEPTION_ADDRL (call_context 0 0 0 0))
    (fun o (s' : sys (over lock_tables kernel) (vfs (mount_point ramdisk) (over semaphores kernel)) toy_tty) =>
      o = Exited /\ retval (proc (sy_proc s') 1) = 653013 /\ parent_pid (proc (sy_proc s') 2) = PROCESS_NO_PARENT_PID) a_system.
Proof.
  eapply wp_mono; [apply (user_exception_correct a_system 1 a_table 5 [2])|].
  - exact two_can_exit.
  - split; [reflexivity|]. split; [vm_check|reflexivity].
  - lia.
  - discriminate.
  - intros o s' H. change (may_retry a_table EXCEPTION_ADDRL 0x401001) with false in H. destruct H as (-> & _ & _ & Hp & _).
    split; [reflexivity|]. rewrite !Hp by vm_check. split; reflexivity.
Defined.
